(* ===== verification/_CoqProject ===== *)
-Q . S2P
Prelude.v
Chain.v
Timers.v
LsOs.v
LsBufio.v
LsConfig.v
LsParse.v
LsRoundtrip.v
LsFormat.v
LsServer.v
LsHeap.v
LsInit.v
LsRefine.v
LsClient.v
LsWorld.v
LsMain.v
LsRuns.v
KState.v
KSched.v
KBoot.v
KWait.v
KNotify.v
KBase.v
KFrame.v
KMain.v
KSignal.v
KIpc.v
KSend.v
KAsyn.v
KRecv.v
KCalls.v
KClock.v
KPriv.v
KCorrect.v
KIrq.v
KIrqTell.v
KIrqOk.v
KIrqRun.v
KIrqMain.v
KSys.v
KLife.v
KLifeOk.v
KLifeSweep.v
KLifeFree.v
KLifeDead.v
KLifeMain.v
KFork.v
Sched.v
SchedOk.v
SchedRun.v
SchedClient.v
SchedWitness.v
KGrant.v
Grants.v
GrantSpec.v
DataStore.v
DsRefine.v
DsCorrect.v
DsPublish.v
DsRequests.v
DsInit.v
DsClient.v
DsNotify.v
DsWitness.v
Sem.v
SemOk.v
SemSpec.v
SemRefine.v
SemCtl.v
SemOp.v
SemMain.v
