(* ===== verification/Prelude.v ===== *)
(** * Verification of the MINIX 3 logging server and of the kernel it runs on

    The repository is MINIX 3 with a logging server ("ls") added to the boot
    image.  The development models the server and its client library, and the
    parts of the microkernel that every server depends on: message passing,
    scheduling, the clock, signals, interrupts, privileges and grants, and how
    processes are created and removed, together with the libraries for timers and
    grants, and three more servers: the data store ("ds") and the user-space
    scheduler ("sched"), each with its client library, and the semaphores of the
    server for System V IPC ("ipc").

    ** Style of the model

    The definitions are a shallow embedding of the C sources under
    src/usr/src/minix (all file names below are relative to it), with the
    names of the source.  Code that works on state is a state-passing function
    in the monad [ST] of this file; [None] is a failed assertion, a panic or
    undefined behaviour such as following an invalid pointer, so that a theorem
    that an operation returns [Some] says that none of these happens.  Fallible
    calls return error values.  Integers are [Z] with the wrap-around written
    out where the source depends on it; pointers into a table or the heap are
    [Z] with 0 for NULL, and linked lists stay linked: links are maps from
    addresses to addresses, and walks over [**xpp] are those of [Chain].

    ** Files and the code they model

    - [Prelude]: C strings and buffers, the state monad with its rules, list
      lemmas.  [Chain]: null-terminated chains in a map of links, walking,
      inserting and removing through pointers to links.
    - [Timers]: lib/libtimers (tmrs_clr.c, tmrs_set.c, tmrs_exp.c) and
      lib/libsys/timers.c: the sorted queue of timers, the watchdog interface
      of servers and the alarm it requests.
    - [LsOs], [LsBufio], [LsConfig], [LsFormat], [LsServer]: servers/ls
      (proto.h, bufio.c, config-parse.c, log.c, requests.c, main.c), over the
      interface [LsOs] of the services of the system with the laws [LsOsLaws].
      [LsParse], [LsRoundtrip], [LsHeap], [LsInit], [LsRefine], [LsMain]: the
      proofs about them.  [LsClient]: lib/libc/sys/minix_ls.c and syscall.c.
      [LsWorld], [LsRuns]: a concrete system and runs of the server on it.
    - [KState]: the process table, privilege table, bit maps, endpoints and
      per-CPU variables (kernel/proc.h, priv.h, type.h, const.h,
      include/minix/endpoint.h).  [KSched]: enqueue, enqueue_head, dequeue,
      pick_proc of kernel/proc.c, the RTS macros, runqueues_ok_cpu of
      kernel/debug.c.  [KBoot], [KMain]: proc_init, the boot image loop of
      kernel/main.c, get_priv and the send masks of kernel/system.c.
    - [KNotify]: mini_notify, send_sig, cause_sig, sig_delay_done,
      send_diag_sig.  [KIpc]: the rest of message passing in kernel/proc.c:
      deadlock, mini_send, mini_receive, mini_senda, try_one, try_async,
      cancel_async, do_sync_ipc, do_ipc, notify_scheduler.
    - [KWait], [KBase]: the invariants of the kernel tables.  [KSignal],
      [KSend], [KAsyn], [KRecv], [KCalls]: that the operations keep them, and
      what they do.  [KCorrect]: the theorems and their instances.
    - [KClock]: kernel/clock.c and system/do_setalarm.c, do_vtimer.c,
      do_times.c, do_stime.c, do_settime.c.  [KPriv]: system/do_privctl.c.
    - [KSys]: sched_proc of kernel/system.c and system/do_schedule.c,
      do_schedctl.c, do_runctl.c, do_kill.c, do_getksig.c, do_endksig.c,
      do_exit.c.
    - [KFrame]: relations between states that look at the privilege table only.
      [KIrq]: kernel/interrupt.c, system/do_irqctl.c and the masks of
      arch/i386/i8259.c.  [KIrqTell]: who is told of an interrupt.  [KIrqOk],
      [KIrqRun]: the lists of hooks and the operations against an abstract table
      of hooks.  [KIrqMain]: interrupts, histories, and a machine with drivers.
    - [KLife]: clear_ipc, clear_endpoint and clear_ipc_refs of kernel/system.c
      and system/do_clear.c, do_fork.c, do_exec.c, do_statectl.c.  [KLifeOk]:
      leaving a queue and cancelling asynchronous messages.  [KLifeSweep]: the
      pass over the process table.  [KLifeFree]: a slot that becomes free.
      [KLifeDead], [KLifeMain]: the death of a process.  [KFork]: new processes
      and new programs.
    - [Sched]: servers/sched (schedule.c, utility.c, main.c, schedproc.h) over
      the kernel calls of [KSys] and the timers of [Timers].  [SchedOk]: the
      invariant that its table agrees with the kernel, request by request.
      [SchedRun]: the balancing of the queues and whole runs of the server.
      [SchedClient]: lib/libsys/sched_start.c, sched_stop.c, taskcall.c over the
      server.  [SchedWitness]: concrete runs, and runs that show defects.
    - [KGrant]: system/do_safecopy.c and do_setgrant.c, the check of grants and
      the copies through them.  [Grants]: lib/libsys/safecopies.c, the table of
      grants of a process, over the kernel call that registers it.
      [GrantSpec]: the abstract table of grants and its refinement.
    - [DataStore]: servers/ds (store.c, main.c, store.h).  [DsRefine]: the
      abstract store.  [DsCorrect], [DsPublish], [DsRequests], [DsInit]: the
      invariant of the tables and the refinement, request by request.
      [DsClient]: lib/libsys/ds.c over the server.  [DsNotify]: subscriptions.
      [DsWitness]: concrete runs, and runs that show defects.
    - [Sem]: the semaphores of servers/ipc (sem.c, check_perm of utility.c, the
      requests of main.c).  [SemSpec]: sets of semaphores with queues, and the
      calls on them.  [SemOk], [SemRefine], [SemCtl], [SemOp]: the lists of
      waiting processes and the calls against the specification.  [SemMain]:
      histories, exits, and runs that show defects.

    ** What is proved

    Logging server.  The parser automaton never leaves its buffers, what it
    accepts is well-formed, and it reads back printed configurations; the
    reader delivers the bytes of the file and the formatter the expansion of
    the format, cut at the end of the buffer.  For any messages and any answers
    of the system the server never follows an invalid pointer; after it is
    initialised every request does what an abstract table of loggers says, an
    open logger belongs to the process that opened it, and the library calls
    deliver what they promise end to end.

    Kernel.  From boot on the ready queues stay consistent and the process
    picked is the first of the highest non-empty queue.  In any state that
    satisfies the invariants [kinv] of the tables, a call for message passing
    ends, fails no assertion, keeps the invariants and never closes a cycle of
    waiting processes; [mini_send] and [mini_receive] do what the relations
    [sent] and [received] say; the deadlock detection ends and is exact.  A
    clock tick keeps the invariants and takes exactly the due alarms off the
    queue.  Endpoint numbers encode slot and generation injectively.

    Interrupts.  Whatever interrupts occur and whatever calls to manage hooks
    live system processes make, no panic is reached, the hooks are those of an
    abstract table, and a line is masked exactly when no process listens to it
    or one has not re-enabled it.  An interrupt reaches every process with a
    hook on the line, by a message or a pending notification that carries the
    number of the hook, and nothing told before is lost.

    Processes.  When a process is removed all invariants hold again, of message
    passing, interrupt hooks and alarms: its slot, its hooks and its alarm are
    free, whoever waited for it goes on with an error, and nothing refers to it
    any more.  A new process has another endpoint than the last process of the
    slot, waits as its parent does and has no more privileges than a user
    process if the parent has its own.  A new program gets no message that was
    meant for the old one.

    Scheduling server.  From its start on, whatever messages it gets and
    whatever else the kernel does in between, the server ends every round,
    keeps the kernel consistent and its alarm set, and agrees with the kernel on
    the priority and the quantum of each process it schedules.  A process that
    has used up its quantum gets a full new one at the next lower priority and
    no other process changes; every ring of the alarm moves it one step back
    towards its maximal priority.  The library call that hands a process to the
    server has the effect it promises in server and kernel.

    Grants.  A copy through a grant is made exactly when the chain of grants
    allows it, and between exactly the bytes it names; the library implements
    an abstract table of grants, and what that table allows is what the kernel
    accepts, whatever grants were given, revoked or moved by a growing table.

    Data store.  For requests that meet the conditions [request_ok] (which
    leave out the defects below) the server implements a map from types and
    keys to values with owners and permissions; a string published through the
    client library is read back by every process, and a subscriber is notified
    of a publication and learns its key and owner.

    Semaphores.  A history of calls and exits takes the server to the sets,
    values and queues of the specification, with the same answers in the same
    order; it fails exactly where the specification is undefined, at a queue for
    zero that was used, is empty and has the value zero.  A process that exits is
    taken out of every queue and nothing else changes.

    Timers.  Timers are kept in the order of expiration, due watchdogs run in
    that order, expiring ends when watchdogs set only later timers, and the
    alarm of a server covers its earliest timer.

    Defects.  Theorems also show where the code does not do what it means to:
    an unset tail pointer of the logger list, lost severities, 16-bit lengths,
    a deadlock detection that never ends once a process receives from itself,
    uses of freed or missing memory in the data store, a priority past the
    last ready queue that the kernel accepts, a link that stays behind when the
    receiver of two waiting senders dies, a queue of senders that a child has
    from its parent, and in the semaphores a move of memory by a negative size,
    values that wrap, processes that stay asleep and calls that end half done.

    ** Bounds and fuel

    Loops over tables are folds over the table.  Walks over linked lists have
    the number of nodes of the map plus one as fuel, and the invariants bound
    the list by it.  The deadlock walk has one unit per process slot; the
    waiting graph is acyclic, so that it never runs out.  [cause_sig] calls
    itself at most once, for the backup signal manager; its fuel is 3.  Tables
    of asynchronous messages are scanned as often as their size says; those to a
    dying process are cancelled in at most 64 rounds, one for each privilege
    structure (fuel 65).  The check of grants follows at most five indirect grants; its fuel is 7.  On one
    processor the kernel never refuses a processor, so that the loop of
    do_start_scheduling runs once (fuel 2), and the server has one timer, which
    its watchdog sets in the future (fuel 3).  A line has at most as many hooks
    as the table, 16, so that the 32 bits of the ids are enough.

    ** Assumptions and what is not modelled

    The kernel is modelled for one processor (no CONFIG_SMP) and without
    preemption inside the kernel, as in the source.  The invariant [kinv]
    speaks of a system in which every live process has a privilege structure,
    which is so once the root system process has set the privileges of the
    boot image.  Signal numbers and [SIGS_IS_LETHAL] come from C library
    headers that are not part of the sources and are parameters ([Signals],
    [SignalLaws]); user memory, the time stamp counter and what [data_copy]
    yields are parts of the state or arguments.  Clock ticks ([clock_t]) do not
    wrap.  Saved registers, process names, stack guards, the FPU, memory
    requests to VM and diagnostics output are left out.  The result of a copy
    between processes ([virtual_copy], [sys_safecopyfrom], [sys_safecopyto]),
    the block that malloc returns and the regular expressions of the C library
    are parameters or arguments of the models of grants and of the data store;
    a block is required to be new and to lie in memory, nothing else.  Between
    the messages of the scheduling server the kernel may do anything that keeps
    [kinv], the schedulers of processes and the priorities and quanta the server
    has set ([ran]); the check that a process may make a kernel call at all is
    not modelled.  Interrupts are those of the two 8259 controllers (no
    USE_APIC); the theorems are about the lines of drivers, which excludes that
    of the clock, whose hook is not in the table, and the one the second
    controller is behind.  The pool of random numbers that interrupts feed is
    left out.  The submodule lib/mini-printf of the logging server is empty in
    the repository; its formatting function is a parameter of the system
    interface.  A process that is removed is assumed not to be a kernel task, the
    process that runs or a signal manager, and at most one sender waits in the
    queues concerned (with more, a link stays behind, see above); one that forks
    is assumed to have no senders waiting for it.  The constants of the headers
    sys/ipc.h and sys/sem.h, the users and groups of processes and the answers of
    the allocator are parameters of the semaphores ([SemHeader], [SemEnv]); the
    refinement assumes that the allocator has memory, that fewer than 2^16
    processes call semop, and that none does while it waits in a queue.  Error
    numbers are names there, the identifiers of sets do not wrap, and messages
    are taken to arrive.  Shared memory (shm.c) is not modelled.

    The kernel calls that replace the state of a process (do_update, do_mcontext,
    do_sigsend, do_sigreturn) copy saved registers and stack frames, and those
    for memory, devices and tracing work on address spaces and hardware; they
    are not modelled.  Device drivers, file systems, the network stack, VM, PM,
    RS, VFS, the other servers and commands are not modelled: they are programs
    of their own, most of whose behaviour is hardware or file I/O. *)

From Stdlib Require Export ZArith Lia Ascii String.
From stdpp Require Export base tactics option gmap sets strings numbers.
From stdpp Require Export list.

#[global] Set Default Goal Selector "!".
Local Open Scope Z_scope.

(** ** Characters and C strings

    A [char] of the i386 target is a signed 8-bit integer; a character buffer
    is a list of them and a C string is the part of a buffer before its first
    NUL. *)

Declare Scope minix_scope.
Delimit Scope minix_scope with minix.

Definition sc (c : ascii) : Z :=
  let n := Z.of_N (N_of_ascii c) in if n <? 128 then n else n - 256.

Fixpoint cs (s : string) : list Z :=
  match s with
  | EmptyString => []
  | String c s' => sc c :: cs s'
  end.

Notation "'$' s" := (cs s%string) (at level 1, s at level 0) : minix_scope.
Open Scope minix_scope.

Definition NUL : Z := 0.
Definition NL : Z := 10.
Definition TAB : Z := 9.
Definition SPACE : Z := 32.

(** The C string held by a buffer. *)
Fixpoint cstr (b : list Z) : list Z :=
  match b with
  | [] => []
  | c :: b' => if c =? 0 then [] else c :: cstr b'
  end.

Definition strlen (b : list Z) : nat := length (cstr b).

(** [strcmp(a, b) == 0]. *)
Fixpoint streq (a b : list Z) : bool :=
  match a, b with
  | [], [] => true
  | x :: _, [] => x =? 0
  | [], y :: _ => y =? 0
  | x :: a', y :: b' =>
      if x =? y then (if x =? 0 then true else streq a' b') else false
  end.

(** [memcpy(dst, src, n)]: the first [n] bytes of [dst] become those of [src]. *)
Definition memcpy (dst src : list Z) (n : nat) : list Z :=
  take n src ++ drop n dst.

(** [strncpy(dst, src, n)]: the string of [src], cut at [n] bytes and padded
    with NULs up to [n] bytes. *)
Definition strncpy (dst src : list Z) (n : nat) : list Z :=
  take n (cstr src ++ replicate n 0) ++ drop n dst.

(** [memset(p, 0, n)] on a buffer of [n] bytes. *)
Definition zeros (n : nat) : list Z := replicate n 0.

(** ** Machine integers *)

Definition u16 (z : Z) : Z := z mod 2 ^ 16.
Definition u32 (z : Z) : Z := z mod 2 ^ 32.
Definition i32 (z : Z) : Z := (z + 2 ^ 31) mod 2 ^ 32 - 2 ^ 31.

(** ** Error numbers used by several components

    System processes are compiled with [_SYSTEM], which gives the error
    numbers of the C library a minus sign. *)
Definition OK : Z := 0.
Definition EIO : Z := -5.
Definition ENOMEM : Z := -12.
Definition EINVAL : Z := -22.

(** ** A state monad with undefined behaviour

    [None] stands for an execution that dereferences an invalid pointer or
    follows a cyclic list for ever. *)
Definition ST (S A : Type) : Type := S -> option (A * S).

#[global] Instance st_ret {S} : MRet (ST S) := fun A a s => Some (a, s).
#[global] Instance st_bind {S} : MBind (ST S) :=
  fun A B k m s => match m s with Some (a, s') => k a s' | None => None end.

Definition get {S} : ST S S := fun s => Some (s, s).
Definition put {S} (s : S) : ST S unit := fun _ => Some (tt, s).
Definition gets {S A} (f : S -> A) : ST S A := fun s => Some (f s, s).
Definition modify {S} (f : S -> S) : ST S unit := fun s => Some (tt, f s).
Definition ub {S A} : ST S A := fun _ => None.
Definition opt {S A} (o : option A) : ST S A :=
  fun s => match o with Some a => Some (a, s) | None => None end.

(** ** Lemmas on C strings *)

Create HintDb cstring.
Create Rewrite HintDb cstring.

Lemma cstr_app_nonul l b :
  Forall (fun c => c <> 0) l -> cstr (l ++ b) = l ++ cstr b.
Proof.
  induction 1 as [|c l Hc _ IH]; simpl; [done|].
  destruct (Z.eqb_spec c 0); [lia|]. by rewrite IH.
Qed.

Lemma cstr_app_nul l b :
  Forall (fun c => c <> 0) l -> cstr (l ++ 0 :: b) = l.
Proof. intros H. rewrite cstr_app_nonul by done. simpl. by rewrite app_nil_r. Qed.

Lemma cstr_app_end l b : cstr (l ++ 0 :: b) = cstr l.
Proof. induction l as [|c l IH]; simpl; [done|]. by rewrite IH. Qed.

Lemma cstr_nonul l : Forall (fun c => c <> 0) (cstr l).
Proof.
  induction l as [|c l IH]; simpl; [constructor|].
  destruct (Z.eqb_spec c 0); [constructor|by constructor].
Qed.

Lemma cstr_id l : Forall (fun c => c <> 0) l -> cstr l = l.
Proof. intros H. rewrite <- (app_nil_r l), cstr_app_nonul by done. simpl. by rewrite app_nil_r. Qed.

Lemma cstr_idem l : cstr (cstr l) = cstr l.
Proof. apply cstr_id, cstr_nonul. Qed.

Lemma cstr_zeros n : cstr (zeros n) = [].
Proof. by destruct n. Qed.

Lemma strlen_le l : (strlen l <= length l)%nat.
Proof.
  unfold strlen. induction l as [|c l IH]; simpl; [lia|].
  destruct (c =? 0); simpl; lia.
Qed.

Lemma strlen_app_nul l r : (strlen (l ++ 0%Z :: r) <= length l)%nat.
Proof.
  unfold strlen. induction l as [|c l IH]; simpl; [lia|]. destruct (c =? 0); simpl; lia.
Qed.

Lemma take_insert_end (l : list Z) n v :
  (n < length l)%nat -> take (n + 1) (<[n := v]> l) = take n l ++ [v].
Proof.
  intros Hn. rewrite insert_take_drop by done.
  rewrite take_app, length_take, (firstn_all2 (n := n + 1)) by (rewrite length_take; lia).
  replace (n + 1 - Nat.min n (length l))%nat with 1%nat by lia. done.
Qed.

Lemma streq_spec a b : streq a b = true <-> cstr a = cstr b.
Proof.
  revert b. induction a as [|x a IH]; intros [|y b]; simpl.
  - done.
  - destruct (Z.eqb_spec y 0); split; congruence.
  - destruct (Z.eqb_spec x 0); split; congruence.
  - destruct (Z.eqb_spec x y) as [->|Hne].
    + destruct (Z.eqb_spec y 0); [done|]. rewrite IH.
      split; [by intros ->|congruence].
    + destruct (Z.eqb_spec x 0), (Z.eqb_spec y 0); split; congruence.
Qed.

Lemma streq_false a b : streq a b = false <-> cstr a <> cstr b.
Proof. rewrite <- streq_spec. by destruct (streq a b). Qed.

Lemma streq_cstr_l a b : streq a b = streq (cstr a) b.
Proof.
  destruct (streq a b) eqn:E1, (streq (cstr a) b) eqn:E2; try done.
  - apply streq_spec in E1. apply streq_false in E2. by rewrite cstr_idem in E2.
  - apply streq_false in E1. apply streq_spec in E2. by rewrite cstr_idem in E2.
Qed.

Lemma streq_refl a : streq a a = true.
Proof. by apply streq_spec. Qed.

Lemma length_memcpy dst src n :
  (n <= length src)%nat -> (n <= length dst)%nat -> length (memcpy dst src n) = length dst.
Proof. intros. unfold memcpy. rewrite length_app, length_take, length_drop. lia. Qed.

Lemma memcpy_cstr dst src :
  (strlen src < length dst)%nat ->
  cstr (memcpy dst (cstr src ++ [0]) (strlen src + 1)) = cstr src.
Proof.
  intros _. unfold memcpy, strlen. rewrite take_ge; [|rewrite length_app; simpl; lia].
  rewrite <- app_assoc. apply cstr_app_nul, cstr_nonul.
Qed.

Lemma cstr_insert_end (l : list Z) n :
  (n < length l)%nat -> Forall (fun c => c <> 0) (take n l) ->
  cstr (<[n := 0]> l) = take n l.
Proof.
  intros Hn Hl. rewrite insert_take_drop by done.
  by apply cstr_app_nul.
Qed.

#[export] Hint Resolve cstr_nonul strlen_le streq_refl : cstring.
#[export] Hint Rewrite cstr_idem cstr_zeros : cstring.

(** ** Automation *)

(** Case analysis on the boolean integer tests of a goal. *)
Ltac zcase :=
  match goal with
  | |- context [?x =? ?y] => destruct (Z.eqb_spec x y)
  | |- context [?x <? ?y] => destruct (Z.ltb_spec x y)
  | |- context [?x <=? ?y] => destruct (Z.leb_spec x y)
  | |- context [(?x <? ?y)%nat] => destruct (Nat.ltb_spec x y)
  | |- context [(?x <=? ?y)%nat] => destruct (Nat.leb_spec x y)
  | |- context [(?x =? ?y)%nat] => destruct (Nat.eqb_spec x y)
  end.

(** Exposes the first step of a monadic definition in the goal. *)
Ltac mrun :=
  unfold mbind, st_bind, mret, st_ret, get, modify, opt; cbv beta iota.

Lemma bind_Some {S A B} (m : ST S A) (k : A -> ST S B) s r :
  (m ≫= k) s = Some r <-> exists a s', m s = Some (a, s') /\ k a s' = Some r.
Proof.
  unfold mbind, st_bind. destruct (m s) as [[a s']|].
  - split; [by eauto|]. by intros (?&?&[= <- <-]&?).
  - split; [done|]. by intros (?&?&?&?).
Qed.

Lemma bind_run {S A B} (m : ST S A) (k : A -> ST S B) s a s' :
  m s = Some (a, s') -> (m ≫= k) s = k a s'.
Proof. unfold mbind, st_bind. by intros ->. Qed.

Lemma bind_none {S A B} (m : ST S A) (k : A -> ST S B) s : m s = None -> (m ≫= k) s = None.
Proof. unfold mbind, st_bind. by intros ->. Qed.

Lemma bind_assoc {S A B C} (m : ST S A) (k : A -> ST S B) (h : B -> ST S C) s :
  ((m ≫= k) ≫= h) s = (m ≫= fun a => k a ≫= h) s.
Proof. unfold mbind, st_bind. by destruct (m s) as [[]|]. Qed.
