(* ===== verification/Chain.v ===== *)
(** Singly linked lists reached through pointers: the shape predicate, the
    pointer-to-pointer loops of the sources, and their correctness. *)

From S2P Require Import Prelude.
Local Open Scope Z_scope.

(** Links are a map from the address of a node to the address held in its
    "next" field; address 0 is NULL. *)

Section Shape.
Context (nx : Z -> option Z).

Inductive lseg : Z -> list Z -> Z -> Prop :=
| lseg_nil p : lseg p [] p
| lseg_cons p q l r : p <> 0 -> nx p = Some q -> lseg q l r -> lseg p (p :: l) r.

(** A NULL-terminated list whose nodes are, in order, [l]. *)
Definition chain (p : Z) (l : list Z) : Prop := lseg p l 0.
End Shape.

#[export] Hint Constructors lseg : core.

Lemma chain_nil_inv nx l : chain nx 0 l -> l = [].
Proof. by inversion 1. Qed.

Lemma chain_nil_head nx p : chain nx p [] -> p = 0.
Proof. by inversion 1. Qed.

Lemma chain_cons_head nx p x l : chain nx p (x :: l) -> x = p /\ p <> 0.
Proof. by inversion 1. Qed.

Lemma chain_cons_inv nx p l :
  chain nx p l -> p <> 0 -> exists q l', l = p :: l' /\ nx p = Some q /\ chain nx q l'.
Proof. inversion 1; subst; [done|]. by eauto. Qed.

Lemma lseg_app nx p l1 q l2 r : lseg nx p l1 q -> lseg nx q l2 r -> lseg nx p (l1 ++ l2) r.
Proof. induction 1; simpl; eauto. Qed.

Lemma lseg_app_inv nx p l1 l2 r :
  lseg nx p (l1 ++ l2) r -> exists q, lseg nx p l1 q /\ lseg nx q l2 r.
Proof.
  revert p. induction l1 as [|x l1 IH]; simpl; intros p H; [by eauto|].
  inversion H as [|? q ? ? Hp Hq Hr]; subst.
  destruct (IH _ Hr) as (q'&?&?). by eauto.
Qed.

Lemma lseg_ext nx nx' p l r :
  (forall x, x ∈ l -> nx x = nx' x) -> lseg nx p l r -> lseg nx' p l r.
Proof.
  intros He. induction 1 as [|p q l r Hp Hq H IH]; [done|].
  econstructor; [done| |apply IH].
  - rewrite <- He; [done|]. apply elem_of_cons; auto.
  - intros x Hx. apply He, elem_of_cons; auto.
Qed.

Lemma chain_det nx p l1 l2 : chain nx p l1 -> chain nx p l2 -> l1 = l2.
Proof.
  revert p l2. induction l1 as [|x l1 IH]; intros p l2 H1 H2.
  - inversion H1; subst. symmetry. by eapply chain_nil_inv.
  - inversion H1; subst. destruct (chain_cons_inv _ _ _ H2) as (?&?&->&?&?); [done|].
    f_equal. eapply IH; [done|]. by simplify_eq.
Qed.

Lemma chain_elem nx p l r x : lseg nx p l r -> x ∈ l -> x <> 0 /\ is_Some (nx x).
Proof.
  induction 1 as [|p q l r Hp Hq _ IH]; [by rewrite elem_of_nil|].
  rewrite elem_of_cons. intros [->|]; eauto.
Qed.

(** A suffix of a chain is the chain of its first node. *)
Lemma chain_suffix nx p l1 x l2 :
  chain nx p (l1 ++ x :: l2) -> chain nx x (x :: l2).
Proof.
  intros H. apply lseg_app_inv in H as (q&_&H). by inversion H; subst.
Qed.


Lemma chain_nodup nx p l : chain nx p l -> NoDup l.
Proof.
  unfold chain. intros H. remember 0 as z eqn:Ez.
  induction H as [|p q l r Hp Hq H IH]; [constructor|]. subst.
  constructor; [|by apply IH].
  intros Hin. apply list_elem_of_split in Hin as (l1&l2&->).
  apply lseg_app_inv in H as (q'&H1&H2).
  assert (q' = p) as -> by (by inversion H2).
  assert (Hc : chain nx p (p :: l1 ++ p :: l2)) by (econstructor; eauto using lseg_app).
  pose proof (chain_det _ _ _ _ Hc H2) as E.
  apply (f_equal length) in E. simpl in E. rewrite length_app in E. simpl in E. lia.
Qed.

(** ** Links stored in a map *)

Abbreviation links m := (fun p : Z => (m : gmap Z Z) !! p).

(** The number of nodes of a chain is bounded by the number of links: fuel
    [S (size m)] is enough for any traversal. *)
Lemma nodup_dom_length {A} (m : gmap Z A) (l : list Z) :
  NoDup l -> (forall x, x ∈ l -> is_Some (m !! x)) -> (length l <= size m)%nat.
Proof.
  intros Hnd Hdom. rewrite <- size_dom, <- (size_list_to_set (C:=gset Z) l Hnd).
  apply subseteq_size. intros x. rewrite elem_of_list_to_set, elem_of_dom. auto.
Qed.

Lemma chain_length (m : gmap Z Z) p l : chain (links m) p l -> (length l <= size m)%nat.
Proof.
  intros H. apply nodup_dom_length; [by eapply chain_nodup|].
  intros x Hx. by destruct (chain_elem _ _ _ _ _ H Hx).
Qed.

(** ** Pointer-to-pointer traversals

    The sources walk their lists with a pointer to the link under
    inspection: the head variable or the next field of a node. *)

Inductive pploc := PHead | PNext (p : Z).

Definition pp_read (h : Z) (m : gmap Z Z) (l : pploc) : option Z :=
  match l with PHead => Some h | PNext p => m !! p end.

Definition pp_write (h : Z) (m : gmap Z Z) (l : pploc) (v : Z) : Z * gmap Z Z :=
  match l with PHead => (v, m) | PNext p => (h, <[p := v]> m) end.

(** [for (xpp = loc; *xpp != NULL; xpp = &( *xpp)->next) if (stop( *xpp)) break;] *)
Fixpoint pp_walk (fuel : nat) (h : Z) (m : gmap Z Z) (stop : Z -> bool) (loc : pploc)
  : option pploc :=
  match fuel with
  | O => None
  | S f =>
      match pp_read h m loc with
      | None => None
      | Some p => if p =? 0 then Some loc
                  else if stop p then Some loc
                  else pp_walk f h m stop (PNext p)
      end
  end.

(** The location after the nodes [l1] of a list. *)
Definition loc_after (l1 : list Z) : pploc :=
  match last l1 with None => PHead | Some p => PNext p end.

Lemma loc_after_snoc l x : loc_after (l ++ [x]) = PNext x.
Proof. unfold loc_after. by rewrite last_snoc. Qed.

(** The part of a list before the first node that satisfies [stop]. *)
Fixpoint before (stop : Z -> bool) (l : list Z) : list Z :=
  match l with
  | [] => []
  | x :: l' => if stop x then [] else x :: before stop l'
  end.

Fixpoint from (stop : Z -> bool) (l : list Z) : list Z :=
  match l with
  | [] => []
  | x :: l' => if stop x then x :: l' else from stop l'
  end.

Lemma before_from stop l : before stop l ++ from stop l = l.
Proof. induction l as [|x l IH]; simpl; [done|]. destruct (stop x); simpl; congruence. Qed.

Lemma pp_walk_gen h (m : gmap Z Z) stop l1 p l2 fuel :
  (length l2 < fuel)%nat ->
  pp_read h m (loc_after l1) = Some p ->
  chain (links m) p l2 ->
  pp_walk fuel h m stop (loc_after l1) = Some (loc_after (l1 ++ before stop l2)).
Proof.
  revert l1 p fuel. induction l2 as [|x l2 IH]; intros l1 p [|fuel] Hf Hr Hc; simpl in Hf; try lia.
  - inversion Hc; subst. simpl. rewrite Hr. simpl. by rewrite app_nil_r.
  - inversion Hc as [|? q ? ? Hp Hq Hc']; subst. simpl. rewrite Hr.
    destruct (Z.eqb_spec x 0); [done|].
    destruct (stop x); [by rewrite app_nil_r|].
    rewrite <- (loc_after_snoc l1 x), (IH (l1 ++ [x]) q); [|lia|by rewrite loc_after_snoc|done].
    by rewrite <- app_assoc.
Qed.

Lemma pp_walk_spec h (m : gmap Z Z) stop l :
  chain (links m) h l ->
  pp_walk (S (size m)) h m stop PHead = Some (loc_after (before stop l)).
Proof.
  intros Hc. pose proof (chain_length _ _ _ Hc).
  apply (pp_walk_gen h m stop [] h l); [lia|done..].
Qed.

Lemma pp_read_after h (m : gmap Z Z) l1 p l2 :
  lseg (links m) h l1 p -> chain (links m) p l2 -> pp_read h m (loc_after l1) = Some p.
Proof.
  intros H1 H2. destruct l1 as [|x l1 _] using rev_ind; simpl.
  - by inversion H1.
  - rewrite loc_after_snoc. apply lseg_app_inv in H1 as (q&_&H1).
    inversion H1 as [|? ? ? ? ? Hq Hr]; subst. by inversion Hr; subst.
Qed.

(** Writing the link after [l1] replaces the rest of the list. *)
Lemma pp_write_chain h (m : gmap Z Z) l1 p v l2 :
  lseg (links m) h l1 p ->
  NoDup l1 ->
  chain (links m) v l2 ->
  (forall x, x ∈ l1 -> x ∉ l2) ->
  let '(h', m') := pp_write h m (loc_after l1) v in chain (links m') h' (l1 ++ l2).
Proof.
  intros H1 Hnd H2 Hdis. destruct l1 as [|x l1 _] using rev_ind; simpl; [done|].
  rewrite loc_after_snoc. simpl.
  apply lseg_app_inv in H1 as (q&H1&Hx). inversion Hx as [|? q' ? ? Hx0 Hxq Hr]; subst.
  rewrite <- app_assoc. eapply lseg_app.
  - eapply lseg_ext, H1. intros y Hy. simpl.
    rewrite lookup_insert_ne; [done|]. intros <-.
    apply NoDup_app in Hnd as (_&Hnd&_). eapply Hnd; [done|]. by apply list_elem_of_singleton.
  - simpl. econstructor; [done|simpl; by rewrite lookup_insert_eq|].
    eapply lseg_ext, H2. intros y Hy. simpl. rewrite lookup_insert_ne; [done|].
    intros <-. eapply Hdis; [|done]. rewrite elem_of_app, list_elem_of_singleton. auto.
Qed.

(** ** The three list operations of the sources *)

(** [for (...) if ( *xpp == tp) { *xpp = tp->next; break; }] *)
Definition pp_remove (h : Z) (m : gmap Z Z) (tp : Z) : option (Z * gmap Z Z) :=
  loc ← pp_walk (S (size m)) h m (Z.eqb tp) PHead;
  p ← pp_read h m loc;
  if p =? 0 then Some (h, m) else q ← m !! tp; Some (pp_write h m loc q).

(** [for (...) if (stop( *xpp)) break; tp->next = *xpp; *xpp = tp;] *)
Definition pp_insert (h : Z) (m : gmap Z Z) (stop : Z -> bool) (tp : Z) : option (Z * gmap Z Z) :=
  loc ← pp_walk (S (size m)) h m stop PHead;
  p ← pp_read h m loc;
  Some (pp_write h (<[tp := p]> m) loc tp).

(** [while ( *xpp) xpp = &( *xpp)->next; *xpp = tp;] *)
Definition pp_append (h : Z) (m : gmap Z Z) (tp : Z) : option (Z * gmap Z Z) :=
  loc ← pp_walk (S (size m)) h m (fun _ => false) PHead;
  Some (pp_write h m loc tp).

(** The list without its first occurrence of [tp]. *)
Definition remove1 (tp : Z) (l : list Z) : list Z :=
  before (Z.eqb tp) l ++ tail (from (Z.eqb tp) l).

Lemma before_nodup stop l : NoDup l -> NoDup (before stop l).
Proof. intros H. rewrite <- (before_from stop l) in H. by apply NoDup_app in H as (?&_&_). Qed.

Lemma before_split (l : list Z) stop :
  NoDup l -> forall x, x ∈ before stop l -> x ∉ from stop l.
Proof. intros H. rewrite <- (before_from stop l) in H. by apply NoDup_app in H as (_&?&_). Qed.

Lemma from_eqb_inv tp l x l' : from (Z.eqb tp) l = x :: l' -> x = tp.
Proof.
  induction l as [|y l IH]; simpl; [done|].
  destruct (Z.eqb_spec tp y); [congruence|done].
Qed.

Lemma from_eqb_nil tp l : from (Z.eqb tp) l = [] <-> tp ∉ l.
Proof.
  induction l as [|y l IH]; simpl; [set_solver|].
  rewrite not_elem_of_cons. destruct (Z.eqb_spec tp y); [split; [done|]; by intros []|].
  rewrite IH. tauto.
Qed.

Lemma pp_remove_spec h (m : gmap Z Z) tp l :
  chain (links m) h l ->
  exists h' m', pp_remove h m tp = Some (h', m') /\ chain (links m') h' (remove1 tp l) /\
    (forall x, x ∉ l -> m' !! x = m !! x) /\ dom m' = dom m.
Proof.
  intros Hc. pose proof (chain_nodup _ _ _ Hc) as Hnd. unfold pp_remove, remove1.
  rewrite (pp_walk_spec _ _ _ _ Hc). simpl.
  rewrite <- (before_from (Z.eqb tp) l) in Hc. apply lseg_app_inv in Hc as (p&H1&H2).
  rewrite (pp_read_after _ _ _ _ _ H1 H2). simpl.
  destruct (from (Z.eqb tp) l) as [|x l2] eqn:Ef; simpl.
  - inversion H2; subst. simpl. exists h, m. rewrite app_nil_r. done.
  - pose proof (from_eqb_inv _ _ _ _ Ef) as ->.
    inversion H2 as [|? q ? ? Hp Hq H2']; subst. simpl in Hq.
    destruct (Z.eqb_spec tp 0); [done|]. rewrite Hq. simpl.
    pose proof (pp_write_chain _ _ _ _ q l2 H1 (before_nodup _ _ Hnd) H2') as Hw.
    destruct (pp_write h m _ q) as [h' m'] eqn:Ew. exists h', m'. split; [done|]. split.
    + apply Hw. intros x Hx Hx'. eapply before_split; [done..|]. rewrite Ef. set_solver.
    + unfold pp_write, loc_after in Ew. destruct (last (before _ l)) as [y|] eqn:El.
      * injection Ew as <- <-. apply last_Some_elem_of in El.
        assert (y ∈ l) by (rewrite <- (before_from (Z.eqb tp) l); set_solver).
        split.
        -- intros z Hz. rewrite lookup_insert_ne; [done|]. by intros ->.
        -- rewrite dom_insert_L. rewrite <- (before_from (Z.eqb tp) l) in *.
           assert (is_Some (m !! y)) as Hy by (by destruct (chain_elem _ _ _ _ _ H1 El)).
           apply elem_of_dom in Hy. set_solver.
      * injection Ew as <- <-. done.
Qed.

(** A traversal that stops inserts between the two parts of the list. *)
Lemma pp_insert_spec h (m : gmap Z Z) stop tp l :
  chain (links m) h l -> tp <> 0 -> tp ∉ l ->
  exists h' m', pp_insert h m stop tp = Some (h', m') /\
    chain (links m') h' (before stop l ++ tp :: from stop l).
Proof.
  intros Hc Htp Hin. pose proof (chain_nodup _ _ _ Hc) as Hnd. unfold pp_insert.
  rewrite (pp_walk_spec _ _ _ _ Hc). simpl.
  pose proof (before_from stop l) as Hbf.
  rewrite <- Hbf in Hc. apply lseg_app_inv in Hc as (p&H1&H2).
  rewrite (pp_read_after _ _ _ _ _ H1 H2). simpl.
  assert (forall x, x ∈ before stop l -> x <> tp) as Hb by (intros ? ? ->; apply Hin; rewrite <- Hbf, elem_of_app; auto).
  assert (forall x, x ∈ from stop l -> x <> tp) as Hf by (intros ? ? ->; apply Hin; rewrite <- Hbf, elem_of_app; auto).
  pose proof (pp_write_chain h (<[tp:=p]> m) (before stop l) p tp (tp :: from stop l)) as Hw.
  destruct (pp_write h _ _ tp) as [h' m'] eqn:Ew. exists h', m'. split; [done|]. apply Hw.
  - eapply lseg_ext, H1. intros x Hx. simpl. by rewrite lookup_insert_ne by (by apply not_eq_sym, Hb).
  - by apply before_nodup.
  - econstructor; [done|simpl; by rewrite lookup_insert_eq|].
    eapply lseg_ext, H2. intros x Hx. simpl. by rewrite lookup_insert_ne by (by apply not_eq_sym, Hf).
  - intros x Hx [->|Hx']%elem_of_cons; [by eapply Hb|]. by eapply before_split.
Qed.

Lemma before_false l : before (fun _ => false) l = l.
Proof. induction l; simpl; congruence. Qed.

(** Appending a node whose next field is already NULL. *)
Lemma pp_append_spec h (m : gmap Z Z) tp l :
  chain (links m) h l -> tp <> 0 -> tp ∉ l -> m !! tp = Some 0 ->
  exists h' m', pp_append h m tp = Some (h', m') /\ chain (links m') h' (l ++ [tp]) /\
    (forall x, x ∉ l -> m' !! x = m !! x).
Proof.
  intros Hc Htp Hin Hnx. pose proof (chain_nodup _ _ _ Hc) as Hnd. unfold pp_append.
  rewrite (pp_walk_spec _ _ _ _ Hc), before_false. simpl.
  pose proof (pp_write_chain h m l 0 tp [tp] Hc Hnd) as Hw.
  destruct (pp_write h m (loc_after l) tp) as [h' m'] eqn:Ew.
  exists h', m'. split; [done|]. split.
  - apply Hw; [by econstructor; [|apply Hnx|constructor]|]. set_solver.
  - unfold pp_write, loc_after in Ew. destruct (last l) as [y|] eqn:El; simplify_eq; [|done].
    apply last_Some_elem_of in El. intros x Hx. rewrite lookup_insert_ne; [done|]. by intros ->.
Qed.

(** Removing a member is removing it from the set of nodes. *)
Lemma remove1_notin tp l : tp ∉ l -> remove1 tp l = l.
Proof.
  intros H. unfold remove1. pose proof (before_from (Z.eqb tp) l) as E.
  apply from_eqb_nil in H. rewrite H in *. by rewrite <- E at 2.
Qed.

Lemma remove1_split tp l1 l2 : tp ∉ l1 -> remove1 tp (l1 ++ tp :: l2) = l1 ++ l2.
Proof.
  intros H. unfold remove1. induction l1 as [|x l1 IH]; simpl.
  - by rewrite Z.eqb_refl.
  - destruct (Z.eqb_spec tp x); [set_solver|]. simpl. f_equal. apply IH. set_solver.
Qed.

Lemma elem_of_remove1 tp l x : NoDup l -> x ∈ remove1 tp l <-> x ∈ l /\ x <> tp.
Proof.
  intros Hnd. destruct (decide (tp ∈ l)) as [Hin|Hin].
  - apply list_elem_of_split in Hin as (l1&l2&->).
    apply NoDup_app in Hnd as (_&Hd&Hnd). apply NoDup_cons in Hnd as [Hn2 _].
    assert (tp ∉ l1) by (intros ?; eapply Hd; set_solver).
    rewrite remove1_split by done. set_solver.
  - rewrite remove1_notin by done. split; [|by intros []]. intros. split; [done|]. by intros ->.
Qed.

Lemma NoDup_remove1 tp l : NoDup l -> NoDup (remove1 tp l).
Proof.
  intros Hnd. destruct (decide (tp ∈ l)) as [Hin|Hin].
  - apply list_elem_of_split in Hin as (l1&l2&->).
    apply NoDup_app in Hnd as (?&Hd&Hnd). apply NoDup_cons in Hnd as [Hn2 ?].
    rewrite remove1_split by (intros ?; eapply Hd; set_solver).
    apply NoDup_app. split_and!; [done| |done]. intros y Hy Hy'. eapply Hd; set_solver.
  - by rewrite remove1_notin.
Qed.
