(* ===== verification/Timers.v ===== *)
(** Watchdog timers: the timer queues of lib/libtimers and the alarm-driven
    interface that lib/libsys/timers.c builds on them for system processes. *)

From S2P Require Import Prelude Chain.
From stdpp Require Import sorting.
Local Open Scope Z_scope.

(** [LONG_MAX] of the 32-bit target. *)
Definition TMR_NEVER : Z := 2 ^ 31 - 1.

(** A timer queue: the head pointer and, for each [minix_timer_t] by address,
    its three fields. *)
Record tmrq := TmrQ {
  tmrs : Z;
  tmr_next : gmap Z Z;
  tmr_exp_time : gmap Z Z;
  tmr_func : gmap Z Z;
}.

(** [*tmrs ? ( *tmrs)->tmr_exp_time : 0] *)
Definition head_exp (q : tmrq) : option Z :=
  if tmrs q =? 0 then Some 0 else tmr_exp_time q !! tmrs q.

(** The queue after the removal, the previous head's time, and the new head's
    time when the caller asked for it. *)
Definition tmrs_clrtimer (q : tmrq) (tp : Z) (next_time : bool)
  : option (Z * option Z * tmrq) :=
  prev_time ← head_exp q;
  let q1 := TmrQ (tmrs q) (tmr_next q) (<[tp := TMR_NEVER]> (tmr_exp_time q)) (tmr_func q) in
  '(h, nx) ← pp_remove (tmrs q1) (tmr_next q1) tp;
  let q2 := TmrQ h nx (tmr_exp_time q1) (tmr_func q1) in
  if next_time
  then t ← head_exp q2; Some (prev_time, Some t, q2)
  else Some (prev_time, None, q2).

Definition tmrs_settimer (q : tmrq) (tp exp_time watchdog : Z) (new_head : bool)
  : option (Z * option Z * tmrq) :=
  old_head ← head_exp q;
  '(_, _, q1) ← tmrs_clrtimer q tp false;
  let exps := <[tp := exp_time]> (tmr_exp_time q1) in
  let funcs := <[tp := watchdog]> (tmr_func q1) in
  let stop p := match exps !! p with Some e => exp_time <? e | None => false end in
  '(h, nx) ← pp_insert (tmrs q1) (tmr_next q1) stop tp;
  let q2 := TmrQ h nx exps funcs in
  if new_head
  then t ← tmr_exp_time q2 !! tmrs q2; Some (old_head, Some t, q2)
  else Some (old_head, None, q2).

Section Expire.
(** What running a watchdog function does to the queue and to the rest of the
    state of the process; [None] is a panic. *)
Context {A : Type} (call : Z -> Z -> tmrq * A -> option (tmrq * A)).

Fixpoint exp_loop (fuel : nat) (now : Z) (s : tmrq * A) : option (tmrq * A) :=
  match fuel with
  | O => None
  | S fuel =>
      let '(q, a) := s in
      if tmrs q =? 0 then Some s
      else
        e ← tmr_exp_time q !! tmrs q;
        if e <=? now
        then
          let tp := tmrs q in
          nx ← tmr_next q !! tp;
          f ← tmr_func q !! tp;
          s' ← call f tp
            (TmrQ nx (tmr_next q) (<[tp := TMR_NEVER]> (tmr_exp_time q)) (tmr_func q), a);
          exp_loop fuel now s'
        else Some s
  end.

Definition tmrs_exptimers (fuel : nat) (now : Z) (new_head : bool) (s : tmrq * A)
  : option (option Z * (tmrq * A)) :=
  '(q, a) ← exp_loop fuel now s;
  if new_head then t ← head_exp q; Some (Some t, (q, a)) else Some (None, (q, a)).
End Expire.

(** ** Invariant of a queue

    The nodes form a NULL-terminated list, each has an expiration time and a
    function, and times do not decrease along the list. *)

Definition texp (q : tmrq) (p : Z) : Z := default 0 (tmr_exp_time q !! p).

Definition le_exp (q : tmrq) (x y : Z) : Prop := texp q x <= texp q y.

Record tmrq_wf (q : tmrq) (l : list Z) : Prop := {
  wf_chain : chain (links (tmr_next q)) (tmrs q) l;
  wf_exp : forall p, p ∈ l -> is_Some (tmr_exp_time q !! p);
  wf_func : forall p, p ∈ l -> is_Some (tmr_func q !! p);
  wf_sorted : StronglySorted (le_exp q) l;
}.

(** The expiration time at the front, 0 for an empty queue. *)
Definition front (q : tmrq) (l : list Z) : Z :=
  match l with [] => 0 | p :: _ => texp q p end.
Arguments front : simpl never.

Lemma head_exp_front q l : tmrq_wf q l -> head_exp q = Some (front q l).
Proof.
  intros [Hc He _ _]. unfold head_exp, front, texp.
  destruct l as [|p l].
  - by rewrite (chain_nil_head _ _ Hc).
  - apply chain_cons_head in Hc as [-> ?]. destruct (Z.eqb_spec (tmrs q) 0); [done|].
    destruct (He (tmrs q)) as [e ->]; [set_solver|done].
Qed.

Lemma sorted_ext (R R' : Z -> Z -> Prop) l :
  (forall x y, x ∈ l -> y ∈ l -> R x y -> R' x y) ->
  StronglySorted R l -> StronglySorted R' l.
Proof.
  induction l as [|x l IH]; intros Hi Hs; [constructor|].
  inversion Hs as [|? ? Hs' Hf]; subst. constructor.
  - apply IH; [|done]. intros; apply Hi; set_solver.
  - rewrite Forall_forall in Hf |- *. intros y Hy. apply Hi; set_solver.
Qed.

Lemma sorted_remove1 R tp l : StronglySorted R l -> StronglySorted R (remove1 tp l).
Proof.
  unfold remove1. induction l as [|x l IH]; intros Hs; [by constructor|].
  inversion Hs as [|? ? Hs' Hf]; subst. simpl. destruct (Z.eqb tp x); [done|].
  simpl. constructor; [by apply IH|].
  rewrite Forall_forall in Hf |- *. intros y Hy. apply Hf.
  rewrite <- (before_from (Z.eqb tp) l). rewrite elem_of_app in *.
  destruct Hy as [|Hy]; [auto|]. right.
  destruct (from (Z.eqb tp) l); [done|]. set_solver.
Qed.

(** ** [tmrs_clrtimer] *)

Lemma clrtimer_gen q l tp b :
  tmrq_wf q l -> tp <> 0 ->
  exists q', tmrs_clrtimer q tp b =
      Some (front q l, if b then Some (front q' (remove1 tp l)) else None, q') /\
    tmrq_wf q' (remove1 tp l) /\
    tmr_exp_time q' = <[tp := TMR_NEVER]> (tmr_exp_time q) /\
    tmr_func q' = tmr_func q.
Proof.
  intros Hwf Htp. pose proof (head_exp_front _ _ Hwf) as Hh.
  destruct Hwf as [Hc He Hf Hs]. pose proof (chain_nodup _ _ _ Hc) as Hnd.
  unfold tmrs_clrtimer. rewrite Hh. simpl.
  destruct (pp_remove_spec _ _ tp _ Hc) as (h'&m'&->&Hc'&_&_). simpl.
  set (q' := TmrQ h' m' (<[tp := TMR_NEVER]> (tmr_exp_time q)) (tmr_func q)).
  assert (Hne : forall p, p ∈ remove1 tp l -> tmr_exp_time q' !! p = tmr_exp_time q !! p).
  { intros p [_ Hp]%elem_of_remove1; [|done]. simpl. by rewrite lookup_insert_ne. }
  assert (Hwf' : tmrq_wf q' (remove1 tp l)).
  { split; [done| | |].
    - intros p Hp. rewrite Hne by done. apply He. by apply elem_of_remove1 in Hp as [].
    - intros p Hp. apply Hf. by apply elem_of_remove1 in Hp as [].
    - eapply sorted_ext, sorted_remove1, Hs. intros x y Hx Hy. unfold le_exp, texp.
      by rewrite !Hne. }
  exists q'. split; [|done]. destruct b; [|done].
  by rewrite (head_exp_front _ _ Hwf').
Qed.

(** ** [tmrs_settimer] *)

(** Where the new timer goes: behind every timer that expires no later. *)
Definition insert_pos (q : tmrq) (l : list Z) (tp exp_time : Z) : list Z :=
  let stop p := exp_time <? texp q p in
  before stop (remove1 tp l) ++ tp :: from stop (remove1 tp l).

Lemma before_ext f g l : (forall x, x ∈ l -> f x = g x) -> before f l = before g l.
Proof.
  induction l as [|x l IH]; intros H; [done|]. simpl.
  rewrite (H x) by set_solver. destruct (g x); [done|]. rewrite IH; [done|set_solver].
Qed.

Lemma from_ext f g l : (forall x, x ∈ l -> f x = g x) -> from f l = from g l.
Proof.
  induction l as [|x l IH]; intros H; [done|]. simpl.
  rewrite (H x) by set_solver. destruct (g x); [done|]. rewrite IH; [done|set_solver].
Qed.

(** Splitting a sorted list at the first later element and inserting there
    keeps it sorted. *)
Lemma sorted_insert (k : Z -> Z) tp l :
  StronglySorted (fun x y => k x <= k y) l ->
  StronglySorted (fun x y => k x <= k y)
    (before (fun p => k tp <? k p) l ++ tp :: from (fun p => k tp <? k p) l).
Proof.
  induction l as [|x l IH]; intros Hs; simpl; [by repeat constructor|].
  inversion Hs as [|? ? Hs' Hf]; subst. destruct (Z.ltb_spec (k tp) (k x)) as [Hlt|Hge].
  - simpl. constructor; [done|]. constructor; [lia|].
    eapply Forall_impl; [done|]. simpl. lia.
  - simpl. constructor; [by apply IH|].
    rewrite Forall_forall in Hf |- *. intros y Hy. rewrite elem_of_app, elem_of_cons in Hy.
    rewrite <- (before_from (fun p => k tp <? k p) l) in Hf.
    destruct Hy as [?|[->|?]]; [apply Hf; set_solver|done|apply Hf; set_solver].
Qed.

Lemma settimer_gen q l tp t f b :
  tmrq_wf q l -> tp <> 0 ->
  exists q', tmrs_settimer q tp t f b =
      Some (front q l, if b then Some (front q' (insert_pos q l tp t)) else None, q') /\
    tmrq_wf q' (insert_pos q l tp t) /\
    tmr_exp_time q' = <[tp := t]> (tmr_exp_time q) /\
    tmr_func q' = <[tp := f]> (tmr_func q).
Proof.
  intros Hwf Htp. pose proof (head_exp_front _ _ Hwf) as Hh.
  assert (Hnd : NoDup l) by (eapply chain_nodup, wf_chain, Hwf).
  destruct (clrtimer_gen _ _ tp false Hwf Htp) as (q1&Hclr&Hwf1&He1&Hf1).
  unfold tmrs_settimer. rewrite Hh. simpl. rewrite Hclr. simpl.
  set (exps := <[tp := t]> (tmr_exp_time q1)). set (funcs := <[tp := f]> (tmr_func q1)).
  set (stop := fun p => match exps !! p with Some e => t <? e | None => false end).
  set (rest := remove1 tp l) in *.
  assert (Htp1 : tp ∉ rest) by (intros [_ ?]%elem_of_remove1; done).
  assert (Hexp : forall p, p ∈ rest -> exps !! p = tmr_exp_time q !! p).
  { intros p Hp. unfold exps. rewrite lookup_insert_ne by (by intros ->).
    rewrite He1, lookup_insert_ne by (by intros ->). done. }
  assert (Hstop : forall p, p ∈ rest -> stop p = (t <? texp q p)).
  { intros p Hp. unfold stop, texp. rewrite Hexp by done.
    apply elem_of_remove1 in Hp as [Hp _]; [|done].
    by destruct (wf_exp _ _ Hwf p Hp) as [e ->]. }
  destruct (pp_insert_spec _ _ stop tp _ (wf_chain _ _ Hwf1) Htp Htp1) as (h'&m'&Hins&Hc').
  rewrite Hins. simpl. set (q' := TmrQ h' m' exps funcs).
  unfold insert_pos. fold rest.
  rewrite <- (before_ext stop), <- (from_ext stop) by done.
  pose proof (before_from stop rest) as Hbf.
  assert (Hin : forall p, p ∈ before stop rest ++ tp :: from stop rest -> p = tp \/ p ∈ rest).
  { intros p. rewrite <- Hbf at 3. rewrite !elem_of_app, elem_of_cons. tauto. }
  assert (Hexp' : exps = <[tp:=t]> (tmr_exp_time q)).
  { unfold exps. rewrite He1. by rewrite insert_insert_eq. }
  assert (Hwf' : tmrq_wf q' (before stop rest ++ tp :: from stop rest)).
  { split; [done| | |]; simpl.
    - intros p [->|Hp]%Hin; [unfold exps; rewrite lookup_insert_eq; eauto|].
      rewrite Hexp by done. apply (wf_exp _ _ Hwf). by apply elem_of_remove1 in Hp as [].
    - intros p [->|Hp]%Hin; [unfold funcs; rewrite lookup_insert_eq; eauto|].
      unfold funcs. rewrite lookup_insert_ne by (by intros ->). by apply (wf_func _ _ Hwf1).
    - assert (Hk : StronglySorted (fun x y => texp q' x <= texp q' y) rest).
      { eapply sorted_ext, (wf_sorted _ _ Hwf1). intros x y Hx Hy. unfold le_exp, texp. simpl.
        rewrite !Hexp by done. by rewrite He1, !lookup_insert_ne by (by intros ->). }
      apply (sorted_insert (texp q') tp) in Hk.
      rewrite (before_ext _ stop), (from_ext _ stop) in Hk; [done| |].
      all: intros x Hx; unfold stop, texp; simpl; unfold exps at 1;
        rewrite lookup_insert_eq; simpl; rewrite Hexp by done;
        apply elem_of_remove1 in Hx as [Hx _]; [|done];
        by destruct (wf_exp _ _ Hwf x Hx) as [e ->]. }
  exists q'. split; [|by rewrite <- Hexp', <- Hf1].
  destruct b; [|done].
  pose proof (head_exp_front _ _ Hwf') as Hh'. unfold head_exp in Hh'. simpl in Hh'.
  destruct (Z.eqb_spec h' 0) as [->|].
  - apply chain_nil_inv in Hc'. by destruct (before stop rest).
  - by rewrite Hh'.
Qed.

(** ** [tmrs_exptimers] *)

(** The timers of a queue that are due at [now], and the others. *)
Definition due (q : tmrq) (now : Z) (l : list Z) : list Z :=
  before (fun p => now <? texp q p) l.
Definition later (q : tmrq) (now : Z) (l : list Z) : list Z :=
  from (fun p => now <? texp q p) l.

(** The queue without its first timer, as the loop leaves it for the
    watchdog function. *)
Definition popped (q : tmrq) (nx : Z) : tmrq :=
  TmrQ nx (tmr_next q) (<[tmrs q := TMR_NEVER]> (tmr_exp_time q)) (tmr_func q).

Lemma popped_texp q nx p : p <> tmrs q -> texp (popped q nx) p = texp q p.
Proof. intros. unfold texp, popped. simpl. by rewrite lookup_insert_ne. Qed.

Lemma popped_wf q p l :
  tmrq_wf q (p :: l) ->
  exists nx f, p = tmrs q /\ tmrs q <> 0 /\ tmr_next q !! tmrs q = Some nx /\
    tmr_func q !! tmrs q = Some f /\ tmr_exp_time q !! tmrs q = Some (texp q p) /\
    tmrq_wf (popped q nx) l /\ (forall x, x ∈ l -> texp (popped q nx) x = texp q x).
Proof.
  intros [Hc He Hf Hs].
  pose proof (chain_nodup _ _ _ Hc) as [Hp _]%NoDup_cons.
  destruct (chain_cons_head _ _ _ _ Hc) as [-> Hn0].
  destruct (chain_cons_inv _ _ _ Hc Hn0) as (nx&l'&[= <-]&Hnx&Hc').
  destruct (Hf (tmrs q)) as [f Hff]; [set_solver|].
  destruct (He (tmrs q)) as [e Hee]; [set_solver|].
  assert (Ht : forall x, x ∈ l -> texp (popped q nx) x = texp q x)
    by (intros; apply popped_texp; by intros ->).
  exists nx, f. unfold texp at 1. rewrite Hee. split_and!; try done.
  split; [done| | |].
  - intros x Hx. simpl. rewrite lookup_insert_ne by (by intros <-). apply He. set_solver.
  - intros x Hx. apply Hf. set_solver.
  - inversion Hs; subst. eapply sorted_ext; [|done].
    intros x y Hx Hy. unfold le_exp. by rewrite !Ht.
Qed.

Lemma exp_loop_mono {A} (call : Z -> Z -> tmrq * A -> option (tmrq * A)) fuel fuel' now s r :
  (fuel <= fuel')%nat -> exp_loop call fuel now s = Some r -> exp_loop call fuel' now s = Some r.
Proof.
  revert fuel' s. induction fuel as [|fuel IH]; intros [|fuel'] [q a] Hle; try done; [lia|].
  cbn. destruct (tmrs q =? 0); [done|].
  destruct (tmr_exp_time q !! tmrs q) as [e|]; [|done]. cbn.
  destruct (e <=? now); [|done].
  destruct (tmr_next q !! tmrs q) as [nx|]; [|done]. cbn.
  destruct (tmr_func q !! tmrs q) as [f|]; [|done]. cbn.
  destruct (call _ _ _) as [s'|]; [|done]. cbn. apply IH. lia.
Qed.

Section ExpireSpec.
Context {A : Type} (call : Z -> Z -> tmrq * A -> option (tmrq * A)) (now : Z).

(** A watchdog function may set and clear timers, but the ones it sets are
    not due yet: it leaves a well-formed queue with no more due timers. *)
Definition well_behaved : Prop :=
  forall f tp q a l, tmrq_wf q l -> exists q' a' l',
    call f tp (q, a) = Some (q', a') /\ tmrq_wf q' l' /\
    (length (due q' now l') <= length (due q now l))%nat.

Lemma due_popped q p l nx :
  (forall x, x ∈ l -> texp (popped q nx) x = texp q x) -> texp q p <= now ->
  length (due q now (p :: l)) = S (length (due (popped q nx) now l)).
Proof.
  intros Ht Hp. unfold due. simpl. destruct (Z.ltb_spec now (texp q p)); [lia|].
  simpl. f_equal. f_equal. apply before_ext. intros x Hx. by rewrite Ht.
Qed.

Lemma exp_loop_total fuel q a l :
  well_behaved -> tmrq_wf q l -> (length (due q now l) < fuel)%nat ->
  exists q' a' l', exp_loop call fuel now (q, a) = Some (q', a') /\ tmrq_wf q' l' /\
    due q' now l' = [].
Proof.
  intros Hcall. revert q a l. induction fuel as [|fuel IH]; intros q a l Hwf Hf; [lia|].
  simpl. destruct l as [|p l].
  - rewrite (chain_nil_head _ _ (wf_chain _ _ Hwf)). simpl. by exists q, a, [].
  - destruct (popped_wf _ _ _ Hwf) as (nx&f&->&Hn0&Hnx&Hff&Hee&Hwf'&Ht).
    destruct (Z.eqb_spec (tmrs q) 0); [done|]. rewrite Hee. simpl.
    destruct (Z.leb_spec (texp q (tmrs q)) now) as [Hle|Hgt].
    + rewrite Hnx, Hff. simpl.
      destruct (Hcall f (tmrs q) (popped q nx) a l Hwf') as (q'&a'&l'&Hc&Hwf2&Hd).
      unfold popped in Hc at 1. rewrite Hc. simpl. apply (IH q' a' l' Hwf2).
      rewrite (due_popped _ _ _ _ Ht Hle) in Hf. lia.
    + exists q, a, (tmrs q :: l). split_and!; [done..|].
      unfold due. simpl. by destruct (Z.ltb_spec now (texp q (tmrs q))); [|lia].
Qed.
End ExpireSpec.

(** Watchdog functions that leave the timers alone. *)
Definition quiet {A} (note : Z -> Z -> A -> A) : Z -> Z -> tmrq * A -> option (tmrq * A) :=
  fun f tp '(q, a) => Some (q, note f tp a).

(** A sorted list is cut at the first element beyond [t]. *)
Lemma sorted_cut (k : Z -> Z) t l :
  StronglySorted (fun x y => k x <= k y) l ->
  (forall p, p ∈ before (fun p => t <? k p) l -> k p <= t) /\
  (forall p, p ∈ from (fun p => t <? k p) l -> t < k p).
Proof.
  intros Hs. induction l as [|x l IH]; simpl; [set_solver|].
  inversion Hs as [|? ? Hs' Hf]; subst.
  destruct (Z.ltb_spec t (k x)) as [Hlt|Hge].
  - split; [set_solver|]. intros p [->|Hp]%elem_of_cons; [done|].
    rewrite Forall_forall in Hf. specialize (Hf p Hp). simpl in Hf. lia.
  - destruct (IH Hs') as [IH1 IH2]. split; [|done].
    intros p [->|Hp]%elem_of_cons; [done|auto].
Qed.

Lemma due_later q now l : l = due q now l ++ later q now l.
Proof. symmetry. apply before_from. Qed.

Lemma due_length q now l : (length (due q now l) <= length l)%nat.
Proof. rewrite (due_later q now l) at 2. rewrite length_app. lia. Qed.

Lemma sorted_due q now l :
  tmrq_wf q l ->
  (forall p, p ∈ due q now l -> texp q p <= now) /\
  (forall p, p ∈ later q now l -> now < texp q p).
Proof. intros [_ _ _ Hs]. by apply (sorted_cut (texp q)). Qed.

Lemma exp_loop_quiet {A} (note : Z -> Z -> A -> A) fuel now q a l :
  tmrq_wf q l -> (length (due q now l) < fuel)%nat ->
  exists q', exp_loop (quiet note) fuel now (q, a) =
      Some (q', fold_left (fun a p => note (default 0 (tmr_func q !! p)) p a) (due q now l) a) /\
    tmrq_wf q' (later q now l) /\
    (forall p, tmr_exp_time q' !! p =
       if decide (p ∈ due q now l) then Some TMR_NEVER else tmr_exp_time q !! p).
Proof.
  revert q a l. induction fuel as [|fuel IH]; intros q a l Hwf Hf; [lia|].
  simpl. destruct l as [|p l].
  - rewrite (chain_nil_head _ _ (wf_chain _ _ Hwf)). simpl. exists q.
    done.
  - destruct (popped_wf _ _ _ Hwf) as (nx&f&->&Hn0&Hnx&Hff&Hee&Hwf'&Ht).
    destruct (Z.eqb_spec (tmrs q) 0); [done|]. rewrite Hee. simpl.
    assert (due (popped q nx) now l = due q now l) as Hd
      by (apply before_ext; intros; by rewrite Ht).
    assert (later (popped q nx) now l = later q now l) as Hl
      by (apply from_ext; intros; by rewrite Ht).
    destruct (Z.leb_spec (texp q (tmrs q)) now) as [Hle|Hgt].
    + rewrite (due_popped _ _ _ _ _ Ht Hle) in Hf. rewrite Hnx, Hff. simpl.
      destruct (IH (popped q nx) (note f (tmrs q) a) l Hwf') as (q'&Heq&Hwf2&He2); [lia|].
      rewrite Hd in *. rewrite Hl in *. exists q'. unfold popped in Heq at 1. rewrite Heq.
      unfold due, later. simpl. destruct (Z.ltb_spec now (texp q (tmrs q))); [lia|].
      simpl. rewrite Hff. simpl. split_and!; [done|done|].
      intros x. rewrite He2. unfold popped. simpl.
      destruct (decide (x = tmrs q)) as [->|Hx].
      * rewrite lookup_insert_eq. repeat case_decide; set_solver.
      * rewrite lookup_insert_ne by done.
        repeat case_decide; set_solver.
    + exists q. unfold due, later. simpl. destruct (Z.ltb_spec now (texp q (tmrs q))); [|lia].
      split_and!; [done..|]. intros x. case_decide; [set_solver|done].
Qed.

(** ** The timers of a system process: lib/libsys/timers.c

    [alarm] is the synchronous alarm the process has programmed at the CLOCK
    task, 0 for none ([do_setalarm] cancels the alarm for an expiration time
    of 0). *)

Record sys_timers := SysTimers {
  timers : tmrq;
  expiring : bool;
  tmr_arg : gmap Z Z;
  alarm : Z;
}.

Section SysTimers.
(** Whether the kernel grants [sys_setalarm], which it does to system
    processes only. *)
Context (sys_proc : bool).

Definition sys_setalarm (s : sys_timers) (exp_time : Z) : option sys_timers :=
  if sys_proc
  then Some (SysTimers (timers s) (expiring s) (tmr_arg s) exp_time)
  else None.

Definition init_timer (s : sys_timers) (tp : Z) : sys_timers :=
  let q := timers s in
  SysTimers
    (TmrQ (tmrs q) (<[tp := 0]> (tmr_next q)) (<[tp := TMR_NEVER]> (tmr_exp_time q)) (tmr_func q))
    (expiring s) (tmr_arg s) (alarm s).

(** [now] is what [getticks] reports, [None] its failure. *)
Definition set_timer (s : sys_timers) (now : option Z) (tp ticks watchdog arg : Z)
  : option sys_timers :=
  now ← now;
  '(prev_time, nt, q) ← tmrs_settimer (timers s) tp (now + ticks) watchdog true;
  next_time ← nt;
  let s1 := SysTimers q (expiring s) (<[tp := arg]> (tmr_arg s)) (alarm s) in
  if negb (expiring s) && ((prev_time =? 0) || (next_time <? prev_time))
  then sys_setalarm s1 next_time
  else Some s1.

Definition cancel_timer (s : sys_timers) (tp : Z) : option sys_timers :=
  '(prev_time, nt, q) ← tmrs_clrtimer (timers s) tp true;
  next_time ← nt;
  let s1 := SysTimers q (expiring s) (tmr_arg s) (alarm s) in
  if negb (expiring s) && ((prev_time <? next_time) || (next_time =? 0))
  then sys_setalarm s1 next_time
  else Some s1.

(** Watchdog functions of a system process work on its timers and on the rest
    of its state; they run with [expiring] set. *)
Definition expire_call {B} (call : Z -> Z -> sys_timers * B -> option (sys_timers * B))
  (f tp : Z) (s : tmrq * (gmap Z Z * Z * B)) : option (tmrq * (gmap Z Z * Z * B)) :=
  let '(q, (args, al, b)) := s in
  '(s', b') ← call f tp (SysTimers q true args al, b);
  Some (timers s', (tmr_arg s', alarm s', b')).

Definition expire_timers {B} (call : Z -> Z -> sys_timers * B -> option (sys_timers * B))
  (fuel : nat) (now : Z) (s : sys_timers) (b : B) : option (sys_timers * B) :=
  '(nt, (q, (args, al, b'))) ←
    tmrs_exptimers (expire_call call) fuel now true (timers s, (tmr_arg s, alarm s, b));
  next_time ← nt;
  let s1 := SysTimers q false args al in
  s2 ← (if 0 <? next_time then sys_setalarm s1 next_time else Some s1);
  Some (s2, b').
End SysTimers.

(** Outside [expire_timers], an alarm is programmed no later than the earliest
    timer; all expiration times are positive. *)
Record sys_timers_ok (s : sys_timers) (l : list Z) : Prop := {
  st_wf : tmrq_wf (timers s) l;
  st_pos : forall p, p ∈ l -> 0 < texp (timers s) p;
  st_alarm : l <> [] -> expiring s = false -> 0 < alarm s <= front (timers s) l;
}.

Lemma front_le q l p : tmrq_wf q l -> p ∈ l -> front q l <= texp q p.
Proof.
  intros [_ _ _ Hs] Hp. destruct l as [|x l]; [set_solver|]. unfold front.
  apply elem_of_cons in Hp as [->|Hp]; [done|].
  inversion Hs as [|? ? _ Hf]; subst. rewrite Forall_forall in Hf. by apply Hf.
Qed.

Lemma front_elem q l : l <> [] -> exists p, p ∈ l /\ front q l = texp q p.
Proof. destruct l as [|p l]; [done|]. intros _. exists p. split; [set_solver|done]. Qed.

Lemma insert_pos_elem q l tp t p :
  NoDup l -> p ∈ insert_pos q l tp t -> p = tp \/ (p ∈ l /\ p <> tp).
Proof.
  intros Hnd. unfold insert_pos. rewrite elem_of_app, elem_of_cons.
  rewrite <- (elem_of_remove1 tp l p Hnd).
  rewrite <- (before_from (fun p => t <? texp q p) (remove1 tp l)) at 3.
  rewrite elem_of_app. tauto.
Qed.

Lemma insert_pos_nonempty q l tp t : insert_pos q l tp t <> [].
Proof. unfold insert_pos. by destruct (before _ _). Qed.

Lemma texp_insert q m tp t p :
  tmr_exp_time m = <[tp := t]> (tmr_exp_time q) ->
  texp m p = if decide (p = tp) then t else texp q p.
Proof.
  intros E. unfold texp. rewrite E. destruct (decide (p = tp)) as [->|].
  - by rewrite lookup_insert_eq.
  - by rewrite lookup_insert_ne.
Qed.

Lemma set_timer_ok s l now tp ticks w arg :
  sys_timers_ok s l -> tp <> 0 -> 0 < now + ticks ->
  exists s', set_timer true s (Some now) tp ticks w arg = Some s' /\
    expiring s' = expiring s /\
    sys_timers_ok s' (insert_pos (timers s) l tp (now + ticks)).
Proof.
  intros [Hwf Hpos Hal] Htp Ht.
  pose proof (chain_nodup _ _ _ (wf_chain _ _ Hwf)) as Hnd.
  destruct (settimer_gen _ _ tp (now + ticks) w true Hwf Htp) as (q'&Hset&Hwf'&He&_).
  set (l' := insert_pos (timers s) l tp (now + ticks)) in *.
  assert (Hpos' : forall p, p ∈ l' -> 0 < texp q' p).
  { intros p Hp. rewrite (texp_insert _ _ _ _ p He). case_decide; [lia|].
    apply insert_pos_elem in Hp as [?|[? _]]; [done|auto|done]. }
  destruct (front_elem q' l' (insert_pos_nonempty _ _ _ _)) as (p&Hp&Hfp).
  pose proof (Hpos' p Hp) as Hfpos. rewrite <- Hfp in Hfpos.
  unfold set_timer. simpl. rewrite Hset. simpl.
  destruct (expiring s) eqn:Ee; simpl.
  - eexists. split_and!; [done..|]. split; simpl; [done..|]. congruence.
  - destruct (Z.eqb_spec (front (timers s) l) 0) as [E0|E0]; simpl.
    { eexists. split_and!; [done..|]. split; simpl; [done..|]. intros _ _. lia. }
    destruct (Z.ltb_spec (front q' l') (front (timers s) l)) as [Hlt|Hge].
    { eexists. split_and!; [done..|]. split; simpl; [done..|]. intros _ _. lia. }
    eexists. split_and!; [done..|]. split; simpl; [done..|]. intros _ _.
    assert (l <> []) as Hl by (by intros ->). specialize (Hal Hl eq_refl). lia.
Qed.

Lemma front_remove1_le q l tp : tmrq_wf q l -> remove1 tp l <> [] ->
  front q l <= front q (remove1 tp l).
Proof.
  intros Hwf Hne. destruct (front_elem q _ Hne) as (p&Hp&->). apply front_le; [done|].
  apply elem_of_remove1 in Hp as [? _]; [done|]. eapply chain_nodup, wf_chain, Hwf.
Qed.

Lemma cancel_timer_ok s l tp :
  sys_timers_ok s l -> tp <> 0 ->
  exists s', cancel_timer true s tp = Some s' /\ expiring s' = expiring s /\
    sys_timers_ok s' (remove1 tp l).
Proof.
  intros [Hwf Hpos Hal] Htp.
  pose proof (chain_nodup _ _ _ (wf_chain _ _ Hwf)) as Hnd.
  destruct (clrtimer_gen _ _ tp true Hwf Htp) as (q'&Hclr&Hwf'&He&_).
  set (l' := remove1 tp l) in *.
  assert (Heq : forall p, p ∈ l' -> texp q' p = texp (timers s) p).
  { intros p [_ Hp]%elem_of_remove1; [|done]. rewrite (texp_insert _ _ _ _ p He).
    by case_decide. }
  assert (Hpos' : forall p, p ∈ l' -> 0 < texp q' p).
  { intros p Hp. rewrite Heq by done. apply Hpos. by apply elem_of_remove1 in Hp as []. }
  assert (Hfr : l' <> [] -> front q' l' = front (timers s) l' /\ 0 < front q' l').
  { destruct l' as [|p l'']; [done|]. intros _. unfold front.
    rewrite Heq by set_solver. split; [done|]. rewrite <- (Heq p) by set_solver.
    apply Hpos'. set_solver. }
  unfold cancel_timer. rewrite Hclr. simpl.
  destruct (expiring s) eqn:Ee; simpl.
  { eexists. split_and!; [done..|]. split; simpl; [done..|]. congruence. }
  destruct (Z.ltb_spec (front (timers s) l) (front q' l')) as [Hlt|Hge]; simpl.
  { eexists. split_and!; [done..|]. split; simpl; [done..|].
    intros Hne _. destruct (Hfr Hne). lia. }
  destruct (Z.eqb_spec (front q' l') 0) as [E0|E0]; simpl.
  { eexists. split_and!; [done..|]. split; simpl; [done..|].
    intros Hne _. destruct (Hfr Hne). lia. }
  eexists. split_and!; [done..|]. split; simpl; [done..|]. intros Hne _.
  assert (l <> []) as Hl.
  { intros ->. apply Hne. unfold l'. by rewrite remove1_notin by set_solver. }
  specialize (Hal Hl eq_refl). destruct (Hfr Hne) as [Hf1 Hf2].
  pose proof (front_remove1_le _ _ tp Hwf Hne) as Hle. fold l' in Hle. lia.
Qed.

(** What [expire_timers] asks of the watchdog functions of a process at time
    [now]: they may set and cancel timers through the functions above, and
    the ones they set are not due. *)
Definition watchdogs_ok {B} (now : Z) (call : Z -> Z -> sys_timers * B -> option (sys_timers * B)) :=
  forall f tp s b l, expiring s = true -> sys_timers_ok s l ->
    exists s' b' l', call f tp (s, b) = Some (s', b') /\ sys_timers_ok s' l' /\
      (length (due (timers s') now l') <= length (due (timers s) now l))%nat.

(** The loop keeps the invariant of the timers and leaves none that is due. *)
Lemma expire_loop_ok {B} call now fuel q args al (b : B) l :
  watchdogs_ok now call ->
  sys_timers_ok (SysTimers q true args al) l -> (length (due q now l) < fuel)%nat ->
  exists q' args' al' b' l',
    exp_loop (expire_call call) fuel now (q, (args, al, b)) = Some (q', (args', al', b')) /\
    sys_timers_ok (SysTimers q' true args' al') l' /\ due q' now l' = [].
Proof.
  intros Hcall. revert q args al b l.
  induction fuel as [|fuel IH]; intros q args al b l Hok Hf; [lia|].
  simpl. destruct Hok as [Hwf Hpos Hal]; simpl in *. destruct l as [|p l].
  - rewrite (chain_nil_head _ _ (wf_chain _ _ Hwf)). simpl.
    exists q, args, al, b, []. split_and!; [done| |done]. by split.
  - destruct (popped_wf _ _ _ Hwf) as (nx&f&->&Hn0&Hnx&Hff&Hee&Hwf'&Ht).
    destruct (Z.eqb_spec (tmrs q) 0); [done|]. rewrite Hee. simpl.
    destruct (Z.leb_spec (texp q (tmrs q)) now) as [Hle|Hgt].
    + rewrite Hnx, Hff. simpl.
      destruct (Hcall f (tmrs q) (SysTimers (popped q nx) true args al) b l) as (s'&b'&l'&Hc&Hok'&Hd);
        [done| |].
      { split; simpl; [done| |done]. intros x Hx. rewrite Ht by done. apply Hpos. set_solver. }
      unfold popped in Hc at 1. rewrite Hc. simpl.
      destruct s' as [q' e' args' al']. simpl in *.
      apply (IH q' args' al' b' l').
      * destruct Hok' as [? ? _]. by split.
      * rewrite (due_popped _ _ _ _ _ Ht Hle) in Hf. lia.
    + exists q, args, al, b, (tmrs q :: l). split_and!; [done|by split|].
      unfold due. simpl. by destruct (Z.ltb_spec now (texp q (tmrs q))); [|lia].
Qed.

Lemma expire_timers_ok {B} call now s (b : B) l fuel :
  watchdogs_ok now call -> sys_timers_ok s l -> (length (due (timers s) now l) < fuel)%nat ->
  exists s' b' l', expire_timers true call fuel now s b = Some (s', b') /\
    expiring s' = false /\ sys_timers_ok s' l' /\ due (timers s') now l' = [].
Proof.
  intros Hcall Hok Hfuel. unfold expire_timers, tmrs_exptimers.
  destruct s as [q e args al]. simpl in *.
  destruct (expire_loop_ok call now fuel q args al b l Hcall)
    as (q'&args'&al'&b'&l'&Heq&[Hwf' Hpos' _]&Hdue).
  { destruct Hok as [? ? _]. by split. }
  { done. }
  simpl in *. rewrite Heq. simpl. rewrite (head_exp_front _ _ Hwf'). simpl.
  destruct (Z.ltb_spec 0 (front q' l')) as [Hlt|Hge]; simpl.
  - do 3 eexists. split_and!; [done|done| |done]. split; simpl; [done..|]. intros; lia.
  - do 3 eexists. split_and!; [done|done| |done]. split; simpl; [done..|].
    intros Hne _. exfalso. destruct (front_elem q' l' Hne) as (p&Hp&Hf).
    specialize (Hpos' p Hp). lia.
Qed.

(** ** Sample queues and watchdogs *)

Definition two_timers : tmrq :=
  TmrQ 16 (<[16 := 32]> (<[32 := 0]> ∅)) (<[16 := 5]> (<[32 := 9]> ∅)) (<[16 := 1]> (<[32 := 2]> ∅)).

Lemma two_timers_wf : tmrq_wf two_timers [16; 32].
Proof.
  split; cbn [tmr_next tmrs tmr_exp_time tmr_func two_timers].
  - repeat (econstructor; try done; try set_solver).
  - intros p. rewrite !elem_of_cons, elem_of_nil. intros [->|[->|[]]]; vm_compute; eauto.
  - intros p. rewrite !elem_of_cons, elem_of_nil. intros [->|[->|[]]]; vm_compute; eauto.
  - repeat constructor; vm_compute; done.
Qed.

(** A watchdog that sets its own timer again, for a later time. *)
Definition rearm (f tp : Z) (s : tmrq * unit) : option (tmrq * unit) :=
  if tp =? 0 then Some s
  else '(_, _, q) ← tmrs_settimer s.1 tp 100 f false; Some (q, s.2).

Lemma elem_of_due q now l p : tmrq_wf q l -> p ∈ due q now l <-> p ∈ l /\ texp q p <= now.
Proof.
  intros Hwf. destruct (sorted_due q now l Hwf) as [H1 H2]. split.
  - intros Hp. split; [|auto]. rewrite (due_later q now l). set_solver.
  - intros [Hp Ht]. rewrite (due_later q now l) in Hp. apply elem_of_app in Hp as [|Hp]; [done|].
    apply H2 in Hp. lia.
Qed.

Lemma rearm_well_behaved : well_behaved rearm 7.
Proof.
  intros f tp q a l Hwf. unfold rearm. destruct (Z.eqb_spec tp 0) as [|Htp]; [by exists q, a, l|].
  destruct (settimer_gen q l tp 100 f false Hwf Htp) as (q' & E & Hwf' & He & _). cbn [fst snd].
  rewrite E. cbn. exists q', a, (insert_pos q l tp 100). split_and!; [done|done|].
  pose proof (chain_nodup _ _ _ (wf_chain _ _ Hwf)) as Hnd.
  apply submseteq_length, NoDup_submseteq.
  - apply before_nodup. eapply chain_nodup, wf_chain, Hwf'.
  - intros p. rewrite !elem_of_due by done. rewrite (texp_insert _ _ _ _ p He).
    intros [Hp Ht]. apply insert_pos_elem in Hp; [|done]. case_decide; [lia|]. naive_solver.
Qed.

Definition idle_watchdog (f tp : Z) (s : sys_timers * unit) : option (sys_timers * unit) := Some s.

Lemma idle_watchdog_ok now : watchdogs_ok now idle_watchdog.
Proof. intros f tp s b l He Hok. exists s, b, l. by split_and!. Qed.

(** ** Theorems *)

(** C38: Setting a timer, new or already active, puts it into the queue exactly
    once, behind every timer that expires no later and in front of every timer
    that expires later, leaves the others in their order, and reports the
    earliest expiration before and after. *)
Theorem settimer_inserts_in_order q l tp t f :
  tmrq_wf q l -> tp <> 0 ->
  exists q' l1 l2, remove1 tp l = l1 ++ l2 /\
    tmrs_settimer q tp t f true = Some (front q l, Some (front q' (l1 ++ tp :: l2)), q') /\
    tmrq_wf q' (l1 ++ tp :: l2) /\
    Forall (fun p => texp q p <= t) l1 /\ Forall (fun p => t < texp q p) l2 /\
    tmr_func q' !! tp = Some f /\ texp q' tp = t.
Proof.
  intros Hwf Htp. destruct (settimer_gen q l tp t f true Hwf Htp) as (q' & E & Hwf' & He & Hf).
  pose proof (chain_nodup _ _ _ (wf_chain _ _ Hwf)) as Hnd.
  pose proof (sorted_cut (texp q) t _ (sorted_remove1 _ tp _ (wf_sorted _ _ Hwf))) as Hcut.
  set (stop := fun p => t <? texp q p).
  exists q', (before stop (remove1 tp l)), (from stop (remove1 tp l)).
  split; [by rewrite before_from|]. split; [exact E|]. split; [exact Hwf'|]. split_and!.
  - apply Forall_forall. apply Hcut.
  - apply Forall_forall. apply Hcut.
  - rewrite Hf. apply lookup_insert_eq.
  - unfold texp. rewrite He. by rewrite lookup_insert_eq.
Qed.


(** Expiring a queue comes to an end even when the watchdogs set and cancel
    timers, as long as they set none that is due already, and then no due timer
    is left. *)
Theorem exptimers_terminates {A} (call : Z -> Z -> tmrq * A -> option (tmrq * A)) now b q a l :
  well_behaved call now -> tmrq_wf q l ->
  exists nt q' a' l', tmrs_exptimers call (S (length l)) now b (q, a) = Some (nt, (q', a')) /\
    tmrq_wf q' l' /\ Forall (fun p => now < texp q' p) l'.
Proof.
  intros Hcall Hwf.
  destruct (exp_loop_total call now (S (length l)) q a l Hcall Hwf) as (q' & a' & l' & E & Hwf' & Hd).
  { pose proof (due_length q now l). lia. }
  unfold tmrs_exptimers. rewrite E. cbn. rewrite (head_exp_front _ _ Hwf').
  assert (Forall (fun p => now < texp q' p) l') as Hall.
  { apply Forall_forall. intros p Hp. pose proof (sorted_due q' now l' Hwf') as [_ H2]. apply H2.
    by rewrite (due_later q' now l'), Hd in Hp. }
  destruct b; cbn; do 4 eexists; by split_and!.
Qed.

(** ** The alarm of a system process *)

(** The calls a process makes; [now] is the time of the call. *)
Inductive timer_op :=
| SetTimer (now tp ticks watchdog arg : Z)
| CancelTimer (tp : Z)
| ExpireTimers (now : Z).

(** Timers are set on real structures and for a time after the start of the
    clock. *)
Definition timer_op_ok (op : timer_op) : Prop :=
  match op with
  | SetTimer now tp ticks _ _ => tp <> 0 /\ 0 < now + ticks
  | CancelTimer tp => tp <> 0
  | ExpireTimers _ => True
  end.

Section Alarm.
Context {B : Type} (call : Z -> Z -> sys_timers * B -> option (sys_timers * B)).

Definition timer_step (fuel : nat) (op : timer_op) (s : sys_timers * B) : option (sys_timers * B) :=
  match op with
  | SetTimer now tp ticks w arg =>
      s' ← set_timer true s.1 (Some now) tp ticks w arg; Some (s', s.2)
  | CancelTimer tp => s' ← cancel_timer true s.1 tp; Some (s', s.2)
  | ExpireTimers now => expire_timers true call fuel now s.1 s.2
  end.

Fixpoint timer_run (fuel : nat) (ops : list timer_op) (s : sys_timers * B) : option (sys_timers * B) :=
  match ops with
  | [] => Some s
  | op :: ops' => s' ← timer_step fuel op s; timer_run fuel ops' s'
  end.

Lemma expire_timers_mono fuel fuel' now s b r :
  (fuel <= fuel')%nat ->
  expire_timers true call fuel now s b = Some r -> expire_timers true call fuel' now s b = Some r.
Proof.
  intros Hle. unfold expire_timers, tmrs_exptimers.
  destruct (exp_loop _ fuel now _) as [x|] eqn:E; [|done].
  by rewrite (exp_loop_mono _ _ _ _ _ _ Hle E).
Qed.

Lemma timer_step_ok op s b l :
  (forall now, watchdogs_ok now call) -> timer_op_ok op -> sys_timers_ok s l -> expiring s = false ->
  exists fuel0 s' b' l', (forall fuel, (fuel0 <= fuel)%nat -> timer_step fuel op (s, b) = Some (s', b')) /\
    sys_timers_ok s' l' /\ expiring s' = false.
Proof.
  intros Hcall Hop Hok He. destruct op as [now tp ticks w arg|tp|now]; cbn [timer_step fst snd].
  - destruct Hop as [Htp Ht]. destruct (set_timer_ok s l now tp ticks w arg Hok Htp Ht) as (s' & -> & E & Hok').
    exists 0%nat, s', b. eexists. split_and!; [done|exact Hok'|congruence].
  - destruct (cancel_timer_ok s l tp Hok Hop) as (s' & -> & E & Hok').
    exists 0%nat, s', b. eexists. split_and!; [done|exact Hok'|congruence].
  - set (fuel0 := S (length (due (timers s) now l))).
    destruct (expire_timers_ok call now s b l fuel0) as (s' & b' & l' & E & E' & Hok' & _);
      [done|done|unfold fuel0; lia|].
    exists fuel0, s', b', l'. split_and!; [|done|done]. intros fuel Hf.
    by eapply expire_timers_mono.
Qed.

Lemma timer_run_ok ops s b l :
  (forall now, watchdogs_ok now call) -> Forall timer_op_ok ops ->
  sys_timers_ok s l -> expiring s = false ->
  exists fuel0 s' b' l', (forall fuel, (fuel0 <= fuel)%nat -> timer_run fuel ops (s, b) = Some (s', b')) /\
    sys_timers_ok s' l' /\ expiring s' = false.
Proof.
  intros Hcall Hops. revert s b l. induction Hops as [|op ops Hop _ IH]; intros s b l Hok He.
  - exists 0%nat, s, b, l. by split_and!.
  - destruct (timer_step_ok op s b l Hcall Hop Hok He) as (f1 & s1 & b1 & l1 & H1 & Hok1 & He1).
    destruct (IH s1 b1 l1 Hok1 He1) as (f2 & s2 & b2 & l2 & H2 & Hok2 & He2).
    exists (f1 + f2)%nat, s2, b2, l2. split_and!; [|done|done]. intros fuel Hf.
    cbn [timer_run]. rewrite H1 by lia. cbn. apply H2. lia.
Qed.
End Alarm.

Definition no_timers : sys_timers := SysTimers (TmrQ 0 ∅ ∅ ∅) false ∅ 0.

Lemma no_timers_ok : sys_timers_ok no_timers [].
Proof. split; [|set_solver|done]. split; [constructor|set_solver|set_solver|constructor]. Qed.


(** ** Witnesses *)

Lemma settimer_inserts_in_order_witness :
  exists q' l1 l2, [16; 32] = l1 ++ l2 /\
    tmrs_settimer two_timers 48 7 9 true = Some (5, Some (front q' (l1 ++ 48 :: l2)), q') /\
    tmrq_wf q' (l1 ++ 48 :: l2) /\
    Forall (fun p => texp two_timers p <= 7) l1 /\ Forall (fun p => 7 < texp two_timers p) l2 /\
    tmr_func q' !! 48 = Some 9 /\ texp q' 48 = 7.
Proof. apply (settimer_inserts_in_order two_timers [16; 32] 48 7 9 two_timers_wf). done. Defined.


Lemma exptimers_terminates_witness :
  exists nt q' a' l', tmrs_exptimers rearm 3 7 true (two_timers, tt) = Some (nt, (q', a')) /\
    tmrq_wf q' l' /\ Forall (fun p => 7 < texp q' p) l'.
Proof. apply (exptimers_terminates rearm 7 true two_timers tt [16; 32] rearm_well_behaved two_timers_wf). Defined.

