(* ===== verification/LsOs.v ===== *)
(** The data types of the logging server (servers/ls/proto.h) and the system
    services it calls, as an interface. *)

From S2P Require Import Prelude.
Local Open Scope Z_scope.

(** ** servers/ls/proto.h *)

Definition LS_MAX_LOGGER_NAME_LEN : nat := 32.
Definition LS_MAX_LOGGER_LOGFILE_PATH_LEN : nat := 64.
Definition LS_MAX_LOGGER_FORMAT_LEN : nat := 128.
Definition LS_MAX_PROC_NAME_LEN : nat := 2048.
Definition LS_MAX_MESSAGE_LEN : nat := 2048.

Inductive ls_log_destination_t :=
| LS_DESTINATION_FILE
| LS_DESTINATION_STDERR
| LS_DESTINATION_STDOUT.

Inductive ls_severity_level_t :=
| LS_SEV_TRACE
| LS_SEV_DEBUG
| LS_SEV_INFO
| LS_SEV_WARN.

#[global] Instance ls_log_destination_t_eq_dec : EqDecision ls_log_destination_t.
Proof. solve_decision. Defined.
#[global] Instance ls_severity_level_t_eq_dec : EqDecision ls_severity_level_t.
Proof. solve_decision. Defined.

(** The integer value of an enumerator. *)
Definition sev_int (s : ls_severity_level_t) : Z :=
  match s with
  | LS_SEV_TRACE => 0 | LS_SEV_DEBUG => 1 | LS_SEV_INFO => 2 | LS_SEV_WARN => 3
  end.

(** The enumerator an integer is cast to. *)
Definition int_sev (z : Z) : option ls_severity_level_t :=
  if z =? 0 then Some LS_SEV_TRACE
  else if z =? 1 then Some LS_SEV_DEBUG
  else if z =? 2 then Some LS_SEV_INFO
  else if z =? 3 then Some LS_SEV_WARN
  else None.

Record ls_logger_t := Logger {
  name : list Z;
  dest_type : ls_log_destination_t;
  severity : ls_severity_level_t;
  dest_filename : list Z;
  format : list Z;
  append : bool;
}.

(** A logger structure after [memset(&l, 0, sizeof l)]. *)
Definition logger_zero : ls_logger_t :=
  Logger (zeros LS_MAX_LOGGER_NAME_LEN) LS_DESTINATION_FILE LS_SEV_TRACE
    (zeros LS_MAX_LOGGER_LOGFILE_PATH_LEN) (zeros LS_MAX_LOGGER_FORMAT_LEN) false.

(** The run-time state of a logger.  The field [opened_by_name] of the source
    is never read or written. *)
Record ls_logger_state_t := LState {
  is_open : bool;
  st_severity : ls_severity_level_t;
  opened_by : Z;
  st_fd : Z;
  msg_buf : list Z;
}.

Definition lstate_zero : ls_logger_state_t :=
  LState false LS_SEV_TRACE 0 0 (zeros LS_MAX_MESSAGE_LEN).

Record ls_logger_list_t := Node {
  logger : ls_logger_t;
  state : ls_logger_state_t;
  ltail : Z;
}.

(** A slot of the process table of PM, as far as the server reads it
    (servers/pm/mproc.h). *)
Record mproc := MProc { mp_endpoint : Z; mp_name : list Z }.

(** ** System services *)

(** The flags of [open] the server uses; all false is [O_RDONLY]. *)
Record oflags := OFlags { o_wronly : bool; o_creat : bool; o_trunc : bool; o_append : bool }.
Definition O_RDONLY : oflags := OFlags false false false false.

(** The calendar time the clock driver reports. *)
Record tm := Tm { tm_year : Z; tm_mon : Z; tm_mday : Z; tm_hour : Z; tm_min : Z; tm_sec : Z }.

(** The objects the server allocates. *)
Inductive alloc := ABufio | AParser | ANode.

(** The services of the C library, of the other servers and of the kernel
    that the logging server calls, on a world [W].  [os_malloc] returns the
    address of the block and the word the block holds, before any
    initialisation, where [ls_logger_list_t] has its [tail] field.
    [mini_snprintf] is the formatter of the mini-printf submodule. *)
Class LsOs (W : Type) := {
  os_open : list Z -> oflags -> W -> Z * W;
  os_read : Z -> nat -> W -> option (list Z) * W;
  os_write : Z -> list Z -> W -> Z * W;
  os_close : Z -> W -> Z * W;
  os_fsync : Z -> W -> W;
  os_malloc : alloc -> W -> option (Z * Z) * W;
  os_free : Z -> W -> W;
  os_vircopy : Z -> Z -> Z -> W -> Z * list Z * W;
  os_getsysinfo : W -> Z * list mproc * W;
  os_rs_lookup : list Z -> W -> option Z * W;
  os_rtc_get_time : Z -> W -> option (Z * tm) * W;
  os_printf : list Z -> W -> W;
  mini_snprintf : nat -> list Z -> list Z -> list Z;
}.

(** The documented behaviour the server relies on.  A block the allocator
    returns is not NULL and not in use, and only [malloc] and [free] change
    which blocks are in use. *)
Class LsOsLaws (W : Type) `{LsOs W} := {
  os_live : W -> gset Z;
  live_open p f w : os_live (os_open p f w).2 = os_live w;
  live_read fd n w : os_live (os_read fd n w).2 = os_live w;
  live_write fd b w : os_live (os_write fd b w).2 = os_live w;
  live_close fd w : os_live (os_close fd w).2 = os_live w;
  live_fsync fd w : os_live (os_fsync fd w) = os_live w;
  live_vircopy who a n w : os_live (os_vircopy who a n w).2 = os_live w;
  live_getsysinfo w : os_live (os_getsysinfo w).2 = os_live w;
  live_rs_lookup k w : os_live (os_rs_lookup k w).2 = os_live w;
  live_rtc e w : os_live (os_rtc_get_time e w).2 = os_live w;
  live_printf b w : os_live (os_printf b w) = os_live w;
  live_malloc_ok a w p g :
    (os_malloc a w).1 = Some (p, g) ->
    (p <> 0) /\ (p ∉ os_live w) /\ os_live (os_malloc a w).2 = {[p]} ∪ os_live w;
  live_malloc_fail a w :
    (os_malloc a w).1 = None -> os_live (os_malloc a w).2 = os_live w;
  live_free p w : os_live (os_free p w) = os_live w ∖ {[p]};
  (** The bytes a descriptor still delivers: [read] may fail, and otherwise
      returns the next ones, as many as are asked for and left. *)
  os_unread : Z -> W -> list Z;
  unread_read fd n w : (os_read fd n w).1 <> None ->
    (os_read fd n w).1 = Some (take n (os_unread fd w)) /\
    os_unread fd (os_read fd n w).2 = drop n (os_unread fd w);
  unread_malloc fd a w : os_unread fd (os_malloc a w).2 = os_unread fd w;
  (** A copy that succeeds delivers exactly the bytes asked for, and one that
      fails no more than that. *)
  vircopy_ok who a n w : 0 <= n -> (os_vircopy who a n w).1.1 = OK ->
    length (os_vircopy who a n w).1.2 = Z.to_nat n;
  vircopy_le who a n w : 0 <= n ->
    (length (os_vircopy who a n w).1.2 <= Z.to_nat n)%nat;
}.

Create Rewrite HintDb live.
#[export] Hint Rewrite @live_open @live_read @live_write @live_close @live_fsync
  @live_vircopy @live_getsysinfo @live_rs_lookup @live_rtc @live_printf @live_free
  using typeclasses eauto : live.

Lemma int_sev_int s : int_sev (sev_int s) = Some s.
Proof. by destruct s. Qed.

Lemma sev_int_inj s s' : sev_int s = sev_int s' -> s = s'.
Proof. by destruct s, s'. Qed.

(** ** The state of the server process

    The nodes of the logger list by address, the globals of main.c and
    requests.c, and the world. *)
Record ls_state (W : Type) := LsState {
  heap : gmap Z ls_logger_list_t;
  g_loggers : Z;
  g_is_initialized : bool;
  proctable : list mproc;
  g_logbuf : list Z;
  world : W;
}.
Arguments LsState {W} _ _ _ _ _ _.
Arguments heap {W} _.
Arguments g_loggers {W} _.
Arguments g_is_initialized {W} _.
Arguments proctable {W} _.
Arguments g_logbuf {W} _.
Arguments world {W} _.

Section State.
Context {W : Type}.
Implicit Types s : ls_state W.

Definition set_heap (h : gmap Z ls_logger_list_t) s : ls_state W :=
  LsState h (g_loggers s) (g_is_initialized s) (proctable s) (g_logbuf s) (world s).
Definition set_g_loggers (p : Z) s : ls_state W :=
  LsState (heap s) p (g_is_initialized s) (proctable s) (g_logbuf s) (world s).
Definition set_initialized (b : bool) s : ls_state W :=
  LsState (heap s) (g_loggers s) b (proctable s) (g_logbuf s) (world s).
Definition set_proctable (t : list mproc) s : ls_state W :=
  LsState (heap s) (g_loggers s) (g_is_initialized s) t (g_logbuf s) (world s).
Definition set_g_logbuf (b : list Z) s : ls_state W :=
  LsState (heap s) (g_loggers s) (g_is_initialized s) (proctable s) b (world s).
Definition set_world (w : W) s : ls_state W :=
  LsState (heap s) (g_loggers s) (g_is_initialized s) (proctable s) (g_logbuf s) w.

(** A call of a system service. *)
Definition sys {A} (f : W -> A * W) : ST (ls_state W) A :=
  fun s => let '(a, w) := f (world s) in Some (a, set_world w s).

(** [p->field] for a node of the logger list. *)
Definition load (p : Z) : ST (ls_state W) ls_logger_list_t :=
  fun s => match heap s !! p with Some n => Some (n, s) | None => None end.

(** Storing into a node, which must exist. *)
Definition store (p : Z) (n : ls_logger_list_t) : ST (ls_state W) unit :=
  fun s => match heap s !! p with
           | Some _ => Some (tt, set_heap (<[p := n]> (heap s)) s)
           | None => None
           end.
End State.

Lemma sys_run {W A} (f : W -> A * W) (s : ls_state W) a w :
  f (world s) = (a, w) -> sys f s = Some (a, set_world w s).
Proof. unfold sys. by intros ->. Qed.

(** [for (l = p; l; l = l->tail) if (f(l)) return l; return NULL;]
    The fuel is one more than the number of nodes in memory, which is enough
    for a list that ends. *)
Fixpoint find_node (fuel : nat) (h : gmap Z ls_logger_list_t)
  (f : ls_logger_list_t -> bool) (p : Z) : option Z :=
  match fuel with
  | O => None
  | S fuel =>
      if p =? 0 then Some 0
      else n ← h !! p; if f n then Some p else find_node fuel h f (ltail n)
  end.
