(* ===== verification/LsBufio.v ===== *)
(** The buffered reader of the logging server: servers/ls/bufio.c. *)

From S2P Require Import Prelude LsOs.
Local Open Scope Z_scope.

Definition BUFFER_SIZE : nat := 4096.

(** The constants 0xffffffff and 0xfffffffe as values of type [int]. *)
Definition BUFIO_EOF : Z := i32 (2 ^ 32 - 1).
Definition BUFIO_ERR : Z := i32 (2 ^ 32 - 2).

(** [baddr] is the address of the structure itself. *)
Record bufio_t := Bufio {
  baddr : Z;
  fd : Z;
  buffer : list Z;
  off : nat;
  bsize : nat;
}.

Section Bufio.
Context {W : Type} `{LsOs W}.

(** The bytes read go to the front of the buffer. *)
Definition fill (buf bytes : list Z) : list Z := memcpy buf bytes (length bytes).

(** The block starts with unknown contents, of which nothing is ever read
    before it is filled; zeros stand for them. *)
Definition bufio_init (fd : Z) (w : W) : option bufio_t * W :=
  match os_malloc ABufio w with
  | (None, w1) => (None, w1)
  | (Some (ctx, _), w1) =>
      match os_read fd BUFFER_SIZE w1 with
      | (None, w2) => (None, os_free ctx w2)
      | (Some bytes, w2) =>
          (Some (Bufio ctx fd (fill (zeros BUFFER_SIZE) bytes) 0 (length bytes)), w2)
      end
  end.

(** [return ctx->buffer[ctx->off++];] *)
Definition next_byte (ctx : bufio_t) : Z * bufio_t :=
  (default 0 (buffer ctx !! off ctx),
   Bufio (baddr ctx) (fd ctx) (buffer ctx) (S (off ctx)) (bsize ctx)).

Definition bufio_next_char (ctx : bufio_t) (w : W) : Z * bufio_t * W :=
  if (bsize ctx <=? off ctx)%nat && (bsize ctx <? BUFFER_SIZE)%nat
  then (BUFIO_EOF, ctx, w)
  else if (bsize ctx <=? off ctx)%nat
  then
    match os_read (fd ctx) BUFFER_SIZE w with
    | (None, w1) => (BUFIO_ERR, Bufio (baddr ctx) (fd ctx) (buffer ctx) 0 0, w1)
    | (Some bytes, w1) =>
        (next_byte (Bufio (baddr ctx) (fd ctx) (fill (buffer ctx) bytes) 0 (length bytes)), w1)
    end
  else (next_byte ctx, w).

Definition bufio_free (ctx : bufio_t) (w : W) : W := os_free (baddr ctx) w.

(** The results of [n] successive calls. *)
Fixpoint bufio_run (n : nat) (ctx : bufio_t) (w : W) : list Z :=
  match n with
  | O => []
  | S n => let '(c, ctx', w') := bufio_next_char ctx w in c :: bufio_run n ctx' w'
  end.
End Bufio.

(** ** What the reader delivers for a regular file *)

#[local] Opaque BUFFER_SIZE.

Section Stream.
Context {W : Type} `{LsOs W}.
(** The descriptor and, in each world, the bytes of the file not read yet. *)
Context (fdr : Z) (rest : W -> list Z).

(** [read] on a regular file returns the next bytes, as many as are asked for
    and left. *)
Definition reads_file : Prop :=
  forall n w, (os_read fdr n w).1 = Some (take n (rest w)) /\
    rest (os_read fdr n w).2 = drop n (rest w).

(** The byte that a file of a positive multiple of the buffer size gets at
    its end: the first byte of its last block again. *)
Definition stale (content : list Z) : list Z :=
  if decide (content <> [] /\ (length content mod BUFFER_SIZE)%nat = 0%nat)
  then take 1 (drop (length content - BUFFER_SIZE) content)
  else [].

(** The bytes a reader still has to deliver. *)
Definition pending (ctx : bufio_t) : list Z := drop (off ctx) (take (bsize ctx) (buffer ctx)).

Definition leftover (ctx : bufio_t) (r : list Z) : list Z :=
  if decide (r = [])
  then (if decide (bsize ctx = BUFFER_SIZE) then take 1 (buffer ctx) else [])
  else stale r.

Record bufio_ok (ctx : bufio_t) (r : list Z) : Prop := {
  bo_fd : fd ctx = fdr;
  bo_len : length (buffer ctx) = BUFFER_SIZE;
  bo_size : (bsize ctx <= BUFFER_SIZE)%nat;
  bo_short : (bsize ctx < BUFFER_SIZE)%nat -> r = [];
}.

Lemma length_fill buf bytes :
  (length bytes <= length buf)%nat -> length (fill buf bytes) = length buf.
Proof. intros. unfold fill. apply length_memcpy; lia. Qed.

Lemma take_fill buf bytes : take (length bytes) (fill buf bytes) = bytes.
Proof. unfold fill, memcpy. by rewrite firstn_all, take_app_length. Qed.

Lemma fill_nil buf : fill buf [] = buf.
Proof. done. Qed.

Lemma take1_cons (l : list Z) : l <> [] -> take 1 l = [default 0 (l !! 0%nat)].
Proof. by destruct l. Qed.

Lemma drop1_take_drop (l : list Z) n : (0 < n)%nat -> drop 1 (take n l) ++ drop n l = drop 1 l.
Proof. destruct n, l; simpl; intros; [lia..|done|]. by rewrite drop_0, take_drop. Qed.

(** After a refill, what is left over at the end is decided by the bytes that
    were unread before it. *)
Lemma leftover_refill ctx r :
  length (buffer ctx) = BUFFER_SIZE -> r <> [] ->
  leftover (Bufio (baddr ctx) (fd ctx) (fill (buffer ctx) (take BUFFER_SIZE r)) 0
              (length (take BUFFER_SIZE r))) (drop BUFFER_SIZE r) = stale r.
Proof.
  intros Hlen Hr. unfold leftover. cbn [bsize buffer].
  assert (Hl : (0 < length r)%nat) by (destruct r; simpl; [done|lia]).
  rewrite length_take. destruct (decide (drop BUFFER_SIZE r = [])) as [E|E].
  - apply (f_equal length) in E. rewrite length_drop in E. simpl in E.
    unfold stale. case_decide as Hb.
    + assert (length r = BUFFER_SIZE) as Hr' by lia.
      rewrite decide_True by (split; [done|by rewrite Hr', Nat.Div0.mod_same]).
      rewrite Hr', Nat.sub_diag, drop_0. unfold fill, memcpy.
      rewrite (take_ge r) by lia. rewrite firstn_all.
      rewrite take_app_le by lia. done.
    + rewrite decide_False; [done|]. intros [_ Hm]. rewrite Nat.mod_small in Hm; lia.
  - unfold stale. rewrite length_drop.
    assert (BUFFER_SIZE < length r)%nat as Hlt.
    { destruct (Nat.le_gt_cases (length r) BUFFER_SIZE); [|done]. by rewrite drop_ge in E. }
    assert (length r = (length r - BUFFER_SIZE) + 1 * BUFFER_SIZE)%nat as Hsplit by lia.
    assert ((length r - BUFFER_SIZE) mod BUFFER_SIZE = length r mod BUFFER_SIZE)%nat as Hmod.
    { rewrite Hsplit at 2. by rewrite Nat.Div0.mod_add. }
    rewrite Hmod. destruct (decide (length r mod BUFFER_SIZE = 0)%nat) as [Hz|Hz].
    + rewrite !decide_True by done. rewrite drop_drop. f_equal. f_equal.
      assert (BUFFER_SIZE <= length r - BUFFER_SIZE)%nat; [|lia].
      destruct (Nat.le_gt_cases BUFFER_SIZE (length r - BUFFER_SIZE)) as [|Hs]; [done|].
      rewrite <- Hmod, Nat.mod_small in Hz by done. lia.
    + by rewrite !decide_False by tauto.
Qed.

Lemma next_char_step ctx w :
  reads_file -> bufio_ok ctx (rest w) ->
  match pending ctx ++ rest w ++ leftover ctx (rest w) with
  | [] => bufio_next_char ctx w = (BUFIO_EOF, ctx, w)
  | c :: f =>
      exists ctx' w', bufio_next_char ctx w = (c, ctx', w') /\ bufio_ok ctx' (rest w') /\
        pending ctx' ++ rest w' ++ leftover ctx' (rest w') = f
  end.
Proof.
  intros Hread [Hfd Hlen Hsz Hshort]. unfold bufio_next_char.
  destruct (Nat.leb_spec (bsize ctx) (off ctx)) as [Hoff|Hoff]; simpl.
  - assert (pending ctx = []) as -> by (unfold pending; rewrite drop_ge; [done|rewrite length_take; lia]).
    destruct (Nat.ltb_spec (bsize ctx) BUFFER_SIZE) as [Hlt|Hge].
    { rewrite (Hshort Hlt). unfold leftover. rewrite decide_True by done.
      by rewrite decide_False by lia. }
    assert (bsize ctx = BUFFER_SIZE) as Heq by lia. rewrite Hfd.
    destruct (Hread BUFFER_SIZE w) as [Hr1 Hr2].
    destruct (os_read fdr BUFFER_SIZE w) as [o w1]. simpl in Hr1, Hr2. subst o.
    cbn [app]. destruct (decide (rest w = [])) as [E|E].
    + unfold leftover. rewrite E, take_nil. rewrite decide_True by done. rewrite decide_True by done.
      rewrite E, drop_nil in Hr2.
      rewrite take1_cons by (intros Hb; rewrite Hb in Hlen; by compute in Hlen). cbn [app].
      do 2 eexists. split; [done|]. rewrite Hr2. split; [split; cbn [fd buffer bsize]|].
      * done.
      * by rewrite fill_nil.
      * simpl. lia.
      * done.
      * unfold pending, leftover. cbn [off bsize buffer length].
        rewrite decide_True, decide_False by done. by rewrite take_0, drop_nil.
    + pose proof (leftover_refill ctx (rest w) Hlen E) as Hlo.
      set (ctx1 := Bufio _ _ _ _ _) in Hlo.
      assert (0 < length (rest w))%nat by (destruct (rest w); simpl; [done|lia]).
      assert (Hp1 : pending ctx1 = take BUFFER_SIZE (rest w)).
      { unfold pending, ctx1. cbn [off bsize buffer]. by rewrite take_fill, drop_0. }
      destruct (rest w) as [|c r] eqn:Er; [done|]. cbn [app].
      exists (Bufio (baddr ctx1) fdr (buffer ctx1) 1 (bsize ctx1)), w1.
      split_and!.
      * unfold next_byte. cbn [off buffer baddr fd bsize]. done.
      * split; cbn [fd buffer bsize off]; [done| | |].
        -- unfold ctx1. cbn [buffer]. rewrite length_fill; [done|]. rewrite length_take. lia.
        -- unfold ctx1. cbn [bsize]. rewrite length_take. lia.
        -- unfold ctx1. cbn [bsize]. rewrite length_take, Hr2. intros. apply drop_ge. lia.
      * rewrite Hr2. unfold leftover in Hlo |- *. cbn [bsize buffer].
        fold ctx1. rewrite Hlo.
        assert (pending (Bufio (baddr ctx1) fdr (buffer ctx1) 1 (bsize ctx1)) =
                drop 1 (take BUFFER_SIZE (c :: r))) as ->.
        { rewrite <- Hp1. unfold pending. cbn [off bsize buffer]. unfold ctx1 at 3.
          cbn [off]. by rewrite drop_0. }
        rewrite app_assoc, drop1_take_drop; [done|]. rewrite <- Hlen. destruct (buffer ctx); simpl; [|lia].
        exfalso. by compute in Hlen.
  - destruct (lookup_lt_is_Some_2 (buffer ctx) (off ctx)) as [c Hc]; [lia|].
    assert (pending ctx = c :: drop (S (off ctx)) (take (bsize ctx) (buffer ctx))) as ->.
    { unfold pending. apply drop_S. by rewrite lookup_take_lt. }
    cbn [app]. unfold next_byte. rewrite Hc. do 2 eexists. split; [done|].
    split; [by split|]. done.
Qed.

Lemma bufio_run_spec n ctx w :
  reads_file -> bufio_ok ctx (rest w) ->
  bufio_run n ctx w =
  take n ((pending ctx ++ rest w ++ leftover ctx (rest w)) ++ replicate n BUFIO_EOF).
Proof.
  intros Hread. revert ctx w. induction n as [|n IH]; intros ctx w Hok; [by rewrite take_0|].
  pose proof (next_char_step ctx w Hread Hok) as Hstep. simpl bufio_run.
  destruct (pending ctx ++ rest w ++ leftover ctx (rest w)) as [|c f] eqn:E.
  - rewrite Hstep, IH, E by done. simpl. by rewrite !firstn_all2 by (rewrite length_replicate; lia).
  - destruct Hstep as (ctx'&w'&->&Hok'&Hf). rewrite IH, Hf by done.
    rewrite <- app_comm_cons, firstn_cons. f_equal. rewrite !take_app, !take_replicate. f_equal. f_equal. lia.
Qed.
End Stream.

(** ** The stream of a whole file *)

Section WholeFile.
Context {W : Type} `{LsOs W}.

Lemma bufio_init_ok (fdr : Z) (rest : W -> list Z) ctx w w' :
  reads_file fdr rest -> rest (os_malloc ABufio w).2 = rest w ->
  bufio_init fdr w = (Some ctx, w') ->
  bufio_ok fdr ctx (rest w') /\
  pending ctx ++ rest w' ++ leftover ctx (rest w') = rest w ++ stale (rest w).
Proof.
  intros Hread Hm. unfold bufio_init. destruct (os_malloc ABufio w) as [[[p g]|] w1]; [|done].
  simpl in Hm. destruct (Hread BUFFER_SIZE w1) as [Hr1 Hr2].
  destruct (os_read fdr BUFFER_SIZE w1) as [o w2]. simpl in Hr1, Hr2. subst o.
  intros [= <- <-]. rewrite Hm in *.
  assert (Hlen : length (zeros BUFFER_SIZE) = BUFFER_SIZE) by apply length_replicate.
  set (ctx0 := Bufio p fdr (zeros BUFFER_SIZE) 0 0).
  split; [split; cbn [LsBufio.fd buffer bsize]|].
  - done.
  - rewrite length_fill; [done|]. rewrite length_take. lia.
  - rewrite length_take. lia.
  - rewrite length_take, Hr2. intros. apply drop_ge. lia.
  - rewrite Hr2. unfold pending. cbn [off bsize buffer]. rewrite take_fill, drop_0, app_assoc, take_drop.
    f_equal. destruct (decide (rest w = [])) as [E|E].
    + rewrite E, take_nil, drop_nil. unfold leftover, stale. cbn [bsize length].
      rewrite decide_True, decide_False by done. by rewrite decide_False by tauto.
    + exact (leftover_refill ctx0 (rest w) Hlen E).
Qed.

(** C36: Reading a regular file character by character, from [bufio_init] on,
    delivers the bytes of the file in order and then end of file for ever; a
    file whose size is a positive multiple of the buffer size delivers one more
    byte before its end, the first byte of its last block again. *)
Theorem bufio_delivers_file (fdr : Z) (rest : W -> list Z) ctx w w' n :
  reads_file fdr rest -> rest (os_malloc ABufio w).2 = rest w ->
  bufio_init fdr w = (Some ctx, w') ->
  bufio_run n ctx w' = take n (rest w ++ stale (rest w) ++ replicate n BUFIO_EOF).
Proof.
  intros Hread Hm Hi. destruct (bufio_init_ok _ _ _ _ _ Hread Hm Hi) as [Hok E].
  rewrite (bufio_run_spec _ _ _ _ _ Hread Hok), E. by rewrite app_assoc.
Qed.
End WholeFile.
