(* ===== verification/LsConfig.v ===== *)
(** The configuration file parser of the logging server:
    servers/ls/config-parse.c. *)

From S2P Require Import Prelude Chain LsOs LsBufio.
Local Open Scope Z_scope.

Definition MAX_VALUE_LEN : nat := 2048.

Inductive parser_state_kind_t :=
| PARSE_LOGGER_KEYWORD
| PARSE_LOGGER_NAME
| PARSE_OPEN_BRACE
| PARSE_OPEN_BRACE_NEWLINE
| PARSE_CONFIG_OPTION_NAME
| PARSE_CONFIG_OPTION_EQUALS
| PARSE_CONFIG_VALUE.

#[global] Instance parser_state_kind_t_eq_dec : EqDecision parser_state_kind_t.
Proof. solve_decision. Defined.

(** A result, with the position of an error. *)
Inductive parser_result_t :=
| PARSE_OK
| PARSE_GOT_LOGGER
| PARSE_ERROR (error_line_no error_char_no : Z).

Record parser_state_t := PState {
  kind : parser_state_kind_t;
  line_no : Z;
  char_no : Z;
  consume_offset : nat;
  curr_value : list Z;
  option_name : list Z;
  curr_value_offset : nat;
  did_set_filename : bool;
  did_set_append : bool;
  did_set_type : bool;
  did_set_format : bool;
  current_logger : ls_logger_t;
}.

(** ** Field updates *)

Section Updates.
Implicit Types s : parser_state_t.

Definition with_kind k s :=
  PState k (line_no s) (char_no s) (consume_offset s) (curr_value s) (option_name s)
    (curr_value_offset s) (did_set_filename s) (did_set_append s) (did_set_type s)
    (did_set_format s) (current_logger s).
Definition with_pos l c s :=
  PState (kind s) l c (consume_offset s) (curr_value s) (option_name s)
    (curr_value_offset s) (did_set_filename s) (did_set_append s) (did_set_type s)
    (did_set_format s) (current_logger s).
Definition with_consume_offset o s :=
  PState (kind s) (line_no s) (char_no s) o (curr_value s) (option_name s)
    (curr_value_offset s) (did_set_filename s) (did_set_append s) (did_set_type s)
    (did_set_format s) (current_logger s).
Definition with_curr_value v s :=
  PState (kind s) (line_no s) (char_no s) (consume_offset s) v (option_name s)
    (curr_value_offset s) (did_set_filename s) (did_set_append s) (did_set_type s)
    (did_set_format s) (current_logger s).
Definition with_option_name v s :=
  PState (kind s) (line_no s) (char_no s) (consume_offset s) (curr_value s) v
    (curr_value_offset s) (did_set_filename s) (did_set_append s) (did_set_type s)
    (did_set_format s) (current_logger s).
Definition with_curr_value_offset o s :=
  PState (kind s) (line_no s) (char_no s) (consume_offset s) (curr_value s) (option_name s)
    o (did_set_filename s) (did_set_append s) (did_set_type s)
    (did_set_format s) (current_logger s).
Definition with_did_set f a t m s :=
  PState (kind s) (line_no s) (char_no s) (consume_offset s) (curr_value s) (option_name s)
    (curr_value_offset s) f a t m (current_logger s).
Definition with_current_logger l s :=
  PState (kind s) (line_no s) (char_no s) (consume_offset s) (curr_value s) (option_name s)
    (curr_value_offset s) (did_set_filename s) (did_set_append s) (did_set_type s)
    (did_set_format s) l.
End Updates.

(** ** The parser, character by character *)

(** [junk] is what the allocated block holds.  The source clears
    [current_logger] with the last two arguments of [memset] exchanged, which
    writes nothing. *)
Definition parse_init (junk : parser_state_t) : parser_state_t :=
  PState PARSE_LOGGER_KEYWORD 1 1 0 (curr_value junk) (option_name junk) 0
    false false false false (current_logger junk).

Definition parse_consumption (s : parser_state_t) (literal : list Z) (ch : Z)
  (next : parser_state_kind_t) : Z * parser_state_t :=
  if default 0 (literal !! consume_offset s) =? ch
  then
    let s1 := with_consume_offset (S (consume_offset s)) s in
    (0, if (strlen literal <=? consume_offset s1)%nat
        then with_curr_value_offset 0 (with_consume_offset 0 (with_kind next s1))
        else s1)
  else (-1, s).

Definition is_white (ch : Z) : bool := (ch =? SPACE) || (ch =? TAB).

Definition is_whitespace_invariant (s : parser_state_t) : bool :=
  match kind s with
  | PARSE_LOGGER_NAME => (curr_value_offset s =? 0)%nat
  | PARSE_LOGGER_KEYWORD => (consume_offset s =? 0)%nat
  | PARSE_CONFIG_OPTION_NAME => (curr_value_offset s =? 0)%nat
  | PARSE_CONFIG_VALUE => (curr_value_offset s =? 0)%nat
  | _ => true
  end.

Definition is_newline_invariant (s : parser_state_t) : bool :=
  match kind s with
  | PARSE_OPEN_BRACE => (consume_offset s =? 0)%nat
  | PARSE_LOGGER_KEYWORD => (consume_offset s =? 0)%nat
  | PARSE_CONFIG_OPTION_NAME => (curr_value_offset s =? 0)%nat
  | _ => false
  end.

Definition in_range (lo : ascii) (ch : Z) (hi : ascii) : bool :=
  (sc lo <=? ch) && (ch <=? sc hi).

Definition is_allowed_in_logger_name (ch : Z) : bool :=
  in_range "A" ch "Z" || in_range "a" ch "z" || in_range "0" ch "9" || (ch =? sc "_").

Definition is_allowed_in_config_option_name (ch : Z) : bool :=
  in_range "a" ch "z" || in_range "0" ch "9".

Definition set_parse_error (s : parser_state_t) : parser_result_t :=
  PARSE_ERROR (line_no s) (char_no s).

(** The option setters return the C result and the updated logger. *)
Definition set_logger_dest_type (v : list Z) (l : ls_logger_t) : Z * ls_logger_t :=
  let set d := (0, Logger (name l) d (severity l) (dest_filename l) (format l) (append l)) in
  if streq v $"file" then set LS_DESTINATION_FILE
  else if streq v $"stdout" then set LS_DESTINATION_STDOUT
  else if streq v $"stderr" then set LS_DESTINATION_STDERR
  else (-1, l).

Definition set_logger_severity (v : list Z) (l : ls_logger_t) : Z * ls_logger_t :=
  let set d := (0, Logger (name l) (dest_type l) d (dest_filename l) (format l) (append l)) in
  if streq v $"trace" then set LS_SEV_TRACE
  else if streq v $"debug" then set LS_SEV_DEBUG
  else if streq v $"info" then set LS_SEV_INFO
  else if streq v $"warn" then set LS_SEV_WARN
  else (-1, l).

Definition set_logger_append (v : list Z) (l : ls_logger_t) : Z * ls_logger_t :=
  let set d := (0, Logger (name l) (dest_type l) (severity l) (dest_filename l) (format l) d) in
  if streq v $"true" then set true
  else if streq v $"false" then set false
  else (-1, l).

(** [while ( *str && is_white( *str)) str++;] *)
Fixpoint trim (str : list Z) : list Z :=
  match str with
  | c :: str' => if negb (c =? 0) && is_white c then trim str' else str
  | [] => []
  end.

(** [memcpy(field, v, strlen(v) + 1); field[n - 1] = 0;] on a field of [n]
    bytes. *)
Definition copy_string (field v : list Z) (n : nat) : list Z :=
  <[(n - 1)%nat := 0]> (memcpy field (cstr v ++ [0]) (strlen v + 1)).

Definition set_logger_option (option_name option_value : list Z) (s : parser_state_t)
  : Z * parser_state_t :=
  let option_name := trim option_name in
  let option_value := trim option_value in
  let l := current_logger s in
  let fin (f a t m : bool) (r : Z * ls_logger_t) :=
    (r.1, with_current_logger r.2 (with_did_set f a t m s)) in
  let dfn := did_set_filename s in
  let dap := did_set_append s in
  let dty := did_set_type s in
  let dfm := did_set_format s in
  if streq option_name $"destination"
  then fin dfn dap true dfm (set_logger_dest_type option_value l)
  else if streq option_name $"severity"
  then fin dfn dap dty dfm (set_logger_severity option_value l)
  else if streq option_name $"format"
  then fin dfn dap dty true
    (if (LS_MAX_LOGGER_FORMAT_LEN - 1 <? strlen option_value)%nat then (-1, l)
     else (0, Logger (name l) (dest_type l) (severity l) (dest_filename l)
                (copy_string (format l) option_value LS_MAX_LOGGER_FORMAT_LEN) (append l)))
  else if streq option_name $"filename"
  then fin true dap dty dfm
    (if (LS_MAX_LOGGER_LOGFILE_PATH_LEN - 1 <? strlen option_value)%nat then (-1, l)
     else (0, Logger (name l) (dest_type l) (severity l)
                (copy_string (dest_filename l) option_value LS_MAX_LOGGER_LOGFILE_PATH_LEN)
                (format l) (append l)))
  else if streq option_name $"append"
  then fin dfn true dty dfm (set_logger_append option_value l)
  else (-1, s).

(** [TRY_PARSE] *)
Definition try_parse (r : Z * parser_state_t) : parser_result_t * parser_state_t :=
  (if r.1 <? 0 then set_parse_error r.2 else PARSE_OK, r.2).

(** [state->curr_value[state->curr_value_offset++] = ch;] *)
Definition push_char (ch : Z) (s : parser_state_t) : parser_state_t :=
  with_curr_value_offset (S (curr_value_offset s))
    (with_curr_value (<[curr_value_offset s := ch]> (curr_value s)) s).

(** [state->curr_value[state->curr_value_offset] = 0;] *)
Definition end_value (s : parser_state_t) : parser_state_t :=
  with_curr_value (<[curr_value_offset s := 0]> (curr_value s)) s.

Definition advance_logger_name (s : parser_state_t) (ch : Z) : parser_result_t * parser_state_t :=
  if is_allowed_in_logger_name ch && (curr_value_offset s <? LS_MAX_LOGGER_NAME_LEN - 1)%nat
  then (PARSE_OK, push_char ch s)
  else if is_white ch || (ch =? NL)
  then
    let s1 := end_value s in
    let l := Logger (memcpy (name logger_zero) (curr_value s1) (curr_value_offset s1 + 1))
               (dest_type logger_zero) (severity logger_zero) (dest_filename logger_zero)
               (format logger_zero) (append logger_zero) in
    (PARSE_OK, with_consume_offset 0 (with_kind PARSE_OPEN_BRACE (with_current_logger l s1)))
  else (set_parse_error s, s).

Definition advance_option_name (s : parser_state_t) (ch : Z) : parser_result_t * parser_state_t :=
  if is_allowed_in_config_option_name ch && (curr_value_offset s <? MAX_VALUE_LEN - 1)%nat
  then (PARSE_OK, push_char ch s)
  else if ch =? sc "}"
  then (PARSE_GOT_LOGGER, with_consume_offset 0 (with_kind PARSE_LOGGER_KEYWORD s))
  else if ((ch =? sc "=") || is_white ch) && (0 <? curr_value_offset s)%nat
  then
    let k := if ch =? sc "=" then PARSE_CONFIG_VALUE else PARSE_CONFIG_OPTION_EQUALS in
    let s1 := end_value (with_kind k s) in
    let s2 := with_option_name
                (memcpy (option_name s1) (curr_value s1) (curr_value_offset s1 + 1)) s1 in
    (PARSE_OK, with_curr_value_offset 0 (with_consume_offset 0 s2))
  else (set_parse_error s, s).

Definition advance_config_value (s : parser_state_t) (ch : Z) : parser_result_t * parser_state_t :=
  if ch =? NL
  then
    let s1 := end_value (with_kind PARSE_CONFIG_OPTION_NAME s) in
    let '(r, s2) := set_logger_option (option_name s1) (curr_value s1) s1 in
    if negb (r =? 0) then (set_parse_error s2, s2)
    else (PARSE_OK, with_consume_offset 0 (with_curr_value_offset 0 s2))
  else if (curr_value_offset s <? MAX_VALUE_LEN - 1)%nat
  then (PARSE_OK, push_char ch s)
  else (set_parse_error s, s).

Definition parse_advance (s0 : parser_state_t) (ch : Z) : parser_result_t * parser_state_t :=
  let s := if ch =? NL then with_pos (line_no s0 + 1) 0 s0
           else with_pos (line_no s0) (char_no s0 + 1) s0 in
  if (is_white ch && is_whitespace_invariant s) || ((ch =? NL) && is_newline_invariant s)
  then (PARSE_OK, s)
  else
    match kind s with
    | PARSE_LOGGER_KEYWORD =>
        try_parse (parse_consumption (with_did_set false false false false s)
                     $"logger" ch PARSE_LOGGER_NAME)
    | PARSE_OPEN_BRACE => try_parse (parse_consumption s $"{" ch PARSE_OPEN_BRACE_NEWLINE)
    | PARSE_OPEN_BRACE_NEWLINE => try_parse (parse_consumption s [NL] ch PARSE_CONFIG_OPTION_NAME)
    | PARSE_CONFIG_OPTION_EQUALS => try_parse (parse_consumption s $"=" ch PARSE_CONFIG_VALUE)
    | PARSE_LOGGER_NAME => advance_logger_name s ch
    | PARSE_CONFIG_OPTION_NAME => advance_option_name s ch
    | PARSE_CONFIG_VALUE => advance_config_value s ch
    end.

(** ** Validation and the file loop *)

(** The checks of [is_logger_valid] after the one for a duplicate name. *)
Definition options_valid (s : parser_state_t) : bool :=
  let l := current_logger s in
  let is_file := bool_decide (dest_type l = LS_DESTINATION_FILE) in
  if negb (did_set_format s) then false
  else if negb (did_set_type s) then false
  else if did_set_filename s && negb is_file then false
  else if did_set_append s && negb is_file then false
  else if is_file && negb (did_set_filename s) then false
  else true.

Section ConfigFile.
Context {W : Type} `{LsOs W}.

(** [is_logger_valid(state, head)] *)
Definition is_logger_valid (ps : parser_state_t) (head : Z) : ST (ls_state W) bool :=
  s ← get;
  dup ← opt (find_node (S (size (heap s))) (heap s)
               (fun n => streq (name (current_logger ps)) (name (logger n))) head);
  if negb (dup =? 0) then mret false else mret (options_valid ps).

(** How the reading loop ends: by a [goto] with the value of [ret], or by
    the condition of the loop with the last character read. *)
Inductive loop_exit :=
| GotoDeallocBufio (ret : Z)
| GotoDeallocLoggers (ret : Z)
| LoopDone (c : Z).

(** [new->logger = state->current_logger; memset(&new->state, 0, ...);
    if (last) last->tail = new;]  The field [tail] of the new node keeps
    what the block holds, [junk]. *)
Definition add_node (p junk : Z) (lg : ls_logger_t) (last : Z) : ST (ls_state W) unit :=
  modify (fun s => set_heap (<[p := Node lg lstate_zero junk]> (heap s)) s);;
  (if last =? 0 then mret tt else n ← load last; store last (Node (logger n) (state n) p)).

(** [while (c != BUFIO_EOF && c != BUFIO_ERR) ...] *)
Fixpoint parse_loop (fuel : nat) (ps : parser_state_t) (bio : bufio_t) (c head last : Z)
  : ST (ls_state W) (loop_exit * bufio_t * Z) :=
  match fuel with
  | O => ub
  | S fuel =>
      if (c =? BUFIO_EOF) || (c =? BUFIO_ERR) then mret (LoopDone c, bio, head)
      else
        let '(res, ps) := parse_advance ps c in
        let continue head last :=
          '(c', bio') ← sys (fun w => bufio_next_char bio w);
          parse_loop fuel ps bio' c' head last in
        match res with
        | PARSE_ERROR _ _ => mret (GotoDeallocBufio EINVAL, bio, head)
        | PARSE_OK => continue head last
        | PARSE_GOT_LOGGER =>
            valid ← is_logger_valid ps head;
            if negb valid then mret (GotoDeallocLoggers EINVAL, bio, head)
            else
              new ← sys (os_malloc ANode);
              match new with
              | None => mret (GotoDeallocLoggers ENOMEM, bio, head)
              | Some (p, junk) =>
                  add_node p junk (current_logger ps) last;;
                  continue (if head =? 0 then p else head) p
              end
        end
  end.

(** [for (l = p; l; l = nxt) { nxt = l->tail; free(l); }] *)
Fixpoint free_loggers (fuel : nat) (p : Z) : ST (ls_state W) unit :=
  match fuel with
  | O => ub
  | S fuel =>
      if p =? 0 then mret tt
      else
        n ← load p;
        modify (fun s => set_heap (delete p (heap s)) s);;
        sys (fun w => (tt, os_free p w));;
        free_loggers fuel (ltail n)
  end.

Definition free_logger_list (p : Z) : ST (ls_state W) unit :=
  s ← get; free_loggers (S (size (heap s))) p.

(** [parse_config_file(filename, &g_loggers)].  [junk] is the block
    [parse_init] allocates, and [fuel] bounds the number of characters. *)
Definition parse_config_file (fuel : nat) (junk : parser_state_t) (filename : list Z)
  : ST (ls_state W) Z :=
  fd ← sys (os_open filename O_RDONLY);
  if fd <? 0 then mret fd
  else
    let close_fd ret := sys (os_close fd);; mret ret in
    bio ← sys (bufio_init fd);
    match bio with
    | None => close_fd ENOMEM
    | Some bio =>
        let dealloc_bufio bio ret := sys (fun w => (tt, bufio_free bio w));; close_fd ret in
        st ← sys (os_malloc AParser);
        match st with
        | None => dealloc_bufio bio ENOMEM
        | Some _ =>
            '(c, bio) ← sys (fun w => bufio_next_char bio w);
            '(ex, bio, head) ← parse_loop fuel (parse_init junk) bio c 0 0;
            match ex with
            | GotoDeallocBufio ret => dealloc_bufio bio ret
            | GotoDeallocLoggers ret => free_logger_list head;; dealloc_bufio bio ret
            | LoopDone c =>
                if c =? BUFIO_ERR
                then free_logger_list head;; dealloc_bufio bio EIO
                else modify (set_g_loggers head);; dealloc_bufio bio OK
            end
        end
    end.
End ConfigFile.
