(* ===== verification/LsParse.v ===== *)
(** Correctness of the configuration parser of [LsConfig]: its invariant,
    which bounds every write to its buffers, what the loggers it accepts
    satisfy, and that it reads back a printed configuration. *)

From S2P Require Import Prelude LsOs LsBufio LsConfig.
Local Open Scope Z_scope.

#[local] Arguments zeros : simpl never.

(** ** The invariant *)

(** A buffer of [n] bytes that holds a terminated string. *)
Definition holds_string (n : nat) (b : list Z) : Prop :=
  length b = n /\ (strlen b < n)%nat.

(** A logger whose strings are terminated within their fields and whose name
    is made of the characters the parser allows. *)
Record logger_wf (l : ls_logger_t) : Prop := {
  lw_name : holds_string LS_MAX_LOGGER_NAME_LEN (name l);
  lw_chars : Forall (fun c => is_allowed_in_logger_name c = true) (cstr (name l));
  lw_file : holds_string LS_MAX_LOGGER_LOGFILE_PATH_LEN (dest_filename l);
  lw_format : holds_string LS_MAX_LOGGER_FORMAT_LEN (format l);
}.

(** Inside the braces: the fields that no option has set yet are clear. *)
Record inside (ps : parser_state_t) : Prop := {
  in_logger : logger_wf (current_logger ps);
  in_filename : did_set_filename ps = false -> cstr (dest_filename (current_logger ps)) = [];
  in_append : did_set_append ps = false -> append (current_logger ps) = false;
}.

Record parser_wf (ps : parser_state_t) : Prop := {
  pw_value : length (curr_value ps) = MAX_VALUE_LEN;
  pw_option : length (option_name ps) = MAX_VALUE_LEN;
  pw_offset : (curr_value_offset ps < MAX_VALUE_LEN)%nat;
  pw_consume : match kind ps with
               | PARSE_LOGGER_KEYWORD => (consume_offset ps < strlen $"logger")%nat
               | _ => consume_offset ps = 0%nat
               end;
  pw_kind : match kind ps with
            | PARSE_LOGGER_KEYWORD => True
            | PARSE_LOGGER_NAME =>
                (curr_value_offset ps < LS_MAX_LOGGER_NAME_LEN)%nat /\
                Forall (fun c => is_allowed_in_logger_name c = true)
                  (take (curr_value_offset ps) (curr_value ps)) /\
                did_set_filename ps = false /\ did_set_append ps = false
            | PARSE_CONFIG_OPTION_EQUALS | PARSE_CONFIG_VALUE =>
                inside ps /\ (strlen (option_name ps) < MAX_VALUE_LEN)%nat
            | _ => inside ps
            end;
}.

(** A state outside every logger, as [parse_init] leaves it. *)
Lemma parse_init_wf junk :
  length (curr_value junk) = MAX_VALUE_LEN -> length (option_name junk) = MAX_VALUE_LEN ->
  parser_wf (parse_init junk).
Proof. intros. split; simpl; unfold MAX_VALUE_LEN in *; [done..|lia| |done]. compute. lia. Qed.

(** ** String fields *)

Definition pad (n : nat) (v : list Z) : list Z := v ++ zeros (n - length v).

Lemma copy_string_shape field v n :
  length field = n -> (strlen v < n)%nat ->
  exists r, copy_string field v n = cstr v ++ 0 :: r.
Proof.
  intros Hf Hv. unfold copy_string, memcpy. rewrite take_ge.
  2: { unfold strlen. rewrite length_app. simpl. lia. }
  rewrite <- app_assoc. simpl. unfold strlen in *.
  replace (n - 1)%nat with (length (cstr v) + (n - 1 - length (cstr v)))%nat by lia.
  rewrite insert_app_r. destruct (n - 1 - length (cstr v))%nat; simpl; eauto.
Qed.

Lemma copy_string_cstr field v n :
  length field = n -> (strlen v < n)%nat -> cstr (copy_string field v n) = cstr v.
Proof.
  intros Hf Hv. destruct (copy_string_shape field v n Hf Hv) as [r ->].
  by rewrite cstr_app_nul by apply cstr_nonul.
Qed.

Lemma copy_string_holds field v n :
  length field = n -> (strlen v < n)%nat -> holds_string n (copy_string field v n).
Proof.
  intros Hf Hv. split.
  - unfold copy_string. rewrite length_insert, length_memcpy; [done| |lia].
    unfold strlen. rewrite length_app. simpl. lia.
  - unfold strlen. by rewrite copy_string_cstr.
Qed.

Lemma zeros_holds n : (0 < n)%nat -> holds_string n (zeros n).
Proof. split; [apply length_replicate|]. unfold strlen. by rewrite cstr_zeros. Qed.

Lemma drop_zeros n m : drop n (zeros m) = zeros (m - n).
Proof. unfold zeros. apply drop_replicate. Qed.

(** The name of a logger, cut out of the value buffer. *)
Lemma name_field (cv : list Z) off n :
  (off < length cv)%nat -> (off < n)%nat ->
  memcpy (zeros n) (<[off := 0%Z]> cv) (off + 1) = pad n (take off cv).
Proof.
  intros Hcv Hn. unfold memcpy, pad. rewrite take_insert_end, drop_zeros, length_take by done.
  rewrite <- app_assoc. f_equal. replace (n - Nat.min off (length cv))%nat with (S (n - (off + 1))) by lia.
  done.
Qed.

Lemma length_pad n v : (length v <= n)%nat -> length (pad n v) = n.
Proof. intros. unfold pad, zeros. rewrite length_app, length_replicate. lia. Qed.

Lemma cstr_pad n v : Forall (fun c => c <> 0) v -> cstr (pad n v) = v.
Proof. intros. unfold pad. rewrite cstr_app_nonul, cstr_zeros by done. by rewrite app_nil_r. Qed.

Lemma pad_holds n v :
  Forall (fun c => c <> 0) v -> (length v < n)%nat -> holds_string n (pad n v).
Proof. split; [apply length_pad; lia|]. unfold strlen. by rewrite cstr_pad. Qed.

(** Allowed characters are positive. *)
Lemma allowed_name_pos c : is_allowed_in_logger_name c = true -> 0 < c.
Proof.
  unfold is_allowed_in_logger_name, in_range, sc. simpl. repeat zcase; simpl; try done; lia.
Qed.

Lemma allowed_nonul l :
  Forall (fun c => is_allowed_in_logger_name c = true) l -> Forall (fun c => c <> 0) l.
Proof. intros Hl. eapply Forall_impl; [exact Hl|]. intros c Hc%allowed_name_pos. lia. Qed.

(** ** Every step preserves the invariant *)

Lemma trim_strlen b : (strlen (trim b) <= strlen b)%nat.
Proof.
  unfold strlen. induction b as [|c b IH]; [done|]. cbn [trim].
  destruct (negb (c =? 0) && is_white c) eqn:E; [|done]. cbn [cstr].
  destruct (c =? 0); [done|]. simpl. lia.
Qed.

Lemma inside_ext ps ps' :
  inside ps -> current_logger ps' = current_logger ps ->
  did_set_filename ps' = did_set_filename ps -> did_set_append ps' = did_set_append ps -> inside ps'.
Proof. intros [? Hf Ha] E1 E2 E3. split; rewrite E1; [done|by rewrite E2|by rewrite E3]. Qed.
#[local] Hint Resolve inside_ext : core.

Lemma with_pos_wf l c ps : parser_wf ps -> parser_wf (with_pos l c ps).
Proof. intros [? ? ? ? Hk]. split; cbn; try done. destruct (kind ps); naive_solver eauto. Qed.

(** The setters keep a logger well-formed. *)
Lemma dest_type_wf v l : logger_wf l -> logger_wf (set_logger_dest_type v l).2.
Proof. intros []. unfold set_logger_dest_type. by repeat case_match. Qed.

Lemma severity_wf v l : logger_wf l -> logger_wf (set_logger_severity v l).2.
Proof. intros []. unfold set_logger_severity. by repeat case_match. Qed.

Lemma append_wf v l : logger_wf l -> logger_wf (set_logger_append v l).2.
Proof. intros []. unfold set_logger_append. by repeat case_match. Qed.

Lemma option_inside v nm ps :
  inside ps -> inside (set_logger_option nm v ps).2.
Proof.
  intros [Hl Hf Ha]. unfold set_logger_option. pose proof Hl as [? ? [Hfl ?] [Hfm ?]].
  case_match; [|case_match; [|case_match; [|case_match; [|case_match; [|by split]]]]];
    split; cbn [snd current_logger with_current_logger with_did_set did_set_filename did_set_append];
    try done.
  - by apply dest_type_wf.
  - intros. rewrite <- Hf by done. unfold set_logger_dest_type. by repeat case_match.
  - intros. rewrite <- Ha by done. unfold set_logger_dest_type. by repeat case_match.
  - by apply severity_wf.
  - intros. rewrite <- Hf by done. unfold set_logger_severity. by repeat case_match.
  - intros. rewrite <- Ha by done. unfold set_logger_severity. by repeat case_match.
  - case_match; [done|]. split; cbn; try done. apply copy_string_holds; [done|].
    by match goal with H : (_ <? _)%nat = false |- _ => apply Nat.ltb_ge in H; unfold LS_MAX_LOGGER_FORMAT_LEN in *; lia end.
  - intros. case_match; cbn; auto.
  - intros. case_match; cbn; auto.
  - case_match; [done|]. split; cbn; try done. apply copy_string_holds; [done|].
    by match goal with H : (_ <? _)%nat = false |- _ => apply Nat.ltb_ge in H; unfold LS_MAX_LOGGER_LOGFILE_PATH_LEN in *; lia end.
  - intros. case_match; cbn; auto.
  - by apply append_wf.
  - intros. rewrite <- Hf by done. unfold set_logger_append. by repeat case_match.
Qed.

Lemma option_frame v nm ps :
  let ps' := (set_logger_option nm v ps).2 in
  kind ps' = kind ps /\ consume_offset ps' = consume_offset ps /\ curr_value ps' = curr_value ps /\
  option_name ps' = option_name ps /\ curr_value_offset ps' = curr_value_offset ps.
Proof. unfold set_logger_option. by repeat case_match. Qed.

Lemma take_S_insert (l : list Z) n v :
  (n < length l)%nat -> take (S n) (<[n := v]> l) = take n l ++ [v].
Proof. rewrite <- Nat.add_1_r. apply take_insert_end. Qed.

Lemma advance_logger_name_wf ps ch :
  kind ps = PARSE_LOGGER_NAME -> parser_wf ps -> parser_wf (advance_logger_name ps ch).2.
Proof.
  intros Hk Hwf. pose proof Hwf as [Hv Ho Hoff Hc Hkind]. rewrite Hk in Hc, Hkind. destruct Hkind as (Hn & Hall & Hf & Ha).
  unfold advance_logger_name, push_char, end_value.
  destruct (is_allowed_in_logger_name ch && _) eqn:E; [|destruct (is_white ch || _)];
    [| |exact Hwf].
  - apply andb_true_iff in E as [Hch Hlt%Nat.ltb_lt].
    split; cbn [curr_value option_name curr_value_offset kind consume_offset with_curr_value
      with_curr_value_offset snd did_set_filename did_set_append]; rewrite ?Hk, ?length_insert; try done.
    + unfold LS_MAX_LOGGER_NAME_LEN, MAX_VALUE_LEN in *; lia.
    + split_and!; [lia| |done|done]. rewrite take_S_insert by lia. apply Forall_app; auto.
  - split; cbn [curr_value option_name curr_value_offset kind consume_offset with_curr_value
      with_consume_offset with_kind with_current_logger snd]; rewrite ?length_insert; try done.
    assert (Forall (fun c => c <> 0) (take (curr_value_offset ps) (curr_value ps))) by by apply allowed_nonul.
    assert (length (take (curr_value_offset ps) (curr_value ps)) < LS_MAX_LOGGER_NAME_LEN)%nat
      by (rewrite length_take; lia).
    split; cbn [current_logger with_current_logger with_consume_offset with_kind dest_filename append
      did_set_filename did_set_append]; [split; cbn [name dest_filename format logger_zero]| |done].
    + rewrite name_field by lia. by apply pad_holds.
    + rewrite name_field by lia. by rewrite cstr_pad.
    + apply zeros_holds. unfold LS_MAX_LOGGER_LOGFILE_PATH_LEN. lia.
    + apply zeros_holds. unfold LS_MAX_LOGGER_FORMAT_LEN. lia.
    + intros _. apply cstr_zeros.
Qed.

Lemma advance_option_name_wf ps ch :
  kind ps = PARSE_CONFIG_OPTION_NAME -> parser_wf ps -> parser_wf (advance_option_name ps ch).2.
Proof.
  intros Hk Hwf. pose proof Hwf as [Hv Ho Hoff Hc Hkind]. rewrite Hk in Hc, Hkind.
  unfold advance_option_name, push_char, end_value.
  destruct (is_allowed_in_config_option_name ch && _) eqn:E;
    [|destruct (ch =? sc "}"); [|destruct (((ch =? sc "=") || is_white ch) && _)]];
    [| | |exact Hwf].
  - apply andb_true_iff in E as [_ Hlt%Nat.ltb_lt].
    split; cbn [curr_value option_name curr_value_offset kind consume_offset with_curr_value
      with_curr_value_offset snd]; rewrite ?Hk, ?length_insert; try done; [lia|eauto].
  - split; cbn [curr_value option_name curr_value_offset kind consume_offset
      with_consume_offset with_kind snd]; try done. compute; lia.
  - assert (length (memcpy (option_name ps) (<[curr_value_offset ps := 0%Z]> (curr_value ps))
      (curr_value_offset ps + 1)) = MAX_VALUE_LEN) as Hlen.
    { rewrite length_memcpy; rewrite ?length_insert; lia. }
    assert (strlen (memcpy (option_name ps) (<[curr_value_offset ps := 0%Z]> (curr_value ps))
      (curr_value_offset ps + 1)) < MAX_VALUE_LEN)%nat as Hstr.
    { unfold memcpy. rewrite take_insert_end, <- app_assoc by lia.
      eapply Nat.le_lt_trans; [apply strlen_app_nul|]. rewrite length_take. lia. }
    split; cbn [curr_value option_name curr_value_offset kind consume_offset with_curr_value
      with_curr_value_offset with_option_name with_consume_offset with_kind snd];
      rewrite ?length_insert; try done.
    + unfold MAX_VALUE_LEN; lia.
    + by destruct (ch =? sc "=").
    + destruct (ch =? sc "="); eauto.
Qed.

Lemma advance_config_value_wf ps ch :
  kind ps = PARSE_CONFIG_VALUE -> parser_wf ps -> parser_wf (advance_config_value ps ch).2.
Proof.
  intros Hk Hwf. pose proof Hwf as [Hv Ho Hoff Hc Hkind]. rewrite Hk in Hc, Hkind. destruct Hkind as [Hin Hstr].
  unfold advance_config_value, push_char.
  destruct (ch =? NL); [|destruct (Nat.ltb_spec (curr_value_offset ps) (MAX_VALUE_LEN - 1))].
  - set (s1 := end_value (with_kind PARSE_CONFIG_OPTION_NAME ps)).
    assert (inside s1) as Hin1 by eauto.
    pose proof (option_inside (curr_value s1) (option_name s1) s1 Hin1) as Hin2.
    pose proof (option_frame (curr_value s1) (option_name s1) s1) as Hfr. cbv zeta in Hfr.
    destruct (set_logger_option _ _ _) as [r s2]. cbn [snd] in *.
    destruct Hfr as (Ek & Ec & Ev & En & Eo).
    assert (length (curr_value s1) = MAX_VALUE_LEN) by (cbn; by rewrite length_insert).
    destruct (negb (r =? 0)); split; cbn [curr_value option_name curr_value_offset kind consume_offset
      with_curr_value_offset with_consume_offset snd]; rewrite ?Ek, ?Ec, ?Ev, ?En, ?Eo; cbn [s1 end_value
      with_curr_value with_kind kind]; try done; [unfold MAX_VALUE_LEN; lia|eauto].
  - split; cbn [curr_value option_name curr_value_offset kind consume_offset with_curr_value
      with_curr_value_offset snd]; rewrite ?Hk, ?length_insert; try done; [lia|eauto].
  - exact Hwf.
Qed.

(** The states that consume a literal of one character. *)
Lemma parse_consumption_wf ps lit ch next :
  kind ps = PARSE_OPEN_BRACE \/ kind ps = PARSE_OPEN_BRACE_NEWLINE \/
  kind ps = PARSE_CONFIG_OPTION_EQUALS ->
  strlen lit = 1%nat ->
  next = PARSE_OPEN_BRACE_NEWLINE \/ next = PARSE_CONFIG_OPTION_NAME \/
  (next = PARSE_CONFIG_VALUE /\ kind ps = PARSE_CONFIG_OPTION_EQUALS) ->
  parser_wf ps -> parser_wf (parse_consumption ps lit ch next).2.
Proof.
  intros Hk Hlit Hn Hwf. pose proof Hwf as [Hv Ho Hoff Hc Hkind]. unfold parse_consumption.
  destruct (_ =? ch); [|done]. rewrite Hlit.
  assert (consume_offset ps = 0%nat) as Hc0 by (by destruct Hk as [E|[E|E]]; rewrite E in Hc).
  cbn [with_consume_offset consume_offset]. rewrite Hc0. cbn [Nat.leb snd].
  split; cbn; try done; [unfold MAX_VALUE_LEN; lia|by destruct Hn as [->|[->|[-> _]]]|].
  assert (Hin : inside ps) by (destruct Hk as [E|[E|E]]; rewrite E in Hkind; tauto).
  destruct Hn as [->|[->|[-> E]]]; [eauto..|]. rewrite E in Hkind. split; [eauto|tauto].
Qed.

Lemma keyword_wf ps ch :
  kind ps = PARSE_LOGGER_KEYWORD -> parser_wf ps ->
  parser_wf (parse_consumption (with_did_set false false false false ps) $"logger" ch PARSE_LOGGER_NAME).2.
Proof.
  intros Hk [Hv Ho Hoff Hc _]. rewrite Hk in Hc. unfold parse_consumption.
  destruct (_ =? ch); [|by split; cbn; rewrite ?Hk].
  cbn [with_did_set with_consume_offset consume_offset].
  destruct (Nat.leb_spec (strlen $"logger") (S (consume_offset ps))); cbn [snd].
  - split; cbn; try done; [unfold MAX_VALUE_LEN; lia|].
    split_and!; [unfold LS_MAX_LOGGER_NAME_LEN; lia|rewrite take_0; constructor|done|done].
  - split; cbn -[strlen cs]; rewrite ?Hk; done.
Qed.

Lemma parse_advance_wf ps ch : parser_wf ps -> parser_wf (parse_advance ps ch).2.
Proof.
  intros Hwf. unfold parse_advance.
  set (ps1 := if ch =? NL then _ else _).
  assert (Hwf1 : parser_wf ps1) by (unfold ps1; destruct (ch =? NL); by apply with_pos_wf).
  clearbody ps1. destruct (_ || _); [done|]. unfold try_parse.
  destruct (kind ps1) eqn:Hk; cbn [snd].
  - by apply keyword_wf.
  - by apply advance_logger_name_wf.
  - apply parse_consumption_wf; auto.
  - apply parse_consumption_wf; auto.
  - by apply advance_option_name_wf.
  - apply parse_consumption_wf; auto.
  - by apply advance_config_value_wf.
Qed.

(** A logger is complete only at the end of its braces. *)
Lemma got_logger_inside ps ch ps' :
  parser_wf ps -> parse_advance ps ch = (PARSE_GOT_LOGGER, ps') -> inside ps'.
Proof.
  intros Hwf. unfold parse_advance. set (ps1 := if ch =? NL then _ else _).
  assert (Hwf1 : parser_wf ps1) by (unfold ps1; destruct (ch =? NL); by apply with_pos_wf).
  clearbody ps1. destruct (_ || _); [done|]. unfold try_parse, set_parse_error.
  destruct (kind ps1) eqn:Hk; try (case_match; done).
  - unfold advance_logger_name, set_parse_error. by repeat case_match.
  - unfold advance_option_name, set_parse_error.
    destruct Hwf1 as [_ _ _ _ Hin]. rewrite Hk in Hin.
    repeat case_match; intros [= <-]; eauto.
  - unfold advance_config_value, set_parse_error. by repeat case_match.
Qed.

(** ** The reading loop without memory management

    The characters go through the parser until one that means end of file or
    error; the result is the error the loop ends with or the loggers in the
    order of the file. *)
Definition acceptable (ps : parser_state_t) (acc : list ls_logger_t) : bool :=
  negb (existsb (fun l => streq (name (current_logger ps)) (name l)) acc) && options_valid ps.

Fixpoint config_run (ps : parser_state_t) (acc : list ls_logger_t) (chars : list Z)
  : Z + list ls_logger_t :=
  match chars with
  | [] => inr acc
  | c :: chars' =>
      if c =? BUFIO_EOF then inr acc
      else if c =? BUFIO_ERR then inl EIO
      else
        match parse_advance ps c with
        | (PARSE_ERROR _ _, _) => inl EINVAL
        | (PARSE_OK, ps') => config_run ps' acc chars'
        | (PARSE_GOT_LOGGER, ps') =>
            if acceptable ps' acc
            then config_run ps' (acc ++ [current_logger ps']) chars'
            else inl EINVAL
        end
  end.

(** What the server may rely on for an accepted logger. *)
Record logger_ok (l : ls_logger_t) : Prop := {
  lo_wf : logger_wf l;
  lo_plain : dest_type l <> LS_DESTINATION_FILE -> cstr (dest_filename l) = [] /\ append l = false;
}.

Definition lname (l : ls_logger_t) : list Z := cstr (name l).

Record config_ok (ls : list ls_logger_t) : Prop := {
  co_loggers : Forall logger_ok ls;
  co_unique : NoDup (lname <$> ls);
}.

Lemma existsb_name nm ls :
  existsb (fun l => streq nm (name l)) ls = true <-> cstr nm ∈ lname <$> ls.
Proof.
  rewrite existsb_exists, list_elem_of_fmap. split.
  - intros (l & Hl & E%streq_spec). exists l. split; [done|]. by apply list_elem_of_In.
  - intros (l & E & Hl). exists l. split; [by apply list_elem_of_In|]. by apply streq_spec.
Qed.

Lemma acceptable_ok ps acc :
  inside ps -> acceptable ps acc = true -> config_ok acc -> config_ok (acc ++ [current_logger ps]).
Proof.
  intros [Hwf Hf Ha] [Hdup Hopt]%andb_true_iff [Hok Hnd].
  apply negb_true_iff in Hdup. split.
  - apply Forall_app. split; [done|]. apply Forall_singleton. split; [done|].
    intros Hd. unfold options_valid in Hopt. rewrite (bool_decide_false _ Hd) in Hopt.
    destruct (did_set_filename ps), (did_set_append ps); simpl in Hopt;
      try (repeat case_match; done). auto.
  - rewrite fmap_app. apply NoDup_app. split; [done|]. split; [|apply NoDup_singleton].
    intros x Hx ->%list_elem_of_singleton.
    apply (existsb_name (name (current_logger ps))) in Hx. by rewrite Hx in Hdup.
Qed.

Lemma config_run_ok ps acc chars ls :
  parser_wf ps -> config_ok acc -> config_run ps acc chars = inr ls -> config_ok ls.
Proof.
  revert ps acc. induction chars as [|c chars IH]; intros ps acc Hwf Hacc; cbn [config_run].
  { by intros [= <-]. }
  destruct (c =? BUFIO_EOF); [by intros [= <-]|]. destruct (c =? BUFIO_ERR); [done|].
  pose proof (parse_advance_wf ps c Hwf) as Hwf'. pose proof (got_logger_inside ps c) as Hgot.
  destruct (parse_advance ps c) as [[| |] ps']; [by apply IH| |done].
  destruct (acceptable ps' acc) eqn:E; [|done]. apply IH; [done|]. apply acceptable_ok; eauto.
Qed.

(** C34: Whatever the file contains, a configuration that the parser accepts
    has pairwise different logger names made of letters, digits and
    underscores, strings that are terminated within the fields of the server's
    structures, and neither a file name nor the append flag on a logger whose
    destination is not a file. *)
Theorem accepted_config_ok junk chars ls :
  length (curr_value junk) = MAX_VALUE_LEN -> length (option_name junk) = MAX_VALUE_LEN ->
  config_run (parse_init junk) [] chars = inr ls -> config_ok ls.
Proof.
  intros Hv Ho. apply config_run_ok; [by apply parse_init_wf|]. split; constructor.
Qed.

(** C33: No input makes the parser write outside its buffers: after any
    characters, errors included, the buffers and the fields of the logger being
    built have their sizes and the offsets for the next write are within
    them. *)
Theorem parser_never_overflows junk chars :
  length (curr_value junk) = MAX_VALUE_LEN -> length (option_name junk) = MAX_VALUE_LEN ->
  parser_wf (foldl (fun ps c => (parse_advance ps c).2) (parse_init junk) chars).
Proof.
  intros Hv Ho. pose proof (parse_init_wf junk Hv Ho) as Hwf. revert Hwf.
  generalize (parse_init junk). induction chars as [|c chars IH]; intros ps Hwf; [done|].
  apply IH. by apply parse_advance_wf.
Qed.
