(* ===== verification/LsRoundtrip.v ===== *)
(** Printing a configuration and parsing it back. *)

From S2P Require Import Prelude LsOs LsBufio LsConfig LsParse.
Local Open Scope Z_scope.

#[local] Arguments zeros : simpl never.

(** ** The printer *)

Record cfg := Cfg {
  c_name : list Z;
  c_dest : ls_log_destination_t;
  c_severity : ls_severity_level_t;
  c_format : list Z;
  c_filename : list Z;
  c_append : bool;
}.

Definition print_dest (d : ls_log_destination_t) : list Z :=
  match d with
  | LS_DESTINATION_FILE => $"file"
  | LS_DESTINATION_STDERR => $"stderr"
  | LS_DESTINATION_STDOUT => $"stdout"
  end.

Definition print_severity (s : ls_severity_level_t) : list Z :=
  match s with
  | LS_SEV_TRACE => $"trace"
  | LS_SEV_DEBUG => $"debug"
  | LS_SEV_INFO => $"info"
  | LS_SEV_WARN => $"warn"
  end.

Definition print_bool (b : bool) : list Z := if b then $"true" else $"false".

Definition option_line (key v : list Z) : list Z := key ++ $" = " ++ v ++ [NL].

Definition is_file_cfg (c : cfg) : bool := bool_decide (c_dest c = LS_DESTINATION_FILE).

Definition print_cfg (c : cfg) : list Z :=
  ($"logger " ++ c_name c ++ $" {" ++ [NL]) ++
  option_line $"destination" (print_dest (c_dest c)) ++
  option_line $"severity" (print_severity (c_severity c)) ++
  option_line $"format" (c_format c) ++
  (if is_file_cfg c
   then option_line $"filename" (c_filename c) ++ option_line $"append" (print_bool (c_append c))
   else []) ++
  $"}" ++ [NL].

Definition print_config (cs : list cfg) : list Z := concat (print_cfg <$> cs).

(** The structure the server keeps for an entry. *)
Definition cfg_logger (c : cfg) : ls_logger_t :=
  Logger (pad LS_MAX_LOGGER_NAME_LEN (c_name c)) (c_dest c) (c_severity c)
    (if is_file_cfg c then pad LS_MAX_LOGGER_LOGFILE_PATH_LEN (c_filename c)
     else zeros LS_MAX_LOGGER_LOGFILE_PATH_LEN)
    (pad LS_MAX_LOGGER_FORMAT_LEN (c_format c))
    (if is_file_cfg c then c_append c else false).

(** A value that can be printed: it fits a field of [n] bytes, has no NUL, no
    newline and none of the two characters that end the input, and does not
    start with white space. *)
Definition value_char (c : Z) : bool :=
  negb (c =? 0) && negb (c =? NL) && negb (c =? BUFIO_EOF) && negb (c =? BUFIO_ERR).

Definition printable (n : nat) (v : list Z) : bool :=
  (length v <? n)%nat && forallb value_char v &&
  match v with c :: _ => negb (is_white c) | [] => true end.

Definition cfg_printable (c : cfg) : bool :=
  negb (length (c_name c) =? 0)%nat && (length (c_name c) <? LS_MAX_LOGGER_NAME_LEN)%nat &&
  forallb is_allowed_in_logger_name (c_name c) &&
  printable LS_MAX_LOGGER_FORMAT_LEN (c_format c) &&
  printable LS_MAX_LOGGER_LOGFILE_PATH_LEN (c_filename c).

(** ** Feeding text to the parser *)

Fixpoint feed (ps : parser_state_t) (chars : list Z) : option parser_state_t :=
  match chars with
  | [] => Some ps
  | c :: chars' =>
      if (c =? BUFIO_EOF) || (c =? BUFIO_ERR) then None
      else match parse_advance ps c with
           | (PARSE_OK, ps') => feed ps' chars'
           | _ => None
           end
  end.

Definition feeds (ps : parser_state_t) (chars : list Z) (Q : parser_state_t -> Prop) : Prop :=
  exists ps', feed ps chars = Some ps' /\ Q ps'.

Lemma feed_app ps c1 c2 :
  feed ps (c1 ++ c2) = match feed ps c1 with Some ps' => feed ps' c2 | None => None end.
Proof.
  revert ps. induction c1 as [|c c1 IH]; intros ps; [done|]. cbn [app feed].
  destruct (_ || _); [done|]. destruct (parse_advance ps c) as [[] ps']; [apply IH|done..].
Qed.

Lemma feeds_app ps c1 c2 P Q :
  feeds ps c1 P -> (forall ps', P ps' -> feeds ps' c2 Q) -> feeds ps (c1 ++ c2) Q.
Proof.
  intros (ps' & E & HP) H2. destruct (H2 ps' HP) as (ps2 & E2 & HQ).
  exists ps2. by rewrite feed_app, E.
Qed.

Lemma feeds_nil ps (Q : parser_state_t -> Prop) : Q ps -> feeds ps [] Q.
Proof. by exists ps. Qed.

Lemma feeds_one ps c ps' (Q : parser_state_t -> Prop) :
  c <> BUFIO_EOF -> c <> BUFIO_ERR -> parse_advance ps c = (PARSE_OK, ps') -> Q ps' ->
  feeds ps [c] Q.
Proof.
  intros ? ? E HQ. exists ps'. cbn [feed]. rewrite E.
  destruct (Z.eqb_spec c BUFIO_EOF), (Z.eqb_spec c BUFIO_ERR); done.
Qed.

Lemma config_run_feed ps acc chars rest ps' :
  feed ps chars = Some ps' -> config_run ps acc (chars ++ rest) = config_run ps' acc rest.
Proof.
  revert ps. induction chars as [|c chars IH]; intros ps; cbn [feed app config_run].
  { by intros [= ->]. }
  destruct (c =? BUFIO_EOF), (c =? BUFIO_ERR); try done.
  destruct (parse_advance ps c) as [[] ?]; [apply IH|done..].
Qed.

(** ** States of the parser in the middle of a logger *)

(** In state [k] with the characters [v] collected, option name [nm], the
    option flags [fl] and the logger [l]. *)
Record at_state (k : parser_state_kind_t) (v nm : list Z) (fl : bool * bool * bool * bool)
  (l : ls_logger_t) (ps : parser_state_t) : Prop := At {
  at_kind : kind ps = k;
  at_consume : consume_offset ps = 0%nat;
  at_value : length (curr_value ps) = MAX_VALUE_LEN;
  at_option : length (option_name ps) = MAX_VALUE_LEN;
  at_offset : curr_value_offset ps = length v;
  at_chars : take (length v) (curr_value ps) = v;
  at_name : cstr (option_name ps) = nm;
  at_flags : (did_set_filename ps, did_set_append ps, did_set_type ps, did_set_format ps) = fl;
  at_logger : current_logger ps = l;
}.

(** Between two loggers. *)
Record at_top (ps : parser_state_t) : Prop := {
  top_kind : kind ps = PARSE_LOGGER_KEYWORD;
  top_consume : consume_offset ps = 0%nat;
  top_value : length (curr_value ps) = MAX_VALUE_LEN;
  top_option : length (option_name ps) = MAX_VALUE_LEN;
}.

Definition no_flags : bool * bool * bool * bool := (false, false, false, false).

(** In the middle of the keyword, with [n] characters of it read. *)
Record at_keyword (n : nat) (ps : parser_state_t) : Prop := {
  kw_kind : kind ps = PARSE_LOGGER_KEYWORD;
  kw_consume : consume_offset ps = n;
  kw_value : length (curr_value ps) = MAX_VALUE_LEN;
  kw_option : length (option_name ps) = MAX_VALUE_LEN;
}.

Lemma keyword_step n c ps :
  (n, c) ∈ zip (seq 0 5) $"logge" -> at_keyword n ps -> feeds ps [c] (at_keyword (S n)).
Proof.
  intros Hin Hat. cbn in Hin.
  repeat (apply elem_of_cons in Hin as [[= -> ->]|Hin];
    [destruct ps, Hat; cbn in *; subst;
     eapply feeds_one; [done|done|reflexivity|by split]|]).
  by apply elem_of_nil in Hin.
Qed.

Lemma keyword_end ps :
  at_keyword 5 ps ->
  feeds ps [sc "r"] (fun ps' => exists nm l, at_state PARSE_LOGGER_NAME [] nm no_flags l ps').
Proof.
  destruct ps; intros []; cbn in *; subst. eapply feeds_one; [done|done|reflexivity|].
  do 2 eexists. by split.
Qed.

Lemma name_skips_space nm l ps :
  at_state PARSE_LOGGER_NAME [] nm no_flags l ps ->
  feeds ps [SPACE] (fun ps' => exists nm l, at_state PARSE_LOGGER_NAME [] nm no_flags l ps').
Proof.
  destruct ps; intros []; cbn in *; subst. eapply feeds_one; [done|done|reflexivity|].
  do 2 eexists. by split.
Qed.

Lemma feeds_keyword ps :
  at_top ps ->
  feeds ps $"logger " (fun ps' => exists nm l, at_state PARSE_LOGGER_NAME [] nm no_flags l ps').
Proof.
  intros Htop. assert (H0 : at_keyword 0 ps) by (by destruct Htop). clear Htop.
  change $"logger " with ([sc "l"] ++ [sc "o"] ++ [sc "g"] ++ [sc "g"] ++ [sc "e"] ++ [sc "r"] ++ [SPACE]).
  do 5 (eapply feeds_app; [eapply keyword_step; [|eassumption]; set_solver|clear dependent ps; intros ps ?]).
  eapply feeds_app; [by apply keyword_end|]. intros ps' (nm & l & H'). by eapply name_skips_space.
Qed.

(** A character that is neither white nor a newline is not skipped. *)
Lemma plain_not_skipped ch b b' : is_white ch = false -> ch <> NL -> (is_white ch && b) || ((ch =? NL) && b') = false.
Proof. intros -> Hn. destruct (Z.eqb_spec ch NL); done. Qed.

(** Collecting one more character. *)
Lemma at_push k v nm fl l ps c ln cn :
  at_state k v nm fl l ps -> (length v < MAX_VALUE_LEN)%nat ->
  at_state k (v ++ [c]) nm fl l (push_char c (with_pos ln cn ps)).
Proof.
  intros [? ? ? ? Ho Hc ? ? ?] Hlt. unfold push_char.
  split; cbn [kind consume_offset curr_value option_name curr_value_offset current_logger
    with_pos with_curr_value with_curr_value_offset did_set_filename did_set_append did_set_type
    did_set_format]; rewrite ?length_insert, ?length_app; try done; [simpl; lia|].
  rewrite Ho. simpl. rewrite take_insert_end by lia. by rewrite Hc.
Qed.

Lemma allowed_name_plain c : is_allowed_in_logger_name c = true -> 32 < c.
Proof. unfold is_allowed_in_logger_name, in_range, sc. simpl. repeat zcase; simpl; try done; lia. Qed.

Lemma allowed_option_plain c : is_allowed_in_config_option_name c = true -> 32 < c.
Proof. unfold is_allowed_in_config_option_name, in_range, sc. simpl. repeat zcase; simpl; try done; lia. Qed.

Lemma plain_chars c :
  32 < c -> is_white c = false /\ c <> NL /\ c <> BUFIO_EOF /\ c <> BUFIO_ERR /\ c <> 0.
Proof.
  change BUFIO_EOF with (-1). change BUFIO_ERR with (-2). unfold is_white, NL, SPACE, TAB.
  intros. split_and!; [|lia..]. destruct (Z.eqb_spec c 32), (Z.eqb_spec c 9); try lia; done.
Qed.

(** Characters that a state collects one by one. *)
Lemma feeds_collect k v0 v nm fl l ps (ok : Z -> bool) n :
  (forall c, ok c = true -> c <> BUFIO_EOF /\ c <> BUFIO_ERR) ->
  (forall w c ps, ok c = true -> (length w < n)%nat -> w ++ [c] `prefix_of` v0 ++ v ->
     (length v0 <= length w)%nat -> at_state k w nm fl l ps ->
     exists ps', parse_advance ps c = (PARSE_OK, ps') /\ at_state k (w ++ [c]) nm fl l ps') ->
  forallb ok v = true -> (length v0 + length v <= n)%nat ->
  at_state k v0 nm fl l ps -> feeds ps v (at_state k (v0 ++ v) nm fl l).
Proof.
  intros Hok Hstep. revert v0 ps Hstep.
  induction v as [|c v IH]; intros v0 ps Hstep Hv Hlen Hat.
  { rewrite app_nil_r. by apply feeds_nil. }
  simpl in Hv, Hlen. apply andb_true_iff in Hv as [Hc Hv].
  destruct (Hstep v0 c ps Hc) as (ps' & E & Hat'); [lia| |done|done|].
  { exists v. by rewrite <- app_assoc. }
  change (c :: v) with ([c] ++ v) at 1. apply (feeds_app _ _ _ (eq ps')).
  { destruct (Hok c Hc). by eapply feeds_one. }
  intros ? <-. change (c :: v) with ([c] ++ v). rewrite app_assoc. apply IH; [|done| |done].
  - intros w d ps2 ? ? Hp Hle ?. apply Hstep; [done|done| | |done].
    + by rewrite <- app_assoc in Hp.
    + rewrite length_app in Hle. simpl in Hle. lia.
  - rewrite length_app. simpl. lia.
Qed.

Lemma name_step w c nm fl l ps :
  is_allowed_in_logger_name c = true -> (length w < LS_MAX_LOGGER_NAME_LEN - 1)%nat ->
  at_state PARSE_LOGGER_NAME w nm fl l ps ->
  exists ps', parse_advance ps c = (PARSE_OK, ps') /\ at_state PARSE_LOGGER_NAME (w ++ [c]) nm fl l ps'.
Proof.
  intros Hc Hlt Hat. destruct (plain_chars c (allowed_name_plain c Hc)) as (Hw & Hnl & _).
  eexists. split; [|eapply (at_push _ _ _ _ _ ps c (line_no ps) (char_no ps + 1) Hat);
    unfold MAX_VALUE_LEN, LS_MAX_LOGGER_NAME_LEN in *; lia].
  unfold parse_advance. destruct (Z.eqb_spec c NL); [done|]. rewrite Hw. cbn [andb orb with_pos kind].
  rewrite (at_kind _ _ _ _ _ _ Hat). unfold advance_logger_name. rewrite Hc.
  change (curr_value_offset (with_pos _ _ ps)) with (curr_value_offset ps).
  rewrite (at_offset _ _ _ _ _ _ Hat). destruct (Nat.ltb_spec (length w) (LS_MAX_LOGGER_NAME_LEN - 1)); [done|lia].
Qed.

Lemma option_step w c nm fl l ps :
  is_allowed_in_config_option_name c = true -> (length w < MAX_VALUE_LEN - 1)%nat ->
  at_state PARSE_CONFIG_OPTION_NAME w nm fl l ps ->
  exists ps', parse_advance ps c = (PARSE_OK, ps') /\
    at_state PARSE_CONFIG_OPTION_NAME (w ++ [c]) nm fl l ps'.
Proof.
  intros Hc Hlt Hat. destruct (plain_chars c (allowed_option_plain c Hc)) as (Hw & Hnl & _).
  eexists. split; [|eapply (at_push _ _ _ _ _ ps c (line_no ps) (char_no ps + 1) Hat); lia].
  unfold parse_advance. destruct (Z.eqb_spec c NL); [done|]. rewrite Hw. cbn [andb orb with_pos kind].
  rewrite (at_kind _ _ _ _ _ _ Hat). unfold advance_option_name. rewrite Hc.
  change (curr_value_offset (with_pos _ _ ps)) with (curr_value_offset ps).
  rewrite (at_offset _ _ _ _ _ _ Hat). destruct (Nat.ltb_spec (length w) (MAX_VALUE_LEN - 1)); [done|lia].
Qed.

Lemma value_step w c nm fl l ps :
  value_char c = true -> (length w < MAX_VALUE_LEN - 1)%nat -> (w = [] -> is_white c = false) ->
  at_state PARSE_CONFIG_VALUE w nm fl l ps ->
  exists ps', parse_advance ps c = (PARSE_OK, ps') /\ at_state PARSE_CONFIG_VALUE (w ++ [c]) nm fl l ps'.
Proof.
  intros Hc Hlt Hw Hat. assert (c <> NL) as Hnl.
  { intros ->. by compute in Hc. }
  eexists. split; [|eapply (at_push _ _ _ _ _ ps c (line_no ps) (char_no ps + 1) Hat); lia].
  unfold parse_advance. destruct (Z.eqb_spec c NL); [done|]. cbn [andb].
  unfold is_whitespace_invariant. cbn [with_pos kind curr_value_offset].
  rewrite (at_kind _ _ _ _ _ _ Hat), (at_offset _ _ _ _ _ _ Hat).
  assert ((is_white c && (length w =? 0)%nat) || false = false) as ->.
  { destruct w; simpl; [rewrite Hw by done; done|]. by rewrite andb_false_r. }
  unfold advance_config_value.
  change (curr_value_offset (with_pos _ _ ps)) with (curr_value_offset ps).
  rewrite (at_offset _ _ _ _ _ _ Hat). destruct (Z.eqb_spec c NL); [done|].
  destruct (Nat.ltb_spec (length w) (MAX_VALUE_LEN - 1)); [done|lia].
Qed.

(** ** The head of a logger *)

Lemma feeds_name v nm fl l ps :
  forallb is_allowed_in_logger_name v = true -> (length v < LS_MAX_LOGGER_NAME_LEN)%nat ->
  at_state PARSE_LOGGER_NAME [] nm fl l ps ->
  feeds ps v (at_state PARSE_LOGGER_NAME v nm fl l).
Proof.
  intros Hv Hlen Hat.
  apply (feeds_collect _ [] v _ _ _ _ is_allowed_in_logger_name (LS_MAX_LOGGER_NAME_LEN - 1)); try done.
  - intros c Hc. by destruct (plain_chars c (allowed_name_plain c Hc)) as (?&?&?&?&?).
  - intros. by apply name_step.
  - cbn [length]. lia.
Qed.

Definition named (v : list Z) : ls_logger_t :=
  Logger (pad LS_MAX_LOGGER_NAME_LEN v) LS_DESTINATION_FILE LS_SEV_TRACE
    (zeros LS_MAX_LOGGER_LOGFILE_PATH_LEN) (zeros LS_MAX_LOGGER_FORMAT_LEN) false.

(** White space ends the name. *)
Lemma name_end v nm fl l ps :
  v <> [] -> (length v < LS_MAX_LOGGER_NAME_LEN)%nat ->
  at_state PARSE_LOGGER_NAME v nm fl l ps ->
  feeds ps [SPACE] (at_state PARSE_OPEN_BRACE v nm fl (named v)).
Proof.
  intros Hv Hlen [Hk Hc Hcv Ho Hoff Hch Hn Hf _].
  assert (Hmax : (length v < length (curr_value ps))%nat)
    by (rewrite Hcv; unfold LS_MAX_LOGGER_NAME_LEN, MAX_VALUE_LEN in *; lia).
  eapply feeds_one; [done|done| |].
  - unfold parse_advance. change (SPACE =? NL) with false. change (is_white SPACE) with true.
    unfold is_whitespace_invariant. cbn [with_pos kind curr_value_offset andb]. rewrite Hk, Hoff.
    replace (length v =? 0)%nat with false by (by destruct v). cbn [orb].
    unfold advance_logger_name. change (is_allowed_in_logger_name SPACE) with false.
    change (is_white SPACE) with true. cbn [andb orb]. reflexivity.
  - split; cbn [kind consume_offset curr_value option_name curr_value_offset current_logger
      with_consume_offset with_kind with_current_logger end_value with_curr_value with_pos
      did_set_filename did_set_append did_set_type did_set_format];
      rewrite ?length_insert; try done.
    + by rewrite Hoff, take_insert_ge by lia.
    + unfold named. f_equal. rewrite Hoff. cbn [name logger_zero].
      rewrite name_field by lia. by rewrite Hch.
Qed.

(** The states that wait for one character. *)
Lemma feeds_brace v nm fl l ps :
  at_state PARSE_OPEN_BRACE v nm fl l ps ->
  feeds ps [sc "{"] (at_state PARSE_OPEN_BRACE_NEWLINE [] nm fl l).
Proof.
  destruct ps; intros []; cbn in *; subst. eapply feeds_one; [done|done|reflexivity|by split].
Qed.

Lemma feeds_brace_newline v nm fl l ps :
  at_state PARSE_OPEN_BRACE_NEWLINE v nm fl l ps ->
  feeds ps [NL] (at_state PARSE_CONFIG_OPTION_NAME [] nm fl l).
Proof.
  destruct ps; intros []; cbn in *; subst. eapply feeds_one; [done|done|reflexivity|by split].
Qed.

Lemma feeds_equals_sign v nm fl l ps :
  at_state PARSE_CONFIG_OPTION_EQUALS v nm fl l ps ->
  feeds ps [sc "="] (at_state PARSE_CONFIG_VALUE [] nm fl l).
Proof.
  destruct ps; intros []; cbn in *; subst. eapply feeds_one; [done|done|reflexivity|by split].
Qed.

Lemma value_skips_space nm fl l ps :
  at_state PARSE_CONFIG_VALUE [] nm fl l ps ->
  feeds ps [SPACE] (at_state PARSE_CONFIG_VALUE [] nm fl l).
Proof.
  destruct ps; intros []; cbn in *; subst. eapply feeds_one; [done|done|reflexivity|by split].
Qed.

Lemma feeds_open v nm fl l ps :
  v <> [] -> (length v < LS_MAX_LOGGER_NAME_LEN)%nat ->
  at_state PARSE_LOGGER_NAME v nm fl l ps ->
  feeds ps ($" {" ++ [NL]) (at_state PARSE_CONFIG_OPTION_NAME [] nm fl (named v)).
Proof.
  intros Hv Hlen Hat. change ($" {" ++ [NL]) with ([SPACE] ++ [sc "{"] ++ [NL]).
  eapply feeds_app; [by apply (name_end v nm fl l)|]. intros ps1 H1.
  eapply feeds_app; [by eapply feeds_brace|]. intros ps2 H2. by eapply feeds_brace_newline.
Qed.

(** ** One option *)

Lemma feeds_key key nm fl l ps :
  forallb is_allowed_in_config_option_name key = true -> (length key < MAX_VALUE_LEN)%nat ->
  at_state PARSE_CONFIG_OPTION_NAME [] nm fl l ps ->
  feeds ps key (at_state PARSE_CONFIG_OPTION_NAME key nm fl l).
Proof.
  intros Hv Hlen Hat.
  apply (feeds_collect _ [] key _ _ _ _ is_allowed_in_config_option_name (MAX_VALUE_LEN - 1)); try done.
  - intros c Hc. by destruct (plain_chars c (allowed_option_plain c Hc)) as (?&?&?&?&?).
  - intros. by apply option_step.
  - cbn [length]. lia.
Qed.

(** White space ends an option name. *)
Lemma key_end key nm fl l ps :
  key <> [] -> Forall (fun c => c <> 0) key -> (length key < MAX_VALUE_LEN)%nat ->
  at_state PARSE_CONFIG_OPTION_NAME key nm fl l ps ->
  feeds ps [SPACE] (at_state PARSE_CONFIG_OPTION_EQUALS [] key fl l).
Proof.
  intros Hv Hnul Hlen [Hk Hc Hcv Ho Hoff Hch Hn Hf Hl].
  eapply feeds_one; [done|done| |].
  - unfold parse_advance. change (SPACE =? NL) with false. change (is_white SPACE) with true.
    unfold is_whitespace_invariant. cbn [with_pos kind curr_value_offset andb]. rewrite Hk, Hoff.
    replace (length key =? 0)%nat with false by (by destruct key). cbn [orb].
    unfold advance_option_name. change (is_allowed_in_config_option_name SPACE) with false.
    change (is_white SPACE) with true. change (SPACE =? sc "}") with false. change (SPACE =? sc "=") with false.
    change (curr_value_offset (with_pos _ _ ps)) with (curr_value_offset ps). rewrite Hoff.
    replace (0 <? length key)%nat with true by (by destruct key). cbn [andb orb]. reflexivity.
  - split; cbn [kind consume_offset curr_value option_name curr_value_offset current_logger
      with_consume_offset with_kind with_option_name end_value with_curr_value with_curr_value_offset
      with_pos did_set_filename did_set_append did_set_type did_set_format];
      rewrite ?length_insert; try done.
    + rewrite length_memcpy; rewrite ?length_insert; lia.
    + unfold memcpy. rewrite Hoff, take_insert_end, <- app_assoc by lia. rewrite Hch. by apply cstr_app_nul.
Qed.

Lemma feeds_equals key nm fl l ps :
  key <> [] -> Forall (fun c => c <> 0) key -> (length key < MAX_VALUE_LEN)%nat ->
  at_state PARSE_CONFIG_OPTION_NAME key nm fl l ps ->
  feeds ps $" = " (at_state PARSE_CONFIG_VALUE [] key fl l).
Proof.
  intros Hv Hnul Hlen Hat. change $" = " with ([SPACE] ++ [sc "="] ++ [SPACE]).
  eapply feeds_app; [by eapply key_end|]. intros ps1 H1.
  eapply feeds_app; [by eapply feeds_equals_sign|]. intros ps2 H2. by apply value_skips_space.
Qed.

Lemma feeds_value v nm fl l ps :
  printable (MAX_VALUE_LEN - 1) v = true ->
  at_state PARSE_CONFIG_VALUE [] nm fl l ps ->
  feeds ps v (at_state PARSE_CONFIG_VALUE v nm fl l).
Proof.
  intros [[Hlen%Nat.ltb_lt Hv]%andb_true_iff Hfirst]%andb_true_iff Hat.
  apply (feeds_collect _ [] v _ _ _ _ value_char (MAX_VALUE_LEN - 1)); try done.
  - intros c Hc. unfold value_char in Hc. destruct (Z.eqb_spec c BUFIO_EOF), (Z.eqb_spec c BUFIO_ERR);
      rewrite ?andb_false_r in Hc; done.
  - intros w c ps' Hc Hlt Hp _ Hat'. apply value_step; [done|done| |done].
    intros ->. destruct Hp as [r E]. simpl in E. rewrite E in Hfirst. by apply negb_true_iff in Hfirst.
  - cbn [length]. lia.
Qed.

Definition flags (ps : parser_state_t) : bool * bool * bool * bool :=
  (did_set_filename ps, did_set_append ps, did_set_type ps, did_set_format ps).

(** Setting option [key] to [v] turns the flags [fl] and the logger [l] into
    [fl'] and [l']. *)
Definition sets (key v : list Z) (fl : bool * bool * bool * bool) (l : ls_logger_t)
  (fl' : bool * bool * bool * bool) (l' : ls_logger_t) : Prop :=
  forall ps nb vb,
    cstr nb = key -> cstr vb = v -> flags ps = fl -> current_logger ps = l ->
    (set_logger_option nb vb ps).1 = 0 /\
    flags (set_logger_option nb vb ps).2 = fl' /\
    current_logger (set_logger_option nb vb ps).2 = l'.

Lemma feeds_newline v nm fl l fl' l' ps :
  printable (MAX_VALUE_LEN - 1) v = true -> sets nm v fl l fl' l' ->
  at_state PARSE_CONFIG_VALUE v nm fl l ps ->
  feeds ps [NL] (at_state PARSE_CONFIG_OPTION_NAME [] nm fl' l').
Proof.
  intros [[Hlen%Nat.ltb_lt Hv]%andb_true_iff _]%andb_true_iff Hset [Hk Hc Hcv Ho Hoff Hch Hn Hf Hl].
  set (s1 := end_value (with_kind PARSE_CONFIG_OPTION_NAME (with_pos (line_no ps + 1) 0 ps))).
  assert (Hcstr : cstr (curr_value s1) = v).
  { cbn. rewrite Hoff. rewrite cstr_insert_end; [done|lia|]. rewrite Hch. apply Forall_forall.
    intros c Hin. apply list_elem_of_In in Hin. rewrite forallb_forall in Hv. specialize (Hv c Hin).
    intros ->. by compute in Hv. }
  destruct (Hset s1 (option_name ps) (curr_value s1)) as (Hr & Hfl & Hl'); [done|done|done|done|].
  destruct (option_frame (curr_value s1) (option_name ps) s1) as (E1 & E2 & E3 & E4 & E5).
  destruct (set_logger_option (option_name ps) (curr_value s1) s1) as [r s2] eqn:E.
  cbn [fst snd] in *. subst r.
  eapply (feeds_one _ _ (with_consume_offset 0 (with_curr_value_offset 0 s2))); [done|done| |].
  - unfold parse_advance. change (NL =? NL) with true. cbn [andb]. change (is_white NL) with false.
    cbn [andb orb]. unfold is_newline_invariant. cbn [with_pos kind]. rewrite Hk.
    unfold advance_config_value. change (NL =? NL) with true. cbn [andb].
    cbn [option_name end_value with_kind with_pos with_curr_value]. fold s1. by rewrite E.
  - split; cbn [kind consume_offset curr_value option_name curr_value_offset current_logger
      with_consume_offset with_curr_value_offset did_set_filename did_set_append did_set_type
      did_set_format]; rewrite ?E1, ?E3, ?E4; cbn; rewrite ?length_insert; done.
Qed.

Lemma feeds_option_line key v nm fl l fl' l' ps :
  key <> [] -> forallb is_allowed_in_config_option_name key = true -> (length key < MAX_VALUE_LEN)%nat ->
  printable (MAX_VALUE_LEN - 1) v = true -> sets key v fl l fl' l' ->
  at_state PARSE_CONFIG_OPTION_NAME [] nm fl l ps ->
  feeds ps (option_line key v) (at_state PARSE_CONFIG_OPTION_NAME [] key fl' l').
Proof.
  intros Hne Hall Hlen Hv Hset Hat. unfold option_line.
  eapply feeds_app; [by apply feeds_key|]. intros ps1 H1.
  eapply feeds_app; [eapply feeds_equals; [done| |done|done]|].
  { apply Forall_forall. intros c Hc%list_elem_of_In. rewrite forallb_forall in Hall.
    specialize (Hall c Hc). apply allowed_option_plain in Hall. lia. }
  intros ps2 H2. eapply feeds_app; [by apply feeds_value|]. intros ps3 H3. by eapply feeds_newline.
Qed.

(** ** The five options *)

Lemma trim_id b :
  match cstr b with c :: _ => is_white c = false | [] => True end -> trim b = b.
Proof.
  destruct b as [|c b]; [done|]. cbn [cstr trim]. destruct (c =? 0); [done|]. simpl. by intros ->.
Qed.

Lemma trim_printable n b : printable n (cstr b) = true -> trim b = b.
Proof.
  intros [_ Hf]%andb_true_iff. apply trim_id. destruct (cstr b); [done|]. by apply negb_true_iff in Hf.
Qed.

(** The options whose value is one of a few words. *)
Lemma sets_dest d fl1 fl2 fl3 fl4 l :
  sets $"destination" (print_dest d) (fl1, fl2, fl3, fl4) l (fl1, fl2, true, fl4)
    (Logger (name l) d (severity l) (dest_filename l) (format l) (append l)).
Proof.
  intros ps nb vb Hn Hv [= <- <- <- <-] <-. unfold set_logger_option.
  rewrite (trim_id nb), (trim_id vb) by (rewrite ?Hn, ?Hv; by destruct d).
  rewrite !(streq_cstr_l nb), Hn. unfold set_logger_dest_type. rewrite !(streq_cstr_l vb), Hv.
  by destruct d.
Qed.

Lemma sets_severity s fl l :
  sets $"severity" (print_severity s) fl l fl
    (Logger (name l) (dest_type l) s (dest_filename l) (format l) (append l)).
Proof.
  intros ps nb vb Hn Hv <- <-. unfold set_logger_option.
  rewrite (trim_id nb), (trim_id vb) by (rewrite ?Hn, ?Hv; by destruct s).
  rewrite !(streq_cstr_l nb), Hn. unfold set_logger_severity. rewrite !(streq_cstr_l vb), Hv.
  by destruct s.
Qed.

Lemma sets_append b fl1 fl2 fl3 fl4 l :
  sets $"append" (print_bool b) (fl1, fl2, fl3, fl4) l (fl1, true, fl3, fl4)
    (Logger (name l) (dest_type l) (severity l) (dest_filename l) (format l) b).
Proof.
  intros ps nb vb Hn Hv [= <- <- <- <-] <-. unfold set_logger_option.
  rewrite (trim_id nb), (trim_id vb) by (rewrite ?Hn, ?Hv; by destruct b).
  rewrite !(streq_cstr_l nb), Hn. unfold set_logger_append. rewrite !(streq_cstr_l vb), Hv.
  by destruct b.
Qed.

Lemma copy_string_zeros v n :
  (strlen v < n)%nat -> copy_string (zeros n) v n = pad n (cstr v).
Proof.
  intros Hv. unfold copy_string, memcpy, pad. fold (strlen v).
  rewrite take_ge by (unfold strlen; rewrite length_app; simpl; lia).
  rewrite drop_zeros, <- app_assoc. cbn [app].
  assert (0 :: zeros (n - (strlen v + 1)) = zeros (n - strlen v)) as ->.
  { replace (n - strlen v)%nat with (S (n - (strlen v + 1))) by lia. done. }
  apply list_insert_id. rewrite lookup_app_r by (unfold strlen in *; lia).
  unfold zeros. apply lookup_replicate. unfold strlen in *. split; [done|lia].
Qed.

Lemma sets_format v fl1 fl2 fl3 fl4 l :
  printable LS_MAX_LOGGER_FORMAT_LEN v = true -> format l = zeros LS_MAX_LOGGER_FORMAT_LEN ->
  sets $"format" v (fl1, fl2, fl3, fl4) l (fl1, fl2, fl3, true)
    (Logger (name l) (dest_type l) (severity l) (dest_filename l)
       (pad LS_MAX_LOGGER_FORMAT_LEN v) (append l)).
Proof.
  intros Hp Hz ps nb vb Hn <- [= <- <- <- <-] <-. unfold set_logger_option.
  rewrite (trim_printable _ _ Hp), (trim_id nb) by by rewrite Hn.
  rewrite !(streq_cstr_l nb), Hn. cbn [streq cs].
  apply andb_true_iff in Hp as [[Hlen%Nat.ltb_lt _]%andb_true_iff _]. fold (strlen vb) in Hlen.
  cbn -[copy_string strlen LS_MAX_LOGGER_FORMAT_LEN Nat.ltb].
  destruct (Nat.ltb_spec (LS_MAX_LOGGER_FORMAT_LEN - 1) (strlen vb)); [lia|].
  rewrite Hz, copy_string_zeros by lia. done.
Qed.

Lemma sets_filename v fl1 fl2 fl3 fl4 l :
  printable LS_MAX_LOGGER_LOGFILE_PATH_LEN v = true ->
  dest_filename l = zeros LS_MAX_LOGGER_LOGFILE_PATH_LEN ->
  sets $"filename" v (fl1, fl2, fl3, fl4) l (true, fl2, fl3, fl4)
    (Logger (name l) (dest_type l) (severity l) (pad LS_MAX_LOGGER_LOGFILE_PATH_LEN v)
       (format l) (append l)).
Proof.
  intros Hp Hz ps nb vb Hn <- [= <- <- <- <-] <-. unfold set_logger_option.
  rewrite (trim_printable _ _ Hp), (trim_id nb) by by rewrite Hn.
  rewrite !(streq_cstr_l nb), Hn. cbn [streq cs].
  apply andb_true_iff in Hp as [[Hlen%Nat.ltb_lt _]%andb_true_iff _]. fold (strlen vb) in Hlen.
  cbn -[copy_string strlen LS_MAX_LOGGER_LOGFILE_PATH_LEN Nat.ltb].
  destruct (Nat.ltb_spec (LS_MAX_LOGGER_LOGFILE_PATH_LEN - 1) (strlen vb)); [lia|].
  rewrite Hz, copy_string_zeros by lia. done.
Qed.

(** ** Whole loggers and files *)

Lemma printable_mono n m v : (n <= m)%nat -> printable n v = true -> printable m v = true.
Proof.
  unfold printable. intros Hnm. rewrite !andb_true_iff, !Nat.ltb_lt. intros [[? ?] ?]. split_and!; [lia|done..].
Qed.

Lemma feeds_head c ps :
  cfg_printable c = true -> at_top ps ->
  feeds ps ($"logger " ++ c_name c ++ $" {" ++ [NL])
    (fun ps' => exists nm, at_state PARSE_CONFIG_OPTION_NAME [] nm no_flags (named (c_name c)) ps').
Proof.
  unfold cfg_printable. rewrite !andb_true_iff, negb_true_iff, Nat.ltb_lt, Nat.eqb_neq.
  intros ((((Hne & Hlen) & Hall) & _) & _) Htop.
  eapply feeds_app; [by apply feeds_keyword|]. intros ps1 (nm & l & H1).
  eapply feeds_app; [by apply feeds_name|]. intros ps2 H2.
  destruct (feeds_open (c_name c) nm no_flags l ps2) as (ps3 & E & H3); [|done|done|by exists ps3; eauto].
  by intros E; rewrite E in Hne.
Qed.

Definition cfg_flags (c : cfg) : bool * bool * bool * bool :=
  (is_file_cfg c, is_file_cfg c, true, true).


Ltac option_line_step H :=
  eapply feeds_app;
  [eapply feeds_option_line; [done|done|unfold MAX_VALUE_LEN; simpl; lia| | |exact H]|].

Lemma feeds_options c nm ps :
  cfg_printable c = true ->
  at_state PARSE_CONFIG_OPTION_NAME [] nm no_flags (named (c_name c)) ps ->
  feeds ps
    (option_line $"destination" (print_dest (c_dest c)) ++
     option_line $"severity" (print_severity (c_severity c)) ++
     option_line $"format" (c_format c) ++
     (if is_file_cfg c
      then option_line $"filename" (c_filename c) ++ option_line $"append" (print_bool (c_append c))
      else []))
    (fun ps' => exists nm', at_state PARSE_CONFIG_OPTION_NAME [] nm' (cfg_flags c) (cfg_logger c) ps').
Proof.
  unfold cfg_printable. rewrite !andb_true_iff. intros (((_ & _) & Hfmt) & Hfile) H0.
  option_line_step H0; [by destruct (c_dest c)|apply sets_dest|]. intros ps1 H1.
  option_line_step H1; [by destruct (c_severity c)|apply sets_severity|]. intros ps2 H2.
  option_line_step H2; [|by apply sets_format|].
  { eapply printable_mono; [|done]. unfold LS_MAX_LOGGER_FORMAT_LEN, MAX_VALUE_LEN. lia. }
  intros ps3 H3. unfold cfg_logger, cfg_flags. destruct (is_file_cfg c).
  - option_line_step H3; [|by apply sets_filename|].
    { eapply printable_mono; [|done]. unfold LS_MAX_LOGGER_LOGFILE_PATH_LEN, MAX_VALUE_LEN. lia. }
    intros ps4 H4. rewrite <- (app_nil_r (option_line _ (print_bool _))).
    option_line_step H4; [by destruct (c_append c)|apply sets_append|]. intros ps5 H5.
    apply feeds_nil. eauto.
  - apply feeds_nil. eauto.
Qed.

(** The closing brace delivers the logger. *)
Lemma close_brace nm fl l ps :
  at_state PARSE_CONFIG_OPTION_NAME [] nm fl l ps ->
  exists ps', parse_advance ps (sc "}") = (PARSE_GOT_LOGGER, ps') /\
    flags ps' = fl /\ current_logger ps' = l /\ at_top ps'.
Proof.
  intros [Hk Hc Hcv Ho Hoff Hch Hn Hf Hl]. destruct ps. cbn in *. subst.
  eexists. split; [reflexivity|]. by split_and!.
Qed.

Lemma feeds_top_newline ps : at_top ps -> feeds ps [NL] at_top.
Proof.
  intros [? ? ? ?]. destruct ps. cbn in *. subst. eexists. split; [reflexivity|]. by split.
Qed.

Lemma options_valid_cfg c ps :
  flags ps = cfg_flags c -> current_logger ps = cfg_logger c -> options_valid ps = true.
Proof.
  intros [= E1 E2 E3 E4] E. unfold options_valid. rewrite E1, E2, E3, E4, E. cbn [cfg_logger dest_type].
  unfold is_file_cfg. by destruct (bool_decide _).
Qed.

Lemma lname_cfg c : cfg_printable c = true -> lname (cfg_logger c) = c_name c.
Proof.
  unfold cfg_printable. rewrite !andb_true_iff. intros ((((_ & _) & Hall) & _) & _).
  unfold lname. cbn [cfg_logger name]. apply cstr_pad, allowed_nonul, Forall_forall.
  intros x Hx%list_elem_of_In. by rewrite forallb_forall in Hall; apply Hall.
Qed.

Lemma run_print_cfg c ps acc rest :
  cfg_printable c = true -> at_top ps -> c_name c ∉ lname <$> acc ->
  exists ps', at_top ps' /\
    config_run ps acc (print_cfg c ++ rest) = config_run ps' (acc ++ [cfg_logger c]) rest.
Proof.
  intros Hc Htop Hnew. unfold print_cfg.
  destruct (feeds_head c ps Hc Htop) as (ps1 & E1 & nm & H1).
  destruct (feeds_options c nm ps1 Hc H1) as (ps2 & E2 & nm' & H2).
  destruct (close_brace _ _ _ _ H2) as (ps3 & E3 & Hfl & Hl & H3).
  destruct (feeds_top_newline ps3 H3) as (ps4 & E4 & H4).
  exists ps4. split; [done|].
  match type of E2 with feed _ ?t = _ => set (opts := t) in * end.
  match type of E1 with feed _ ?t = _ => set (head := t) in * end.
  transitivity (config_run ps acc (head ++ opts ++ sc "}" :: [NL] ++ rest)).
  { apply (f_equal (config_run ps acc)). unfold head, opts. by rewrite <- !app_assoc. }
  rewrite (config_run_feed _ _ _ _ _ E1), (config_run_feed _ _ _ _ _ E2).
  cbn [config_run]. rewrite E3. change (sc "}" =? BUFIO_EOF) with false.
  change (sc "}" =? BUFIO_ERR) with false. cbn iota.
  assert (acceptable ps3 acc = true) as ->.
  { unfold acceptable. rewrite (options_valid_cfg c) by done. rewrite andb_true_r, Hl.
    apply negb_true_iff, not_true_is_false. rewrite existsb_name. fold (lname (cfg_logger c)).
    by rewrite lname_cfg. }
  rewrite Hl. by apply config_run_feed.
Qed.

Lemma run_print_config cs ps acc :
  forallb cfg_printable cs = true -> at_top ps -> NoDup ((lname <$> acc) ++ (c_name <$> cs)) ->
  config_run ps acc (print_config cs) = inr (acc ++ (cfg_logger <$> cs)).
Proof.
  revert ps acc. induction cs as [|c cs IH]; intros ps acc Hcs Htop Hnd.
  { cbn. by rewrite app_nil_r. }
  cbn [forallb] in Hcs. apply andb_true_iff in Hcs as [Hc Hcs]. cbn [fmap list_fmap] in Hnd.
  unfold print_config. cbn [fmap list_fmap concat]. fold (print_config cs).
  destruct (run_print_cfg c ps acc (print_config cs)) as (ps' & Htop' & E); [done|done| |].
  { apply NoDup_app in Hnd as (_ & Hd & _). intros Hin. apply (Hd _ Hin). left. }
  rewrite E, IH; [|done|done|].
  - by rewrite <- app_assoc.
  - rewrite fmap_app, <- app_assoc. cbn [fmap list_fmap app]. by rewrite lname_cfg.
Qed.

(** C4: Printing any list of loggers with different names and parsing the text
    gives exactly these loggers, in order, each with the fields the printer
    wrote. *)
Theorem parse_print_roundtrip junk cs :
  length (curr_value junk) = MAX_VALUE_LEN -> length (option_name junk) = MAX_VALUE_LEN ->
  forallb cfg_printable cs = true -> NoDup (c_name <$> cs) ->
  config_run (parse_init junk) [] (print_config cs) = inr (cfg_logger <$> cs).
Proof. intros Hv Ho Hcs Hnd. rewrite (run_print_config cs); try done. Qed.

(** The state block of the parser with all its bytes clear. *)
Definition clear_block : parser_state_t :=
  PState PARSE_LOGGER_KEYWORD 0 0 0 (zeros MAX_VALUE_LEN) (zeros MAX_VALUE_LEN) 0
    false false false false logger_zero.

Definition sample_cfgs : list cfg :=
  [Cfg $"Foo_1" LS_DESTINATION_FILE LS_SEV_INFO $"%l %n: %m" $"/var/log/foo" true;
   Cfg $"bar" LS_DESTINATION_STDERR LS_SEV_WARN $"%m" [] false].

Lemma parse_print_roundtrip_witness :
  forallb cfg_printable sample_cfgs = true /\
  config_run (parse_init clear_block) [] (print_config sample_cfgs) = inr (cfg_logger <$> sample_cfgs).
Proof.
  split; [reflexivity|].
  apply (parse_print_roundtrip clear_block sample_cfgs); [reflexivity|reflexivity|reflexivity|].
  apply NoDup_cons; split; [|apply NoDup_singleton]. rewrite list_elem_of_singleton. discriminate.
Defined.

Lemma accepted_config_ok_witness :
  config_ok (cfg_logger <$> sample_cfgs).
Proof.
  apply (accepted_config_ok clear_block (print_config sample_cfgs)); [reflexivity|reflexivity|].
  vm_compute. reflexivity.
Defined.

Lemma parser_never_overflows_witness :
  parser_wf (foldl (fun ps c => (parse_advance ps c).2) (parse_init clear_block)
    (print_config sample_cfgs ++ $"logger x y")).
Proof. apply (parser_never_overflows clear_block); reflexivity. Defined.
