(* ===== verification/LsFormat.v ===== *)
(** The formatter of log lines: servers/ls/log.c. *)

From S2P Require Import Prelude LsOs.
Local Open Scope Z_scope.

Definition severity_to_str (s : ls_severity_level_t) : list Z :=
  match s with
  | LS_SEV_TRACE => $"trace"
  | LS_SEV_DEBUG => $"debug"
  | LS_SEV_INFO => $"info"
  | LS_SEV_WARN => $"warn"
  end.

(** The characters between [buffer] and [pb] are the list [out]; [cap] is
    [pend - buffer].  [PUTC] fails when the buffer is full. *)
Definition putc (cap : nat) (c : Z) (out : list Z) : option (list Z) :=
  if (length out <? cap)%nat then Some (out ++ [c]) else None.

(** [PUTS]: whether everything went in, and the buffer. *)
Fixpoint puts (cap : nat) (s out : list Z) : bool * list Z :=
  match s with
  | [] => (true, out)
  | c :: s' =>
      match putc cap c out with
      | Some out' => puts cap s' out'
      | None => (false, out)
      end
  end.

Section Format.
Context {W : Type} `{LsOs W}.

Definition lookup_proc (name : list Z) (w : W) : option Z * W := os_rs_lookup name w.

(** The text that [put_time] writes. *)
Definition time_text (w : W) : list Z * W :=
  match lookup_proc $"readclock.drv" w with
  | (None, w1) => ($"unknown-time", w1)
  | (Some ep, w1) =>
      match os_rtc_get_time ep w1 with
      | (None, w2) => ($"unknown-time", w2)
      | (Some (status, t), w2) =>
          if negb (status =? 0) then ($"unknown-time", w2)
          else (cstr (take 1023 (mini_snprintf 1023 $"%04d-%02d-%02d %02d:%02d:%02d"
                  [tm_year t + 1900; tm_mon t + 1; tm_mday t + 1; tm_hour t; tm_min t; tm_sec t])),
                w2)
      end
  end.

Definition put_time (cap : nat) (out : list Z) (w : W) : list Z * W :=
  let '(text, w1) := time_text w in ((puts cap text out).2, w1).

Section PrintLog.
Context (cap : nat) (message : list Z) (msg_len : nat) (sev : ls_severity_level_t)
  (procname : list Z).

(** The loop over the format: the return value, the characters written and
    the world. *)
Fixpoint print_loop (fmt out : list Z) (w : W) : Z * list Z * W :=
  let here out := Z.of_nat (length out) in
  let finish out :=
    match putc cap NL out with
    | None => (here out, out, w)
    | Some out' => (here out', out', w)
    end in
  match fmt with
  | [] => finish out
  | c :: fmt1 =>
      if c =? 0 then finish out
      else if c =? sc "%" then
        match fmt1 with
        | [] => (here out, out, w)
        | d :: fmt2 =>
            if d =? 0 then (here out, out, w)
            else if d =? sc "l" then
              match puts cap (severity_to_str sev) out with
              | (true, out') => print_loop fmt2 out' w
              | (false, out') => (here out' - Z.of_nat cap, out', w)
              end
            else if d =? sc "t" then
              let '(out', w') := put_time cap out w in print_loop fmt2 out' w'
            else if d =? sc "n" then
              match puts cap (cstr procname) out with
              | (true, out') => print_loop fmt2 out' w
              | (false, out') => (here out', out', w)
              end
            else if d =? sc "m" then
              match puts cap (take msg_len message) out with
              | (true, out') => print_loop fmt2 out' w
              | (false, out') => (here out', out', w)
              end
            else if d =? sc "%" then
              match putc cap (sc "%") out with
              | Some out' => print_loop fmt2 out' w
              | None => (here out, out, w)
              end
            else
              match putc cap (sc "%") out with
              | Some out1 =>
                  match putc cap d out1 with
                  | Some out2 => print_loop fmt2 out2 w
                  | None => (here out1, out1, w)
                  end
              | None => (here out, out, w)
              end
        end
      else
        match putc cap c out with
        | Some out' => print_loop fmt1 out' w
        | None => (here out, out, w)
        end
  end.
End PrintLog.

(** The return value, the buffer after the call and the world. *)
Definition print_log (fmt message : list Z) (msg_len : nat) (sev : ls_severity_level_t)
  (procname buffer : list Z) (buffer_len : nat) (w : W) : Z * list Z * W :=
  let '(n, out, w1) := print_loop buffer_len message msg_len sev procname fmt [] w in
  (n, memcpy buffer out (length out), w1).
End Format.

(** ** Reference: the expansion of a format *)

Section Expand.
Context {W : Type} `{LsOs W}.
Context (message : list Z) (msg_len : nat) (sev : ls_severity_level_t) (procname : list Z).

(** The text of one directive. *)
Definition directive (d : Z) (w : W) : list Z * W :=
  if d =? sc "l" then (severity_to_str sev, w)
  else if d =? sc "t" then time_text w
  else if d =? sc "n" then (cstr procname, w)
  else if d =? sc "m" then (take msg_len message, w)
  else if d =? sc "%" then ([sc "%"], w)
  else ([sc "%"; d], w).

(** The whole line: every character of the format stands for itself except
    for directives; a newline ends the line, unless the format ends in the
    middle of a directive. *)
Fixpoint expand (fmt : list Z) (w : W) : list Z :=
  match fmt with
  | [] => [NL]
  | c :: fmt1 =>
      if c =? 0 then [NL]
      else if c =? sc "%" then
        match fmt1 with
        | [] => []
        | d :: fmt2 =>
            if d =? 0 then []
            else let '(text, w') := directive d w in text ++ expand fmt2 w'
        end
      else c :: expand fmt1 w
  end.
End Expand.

(** Whether a format has a level directive. *)
Fixpoint has_level (fmt : list Z) : bool :=
  match fmt with
  | [] => false
  | c :: fmt1 =>
      if c =? 0 then false
      else if c =? sc "%" then
        match fmt1 with
        | [] => false
        | d :: fmt2 => if d =? 0 then false else (d =? sc "l") || has_level fmt2
        end
      else has_level fmt1
  end.

(** ** Correctness *)

Lemma puts_spec cap s out :
  (length out <= cap)%nat ->
  puts cap s out = (bool_decide (length (out ++ s) <= cap)%nat, take cap (out ++ s)).
Proof.
  revert out. induction s as [|c s IH]; intros out Ho; simpl.
  - rewrite app_nil_r, bool_decide_true, firstn_all2 by done. done.
  - unfold putc. destruct (Nat.ltb_spec (length out) cap) as [Hlt|Hge].
    + rewrite IH by (rewrite length_app; simpl; lia). by rewrite <- app_assoc.
    + rewrite bool_decide_false by (rewrite length_app; simpl; lia).
      rewrite take_app_le, firstn_all2 by lia. done.
Qed.

Lemma putc_spec cap c out :
  (length out <= cap)%nat ->
  putc cap c out = if bool_decide (length (out ++ [c]) <= cap)%nat
                   then Some (out ++ [c]) else None.
Proof.
  intros Ho. unfold putc. rewrite length_app. simpl.
  destruct (Nat.ltb_spec (length out) cap); [rewrite bool_decide_true by lia|rewrite bool_decide_false by lia]; done.
Qed.

Lemma take_take_app (cap : nat) (x y : list Z) : take cap (take cap x ++ y) = take cap (x ++ y).
Proof. rewrite !take_app, take_take, Nat.min_id, length_take. f_equal. f_equal. lia. Qed.

Lemma take_app_full (cap : nat) (x y : list Z) :
  (cap <= length x)%nat -> take cap (x ++ y) = take cap x.
Proof. intros. by rewrite take_app_le. Qed.

Section Correct.
Context {W : Type} `{LsOs W}.
Context (cap : nat) (message : list Z) (msg_len : nat) (sev : ls_severity_level_t)
  (procname : list Z).

(** What a run of the loop from [out] has to satisfy against the text that is
    due. *)
Definition run_ok (lvl : bool) (due : list Z) (r : Z * list Z * W) : Prop :=
  let '(n, o, _) := r in
  o = take cap due /\
  (n = Z.of_nat (length o) \/ (n = 0 /\ (cap < length due)%nat /\ lvl = true)).

Lemma run_ok_here lvl due out w :
  out = take cap due -> run_ok lvl due (Z.of_nat (length out), out, w).
Proof. intros ->. simpl. auto. Qed.

(** A run of text either fits, and the rest follows, or ends the line. *)
Lemma puts_run (lvl : bool) (text rest out : list Z) w (k : list Z -> Z * list Z * W) (e : list Z -> Z) :
  (length out <= cap)%nat ->
  ((length (out ++ text) <= cap)%nat -> run_ok lvl ((out ++ text) ++ rest) (k (out ++ text))) ->
  (forall o, length o = cap -> (cap < length (out ++ text))%nat ->
     e o = Z.of_nat (length o) \/ (e o = 0 /\ lvl = true)) ->
  run_ok lvl (out ++ text ++ rest)
    (match puts cap text out with
     | (true, o) => k o
     | (false, o) => (e o, o, w)
     end).
Proof.
  intros Ho Hk He. rewrite puts_spec by done. rewrite (app_assoc out).
  destruct (decide (length (out ++ text) <= cap)%nat) as [Hfit|Hfull].
  - rewrite bool_decide_true, (firstn_all2 (out ++ text)) by done. auto.
  - rewrite bool_decide_false by done. unfold run_ok. split.
    + by rewrite (take_app_full cap (out ++ text) rest) by lia.
    + destruct (He (take cap (out ++ text))) as [E|[E ->]]; [rewrite length_take; lia|lia|auto|].
      right. split_and!; [done| |done]. rewrite (length_app (out ++ text)). lia.
Qed.

Lemma putc_run (lvl : bool) (c : Z) (rest out : list Z) w (k : list Z -> Z * list Z * W) :
  (length out <= cap)%nat ->
  ((length (out ++ [c]) <= cap)%nat -> run_ok lvl ((out ++ [c]) ++ rest) (k (out ++ [c]))) ->
  run_ok lvl (out ++ c :: rest)
    (match putc cap c out with
     | Some o => k o
     | None => (Z.of_nat (length out), out, w)
     end).
Proof.
  intros Ho Hk. pose proof (puts_run lvl [c] rest out w k (fun o => Z.of_nat (length o)) Ho Hk) as Hp.
  cbn [puts] in Hp. cbn [app] in Hp. destruct (putc cap c out); apply Hp; auto.
Qed.

Lemma run_ok_mono (lvl lvl' : bool) due r :
  (lvl = true -> lvl' = true) -> run_ok lvl due r -> run_ok lvl' due r.
Proof. destruct r as [[n o] w]. simpl. intros ? [-> [->|(?&?&?)]]; auto 6. Qed.

(** The time is cut at the end of the buffer and the loop goes on. *)
Lemma time_run (lvl : bool) (rest : W -> list Z) out w (k : list Z -> W -> Z * list Z * W) :
  (length out <= cap)%nat ->
  (forall o w', (length o <= cap)%nat -> run_ok lvl (o ++ rest w') (k o w')) ->
  run_ok lvl (out ++ (let '(text, w') := time_text w in text ++ rest w'))
    (let '(o, w') := put_time cap out w in k o w').
Proof.
  intros Ho Hk. unfold put_time. destruct (time_text w) as [text w'].
  rewrite puts_spec by done. cbn [snd].
  specialize (Hk (take cap (out ++ text)) w' ltac:(rewrite length_take; lia)).
  destruct (k _ _) as [[n o'] w'']. unfold run_ok in *.
  rewrite take_take_app, <- app_assoc in Hk. destruct Hk as [-> Hn]. split; [done|].
  destruct Hn as [?|(?&Hlt&?)]; [auto|right]. split_and!; [done| |done].
  rewrite length_app, length_take in Hlt. rewrite !length_app in *. lia.
Qed.

Abbreviation loop := (print_loop cap message msg_len sev procname).
Abbreviation due := (expand message msg_len sev procname).

(** The end of the loop. *)
Lemma finish_run lvl out w :
  (length out <= cap)%nat ->
  run_ok lvl (out ++ [NL])
    (match putc cap NL out with
     | None => (Z.of_nat (length out), out, w)
     | Some out' => (Z.of_nat (length out'), out', w)
     end).
Proof.
  intros Ho. apply (putc_run lvl NL [] out w (fun o => (Z.of_nat (length o), o, w)) Ho).
  intros. rewrite app_nil_r. apply run_ok_here. by rewrite firstn_all2.
Qed.

(** One directive, when the loop is right on the rest of the format. *)
Lemma directive_run d fmt2 out w :
  (forall o w', (length o <= cap)%nat ->
     run_ok (has_level fmt2) (o ++ due fmt2 w') (loop fmt2 o w')) ->
  (length out <= cap)%nat -> d <> 0 ->
  run_ok (has_level (sc "%" :: d :: fmt2)) (out ++ due (sc "%" :: d :: fmt2) w)
    (loop (sc "%" :: d :: fmt2) out w).
Proof.
  intros IH Ho Hd. cbn [print_loop expand has_level]. cbn -[sc print_loop expand has_level].
  destruct (Z.eqb_spec d 0) as [|_]; [done|]. unfold directive.
  assert (Hor : forall o w' b, (length o <= cap)%nat ->
    run_ok (b || has_level fmt2) (o ++ due fmt2 w') (loop fmt2 o w')).
  { intros o w' b Hlen. eapply run_ok_mono, IH; [|done]. intros ->. by rewrite orb_true_r. }
  destruct (d =? sc "l").
  { apply (puts_run _ _ _ out w (fun o => loop fmt2 o w)
             (fun o => Z.of_nat (length o) - Z.of_nat cap) Ho); [by intros; apply (Hor _ _ true)|].
    intros o Hlen _. right. split; [lia|done]. }
  destruct (d =? sc "t"); [apply time_run; auto|].
  destruct (d =? sc "n"); [|destruct (d =? sc "m"); [|destruct (d =? sc "%")]].
  - apply (puts_run _ _ _ out w (fun o => loop fmt2 o w) (fun o => Z.of_nat (length o)) Ho); auto.
  - apply (puts_run _ _ _ out w (fun o => loop fmt2 o w) (fun o => Z.of_nat (length o)) Ho); auto.
  - apply (putc_run _ _ _ out w (fun o => loop fmt2 o w) Ho); auto.
  - apply (putc_run _ _ _ out w
      (fun out1 => match putc cap d out1 with
                   | Some out2 => loop fmt2 out2 w
                   | None => (Z.of_nat (length out1), out1, w)
                   end) Ho).
    intros Hfit. apply (putc_run _ d _ (out ++ [sc "%"]) w (fun o => loop fmt2 o w) Hfit). auto.
Qed.

Lemma print_loop_ok fmt out w :
  (length out <= cap)%nat -> run_ok (has_level fmt) (out ++ due fmt w) (loop fmt out w).
Proof.
  remember (length fmt) as k eqn:Ek. revert fmt out w Ek.
  induction k as [k IH] using lt_wf_ind; intros fmt out w -> Ho.
  assert (Hstop : forall lvl, run_ok lvl (out ++ []) (Z.of_nat (length out), out, w)).
  { intros lvl. apply run_ok_here. by rewrite app_nil_r, firstn_all2. }
  destruct fmt as [|c fmt1]; [by apply finish_run|].
  destruct (Z.eqb_spec c (sc "%")) as [->|Hc].
  - destruct fmt1 as [|d fmt2]; [apply Hstop|].
    destruct (Z.eq_dec d 0) as [->|Hd]; [apply Hstop|].
    apply directive_run; [|done|done]. intros o w' Hlen. eapply IH; [|done|done]. simpl. lia.
  - cbn [print_loop expand has_level]. destruct (c =? 0); [by apply finish_run|].
    destruct (Z.eqb_spec c (sc "%")); [done|].
    apply (putc_run _ _ _ out w (fun o => loop fmt1 o w) Ho).
    intros Hfit. eapply IH; [|done|done]. simpl. lia.
Qed.
End Correct.

(** C35: [print_log] writes exactly the expansion of the format, cut at
    [buffer_len] characters, at the start of the buffer and nothing behind it,
    and returns how many characters it wrote; the only exception is a line that
    does not fit and has a [%l] in its format, for which it may return 0. *)
Theorem print_log_correct {W : Type} `{LsOs W} (fmt message : list Z) (msg_len : nat)
  (sev : ls_severity_level_t) (procname buffer : list Z) (buffer_len : nat) (w : W) :
  let line := expand message msg_len sev procname fmt w in
  let n := Nat.min buffer_len (length line) in
  let '(ret, buffer', _) := print_log fmt message msg_len sev procname buffer buffer_len w in
  buffer' = take n line ++ drop n buffer /\
  (ret = Z.of_nat n \/ (ret = 0 /\ (buffer_len < length line)%nat /\ has_level fmt = true)).
Proof.
  unfold print_log.
  pose proof (print_loop_ok buffer_len message msg_len sev procname fmt [] w) as Hok.
  simpl in Hok. specialize (Hok ltac:(lia)).
  destruct (print_loop _ _ _ _ _ _ _ _) as [[ret out] w1]. destruct Hok as [-> Hret].
  rewrite length_take in *. split; [|done]. unfold memcpy. rewrite take_take. do 2 f_equal. lia.
Qed.
