(* ===== verification/LsServer.v ===== *)
(** The requests and the main loop of the logging server:
    servers/ls/requests.c and servers/ls/main.c. *)

From S2P Require Import Prelude LsOs LsBufio LsConfig LsFormat.
Local Open Scope Z_scope.

(** ** Message types and result codes (include/minix/com.h) *)

Definition LS_BASE : Z := 0x1700.
Definition LS_INITIALIZE : Z := LS_BASE + 0.
Definition LS_START_LOG : Z := LS_BASE + 1.
Definition LS_SET_SEVERITY : Z := LS_BASE + 2.
Definition LS_WRITE_LOG : Z := LS_BASE + 4.
Definition LS_CLOSE_LOG : Z := LS_BASE + 5.
Definition LS_CLEAR_LOG : Z := LS_BASE + 6.
Definition LS_CLEAR_ALL : Z := LS_BASE + 7.
Definition LS_END : Z := LS_BASE + 8.

Definition LS_ERR_BASE : Z := -5888.
Definition LS_ERR_NO_SUCH_LOGGER : Z := LS_ERR_BASE - 1.
Definition LS_ERR_LOGGER_OPEN : Z := LS_ERR_BASE - 2.
Definition LS_ERR_PERMISSION_DENIED : Z := LS_ERR_BASE - 3.
Definition LS_ERR_LOGGER_NOT_OPEN : Z := LS_ERR_BASE - 4.
Definition LS_ERR_INIT_FAILED : Z := LS_ERR_BASE - 5.
Definition LS_ERR_EXTERNAL : Z := LS_ERR_BASE - 6.

Definition NR_PROCS : nat := 256.
Definition LOGBUF_LEN : nat := 4096.
Definition CONFIG_FILE : list Z := $"/etc/logs.conf".

(** The messages of the server (include/minix/ipc.h): [mess_ls_logger],
    [mess_ls_set_severity] and [mess_ls_write_log] agree on the place of the
    fields they share.  [m_severity] and [m_message_len] are 16-bit unsigned
    fields, [m_message] is an address in the sender. *)
Definition LS_IPC_LOGGER_MAX_NAME_LEN : nat := 48.

Record message := Msg {
  m_source : Z;
  m_type : Z;
  m_logger : list Z;
  m_severity : Z;
  m_message_len : Z;
  m_message : Z;
}.

Definition with_type (t : Z) (m : message) : message :=
  Msg (m_source m) t (m_logger m) (m_severity m) (m_message_len m) (m_message m).

Section Server.
Context {W : Type} `{LsOs W}.
(** The bound on the size of the configuration file, and the contents of the
    block the parser allocates for its state. *)
Context (fuel : nat) (junk : parser_state_t).

(** ** requests.c *)

Definition get_process_table : ST (ls_state W) Z :=
  '(ret, tab) ← sys os_getsysinfo;
  if negb (ret =? OK) then mret LS_ERR_EXTERNAL
  else modify (set_proctable tab);; mret OK.

(** The loop over the process table: the buffer when a slot matches. *)
Fixpoint procname_loop (tab : list mproc) (pid : Z) (buf : list Z) (buffer_len : nat)
  : option (list Z) :=
  match tab with
  | [] => None
  | p :: tab' =>
      if mp_endpoint p =? pid
      then Some (<[(buffer_len - 1)%nat := 0]> (strncpy buf (mp_name p) buffer_len))
      else procname_loop tab' pid buf buffer_len
  end.

Definition procname_from_pid (tab : list mproc) (pid : Z) (buf : list Z) (buffer_len : nat)
  : option (list Z) :=
  procname_loop (take NR_PROCS tab) pid buf buffer_len.

Definition do_initialize : ST (ls_state W) Z :=
  s ← get;
  free_logger_list (g_loggers s);;
  modify (set_g_loggers 0);;
  ret ← parse_config_file fuel junk CONFIG_FILE;
  if negb (ret =? OK) then mret ret else get_process_table.

Definition ensure_initialized : ST (ls_state W) Z :=
  s ← get;
  if g_is_initialized s then mret OK
  else
    ret ← do_initialize;
    if negb (ret =? OK) then mret LS_ERR_INIT_FAILED
    else modify (set_initialized true);; mret OK.

Definition find_logger (lg : list Z) : ST (ls_state W) Z :=
  s ← get;
  opt (find_node (S (size (heap s))) (heap s) (fun n => streq (name (logger n)) lg) (g_loggers s)).

(** [TRY_ENSURE_INITIALIZED(); TRY_FIND_LOGGER(logger, l);] and what follows,
    which gets the pointer and what it points to. *)
Definition with_logger (lg : list Z) (k : Z -> ls_logger_list_t -> ST (ls_state W) Z)
  : ST (ls_state W) Z :=
  ret ← ensure_initialized;
  if negb (ret =? OK) then mret LS_ERR_INIT_FAILED
  else
    l ← find_logger lg;
    if l =? 0 then mret LS_ERR_NO_SUCH_LOGGER
    else n ← load l; k l n.

(** [l->state = st] *)
Definition store_state (l : Z) (n : ls_logger_list_t) (st : ls_logger_state_t)
  : ST (ls_state W) unit :=
  store l (Node (logger n) st (ltail n)).

Definition is_file (lg : ls_logger_t) : bool := bool_decide (dest_type lg = LS_DESTINATION_FILE).

Definition start_flags (lg : ls_logger_t) : oflags :=
  if append lg then OFlags true true false true else OFlags true true true false.

Definition do_start_log (lg : list Z) (who : Z) : ST (ls_state W) Z :=
  with_logger lg (fun l n =>
    if is_open (state n) then mret LS_ERR_LOGGER_OPEN
    else
      let finish fd :=
        store_state l n (LState true (severity (logger n)) who fd (msg_buf (state n)));;
        get_process_table in
      if is_file (logger n)
      then
        fd ← sys (os_open (dest_filename (logger n)) (start_flags (logger n)));
        if fd <? 0 then mret LS_ERR_EXTERNAL else finish fd
      else finish (st_fd (state n))).

Definition do_close_log (lg : list Z) (who : Z) : ST (ls_state W) Z :=
  with_logger lg (fun l n =>
    if negb (is_open (state n)) then mret LS_ERR_LOGGER_NOT_OPEN
    else if negb (opened_by (state n) =? who) then mret LS_ERR_PERMISSION_DENIED
    else
      (if is_file (logger n)
       then sys (os_close (st_fd (state n)));; mret tt
       else mret tt);;
      store_state l n (LState false (st_severity (state n)) (-1) (-1) (msg_buf (state n)));;
      mret OK).

(** The buffer [char procname[256]] before it is written to. *)
Definition procname_buf : list Z := zeros 256.

Definition do_write_log (lg : list Z) (sev : ls_severity_level_t) (msg msg_len who : Z)
  : ST (ls_state W) Z :=
  with_logger lg (fun l n =>
    let st := state n in
    if negb (is_open st) then mret LS_ERR_LOGGER_NOT_OPEN
    else if negb (opened_by st =? who) then mret LS_ERR_PERMISSION_DENIED
    else
      '(ret, bytes) ← sys (os_vircopy who msg msg_len);
      let buf := memcpy (msg_buf st) bytes (length bytes) in
      store_state l n (LState (is_open st) (st_severity st) (opened_by st) (st_fd st) buf);;
      if negb (ret =? OK) then mret ret
      else if sev_int sev <? sev_int (st_severity st) then mret OK
      else
        s ← get;
        let procname :=
          match procname_from_pid (proctable s) who procname_buf 256 with
          | Some b => b
          | None => strncpy procname_buf $"unknown-pid" 256
          end in
        '(sz, logbuf) ← sys (print_log (format (logger n)) buf (Z.to_nat msg_len) sev procname
                               (g_logbuf s) (LOGBUF_LEN - 1));
        let logbuf := <[(LOGBUF_LEN - 1)%nat := 0]> logbuf in
        modify (set_g_logbuf logbuf);;
        if is_file (logger n)
        then
          ret ← sys (os_write (st_fd st) (take (Z.to_nat sz) logbuf));
          if (ret =? -1) || (ret <? sz) then mret LS_ERR_EXTERNAL
          else sys (fun w => (tt, os_fsync (st_fd st) w));; mret OK
        else
          let logbuf := <[Z.to_nat sz := 0]> logbuf in
          modify (set_g_logbuf logbuf);;
          sys (fun w => (tt, os_printf ($"[L] " ++ cstr logbuf) w));;
          mret OK).

Definition do_set_severity (lg : list Z) (sev : ls_severity_level_t) : ST (ls_state W) Z :=
  with_logger lg (fun l n =>
    let st := state n in
    if is_open st then mret LS_ERR_LOGGER_OPEN
    else
      store_state l n (LState (is_open st) sev (opened_by st) (st_fd st) (msg_buf st));;
      mret OK).

Definition do_clear_log (lg : list Z) : ST (ls_state W) Z :=
  with_logger lg (fun l n =>
    if is_open (state n) then mret LS_ERR_LOGGER_OPEN
    else if is_file (logger n)
    then
      fd ← sys (os_open (dest_filename (logger n)) (OFlags true true true false));
      if fd <? 0 then mret LS_ERR_EXTERNAL
      else
        ret ← sys (os_close fd);
        if negb (ret =? OK) then mret LS_ERR_EXTERNAL else mret OK
    else mret OK).

(** The loop of [do_clear_logs] from the node at [l] on. *)
Fixpoint clear_loop (n : nat) (l ret : Z) : ST (ls_state W) Z :=
  match n with
  | O => ub
  | S n =>
      if l =? 0 then mret ret
      else
        nd ← load l;
        r ← do_clear_log (name (logger nd));
        nd' ← load l;
        clear_loop n (ltail nd') (if negb (r =? OK) then LS_ERR_LOGGER_OPEN else ret)
  end.

Definition do_clear_logs : ST (ls_state W) Z :=
  ret ← ensure_initialized;
  if negb (ret =? OK) then mret LS_ERR_INIT_FAILED
  else s ← get; clear_loop (S (size (heap s))) (g_loggers s) OK.

(** ** main.c *)

Definition valid_severity (sev : Z) : bool :=
  match int_sev sev with Some _ => true | None => false end.

(** [wait_request]: the result, and the source stored in the request.  [recv]
    is the outcome of [sef_receive]; [src] is the source in the request
    before, which is not initialised. *)
Definition wait_request (recv : Z) (m : message) (src : Z) : Z * Z :=
  if negb (recv =? OK) then (recv, src)
  else if (m_type m <? LS_BASE) || (LS_END <=? m_type m) then (-1, m_source m)
  else (OK, m_source m).

(** The [switch] on the type of the request. *)
Definition dispatch (m : message) : ST (ls_state W) Z :=
  let t := m_type m in
  if t =? LS_INITIALIZE then do_initialize
  else if t =? LS_START_LOG then do_start_log (m_logger m) (m_source m)
  else if t =? LS_CLOSE_LOG then do_close_log (m_logger m) (m_source m)
  else if t =? LS_WRITE_LOG then
    match int_sev (m_severity m) with
    | Some sev =>
        if Z.of_nat LS_MAX_MESSAGE_LEN <? m_message_len m then mret EINVAL
        else do_write_log (m_logger m) sev (m_message m) (m_message_len m) (m_source m)
    | None => mret EINVAL
    end
  else if t =? LS_CLEAR_LOG then do_clear_log (m_logger m)
  else if t =? LS_SET_SEVERITY then
    match int_sev (m_severity m) with
    | Some sev => do_set_severity (m_logger m) sev
    | None => mret EINVAL
    end
  else if t =? LS_CLEAR_ALL then do_clear_logs
  else mret EINVAL.

(** One round of the main loop: the reply, with its destination. *)
Definition main_step (EDONTREPLY : Z) (recv : Z) (m : message) (src : Z)
  : ST (ls_state W) (option (Z * message)) :=
  let '(status, source) := wait_request recv m src in
  result ← (if negb (status =? OK) then mret EINVAL else dispatch m);
  mret (if negb (result =? EDONTREPLY) then Some (source, with_type result m) else None).
End Server.

(** The state of a freshly started server. *)
Definition ls_boot {W} (w : W) : ls_state W :=
  LsState ∅ 0 false (replicate NR_PROCS (MProc 0 (zeros 16))) (zeros LOGBUF_LEN) w.
