(* ===== verification/LsHeap.v ===== *)
(** The list of loggers in the memory of the server: its shape, and what the
    traversals, updates and releases of the server do to it. *)

From S2P Require Import Prelude Chain LsOs LsConfig.
Local Open Scope Z_scope.

Abbreviation heap_t := (gmap Z ls_logger_list_t).

(** What a node holds besides its link. *)
Abbreviation entry := (ls_logger_t * ls_logger_state_t)%type.

(** The nodes from [p] to [r], with their addresses and contents. *)
Fixpoint nodes (h : heap_t) (p : Z) (l : list (Z * entry)) (r : Z) : Prop :=
  match l with
  | [] => p = r
  | (q, e) :: l' =>
      p = q /\ p <> 0 /\
      exists t, h !! p = Some (Node e.1 e.2 t) /\ nodes h t l' r
  end.

Definition node_link (h : heap_t) (p : Z) : option Z := ltail <$> h !! p.

Lemma nodes_lseg h p l r : nodes h p l r -> lseg (node_link h) p (fst <$> l) r.
Proof.
  revert p. induction l as [|[q e] l IH]; simpl; intros p.
  - intros ->. constructor.
  - intros (<- & Hp & t & Ht & Hl). econstructor; [done| |by apply IH].
    unfold node_link. by rewrite Ht.
Qed.

Lemma nodes_nodup h p l : nodes h p l 0 -> NoDup (fst <$> l).
Proof. intros H%nodes_lseg. by eapply chain_nodup. Qed.

Lemma nodes_lookup h p l r q e :
  nodes h p l r -> (q, e) ∈ l -> exists t, h !! q = Some (Node e.1 e.2 t).
Proof.
  revert p. induction l as [|[q' e'] l IH]; simpl; intros p; [by rewrite elem_of_nil|].
  intros (<- & _ & t & Ht & Hl). rewrite elem_of_cons. intros [[= -> ->]|Hin]; eauto.
Qed.

Lemma nodes_dom h p l r q : nodes h p l r -> q ∈ fst <$> l -> is_Some (h !! q).
Proof.
  intros H ((q'&e)&->&Hin)%list_elem_of_fmap.
  destruct (nodes_lookup _ _ _ _ _ _ H Hin) as [t Ht]. simpl. rewrite Ht. eauto.
Qed.

Lemma nodes_length h p l : nodes h p l 0 -> (length l <= size h)%nat.
Proof.
  intros H. rewrite <- (length_fmap fst). apply nodup_dom_length; [by eapply nodes_nodup|].
  intros x. by eapply nodes_dom.
Qed.

Lemma nodes_app h p l1 l2 r :
  nodes h p (l1 ++ l2) r <-> exists q, nodes h p l1 q /\ nodes h q l2 r.
Proof.
  revert p. induction l1 as [|[q e] l1 IH]; simpl; intros p.
  - split; [by eauto|]. by intros (? & -> & ?).
  - split.
    + intros (<- & Hp & t & Ht & (q' & ? & ?)%IH). exists q'. eauto 10.
    + intros (q' & (<- & Hp & t & Ht & ?) & ?). split_and!; [done..|]. exists t.
      rewrite IH. eauto.
Qed.

(** Nodes elsewhere in memory do not matter. *)
Lemma nodes_ext h h' p l r :
  (forall q, q ∈ fst <$> l -> h' !! q = h !! q) -> nodes h p l r -> nodes h' p l r.
Proof.
  revert p. induction l as [|[q e] l IH]; simpl; intros p Hext; [done|].
  intros (<- & Hp & t & Ht & Hl). split_and!; [done..|]. exists t.
  rewrite Hext by set_solver. split; [done|]. apply IH; [|done]. set_solver.
Qed.

Lemma nodes_insert_fresh h p l r x nd :
  x ∉ fst <$> l -> nodes h p l r -> nodes (<[x := nd]> h) p l r.
Proof.
  intros Hx. apply nodes_ext. intros q Hq. rewrite lookup_insert_ne; [done|]. by intros ->.
Qed.

(** Changing the contents of one node. *)
Lemma nodes_update h p l1 q e e' l2 t :
  nodes h p (l1 ++ (q, e) :: l2) 0 -> h !! q = Some (Node e.1 e.2 t) ->
  nodes (<[q := Node e'.1 e'.2 t]> h) p (l1 ++ (q, e') :: l2) 0.
Proof.
  intros H Hq. pose proof (nodes_nodup _ _ _ H) as Hnd. rewrite fmap_app in Hnd. simpl in Hnd.
  apply NoDup_app in Hnd as (_ & Hd & Hnd2). apply NoDup_cons in Hnd2 as [Hq2 _].
  apply nodes_app in H as (x & H1 & H2). apply nodes_app. exists x. split.
  - apply nodes_insert_fresh; [|done]. intros Hin. apply (Hd _ Hin). left.
  - simpl in H2 |- *. destruct H2 as (-> & Hx & t' & Ht' & H2). split_and!; [done..|].
    rewrite Hq in Ht'. injection Ht' as <-. exists t. rewrite lookup_insert_eq. split; [done|].
    by apply nodes_insert_fresh.
Qed.

(** Linking a new node behind the last one. *)
Lemma nodes_append h p l q e x nd t :
  nodes h p (l ++ [(q, e)]) 0 -> h !! x = None -> x <> 0 -> h !! q = Some (Node e.1 e.2 t) ->
  nodes (<[q := Node e.1 e.2 x]> (<[x := Node nd.1 nd.2 0]> h)) p ((l ++ [(q, e)]) ++ [(x, nd)]) 0.
Proof.
  intros H Hx Hx0 Hq. assert (q <> x) as Hqx by (intros ->; congruence).
  pose proof (nodes_nodup _ _ _ H) as Hnd. rewrite fmap_app in Hnd. simpl in Hnd.
  apply NoDup_app in Hnd as (_ & Hd & _).
  apply nodes_app in H as (y & H1 & (-> & Hq0 & ? & _ & _)).
  rewrite <- app_assoc. apply nodes_app. exists q. split.
  - eapply nodes_ext; [|exact H1]. intros z Hz. rewrite !lookup_insert_ne; [done| |].
    + intros <-. destruct (nodes_dom _ _ _ _ _ H1 Hz). congruence.
    + intros <-. apply (Hd _ Hz). left.
  - simpl. split_and!; [done..|]. exists x. rewrite lookup_insert_eq. split; [done|].
    split_and!; [done..|]. exists 0. by rewrite lookup_insert_ne, lookup_insert_eq by done.
Qed.

(** ** Searching *)

(** The address of the first node whose contents satisfy [f], or NULL. *)
Fixpoint find_ptr (f : entry -> bool) (l : list (Z * entry)) : Z :=
  match l with
  | [] => 0
  | (q, e) :: l' => if f e then q else find_ptr f l'
  end.

Lemma find_node_spec h f fuel p l :
  nodes h p l 0 -> (length l < fuel)%nat ->
  find_node fuel h (fun n => f (logger n, state n)) p = Some (find_ptr f l).
Proof.
  revert p l. induction fuel as [|fuel IH]; intros p l Hl Hlen; [lia|]. cbn [find_node].
  destruct l as [|[q e] l]; simpl in Hl.
  - subst. done.
  - destruct Hl as (<- & Hp & t & Ht & Hl). destruct (Z.eqb_spec p 0); [done|].
    rewrite Ht. cbn [mbind option_bind logger state ltail find_ptr].
    rewrite <- surjective_pairing. destruct (f e); [done|]. apply IH; [done|]. simpl in Hlen. lia.
Qed.

Lemma find_ptr_split f l :
  (find_ptr f l = 0 /\ Forall (fun x => f x.2 = false) l) \/
  (exists l1 q e l2, l = l1 ++ (q, e) :: l2 /\ f e = true /\
     Forall (fun x => f x.2 = false) l1 /\ find_ptr f l = q).
Proof.
  induction l as [|[q e] l IH]; [by left|]. simpl. destruct (f e) eqn:E.
  - right. exists [], q, e, l. by split_and!.
  - destruct IH as [[-> H]|(l1 & q' & e' & l2 & -> & He & Hf & ->)].
    + left. by split; [|constructor].
    + right. exists ((q, e) :: l1), q', e', l2. split_and!; [done..|by constructor|done].
Qed.

(** ** Releasing the list *)

Section Free.
Context {W : Type} `{LsOsLaws W}.

Lemma free_loggers_ok fuel p l (s : ls_state W) :
  nodes (heap s) p l 0 -> (length l < fuel)%nat ->
  exists s', free_loggers fuel p s = Some (tt, s') /\
    (forall q, q ∉ fst <$> l -> heap s' !! q = heap s !! q) /\
    (forall q, q ∈ fst <$> l -> heap s' !! q = None) /\
    (forall q, q ∉ fst <$> l -> q ∈ os_live (world s) -> q ∈ os_live (world s')) /\
    g_loggers s' = g_loggers s /\ g_is_initialized s' = g_is_initialized s /\
    proctable s' = proctable s /\ g_logbuf s' = g_logbuf s.
Proof.
  revert p l s. induction fuel as [|fuel IH]; intros p l s Hl Hlen; [lia|]. cbn [free_loggers].
  destruct l as [|[q e] l].
  - simpl in Hl. subst. exists s. split_and!; try done. set_solver.
  - pose proof (nodes_nodup _ _ _ Hl) as Hnd. simpl in Hnd. apply NoDup_cons in Hnd as [Hq Hnd].
    simpl in Hl. destruct Hl as (<- & Hp & t & Ht & Hl). destruct (Z.eqb_spec p 0); [done|].
    unfold mbind, st_bind, load. rewrite Ht. cbn [modify sys ltail].
    set (s1 := set_world _ _).
    destruct (IH t l s1) as (s' & E & H1 & H2 & H3 & H4 & H5 & H6 & H7).
    + eapply nodes_ext; [|exact Hl]. intros z Hz. cbn. rewrite lookup_delete_ne; [done|]. by intros ->.
    + simpl in Hlen. lia.
    + exists s'. split; [exact E|]. split_and!; try done.
      * intros z Hz. simpl in Hz. rewrite H1 by set_solver. cbn. apply lookup_delete_ne. set_solver.
      * intros z Hz. destruct (decide (z ∈ fst <$> l)) as [Hin|Hin]; [by apply H2|].
        rewrite H1 by done. simpl in Hz. assert (z = p) as -> by set_solver. cbn. apply lookup_delete_eq.
      * intros z Hz Hlive. simpl in Hz. apply H3; [set_solver|]. cbn.
        rewrite live_free. set_solver.
Qed.

Lemma free_logger_list_ok p l (s : ls_state W) :
  nodes (heap s) p l 0 ->
  exists s', free_logger_list p s = Some (tt, s') /\
    (forall q, q ∉ fst <$> l -> heap s' !! q = heap s !! q) /\
    (forall q, q ∈ fst <$> l -> heap s' !! q = None) /\
    (forall q, q ∉ fst <$> l -> q ∈ os_live (world s) -> q ∈ os_live (world s')) /\
    g_loggers s' = g_loggers s /\ g_is_initialized s' = g_is_initialized s /\
    proctable s' = proctable s /\ g_logbuf s' = g_logbuf s.
Proof.
  intros Hl. unfold free_logger_list. mrun. apply (free_loggers_ok _ _ l); [done|].
  apply nodes_length in Hl. lia.
Qed.
End Free.
