(* ===== verification/LsInit.v ===== *)
(** Loading the configuration: [parse_config_file], [do_initialize] and
    [ensure_initialized] build a well-formed list of loggers out of whatever
    the system answers, and exactly the loggers of the file when the system
    serves them. *)

From S2P Require Import Prelude Chain LsOs LsBufio LsConfig LsParse LsFormat LsHeap LsServer.
Local Open Scope Z_scope.

#[local] Arguments zeros : simpl never.
#[local] Opaque BUFFER_SIZE.

(** The loggers of a list of nodes. *)
Definition loggers (l : list (Z * entry)) : list ls_logger_t := (fun x => x.2.1) <$> l.

Definition last_ptr (l : list (Z * entry)) : Z :=
  match last l with Some (q, _) => q | None => 0 end.

(** The globals that loading does not touch. *)
Definition same_globals {W} (s s' : ls_state W) : Prop :=
  g_loggers s' = g_loggers s /\ g_is_initialized s' = g_is_initialized s /\
  proctable s' = proctable s /\ g_logbuf s' = g_logbuf s.

Lemma same_globals_trans {W} (s1 s2 s3 : ls_state W) :
  same_globals s1 s2 -> same_globals s2 s3 -> same_globals s1 s3.
Proof. intros (?&?&?&?) (?&?&?&?). repeat split; congruence. Qed.

Section Init.
Context {W : Type} `{LsOsLaws W}.
Implicit Types s : ls_state W.

(** Every node in memory is a block in use. *)
Definition nodes_live s : Prop := forall q, is_Some (heap s !! q) -> q ∈ os_live (world s).

(** The state of the loading loop: the list built so far, of closed loggers,
    and the block at [a], which is none of the nodes. *)
Record loading (a : Z) s (head : Z) (l : list (Z * entry)) : Prop := {
  ld_nodes : nodes (heap s) head l 0;
  ld_live : nodes_live s;
  ld_block : heap s !! a = None;
  ld_block_live : a ∈ os_live (world s);
  ld_closed : Forall (fun x => x.2.2 = lstate_zero) l;
}.

Lemma loading_world a s head l w :
  os_live w = os_live (world s) -> loading a s head l -> loading a (set_world w s) head l.
Proof.
  intros Hw [? Hl ? ? ?]. split; try done; [|by rewrite <- Hw in *].
  intros q Hq. cbn. rewrite Hw. by apply Hl.
Qed.

(** ** One logger *)

Lemma existsb_find_ptr (f : entry -> bool) l :
  Forall (fun x => x.1 <> 0) l ->
  negb (find_ptr f l =? 0) = existsb (fun x => f x.2) l.
Proof.
  induction 1 as [|[q e] l Hq _ IH]; [done|]. simpl. destruct (f e); [|done].
  simpl in *. by destruct (Z.eqb_spec q 0).
Qed.

Lemma existsb_loggers f l : existsb f (loggers l) = existsb (fun x => f x.2.1) l.
Proof. induction l as [|x l IH]; [done|]. simpl. f_equal. exact IH. Qed.

Lemma nodes_nonnull h p l r : nodes h p l r -> Forall (fun x => x.1 <> 0) l.
Proof.
  revert p. induction l as [|[q e] l IH]; simpl; intros p; [constructor|].
  intros (<- & Hp & t & _ & Hl). constructor; [done|]. by eapply IH.
Qed.

Lemma is_logger_valid_ok ps head s l :
  nodes (heap s) head l 0 -> is_logger_valid ps head s = Some (acceptable ps (loggers l), s).
Proof.
  intros Hl. unfold is_logger_valid. mrun.
  rewrite (find_node_spec _ (fun e => streq (name (current_logger ps)) (name e.1)) _ _ l Hl)
    by (apply nodes_length in Hl; lia).
  rewrite existsb_find_ptr by by eapply nodes_nonnull.
  unfold acceptable. rewrite existsb_loggers.
  by destruct (existsb _ l).
Qed.

Lemma last_ptr_snoc l q e : last_ptr (l ++ [(q, e)]) = q.
Proof. unfold last_ptr. by rewrite last_snoc. Qed.

(** Appending a freshly allocated node. *)
Lemma add_node_ok a s head l p lg w :
  loading a s head l -> p <> 0 -> p ∉ os_live (world s) -> os_live w = {[p]} ∪ os_live (world s) ->
  exists s', add_node p 0 lg (last_ptr l) (set_world w s) = Some (tt, s') /\
    loading a s' (if head =? 0 then p else head) (l ++ [(p, (lg, lstate_zero))]) /\
    world s' = w /\ same_globals s s'.
Proof.
  intros [Hn Hl Hb Hbl Hc] Hp Hfresh Hw.
  assert (Hpn : heap s !! p = None).
  { destruct (heap s !! p) eqn:E; [|done]. exfalso. apply Hfresh, Hl. eauto. }
  assert (a <> p) as Hap by by intros ->.
  assert (Hc' : Forall (fun x => x.2.2 = lstate_zero) (l ++ [(p, (lg, lstate_zero))])).
  { apply Forall_app. split; [done|]. by apply Forall_singleton. }
  destruct l as [|[q e] l0 _] using rev_ind.
  - simpl in Hn. subst head. eexists. split; [reflexivity|]. split; [|done].
    split; cbn -[nodes]; [| | | |done].
    + cbn. split_and!; [done..|]. exists 0. by rewrite lookup_insert_eq.
    + intros z. cbn. rewrite Hw. destruct (decide (z = p)) as [->|]; [set_solver|].
      rewrite lookup_insert_ne by done. intros Hz%Hl. set_solver.
    + by rewrite lookup_insert_ne.
    + rewrite Hw. set_solver.
  - unfold add_node. rewrite last_ptr_snoc.
    destruct (nodes_lookup _ _ _ _ q e Hn) as [t Ht]; [set_solver|].
    assert (q <> 0 /\ q <> p) as [Hq0 Hqp].
    { split; [|by intros ->; congruence]. apply nodes_nonnull, Forall_app in Hn as [_ Hn].
      by inversion Hn. }
    assert (head <> 0) as Hh0.
    { destruct l0 as [|[? ?] ?]; cbn in Hn; tauto. }
    destruct (Z.eqb_spec q 0); [done|]. destruct (Z.eqb_spec head 0); [done|].
    eexists. split.
    { mrun. unfold load, store. cbn [heap set_heap set_world].
      rewrite lookup_insert_ne, Ht by done. cbn [heap set_heap set_world].
      rewrite lookup_insert_ne, Ht by done. reflexivity. }
    split; [|done]. split; cbn -[nodes]; [| | | |done].
    + by eapply (nodes_append _ _ _ _ _ _ (lg, lstate_zero)).
    + intros z. cbn. rewrite Hw. destruct (decide (z = q)) as [->|].
      { intros _. apply elem_of_union_r, Hl. rewrite Ht. eauto. }
      rewrite lookup_insert_ne by done. destruct (decide (z = p)) as [->|]; [set_solver|].
      rewrite lookup_insert_ne by done. intros Hz%Hl. set_solver.
    + rewrite !lookup_insert_ne; [done|done|]. intros ->. congruence.
    + rewrite Hw. set_solver.
Qed.

(** ** The loading loop *)

(** A bound on the characters still to come. *)
Definition chars_left (bio : bufio_t) (w : W) : nat :=
  (bsize bio - off bio) + length (os_unread (fd bio) w) +
  (if (bsize bio =? BUFFER_SIZE)%nat then 1 else 0).

Definition is_end (c : Z) : bool := (c =? BUFIO_EOF) || (c =? BUFIO_ERR).

Lemma buffer_pos : (0 < BUFFER_SIZE)%nat.
Proof. apply Nat.ltb_lt. by vm_compute. Qed.

Lemma next_char_bound bio w c bio' w' :
  bufio_next_char bio w = (c, bio', w') -> (bsize bio <= BUFFER_SIZE)%nat ->
  os_live w' = os_live w /\ baddr bio' = baddr bio /\ fd bio' = fd bio /\
  (bsize bio' <= BUFFER_SIZE)%nat /\
  (is_end c = true \/ (chars_left bio' w' < chars_left bio w)%nat).
Proof.
  unfold bufio_next_char, chars_left. intros E Hsz. pose proof buffer_pos.
  destruct (Nat.leb_spec (bsize bio) (off bio)) as [Hoff|Hoff]; cbn [andb] in E.
  - destruct (Nat.ltb_spec (bsize bio) BUFFER_SIZE).
    { injection E as <- <- <-. auto 10. }
    pose proof (live_read (fd bio) BUFFER_SIZE w) as Hlive.
    pose proof (unread_read (fd bio) BUFFER_SIZE w) as Hun.
    destruct (os_read (fd bio) BUFFER_SIZE w) as [[bytes|] w1]; cbn [fst snd] in *.
    + destruct Hun as [[= ->] Hun]; [done|]. unfold next_byte in E. cbn in E.
      injection E as <- <- <-. cbn [baddr fd bsize off]. rewrite Hun, length_take, length_drop.
      split_and!; [done|done|done|lia|]. right.
      repeat zcase; lia.
    + injection E as <- <- <-. cbn [baddr fd bsize]. split_and!; [done|done|done|lia|]. auto.
  - unfold next_byte in E. injection E as <- <- <-. cbn [baddr fd bsize off].
    split_and!; [done..|]. right. lia.
Qed.

(** The ways the loop can end: nothing else than the list is changed, and the
    loggers collected are those of an acceptable configuration. *)
Record loop_post (a : Z) s (fdc : Z) (r : loop_exit * bufio_t * Z) s' (l' : list (Z * entry)) : Prop := {
  lp_loading : loading a s' r.2 l';
  lp_config : config_ok (loggers l');
  lp_same : same_globals s s';
  lp_bio : baddr r.1.2 = a /\ fd r.1.2 = fdc;
}.

(** The blocks for nodes come with a clear word in the place of the tail. *)
Definition clear_tails : Prop :=
  forall w p g, (os_malloc ANode w).1 = Some (p, g) -> g = 0.

(** ** The characters the loop sees when no call of the system fails *)

Definition always_served : Prop :=
  (forall fd n w, (os_read fd n w).1 <> None) /\ (forall a w, (os_malloc a w).1 <> None).

(** The characters the reader still delivers before the end of file. *)
Definition stream (bio : bufio_t) (w : W) : list Z :=
  let r := os_unread (fd bio) w in pending bio ++ r ++ leftover bio r.

Definition reader_ok (bio : bufio_t) (w : W) : Prop :=
  bufio_ok (fd bio) bio (os_unread (fd bio) w).

Lemma served_reads fdc : always_served -> reads_file fdc (os_unread fdc).
Proof. intros [Hr _] n w. by apply unread_read. Qed.

Lemma next_char_stream bio w c bio' w' :
  always_served -> reader_ok bio w -> bufio_next_char bio w = (c, bio', w') ->
  reader_ok bio' w' /\
  forall ps acc, config_run ps acc (c :: stream bio' w') = config_run ps acc (stream bio w).
Proof.
  intros Hs Hok E.
  pose proof (next_char_step (fd bio) (os_unread (fd bio)) bio w (served_reads _ Hs) Hok) as Hstep.
  unfold stream. destruct (pending bio ++ _) as [|c0 f] eqn:Ef.
  - rewrite E in Hstep. injection Hstep as -> -> ->. split; [done|]. intros. by cbn.
  - destruct Hstep as (bio2 & w2 & E2 & Hok2 & Ef2). rewrite E in E2. injection E2 as <- <- <-.
    unfold reader_ok. rewrite (bo_fd _ _ _ Hok2). split; [done|]. intros. by rewrite Ef2.
Qed.

(** How the exit of the loop relates to the pure run of the parser. *)
Definition exit_ok (ex : loop_exit) (ls : list ls_logger_t) (res : Z + list ls_logger_t) : Prop :=
  match ex, res with
  | GotoDeallocBufio e, inl e' | GotoDeallocLoggers e, inl e' => e = e'
  | LoopDone c, inl e' => c = BUFIO_ERR /\ e' = EIO
  | LoopDone c, inr ls' => c <> BUFIO_ERR /\ ls = ls'
  | _, _ => False
  end.

Definition loop_exact ps acc (chars : list Z) (bio : bufio_t) (w : W)
  (r : loop_exit * bufio_t * Z) (l' : list (Z * entry)) : Prop :=
  always_served -> reader_ok bio w -> exit_ok r.1.1 (loggers l') (config_run ps acc chars).

(** Reading on after a character was handled. *)
Definition continue_load fuel ps bio head last : ST (ls_state W) (loop_exit * bufio_t * Z) :=
  '(c', bio') ← sys (fun w => bufio_next_char bio w); parse_loop fuel ps bio' c' head last.

Definition loop_correct (fuel : nat) : Prop := forall ps bio c head s l,
  parser_wf ps -> config_ok (loggers l) -> loading (baddr bio) s head l ->
  (bsize bio <= BUFFER_SIZE)%nat ->
  ((if is_end c then 1 else chars_left bio (world s) + 2) <= fuel)%nat ->
  exists r s' l', parse_loop fuel ps bio c head (last_ptr l) s = Some (r, s') /\
    loop_post (baddr bio) s (fd bio) r s' l' /\
    loop_exact ps (loggers l) (c :: stream bio (world s)) bio (world s) r l'.

Lemma continue_load_ok fuel ps bio s s1 head1 l1 :
  loop_correct fuel -> parser_wf ps -> (bsize bio <= BUFFER_SIZE)%nat ->
  (chars_left bio (world s) + 1 <= fuel)%nat ->
  loading (baddr bio) s1 head1 l1 -> config_ok (loggers l1) -> same_globals s s1 ->
  os_unread (fd bio) (world s1) = os_unread (fd bio) (world s) ->
  exists r s' l', continue_load fuel ps bio head1 (last_ptr l1) s1 = Some (r, s') /\
    loop_post (baddr bio) s (fd bio) r s' l' /\
    loop_exact ps (loggers l1) (stream bio (world s)) bio (world s) r l'.
Proof.
  intros IH Hps Hsz Hfuel Hld1 Hcfg1 Hsame Hun. unfold continue_load. mrun. unfold sys.
  destruct (bufio_next_char bio (world s1)) as [[c' bio'] w'] eqn:En.
  pose proof (next_char_stream bio (world s1) c' bio' w') as Hstr.
  pose proof En as (Hlive & Ha & Hfd & Hsz' & Hleft)%next_char_bound; [|done].
  destruct (IH ps bio' c' head1 (set_world w' s1) l1) as (r & s' & l' & E & [H1 H2 H3 H4] & Hex);
    [done|done| |done| |].
  - rewrite Ha. by apply loading_world.
  - cbn [world set_world]. unfold chars_left in Hfuel, Hleft |- *. rewrite Hun in Hleft.
    destruct (is_end c'); [lia|]. destruct Hleft; [done|lia].
  - exists r, s', l'. split; [exact E|]. rewrite Ha, Hfd in *. split; [split; try done|].
    + eapply same_globals_trans; [done|]. exact H3.
    + intros Hs Hok. unfold reader_ok in *. unfold stream at 2 in Hstr. rewrite Hun in Hstr.
      destruct (Hstr Hs Hok En) as [Hok' Heq]. unfold stream at 1. rewrite <- Heq. by apply Hex.
Qed.

Lemma parse_loop_ok fuel : clear_tails -> loop_correct fuel.
Proof.
  intros Htail. induction fuel as [|fuel IH]; intros ps bio c head s l Hps Hcfg Hld Hsz Hfuel.
  { destruct (is_end c); lia. }
  unfold loop_exact. cbn [parse_loop config_run]. fold (is_end c). destruct (is_end c) eqn:Hend.
  { eexists _, s, l. split; [reflexivity|]. split; [by split|]. intros _ _.
    unfold is_end in Hend. cbn. destruct (Z.eqb_spec c BUFIO_EOF) as [->|]; [done|].
    by destruct (Z.eqb_spec c BUFIO_ERR). }
  apply orb_false_iff in Hend as [-> ->].
  pose proof (parse_advance_wf ps c Hps) as Hps'. pose proof (got_logger_inside ps c) as Hgot.
  destruct (parse_advance ps c) as [res ps'] eqn:Eadv. cbn [snd] in Hps'.
  assert (Hfuel' : (chars_left bio (world s) + 1 <= fuel)%nat) by lia.
  destruct res.
  - by apply (continue_load_ok fuel ps' bio s s head l).
  - rewrite (bind_run _ _ _ _ _ (is_logger_valid_ok ps' head s l (ld_nodes _ _ _ _ Hld))).
    destruct (acceptable ps' (loggers l)) eqn:Hacc; cbn [negb].
    2: { eexists _, s, l. split; [reflexivity|]. by split. }
    mrun. unfold sys.
    pose proof (live_malloc_ok ANode (world s)) as Hok. pose proof (live_malloc_fail ANode (world s)) as Hno.
    pose proof (Htail (world s)) as Ht. pose proof (unread_malloc (fd bio) ANode (world s)) as Hun.
    destruct (os_malloc ANode (world s)) as [[[p g]|] w1] eqn:Em; cbn [fst snd] in *.
    + specialize (Ht p g eq_refl) as ->. destruct (Hok p 0 eq_refl) as (Hp & Hfresh & Hlive).
      destruct (add_node_ok _ s head l p (current_logger ps') w1 Hld Hp Hfresh Hlive)
        as (s1 & E1 & Hld1 & Hw1 & Hsame1).
      rewrite E1. pose proof (continue_load_ok fuel ps' bio s s1 _ _ IH Hps' Hsz Hfuel' Hld1) as Hcont.
      unfold loggers in Hcont at 1 2. rewrite last_ptr_snoc, fmap_app in Hcont. apply Hcont.
      * apply (acceptable_ok ps'); eauto.
      * done.
      * by rewrite Hw1.
    + eexists _, _, l. split; [reflexivity|]. split.
      * split; try done. apply loading_world; [auto|done].
      * intros [_ Hm]. by destruct (Hm ANode (world s)); rewrite Em.
  - eexists _, s, l. split; [reflexivity|]. by split.
Qed.

(** ** Loading a file *)

(** What is left after loading: a well-formed list of closed loggers, empty
    when loading failed, and untouched other globals. *)
Record loaded s s' (ret : Z) (l' : list (Z * entry)) : Prop := {
  lo_nodes : nodes (heap s') (g_loggers s') l' 0;
  lo_live : nodes_live s';
  lo_config : config_ok (loggers l');
  lo_closed : Forall (fun x => x.2.2 = lstate_zero) l';
  lo_failed : ret <> OK -> l' = [];
  lo_init : g_is_initialized s' = g_is_initialized s;
  lo_procs : proctable s' = proctable s;
  lo_logbuf : g_logbuf s' = g_logbuf s;
}.

Lemma config_ok_nil : config_ok [].
Proof. split; constructor. Qed.

Lemma loaded_none s s' ret :
  g_loggers s = 0 -> same_globals s s' -> nodes_live s' -> loaded s s' ret [].
Proof. intros Hg (?&?&?&?) Hl. split; try done; [cbn; congruence|apply config_ok_nil]. Qed.

(** The common end of the function: free the reader, close the file. *)
Definition finish_load (fdc : Z) (bio : bufio_t) (ret : Z) : ST (ls_state W) Z :=
  sys (fun w => (tt, bufio_free bio w));; sys (os_close fdc);; mret ret.

Lemma finish_load_ok fdc bio ret s head l :
  loading (baddr bio) s head l ->
  exists s', finish_load fdc bio ret s = Some (ret, s') /\
    heap s' = heap s /\ nodes_live s' /\ same_globals s s'.
Proof.
  intros [_ Hl Hb _ _]. unfold finish_load. mrun. unfold sys. cbn [world set_world].
  pose proof (live_close fdc (bufio_free bio (world s))) as Hc.
  destruct (os_close fdc (bufio_free bio (world s))) as [r w']. cbn [snd] in Hc.
  eexists. split; [reflexivity|]. split; [done|]. split; [|done].
  intros q Hq. cbn in *. rewrite Hc. unfold bufio_free. rewrite live_free.
  apply elem_of_difference. split; [by apply Hl|]. rewrite elem_of_singleton. intros ->.
  rewrite Hb in Hq. by destruct Hq.
Qed.

Lemma finish_load_failed fdc bio ret s0 s head l :
  g_loggers s0 = 0 -> same_globals s0 s -> loading (baddr bio) s head l ->
  exists s', finish_load fdc bio ret s = Some (ret, s') /\ loaded s0 s' ret [].
Proof.
  intros Hg Hsame Hld. destruct (finish_load_ok fdc bio ret s head l Hld) as (s' & E & _ & Hl & Hs).
  exists s'. split; [done|]. apply loaded_none; [done| |done]. by eapply same_globals_trans.
Qed.

(** Releasing the loggers collected so far. *)
Lemma release_ok a s head l :
  loading a s head l ->
  exists s', free_logger_list head s = Some (tt, s') /\ loading a s' 0 [] /\ same_globals s s'.
Proof.
  intros [Hn Hl Hb Hbl _].
  destruct (free_logger_list_ok head l s Hn) as (s' & E & H1 & H2 & H3 & H4).
  assert (a ∉ fst <$> l) as Ha.
  { intros Ha. destruct (nodes_dom _ _ _ _ _ Hn Ha). congruence. }
  exists s'. split; [done|]. split; [|done]. split; try done.
  - intros q Hq. destruct (decide (q ∈ fst <$> l)) as [Hin|Hin].
    + rewrite H2 in Hq by done. by destruct Hq.
    + apply H3; [done|]. apply Hl. by rewrite <- H1.
  - by rewrite H1.
  - by apply H3.
Qed.

(** The size of the file leaves enough fuel to read it. *)
Definition file_fits (fuel : nat) (filename : list Z) : Prop :=
  forall w, let '(fd, w1) := os_open filename O_RDONLY w in
    0 <= fd -> (length (os_unread fd w1) + 2 <= fuel)%nat.

Lemma bufio_init_loading fdc s o w1 :
  nodes_live s -> bufio_init fdc (world s) = (o, w1) ->
  match o with
  | None => nodes_live (set_world w1 s)
  | Some bio =>
      loading (baddr bio) (set_world w1 s) 0 [] /\ fd bio = fdc /\ (bsize bio <= BUFFER_SIZE)%nat /\
      (chars_left bio w1 <= length (os_unread fdc (world s)) + 1)%nat
  end.
Proof.
  intros Hl. unfold bufio_init.
  pose proof (live_malloc_ok ABufio (world s)) as Hok. pose proof (live_malloc_fail ABufio (world s)) as Hno.
  pose proof (unread_malloc fdc ABufio (world s)) as Hum.
  destruct (os_malloc ABufio (world s)) as [[[p g]|] w2]; cbn [fst snd] in *.
  2: { intros [= <- <-] q Hq. cbn. rewrite Hno by done. by apply Hl. }
  destruct (Hok p g eq_refl) as (Hp & Hfresh & Hlive).
  pose proof (live_read fdc BUFFER_SIZE w2) as Hlr. pose proof (unread_read fdc BUFFER_SIZE w2) as Hur.
  destruct (os_read fdc BUFFER_SIZE w2) as [[bytes|] w3]; cbn [fst snd] in *; intros [= <- <-].
  - destruct Hur as [[= ->] Hur]; [done|]. cbn [baddr fd bsize]. split_and!; [|done|rewrite length_take; lia|].
    + split; cbn -[nodes]; [done| | | |constructor].
      * intros q Hq. cbn. rewrite Hlr, Hlive. apply elem_of_union_r. by apply Hl.
      * destruct (heap s !! p) eqn:E; [|done]. exfalso. apply Hfresh, Hl. rewrite E. eauto.
      * rewrite Hlr, Hlive. set_solver.
    + unfold chars_left. cbn [bsize off fd]. rewrite Hur, Hum, length_take, length_drop. zcase; lia.
  - intros q Hq. cbn in *. rewrite live_free, Hlr, Hlive. apply Hl in Hq.
    apply elem_of_difference. split; [set_solver|]. rewrite elem_of_singleton. by intros ->.
Qed.

Lemma loading_malloc a s head l k :
  loading a s head l -> loading a (set_world (os_malloc k (world s)).2 s) head l.
Proof.
  intros [Hn Hl Hb Hbl Hc].
  assert (Hsub : os_live (world s) ⊆ os_live (os_malloc k (world s)).2).
  { destruct (os_malloc k (world s)).1 as [[p g]|] eqn:E.
    - destruct (live_malloc_ok k _ _ _ E) as (_ & _ & ->). set_solver.
    - by rewrite (live_malloc_fail k _ E). }
  split; try done; cbn; [|set_solver]. intros q Hq. cbn. apply Hsub. by apply Hl.
Qed.

Section Safe.
Context (fuel : nat) (junk : parser_state_t) (filename : list Z).
Hypothesis Hjunk : length (curr_value junk) = MAX_VALUE_LEN /\ length (option_name junk) = MAX_VALUE_LEN.
Hypothesis Htails : clear_tails.
Hypothesis Hfits : file_fits fuel filename.

(** The end of the loop, whatever it was. *)
Definition end_load (fdc : Z) (r : loop_exit * bufio_t * Z) : ST (ls_state W) Z :=
  let '(ex, bio, head) := r in
  match ex with
  | GotoDeallocBufio ret => finish_load fdc bio ret
  | GotoDeallocLoggers ret => free_logger_list head;; finish_load fdc bio ret
  | LoopDone c =>
      if c =? BUFIO_ERR
      then free_logger_list head;; finish_load fdc bio EIO
      else modify (set_g_loggers head);; finish_load fdc bio OK
  end.

(** The result and the loggers kept, against the pure run. *)
Definition load_exact (ret : Z) (ls : list ls_logger_t) (res : Z + list ls_logger_t) : Prop :=
  match res with inl e => ret = e | inr ls' => ret = OK /\ ls = ls' end.

Lemma end_load_ok fdc a fdb s0 s r s' l res :
  g_loggers s0 = 0 -> same_globals s0 s -> loop_post a s fdb r s' l ->
  exists ret s2 l2, end_load fdc r s' = Some (ret, s2) /\ loaded s0 s2 ret l2 /\
    (exit_ok r.1.1 (loggers l) res -> load_exact ret (loggers l2) res).
Proof.
  intros Hg Hsame [Hld Hcfg Hs' [Ha Hfd]]. destruct r as [[ex bio] head]. cbn [fst snd] in *. subst a.
  assert (Hs02 : same_globals s0 s') by by eapply same_globals_trans.
  assert (Hrel : forall ret, exists s2, (free_logger_list head;; finish_load fdc bio ret) s' = Some (ret, s2)
    /\ loaded s0 s2 ret []).
  { intros ret. destruct (release_ok _ _ _ _ Hld) as (s1 & E1 & Hld1 & Hs1).
    rewrite (bind_run _ _ _ _ _ E1). eapply finish_load_failed; [done| |done]. by eapply same_globals_trans. }
  unfold end_load. destruct ex as [ret|ret|c].
  - destruct (finish_load_failed fdc bio ret s0 s' head l) as (s2 & E & Hlo); [done..|].
    exists ret, s2, []. split_and!; [done..|]. by destruct res.
  - destruct (Hrel ret) as (s2 & E & Hlo). exists ret, s2, []. split_and!; [done..|]. by destruct res.
  - destruct (Z.eqb_spec c BUFIO_ERR) as [->|Hc].
    { destruct (Hrel EIO) as (s2 & E & Hlo). exists EIO, s2, []. split_and!; [done..|].
      destruct res; cbn; [by intros [_ ->]|by intros []]. }
    rewrite (bind_run _ _ _ tt (set_g_loggers head s')) by done.
    assert (loading (baddr bio) (set_g_loggers head s') head l) as Hld' by by destruct Hld.
    destruct (finish_load_ok fdc bio OK _ _ _ Hld') as (s2 & E & Hh & Hl & (G1 & G2 & G3 & G4)).
    exists OK, s2, l. split; [done|]. destruct Hs02 as (G1' & G2' & G3' & G4'). split.
    + split; try done; rewrite ?Hh, ?G1, ?G2, ?G3, ?G4; cbn; try done; apply Hld.
    + destruct res; cbn; [by intros []|by intros [_ ->]].
Qed.

(** Everything up to the first character of the file. *)
Lemma first_char_ok fdc s1 bio w2 :
  nodes_live s1 -> bufio_init fdc (world s1) = (Some bio, w2) ->
  always_served -> reader_ok bio w2 /\
    stream bio w2 = os_unread fdc (world s1) ++ stale (os_unread fdc (world s1)).
Proof.
  intros Hl Ei Hs.
  destruct (bufio_init_ok fdc (os_unread fdc) bio (world s1) w2 (served_reads _ Hs)
    (unread_malloc _ _ _) Ei) as [Hok Hstr].
  assert (fd bio = fdc) as Hfd by apply (bo_fd _ _ _ Hok).
  unfold reader_ok, stream. rewrite Hfd. by split.
Qed.

(** The whole call: it returns whatever the system answers, and with a system
    that serves every request its result is the one of the pure run. *)
Lemma parse_config_file_ok s :
  g_loggers s = 0 -> nodes_live s ->
  exists ret s' l', parse_config_file fuel junk filename s = Some (ret, s') /\ loaded s s' ret l' /\
    let '(fdc, w1) := os_open filename O_RDONLY (world s) in
    if fdc <? 0 then ret = fdc
    else always_served ->
      let content := os_unread fdc w1 in
      load_exact ret (loggers l') (config_run (parse_init junk) [] (content ++ stale content)).
Proof.
  intros Hg Hl. unfold parse_config_file, sys. mrun.
  pose proof (Hfits (world s)) as Hfit. pose proof (live_open filename O_RDONLY (world s)) as Hlo.
  destruct (os_open filename O_RDONLY (world s)) as [fdc w1]. cbn [snd] in Hlo.
  assert (Hl1 : nodes_live (set_world w1 s)) by (intros q Hq; cbn; rewrite Hlo; by apply Hl).
  destruct (Z.ltb_spec fdc 0) as [Hneg|Hpos].
  { exists fdc, (set_world w1 s), []. split; [done|]. split; [by apply loaded_none|done]. }
  specialize (Hfit Hpos).
  cbn [world set_world]. destruct (bufio_init fdc w1) as [o w2] eqn:Ei.
  pose proof (bufio_init_loading fdc (set_world w1 s) o w2 Hl1 Ei) as Hi. destruct o as [bio|].
  2: { pose proof (live_close fdc w2) as Hc. cbn [world set_world].
       destruct (os_close fdc w2) as [rc w3]. cbn [snd] in Hc.
       eexists _, _, []. split; [reflexivity|]. split; [apply loaded_none; [done|done|]|].
       - intros q Hq. cbn. rewrite Hc. by apply Hi.
       - intros [Hr Hm]. exfalso. unfold bufio_init in Ei. specialize (Hm ABufio w1).
         destruct (os_malloc ABufio w1) as [[[p g]|] w4]; [|done]. specialize (Hr fdc BUFFER_SIZE w4).
         by destruct (os_read fdc BUFFER_SIZE w4) as [[]]. }
  pose proof (first_char_ok fdc (set_world w1 s) bio w2 Hl1 Ei) as Hfirst.
  destruct Hi as (Hld & Hfd & Hsz & Hleft). cbn [world set_world] in *.
  pose proof (loading_malloc _ _ _ _ AParser Hld) as Hld2. cbn [world set_world] in Hld2.
  pose proof (unread_malloc fdc AParser w2) as Hum.
  destruct (os_malloc AParser w2) as [[pblk|] w3] eqn:Em; cbn [snd] in *.
  2: { destruct (finish_load_failed fdc bio ENOMEM s (set_world w3 s) 0 []) as (s' & E & Hlo'); [done..|].
       exists ENOMEM, s', []. split; [exact E|]. split; [done|].
       intros [_ Hm]. by destruct (Hm AParser w2); rewrite Em. }
  destruct (continue_load_ok fuel (parse_init junk) bio (set_world w3 s) (set_world w3 s) 0 [])
    as (r & s' & l' & E & Hpost & Hex).
  { by apply parse_loop_ok. }
  { destruct Hjunk. by apply parse_init_wf. }
  { done. }
  { unfold chars_left in *. rewrite Hfd in *. cbn [world set_world]. rewrite Hum. lia. }
  { exact Hld2. }
  { apply config_ok_nil. }
  { done. }
  { done. }
  destruct (end_load_ok fdc _ _ s (set_world w3 s) r s' l'
    (config_run (parse_init junk) [] (os_unread fdc w1 ++ stale (os_unread fdc w1))) Hg ltac:(done) Hpost)
    as (ret & s2 & l2 & E2 & Hlo2 & Hex2).
  exists ret, s2, l2. split; [|split; [done|]].
  - rewrite <- E2. change (last_ptr []) with 0 in E. unfold continue_load, sys in E.
    unfold mbind, st_bind in E. cbn [world set_world] in E |- *.
    destruct (bufio_next_char bio w3) as [[c bio1] w4].
    change (set_world w4 (set_world w3 s)) with (set_world w4 s) in E.
    change (set_world w4 _) with (set_world w4 s). rewrite E. by destruct r as [[[] ?] ?].
  - intros Hs. apply Hex2. destruct (Hfirst Hs) as [Hok Hstr].
    assert (os_unread (fd bio) w3 = os_unread (fd bio) w2) as Hum' by (by rewrite Hfd).
    unfold loop_exact, reader_ok, stream in *. cbn [world set_world] in Hex. rewrite Hum' in Hex.
    rewrite Hstr in Hex. by apply Hex.
Qed.
End Safe.

(** ** The state between requests *)

(** A logger is open with the severity of its configuration; its buffer for
    messages has its size. *)
Definition entry_ok (e : entry) : Prop :=
  length (msg_buf e.2) = LS_MAX_MESSAGE_LEN /\ (is_open e.2 = true -> st_severity e.2 = severity e.1).

Record server_inv s (l : list (Z * entry)) : Prop := {
  si_nodes : nodes (heap s) (g_loggers s) l 0;
  si_live : nodes_live s;
  si_config : config_ok (loggers l);
  si_entries : Forall (fun x => entry_ok x.2) l;
  si_logbuf : length (g_logbuf s) = LOGBUF_LEN;
}.

Lemma ls_boot_inv w : server_inv (ls_boot w) [].
Proof.
  split; try done; [|apply config_ok_nil]. intros q Hq. cbn in Hq. rewrite lookup_empty in Hq. by destruct Hq.
Qed.

Lemma lstate_zero_ok lg : entry_ok (lg, lstate_zero).
Proof. split; [apply length_replicate|done]. Qed.

Lemma get_process_table_ok s :
  exists ret s', get_process_table s = Some (ret, s') /\ heap s' = heap s /\ g_loggers s' = g_loggers s /\
    g_is_initialized s' = g_is_initialized s /\ g_logbuf s' = g_logbuf s /\
    os_live (world s') = os_live (world s) /\
    let '(r, tab, w) := os_getsysinfo (world s) in
    world s' = w /\ if r =? OK then ret = OK /\ proctable s' = tab
                    else ret = LS_ERR_EXTERNAL /\ proctable s' = proctable s.
Proof.
  unfold get_process_table, sys. mrun. pose proof (live_getsysinfo (world s)) as Hl.
  destruct (os_getsysinfo (world s)) as [[r tab] w]. cbn [snd] in Hl.
  destruct (r =? OK); eexists _, _; (split; [reflexivity|]); by split_and!.
Qed.

Section Server.
Context (fuel : nat) (junk : parser_state_t).
Hypothesis Hjunk : length (curr_value junk) = MAX_VALUE_LEN /\ length (option_name junk) = MAX_VALUE_LEN.
Hypothesis Htails : clear_tails.
Hypothesis Hfits : file_fits fuel CONFIG_FILE.

Lemma do_initialize_ok s l :
  server_inv s l ->
  exists ret s' l', do_initialize fuel junk s = Some (ret, s') /\ server_inv s' l' /\
    g_is_initialized s' = g_is_initialized s /\ Forall (fun x => is_open x.2.2 = false) l'.
Proof.
  intros [Hn Hl Hc He Hb]. unfold do_initialize. rewrite (bind_run get _ s s s) by done.
  destruct (free_logger_list_ok (g_loggers s) l s Hn) as (s1 & E1 & H1 & H2 & H3 & H4 & H5 & H6 & H7).
  rewrite (bind_run _ _ _ _ _ E1), (bind_run _ _ _ tt (set_g_loggers 0 s1)) by done.
  destruct (parse_config_file_ok fuel junk CONFIG_FILE Hjunk Htails Hfits (set_g_loggers 0 s1))
    as (ret & s2 & l2 & E2 & [Ln Ll Lc Lcl Lf Li Lp Lb] & _); [done| |].
  { intros q Hq. cbn in *. destruct (decide (q ∈ fst <$> l)) as [Hin|Hin].
    - rewrite H2 in Hq by done. by destruct Hq.
    - apply H3; [done|]. apply Hl. by rewrite <- H1. }
  rewrite (bind_run _ _ _ _ _ E2). cbn in Li, Lp, Lb.
  assert (Hinv2 : server_inv s2 l2).
  { split; try done; [|congruence]. eapply Forall_impl; [exact Lcl|].
    intros [q [lg st]]. cbn. intros ->. apply lstate_zero_ok. }
  assert (Hclosed : Forall (fun x : Z * entry => is_open x.2.2 = false) l2).
  { eapply Forall_impl; [exact Lcl|]. by intros [q [lg st]] ->. }
  destruct (negb (ret =? OK)).
  { exists ret, s2, l2. split_and!; [done|done|congruence|done]. }
  destruct (get_process_table_ok s2) as (r & s3 & E3 & G1 & G2 & G3 & G4 & G5 & _).
  exists r, s3, l2. split_and!; [done| |congruence|done]. destruct Hinv2.
  split; rewrite ?G1, ?G2, ?G4; try done. intros q. rewrite G1, G5. auto.
Qed.

Lemma ensure_initialized_ok s l :
  server_inv s l ->
  exists ret s' l', ensure_initialized fuel junk s = Some (ret, s') /\ server_inv s' l' /\
    (g_is_initialized s = true -> ret = OK /\ s' = s /\ l' = l) /\
    (ret = OK -> g_is_initialized s' = true).
Proof.
  intros Hinv. unfold ensure_initialized. rewrite (bind_run get _ s s s) by done.
  destruct (g_is_initialized s) eqn:Ei.
  { exists OK, s, l. by split_and!. }
  destruct (do_initialize_ok s l Hinv) as (ret & s1 & l1 & E1 & Hinv1 & Hi1 & _).
  rewrite (bind_run _ _ _ _ _ E1). destruct (negb (ret =? OK)).
  { exists LS_ERR_INIT_FAILED, s1, l1. by split_and!. }
  exists OK, (set_initialized true s1), l1. split_and!; [done| |done|done]. by destruct Hinv1.
Qed.
End Server.
End Init.
