(* ===== verification/LsRefine.v ===== *)
(** What the logging server promises: a table from logger names to
    configurations and owners, with the requests as operations on it, and the
    theorem that the server implements it. *)

From S2P Require Import Prelude Chain LsOs LsBufio LsConfig LsParse LsFormat LsHeap LsServer LsInit.
Local Open Scope Z_scope.

#[local] Arguments zeros : simpl never.

(** ** The contract *)

(** A logger is closed, or open for a process with a descriptor (0 when its
    destination is not a file). *)
Abbreviation table := (gmap (list Z) (ls_logger_t * option (Z * Z))).

(** The loggers, their order in the configuration, the names of the processes,
    and the world. *)
Record spec_state (W : Type) := Spec {
  tbl : table;
  order : list (list Z);
  procs : list mproc;
  sworld : W;
}.
Arguments Spec {W} _ _ _ _.
Arguments tbl {W} _.
Arguments order {W} _.
Arguments procs {W} _.
Arguments sworld {W} _.

Section Contract.
Context {W : Type} `{LsOs W}.
Implicit Types a : spec_state W.

Definition with_tbl t a : spec_state W := Spec t (order a) (procs a) (sworld a).
Definition with_world w a : spec_state W := Spec (tbl a) (order a) (procs a) w.

(** Fetching the process table anew. *)
Definition spec_refresh a : Z * spec_state W :=
  let '(r, tab, w) := os_getsysinfo (sworld a) in
  if r =? OK then (OK, Spec (tbl a) (order a) tab w) else (LS_ERR_EXTERNAL, with_world w a).

Definition spec_start (nm : list Z) (who : Z) a : Z * spec_state W :=
  match tbl a !! nm with
  | None => (LS_ERR_NO_SUCH_LOGGER, a)
  | Some (lg, Some _) => (LS_ERR_LOGGER_OPEN, a)
  | Some (lg, None) =>
      let opened fd a := spec_refresh (with_tbl (<[nm := (lg, Some (who, fd))]> (tbl a)) a) in
      if is_file lg
      then let '(fd, w) := os_open (dest_filename lg) (start_flags lg) (sworld a) in
           if fd <? 0 then (LS_ERR_EXTERNAL, with_world w a) else opened fd (with_world w a)
      else opened 0 a
  end.

Definition spec_close (nm : list Z) (who : Z) a : Z * spec_state W :=
  match tbl a !! nm with
  | None => (LS_ERR_NO_SUCH_LOGGER, a)
  | Some (lg, None) => (LS_ERR_LOGGER_NOT_OPEN, a)
  | Some (lg, Some (owner, fd)) =>
      if negb (owner =? who) then (LS_ERR_PERMISSION_DENIED, a)
      else (OK, with_tbl (<[nm := (lg, None)]> (tbl a))
                  (if is_file lg then with_world (os_close fd (sworld a)).2 a else a))
  end.

Definition spec_procname (who : Z) a : list Z :=
  match procname_from_pid (procs a) who procname_buf 256 with
  | Some b => b
  | None => strncpy procname_buf $"unknown-pid" 256
  end.

(** The text that is written for a message. *)
Definition log_text (lg : ls_logger_t) (bytes : list Z) (sev : ls_severity_level_t)
  (procname : list Z) (w : W) : list Z * W :=
  let '(n, out, w') := print_loop (LOGBUF_LEN - 1) bytes (length bytes) sev procname (format lg) [] w in
  (take (Z.to_nat n) out, w').

Definition spec_write (nm : list Z) (sev : ls_severity_level_t) (msg len who : Z) a : Z * spec_state W :=
  match tbl a !! nm with
  | None => (LS_ERR_NO_SUCH_LOGGER, a)
  | Some (lg, None) => (LS_ERR_LOGGER_NOT_OPEN, a)
  | Some (lg, Some (owner, fd)) =>
      if negb (owner =? who) then (LS_ERR_PERMISSION_DENIED, a)
      else
        let '(ret, bytes, w1) := os_vircopy who msg len (sworld a) in
        if negb (ret =? OK) then (ret, with_world w1 a)
        else if sev_int sev <? sev_int (severity lg) then (OK, with_world w1 a)
        else
          let '(text, w2) := log_text lg bytes sev (spec_procname who a) w1 in
          if is_file lg
          then let '(r, w3) := os_write fd text w2 in
               if (r =? -1) || (r <? Z.of_nat (length text)) then (LS_ERR_EXTERNAL, with_world w3 a)
               else (OK, with_world (os_fsync fd w3) a)
          else (OK, with_world (os_printf ($"[L] " ++ cstr text) w2) a)
  end.

(** Setting the severity of a closed logger changes nothing. *)
Definition spec_set_severity (nm : list Z) a : Z * spec_state W :=
  match tbl a !! nm with
  | None => (LS_ERR_NO_SUCH_LOGGER, a)
  | Some (lg, Some _) => (LS_ERR_LOGGER_OPEN, a)
  | Some (lg, None) => (OK, a)
  end.

Definition spec_clear (nm : list Z) a : Z * spec_state W :=
  match tbl a !! nm with
  | None => (LS_ERR_NO_SUCH_LOGGER, a)
  | Some (lg, Some _) => (LS_ERR_LOGGER_OPEN, a)
  | Some (lg, None) =>
      if is_file lg
      then
        let '(fd, w1) := os_open (dest_filename lg) (OFlags true true true false) (sworld a) in
        if fd <? 0 then (LS_ERR_EXTERNAL, with_world w1 a)
        else let '(r, w2) := os_close fd w1 in
             (if negb (r =? OK) then LS_ERR_EXTERNAL else OK, with_world w2 a)
      else (OK, a)
  end.

(** Clearing the logs of [nms] in turn. *)
Fixpoint spec_clear_list (nms : list (list Z)) (ret : Z) a : Z * spec_state W :=
  match nms with
  | [] => (ret, a)
  | nm :: nms' =>
      let '(r, a') := spec_clear nm a in
      spec_clear_list nms' (if negb (r =? OK) then LS_ERR_LOGGER_OPEN else ret) a'
  end.

(** All requests but the one to load the configuration. *)
Definition spec_dispatch (m : message) a : Z * spec_state W :=
  let t := m_type m in
  let nm := cstr (m_logger m) in
  if t =? LS_START_LOG then spec_start nm (m_source m) a
  else if t =? LS_CLOSE_LOG then spec_close nm (m_source m) a
  else if t =? LS_WRITE_LOG then
    match int_sev (m_severity m) with
    | Some sev =>
        if Z.of_nat LS_MAX_MESSAGE_LEN <? m_message_len m then (EINVAL, a)
        else spec_write nm sev (m_message m) (m_message_len m) (m_source m) a
    | None => (EINVAL, a)
    end
  else if t =? LS_CLEAR_LOG then spec_clear nm a
  else if t =? LS_SET_SEVERITY then
    match int_sev (m_severity m) with
    | Some _ => spec_set_severity nm a
    | None => (EINVAL, a)
    end
  else if t =? LS_CLEAR_ALL then spec_clear_list (order a) OK a
  else (EINVAL, a).
End Contract.

(** ** The abstraction *)

Definition abs_entry (e : entry) : ls_logger_t * option (Z * Z) :=
  (e.1, if is_open e.2 then Some (opened_by e.2, if is_file e.1 then st_fd e.2 else 0) else None).

Definition abs_tbl (l : list (Z * entry)) : table :=
  list_to_map ((fun x => (lname x.2.1, abs_entry x.2)) <$> l).

Lemma abs_keys l : ((fun x : Z * entry => (lname x.2.1, abs_entry x.2)) <$> l).*1 = lname <$> loggers l.
Proof. unfold loggers. by rewrite <- !list_fmap_compose. Qed.

Lemma abs_tbl_mid l1 q e l2 :
  NoDup (lname <$> loggers (l1 ++ (q, e) :: l2)) ->
  abs_tbl (l1 ++ (q, e) :: l2) = <[lname e.1 := abs_entry e]> (abs_tbl (l1 ++ l2)).
Proof.
  intros Hnd. unfold abs_tbl. rewrite <- list_to_map_cons. apply list_to_map_proper.
  - by rewrite abs_keys.
  - rewrite !fmap_app. cbn. symmetry. apply Permutation_middle.
Qed.

Lemma abs_tbl_lookup l1 q e l2 :
  NoDup (lname <$> loggers (l1 ++ (q, e) :: l2)) ->
  abs_tbl (l1 ++ (q, e) :: l2) !! lname e.1 = Some (abs_entry e).
Proof. intros. rewrite abs_tbl_mid by done. apply lookup_insert_eq. Qed.

Lemma abs_tbl_update l1 q e st l2 :
  NoDup (lname <$> loggers (l1 ++ (q, e) :: l2)) ->
  abs_tbl (l1 ++ (q, (e.1, st)) :: l2) =
  <[lname e.1 := abs_entry (e.1, st)]> (abs_tbl (l1 ++ (q, e) :: l2)).
Proof.
  intros Hnd. rewrite !abs_tbl_mid; [by rewrite insert_insert_eq|done|].
  unfold loggers in *. rewrite !fmap_app in *. cbn in *. done.
Qed.

Lemma abs_tbl_none l nm :
  Forall (fun x => lname x.2.1 <> nm) l -> abs_tbl l !! nm = None.
Proof.
  intros Hl. apply not_elem_of_list_to_map. rewrite abs_keys. unfold loggers.
  rewrite <- list_fmap_compose. intros (x & -> & Hx)%list_elem_of_fmap.
  rewrite Forall_forall in Hl. by apply (Hl x).
Qed.

(** ** Simulation *)

Section Refinement.
Context {W : Type} `{LsOsLaws W}.
Context (fuel : nat) (junk : parser_state_t).
Implicit Types (s : ls_state W) (a : spec_state W).

Record refines s a (l : list (Z * entry)) : Prop := {
  rf_inv : server_inv s l;
  rf_init : g_is_initialized s = true;
  rf_tbl : tbl a = abs_tbl l;
  rf_order : order a = lname <$> loggers l;
  rf_procs : procs a = proctable s;
  rf_world : sworld a = world s;
}.

Definition implements s a : Prop := exists l, refines s a l.

(** [m] does in the server what [f] does in the contract. *)
Definition simulates (m : ST (ls_state W) Z) (f : spec_state W -> Z * spec_state W) : Prop :=
  forall s a, implements s a -> exists s', m s = Some ((f a).1, s') /\ implements s' (f a).2.

Lemma refines_world s a l w :
  os_live w = os_live (world s) -> refines s a l -> refines (set_world w s) (with_world w a) l.
Proof.
  intros Hw [[? Hl ? ? ?] ? ? ? ? ?]. split; try done. split; try done.
  intros q Hq. cbn. rewrite Hw. by apply Hl.
Qed.

Lemma refines_names s a l : refines s a l -> NoDup (lname <$> loggers l).
Proof. intros [[] ? ? ? ? ?]. by apply co_unique. Qed.

(** The table entry a request finds. *)
Record found s a (lg : list Z) (l1 : list (Z * entry)) (q : Z) (e : entry) (l2 : list (Z * entry)) (t : Z) : Prop := {
  fo_refines : refines s a (l1 ++ (q, e) :: l2);
  fo_name : lname e.1 = cstr lg;
  fo_node : heap s !! q = Some (Node e.1 e.2 t);
  fo_tbl : tbl a !! cstr lg = Some (abs_entry e);
}.

Lemma with_logger_sim lg k f :
  (forall a, tbl a !! cstr lg = None -> f a = (LS_ERR_NO_SUCH_LOGGER, a)) ->
  (forall s a l1 q e l2 t, found s a lg l1 q e l2 t ->
     exists s', k q (Node e.1 e.2 t) s = Some ((f a).1, s') /\ implements s' (f a).2) ->
  simulates (with_logger fuel junk lg k) f.
Proof.
  intros Hnone Hsome s a [l Hr]. pose proof Hr as [[Hn Hl Hc He Hb] Hi Ht Ho Hp Hw].
  unfold with_logger, ensure_initialized. mrun. rewrite Hi. cbn [negb Z.eqb OK].
  unfold find_logger. mrun.
  rewrite (find_node_spec _ (fun e => streq (name e.1) lg) _ _ l Hn) by (apply nodes_length in Hn; lia).
  destruct (find_ptr_split (fun e => streq (name e.1) lg) l) as [[-> Hall]|(l1 & q & e & l2 & -> & Hf & _ & ->)].
  - assert (Hno : tbl a !! cstr lg = None).
    { rewrite Ht. apply abs_tbl_none. eapply Forall_impl; [exact Hall|].
      intros x Hx. apply streq_false in Hx. done. }
    rewrite (Hnone a Hno). exists s. split; [done|]. by exists l.
  - apply streq_spec in Hf. destruct (nodes_lookup _ _ _ _ q e Hn) as [t Htl]; [set_solver|].
    assert (q <> 0) as Hq.
    { apply nodes_nonnull, Forall_app in Hn as [_ Hn]. by inversion Hn. }
    destruct (Z.eqb_spec q 0); [done|]. unfold load. rewrite Htl.
    apply (Hsome s a l1 q e l2 t). split; [done|done|done|].
    rewrite Ht. rewrite <- Hf. apply abs_tbl_lookup. by eapply refines_names.
Qed.

(** Storing a new run-time state into the node a request found. *)
Lemma store_state_ok s a lg l1 q e l2 t st :
  found s a lg l1 q e l2 t -> entry_ok (e.1, st) ->
  exists s', store_state q (Node e.1 e.2 t) st s = Some (tt, s') /\
    refines s' (with_tbl (<[cstr lg := abs_entry (e.1, st)]> (tbl a)) a) (l1 ++ (q, (e.1, st)) :: l2) /\
    heap s' = <[q := Node e.1 st t]> (heap s) /\ world s' = world s /\ proctable s' = proctable s /\
    g_logbuf s' = g_logbuf s.
Proof.
  intros [Hr Hname Hnode _] Hst. pose proof (refines_names _ _ _ Hr) as Hnd.
  destruct Hr as [[Hn Hl Hc He Hb] Hi Ht Ho Hp Hw].
  eexists. split; [unfold store_state, store; cbn [logger ltail]; by rewrite Hnode|].
  assert (Hlog : loggers (l1 ++ (q, (e.1, st)) :: l2) = loggers (l1 ++ (q, e) :: l2)).
  { unfold loggers. by rewrite !fmap_app. }
  split; [|done]. split; cbn; try done.
  - split; cbn -[nodes]; try done.
    + by eapply (nodes_update _ _ _ _ e (e.1, st)).
    + intros x. cbn. destruct (decide (x = q)) as [->|].
      * intros _. apply Hl. rewrite Hnode. eauto.
      * rewrite lookup_insert_ne by done. apply Hl.
    + by rewrite Hlog.
    + apply Forall_app in He as [He1 He2]. apply Forall_app. split; [done|].
      inversion He2; subst. by constructor.
  - by rewrite Ht, <- Hname, abs_tbl_update.
  - by rewrite Hlog.
Qed.

(** When the state in the table is the same, so is the table. *)
Lemma with_tbl_same a nm v : tbl a !! nm = Some v -> with_tbl (<[nm := v]> (tbl a)) a = a.
Proof. intros E. unfold with_tbl. rewrite insert_id by done. by destruct a. Qed.

Lemma get_process_table_sim : simulates get_process_table spec_refresh.
Proof.
  intros s a [l Hr]. destruct (get_process_table_ok s) as (ret & s' & E & G1 & G2 & G3 & G4 & G5 & G6).
  destruct Hr as [[Hn Hl Hc He Hb] Hi Ht Ho Hp Hw]. unfold spec_refresh. rewrite Hw.
  destruct (os_getsysinfo (world s)) as [[r tab] w]. destruct G6 as [Hw' G6].
  exists s'. rewrite E. destruct (r =? OK); destruct G6 as [-> Hp'].
  - split; [done|]. exists l. split; cbn; try done; [|congruence].
    split; rewrite ?G1, ?G2, ?G4; try done. intros q. rewrite G1, G5. auto.
  - split; [done|]. exists l. split; cbn; try done; [|congruence|congruence].
    split; rewrite ?G1, ?G2, ?G4; try done. intros q. rewrite G1, G5. auto.
Qed.

(** ** The requests *)

Lemma found_world s a lg l1 q e l2 t w :
  os_live w = os_live (world s) -> found s a lg l1 q e l2 t ->
  found (set_world w s) (with_world w a) lg l1 q e l2 t.
Proof. intros Hw [? ? ? ?]. split; try done. by apply refines_world. Qed.

(** The end of [do_start_log]. *)
Lemma start_finish s a lg l1 q e l2 t who fd :
  found s a lg l1 q e l2 t ->
  exists s',
    (store_state q (Node e.1 e.2 t) (LState true (severity e.1) who fd (msg_buf e.2));;
     get_process_table) s =
    Some ((spec_refresh (with_tbl (<[cstr lg := (e.1, Some (who, if is_file e.1 then fd else 0))]>
             (tbl a)) a)).1, s') /\
    implements s' (spec_refresh (with_tbl (<[cstr lg := (e.1, Some (who, if is_file e.1 then fd else 0))]>
             (tbl a)) a)).2.
Proof.
  intros Hf. assert (Hbuf : entry_ok e).
  { destruct (fo_refines _ _ _ _ _ _ _ _ Hf) as [[_ _ _ He _] _ _ _ _ _].
    apply Forall_app in He as [_ He]. by inversion He. }
  destruct (store_state_ok _ _ _ _ _ _ _ _ (LState true (severity e.1) who fd (msg_buf e.2)) Hf)
    as (s1 & E1 & Hr1 & _).
  { split; [apply Hbuf|done]. }
  rewrite (bind_run _ _ _ _ _ E1). apply (get_process_table_sim s1). eexists. exact Hr1.
Qed.

Lemma do_start_log_sim lg who : simulates (do_start_log fuel junk lg who) (spec_start (cstr lg) who).
Proof.
  apply with_logger_sim; [intros a E; unfold spec_start; by rewrite E|].
  intros s a l1 q e l2 t Hf. pose proof Hf as [Hr _ _ Htbl]. unfold spec_start. rewrite Htbl.
  unfold abs_entry. cbn [logger state].
  destruct (is_open (e.2)) eqn:Eo; [exists s; split; [done|by eexists]|].
  destruct (is_file e.1) eqn:Ef.
  - mrun. unfold sys. rewrite (rf_world _ _ _ Hr).
    pose proof (live_open (dest_filename e.1) (start_flags e.1) (world s)) as Hl.
    destruct (os_open _ _ (world s)) as [fd w]. cbn [snd] in Hl.
    destruct (fd <? 0).
    + eexists. split; [done|]. eexists. by apply refines_world.
    + pose proof (start_finish _ _ _ _ _ _ _ _ who fd (found_world _ _ _ _ _ _ _ _ w Hl Hf)) as Hs.
      rewrite Ef in Hs. exact Hs.
  - pose proof (start_finish _ _ _ _ _ _ _ _ who (st_fd e.2) Hf) as Hs. rewrite Ef in Hs. exact Hs.
Qed.

Lemma found_entry s a lg l1 q e l2 t : found s a lg l1 q e l2 t -> entry_ok e.
Proof.
  intros Hf. destruct (fo_refines _ _ _ _ _ _ _ _ Hf) as [[_ _ _ He _] _ _ _ _ _].
  apply Forall_app in He as [_ He]. by inversion He.
Qed.

Lemma close_finish s a lg l1 q e l2 t :
  found s a lg l1 q e l2 t ->
  exists s',
    (store_state q (Node e.1 e.2 t) (LState false (st_severity e.2) (-1) (-1) (msg_buf e.2));; mret OK) s =
    Some (OK, s') /\ implements s' (with_tbl (<[cstr lg := (e.1, None)]> (tbl a)) a).
Proof.
  intros Hf. pose proof (found_entry _ _ _ _ _ _ _ _ Hf) as Hbuf.
  destruct (store_state_ok _ _ _ _ _ _ _ _ (LState false (st_severity e.2) (-1) (-1) (msg_buf e.2)) Hf)
    as (s1 & E1 & Hr1 & _).
  { split; [apply Hbuf|done]. }
  rewrite (bind_run _ _ _ _ _ E1). exists s1. split; [done|]. eexists. exact Hr1.
Qed.

Lemma do_close_log_sim lg who : simulates (do_close_log fuel junk lg who) (spec_close (cstr lg) who).
Proof.
  apply with_logger_sim; [intros a E; unfold spec_close; by rewrite E|].
  intros s a l1 q e l2 t Hf. pose proof Hf as [Hr _ _ Htbl]. unfold spec_close. rewrite Htbl.
  unfold abs_entry. cbn [logger state].
  destruct (is_open (e.2)) eqn:Eo; cbn [negb]; [|exists s; split; [done|by eexists]].
  destruct (negb (opened_by e.2 =? who)); [exists s; split; [done|by eexists]|].
  destruct (is_file e.1) eqn:Ef.
  - rewrite bind_assoc. unfold sys at 1. unfold mbind at 1, st_bind at 1. rewrite (rf_world _ _ _ Hr).
    pose proof (live_close (st_fd e.2) (world s)) as Hl.
    destruct (os_close (st_fd e.2) (world s)) as [r w]. cbn [snd] in *.
    exact (close_finish _ _ _ _ _ _ _ _ (found_world _ _ _ _ _ _ _ _ w Hl Hf)).
  - exact (close_finish _ _ _ _ _ _ _ _ Hf).
Qed.

Lemma do_set_severity_sim lg sev :
  simulates (do_set_severity fuel junk lg sev) (spec_set_severity (cstr lg)).
Proof.
  apply with_logger_sim; [intros a E; unfold spec_set_severity; by rewrite E|].
  intros s a l1 q e l2 t Hf. pose proof Hf as [Hr _ _ Htbl]. unfold spec_set_severity. rewrite Htbl.
  unfold abs_entry. cbn [logger state].
  destruct (is_open (e.2)) eqn:Eo; [exists s; split; [done|by eexists]|].
  pose proof (found_entry _ _ _ _ _ _ _ _ Hf) as Hbuf.
  destruct (store_state_ok _ _ _ _ _ _ _ _
    (LState false sev (opened_by e.2) (st_fd e.2) (msg_buf e.2)) Hf) as (s1 & E1 & Hr1 & _).
  { split; [apply Hbuf|done]. }
  rewrite (bind_run _ _ _ _ _ E1). exists s1. split; [done|]. eexists.
  rewrite with_tbl_same in Hr1; [exact Hr1|]. rewrite Htbl. unfold abs_entry. by rewrite Eo.
Qed.

Lemma do_clear_log_sim lg : simulates (do_clear_log fuel junk lg) (spec_clear (cstr lg)).
Proof.
  apply with_logger_sim; [intros a E; unfold spec_clear; by rewrite E|].
  intros s a l1 q e l2 t Hf. pose proof Hf as [Hr _ _ Htbl]. unfold spec_clear. rewrite Htbl.
  unfold abs_entry. cbn [logger state].
  destruct (is_open (e.2)) eqn:Eo; [exists s; split; [done|by eexists]|].
  destruct (is_file e.1) eqn:Ef; [|exists s; split; [done|by eexists]].
  mrun. unfold sys. rewrite (rf_world _ _ _ Hr).
  pose proof (live_open (dest_filename e.1) (OFlags true true true false) (world s)) as Hl.
  destruct (os_open _ _ (world s)) as [fd w]. cbn [snd] in Hl.
  destruct (fd <? 0); [eexists; split; [done|]; eexists; by apply refines_world|].
  cbn [world set_world]. pose proof (live_close fd w) as Hl2.
  destruct (os_close fd w) as [r w2]. cbn [snd] in Hl2. rewrite Hl in Hl2.
  destruct (negb (r =? OK)); (eexists; split; [done|]; eexists; exact (refines_world s a _ w2 Hl2 Hr)).
Qed.

(** ** Writing *)

Lemma time_text_live (w : W) : os_live (time_text w).2 = os_live w.
Proof.
  unfold time_text, lookup_proc. pose proof (live_rs_lookup $"readclock.drv" w) as Hl.
  destruct (os_rs_lookup _ w) as [[ep|] w1]; [|done]. cbn [snd] in Hl.
  pose proof (live_rtc ep w1) as Hl2.
  destruct (os_rtc_get_time ep w1) as [[[st tm]|] w2]; cbn [snd] in *; [|congruence].
  destruct (negb (st =? 0)); cbn; congruence.
Qed.

Lemma print_loop_live cap msg n sev pn fmt out (w : W) :
  os_live (print_loop cap msg n sev pn fmt out w).2 = os_live w.
Proof.
  remember (length fmt) as k eqn:Ek. revert fmt out w Ek.
  induction k as [k IH] using lt_wf_ind; intros fmt out w ->.
  destruct fmt as [|c fmt1]; cbn [print_loop]; [by case_match|].
  case_match; [by case_match|]. case_match.
  - destruct fmt1 as [|d fmt2]; [done|]. cbn [length] in IH.
    assert (IH2 : forall o w', os_live (print_loop cap msg n sev pn fmt2 o w').2 = os_live w').
    { intros. eapply IH; [|done]. lia. }
    repeat (case_match; try done).
    unfold put_time in *. pose proof (time_text_live w) as Ht.
    destruct (time_text w) as [text w']. simplify_eq. by rewrite IH2.
  - case_match; [|done]. eapply IH; [|done]. cbn. lia.
Qed.

(** Only the first [n] bytes of the message matter. *)
Lemma print_loop_msg cap m1 m2 n1 n2 sev pn fmt out (w : W) :
  take n1 m1 = take n2 m2 ->
  print_loop cap m1 n1 sev pn fmt out w = print_loop cap m2 n2 sev pn fmt out w.
Proof.
  intros Hm. remember (length fmt) as k eqn:Ek. revert fmt out w Ek.
  induction k as [k IH] using lt_wf_ind; intros fmt out w ->.
  destruct fmt as [|c fmt1]; cbn [print_loop]; [done|].
  destruct (c =? 0); [done|]. destruct (c =? sc "%").
  - destruct fmt1 as [|d fmt2]; [done|]. cbn [length] in IH. rewrite Hm.
    assert (IH2 : forall o w', print_loop cap m1 n1 sev pn fmt2 o w' = print_loop cap m2 n2 sev pn fmt2 o w').
    { intros. eapply IH; [|done]. lia. }
    repeat (case_match; try done).
  - case_match; [|done]. eapply IH; [|done]. cbn. lia.
Qed.

Lemma print_loop_text msg n sev pn fmt (w w' : W) ret out g :
  print_loop (LOGBUF_LEN - 1) msg n sev pn fmt [] w = (ret, out, w') -> length g = LOGBUF_LEN ->
  let text := take (Z.to_nat ret) out in
  let buf := <[(LOGBUF_LEN - 1)%nat := 0]> (memcpy g out (length out)) in
  Z.of_nat (length text) = ret /\ take (Z.to_nat ret) buf = text /\
  cstr (<[Z.to_nat ret := 0]> buf) = cstr text /\ length buf = LOGBUF_LEN.
Proof.
  intros E Hg. pose proof (print_loop_ok (LOGBUF_LEN - 1) msg n sev pn fmt [] w) as Hok.
  rewrite E in Hok. destruct Hok as [Hout Hret]; [cbn; lia|]. cbn zeta.
  assert (Hlen : (length out <= LOGBUF_LEN - 1)%nat) by (rewrite Hout, length_take; lia).
  assert (Hr : (Z.to_nat ret <= length out)%nat /\ 0 <= ret) by lia.
  assert (HL : (0 < LOGBUF_LEN)%nat) by (unfold LOGBUF_LEN; lia).
  assert (Htake : take (Z.to_nat ret) (<[(LOGBUF_LEN - 1)%nat := 0]> (memcpy g out (length out))) =
    take (Z.to_nat ret) out).
  { rewrite take_insert_ge by lia. unfold memcpy. rewrite firstn_all. by rewrite take_app_le by lia. }
  assert (Hblen : length (<[(LOGBUF_LEN - 1)%nat := 0]> (memcpy g out (length out))) = LOGBUF_LEN).
  { rewrite length_insert, length_memcpy; lia. }
  split_and!; [rewrite length_take; lia|done| |done].
  rewrite insert_take_drop by lia. by rewrite cstr_app_end, Htake.
Qed.

(** Delivering a formatted line. *)
Definition write_line (e : entry) (buf : list Z) (msg_len : Z) (sev : ls_severity_level_t) (who : Z)
  : ST (ls_state W) Z :=
  s ← get;
  let procname :=
    match procname_from_pid (proctable s) who procname_buf 256 with
    | Some b => b
    | None => strncpy procname_buf $"unknown-pid" 256
    end in
  '(sz, logbuf) ← sys (print_log (format e.1) buf (Z.to_nat msg_len) sev procname
                         (g_logbuf s) (LOGBUF_LEN - 1));
  let logbuf := <[(LOGBUF_LEN - 1)%nat := 0]> logbuf in
  modify (set_g_logbuf logbuf);;
  if is_file e.1
  then
    ret ← sys (os_write (st_fd e.2) (take (Z.to_nat sz) logbuf));
    if (ret =? -1) || (ret <? sz) then mret LS_ERR_EXTERNAL
    else sys (fun w => (tt, os_fsync (st_fd e.2) w));; mret OK
  else
    let logbuf := <[Z.to_nat sz := 0]> logbuf in
    modify (set_g_logbuf logbuf);;
    sys (fun w => (tt, os_printf ($"[L] " ++ cstr logbuf) w));;
    mret OK.

(** What the contract says of it. *)
Definition spec_line (e : entry) (bytes : list Z) (sev : ls_severity_level_t) (who : Z) a
  : Z * spec_state W :=
  let '(text, w2) := log_text e.1 bytes sev (spec_procname who a) (sworld a) in
  if is_file e.1
  then let '(r, w3) := os_write (st_fd e.2) text w2 in
       if (r =? -1) || (r <? Z.of_nat (length text)) then (LS_ERR_EXTERNAL, with_world w3 a)
       else (OK, with_world (os_fsync (st_fd e.2) w3) a)
  else (OK, with_world (os_printf ($"[L] " ++ cstr text) w2) a).

Lemma refines_logbuf s a l b :
  length b = LOGBUF_LEN -> refines s a l -> refines (set_g_logbuf b s) a l.
Proof. intros Hb [[? ? ? ? ?] ? ? ? ? ?]. by split. Qed.

Lemma write_line_ok s a l e buf bytes msg_len sev who :
  refines s a l -> take (Z.to_nat msg_len) buf = bytes ->
  exists s', write_line e buf msg_len sev who s = Some ((spec_line e bytes sev who a).1, s') /\
    implements s' (spec_line e bytes sev who a).2.
Proof.
  intros Hr Hbytes. unfold write_line, spec_line, log_text, spec_procname, sys.
  rewrite (rf_procs _ _ _ Hr), (rf_world _ _ _ Hr). mrun. cbv zeta.
  set (pn := match procname_from_pid _ _ _ _ with Some b => b | None => _ end).
  unfold print_log.
  rewrite (print_loop_msg _ buf bytes (Z.to_nat msg_len) (length bytes)) by by rewrite firstn_all.
  pose proof (print_loop_live (LOGBUF_LEN - 1) bytes (length bytes) sev pn (format e.1) [] (world s)) as Hlive.
  destruct (print_loop _ bytes _ _ _ _ _ _) as [[sz out] w2] eqn:E. cbn [snd] in Hlive.
  destruct (print_loop_text _ _ _ _ _ _ _ _ _ (g_logbuf s) E) as (Hsz & Htake & Hcstr & Hlen);
    [apply Hr|]. cbn zeta in *.
  set (b1 := <[(LOGBUF_LEN - 1)%nat := 0]> (memcpy (g_logbuf s) out (length out))) in *.
  assert (Hr2 : forall w b, os_live w = os_live (world s) -> length b = LOGBUF_LEN ->
    refines (set_world w (set_g_logbuf b s)) (with_world w a) l).
  { intros w b Hw Hb. apply (refines_world (set_g_logbuf b s)); [done|]. by apply refines_logbuf. }
  destruct (is_file e.1).
  - rewrite Htake, Hsz. cbn [world set_world set_g_logbuf].
    pose proof (live_write (st_fd e.2) (take (Z.to_nat sz) out) w2) as Hl3.
    destruct (os_write (st_fd e.2) (take (Z.to_nat sz) out) w2) as [r w3]. cbn [snd] in Hl3.
    destruct ((r =? -1) || (r <? sz)); (eexists; split; [reflexivity|]; exists l).
    + apply (Hr2 w3 b1); [congruence|done].
    + apply (Hr2 (os_fsync (st_fd e.2) w3) b1); [|done]. rewrite live_fsync. congruence.
  - rewrite Hcstr. eexists; split; [reflexivity|]; exists l.
    apply (Hr2 (os_printf ($"[L] " ++ cstr (take (Z.to_nat sz) out)) w2) (<[Z.to_nat sz:=0]> b1)).
    + rewrite live_printf. congruence.
    + etransitivity; [apply length_insert|done].
Qed.

Lemma do_write_log_sim lg sev msg len who :
  0 <= len <= Z.of_nat LS_MAX_MESSAGE_LEN ->
  simulates (do_write_log fuel junk lg sev msg len who) (spec_write (cstr lg) sev msg len who).
Proof.
  intros Hlen. apply with_logger_sim; [intros a E; unfold spec_write; by rewrite E|].
  intros s a l1 q e l2 t Hf. pose proof Hf as [Hr _ _ Htbl]. unfold spec_write. rewrite Htbl.
  unfold abs_entry. cbn [logger state].
  destruct (is_open (e.2)) eqn:Eo; cbn [negb]; [|exists s; split; [done|by eexists]].
  destruct (negb (opened_by e.2 =? who)); [exists s; split; [done|by eexists]|].
  rewrite (rf_world _ _ _ Hr). pose proof (live_vircopy who msg len (world s)) as Hlive.
  pose proof (vircopy_ok who msg len (world s)) as Hok. pose proof (vircopy_le who msg len (world s)) as Hle.
  destruct (os_vircopy who msg len (world s)) as [[ret bytes] w1] eqn:Ev. cbn [fst snd] in *.
  rewrite (bind_run _ _ _ _ _ (sys_run _ _ _ _ Ev)).
  pose proof (found_entry _ _ _ _ _ _ _ _ Hf) as [Hbuf Hsev].
  set (buf := memcpy (msg_buf e.2) bytes (length bytes)).
  destruct (store_state_ok _ _ _ _ _ _ _ _
    (LState true (st_severity e.2) (opened_by e.2) (st_fd e.2) buf)
    (found_world _ _ _ _ _ _ _ _ w1 Hlive Hf)) as (s1 & E1 & Hr1 & _).
  { split; [|intros _; by apply Hsev]. cbn. unfold buf. rewrite length_memcpy; [done|done|]. lia. }
  cbv beta iota zeta. fold buf. rewrite (bind_run _ _ _ _ _ E1). rewrite with_tbl_same in Hr1
    by (cbn; rewrite Htbl; unfold abs_entry; by rewrite Eo).
  destruct (Z.eqb_spec ret OK) as [->|]; cbn [negb]; [|exists s1; split; [done|by eexists]].
  rewrite Hsev by done. destruct (sev_int sev <? sev_int (severity e.1)); [exists s1; split; [done|by eexists]|].
  assert (Hb : take (Z.to_nat len) buf = bytes).
  { unfold buf, memcpy. rewrite firstn_all. rewrite <- (Hok ltac:(lia) eq_refl). apply take_app_length. }
  destruct (write_line_ok s1 _ _ e buf bytes len sev who Hr1 Hb) as (s2 & E2 & Him).
  exists s2. unfold write_line, spec_line in *. destruct (is_file e.1) eqn:Ef;
    unfold spec_procname in *; cbn [procs with_world sworld] in *.
  - destruct (log_text _ _ _ _ _) as [text w2]. destruct (os_write _ _ _) as [r w3].
    destruct (_ || _); split; [exact E2|exact Him|exact E2|exact Him].
  - destruct (log_text _ _ _ _ _) as [text w2]. split; [exact E2|exact Him].
Qed.

(** ** Clearing all logs *)

Lemma do_clear_log_frame lg s r s' :
  g_is_initialized s = true -> do_clear_log fuel junk lg s = Some (r, s') -> heap s' = heap s.
Proof.
  intros Hi. unfold do_clear_log, with_logger, ensure_initialized, find_logger, load, sys. mrun.
  rewrite Hi. cbn [negb Z.eqb OK].
  destruct (find_node _ _ _ _) as [q|]; [|done]. destruct (q =? 0); [by intros [= _ <-]|].
  destruct (heap s !! q) as [nd|]; [|done]. destruct (is_open _); [by intros [= _ <-]|].
  destruct (is_file _); [|by intros [= _ <-]].
  destruct (os_open _ _ _) as [fd w]. destruct (fd <? 0); [by intros [= _ <-]|].
  destruct (os_close _ _) as [rc w2]. destruct (negb _); by intros [= _ <-].
Qed.

Lemma clear_loop_sim n p l2 ret s a :
  nodes (heap s) p l2 0 -> (length l2 < n)%nat -> implements s a ->
  exists s', clear_loop fuel junk n p ret s =
      Some ((spec_clear_list (lname <$> loggers l2) ret a).1, s') /\
    implements s' (spec_clear_list (lname <$> loggers l2) ret a).2.
Proof.
  revert p l2 ret s a. induction n as [|n IH]; intros p l2 ret s a Hn Hlen Him; [lia|].
  cbn [clear_loop]. destruct l2 as [|[q e] l2].
  { cbn in Hn. subst p. by exists s. }
  cbn [nodes] in Hn. destruct Hn as (<- & Hp & t & Ht & Hn). destruct (Z.eqb_spec p 0); [done|].
  rewrite (bind_run (load p) _ s (Node e.1 e.2 t) s) by (unfold load; by rewrite Ht). cbn [logger].
  destruct (do_clear_log_sim (name e.1) s a Him) as (s1 & E1 & Him1).
  assert (heap s1 = heap s) as Hh.
  { eapply do_clear_log_frame; [|exact E1]. destruct Him as [l Hr]. apply Hr. }
  rewrite (bind_run _ _ _ _ _ E1).
  rewrite (bind_run (load p) _ s1 (Node e.1 e.2 t) s1) by (unfold load; by rewrite Hh, Ht). cbn [ltail].
  change (lname <$> loggers ((p, e) :: l2)) with (cstr (name e.1) :: (lname <$> loggers l2)).
  cbn [spec_clear_list]. destruct (spec_clear (cstr (name e.1)) a) as [r a1]. cbn [fst snd] in *.
  apply IH; [by rewrite Hh|cbn in Hlen; lia|done].
Qed.

Lemma do_clear_logs_sim : simulates (do_clear_logs fuel junk) (fun a => spec_clear_list (order a) OK a).
Proof.
  intros s a Him. pose proof Him as [l Hr]. unfold do_clear_logs, ensure_initialized.
  rewrite bind_assoc, (bind_run get _ s s s) by done. rewrite (rf_init _ _ _ Hr).
  rewrite (bind_run _ _ s OK s) by done. cbn [negb Z.eqb OK].
  rewrite (bind_run get _ s s s) by done. rewrite (rf_order _ _ _ Hr).
  pose proof (si_nodes _ _ (rf_inv _ _ _ Hr)) as Hn.
  apply clear_loop_sim; [done| |done]. apply nodes_length in Hn. lia.
Qed.

(** ** The dispatcher *)

(** The fields of a message have the ranges of their C types. *)
Definition message_ok (m : message) : Prop := 0 <= m_message_len m.

Lemma dispatch_sim m :
  message_ok m -> m_type m <> LS_INITIALIZE -> simulates (dispatch fuel junk m) (spec_dispatch m).
Proof.
  intros Hm Ht. unfold dispatch, spec_dispatch. destruct (Z.eqb_spec (m_type m) LS_INITIALIZE); [done|].
  assert (Hret : simulates (mret EINVAL) (fun a => (EINVAL, a))) by (intros s a ?; by exists s).
  destruct (m_type m =? LS_START_LOG); [apply do_start_log_sim|].
  destruct (m_type m =? LS_CLOSE_LOG); [apply do_close_log_sim|].
  destruct (m_type m =? LS_WRITE_LOG).
  { destruct (int_sev (m_severity m)); [|done].
    destruct (Z.ltb_spec (Z.of_nat LS_MAX_MESSAGE_LEN) (m_message_len m)); [done|].
    apply do_write_log_sim. unfold message_ok in Hm. lia. }
  destruct (m_type m =? LS_CLEAR_LOG); [apply do_clear_log_sim|].
  destruct (m_type m =? LS_SET_SEVERITY).
  { destruct (int_sev (m_severity m)); [apply do_set_severity_sim|done]. }
  destruct (m_type m =? LS_CLEAR_ALL); [apply do_clear_logs_sim|done].
Qed.
End Refinement.
