(* ===== verification/LsClient.v ===== *)
(** The client side of the logging server: lib/libc/sys/minix_ls.c and
    lib/libc/sys/syscall.c. *)

From S2P Require Import Prelude LsOs LsServer LsParse.
Local Open Scope Z_scope.

#[local] Arguments zeros : simpl never.

(** ** The library *)

(** include/minix/com.h *)
Definition LS_PROC_NR : Z := 10.

Section Client.
Context {S : Type}.
(** The kernel call [ipc_sendrec]: it sends the message, waits for the answer
    and returns a status. *)
Context (ipc_sendrec : Z -> message -> ST S (Z * message)).

(** [memset(&m, 0, sizeof(m))] *)
Definition message_zero : message := Msg 0 0 (zeros LS_IPC_LOGGER_MAX_NAME_LEN) 0 0 0.

(** [_syscall]: the return value, the message afterwards, and the value
    assigned to [errno], if any. *)
Definition _syscall (who syscallnr : Z) (msgptr : message) : ST S (Z * message * option Z) :=
  '(status, m) ← ipc_sendrec who (with_type syscallnr msgptr);
  let m := if negb (status =? 0) then with_type status m else m in
  if m_type m <? 0 then mret (-1, m, Some (- m_type m)) else mret (m_type m, m, None).

Definition wrap_syscall (nr : Z) (m : message) : ST S Z :=
  '(ret, m', _) ← _syscall LS_PROC_NR nr m;
  if negb (ret =? OK) then mret (m_type m') else mret OK.

(** The check for the length of a name that most calls make. *)
Definition name_too_long (logger : list Z) : bool :=
  (LS_IPC_LOGGER_MAX_NAME_LEN - 1 <=? strlen logger)%nat.

(** A cleared message with the name copied into it. *)
Definition named_message (logger : list Z) (severity message_len message : Z) : LsServer.message :=
  Msg 0 0 (strncpy (zeros LS_IPC_LOGGER_MAX_NAME_LEN) logger LS_IPC_LOGGER_MAX_NAME_LEN)
    severity message_len message.

Definition minix_ls_initialize : ST S Z := wrap_syscall LS_INITIALIZE message_zero.

Definition minix_ls_start_log (logger : list Z) : ST S Z :=
  if name_too_long logger then mret EINVAL
  else wrap_syscall LS_START_LOG (named_message logger 0 0 0).

Definition minix_ls_close_log (logger : list Z) : ST S Z :=
  if name_too_long logger then mret EINVAL
  else wrap_syscall LS_CLOSE_LOG (named_message logger 0 0 0).

(** [text] is the string at the address [_message]; the length and the level
    go to 16-bit fields. *)
Definition minix_ls_write_log (logger : list Z) (_message : Z) (text : list Z) (message_level : Z) : ST S Z :=
  if name_too_long logger then mret EINVAL
  else wrap_syscall LS_WRITE_LOG
         (named_message logger (u16 message_level) (u16 (Z.of_nat (strlen text))) _message).

Definition minix_ls_set_logger_level (logger : list Z) (new_level : Z) : ST S Z :=
  if name_too_long logger then mret EINVAL
  else wrap_syscall LS_SET_SEVERITY (named_message logger (u16 new_level) 0 0).

Definition MAX_LOGGERS_LEN : nat := 1024.

(** The first loop over the names: whether they all fit, with the buffer and
    the position [pb] in it.  A comma sets [pb] to just before the buffer, so
    that the increment takes it to its start. *)
Fixpoint check_loop (p : list Z) (buf : list Z) (pb : nat) : option (list Z * nat) :=
  match p with
  | [] => Some (buf, pb)
  | c :: p' =>
      if c =? 0 then Some (buf, pb)
      else if c =? sc ","
      then
        let buf := <[pb := 0]> buf in
        if (LS_IPC_LOGGER_MAX_NAME_LEN - 1 <? strlen buf)%nat then None else check_loop p' buf 0
      else check_loop p' (<[pb := c]> buf) (Datatypes.S pb)
  end.

(** [strcpy(m.m_ls_clear_log.logger, loggers_buf)] into a cleared message and
    the request. *)
Definition clear_request (buf : list Z) : ST S Z :=
  wrap_syscall LS_CLEAR_LOG
    (Msg 0 0 (memcpy (zeros LS_IPC_LOGGER_MAX_NAME_LEN) (cstr buf ++ [0]) (strlen buf + 1)) 0 0 0).

(** The second loop, which sends the requests. *)
Fixpoint send_loop (p : list Z) (buf : list Z) (pb : nat) (ret : Z) : ST S (list Z * nat * Z) :=
  match p with
  | [] => mret (buf, pb, ret)
  | c :: p' =>
      if c =? 0 then mret (buf, pb, ret)
      else if c =? sc ","
      then
        let buf := <[pb := 0]> buf in
        ret_logger ← clear_request buf;
        send_loop p' buf 0 (if negb (ret_logger =? OK) then ret_logger else ret)
      else send_loop p' (<[pb := c]> buf) (Datatypes.S pb) ret
  end.

(** The argument is NULL or a string. *)
Definition minix_ls_clear_logs (loggers : option (list Z)) : ST S Z :=
  match loggers with
  | None => wrap_syscall LS_CLEAR_ALL message_zero
  | Some loggers =>
      if (MAX_LOGGERS_LEN - 1 <? strlen loggers)%nat then mret EINVAL
      else
        match check_loop loggers (zeros MAX_LOGGERS_LEN) 0 with
        | None => mret EINVAL
        | Some (buf, pb) =>
            if (LS_IPC_LOGGER_MAX_NAME_LEN - 1 <? strlen (<[pb := 0%Z]> buf))%nat then mret EINVAL
            else
              '(buf, pb, ret) ← send_loop loggers (zeros MAX_LOGGERS_LEN) 0 OK;
              ret_logger ← clear_request (<[pb := 0]> buf);
              mret (if negb (ret_logger =? OK) then ret_logger else ret)
        end
  end.
End Client.

(** ** Splitting at commas *)

(** The parts of a string between its commas. *)
Fixpoint split_commas (cur p : list Z) : list (list Z) :=
  match p with
  | [] => [cur]
  | c :: p' => if c =? sc "," then cur :: split_commas [] p' else split_commas (cur ++ [c]) p'
  end.

Lemma split_commas_nonempty cur p : split_commas cur p <> [].
Proof. revert cur. induction p as [|c p IH]; intros cur; [done|]. cbn. by destruct (c =? sc ","). Qed.

(** The part being collected is at the front of the buffer. *)
Record collecting (cur buf : list Z) (pb : nat) (rest : list Z) : Prop := {
  cl_len : length buf = MAX_LOGGERS_LEN;
  cl_pb : pb = length cur;
  cl_cur : take (length cur) buf = cur;
  cl_nonul : Forall (fun c => c <> 0) cur;
  cl_rest : Forall (fun c => c <> 0) rest;
  cl_fits : (length cur + length rest < MAX_LOGGERS_LEN)%nat;
}.

Lemma collecting_end cur buf pb rest :
  collecting cur buf pb rest -> cstr (<[pb := 0]> buf) = cur.
Proof.
  intros [Hl -> Hc Hn _ Hf]. rewrite cstr_insert_end; [done|lia|by rewrite Hc].
Qed.

Lemma collecting_comma cur buf pb c rest :
  collecting cur buf pb (c :: rest) -> collecting [] (<[pb := 0]> buf) 0 rest.
Proof.
  intros [Hl -> Hc Hn Hr Hf]. inversion Hr; subst. cbn in Hf.
  split; rewrite ?length_insert; cbn [length take]; try done; lia.
Qed.

Lemma collecting_push cur buf pb c rest :
  collecting cur buf pb (c :: rest) -> collecting (cur ++ [c]) (<[pb := c]> buf) (S pb) rest.
Proof.
  intros [Hl -> Hc Hn Hr Hf]. inversion Hr; subst. cbn in Hf.
  split; rewrite ?length_insert, ?length_app; cbn [length]; try done; try lia.
  - rewrite take_insert_end by lia. by rewrite Hc.
  - apply Forall_app. by split; [|constructor].
Qed.

Definition part_fits (v : list Z) : bool := (length v <=? LS_IPC_LOGGER_MAX_NAME_LEN - 1)%nat.

Lemma fits_test (buf v : list Z) :
  cstr buf = v -> (LS_IPC_LOGGER_MAX_NAME_LEN - 1 <? strlen buf)%nat = negb (part_fits v).
Proof. intros <-. unfold part_fits, strlen. by rewrite Nat.ltb_antisym. Qed.

(** The first loop and the check after it accept exactly the strings whose
    parts all fit into a message. *)
Lemma check_loop_spec cur buf pb p :
  collecting cur buf pb p ->
  match check_loop p buf pb with
  | None => forallb part_fits (split_commas cur p) = false
  | Some (buf', pb') =>
      (LS_IPC_LOGGER_MAX_NAME_LEN - 1 <? strlen (<[pb' := 0%Z]> buf'))%nat =
      negb (forallb part_fits (split_commas cur p))
  end.
Proof.
  revert cur buf pb. induction p as [|c p IH]; intros cur buf pb Hc; cbn [check_loop split_commas forallb].
  { rewrite (fits_test _ _ (collecting_end _ _ _ _ Hc)). by rewrite andb_true_r. }
  assert (c <> 0) as Hc0 by (destruct Hc as [_ _ _ _ Hr _]; by inversion Hr).
  destruct (Z.eqb_spec c 0); [done|]. destruct (c =? sc ",").
  - rewrite (fits_test _ _ (collecting_end _ _ _ _ Hc)). cbn [forallb].
    destruct (part_fits cur); cbn [negb andb]; [|done]. apply IH. by eapply collecting_comma.
  - apply IH. by apply collecting_push.
Qed.

Section ClearLogs.
Context {S : Type} (ipc_sendrec : Z -> message -> ST S (Z * message)).
Abbreviation request nm := (clear_request ipc_sendrec nm).

(** One request per part, in order; the result is the last error. *)
Fixpoint clear_parts (parts : list (list Z)) (ret : Z) : ST S Z :=
  match parts with
  | [] => mret ret
  | v :: parts' =>
      r ← request v;
      clear_parts parts' (if negb (r =? OK) then r else ret)
  end.

(** The request depends on the string in the buffer only. *)
Lemma clear_request_cstr buf v : cstr buf = v -> request buf = request v.
Proof. intros <-. unfold clear_request, strlen. by rewrite !cstr_idem. Qed.

Lemma send_loop_spec cur buf pb p ret s :
  collecting cur buf pb p ->
  ('(buf, pb, ret) ← send_loop ipc_sendrec p buf pb ret;
   ret_logger ← request (<[pb := 0]> buf);
   mret (if negb (ret_logger =? OK) then ret_logger else ret)) s =
  clear_parts (split_commas cur p) ret s.
Proof.
  revert cur buf pb ret s. induction p as [|c p IH]; intros cur buf pb ret s Hc; cbn [send_loop split_commas].
  { rewrite (bind_run _ _ s (buf, pb, ret) s) by done. cbn [clear_parts].
    rewrite (clear_request_cstr _ _ (collecting_end _ _ _ _ Hc)). unfold mbind, st_bind.
    by destruct (request cur s) as [[r s']|]. }
  assert (c <> 0) as Hc0 by (destruct Hc as [_ _ _ _ Hr _]; by inversion Hr).
  destruct (Z.eqb_spec c 0); [done|]. destruct (c =? sc ",").
  - cbn [clear_parts]. rewrite (clear_request_cstr _ _ (collecting_end _ _ _ _ Hc)), bind_assoc.
    destruct (request cur s) as [[r s']|] eqn:Er; [|by rewrite !bind_none].
    rewrite !(bind_run _ _ _ _ _ Er). apply IH. by eapply collecting_comma.
  - apply IH. by apply collecting_push.
Qed.

(** Both loops stop at the end of the string. *)
Lemma check_loop_cstr p buf pb : check_loop p buf pb = check_loop (cstr p) buf pb.
Proof.
  revert buf pb. induction p as [|c p IH]; intros buf pb; [done|]. cbn [cstr].
  destruct (c =? 0) eqn:E; cbn [check_loop]; rewrite ?E; [done|].
  destruct (c =? sc ","); [destruct (_ <? _)%nat; [done|]|]; apply IH.
Qed.

Lemma send_loop_cstr p buf pb ret s :
  send_loop ipc_sendrec p buf pb ret s = send_loop ipc_sendrec (cstr p) buf pb ret s.
Proof.
  revert buf pb ret s. induction p as [|c p IH]; intros buf pb ret s; [done|]. cbn [cstr].
  destruct (c =? 0) eqn:E; cbn [send_loop]; rewrite ?E; [done|].
  destruct (c =? sc ","); [|apply IH].
  destruct (request (<[pb:=0]> buf) s) as [[r s']|] eqn:Er; [|by rewrite !bind_none].
  rewrite !(bind_run _ _ _ _ _ Er). apply IH.
Qed.

(** [minix_ls_clear_logs] on a list of names first looks at all of them
    and sends nothing when one does not fit into a message; otherwise it sends
    one request for each part between the commas, empty parts included, in
    order and whatever the answers are, and returns the last error. *)
Theorem clear_logs_splits_at_commas (loggers : list Z) (s : S) :
  let parts := split_commas [] (cstr loggers) in
  minix_ls_clear_logs ipc_sendrec (Some loggers) s =
    if (strlen loggers <? MAX_LOGGERS_LEN)%nat && forallb part_fits parts
    then clear_parts parts OK s else Some (EINVAL, s).
Proof.
  intros parts. unfold minix_ls_clear_logs.
  assert (Hpos : (0 < MAX_LOGGERS_LEN)%nat) by (unfold MAX_LOGGERS_LEN; lia).
  destruct (Nat.ltb_spec (strlen loggers) MAX_LOGGERS_LEN) as [Hlen|Hlen]; cbn [andb].
  2: { by destruct (Nat.ltb_spec (MAX_LOGGERS_LEN - 1) (strlen loggers)); [|lia]. }
  destruct (Nat.ltb_spec (MAX_LOGGERS_LEN - 1) (strlen loggers)); [lia|].
  assert (Hc : collecting [] (zeros MAX_LOGGERS_LEN) 0 (cstr loggers)).
  { split; try done. apply cstr_nonul. }
  pose proof (check_loop_spec _ _ _ _ Hc) as Hcheck. rewrite check_loop_cstr.
  pose proof (send_loop_spec [] (zeros MAX_LOGGERS_LEN) 0 (cstr loggers) OK s Hc) as Hsend.
  fold parts in Hcheck, Hsend.
  destruct (check_loop (cstr loggers) _ _) as [[buf pb]|]; [|by rewrite Hcheck].
  rewrite Hcheck. destruct (forallb part_fits parts); cbn [negb]; [|done].
  rewrite <- Hsend. unfold mbind at 1 3, st_bind at 1 3. by rewrite send_loop_cstr.
Qed.

(** The length of a message and its level travel in 16 bits: a call with a
    text of 65536 + k characters is the call with its first k characters, and
    levels that differ by 65536 are not told apart. *)
Theorem write_log_fields_wrap (logger text : list Z) (addr level : Z) (k : nat) :
  strlen text = (Z.to_nat (2 ^ 16) + k)%nat -> Z.of_nat k < 2 ^ 16 ->
  minix_ls_write_log ipc_sendrec logger addr text (level + 2 ^ 16) =
  minix_ls_write_log ipc_sendrec logger addr (take k (cstr text)) level.
Proof.
  intros Hlen Hk. unfold minix_ls_write_log.
  assert (strlen (take k (cstr text)) = k) as Hs.
  { unfold strlen. rewrite cstr_id; [|apply Forall_take, cstr_nonul].
    rewrite length_take. unfold strlen in Hlen. lia. }
  assert (u16 (Z.of_nat (strlen text)) = u16 (Z.of_nat (strlen (take k (cstr text))))) as ->.
  { rewrite Hlen, Hs. unfold u16. rewrite Nat2Z.inj_add, Z2Nat.id by lia.
    replace (2 ^ 16 + Z.of_nat k) with (Z.of_nat k + 1 * 2 ^ 16) by lia. by rewrite Z.mod_add by lia. }
  assert (u16 (level + 2 ^ 16) = u16 level) as ->; [|done].
  unfold u16. replace (level + 2 ^ 16) with (level + 1 * 2 ^ 16) by lia. by rewrite Z.mod_add by lia.
Qed.
End ClearLogs.
