(* ===== verification/LsWorld.v ===== *)
(** A small concrete system that offers the services of [LsOs] and obeys
    [LsOsLaws]: files in memory, one memory per process, an allocator that
    never reuses an address.  The concrete runs of the logging server happen
    on it. *)

From S2P Require Import Prelude LsOs LsBufio LsConfig LsFormat LsServer.
Local Open Scope Z_scope.

Record mworld := MWorld {
  files : gmap (list Z) (list Z);
  (** An open descriptor: the path and the position. *)
  descs : gmap Z (list Z * nat);
  next_fd : Z;
  live : gset Z;
  next_addr : Z;
  console : list (list Z);
  memory : gmap (Z * Z) (list Z);
  procs : list mproc;
  clock : option tm;
}.

Definition set_files f w :=
  MWorld f (descs w) (next_fd w) (live w) (next_addr w) (console w) (memory w) (procs w) (clock w).
Definition set_descs d n w :=
  MWorld (files w) d n (live w) (next_addr w) (console w) (memory w) (procs w) (clock w).
Definition set_live l a w :=
  MWorld (files w) (descs w) (next_fd w) l a (console w) (memory w) (procs w) (clock w).
Definition set_console c w :=
  MWorld (files w) (descs w) (next_fd w) (live w) (next_addr w) c (memory w) (procs w) (clock w).

(** Decimal digits, for the formatter of the example. *)
Fixpoint digits (n : nat) (z : Z) : list Z :=
  match n with
  | O => []
  | S n => digits n (z / 10) ++ [sc "0" + z mod 10]
  end.

(** Formats [%0Nd] directives only. *)
Fixpoint mini_format (fmt args : list Z) : list Z :=
  match fmt with
  | c :: ((_ :: k :: _ :: fmt') as fmt1) =>
      if c =? sc "%" then
        match args with
        | a :: args' => digits (Z.to_nat (k - sc "0")) a ++ mini_format fmt' args'
        | [] => []
        end
      else c :: mini_format fmt1 args
  | _ => fmt
  end.

Definition m_unread (fd : Z) (w : mworld) : list Z :=
  match descs w !! fd with
  | Some (path, pos) => drop pos (default [] (files w !! path))
  | None => []
  end.

(** Files of more than [limit] bytes cannot be opened. *)
Definition m_open (limit : nat) (p : list Z) (f : oflags) (w : mworld) : Z * mworld :=
  let path := cstr p in
  match files w !! path, o_creat f with
  | None, false => (-1, w)
  | old, _ =>
      let content := if o_trunc f then [] else default [] old in
      if (limit <? length content)%nat then (-1, w) else
      let fd := next_fd w in
      (fd, set_descs (<[fd := (path, if o_append f then length content else 0%nat)]> (descs w))
             (fd + 1) (set_files (<[path := content]> (files w)) w))
  end.

Definition m_read (fd : Z) (n : nat) (w : mworld) : option (list Z) * mworld :=
  match descs w !! fd with
  | Some (path, pos) =>
      (Some (take n (m_unread fd w)), set_descs (<[fd := (path, (pos + n)%nat)]> (descs w)) (next_fd w) w)
  | None => (Some [], w)
  end.

Definition m_write (fd : Z) (b : list Z) (w : mworld) : Z * mworld :=
  match descs w !! fd with
  | Some (path, pos) =>
      let old := default [] (files w !! path) in
      (Z.of_nat (length b),
       set_descs (<[fd := (path, (pos + length b)%nat)]> (descs w)) (next_fd w)
         (set_files (<[path := take pos old ++ b ++ drop (pos + length b) old]> (files w)) w))
  | None => (-1, w)
  end.

Definition m_close (fd : Z) (w : mworld) : Z * mworld :=
  match descs w !! fd with
  | Some _ => (0, set_descs (delete fd (descs w)) (next_fd w) w)
  | None => (-1, w)
  end.

(** A block of memory, at the next address when it is free. *)
Definition m_malloc (tail : Z) (a : alloc) (w : mworld) : option (Z * Z) * mworld :=
  let p := if decide (next_addr w ∈ {[0]} ∪ live w) then fresh ({[0]} ∪ live w) else next_addr w in
  (Some (p, tail), set_live ({[p]} ∪ live w) (p + 1) w).

Lemma m_malloc_fresh w :
  (if decide (next_addr w ∈ {[0]} ∪ live w) then fresh ({[0]} ∪ live w) else next_addr w)
    ∉ {[0]} ∪ live w.
Proof. destruct (decide _); [apply is_fresh|done]. Qed.

Definition m_vircopy (who a n : Z) (w : mworld) : Z * list Z * mworld :=
  let bytes := take (Z.to_nat n) (default [] (memory w !! (who, a))) in
  if (length bytes =? Z.to_nat n)%nat then (OK, bytes, w) else (-14, [], w).

(** [tail] is the word a new block holds where a list node has its tail. *)
Definition m_os (limit : nat) (tail : Z) : LsOs mworld := {|
  os_open := m_open limit;
  os_read := m_read;
  os_write := m_write;
  os_close := m_close;
  os_fsync _ w := w;
  os_malloc := m_malloc tail;
  os_free p w := set_live (live w ∖ {[p]}) (next_addr w) w;
  os_vircopy := m_vircopy;
  os_getsysinfo w := (OK, procs w, w);
  os_rs_lookup _ w := (Some 7, w);
  os_rtc_get_time _ w := (option_map (fun t => (0, t)) (clock w), w);
  os_printf b w := set_console (console w ++ [b]) w;
  mini_snprintf n fmt args := take (n - 1) (mini_format fmt args) ++ [0];
|}.

Section Laws.
Context (limit : nat) (tail : Z).

#[local] Ltac mcase :=
  repeat match goal with
  | |- context [match ?x with _ => _ end] => destruct x eqn:?
  end; try done.

#[global] Instance m_laws : @LsOsLaws mworld (m_os limit tail).
Proof.
  refine {| os_live := live; os_unread := m_unread |}; cbn [m_os os_open os_read os_write os_close
    os_fsync os_malloc os_free os_vircopy os_getsysinfo os_rs_lookup os_rtc_get_time os_printf]; try done.
  - intros. unfold m_open. mcase.
  - intros. unfold m_read. mcase.
  - intros. unfold m_write. mcase.
  - intros. unfold m_close. mcase.
  - intros. unfold m_vircopy. mcase.
  - intros a w p g. unfold m_malloc. pose proof (m_malloc_fresh w) as Hf. cbn [fst snd].
    intros [= <- <-]. split_and!; [set_solver|set_solver|done].
  - intros fd n w. unfold m_read, m_unread.
    destruct (descs w !! fd) as [[path pos]|] eqn:E; intros _.
    + split; [done|]. cbn. rewrite lookup_insert_eq. by rewrite drop_drop.
    + cbn. rewrite E. by destruct n.
  - intros who a n w Hn. unfold m_vircopy.
    destruct (Nat.eqb_spec (length (take (Z.to_nat n) (default [] (memory w !! (who, a))))) (Z.to_nat n)); done.
  - intros who a n w Hn. unfold m_vircopy.
    destruct (Nat.eqb_spec (length (take (Z.to_nat n) (default [] (memory w !! (who, a))))) (Z.to_nat n)); cbn; lia.
Defined.
End Laws.
