(* ===== verification/LsMain.v ===== *)
(** The theorems about the logging server as a whole. *)

From S2P Require Import Prelude Chain LsOs LsBufio LsConfig LsParse LsRoundtrip LsFormat LsHeap.
From S2P Require Import LsServer LsInit LsRefine LsClient.
Local Open Scope Z_scope.

#[local] Arguments zeros : simpl never.

(** What every theorem assumes of the parser's block and of the system. *)
Definition block_ok (junk : parser_state_t) : Prop :=
  length (curr_value junk) = MAX_VALUE_LEN /\ length (option_name junk) = MAX_VALUE_LEN.

(** ** Loading *)

Section Loading.
Context {W : Type} `{LsOsLaws W}.
Context (fuel : nat) (junk : parser_state_t).


(** ** Every request is handled *)

(** One event of the main loop: the outcome of [sef_receive], the message and
    the uninitialised source of the request record. *)
Fixpoint serve (EDONTREPLY : Z) (events : list (Z * message * Z))
  : ST (ls_state W) (list (option (Z * message))) :=
  match events with
  | [] => mret []
  | (recv, m, src) :: events' =>
      r ← main_step fuel junk EDONTREPLY recv m src;
      rs ← serve EDONTREPLY events';
      mret (r :: rs)
  end.

Lemma with_logger_safe lg k (s : ls_state W) l :
  block_ok junk -> clear_tails -> file_fits fuel CONFIG_FILE -> server_inv s l ->
  (forall s' l', server_inv s' l' -> g_is_initialized s' = true ->
     exists ret s2 l2, with_logger fuel junk lg k s' = Some (ret, s2) /\ server_inv s2 l2) ->
  exists ret s2 l2, with_logger fuel junk lg k s = Some (ret, s2) /\ server_inv s2 l2.
Proof.
  intros Hj Ht Hf Hinv Hk. unfold with_logger in *.
  destruct (ensure_initialized_ok fuel junk Hj Ht Hf s l Hinv) as (ret & s1 & l1 & E1 & Hinv1 & _ & Hi1).
  rewrite (bind_run _ _ _ _ _ E1). destruct (Z.eqb_spec ret OK) as [->|]; cbn [negb].
  - specialize (Hi1 eq_refl). destruct (Hk s1 l1 Hinv1 Hi1) as (r & s2 & l2 & E2 & Hinv2).
    exists r, s2, l2. split; [|done]. unfold ensure_initialized in E2.
    rewrite bind_assoc, (bind_run get _ s1 s1 s1) in E2 by done. rewrite Hi1 in E2.
    by rewrite (bind_run _ _ s1 OK s1) in E2.
  - by exists LS_ERR_INIT_FAILED, s1, l1.
Qed.

(** A handler that implements the contract keeps the invariant. *)
Lemma sim_inv (m : ST (ls_state W) Z) f (s : ls_state W) l :
  simulates m f -> server_inv s l -> g_is_initialized s = true ->
  exists ret s2 l2, m s = Some (ret, s2) /\ server_inv s2 l2.
Proof.
  intros Hsim Hinv Hi.
  destruct (Hsim s (Spec (abs_tbl l) (lname <$> loggers l) (proctable s) (world s))) as (s2 & E & l2 & Hr).
  { exists l. by split. }
  exists (f (Spec (abs_tbl l) (lname <$> loggers l) (proctable s) (world s))).1, s2, l2.
  split; [done|apply Hr].
Qed.

Lemma dispatch_safe m (s : ls_state W) l :
  block_ok junk -> clear_tails -> file_fits fuel CONFIG_FILE -> message_ok m -> server_inv s l ->
  exists ret s2 l2, dispatch fuel junk m s = Some (ret, s2) /\ server_inv s2 l2.
Proof.
  intros Hj Ht Hf Hm Hinv. unfold dispatch.
  assert (Hret : exists ret s2 l2, (mret EINVAL : ST (ls_state W) Z) s = Some (ret, s2) /\ server_inv s2 l2).
  { by exists EINVAL, s, l. }
  destruct (m_type m =? LS_INITIALIZE).
  { destruct (do_initialize_ok fuel junk Hj Ht Hf s l Hinv) as (ret & s2 & l2 & E & Hi & _). eauto. }
  destruct (m_type m =? LS_START_LOG).
  { eapply with_logger_safe; eauto. intros. eapply sim_inv; [apply do_start_log_sim|done..]. }
  destruct (m_type m =? LS_CLOSE_LOG).
  { eapply with_logger_safe; eauto. intros. eapply sim_inv; [apply do_close_log_sim|done..]. }
  destruct (m_type m =? LS_WRITE_LOG).
  { destruct (int_sev (m_severity m)); [|done].
    destruct (Z.ltb_spec (Z.of_nat LS_MAX_MESSAGE_LEN) (m_message_len m)); [done|].
    eapply with_logger_safe; eauto. intros. eapply sim_inv; [apply do_write_log_sim|done..].
    unfold message_ok in Hm. lia. }
  destruct (m_type m =? LS_CLEAR_LOG).
  { eapply with_logger_safe; eauto. intros. eapply sim_inv; [apply do_clear_log_sim|done..]. }
  destruct (m_type m =? LS_SET_SEVERITY).
  { destruct (int_sev (m_severity m)); [|done].
    eapply with_logger_safe; eauto. intros. eapply sim_inv; [apply do_set_severity_sim|done..]. }
  destruct (m_type m =? LS_CLEAR_ALL); [|done].
  destruct (ensure_initialized_ok fuel junk Hj Ht Hf s l Hinv) as (ret & s1 & l1 & E1 & Hinv1 & _ & Hi1).
  unfold do_clear_logs. rewrite (bind_run _ _ _ _ _ E1). destruct (Z.eqb_spec ret OK) as [->|]; cbn [negb].
  - destruct (sim_inv _ _ s1 l1 (do_clear_logs_sim fuel junk) Hinv1 (Hi1 eq_refl)) as (r & s2 & l2 & E2 & Hinv2).
    exists r, s2, l2. split; [|done]. unfold do_clear_logs, ensure_initialized in E2.
    rewrite bind_assoc, (bind_run get _ s1 s1 s1) in E2 by done. rewrite (Hi1 eq_refl) in E2.
    by rewrite (bind_run _ _ s1 OK s1) in E2.
  - by exists LS_ERR_INIT_FAILED, s1, l1.
Qed.

Lemma main_step_safe edr recv m src (s : ls_state W) l :
  block_ok junk -> clear_tails -> file_fits fuel CONFIG_FILE -> message_ok m -> server_inv s l ->
  exists r s2 l2, main_step fuel junk edr recv m src s = Some (r, s2) /\ server_inv s2 l2.
Proof.
  intros Hj Ht Hf Hm Hinv. unfold main_step. destruct (wait_request recv m src) as [status source].
  destruct (negb (status =? OK)).
  { rewrite (bind_run _ _ s EINVAL s) by done. by eexists _, s, l. }
  destruct (dispatch_safe m s l Hj Ht Hf Hm Hinv) as (ret & s2 & l2 & E & Hinv2).
  rewrite (bind_run _ _ _ _ _ E). by eexists _, s2, l2.
Qed.

End Loading.

(** ** Requests of an initialised server *)

Section Requests.
Context {W : Type} `{LsOsLaws W}.
Context (fuel : nat) (junk : parser_state_t).
Implicit Types (s : ls_state W) (a : spec_state W).


(** A request that is no request of the server, a write with an invalid
    severity or with a message that is too long, and a change to an invalid
    severity are answered with EINVAL, to their sender, and change nothing. *)
Theorem invalid_request_rejected edr m src s :
  EINVAL <> edr ->
  m_type m < LS_BASE \/ LS_END <= m_type m \/ m_type m = LS_BASE + 3 \/
  (m_type m = LS_WRITE_LOG /\
   (int_sev (m_severity m) = None \/ Z.of_nat LS_MAX_MESSAGE_LEN < m_message_len m)) \/
  (m_type m = LS_SET_SEVERITY /\ int_sev (m_severity m) = None) ->
  main_step fuel junk edr OK m src s = Some (Some (m_source m, with_type EINVAL m), s).
Proof.
  intros Hedr Hm. unfold main_step, wait_request. change (negb (OK =? OK)) with false. cbn iota.
  assert (Hin : (if negb (EINVAL =? edr) then Some (m_source m, with_type EINVAL m) else None) =
    Some (m_source m, with_type EINVAL m)) by (by destruct (Z.eqb_spec EINVAL edr)).
  destruct ((m_type m <? LS_BASE) || (LS_END <=? m_type m)) eqn:Er.
  { rewrite (bind_run _ _ s EINVAL s) by done. by rewrite Hin. }
  apply orb_false_iff in Er as [E1%Z.ltb_ge E2%Z.leb_gt].
  change (negb (OK =? OK)) with false. cbn iota.
  rewrite (bind_run _ _ s EINVAL s); [by rewrite Hin|]. unfold dispatch.
  destruct Hm as [?|[?|[->|[[-> Hw]|[-> ->]]]]]; [lia|lia|done| |done].
  cbn [Z.eqb LS_WRITE_LOG]. destruct Hw as [->|Hlen]; [done|]. destruct (int_sev _); [|done].
  by destruct (Z.ltb_spec (Z.of_nat LS_MAX_MESSAGE_LEN) (m_message_len m)); [|lia].
Qed.

(** The requests that name one logger. *)
Definition about_logger (m : message) : Prop :=
  m_type m = LS_START_LOG \/ m_type m = LS_CLOSE_LOG \/
  (m_type m = LS_WRITE_LOG /\ is_Some (int_sev (m_severity m)) /\
   0 <= m_message_len m <= Z.of_nat LS_MAX_MESSAGE_LEN) \/
  m_type m = LS_CLEAR_LOG \/ (m_type m = LS_SET_SEVERITY /\ is_Some (int_sev (m_severity m))).

(** C31: An open logger belongs to the process that opened it: whatever another
    process asks of it is refused, with LS_ERR_LOGGER_OPEN for opening,
    clearing and changing the severity and with LS_ERR_PERMISSION_DENIED for
    writing and closing, and has no effect on the logger, on the other loggers
    or on the system. *)
Theorem open_logger_is_exclusive m s a lg owner fd :
  implements s a -> message_ok m -> about_logger m ->
  tbl a !! cstr (m_logger m) = Some (lg, Some (owner, fd)) -> m_source m <> owner ->
  exists s', implements s' a /\
    dispatch fuel junk m s =
    Some (if bool_decide (m_type m = LS_WRITE_LOG \/ m_type m = LS_CLOSE_LOG)
          then LS_ERR_PERMISSION_DENIED else LS_ERR_LOGGER_OPEN, s').
Proof.
  intros Him Hm Hab Htbl Hown.
  assert (Hne : negb (owner =? m_source m) = true) by (by destruct (Z.eqb_spec owner (m_source m))).
  destruct (dispatch_sim fuel junk m Hm) with (s := s) (a := a) as (s' & E & Him'); [|done|].
  { destruct Hab as [E|[E|[[E _]|[E|[E _]]]]]; rewrite E; done. }
  exists s'. revert E Him'. unfold spec_dispatch.
  destruct Hab as [->|[->|[(-> & [sev Hsev] & Hlen)|[->|[-> [sev Hsev]]]]]].
  - cbn [Z.eqb LS_START_LOG]. unfold spec_start. rewrite Htbl. cbn. by intros -> ?.
  - unfold spec_close. rewrite Htbl. cbn -[negb]. rewrite Hne. by intros -> ?.
  - cbn -[Z.ltb LS_MAX_MESSAGE_LEN spec_write]. rewrite Hsev.
    destruct (Z.ltb_spec (Z.of_nat LS_MAX_MESSAGE_LEN) (m_message_len m)); [lia|].
    unfold spec_write. rewrite Htbl, Hne. by intros -> ?.
  - unfold spec_clear. rewrite Htbl. cbn. by intros -> ?.
  - rewrite Hsev. unfold spec_set_severity. rewrite Htbl. cbn. by intros -> ?.
Qed.

(** ** Ownership over time *)

Fixpoint handle_all (ms : list message) : ST (ls_state W) (list Z) :=
  match ms with
  | [] => mret []
  | m :: ms' => r ← dispatch fuel junk m; rs ← handle_all ms'; mret (r :: rs)
  end.

(** [m] does not make [owner] give up the logger [nm]. *)
Definition keeps (owner : Z) (nm : list Z) (m : message) : Prop :=
  message_ok m /\ m_type m <> LS_INITIALIZE /\
  (m_type m = LS_CLOSE_LOG -> cstr (m_logger m) = nm -> m_source m <> owner).

Lemma spec_clear_tbl nm a : tbl (spec_clear nm a).2 = tbl a.
Proof. unfold spec_clear. repeat case_match; done. Qed.

Lemma spec_clear_list_tbl nms ret a : tbl (spec_clear_list nms ret a).2 = tbl a.
Proof.
  revert ret a. induction nms as [|nm nms IH]; intros ret a; [done|]. cbn.
  pose proof (spec_clear_tbl nm a). destruct (spec_clear nm a) as [r a']. by rewrite IH.
Qed.

Lemma spec_write_tbl nm sev msg len who a : tbl (spec_write nm sev msg len who a).2 = tbl a.
Proof. unfold spec_write. repeat (case_match; try done). Qed.

Lemma spec_refresh_tbl a : tbl (spec_refresh a).2 = tbl a.
Proof. unfold spec_refresh. repeat (case_match; try done). Qed.

(** Opening or closing changes no other entry, and opening no open one. *)
Lemma spec_start_keeps nm nm' who a lg st :
  tbl a !! nm = Some (lg, Some st) -> tbl (spec_start nm' who a).2 !! nm = Some (lg, Some st).
Proof.
  intros E. unfold spec_start. destruct (tbl a !! nm') as [[lg' [st'|]]|] eqn:E'; [done| |done].
  assert (nm <> nm') as Hne by (intros ->; congruence).
  assert (Hins : forall x w, tbl (spec_refresh (with_tbl (<[nm' := x]> (tbl a)) (with_world w a))).2 !! nm =
    Some (lg, Some st)) by (intros; rewrite spec_refresh_tbl; cbn; by rewrite lookup_insert_ne).
  destruct (is_file lg').
  - destruct (os_open _ _ _) as [fd w]. destruct (fd <? 0); [done|apply Hins].
  - exact (Hins _ (sworld a)).
Qed.

Lemma spec_close_keeps nm nm' who a lg owner fd :
  tbl a !! nm = Some (lg, Some (owner, fd)) -> (nm' = nm -> who <> owner) ->
  tbl (spec_close nm' who a).2 !! nm = Some (lg, Some (owner, fd)).
Proof.
  intros E Hk. unfold spec_close. destruct (decide (nm' = nm)) as [->|Hne].
  - rewrite E. destruct (Z.eqb_spec owner who) as [->|]; [by destruct Hk|done].
  - destruct (tbl a !! nm') as [[lg' [[o f]|]]|]; [|done|done].
    destruct (negb (o =? who)); [done|]. cbn. rewrite lookup_insert_ne by done. by destruct (is_file lg').
Qed.

Lemma spec_dispatch_keeps owner fd nm m a lg :
  keeps owner nm m -> tbl a !! nm = Some (lg, Some (owner, fd)) ->
  tbl (spec_dispatch m a).2 !! nm = Some (lg, Some (owner, fd)).
Proof.
  intros (_ & Hi & Hc) E. unfold spec_dispatch.
  destruct (m_type m =? LS_START_LOG); [by apply spec_start_keeps|].
  destruct (Z.eqb_spec (m_type m) LS_CLOSE_LOG); [apply spec_close_keeps; auto|].
  destruct (m_type m =? LS_WRITE_LOG).
  { destruct (int_sev _); [|done]. destruct (_ <? _); [done|]. by rewrite spec_write_tbl. }
  destruct (m_type m =? LS_CLEAR_LOG); [by rewrite spec_clear_tbl|].
  destruct (m_type m =? LS_SET_SEVERITY).
  { destruct (int_sev _); [|done]. unfold spec_set_severity. repeat (case_match; try done). }
  destruct (m_type m =? LS_CLEAR_ALL); [by rewrite spec_clear_list_tbl|done].
Qed.

End Requests.

(** ** What a request does *)

Section Effects.
Context {W : Type} `{LsOsLaws W}.
Context (fuel : nat) (junk : parser_state_t).
Implicit Types (s : ls_state W) (a : spec_state W).

(** A line that fits the buffer of the server is delivered whole. *)
Lemma log_text_full lg bytes sev pn (w : W) :
  let line := expand bytes (length bytes) sev pn (format lg) w in
  (length line <= LOGBUF_LEN - 1)%nat -> (log_text lg bytes sev pn w).1 = line.
Proof.
  intros line Hlen. unfold log_text.
  pose proof (print_loop_ok (LOGBUF_LEN - 1) bytes (length bytes) sev pn (format lg) [] w) as Hok.
  cbn [length app] in Hok. specialize (Hok ltac:(lia)).
  destruct (print_loop _ _ _ _ _ _ _ _) as [[n out] w']. cbn [fst]. destruct Hok as [-> Hn].
  fold line in Hn |- *. rewrite (firstn_all2 line) in * by done.
  destruct Hn as [->|(_ & Hlt & _)]; [|lia]. rewrite Nat2Z.id. apply firstn_all.
Qed.

(** A write request that the dispatcher lets through. *)
Definition write_request (m : message) (sev : ls_severity_level_t) : Prop :=
  m_type m = LS_WRITE_LOG /\ int_sev (m_severity m) = Some sev /\
  0 <= m_message_len m <= Z.of_nat LS_MAX_MESSAGE_LEN.

Lemma write_dispatch m sev s a :
  implements s a -> write_request m sev ->
  let r := spec_write (cstr (m_logger m)) sev (m_message m) (m_message_len m) (m_source m) a in
  exists s', dispatch fuel junk m s = Some (r.1, s') /\ implements s' r.2.
Proof.
  intros Him (Ht & Hsev & Hlen) r.
  destruct (dispatch_sim fuel junk m) with (s := s) (a := a) as (s' & E & Him'); [unfold message_ok; lia|by rewrite Ht|done|].
  exists s'. revert E Him'. unfold spec_dispatch. rewrite Ht. cbn -[Z.ltb LS_MAX_MESSAGE_LEN spec_write dispatch].
  rewrite Hsev. destruct (Z.ltb_spec (Z.of_nat LS_MAX_MESSAGE_LEN) (m_message_len m)); [lia|]. done.
Qed.


(** A message below the configured severity of a logger is accepted from
    its owner and dropped: nothing but the copy of the message happens. *)
Theorem low_severity_dropped m sev s a lg fd bytes w1 :
  implements s a -> write_request m sev ->
  tbl a !! cstr (m_logger m) = Some (lg, Some (m_source m, fd)) ->
  os_vircopy (m_source m) (m_message m) (m_message_len m) (sworld a) = (OK, bytes, w1) ->
  sev_int sev < sev_int (severity lg) ->
  exists s', dispatch fuel junk m s = Some (OK, s') /\ implements s' (with_world w1 a).
Proof.
  intros Him Hm Htbl Hcp Hsev. destruct (write_dispatch m sev s a Him Hm) as (s' & E & Him').
  unfold spec_write in E, Him'. rewrite Htbl, Z.eqb_refl, Hcp in E, Him'. cbn [negb Z.eqb OK] in E, Him'.
  destruct (Z.ltb_spec (sev_int sev) (sev_int (severity lg))); [|lia]. by exists s'.
Qed.

(** Setting the severity of a closed logger succeeds and has no effect:
    the server is left in a state that represents the same table, in which the
    logger opens with the severity of its configuration, so that no later
    request can tell the difference. *)
Theorem set_severity_is_lost m s a lg sev :
  implements s a -> m_type m = LS_SET_SEVERITY -> message_ok m -> int_sev (m_severity m) = Some sev ->
  tbl a !! cstr (m_logger m) = Some (lg, None) ->
  exists s', dispatch fuel junk m s = Some (OK, s') /\ implements s' a.
Proof.
  intros Him Ht Hm Hsev Htbl.
  destruct (dispatch_sim fuel junk m Hm) with (s := s) (a := a) as (s' & E & Him'); [by rewrite Ht|done|].
  exists s'. revert E Him'. unfold spec_dispatch. rewrite Ht, Hsev. cbn -[dispatch spec_set_severity].
  unfold spec_set_severity. rewrite Htbl. done.
Qed.

(** Truncating the file of a logger, whatever becomes of it. *)
Definition truncate_log (lg : ls_logger_t) (w : W) : W :=
  let '(fd, w1) := os_open (dest_filename lg) (OFlags true true true false) w in
  if fd <? 0 then w1 else (os_close fd w1).2.

Definition closed_file (t : table) (nm : list Z) : option ls_logger_t :=
  match t !! nm with Some (lg, None) => if is_file lg then Some lg else None | _ => None end.

Lemma spec_clear_effect nm a :
  (spec_clear nm a).2 =
    with_world (match closed_file (tbl a) nm with Some lg => truncate_log lg (sworld a) | None => sworld a end) a.
Proof.
  unfold spec_clear, closed_file, truncate_log. destruct a as [t o p w]. cbn [tbl sworld].
  destruct (t !! nm) as [[lg [st|]]|]; [done| |done]. destruct (is_file lg); [|done].
  destruct (os_open _ _ _) as [fd w1]. destruct (fd <? 0); [done|]. by destruct (os_close fd w1).
Qed.

Lemma spec_clear_list_effect nms ret a :
  (spec_clear_list nms ret a).2 =
    with_world (foldl (fun w lg => truncate_log lg w) (sworld a) (omap (closed_file (tbl a)) nms)) a.
Proof.
  revert ret a. induction nms as [|nm nms IH]; intros ret a; [by destruct a|]. cbn [spec_clear_list].
  pose proof (spec_clear_effect nm a) as Hc. destruct (spec_clear nm a) as [r a']. cbn [snd] in Hc.
  rewrite IH, Hc. cbn [tbl sworld with_world omap list_omap]. by destruct (closed_file (tbl a) nm).
Qed.

Lemma spec_clear_list_ret nms ret a :
  ret = OK \/ ret = LS_ERR_LOGGER_OPEN ->
  ((spec_clear_list nms ret a).1 = OK \/ (spec_clear_list nms ret a).1 = LS_ERR_LOGGER_OPEN) /\
  (ret = LS_ERR_LOGGER_OPEN \/ (exists nm lg st, nm ∈ nms /\ tbl a !! nm = Some (lg, Some st)) ->
   (spec_clear_list nms ret a).1 = LS_ERR_LOGGER_OPEN).
Proof.
  revert ret a. induction nms as [|nm nms IH]; intros ret a Hret; cbn [spec_clear_list].
  { split; [done|]. intros [?|(?&?&?&Hin&_)]; [done|]. by apply elem_of_nil in Hin. }
  pose proof (spec_clear_tbl nm a) as Ht. destruct (spec_clear nm a) as [r a'] eqn:Ec. cbn [snd] in Ht.
  destruct (IH (if negb (r =? OK) then LS_ERR_LOGGER_OPEN else ret) a') as [H1 H2].
  { destruct (negb (r =? OK)); auto. }
  split; [done|]. intros Hcase. apply H2. destruct Hcase as [->|(nm' & lg & st & Hin & Hst)].
  - left. by destruct (negb (r =? OK)).
  - apply elem_of_cons in Hin as [->|Hin]; [left|right; exists nm', lg, st; by rewrite Ht].
    unfold spec_clear in Ec. rewrite Hst in Ec. injection Ec as <- <-. done.
Qed.

(** Clearing all logs truncates the file of every closed file logger, in
    the order of the configuration and whatever happens to the others, touches
    no open logger, and reports an open logger whenever there is one. *)
Theorem clear_all_clears_closed_logs m s a :
  implements s a -> message_ok m -> m_type m = LS_CLEAR_ALL ->
  exists ret s', dispatch fuel junk m s = Some (ret, s') /\
    implements s' (with_world (foldl (fun w lg => truncate_log lg w) (sworld a)
                                 (omap (closed_file (tbl a)) (order a))) a) /\
    (ret = OK \/ ret = LS_ERR_LOGGER_OPEN) /\
    ((exists nm lg st, nm ∈ order a /\ tbl a !! nm = Some (lg, Some st)) -> ret = LS_ERR_LOGGER_OPEN).
Proof.
  intros Him Hm Ht.
  destruct (dispatch_sim fuel junk m Hm) with (s := s) (a := a) as (s' & E & Him'); [by rewrite Ht|done|].
  assert (spec_dispatch m a = spec_clear_list (order a) OK a) as Hsp by (unfold spec_dispatch; by rewrite Ht).
  rewrite Hsp in E, Him'. rewrite spec_clear_list_effect in Him'.
  destruct (spec_clear_list_ret (order a) OK a) as [H1 H2]; [by left|]. eexists _, s'. split_and!; eauto.
Qed.

End Effects.

(** ** From the library call to the server and back *)

Section EndToEnd.
Context {W : Type} `{LsOsLaws W}.
Context (fuel : nat) (junk : parser_state_t) (EDONTREPLY : Z).
Implicit Types (s : ls_state W) (a : spec_state W).

(** [ipc_sendrec] of process [who] to the server: the kernel fills in the
    source, the server runs one round of its main loop, and its reply comes
    back with status 0.  Without a reply the caller would wait for ever. *)
Definition call_server (who : Z) (dst : Z) (m : message) : ST (ls_state W) (Z * message) :=
  let m := Msg who (m_type m) (m_logger m) (m_severity m) (m_message_len m) (m_message m) in
  r ← main_step fuel junk EDONTREPLY OK m 0;
  match r with
  | Some (_, reply) => mret (0, reply)
  | None => ub
  end.

Lemma wrap_call who t m s r s' :
  LS_BASE <= t < LS_END -> r <> EDONTREPLY ->
  dispatch fuel junk (Msg who t (m_logger m) (m_severity m) (m_message_len m) (m_message m)) s = Some (r, s') ->
  wrap_syscall (call_server who) t m s = Some (r, s').
Proof.
  intros Ht Hr E. unfold wrap_syscall, _syscall, call_server. rewrite !bind_assoc. cbn [m_type with_type
    m_logger m_severity m_message_len m_message].
  assert (Em : main_step fuel junk EDONTREPLY OK
    (Msg who t (m_logger m) (m_severity m) (m_message_len m) (m_message m)) 0 s =
    Some (Some (who, with_type r (Msg who t (m_logger m) (m_severity m) (m_message_len m) (m_message m))), s')).
  { unfold main_step, wait_request. cbn [m_type m_source].
    destruct (Z.ltb_spec t LS_BASE), (Z.leb_spec LS_END t); try lia. cbn [orb negb Z.eqb OK].
    rewrite (bind_run _ _ _ _ _ E). by destruct (Z.eqb_spec r EDONTREPLY). }
  rewrite (bind_run _ _ _ _ _ Em). mrun. change (negb (0 =? 0)) with false. cbn -[Z.eqb Z.ltb].
  destruct (Z.ltb_spec r 0); [reflexivity|]. by destruct (Z.eqb_spec r OK) as [->|].
Qed.

(** The name reaches the server unchanged. *)
Lemma named_message_name lg sev len addr :
  name_too_long lg = false -> cstr (m_logger (named_message lg sev len addr)) = cstr lg.
Proof.
  unfold name_too_long. intros Hlen%Nat.leb_gt. cbn [m_logger named_message]. unfold strncpy.
  unfold strlen in Hlen. rewrite take_app_ge by lia.
  replace (LS_IPC_LOGGER_MAX_NAME_LEN - length (cstr lg))%nat
    with (S (LS_IPC_LOGGER_MAX_NAME_LEN - length (cstr lg) - 1)) by lia.
  rewrite take_replicate. replace (_ `min` _)%nat with (S (LS_IPC_LOGGER_MAX_NAME_LEN - length (cstr lg) - 1)) by lia.
  cbn [replicate]. rewrite <- app_assoc. cbn [app]. rewrite cstr_app_end. apply cstr_idem.
Qed.

(** C23: [minix_ls_start_log], called by a process on a running server, returns
    exactly what the contract says of opening that logger for that process, and
    the logger is then the caller's. *)
Theorem start_log_end_to_end who lg s a :
  implements s a -> name_too_long lg = false -> (spec_start (cstr lg) who a).1 <> EDONTREPLY ->
  exists s', minix_ls_start_log (call_server who) lg s = Some ((spec_start (cstr lg) who a).1, s') /\
    implements s' (spec_start (cstr lg) who a).2.
Proof.
  intros Him Hlen Hr. unfold minix_ls_start_log. rewrite Hlen.
  set (m := named_message lg 0 0 0).
  destruct (dispatch_sim fuel junk (Msg who LS_START_LOG (m_logger m) 0 0 0)) with (s := s) (a := a)
    as (s' & E & Him'); [unfold message_ok; cbn; lia|done|done|].
  unfold spec_dispatch in E, Him'. cbn [m_type m_logger m_source LS_START_LOG Z.eqb] in E, Him'.
  change (LS_BASE + 1 =? LS_BASE + 1) with true in E, Him'. cbn iota in E, Him'.
  unfold m in E, Him'. rewrite (named_message_name lg 0 0 0 Hlen) in E, Him'.
  exists s'. split; [|done]. apply wrap_call; [by vm_compute|done|exact E].
Qed.

(** C24: [minix_ls_write_log] with a valid level and a text of at most 2048
    characters delivers to the server the level, the name and the whole text,
    and returns what the contract says of writing it. *)
Theorem write_log_end_to_end who lg addr text level sev s a :
  implements s a -> name_too_long lg = false -> (strlen text <= LS_MAX_MESSAGE_LEN)%nat ->
  int_sev level = Some sev ->
  let r := spec_write (cstr lg) sev addr (Z.of_nat (strlen text)) who a in
  r.1 <> EDONTREPLY ->
  exists s', minix_ls_write_log (call_server who) lg addr text level s = Some (r.1, s') /\ implements s' r.2.
Proof.
  intros Him Hlen Htext Hsev r Hr. unfold minix_ls_write_log. rewrite Hlen.
  assert (u16 (Z.of_nat (strlen text)) = Z.of_nat (strlen text)) as ->.
  { unfold u16. apply Z.mod_small. unfold LS_MAX_MESSAGE_LEN in Htext. lia. }
  assert (u16 level = level) as ->.
  { unfold u16. apply Z.mod_small. unfold int_sev in Hsev. repeat case_match; try done; lia. }
  set (m := named_message lg level (Z.of_nat (strlen text)) addr).
  destruct (write_dispatch fuel junk (Msg who LS_WRITE_LOG (m_logger m) level (Z.of_nat (strlen text)) addr)
    sev s a Him) as (s' & E & Him').
  { split; [done|]. split; [done|]. cbn [m_message_len]. lia. }
  cbn [m_logger m_message m_message_len m_source] in E, Him'. unfold m in E, Him'.
  rewrite (named_message_name lg level _ addr Hlen) in E, Him'.
  exists s'. split; [|done]. apply wrap_call; [by vm_compute|done|exact E].
Qed.
End EndToEnd.
