(* ===== verification/LsRuns.v ===== *)
(** The theorems about the logging server at concrete inputs, on the system of
    [LsWorld]. *)

From S2P Require Import Prelude Chain LsOs LsBufio LsConfig LsParse LsRoundtrip LsFormat LsHeap.
From S2P Require Import LsServer LsInit LsRefine LsClient LsWorld LsMain.
Local Open Scope Z_scope.

#[local] Arguments zeros : simpl never.

(** Files of up to 2000 bytes, blocks with a clear tail. *)
#[local] Instance sample_os : LsOs mworld := m_os 2000 0.
#[local] Instance sample_laws : LsOsLaws mworld := m_laws 2000 0.
Definition sample_fuel : nat := 2002.

Lemma sample_block : block_ok clear_block.
Proof. split; reflexivity. Defined.

Lemma sample_tails : clear_tails (W := mworld).
Proof. intros w p g. cbn. by intros [= _ <-]. Defined.

Lemma sample_served : always_served (W := mworld).
Proof.
  split; [|done]. intros fd n w. cbn. unfold m_read. by destruct (descs w !! fd) as [[]|].
Defined.

Lemma sample_fits p : file_fits sample_fuel p.
Proof.
  intros w. cbn [os_open sample_os m_os]. unfold m_open. cbn [o_creat O_RDONLY o_trunc o_append].
  destruct (files w !! cstr p) as [old|] eqn:E; cbn -[Nat.ltb]; [|by intros].
  destruct (Nat.ltb_spec 2000 (length old)); [by intros|]. intros _. change (os_unread ?fd ?w) with (m_unread fd w).
  unfold m_unread. cbn -[Nat.add].
  rewrite lookup_insert_eq, lookup_insert_eq. cbn -[Nat.add].
  rewrite drop_0. unfold sample_fuel. lia.
Defined.

(** ** Reading and loading *)

Definition boot_world : mworld :=
  MWorld {[ CONFIG_FILE := print_config sample_cfgs ]} ∅ 3 ∅ 4096 []
    {[ (77, 1000) := $"hello" ]} [MProc 77 ($"init" ++ [0])] None.

(** A descriptor open for the configuration file. *)
Definition reading_world : mworld := (m_open 2000 CONFIG_FILE O_RDONLY boot_world).2.

Lemma bufio_delivers_file_witness :
  exists ctx w', bufio_init 3 reading_world = (Some ctx, w') /\
    bufio_run 8 ctx w' = $"logger F".
Proof.
  eexists _, _. split; [vm_compute; reflexivity|].
  rewrite (bufio_delivers_file 3 (m_unread 3) _ reading_world _ 8).
  - vm_compute. reflexivity.
  - intros n w. cbn. unfold m_read, m_unread. destruct (descs w !! 3) as [[path pos]|] eqn:E; cbn.
    + rewrite lookup_insert_eq. by rewrite drop_drop.
    + rewrite E. by destruct n.
  - reflexivity.
  - vm_compute. reflexivity.
Defined.

Lemma sample_parses :
  config_run (parse_init clear_block) [] (print_config sample_cfgs) = inr (cfg_logger <$> sample_cfgs).
Proof. vm_compute. reflexivity. Defined.



(** ** A running server: the first logger is open for process 77 *)

Definition lg_foo : ls_logger_t := cfg_logger (Cfg $"Foo_1" LS_DESTINATION_FILE LS_SEV_INFO $"%l %n: %m" $"/var/log/foo" true).
Definition lg_bar : ls_logger_t := cfg_logger (Cfg $"bar" LS_DESTINATION_STDERR LS_SEV_WARN $"%m" [] false).

Definition run_nodes : list (Z * entry) :=
  [(100, (lg_foo, LState true LS_SEV_INFO 77 5 (zeros LS_MAX_MESSAGE_LEN))); (200, (lg_bar, lstate_zero))].

Definition run_world : mworld :=
  MWorld {[ $"/var/log/foo" := [] ]} {[ 5 := ($"/var/log/foo", 0%nat) ]} 6 {[ 100; 200 ]} 4096 []
    {[ (77, 1000) := $"hello" ]} [MProc 77 ($"init" ++ [0])] None.

Definition run_state : ls_state mworld :=
  LsState {[ 100 := Node lg_foo (LState true LS_SEV_INFO 77 5 (zeros LS_MAX_MESSAGE_LEN)) 200;
             200 := Node lg_bar lstate_zero 0 ]}
    100 true [MProc 77 ($"init" ++ [0])] (zeros LOGBUF_LEN) run_world.

Definition run_spec : spec_state mworld :=
  Spec (abs_tbl run_nodes) (lname <$> loggers run_nodes) [MProc 77 ($"init" ++ [0])] run_world.

Lemma run_implements : implements run_state run_spec.
Proof.
  exists run_nodes. split; try reflexivity. split.
  - cbn -[lg_foo lg_bar lstate_zero]. repeat (split; [lia || reflexivity|]). eexists. split; [reflexivity|].
    repeat (split; [lia || reflexivity|]). eexists. split; reflexivity.
  - intros q Hq. cbn in *. destruct (decide (q = 100)) as [->|]; [set_solver|].
    rewrite lookup_insert_ne in Hq by done. destruct (decide (q = 200)) as [->|]; [set_solver|].
    rewrite lookup_singleton_ne in Hq by done. by destruct Hq.
  - apply (config_run_ok (parse_init clear_block) [] (print_config sample_cfgs)).
    + apply parse_init_wf; reflexivity.
    + apply config_ok_nil.
    + exact sample_parses.
  - repeat constructor; done.
  - reflexivity.
Defined.

Definition ask (source type : Z) (lg : list Z) (sev len addr : Z) : message :=
  Msg source type (pad LS_IPC_LOGGER_MAX_NAME_LEN lg) sev len addr.


Lemma invalid_request_rejected_witness :
  main_step sample_fuel clear_block (-201) OK (ask 88 LS_WRITE_LOG $"bar" 9 4 0) 0 run_state =
  Some (Some (88, with_type EINVAL (ask 88 LS_WRITE_LOG $"bar" 9 4 0)), run_state).
Proof.
  apply (invalid_request_rejected sample_fuel clear_block (-201) (ask 88 LS_WRITE_LOG $"bar" 9 4 0)).
  - discriminate.
  - right; right; right; left. split; [reflexivity|left; reflexivity].
Defined.

Lemma open_logger_is_exclusive_witness :
  exists s', implements s' run_spec /\
    dispatch sample_fuel clear_block (ask 88 LS_CLOSE_LOG $"Foo_1" 0 0 0) run_state =
    Some (LS_ERR_PERMISSION_DENIED, s').
Proof.
  apply (open_logger_is_exclusive sample_fuel clear_block (ask 88 LS_CLOSE_LOG $"Foo_1" 0 0 0)
    run_state run_spec lg_foo 77 5).
  - exact run_implements.
  - unfold message_ok. cbn. lia.
  - right; left. reflexivity.
  - vm_compute. reflexivity.
  - discriminate.
Defined.


Lemma low_severity_dropped_witness :
  exists s', dispatch sample_fuel clear_block (ask 77 LS_WRITE_LOG $"Foo_1" 1 5 1000) run_state = Some (OK, s') /\
    implements s' (with_world run_world run_spec).
Proof.
  apply (low_severity_dropped sample_fuel clear_block (ask 77 LS_WRITE_LOG $"Foo_1" 1 5 1000) LS_SEV_DEBUG
    run_state run_spec lg_foo 5 $"hello").
  - exact run_implements.
  - split; [reflexivity|]. split; [reflexivity|]. vm_compute. split; discriminate.
  - vm_compute. reflexivity.
  - vm_compute. reflexivity.
  - cbn. lia.
Defined.

Lemma set_severity_is_lost_witness :
  exists s', dispatch sample_fuel clear_block (ask 88 LS_SET_SEVERITY $"bar" 0 0 0) run_state = Some (OK, s') /\
    implements s' run_spec.
Proof.
  apply (set_severity_is_lost sample_fuel clear_block (ask 88 LS_SET_SEVERITY $"bar" 0 0 0)
    run_state run_spec lg_bar LS_SEV_TRACE).
  - exact run_implements.
  - reflexivity.
  - unfold message_ok. cbn. lia.
  - reflexivity.
  - vm_compute. reflexivity.
Defined.

Lemma clear_all_clears_closed_logs_witness :
  exists s', dispatch sample_fuel clear_block (ask 88 LS_CLEAR_ALL [] 0 0 0) run_state =
    Some (LS_ERR_LOGGER_OPEN, s').
Proof.
  destruct (clear_all_clears_closed_logs sample_fuel clear_block (ask 88 LS_CLEAR_ALL [] 0 0 0)
    run_state run_spec) as (ret & s' & E & _ & _ & Hopen).
  - exact run_implements.
  - unfold message_ok. cbn. lia.
  - reflexivity.
  - exists s'. rewrite E. do 2 f_equal. apply Hopen.
    exists $"Foo_1", lg_foo, (77, 5). split; [left|vm_compute; reflexivity].
Defined.



Lemma start_log_end_to_end_witness :
  exists s', minix_ls_start_log (call_server sample_fuel clear_block (-201) 88) $"bar" run_state = Some (OK, s').
Proof.
  destruct (start_log_end_to_end sample_fuel clear_block (-201) 88 $"bar" run_state run_spec) as (s' & E & _).
  - exact run_implements.
  - reflexivity.
  - vm_compute. discriminate.
  - exists s'. rewrite E. vm_compute. reflexivity.
Defined.

Lemma write_log_end_to_end_witness :
  exists s', minix_ls_write_log (call_server sample_fuel clear_block (-201) 77) $"Foo_1" 1000 $"hello" 2 run_state
    = Some (OK, s').
Proof.
  destruct (write_log_end_to_end sample_fuel clear_block (-201) 77 $"Foo_1" 1000 $"hello" 2 LS_SEV_INFO
    run_state run_spec) as (s' & E & _).
  - exact run_implements.
  - reflexivity.
  - apply Nat.leb_le. vm_compute. reflexivity.
  - reflexivity.
  - vm_compute. discriminate.
  - exists s'. rewrite E. vm_compute. reflexivity.
Defined.

(** A text of 65541 characters. *)
Definition long_text : list Z := replicate (Z.to_nat (2 ^ 16) + 5) (sc "a").

(** A server that answers every message with itself. *)
Definition echo (dst : Z) (m : message) : ST unit (Z * message) := fun s => Some ((0, m), s).

Lemma write_log_fields_wrap_witness :
  minix_ls_write_log echo $"bar" 1000 long_text (1 + 2 ^ 16) =
  minix_ls_write_log echo $"bar" 1000 (take 5 (cstr long_text)) 1.
Proof.
  apply (write_log_fields_wrap echo $"bar" long_text 1000 1 5); [|lia].
  unfold strlen. rewrite cstr_id; [apply length_replicate|]. by apply Forall_replicate.
Defined.

(** A system whose allocator hands out blocks with the word 8 in the place of
    the tail. *)
Definition dirty_os : LsOs mworld := m_os 2000 8.

(** Without clear blocks the server can crash: loading a valid
    configuration of two loggers follows the tail of the first node, which
    nothing ever set, to an address that is no node. *)
Theorem unset_tail_is_followed :
  parse_config_file (H := dirty_os) sample_fuel clear_block CONFIG_FILE (ls_boot boot_world) = None /\
  is_Some (parse_config_file (H := sample_os) sample_fuel clear_block CONFIG_FILE (ls_boot boot_world)).
Proof. split; vm_compute; [reflexivity|by eexists]. Qed.

(** A session on a concrete system: process 77 opens a logger, writes a
    line, is refused nothing, and closes it; process 88 is refused a write in
    between, and the log file ends up with exactly the one line. *)
Theorem session_writes_one_line :
  match serve (H := sample_os) sample_fuel clear_block (-201)
    [(OK, ask 77 LS_START_LOG $"Foo_1" 0 0 0, 0); (OK, ask 77 LS_WRITE_LOG $"Foo_1" 3 5 1000, 0);
     (OK, ask 88 LS_WRITE_LOG $"Foo_1" 3 5 1000, 0); (OK, ask 77 LS_CLOSE_LOG $"Foo_1" 0 0 0, 0)]
    (ls_boot boot_world) with
  | Some (replies, s') =>
      map (option_map (fun r => (r.1, m_type r.2))) replies =
        [Some (77, OK); Some (77, OK); Some (88, LS_ERR_PERMISSION_DENIED); Some (77, OK)] /\
      files (world s') !! $"/var/log/foo" = Some ($"warn init: hello" ++ [NL])
  | None => False
  end.
Proof. vm_compute. split; reflexivity. Qed.
