(* ===== verification/KState.v ===== *)
(** The state of the kernel: the process and privilege tables, messages, the
    variables of the single CPU, the clock, and the accessors the other kernel
    files are written with (kernel/proc.h, priv.h, type.h, const.h,
    cpulocals.h, minix/endpoint.h). *)

From S2P Require Import Prelude Chain Timers.
Local Open Scope Z_scope.

(** ** Constants *)

Definition NR_TASKS : Z := 5.
Definition MAX_NR_TASKS : Z := 1023.
Definition NR_PROCS : Z := 256.
Definition NR_SYS_PROCS : Z := 64.
Definition NR_SCHED_QUEUES : Z := 16.
Definition TASK_Q : Z := 0.

(** Kernel tasks. *)
Definition ASYNCM : Z := -5.
Definition IDLE : Z := -4.
Definition CLOCK : Z := -3.
Definition SYSTEM : Z := -2.
Definition KERNEL : Z := -1.
Definition HARDWARE : Z := KERNEL.

(** Bits of [p_rts_flags]; a process is runnable iff none is set. *)
Definition RTS_SLOT_FREE : Z := 0x01.
Definition RTS_PROC_STOP : Z := 0x02.
Definition RTS_SENDING : Z := 0x04.
Definition RTS_RECEIVING : Z := 0x08.
Definition RTS_SIGNALED : Z := 0x10.
Definition RTS_SIG_PENDING : Z := 0x20.
Definition RTS_P_STOP : Z := 0x40.
Definition RTS_NO_PRIV : Z := 0x80.
Definition RTS_NO_ENDPOINT : Z := 0x100.
Definition RTS_VMINHIBIT : Z := 0x200.
Definition RTS_PAGEFAULT : Z := 0x400.
Definition RTS_VMREQUEST : Z := 0x800.
Definition RTS_VMREQTARGET : Z := 0x1000.
Definition RTS_PREEMPTED : Z := 0x4000.
Definition RTS_NO_QUANTUM : Z := 0x8000.
Definition RTS_BOOTINHIBIT : Z := 0x10000.

(** Bits of [p_misc_flags]. *)
Definition MF_REPLY_PEND : Z := 0x001.
Definition MF_VIRT_TIMER : Z := 0x002.
Definition MF_PROF_TIMER : Z := 0x004.
Definition MF_KCALL_RESUME : Z := 0x008.
Definition MF_DELIVERMSG : Z := 0x040.
Definition MF_SIG_DELAY : Z := 0x080.
Definition MF_SC_ACTIVE : Z := 0x100.
Definition MF_SC_DEFER : Z := 0x200.
Definition MF_SC_TRACE : Z := 0x400.
Definition MF_FPU_INITIALIZED : Z := 0x1000.
Definition MF_SENDING_FROM_KERNEL : Z := 0x2000.
Definition MF_CONTEXT_SET : Z := 0x4000.

(** Bits of [s_flags]. *)
Definition PREEMPTIBLE : Z := 0x002.
Definition BILLABLE : Z := 0x004.
Definition DYN_PRIV_ID : Z := 0x008.
Definition SYS_PROC : Z := 0x010.
Definition ROOT_SYS_PROC : Z := 0x100.
Definition VM_SYS_PROC : Z := 0x200.

(** Trap numbers and flags of the IPC calls. *)
Definition SEND : Z := 1.
Definition RECEIVE : Z := 2.
Definition SENDREC : Z := 3.
Definition NOTIFY : Z := 4.
Definition SENDNB : Z := 5.
Definition MINIX_KERNINFO : Z := 6.
Definition SENDA : Z := 16.
Definition IPCNO_HIGHEST : Z := SENDA.
Definition NON_BLOCKING : Z := 0x80.
Definition FROM_KERNEL : Z := 0x100.
Definition IPC_FLG_MSG_FROM_KERNEL : Z := 1.
Definition NOTIFY_MESSAGE : Z := 0x1000.
Definition NULL_PRIV_ID : Z := -1.

(** What kernel functions return: [OK], the name of an error, or another
    number. *)
Module KErr.
Inductive kres :=
| OK | EPERM | ENOENT | ESRCH | ENOMEM | ENOSPC | EAGAIN | EFAULT | EBUSY | EINVAL | EDOM | ENOTREADY | ELOCKED
| EDEADSRCDST | ECALLDENIED | ETRAPDENIED | EBADCALL | EBADREQUEST | EDONTREPLY
| EEXIST | EBADEPT | EDEADEPT | ENOSYS | EBADCPU | ELOOP
| RetVal (v : Z).
End KErr.
Export KErr.

#[global] Instance kres_eq_dec : EqDecision kres.
Proof. solve_decision. Defined.

Definition is_OK (r : kres) : bool := match r with OK => true | _ => false end.

(** ** Endpoint numbers: minix/endpoint.h *)

Definition _ENDPOINT_GENERATION_SHIFT : Z := 15.
Definition _ENDPOINT_GENERATION_SIZE : Z := Z.shiftl 1 _ENDPOINT_GENERATION_SHIFT.
Definition _ENDPOINT_MAX_GENERATION : Z := (2 ^ 31 - 1) / _ENDPOINT_GENERATION_SIZE - 1.
Definition _ENDPOINT_SLOT_TOP : Z := _ENDPOINT_GENERATION_SIZE - MAX_NR_TASKS.
Definition ANY : Z := _ENDPOINT_SLOT_TOP - 1.
Definition NONE : Z := _ENDPOINT_SLOT_TOP - 2.
Definition SELF : Z := _ENDPOINT_SLOT_TOP - 3.
Definition MAX_NR_PROCS : Z := _ENDPOINT_SLOT_TOP - 3.

Definition _ENDPOINT (g p : Z) : Z := Z.shiftl g _ENDPOINT_GENERATION_SHIFT + p.
Definition _ENDPOINT_G (e : Z) : Z := Z.shiftr (e + MAX_NR_TASKS) _ENDPOINT_GENERATION_SHIFT.
Definition _ENDPOINT_P (e : Z) : Z :=
  Z.land (e + MAX_NR_TASKS) (_ENDPOINT_GENERATION_SIZE - 1) - MAX_NR_TASKS.

(** ** Bit maps over privilege ids: [sys_map_t] and its macros *)

Definition BITCHUNK_BITS : Z := 32.

(** [chunk[BITMAP_CHUNKS(NR_SYS_PROCS)]], two 32-bit words. *)
Definition sys_map_t : Type := Z * Z.

Definition map_chunk (m : sys_map_t) (bit : Z) : Z :=
  if bit / BITCHUNK_BITS =? 0 then m.1 else m.2.
Definition with_chunk (m : sys_map_t) (bit v : Z) : sys_map_t :=
  if bit / BITCHUNK_BITS =? 0 then (v, m.2) else (m.1, v).

Definition get_sys_bit (m : sys_map_t) (bit : Z) : bool :=
  negb (Z.land (map_chunk m bit) (Z.shiftl 1 (bit mod BITCHUNK_BITS)) =? 0).
Definition get_sys_bits (m : sys_map_t) (bit : Z) : Z := map_chunk m bit.
Definition set_sys_bit (m : sys_map_t) (bit : Z) : sys_map_t :=
  with_chunk m bit (Z.lor (map_chunk m bit) (Z.shiftl 1 (bit mod BITCHUNK_BITS))).
Definition unset_sys_bit (m : sys_map_t) (bit : Z) : sys_map_t :=
  with_chunk m bit (Z.ldiff (map_chunk m bit) (Z.shiftl 1 (bit mod BITCHUNK_BITS))).

(** ** Messages *)

(** The payload of a message: bytes of a user process, or one of the layouts
    the kernel fills in itself. *)
Inductive body :=
| Payload (bytes : list Z)
| m_notify (timestamp interrupts : Z) (sigset : gset Z)
| m_krn_lsys_schedule
    (acnt_queue acnt_deqs acnt_ipc_sync acnt_ipc_async acnt_preempt acnt_cpu acnt_cpu_load : Z).

Record message := Message { m_source : Z; m_type : Z; m_body : body }.

Definition with_source (e : Z) (m : message) : message := Message e (m_type m) (m_body m).

(** An entry of the table of a process that sends asynchronously. *)
Record asynmsg := Asynmsg { a_flags : Z; a_dst : Z; a_result : kres; a_msg : message }.

Definition AMF_VALID : Z := 1.
Definition AMF_DONE : Z := 2.
Definition AMF_NOTIFY : Z := 4.
Definition AMF_NOREPLY : Z := 8.
Definition AMF_NOTIFY_ERR : Z := 16.

(** [sizeof(asynmsg_t)]: three words and a message of 64 bytes, which is
    aligned to 16 bytes. *)
Definition sizeof_asynmsg : Z := 80.

(** ** The process table *)

(** Accounting statistics that get passed to the process' scheduler. *)
Record accounting := Accounting {
  enter_queue : Z;
  time_in_queue : Z;
  dequeues : Z;
  ipc_sync : Z;
  ipc_async : Z;
  preempted : Z;
}.

Definition with_enter_queue (x : Z) (a : accounting) : accounting := Accounting x (time_in_queue
  a) (dequeues a) (ipc_sync a) (ipc_async a) (preempted a).
Definition with_time_in_queue (x : Z) (a : accounting) : accounting := Accounting (enter_queue
  a) x (dequeues a) (ipc_sync a) (ipc_async a) (preempted a).
Definition with_dequeues (x : Z) (a : accounting) : accounting := Accounting (enter_queue a)
  (time_in_queue a) x (ipc_sync a) (ipc_async a) (preempted a).
Definition with_ipc_sync (x : Z) (a : accounting) : accounting := Accounting (enter_queue a)
  (time_in_queue a) (dequeues a) x (ipc_async a) (preempted a).
Definition with_ipc_async (x : Z) (a : accounting) : accounting := Accounting (enter_queue a)
  (time_in_queue a) (dequeues a) (ipc_sync a) x (preempted a).
Definition with_preempted (x : Z) (a : accounting) : accounting := Accounting (enter_queue a)
  (time_in_queue a) (dequeues a) (ipc_sync a) (ipc_async a) x.

(** A slot of the process table.  Pointers to slots are the values of
    [proc_addr]; the two registers of [p_reg] the kernel writes are [p_status]
    (the IPC status) and [p_retreg]; bit maps of signals are sets of signal
    numbers.  Registers, memory map, name and the state of a request to VM are
    left out. *)
Record proc := Proc {
  p_nr : Z;
  p_priv : Z;
  p_rts_flags : Z;
  p_misc_flags : Z;
  p_priority : Z;
  p_cpu_time_left : Z;
  p_quantum_size_ms : Z;
  p_scheduler : Z;
  p_cpu : Z;
  p_accounting : accounting;
  p_user_time : Z;
  p_sys_time : Z;
  p_virt_left : Z;
  p_prof_left : Z;
  p_cycles : Z;
  p_nextready : Z;
  p_caller_q : Z;
  p_q_link : Z;
  p_getfrom_e : Z;
  p_sendto_e : Z;
  p_pending : gset Z;
  p_endpoint : Z;
  p_sendmsg : message;
  p_delivermsg : message;
  p_delivermsg_vir : Z;
  p_defer : Z * Z * Z;
  p_signal_received : Z;
  p_status : Z;
  p_retreg : kres;
}.

Definition with_p_nr (x : Z) (p : proc) : proc := Proc x (p_priv p) (p_rts_flags p)
  (p_misc_flags p) (p_priority p) (p_cpu_time_left p) (p_quantum_size_ms p) (p_scheduler p) (p_cpu
  p) (p_accounting p) (p_user_time p) (p_sys_time p) (p_virt_left p) (p_prof_left p) (p_cycles p)
  (p_nextready p) (p_caller_q p) (p_q_link p) (p_getfrom_e p) (p_sendto_e p) (p_pending p)
  (p_endpoint p) (p_sendmsg p) (p_delivermsg p) (p_delivermsg_vir p) (p_defer p)
  (p_signal_received p) (p_status p) (p_retreg p).
Definition with_p_priv (x : Z) (p : proc) : proc := Proc (p_nr p) x (p_rts_flags p)
  (p_misc_flags p) (p_priority p) (p_cpu_time_left p) (p_quantum_size_ms p) (p_scheduler p) (p_cpu
  p) (p_accounting p) (p_user_time p) (p_sys_time p) (p_virt_left p) (p_prof_left p) (p_cycles p)
  (p_nextready p) (p_caller_q p) (p_q_link p) (p_getfrom_e p) (p_sendto_e p) (p_pending p)
  (p_endpoint p) (p_sendmsg p) (p_delivermsg p) (p_delivermsg_vir p) (p_defer p)
  (p_signal_received p) (p_status p) (p_retreg p).
Definition with_p_rts_flags (x : Z) (p : proc) : proc := Proc (p_nr p) (p_priv p) x
  (p_misc_flags p) (p_priority p) (p_cpu_time_left p) (p_quantum_size_ms p) (p_scheduler p) (p_cpu
  p) (p_accounting p) (p_user_time p) (p_sys_time p) (p_virt_left p) (p_prof_left p) (p_cycles p)
  (p_nextready p) (p_caller_q p) (p_q_link p) (p_getfrom_e p) (p_sendto_e p) (p_pending p)
  (p_endpoint p) (p_sendmsg p) (p_delivermsg p) (p_delivermsg_vir p) (p_defer p)
  (p_signal_received p) (p_status p) (p_retreg p).
Definition with_p_misc_flags (x : Z) (p : proc) : proc := Proc (p_nr p) (p_priv p) (p_rts_flags
  p) x (p_priority p) (p_cpu_time_left p) (p_quantum_size_ms p) (p_scheduler p) (p_cpu p)
  (p_accounting p) (p_user_time p) (p_sys_time p) (p_virt_left p) (p_prof_left p) (p_cycles p)
  (p_nextready p) (p_caller_q p) (p_q_link p) (p_getfrom_e p) (p_sendto_e p) (p_pending p)
  (p_endpoint p) (p_sendmsg p) (p_delivermsg p) (p_delivermsg_vir p) (p_defer p)
  (p_signal_received p) (p_status p) (p_retreg p).
Definition with_p_priority (x : Z) (p : proc) : proc := Proc (p_nr p) (p_priv p) (p_rts_flags p)
  (p_misc_flags p) x (p_cpu_time_left p) (p_quantum_size_ms p) (p_scheduler p) (p_cpu p)
  (p_accounting p) (p_user_time p) (p_sys_time p) (p_virt_left p) (p_prof_left p) (p_cycles p)
  (p_nextready p) (p_caller_q p) (p_q_link p) (p_getfrom_e p) (p_sendto_e p) (p_pending p)
  (p_endpoint p) (p_sendmsg p) (p_delivermsg p) (p_delivermsg_vir p) (p_defer p)
  (p_signal_received p) (p_status p) (p_retreg p).
Definition with_p_cpu_time_left (x : Z) (p : proc) : proc := Proc (p_nr p) (p_priv p)
  (p_rts_flags p) (p_misc_flags p) (p_priority p) x (p_quantum_size_ms p) (p_scheduler p) (p_cpu
  p) (p_accounting p) (p_user_time p) (p_sys_time p) (p_virt_left p) (p_prof_left p) (p_cycles p)
  (p_nextready p) (p_caller_q p) (p_q_link p) (p_getfrom_e p) (p_sendto_e p) (p_pending p)
  (p_endpoint p) (p_sendmsg p) (p_delivermsg p) (p_delivermsg_vir p) (p_defer p)
  (p_signal_received p) (p_status p) (p_retreg p).
Definition with_p_quantum_size_ms (x : Z) (p : proc) : proc := Proc (p_nr p) (p_priv p)
  (p_rts_flags p) (p_misc_flags p) (p_priority p) (p_cpu_time_left p) x (p_scheduler p) (p_cpu p)
  (p_accounting p) (p_user_time p) (p_sys_time p) (p_virt_left p) (p_prof_left p) (p_cycles p)
  (p_nextready p) (p_caller_q p) (p_q_link p) (p_getfrom_e p) (p_sendto_e p) (p_pending p)
  (p_endpoint p) (p_sendmsg p) (p_delivermsg p) (p_delivermsg_vir p) (p_defer p)
  (p_signal_received p) (p_status p) (p_retreg p).
Definition with_p_scheduler (x : Z) (p : proc) : proc := Proc (p_nr p) (p_priv p) (p_rts_flags
  p) (p_misc_flags p) (p_priority p) (p_cpu_time_left p) (p_quantum_size_ms p) x (p_cpu p)
  (p_accounting p) (p_user_time p) (p_sys_time p) (p_virt_left p) (p_prof_left p) (p_cycles p)
  (p_nextready p) (p_caller_q p) (p_q_link p) (p_getfrom_e p) (p_sendto_e p) (p_pending p)
  (p_endpoint p) (p_sendmsg p) (p_delivermsg p) (p_delivermsg_vir p) (p_defer p)
  (p_signal_received p) (p_status p) (p_retreg p).
Definition with_p_cpu (x : Z) (p : proc) : proc := Proc (p_nr p) (p_priv p) (p_rts_flags p)
  (p_misc_flags p) (p_priority p) (p_cpu_time_left p) (p_quantum_size_ms p) (p_scheduler p) x
  (p_accounting p) (p_user_time p) (p_sys_time p) (p_virt_left p) (p_prof_left p) (p_cycles p)
  (p_nextready p) (p_caller_q p) (p_q_link p) (p_getfrom_e p) (p_sendto_e p) (p_pending p)
  (p_endpoint p) (p_sendmsg p) (p_delivermsg p) (p_delivermsg_vir p) (p_defer p)
  (p_signal_received p) (p_status p) (p_retreg p).
Definition with_p_accounting (x : accounting) (p : proc) : proc := Proc (p_nr p) (p_priv p)
  (p_rts_flags p) (p_misc_flags p) (p_priority p) (p_cpu_time_left p) (p_quantum_size_ms p)
  (p_scheduler p) (p_cpu p) x (p_user_time p) (p_sys_time p) (p_virt_left p) (p_prof_left p)
  (p_cycles p) (p_nextready p) (p_caller_q p) (p_q_link p) (p_getfrom_e p) (p_sendto_e p)
  (p_pending p) (p_endpoint p) (p_sendmsg p) (p_delivermsg p) (p_delivermsg_vir p) (p_defer p)
  (p_signal_received p) (p_status p) (p_retreg p).
Definition with_p_user_time (x : Z) (p : proc) : proc := Proc (p_nr p) (p_priv p) (p_rts_flags
  p) (p_misc_flags p) (p_priority p) (p_cpu_time_left p) (p_quantum_size_ms p) (p_scheduler p)
  (p_cpu p) (p_accounting p) x (p_sys_time p) (p_virt_left p) (p_prof_left p) (p_cycles p)
  (p_nextready p) (p_caller_q p) (p_q_link p) (p_getfrom_e p) (p_sendto_e p) (p_pending p)
  (p_endpoint p) (p_sendmsg p) (p_delivermsg p) (p_delivermsg_vir p) (p_defer p)
  (p_signal_received p) (p_status p) (p_retreg p).
Definition with_p_sys_time (x : Z) (p : proc) : proc := Proc (p_nr p) (p_priv p) (p_rts_flags p)
  (p_misc_flags p) (p_priority p) (p_cpu_time_left p) (p_quantum_size_ms p) (p_scheduler p) (p_cpu
  p) (p_accounting p) (p_user_time p) x (p_virt_left p) (p_prof_left p) (p_cycles p) (p_nextready
  p) (p_caller_q p) (p_q_link p) (p_getfrom_e p) (p_sendto_e p) (p_pending p) (p_endpoint p)
  (p_sendmsg p) (p_delivermsg p) (p_delivermsg_vir p) (p_defer p) (p_signal_received p) (p_status
  p) (p_retreg p).
Definition with_p_virt_left (x : Z) (p : proc) : proc := Proc (p_nr p) (p_priv p) (p_rts_flags
  p) (p_misc_flags p) (p_priority p) (p_cpu_time_left p) (p_quantum_size_ms p) (p_scheduler p)
  (p_cpu p) (p_accounting p) (p_user_time p) (p_sys_time p) x (p_prof_left p) (p_cycles p)
  (p_nextready p) (p_caller_q p) (p_q_link p) (p_getfrom_e p) (p_sendto_e p) (p_pending p)
  (p_endpoint p) (p_sendmsg p) (p_delivermsg p) (p_delivermsg_vir p) (p_defer p)
  (p_signal_received p) (p_status p) (p_retreg p).
Definition with_p_prof_left (x : Z) (p : proc) : proc := Proc (p_nr p) (p_priv p) (p_rts_flags
  p) (p_misc_flags p) (p_priority p) (p_cpu_time_left p) (p_quantum_size_ms p) (p_scheduler p)
  (p_cpu p) (p_accounting p) (p_user_time p) (p_sys_time p) (p_virt_left p) x (p_cycles p)
  (p_nextready p) (p_caller_q p) (p_q_link p) (p_getfrom_e p) (p_sendto_e p) (p_pending p)
  (p_endpoint p) (p_sendmsg p) (p_delivermsg p) (p_delivermsg_vir p) (p_defer p)
  (p_signal_received p) (p_status p) (p_retreg p).
Definition with_p_cycles (x : Z) (p : proc) : proc := Proc (p_nr p) (p_priv p) (p_rts_flags p)
  (p_misc_flags p) (p_priority p) (p_cpu_time_left p) (p_quantum_size_ms p) (p_scheduler p) (p_cpu
  p) (p_accounting p) (p_user_time p) (p_sys_time p) (p_virt_left p) (p_prof_left p) x
  (p_nextready p) (p_caller_q p) (p_q_link p) (p_getfrom_e p) (p_sendto_e p) (p_pending p)
  (p_endpoint p) (p_sendmsg p) (p_delivermsg p) (p_delivermsg_vir p) (p_defer p)
  (p_signal_received p) (p_status p) (p_retreg p).
Definition with_p_nextready (x : Z) (p : proc) : proc := Proc (p_nr p) (p_priv p) (p_rts_flags
  p) (p_misc_flags p) (p_priority p) (p_cpu_time_left p) (p_quantum_size_ms p) (p_scheduler p)
  (p_cpu p) (p_accounting p) (p_user_time p) (p_sys_time p) (p_virt_left p) (p_prof_left p)
  (p_cycles p) x (p_caller_q p) (p_q_link p) (p_getfrom_e p) (p_sendto_e p) (p_pending p)
  (p_endpoint p) (p_sendmsg p) (p_delivermsg p) (p_delivermsg_vir p) (p_defer p)
  (p_signal_received p) (p_status p) (p_retreg p).
Definition with_p_caller_q (x : Z) (p : proc) : proc := Proc (p_nr p) (p_priv p) (p_rts_flags p)
  (p_misc_flags p) (p_priority p) (p_cpu_time_left p) (p_quantum_size_ms p) (p_scheduler p) (p_cpu
  p) (p_accounting p) (p_user_time p) (p_sys_time p) (p_virt_left p) (p_prof_left p) (p_cycles p)
  (p_nextready p) x (p_q_link p) (p_getfrom_e p) (p_sendto_e p) (p_pending p) (p_endpoint p)
  (p_sendmsg p) (p_delivermsg p) (p_delivermsg_vir p) (p_defer p) (p_signal_received p) (p_status
  p) (p_retreg p).
Definition with_p_q_link (x : Z) (p : proc) : proc := Proc (p_nr p) (p_priv p) (p_rts_flags p)
  (p_misc_flags p) (p_priority p) (p_cpu_time_left p) (p_quantum_size_ms p) (p_scheduler p) (p_cpu
  p) (p_accounting p) (p_user_time p) (p_sys_time p) (p_virt_left p) (p_prof_left p) (p_cycles p)
  (p_nextready p) (p_caller_q p) x (p_getfrom_e p) (p_sendto_e p) (p_pending p) (p_endpoint p)
  (p_sendmsg p) (p_delivermsg p) (p_delivermsg_vir p) (p_defer p) (p_signal_received p) (p_status
  p) (p_retreg p).
Definition with_p_getfrom_e (x : Z) (p : proc) : proc := Proc (p_nr p) (p_priv p) (p_rts_flags
  p) (p_misc_flags p) (p_priority p) (p_cpu_time_left p) (p_quantum_size_ms p) (p_scheduler p)
  (p_cpu p) (p_accounting p) (p_user_time p) (p_sys_time p) (p_virt_left p) (p_prof_left p)
  (p_cycles p) (p_nextready p) (p_caller_q p) (p_q_link p) x (p_sendto_e p) (p_pending p)
  (p_endpoint p) (p_sendmsg p) (p_delivermsg p) (p_delivermsg_vir p) (p_defer p)
  (p_signal_received p) (p_status p) (p_retreg p).
Definition with_p_sendto_e (x : Z) (p : proc) : proc := Proc (p_nr p) (p_priv p) (p_rts_flags p)
  (p_misc_flags p) (p_priority p) (p_cpu_time_left p) (p_quantum_size_ms p) (p_scheduler p) (p_cpu
  p) (p_accounting p) (p_user_time p) (p_sys_time p) (p_virt_left p) (p_prof_left p) (p_cycles p)
  (p_nextready p) (p_caller_q p) (p_q_link p) (p_getfrom_e p) x (p_pending p) (p_endpoint p)
  (p_sendmsg p) (p_delivermsg p) (p_delivermsg_vir p) (p_defer p) (p_signal_received p) (p_status
  p) (p_retreg p).
Definition with_p_pending (x : gset Z) (p : proc) : proc := Proc (p_nr p) (p_priv p)
  (p_rts_flags p) (p_misc_flags p) (p_priority p) (p_cpu_time_left p) (p_quantum_size_ms p)
  (p_scheduler p) (p_cpu p) (p_accounting p) (p_user_time p) (p_sys_time p) (p_virt_left p)
  (p_prof_left p) (p_cycles p) (p_nextready p) (p_caller_q p) (p_q_link p) (p_getfrom_e p)
  (p_sendto_e p) x (p_endpoint p) (p_sendmsg p) (p_delivermsg p) (p_delivermsg_vir p) (p_defer p)
  (p_signal_received p) (p_status p) (p_retreg p).
Definition with_p_endpoint (x : Z) (p : proc) : proc := Proc (p_nr p) (p_priv p) (p_rts_flags p)
  (p_misc_flags p) (p_priority p) (p_cpu_time_left p) (p_quantum_size_ms p) (p_scheduler p) (p_cpu
  p) (p_accounting p) (p_user_time p) (p_sys_time p) (p_virt_left p) (p_prof_left p) (p_cycles p)
  (p_nextready p) (p_caller_q p) (p_q_link p) (p_getfrom_e p) (p_sendto_e p) (p_pending p) x
  (p_sendmsg p) (p_delivermsg p) (p_delivermsg_vir p) (p_defer p) (p_signal_received p) (p_status
  p) (p_retreg p).
Definition with_p_sendmsg (x : message) (p : proc) : proc := Proc (p_nr p) (p_priv p)
  (p_rts_flags p) (p_misc_flags p) (p_priority p) (p_cpu_time_left p) (p_quantum_size_ms p)
  (p_scheduler p) (p_cpu p) (p_accounting p) (p_user_time p) (p_sys_time p) (p_virt_left p)
  (p_prof_left p) (p_cycles p) (p_nextready p) (p_caller_q p) (p_q_link p) (p_getfrom_e p)
  (p_sendto_e p) (p_pending p) (p_endpoint p) x (p_delivermsg p) (p_delivermsg_vir p) (p_defer p)
  (p_signal_received p) (p_status p) (p_retreg p).
Definition with_p_delivermsg (x : message) (p : proc) : proc := Proc (p_nr p) (p_priv p)
  (p_rts_flags p) (p_misc_flags p) (p_priority p) (p_cpu_time_left p) (p_quantum_size_ms p)
  (p_scheduler p) (p_cpu p) (p_accounting p) (p_user_time p) (p_sys_time p) (p_virt_left p)
  (p_prof_left p) (p_cycles p) (p_nextready p) (p_caller_q p) (p_q_link p) (p_getfrom_e p)
  (p_sendto_e p) (p_pending p) (p_endpoint p) (p_sendmsg p) x (p_delivermsg_vir p) (p_defer p)
  (p_signal_received p) (p_status p) (p_retreg p).
Definition with_p_delivermsg_vir (x : Z) (p : proc) : proc := Proc (p_nr p) (p_priv p)
  (p_rts_flags p) (p_misc_flags p) (p_priority p) (p_cpu_time_left p) (p_quantum_size_ms p)
  (p_scheduler p) (p_cpu p) (p_accounting p) (p_user_time p) (p_sys_time p) (p_virt_left p)
  (p_prof_left p) (p_cycles p) (p_nextready p) (p_caller_q p) (p_q_link p) (p_getfrom_e p)
  (p_sendto_e p) (p_pending p) (p_endpoint p) (p_sendmsg p) (p_delivermsg p) x (p_defer p)
  (p_signal_received p) (p_status p) (p_retreg p).
Definition with_p_defer (x : Z * Z * Z) (p : proc) : proc := Proc (p_nr p) (p_priv p)
  (p_rts_flags p) (p_misc_flags p) (p_priority p) (p_cpu_time_left p) (p_quantum_size_ms p)
  (p_scheduler p) (p_cpu p) (p_accounting p) (p_user_time p) (p_sys_time p) (p_virt_left p)
  (p_prof_left p) (p_cycles p) (p_nextready p) (p_caller_q p) (p_q_link p) (p_getfrom_e p)
  (p_sendto_e p) (p_pending p) (p_endpoint p) (p_sendmsg p) (p_delivermsg p) (p_delivermsg_vir p)
  x (p_signal_received p) (p_status p) (p_retreg p).
Definition with_p_signal_received (x : Z) (p : proc) : proc := Proc (p_nr p) (p_priv p)
  (p_rts_flags p) (p_misc_flags p) (p_priority p) (p_cpu_time_left p) (p_quantum_size_ms p)
  (p_scheduler p) (p_cpu p) (p_accounting p) (p_user_time p) (p_sys_time p) (p_virt_left p)
  (p_prof_left p) (p_cycles p) (p_nextready p) (p_caller_q p) (p_q_link p) (p_getfrom_e p)
  (p_sendto_e p) (p_pending p) (p_endpoint p) (p_sendmsg p) (p_delivermsg p) (p_delivermsg_vir p)
  (p_defer p) x (p_status p) (p_retreg p).
Definition with_p_status (x : Z) (p : proc) : proc := Proc (p_nr p) (p_priv p) (p_rts_flags p)
  (p_misc_flags p) (p_priority p) (p_cpu_time_left p) (p_quantum_size_ms p) (p_scheduler p) (p_cpu
  p) (p_accounting p) (p_user_time p) (p_sys_time p) (p_virt_left p) (p_prof_left p) (p_cycles p)
  (p_nextready p) (p_caller_q p) (p_q_link p) (p_getfrom_e p) (p_sendto_e p) (p_pending p)
  (p_endpoint p) (p_sendmsg p) (p_delivermsg p) (p_delivermsg_vir p) (p_defer p)
  (p_signal_received p) x (p_retreg p).
Definition with_p_retreg (x : kres) (p : proc) : proc := Proc (p_nr p) (p_priv p) (p_rts_flags
  p) (p_misc_flags p) (p_priority p) (p_cpu_time_left p) (p_quantum_size_ms p) (p_scheduler p)
  (p_cpu p) (p_accounting p) (p_user_time p) (p_sys_time p) (p_virt_left p) (p_prof_left p)
  (p_cycles p) (p_nextready p) (p_caller_q p) (p_q_link p) (p_getfrom_e p) (p_sendto_e p)
  (p_pending p) (p_endpoint p) (p_sendmsg p) (p_delivermsg p) (p_delivermsg_vir p) (p_defer p)
  (p_signal_received p) (p_status p) x.

(** The kernel calls, I/O ports, memory, interrupt lines and grants a process
    may use. *)
Record resources := Resources {
  s_k_call_mask : list Z;
  s_nr_io_range : Z;
  s_io_tab : gmap Z (Z * Z);
  s_nr_mem_range : Z;
  s_mem_tab : gmap Z (Z * Z);
  s_nr_irq : Z;
  s_irq_tab : gmap Z Z;
  s_grant_table : Z;
  s_grant_entries : Z;
}.

Definition with_s_k_call_mask (x : list Z) (p : resources) : resources := Resources x
  (s_nr_io_range p) (s_io_tab p) (s_nr_mem_range p) (s_mem_tab p) (s_nr_irq p) (s_irq_tab p)
  (s_grant_table p) (s_grant_entries p).
Definition with_s_nr_io_range (x : Z) (p : resources) : resources := Resources (s_k_call_mask p) x
  (s_io_tab p) (s_nr_mem_range p) (s_mem_tab p) (s_nr_irq p) (s_irq_tab p) (s_grant_table p)
  (s_grant_entries p).
Definition with_s_io_tab (x : gmap Z (Z * Z)) (p : resources) : resources := Resources
  (s_k_call_mask p) (s_nr_io_range p) x (s_nr_mem_range p) (s_mem_tab p) (s_nr_irq p) (s_irq_tab
  p) (s_grant_table p) (s_grant_entries p).
Definition with_s_nr_mem_range (x : Z) (p : resources) : resources := Resources (s_k_call_mask p)
  (s_nr_io_range p) (s_io_tab p) x (s_mem_tab p) (s_nr_irq p) (s_irq_tab p) (s_grant_table p)
  (s_grant_entries p).
Definition with_s_mem_tab (x : gmap Z (Z * Z)) (p : resources) : resources := Resources
  (s_k_call_mask p) (s_nr_io_range p) (s_io_tab p) (s_nr_mem_range p) x (s_nr_irq p) (s_irq_tab p)
  (s_grant_table p) (s_grant_entries p).
Definition with_s_nr_irq (x : Z) (p : resources) : resources := Resources (s_k_call_mask p)
  (s_nr_io_range p) (s_io_tab p) (s_nr_mem_range p) (s_mem_tab p) x (s_irq_tab p) (s_grant_table
  p) (s_grant_entries p).
Definition with_s_irq_tab (x : gmap Z Z) (p : resources) : resources := Resources (s_k_call_mask
  p) (s_nr_io_range p) (s_io_tab p) (s_nr_mem_range p) (s_mem_tab p) (s_nr_irq p) x (s_grant_table
  p) (s_grant_entries p).
Definition with_s_grant_table (x : Z) (p : resources) : resources := Resources (s_k_call_mask p)
  (s_nr_io_range p) (s_io_tab p) (s_nr_mem_range p) (s_mem_tab p) (s_nr_irq p) (s_irq_tab p) x
  (s_grant_entries p).
Definition with_s_grant_entries (x : Z) (p : resources) : resources := Resources (s_k_call_mask p)
  (s_nr_io_range p) (s_io_tab p) (s_nr_mem_range p) (s_mem_tab p) (s_nr_irq p) (s_irq_tab p)
  (s_grant_table p) x.

(** A slot of the privilege table. *)
Record priv := Priv {
  s_proc_nr : Z;
  s_id : Z;
  s_flags : Z;
  s_asyntab : Z;
  s_asynsize : Z;
  s_trap_mask : Z;
  s_ipc_to : sys_map_t;
  s_sig_mgr : Z;
  s_bak_sig_mgr : Z;
  s_notify_pending : sys_map_t;
  s_asyn_pending : sys_map_t;
  s_int_pending : Z;
  s_sig_pending : gset Z;
  s_diag_sig : bool;
  s_res : resources;
}.

Definition with_s_proc_nr (x : Z) (p : priv) : priv := Priv x (s_id p) (s_flags p) (s_asyntab p)
  (s_asynsize p) (s_trap_mask p) (s_ipc_to p) (s_sig_mgr p) (s_bak_sig_mgr p) (s_notify_pending p)
  (s_asyn_pending p) (s_int_pending p) (s_sig_pending p) (s_diag_sig p) (s_res p).
Definition with_s_id (x : Z) (p : priv) : priv := Priv (s_proc_nr p) x (s_flags p) (s_asyntab p)
  (s_asynsize p) (s_trap_mask p) (s_ipc_to p) (s_sig_mgr p) (s_bak_sig_mgr p) (s_notify_pending p)
  (s_asyn_pending p) (s_int_pending p) (s_sig_pending p) (s_diag_sig p) (s_res p).
Definition with_s_flags (x : Z) (p : priv) : priv := Priv (s_proc_nr p) (s_id p) x (s_asyntab p)
  (s_asynsize p) (s_trap_mask p) (s_ipc_to p) (s_sig_mgr p) (s_bak_sig_mgr p) (s_notify_pending p)
  (s_asyn_pending p) (s_int_pending p) (s_sig_pending p) (s_diag_sig p) (s_res p).
Definition with_s_asyntab (x : Z) (p : priv) : priv := Priv (s_proc_nr p) (s_id p) (s_flags p) x
  (s_asynsize p) (s_trap_mask p) (s_ipc_to p) (s_sig_mgr p) (s_bak_sig_mgr p) (s_notify_pending p)
  (s_asyn_pending p) (s_int_pending p) (s_sig_pending p) (s_diag_sig p) (s_res p).
Definition with_s_asynsize (x : Z) (p : priv) : priv := Priv (s_proc_nr p) (s_id p) (s_flags p)
  (s_asyntab p) x (s_trap_mask p) (s_ipc_to p) (s_sig_mgr p) (s_bak_sig_mgr p) (s_notify_pending
  p) (s_asyn_pending p) (s_int_pending p) (s_sig_pending p) (s_diag_sig p) (s_res p).
Definition with_s_trap_mask (x : Z) (p : priv) : priv := Priv (s_proc_nr p) (s_id p) (s_flags p)
  (s_asyntab p) (s_asynsize p) x (s_ipc_to p) (s_sig_mgr p) (s_bak_sig_mgr p) (s_notify_pending p)
  (s_asyn_pending p) (s_int_pending p) (s_sig_pending p) (s_diag_sig p) (s_res p).
Definition with_s_ipc_to (x : sys_map_t) (p : priv) : priv := Priv (s_proc_nr p) (s_id p)
  (s_flags p) (s_asyntab p) (s_asynsize p) (s_trap_mask p) x (s_sig_mgr p) (s_bak_sig_mgr p)
  (s_notify_pending p) (s_asyn_pending p) (s_int_pending p) (s_sig_pending p) (s_diag_sig p) (s_res p).
Definition with_s_sig_mgr (x : Z) (p : priv) : priv := Priv (s_proc_nr p) (s_id p) (s_flags p)
  (s_asyntab p) (s_asynsize p) (s_trap_mask p) (s_ipc_to p) x (s_bak_sig_mgr p) (s_notify_pending
  p) (s_asyn_pending p) (s_int_pending p) (s_sig_pending p) (s_diag_sig p) (s_res p).
Definition with_s_bak_sig_mgr (x : Z) (p : priv) : priv := Priv (s_proc_nr p) (s_id p) (s_flags
  p) (s_asyntab p) (s_asynsize p) (s_trap_mask p) (s_ipc_to p) (s_sig_mgr p) x (s_notify_pending
  p) (s_asyn_pending p) (s_int_pending p) (s_sig_pending p) (s_diag_sig p) (s_res p).
Definition with_s_notify_pending (x : sys_map_t) (p : priv) : priv := Priv (s_proc_nr p) (s_id
  p) (s_flags p) (s_asyntab p) (s_asynsize p) (s_trap_mask p) (s_ipc_to p) (s_sig_mgr p)
  (s_bak_sig_mgr p) x (s_asyn_pending p) (s_int_pending p) (s_sig_pending p) (s_diag_sig p) (s_res p).
Definition with_s_asyn_pending (x : sys_map_t) (p : priv) : priv := Priv (s_proc_nr p) (s_id p)
  (s_flags p) (s_asyntab p) (s_asynsize p) (s_trap_mask p) (s_ipc_to p) (s_sig_mgr p)
  (s_bak_sig_mgr p) (s_notify_pending p) x (s_int_pending p) (s_sig_pending p) (s_diag_sig p) (s_res p).
Definition with_s_int_pending (x : Z) (p : priv) : priv := Priv (s_proc_nr p) (s_id p) (s_flags
  p) (s_asyntab p) (s_asynsize p) (s_trap_mask p) (s_ipc_to p) (s_sig_mgr p) (s_bak_sig_mgr p)
  (s_notify_pending p) (s_asyn_pending p) x (s_sig_pending p) (s_diag_sig p) (s_res p).
Definition with_s_sig_pending (x : gset Z) (p : priv) : priv := Priv (s_proc_nr p) (s_id p)
  (s_flags p) (s_asyntab p) (s_asynsize p) (s_trap_mask p) (s_ipc_to p) (s_sig_mgr p)
  (s_bak_sig_mgr p) (s_notify_pending p) (s_asyn_pending p) (s_int_pending p) x (s_diag_sig p) (s_res p).
Definition with_s_diag_sig (x : bool) (p : priv) : priv := Priv (s_proc_nr p) (s_id p) (s_flags
  p) (s_asyntab p) (s_asynsize p) (s_trap_mask p) (s_ipc_to p) (s_sig_mgr p) (s_bak_sig_mgr p)
  (s_notify_pending p) (s_asyn_pending p) (s_int_pending p) (s_sig_pending p) x (s_res p).
Definition with_s_res (x : resources) (p : priv) : priv := Priv (s_proc_nr p) (s_id p) (s_flags p)
  (s_asyntab p) (s_asynsize p) (s_trap_mask p) (s_ipc_to p) (s_sig_mgr p) (s_bak_sig_mgr p)
  (s_notify_pending p) (s_asyn_pending p) (s_int_pending p) (s_sig_pending p) (s_diag_sig p) x.
Definition upd_res (f : resources -> resources) (p : priv) : priv := with_s_res (f (s_res p)) p.

(** The load history of the kernel information page. *)
Record loadinfo := Loadinfo {
  proc_load_history : gmap Z Z;
  proc_last_slot : Z;
  last_clock : Z;
}.

Definition with_proc_load_history (x : gmap Z Z) (l : loadinfo) : loadinfo := Loadinfo x
  (proc_last_slot l) (last_clock l).
Definition with_proc_last_slot (x : Z) (l : loadinfo) : loadinfo := Loadinfo (proc_load_history
  l) x (last_clock l).
Definition with_last_clock (x : Z) (l : loadinfo) : loadinfo := Loadinfo (proc_load_history l)
  (proc_last_slot l) x.

(** The global variables of the kernel and the part of the machine it reads:
    the time stamp counter and, as [umsg] and [utab], the messages and the
    tables of asynchronous messages in the memory of the processes, by process
    and address; an address that is missing faults, and an entry of a table
    with flag [false] is in memory the process may not write. *)
Record kstate := KState {
  procs : gmap Z proc;
  privs : gmap Z priv;
  run_q_head : gmap Z Z;
  run_q_tail : gmap Z Z;
  proc_ptr : Z;
  bill_ptr : Z;
  clock_timers : tmrq;
  alarm_args : gmap Z Z;
  next_timeout : Z;
  monotonic : Z;
  realtime : Z;
  adjtime_delta : Z;
  boottime : Z;
  kloadinfo : loadinfo;
  tsc : Z;
  cpu_last_tsc : Z;
  cpu_last_idle : Z;
  tsc_per_ms : Z;
  fpu_owner : Z;
  umsg : gmap (Z * Z) message;
  utab : gmap (Z * Z) (asynmsg * bool);
}.

Definition with_procs (x : gmap Z proc) (k : kstate) : kstate := KState x (privs k) (run_q_head
  k) (run_q_tail k) (proc_ptr k) (bill_ptr k) (clock_timers k) (alarm_args k) (next_timeout k)
  (monotonic k) (realtime k) (adjtime_delta k) (boottime k) (kloadinfo k) (tsc k) (cpu_last_tsc k)
  (cpu_last_idle k) (tsc_per_ms k) (fpu_owner k) (umsg k) (utab k).
Definition with_privs (x : gmap Z priv) (k : kstate) : kstate := KState (procs k) x (run_q_head
  k) (run_q_tail k) (proc_ptr k) (bill_ptr k) (clock_timers k) (alarm_args k) (next_timeout k)
  (monotonic k) (realtime k) (adjtime_delta k) (boottime k) (kloadinfo k) (tsc k) (cpu_last_tsc k)
  (cpu_last_idle k) (tsc_per_ms k) (fpu_owner k) (umsg k) (utab k).
Definition with_run_q_head (x : gmap Z Z) (k : kstate) : kstate := KState (procs k) (privs k) x
  (run_q_tail k) (proc_ptr k) (bill_ptr k) (clock_timers k) (alarm_args k) (next_timeout k)
  (monotonic k) (realtime k) (adjtime_delta k) (boottime k) (kloadinfo k) (tsc k) (cpu_last_tsc k)
  (cpu_last_idle k) (tsc_per_ms k) (fpu_owner k) (umsg k) (utab k).
Definition with_run_q_tail (x : gmap Z Z) (k : kstate) : kstate := KState (procs k) (privs k)
  (run_q_head k) x (proc_ptr k) (bill_ptr k) (clock_timers k) (alarm_args k) (next_timeout k)
  (monotonic k) (realtime k) (adjtime_delta k) (boottime k) (kloadinfo k) (tsc k) (cpu_last_tsc k)
  (cpu_last_idle k) (tsc_per_ms k) (fpu_owner k) (umsg k) (utab k).
Definition with_proc_ptr (x : Z) (k : kstate) : kstate := KState (procs k) (privs k) (run_q_head
  k) (run_q_tail k) x (bill_ptr k) (clock_timers k) (alarm_args k) (next_timeout k) (monotonic k)
  (realtime k) (adjtime_delta k) (boottime k) (kloadinfo k) (tsc k) (cpu_last_tsc k)
  (cpu_last_idle k) (tsc_per_ms k) (fpu_owner k) (umsg k) (utab k).
Definition with_bill_ptr (x : Z) (k : kstate) : kstate := KState (procs k) (privs k) (run_q_head
  k) (run_q_tail k) (proc_ptr k) x (clock_timers k) (alarm_args k) (next_timeout k) (monotonic k)
  (realtime k) (adjtime_delta k) (boottime k) (kloadinfo k) (tsc k) (cpu_last_tsc k)
  (cpu_last_idle k) (tsc_per_ms k) (fpu_owner k) (umsg k) (utab k).
Definition with_clock_timers (x : tmrq) (k : kstate) : kstate := KState (procs k) (privs k)
  (run_q_head k) (run_q_tail k) (proc_ptr k) (bill_ptr k) x (alarm_args k) (next_timeout k)
  (monotonic k) (realtime k) (adjtime_delta k) (boottime k) (kloadinfo k) (tsc k) (cpu_last_tsc k)
  (cpu_last_idle k) (tsc_per_ms k) (fpu_owner k) (umsg k) (utab k).
Definition with_alarm_args (x : gmap Z Z) (k : kstate) : kstate := KState (procs k) (privs k)
  (run_q_head k) (run_q_tail k) (proc_ptr k) (bill_ptr k) (clock_timers k) x (next_timeout k)
  (monotonic k) (realtime k) (adjtime_delta k) (boottime k) (kloadinfo k) (tsc k) (cpu_last_tsc k)
  (cpu_last_idle k) (tsc_per_ms k) (fpu_owner k) (umsg k) (utab k).
Definition with_next_timeout (x : Z) (k : kstate) : kstate := KState (procs k) (privs k)
  (run_q_head k) (run_q_tail k) (proc_ptr k) (bill_ptr k) (clock_timers k) (alarm_args k) x
  (monotonic k) (realtime k) (adjtime_delta k) (boottime k) (kloadinfo k) (tsc k) (cpu_last_tsc k)
  (cpu_last_idle k) (tsc_per_ms k) (fpu_owner k) (umsg k) (utab k).
Definition with_monotonic (x : Z) (k : kstate) : kstate := KState (procs k) (privs k)
  (run_q_head k) (run_q_tail k) (proc_ptr k) (bill_ptr k) (clock_timers k) (alarm_args k)
  (next_timeout k) x (realtime k) (adjtime_delta k) (boottime k) (kloadinfo k) (tsc k)
  (cpu_last_tsc k) (cpu_last_idle k) (tsc_per_ms k) (fpu_owner k) (umsg k) (utab k).
Definition with_realtime (x : Z) (k : kstate) : kstate := KState (procs k) (privs k) (run_q_head
  k) (run_q_tail k) (proc_ptr k) (bill_ptr k) (clock_timers k) (alarm_args k) (next_timeout k)
  (monotonic k) x (adjtime_delta k) (boottime k) (kloadinfo k) (tsc k) (cpu_last_tsc k)
  (cpu_last_idle k) (tsc_per_ms k) (fpu_owner k) (umsg k) (utab k).
Definition with_adjtime_delta (x : Z) (k : kstate) : kstate := KState (procs k) (privs k)
  (run_q_head k) (run_q_tail k) (proc_ptr k) (bill_ptr k) (clock_timers k) (alarm_args k)
  (next_timeout k) (monotonic k) (realtime k) x (boottime k) (kloadinfo k) (tsc k) (cpu_last_tsc
  k) (cpu_last_idle k) (tsc_per_ms k) (fpu_owner k) (umsg k) (utab k).
Definition with_boottime (x : Z) (k : kstate) : kstate := KState (procs k) (privs k) (run_q_head
  k) (run_q_tail k) (proc_ptr k) (bill_ptr k) (clock_timers k) (alarm_args k) (next_timeout k)
  (monotonic k) (realtime k) (adjtime_delta k) x (kloadinfo k) (tsc k) (cpu_last_tsc k)
  (cpu_last_idle k) (tsc_per_ms k) (fpu_owner k) (umsg k) (utab k).
Definition with_kloadinfo (x : loadinfo) (k : kstate) : kstate := KState (procs k) (privs k)
  (run_q_head k) (run_q_tail k) (proc_ptr k) (bill_ptr k) (clock_timers k) (alarm_args k)
  (next_timeout k) (monotonic k) (realtime k) (adjtime_delta k) (boottime k) x (tsc k)
  (cpu_last_tsc k) (cpu_last_idle k) (tsc_per_ms k) (fpu_owner k) (umsg k) (utab k).
Definition with_tsc (x : Z) (k : kstate) : kstate := KState (procs k) (privs k) (run_q_head k)
  (run_q_tail k) (proc_ptr k) (bill_ptr k) (clock_timers k) (alarm_args k) (next_timeout k)
  (monotonic k) (realtime k) (adjtime_delta k) (boottime k) (kloadinfo k) x (cpu_last_tsc k)
  (cpu_last_idle k) (tsc_per_ms k) (fpu_owner k) (umsg k) (utab k).
Definition with_cpu_last_tsc (x : Z) (k : kstate) : kstate := KState (procs k) (privs k)
  (run_q_head k) (run_q_tail k) (proc_ptr k) (bill_ptr k) (clock_timers k) (alarm_args k)
  (next_timeout k) (monotonic k) (realtime k) (adjtime_delta k) (boottime k) (kloadinfo k) (tsc k)
  x (cpu_last_idle k) (tsc_per_ms k) (fpu_owner k) (umsg k) (utab k).
Definition with_cpu_last_idle (x : Z) (k : kstate) : kstate := KState (procs k) (privs k)
  (run_q_head k) (run_q_tail k) (proc_ptr k) (bill_ptr k) (clock_timers k) (alarm_args k)
  (next_timeout k) (monotonic k) (realtime k) (adjtime_delta k) (boottime k) (kloadinfo k) (tsc k)
  (cpu_last_tsc k) x (tsc_per_ms k) (fpu_owner k) (umsg k) (utab k).
Definition with_tsc_per_ms (x : Z) (k : kstate) : kstate := KState (procs k) (privs k)
  (run_q_head k) (run_q_tail k) (proc_ptr k) (bill_ptr k) (clock_timers k) (alarm_args k)
  (next_timeout k) (monotonic k) (realtime k) (adjtime_delta k) (boottime k) (kloadinfo k) (tsc k)
  (cpu_last_tsc k) (cpu_last_idle k) x (fpu_owner k) (umsg k) (utab k).
Definition with_fpu_owner (x : Z) (k : kstate) : kstate := KState (procs k) (privs k)
  (run_q_head k) (run_q_tail k) (proc_ptr k) (bill_ptr k) (clock_timers k) (alarm_args k)
  (next_timeout k) (monotonic k) (realtime k) (adjtime_delta k) (boottime k) (kloadinfo k) (tsc k)
  (cpu_last_tsc k) (cpu_last_idle k) (tsc_per_ms k) x (umsg k) (utab k).
Definition with_umsg (x : gmap (Z * Z) message) (k : kstate) : kstate := KState (procs k) (privs
  k) (run_q_head k) (run_q_tail k) (proc_ptr k) (bill_ptr k) (clock_timers k) (alarm_args k)
  (next_timeout k) (monotonic k) (realtime k) (adjtime_delta k) (boottime k) (kloadinfo k) (tsc k)
  (cpu_last_tsc k) (cpu_last_idle k) (tsc_per_ms k) (fpu_owner k) x (utab k).
Definition with_utab (x : gmap (Z * Z) (asynmsg * bool)) (k : kstate) : kstate := KState (procs k) (privs
  k) (run_q_head k) (run_q_tail k) (proc_ptr k) (bill_ptr k) (clock_timers k) (alarm_args k)
  (next_timeout k) (monotonic k) (realtime k) (adjtime_delta k) (boottime k) (kloadinfo k) (tsc k)
  (cpu_last_tsc k) (cpu_last_idle k) (tsc_per_ms k) (fpu_owner k) (umsg k) x.

(** ** Pointers *)

(** [&proc[NR_TASKS + n]], one-based so that 0 is NULL; the slot of the idle
    process of the CPU is outside of the table. *)
Definition proc_addr (n : Z) : Z := n + NR_TASKS + 1.
Definition idle_proc : Z := -1.

(** The index that stands for [idle_priv], which is not in the table. *)
Definition idle_priv : Z := -1.

(** [p_priv] holds the index of a privilege structure; this one stands for
    NULL. *)
Definition null_priv : Z := -2.

Definition isokprocn (n : Z) : bool := (0 <=? n + NR_TASKS) && (n + NR_TASKS <? NR_PROCS + NR_TASKS).
Definition iskerneln (n : Z) : bool := n <? 0.

(** ** Accessors *)

Abbreviation K := (ST kstate).

Definition kassert (b : bool) : K unit := if b then mret tt else ub.

(** [p->g] *)
Definition rd {A} (g : proc -> A) (p : Z) : K A :=
  k ← get; r ← opt (procs k !! p); mret (g r).

(** An assignment to fields of [*p]. *)
Definition upd (p : Z) (f : proc -> proc) : K unit :=
  k ← get; r ← opt (procs k !! p); modify (with_procs (<[p := f r]> (procs k))).

(** [priv(p)->g] *)
Definition rdp {A} (g : priv -> A) (p : Z) : K A :=
  i ← rd p_priv p; k ← get; s ← opt (privs k !! i); mret (g s).

Definition updp (p : Z) (f : priv -> priv) : K unit :=
  i ← rd p_priv p; k ← get; s ← opt (privs k !! i); modify (with_privs (<[i := f s]> (privs k))).

(** [priv_addr(i)->g] *)
Definition rda {A} (g : priv -> A) (i : Z) : K A :=
  k ← get; s ← opt (privs k !! i); mret (g s).

Definition upda (i : Z) (f : priv -> priv) : K unit :=
  k ← get; s ← opt (privs k !! i); modify (with_privs (<[i := f s]> (privs k))).

(** [flags & bits], [flags |= bits] and [flags &= ~bits] *)
Definition has (flags bits : Z) : bool := negb (Z.land flags bits =? 0).
Definition set_rts (bits : Z) (r : proc) : proc := with_p_rts_flags (Z.lor (p_rts_flags r) bits) r.
Definition clear_rts (bits : Z) (r : proc) : proc := with_p_rts_flags (Z.ldiff (p_rts_flags r) bits) r.
Definition set_misc (bits : Z) (r : proc) : proc := with_p_misc_flags (Z.lor (p_misc_flags r) bits) r.
Definition clear_misc (bits : Z) (r : proc) : proc := with_p_misc_flags (Z.ldiff (p_misc_flags r) bits) r.

Definition RTS_ISSET (flags f : Z) : bool := Z.land flags f =? f.

Definition read_tsc_64 : K Z := gets tsc.

(** [for (x = ...) f(x);] over the listed values. *)
Fixpoint kfor (xs : list Z) (f : Z -> K unit) : K unit :=
  match xs with [] => mret tt | x :: xs' => f x;; kfor xs' f end.

(** ** Looking up endpoints *)

Definition isemptyp (p : Z) : K bool := fl ← rd p_rts_flags p; mret (fl =? RTS_SLOT_FREE).

(** [isokprocn(p) && !isemptyn(p) && proc_addr(p)->p_endpoint == e] *)
Definition endpoint_ok (e p : Z) : K bool :=
  if isokprocn p
  then empty ← isemptyp (proc_addr p);
       if empty : bool then mret false else ep ← rd p_endpoint (proc_addr p); mret (ep =? e)
  else mret false.

(** [isokendpt]: the process number of a live process, or the failure. *)
Definition isokendpt_f (e : Z) (fatalflag : bool) : K (option Z) :=
  let p := _ENDPOINT_P e in
  ok ← endpoint_ok e p;
  if negb ok && fatalflag then ub else mret (if ok then Some p else None).

Definition isokendpt (e : Z) : K (option Z) := isokendpt_f e false.
Definition okendpt (e : Z) : K Z := r ← isokendpt_f e true; opt r.

Definition endpoint_lookup (e : Z) : K Z :=
  r ← isokendpt e; mret (match r with Some n => proc_addr n | None => 0 end).

(** ** Running the accessors *)

(** The state with slot [p] of the process table replaced. *)
Definition put_proc (p : Z) (r : proc) (k : kstate) : kstate := with_procs (<[p := r]> (procs k)) k.
Definition put_priv (i : Z) (s : priv) (k : kstate) : kstate := with_privs (<[i := s]> (privs k)) k.

Lemma rd_run {A} (g : proc -> A) p k r : procs k !! p = Some r -> rd g p k = Some (g r, k).
Proof. intros E. unfold rd. mrun. by rewrite E. Qed.

Lemma upd_run p f k r : procs k !! p = Some r -> upd p f k = Some (tt, put_proc p (f r) k).
Proof. intros E. unfold upd. mrun. by rewrite E. Qed.

Lemma rdp_run {A} (g : priv -> A) p k r s :
  procs k !! p = Some r -> privs k !! p_priv r = Some s -> rdp g p k = Some (g s, k).
Proof. intros E1 E2. unfold rdp. rewrite (bind_run _ _ _ _ _ (rd_run p_priv p k r E1)). mrun. by rewrite E2. Qed.

Lemma updp_run p f k r s :
  procs k !! p = Some r -> privs k !! p_priv r = Some s ->
  updp p f k = Some (tt, put_priv (p_priv r) (f s) k).
Proof.
  intros E1 E2. unfold updp. rewrite (bind_run _ _ _ _ _ (rd_run p_priv p k r E1)). mrun. by rewrite E2.
Qed.

Lemma rda_run {A} (g : priv -> A) i k s : privs k !! i = Some s -> rda g i k = Some (g s, k).
Proof. intros E. unfold rda. mrun. by rewrite E. Qed.

Lemma upda_run i f k s : privs k !! i = Some s -> upda i f k = Some (tt, put_priv i (f s) k).
Proof. intros E. unfold upda. mrun. by rewrite E. Qed.

(** ** Views: one field of all processes *)

Definition fld {A} (g : proc -> A) (k : kstate) : gmap Z A := g <$> procs k.

Lemma fld_lookup {A} (g : proc -> A) k p : fld g k !! p = g <$> procs k !! p.
Proof. apply lookup_fmap. Qed.

Lemma fld_put {A} (g : proc -> A) p r k : fld g (put_proc p r k) = <[p := g r]> (fld g k).
Proof. apply fmap_insert. Qed.

(** An update of other fields leaves a view alone. *)
Lemma fld_put_same {A} (g : proc -> A) p r r0 k :
  procs k !! p = Some r0 -> g r = g r0 -> fld g (put_proc p r k) = fld g k.
Proof. intros E Hg. rewrite fld_put, Hg. apply insert_id. by rewrite fld_lookup, E. Qed.

(** ** Bits *)

Lemma has_lor fl a b : has (Z.lor fl a) b = has fl b || has a b.
Proof.
  unfold has. rewrite Z.land_lor_distr_l.
  destruct (Z.eqb_spec (Z.land fl b) 0) as [->|H1].
  - by rewrite Z.lor_0_l.
  - destruct (Z.eqb_spec (Z.lor (Z.land fl b) (Z.land a b)) 0) as [H|]; [|done].
    apply Z.lor_eq_0_iff in H as [? _]. done.
Qed.

Lemma has_ldiff_disj fl a b : Z.land a b = 0 -> has (Z.ldiff fl a) b = has fl b.
Proof.
  intros Hd. unfold has. do 2 f_equal. apply Z.bits_inj'. intros n Hn.
  rewrite !Z.land_spec, Z.ldiff_spec. assert (Z.testbit (Z.land a b) n = false) as Hb by (by rewrite Hd, Z.bits_0).
  rewrite Z.land_spec in Hb. by destruct (Z.testbit fl n), (Z.testbit a n), (Z.testbit b n).
Qed.

Lemma has_ldiff_same fl a : has (Z.ldiff fl a) a = false.
Proof.
  unfold has. apply negb_false_iff, Z.eqb_eq. apply Z.bits_inj'. intros n Hn.
  rewrite Z.land_spec, Z.ldiff_spec, Z.bits_0. by destruct (Z.testbit fl n), (Z.testbit a n).
Qed.

Lemma has_ldiff_false fl a b : has fl b = false -> has (Z.ldiff fl a) b = false.
Proof.
  unfold has. rewrite !negb_false_iff, !Z.eqb_eq. intros Hfl. apply Z.bits_inj'. intros n Hn.
  apply (f_equal (fun z => Z.testbit z n)) in Hfl. revert Hfl.
  rewrite !Z.land_spec, Z.ldiff_spec, Z.bits_0. by destruct (Z.testbit fl n), (Z.testbit a n), (Z.testbit b n).
Qed.

Lemma has_zero b : has 0 b = false.
Proof. unfold has. by rewrite Z.land_0_l. Qed.

(** For a flag of one bit, [RTS_ISSET] is the test of the bit. *)
Lemma isset_testbit fl n : 0 <= n -> RTS_ISSET fl (2 ^ n) = Z.testbit fl n.
Proof.
  intros Hn. unfold RTS_ISSET. destruct (Z.testbit fl n) eqn:E.
  - apply Z.eqb_eq. apply Z.bits_inj'. intros m Hm. rewrite Z.land_spec, Z.pow2_bits_eqb by done.
    destruct (Z.eqb_spec n m) as [->|]; [by rewrite E|by rewrite andb_false_r].
  - apply Z.eqb_neq. intros H. assert (Z.testbit (Z.land fl (2 ^ n)) n = true) as Hb
      by (by rewrite H, Z.pow2_bits_true).
    by rewrite Z.land_spec, E in Hb.
Qed.

Lemma has_testbit fl n : 0 <= n -> has fl (2 ^ n) = Z.testbit fl n.
Proof.
  intros Hn. rewrite <- isset_testbit by done. unfold has, RTS_ISSET.
  destruct (Z.eqb_spec (Z.land fl (2 ^ n)) 0) as [E|E].
  - rewrite E. symmetry. apply Z.eqb_neq. pose proof (Z.pow_pos_nonneg 2 n). lia.
  - symmetry. apply Z.eqb_eq. apply Z.bits_inj'. intros m Hm.
    rewrite Z.land_spec, Z.pow2_bits_eqb by done.
    destruct (Z.eqb_spec n m) as [->|]; [|by rewrite andb_false_r].
    destruct (Z.testbit fl m) eqn:Et; [done|]. exfalso. apply E. apply Z.bits_inj'. intros i Hi.
    rewrite Z.land_spec, Z.pow2_bits_eqb, Z.bits_0 by done.
    destruct (Z.eqb_spec m i) as [->|]; [by rewrite Et|by rewrite andb_false_r].
Qed.

Lemma isset_has fl f : f = RTS_SLOT_FREE \/ f = RTS_PROC_STOP \/ f = RTS_SENDING \/ f = RTS_RECEIVING \/
    f = RTS_SIGNALED \/ f = RTS_SIG_PENDING \/ f = RTS_NO_ENDPOINT \/ f = RTS_NO_QUANTUM ->
  RTS_ISSET fl f = has fl f.
Proof.
  intros H. assert (exists n, 0 <= n /\ f = 2 ^ n) as (n & Hn & ->).
  { repeat destruct H as [->|H]; [exists 0|exists 1|exists 2|exists 3|exists 4|exists 5|exists 8|exists 15; rewrite H];
      by split. }
  by rewrite isset_testbit, has_testbit.
Qed.

(** ** Bit maps *)

Lemma chunk_bit (c i : Z) : 0 <= i < 32 -> negb (Z.land c (Z.shiftl 1 i) =? 0) = Z.testbit c i.
Proof. intros Hi. rewrite Z.shiftl_1_l. apply has_testbit. lia. Qed.

Lemma div32 i : 0 <= i < 64 -> i / 32 = (if i <? 32 then 0 else 1).
Proof.
  intros Hi. destruct (Z.ltb_spec i 32); [by apply Z.div_small; lia|].
  symmetry. apply (Z.div_unique_pos i 32 1 (i - 32)); lia.
Qed.

Lemma get_sys_bit_spec m i : 0 <= i < 64 ->
  get_sys_bit m i = Z.testbit (if i <? 32 then m.1 else m.2) (i mod 32).
Proof.
  intros Hi. unfold get_sys_bit, BITCHUNK_BITS.
  rewrite chunk_bit by (apply Z.mod_pos_bound; lia). unfold map_chunk, BITCHUNK_BITS.
  rewrite div32 by done. by destruct (i <? 32).
Qed.

Lemma get_set_sys_bit m i j : 0 <= i < 64 -> 0 <= j < 64 ->
  get_sys_bit (set_sys_bit m i) j = get_sys_bit m j || (j =? i).
Proof.
  intros Hi Hj. rewrite !get_sys_bit_spec by done. unfold set_sys_bit, with_chunk, map_chunk, BITCHUNK_BITS.
  pose proof (Z.mod_pos_bound i 32) as Hmi. pose proof (Z.mod_pos_bound j 32) as Hmj.
  pose proof (Z.div_mod i 32) as Di. pose proof (Z.div_mod j 32) as Dj.
  rewrite (div32 i) in * by done. rewrite (div32 j) in Dj by done.
  destruct (Z.ltb_spec i 32), (Z.ltb_spec j 32); simpl in *;
    rewrite ?Z.lor_spec, ?Z.shiftl_1_l, ?Z.pow2_bits_eqb by lia;
    try (destruct (Z.eqb_spec j i); [lia|by rewrite orb_false_r]); f_equal;
    destruct (Z.eqb_spec (i mod 32) (j mod 32)), (Z.eqb_spec j i); lia.
Qed.

Lemma get_unset_sys_bit m i j : 0 <= i < 64 -> 0 <= j < 64 ->
  get_sys_bit (unset_sys_bit m i) j = get_sys_bit m j && negb (j =? i).
Proof.
  intros Hi Hj. rewrite !get_sys_bit_spec by done. unfold unset_sys_bit, with_chunk, map_chunk, BITCHUNK_BITS.
  pose proof (Z.mod_pos_bound i 32) as Hmi. pose proof (Z.mod_pos_bound j 32) as Hmj.
  pose proof (Z.div_mod i 32) as Di. pose proof (Z.div_mod j 32) as Dj.
  rewrite (div32 i) in * by done. rewrite (div32 j) in Dj by done.
  destruct (Z.ltb_spec i 32), (Z.ltb_spec j 32); simpl in *;
    rewrite ?Z.ldiff_spec, ?Z.shiftl_1_l, ?Z.pow2_bits_eqb by lia;
    try (destruct (Z.eqb_spec j i); [lia|by rewrite andb_true_r]); do 2 f_equal;
    destruct (Z.eqb_spec (i mod 32) (j mod 32)), (Z.eqb_spec j i); lia.
Qed.

(** The words of a bit map are 32-bit numbers. *)
Definition map_ok (m : sys_map_t) : Prop := 0 <= m.1 < 2 ^ 32 /\ 0 <= m.2 < 2 ^ 32.

Lemma word_bound x : 0 <= x -> (forall i, 32 <= i -> Z.testbit x i = false) -> 0 <= x < 2 ^ 32.
Proof.
  intros Hx Hb. split; [done|]. destruct (decide (x = 0)) as [->|]; [done|].
  apply Z.log2_lt_pow2; [lia|]. destruct (Z.lt_ge_cases (Z.log2 x) 32) as [|Hl]; [done|].
  specialize (Hb _ Hl). rewrite Z.bit_log2 in Hb by lia. done.
Qed.

Lemma word_high x i : 0 <= x < 2 ^ 32 -> 32 <= i -> Z.testbit x i = false.
Proof.
  intros Hx Hi. destruct (decide (x = 0)) as [->|]; [apply Z.bits_0|]. apply Z.bits_above_log2; [lia|].
  assert (Z.log2 x < 32) by (apply Z.log2_lt_pow2; lia). lia.
Qed.

Lemma word_lor x i : 0 <= x < 2 ^ 32 -> 0 <= i < 32 -> 0 <= Z.lor x (Z.shiftl 1 i) < 2 ^ 32.
Proof.
  intros Hx Hi. apply word_bound.
  - apply Z.lor_nonneg. split; [lia|]. by apply Z.shiftl_nonneg.
  - intros j Hj. rewrite Z.lor_spec, Z.shiftl_1_l, Z.pow2_bits_false, word_high by (done || lia). done.
Qed.

Lemma word_ldiff x i : 0 <= x < 2 ^ 32 -> 0 <= i < 32 -> 0 <= Z.ldiff x (Z.shiftl 1 i) < 2 ^ 32.
Proof.
  intros Hx Hi. apply word_bound.
  - apply Z.ldiff_nonneg. left. lia.
  - intros j Hj. by rewrite Z.ldiff_spec, word_high.
Qed.

Lemma map_ok_set m i : map_ok m -> map_ok (set_sys_bit m i).
Proof.
  intros [H1 H2]. unfold set_sys_bit, with_chunk, map_chunk, BITCHUNK_BITS.
  pose proof (Z.mod_pos_bound i 32 ltac:(lia)). destruct (i / 32 =? 0); split; simpl; try done; by apply word_lor.
Qed.

Lemma map_ok_unset m i : map_ok m -> map_ok (unset_sys_bit m i).
Proof.
  intros [H1 H2]. unfold unset_sys_bit, with_chunk, map_chunk, BITCHUNK_BITS.
  pose proof (Z.mod_pos_bound i 32 ltac:(lia)). destruct (i / 32 =? 0); split; simpl; try done; by apply word_ldiff.
Qed.

#[export] Hint Resolve map_ok_set map_ok_unset : core.

(** A word that is not zero has a bit. *)
Lemma word_has_bit x : 0 <= x < 2 ^ 32 -> x <> 0 -> exists i, 0 <= i < 32 /\ Z.testbit x i = true.
Proof.
  intros Hx Hne. exists (Z.log2 x). split; [|apply Z.bit_log2; lia].
  split; [apply Z.log2_nonneg|]. apply Z.log2_lt_pow2; lia.
Qed.

(** ** Endpoints *)

Definition slot_range (p : Z) : Prop := - MAX_NR_TASKS <= p < MAX_NR_PROCS.

Lemma endpoint_shift g p : _ENDPOINT g p = g * 32768 + p.
Proof. unfold _ENDPOINT, _ENDPOINT_GENERATION_SHIFT. rewrite Z.shiftl_mul_pow2 by done. done. Qed.

Lemma endpoint_p_mod e : _ENDPOINT_P e = (e + 1023) mod 32768 - 1023.
Proof.
  unfold _ENDPOINT_P, MAX_NR_TASKS, _ENDPOINT_GENERATION_SIZE, _ENDPOINT_GENERATION_SHIFT.
  change (Z.shiftl 1 15 - 1) with (Z.ones 15). rewrite Z.land_ones by done. done.
Qed.

Lemma endpoint_g_div e : _ENDPOINT_G e = (e + 1023) / 32768.
Proof.
  unfold _ENDPOINT_G, MAX_NR_TASKS, _ENDPOINT_GENERATION_SHIFT. by rewrite Z.shiftr_div_pow2.
Qed.

Lemma endpoint_parts e : _ENDPOINT (_ENDPOINT_G e) (_ENDPOINT_P e) = e.
Proof.
  rewrite endpoint_shift, endpoint_p_mod, endpoint_g_div.
  pose proof (Z.div_mod (e + 1023) 32768). lia.
Qed.

Lemma slot_of_endpoint g p : slot_range p -> _ENDPOINT_P (_ENDPOINT g p) = p /\ _ENDPOINT_G (_ENDPOINT g p) = g.
Proof.
  unfold slot_range. change MAX_NR_TASKS with 1023. change MAX_NR_PROCS with 31742. intros Hp.
  rewrite endpoint_shift, endpoint_p_mod, endpoint_g_div.
  replace (g * 32768 + p + 1023) with ((p + 1023) + g * 32768) by lia.
  rewrite Z.mod_add, Z.div_add, Z.mod_small, Z.div_small by lia. lia.
Qed.

(** ** Theorems *)

(** An endpoint number is a pair of a slot and a generation: composing it
    from any slot of the range and any generation and taking it apart again
    gives both back, the result is a non-negative 32-bit number above the tasks
    of generation zero, differs from the special numbers ANY, NONE and SELF,
    and taking any number apart and composing it gives the number. *)
Theorem endpoint_roundtrip g p e :
  0 <= g <= _ENDPOINT_MAX_GENERATION -> slot_range p ->
  _ENDPOINT_P (_ENDPOINT g p) = p /\ _ENDPOINT_G (_ENDPOINT g p) = g /\
  - MAX_NR_TASKS <= _ENDPOINT g p < 2 ^ 31 /\
  _ENDPOINT g p <> ANY /\ _ENDPOINT g p <> NONE /\ _ENDPOINT g p <> SELF /\
  _ENDPOINT (_ENDPOINT_G e) (_ENDPOINT_P e) = e.
Proof.
  intros Hg Hp. destruct (slot_of_endpoint g p Hp) as [E1 E2].
  assert (forall q, g * 32768 + p = q -> _ENDPOINT_P q = p) as Hq.
  { intros q <-. by rewrite <- endpoint_shift. }
  unfold slot_range in Hp. change _ENDPOINT_MAX_GENERATION with 65534 in Hg.
  change MAX_NR_TASKS with 1023 in *. change MAX_NR_PROCS with 31742 in *. change (2 ^ 31) with 2147483648.
  split_and!; [done|done|rewrite endpoint_shift; lia|rewrite endpoint_shift; lia| | | |by apply endpoint_parts];
    rewrite endpoint_shift; intros E; apply Hq in E; vm_compute in E; lia.
Qed.

Lemma endpoint_roundtrip_witness :
  _ENDPOINT_P (_ENDPOINT 7 (-3)) = -3 /\ _ENDPOINT_G (_ENDPOINT 7 (-3)) = 7 /\
  - MAX_NR_TASKS <= _ENDPOINT 7 (-3) < 2 ^ 31 /\
  _ENDPOINT 7 (-3) <> ANY /\ _ENDPOINT 7 (-3) <> NONE /\ _ENDPOINT 7 (-3) <> SELF /\
  _ENDPOINT (_ENDPOINT_G 12) (_ENDPOINT_P 12) = 12.
Proof. apply (endpoint_roundtrip 7 (-3) 12); by vm_compute. Defined.
