(* ===== verification/KSched.v ===== *)
(** Scheduling queues of the kernel: making processes ready and unready,
    choosing the next process to run, and the kernel's own check of the queues
    (kernel/proc.c, the RTS macros of kernel/proc.h, kernel/debug.c). *)

From S2P Require Import Prelude Chain Timers KState.
From stdpp Require Import sorting.
Local Open Scope Z_scope.

(** ** The queue heads and tails *)

Definition rd_head (q : Z) : K Z := k ← get; opt (run_q_head k !! q).
Definition rd_tail (q : Z) : K Z := k ← get; opt (run_q_tail k !! q).
Definition wr_head (q v : Z) : K unit :=
  k ← get; _ ← opt (run_q_head k !! q); modify (with_run_q_head (<[q := v]> (run_q_head k))).
Definition wr_tail (q v : Z) : K unit :=
  k ← get; _ ← opt (run_q_tail k !! q); modify (with_run_q_tail (<[q := v]> (run_q_tail k))).

(** [*xpp = v] for a link of ready list [q]. *)
Definition wr_ready (q : Z) (xpp : pploc) (v : Z) : K unit :=
  match xpp with PHead => wr_head q v | PNext x => upd x (with_p_nextready v) end.

(** ** [dequeue] *)

(** The loop of [dequeue]: takes [rp] out of list [q] if it is there; the
    previous node is the one whose link [xpp] is. *)
Definition unlink (q rp : Z) : K unit :=
  head ← rd_head q;
  nx ← gets (fld p_nextready);
  xpp ← opt (pp_walk (S (size nx)) head nx (Z.eqb rp) PHead);
  xp ← opt (pp_read head nx xpp);
  if xp =? 0 then mret tt
  else
    nxt ← rd p_nextready rp;
    wr_ready q xpp nxt;;
    t ← rd_tail q;
    if rp =? t then wr_tail q (match xpp with PHead => 0 | PNext x => x end) else mret tt.

Definition acct (f : accounting -> accounting) (r : proc) : proc :=
  with_p_accounting (f (p_accounting r)) r.

Definition u64 (z : Z) : Z := z mod 2 ^ 64.

Definition dequeue (rp : Z) : K unit :=
  q ← rd p_priority rp;
  fl ← rd p_rts_flags rp;
  kassert (negb (fl =? 0));;
  unlink q rp;;
  upd rp (acct (fun a => with_dequeues (u32 (dequeues a + 1)) a));;
  a ← rd p_accounting rp;
  if enter_queue a =? 0 then mret tt
  else
    t ← read_tsc_64;
    upd rp (acct (fun a =>
      with_enter_queue 0 (with_time_in_queue (u64 (time_in_queue a + u64 (t - enter_queue a))) a))).

(** Sets a flag and dequeues if the process was runnable. *)
Definition RTS_SET (rp f : Z) : K unit :=
  rts ← rd p_rts_flags rp;
  upd rp (set_rts f);;
  rts' ← rd p_rts_flags rp;
  if (rts =? 0) && negb (rts' =? 0) then dequeue rp else mret tt.

(** ** [enqueue] and [enqueue_head] *)

Definition add_tail (q rp : Z) : K unit :=
  h ← rd_head q;
  if h =? 0
  then wr_tail q rp;; wr_head q rp;; upd rp (with_p_nextready 0)
  else
    t ← rd_tail q;
    upd t (with_p_nextready rp);;
    wr_tail q rp;;
    upd rp (with_p_nextready 0).

(** Preempts the running process for one of higher priority. *)
Definition preempt_current (rp : Z) : K unit :=
  p ← gets proc_ptr;
  kassert (negb (p =? 0));;
  pp ← rd p_priority p;
  pr ← rd p_priority rp;
  if pr <? pp
  then fl ← rdp s_flags p; if has fl PREEMPTIBLE then RTS_SET p RTS_PREEMPTED else mret tt
  else mret tt.

(** [read_tsc_64(&get_cpulocal_var(proc_ptr)->p_accounting.enter_queue)] *)
Definition note_enter_queue : K unit :=
  p ← gets proc_ptr; t ← read_tsc_64; upd p (acct (with_enter_queue t)).

(** The only CPU has number 0. *)
Definition enqueue (rp : Z) : K unit :=
  q ← rd p_priority rp;
  fl ← rd p_rts_flags rp;
  kassert (fl =? 0);;
  kassert (0 <=? q);;
  add_tail q rp;;
  cpu ← rd p_cpu rp;
  (if 0 =? cpu then preempt_current rp else mret tt);;
  note_enter_queue.

Definition add_head (q rp : Z) : K unit :=
  h ← rd_head q;
  if h =? 0
  then wr_tail q rp;; wr_head q rp;; upd rp (with_p_nextready 0)
  else upd rp (with_p_nextready h);; wr_head q rp.

Definition enqueue_head (rp : Z) : K unit :=
  q ← rd p_priority rp;
  fl ← rd p_rts_flags rp;
  kassert (fl =? 0);;
  left ← rd p_cpu_time_left rp;
  kassert (negb (left =? 0));;
  kassert (0 <=? q);;
  add_head q rp;;
  note_enter_queue;;
  upd rp (acct (fun a => with_preempted (u32 (preempted a + 1)) (with_dequeues (u32 (dequeues a - 1)) a))).

(** Clears a flag and enqueues if the process has become runnable. *)
Definition RTS_UNSET (rp f : Z) : K unit :=
  rts ← rd p_rts_flags rp;
  upd rp (clear_rts f);;
  rts' ← rd p_rts_flags rp;
  if negb (rts =? 0) && (rts' =? 0) then enqueue rp else mret tt.

Definition RTS_SETFLAGS (rp f : Z) : K unit :=
  rts ← rd p_rts_flags rp;
  (if (rts =? 0) && negb (f =? 0) then dequeue rp else mret tt);;
  upd rp (with_p_rts_flags f).

(** ** [pick_proc] *)

Definition queues : list Z := seqZ 0 NR_SCHED_QUEUES.

Fixpoint pick_loop (qs : list Z) : K Z :=
  match qs with
  | [] => mret 0
  | q :: qs' =>
      rp ← rd_head q;
      if rp =? 0 then pick_loop qs'
      else
        fl ← rd p_rts_flags rp;
        kassert (fl =? 0);;
        sf ← rdp s_flags rp;
        (if has sf BILLABLE then modify (with_bill_ptr rp) else mret tt);;
        mret rp
  end.

(** The process to run next, NULL if none is ready. *)
Definition pick_proc : K Z := pick_loop queues.

(** ** [runqueues_ok_cpu]: the kernel's check of its queues *)

Definition MAX_LOOP : Z := NR_PROCS + NR_TASKS.

Definition in_table (xp : Z) : bool := (proc_addr (- NR_TASKS) <=? xp) && (xp <? proc_addr NR_PROCS).

(** One list: [found] are the slots marked [p_found], [l] counts the nodes;
    [None] is the report of an error. *)
Fixpoint check_list (fuel : nat) (q tail xp : Z) (found : gset Z) (l : Z) : K (option (gset Z * Z)) :=
  match fuel with
  | O => ub
  | S fuel =>
      if xp =? 0 then mret (Some (found, l))
      else if negb (in_table xp) then mret None
      else
        fl ← rd p_rts_flags xp;
        if RTS_ISSET fl RTS_SLOT_FREE then mret None
        else if negb (fl =? 0) then mret None
        else
          pr ← rd p_priority xp;
          if negb (pr =? q) then mret None
          else if bool_decide (xp ∈ found) then mret None
          else
            nx ← rd p_nextready xp;
            if (nx =? 0) && negb (tail =? xp) then mret None
            else if MAX_LOOP <? l then mret None
            else check_list fuel q tail nx ({[xp]} ∪ found) (l + 1)
  end.

Fixpoint check_queues (qs : list Z) (found : gset Z) (l : Z) : K (option (gset Z)) :=
  match qs with
  | [] => mret (Some found)
  | q :: qs' =>
      h ← rd_head q;
      t ← rd_tail q;
      if negb (h =? 0) && (t =? 0) then mret None
      else if (h =? 0) && negb (t =? 0) then mret None
      else
        tn ← (if t =? 0 then mret 0 else rd p_nextready t);
        if negb (tn =? 0) then mret None
        else
          n ← gets (fun k => size (procs k));
          r ← check_list (S n) q t h found l;
          match r with None => mret None | Some (found', l') => check_queues qs' found' l' end
  end.

Fixpoint check_procs (xs : list Z) (found : gset Z) : K bool :=
  match xs with
  | [] => mret true
  | xp :: xs' =>
      fl ← rd p_rts_flags xp;
      if fl =? RTS_SLOT_FREE then check_procs xs' found
      else if (fl =? 0) && negb (bool_decide (xp ∈ found)) then mret false
      else check_procs xs' found
  end.

Definition all_slots : list Z := seqZ 1 (NR_TASKS + NR_PROCS).

Definition runqueues_ok_cpu : K bool :=
  r ← check_queues queues ∅ 0;
  match r with None => mret false | Some found => check_procs all_slots found end.

(** ** Invariant of the ready queues *)

Definition queue_nr (q : Z) : Prop := 0 <= q < NR_SCHED_QUEUES.

(** The lists of the queues, as the pointers have it. *)
Record rqs (k : kstate) (rq : Z -> list Z) : Prop := {
  rqs_chain : forall q, queue_nr q ->
    exists h, run_q_head k !! q = Some h /\ chain (links (fld p_nextready k)) h (rq q);
  rqs_tail : forall q, queue_nr q -> run_q_tail k !! q = Some (default 0 (last (rq q)));
  rqs_disj : forall q q' p, queue_nr q -> queue_nr q' -> p ∈ rq q -> p ∈ rq q' -> q = q';
}.

(** Priorities are queue numbers, and the queues hold exactly the runnable
    processes, each in the queue of its priority. *)
Record rq_ok (k : kstate) (rq : Z -> list Z) : Prop := {
  rq_struct : rqs k rq;
  rq_elem : forall q p, queue_nr q ->
    p ∈ rq q <-> fld p_rts_flags k !! p = Some 0 /\ fld p_priority k !! p = Some q;
  rq_prio : forall p q, fld p_priority k !! p = Some q -> queue_nr q;
  rq_null : procs k !! 0 = None;
}.

Definition set_q (q : Z) (l : list Z) (rq : Z -> list Z) : Z -> list Z :=
  fun q' => if q' =? q then l else rq q'.

Lemma set_q_same q l rq : set_q q l rq q = l.
Proof. unfold set_q. by rewrite Z.eqb_refl. Qed.

Lemma set_q_other q l rq q' : q' <> q -> set_q q l rq q' = rq q'.
Proof. intros H. unfold set_q. by destruct (Z.eqb_spec q' q). Qed.

(** ** Equality up to scheduling

    The queues and the accounting that goes with them can be ignored by the
    rest of the kernel ([link_eq]); so can the preemption of the running
    process that making another one ready may bring ([sched_eq]). *)

Definition unlinked (r : proc) : proc :=
  with_p_nextready 0 (with_p_accounting (Accounting 0 0 0 0 0 0) r).
Definition unsched (r : proc) : proc := clear_rts RTS_PREEMPTED (unlinked r).

Definition erase (e : proc -> proc) (k : kstate) : kstate :=
  with_procs (e <$> procs k) (with_run_q_head ∅ (with_run_q_tail ∅ k)).

Definition link_eq (k k' : kstate) : Prop := erase unlinked k = erase unlinked k'.
Definition sched_eq (k k' : kstate) : Prop := erase unsched k = erase unsched k'.

(** The same, and no flag but the preemption flag of the running process has
    changed. *)
Definition resched (k k' : kstate) : Prop :=
  sched_eq k k' /\
  forall p, fld p_rts_flags k' !! p = fld p_rts_flags k !! p \/
    (p = proc_ptr k /\ fld p_rts_flags k' !! p = (fun f => Z.lor f RTS_PREEMPTED) <$> fld p_rts_flags k !! p).

#[global] Instance link_eq_equiv : Equivalence link_eq.
Proof. split; unfold link_eq; repeat intro; congruence. Qed.
#[global] Instance sched_eq_equiv : Equivalence sched_eq.
Proof. split; unfold sched_eq; repeat intro; congruence. Qed.

Lemma erase_lookup e k p : procs (erase e k) !! p = e <$> procs k !! p.
Proof. apply lookup_fmap. Qed.

(** A state that differs in the erased parts only. *)
Lemma erase_eq e k k' :
  (forall p, e <$> procs k !! p = e <$> procs k' !! p) ->
  with_procs ∅ (with_run_q_head ∅ (with_run_q_tail ∅ k)) =
  with_procs ∅ (with_run_q_head ∅ (with_run_q_tail ∅ k')) ->
  erase e k = erase e k'.
Proof.
  intros Hp Hk. unfold erase.
  assert (e <$> procs k = e <$> procs k') as ->.
  { apply map_eq. intros p. by rewrite !lookup_fmap. }
  exact (f_equal (with_procs (e <$> procs k')) Hk).
Qed.

Lemma erase_proc e k k' p r :
  erase e k = erase e k' -> procs k !! p = Some r ->
  exists r', procs k' !! p = Some r' /\ e r' = e r.
Proof.
  intros E Hr. apply (f_equal (fun k => procs k !! p)) in E. rewrite !erase_lookup, Hr in E.
  simpl in E. destruct (procs k' !! p) as [r'|]; simplify_eq/=. by exists r'.
Qed.

Lemma link_sched k k' : link_eq k k' -> sched_eq k k'.
Proof.
  intros E. unfold sched_eq. apply erase_eq.
  - intros p. unfold unsched.
    assert (forall o : option proc, (fun r => clear_rts RTS_PREEMPTED (unlinked r)) <$> o =
                      clear_rts RTS_PREEMPTED <$> (unlinked <$> o)) as Ef by (by intros []).
    rewrite !Ef, <- !erase_lookup. by rewrite E.
  - apply (f_equal (with_procs ∅)) in E. exact E.
Qed.

(** Assignments to other fields respect both equalities. *)
Lemma erase_put_same e k p r r0 :
  procs k !! p = Some r0 -> e r = e r0 -> erase e (put_proc p r k) = erase e k.
Proof.
  intros Hr He. apply erase_eq; [|done]. intros q. simpl.
  destruct (decide (p = q)) as [->|].
  - rewrite lookup_insert_eq, Hr. simpl. by rewrite He.
  - by rewrite lookup_insert_ne.
Qed.

Lemma erase_put e k k' p r r' :
  erase e k = erase e k' -> e r = e r' -> erase e (put_proc p r k) = erase e (put_proc p r' k').
Proof.
  intros E He. apply erase_eq; simpl.
  - intros q. destruct (decide (p = q)) as [->|].
    + rewrite !lookup_insert_eq. simpl. by rewrite He.
    + rewrite !lookup_insert_ne by done. by rewrite <- !erase_lookup, E.
  - by apply (f_equal (with_procs ∅)) in E.
Qed.

Lemma link_fld {A} (g : proc -> A) k k' :
  (forall r, g (unlinked r) = g r) -> link_eq k k' -> fld g k' = fld g k.
Proof.
  intros Hg E. unfold fld. assert (forall m : gmap Z proc, g <$> m = g <$> (unlinked <$> m)) as Hm.
  { intros m. rewrite <- map_fmap_compose. apply map_fmap_ext. intros. by rewrite <- Hg. }
  rewrite (Hm (procs k)), (Hm (procs k')). f_equal. symmetry. exact (f_equal procs E).
Qed.

Lemma sched_fld {A} (g : proc -> A) k k' :
  (forall r, g (unsched r) = g r) -> sched_eq k k' -> fld g k' = fld g k.
Proof.
  intros Hg E. unfold fld. assert (forall m : gmap Z proc, g <$> m = g <$> (unsched <$> m)) as Hm.
  { intros m. rewrite <- map_fmap_compose. apply map_fmap_ext. intros. by rewrite <- Hg. }
  rewrite (Hm (procs k)), (Hm (procs k')). f_equal. symmetry. exact (f_equal procs E).
Qed.

(** ** Running the queue accessors *)

Lemma rd_head_run q k h : run_q_head k !! q = Some h -> rd_head q k = Some (h, k).
Proof. intros E. unfold rd_head. mrun. by rewrite E. Qed.

Lemma rd_tail_run q k t : run_q_tail k !! q = Some t -> rd_tail q k = Some (t, k).
Proof. intros E. unfold rd_tail. mrun. by rewrite E. Qed.

Lemma wr_head_run q v k h : run_q_head k !! q = Some h ->
  wr_head q v k = Some (tt, with_run_q_head (<[q := v]> (run_q_head k)) k).
Proof. intros E. unfold wr_head. mrun. by rewrite E. Qed.

Lemma wr_tail_run q v k t : run_q_tail k !! q = Some t ->
  wr_tail q v k = Some (tt, with_run_q_tail (<[q := v]> (run_q_tail k)) k).
Proof. intros E. unfold wr_tail. mrun. by rewrite E. Qed.

(** Replacing one of the lists. *)
Lemma rqs_replace k k' rq q h' l' :
  rqs k rq -> queue_nr q ->
  run_q_head k' !! q = Some h' -> (forall q', q' <> q -> run_q_head k' !! q' = run_q_head k !! q') ->
  run_q_tail k' !! q = Some (default 0 (last l')) ->
  (forall q', q' <> q -> run_q_tail k' !! q' = run_q_tail k !! q') ->
  chain (links (fld p_nextready k')) h' l' ->
  (forall q' p, queue_nr q' -> q' <> q -> p ∈ rq q' ->
     p ∉ l' /\ fld p_nextready k' !! p = fld p_nextready k !! p) ->
  rqs k' (set_q q l' rq).
Proof.
  intros [Hc Ht Hd] Hq Hh Hho Ht' Hto Hl Hfr. split.
  - intros q' Hq'. destruct (decide (q' = q)) as [->|Hne].
    + rewrite set_q_same. by exists h'.
    + rewrite set_q_other by done. destruct (Hc q' Hq') as (h & Eh & Hch). exists h.
      split; [by rewrite Hho|]. eapply lseg_ext, Hch. intros p Hp. symmetry. by eapply Hfr.
  - intros q' Hq'. destruct (decide (q' = q)) as [->|Hne].
    + by rewrite set_q_same.
    + rewrite set_q_other, Hto by done. by apply Ht.
  - intros q1 q2 p Hq1 Hq2. destruct (decide (q1 = q)) as [->|Hne1], (decide (q2 = q)) as [->|Hne2];
      rewrite ?set_q_same, ?set_q_other by done; intros Hp1 Hp2.
    + done.
    + by destruct (Hfr q2 p Hq2 Hne2 Hp2) as [? _].
    + by destruct (Hfr q1 p Hq1 Hne1 Hp1) as [? _].
    + eauto.
Qed.

Lemma chain_snoc (m : gmap Z Z) h l t p :
  chain (links m) h l -> last l = Some t -> p <> 0 -> p ∉ l ->
  chain (links (<[p := 0]> (<[t := p]> m))) h (l ++ [p]).
Proof.
  intros Hc Ht Hp Hpl. assert (t <> p) by (intros ->; apply Hpl; by apply last_Some_elem_of).
  rewrite insert_insert_ne by done.
  assert (forall x, x ∈ l -> (<[p := 0]> m : gmap Z Z) !! x = m !! x) as Hl.
  { intros x Hx. apply lookup_insert_ne. by intros ->. }
  pose proof (pp_write_chain h (<[p := 0]> m) l 0 p [p]) as Hw.
  unfold loc_after in Hw. rewrite Ht in Hw. simpl in Hw. apply Hw.
  - eapply lseg_ext, Hc. intros x Hx. symmetry. by apply Hl.
  - by eapply chain_nodup.
  - econstructor; [done|by rewrite lookup_insert_eq|constructor].
  - set_solver.
Qed.

Lemma add_tail_ok k rq q rp r :
  rqs k rq -> queue_nr q -> procs k !! rp = Some r -> rp <> 0 ->
  (forall q', queue_nr q' -> rp ∉ rq q') ->
  exists k', add_tail q rp k = Some (tt, k') /\ rqs k' (set_q q (rq q ++ [rp]) rq) /\ link_eq k k'.
Proof.
  intros Hrqs Hq Hr Hrp Hnin. destruct (rqs_chain _ _ Hrqs q Hq) as (h & Eh & Hc).
  pose proof (rqs_tail _ _ Hrqs q Hq) as Et.
  unfold add_tail. rewrite (bind_run _ _ _ _ _ (rd_head_run _ _ _ Eh)).
  destruct (Z.eqb_spec h 0) as [->|Hh].
  - apply chain_nil_inv in Hc as El. rewrite El.
    rewrite (bind_run _ _ _ _ _ (wr_tail_run _ rp _ _ Et)).
    erewrite bind_run by (by eapply wr_head_run). erewrite upd_run by exact Hr.
    eexists. split; [done|]. split.
    + eapply (rqs_replace k _ rq q rp [rp]); try done; simpl.
      * by rewrite lookup_insert_eq.
      * intros. by rewrite lookup_insert_ne.
      * by rewrite lookup_insert_eq.
      * intros. by rewrite lookup_insert_ne.
      * rewrite fld_put. simpl. econstructor; [done|by rewrite lookup_insert_eq|constructor].
      * intros q' p Hq' Hne Hp. assert (p <> rp) by (intros ->; by eapply Hnin).
        split; [set_solver|]. rewrite fld_put, lookup_insert_ne by done. done.
    + symmetry. by eapply (erase_put_same unlinked (with_run_q_head _ (with_run_q_tail _ k))).
  - assert (rq q <> []) as Hne by (intros E; rewrite E in Hc; by apply chain_nil_head in Hc).
    destruct (last (rq q)) as [t|] eqn:Elast; [|by apply last_None in Elast].
    assert (t ∈ rq q) as Ht by (by apply last_Some_elem_of).
    assert (t <> rp) as Htrp by (intros ->; by eapply Hnin).
    destruct (chain_elem _ _ _ _ _ Hc Ht) as [_ [tn Htn]]. rewrite fld_lookup in Htn.
    destruct (procs k !! t) as [rt|] eqn:Ert; [|done]. clear Htn tn.
    simpl in Et. rewrite (bind_run _ _ _ _ _ (rd_tail_run _ _ _ Et)).
    rewrite (bind_run _ _ _ _ _ (upd_run _ _ _ _ Ert)).
    erewrite bind_run by (by eapply wr_tail_run).
    erewrite upd_run by (simpl; by rewrite lookup_insert_ne).
    eexists. split; [done|]. split.
    + eapply (rqs_replace k _ rq q h); try done; simpl.
      * by rewrite lookup_insert_eq, last_snoc.
      * intros. by rewrite lookup_insert_ne.
      * rewrite fld_put. change (fld p_nextready (with_run_q_tail _ ?s)) with (fld p_nextready s).
        rewrite fld_put. apply (chain_snoc (fld p_nextready k)); eauto.
      * intros q' p Hq' Hne' Hp. assert (p <> rp) by (intros ->; by eapply Hnin).
        assert (p <> t) by (intros ->; apply Hne'; by eapply rqs_disj).
        split. { rewrite elem_of_app, list_elem_of_singleton. intros [?|?]; [|done]. apply Hne'. by eapply rqs_disj. }
        rewrite fld_put, lookup_insert_ne by done.
        change (fld p_nextready (with_run_q_tail _ ?s)) with (fld p_nextready s).
        rewrite fld_put. by rewrite lookup_insert_ne.
    + etransitivity; [symmetry; by eapply (erase_put_same unlinked k t (with_p_nextready rp rt))|].
      etransitivity; [|symmetry; eapply (erase_put_same unlinked (with_run_q_tail _ (put_proc t _ k)))].
      * done.
      * simpl. by rewrite lookup_insert_ne.
      * done.
Qed.

Lemma rqs_set_id k rq q : queue_nr q -> rqs k rq -> rqs k (set_q q (rq q) rq).
Proof.
  intros Hq H. destruct (rqs_chain _ _ H q Hq) as (h & Eh & Hc).
  eapply rqs_replace; try done; [by apply rqs_tail|].
  intros q' p Hq' Hne Hp. split; [|done]. intros Hp'. apply Hne. by eapply rqs_disj.
Qed.

(** A member of a queue splits it. *)
Lemma rqs_split k rq q h rp :
  rqs k rq -> queue_nr q -> run_q_head k !! q = Some h -> rp ∈ rq q ->
  exists l1 l2, rq q = l1 ++ rp :: l2 /\ NoDup (rq q) /\ rp ∉ l1 /\ rp ∉ l2 /\
    before (Z.eqb rp) (rq q) = l1 /\ chain (links (fld p_nextready k)) h (l1 ++ rp :: l2).
Proof.
  intros Hrqs Hq Eh Hin. destruct (rqs_chain _ _ Hrqs q Hq) as (h' & Eh' & Hc). simplify_eq.
  pose proof (chain_nodup _ _ _ Hc) as Hnd.
  pose proof (before_from (Z.eqb rp) (rq q)) as Hbf.
  destruct (from (Z.eqb rp) (rq q)) as [|x l2] eqn:Ef; [by apply from_eqb_nil in Ef|].
  apply from_eqb_inv in Ef as ->. exists (before (Z.eqb rp) (rq q)), l2.
  rewrite Hbf. split_and!; try done.
  - rewrite <- Hbf in Hnd. apply NoDup_app in Hnd as (_ & Hd & _). intros Hx. eapply Hd; [done|]. left.
  - rewrite <- Hbf in Hnd. apply NoDup_app in Hnd as (_ & _ & Hd). by apply NoDup_cons in Hd as [? _].
Qed.

(** The link to [rp] is overwritten. *)
Lemma wr_ready_ok k rq q h l1 rp nxt l2 :
  rqs k rq -> queue_nr q -> run_q_head k !! q = Some h -> rq q = l1 ++ rp :: l2 -> NoDup (rq q) ->
  lseg (links (fld p_nextready k)) h l1 rp -> chain (links (fld p_nextready k)) nxt l2 ->
  exists k', wr_ready q (loc_after l1) nxt k = Some (tt, k') /\ link_eq k k' /\
    run_q_tail k' = run_q_tail k /\ (forall q', q' <> q -> run_q_head k' !! q' = run_q_head k !! q') /\
    (exists h', run_q_head k' !! q = Some h' /\ chain (links (fld p_nextready k')) h' (l1 ++ l2)) /\
    (forall p, p ∉ rq q -> fld p_nextready k' !! p = fld p_nextready k !! p).
Proof.
  intros Hrqs Hq Eh El Hnd H1 H2. rewrite El in Hnd. apply NoDup_app in Hnd as (Hnd1 & Hdis & _).
  assert (forall x, x ∈ l1 -> x ∉ l2) as Hd by (intros x Hx Hx'; eapply Hdis; [done|by right]).
  pose proof (pp_write_chain h (fld p_nextready k) l1 rp nxt l2 H1 Hnd1 H2 Hd) as Hw.
  unfold loc_after in *. destruct (last l1) as [x|] eqn:Elast; simpl in *.
  - apply last_Some_elem_of in Elast. destruct (chain_elem _ _ _ _ _ H1 Elast) as [_ [xn Hxn]].
    rewrite fld_lookup in Hxn. destruct (procs k !! x) as [rx|] eqn:Erx; [|done].
    rewrite (upd_run _ _ _ _ Erx). eexists. split; [done|].
    split; [symmetry; by eapply (erase_put_same unlinked)|]. split; [done|]. split; [done|]. split.
    + exists h. rewrite fld_put. by split.
    + intros p Hp. rewrite fld_put, lookup_insert_ne; [done|]. intros ->. apply Hp. rewrite El. set_solver.
  - rewrite (wr_head_run _ _ _ _ Eh). eexists. split; [done|]. split; [done|]. split; [done|]. split; [|split].
    + intros. simpl. by rewrite lookup_insert_ne.
    + exists nxt. simpl. by rewrite lookup_insert_eq.
    + done.
Qed.

Lemma unlink_absent k rq q rp :
  rqs k rq -> queue_nr q -> rp ∉ rq q -> unlink q rp k = Some (tt, k).
Proof.
  intros Hrqs Hq Hnin. destruct (rqs_chain _ _ Hrqs q Hq) as (h & Eh & Hc).
  unfold unlink. rewrite (bind_run _ _ _ _ _ (rd_head_run _ _ _ Eh)).
  unfold gets. mrun. rewrite (pp_walk_spec _ _ _ _ Hc).
  pose proof (before_from (Z.eqb rp) (rq q)) as Hbf. apply from_eqb_nil in Hnin. rewrite Hnin in Hbf.
  rewrite app_nil_r in Hbf. rewrite Hbf. rewrite <- (app_nil_r (rq q)) in Hc.
  rewrite (pp_read_after _ _ (rq q) 0 []); [done| |constructor]. by rewrite app_nil_r in Hc.
Qed.

Lemma last_remove (l1 l2 : list Z) rp :
  rp ∉ l1 -> rp ∉ l2 ->
  default 0 (last (l1 ++ l2)) =
  (if rp =? default 0 (last (l1 ++ rp :: l2)) then match loc_after l1 with PHead => 0 | PNext x => x end
   else default 0 (last (l1 ++ rp :: l2))).
Proof.
  intros H1 H2. destruct l2 as [|y l2 _] using rev_ind.
  - rewrite app_nil_r, last_snoc. simpl. rewrite Z.eqb_refl. unfold loc_after. by destruct (last l1).
  - rewrite app_comm_cons, !app_assoc, !last_snoc. simpl.
    destruct (Z.eqb_spec rp y) as [->|]; [set_solver|done].
Qed.

Lemma unlink_ok k rq q rp r :
  rqs k rq -> queue_nr q -> procs k !! rp = Some r ->
  exists k', unlink q rp k = Some (tt, k') /\ rqs k' (set_q q (remove1 rp (rq q)) rq) /\ link_eq k k'.
Proof.
  intros Hrqs Hq Hr. destruct (decide (rp ∈ rq q)) as [Hin|Hnin].
  2:{ rewrite remove1_notin by done. exists k. split_and!; [by eapply unlink_absent|by apply rqs_set_id|done]. }
  destruct (rqs_chain _ _ Hrqs q Hq) as (h & Eh & Hc0).
  destruct (rqs_split _ _ _ _ _ Hrqs Hq Eh Hin) as (l1 & l2 & El & Hnd & Hn1 & Hn2 & Ebef & Hc).
  pose proof (rqs_tail _ _ Hrqs q Hq) as Et.
  rewrite El, remove1_split by done.
  pose proof Hc as (p & H1 & H2)%lseg_app_inv.
  destruct (chain_cons_head _ _ _ _ H2) as [<- Hp0].
  destruct (chain_cons_inv _ _ _ H2 Hp0) as (nxt & l2' & [= <-] & Hnx & H2').
  assert (nxt = p_nextready r) as -> by (rewrite fld_lookup, Hr in Hnx; by simplify_eq/=).
  unfold unlink. rewrite (bind_run _ _ _ _ _ (rd_head_run _ _ _ Eh)).
  rewrite (bind_run (gets _) _ k (fld p_nextready k) k eq_refl).
  rewrite (pp_walk_spec _ _ _ _ Hc0), Ebef, (bind_run (opt (Some _)) _ _ _ _ eq_refl).
  rewrite (pp_read_after _ _ _ _ _ H1 H2), (bind_run (opt (Some _)) _ _ _ _ eq_refl).
  destruct (Z.eqb_spec rp 0); [done|].
  rewrite (bind_run _ _ _ _ _ (rd_run p_nextready _ _ _ Hr)).
  destruct (wr_ready_ok k rq q h l1 rp _ l2 Hrqs Hq Eh El Hnd H1 H2')
    as (k1 & Hw & Hlk & Et1 & Hho & (h' & Eh' & Hc') & Hfr).
  rewrite (bind_run _ _ _ _ _ Hw). rewrite <- Et1 in Et. rewrite El in Et.
  rewrite (bind_run _ _ _ _ _ (rd_tail_run _ _ _ Et)).
  assert (forall q' p, queue_nr q' -> q' <> q -> p ∈ rq q' ->
    p ∉ l1 ++ l2 /\ fld p_nextready k1 !! p = fld p_nextready k !! p) as Hfr'.
  { intros q' p Hq' Hne Hp.
    assert (p ∉ rq q) as Hp' by (intros Hp'; apply Hne; by eapply rqs_disj).
    split; [|by apply Hfr]. rewrite El in Hp'. set_solver. }
  pose proof (last_remove l1 l2 rp Hn1 Hn2) as Hlast.
  destruct (Z.eqb_spec rp (default 0 (last (l1 ++ rp :: l2)))) as [Etl|Etl].
  - rewrite (wr_tail_run _ _ _ _ Et). eexists. split; [done|]. split; [|done].
    eapply (rqs_replace k _ rq q h' (l1 ++ l2)); try done; simpl.
    + by rewrite lookup_insert_eq, Hlast.
    + intros q' Hne. by rewrite lookup_insert_ne, Et1.
  - exists k1. split; [done|]. split; [|done].
    eapply (rqs_replace k _ rq q h' (l1 ++ l2)); try done; [by rewrite Et, Hlast|].
    intros q' Hne. by rewrite Et1.
Qed.

Lemma rqs_ext k k' rq :
  run_q_head k' = run_q_head k -> run_q_tail k' = run_q_tail k ->
  fld p_nextready k' = fld p_nextready k -> rqs k rq -> rqs k' rq.
Proof. intros Eh Et En [Hc Ht Hd]. split; rewrite ?Eh, ?Et, ?En; done. Qed.

(** Accounting does not touch the queues. *)
Lemma rqs_acct k rq p r f :
  procs k !! p = Some r -> rqs k rq -> rqs (put_proc p (acct f r) k) rq.
Proof. intros Hr. apply rqs_ext; [done|done|]. by eapply fld_put_same. Qed.

Lemma acct_link k p r f : procs k !! p = Some r -> link_eq k (put_proc p (acct f r) k).
Proof. intros Hr. symmetry. by eapply (erase_put_same unlinked). Qed.

Lemma link_proc k k' p r :
  link_eq k k' -> procs k !! p = Some r ->
  exists r', procs k' !! p = Some r' /\ unlinked r' = unlinked r.
Proof. apply erase_proc. Qed.

Lemma unlinked_field {A} (g : proc -> A) r r' :
  (forall r, g (unlinked r) = g r) -> unlinked r' = unlinked r -> g r' = g r.
Proof. intros Hg E. rewrite <- (Hg r), <- (Hg r'). by rewrite E. Qed.

Lemma dequeue_ok k rq rp r :
  rqs k rq -> procs k !! rp = Some r -> queue_nr (p_priority r) -> p_rts_flags r <> 0 ->
  exists k', dequeue rp k = Some (tt, k') /\ link_eq k k' /\
    rqs k' (set_q (p_priority r) (remove1 rp (rq (p_priority r))) rq).
Proof.
  intros Hrqs Hr Hq Hfl. unfold dequeue.
  rewrite (bind_run _ _ _ _ _ (rd_run p_priority _ _ _ Hr)).
  rewrite (bind_run _ _ _ _ _ (rd_run p_rts_flags _ _ _ Hr)).
  destruct (Z.eqb_spec (p_rts_flags r) 0); [done|]. rewrite (bind_run (kassert true) _ k tt k eq_refl).
  destruct (unlink_ok k rq _ rp r Hrqs Hq Hr) as (k1 & E1 & Hrqs1 & Hl1).
  rewrite (bind_run _ _ _ _ _ E1). destruct (link_proc _ _ _ _ Hl1 Hr) as (r1 & Hr1 & _).
  rewrite (bind_run _ _ _ _ _ (upd_run _ _ _ _ Hr1)).
  set (k2 := put_proc rp _ k1). assert (procs k2 !! rp = Some (acct (fun a => with_dequeues (u32 (dequeues a + 1)) a) r1)) as Hr2
    by apply lookup_insert_eq.
  assert (link_eq k k2) as Hl2 by (etransitivity; [done|by apply acct_link]).
  assert (rqs k2 (set_q (p_priority r) (remove1 rp (rq (p_priority r))) rq)) as Hrqs2 by (by apply rqs_acct).
  rewrite (bind_run _ _ _ _ _ (rd_run p_accounting _ _ _ Hr2)).
  destruct (_ =? 0); [by exists k2|].
  rewrite (bind_run read_tsc_64 _ _ _ _ eq_refl), (upd_run _ _ _ _ Hr2).
  eexists. split; [done|]. split; [|by apply rqs_acct].
  etransitivity; [done|]. by apply acct_link.
Qed.

Lemma rq_nodup k rq q : rqs k rq -> queue_nr q -> NoDup (rq q).
Proof. intros H Hq. destruct (rqs_chain _ _ H q Hq) as (h & _ & Hc). by eapply chain_nodup. Qed.

(** Taking a process out of the queues and setting flags of it. *)
Lemma rq_ok_block k k' rq rp r r' :
  rq_ok k rq -> procs k !! rp = Some r -> p_rts_flags r' <> 0 -> p_priority r' = p_priority r ->
  link_eq (put_proc rp r' k) k' ->
  rqs k' (set_q (p_priority r) (remove1 rp (rq (p_priority r))) rq) ->
  rq_ok k' (set_q (p_priority r) (remove1 rp (rq (p_priority r))) rq).
Proof.
  intros [Hs He Hp Hn] Hr Hfl Hpr Hl Hs'.
  assert (fld p_rts_flags k' = <[rp := p_rts_flags r']> (fld p_rts_flags k)) as Ef
    by (rewrite <- fld_put; by apply link_fld).
  assert (fld p_priority k' = fld p_priority k) as Ep.
  { rewrite (link_fld p_priority _ _ (fun _ => eq_refl) Hl). by eapply fld_put_same. }
  assert (queue_nr (p_priority r)) as Hq0 by (eapply Hp; by rewrite fld_lookup, Hr).
  split; [done| | |].
  - intros q p Hq. rewrite Ef, Ep. destruct (decide (q = p_priority r)) as [->|Hne].
    + rewrite set_q_same, elem_of_remove1, He by (done || by eapply rq_nodup).
      destruct (decide (p = rp)) as [->|Hpr'].
      * rewrite lookup_insert_eq. split; [by intros [_ []]|]. by intros [[= ?] _].
      * rewrite lookup_insert_ne by done. tauto.
    + rewrite set_q_other, He by done. destruct (decide (p = rp)) as [->|Hpr'].
      * rewrite lookup_insert_eq, !fld_lookup, Hr. simpl. split; [intros [_ [=]]; congruence|by intros [[= ?] _]].
      * by rewrite lookup_insert_ne.
  - intros p q. rewrite Ep. apply Hp.
  - apply (f_equal (fun k => procs k !! 0)) in Hl. rewrite !erase_lookup in Hl. simpl in Hl.
    rewrite lookup_insert_ne in Hl; [|intros ->; congruence]. rewrite Hn in Hl. simpl in Hl.
    by destruct (procs k' !! 0).
Qed.

Lemma lor_nonzero a b : a <> 0 -> Z.lor a b <> 0.
Proof. intros Ha E. apply Z.lor_eq_0_iff in E as [? _]. done. Qed.

(** [rp] stays out of the queues (or in them, when nothing changes). *)
Lemma rq_ok_put k rq rp r r' :
  rq_ok k rq -> procs k !! rp = Some r -> (p_rts_flags r' = 0 <-> p_rts_flags r = 0) ->
  p_priority r' = p_priority r -> p_nextready r' = p_nextready r -> rq_ok (put_proc rp r' k) rq.
Proof.
  intros [Hs He Hp Hn] Hr Hfl Hpr Hnx.
  assert (fld p_priority (put_proc rp r' k) = fld p_priority k) as Ep by (by eapply fld_put_same).
  split.
  - apply (rqs_ext k); [done|done| |done]. by eapply fld_put_same.
  - intros q p Hq. rewrite (He q p Hq), Ep, fld_put. destruct (decide (p = rp)) as [->|Hne].
    + rewrite lookup_insert_eq, !fld_lookup, Hr. simpl. naive_solver congruence.
    + by rewrite lookup_insert_ne.
  - intros p q. rewrite Ep. apply Hp.
  - simpl. rewrite lookup_insert_ne; [done|]. intros ->. congruence.
Qed.

(** [RTS_SET] keeps the queues right; its effect is the new flags. *)
Lemma RTS_SET_ok k rq rp f r :
  rq_ok k rq -> procs k !! rp = Some r ->
  exists k' rq', RTS_SET rp f k = Some (tt, k') /\ rq_ok k' rq' /\
    link_eq (put_proc rp (set_rts f r) k) k'.
Proof.
  intros Hok Hr. unfold RTS_SET.
  rewrite (bind_run _ _ _ _ _ (rd_run p_rts_flags _ _ _ Hr)).
  rewrite (bind_run _ _ _ _ _ (upd_run _ _ _ _ Hr)).
  set (k1 := put_proc rp (set_rts f r) k).
  assert (procs k1 !! rp = Some (set_rts f r)) as Hr1 by apply lookup_insert_eq.
  rewrite (bind_run _ _ _ _ _ (rd_run p_rts_flags _ _ _ Hr1)).
  destruct (Z.eqb_spec (p_rts_flags r) 0) as [E0|E0]; cbn [andb].
  - destruct (Z.eqb_spec (p_rts_flags (set_rts f r)) 0) as [E1|E1]; cbn [negb].
    + exists k1, rq. split; [done|]. split; [|done]. by eapply rq_ok_put.
    + assert (queue_nr (p_priority r)) as Hq by (eapply rq_prio; [done|]; by rewrite fld_lookup, Hr).
      assert (rqs k1 rq) as Hs1.
      { apply (rqs_ext k); [done|done|by eapply fld_put_same|apply Hok]. }
      destruct (dequeue_ok k1 rq rp _ Hs1 Hr1 Hq E1) as (k2 & Ed & Hl & Hs2).
      exists k2. eexists. split; [done|]. split; [|done]. by eapply (rq_ok_block k k2 rq rp r).
  - exists k1, rq. split; [done|]. split; [|done]. eapply rq_ok_put; try done.
    split; [|done]. intros E. by apply (lor_nonzero _ f) in E0.
Qed.

(** The running process exists and has privileges. *)
Definition cpu_ok (k : kstate) : Prop :=
  exists r s, procs k !! proc_ptr k = Some r /\ privs k !! p_priv r = Some s.

Lemma cpu_ok_sched k k' : sched_eq k k' -> cpu_ok k -> cpu_ok k'.
Proof.
  intros Hl (r & s & Hr & Hs). destruct (erase_proc _ _ _ _ _ Hl Hr) as (r' & Hr' & Er').
  pose proof (f_equal proc_ptr Hl) as Ep. pose proof (f_equal privs Hl) as Ev. simpl in Ep, Ev.
  exists r', s. rewrite <- Ep, <- Ev. split; [done|]. by apply (f_equal p_priv) in Er'; simpl in Er'; rewrite Er'.
Qed.

Lemma cpu_ok_link k k' : link_eq k k' -> cpu_ok k -> cpu_ok k'.
Proof. intros Hl. by apply cpu_ok_sched, link_sched. Qed.

Lemma link_resched k k' : link_eq k k' -> resched k k'.
Proof.
  intros E. split; [by apply link_sched|]. intros p. left.
  by rewrite (link_fld p_rts_flags _ _ (fun _ => eq_refl) E).
Qed.

#[global] Instance resched_preorder : PreOrder resched.
Proof.
  split.
  - intros k. by apply link_resched.
  - intros k1 k2 k3 [E1 F1] [E2 F2]. split; [by etransitivity|]. intros p.
    assert (proc_ptr k2 = proc_ptr k1) as Ep by (by apply (f_equal proc_ptr) in E1).
    destruct (F2 p) as [G2|[E' G2]]; rewrite G2; [apply F1|]. rewrite Ep in E'. subst p.
    right. split; [done|]. destruct (F1 (proc_ptr k1)) as [G1|[_ G1]]; rewrite G1; [done|].
    destruct (fld p_rts_flags k1 !! proc_ptr k1); [|done]. simpl. f_equal.
    by rewrite <- Z.lor_assoc, Z.lor_diag.
Qed.

Lemma resched_sched k k' : resched k k' -> sched_eq k k'.
Proof. by intros []. Qed.

(** Setting the preemption flag is invisible up to scheduling. *)
Lemma preempted_sched k p r :
  procs k !! p = Some r -> sched_eq k (put_proc p (set_rts RTS_PREEMPTED r) k).
Proof.
  intros Hr. symmetry. eapply (erase_put_same unsched); [done|].
  unfold unsched, clear_rts, set_rts. destruct r. simpl. unfold with_p_rts_flags, unlinked. simpl. f_equal.
  apply Z.bits_inj'. intros n Hn. rewrite !Z.ldiff_spec, Z.lor_spec.
  by destruct (Z.testbit _ n), (Z.testbit RTS_PREEMPTED n).
Qed.

Lemma preempted_resched k r :
  procs k !! proc_ptr k = Some r -> resched k (put_proc (proc_ptr k) (set_rts RTS_PREEMPTED r) k).
Proof.
  intros Hr. split; [by apply preempted_sched|]. intros p. rewrite fld_put.
  destruct (decide (p = proc_ptr k)) as [->|]; [right; split; [done|]|left; by rewrite lookup_insert_ne].
  by rewrite lookup_insert_eq, fld_lookup, Hr.
Qed.

Lemma preempt_current_ok k rq rp r :
  rq_ok k rq -> cpu_ok k -> procs k !! rp = Some r ->
  exists k' rq', preempt_current rp k = Some (tt, k') /\ rq_ok k' rq' /\ resched k k'.
Proof.
  intros Hok (rc & sc & Hrc & Hsc) Hr. unfold preempt_current.
  rewrite (bind_run (gets proc_ptr) _ _ _ _ eq_refl).
  destruct (Z.eqb_spec (proc_ptr k) 0) as [E|]; [exfalso; by rewrite E, (rq_null _ _ Hok) in Hrc|].
  rewrite (bind_run (kassert true) _ k tt k eq_refl).
  rewrite (bind_run _ _ _ _ _ (rd_run p_priority _ _ _ Hrc)).
  rewrite (bind_run _ _ _ _ _ (rd_run p_priority _ _ _ Hr)).
  destruct (_ <? _); [|by exists k, rq].
  rewrite (bind_run _ _ _ _ _ (rdp_run s_flags _ _ _ _ Hrc Hsc)).
  destruct (has _ _); [|by exists k, rq].
  destruct (RTS_SET_ok k rq _ RTS_PREEMPTED _ Hok Hrc) as (k' & rq' & E & Hok' & Hl).
  exists k', rq'. split_and!; [done|done|]. etransitivity; [apply (preempted_resched _ _ Hrc)|]. by apply link_resched.
Qed.

Lemma note_enter_ok k rq :
  rq_ok k rq -> cpu_ok k ->
  exists k', note_enter_queue k = Some (tt, k') /\ rq_ok k' rq /\ link_eq k k'.
Proof.
  intros Hok (rc & sc & Hrc & _). unfold note_enter_queue.
  rewrite (bind_run (gets proc_ptr) _ _ _ _ eq_refl), (bind_run read_tsc_64 _ _ _ _ eq_refl).
  rewrite (upd_run _ _ _ _ Hrc). eexists. split; [done|]. split; [by eapply rq_ok_put|by apply acct_link].
Qed.

(** The queues before a process that has become runnable is entered. *)
Record rq_pre (k : kstate) (rq : Z -> list Z) (rp : Z) : Prop := {
  pre_struct : rqs k rq;
  pre_elem : forall q p, queue_nr q ->
    p ∈ rq q <-> p <> rp /\ fld p_rts_flags k !! p = Some 0 /\ fld p_priority k !! p = Some q;
  pre_prio : forall p q, fld p_priority k !! p = Some q -> queue_nr q;
  pre_null : procs k !! 0 = None;
}.

Lemma rq_pre_notin k rq rp q : rq_pre k rq rp -> queue_nr q -> rp ∉ rq q.
Proof. intros Hp Hq Hin. by apply (pre_elem _ _ _ Hp) in Hin as [? _]. Qed.

(** A blocked process whose flags are cleared is about to be entered. *)
Lemma rq_pre_put k rq rp r r' :
  rq_ok k rq -> procs k !! rp = Some r -> p_rts_flags r <> 0 ->
  p_priority r' = p_priority r -> p_nextready r' = p_nextready r -> rq_pre (put_proc rp r' k) rq rp.
Proof.
  intros [Hs He Hp Hn] Hr Hfl Hpr Hnx.
  assert (fld p_priority (put_proc rp r' k) = fld p_priority k) as Ep by (by eapply fld_put_same).
  split.
  - apply (rqs_ext k); [done|done| |done]. by eapply fld_put_same.
  - intros q p Hq. rewrite (He q p Hq), Ep, fld_put. destruct (decide (p = rp)) as [->|Hne].
    + rewrite !fld_lookup, Hr. simpl. naive_solver congruence.
    + rewrite lookup_insert_ne by done. tauto.
  - intros p q. rewrite Ep. apply Hp.
  - simpl. rewrite lookup_insert_ne; [done|]. intros ->. congruence.
Qed.

(** Entering it completes the queues. *)
Lemma rq_ok_enter k k' rq rp r l :
  rq_pre k rq rp -> procs k !! rp = Some r -> p_rts_flags r = 0 -> link_eq k k' ->
  (forall p, p ∈ l <-> p = rp \/ p ∈ rq (p_priority r)) ->
  rqs k' (set_q (p_priority r) l rq) -> rq_ok k' (set_q (p_priority r) l rq).
Proof.
  intros [Hs He Hp Hn] Hr Hfl Hl Hin Hs'.
  pose proof (link_fld p_rts_flags _ _ (fun _ => eq_refl) Hl) as Ef.
  pose proof (link_fld p_priority _ _ (fun _ => eq_refl) Hl) as Ep.
  split; [done| | |].
  - intros q p Hq. rewrite Ef, Ep. destruct (decide (q = p_priority r)) as [->|Hne].
    + rewrite set_q_same, Hin, He by done. destruct (decide (p = rp)) as [->|]; [|naive_solver].
      rewrite !fld_lookup, Hr. simpl. rewrite Hfl. tauto.
    + rewrite set_q_other, He by done. destruct (decide (p = rp)) as [->|]; [|tauto].
      rewrite !fld_lookup, Hr. simpl. naive_solver congruence.
  - intros p q. rewrite Ep. apply Hp.
  - apply (f_equal (fun k => procs k !! 0)) in Hl. rewrite !erase_lookup, Hn in Hl. simpl in Hl.
    by destruct (procs k' !! 0).
Qed.

Lemma enqueue_ok k rq rp r :
  rq_pre k rq rp -> cpu_ok k -> procs k !! rp = Some r -> p_rts_flags r = 0 ->
  exists k' rq', enqueue rp k = Some (tt, k') /\ rq_ok k' rq' /\ resched k k'.
Proof.
  intros Hpre Hcpu Hr Hfl. unfold enqueue.
  rewrite (bind_run _ _ _ _ _ (rd_run p_priority _ _ _ Hr)).
  rewrite (bind_run _ _ _ _ _ (rd_run p_rts_flags _ _ _ Hr)).
  rewrite Hfl, (bind_run (kassert (0 =? 0)) _ k tt k eq_refl).
  assert (queue_nr (p_priority r)) as Hq by (eapply pre_prio; [done|]; by rewrite fld_lookup, Hr).
  assert (0 <=? p_priority r = true) as E by (apply Z.leb_le, Hq).
  rewrite E, (bind_run (kassert true) _ k tt k eq_refl).
  destruct (add_tail_ok k rq _ rp r (pre_struct _ _ _ Hpre) Hq Hr) as (k1 & E1 & Hs1 & Hl1).
  { intros ->. by rewrite (pre_null _ _ _ Hpre) in Hr. }
  { intros q' Hq'. by eapply rq_pre_notin. }
  rewrite (bind_run _ _ _ _ _ E1).
  assert (rq_ok k1 (set_q (p_priority r) (rq (p_priority r) ++ [rp]) rq)) as Hok1.
  { eapply rq_ok_enter; try done. intros p. rewrite elem_of_app, list_elem_of_singleton. tauto. }
  destruct (link_proc _ _ _ _ Hl1 Hr) as (r1 & Hr1 & Er1).
  rewrite (bind_run _ _ _ _ _ (rd_run p_cpu _ _ _ Hr1)).
  assert (exists k2 rq2, (if 0 =? p_cpu r1 then preempt_current rp else mret tt) k1 = Some (tt, k2) /\
    rq_ok k2 rq2 /\ resched k1 k2) as (k2 & rq2 & E2 & Hok2 & Hl2).
  { destruct (0 =? _); [|by eexists k1, _]. eapply preempt_current_ok; [done| |done]. by eapply cpu_ok_link. }
  rewrite (bind_run _ _ _ _ _ E2).
  assert (cpu_ok k2) as Hcpu2 by (eapply cpu_ok_sched, cpu_ok_link; [apply Hl2|done|done]).
  destruct (note_enter_ok k2 rq2 Hok2 Hcpu2) as (k3 & E3 & Hok3 & Hl3).
  exists k3, rq2. split_and!; [done|done|].
  etransitivity; [apply link_resched, Hl1|]. etransitivity; [exact Hl2|]. by apply link_resched.
Qed.

Lemma cpu_ok_put k rp r r' :
  procs k !! rp = Some r -> p_priv r' = p_priv r -> cpu_ok k -> cpu_ok (put_proc rp r' k).
Proof.
  intros Hr Hpr (rc & sc & Hrc & Hsc). unfold cpu_ok. simpl.
  destruct (decide (rp = proc_ptr k)) as [->|].
  - rewrite lookup_insert_eq. simplify_eq. exists r', sc. by rewrite Hpr.
  - rewrite lookup_insert_ne by done. by exists rc, sc.
Qed.

(** [RTS_UNSET] keeps the queues right; up to scheduling its effect is the new
    flags. *)
Lemma RTS_UNSET_ok k rq rp f r :
  rq_ok k rq -> cpu_ok k -> procs k !! rp = Some r ->
  exists k' rq', RTS_UNSET rp f k = Some (tt, k') /\ rq_ok k' rq' /\
    resched (put_proc rp (clear_rts f r) k) k'.
Proof.
  intros Hok Hcpu Hr. unfold RTS_UNSET.
  rewrite (bind_run _ _ _ _ _ (rd_run p_rts_flags _ _ _ Hr)).
  rewrite (bind_run _ _ _ _ _ (upd_run _ _ _ _ Hr)).
  set (k1 := put_proc rp (clear_rts f r) k).
  assert (procs k1 !! rp = Some (clear_rts f r)) as Hr1 by apply lookup_insert_eq.
  rewrite (bind_run _ _ _ _ _ (rd_run p_rts_flags _ _ _ Hr1)).
  assert (cpu_ok k1) as Hcpu1 by (by eapply cpu_ok_put).
  destruct (Z.eqb_spec (p_rts_flags r) 0) as [E0|E0]; cbn [negb andb].
  - exists k1, rq. split; [done|]. split; [|done]. eapply rq_ok_put; try done.
    split; [done|]. intros _. simpl. by rewrite E0, Z.ldiff_0_l.
  - destruct (Z.eqb_spec (p_rts_flags (clear_rts f r)) 0) as [E1|E1].
    + eapply enqueue_ok; [by eapply rq_pre_put|done|done|done].
    + exists k1, rq. split; [done|]. split; [|done]. by eapply rq_ok_put.
Qed.

(** ** [pick_proc] *)

(** Flags that keep processes without privileges from running. *)
Definition UNPRIV : Z := Z.lor RTS_SLOT_FREE RTS_NO_PRIV.

(** The other processes have privileges. *)
Definition privs_ok (k : kstate) : Prop :=
  forall p r, procs k !! p = Some r -> has (p_rts_flags r) UNPRIV = false -> is_Some (privs k !! p_priv r).

Lemma elem_of_queues q : q ∈ queues <-> queue_nr q.
Proof. unfold queues, queue_nr. rewrite elem_of_seqZ. unfold NR_SCHED_QUEUES. lia. Qed.

Lemma rq_head_cons k rq q h :
  rqs k rq -> queue_nr q -> run_q_head k !! q = Some h ->
  (h = 0 /\ rq q = []) \/ (h <> 0 /\ exists l, rq q = h :: l).
Proof.
  intros Hrqs Hq Eh. destruct (rqs_chain _ _ Hrqs q Hq) as (h' & Eh' & Hc). simplify_eq.
  destruct (decide (h = 0)) as [->|Hne]; [left; split; [done|by eapply chain_nil_inv]|].
  right. split; [done|]. destruct (chain_cons_inv _ _ _ Hc Hne) as (? & l & -> & _). by exists l.
Qed.

Lemma pick_loop_ok k rq qs :
  rq_ok k rq -> privs_ok k -> (forall q, q ∈ qs -> queue_nr q) ->
  (exists qs1 q qs2 rp l r s k', qs = qs1 ++ q :: qs2 /\ (forall q', q' ∈ qs1 -> rq q' = []) /\
     rq q = rp :: l /\ procs k !! rp = Some r /\ privs k !! p_priv r = Some s /\
     pick_loop qs k = Some (rp, k') /\
     (k' = k \/ k' = with_bill_ptr rp k)) \/
  ((forall q, q ∈ qs -> rq q = []) /\ pick_loop qs k = Some (0, k)).
Proof.
  intros Hok Hpriv. induction qs as [|q qs IH]; intros Hqs; [right; split; [set_solver|done]|].
  assert (queue_nr q) as Hq by (apply Hqs; left).
  destruct (rqs_chain _ _ (rq_struct _ _ Hok) q Hq) as (h & Eh & _).
  cbn [pick_loop]. rewrite (bind_run _ _ _ _ _ (rd_head_run _ _ _ Eh)).
  destruct (rq_head_cons _ _ _ _ (rq_struct _ _ Hok) Hq Eh) as [[-> El]|[Hh [l El]]].
  - cbn. destruct IH as [(qs1&q'&qs2&rp&l&r&s&k'&->&He&Hrest)|[He Ep]]; [intros; apply Hqs; by right| |].
    + left. exists (q :: qs1), q', qs2, rp, l, r, s, k'. split; [done|]. split; [|done].
      intros q0 [->|]%elem_of_cons; auto.
    + right. split; [|done]. intros q0 [->|]%elem_of_cons; auto.
  - left. destruct (Z.eqb_spec h 0); [done|].
    assert (h ∈ rq q) as Hin by (rewrite El; left).
    apply (rq_elem _ _ Hok) in Hin as [Hfl Hpr]; [|done].
    rewrite fld_lookup in Hfl. destruct (procs k !! h) as [r|] eqn:Hr; [|done]. simpl in Hfl.
    injection Hfl as Hfl. destruct (Hpriv _ _ Hr) as [s Hs]; [by rewrite Hfl|].
    rewrite (bind_run _ _ _ _ _ (rd_run p_rts_flags _ _ _ Hr)).
    rewrite Hfl, (bind_run (kassert (0 =? 0)) _ k tt k eq_refl).
    rewrite (bind_run _ _ _ _ _ (rdp_run s_flags _ _ _ _ Hr Hs)).
    destruct (has _ BILLABLE); [exists [], q, qs, h, l, r, s, (with_bill_ptr h k)|exists [], q, qs, h, l, r, s, k];
      (split_and!; [done|set_solver|done|done|done|done|auto]).
Qed.

(** [pick_proc] chooses the process at the front of the highest-priority
    queue that is not empty, so no runnable process has a higher priority than
    the chosen one, and it finds no process exactly when none is runnable; none
    of its assertions fails. *)
Theorem pick_proc_highest k rq :
  rq_ok k rq -> privs_ok k ->
  exists rp k', pick_proc k = Some (rp, k') /\ procs k' = procs k /\
    ((rp = 0 /\ forall p, fld p_rts_flags k !! p <> Some 0) \/
     (exists q l, rq q = rp :: l /\ fld p_rts_flags k !! rp = Some 0 /\ fld p_priority k !! rp = Some q /\
       forall p q', fld p_rts_flags k !! p = Some 0 -> fld p_priority k !! p = Some q' -> q <= q')).
Proof.
  intros Hok Hpriv.
  destruct (pick_loop_ok k rq queues Hok Hpriv (fun q => proj1 (elem_of_queues q)))
    as [(qs1&q&qs2&rp&l&r&s&k'&Eqs&Hempty&El&Hr&_&Ep&Hk')|[Hempty Ep]].
  - exists rp, k'. split; [exact Ep|]. split; [by destruct Hk' as [->| ->]|]. right. exists q, l.
    assert (queue_nr q) as Hq by (apply elem_of_queues; rewrite Eqs; set_solver).
    assert (rp ∈ rq q) as Hin by (rewrite El; left).
    apply (rq_elem _ _ Hok) in Hin as [Hfl Hpr]; [|done]. split_and!; [done..|].
    intros p q' Hp Hq'. assert (queue_nr q') as Hqn by (by eapply rq_prio).
    assert (p ∈ rq q') as Hin by (by apply (rq_elem _ _ Hok)).
    assert (q' ∉ qs1) as Hn1 by (intros Hq1; rewrite (Hempty _ Hq1) in Hin; set_solver).
    apply elem_of_queues in Hqn. rewrite Eqs in Hqn.
    assert (StronglySorted Z.lt queues) as Hsort.
    { repeat (constructor; [|repeat (constructor; [lia|]); constructor]). constructor. }
    rewrite Eqs in Hsort. apply elem_of_app in Hqn as [|[->|Hq2]%elem_of_cons]; [done|lia|].
    apply StronglySorted_app_1_r in Hsort. inversion Hsort as [|? ? _ Hall]; subst.
    rewrite Forall_forall in Hall. specialize (Hall _ Hq2). lia.
  - exists 0, k. split; [exact Ep|]. split; [done|]. left. split; [done|]. intros p Hp.
    pose proof Hp as Hp'. rewrite fld_lookup in Hp'. destruct (procs k !! p) as [r|] eqn:Hr; [|done].
    assert (fld p_priority k !! p = Some (p_priority r)) as Hpr by (by rewrite fld_lookup, Hr).
    assert (queue_nr (p_priority r)) as Hq by (by eapply rq_prio).
    assert (p ∈ rq (p_priority r)) as Hin by (by apply (rq_elem _ _ Hok)).
    rewrite Hempty in Hin by (by apply elem_of_queues). set_solver.
Qed.

(** ** The kernel's own check *)

(** All slots exist; the idle process, outside of the table, is stopped. *)
Record table_ok (k : kstate) : Prop := {
  tbl_slots : forall p, in_table p = true -> is_Some (procs k !! p);
  tbl_idle : forall p r, procs k !! p = Some r -> in_table p = false -> has (p_rts_flags r) RTS_PROC_STOP = true;
}.

Lemma runnable_in_table k p : table_ok k -> fld p_rts_flags k !! p = Some 0 -> in_table p = true.
Proof.
  intros [_ Hi] Hp. rewrite fld_lookup in Hp. destruct (procs k !! p) as [r|] eqn:Hr; [|done].
  destruct (in_table p) eqn:E; [done|]. apply (Hi _ _ Hr) in E. simpl in Hp. injection Hp as Hp.
  by rewrite Hp, has_zero in E.
Qed.

Lemma elem_of_slots p : p ∈ all_slots <-> in_table p = true.
Proof.
  unfold all_slots, in_table, proc_addr. rewrite elem_of_seqZ, andb_true_iff, Z.leb_le, Z.ltb_lt.
  unfold NR_TASKS, NR_PROCS. lia.
Qed.

Lemma found_bound (found : gset Z) :
  (forall p, p ∈ found -> in_table p = true) -> Z.of_nat (size found) <= MAX_LOOP.
Proof.
  intros H. assert (found ⊆ list_to_set all_slots) as Hsub.
  { intros p Hp. rewrite elem_of_list_to_set, elem_of_slots. auto. }
  apply subseteq_size in Hsub. rewrite size_list_to_set in Hsub by (apply NoDup_seqZ).
  unfold all_slots in Hsub. rewrite length_seqZ in Hsub. change (NR_TASKS + NR_PROCS) with 261 in Hsub.
  change MAX_LOOP with 261. lia.
Qed.

(** Walking the rest [l2] of a queue. *)
Lemma check_list_ok k rq q tail fuel l1 l2 xp (found : gset Z) :
  rq_ok k rq -> table_ok k -> queue_nr q -> rq q = l1 ++ l2 -> tail = default 0 (last (rq q)) ->
  chain (links (fld p_nextready k)) xp l2 -> (length l2 < fuel)%nat ->
  (forall p, p ∈ found -> in_table p = true) -> (forall p, p ∈ l2 -> p ∉ found) ->
  check_list fuel q tail xp found (Z.of_nat (size found)) k =
    Some (Some (list_to_set l2 ∪ found, Z.of_nat (size (list_to_set l2 ∪ found : gset Z))), k).
Proof.
  intros Hok Htb Hq. revert l1 xp found fuel.
  induction l2 as [|x l2 IH]; intros l1 xp found [|fuel] El Et Hc Hf Htab Hdis; simpl in Hf; try lia.
  - apply chain_nil_head in Hc as ->. cbn. by rewrite (left_id_L ∅ (∪)).
  - destruct (chain_cons_head _ _ _ _ Hc) as [-> Hx0].
    destruct (chain_cons_inv _ _ _ Hc Hx0) as (nx & l2' & [= <-] & Hnx & Hc').
    assert (xp ∈ rq q) as Hin by (rewrite El; set_solver).
    pose proof Hin as [Hfl Hpr]%(rq_elem _ _ Hok); [|done].
    pose proof (runnable_in_table _ _ Htb Hfl) as Ht.
    rewrite fld_lookup in Hfl, Hpr, Hnx. destruct (procs k !! xp) as [r|] eqn:Hr; [|done].
    simpl in *. injection Hfl as Hfl. injection Hpr as Hpr. injection Hnx as <-.
    destruct (Z.eqb_spec xp 0); [done|]. rewrite Ht. cbn [negb].
    rewrite (bind_run _ _ _ _ _ (rd_run p_rts_flags _ _ _ Hr)), Hfl.
    change (RTS_ISSET 0 RTS_SLOT_FREE) with false. cbv iota. cbn [Z.eqb negb].
    rewrite (bind_run _ _ _ _ _ (rd_run p_priority _ _ _ Hr)), Hpr, Z.eqb_refl. cbn [negb].
    rewrite bool_decide_eq_false_2 by (apply Hdis; left).
    rewrite (bind_run _ _ _ _ _ (rd_run p_nextready _ _ _ Hr)).
    assert ((p_nextready r =? 0) && negb (tail =? xp) = false) as ->.
    { destruct (Z.eqb_spec (p_nextready r) 0) as [E|]; [|done]. rewrite E in Hc'.
      apply chain_nil_inv in Hc' as ->. rewrite Et, El, last_snoc. simpl. by rewrite Z.eqb_refl. }
    pose proof (found_bound _ Htab) as Hb. destruct (Z.ltb_spec MAX_LOOP (Z.of_nat (size found))); [lia|].
    assert (xp ∉ found) as Hxf by (apply Hdis; left).
    assert (Z.of_nat (size found) + 1 = Z.of_nat (size ({[xp]} ∪ found))) as ->.
    { rewrite size_union by set_solver. rewrite size_singleton. lia. }
    assert (NoDup (xp :: l2)) as [Hnd _]%NoDup_cons by (by eapply chain_nodup).
    rewrite (IH (l1 ++ [xp])); [|by rewrite <- app_assoc|done|done|lia| |].
    + assert (list_to_set l2 ∪ ({[xp]} ∪ found) = {[xp]} ∪ list_to_set l2 ∪ found) as -> by set_solver. done.
    + intros p [->%elem_of_singleton|Hp]%elem_of_union; auto.
    + intros p Hp. rewrite not_elem_of_union, not_elem_of_singleton.
      split; [by intros ->|apply Hdis; by right].
Qed.

(** The slots of some queues. *)
Definition queued (rq : Z -> list Z) (qs : list Z) : gset Z := ⋃ ((fun q => list_to_set (rq q)) <$> qs).

Lemma elem_of_queued rq qs p : p ∈ queued rq qs <-> exists q, q ∈ qs /\ p ∈ rq q.
Proof.
  unfold queued. rewrite elem_of_union_list. split.
  - intros (X & HX & Hp). apply list_elem_of_fmap in HX as (q & -> & Hq). exists q.
    by rewrite elem_of_list_to_set in Hp.
  - intros (q & Hq & Hp). exists (list_to_set (rq q)). rewrite elem_of_list_to_set.
    split; [|done]. apply list_elem_of_fmap. by exists q.
Qed.

Lemma tail_last k rq q t :
  rqs k rq -> queue_nr q -> last (rq q) = Some t ->
  t <> 0 /\ exists r, procs k !! t = Some r /\ p_nextready r = 0.
Proof.
  intros Hrqs Hq Ht. destruct (rqs_chain _ _ Hrqs q Hq) as (h & _ & Hc).
  apply last_Some in Ht as [l' El]. rewrite El in Hc. apply lseg_app_inv in Hc as (p & _ & Hc).
  inversion Hc as [|? nx ? ? Ht0 Hnx Hn]; subst. inversion Hn; subst. split; [done|].
  rewrite fld_lookup in Hnx. destruct (procs k !! t) as [r|]; [|done]. injection Hnx as Hnx. by exists r.
Qed.

Lemma check_queues_ok k rq qs (found : gset Z) :
  rq_ok k rq -> table_ok k -> NoDup qs -> (forall q, q ∈ qs -> queue_nr q) ->
  (forall p, p ∈ found -> in_table p = true) -> (forall q p, q ∈ qs -> p ∈ rq q -> p ∉ found) ->
  check_queues qs found (Z.of_nat (size found)) k = Some (Some (queued rq qs ∪ found), k).
Proof.
  intros Hok Htb. revert found. induction qs as [|q qs IH]; intros found Hnd Hqs Htab Hdis.
  - cbn. by rewrite (left_id_L ∅ (∪)).
  - apply NoDup_cons in Hnd as [Hqn Hnd]. assert (queue_nr q) as Hq by (apply Hqs; left).
    destruct (rqs_chain _ _ (rq_struct _ _ Hok) q Hq) as (h & Eh & Hc).
    pose proof (rqs_tail _ _ (rq_struct _ _ Hok) q Hq) as Et.
    cbn [check_queues]. rewrite (bind_run _ _ _ _ _ (rd_head_run _ _ _ Eh)).
    rewrite (bind_run _ _ _ _ _ (rd_tail_run _ _ _ Et)).
    assert (forall p, p ∈ rq q -> in_table p = true) as Hint.
    { intros p Hp. eapply runnable_in_table; [done|]. by apply (rq_elem _ _ Hok) in Hp as []. }
    assert ((negb (h =? 0) && (default 0 (last (rq q)) =? 0) = false) /\
            ((h =? 0) && negb (default 0 (last (rq q)) =? 0) = false) /\
            (if default 0 (last (rq q)) =? 0 then mret 0 else rd p_nextready (default 0 (last (rq q)))) k =
              Some (0, k)) as (-> & -> & Ern).
    { destruct (rq_head_cons _ _ _ _ (rq_struct _ _ Hok) Hq Eh) as [[-> ->]|[Hh [l El]]]; [done|].
      destruct (last (rq q)) as [t|] eqn:Elast; [|apply last_None in Elast; congruence].
      destruct (tail_last _ _ _ _ (rq_struct _ _ Hok) Hq Elast) as (Ht0 & r & Hr & Hrn). simpl.
      destruct (Z.eqb_spec h 0); [done|]. destruct (Z.eqb_spec t 0); [done|].
      by rewrite (rd_run p_nextready _ _ _ Hr), Hrn. }
    rewrite (bind_run _ _ _ _ _ Ern). cbn [Z.eqb negb].
    rewrite (bind_run (gets (fun k => size (procs k))) _ k (size (procs k)) k eq_refl).
    erewrite bind_run; [|apply (check_list_ok k rq q _ _ [] (rq q)); try done].
    + cbn iota. rewrite IH; [|done|intros; apply Hqs; by right| |].
      * assert (queued rq (q :: qs) = list_to_set (rq q) ∪ queued rq qs) as -> by done.
        do 2 f_equal. f_equal. set_solver.
      * intros p [Hp%elem_of_list_to_set|Hp]%elem_of_union; auto.
      * intros q' p Hq' Hp. rewrite not_elem_of_union, elem_of_list_to_set. split.
        -- intros Hp'. apply Hqn. assert (q' = q) as <-; [|done].
           eapply (rqs_disj _ _ (rq_struct _ _ Hok)); try done. apply Hqs. by right.
        -- eapply Hdis; [|done]. by right.
    + pose proof (chain_length _ _ _ Hc) as Hlen. unfold fld in Hlen. rewrite map_size_fmap in Hlen. lia.
    + intros p Hp. eapply Hdis; [|done]. left.
Qed.

Lemma check_procs_ok k rq xs (found : gset Z) :
  (forall p, p ∈ xs -> is_Some (procs k !! p)) ->
  (forall p, p ∈ xs -> fld p_rts_flags k !! p = Some 0 -> p ∈ found) ->
  rq_ok k rq -> check_procs xs found k = Some (true, k).
Proof.
  intros Hs Hf Hok. induction xs as [|x xs IH]; [done|]. cbn [check_procs].
  destruct (Hs x) as [r Hr]; [left|]. rewrite (bind_run _ _ _ _ _ (rd_run p_rts_flags _ _ _ Hr)).
  assert (check_procs xs found k = Some (true, k)) as E.
  { apply IH; intros; [apply Hs|apply Hf]; by try right. }
  destruct (_ =? RTS_SLOT_FREE); [done|].
  destruct (Z.eqb_spec (p_rts_flags r) 0) as [E0|]; [|done].
  rewrite bool_decide_eq_true_2; [done|]. apply Hf; [left|]. by rewrite fld_lookup, Hr, <- E0.
Qed.

Lemma runqueues_ok k rq : rq_ok k rq -> table_ok k -> runqueues_ok_cpu k = Some (true, k).
Proof.
  intros Hok Htb. unfold runqueues_ok_cpu.
  assert (check_queues queues ∅ 0 k = Some (Some (queued rq queues ∪ ∅), k)) as E.
  { pose proof (check_queues_ok k rq queues ∅ Hok Htb) as E. rewrite size_empty in E. apply E.
    - apply NoDup_seqZ.
    - intros q. apply elem_of_queues.
    - intros p []%elem_of_empty.
    - intros q p _ _. apply not_elem_of_empty. }
  rewrite (bind_run _ _ _ _ _ E). apply (check_procs_ok k rq); [|..|done].
  - intros p Hp. apply tbl_slots; [done|]. by apply elem_of_slots.
  - intros p Hp Hfl. apply elem_of_union_l, elem_of_queued.
    assert (exists q, fld p_priority k !! p = Some q) as [q Hq].
    { rewrite fld_lookup in *. destruct (procs k !! p); [|done]. by eexists. }
    exists q. assert (queue_nr q) by (by eapply rq_prio).
    split; [by apply elem_of_queues|]. by apply (rq_elem _ _ Hok).
Qed.

(** ** Preempted processes go back to the front of their queue *)

Lemma add_head_ok k rq q rp r :
  rqs k rq -> queue_nr q -> procs k !! rp = Some r -> rp <> 0 ->
  (forall q', queue_nr q' -> rp ∉ rq q') ->
  exists k', add_head q rp k = Some (tt, k') /\ rqs k' (set_q q (rp :: rq q) rq) /\ link_eq k k'.
Proof.
  intros Hrqs Hq Hr Hrp Hnin. destruct (rqs_chain _ _ Hrqs q Hq) as (h & Eh & Hc).
  destruct (Z.eqb_spec h 0) as [->|Hh].
  - apply chain_nil_inv in Hc as El. destruct (add_tail_ok k rq q rp r) as (k' & E & H); try done.
    exists k'. split; [|by rewrite El in *]. unfold add_head, add_tail in *.
    rewrite (bind_run _ _ _ _ _ (rd_head_run _ _ _ Eh)) in E.
    rewrite (bind_run _ _ _ _ _ (rd_head_run _ _ _ Eh)). exact E.
  - unfold add_head. rewrite (bind_run _ _ _ _ _ (rd_head_run _ _ _ Eh)).
    destruct (Z.eqb_spec h 0); [done|]. rewrite (bind_run _ _ _ _ _ (upd_run _ _ _ _ Hr)).
    erewrite wr_head_run by exact Eh. eexists. split; [done|].
    split; [|symmetry; by eapply (erase_put_same unlinked)].
    destruct (rq_head_cons _ _ _ _ Hrqs Hq Eh) as [[? _]|[_ [l El]]]; [done|].
    eapply (rqs_replace k _ rq q rp (rp :: rq q)); try done; simpl.
    + by rewrite lookup_insert_eq.
    + intros. by rewrite lookup_insert_ne.
    + rewrite (rqs_tail _ _ Hrqs q Hq), El. done.
    + change (fld p_nextready (with_run_q_head _ ?s)) with (fld p_nextready s). rewrite fld_put.
      econstructor; [done|by rewrite lookup_insert_eq|]. simpl.
      eapply lseg_ext, Hc. intros x Hx. rewrite lookup_insert_ne; [done|]. intros ->. by eapply Hnin.
    + intros q' p Hq' Hne Hp. assert (p <> rp) by (intros ->; by eapply Hnin).
      change (fld p_nextready (with_run_q_head _ ?s)) with (fld p_nextready s).
      rewrite fld_put, lookup_insert_ne by done. split; [|done].
      intros [->|Hp']%elem_of_cons; [done|]. apply Hne. by eapply rqs_disj.
Qed.

Lemma enqueue_head_ok k rq rp r :
  rq_pre k rq rp -> cpu_ok k -> procs k !! rp = Some r -> p_rts_flags r = 0 -> p_cpu_time_left r <> 0 ->
  exists k' rq', enqueue_head rp k = Some (tt, k') /\ rq_ok k' rq' /\ link_eq k k'.
Proof.
  intros Hpre Hcpu Hr Hfl Hleft. unfold enqueue_head.
  rewrite (bind_run _ _ _ _ _ (rd_run p_priority _ _ _ Hr)).
  rewrite (bind_run _ _ _ _ _ (rd_run p_rts_flags _ _ _ Hr)).
  rewrite Hfl, (bind_run (kassert (0 =? 0)) _ k tt k eq_refl).
  rewrite (bind_run _ _ _ _ _ (rd_run p_cpu_time_left _ _ _ Hr)).
  destruct (Z.eqb_spec (p_cpu_time_left r) 0); [done|]. rewrite (bind_run (kassert true) _ k tt k eq_refl).
  assert (queue_nr (p_priority r)) as Hq by (eapply pre_prio; [done|]; by rewrite fld_lookup, Hr).
  assert (0 <=? p_priority r = true) as E by (apply Z.leb_le, Hq).
  rewrite E, (bind_run (kassert true) _ k tt k eq_refl).
  destruct (add_head_ok k rq _ rp r (pre_struct _ _ _ Hpre) Hq Hr) as (k1 & E1 & Hs1 & Hl1).
  { intros ->. by rewrite (pre_null _ _ _ Hpre) in Hr. }
  { intros q' Hq'. by eapply rq_pre_notin. }
  rewrite (bind_run _ _ _ _ _ E1).
  assert (rq_ok k1 (set_q (p_priority r) (rp :: rq (p_priority r)) rq)) as Hok1.
  { eapply rq_ok_enter; try done. intros p. by rewrite elem_of_cons. }
  destruct (note_enter_ok k1 _ Hok1 (cpu_ok_link _ _ Hl1 Hcpu)) as (k2 & E2 & Hok2 & Hl2).
  rewrite (bind_run _ _ _ _ _ E2).
  destruct (link_proc _ _ _ _ (transitivity Hl1 Hl2) Hr) as (r2 & Hr2 & _).
  rewrite (upd_run _ _ _ _ Hr2). eexists _, _. split; [done|]. split; [by eapply rq_ok_put|].
  etransitivity; [exact Hl1|]. etransitivity; [exact Hl2|]. by apply acct_link.
Qed.

(** [not_runnable_pick_new]: the preempted process is put back. *)
Definition requeue_preempted (p : Z) : K unit :=
  fl ← rd p_rts_flags p;
  if has fl RTS_PREEMPTED
  then
    upd p (clear_rts RTS_PREEMPTED);;
    fl' ← rd p_rts_flags p;
    if fl' =? 0
    then left ← rd p_cpu_time_left p;
         if negb (left =? 0) then enqueue_head p else enqueue p
    else mret tt
  else mret tt.

Lemma requeue_ok k rq p r :
  rq_ok k rq -> cpu_ok k -> procs k !! p = Some r ->
  exists k' rq', requeue_preempted p k = Some (tt, k') /\ rq_ok k' rq' /\ sched_eq k k'.
Proof.
  intros Hok Hcpu Hr. unfold requeue_preempted.
  rewrite (bind_run _ _ _ _ _ (rd_run p_rts_flags _ _ _ Hr)).
  destruct (has (p_rts_flags r) RTS_PREEMPTED) eqn:Eh; [|by exists k, rq].
  assert (p_rts_flags r <> 0) as Hne by (intros E; by rewrite E, has_zero in Eh).
  rewrite (bind_run _ _ _ _ _ (upd_run _ _ _ _ Hr)). set (k1 := put_proc p _ k).
  assert (procs k1 !! p = Some (clear_rts RTS_PREEMPTED r)) as Hr1 by apply lookup_insert_eq.
  assert (cpu_ok k1) as Hcpu1 by (by eapply cpu_ok_put).
  assert (sched_eq k k1) as Hs1.
  { symmetry. eapply (erase_put_same unsched); [done|]. unfold unsched, clear_rts. destruct r. simpl.
    unfold with_p_rts_flags, unlinked. simpl. f_equal. by rewrite Z.ldiff_ldiff_l, Z.lor_diag. }
  rewrite (bind_run _ _ _ _ _ (rd_run p_rts_flags _ _ _ Hr1)).
  destruct (Z.eqb_spec (p_rts_flags (clear_rts RTS_PREEMPTED r)) 0) as [E0|E0].
  2:{ exists k1, rq. split_and!; [done| |done]. eapply rq_ok_put; try done. }
  assert (rq_pre k1 rq p) as Hpre by (by eapply rq_pre_put).
  rewrite (bind_run _ _ _ _ _ (rd_run p_cpu_time_left _ _ _ Hr1)).
  destruct (Z.eqb_spec (p_cpu_time_left (clear_rts RTS_PREEMPTED r)) 0) as [El|El]; cbn [negb].
  - destruct (enqueue_ok k1 rq p _ Hpre Hcpu1 Hr1 E0) as (k' & rq' & E & Hok' & Hs').
    exists k', rq'. split_and!; [done|done|]. transitivity k1; [done|]. by apply resched_sched.
  - destruct (enqueue_head_ok k1 rq p _ Hpre Hcpu1 Hr1 E0 El) as (k' & rq' & E & Hok' & Hl').
    exists k', rq'. split_and!; [done|done|]. transitivity k1; [done|]. by apply link_sched.
Qed.

Lemma slots_nodup : NoDup all_slots.
Proof. apply NoDup_seqZ. Qed.

#[global] Opaque queues all_slots.
