(* ===== verification/KBoot.v ===== *)
(** The tables before and after [proc_init] of kernel/proc.c, and the scheduler
    as a machine that sets and clears flags and chooses processes: its steps
    keep the invariant of the ready queues. *)

From S2P Require Import Prelude Chain Timers KState KSched.
Local Open Scope Z_scope.

(** ** Zero-initialised tables *)

Definition zero_message : message := Message 0 0 (Payload []).

Definition zero_proc : proc :=
  Proc 0 null_priv 0 0 0 0 0 0 0 (Accounting 0 0 0 0 0 0) 0 0 0 0 0 0 0 0 0 0 ∅ 0 zero_message zero_message 0
    (0, 0, 0) 0 0 OK.

Definition zero_priv : priv := Priv 0 0 0 0 0 0 (0, 0) 0 0 (0, 0) (0, 0) 0 ∅ false
  (Resources [0; 0] 0 ∅ 0 ∅ 0 ∅ 0 0).

Definition priv_slots : list Z := seqZ 0 NR_SYS_PROCS.

Definition zero_queues : gmap Z Z := list_to_map ((fun q => (q, 0)) <$> queues).

(** The kernel's memory before [proc_init], on a machine with the given
    contents of user memory. *)
Definition bss (ms : Z) (um : gmap (Z * Z) message) (ut : gmap (Z * Z) (asynmsg * bool)) : kstate :=
  KState (list_to_map ((fun p => (p, zero_proc)) <$> idle_proc :: all_slots))
    (list_to_map ((fun i => (i, zero_priv)) <$> idle_priv :: priv_slots))
    zero_queues zero_queues 0 0
    (TmrQ 0 ∅ ∅ ∅) ∅ 0 0 0 0 0
    (Loadinfo ∅ 0 0) 0 0 0 ms 0 um ut.

(** ** [proc_init] *)

Definition IDL_F : Z := Z.lor SYS_PROC BILLABLE.

Definition init_slot (rp : Z) : K unit :=
  let i := rp - proc_addr 0 in
  upd rp (fun r =>
    with_p_quantum_size_ms 0 (with_p_priority 0 (with_p_scheduler 0
      (with_p_endpoint (_ENDPOINT 0 i) (with_p_nr i (with_p_rts_flags RTS_SLOT_FREE r)))))).

Definition init_priv (i : Z) : K unit :=
  upda i (fun s => with_s_bak_sig_mgr NONE (with_s_sig_mgr NONE (with_s_id i (with_s_proc_nr NONE s)))).

Definition init_idle : K unit :=
  upd idle_proc (fun r => set_rts RTS_PROC_STOP (with_p_priv idle_priv (with_p_endpoint IDLE r))).

Definition proc_init : K unit :=
  kfor all_slots init_slot;;
  kfor priv_slots init_priv;;
  upda idle_priv (with_s_flags IDL_F);;
  init_idle.

Lemma elem_of_priv_slots i : i ∈ priv_slots <-> 0 <= i < NR_SYS_PROCS.
Proof. unfold priv_slots. rewrite elem_of_seqZ. lia. Qed.

(** ** The scheduler as a machine *)

(** [idle]: the idle process becomes current. *)
Definition idle : K unit :=
  modify (with_proc_ptr idle_proc);;
  fl ← rdp s_flags idle_proc;
  if has fl BILLABLE then modify (with_bill_ptr idle_proc) else mret tt.

(** One round of [while (!(p = pick_proc())) idle();] and the switch to the
    process found. *)
Definition next_proc : K unit :=
  p ← pick_proc;
  if p =? 0 then idle else modify (with_proc_ptr p).

Inductive sched_op :=
| SetFlag (p f : Z)
| UnsetFlag (p f : Z)
| Requeue (p : Z)
| NextProc.

Definition sched_step (op : sched_op) : K unit :=
  match op with
  | SetFlag p f => RTS_SET p f
  | UnsetFlag p f => RTS_UNSET p f
  | Requeue p => requeue_preempted p
  | NextProc => next_proc
  end.

Fixpoint sched_run (ops : list sched_op) : K unit :=
  match ops with [] => mret tt | op :: ops' => sched_step op;; sched_run ops' end.

(** The flags of processes in the table are set and cleared. *)
Definition sched_op_ok (op : sched_op) : Prop :=
  match op with
  | SetFlag p _ | Requeue p => in_table p = true
  | UnsetFlag p f => in_table p = true /\ Z.land f UNPRIV = 0
  | NextProc => True
  end.

Record sched_inv (k : kstate) (rq : Z -> list Z) : Prop := {
  si_rq : rq_ok k rq;
  si_cpu : cpu_ok k;
  si_table : table_ok k;
  si_privs : privs_ok k;
  si_idle : exists r s, procs k !! idle_proc = Some r /\ privs k !! p_priv r = Some s;
}.

Lemma sched_proc_back k k' p r' :
  sched_eq k k' -> procs k' !! p = Some r' -> exists r, procs k !! p = Some r /\ unsched r' = unsched r.
Proof. intros E Hr. symmetry in E. destruct (erase_proc _ _ _ _ _ E Hr) as (r & ? & ?). by exists r. Qed.

Lemma table_ok_sched k k' : sched_eq k k' -> table_ok k -> table_ok k'.
Proof.
  intros E [Hs Hi]. split.
  - intros p [r Hr]%Hs. destruct (erase_proc _ _ _ _ _ E Hr) as (r' & ? & _). by exists r'.
  - intros p r' Hr' Hp. destruct (sched_proc_back _ _ _ _ E Hr') as (r & Hr & Er).
    specialize (Hi _ _ Hr Hp). apply (f_equal p_rts_flags) in Er. simpl in Er.
    rewrite <- (has_ldiff_disj _ RTS_PREEMPTED) by done. rewrite Er. by rewrite has_ldiff_disj.
Qed.

Lemma privs_ok_sched k k' : sched_eq k k' -> privs_ok k -> privs_ok k'.
Proof.
  intros E Hp p r' Hr' Hf. destruct (sched_proc_back _ _ _ _ E Hr') as (r & Hr & Er).
  pose proof (f_equal p_rts_flags Er) as Ef. simpl in Ef.
  rewrite <- (has_ldiff_disj _ RTS_PREEMPTED), Ef, has_ldiff_disj in Hf by done.
  specialize (Hp _ _ Hr Hf). apply (f_equal p_priv) in Er. simpl in Er. rewrite Er.
  by rewrite <- (f_equal privs E : privs k = privs k').
Qed.

(** The parts of the invariant besides the queues, across an assignment to a
    slot of the table that keeps the privileges. *)
Lemma sched_inv_put k rq k' rq' p r r' :
  sched_inv k rq -> in_table p = true -> procs k !! p = Some r -> p_priv r' = p_priv r ->
  (has (p_rts_flags r') UNPRIV = false -> has (p_rts_flags r) UNPRIV = false) ->
  sched_eq (put_proc p r' k) k' -> rq_ok k' rq' -> sched_inv k' rq'.
Proof.
  intros [Hrq Hcpu [Hs Hi] Hpr (ri & si & Hid & Hsi)] Hp Hr Epr Hfl E Hrq'.
  assert (p <> idle_proc) as Hne by (by intros ->).
  split; [done| | | |].
  - eapply cpu_ok_sched; [done|]. by eapply cpu_ok_put.
  - eapply table_ok_sched; [done|]. split; simpl.
    + intros p' Hp'. destruct (decide (p = p')) as [->|]; [by rewrite lookup_insert_eq|].
      rewrite lookup_insert_ne by done. by apply Hs.
    + intros p' r0 Hr0 Hp'. rewrite lookup_insert_ne in Hr0 by congruence. by eapply Hi.
  - eapply privs_ok_sched; [done|]. intros p' r0. simpl.
    destruct (decide (p = p')) as [->|]; [rewrite lookup_insert_eq; intros [= <-]|rewrite lookup_insert_ne by done].
    + rewrite Epr. intros Hf. apply (Hpr p'); auto.
    + apply Hpr.
  - destruct (erase_proc _ _ _ idle_proc ri E) as (r0 & ? & Er0); [simpl; by rewrite lookup_insert_ne|].
    exists r0, si. split; [done|]. apply (f_equal p_priv) in Er0. simpl in Er0.
    rewrite Er0. by rewrite <- (f_equal privs E : privs k = privs k').
Qed.

Lemma sched_inv_current k rq p r s :
  sched_inv k rq -> procs k !! p = Some r -> privs k !! p_priv r = Some s ->
  sched_inv (with_proc_ptr p k) rq /\ sched_inv (with_bill_ptr p (with_proc_ptr p k)) rq.
Proof.
  intros [[Hs He Hp Hn] Hcpu Ht Hpr Hid] Hr Hsp.
  assert (forall k', procs k' = procs k -> run_q_head k' = run_q_head k -> run_q_tail k' = run_q_tail k ->
    privs k' = privs k -> proc_ptr k' = p -> sched_inv k' rq) as Hgen.
  { intros k' E1 E2 E3 E4 E5. split.
    - split; unfold fld; rewrite ?E1; try done. apply (rqs_ext k); try done. unfold fld. by rewrite E1.
    - exists r, s. by rewrite E1, E4, E5.
    - destruct Ht. split; by rewrite E1.
    - unfold privs_ok. by rewrite E1, E4.
    - by rewrite E1, E4. }
  split; by apply Hgen.
Qed.

Lemma next_proc_ok k rq : sched_inv k rq -> exists k', next_proc k = Some (tt, k') /\ sched_inv k' rq.
Proof.
  intros Hinv. pose proof Hinv as [Hrq Hcpu Ht Hpr _]. unfold next_proc.
  assert (forall k', sched_inv k' rq -> exists k2, idle k' = Some (tt, k2) /\ sched_inv k2 rq) as Hidle.
  { intros k' Hinv'. destruct (si_idle _ _ Hinv') as (ri & si & Hri' & Hsi).
    destruct (sched_inv_current _ _ _ _ _ Hinv' Hri' Hsi) as [H1 H2].
    unfold idle. rewrite (bind_run (modify (with_proc_ptr idle_proc)) _ k' tt _ eq_refl).
    rewrite (bind_run _ _ _ _ _ (rdp_run s_flags _ (with_proc_ptr idle_proc k') _ _ Hri' Hsi)).
    destruct (has _ _); by eexists. }
  destruct (pick_loop_ok k rq queues Hrq Hpr (fun q => proj1 (elem_of_queues q)))
    as [(qs1&q&qs2&rp&l&r&s&k'&Eqs&Hempty&El&Hr&Hs&Ep&Hk')|[Hempty Ep]].
  - unfold pick_proc. rewrite (bind_run _ _ _ _ _ Ep).
    assert (sched_inv k' rq) as Hinv'.
    { destruct Hk' as [->| ->]; [done|]. destruct Hinv as [[] ? [] ? ?]. split; [|done|by split|done|done].
      split; [|done|done|done]. by apply (rqs_ext k). }
    assert (procs k' = procs k /\ privs k' = privs k) as [Epr Epv] by (by destruct Hk' as [->| ->]).
    destruct (Z.eqb_spec rp 0) as [->|]; [exfalso; by rewrite (rq_null _ _ Hrq) in Hr|].
    eexists. split; [done|]. eapply sched_inv_current; [done| |]; rewrite ?Epr, ?Epv; done.
  - unfold pick_proc. rewrite (bind_run _ _ _ _ _ Ep). by apply Hidle.
Qed.

Lemma sched_step_ok op k rq :
  sched_inv k rq -> sched_op_ok op -> exists k' rq', sched_step op k = Some (tt, k') /\ sched_inv k' rq'.
Proof.
  intros Hinv Hop. destruct op as [p f|p f|p|]; simpl in *.
  - destruct (tbl_slots _ (si_table _ _ Hinv) p Hop) as [r Hr].
    destruct (RTS_SET_ok k rq p f r (si_rq _ _ Hinv) Hr) as (k' & rq' & E & Hok & Hl).
    exists k', rq'. split; [done|].
    eapply (sched_inv_put k rq k' rq' p r (set_rts f r)); try done; [|by apply link_sched].
    simpl. rewrite has_lor. by intros [? _]%orb_false_iff.
  - destruct Hop as [Hop Hfl]. destruct (tbl_slots _ (si_table _ _ Hinv) p Hop) as [r Hr].
    destruct (RTS_UNSET_ok k rq p f r (si_rq _ _ Hinv) (si_cpu _ _ Hinv) Hr) as (k' & rq' & E & Hok & Hl).
    exists k', rq'. split; [done|]. eapply (sched_inv_put k rq k' rq' p r (clear_rts f r)); try done;
      [|by apply resched_sched]. simpl. by rewrite has_ldiff_disj.
  - destruct (tbl_slots _ (si_table _ _ Hinv) p Hop) as [r Hr].
    destruct (requeue_ok k rq p r (si_rq _ _ Hinv) (si_cpu _ _ Hinv) Hr) as (k' & rq' & E & Hok & Hl).
    exists k', rq'. split; [done|]. eapply (sched_inv_put k rq k' rq' p r r); try done.
    transitivity k; [|done]. by eapply (erase_put_same unsched).
  - destruct (next_proc_ok k rq Hinv) as (k' & E & H). by exists k', rq.
Qed.

Lemma sched_run_ok ops k rq :
  sched_inv k rq -> Forall sched_op_ok ops ->
  exists k' rq', sched_run ops k = Some (tt, k') /\ sched_inv k' rq'.
Proof.
  intros Hinv Hops. revert k rq Hinv. induction Hops as [|op ops Hop _ IH]; intros k rq Hinv.
  - by exists k, rq.
  - destruct (sched_step_ok op k rq Hinv Hop) as (k' & rq' & E & Hinv').
    cbn [sched_run]. rewrite (bind_run _ _ _ _ _ E). by apply (IH _ rq').
Qed.

