(* ===== verification/KWait.v ===== *)
(** Who waits for whom: the part of the process table that message passing
    works on, its invariant, and the transitions of blocking and waking up.
    Blocked processes wait for each other without a cycle. *)

From S2P Require Import Prelude Chain Timers KState KSched.
Local Open Scope Z_scope.

(** ** The view of a process *)

(** [v_out] is the destination of a blocked send and [v_in] the source of a
    blocked receive. *)
Record ipcv := IpcV {
  v_nr : Z;
  v_ep : Z;
  v_free : bool;
  v_noep : bool;
  v_deliver : bool;
  v_callerq : Z;
  v_qlink : Z;
  v_out : option Z;
  v_in : option Z;
  v_msg : message;
  v_sendmsg : message;
}.

Definition view (r : proc) : ipcv :=
  let fl := p_rts_flags r in
  IpcV (p_nr r) (p_endpoint r) (has fl RTS_SLOT_FREE) (has fl RTS_NO_ENDPOINT)
    (has (p_misc_flags r) MF_DELIVERMSG) (p_caller_q r) (p_q_link r)
    (if has fl RTS_SENDING then Some (p_sendto_e r) else None)
    (if has fl RTS_RECEIVING then Some (p_getfrom_e r) else None) (p_delivermsg r) (p_sendmsg r).

Definition v_blockedon (v : ipcv) : Z :=
  match v_out v with Some e => e | None => match v_in v with Some e => e | None => NONE end end.

(** The slot an endpoint names. *)
Definition target (e : Z) : Z := proc_addr (_ENDPOINT_P e).

(** Whom a process waits for: NULL for nobody in particular. *)
Definition awaited (v : ipcv) : Z :=
  let e := v_blockedon v in if (e =? NONE) || (e =? ANY) then 0 else target e.

Definition waits (m : gmap Z ipcv) (p : Z) : option Z := awaited <$> m !! p.

Definition live_ep (m : gmap Z ipcv) (e : Z) : Prop :=
  exists v, m !! target e = Some v /\ isokprocn (_ENDPOINT_P e) = true /\ v_free v = false /\ v_ep v = e.

(** ** The invariant

    [cq d] is the queue of processes blocked on sending to [d]. *)
Record ipc_inv (m : gmap Z ipcv) (cq : Z -> list Z) : Prop := {
  i_null : m !! 0 = None;
  i_slot : forall p v, m !! p = Some v -> in_table p = true -> p = proc_addr (v_nr v) /\ _ENDPOINT_P (v_ep v) = v_nr v;
  i_blk : forall p v, m !! p = Some v -> is_Some (v_out v) \/ is_Some (v_in v) ->
    in_table p = true /\ v_free v = false /\ iskerneln (v_nr v) = false;
  i_recv : forall p v e, m !! p = Some v -> v_in v = Some e -> v_deliver v = false /\ (e = ANY \/ live_ep m e);
  i_send : forall p v e, m !! p = Some v -> v_out v = Some e -> v_noep v = false /\ live_ep m e;
  i_same : forall p v e e', m !! p = Some v -> v_out v = Some e -> v_in v = Some e' -> e' = e;
  i_link0 : forall p v, m !! p = Some v -> v_out v = None -> v_qlink v = 0;
  i_queue : forall d v, m !! d = Some v -> in_table d = true ->
    chain (links (v_qlink <$> m)) (v_callerq v) (cq d);
  i_member : forall d s, in_table d = true ->
    s ∈ cq d <-> exists v e, m !! s = Some v /\ v_out v = Some e /\ target e = d;
  i_acyc : forall p, is_Some (m !! p) -> exists l, chain (waits m) p l;
}.

(** ** Paths in the waiting graph *)

Lemma lseg_cut (nx : Z -> option Z) q l1 p :
  forall nx', lseg nx q l1 p -> (forall x, x ∈ l1 -> nx' x = nx x) -> lseg nx' q l1 p.
Proof. intros nx' H He. eapply lseg_ext, H. intros x Hx. symmetry. by apply He. Qed.

(** A process on a path splits it at its first (and only) occurrence. *)
Lemma chain_split (nx : Z -> option Z) q l p :
  chain nx q l -> p ∈ l -> exists l1 l2, l = l1 ++ p :: l2 /\ p ∉ l1 /\ p ∉ l2 /\ lseg nx q l1 p /\ chain nx p (p :: l2).
Proof.
  intros Hc Hp. pose proof (chain_nodup _ _ _ Hc) as Hnd.
  apply list_elem_of_split in Hp as (l1 & l2 & ->). exists l1, l2.
  apply NoDup_app in Hnd as (_ & Hd & Hnd). apply NoDup_cons in Hnd as [Hn2 _].
  pose proof Hc as (p' & H1 & H2)%lseg_app_inv. destruct (chain_cons_head _ _ _ _ H2) as [<- _].
  split_and!; try done. intros Hp. eapply Hd; [done|]. left.
Qed.

(** A process that stops waiting ends the paths through it. *)
Lemma paths_cut (nx nx' : Z -> option Z) p :
  (forall q, q <> p -> nx' q = nx q) -> nx' p = Some 0 -> p <> 0 ->
  forall q l, chain nx q l -> exists l', chain nx' q l'.
Proof.
  intros Ho Hp Hp0 q l Hc. destruct (decide (p ∈ l)) as [Hin|Hnin].
  - destruct (chain_split _ _ _ _ Hc Hin) as (l1 & l2 & -> & Hn1 & _ & H1 & _).
    exists (l1 ++ [p]). eapply lseg_app; [|econstructor; [done|exact Hp|constructor]].
    eapply lseg_cut; [exact H1|]. intros x Hx. apply Ho. by intros ->.
  - exists l. eapply lseg_cut; [exact Hc|]. intros x Hx. apply Ho. by intros ->.
Qed.

(** A process may start to wait for one whose path avoids it. *)
Lemma paths_add (nx nx' : Z -> option Z) p d l :
  (forall q, q <> p -> nx' q = nx q) -> nx p = Some 0 -> nx' p = Some d -> p <> 0 ->
  chain nx d l -> p ∉ l ->
  forall q l0, chain nx q l0 -> exists l', chain nx' q l'.
Proof.
  intros Ho Hp Hp' Hp0 Hd Hpl q l0 Hc.
  assert (chain nx' d l) as Hd'.
  { eapply lseg_cut; [exact Hd|]. intros x Hx. apply Ho. by intros ->. }
  destruct (decide (p ∈ l0)) as [Hin|Hnin].
  - destruct (chain_split _ _ _ _ Hc Hin) as (l1 & l2 & -> & Hn1 & _ & H1 & _).
    exists (l1 ++ p :: l). eapply lseg_app; [|econstructor; [done|exact Hp'|exact Hd']].
    eapply lseg_cut; [exact H1|]. intros x Hx. apply Ho. by intros ->.
  - exists l0. eapply lseg_cut; [exact Hc|]. intros x Hx. apply Ho. by intros ->.
Qed.

(** ** Endpoints *)

Lemma target_table e : isokprocn (_ENDPOINT_P e) = true -> in_table (target e) = true.
Proof.
  unfold isokprocn, in_table, target, proc_addr, NR_TASKS, NR_PROCS.
  rewrite !andb_true_iff, !Z.leb_le, !Z.ltb_lt. lia.
Qed.

Lemma table_nr p n : in_table p = true -> p = proc_addr n -> isokprocn n = true.
Proof.
  intros Hp ->. revert Hp. unfold isokprocn, in_table, proc_addr, NR_TASKS, NR_PROCS.
  rewrite !andb_true_iff, !Z.leb_le, !Z.ltb_lt. lia.
Qed.

Lemma live_not_special m e : live_ep m e -> e <> ANY /\ e <> NONE.
Proof. intros (v & _ & Hok & _). split; intros ->; by vm_compute in Hok. Qed.

(** The endpoint of a slot names the slot. *)
Lemma slot_target m cq p v : ipc_inv m cq -> m !! p = Some v -> in_table p = true -> target (v_ep v) = p.
Proof. intros Hi Hv Hp. destruct (i_slot _ _ Hi _ _ Hv Hp) as [-> E]. unfold target. by rewrite E. Qed.

Lemma slot_live m cq p v :
  ipc_inv m cq -> m !! p = Some v -> in_table p = true -> v_free v = false -> live_ep m (v_ep v).
Proof.
  intros Hi Hv Hp Hf. exists v. rewrite (slot_target _ _ _ _ Hi Hv Hp). split_and!; try done.
  destruct (i_slot _ _ Hi _ _ Hv Hp) as [E1 ->]. by eapply table_nr.
Qed.

(** Live endpoints are equal when they name the same slot. *)
Lemma live_inj m e e' : live_ep m e -> live_ep m e' -> target e = target e' -> e = e'.
Proof. intros (v & Hv & _ & _ & <-) (v' & Hv' & _ & _ & <-) E. rewrite E in Hv. by simplify_eq. Qed.

(** ** Assignments to one slot *)

Lemma live_put m p v v' e :
  m !! p = Some v -> v_ep v' = v_ep v -> v_free v' = v_free v -> live_ep m e -> live_ep (<[p := v']> m) e.
Proof.
  intros Hv He Hf (w & Hw & Hok & Hwf & Hwe). destruct (decide (p = target e)) as [->|Hne].
  - simplify_eq. exists v'. rewrite lookup_insert_eq, Hf, He. done.
  - exists w. by rewrite lookup_insert_ne.
Qed.

Lemma waits_put m p v' q : q <> p -> waits (<[p := v']> m) q = waits m q.
Proof. intros Hne. unfold waits. by rewrite lookup_insert_ne. Qed.

Lemma waits_put_eq m p v' : waits (<[p := v']> m) p = Some (awaited v').
Proof. unfold waits. by rewrite lookup_insert_eq. Qed.

(** The receiving side and the flags of a process change, its place in the
    queues does not. *)
Record recv_change (m : gmap Z ipcv) (p : Z) (v v' : ipcv) : Prop := {
  rc_nr : v_nr v' = v_nr v;
  rc_ep : v_ep v' = v_ep v;
  rc_free : v_free v' = v_free v;
  rc_callerq : v_callerq v' = v_callerq v;
  rc_qlink : v_qlink v' = v_qlink v;
  rc_out : v_out v' = v_out v;
  rc_noep : is_Some (v_out v) -> v_noep v' = false;
  rc_in : forall e, v_in v' = Some e ->
    v_deliver v' = false /\ (e = ANY \/ live_ep m e) /\
    (in_table p = true /\ v_free v = false /\ iskerneln (v_nr v) = false) /\
    (forall e0, v_out v = Some e0 -> e = e0);
}.

Lemma inv_put m cq p v v' :
  ipc_inv m cq -> m !! p = Some v -> recv_change m p v v' ->
  (forall q, is_Some (m !! q) -> exists l, chain (waits (<[p := v']> m)) q l) ->
  ipc_inv (<[p := v']> m) cq.
Proof.
  intros Hi Hv [Enr Eep Efr Ecq Eql Eo Hne Hin] Hac.
  assert (Hlive : forall e, live_ep m e -> live_ep (<[p := v']> m) e) by (intros; by eapply live_put).
  assert (Hlk : v_qlink <$> <[p := v']> m = v_qlink <$> m).
  { rewrite fmap_insert, Eql. apply insert_id. by rewrite lookup_fmap, Hv. }
  assert (Hcase : forall q w, (<[p := v']> m : gmap Z ipcv) !! q = Some w ->
    (q = p /\ w = v') \/ (q <> p /\ m !! q = Some w)).
  { intros q w Hw. destruct (decide (p = q)) as [->|Hpq].
    - rewrite lookup_insert_eq in Hw. left. by simplify_eq.
    - rewrite lookup_insert_ne in Hw by done. right. split; [congruence|done]. }
  split.
  - rewrite lookup_insert_ne; [apply Hi|]. intros ->. by rewrite (i_null _ _ Hi) in Hv.
  - intros q w [[-> ->]|[_ Hw]]%Hcase Hq; [rewrite Enr, Eep|]; by eapply i_slot.
  - intros q w [[-> ->]|[_ Hw]]%Hcase Hb; [|by eapply i_blk].
    destruct (v_in v') as [e|] eqn:E.
    + destruct (Hin e eq_refl) as (_ & _ & ? & _). by rewrite Efr, Enr.
    + rewrite Eo in Hb. rewrite Efr, Enr. eapply i_blk; [done..|]. left. by destruct Hb as [|[? ?]].
  - intros q w e [[-> ->]|[_ Hw]]%Hcase He.
    + destruct (Hin e He) as (? & [|] & _); eauto.
    + destruct (i_recv _ _ Hi _ _ _ Hw He) as (? & [|]); eauto.
  - intros q w e [[-> ->]|[_ Hw]]%Hcase He.
    + rewrite Eo in He. split; [apply Hne; by eexists|]. apply Hlive. by eapply i_send.
    + destruct (i_send _ _ Hi _ _ _ Hw He). auto.
  - intros q w e e' [[-> ->]|[_ Hw]]%Hcase He He'; [|by eapply i_same].
    rewrite Eo in He. destruct (Hin e' He') as (_ & _ & _ & Hs). by apply Hs.
  - intros q w [[-> ->]|[_ Hw]]%Hcase; [rewrite Eo, Eql|]; by eapply i_link0.
  - intros d w [[-> ->]|[_ Hw]]%Hcase Hd; rewrite Hlk; [rewrite Ecq|]; by eapply i_queue.
  - intros d s Hd. rewrite (i_member _ _ Hi d s Hd). split.
    + intros (w & e & Hw & He & Ht). destruct (decide (s = p)) as [->|Hsp].
      * simplify_eq. exists v', e. by rewrite lookup_insert_eq, Eo.
      * exists w, e. by rewrite lookup_insert_ne.
    + intros (w & e & [[-> ->]|[_ Hw]]%Hcase & He & Ht); [exists v, e; by rewrite <- Eo|by exists w, e].
  - intros q [w [[-> ->]|[_ Hw]]%Hcase]; apply Hac; by eexists.
Qed.

Lemma acyc_same m p v v' :
  m !! p = Some v -> awaited v' = awaited v -> forall q l, chain (waits m) q l -> chain (waits (<[p := v']> m)) q l.
Proof.
  intros Hv E q l Hc. eapply lseg_cut; [exact Hc|]. intros x _. destruct (decide (x = p)) as [->|Hne].
  - rewrite waits_put_eq, E. unfold waits. by rewrite Hv.
  - by apply waits_put.
Qed.

(** A waiting receiver gets a message. *)
Definition v_wake (msg : message) (v : ipcv) : ipcv :=
  IpcV (v_nr v) (v_ep v) (v_free v) (v_noep v) true (v_callerq v) (v_qlink v) (v_out v) None msg (v_sendmsg v).

Lemma inv_wake m cq p v msg :
  ipc_inv m cq -> m !! p = Some v -> v_out v = None -> ipc_inv (<[p := v_wake msg v]> m) cq.
Proof.
  intros Hi Hv Ho. assert (p <> 0) as Hp0 by (intros ->; by rewrite (i_null _ _ Hi) in Hv).
  eapply inv_put; [done|done| |].
  - split; try done. rewrite Ho. by intros [].
  - intros q Hq. destruct (i_acyc _ _ Hi q Hq) as [l Hl]. eapply (paths_cut (waits m) _ p); [|..|done|exact Hl].
    + intros. by apply waits_put.
    + rewrite waits_put_eq. unfold awaited, v_blockedon, v_wake. simpl. by rewrite Ho.
Qed.

(** A process that is not waiting for a message gets one. *)
Definition v_with_deliver (msg : message) (v : ipcv) : ipcv :=
  IpcV (v_nr v) (v_ep v) (v_free v) (v_noep v) true (v_callerq v) (v_qlink v) (v_out v) (v_in v) msg (v_sendmsg v).

Lemma inv_deliver m cq p v msg :
  ipc_inv m cq -> m !! p = Some v -> v_in v = None -> ipc_inv (<[p := v_with_deliver msg v]> m) cq.
Proof.
  intros Hi Hv Hin. eapply inv_put; [done|done| |].
  - split; try done; simpl.
    + intros [e He]. by eapply i_send.
    + rewrite Hin. done.
  - intros q Hq. destruct (i_acyc _ _ Hi q Hq) as [l Hl]. exists l. by eapply acyc_same.
Qed.

(** A process starts to wait for a message from [e]. *)
Definition v_block_recv (e : Z) (v : ipcv) : ipcv :=
  IpcV (v_nr v) (v_ep v) (v_free v) (v_noep v) (v_deliver v) (v_callerq v) (v_qlink v) (v_out v) (Some e)
    (v_msg v) (v_sendmsg v).

Lemma inv_block_recv m cq p v e :
  ipc_inv m cq -> m !! p = Some v -> in_table p = true -> v_free v = false -> iskerneln (v_nr v) = false ->
  v_deliver v = false -> v_in v = None ->
  (e = ANY \/ live_ep m e) -> (forall e0, v_out v = Some e0 -> e = e0) ->
  (v_out v = None -> e <> ANY -> exists l, chain (waits m) (target e) l /\ p ∉ l) ->
  ipc_inv (<[p := v_block_recv e v]> m) cq.
Proof.
  intros Hi Hv Hp Hfr Hnr Hd Hin Hlive Hsame Hpath.
  assert (p <> 0) as Hp0 by (intros ->; by rewrite (i_null _ _ Hi) in Hv).
  eapply inv_put; [done|done| |].
  - split; try done; simpl.
    + intros [e0 He]. by eapply i_send.
    + intros e0 [= <-]. by split_and!.
  - intros q Hq. destruct (i_acyc _ _ Hi q Hq) as [l Hl].
    destruct (v_out v) as [e0|] eqn:Eo.
    { exists l. eapply acyc_same; [done| |done]. unfold awaited, v_blockedon. simpl. by rewrite Eo. }
    destruct (decide (e = ANY)) as [->|Hany].
    { exists l. eapply acyc_same; [done| |done]. unfold awaited, v_blockedon. simpl. by rewrite Eo, Hin. }
    destruct Hlive as [->|Hlive]; [done|]. destruct (live_not_special _ _ Hlive) as [_ Hnone].
    destruct (Hpath eq_refl Hany) as (l1 & Hl1 & Hpl).
    eapply (paths_add (waits m) _ p (target e) l1); [|..|done|exact Hl1|done|exact Hl].
    + intros. by apply waits_put.
    + unfold waits. rewrite Hv. simpl. unfold awaited, v_blockedon. by rewrite Eo, Hin.
    + rewrite waits_put_eq. unfold awaited, v_blockedon, v_block_recv. simpl. rewrite Eo.
      destruct (Z.eqb_spec e NONE); [done|]. destruct (Z.eqb_spec e ANY); [done|]. done.
Qed.

(** ** Queueing a sender *)

(** Slot [p] after [s] has been put at the end [l] of the queue of [d]. *)
Definition send_upd (s d e : Z) (msg : message) (l : list Z) (p : Z) (v : ipcv) : ipcv :=
  IpcV (v_nr v) (v_ep v) (v_free v) (v_noep v) (v_deliver v)
    (if decide (p = d /\ l = []) then s else v_callerq v)
    (if decide (last l = Some p) then s else v_qlink v)
    (if decide (p = s) then Some e else v_out v) (v_in v) (v_msg v) (if decide (p = s) then msg else v_sendmsg v).

Lemma last_elem (l : list Z) p : last l = Some p -> p ∈ l.
Proof. apply last_Some_elem_of. Qed.

Lemma live_upd (f : Z -> ipcv -> ipcv) m m' e :
  (forall p, m' !! p = f p <$> m !! p) -> (forall p v, v_ep (f p v) = v_ep v /\ v_free (f p v) = v_free v) ->
  live_ep m e -> live_ep m' e.
Proof.
  intros Hm Hf (v & Hv & Hok & Hfr & He). exists (f (target e) v). rewrite Hm, Hv.
  destruct (Hf (target e) v) as [-> ->]. done.
Qed.

Lemma chain_links_ext (m m' : gmap Z Z) h l :
  (forall x, x ∈ l -> m' !! x = m !! x) -> chain (links m) h l -> chain (links m') h l.
Proof. intros He Hc. eapply lseg_cut; [exact Hc|done]. Qed.

(** The queues after the append. *)
Lemma send_queue m m' cq s vs d e msg :
  ipc_inv m cq -> m !! s = Some vs -> v_out vs = None -> s <> 0 -> target e = d -> in_table d = true ->
  (forall p, m' !! p = send_upd s d e msg (cq d) p <$> m !! p) ->
  forall d' v, m !! d' = Some v -> in_table d' = true ->
  chain (links (v_qlink <$> m')) (v_callerq (send_upd s d e msg (cq d) d' v)) (set_q d (cq d ++ [s]) cq d').
Proof.
  intros Hi Hs Ho Hs0 Ht Hd Hm d' v Hv Hd'.
  pose proof (i_queue _ _ Hi _ _ Hv Hd') as Hq.
  assert (Hl : forall x, (v_qlink <$> m') !! x =
    (fun w => if decide (last (cq d) = Some x) then s else v_qlink w) <$> m !! x).
  { intros x. rewrite lookup_fmap, Hm. by destruct (m !! x). }
  assert (s ∉ cq d) as Hsn.
  { rewrite (i_member _ _ Hi) by done. intros (w & e' & Hw & Hoe & _). congruence. }
  destruct (decide (d' = d)) as [->|Hne].
  - rewrite set_q_same. destruct (decide (cq d = [])) as [El|El].
    + rewrite El in *. simpl. rewrite decide_True by done. econstructor; [done| |constructor].
      rewrite Hl, Hs. simpl. by rewrite (i_link0 _ _ Hi _ _ Hs Ho).
    + simpl. rewrite decide_False by (by intros [_ ?]).
      destruct (last (cq d)) as [t|] eqn:Et; [|by apply last_None in Et].
      assert (t ∈ cq d) as Htin by (by apply last_elem).
      eapply chain_links_ext; [|eapply (chain_snoc _ _ _ t); [exact Hq|done|done|done]].
      intros y Hy. rewrite Hl. destruct (decide (y = s)) as [->|Hys].
      * rewrite lookup_insert_eq, Hs. simpl. rewrite decide_False by (intros [= ->]; done).
        by rewrite (i_link0 _ _ Hi _ _ Hs Ho).
      * rewrite lookup_insert_ne by done. destruct (decide (y = t)) as [->|Hyt].
        -- rewrite lookup_insert_eq. destruct (chain_elem _ _ _ _ _ Hq Htin) as [_ [w Hw]].
           rewrite lookup_fmap in Hw. destruct (m !! t); [|done]. simpl. by rewrite decide_True.
        -- rewrite lookup_insert_ne, lookup_fmap by done. destruct (m !! y); [|done]. simpl.
           by rewrite decide_False by congruence.
  - rewrite set_q_other by done. simpl. rewrite decide_False by (by intros [? _]).
    eapply chain_links_ext; [|exact Hq]. intros y Hy. rewrite Hl, lookup_fmap.
    destruct (m !! y); [|done]. simpl. rewrite decide_False; [done|]. intros E%last_elem.
    apply (i_member _ _ Hi) in E as (w & e1 & Hw & He1 & Ht1); [|done].
    apply (i_member _ _ Hi) in Hy as (w2 & e2 & Hw2 & He2 & Ht2); [|done]. simplify_eq.
Qed.

Lemma inv_block_send m m' cq s vs d e msg :
  ipc_inv m cq -> m !! s = Some vs -> v_out vs = None -> v_in vs = None ->
  in_table s = true -> v_free vs = false -> iskerneln (v_nr vs) = false -> v_noep vs = false ->
  live_ep m e -> target e = d -> (exists l, chain (waits m) d l /\ s ∉ l) ->
  (forall p, m' !! p = send_upd s d e msg (cq d) p <$> m !! p) ->
  ipc_inv m' (set_q d (cq d ++ [s]) cq).
Proof.
  intros Hi Hs Ho Hin Hst Hfr Hnr Hne Hlive Ht (l & Hl & Hsl) Hm.
  assert (s <> 0) as Hs0 by (intros ->; by rewrite (i_null _ _ Hi) in Hs).
  assert (in_table d = true) as Hd.
  { rewrite <- Ht. apply target_table. by destruct Hlive as (? & _ & ? & _). }
  assert (Hlv : forall e, live_ep m e -> live_ep m' e) by (intros; by eapply live_upd).
  assert (Hback : forall p w, m' !! p = Some w -> exists w0, m !! p = Some w0 /\ w = send_upd s d e msg (cq d) p w0).
  { intros p w Hw. rewrite Hm in Hw. destruct (m !! p) as [w0|]; simplify_eq/=. by exists w0. }
  assert (Hout : forall p w0, m !! p = Some w0 ->
    v_out (send_upd s d e msg (cq d) p w0) = if decide (p = s) then Some e else v_out w0) by done.
  split.
  - by rewrite Hm, (i_null _ _ Hi).
  - intros p w (w0 & Hw0 & ->)%Hback Hp. simpl. by eapply i_slot.
  - intros p w (w0 & Hw0 & ->)%Hback Hb. simpl in *. destruct (decide (p = s)) as [->|]; [by simplify_eq|].
    by eapply i_blk.
  - intros p w e' (w0 & Hw0 & ->)%Hback He'. destruct (i_recv _ _ Hi _ _ _ Hw0 He') as (? & [|]); eauto.
  - intros p w e' (w0 & Hw0 & ->)%Hback He'. rewrite (Hout _ _ Hw0) in He'.
    destruct (decide (p = s)) as [->|]; [simplify_eq; auto|]. destruct (i_send _ _ Hi _ _ _ Hw0 He'); auto.
  - intros p w e1 e2 (w0 & Hw0 & ->)%Hback. rewrite (Hout _ _ Hw0). simpl.
    destruct (decide (p = s)) as [->|]; [simplify_eq; congruence|]. by eapply i_same.
  - intros p w (w0 & Hw0 & ->)%Hback. rewrite (Hout _ _ Hw0). simpl.
    destruct (decide (p = s)) as [->|]; [done|]. intros Hon. rewrite decide_False; [by eapply i_link0|].
    intros E%last_elem. apply (i_member _ _ Hi) in E as (w1 & e1 & Hw1 & He1 & _); [|done]. congruence.
  - intros d' w (w0 & Hw0 & ->)%Hback Hd'. by eapply send_queue.
  - intros d' s' Hd'. destruct (decide (s' = s)) as [->|Hss].
    + assert (s ∉ cq d') as Hsn.
      { rewrite (i_member _ _ Hi) by done. intros (w & e' & Hw & Hoe & _). congruence. }
      split.
      * destruct (decide (d' = d)) as [->|]; [|by rewrite set_q_other by done]. intros _.
        eexists _, e. rewrite Hm, Hs. split; [done|]. split; [|done]. simpl. by rewrite decide_True.
      * intros (w & e' & Hw & He' & Ht'). rewrite Hm, Hs in Hw. simplify_eq/=. rewrite decide_True in He' by done.
        simplify_eq. rewrite set_q_same. set_solver.
    + transitivity (s' ∈ cq d').
      { destruct (decide (d' = d)) as [->|]; [rewrite set_q_same; set_solver|by rewrite set_q_other by done]. }
      rewrite (i_member _ _ Hi) by done. split.
      * intros (w & e' & Hw & He' & Ht'). eexists _, e'. rewrite Hm, Hw. split; [done|].
        rewrite (Hout _ _ Hw), decide_False by done. done.
      * intros (w & e' & (w0 & Hw0 & ->)%Hback & He' & Ht'). exists w0, e'. split; [done|].
        by rewrite (Hout _ _ Hw0), decide_False in He' by done.
  - intros q [w (w0 & Hw0 & ->)%Hback]. destruct (i_acyc _ _ Hi q) as [lq Hlq]; [by eexists|].
    destruct (live_not_special _ _ Hlive) as [Hany Hnone].
    eapply (paths_add (waits m) (waits m') s d l); try done.
    + intros p Hp. unfold waits. rewrite Hm. destruct (m !! p) as [wp|]; [|done]. simpl. f_equal.
      unfold awaited, v_blockedon. simpl. by rewrite decide_False.
    + unfold waits. rewrite Hs. simpl. unfold awaited, v_blockedon. by rewrite Ho, Hin.
    + unfold waits. rewrite Hm, Hs. simpl. unfold awaited, v_blockedon. simpl. rewrite decide_True by done.
      destruct (Z.eqb_spec e NONE); [done|]. destruct (Z.eqb_spec e ANY); [done|]. by rewrite Ht.
Qed.

(** ** Taking a sender out of the queue *)

(** Slot [q] after [s], which follows [l1] in the queue of [d], has been taken
    out; [nx] is its old link. *)
Definition take_upd (s d nx : Z) (l1 : list Z) (q : Z) (v : ipcv) : ipcv :=
  IpcV (v_nr v) (v_ep v) (v_free v) (v_noep v) (v_deliver v)
    (if decide (q = d /\ l1 = []) then nx else v_callerq v)
    (if decide (q = s) then 0 else if decide (last l1 = Some q) then nx else v_qlink v)
    (if decide (q = s) then None else v_out v) (v_in v) (v_msg v) (v_sendmsg v).

Lemma take_queue m m' cq s vs d l1 l2 :
  ipc_inv m cq -> m !! s = Some vs -> in_table d = true -> cq d = l1 ++ s :: l2 ->
  (forall q, m' !! q = take_upd s d (v_qlink vs) l1 q <$> m !! q) ->
  forall d' v, m !! d' = Some v -> in_table d' = true ->
  chain (links (v_qlink <$> m')) (v_callerq (take_upd s d (v_qlink vs) l1 d' v)) (set_q d (l1 ++ l2) cq d').
Proof.
  intros Hi Hs Hd El Hm d' v Hv Hd'.
  pose proof (i_queue _ _ Hi _ _ Hv Hd') as Hq.
  assert (Hl : forall x, (v_qlink <$> m') !! x =
    (fun w => if decide (x = s) then 0 else if decide (last l1 = Some x) then v_qlink vs else v_qlink w) <$> m !! x).
  { intros x. rewrite lookup_fmap, Hm. by destruct (m !! x). }
  destruct (decide (d' = d)) as [->|Hne].
  - rewrite set_q_same. rewrite El in Hq. pose proof (chain_nodup _ _ _ Hq) as Hnd.
    apply NoDup_app in Hnd as (Hnd1 & Hd12 & Hnd2). apply NoDup_cons in Hnd2 as [Hn2 _].
    assert (s ∉ l1) as Hn1 by (intros Hx; eapply Hd12; [done|left]).
    pose proof Hq as (p & H1 & H2)%lseg_app_inv. destruct (chain_cons_head _ _ _ _ H2) as [<- Hs0].
    destruct (chain_cons_inv _ _ _ H2 Hs0) as (nx & l2' & [= <-] & Hnx & H2').
    rewrite lookup_fmap, Hs in Hnx. injection Hnx as <-.
    pose proof (pp_write_chain (v_callerq v) (v_qlink <$> m) l1 s (v_qlink vs) l2 H1 Hnd1 H2') as Hw.
    assert (forall x, x ∈ l1 -> x ∉ l2) as Hdis by (intros x Hx Hx'; eapply Hd12; [done|by right]).
    specialize (Hw Hdis). unfold loc_after in Hw.
    destruct (last l1) as [t|] eqn:Et; simpl in Hw |- *.
    + rewrite decide_False by (intros [_ ->]; done).
      assert (t ∈ l1) as Htin by (by apply last_elem).
      eapply chain_links_ext; [|exact Hw]. intros y Hy. rewrite Hl.
      assert (y <> s) as Hys by (intros ->; set_solver).
      destruct (decide (y = t)) as [->|Hyt].
      * rewrite lookup_insert_eq. destruct (chain_elem _ _ _ _ _ H1 Htin) as [_ [w Hw']].
        rewrite lookup_fmap in Hw'. destruct (m !! t); [|done]. simpl. by rewrite decide_False, decide_True.
      * rewrite lookup_insert_ne, lookup_fmap by done. destruct (m !! y); [|done]. simpl.
        by rewrite decide_False, decide_False by congruence.
    + apply last_None in Et as ->. rewrite decide_True by done.
      eapply chain_links_ext; [|exact Hw]. intros y Hy. rewrite Hl, lookup_fmap.
      assert (y <> s) as Hys by (intros ->; set_solver). destruct (m !! y); [|done]. simpl. by rewrite decide_False.
  - rewrite set_q_other by done. simpl. rewrite decide_False by (by intros [? _]).
    eapply chain_links_ext; [|exact Hq]. intros y Hy. rewrite Hl, lookup_fmap.
    assert (y ∉ cq d) as Hyd.
    { intros Hyd. apply (i_member _ _ Hi) in Hyd as (w & e1 & Hw & He1 & Ht1); [|done].
      apply (i_member _ _ Hi) in Hy as (w2 & e2 & Hw2 & He2 & Ht2); [|done]. congruence. }
    rewrite El in Hyd. destruct (m !! y); [|done]. simpl.
    rewrite decide_False by (intros ->; apply Hyd; set_solver).
    rewrite decide_False; [done|]. intros E%last_elem. apply Hyd. set_solver.
Qed.

Lemma inv_take m m' cq s vs d l1 l2 :
  ipc_inv m cq -> m !! s = Some vs -> in_table d = true -> cq d = l1 ++ s :: l2 ->
  (forall q, m' !! q = take_upd s d (v_qlink vs) l1 q <$> m !! q) ->
  ipc_inv m' (set_q d (l1 ++ l2) cq).
Proof.
  intros Hi Hs Hd El Hm.
  assert (s <> 0) as Hs0 by (intros ->; by rewrite (i_null _ _ Hi) in Hs).
  assert (s ∈ cq d) as Hsin by (rewrite El; set_solver).
  pose proof Hsin as (vs' & es & Hvs' & Hes & Hts)%(i_member _ _ Hi); [|done]. simplify_eq.
  assert (NoDup (l1 ++ s :: l2)) as Hnd.
  { rewrite <- El. assert (exists v, m !! target es = Some v) as [v Hv].
    { destruct (i_send _ _ Hi _ _ _ Hs Hes) as (_ & v & Hv & _). by exists v. }
    eapply chain_nodup. by eapply i_queue. }
  apply NoDup_app in Hnd as (_ & Hd12 & Hnd2). apply NoDup_cons in Hnd2 as [Hn2 _].
  assert (s ∉ l1) as Hn1 by (intros Hx; eapply Hd12; [done|left]).
  assert (Hlv : forall e, live_ep m e -> live_ep m' e) by (intros; by eapply live_upd).
  assert (Hback : forall p w, m' !! p = Some w ->
    exists w0, m !! p = Some w0 /\ w = take_upd s (target es) (v_qlink vs) l1 p w0).
  { intros p w Hw. rewrite Hm in Hw. destruct (m !! p) as [w0|]; simplify_eq/=. by exists w0. }
  split.
  - by rewrite Hm, (i_null _ _ Hi).
  - intros p w (w0 & Hw0 & ->)%Hback Hp. simpl. by eapply i_slot.
  - intros p w (w0 & Hw0 & ->)%Hback Hb. simpl in *. eapply i_blk; [done|done|].
    destruct (decide (p = s)); [right; by destruct Hb as [[]|]|done].
  - intros p w e' (w0 & Hw0 & ->)%Hback He'. destruct (i_recv _ _ Hi _ _ _ Hw0 He') as (? & [|]); eauto.
  - intros p w e' (w0 & Hw0 & ->)%Hback He'. simpl in *. destruct (decide (p = s)); [done|].
    destruct (i_send _ _ Hi _ _ _ Hw0 He'); auto.
  - intros p w e1 e2 (w0 & Hw0 & ->)%Hback. simpl. destruct (decide (p = s)); [done|]. by eapply i_same.
  - intros p w (w0 & Hw0 & ->)%Hback. simpl. destruct (decide (p = s)); [done|]. intros Hon.
    rewrite decide_False; [by eapply i_link0|]. intros E%last_elem.
    assert (p ∈ cq (target es)) as Hp by (rewrite El; set_solver).
    apply (i_member _ _ Hi) in Hp as (w1 & e1 & Hw1 & He1 & _); [|done]. congruence.
  - intros d' w (w0 & Hw0 & ->)%Hback Hd'. by eapply take_queue.
  - intros d' s' Hd'. destruct (decide (s' = s)) as [->|Hss].
    + split.
      * destruct (decide (d' = target es)) as [->|Hne]; [rewrite set_q_same; set_solver|].
        rewrite set_q_other by done. intros (w & e' & Hw & He' & Ht')%(i_member _ _ Hi); [|done]. congruence.
      * intros (w & e' & (w0 & Hw0 & ->)%Hback & He' & _). simpl in He'. by rewrite decide_True in He'.
    + transitivity (s' ∈ cq d').
      { destruct (decide (d' = target es)) as [->|]; [rewrite set_q_same, El; set_solver|by rewrite set_q_other by done]. }
      rewrite (i_member _ _ Hi) by done. split.
      * intros (w & e' & Hw & He' & Ht'). eexists _, e'. rewrite Hm, Hw. split; [done|]. simpl.
        by rewrite decide_False.
      * intros (w & e' & (w0 & Hw0 & ->)%Hback & He' & Ht'). exists w0, e'. split; [done|]. simpl in He'.
        by rewrite decide_False in He' by done.
  - intros q [w (w0 & Hw0 & ->)%Hback]. destruct (i_acyc _ _ Hi q) as [lq Hlq]; [by eexists|].
    assert (Hot : forall p, p <> s -> waits m' p = waits m p).
    { intros p Hp. unfold waits. rewrite Hm. destruct (m !! p); [|done]. simpl. f_equal.
      unfold awaited, v_blockedon. simpl. by rewrite decide_False. }
    assert (waits m' s = Some (awaited (take_upd s (target es) (v_qlink vs) l1 s vs))) as Hws.
    { unfold waits. by rewrite Hm, Hs. }
    unfold awaited, v_blockedon in Hws. simpl in Hws. rewrite decide_True in Hws by done.
    destruct (v_in vs) as [ei|] eqn:Ei.
    + exists lq. eapply lseg_cut; [exact Hlq|]. intros p _. destruct (decide (p = s)) as [->|]; [|by apply Hot].
      rewrite Hws. unfold waits. rewrite Hs. simpl. unfold awaited, v_blockedon. rewrite Hes.
      by rewrite (i_same _ _ Hi _ _ _ _ Hs Hes Ei).
    + by eapply (paths_cut (waits m) (waits m') s).
Qed.
