(* ===== verification/KNotify.v ===== *)
(** Notifications and signals from the kernel: [mini_notify] of kernel/proc.c
    and [send_sig], [cause_sig], [sig_delay_done] of kernel/system.c. *)

From S2P Require Import Prelude Chain Timers KState KSched KBoot.
Local Open Scope Z_scope.

(** Signal numbers are defined by the C library. *)
Class Signals := {
  _NSIG : Z;
  SIGKSIG : Z;
  SIGKSIGSM : Z;
  SIGSNDELAY : Z;
  SIGKMESS : Z;
  SIGTRAP : Z;
  SIGSEGV : Z;
  SIGFPE : Z;
  SIGABRT : Z;
  SIGVTALRM : Z;
  SIGPROF : Z;
  SIGS_IS_LETHAL : Z -> bool;
}.

Section Notify.
Context `{Signals}.

(** Signal sets of the C library; [None] is the error return. *)
Definition valid_sig (n : Z) : bool := (0 <? n) && (n <? _NSIG).
Definition sigismember (s : gset Z) (n : Z) : option bool :=
  if valid_sig n then Some (bool_decide (n ∈ s)) else None.
Definition sigaddset (s : gset Z) (n : Z) : gset Z := if valid_sig n then {[n]} ∪ s else s.

(** ** The IPC status of a receiver *)

Definition IPC_STATUS_ADD (p m : Z) : K unit :=
  fl ← rd p_misc_flags p;
  if negb (has fl MF_REPLY_PEND) then upd p (fun r => with_p_status (Z.lor (p_status r) m) r) else mret tt.
Definition IPC_STATUS_ADD_CALL (p call : Z) : K unit := IPC_STATUS_ADD p (Z.land call 0x3F).
Definition IPC_STATUS_ADD_FLAGS (p flags : Z) : K unit := IPC_STATUS_ADD p (Z.shiftl flags 16).
Definition IPC_STATUS_CLEAR (p : Z) : K unit := upd p (with_p_status 0).

(** The process waits for a message and accepts one from [source_ep]. *)
Definition WILLRECEIVE (target source_ep : Z) : K bool :=
  fl ← rd p_rts_flags target;
  if RTS_ISSET fl RTS_RECEIVING && negb (RTS_ISSET fl RTS_SENDING)
  then gf ← rd p_getfrom_e target; mret ((gf =? ANY) || (gf =? source_ep))
  else mret false.

(** ** [mini_notify] *)

Definition get_monotonic : K Z := gets monotonic.

Definition BuildNotifyMessage (src dst_ptr : Z) : K message :=
  ts ← get_monotonic;
  if src =? HARDWARE
  then
    ip ← rdp s_int_pending dst_ptr;
    updp dst_ptr (with_s_int_pending 0);;
    mret (Message 0 NOTIFY_MESSAGE (m_notify ts ip ∅))
  else if src =? SYSTEM
  then
    sp ← rdp s_sig_pending dst_ptr;
    updp dst_ptr (with_s_sig_pending ∅);;
    mret (Message 0 NOTIFY_MESSAGE (m_notify ts 0 sp))
  else mret (Message 0 NOTIFY_MESSAGE (m_notify ts 0 ∅)).

Definition deliver (p source : Z) (m : message) : K unit :=
  upd p (fun r => set_misc MF_DELIVERMSG (with_p_delivermsg (with_source source m) r)).

Definition mini_notify (caller_ptr dst_e : Z) : K kres :=
  ok ← isokendpt dst_e;
  match ok with
  | None => mret EDEADSRCDST
  | Some dst_p =>
      let dst_ptr := proc_addr dst_p in
      cep ← rd p_endpoint caller_ptr;
      w ← WILLRECEIVE dst_ptr cep;
      mf ← rd p_misc_flags dst_ptr;
      if w && negb (has mf MF_REPLY_PEND)
      then
        kassert (negb (has mf MF_DELIVERMSG));;
        nr ← rd p_nr caller_ptr;
        m ← BuildNotifyMessage nr dst_ptr;
        deliver dst_ptr cep m;;
        IPC_STATUS_ADD_CALL dst_ptr NOTIFY;;
        RTS_UNSET dst_ptr RTS_RECEIVING;;
        mret OK
      else
        src_id ← rdp s_id caller_ptr;
        updp dst_ptr (fun s => with_s_notify_pending (set_sys_bit (s_notify_pending s) src_id) s);;
        mret OK
  end.

(** ** Signals *)

Definition increase_proc_signals (p : Z) : K unit :=
  upd p (fun r => with_p_signal_received (u64 (p_signal_received r + 1)) r).

Definition send_sig (ep sig_nr : Z) : K kres :=
  ok ← isokendpt ep;
  match ok with
  | None => mret EINVAL
  | Some proc_nr =>
      let rp := proc_addr proc_nr in
      pv ← rd p_priv rp;
      if pv =? null_priv then mret ENOENT
      else
        updp rp (fun s => with_s_sig_pending (sigaddset (s_sig_pending s) sig_nr) s);;
        increase_proc_signals rp;;
        rep ← rd p_endpoint rp;
        mini_notify (proc_addr SYSTEM) rep;;
        mret OK
  end.

(** A panic if the signal cannot be sent. *)
Definition must_send_sig (ep sig_nr : Z) : K unit := r ← send_sig ep sig_nr; kassert (is_OK r).

(** The signal goes to the signal manager of the process, once until the
    manager has taken it. *)
Definition signal_manager (rp sig_mgr sig_nr : Z) : K unit :=
  pend ← rd p_pending rp;
  s ← opt (sigismember pend sig_nr);
  if s : bool then mret tt
  else
    upd rp (fun r => with_p_pending (sigaddset (p_pending r) sig_nr) r);;
    increase_proc_signals rp;;
    fl ← rd p_rts_flags rp;
    if RTS_ISSET fl RTS_SIGNALED then mret tt
    else
      RTS_SET rp (Z.lor RTS_SIGNALED RTS_SIG_PENDING);;
      must_send_sig sig_mgr SIGKSIG.

(** The recursion ends because the second round has no backup manager. *)
Fixpoint cause_sig_rec (fuel : nat) (proc_nr sig_nr : Z) : K unit :=
  match fuel with
  | O => ub
  | S fuel =>
      let rp := proc_addr proc_nr in
      mgr ← rdp s_sig_mgr rp;
      rep ← rd p_endpoint rp;
      let sig_mgr := if mgr =? SELF then rep else mgr in
      if rep =? sig_mgr
      then
        if SIGS_IS_LETHAL sig_nr
        then
          bak ← rdp s_bak_sig_mgr rp;
          ok ← (if bak =? NONE then mret None else isokendpt bak);
          match ok with
          | Some n =>
              updp rp (fun s => with_s_bak_sig_mgr NONE (with_s_sig_mgr bak s));;
              RTS_UNSET (proc_addr n) RTS_NO_PRIV;;
              cause_sig_rec fuel proc_nr sig_nr
          | None => ub
          end
        else
          updp rp (fun s => with_s_sig_pending (sigaddset (s_sig_pending s) sig_nr) s);;
          must_send_sig rep SIGKSIGSM
      else signal_manager rp sig_mgr sig_nr
  end.

Definition cause_sig (proc_nr sig_nr : Z) : K unit := cause_sig_rec 3 proc_nr sig_nr.

Definition sig_delay_done (rp : Z) : K unit :=
  upd rp (clear_misc MF_SIG_DELAY);;
  nr ← rd p_nr rp;
  cause_sig nr SIGSNDELAY.

Definition send_diag_sig : K unit :=
  kfor priv_slots (fun i =>
    nr ← rda s_proc_nr i;
    ds ← rda s_diag_sig i;
    if negb (nr =? NONE) && ds
    then ep ← rd p_endpoint (proc_addr nr); send_sig ep SIGKMESS;; mret tt
    else mret tt).
End Notify.
