(* ===== verification/KBase.v ===== *)
(** The invariant of the kernel's tables that the message passing code relies
    on, apart from who waits for whom, and how the basic steps keep it. *)

From S2P Require Import Prelude Chain Timers KState KSched KBoot KWait KNotify.
Local Open Scope Z_scope.

(** ** Privileges *)

(** What ties a process to its privilege structure. *)
Record pidv := PidV { d_priv : Z; d_nr : Z; d_ep : Z; d_free : bool }.

Definition pid (r : proc) : pidv := PidV (p_priv r) (p_nr r) (p_endpoint r) (has (p_rts_flags r) RTS_SLOT_FREE).

Definition priv_nr (i : Z) : Prop := 0 <= i < NR_SYS_PROCS.

(** [i] is the privilege structure of its own live process. *)
Definition sys_source (pr : gmap Z priv) (pd : gmap Z pidv) (i : Z) : Prop :=
  exists s d, pr !! i = Some s /\ has (s_flags s) SYS_PROC = true /\ isokprocn (s_proc_nr s) = true /\
    pd !! proc_addr (s_proc_nr s) = Some d /\ d_priv d = i /\ d_nr d = s_proc_nr s /\ d_free d = false.

(** [i] is the privilege structure of a live process. *)
Definition owned (pd : gmap Z pidv) (i : Z) : Prop :=
  exists p d, pd !! p = Some d /\ in_table p = true /\ d_free d = false /\ d_priv d = i.

Record pinv (pr : gmap Z priv) (pd : gmap Z pidv) : Prop := {
  pi_nr : forall p d, pd !! p = Some d -> in_table p = true -> p = proc_addr (d_nr d) /\ _ENDPOINT_P (d_ep d) = d_nr d;
  pi_priv : forall p d, pd !! p = Some d -> in_table p = true -> d_free d = false -> priv_nr (d_priv d);
  pi_slots : forall i, priv_nr i -> exists s, pr !! i = Some s /\ s_id s = i;
  pi_own : forall p d s, pd !! p = Some d -> in_table p = true -> d_free d = false ->
    pr !! d_priv d = Some s -> has (s_flags s) SYS_PROC = true -> s_proc_nr s = d_nr d;
  pi_notify : forall i s j, owned pd i -> pr !! i = Some s -> priv_nr j ->
    get_sys_bit (s_notify_pending s) j = true -> sys_source pr pd j;
  pi_asyn : forall i s j, owned pd i -> pr !! i = Some s -> priv_nr j ->
    get_sys_bit (s_asyn_pending s) j = true -> sys_source pr pd j;
  pi_words : forall i s, priv_nr i -> pr !! i = Some s -> map_ok (s_notify_pending s) /\ map_ok (s_asyn_pending s);
  pi_sigmgr : forall p d s, pd !! p = Some d -> in_table p = true -> d_free d = false -> iskerneln (d_nr d) = false ->
    pr !! d_priv d = Some s ->
    s_sig_mgr s = SELF \/ (exists d', pd !! target (s_sig_mgr s) = Some d' /\
      isokprocn (_ENDPOINT_P (s_sig_mgr s)) = true /\ d_free d' = false /\ d_ep d' = s_sig_mgr s);
  pi_trap : forall i s, priv_nr i -> pr !! i = Some s -> has (s_trap_mask s) (Z.shiftl 1 NOTIFY) = true ->
    has (s_flags s) SYS_PROC = true;
  pi_self : forall i s, priv_nr i -> pr !! i = Some s -> get_sys_bit (s_ipc_to s) i = false;
  pi_tasks : forall t, t = ASYNCM \/ t = CLOCK \/ t = SYSTEM \/ t = KERNEL ->
    exists d s, pd !! proc_addr t = Some d /\ d_free d = false /\ pr !! d_priv d = Some s /\
      has (s_flags s) SYS_PROC = true;
}.

(** Tables of asynchronous messages are in writable memory. *)
Definition tables_ok (ut : gmap (Z * Z) (asynmsg * bool)) : Prop :=
  forall a e b, ut !! a = Some (e, b) -> b = true.

(** Free slots have no other flag, and the running process is not one. *)
Definition flags_ok (k : kstate) : Prop :=
  (forall p fl, fld p_rts_flags k !! p = Some fl -> has fl RTS_SLOT_FREE = true -> fl = RTS_SLOT_FREE) /\
  (forall fl, fld p_rts_flags k !! proc_ptr k = Some fl -> has fl RTS_SLOT_FREE = false).

Record kbase (k : kstate) : Prop := {
  kb_sched : exists rq, sched_inv k rq;
  kb_flags : flags_ok k;
  kb_priv : pinv (privs k) (fld pid k);
  kb_tables : tables_ok (utab k);
}.

(** ** Facts about views *)

Lemma view_sched k k' : sched_eq k k' -> fld view k' = fld view k.
Proof.
  apply sched_fld. intros r. unfold view, unsched, clear_rts. simpl. by rewrite !has_ldiff_disj by done.
Qed.

Lemma pid_sched k k' : sched_eq k k' -> fld pid k' = fld pid k.
Proof. apply sched_fld. intros r. unfold pid, unsched, clear_rts. simpl. by rewrite !has_ldiff_disj by done. Qed.

Lemma fld_Some {A} (g : proc -> A) k p a : fld g k !! p = Some a -> exists r, procs k !! p = Some r /\ g r = a.
Proof. rewrite fld_lookup. destruct (procs k !! p) as [r|]; [|done]. intros [= <-]. by exists r. Qed.

Lemma fld_of {A} (g : proc -> A) k p r : procs k !! p = Some r -> fld g k !! p = Some (g r).
Proof. intros Hr. by rewrite fld_lookup, Hr. Qed.

Lemma resched_flags k k' : resched k k' -> proc_ptr k' = proc_ptr k -> flags_ok k -> flags_ok k'.
Proof.
  intros [_ Hf] Ep [H1 H2]. split.
  - intros p fl Hfl Hfree. destruct (Hf p) as [E|[-> E]]; rewrite E in Hfl; [by eapply H1|].
    destruct (fld p_rts_flags k !! proc_ptr k) as [f0|] eqn:E0; [|done]. simplify_eq/=.
    rewrite has_lor in Hfree. rewrite (H2 f0 eq_refl) in Hfree. done.
  - intros fl Hfl. rewrite Ep in Hfl. destruct (Hf (proc_ptr k)) as [E|[_ E]]; rewrite E in Hfl; [by eapply H2|].
    destruct (fld p_rts_flags k !! proc_ptr k) as [f0|] eqn:E0; [|done]. simplify_eq/=.
    rewrite has_lor, (H2 f0 eq_refl). done.
Qed.

(** ** Basic steps *)

(** An assignment to fields the base invariant does not look at. *)
Lemma kbase_put k p r r' :
  kbase k -> in_table p = true -> procs k !! p = Some r ->
  p_rts_flags r' = p_rts_flags r -> p_priority r' = p_priority r -> p_nextready r' = p_nextready r ->
  pid r' = pid r -> kbase (put_proc p r' k).
Proof.
  intros [[rq Hs] Hf Hp Ht] Hpt Hr Efl Epr Enx Epid.
  assert (p_priv r' = p_priv r) as Epv by (by injection Epid).
  split.
  - exists rq. eapply (sched_inv_put k rq _ rq p r r'); try done; [by rewrite Efl|].
    eapply rq_ok_put; [apply Hs|done| |done|done]. by rewrite Efl.
  - assert (fld p_rts_flags (put_proc p r' k) = fld p_rts_flags k) as E by (by eapply fld_put_same).
    unfold flags_ok. rewrite E. exact Hf.
  - by rewrite (fld_put_same pid p r' r k Hr Epid).
  - exact Ht.
Qed.

Lemma flags_ok_put k p r r' :
  flags_ok k -> procs k !! p = Some r -> has (p_rts_flags r') RTS_SLOT_FREE = false -> flags_ok (put_proc p r' k).
Proof.
  intros [H1 H2] Hr Hf. unfold flags_ok. rewrite fld_put. split.
  - intros q fl. destruct (decide (p = q)) as [->|]; [rewrite lookup_insert_eq; intros [= <-]; congruence|].
    rewrite lookup_insert_ne by done. apply H1.
  - intros fl. simpl. destruct (decide (p = proc_ptr k)) as [->|]; [rewrite lookup_insert_eq; by intros [= <-]|].
    rewrite lookup_insert_ne by done. apply H2.
Qed.

(** [RTS_UNSET] of a live process. *)
Lemma kbase_unset k p r f :
  kbase k -> in_table p = true -> procs k !! p = Some r -> has (p_rts_flags r) RTS_SLOT_FREE = false ->
  Z.land f UNPRIV = 0 ->
  exists k', RTS_UNSET p f k = Some (tt, k') /\ kbase k' /\ resched (put_proc p (clear_rts f r) k) k'.
Proof.
  intros [[rq Hs] Hf Hp Ht] Hpt Hr Hfree Hun.
  destruct (RTS_UNSET_ok k rq p f r (si_rq _ _ Hs) (si_cpu _ _ Hs) Hr) as (k' & rq' & E & Hrq' & Hre).
  exists k'. split_and!; [done| |done].
  assert (has (p_rts_flags (clear_rts f r)) RTS_SLOT_FREE = false) as Hfree'.
  { simpl. by apply has_ldiff_false. }
  pose proof (resched_sched _ _ Hre) as Hse.
  split.
  - exists rq'. eapply (sched_inv_put k rq k' rq' p r (clear_rts f r)); try done. simpl. by rewrite has_ldiff_disj.
  - apply (resched_flags _ _ Hre); [symmetry; exact (f_equal proc_ptr Hse)|]. by eapply flags_ok_put.
  - rewrite <- (f_equal privs Hse : privs k = privs k'), (pid_sched _ _ Hse).
    rewrite (fld_put_same pid p (clear_rts f r) r k Hr); [done|].
    unfold pid. by rewrite Hfree, Hfree'.
  - by rewrite <- (f_equal utab Hse : utab k = utab k').
Qed.

(** [RTS_SET] of a live process. *)
Lemma kbase_set k p r f :
  kbase k -> in_table p = true -> procs k !! p = Some r -> has (p_rts_flags r) RTS_SLOT_FREE = false ->
  has f RTS_SLOT_FREE = false ->
  exists k', RTS_SET p f k = Some (tt, k') /\ kbase k' /\ link_eq (put_proc p (set_rts f r) k) k'.
Proof.
  intros [[rq Hs] Hf Hp Ht] Hpt Hr Hfree Hff.
  destruct (RTS_SET_ok k rq p f r (si_rq _ _ Hs) Hr) as (k' & rq' & E & Hrq' & Hl).
  exists k'. split_and!; [done| |done].
  assert (has (p_rts_flags (set_rts f r)) RTS_SLOT_FREE = false) as Hfree' by (simpl; by rewrite has_lor, Hfree, Hff).
  pose proof (link_sched _ _ Hl) as Hse.
  split.
  - exists rq'. eapply (sched_inv_put k rq k' rq' p r (set_rts f r)); try done.
    simpl. rewrite has_lor. by intros [? _]%orb_false_iff.
  - apply (resched_flags _ _ (link_resched _ _ Hl)); [symmetry; exact (f_equal proc_ptr Hse)|].
    by eapply flags_ok_put.
  - rewrite <- (f_equal privs Hse : privs k = privs k'), (pid_sched _ _ Hse).
    rewrite (fld_put_same pid p (set_rts f r) r k Hr); [done|]. unfold pid. by rewrite Hfree, Hfree'.
  - by rewrite <- (f_equal utab Hse : utab k = utab k').
Qed.

(** ** Privilege structures *)

(** A privilege structure whose pending bits change. *)
Record priv_change (pr : gmap Z priv) (pd : gmap Z pidv) (s s' : priv) : Prop := {
  pc_nr : s_proc_nr s' = s_proc_nr s;
  pc_id : s_id s' = s_id s;
  pc_flags : s_flags s' = s_flags s;
  pc_trap : s_trap_mask s' = s_trap_mask s;
  pc_to : s_ipc_to s' = s_ipc_to s;
  pc_mgr : s_sig_mgr s' = s_sig_mgr s;
  pc_notify_ok : map_ok (s_notify_pending s) -> map_ok (s_notify_pending s');
  pc_asyn_ok : map_ok (s_asyn_pending s) -> map_ok (s_asyn_pending s');
  pc_notify : forall j, priv_nr j -> get_sys_bit (s_notify_pending s') j = true ->
    get_sys_bit (s_notify_pending s) j = true \/ sys_source pr pd j;
  pc_asyn : forall j, priv_nr j -> get_sys_bit (s_asyn_pending s') j = true ->
    get_sys_bit (s_asyn_pending s) j = true \/ sys_source pr pd j;
}.

Lemma sys_source_put pr pd i s s' j :
  pr !! i = Some s -> s_proc_nr s' = s_proc_nr s -> s_flags s' = s_flags s ->
  sys_source pr pd j -> sys_source (<[i := s']> pr) pd j.
Proof.
  intros Hs En Ef (t & d & Ht & H). destruct (decide (i = j)) as [->|].
  - simplify_eq. exists s', d. rewrite lookup_insert_eq, En, Ef. done.
  - exists t, d. by rewrite lookup_insert_ne.
Qed.

Lemma pinv_put pr pd i s s' :
  pinv pr pd -> priv_nr i -> pr !! i = Some s -> priv_change pr pd s s' -> pinv (<[i := s']> pr) pd.
Proof.
  intros Hp Hi Hs [En Eid Ef Et Eto Em Hno Hao Hn Ha].
  assert (Hsrc : forall j, sys_source pr pd j -> sys_source (<[i := s']> pr) pd j)
    by (intros; by eapply sys_source_put).
  assert (Hcase : forall j t, (<[i := s']> pr : gmap Z priv) !! j = Some t ->
    exists t0, pr !! j = Some t0 /\ s_proc_nr t = s_proc_nr t0 /\ s_id t = s_id t0 /\ s_flags t = s_flags t0 /\
      s_trap_mask t = s_trap_mask t0 /\ s_ipc_to t = s_ipc_to t0 /\ s_sig_mgr t = s_sig_mgr t0 /\
      (t = t0 \/ (j = i /\ t = s'))).
  { intros j t. destruct (decide (i = j)) as [->|].
    - rewrite lookup_insert_eq. intros [= <-]. exists s. rewrite En, Eid, Ef, Et, Eto, Em. auto 10.
    - rewrite lookup_insert_ne by done. intros Ht. exists t. auto 10. }
  split.
  - apply Hp.
  - apply Hp.
  - intros j Hj. destruct (pi_slots _ _ Hp j Hj) as (t & Ht & Eti). destruct (decide (i = j)) as [->|].
    + exists s'. rewrite lookup_insert_eq. simplify_eq. by rewrite Eid.
    + exists t. by rewrite lookup_insert_ne.
  - intros p d t Hd Hpt Hfr (t0 & Ht0 & -> & _ & -> & _)%Hcase Hsys. by eapply pi_own.
  - intros j t j' Hj (t0 & Ht0 & _ & _ & _ & _ & _ & _ & [->|[-> ->]])%Hcase Hj' Hb.
    + apply Hsrc. by eapply (pi_notify _ _ Hp j t0 j').
    + destruct (Hn j' Hj' Hb); apply Hsrc; [by eapply (pi_notify _ _ Hp i s j')|done].
  - intros j t j' Hj (t0 & Ht0 & _ & _ & _ & _ & _ & _ & [->|[-> ->]])%Hcase Hj' Hb.
    + apply Hsrc. by eapply (pi_asyn _ _ Hp j t0 j').
    + destruct (Ha j' Hj' Hb); apply Hsrc; [by eapply (pi_asyn _ _ Hp i s j')|done].
  - intros j t Hj (t0 & Ht0 & _ & _ & _ & _ & _ & _ & [->|[-> ->]])%Hcase; [by eapply (pi_words _ _ Hp j t0)|].
    destruct (pi_words _ _ Hp i s Hi Hs). auto.
  - intros p d t Hd Hpt Hfr Hnr (t0 & Ht0 & _ & _ & _ & _ & _ & -> & _)%Hcase. by eapply pi_sigmgr.
  - intros j t Hj (t0 & Ht0 & _ & _ & -> & -> & _)%Hcase. by eapply pi_trap.
  - intros j t Hj (t0 & Ht0 & _ & _ & _ & _ & -> & _)%Hcase. by eapply pi_self.
  - intros t Ht. destruct (pi_tasks _ _ Hp t Ht) as (d & st & Hd & Hfr & Hst & Hsys).
    destruct (decide (i = d_priv d)) as [->|].
    + exists d, s'. rewrite lookup_insert_eq. simplify_eq. by rewrite Ef.
    + exists d, st. by rewrite lookup_insert_ne.
Qed.

Lemma kbase_put_priv k i s s' :
  kbase k -> priv_nr i -> privs k !! i = Some s -> priv_change (privs k) (fld pid k) s s' ->
  kbase (put_priv i s' k).
Proof.
  intros [[rq [Hrq (rc & sc & Hrc & Hsc) Htb Hpr Hid]] Hf Hp Ht] Hi Hs Hc. split.
  - exists rq. split; try done.
    + destruct Hrq as [Hrs ? ? ?]. split; try done. by apply (rqs_ext k).
    + unfold cpu_ok. simpl. destruct (decide (i = p_priv rc)) as [->|].
      * exists rc, s'. by rewrite lookup_insert_eq.
      * exists rc, sc. by rewrite lookup_insert_ne.
    + by destruct Htb; split.
    + intros p r Hr Hfl. simpl. destruct (decide (i = p_priv r)) as [->|]; [by rewrite lookup_insert_eq|].
      rewrite lookup_insert_ne by done. by eapply Hpr.
    + destruct Hid as (ri & si & Hri & Hsi). exists ri. simpl. destruct (decide (i = p_priv ri)) as [->|].
      * exists s'. by rewrite lookup_insert_eq.
      * exists si. by rewrite lookup_insert_ne.
  - exact Hf.
  - by apply (pinv_put (privs k) (fld pid k) i s s').
  - exact Ht.
Qed.

(** The rest of the state does not matter. *)
Lemma kbase_ext k k' :
  kbase k -> procs k' = procs k -> privs k' = privs k -> run_q_head k' = run_q_head k ->
  run_q_tail k' = run_q_tail k -> proc_ptr k' = proc_ptr k -> utab k' = utab k -> kbase k'.
Proof.
  intros [[rq [[Hrs He Hpr Hn] Hcpu [Hs Hi] Hpv Hid]] Hf Hp Ht] E1 E2 E3 E4 E5 E6.
  assert (forall A (g : proc -> A), fld g k' = fld g k) as Ef by (intros; unfold fld; by rewrite E1).
  split.
  - exists rq. split.
    + split; rewrite ?Ef, ?E1; try done. by apply (rqs_ext k).
    + unfold cpu_ok. by rewrite E1, E2, E5.
    + split; by rewrite E1.
    + unfold privs_ok. by rewrite E1, E2.
    + by rewrite E1, E2.
  - unfold flags_ok. by rewrite !Ef, E5.
  - by rewrite Ef, E2.
  - by rewrite E6.
Qed.

(** An assignment to fields of any process, also the idle one. *)
Lemma kbase_put_any k p r r' :
  kbase k -> procs k !! p = Some r ->
  p_rts_flags r' = p_rts_flags r -> p_priority r' = p_priority r -> p_nextready r' = p_nextready r ->
  pid r' = pid r -> kbase (put_proc p r' k).
Proof.
  intros [[rq [[Hrs He Hpr Hn] Hcpu [Hs Hi] Hpv Hid]] Hf Hp Ht] Hr Efl Epr Enx Epid.
  assert (p_priv r' = p_priv r) as Epv by (by injection Epid).
  assert (forall q w', procs (put_proc p r' k) !! q = Some w' -> exists w, procs k !! q = Some w /\
    p_rts_flags w' = p_rts_flags w /\ p_priv w' = p_priv w) as Hback.
  { intros q w'. simpl. destruct (decide (p = q)) as [->|]; [rewrite lookup_insert_eq; intros [= <-]; by exists r|].
    rewrite lookup_insert_ne by done. by exists w'. }
  assert (forall q w, procs k !! q = Some w -> exists w', procs (put_proc p r' k) !! q = Some w' /\ p_priv w' = p_priv w)
    as Hfwd.
  { intros q w Hw. simpl. destruct (decide (p = q)) as [->|]; [rewrite lookup_insert_eq; simplify_eq; by exists r'|].
    rewrite lookup_insert_ne by done. by exists w. }
  split.
  - exists rq. split.
    + eapply (rq_ok_put k rq p r r'); [by split|done|by rewrite Efl|done|done].
    + destruct Hcpu as (c & s & Hc & Hcs). destruct (Hfwd _ _ Hc) as (c' & Hc' & Ec'). exists c', s. by rewrite Ec'.
    + split.
      * intros q [w Hw]%Hs. destruct (Hfwd _ _ Hw) as (w' & Hw' & _). by exists w'.
      * intros q w' (w & Hw & Ew & _)%Hback. rewrite Ew. by apply Hi.
    + intros q w' (w & Hw & Ew & Ewp)%Hback. rewrite Ew, Ewp. by apply (Hpv q).
    + destruct Hid as (c & s & Hc & Hcs). destruct (Hfwd _ _ Hc) as (c' & Hc' & Ec'). exists c', s. by rewrite Ec'.
  - unfold flags_ok. by rewrite (fld_put_same p_rts_flags p r' r k Hr Efl).
  - by rewrite (fld_put_same pid p r' r k Hr Epid).
  - exact Ht.
Qed.

(** ** Looking up processes *)

Lemma kbase_slot k p : kbase k -> in_table p = true -> exists r, procs k !! p = Some r.
Proof. intros [[rq Hs] _ _ _] Hp. apply (tbl_slots _ (si_table _ _ Hs) p Hp). Qed.

(** A process in use. *)
Definition live (k : kstate) (p : Z) : Prop :=
  in_table p = true /\ exists v, fld view k !! p = Some v /\ v_free v = false.

Lemma live_of k p r :
  in_table p = true -> procs k !! p = Some r -> has (p_rts_flags r) RTS_SLOT_FREE = false -> live k p.
Proof. intros Hp Hr Hf. split; [done|]. exists (view r). split; [by apply fld_of|done]. Qed.

Lemma live_flag k p r : live k p -> procs k !! p = Some r -> has (p_rts_flags r) RTS_SLOT_FREE = false.
Proof. intros (_ & v & Hv & Hf) Hr. rewrite (fld_of _ _ _ _ Hr) in Hv. by injection Hv as <-. Qed.

Lemma live_owned k p r : live k p -> procs k !! p = Some r -> owned (fld pid k) (p_priv r).
Proof. intros Hl Hr. exists p, (pid r). split_and!; [by apply fld_of|apply Hl|by eapply live_flag|done]. Qed.

Lemma live_procs k k' p : procs k' = procs k -> live k p -> live k' p.
Proof. intros E. unfold live, fld. by rewrite E. Qed.

Lemma live_views k k' p : fld view k' = fld view k -> live k p -> live k' p.
Proof. intros E. unfold live. by rewrite E. Qed.

Lemma live_slot_of k p : live k p -> exists r, procs k !! p = Some r.
Proof. intros (_ & v & Hv & _). apply fld_Some in Hv as (r & Hr & _). by exists r. Qed.

Lemma live_target k e : live_ep (fld view k) e -> live k (target e).
Proof. intros (v & Hv & Hok & Hf & _). split; [by apply target_table|]. by exists v. Qed.

#[export] Hint Resolve live_of live_procs live_views live_target : core.

Lemma kbase_priv k p r :
  kbase k -> live k p -> procs k !! p = Some r ->
  priv_nr (p_priv r) /\ exists s, privs k !! p_priv r = Some s /\ s_id s = p_priv r.
Proof.
  intros Hk Hl Hr. assert (priv_nr (p_priv r)) as Hi.
  { eapply (pi_priv _ _ (kb_priv _ Hk) p (pid r)); [by apply fld_of|apply Hl|by eapply live_flag]. }
  split; [done|]. by apply (pi_slots _ _ (kb_priv _ Hk)).
Qed.

Lemma endpoint_ok_run k e n r :
  isokprocn n = true -> procs k !! proc_addr n = Some r ->
  endpoint_ok e n k = Some (negb (p_rts_flags r =? RTS_SLOT_FREE) && (p_endpoint r =? e), k).
Proof.
  intros Hn Hr. unfold endpoint_ok, isemptyp. rewrite Hn, bind_assoc.
  rewrite (bind_run _ _ _ _ _ (rd_run p_rts_flags _ _ _ Hr)).
  rewrite (bind_run (mret _) _ k (p_rts_flags r =? RTS_SLOT_FREE) k eq_refl).
  destruct (_ =? RTS_SLOT_FREE); [done|]. by rewrite (bind_run _ _ _ _ _ (rd_run p_endpoint _ _ _ Hr)).
Qed.

(** A slot is free exactly when its flags say so. *)
Lemma free_flag k p r :
  kbase k -> procs k !! p = Some r -> (p_rts_flags r =? RTS_SLOT_FREE) = has (p_rts_flags r) RTS_SLOT_FREE.
Proof.
  intros Hk Hr. destruct (has (p_rts_flags r) RTS_SLOT_FREE) eqn:E.
  - apply Z.eqb_eq. eapply (proj1 (kb_flags _ Hk)); [by apply (fld_of p_rts_flags)|done].
  - apply Z.eqb_neq. intros E'. by rewrite E' in E.
Qed.

Lemma endpoint_live k e b :
  kbase k -> endpoint_ok e (_ENDPOINT_P e) k = Some (b, k) -> (b = true <-> live_ep (fld view k) e).
Proof.
  intros Hk. destruct (isokprocn (_ENDPOINT_P e)) eqn:Eok.
  - destruct (kbase_slot k (target e) Hk (target_table _ Eok)) as [r Hr].
    rewrite (endpoint_ok_run k e _ r Eok Hr), (free_flag _ _ _ Hk Hr). intros [= <-].
    rewrite andb_true_iff, negb_true_iff, Z.eqb_eq. split.
    + intros [Hf He]. exists (view r). rewrite (fld_of _ _ _ _ Hr). done.
    + intros (v & Hv & _ & Hf & He). rewrite (fld_of _ _ _ _ Hr) in Hv. injection Hv as <-. done.
  - unfold endpoint_ok. rewrite Eok. intros [= <-]. split; [done|]. intros (v & _ & E & _). congruence.
Qed.

Lemma endpoint_ok_total k e : kbase k -> exists b, endpoint_ok e (_ENDPOINT_P e) k = Some (b, k).
Proof.
  intros Hk. destruct (isokprocn (_ENDPOINT_P e)) eqn:Eok.
  - destruct (kbase_slot k (target e) Hk (target_table _ Eok)) as [r Hr].
    rewrite (endpoint_ok_run k e _ r Eok Hr). by eexists.
  - unfold endpoint_ok. rewrite Eok. by eexists.
Qed.

Lemma isokendpt_run k e :
  kbase k ->
  (live_ep (fld view k) e /\ isokendpt e k = Some (Some (_ENDPOINT_P e), k)) \/
  (~ live_ep (fld view k) e /\ isokendpt e k = Some (None, k)).
Proof.
  intros Hk. destruct (endpoint_ok_total k e Hk) as [b Hb].
  pose proof (endpoint_live _ _ _ Hk Hb) as Hl. unfold isokendpt, isokendpt_f.
  rewrite (bind_run _ _ _ _ _ Hb). destruct b; simpl; [left|right]; (split; [|done]).
  - by apply Hl.
  - intros ?%Hl. done.
Qed.

Lemma okendpt_run k e : kbase k -> live_ep (fld view k) e -> okendpt e k = Some (_ENDPOINT_P e, k).
Proof.
  intros Hk Hl. destruct (endpoint_ok_total k e Hk) as [b Hb].
  apply (endpoint_live _ _ _ Hk Hb) in Hl. subst b. unfold okendpt, isokendpt_f.
  rewrite bind_assoc, (bind_run _ _ _ _ _ Hb). done.
Qed.

(** The slot of a live endpoint. *)
Lemma live_slot k e :
  live_ep (fld view k) e ->
  exists r, procs k !! target e = Some r /\ in_table (target e) = true /\ p_endpoint r = e /\
    has (p_rts_flags r) RTS_SLOT_FREE = false.
Proof.
  intros (v & Hv & Hok & Hf & He). apply fld_Some in Hv as (r & Hr & <-). exists r.
  split_and!; try done. by apply target_table.
Qed.

Definition v_willreceive (v : ipcv) (e : Z) : bool :=
  match v_out v, v_in v with None, Some g => (g =? ANY) || (g =? e) | _, _ => false end.

Lemma willreceive_run k t r e :
  procs k !! t = Some r -> WILLRECEIVE t e k = Some (v_willreceive (view r) e, k).
Proof.
  intros Hr. unfold WILLRECEIVE. rewrite (bind_run _ _ _ _ _ (rd_run p_rts_flags _ _ _ Hr)).
  rewrite !isset_has by tauto. unfold v_willreceive, view. simpl.
  destruct (has (p_rts_flags r) RTS_RECEIVING), (has (p_rts_flags r) RTS_SENDING); simpl; try done.
  by rewrite (bind_run _ _ _ _ _ (rd_run p_getfrom_e _ _ _ Hr)).
Qed.

(** ** Total correctness

    [runs m k Q]: from [k], [m] ends without a failed assertion, in a state and
    with a result that satisfy [Q]. *)
Definition runs {A} (m : K A) (k : kstate) (Q : A -> kstate -> Prop) : Prop :=
  match m k with Some (a, k') => Q a k' | None => False end.

Lemma runs_bind {A B} (m : K A) (f : A -> K B) k Q :
  runs m k (fun a k' => runs (f a) k' Q) -> runs (m ≫= f) k Q.
Proof. unfold runs. destruct (m k) as [[a k']|] eqn:E; [|done]. by rewrite (bind_run _ _ _ _ _ E). Qed.

Lemma runs_mono {A} (m : K A) k (Q Q' : A -> kstate -> Prop) :
  runs m k Q -> (forall a k', Q a k' -> Q' a k') -> runs m k Q'.
Proof. unfold runs. destruct (m k) as [[a k']|]; auto. Qed.

Lemma runs_conj {A} (m : K A) k (Q Q' : A -> kstate -> Prop) : runs m k Q -> runs m k Q' -> runs m k (fun a k' => Q a k' /\ Q' a k').
Proof. unfold runs. by destruct (m k) as [[a k']|]. Qed.

Lemma runs_seq {A B} (m : K A) (f : A -> K B) k (Q : B -> kstate -> Prop) (P : A -> kstate -> Prop) :
  runs m k P -> (forall a k', P a k' -> runs (f a) k' Q) -> runs (m ≫= f) k Q.
Proof. intros H1 H2. apply runs_bind. by eapply runs_mono. Qed.

Lemma runs_of {A} (m : K A) k a k' (Q : A -> kstate -> Prop) : m k = Some (a, k') -> Q a k' -> runs m k Q.
Proof. unfold runs. by intros ->. Qed.

Lemma runs_step {A B} (m : K A) (f : A -> K B) k a k' Q :
  m k = Some (a, k') -> runs (f a) k' Q -> runs (m ≫= f) k Q.
Proof. intros E HQ. apply runs_bind. by eapply runs_of. Qed.

Lemma runs_assoc {A B C} (m : K A) (f : A -> K B) (g : B -> K C) k Q :
  runs ((m ≫= f) ≫= g) k Q -> runs (m ≫= fun a => f a ≫= g) k Q.
Proof. unfold runs. by rewrite bind_assoc. Qed.

Lemma runs_inv {A} (m : K A) k (Q : A -> kstate -> Prop) :
  runs m k Q -> exists a k', m k = Some (a, k') /\ Q a k'.
Proof. unfold runs. destruct (m k) as [[a k']|]; [|done]. by exists a, k'. Qed.

Lemma runs_ret {A} (a : A) k (Q : A -> kstate -> Prop) : Q a k -> runs (mret a) k Q.
Proof. done. Qed.

Lemma runs_rd {A} (g : proc -> A) p k r Q : procs k !! p = Some r -> Q (g r) k -> runs (rd g p) k Q.
Proof. intros Hr. apply runs_of. by apply rd_run. Qed.

Lemma runs_upd p f k r Q : procs k !! p = Some r -> Q tt (put_proc p (f r) k) -> runs (upd p f) k Q.
Proof. intros Hr. apply runs_of. by apply upd_run. Qed.

Lemma runs_rdp {A} (g : priv -> A) p k r s Q :
  procs k !! p = Some r -> privs k !! p_priv r = Some s -> Q (g s) k -> runs (rdp g p) k Q.
Proof. intros Hr Hs. apply runs_of. by eapply rdp_run. Qed.

Lemma runs_updp p f k r s Q :
  procs k !! p = Some r -> privs k !! p_priv r = Some s -> Q tt (put_priv (p_priv r) (f s) k) -> runs (updp p f) k Q.
Proof. intros Hr Hs. apply runs_of. by eapply updp_run. Qed.

Lemma runs_rda {A} (g : priv -> A) i k s Q : privs k !! i = Some s -> Q (g s) k -> runs (rda g i) k Q.
Proof. intros Hs. apply runs_of. by apply rda_run. Qed.

Lemma runs_assert b k (Q : unit -> kstate -> Prop) : b = true -> Q tt k -> runs (kassert b) k Q.
Proof. by intros ->. Qed.

(** One step of a definition: accessors whose slots are known. *)
Ltac kstep :=
  match goal with
  | |- runs (_ ≫= _) _ _ => apply runs_bind; kstep
  | |- runs (mret _) _ _ => apply runs_ret
  | |- runs (rd _ _) _ _ => eapply runs_rd; [eassumption|]
  | |- runs (upd _ _) _ _ => eapply runs_upd; [eassumption|]
  | |- runs (rdp _ _) _ _ => eapply runs_rdp; [eassumption|eassumption|]
  | |- runs (updp _ _) _ _ => eapply runs_updp; [eassumption|eassumption|]
  | |- runs (rda _ _) _ _ => eapply runs_rda; [eassumption|]
  | |- runs (gets _) _ _ => eapply runs_of; [reflexivity|]
  | |- runs (get) _ _ => eapply runs_of; [reflexivity|]
  | |- runs (kassert _) _ _ => apply runs_assert
  end; cbv beta.

(** ** What message passing never changes

    The identities of the processes and the kinds of their privileges. *)
Definition ids (k : kstate) : gmap Z pidv * gmap Z Z := (fld pid k, s_flags <$> privs k).

Definition keeps {A} (m : K A) : Prop := forall k a k', m k = Some (a, k') -> ids k' = ids k.

Lemma runs_keeps {A} (m : K A) k (Q : A -> kstate -> Prop) :
  keeps m -> runs m k Q -> runs m k (fun a k' => Q a k' /\ ids k' = ids k).
Proof. intros Hm. unfold runs. destruct (m k) as [[a k']|] eqn:E; [|done]. intros HQ. by rewrite (Hm _ _ _ E). Qed.

Lemma keeps_bind {A B} (m : K A) (f : A -> K B) : keeps m -> (forall a, keeps (f a)) -> keeps (m ≫= f).
Proof. intros Hm Hf k b k' (a & k1 & E1 & E2)%bind_Some. by rewrite (Hf _ _ _ _ E2), (Hm _ _ _ E1). Qed.

Lemma keeps_same {A} (m : K A) : (forall k a k', m k = Some (a, k') -> k' = k) -> keeps m.
Proof. intros Hm k a k' ->%Hm. done. Qed.

Lemma keeps_ret {A} (a : A) : keeps (mret a).
Proof. apply keeps_same. by intros ? ? ? [= _ ->]. Qed.

Lemma keeps_ub {A} : keeps (ub : K A).
Proof. done. Qed.

Lemma keeps_get : keeps get.
Proof. apply keeps_same. by intros ? ? ? [= _ ->]. Qed.

Lemma keeps_gets {A} (f : kstate -> A) : keeps (gets f).
Proof. apply keeps_same. by intros ? ? ? [= _ ->]. Qed.

Lemma keeps_opt {A} (o : option A) : keeps (opt o).
Proof. apply keeps_same. intros k a k'. destruct o; [|done]. by intros [= _ ->]. Qed.

Lemma keeps_assert b : keeps (kassert b).
Proof. destruct b; [apply keeps_ret|apply keeps_ub]. Qed.

Lemma keeps_rd {A} (g : proc -> A) p : keeps (rd g p).
Proof.
  apply keeps_bind; [apply keeps_get|intros k]. apply keeps_bind; [apply keeps_opt|intros r]. apply keeps_ret.
Qed.

Lemma keeps_rda {A} (g : priv -> A) i : keeps (rda g i).
Proof.
  apply keeps_bind; [apply keeps_get|intros k]. apply keeps_bind; [apply keeps_opt|intros r]. apply keeps_ret.
Qed.

Lemma keeps_rdp {A} (g : priv -> A) p : keeps (rdp g p).
Proof. apply keeps_bind; [apply keeps_rd|intros i]. apply (keeps_rda g i). Qed.

Lemma keeps_upd p f : (forall r, pid (f r) = pid r) -> keeps (upd p f).
Proof.
  intros Hf k [] k'. unfold upd. mrun. destruct (procs k !! p) as [r|] eqn:Hr; [|done]. intros [= <-].
  unfold ids. f_equal. apply (fld_put_same pid p (f r) r k Hr). apply Hf.
Qed.

Lemma keeps_updp p f : (forall s, s_flags (f s) = s_flags s) -> keeps (updp p f).
Proof.
  intros Hf. apply keeps_bind; [apply keeps_rd|]. intros i k [] k'. mrun.
  destruct (privs k !! i) as [s|] eqn:Hs; [|done]. intros [= <-].
  unfold ids. f_equal. simpl. rewrite fmap_insert, Hf. apply insert_id. by rewrite lookup_fmap, Hs.
Qed.

Create HintDb keeps.
#[export] Hint Resolve keeps_ret keeps_ub keeps_get keeps_gets keeps_opt keeps_assert keeps_rd keeps_rda keeps_rdp
  : keeps.

(** Structural proofs of [keeps]. *)
Ltac keeps :=
  repeat match goal with
  | |- keeps (_ ≫= _) => apply keeps_bind; [|intros ?]
  | |- keeps (upd _ _) => apply keeps_upd; intros ?; try done
  | |- keeps (updp _ _) => apply keeps_updp; intros ?; try done
  | |- keeps (match ?x with _ => _ end) => destruct x
  | |- keeps _ => solve [auto with keeps]
  end.

Lemma keeps_modify f : (forall k, ids (f k) = ids k) -> keeps (modify f).
Proof. intros Hf k [] k' [= <-]. apply Hf. Qed.

Lemma keeps_wr_head q v : keeps (wr_head q v).
Proof. unfold wr_head. keeps. by apply keeps_modify. Qed.

Lemma keeps_wr_tail q v : keeps (wr_tail q v).
Proof. unfold wr_tail. keeps. by apply keeps_modify. Qed.

#[export] Hint Resolve keeps_wr_head keeps_wr_tail : keeps.

Lemma keeps_dequeue p : keeps (dequeue p).
Proof. unfold dequeue, unlink, rd_head, rd_tail, wr_ready, read_tsc_64. keeps. Qed.

#[export] Hint Resolve keeps_dequeue : keeps.

Lemma pid_set f r : has f RTS_SLOT_FREE = false -> pid (set_rts f r) = pid r.
Proof. intros E. unfold pid. simpl. by rewrite has_lor, E, orb_false_r. Qed.

Lemma pid_clear f r : Z.land f RTS_SLOT_FREE = 0 -> pid (clear_rts f r) = pid r.
Proof. intros E. unfold pid. simpl. by rewrite has_ldiff_disj. Qed.

Lemma keeps_RTS_SET p f : has f RTS_SLOT_FREE = false -> keeps (RTS_SET p f).
Proof. intros E. unfold RTS_SET. keeps. by apply pid_set. Qed.

Lemma keeps_RTS_UNSET p f : Z.land f RTS_SLOT_FREE = 0 -> keeps (RTS_UNSET p f).
Proof.
  intros E. unfold RTS_UNSET, enqueue, add_tail, preempt_current, note_enter_queue, rd_head, rd_tail, read_tsc_64.
  keeps; [by apply pid_clear|]. by apply keeps_RTS_SET.
Qed.
