(* ===== verification/KFrame.v ===== *)
(** Frames: relations between the states before and after an operation that
    look at the privilege table only, such as which asynchronous messages are
    pending. *)

From S2P Require Import Prelude Chain Timers KState KSched KBoot KWait KNotify KBase.
Local Open Scope Z_scope.

(** A preorder that does not depend on the rest of the state. *)
Class PrivFrame (R : kstate -> kstate -> Prop) := {
  pf_pre :: PreOrder R;
  pf_same : forall k k', privs k' = privs k -> R k k';
}.

Definition respects {A} (R : kstate -> kstate -> Prop) (m : K A) : Prop := forall k a k', m k = Some (a, k') -> R k k'.

Section Respects.
Context (R : kstate -> kstate -> Prop) `{!PrivFrame R}.

Lemma respects_bind {A B} (m : K A) (f : A -> K B) : respects R m -> (forall a, respects R (f a)) -> respects R (m ≫= f).
Proof. intros Hm Hf k b k' (a & k1 & E1 & E2)%bind_Some. etransitivity; [by eapply Hm|by eapply Hf]. Qed.

Lemma respects_same {A} (m : K A) : (forall k a k', m k = Some (a, k') -> privs k' = privs k) -> respects R m.
Proof. intros Hm k a k' E. apply pf_same. by eapply Hm. Qed.

Lemma respects_ret {A} (a : A) : respects R (mret a).
Proof. apply respects_same. by intros ? ? ? [= _ ->]. Qed.

Lemma respects_ub {A} : respects R (ub : K A).
Proof. done. Qed.

Lemma respects_get : respects R get.
Proof. apply respects_same. by intros ? ? ? [= _ ->]. Qed.

Lemma respects_gets {A} (f : kstate -> A) : respects R (gets f).
Proof. apply respects_same. by intros ? ? ? [= _ ->]. Qed.

Lemma respects_opt {A} (o : option A) : respects R (opt o).
Proof. apply respects_same. intros k a k'. destruct o; [|done]. by intros [= _ ->]. Qed.

Lemma respects_modify f : (forall k, privs (f k) = privs k) -> respects R (modify f).
Proof. intros Hf. apply respects_same. intros k a k' [= _ <-]. apply Hf. Qed.
End Respects.

Create HintDb respects.
#[export] Hint Resolve respects_ret respects_ub respects_get respects_gets respects_opt : respects.

(** Structural proofs. *)
Ltac respects :=
  repeat match goal with
  | |- respects _ (_ ≫= _) => apply respects_bind; [exact _| |intros ?]
  | |- respects _ (modify _) => apply respects_modify; [exact _|done]
  | |- respects _ (match ?x with _ => _ end) => destruct x
  | |- respects _ _ => solve [eauto with respects typeclass_instances]
  end.

Section Primitives.
Context (R : kstate -> kstate -> Prop) `{!PrivFrame R}.

Lemma respects_assert b : respects R (kassert b).
Proof. unfold kassert. respects. Qed.

Lemma respects_rd {A} (g : proc -> A) p : respects R (rd g p).
Proof. unfold rd. respects. Qed.

Lemma respects_upd p f : respects R (upd p f).
Proof. unfold upd. respects. Qed.

Lemma respects_rda {A} (g : priv -> A) i : respects R (rda g i).
Proof. unfold rda. respects. Qed.

Hint Resolve respects_assert respects_rd respects_upd respects_rda : respects.

Lemma respects_rdp {A} (g : priv -> A) p : respects R (rdp g p).
Proof. unfold rdp. respects. Qed.

Lemma respects_wr_head q v : respects R (wr_head q v).
Proof. unfold wr_head. respects. Qed.

Lemma respects_wr_tail q v : respects R (wr_tail q v).
Proof. unfold wr_tail. respects. Qed.

Hint Resolve respects_rdp respects_wr_head respects_wr_tail : respects.

Lemma respects_dequeue p : respects R (dequeue p).
Proof. unfold dequeue, unlink, rd_head, rd_tail, wr_ready, read_tsc_64. respects. Qed.

Hint Resolve respects_dequeue : respects.

Lemma respects_RTS_SET p f : respects R (RTS_SET p f).
Proof. unfold RTS_SET. respects. Qed.

Hint Resolve respects_RTS_SET : respects.

Lemma respects_RTS_UNSET p f : respects R (RTS_UNSET p f).
Proof.
  unfold RTS_UNSET, enqueue, add_tail, preempt_current, note_enter_queue, rd_head, rd_tail, read_tsc_64. respects.
Qed.

Lemma respects_isokendpt e : respects R (isokendpt e).
Proof. unfold isokendpt, isokendpt_f, endpoint_ok, isemptyp. respects. Qed.

Lemma respects_deliver p src msg : respects R (deliver p src msg).
Proof. unfold deliver. respects. Qed.

Lemma respects_status p x : respects R (IPC_STATUS_ADD p x).
Proof. unfold IPC_STATUS_ADD. respects. Qed.

Lemma respects_willreceive p e : respects R (WILLRECEIVE p e).
Proof. unfold WILLRECEIVE. respects. Qed.
End Primitives.

#[export] Hint Resolve respects_assert respects_rd respects_upd respects_rda respects_rdp respects_wr_head respects_wr_tail
  respects_dequeue respects_RTS_SET respects_RTS_UNSET respects_isokendpt respects_deliver respects_status
  respects_willreceive : respects.

(** ** The frames *)

(** No privilege structure changes. *)
Definition same_privs (k k' : kstate) : Prop := privs k' = privs k.

#[export] Instance same_privs_frame : PrivFrame same_privs.
Proof.
  split; [split|].
  - done.
  - intros k1 k2 k3 E1 E2. unfold same_privs in *. congruence.
  - done.
Qed.

Lemma runs_respects {A} R (m : K A) k (Q : A -> kstate -> Prop) :
  respects R m -> runs m k Q -> runs m k (fun a k' => Q a k' /\ R k k').
Proof. intros Hm. unfold runs. destruct (m k) as [[a k']|] eqn:E; [|done]. intros HQ. split; [done|]. by apply (Hm _ _ _ E). Qed.

Lemma runs_privs {A} (m : K A) k (Q : A -> kstate -> Prop) :
  respects same_privs m -> runs m k Q -> runs m k (fun a k' => Q a k' /\ privs k' = privs k).
Proof. apply runs_respects. Qed.

(** A field of the privilege structures stays the same. *)
Definition same_field {A} (g : priv -> A) (k k' : kstate) : Prop := g <$> privs k' = g <$> privs k.

#[export] Instance same_field_frame {A} (g : priv -> A) : PrivFrame (same_field g).
Proof.
  split; [split|].
  - done.
  - intros k1 k2 k3 E1 E2. unfold same_field in *. congruence.
  - intros k k' E. unfold same_field. by rewrite E.
Qed.

Lemma same_field_lookup {A} (g : priv -> A) k k' i s :
  same_field g k k' -> privs k !! i = Some s -> exists s', privs k' !! i = Some s' /\ g s' = g s.
Proof.
  intros E Hs. assert ((g <$> privs k') !! i = Some (g s)) as E' by (unfold same_field in E; by rewrite E, lookup_fmap, Hs).
  rewrite lookup_fmap in E'. destruct (privs k' !! i) as [s'|]; [|done]. injection E' as E'. by exists s'.
Qed.

(** Notifications are not forgotten. *)
Definition more_notify (k k' : kstate) : Prop :=
  forall i s j, privs k !! i = Some s -> priv_nr j -> get_sys_bit (s_notify_pending s) j = true ->
    exists s', privs k' !! i = Some s' /\ get_sys_bit (s_notify_pending s') j = true.

#[export] Instance more_notify_frame : PrivFrame more_notify.
Proof.
  split; [split|].
  - intros k i s j Hs _ Hb. by exists s.
  - intros k1 k2 k3 H1 H2 i s j Hs Hj Hb. destruct (H1 i s j Hs Hj Hb) as (s' & Hs' & Hb'). by apply (H2 i s').
  - intros k k' E i s j Hs _ Hb. exists s. by rewrite E.
Qed.

Lemma updp_inv p f k a k' : updp p f k = Some (a, k') -> exists r s, procs k !! p = Some r /\ privs k !! p_priv r = Some s /\ k' = put_priv (p_priv r) (f s) k.
Proof.
  unfold updp, rd. mrun. destruct (procs k !! p) as [r|]; [|done]. destruct (privs k !! p_priv r) as [s|] eqn:Hs; [|done].
  intros [= _ <-]. by exists r, s.
Qed.

Lemma same_field_updp {A} (g : priv -> A) p f : (forall s, g (f s) = g s) -> respects (same_field g) (updp p f).
Proof.
  intros Hf k a k' (r & s & Hr & Hs & ->)%updp_inv. unfold same_field. simpl. rewrite fmap_insert, Hf. apply insert_id.
  by rewrite lookup_fmap, Hs.
Qed.

Lemma more_notify_updp p f :
  (forall s j, priv_nr j -> get_sys_bit (s_notify_pending s) j = true -> get_sys_bit (s_notify_pending (f s)) j = true) ->
  respects more_notify (updp p f).
Proof.
  intros Hf k a k' (r & s & Hr & Hs & ->)%updp_inv i s0 j Hs0 Hj Hb. simpl. destruct (decide (p_priv r = i)) as [<-|Hne].
  - exists (f s). rewrite lookup_insert_eq. simplify_eq. auto.
  - exists s0. by rewrite lookup_insert_ne.
Qed.

Section Notify.
Context `{Signals}.

(** A field that notifications do not work on. *)
Definition quiet_field {A} (g : priv -> A) : Prop :=
  (forall s x, g (with_s_int_pending x s) = g s) /\ (forall s x, g (with_s_sig_pending x s) = g s) /\
  (forall s x, g (with_s_notify_pending x s) = g s).

Lemma same_field_build {A} (g : priv -> A) src d : quiet_field g -> respects (same_field g) (BuildNotifyMessage src d).
Proof.
  intros (H1 & H2 & _). unfold BuildNotifyMessage, get_monotonic. respects; apply same_field_updp; intros s; [apply H1|apply H2].
Qed.

Lemma more_notify_build src d : respects more_notify (BuildNotifyMessage src d).
Proof. unfold BuildNotifyMessage, get_monotonic. respects; by apply more_notify_updp. Qed.

Hint Resolve same_field_build more_notify_build : respects.

Lemma same_field_notify {A} (g : priv -> A) p e : quiet_field g -> respects (same_field g) (mini_notify p e).
Proof.
  intros Hg. unfold mini_notify, IPC_STATUS_ADD_CALL. respects. all: apply same_field_updp; intros s; by apply Hg.
Qed.
End Notify.

#[export] Hint Resolve same_field_notify : respects.

Lemma get_set_mono m i j : get_sys_bit m j = true -> get_sys_bit (set_sys_bit m i) j = true.
Proof.
  assert (forall c b, has c b = true -> has (Z.lor c (Z.shiftl 1 (i mod BITCHUNK_BITS))) b = true) as Hl
    by (intros c b Hb; by rewrite has_lor, Hb).
  unfold get_sys_bit, set_sys_bit, with_chunk, map_chunk. unfold has in Hl.
  destruct (i / BITCHUNK_BITS =? 0), (j / BITCHUNK_BITS =? 0); simpl; auto.
Qed.

Lemma more_notify_notify `{Signals} p e : respects more_notify (mini_notify p e).
Proof.
  unfold mini_notify, IPC_STATUS_ADD_CALL. respects; try (by apply more_notify_build).
  all: apply more_notify_updp; intros s j _; apply get_set_mono.
Qed.

#[export] Hint Resolve more_notify_notify : respects.
