(* ===== verification/KMain.v ===== *)
(** Boot of the kernel: privileges and flags of the processes of the boot image
    (kernel/main.c, the privilege functions of kernel/system.c), and the
    consistency of the ready queues from then on. *)

From S2P Require Import Prelude Chain Timers KState KSched KBoot KWait KNotify KBase.
Local Open Scope Z_scope.

(** ** Privilege structures (kernel/system.c) *)

Definition PM_PROC_NR : Z := 0.
Definition VFS_PROC_NR : Z := 1.
Definition RS_PROC_NR : Z := 2.
Definition MEM_PROC_NR : Z := 3.
Definition SCHED_PROC_NR : Z := 4.
Definition TTY_PROC_NR : Z := 5.
Definition DS_PROC_NR : Z := 6.
Definition MFS_PROC_NR : Z := 7.
Definition VM_PROC_NR : Z := 8.
Definition PFS_PROC_NR : Z := 9.
Definition LS_PROC_NR : Z := 10.
Definition INIT_PROC_NR : Z := 11.

Definition NR_BOOT_PROCS : Z := NR_TASKS + INIT_PROC_NR + 1.
Definition NR_STATIC_PRIV_IDS : Z := NR_BOOT_PROCS.
Definition is_static_priv_id (id : Z) : bool := (0 <=? id) && (id <? NR_STATIC_PRIV_IDS).
Definition static_priv_id (n : Z) : Z := NR_TASKS + n.
Definition USER_PRIV_ID : Z := static_priv_id INIT_PROC_NR.

(** The ids that are assigned dynamically. *)
Definition dyn_ids : list Z := seqZ NR_STATIC_PRIV_IDS (NR_SYS_PROCS - NR_STATIC_PRIV_IDS).

(** The first free structure of the listed ones. *)
Fixpoint find_free (xs : list Z) : K (option Z) :=
  match xs with
  | [] => mret None
  | i :: xs' => nr ← rda s_proc_nr i; if nr =? NONE then mret (Some i) else find_free xs'
  end.

Definition get_priv (rc priv_id : Z) : K kres :=
  sp ← (if priv_id =? NULL_PRIV_ID
        then o ← find_free dyn_ids; mret (match o with None => inl ENOSPC | Some i => inr i end)
        else if negb (is_static_priv_id priv_id) then mret (inl EINVAL)
        else nr ← rda s_proc_nr priv_id; mret (if negb (nr =? NONE) then inl EBUSY else inr priv_id));
  match sp with
  | inl r => mret r
  | inr i =>
      upd rc (with_p_priv i);;
      nr ← rd p_nr rc;
      updp rc (with_s_proc_nr nr);;
      mret OK
  end.

Definition set_sendto_bit (rp id : Z) : K unit :=
  nr ← rda s_proc_nr id;
  pid ← rdp s_id rp;
  if (nr =? NONE) || (pid =? id)
  then updp rp (fun s => with_s_ipc_to (unset_sys_bit (s_ipc_to s) id) s)
  else
    updp rp (fun s => with_s_ipc_to (set_sys_bit (s_ipc_to s) id) s);;
    tm ← rda s_trap_mask id;
    if has tm (Z.lnot (Z.shiftl 1 RECEIVE))
    then upda id (fun s => with_s_ipc_to (set_sys_bit (s_ipc_to s) pid) s)
    else mret tt.

Definition unset_sendto_bit (rp id : Z) : K unit :=
  updp rp (fun s => with_s_ipc_to (unset_sys_bit (s_ipc_to s) id) s);;
  pid ← rdp s_id rp;
  upda id (fun s => with_s_ipc_to (unset_sys_bit (s_ipc_to s) pid) s).

Definition fill_sendto_mask (rp : Z) (map : sys_map_t) : K unit :=
  kfor priv_slots (fun i => if get_sys_bit map i then set_sendto_bit rp i else unset_sendto_bit rp i).

(** ** Default privileges (include/minix/priv.h) *)

Definition TSK_F : Z := SYS_PROC.
Definition SRV_F : Z := Z.lor SYS_PROC PREEMPTIBLE.
Definition RSYS_F : Z := Z.lor SRV_F ROOT_SYS_PROC.
Definition VM_F : Z := Z.lor SYS_PROC VM_SYS_PROC.
Definition CSK_T : Z := Z.shiftl 1 RECEIVE.
Definition TSK_T : Z := 0.
Definition SRV_T : Z := -1.
Definition NO_M : Z := -1.
Definition ALL_M : Z := -2.
Definition NO_C : Z := -1.
Definition ALL_C : Z := -2.
Definition MIN_USER_Q : Z := NR_SCHED_QUEUES - 1.
Definition MAX_USER_Q : Z := 0.
Definition USER_Q : Z := (MIN_USER_Q - MAX_USER_Q) / 2 + MAX_USER_Q.
Definition USER_QUANTUM : Z := 200.

(** ** [kmain]: the loop over the boot image *)

(** [image] of kernel/table.c, by process number. *)
Definition image : list Z :=
  [ASYNCM; IDLE; CLOCK; SYSTEM; HARDWARE; DS_PROC_NR; RS_PROC_NR; PM_PROC_NR; SCHED_PROC_NR; VFS_PROC_NR;
   MEM_PROC_NR; TTY_PROC_NR; MFS_PROC_NR; VM_PROC_NR; PFS_PROC_NR; LS_PROC_NR; INIT_PROC_NR].

(** The privileges of a process that may run at once; the results are the
    allowed targets and the allowed kernel calls. *)
Definition boot_privileges (rp proc_nr : Z) : K (Z * Z) :=
  get_priv rp (static_priv_id proc_nr);;
  if proc_nr =? VM_PROC_NR
  then
    updp rp (fun s => with_s_sig_mgr SELF (with_s_trap_mask SRV_T (with_s_flags VM_F s)));;
    upd rp (fun r => with_p_quantum_size_ms USER_QUANTUM (with_p_priority USER_Q r));;
    mret (ALL_M, ALL_C)
  else if iskerneln proc_nr
  then
    updp rp (fun s => with_s_trap_mask (if (proc_nr =? CLOCK) || (proc_nr =? SYSTEM) then CSK_T else TSK_T)
                        (with_s_flags (if proc_nr =? IDLE then IDL_F else TSK_F) s));;
    mret (NO_M, NO_C)
  else
    kassert (proc_nr =? RS_PROC_NR);;
    updp rp (fun s => with_s_sig_mgr RS_PROC_NR (with_s_trap_mask SRV_T (with_s_flags RSYS_F s)));;
    upd rp (fun r => with_p_quantum_size_ms USER_QUANTUM (with_p_priority USER_Q r));;
    mret (ALL_M, ALL_C).

(** The map with all or no bits set. *)
Definition target_map (ipc_to_m : Z) : sys_map_t :=
  if ipc_to_m =? ALL_M then foldl set_sys_bit (0, 0) priv_slots else (0, 0).

Definition NR_SYS_CALLS : Z := 58.
Definition SYS_CALL_MASK_SIZE : nat := Z.to_nat ((NR_SYS_CALLS + 31) / 32).

(** The mask with all or no kernel calls. *)
Definition call_mask (kcalls : Z) : list Z :=
  replicate SYS_CALL_MASK_SIZE (if kcalls =? NO_C then 0 else 2 ^ 32 - 1).

Definition boot_proc (proc_nr : Z) : K unit :=
  let rp := proc_addr proc_nr in
  upd rp (with_p_cpu_time_left 0);;
  upd rp (acct (fun _ => Accounting 0 0 0 0 0 0));;
  (if iskerneln proc_nr || (proc_nr =? RS_PROC_NR) || (proc_nr =? VM_PROC_NR)
   then
     m ← boot_privileges rp proc_nr;
     fill_sendto_mask rp (target_map (fst m));;
     updp rp (upd_res (with_s_k_call_mask (call_mask (snd m))))
   else RTS_SET rp (Z.lor RTS_NO_PRIV RTS_NO_QUANTUM));;
  cur ← gets proc_ptr;
  (if cur =? 0 then modify (with_proc_ptr rp) else mret tt);;
  (if negb (proc_nr =? VM_PROC_NR) && (0 <=? proc_nr)
   then upd rp (set_rts (Z.lor RTS_VMINHIBIT RTS_BOOTINHIBIT)) else mret tt);;
  upd rp (fun r => clear_rts RTS_SLOT_FREE (set_rts RTS_PROC_STOP r)).

(** [&priv_addr(i)->s_alarm_timer] *)
Definition alarm_timer (i : Z) : Z := i + 1.

(** [system_init], the alarm timers: none is set. *)
Definition init_alarms : K unit :=
  kfor priv_slots (fun i => modify (fun k =>
    let q := clock_timers k in
    with_clock_timers (TmrQ (tmrs q) (<[alarm_timer i := 0]> (tmr_next q)) (<[alarm_timer i := TMR_NEVER]> (tmr_exp_time q))
      (tmr_func q)) k)).

(** [bsp_finish_booting]: the idle process becomes current and the processes
    of the image may be scheduled. *)
Definition finish_ptrs : K unit := modify (with_bill_ptr idle_proc);; modify (with_proc_ptr idle_proc).

Definition bsp_finish_booting : K unit :=
  finish_ptrs;;
  kfor (seqZ 0 (NR_BOOT_PROCS - NR_TASKS)) (fun i => RTS_UNSET (proc_addr i) RTS_PROC_STOP).

Definition boot_table : K unit := proc_init;; kfor image boot_proc;; init_alarms.

Definition kmain : K unit := boot_table;; bsp_finish_booting.

(** ** The state of the ready queues at boot *)

Lemma forallb_map {A} (f : Z * A -> bool) (m : gmap Z A) p a :
  forallb f (map_to_list m) = true -> m !! p = Some a -> f (p, a) = true.
Proof. rewrite forallb_forall. intros Hf Hm. apply Hf, list_elem_of_In. by apply elem_of_map_to_list. Qed.

Definition some_b {A} (o : option A) : bool := match o with Some _ => true | None => false end.

Lemma some_b_true {A} (o : option A) : some_b o = true -> is_Some o.
Proof. destruct o; [by eexists|done]. Qed.

Definition quiet_slot (k : kstate) (x : Z * proc) : bool :=
  let '(p, r) := x in
  negb (p_rts_flags r =? 0) && ((0 <=? p_priority r) && (p_priority r <? NR_SCHED_QUEUES)) && negb (p =? 0) &&
  (in_table p || has (p_rts_flags r) RTS_PROC_STOP) &&
  (has (p_rts_flags r) UNPRIV || some_b (privs k !! p_priv r)).

Definition has_priv (k : kstate) (p : Z) : bool :=
  match procs k !! p with Some r => some_b (privs k !! p_priv r) | None => false end.

(** Nothing is runnable and the queues are empty. *)
Definition quiet_check (k : kstate) : bool :=
  forallb (quiet_slot k) (map_to_list (procs k)) &&
  forallb (fun p => some_b (procs k !! p)) all_slots &&
  forallb (fun q => match run_q_head k !! q, run_q_tail k !! q with
                    | Some h, Some t => (h =? 0) && (t =? 0) | _, _ => false end) queues &&
  has_priv k (proc_ptr k) && has_priv k idle_proc.

Lemma has_priv_spec k p : has_priv k p = true -> exists r s, procs k !! p = Some r /\ privs k !! p_priv r = Some s.
Proof.
  unfold has_priv. destruct (procs k !! p) as [r|]; [|done]. intros [s Hs]%some_b_true. by exists r, s.
Qed.

Lemma quiet_sched k : quiet_check k = true -> sched_inv k (fun _ => []).
Proof.
  unfold quiet_check. rewrite !andb_true_iff. intros ((((Hs & Ht) & Hq) & Hcpu) & Hidle).
  assert (forall p r, procs k !! p = Some r -> p_rts_flags r <> 0 /\ queue_nr (p_priority r) /\ p <> 0 /\
    (in_table p = false -> has (p_rts_flags r) RTS_PROC_STOP = true) /\
    (has (p_rts_flags r) UNPRIV = false -> is_Some (privs k !! p_priv r))) as Hall.
  { intros p r Hr. pose proof (forallb_map _ _ _ _ Hs Hr) as Hb. unfold quiet_slot in Hb.
    rewrite !andb_true_iff, !negb_true_iff, !Z.eqb_neq, Z.leb_le, Z.ltb_lt, !orb_true_iff in Hb.
    destruct Hb as ((((Hf & Hp) & Hp0) & Hi) & Hpr). split_and!; [done|exact Hp|done| |].
    - intros E. destruct Hi; [congruence|done].
    - intros E. destruct Hpr as [|Hpr]; [congruence|by apply some_b_true]. }
  assert (forall q, queue_nr q -> run_q_head k !! q = Some 0 /\ run_q_tail k !! q = Some 0) as Hqs.
  { intros q Hq'%elem_of_queues. rewrite forallb_forall in Hq. specialize (Hq q (proj1 (list_elem_of_In _ _) Hq')).
    destruct (run_q_head k !! q) as [h|], (run_q_tail k !! q) as [t|]; try done.
    apply andb_true_iff in Hq as [E1%Z.eqb_eq E2%Z.eqb_eq]. by subst. }
  split.
  - split.
    + split.
      * intros q Hq'. exists 0. split; [by apply Hqs|constructor].
      * intros q Hq'. by apply Hqs.
      * intros ? ? ? _ _ []%elem_of_nil.
    + intros q p Hq'. split; [intros []%elem_of_nil|]. intros [Hf _]. apply fld_Some in Hf as (r & Hr & Hf).
      by apply Hall in Hr as (? & _).
    + intros p q Hp. apply fld_Some in Hp as (r & Hr & <-). by apply (Hall p).
    + destruct (procs k !! 0) as [r|] eqn:Hr; [|done]. by apply Hall in Hr as (_ & _ & ? & _).
  - by apply has_priv_spec.
  - split.
    + intros p Hp%elem_of_slots. rewrite forallb_forall in Ht. by apply some_b_true, Ht, list_elem_of_In.
    + intros p r Hr. by apply (Hall p r Hr).
  - intros p r Hr. by apply (Hall p r Hr).
  - by apply has_priv_spec.
Qed.

Definition at_boot (ms : Z) (um : gmap (Z * Z) message) (ut : gmap (Z * Z) (asynmsg * bool)) : kstate :=
  match (boot_table;; finish_ptrs) (bss ms um ut) with Some (_, k) => k | None => bss ms um ut end.

Lemma at_boot_run ms um ut : (boot_table;; finish_ptrs) (bss ms um ut) = Some (tt, at_boot ms um ut).
Proof. unfold at_boot. vm_compute. reflexivity. Qed.

Lemma at_boot_inv ms um ut : sched_inv (at_boot ms um ut) (fun _ => []).
Proof. apply quiet_sched. vm_compute. reflexivity. Qed.

Lemma sched_run_app ops1 ops2 k : sched_run (ops1 ++ ops2) k = (sched_run ops1;; sched_run ops2) k.
Proof.
  revert k. induction ops1 as [|op ops1 IH]; intros k; [done|]. cbn [sched_run app]. rewrite bind_assoc.
  unfold mbind, st_bind. destruct (sched_step op k) as [[[] k1]|]; [|done]. apply IH.
Qed.

Lemma finish_ops xs k :
  kfor xs (fun i => RTS_UNSET (proc_addr i) RTS_PROC_STOP) k =
  sched_run ((fun i => UnsetFlag (proc_addr i) RTS_PROC_STOP) <$> xs) k.
Proof.
  revert k. induction xs as [|x xs IH]; intros k; [done|]. cbn [kfor fmap list_fmap sched_run sched_step].
  unfold mbind, st_bind. destruct (RTS_UNSET _ _ k) as [[[] k1]|]; [|done]. apply IH.
Qed.

Definition boot_ops : list sched_op :=
  (fun i => UnsetFlag (proc_addr i) RTS_PROC_STOP) <$> seqZ 0 (NR_BOOT_PROCS - NR_TASKS).

Lemma boot_ops_ok : Forall sched_op_ok boot_ops.
Proof. repeat constructor. Qed.

Lemma kmain_ops ms um ut ops :
  (kmain;; sched_run ops) (bss ms um ut) = sched_run (boot_ops ++ ops) (at_boot ms um ut).
Proof.
  pose proof (at_boot_run ms um ut) as E. apply bind_Some in E as ([] & k1 & E1 & E2).
  rewrite sched_run_app. unfold kmain, bsp_finish_booting. rewrite !bind_assoc.
  rewrite (bind_run _ _ _ _ _ E1), !bind_assoc, (bind_run _ _ _ _ _ E2).
  unfold mbind, st_bind. by rewrite finish_ops.
Qed.

Lemma kmain_inv ms um ut ops :
  Forall sched_op_ok ops ->
  exists k rq, (kmain;; sched_run ops) (bss ms um ut) = Some (tt, k) /\ sched_inv k rq.
Proof.
  intros Hops. rewrite kmain_ops. eapply sched_run_ok; [apply at_boot_inv|].
  apply Forall_app. split; [apply boot_ops_ok|done].
Qed.

(** ** Theorems *)

(** C13: Boot and scheduling: after the boot of the kernel, whatever flags of
    whatever processes are set and cleared, preempted processes put back and
    processes chosen to run, no assertion of the scheduling code fails and no
    process without privileges is touched, and the kernel's own consistency
    check of the ready queues succeeds. *)
Theorem runqueues_consistent ms um ut ops :
  Forall sched_op_ok ops ->
  exists k, (kmain;; sched_run ops) (bss ms um ut) = Some (tt, k) /\
    runqueues_ok_cpu k = Some (true, k).
Proof.
  intros Hops. destruct (kmain_inv ms um ut ops Hops) as (k & rq & E & Hinv).
  exists k. split; [done|]. eapply runqueues_ok; apply Hinv.
Qed.

Lemma runqueues_consistent_witness :
  exists k, (kmain;; sched_run [NextProc; UnsetFlag 8 RTS_VMINHIBIT; UnsetFlag 8 RTS_BOOTINHIBIT; NextProc;
      SetFlag 14 RTS_RECEIVING; NextProc; UnsetFlag 14 RTS_RECEIVING; Requeue 8]) (bss 1 ∅ ∅) = Some (tt, k) /\
    runqueues_ok_cpu k = Some (true, k).
Proof. apply (runqueues_consistent 1 ∅ ∅). repeat constructor. Defined.

Lemma pick_proc_highest_witness :
  exists k rq rp k', (kmain;; sched_run []) (bss 1 ∅ ∅) = Some (tt, k) /\ rq_ok k rq /\ privs_ok k /\
    pick_proc k = Some (rp, k') /\ procs k' = procs k.
Proof.
  destruct (kmain_inv 1 ∅ ∅ [] (List.Forall_nil _)) as (k & rq & E & Hinv).
  destruct (pick_proc_highest k rq (si_rq _ _ Hinv) (si_privs _ _ Hinv)) as (rp & k' & Ep & Epr & _).
  exists k, rq, rp, k'. split_and!; [done|apply Hinv|apply Hinv|done|done].
Defined.
