(* ===== verification/KSignal.v ===== *)
(** Notifications and signals do not panic: [mini_notify] and [cause_sig] keep
    the invariant of the tables, and all they do to blocked processes is to
    wake up receivers. *)

From S2P Require Import Prelude Chain Timers KState KSched KBoot KWait KNotify KBase KFrame.
Local Open Scope Z_scope.

(** ** Waking up receivers *)

(** Receivers have no message to be delivered. *)
Definition recv_ok (m : gmap Z ipcv) : Prop :=
  forall p v, m !! p = Some v -> is_Some (v_in v) -> v_deliver v = false.

Inductive wakes1 (m : gmap Z ipcv) : gmap Z ipcv -> Prop :=
| Wakes1 p v msg : m !! p = Some v -> v_out v = None -> is_Some (v_in v) -> wakes1 m (<[p := v_wake msg v]> m).

Definition wakes : gmap Z ipcv -> gmap Z ipcv -> Prop := rtc wakes1.

Lemma wakes_inv m m' cq : wakes m m' -> ipc_inv m cq -> ipc_inv m' cq.
Proof.
  intros H. induction H as [|m m1 m2 [p v msg Hv Ho _] _ IH]; [done|]. intros Hi. apply IH. by apply inv_wake.
Qed.

Lemma wakes_recv_ok m m' : wakes m m' -> recv_ok m -> recv_ok m'.
Proof.
  intros H. induction H as [|m m1 m2 [p v msg Hv Ho _] _ IH]; [done|]. intros Hi. apply IH. intros q w Hw.
  destruct (decide (p = q)) as [->|Hpq]; [rewrite lookup_insert_eq in Hw; simplify_eq/=; by intros []|].
  rewrite lookup_insert_ne in Hw by done. by apply (Hi q).
Qed.

(** A process that waits for no message, or also to send one, stays as it is. *)
Lemma wakes_stable m m' p v :
  wakes m m' -> m !! p = Some v -> v_in v = None \/ is_Some (v_out v) -> m' !! p = Some v.
Proof.
  intros H. induction H as [|m m1 m2 [q w msg Hw Ho Hi] _ IH]; [done|]. intros Hv Hin. apply IH; [|done].
  rewrite lookup_insert_ne; [done|]. intros ->. simplify_eq. rewrite Ho in Hin.
  destruct Hin as [E|[]]; [rewrite E in Hi; by destruct Hi|done].
Qed.

Lemma wakes_live m m' e : wakes m m' -> live_ep m e -> live_ep m' e.
Proof.
  intros H. induction H as [|m m1 m2 [q w msg Hw Ho Hi] _ IH]; [done|]. intros Hl. apply IH. by eapply live_put.
Qed.

(** ** Steps *)

Lemma ipc_status_quiet k p x :
  kbase k -> in_table p = true ->
  runs (IPC_STATUS_ADD p x) k (fun _ k' => kbase k' /\ fld view k' = fld view k).
Proof.
  intros Hk Hp. destruct (kbase_slot _ _ Hk Hp) as [r Hr]. unfold IPC_STATUS_ADD. kstep.
  destruct (negb _); [|done]. kstep. split.
  - by eapply kbase_put.
  - by eapply fld_put_same.
Qed.

(** A message is handed to a process. *)
Lemma deliver_run k p r src msg :
  kbase k -> in_table p = true -> procs k !! p = Some r ->
  runs (deliver p src msg) k (fun _ k' => kbase k' /\
    fld view k' = <[p := v_with_deliver (with_source src msg) (view r)]> (fld view k)).
Proof.
  intros Hk Hp Hr. unfold deliver. kstep. split; [by eapply kbase_put|].
  rewrite fld_put. f_equal. unfold view, v_with_deliver. simpl. rewrite has_lor. f_equal. by rewrite orb_true_r.
Qed.

(** A receiver is made ready. *)
Lemma unset_receiving k p r :
  kbase k -> in_table p = true -> procs k !! p = Some r -> has (p_rts_flags r) RTS_SLOT_FREE = false ->
  has (p_misc_flags r) MF_DELIVERMSG = true ->
  runs (RTS_UNSET p RTS_RECEIVING) k (fun _ k' => kbase k' /\ fld view k' = <[p := v_wake (p_delivermsg r) (view r)]> (fld view k)).
Proof.
  intros Hk Hp Hr Hf Hd. destruct (kbase_unset k p r RTS_RECEIVING Hk Hp Hr Hf eq_refl) as (k' & E & Hk' & Hre).
  eapply runs_of; [exact E|]. split; [done|]. rewrite (view_sched _ _ (resched_sched _ _ Hre)), fld_put.
  f_equal. unfold view, v_wake. simpl. rewrite has_ldiff_same, !has_ldiff_disj by done. by rewrite Hd.
Qed.

(** The end of every delivery to a waiting process. *)
Lemma wake_receiver k p r x msg :
  kbase k -> in_table p = true -> fld view k !! p = Some (v_with_deliver msg (view r)) ->
  has (p_rts_flags r) RTS_SLOT_FREE = false ->
  runs (IPC_STATUS_ADD p x;; RTS_UNSET p RTS_RECEIVING) k
    (fun _ k' => kbase k' /\ fld view k' = <[p := v_wake msg (view r)]> (fld view k)).
Proof.
  intros Hk Hp Hv Hf. eapply runs_seq; [by apply ipc_status_quiet|]. intros _ k1 [Hk1 Ev1].
  rewrite <- Ev1 in Hv. apply fld_Some in Hv as (r1 & Hr1 & Er1).
  eapply runs_mono; [eapply (unset_receiving k1 p r1); [done..| |]|].
  - apply (f_equal v_free) in Er1. simpl in Er1. by rewrite Er1.
  - by apply (f_equal v_deliver) in Er1.
  - intros _ k2 [Hk2 Ev2]. split; [done|]. rewrite Ev2, Ev1, Er1.
    apply (f_equal v_msg) in Er1. simpl in Er1. by rewrite Er1.
Qed.

Lemma priv_change_refl pr pd s : priv_change pr pd s s.
Proof. split; auto. Qed.

(** A field of a privilege structure that the invariant does not look at. *)
Lemma quiet_updp k p r s f :
  kbase k -> live k p -> procs k !! p = Some r -> privs k !! p_priv r = Some s ->
  priv_change (privs k) (fld pid k) s (f s) ->
  runs (updp p f) k (fun _ k' => kbase k' /\ procs k' = procs k).
Proof.
  intros Hk Hp Hr Hs Hc. kstep. split; [|done]. destruct (kbase_priv _ _ _ Hk Hp Hr) as [Hi _].
  by eapply kbase_put_priv.
Qed.

(** What the kernel relies on of the signals it sends for stopped and traced
    processes and for virtual timers: they are signals, and no lethal ones. *)
Class SignalLaws `{Signals} := {
  sndelay_valid : valid_sig SIGSNDELAY = true;
  sndelay_not_lethal : SIGS_IS_LETHAL SIGSNDELAY = false;
  trap_valid : valid_sig SIGTRAP = true;
  trap_not_lethal : SIGS_IS_LETHAL SIGTRAP = false;
  vtalrm_valid : valid_sig SIGVTALRM = true;
  vtalrm_not_lethal : SIGS_IS_LETHAL SIGVTALRM = false;
  prof_valid : valid_sig SIGPROF = true;
  prof_not_lethal : SIGS_IS_LETHAL SIGPROF = false;
}.

Section Signals.
Context `{Signals}.

Lemma build_notify_run k p src :
  kbase k -> live k p ->
  runs (BuildNotifyMessage src p) k (fun _ k' => kbase k' /\ procs k' = procs k).
Proof.
  intros Hk Hp. destruct (live_slot_of _ _ Hp) as [r Hr]. destruct (kbase_priv _ _ _ Hk Hp Hr) as (_ & s & Hs & _).
  unfold BuildNotifyMessage, get_monotonic. kstep. destruct (src =? HARDWARE); [|destruct (src =? SYSTEM)].
  - kstep. eapply runs_seq; [eapply quiet_updp; [done..|by split; auto]|]. intros [] k' Hk'. by kstep.
  - kstep. eapply runs_seq; [eapply quiet_updp; [done..|by split; auto]|]. intros [] k' Hk'. by kstep.
  - by kstep.
Qed.

(** What a process needs to send notifications. *)
Definition may_notify (k : kstate) (p : Z) : Prop :=
  in_table p = true /\ exists r s, procs k !! p = Some r /\ has (p_rts_flags r) RTS_SLOT_FREE = false /\
    privs k !! p_priv r = Some s /\ has (s_flags s) SYS_PROC = true.

Lemma notifier_live k p : may_notify k p -> live k p.
Proof. intros (Hp & r & s & Hr & Hf & _). by eapply live_of. Qed.

Lemma notifier_source k p r :
  kbase k -> may_notify k p -> procs k !! p = Some r -> sys_source (privs k) (fld pid k) (p_priv r).
Proof.
  intros Hk (Hp & r' & s & Hr' & Hf & Hs & Hsys) Hr. assert (r' = r) as -> by congruence.
  destruct (pi_nr _ _ (kb_priv _ Hk) p (pid r)) as [Ep _]; [by apply fld_of|done|]. simpl in Ep.
  assert (s_proc_nr s = p_nr r) as En.
  { by apply (pi_own _ _ (kb_priv _ Hk) p (pid r) s); [by apply fld_of|..]. }
  exists s, (pid r). rewrite En, <- Ep. split_and!; try done; [by eapply table_nr|by apply fld_of].
Qed.

(** The notification is remembered. *)
Lemma notify_pending_run k p d src :
  kbase k -> may_notify k p -> live k d -> (exists r, procs k !! p = Some r /\ src = p_priv r) ->
  runs (updp d (fun s => with_s_notify_pending (set_sys_bit (s_notify_pending s) src) s)) k
    (fun _ k' => kbase k' /\ procs k' = procs k).
Proof.
  intros Hk Hm Hd (r & Hr & ->). destruct (live_slot_of _ _ Hd) as [rd Hrd].
  destruct (kbase_priv _ _ _ Hk Hd Hrd) as (_ & s & Hs & _).
  destruct (kbase_priv _ _ _ Hk (notifier_live _ _ Hm) Hr) as (Hi & _).
  eapply quiet_updp; [done..|]. split; try done; simpl; auto.
  intros j Hj. rewrite get_set_sys_bit by (unfold priv_nr, NR_SYS_PROCS in *; lia).
  intros [?|Ej%Z.eqb_eq]%orb_true_iff; [by left|right; subst j]. by apply (notifier_source k p).
Qed.

(** The message of a notification, and what it takes from the receiver. *)
Definition notify_msg (src ts : Z) (s : priv) : message * priv :=
  if src =? HARDWARE then (Message 0 NOTIFY_MESSAGE (m_notify ts (s_int_pending s) ∅), with_s_int_pending 0 s)
  else if src =? SYSTEM then (Message 0 NOTIFY_MESSAGE (m_notify ts 0 (s_sig_pending s)), with_s_sig_pending ∅ s)
  else (Message 0 NOTIFY_MESSAGE (m_notify ts 0 ∅), s).

Lemma build_notify_effect k p r s src :
  procs k !! p = Some r -> privs k !! p_priv r = Some s ->
  runs (BuildNotifyMessage src p) k (fun m k' => m = fst (notify_msg src (monotonic k) s) /\
    privs k' = <[p_priv r := snd (notify_msg src (monotonic k) s)]> (privs k)).
Proof.
  intros Hr Hs. unfold BuildNotifyMessage, get_monotonic, notify_msg. kstep.
  destruct (src =? HARDWARE); [|destruct (src =? SYSTEM)]; repeat kstep; split; try done. simpl. by rewrite insert_id.
Qed.

(** What a notification from [p] to the live [e] does: a process that waits for
    it gets the message, for any other the notification is remembered. *)
Inductive notified (k k' : kstate) (p e : Z) : Prop :=
| NotifyWoke r d s :
    procs k !! p = Some r -> procs k !! target e = Some d -> privs k !! p_priv d = Some s ->
    v_willreceive (view d) (p_endpoint r) = true ->
    fld view k' = <[target e := v_wake (with_source (p_endpoint r) (fst (notify_msg (p_nr r) (monotonic k) s))) (view d)]> (fld view k) ->
    privs k' = <[p_priv d := snd (notify_msg (p_nr r) (monotonic k) s)]> (privs k) -> notified k k' p e
| NotifyPending r d s :
    procs k !! p = Some r -> procs k !! target e = Some d -> privs k !! p_priv d = Some s ->
    procs k' = procs k ->
    privs k' = <[p_priv d := with_s_notify_pending (set_sys_bit (s_notify_pending s) (p_priv r)) s]> (privs k) -> notified k k' p e.

Lemma willreceive_waits v e : v_willreceive v e = true -> v_out v = None /\ is_Some (v_in v).
Proof. unfold v_willreceive. by destruct (v_out v), (v_in v); eauto. Qed.

(** The notification is remembered. *)
Lemma notify_pending_effect k p r e d :
  kbase k -> may_notify k p -> procs k !! p = Some r -> live_ep (fld view k) e -> procs k !! target e = Some d ->
  runs (src_id ← rdp s_id p;
        updp (target e) (fun s => with_s_notify_pending (set_sys_bit (s_notify_pending s) src_id) s);; mret OK) k
    (fun res k' => kbase k' /\ res = OK /\ notified k k' p e).
Proof.
  intros Hk Hm Hr Hl Hd. destruct (kbase_priv _ _ _ Hk (notifier_live _ _ Hm) Hr) as (Hi & s & Hs & Eid).
  destruct (kbase_priv _ _ _ Hk (live_target _ _ Hl) Hd) as (_ & sd & Hsd & _). kstep. rewrite Eid. apply runs_bind.
  eapply runs_mono; [eapply (runs_conj _ _ (fun _ k' => kbase k' /\ procs k' = procs k) (fun _ k' => k' = put_priv (p_priv d)
    (with_s_notify_pending (set_sys_bit (s_notify_pending sd) (p_priv r)) sd) k))|].
  - eapply notify_pending_run; [done..|by eauto|by exists r].
  - by eapply runs_updp.
  - intros [] k' [[Hk' Ep] ->]. kstep. split_and!; [done|done|]. by eapply (NotifyPending _ _ _ _ r d sd).
Qed.

Lemma mini_notify_effect k p e :
  kbase k -> may_notify k p -> recv_ok (fld view k) -> live_ep (fld view k) e ->
  runs (mini_notify p e) k (fun res k' => kbase k' /\ res = OK /\ notified k k' p e).
Proof.
  intros Hk Hm Hrok Hl. unfold mini_notify. destruct (isokendpt_run k e Hk) as [[_ E]|[? _]]; [|done].
  eapply runs_step; [exact E|]. cbv iota.
  destruct (live_slot _ _ Hl) as (d & Hd & Hdt & Ed & Hdf). fold (target e).
  pose proof Hm as (Hp & r & s & Hr & Hf & Hs & Hsys).
  destruct (kbase_priv _ _ _ Hk (live_target _ _ Hl) Hd) as (_ & sd & Hsd & _).
  kstep. eapply runs_step; [by apply (willreceive_run k (target e) d)|]. kstep.
  destruct (v_willreceive (view d) (p_endpoint r)) eqn:Ew; simpl; [|by eapply notify_pending_effect].
  destruct (negb (has (p_misc_flags d) MF_REPLY_PEND)); [|by eapply notify_pending_effect].
  pose proof (willreceive_waits _ _ Ew) as [Ho Hin].
  kstep. { apply negb_true_iff. apply (Hrok (target e) (view d)); [by apply fld_of|done]. }
  kstep. eapply runs_seq; [apply runs_conj; [by apply build_notify_run; eauto|by eapply build_notify_effect]|].
  intros msg k1 [[Hk1 Ep1] [-> Epr1]].
  eapply runs_seq; [apply runs_privs; [respects|]; eapply (deliver_run k1 (target e) d); [done|done|by rewrite Ep1]|].
  intros _ k2 [[Hk2 Ev2] Epr2].
  assert (fld view k1 = fld view k) as Ev1 by (unfold fld; by rewrite Ep1). rewrite Ev1 in Ev2.
  unfold IPC_STATUS_ADD_CALL. apply runs_assoc. eapply runs_seq.
  { apply runs_privs; [respects|]. eapply (wake_receiver k2 (target e) d); [done|done| |done]. by rewrite Ev2, lookup_insert_eq. }
  intros _ k3 [[Hk3 Ev3] Epr3]. kstep. split_and!; [done|done|]. eapply (NotifyWoke _ _ _ _ r d sd); [done..| |congruence].
  by rewrite Ev3, Ev2, insert_insert_eq.
Qed.

Lemma notified_wakes k k' p e : notified k k' p e -> wakes (fld view k) (fld view k').
Proof.
  intros [r d s Hr Hd _ [Ho Hi]%willreceive_waits -> _|r d s _ _ _ Ep _].
  - apply rtc_once. apply Wakes1; [by apply fld_of|done|done].
  - unfold fld. by rewrite Ep.
Qed.

Lemma mini_notify_run k p e :
  kbase k -> may_notify k p -> recv_ok (fld view k) ->
  runs (mini_notify p e) k (fun res k' => kbase k' /\ wakes (fld view k) (fld view k') /\
    (live_ep (fld view k) e -> res = OK)).
Proof.
  intros Hk Hm Hrok. destruct (isokendpt_run k e Hk) as [[Hl _]|[Hl E]].
  - eapply runs_mono; [by apply mini_notify_effect|]. intros res k' (Hk' & -> & Hn). split_and!; [done| |done].
    by eapply notified_wakes.
  - unfold mini_notify. eapply runs_step; [exact E|]. cbv iota. by kstep.
Qed.

Lemma system_notifies k : kbase k -> may_notify k (proc_addr SYSTEM).
Proof.
  intros Hk. destruct (pi_tasks _ _ (kb_priv _ Hk) SYSTEM) as (d & s & Hd & Hf & Hs & Hsys); [tauto|].
  apply fld_Some in Hd as (r & Hr & <-). split; [done|]. by exists r, s.
Qed.

Lemma asyncm_notifies k : kbase k -> may_notify k (proc_addr ASYNCM).
Proof.
  intros Hk. destruct (pi_tasks _ _ (kb_priv _ Hk) ASYNCM) as (d & s & Hd & Hf & Hs & Hsys); [tauto|].
  apply fld_Some in Hd as (r & Hr & <-). split; [done|]. by exists r, s.
Qed.

(** A field of a process that neither invariant looks at. *)
Lemma quiet_upd k p r f :
  kbase k -> in_table p = true -> procs k !! p = Some r ->
  p_rts_flags (f r) = p_rts_flags r -> p_priority (f r) = p_priority r -> p_nextready (f r) = p_nextready r ->
  pid (f r) = pid r -> view (f r) = view r ->
  runs (upd p f) k (fun _ k' => kbase k' /\ fld view k' = fld view k).
Proof.
  intros Hk Hp Hr E1 E2 E3 E4 E5. kstep. split; [by eapply kbase_put|]. by eapply fld_put_same.
Qed.

Lemma must_send_sig_run k e sig :
  kbase k -> live_ep (fld view k) e -> recv_ok (fld view k) ->
  runs (must_send_sig e sig) k (fun _ k' => kbase k' /\ wakes (fld view k) (fld view k')).
Proof.
  intros Hk Hl Hrok. unfold must_send_sig. apply runs_bind. unfold send_sig.
  destruct (isokendpt_run k e Hk) as [[_ E]|[? _]]; [|done]. eapply runs_step; [exact E|]. cbv iota.
  destruct (live_slot _ _ Hl) as (d & Hd & Hdt & Ed & Hdf). fold (target e).
  pose proof (live_target _ _ Hl) as Hld. destruct (kbase_priv _ _ _ Hk Hld Hd) as (Hpn & s & Hs & _).
  kstep. destruct (Z.eqb_spec (p_priv d) null_priv) as [En|_]; [unfold priv_nr, null_priv in *; lia|].
  eapply runs_seq; [eapply quiet_updp; [done..|by split; auto]|]. intros _ k1 [Hk1 Ep1].
  assert (fld view k1 = fld view k) as Ev1 by (unfold fld; by rewrite Ep1).
  rewrite <- Ep1 in Hd.
  eapply runs_seq; [by eapply (quiet_upd k1 (target e) d)|]. intros _ k2 [Hk2 Ev2].
  assert (live_ep (fld view k2) e) as Hl2 by (by rewrite Ev2, Ev1).
  destruct (live_slot _ _ Hl2) as (d2 & Hd2 & _ & Ed2 & _). kstep. rewrite Ed2.
  eapply runs_seq; [eapply (mini_notify_run k2); [done|by apply system_notifies|by rewrite Ev2, Ev1]|].
  intros res k3 (Hk3 & Hw & _). kstep. kstep; [done|]. split; [done|]. by rewrite <- Ev1, <- Ev2.
Qed.

(** The manager of the signals of a live process is alive. *)
Lemma manager_live k p r s :
  kbase k -> in_table p = true -> procs k !! p = Some r -> has (p_rts_flags r) RTS_SLOT_FREE = false ->
  iskerneln (p_nr r) = false -> privs k !! p_priv r = Some s -> s_sig_mgr s <> SELF -> live_ep (fld view k) (s_sig_mgr s).
Proof.
  intros Hk Hp Hr Hf Hn Hs Hself.
  destruct (pi_sigmgr _ _ (kb_priv _ Hk) p (pid r) s (fld_of _ _ _ _ Hr) Hp Hf Hn Hs) as [|(d & Hd & Hok & Hfr & He)]; [done|].
  apply fld_Some in Hd as (rm & Hrm & <-). exists (view rm). by rewrite (fld_of _ _ _ _ Hrm).
Qed.

Lemma live_self k p r :
  kbase k -> in_table p = true -> procs k !! p = Some r -> has (p_rts_flags r) RTS_SLOT_FREE = false ->
  live_ep (fld view k) (p_endpoint r) /\ target (p_endpoint r) = p.
Proof.
  intros Hk Hp Hr Hf. destruct (pi_nr _ _ (kb_priv _ Hk) p (pid r) (fld_of _ _ _ _ Hr) Hp) as [Ep En]. simpl in *.
  assert (target (p_endpoint r) = p) as Et by (unfold target; by rewrite En).
  split; [|done]. exists (view r). rewrite Et. split_and!; try done; [by apply fld_of|].
  rewrite En. by eapply table_nr.
Qed.

Lemma signal_manager_run k p r e sig :
  kbase k -> in_table p = true -> procs k !! p = Some r -> has (p_rts_flags r) RTS_SLOT_FREE = false ->
  live_ep (fld view k) e -> recv_ok (fld view k) -> valid_sig sig = true ->
  runs (signal_manager p e sig) k (fun _ k' => kbase k' /\ wakes (fld view k) (fld view k')).
Proof.
  intros Hk Hp Hr Hf Hl Hrok Hsig. unfold signal_manager. kstep. unfold sigismember. rewrite Hsig.
  eapply runs_step; [reflexivity|]. destruct (bool_decide _); [kstep; by split|].
  eapply runs_seq; [by eapply (quiet_upd k p r)|]. intros _ k1 [Hk1 Ev1].
  destruct (kbase_slot _ _ Hk1 Hp) as [r1 Hr1].
  eapply runs_seq; [by eapply (quiet_upd k1 p r1)|]. intros _ k2 [Hk2 Ev2].
  destruct (kbase_slot _ _ Hk2 Hp) as [r2 Hr2]. kstep. rewrite Ev1 in Ev2.
  destruct (RTS_ISSET _ _); [kstep; split; [done|by rewrite Ev2]|].
  assert (view r2 = view r) as Er2.
  { pose proof (fld_of view _ _ _ Hr2) as E. rewrite Ev2, (fld_of view _ _ _ Hr) in E. congruence. }
  assert (has (p_rts_flags r2) RTS_SLOT_FREE = false) as Hf2 by (apply (f_equal v_free) in Er2; simpl in Er2; by rewrite Er2).
  destruct (kbase_set k2 p r2 (Z.lor RTS_SIGNALED RTS_SIG_PENDING) Hk2 Hp Hr2 Hf2 eq_refl) as (k3 & E3 & Hk3 & Hle).
  eapply runs_step; [exact E3|].
  assert (fld view k3 = fld view k) as Ev3.
  { rewrite (view_sched _ _ (link_sched _ _ Hle)), <- Ev2. eapply fld_put_same; [done|].
    unfold view. simpl. by rewrite !has_lor, !orb_false_r. }
  eapply runs_mono; [eapply must_send_sig_run; [done|by rewrite Ev3|by rewrite Ev3]|].
  intros _ k4 [Hk4 Hw]. split; [done|]. by rewrite Ev3 in Hw.
Qed.

(** A signal that is not lethal reaches the manager. *)
Lemma cause_sig_run k p r n sig :
  kbase k -> in_table p = true -> p = proc_addr n -> procs k !! p = Some r ->
  has (p_rts_flags r) RTS_SLOT_FREE = false -> iskerneln (p_nr r) = false -> recv_ok (fld view k) ->
  valid_sig sig = true -> SIGS_IS_LETHAL sig = false ->
  runs (cause_sig n sig) k (fun _ k' => kbase k' /\ wakes (fld view k) (fld view k')).
Proof.
  intros Hk Hp -> Hr Hf Hnr Hrok Hsig Hle. pose proof (live_of _ _ _ Hp Hr Hf) as Hlp. unfold cause_sig. change (cause_sig_rec 3 n sig) with (cause_sig_rec (S 2) n sig).
  cbn [cause_sig_rec].
  destruct (kbase_priv _ _ _ Hk Hlp Hr) as (_ & s & Hs & _). kstep. kstep.
  destruct (live_self _ _ _ Hk Hp Hr Hf) as [Hself _].
  destruct (Z.eqb_spec (s_sig_mgr s) SELF) as [E|E].
  - rewrite Z.eqb_refl, Hle. eapply runs_seq; [eapply quiet_updp; [done..|by split; auto]|]. intros _ k1 [Hk1 Ep1].
    assert (fld view k1 = fld view k) as Ev1 by (unfold fld; by rewrite Ep1).
    rewrite <- Ev1. apply must_send_sig_run; [done|by rewrite Ev1|by rewrite Ev1].
  - pose proof (manager_live _ _ _ _ Hk Hp Hr Hf Hnr Hs E) as Hl.
    destruct (Z.eqb_spec (p_endpoint r) (s_sig_mgr s)) as [E'|E'].
    + rewrite Hle. eapply runs_seq; [eapply quiet_updp; [done..|by split; auto]|]. intros _ k1 [Hk1 Ep1].
      assert (fld view k1 = fld view k) as Ev1 by (unfold fld; by rewrite Ep1).
      rewrite <- Ev1. apply must_send_sig_run; [done|by rewrite Ev1|by rewrite Ev1].
    + by eapply signal_manager_run.
Qed.
End Signals.
