(* ===== verification/KIpc.v ===== *)
(** Message passing: the IPC calls of kernel/proc.c, synchronous and
    asynchronous. *)

From S2P Require Import Prelude Chain Timers KState KSched KBoot KNotify.
Local Open Scope Z_scope.

Section Ipc.
Context `{Signals}.

(** ** [deadlock] *)

(** On whom a process is blocked: [P_BLOCKEDON]. *)
Definition P_BLOCKEDON (r : proc) : Z :=
  if has (p_rts_flags r) RTS_SENDING then p_sendto_e r
  else if has (p_rts_flags r) RTS_RECEIVING then p_getfrom_e r
  else NONE.

(** The chain of blocked processes that starts at [src_dst_e]; the result is
    the size of the group if it leads back to [cp], else 0. *)
Fixpoint deadlock_loop (fuel : nat) (function cp_e src_dst_e group_size : Z) : K Z :=
  match fuel with
  | O => ub
  | S fuel =>
      if src_dst_e =? ANY then mret 0
      else
        slot ← okendpt src_dst_e;
        let xp := proc_addr slot in
        fl ← rd p_rts_flags xp;
        kassert (negb (RTS_ISSET fl RTS_SLOT_FREE));;
        let group_size := group_size + 1 in
        e ← rd P_BLOCKEDON xp;
        if e =? NONE then mret 0
        else if e =? cp_e
        then
          if (group_size =? 2) && has (Z.lxor fl (Z.shiftl function 2)) RTS_SENDING
          then mret 0
          else mret group_size
        else deadlock_loop fuel function cp_e e group_size
  end.

Definition deadlock (function cp src_dst_e : Z) : K Z :=
  cp_e ← rd p_endpoint cp;
  n ← gets (fun k => size (procs k));
  deadlock_loop (S n) function cp_e src_dst_e 1.

(** ** Pending notifications and asynchronous messages *)

(** [while (!get_sys_bit( *map, src_id)) src_id++;] *)
Fixpoint find_bit (fuel : nat) (m : sys_map_t) (src_id : Z) : K Z :=
  match fuel with
  | O => ub
  | S fuel => if get_sys_bit m src_id then mret src_id else find_bit fuel m (src_id + 1)
  end.

Definition has_pending (m : sys_map_t) (src_p : Z) : K Z :=
  if negb (src_p =? ANY)
  then src_id ← rdp s_id (proc_addr src_p); mret (if get_sys_bit m src_id then src_id else NULL_PRIV_ID)
  else
    src_id ← (if negb (get_sys_bits m 0 =? 0) then find_bit 64 m 0
              else if negb (get_sys_bits m BITCHUNK_BITS =? 0) then find_bit 64 m BITCHUNK_BITS
              else mret NR_SYS_PROCS);
    mret (if src_id <? NR_SYS_PROCS then src_id else NULL_PRIV_ID).

Definition has_pending_notify (caller src_p : Z) : K Z :=
  m ← rdp s_notify_pending caller; has_pending m src_p.
Definition has_pending_asend (caller src_p : Z) : K Z :=
  m ← rdp s_asyn_pending caller; has_pending m src_p.
Definition unset_notify_pending (caller src_p : Z) : K unit :=
  updp caller (fun s => with_s_notify_pending (unset_sys_bit (s_notify_pending s) src_p) s).

(** ** [mini_send] *)

(** A message to send: at an address of the sender's memory, or in the
    kernel. *)
Inductive msg_ptr := UserPtr (addr : Z) | KernPtr (m : message).

(** [None] is a fault. *)
Definition copy_msg_from_user (p addr : Z) : K (option message) := gets (fun k => umsg k !! (p, addr)).

Definition get_msg (caller_ptr : Z) (m_ptr : msg_ptr) (flags : Z) : K (option message) :=
  match m_ptr with
  | UserPtr a => if has flags FROM_KERNEL then ub else copy_msg_from_user caller_ptr a
  | KernPtr m => if has flags FROM_KERNEL then mret (Some m) else ub
  end.

(** [*xpp = v] for a link of the queue of senders to [dst]. *)
Definition wr_caller_q (dst : Z) (xpp : pploc) (v : Z) : K unit :=
  match xpp with PHead => upd dst (with_p_caller_q v) | PNext x => upd x (with_p_q_link v) end.

(** The receiver waits: the message is delivered. *)
Definition send_deliver (caller_ptr cep dst_ptr : Z) (m_ptr : msg_ptr) (flags : Z) : K kres :=
  mf ← rd p_misc_flags dst_ptr;
  kassert (negb (has mf MF_DELIVERMSG));;
  m ← get_msg caller_ptr m_ptr flags;
  match m with
  | None => mret EFAULT
  | Some m =>
      (if has flags FROM_KERNEL then IPC_STATUS_ADD_FLAGS dst_ptr IPC_FLG_MSG_FROM_KERNEL else mret tt);;
      deliver dst_ptr cep m;;
      cmf ← rd p_misc_flags caller_ptr;
      IPC_STATUS_ADD_CALL dst_ptr
        (if has cmf MF_REPLY_PEND then SENDREC else if has flags NON_BLOCKING then SENDNB else SEND);;
      upd dst_ptr (clear_misc MF_REPLY_PEND);;
      RTS_UNSET dst_ptr RTS_RECEIVING;;
      mret OK
  end.

(** The sender is blocked and put at the end of the receiver's queue. *)
Definition send_block (caller_ptr dst_e dst_ptr : Z) (m_ptr : msg_ptr) (flags : Z) : K kres :=
  m ← get_msg caller_ptr m_ptr flags;
  match m with
  | None => mret EFAULT
  | Some m =>
      upd caller_ptr (with_p_sendmsg m);;
      (if has flags FROM_KERNEL then upd caller_ptr (set_misc MF_SENDING_FROM_KERNEL) else mret tt);;
      RTS_SET caller_ptr RTS_SENDING;;
      upd caller_ptr (with_p_sendto_e dst_e);;
      ql ← rd p_q_link caller_ptr;
      kassert (ql =? 0);;
      h ← rd p_caller_q dst_ptr;
      nx ← gets (fld p_q_link);
      xpp ← opt (pp_walk (S (size nx)) h nx (fun _ => false) PHead);
      wr_caller_q dst_ptr xpp caller_ptr;;
      mret OK
  end.

Definition mini_send (caller_ptr dst_e : Z) (m_ptr : msg_ptr) (flags : Z) : K kres :=
  let dst_ptr := proc_addr (_ENDPOINT_P dst_e) in
  dfl ← rd p_rts_flags dst_ptr;
  if RTS_ISSET dfl RTS_NO_ENDPOINT then mret EDEADSRCDST
  else
    cep ← rd p_endpoint caller_ptr;
    w ← WILLRECEIVE dst_ptr cep;
    if w : bool then send_deliver caller_ptr cep dst_ptr m_ptr flags
    else if has flags NON_BLOCKING then mret ENOTREADY
    else
      d ← deadlock SEND caller_ptr dst_e;
      if negb (d =? 0) then mret ELOCKED
      else send_block caller_ptr dst_e dst_ptr m_ptr flags.

(** ** Asynchronous messages *)

(** [A_RETR] and [A_INSRT]: an entry of the table of a process; [None] and
    [false] are faults. *)
Definition A_RETR (ep table_v i : Z) : K (option asynmsg) :=
  k ← get; mret (fst <$> utab k !! (ep, table_v + i * sizeof_asynmsg)).
Definition A_INSRT (ep table_v i : Z) (tabent : asynmsg) : K bool :=
  k ← get;
  let a := (ep, table_v + i * sizeof_asynmsg) in
  match utab k !! a with
  | Some (_, true) => modify (with_utab (<[a := (tabent, true)]> (utab k)));; mret true
  | _ => mret false
  end.

Definition AMF_ALL : Z := 31.

(** [flags & ~(AMF_VALID|AMF_DONE|AMF_NOTIFY|AMF_NOREPLY|AMF_NOTIFY_ERR)] *)
Definition bad_amf (flags : Z) : bool := negb (Z.ldiff flags AMF_ALL =? 0).

(** Whether the sender wants a notification about this result. *)
Definition wants_notify (flags : Z) (r : kres) : bool :=
  has flags AMF_NOTIFY || (negb (is_OK r) && has flags AMF_NOTIFY_ERR).

Definition may_send_to (rp nr : Z) : K bool :=
  id ← rdp s_id (proc_addr nr);
  m ← rdp s_ipc_to rp;
  mret (get_sys_bit m id).

Definition set_asyn_pending (dst_ptr id : Z) : K unit :=
  updp dst_ptr (fun s => with_s_asyn_pending (set_sys_bit (s_asyn_pending s) id) s).

(** What the loops over a table end with: an immediate return, or the values
    of [r], [done] and [do_notify]. *)
Inductive scan := ScanErr (r : kres) | ScanEnd (r : kres) (done do_notify : bool).

(** The scan of [try_one]: [n] entries are left, from index [i] on. *)
Fixpoint try_one_loop (n : nat) (src_ptr dst_ptr sep dep table_v i : Z) (r : kres) (done do_notify : bool)
  : K scan :=
  match n with
  | O => mret (ScanEnd r done do_notify)
  | S n =>
      let continue := try_one_loop n src_ptr dst_ptr sep dep table_v (i + 1) in
      e ← A_RETR sep table_v i;
      match e with
      | None => mret (ScanErr EFAULT)
      | Some tabent =>
          let flags := a_flags tabent in
          let store r :=
            b ← A_INSRT sep table_v i (Asynmsg (Z.lor flags AMF_DONE) (a_dst tabent) r (a_msg tabent));
            mret (if b : bool then ScanEnd r false (do_notify || wants_notify flags r) else ScanErr EFAULT) in
          if flags =? 0 then continue r done do_notify
          else if bad_amf flags || negb (has flags AMF_VALID) then store EINVAL
          else if has flags AMF_DONE then continue r done do_notify
          else if negb (a_dst tabent =? dep) then continue r false do_notify
          else
            mf ← rd p_misc_flags dst_ptr;
            if has flags AMF_NOREPLY && has mf MF_REPLY_PEND then continue r false do_notify
            else deliver dst_ptr sep (a_msg tabent);; store OK
      end
  end.

Definition try_one (src_ptr dst_ptr : Z) : K kres :=
  sf ← rdp s_flags src_ptr;
  if negb (has sf SYS_PROC) then mret EPERM
  else
    size ← rdp s_asynsize src_ptr;
    table_v ← rdp s_asyntab src_ptr;
    id ← rdp s_id src_ptr;
    updp dst_ptr (fun s => with_s_asyn_pending (unset_sys_bit (s_asyn_pending s) id) s);;
    if size =? 0 then mret EAGAIN
    else
      nr ← rd p_nr dst_ptr;
      may ← may_send_to src_ptr nr;
      if negb may then mret ECALLDENIED
      else
        sep ← rd p_endpoint src_ptr;
        dep ← rd p_endpoint dst_ptr;
        out ← try_one_loop (Z.to_nat size) src_ptr dst_ptr sep dep table_v 0 EAGAIN true false;
        match out with
        | ScanErr r => mret r
        | ScanEnd r done do_notify =>
            (if do_notify : bool then mini_notify (proc_addr ASYNCM) sep;; mret tt else mret tt);;
            (if done : bool then updp src_ptr (fun s => with_s_asynsize 0 (with_s_asyntab (-1) s))
             else set_asyn_pending dst_ptr id);;
            mret r
        end.

Fixpoint try_async_loop (ids : list Z) (caller_ptr : Z) : K kres :=
  match ids with
  | [] => mret ESRCH
  | i :: ids' =>
      nr ← rda s_proc_nr i;
      if nr =? NONE then try_async_loop ids' caller_ptr
      else
        m ← rdp s_asyn_pending caller_ptr;
        id ← rda s_id i;
        if negb (get_sys_bit m id) then try_async_loop ids' caller_ptr
        else
          mf ← rd p_misc_flags caller_ptr;
          kassert (negb (has mf MF_DELIVERMSG));;
          r ← try_one (proc_addr nr) caller_ptr;
          if is_OK r then mret OK else try_async_loop ids' caller_ptr
  end.

Definition try_async (caller_ptr : Z) : K kres := try_async_loop priv_slots caller_ptr.

(** The scan of [try_deliver_senda]: every entry is processed; an error of one
    is reported and the scan goes on. *)
Definition senda_check (caller_ptr dst : Z) : K (kres * Z) :=
  ok ← isokendpt dst;
  match ok with
  | None => mret (EDEADSRCDST, 0)
  | Some dst_p =>
      if iskerneln dst_p then mret (ECALLDENIED, 0)
      else
        may ← may_send_to caller_ptr dst_p;
        if negb may then mret (ECALLDENIED, 0)
        else
          let dst_ptr := proc_addr dst_p in
          fl ← rd p_rts_flags dst_ptr;
          mret (if RTS_ISSET fl RTS_NO_ENDPOINT then (EDEADSRCDST, 0) else (OK, dst_ptr))
  end.

Definition senda_entry (caller_ptr cep cid table_v i : Z) (tabent : asynmsg) (st : bool * bool)
  : K (bool * bool) :=
  let '(done, do_notify) := st in
  let flags := a_flags tabent in
  let store r :=
    A_INSRT cep table_v i (Asynmsg (Z.lor flags AMF_DONE) (a_dst tabent) r (a_msg tabent));;
    mret (done, do_notify || wants_notify flags r) in
  if flags =? 0 then mret st
  else if bad_amf flags || negb (has flags AMF_VALID) then mret st
  else if has flags AMF_DONE then mret st
  else
    rd_ ← senda_check caller_ptr (a_dst tabent);
    let '(r, dst_ptr) := (rd_ : kres * Z) in
    if is_OK r
    then
      w ← WILLRECEIVE dst_ptr cep;
      mf ← rd p_misc_flags dst_ptr;
      if w && (negb (has flags AMF_NOREPLY) || negb (has mf MF_REPLY_PEND))
      then
        deliver dst_ptr cep (a_msg tabent);;
        IPC_STATUS_ADD_CALL dst_ptr SENDA;;
        RTS_UNSET dst_ptr RTS_RECEIVING;;
        store OK
      else set_asyn_pending dst_ptr cid;; mret (false, do_notify)
    else store r.

Fixpoint senda_loop (n : nat) (caller_ptr cep cid table_v i : Z) (st : bool * bool) : K (bool * bool) :=
  match n with
  | O => mret st
  | S n =>
      e ← A_RETR cep table_v i;
      st' ← match e with
            | None => mret st
            | Some tabent => senda_entry caller_ptr cep cid table_v i tabent st
            end;
      senda_loop n caller_ptr cep cid table_v (i + 1) st'
  end.

Definition ASYN_MAX : Z := 16 * (NR_TASKS + NR_PROCS).

Definition try_deliver_senda (caller_ptr table size : Z) : K kres :=
  updp caller_ptr (fun s => with_s_asynsize 0 (with_s_asyntab (-1) s));;
  if size =? 0 then mret OK
  else if ASYN_MAX <? size then mret EDOM
  else
    cep ← rd p_endpoint caller_ptr;
    cid ← rdp s_id caller_ptr;
    out ← senda_loop (Z.to_nat size) caller_ptr cep cid table 0 (true, false);
    let '(done, do_notify) := (out : bool * bool) in
    (if do_notify then mini_notify (proc_addr ASYNCM) cep;; mret tt else mret tt);;
    (if done then mret tt
     else updp caller_ptr (fun s => with_s_asynsize size (with_s_asyntab table s)));;
    mret OK.

Definition mini_senda (caller_ptr table size : Z) : K kres :=
  sf ← rdp s_flags caller_ptr;
  if negb (has sf SYS_PROC) then mret EPERM else try_deliver_senda caller_ptr table size.

(** The scan of [cancel_async]; [None] is the return at a fault. *)
Fixpoint cancel_loop (n : nat) (sep dep table_v i : Z) (done do_notify : bool) : K (option (bool * bool)) :=
  match n with
  | O => mret (Some (done, do_notify))
  | S n =>
      e ← A_RETR sep table_v i;
      match e with
      | None => mret None
      | Some tabent =>
          let flags := a_flags tabent in
          let bad := bad_amf flags || negb (has flags AMF_VALID) in
          if (flags =? 0) || (negb bad && has flags AMF_DONE)
          then cancel_loop n sep dep table_v (i + 1) done do_notify
          else if negb (a_dst tabent =? dep)
          then cancel_loop n sep dep table_v (i + 1) false do_notify
          else
            let r := if bad then EINVAL else EDEADSRCDST in
            b ← A_INSRT sep table_v i (Asynmsg (Z.lor flags AMF_DONE) (a_dst tabent) r (a_msg tabent));
            if b : bool
            then cancel_loop n sep dep table_v (i + 1) done (do_notify || wants_notify flags r)
            else mret None
      end
  end.

Definition cancel_async (src_ptr dst_ptr : Z) : K kres :=
  sf ← rdp s_flags src_ptr;
  if negb (has sf SYS_PROC) then mret EPERM
  else
    size ← rdp s_asynsize src_ptr;
    table_v ← rdp s_asyntab src_ptr;
    id ← rdp s_id src_ptr;
    updp src_ptr (fun s => with_s_asynsize 0 (with_s_asyntab (-1) s));;
    updp dst_ptr (fun s => with_s_asyn_pending (unset_sys_bit (s_asyn_pending s) id) s);;
    if size =? 0 then mret EAGAIN
    else
      nr ← rd p_nr dst_ptr;
      may ← may_send_to src_ptr nr;
      if negb may then mret ECALLDENIED
      else
        sep ← rd p_endpoint src_ptr;
        dep ← rd p_endpoint dst_ptr;
        out ← cancel_loop (Z.to_nat size) sep dep table_v 0 true false;
        match out with
        | None => mret OK
        | Some (done, do_notify) =>
            (if do_notify : bool then mini_notify (proc_addr ASYNCM) sep;; mret tt else mret tt);;
            (if done : bool then mret tt
             else updp src_ptr (fun s => with_s_asynsize size (with_s_asyntab table_v s)));;
            mret OK
        end.

(** ** [mini_receive] *)

(** A pending notification is delivered; whether there was one. *)
Definition receive_notify (caller_ptr src_e src_p : Z) : K bool :=
  src_id ← has_pending_notify caller_ptr src_p;
  if src_id =? NULL_PRIV_ID then mret false
  else
    src_proc_nr ← rda s_proc_nr src_id;
    kassert (negb (src_proc_nr =? NONE));;
    unset_notify_pending caller_ptr src_id;;
    hisep ← rd p_endpoint (proc_addr src_proc_nr);
    mf ← rd p_misc_flags caller_ptr;
    kassert (negb (has mf MF_DELIVERMSG));;
    kassert ((src_e =? ANY) || (hisep =? src_e));;
    m ← BuildNotifyMessage src_proc_nr caller_ptr;
    deliver caller_ptr hisep m;;
    IPC_STATUS_ADD_CALL caller_ptr NOTIFY;;
    mret true.

(** A pending asynchronous message is delivered. *)
Definition receive_async (caller_ptr src_p : Z) : K bool :=
  id ← has_pending_asend caller_ptr src_p;
  if id =? NULL_PRIV_ID then mret false
  else
    r ← (if negb (src_p =? ANY) then try_one (proc_addr src_p) caller_ptr else try_async caller_ptr);
    if is_OK r then IPC_STATUS_ADD_CALL caller_ptr SENDA;; mret true else mret false.

(** The message of the first acceptable sender of the queue is taken. *)
Definition take_sender (caller_ptr : Z) (xpp : pploc) (sender : Z) : K unit :=
  fl ← rd p_rts_flags sender;
  kassert (negb (RTS_ISSET fl RTS_SLOT_FREE));;
  kassert (negb (RTS_ISSET fl RTS_NO_ENDPOINT));;
  mf ← rd p_misc_flags caller_ptr;
  kassert (negb (has mf MF_DELIVERMSG));;
  sm ← rd p_sendmsg sender;
  sep ← rd p_endpoint sender;
  deliver caller_ptr sep sm;;
  RTS_UNSET sender RTS_SENDING;;
  smf ← rd p_misc_flags sender;
  IPC_STATUS_ADD_CALL caller_ptr (if has smf MF_REPLY_PEND then SENDREC else SEND);;
  (if has smf MF_SENDING_FROM_KERNEL
   then IPC_STATUS_ADD_FLAGS caller_ptr IPC_FLG_MSG_FROM_KERNEL;; upd sender (clear_misc MF_SENDING_FROM_KERNEL)
   else mret tt);;
  (if has smf MF_SIG_DELAY then sig_delay_done sender else mret tt);;
  nxt ← rd p_q_link sender;
  wr_caller_q caller_ptr xpp nxt;;
  upd sender (with_p_q_link 0).

Definition receive_queue (caller_ptr src_e src_p : Z) : K bool :=
  h ← rd p_caller_q caller_ptr;
  nx ← gets (fld p_q_link);
  nrs ← gets (fld p_nr);
  xpp ← opt (pp_walk (S (size nx)) h nx
    (fun sender => (src_e =? ANY) || (match nrs !! sender with Some n => src_p =? n | None => false end)) PHead);
  sender ← opt (pp_read h nx xpp);
  if sender =? 0 then mret false
  else take_sender caller_ptr xpp sender;; mret true.

(** The three sources of messages, in order. *)
Definition receive_now (caller_ptr src_e src_p : Z) : K bool :=
  fl ← rd p_rts_flags caller_ptr;
  if RTS_ISSET fl RTS_SENDING then mret false
  else
    mf ← rd p_misc_flags caller_ptr;
    n ← (if negb (has mf MF_REPLY_PEND) then receive_notify caller_ptr src_e src_p else mret false);
    if n : bool then mret true
    else
      a ← receive_async caller_ptr src_p;
      if a : bool then mret true else receive_queue caller_ptr src_e src_p.

Definition mini_receive (caller_ptr src_e m_buff_usr flags : Z) : K kres :=
  mf ← rd p_misc_flags caller_ptr;
  kassert (negb (has mf MF_DELIVERMSG));;
  upd caller_ptr (with_p_delivermsg_vir m_buff_usr);;
  src ← (if src_e =? ANY then mret (Some ANY)
         else
           src_p ← okendpt src_e;
           sfl ← rd p_rts_flags (proc_addr src_p);
           mret (if RTS_ISSET sfl RTS_NO_ENDPOINT then None else Some src_p));
  match src with
  | None => mret EDEADSRCDST
  | Some src_p =>
      got ← receive_now caller_ptr src_e src_p;
      if got : bool then upd caller_ptr (clear_misc MF_REPLY_PEND);; mret OK
      else if has flags NON_BLOCKING then mret ENOTREADY
      else
        d ← deadlock RECEIVE caller_ptr src_e;
        if negb (d =? 0) then mret ELOCKED
        else
          upd caller_ptr (with_p_getfrom_e src_e);;
          RTS_SET caller_ptr RTS_RECEIVING;;
          mret OK
  end.

(** ** The calls of user processes *)

(** The calls that have a name in [ipc_call_names]. *)
Definition known_call (call_nr : Z) : bool := bool_decide (call_nr ∈ [SEND; RECEIVE; SENDREC; NOTIFY; SENDNB; SENDA]).

(** The checks of [do_sync_ipc]; [Some r] is a return. *)
Definition check_sync_ipc (caller_ptr call_nr src_dst_e : Z) : K (option kres) :=
  kassert (negb (call_nr =? SENDA));;
  if negb (known_call call_nr) then mret (Some ETRAPDENIED)
  else
    dest ← (if src_dst_e =? ANY
            then mret (if negb (call_nr =? RECEIVE) then inl EINVAL else inr ANY)
            else
              ok ← isokendpt src_dst_e;
              match ok with
              | None => mret (inl EDEADSRCDST)
              | Some p =>
                  if negb (call_nr =? RECEIVE)
                  then may ← may_send_to caller_ptr p; mret (if negb may then inl ECALLDENIED else inr p)
                  else mret (inr p)
              end);
    match dest with
    | inl r => mret (Some r)
    | inr src_dst_p =>
        tm ← rdp s_trap_mask caller_ptr;
        if negb (has tm (Z.shiftl 1 call_nr)) then mret (Some ETRAPDENIED)
        else if negb (call_nr =? SENDREC) && negb (call_nr =? RECEIVE) && iskerneln src_dst_p
        then mret (Some ETRAPDENIED)
        else mret None
    end.

Definition do_sync_ipc (caller_ptr call_nr src_dst_e m_ptr : Z) : K kres :=
  c ← check_sync_ipc caller_ptr call_nr src_dst_e;
  match c with
  | Some r => mret r
  | None =>
      if call_nr =? SENDREC
      then
        upd caller_ptr (set_misc MF_REPLY_PEND);;
        r ← mini_send caller_ptr src_dst_e (UserPtr m_ptr) 0;
        if is_OK r then mini_receive caller_ptr src_dst_e m_ptr 0 else mret r
      else if call_nr =? SEND then mini_send caller_ptr src_dst_e (UserPtr m_ptr) 0
      else if call_nr =? RECEIVE
      then
        upd caller_ptr (clear_misc MF_REPLY_PEND);;
        IPC_STATUS_CLEAR caller_ptr;;
        mini_receive caller_ptr src_dst_e m_ptr 0
      else if call_nr =? NOTIFY then mini_notify caller_ptr src_dst_e
      else if call_nr =? SENDNB then mini_send caller_ptr src_dst_e (UserPtr m_ptr) NON_BLOCKING
      else mret EBADCALL
  end.

(** A traced process is stopped before its call, which is then deferred. *)
Definition trace_ipc (caller_ptr r1 r2 r3 : Z) : K bool :=
  mf ← rd p_misc_flags caller_ptr;
  if has mf (Z.lor MF_SC_TRACE MF_SC_DEFER)
  then
    if Z.land mf (Z.lor MF_SC_TRACE MF_SC_DEFER) =? MF_SC_TRACE
    then
      upd caller_ptr (fun r => with_p_defer (r1, r2, r3) (set_misc MF_SC_DEFER (clear_misc MF_SC_TRACE r)));;
      nr ← rd p_nr caller_ptr;
      cause_sig nr SIGTRAP;;
      mret true
    else
      upd caller_ptr (clear_misc MF_SC_DEFER);;
      mf' ← rd p_misc_flags caller_ptr;
      kassert (negb (has mf' MF_SC_ACTIVE));;
      upd caller_ptr (set_misc MF_SC_ACTIVE);;
      mret false
  else mret false.

(** [kerninfo] tells whether the kernel information page is mapped. *)
Definition do_ipc (kerninfo : bool) (r1 r2 r3 : Z) : K kres :=
  caller_ptr ← gets proc_ptr;
  fl ← rd p_rts_flags caller_ptr;
  kassert (negb (RTS_ISSET fl RTS_SLOT_FREE));;
  traced ← trace_ipc caller_ptr r1 r2 r3;
  if traced : bool then rd p_retreg caller_ptr
  else
    mf ← rd p_misc_flags caller_ptr;
    kassert (negb (has mf MF_DELIVERMSG));;
    if bool_decide (r1 ∈ [SENDREC; SEND; RECEIVE; NOTIFY; SENDNB])
    then
      upd caller_ptr (acct (fun a => with_ipc_sync (u32 (ipc_sync a + 1)) a));;
      do_sync_ipc caller_ptr r1 r2 r3
    else if r1 =? SENDA
    then
      upd caller_ptr (acct (fun a => with_ipc_async (u32 (ipc_async a + 1)) a));;
      if ASYN_MAX <? r2 then mret EDOM else mini_senda caller_ptr r3 r2
    else if r1 =? MINIX_KERNINFO
    then mret (if kerninfo then OK else EBADCALL)
    else mret EBADCALL.

(** ** Running out of quantum *)

Definition proc_kernel_scheduler (p : Z) : K bool :=
  s ← rd p_scheduler p; mret ((s =? 0) || (s =? p)).

Definition ms_2_cpu_time (ms : Z) : K Z := t ← gets tsc_per_ms; mret (u64 (t * ms)).
Definition cpu_time_2_ms (cpu_time : Z) : K Z := t ← gets tsc_per_ms; mret (u32 (cpu_time / t)).

Definition i16 (z : Z) : Z := (z + 2 ^ 15) mod 2 ^ 16 - 2 ^ 15.

Definition cpu_load : K Z :=
  current_tsc ← read_tsc_64;
  current_idle ← rd p_cycles idle_proc;
  last_tsc ← gets cpu_last_tsc;
  last_idle ← gets cpu_last_idle;
  let tsc_delta := u64 (current_tsc - last_tsc) in
  let busy := u64 (u64 (tsc_delta - u64 (current_idle - last_idle)) * 100) in
  load ← (if last_tsc =? 0 then mret 0
          else if tsc_delta =? 0 then ub
          else mret (Z.min 100 (i16 (u32 (busy / tsc_delta)))));
  modify (with_cpu_last_tsc current_tsc);;
  modify (with_cpu_last_idle current_idle);;
  mret load.

Definition reset_proc_accounting (p : Z) : K unit := upd p (acct (fun _ => Accounting 0 0 0 0 0 0)).

Definition SCHEDULING_NO_QUANTUM : Z := 0xF01.

Definition notify_scheduler (p : Z) : K unit :=
  ks ← proc_kernel_scheduler p;
  kassert (negb ks);;
  RTS_SET p RTS_NO_QUANTUM;;
  pe ← rd p_endpoint p;
  a ← rd p_accounting p;
  q ← cpu_time_2_ms (time_in_queue a);
  load ← cpu_load;
  reset_proc_accounting p;;
  s ← rd p_scheduler p;
  se ← rd p_endpoint s;
  r ← mini_send p se (KernPtr (Message pe SCHEDULING_NO_QUANTUM
    (m_krn_lsys_schedule q (dequeues a) (ipc_sync a) (ipc_async a) (preempted a) 0 load))) FROM_KERNEL;
  kassert (is_OK r).

Definition proc_no_time (p : Z) : K unit :=
  ks ← proc_kernel_scheduler p;
  sf ← rdp s_flags p;
  if negb ks && has sf PREEMPTIBLE then notify_scheduler p
  else q ← rd p_quantum_size_ms p; t ← ms_2_cpu_time q; upd p (with_p_cpu_time_left t).
End Ipc.
