(* ===== verification/KSend.v ===== *)
(** Deadlock detection and [mini_send]: the walk along the blocked processes
    ends and is exact, and a send either delivers the message, queues the
    sender behind those already waiting, or changes nothing. *)

From S2P Require Import Prelude Chain Timers KState KSched KBoot KWait KNotify KBase KSignal KIpc.
Local Open Scope Z_scope.

(** The whole invariant: [cq d] is the queue of the senders blocked on [d]. *)
Definition kinv (k : kstate) (cq : Z -> list Z) : Prop := kbase k /\ ipc_inv (fld view k) cq.

Lemma inv_recv_ok m cq : ipc_inv m cq -> recv_ok m.
Proof. intros Hi p v Hv [e He]. by eapply i_recv. Qed.

Lemma view_at k p r v : procs k !! p = Some r -> fld view k !! p = Some v -> view r = v.
Proof. intros Hr Hv. rewrite (fld_of _ _ _ _ Hr) in Hv. congruence. Qed.

Lemma view_fields r r' : view r = view r' ->
  p_nr r = p_nr r' /\ p_endpoint r = p_endpoint r' /\
  has (p_rts_flags r) RTS_SLOT_FREE = has (p_rts_flags r') RTS_SLOT_FREE /\
  has (p_rts_flags r) RTS_NO_ENDPOINT = has (p_rts_flags r') RTS_NO_ENDPOINT /\
  has (p_misc_flags r) MF_DELIVERMSG = has (p_misc_flags r') MF_DELIVERMSG /\
  p_caller_q r = p_caller_q r' /\ p_q_link r = p_q_link r' /\
  (if has (p_rts_flags r) RTS_RECEIVING then Some (p_getfrom_e r) else None) =
  (if has (p_rts_flags r') RTS_RECEIVING then Some (p_getfrom_e r') else None) /\
  p_delivermsg r = p_delivermsg r' /\ p_sendmsg r = p_sendmsg r'.
Proof. unfold view. intros [=]. done. Qed.

(** ** [deadlock] *)

Lemma blockedon_view r : P_BLOCKEDON r = v_blockedon (view r).
Proof. unfold P_BLOCKEDON, v_blockedon, view. simpl. by destruct (has (p_rts_flags r) RTS_SENDING), (has (p_rts_flags r) RTS_RECEIVING). Qed.

(** The slot the walk starts from. *)
Definition start (e : Z) : Z := if (e =? NONE) || (e =? ANY) then 0 else target e.

Lemma start_live m e : live_ep m e -> start e = target e.
Proof.
  intros [? ?]%live_not_special. unfold start. destruct (Z.eqb_spec e NONE), (Z.eqb_spec e ANY); done.
Qed.

Lemma blockedon_cases m cq p v :
  ipc_inv m cq -> m !! p = Some v -> v_blockedon v = NONE \/ v_blockedon v = ANY \/ live_ep m (v_blockedon v).
Proof.
  intros Hi Hv. unfold v_blockedon. destruct (v_out v) as [e|] eqn:Eo.
  - right; right. by eapply i_send.
  - destruct (v_in v) as [e|] eqn:Ei; [|by left].
    destruct (i_recv _ _ Hi _ _ _ Hv Ei) as [_ [->|]]; auto.
Qed.

(** The one case in which the walk comes back to the caller and this is no
    deadlock: of two processes one sends to the other, which receives from it. *)
Definition pair_case (function : Z) (v : ipcv) : bool :=
  if function =? SEND then bool_decide (v_out v = None) else bool_decide (v_out v <> None).

Lemma pair_case_flags r function :
  function = SEND \/ function = RECEIVE ->
  has (Z.lxor (p_rts_flags r) (Z.shiftl function 2)) RTS_SENDING = pair_case function (view r).
Proof.
  assert (forall a, has (Z.lxor a 4) RTS_SENDING = negb (has a RTS_SENDING) /\ has (Z.lxor a 8) RTS_SENDING = has a RTS_SENDING)
    as Hx.
  { intros a. change RTS_SENDING with (2 ^ 2). rewrite !has_testbit, !Z.lxor_spec by done.
    change (Z.testbit 4 2) with true. change (Z.testbit 8 2) with false. by destruct (Z.testbit a 2). }
  intros [-> | ->]; unfold pair_case, view; simpl; [change (Z.shiftl SEND 2) with 4|change (Z.shiftl RECEIVE 2) with 8];
    destruct (Hx (p_rts_flags r)) as [E1 E2]; rewrite ?E1, ?E2; by destruct (has (p_rts_flags r) RTS_SENDING).
Qed.

(** What the walk finds on the path [l]. *)
Inductive walk_result (function cp g : Z) (m : gmap Z ipcv) (l : list Z) : Z -> Prop :=
| WalkFree : cp ∉ l -> walk_result function cp g m l 0
| WalkCycle l1 l2 : l = l1 ++ cp :: l2 -> cp ∉ l1 ->
    (forall x v, g = 1 -> l1 = [x] -> m !! x = Some v -> pair_case function v = false) ->
    walk_result function cp g m l (g + Z.of_nat (length l1))
| WalkPair x v l' : g = 1 -> l = x :: cp :: l' -> m !! x = Some v -> pair_case function v = true ->
    walk_result function cp g m l 0.

Section Send.
Context `{Signals}.

Lemma deadlock_loop_run k cq function cp_e cp l e g fuel :
  kinv k cq -> function = SEND \/ function = RECEIVE ->
  live_ep (fld view k) cp_e -> target cp_e = cp ->
  e = ANY \/ live_ep (fld view k) e -> 1 <= g ->
  start e <> cp -> chain (waits (fld view k)) (start e) l -> (length l < fuel)%nat ->
  exists d, deadlock_loop fuel function cp_e e g k = Some (d, k) /\
    walk_result function cp g (fld view k) l d.
Proof.
  intros [Hk Hi] Hfn Hcpl Hcp. revert e g fuel.
  induction l as [|x l IH]; intros e g fuel He Hg Hne Hc Hfuel; (destruct fuel as [|fuel]; [simpl in *; lia|]).
  - cbn [deadlock_loop]. destruct He as [->|He].
    + exists 0. split; [done|]. apply WalkFree. set_solver.
    + exfalso. rewrite (start_live _ _ He) in Hc. apply chain_nil_head in Hc.
      destruct He as (v & Hv & _). rewrite Hc in Hv. by rewrite (i_null _ _ Hi) in Hv.
  - cbn [deadlock_loop]. pose proof (chain_cons_head _ _ _ _ Hc) as [-> Hx0].
    destruct He as [->|He]; [done|]. pose proof (live_not_special _ _ He) as [Hany _].
    rewrite (start_live _ _ He) in *. destruct (Z.eqb_spec e ANY) as [|_]; [done|].
    rewrite (bind_run _ _ _ _ _ (okendpt_run k e Hk He)). fold (target e).
    destruct (live_slot _ _ He) as (r & Hr & Hrt & Er & Hrf).
    rewrite (bind_run _ _ _ _ _ (rd_run p_rts_flags _ _ _ Hr)).
    rewrite isset_has by tauto. rewrite Hrf, (bind_run _ _ _ _ _ eq_refl).
    rewrite (bind_run _ _ _ _ _ (rd_run P_BLOCKEDON _ _ _ Hr)), blockedon_view.
    pose proof (fld_of view _ _ _ Hr) as Hv.
    destruct (chain_cons_inv _ _ _ Hc Hx0) as (y & l' & [= <-] & Hy & Hc').
    unfold waits in Hy. rewrite Hv in Hy. injection Hy as <-.
    set (e' := v_blockedon (view r)) in *. change (awaited (view r)) with (start e') in Hc'.
    destruct (Z.eqb_spec e' NONE) as [E|Hnone].
    { rewrite E in Hc'. apply chain_nil_inv in Hc' as ->. exists 0. split; [done|]. apply WalkFree. set_solver. }
    assert (e' = ANY \/ live_ep (fld view k) e') as He'.
    { destruct (blockedon_cases _ _ _ _ Hi Hv) as [?|[?|?]]; [done|by left|by right]. }
    destruct (Z.eqb_spec e' cp_e) as [E|Hcpe].
    + rewrite E, (start_live _ _ Hcpl), Hcp in Hc'. rewrite pair_case_flags by done.
      assert (exists l2, l = cp :: l2) as [l2 ->].
      { destruct (chain_cons_inv _ _ _ Hc') as (? & l2 & -> & _); [|by exists l2].
        intros E0. destruct Hcpl as (v & Hv' & _). rewrite Hcp, E0, (i_null _ _ Hi) in Hv'. done. }
      destruct ((g + 1 =? 2) && pair_case function (view r)) eqn:Epair.
      * exists 0. split; [done|]. apply andb_true_iff in Epair as [Eg%Z.eqb_eq Ep].
        eapply (WalkPair _ _ _ _ _ (target e) (view r) l2); [lia|done|done|done].
      * exists (g + 1). split; [done|]. apply (WalkCycle _ _ _ _ _ [target e] l2); [done|set_solver|].
        intros x v Hg1 [= <-] Hx. rewrite Hv in Hx. injection Hx as <-. rewrite Hg1 in Epair. exact Epair.
    + assert (start e' <> cp) as Hne'.
      { destruct He' as [->|He']; [intros E0; change (start ANY) with 0 in E0|].
        - destruct Hcpl as (v & Hv' & _). rewrite Hcp, <- E0, (i_null _ _ Hi) in Hv'. done.
        - rewrite (start_live _ _ He'). intros E0. apply Hcpe. eapply live_inj; [done|done|]. by rewrite Hcp. }
      destruct (IH e' (g + 1) fuel He' ltac:(lia) Hne' Hc' ltac:(simpl in *; lia)) as (d & Ed & Hd).
      exists d. split; [done|]. destruct Hd as [Hn|l1 l2 -> Hn Hpr|z v l3 Hg1].
      * apply WalkFree. set_solver.
      * replace (g + 1 + Z.of_nat (length l1)) with (g + Z.of_nat (length (target e :: l1))) by (simpl; lia).
        apply (WalkCycle _ _ _ _ _ (target e :: l1) l2); [done|set_solver|].
        intros x v _ [= _ ->]. by apply chain_cons_head in Hc' as [? _].
      * lia.
Qed.

(** The path of blocked processes from [e] on is finite. *)
Lemma wait_path k cq e :
  kinv k cq -> e = ANY \/ live_ep (fld view k) e -> exists l, chain (waits (fld view k)) (start e) l.
Proof.
  intros [Hk Hi] [->|He]; [exists []; constructor|].
  rewrite (start_live _ _ He). apply (i_acyc _ _ Hi). destruct He as (v & Hv & _). by exists v.
Qed.

Lemma path_length (m : gmap Z ipcv) p l : chain (waits m) p l -> (length l <= size m)%nat.
Proof.
  intros Hc. rewrite <- (map_size_fmap awaited m). apply (chain_length _ p). eapply lseg_ext; [|exact Hc].
  intros x _. unfold waits. by rewrite lookup_fmap.
Qed.

Lemma deadlock_run k cq function cp r e l :
  kinv k cq -> function = SEND \/ function = RECEIVE ->
  in_table cp = true -> procs k !! cp = Some r -> has (p_rts_flags r) RTS_SLOT_FREE = false ->
  e = ANY \/ live_ep (fld view k) e -> start e <> cp -> chain (waits (fld view k)) (start e) l ->
  exists d, deadlock function cp e k = Some (d, k) /\ walk_result function cp 1 (fld view k) l d.
Proof.
  intros Hki Hfn Hp Hr Hf He Hne Hc. unfold deadlock.
  rewrite (bind_run _ _ _ _ _ (rd_run p_endpoint _ _ _ Hr)).
  rewrite (bind_run (gets (fun k => size (procs k))) _ k (size (procs k)) k eq_refl).
  destruct (live_self _ _ _ (proj1 Hki) Hp Hr Hf) as [Hl Ht].
  eapply deadlock_loop_run; try done. pose proof (path_length _ _ _ Hc) as Hlen.
  unfold fld in Hlen. rewrite map_size_fmap in Hlen. lia.
Qed.

(** ** [mini_send] *)

(** The message a pointer stands for; [None] is a fault. *)
Definition the_msg (k : kstate) (p : Z) (m_ptr : msg_ptr) : option message :=
  match m_ptr with UserPtr a => umsg k !! (p, a) | KernPtr m => Some m end.

Definition ptr_ok (m_ptr : msg_ptr) (flags : Z) : Prop :=
  has flags FROM_KERNEL = match m_ptr with UserPtr _ => false | KernPtr _ => true end.

Lemma get_msg_run k p m_ptr flags : ptr_ok m_ptr flags -> get_msg p m_ptr flags k = Some (the_msg k p m_ptr, k).
Proof. unfold ptr_ok, get_msg. destruct m_ptr; by intros ->. Qed.

Lemma send_deliver_run k p r d e m_ptr flags msg :
  kbase k -> recv_ok (fld view k) -> ptr_ok m_ptr flags -> the_msg k p m_ptr = Some msg ->
  in_table p = true -> procs k !! p = Some r ->
  live_ep (fld view k) e -> procs k !! target e = Some d -> v_willreceive (view d) (p_endpoint r) = true ->
  runs (send_deliver p (p_endpoint r) (target e) m_ptr flags) k (fun res k' => kbase k' /\ res = OK /\
    fld view k' = <[target e := v_wake (with_source (p_endpoint r) msg) (view d)]> (fld view k)).
Proof.
  intros Hk Hrok Hptr Hmsg Hp Hr Hl Hd Hw.
  destruct (live_slot _ _ Hl) as (d' & Hd' & Hdt & _ & Hdf). assert (d' = d) as -> by congruence.
  unfold send_deliver. kstep. kstep.
  { apply negb_true_iff. apply (Hrok (target e) (view d)); [by apply fld_of|].
    unfold v_willreceive in Hw. destruct (v_out (view d)), (v_in (view d)); by try done; eauto. }
  eapply runs_step; [by apply get_msg_run|]. rewrite Hmsg. cbv iota.
  eapply (runs_seq _ _ _ _ (fun _ k1 => kbase k1 /\ fld view k1 = fld view k)).
  { destruct (has flags FROM_KERNEL); [by apply ipc_status_quiet|by kstep]. }
  intros _ k1 [Hk1 Ev1]. destruct (kbase_slot _ _ Hk1 Hdt) as [d1 Hd1].
  assert (view d1 = view d) as Ed1 by (by apply (view_at k1 (target e)); [|rewrite Ev1; apply fld_of]).
  eapply runs_seq; [by eapply (deliver_run k1 (target e) d1)|]. intros _ k2 [Hk2 Ev2]. rewrite Ev1, Ed1 in Ev2.
  destruct (kbase_slot _ _ Hk2 Hp) as [r2 Hr2]. kstep.
  eapply runs_seq; [by apply ipc_status_quiet|]. intros _ k3 [Hk3 Ev3].
  destruct (kbase_slot _ _ Hk3 Hdt) as [d3 Hd3].
  assert (view d3 = v_with_deliver (with_source (p_endpoint r) msg) (view d)) as Ed3
    by (apply (view_at k3 (target e)); [done|by rewrite Ev3, Ev2, lookup_insert_eq]).
  eapply runs_seq; [eapply (quiet_upd k3 (target e) d3); try done|].
  { unfold view. simpl. by rewrite has_ldiff_disj. }
  intros _ k4 [Hk4 Ev4]. destruct (kbase_slot _ _ Hk4 Hdt) as [d4 Hd4].
  assert (view d4 = view d3) as Ed4 by (by apply (view_at k4 (target e)); [|rewrite Ev4; apply fld_of]).
  rewrite Ed3 in Ed4. eapply runs_seq; [eapply (unset_receiving k4 (target e) d4); [done..| |]|].
  { by apply (f_equal v_free) in Ed4; simpl in Ed4; rewrite Ed4. }
  { by apply (f_equal v_deliver) in Ed4. }
  intros _ k5 [Hk5 Ev5]. kstep. split_and!; [done|done|]. rewrite Ev5, Ev4, Ev3, Ev2, insert_insert_eq, Ed4.
  apply (f_equal v_msg) in Ed4. simpl in Ed4. by rewrite Ed4.
Qed.

(** A link of the queue of senders to [d] is written: the one after [l]. *)
Definition v_relink (d : Z) (l : list Z) (nx q : Z) (v : ipcv) : ipcv :=
  IpcV (v_nr v) (v_ep v) (v_free v) (v_noep v) (v_deliver v)
    (if decide (q = d /\ l = []) then nx else v_callerq v)
    (if decide (last l = Some q) then nx else v_qlink v) (v_out v) (v_in v) (v_msg v) (v_sendmsg v).

Lemma v_relink_other d l nx q v : ~ (q = d /\ l = []) -> last l <> Some q -> v_relink d l nx q v = v.
Proof. intros H1 H2. unfold v_relink. rewrite !decide_False by done. by destruct v. Qed.

Lemma put_relink k x r r' d l nx :
  procs k !! x = Some r -> view r' = v_relink d l nx x (view r) ->
  (forall q, q <> x -> ~ (q = d /\ l = []) /\ last l <> Some q) ->
  forall q, fld view (put_proc x r' k) !! q = v_relink d l nx q <$> fld view k !! q.
Proof.
  intros Hr Hv Hot q. rewrite fld_put. destruct (decide (x = q)) as [->|Hne].
  - by rewrite lookup_insert_eq, (fld_of _ _ _ _ Hr), Hv.
  - rewrite lookup_insert_ne by done. destruct (fld view k !! q) as [v|]; [|done]. simpl. f_equal.
    destruct (Hot q) as [? ?]; [congruence|]. by rewrite v_relink_other.
Qed.

Lemma wr_caller_q_run k d l nx :
  kbase k -> in_table d = true -> (forall x, x ∈ l -> in_table x = true) ->
  runs (wr_caller_q d (loc_after l) nx) k (fun _ k' => kbase k' /\
    forall q, fld view k' !! q = v_relink d l nx q <$> fld view k !! q).
Proof.
  intros Hk Hd Hl. unfold wr_caller_q, loc_after. destruct (last l) as [x|] eqn:El.
  - assert (in_table x = true) as Hx by (by apply Hl, last_elem).
    destruct (kbase_slot _ _ Hk Hx) as [r Hr]. kstep. split; [by eapply kbase_put|].
    eapply put_relink; [done| |].
    + unfold view, v_relink. simpl. rewrite decide_False by (intros [_ ->]; done). by rewrite decide_True.
    + intros q Hq. split; [intros [_ ->]; done|congruence].
  - apply last_None in El as ->. destruct (kbase_slot _ _ Hk Hd) as [r Hr]. kstep. split; [by eapply kbase_put|].
    eapply put_relink; [done| |].
    + unfold view, v_relink. simpl. by rewrite decide_True.
    + intros q Hq. split; [by intros [? _]|done].
Qed.

Lemma qlink_view k : v_qlink <$> fld view k = fld p_q_link k.
Proof. apply map_eq. intros q. unfold fld. rewrite !lookup_fmap. by destruct (procs k !! q). Qed.

(** The queue as the code finds it. *)
Lemma queue_chain k cq d r :
  ipc_inv (fld view k) cq -> in_table d = true -> procs k !! d = Some r ->
  chain (links (fld p_q_link k)) (p_caller_q r) (cq d).
Proof.
  intros Hi Hd Hr. rewrite <- qlink_view. exact (i_queue _ _ Hi d (view r) (fld_of _ _ _ _ Hr) Hd).
Qed.

Lemma queue_member k cq d x :
  ipc_inv (fld view k) cq -> in_table d = true -> x ∈ cq d -> in_table x = true.
Proof.
  intros Hi Hd (v & e & Hv & He & _)%(i_member _ _ Hi); [|done]. eapply i_blk; [done|done|]. left. by eexists.
Qed.

(** The sender's own fields. *)
Definition v_sending (e : Z) (msg : message) (v : ipcv) : ipcv :=
  IpcV (v_nr v) (v_ep v) (v_free v) (v_noep v) (v_deliver v) (v_callerq v) (v_qlink v) (Some e) (v_in v) (v_msg v) msg.

Lemma send_upd_split p d e msg l q v :
  send_upd p d e msg l q v = v_relink d l p q (if decide (q = p) then v_sending e msg v else v).
Proof. unfold send_upd, v_relink, v_sending. by destruct (decide (q = p)). Qed.

(** The fields of the sender are set and it is taken off the ready queues. *)
Lemma send_mark_run k p r e msg flags :
  kbase k -> in_table p = true -> procs k !! p = Some r -> has (p_rts_flags r) RTS_SLOT_FREE = false ->
  runs (((upd p (with_p_sendmsg msg);;
          (if has flags FROM_KERNEL then upd p (set_misc MF_SENDING_FROM_KERNEL) else mret tt));;
         RTS_SET p RTS_SENDING);;
        upd p (with_p_sendto_e e)) k
    (fun _ k' => kbase k' /\ fld view k' = <[p := v_sending e msg (view r)]> (fld view k)).
Proof.
  intros Hk Hp Hr Hf. do 3 apply runs_bind. kstep. set (r1 := with_p_sendmsg msg r).
  assert (kbase (put_proc p r1 k)) as Hk1 by (by eapply kbase_put).
  assert (procs (put_proc p r1 k) !! p = Some r1) as Hr1 by apply lookup_insert_eq.
  pose proof (fld_put view p r1 k) as Ev1. set (k1 := put_proc p r1 k) in *. clearbody k1.
  eapply (runs_mono _ _ (fun _ k2 => kbase k2 /\ fld view k2 = fld view k1)).
  { destruct (has flags FROM_KERNEL); [|by kstep]. eapply (quiet_upd k1 p r1); try done.
    unfold view. simpl. by rewrite has_lor, orb_false_r. }
  intros _ k2 [Hk2 Ev2]. destruct (kbase_slot _ _ Hk2 Hp) as [r2 Hr2].
  assert (view r2 = view r1) as Er2 by (by apply (view_at k2 p); [|rewrite Ev2; apply fld_of]).
  assert (has (p_rts_flags r2) RTS_SLOT_FREE = false) as Hf2 by (apply (f_equal v_free) in Er2; simpl in Er2; by rewrite Er2).
  destruct (kbase_set k2 p r2 RTS_SENDING Hk2 Hp Hr2 Hf2 eq_refl) as (k3 & E3 & Hk3 & Hle).
  eapply runs_of; [exact E3|].
  pose proof (view_sched _ _ (link_sched _ _ Hle)) as Ev3. rewrite fld_put in Ev3.
  destruct (kbase_slot _ _ Hk3 Hp) as [r3 Hr3].
  assert (view r3 = view (set_rts RTS_SENDING r2)) as Er3 by (apply (view_at k3 p); [done|by rewrite Ev3, lookup_insert_eq]).
  kstep. split; [by eapply kbase_put|]. rewrite fld_put, Ev3, Ev2, Ev1, !insert_insert_eq. f_equal.
  assert (has (p_rts_flags r3) RTS_SENDING = true) as Hs3.
  { apply (f_equal v_out) in Er3. simpl in Er3. rewrite has_lor, orb_true_r in Er3.
    by destruct (has (p_rts_flags r3) RTS_SENDING). }
  unfold v_sending. destruct (view_fields r3 (set_rts RTS_SENDING r2) Er3) as (A1 & A2 & A3 & A4 & A5 & A6 & A7 & A8 & A9 & A10).
  destruct (view_fields r2 r1 Er2) as (B1 & B2 & B3 & B4 & B5 & B6 & B7 & B8 & B9 & B10).
  unfold view. simpl in *. rewrite !has_lor, ?orb_false_r in *. rewrite Hs3. congruence.
Qed.

Lemma send_block_run k cq p r e m_ptr flags msg :
  kinv k cq -> ptr_ok m_ptr flags -> the_msg k p m_ptr = Some msg ->
  in_table p = true -> procs k !! p = Some r -> has (p_rts_flags r) RTS_SLOT_FREE = false ->
  iskerneln (v_nr (view r)) = false -> v_out (view r) = None -> v_in (view r) = None -> v_noep (view r) = false ->
  live_ep (fld view k) e -> target e <> p -> (exists l, chain (waits (fld view k)) (target e) l /\ p ∉ l) ->
  runs (send_block p e (target e) m_ptr flags) k (fun res k' => res = OK /\
    kinv k' (set_q (target e) (cq (target e) ++ [p]) cq) /\
    forall q, fld view k' !! q = send_upd p (target e) e msg (cq (target e)) q <$> fld view k !! q).
Proof.
  intros [Hk Hi] Hptr Hmsg Hp Hr Hf Hnr Ho Hin Hne Hl Hself Hpath.
  destruct (live_slot _ _ Hl) as (d & Hd & Hdt & _ & _).
  pose proof (queue_chain _ _ _ _ Hi Hdt Hd) as Hc.
  unfold send_block. eapply runs_step; [by apply get_msg_run|]. rewrite Hmsg. cbv iota.
  apply runs_assoc, runs_assoc, runs_assoc. eapply runs_seq; [by eapply (send_mark_run k p r)|].
  intros _ k1 [Hk1 Ev1].
  destruct (kbase_slot _ _ Hk1 Hp) as [r1 Hr1]. destruct (kbase_slot _ _ Hk1 Hdt) as [d1 Hd1].
  assert (view r1 = v_sending e msg (view r)) as Er1 by (apply (view_at k1 p); [done|by rewrite Ev1, lookup_insert_eq]).
  assert (view d1 = view d) as Ed1.
  { apply (view_at k1 (target e)); [done|]. rewrite Ev1, lookup_insert_ne by congruence. by apply fld_of. }
  kstep. kstep. { rewrite <- (i_link0 _ _ Hi p (view r) (fld_of _ _ _ _ Hr) Ho). apply (f_equal v_qlink) in Er1.
    simpl in Er1. by rewrite Er1, Z.eqb_refl. }
  kstep. kstep.
  assert (fld p_q_link k1 = fld p_q_link k) as El.
  { rewrite <- !qlink_view, Ev1, fmap_insert. apply insert_id. by rewrite lookup_fmap, (fld_of _ _ _ _ Hr). }
  assert (p_caller_q d1 = p_caller_q d) as Ecq by exact (f_equal v_callerq Ed1).
  rewrite <- El, <- Ecq in Hc. pose proof (pp_walk_spec _ _ (fun _ => false) _ Hc) as Ew. rewrite before_false in Ew.
  rewrite Ew. eapply runs_step; [reflexivity|].
  eapply runs_seq; [eapply wr_caller_q_run; [done|done|intros x Hx; by eapply queue_member]|].
  intros _ k2 [Hk2 Ev2]. kstep.
  assert (forall q, fld view k2 !! q = send_upd p (target e) e msg (cq (target e)) q <$> fld view k !! q) as Ev.
  { intros q. rewrite Ev2, Ev1. destruct (decide (p = q)) as [->|Hpq].
    - rewrite lookup_insert_eq, (fld_of _ _ _ _ Hr). simpl. by rewrite send_upd_split, decide_True.
    - rewrite lookup_insert_ne by done. destruct (fld view k !! q); [|done]. simpl.
      by rewrite send_upd_split, decide_False by congruence. }
  split_and!; [done| |done]. split; [done|].
  by eapply (inv_block_send (fld view k) (fld view k2) cq p (view r)); [|apply fld_of|..].
Qed.

(** ** Theorems *)

(** What [mini_send] by process [p] to [e] does, when its message is [mo] and
    [ep] its own endpoint. *)
Inductive sent (k : kstate) (cq : Z -> list Z) (p ep e : Z) (mo : option message) (nonblock : bool)
  : kres -> kstate -> (Z -> list Z) -> Prop :=
| SentNow msg vd k' :
    mo = Some msg -> fld view k !! target e = Some vd -> v_willreceive vd ep = true ->
    fld view k' = <[target e := v_wake (with_source ep msg) vd]> (fld view k) ->
    sent k cq p ep e mo nonblock OK k' cq
| SentQueued msg vd k' :
    mo = Some msg -> nonblock = false -> fld view k !! target e = Some vd -> v_willreceive vd ep = false ->
    (forall q, fld view k' !! q = send_upd p (target e) e msg (cq (target e)) q <$> fld view k !! q) ->
    sent k cq p ep e mo nonblock OK k' (set_q (target e) (cq (target e) ++ [p]) cq)
| SentDead vd : fld view k !! target e = Some vd -> v_noep vd = true -> sent k cq p ep e mo nonblock EDEADSRCDST k cq
| SentBusy vd :
    nonblock = true -> fld view k !! target e = Some vd -> v_willreceive vd ep = false ->
    sent k cq p ep e mo nonblock ENOTREADY k cq
| SentLocked l1 l2 : chain (waits (fld view k)) (target e) (l1 ++ p :: l2) -> sent k cq p ep e mo nonblock ELOCKED k cq
| SentFault : mo = None -> sent k cq p ep e mo nonblock EFAULT k cq.

(** A process that may call: it is alive, no kernel task, and not blocked. *)
Definition caller_ok (k : kstate) (p : Z) (r : proc) : Prop :=
  in_table p = true /\ procs k !! p = Some r /\ has (p_rts_flags r) RTS_SLOT_FREE = false /\
  iskerneln (v_nr (view r)) = false /\ v_out (view r) = None /\ v_in (view r) = None /\ v_noep (view r) = false.

Lemma mini_send_run k cq p r e m_ptr flags :
  kinv k cq -> caller_ok k p r -> ptr_ok m_ptr flags -> live_ep (fld view k) e -> target e <> p ->
  runs (mini_send p e m_ptr flags) k (fun res k' => exists cq',
    sent k cq p (p_endpoint r) e (the_msg k p m_ptr) (has flags NON_BLOCKING) res k' cq' /\ kinv k' cq').
Proof.
  intros Hki (Hp & Hr & Hf & Hnr & Ho & Hin & Hne) Hptr Hl Hself. pose proof Hki as [Hk Hi].
  destruct (live_slot _ _ Hl) as (d & Hd & Hdt & Ed & Hdf). pose proof (fld_of view _ _ _ Hd) as Hvd.
  unfold mini_send. fold (target e). kstep. rewrite isset_has by tauto.
  destruct (has (p_rts_flags d) RTS_NO_ENDPOINT) eqn:Enoep.
  { kstep. exists cq. split; [|done]. by eapply SentDead. }
  kstep. eapply runs_step; [by apply (willreceive_run k (target e) d)|].
  destruct (v_willreceive (view d) (p_endpoint r)) eqn:Ew.
  - destruct (the_msg k p m_ptr) as [msg|] eqn:Em.
    + eapply runs_mono; [by eapply (send_deliver_run k p r d e); [|eapply inv_recv_ok|..]|].
      intros res k' (Hk' & -> & Ev). exists cq. split; [by eapply SentNow|]. split; [done|]. rewrite Ev.
      apply inv_wake; [done|done|]. unfold v_willreceive in Ew. by destruct (v_out (view d)).
    + unfold send_deliver. kstep. kstep.
      { apply negb_true_iff. apply (inv_recv_ok _ _ Hi _ _ Hvd). unfold v_willreceive in Ew.
        destruct (v_out (view d)), (v_in (view d)); by try done; eauto. }
      eapply runs_step; [by apply get_msg_run|]. rewrite Em. cbv iota. kstep. exists cq. split; [by apply SentFault|done].
  - destruct (has flags NON_BLOCKING) eqn:Enb; [kstep; exists cq; split; [by eapply SentBusy|done]|].
    destruct (wait_path k cq e Hki (or_intror Hl)) as [l Hc].
    destruct (deadlock_run k cq SEND p r e l) as (x & Ex & Hx); try done; [by left|by right|by rewrite (start_live _ _ Hl)|].
    rewrite (start_live _ _ Hl) in Hc. eapply runs_step; [exact Ex|].
    destruct Hx as [Hn|l1 l2 -> Hn _|y v l' _ -> Hy Hpair].
    + simpl. destruct (the_msg k p m_ptr) as [msg|] eqn:Em.
      * eapply runs_mono; [by eapply (send_block_run k cq p r e); try done; eauto|].
        intros res k' (-> & Hki' & Ev). eexists. split; [by eapply SentQueued|done].
      * unfold send_block. eapply runs_step; [by apply get_msg_run|]. rewrite Em. cbv iota. kstep.
        exists cq. split; [by apply SentFault|done].
    + destruct (Z.eqb_spec (1 + Z.of_nat (length l1)) 0); [lia|]. cbn [negb]. kstep. exists cq. split; [by eapply SentLocked|done].
    + exfalso. pose proof (chain_cons_head _ _ _ _ Hc) as [-> _]. simplify_eq.
      destruct (live_self _ _ _ Hk Hp Hr Hf) as [Hself' Htp].
      destruct (chain_cons_inv _ _ _ Hc) as (z & l2 & [= <-] & Hz & Hc'); [by intros E0; rewrite E0, (i_null _ _ Hi) in Hvd|].
      apply chain_cons_head in Hc' as [-> Hz0]. unfold waits in Hz. rewrite Hvd in Hz. injection Hz as Hz.
      unfold pair_case in Hpair. rewrite Z.eqb_refl in Hpair. apply bool_decide_eq_true in Hpair.
      unfold awaited, v_blockedon in Hz. unfold v_willreceive in Ew. rewrite Hpair in Hz, Ew.
      destruct (v_in (view d)) as [g|] eqn:Eg; [|simpl in Hz; congruence].
      destruct (Z.eqb_spec g ANY) as [->|Hga]; [done|]. destruct (i_recv _ _ Hi _ _ _ Hvd Eg) as [_ [->|Hgl]]; [done|].
      destruct (Z.eqb_spec g NONE) as [->|Hgn]; [simpl in Hz; congruence|]. simpl in Hz, Ew.
      apply Z.eqb_neq in Ew. apply Ew. eapply live_inj; [done|done|]. by rewrite Htp.
Qed.
End Send.
