(* ===== verification/KAsyn.v ===== *)
(** Asynchronous messages do not panic: the scans of the tables keep the
    invariant, deliver at most one message to a receiver, and wake up others
    only by notifications. *)

From S2P Require Import Prelude Chain Timers KState KSched KBoot KWait KNotify KBase KSignal KIpc KSend.
Local Open Scope Z_scope.

Section Asyn.
Context `{Signals}.

(** ** What stays the same *)

Lemma keeps_isokendpt e : keeps (isokendpt e).
Proof. unfold isokendpt, isokendpt_f, endpoint_ok, isemptyp. keeps. Qed.

Lemma keeps_deliver p src msg : keeps (deliver p src msg).
Proof. unfold deliver. keeps. Qed.

Lemma keeps_status p x : keeps (IPC_STATUS_ADD p x).
Proof. unfold IPC_STATUS_ADD. keeps. Qed.

Hint Resolve keeps_isokendpt keeps_deliver keeps_status : keeps.

Lemma keeps_mini_notify p e : keeps (mini_notify p e).
Proof.
  unfold mini_notify, WILLRECEIVE, BuildNotifyMessage, get_monotonic, IPC_STATUS_ADD_CALL. keeps.
  by apply keeps_RTS_UNSET.
Qed.

Lemma keeps_A_INSRT ep t i x : keeps (A_INSRT ep t i x).
Proof. unfold A_INSRT. keeps. by apply keeps_modify. Qed.

Lemma keeps_A_RETR ep t i : keeps (A_RETR ep t i).
Proof. unfold A_RETR. keeps. Qed.

Hint Resolve keeps_mini_notify keeps_A_INSRT keeps_A_RETR : keeps.

Lemma keeps_try_one_loop n s d sep dep t i r dn nt : keeps (try_one_loop n s d sep dep t i r dn nt).
Proof. revert i r dn nt. induction n as [|n IH]; intros i r dn nt; cbn [try_one_loop]; keeps. Qed.

(** The right to notify is a matter of identities. *)
Lemma may_notify_ids k k' p : ids k' = ids k -> may_notify k p -> may_notify k' p.
Proof.
  intros Hids (Hp & r & s & Hr & Hf & Hs & Hsys). unfold ids in Hids. injection Hids as Hpid Hfl.
  split; [done|].
  assert (fld pid k' !! p = Some (pid r)) as (r' & Hr' & Er')%fld_Some by (rewrite Hpid; by apply fld_of).
  assert ((s_flags <$> privs k') !! p_priv r = Some (s_flags s)) as Hs' by (by rewrite Hfl, lookup_fmap, Hs).
  rewrite lookup_fmap in Hs'. destruct (privs k' !! p_priv r) as [s'|] eqn:Es'; [|done]. injection Hs' as Efl.
  exists r', s'. injection Er' as E1 E2 E3 E4. rewrite E1, E4, Efl. done.
Qed.

Lemma live_ids k k' p : ids k' = ids k -> live k p -> live k' p.
Proof.
  intros [= Hpid _] Hl. destruct (live_slot_of _ _ Hl) as [r Hr]. pose proof (live_flag _ _ _ Hl Hr) as Hf.
  assert (fld pid k' !! p = Some (pid r)) as (r' & Hr' & Er')%fld_Some by (rewrite Hpid; by apply fld_of).
  injection Er' as _ _ _ Ef. apply (live_of _ _ r'); [apply Hl|done|congruence].
Qed.

(** ** The tables of asynchronous messages *)

Lemma kbase_utab k ut : kbase k -> tables_ok ut -> kbase (with_utab ut k).
Proof.
  intros [[rq [[Hrs ? ? ?] (rc & sc & Hrc & Hsc) [? ?] Hpr Hid]] Hf Hp _] Ht. split; [|done..].
  exists rq. split; try done; [|by exists rc, sc]. split; try done. by apply (rqs_ext k).
Qed.

(** An entry that was read can be written back. *)
Lemma A_INSRT_run k ep t i x y :
  kbase k -> A_RETR ep t i k = Some (Some x, k) ->
  runs (A_INSRT ep t i y) k (fun b k' => b = true /\ kbase k' /\ procs k' = procs k).
Proof.
  intros Hk Hx. unfold A_RETR in Hx. revert Hx. mrun.
  destruct (utab k !! (ep, t + i * sizeof_asynmsg)) as [[z w]|] eqn:E; [|done]. intros _.
  assert (w = true) as -> by (by eapply (kb_tables _ Hk)).
  unfold A_INSRT. kstep. rewrite E. eapply runs_step; [reflexivity|]. kstep. split_and!; [done| |done].
  apply kbase_utab; [done|]. intros a z' b Ha. destruct (decide ((ep, t + i * sizeof_asynmsg) = a)) as [<-|].
  - rewrite lookup_insert_eq in Ha. congruence.
  - rewrite lookup_insert_ne in Ha by done. by eapply (kb_tables _ Hk).
Qed.

Lemma A_RETR_run k ep t i : A_RETR ep t i k = Some (fst <$> utab k !! (ep, t + i * sizeof_asynmsg), k).
Proof. done. Qed.

(** What a scan that tried to deliver to [d] did to the processes. *)
Definition scanned (m m' : gmap Z ipcv) (d : Z) (res : kres) : Prop :=
  (res = OK /\ exists v msg, m !! d = Some v /\ m' = <[d := v_with_deliver msg v]> m) \/ (res <> OK /\ m' = m).

Definition scan_res (out : scan) : kres := match out with ScanErr r => r | ScanEnd r _ _ => r end.

Lemma try_one_loop_run n k s d sep dep t i r dn nt :
  kbase k -> in_table d = true -> r <> OK ->
  runs (try_one_loop n s d sep dep t i r dn nt) k (fun out k' => kbase k' /\
    scanned (fld view k) (fld view k') d (scan_res out)).
Proof.
  intros Hk Hd. revert i r dn nt. induction n as [|n IH]; intros i r dn nt Hr; cbn [try_one_loop].
  { kstep. split; [done|by right]. }
  pose proof (A_RETR_run k sep t i) as Ea. eapply runs_step; [exact Ea|].
  destruct (utab k !! (sep, t + i * sizeof_asynmsg)) as [[x w]|]; simpl; [|kstep; split; [done|by right]].
  destruct (a_flags x =? 0); [by apply IH|].
  destruct (bad_amf (a_flags x) || negb (has (a_flags x) AMF_VALID)).
  { eapply runs_seq; [by eapply (A_INSRT_run k)|]. intros b k1 (-> & Hk1 & Ep1). kstep. split; [done|]. right.
    split; [done|]. unfold fld. by rewrite Ep1. }
  destruct (has (a_flags x) AMF_DONE); [by apply IH|].
  destruct (negb (a_dst x =? dep)); [by apply IH|].
  destruct (kbase_slot _ _ Hk Hd) as [r0 Hr0]. kstep.
  destruct (has (a_flags x) AMF_NOREPLY && has (p_misc_flags r0) MF_REPLY_PEND); [by apply IH|].
  assert (utab k = utab (put_proc d (set_misc MF_DELIVERMSG (with_p_delivermsg (with_source sep (a_msg x)) r0)) k)) as Hu
    by done.
  unfold deliver. kstep. set (r1 := set_misc _ _) in *.
  assert (kbase (put_proc d r1 k)) as Hk1 by (by eapply kbase_put).
  eapply runs_seq; [eapply (A_INSRT_run (put_proc d r1 k)); [done|]|].
  { rewrite A_RETR_run, <- Hu. unfold A_RETR in Ea. revert Ea. mrun. intros [= Ea]. by rewrite Ea. }
  intros b k2 (-> & Hk2 & Ep2). kstep. split; [done|]. left. split; [done|].
  exists (view r0), (with_source sep (a_msg x)). split; [by apply fld_of|]. unfold fld. rewrite Ep2. simpl.
  rewrite fmap_insert. f_equal. unfold view, v_with_deliver, r1. simpl. by rewrite has_lor, orb_true_r.
Qed.

Lemma may_send_to_run k p n :
  kbase k -> live k p -> live k (proc_addr n) ->
  exists b, may_send_to p n k = Some (b, k) /\
    (b = true -> forall r r' s, procs k !! p = Some r -> procs k !! proc_addr n = Some r' ->
      privs k !! p_priv r = Some s -> get_sys_bit (s_ipc_to s) (p_priv r') = true).
Proof.
  intros Hk Hp Hn. destruct (live_slot_of _ _ Hp) as [r Hr]. destruct (live_slot_of _ _ Hn) as [r' Hr'].
  destruct (kbase_priv _ _ _ Hk Hp Hr) as (_ & s & Hs & _). destruct (kbase_priv _ _ _ Hk Hn Hr') as (_ & s' & Hs' & Es').
  unfold may_send_to. rewrite (bind_run _ _ _ _ _ (rdp_run s_id _ _ _ _ Hr' Hs')).
  rewrite (bind_run _ _ _ _ _ (rdp_run s_ipc_to _ _ _ _ Hr Hs)). eexists. split; [done|].
  intros Hb r0 r0' s0 ? ? Hs0. simplify_eq. by rewrite <- Es'.
Qed.

(** A bit of a map of pending messages is cleared. *)
Lemma unset_asyn_run k d id :
  kbase k -> live k d -> priv_nr id ->
  runs (updp d (fun s => with_s_asyn_pending (unset_sys_bit (s_asyn_pending s) id) s)) k
    (fun _ k' => kbase k' /\ procs k' = procs k).
Proof.
  intros Hk Hd Hid. destruct (live_slot_of _ _ Hd) as [r Hr].
  destruct (kbase_priv _ _ _ Hk Hd Hr) as (_ & s & Hs & _).
  eapply quiet_updp; [done..|]. split; try done; simpl; auto.
  intros j Hj. rewrite get_unset_sys_bit by (unfold priv_nr, NR_SYS_PROCS in *; lia).
  intros [? _]%andb_true_iff. by left.
Qed.

Lemma set_asyn_run k p d id :
  kbase k -> may_notify k p -> live k d -> (exists r, procs k !! p = Some r /\ id = p_priv r) ->
  runs (set_asyn_pending d id) k (fun _ k' => kbase k' /\ procs k' = procs k).
Proof.
  intros Hk Hm Hd (r & Hr & ->). destruct (live_slot_of _ _ Hd) as [rd Hrd].
  destruct (kbase_priv _ _ _ Hk Hd Hrd) as (_ & s & Hs & _).
  destruct (kbase_priv _ _ _ Hk (notifier_live _ _ Hm) Hr) as (Hi & _).
  unfold set_asyn_pending. eapply quiet_updp; [done..|]. split; try done; simpl; auto.
  intros j Hj. rewrite get_set_sys_bit by (unfold priv_nr, NR_SYS_PROCS in *; lia).
  intros [?|Ej%Z.eqb_eq]%orb_true_iff; [by left|right; subst j]. by apply (notifier_source k p).
Qed.

(** The table of a process is dropped or remembered. *)
Lemma set_table_run k p t n :
  kbase k -> live k p ->
  runs (updp p (fun s => with_s_asynsize n (with_s_asyntab t s))) k (fun _ k' => kbase k' /\ procs k' = procs k).
Proof.
  intros Hk Hd. destruct (live_slot_of _ _ Hd) as [r Hr].
  destruct (kbase_priv _ _ _ Hk Hd Hr) as (_ & s & Hs & _).
  eapply quiet_updp; [done..|]. by split; auto.
Qed.

Lemma scanned_recv_ok m m' d res v :
  scanned m m' d res -> m !! d = Some v -> v_in v = None -> recv_ok m -> recv_ok m'.
Proof.
  intros [(_ & v' & msg & Hv' & ->)|[_ ->]] Hv Hin Hrok; [|done]. simplify_eq. intros q w Hw.
  destruct (decide (d = q)) as [->|]; [rewrite lookup_insert_eq in Hw; simplify_eq/=; rewrite Hin; by intros []|].
  rewrite lookup_insert_ne in Hw by done. by apply (Hrok q).
Qed.

(** The notification of the owner of a table. *)
Lemma notify_owner_run (b : bool) k e :
  kbase k -> recv_ok (fld view k) ->
  runs (if b then mini_notify (proc_addr ASYNCM) e;; mret tt else mret tt) k
    (fun _ k' => kbase k' /\ wakes (fld view k) (fld view k') /\ ids k' = ids k).
Proof.
  intros Hk Hrok. destruct b; [|by kstep].
  eapply runs_seq; [apply runs_keeps; [apply keeps_mini_notify|]; by apply mini_notify_run; [|apply asyncm_notifies|]|].
  intros res k1 [(Hk1 & Hw & _) Hi1]. by kstep.
Qed.

Lemma try_one_run k s d rs rd0 :
  kbase k -> recv_ok (fld view k) ->
  in_table s = true -> procs k !! s = Some rs -> has (p_rts_flags rs) RTS_SLOT_FREE = false ->
  live k d -> procs k !! d = Some rd0 -> v_in (view rd0) = None ->
  runs (try_one s d) k (fun res k' => kbase k' /\
    exists m1, scanned (fld view k) m1 d res /\ wakes m1 (fld view k')).
Proof.
  intros Hk Hrok Hs Hrs Hfs Hld Hrd Hin. pose proof (proj1 Hld) as Hd. pose proof (live_of _ _ _ Hs Hrs Hfs) as Hls.
  destruct (kbase_priv _ _ _ Hk Hls Hrs) as (Hpn & sp & Hsp & Eid).
  unfold try_one. kstep. destruct (has (s_flags sp) SYS_PROC) eqn:Esys; cbn [negb];
    [|kstep; split; [done|]; exists (fld view k); split; [by right|done]].
  kstep. kstep. kstep. rewrite Eid.
  eapply runs_seq; [apply runs_keeps; [by apply keeps_updp|by apply unset_asyn_run]|]. intros [] k1 [[Hk1 Ep1] Hi1].
  assert (fld view k1 = fld view k) as Ev1 by (unfold fld; by rewrite Ep1).
  destruct (s_asynsize sp =? 0); [kstep; split; [done|]; exists (fld view k); split; [by right|by rewrite Ev1]|].
  rewrite <- Ep1 in Hrs, Hrd. kstep.
  destruct (pi_nr _ _ (kb_priv _ Hk1) d (pid rd0) (fld_of _ _ _ _ Hrd) Hd) as [Edn _]. simpl in Edn.
  destruct (may_send_to_run k1 s (p_nr rd0) Hk1) as (b & Eb & _); [by eauto|rewrite <- Edn; by eauto|].
  eapply runs_step; [exact Eb|]. destruct b; cbn [negb];
    [|kstep; split; [done|]; exists (fld view k); split; [by right|by rewrite Ev1]].
  kstep. kstep.
  eapply runs_seq; [apply runs_keeps; [apply keeps_try_one_loop|by apply (try_one_loop_run _ k1)]|].
  intros out k2 [[Hk2 Hsc] Hi2]. rewrite Ev1 in Hsc.
  assert (recv_ok (fld view k2)) as Hrok2.
  { eapply scanned_recv_ok; [exact Hsc| |exact Hin|done]. rewrite <- Ev1. by apply fld_of. }
  destruct out as [r|r dn nt]; simpl in Hsc; [kstep; split; [done|]; by exists (fld view k2)|].
  eapply runs_seq; [by apply notify_owner_run|]. intros [] k3 (Hk3 & Hw3 & Hi3).
  assert (may_notify k3 s) as Hm3.
  { apply (may_notify_ids k); [congruence|]. rewrite Ep1 in Hrs. split; [done|]. by exists rs, sp. }
  assert (exists r3, procs k3 !! s = Some r3 /\ p_priv rs = p_priv r3) as Hr3.
  { assert (fld pid k3 !! s = Some (pid rs)) as (r3 & Hr3 & Er3)%fld_Some.
    { assert (fld pid k3 = fld pid k1) as -> by (apply (f_equal fst) in Hi3, Hi2; simpl in *; congruence). by apply fld_of. }
    exists r3. split; [done|]. by injection Er3. }
  eapply (runs_seq _ _ _ _ (fun _ k4 => kbase k4 /\ procs k4 = procs k3)).
  { destruct dn; [apply set_table_run; [done|by apply notifier_live]|].
    eapply set_asyn_run; [done|done| |done]. apply (live_ids k); [congruence|done]. }
  intros [] k4 [Hk4 Ep4]. kstep. split; [done|]. exists (fld view k2). split; [done|].
  assert (fld view k4 = fld view k3) as -> by (unfold fld; by rewrite Ep4). done.
Qed.

(** Process [d] got a message, or not; others may have been woken up. *)
Definition got (m m' : gmap Z ipcv) (d : Z) (ok : bool) : Prop :=
  if ok then exists ma v msg, wakes m ma /\ ma !! d = Some v /\ wakes (<[d := v_with_deliver msg v]> ma) m'
  else wakes m m'.

Lemma scanned_got m m1 m' d res : scanned m m1 d res -> wakes m1 m' -> got m m' d (is_OK res).
Proof.
  intros [(-> & v & msg & Hv & ->)|[Hr ->]] Hw.
  - by exists m, v, msg.
  - by destruct res.
Qed.

Lemma wakes_got m m1 m' d ok : wakes m m1 -> got m1 m' d ok -> got m m' d ok.
Proof.
  intros Hw. destruct ok; simpl; [|by transitivity m1].
  intros (ma & v & msg & Hw1 & Hv & Hw2). exists ma, v, msg. split_and!; [by transitivity m1|done|done].
Qed.

Lemma got_inv m m' cq d ok v : got m m' d ok -> m !! d = Some v -> v_in v = None -> ipc_inv m cq -> ipc_inv m' cq.
Proof.
  intros Hg Hv Hin Hi. destruct ok; [|by eapply wakes_inv].
  destruct Hg as (ma & v' & msg & Hw1 & Hv' & Hw2). eapply wakes_inv; [done|].
  rewrite (wakes_stable _ _ _ _ Hw1 Hv (or_introl Hin)) in Hv'. simplify_eq.
  apply inv_deliver; [by eapply wakes_inv|by eapply wakes_stable; [..|left]|done].
Qed.

(** A process whose pending bit is set is alive. *)
Lemma asyn_source k d rd0 sd i :
  kbase k -> live k d -> procs k !! d = Some rd0 -> privs k !! p_priv rd0 = Some sd -> priv_nr i ->
  get_sys_bit (s_asyn_pending sd) i = true ->
  exists s r, privs k !! i = Some s /\ in_table (proc_addr (s_proc_nr s)) = true /\
    procs k !! proc_addr (s_proc_nr s) = Some r /\ has (p_rts_flags r) RTS_SLOT_FREE = false.
Proof.
  intros Hk Hd Hrd Hsd Hi Hb.
  destruct (pi_asyn _ _ (kb_priv _ Hk) _ _ _ (live_owned _ _ _ Hd Hrd) Hsd Hi Hb) as (s & dd & Hs & _ & Hok & Hdd & _ & _ & Hf).
  apply fld_Some in Hdd as (r & Hr & <-). exists s, r. split_and!; try done.
  unfold isokprocn in Hok. unfold in_table, proc_addr, NR_TASKS, NR_PROCS in *.
  rewrite andb_true_iff, Z.leb_le, Z.ltb_lt in *. lia.
Qed.

Lemma try_async_loop_run xs k d rd0 :
  kbase k -> recv_ok (fld view k) -> (forall i, i ∈ xs -> priv_nr i) ->
  live k d -> procs k !! d = Some rd0 -> v_in (view rd0) = None -> v_deliver (view rd0) = false ->
  runs (try_async_loop xs d) k (fun res k' => kbase k' /\ got (fld view k) (fld view k') d (is_OK res)).
Proof.
  intros Hk Hrok His Hd Hrd Hin Hdel. revert k rd0 Hk Hrok Hd Hrd Hin Hdel.
  induction xs as [|i xs IH]; intros k rd0 Hk Hrok Hd Hrd Hin Hdel; cbn [try_async_loop]; [kstep; split; [done|apply rtc_refl]|].
  assert (forall j, j ∈ xs -> priv_nr j) as His' by (intros; apply His; by right).
  assert (priv_nr i) as Hi by (apply His; left).
  destruct (pi_slots _ _ (kb_priv _ Hk) i Hi) as (s & Hs & Es). kstep.
  destruct (s_proc_nr s =? NONE); [by eapply IH|].
  destruct (kbase_priv _ _ _ Hk Hd Hrd) as (_ & sd & Hsd & _). kstep. kstep. rewrite Es.
  destruct (get_sys_bit (s_asyn_pending sd) i) eqn:Eb; cbn [negb]; [|by eapply IH].
  destruct (asyn_source _ _ _ _ _ Hk Hd Hrd Hsd Hi Eb) as (s' & r & Hs' & Hst & Hr & Hf). simplify_eq.
  kstep. kstep; [by apply negb_true_iff|].
  eapply runs_seq; [by eapply try_one_run|]. intros res k1 (Hk1 & m1 & Hsc & Hw).
  pose proof (scanned_got _ _ _ _ _ Hsc Hw) as Hg. destruct (is_OK res) eqn:Eres.
  { kstep. by split. }
  simpl in Hg. pose proof (wakes_stable _ _ _ _ Hg (fld_of view _ _ _ Hrd) (or_introl Hin)) as Hv1.
  apply fld_Some in Hv1 as (rd1 & Hrd1 & Erd1).
  eapply runs_mono; [eapply (IH His' k1 rd1); try done; [by eapply wakes_recv_ok| |by rewrite Erd1|by rewrite Erd1]|].
  { split; [apply Hd|]. exists (view rd1). split; [by apply fld_of|]. rewrite Erd1. by eapply live_flag. }
  intros res' k2 [Hk2 Hg2]. split; [done|]. by eapply wakes_got.
Qed.

(** ** [mini_senda] *)

Lemma A_INSRT_any k ep t i y : kbase k -> runs (A_INSRT ep t i y) k (fun _ k' => kbase k' /\ procs k' = procs k).
Proof.
  intros Hk. unfold A_INSRT. kstep.
  destruct (utab k !! (ep, t + i * sizeof_asynmsg)) as [[z [|]]|] eqn:E; [|by kstep|by kstep].
  eapply runs_step; [reflexivity|]. kstep. split; [|done]. apply kbase_utab; [done|].
  intros a z' b Ha. destruct (decide ((ep, t + i * sizeof_asynmsg) = a)) as [<-|].
  - rewrite lookup_insert_eq in Ha. congruence.
  - rewrite lookup_insert_ne in Ha by done. by eapply (kb_tables _ Hk).
Qed.

Lemma senda_check_run k p e :
  kbase k -> live k p ->
  exists r, senda_check p e k = Some (r, k) /\ (is_OK r.1 = true -> r.2 = target e /\ live_ep (fld view k) e).
Proof.
  intros Hk Hp. unfold senda_check.
  destruct (isokendpt_run k e Hk) as [[Hl E]|[Hl E]]; rewrite (bind_run _ _ _ _ _ E); [|by eexists].
  destruct (iskerneln _); [by eexists|].
  destruct (live_slot _ _ Hl) as (d & Hd & Hdt & _ & _).
  destruct (may_send_to_run k p (_ENDPOINT_P e) Hk Hp (live_target _ _ Hl)) as (b & Eb & _). rewrite (bind_run _ _ _ _ _ Eb).
  destruct b; cbn [negb]; [|by eexists]. rewrite (bind_run _ _ _ _ _ (rd_run p_rts_flags _ _ _ Hd)).
  destruct (RTS_ISSET _ _); by eexists.
Qed.

Lemma keeps_senda_entry p cep cid t i x st : keeps (senda_entry p cep cid t i x st).
Proof.
  unfold senda_entry, senda_check, may_send_to, WILLRECEIVE, IPC_STATUS_ADD_CALL, set_asyn_pending.
  destruct st. keeps. by apply keeps_RTS_UNSET.
Qed.

(** A message of the table for a receiver that waits for it. *)
Lemma senda_deliver_run k e d src msg x :
  kbase k -> live_ep (fld view k) e -> procs k !! target e = Some d -> v_willreceive (view d) src = true ->
  runs ((deliver (target e) src msg;; IPC_STATUS_ADD (target e) x);; RTS_UNSET (target e) RTS_RECEIVING) k
    (fun _ k' => kbase k' /\ wakes (fld view k) (fld view k')).
Proof.
  intros Hk Hl Hd Hw. destruct (live_slot _ _ Hl) as (d' & Hd' & Hdt & _ & Hdf). assert (d' = d) as -> by congruence.
  unfold runs. rewrite bind_assoc. change (runs (deliver (target e) src msg;; (IPC_STATUS_ADD (target e) x;;
    RTS_UNSET (target e) RTS_RECEIVING)) k (fun _ k' => kbase k' /\ wakes (fld view k) (fld view k'))).
  eapply runs_seq; [by eapply deliver_run|]. intros [] k1 [Hk1 Ev1].
  eapply runs_mono; [eapply (wake_receiver k1 (target e) d); [done|done| |done]; by rewrite Ev1, lookup_insert_eq|].
  intros [] k2 [Hk2 Ev2]. split; [done|]. rewrite Ev2, Ev1, insert_insert_eq. apply rtc_once.
  unfold v_willreceive in Hw. destruct (v_out (view d)) eqn:Eo; [done|]. destruct (v_in (view d)) eqn:Ei; [|done].
  apply Wakes1; [by apply fld_of|done|by eexists].
Qed.

Lemma senda_entry_run k p r t i x st :
  kbase k -> may_notify k p -> procs k !! p = Some r -> recv_ok (fld view k) ->
  runs (senda_entry p (p_endpoint r) (p_priv r) t i x st) k (fun _ k' => kbase k' /\ wakes (fld view k) (fld view k')).
Proof.
  intros Hk Hm Hr Hrok. unfold senda_entry. destruct st as [dn nt].
  destruct (a_flags x =? 0); [by kstep|]. destruct (bad_amf _ || _); [by kstep|].
  destruct (has (a_flags x) AMF_DONE); [by kstep|].
  destruct (senda_check_run k p (a_dst x) Hk (notifier_live _ _ Hm)) as ([res dst] & Ec & Hok). eapply runs_step; [exact Ec|].
  cbv iota. simpl in Hok. destruct (is_OK res) eqn:Eres.
  - destruct (Hok eq_refl) as [-> Hl]. clear Hok. destruct (live_slot _ _ Hl) as (d & Hd & Hdt & _ & Hdf).
    eapply runs_step; [by apply willreceive_run|]. kstep.
    destruct (v_willreceive (view d) (p_endpoint r)) eqn:Ew; cbn [andb];
      [destruct (negb (has (a_flags x) AMF_NOREPLY) || _)|].
    + apply runs_assoc, runs_assoc. eapply runs_seq; [by eapply senda_deliver_run|]. intros [] k1 [Hk1 Hw1].
      eapply runs_seq; [by apply A_INSRT_any|]. intros b k2 [Hk2 Ep2]. kstep. split; [done|].
      assert (fld view k2 = fld view k1) as -> by (unfold fld; by rewrite Ep2). done.
    + eapply runs_seq; [by eapply (set_asyn_run k p); eauto|]. intros [] k1 [Hk1 Ep1]. kstep. split; [done|].
      unfold fld. by rewrite Ep1.
    + eapply runs_seq; [by eapply (set_asyn_run k p); eauto|]. intros [] k1 [Hk1 Ep1]. kstep. split; [done|].
      unfold fld. by rewrite Ep1.
  - eapply runs_seq; [by apply A_INSRT_any|]. intros b k2 [Hk2 Ep2]. kstep. split; [done|]. unfold fld. by rewrite Ep2.
Qed.

Lemma ids_slot k k' p r : ids k' = ids k -> procs k !! p = Some r -> exists r', procs k' !! p = Some r' /\ pid r' = pid r.
Proof.
  intros [= Hpid _] Hr. assert (fld pid k' !! p = Some (pid r)) as (r' & Hr' & E)%fld_Some
    by (rewrite Hpid; by apply fld_of). by exists r'.
Qed.

Lemma senda_loop_run n k p r t i st :
  kbase k -> may_notify k p -> procs k !! p = Some r -> recv_ok (fld view k) ->
  runs (senda_loop n p (p_endpoint r) (p_priv r) t i st) k
    (fun _ k' => kbase k' /\ wakes (fld view k) (fld view k') /\ ids k' = ids k).
Proof.
  revert k r i st. induction n as [|n IH]; intros k r i st Hk Hm Hr Hrok; cbn [senda_loop]; [by kstep|].
  eapply runs_step; [apply A_RETR_run|].
  eapply (runs_seq _ _ _ _ (fun _ k' => kbase k' /\ wakes (fld view k) (fld view k') /\ ids k' = ids k)).
  { destruct (fst <$> _) as [x|]; [|by kstep].
    eapply runs_mono; [apply runs_keeps; [apply keeps_senda_entry|by apply senda_entry_run]|]. by intros st' k1 [[? ?] ?]. }
  intros st' k1 (Hk1 & Hw1 & Hi1). destruct (ids_slot _ _ _ _ Hi1 Hr) as (r1 & Hr1 & Er1).
  assert (p_endpoint r1 = p_endpoint r /\ p_priv r1 = p_priv r) as [Ee Ep] by (by injection Er1).
  rewrite <- Ee, <- Ep. eapply runs_mono; [apply (IH k1 r1); [done|by eapply may_notify_ids|done|by eapply wakes_recv_ok]|].
  intros st2 k2 (Hk2 & Hw2 & Hi2). split_and!; [done|by etransitivity|congruence].
Qed.

Lemma mini_senda_run k p r t n :
  kbase k -> recv_ok (fld view k) -> in_table p = true -> procs k !! p = Some r ->
  has (p_rts_flags r) RTS_SLOT_FREE = false ->
  runs (mini_senda p t n) k (fun _ k' => kbase k' /\ wakes (fld view k) (fld view k')).
Proof.
  intros Hk Hrok Hp Hr Hf. pose proof (live_of _ _ _ Hp Hr Hf) as Hlp.
  destruct (kbase_priv _ _ _ Hk Hlp Hr) as (Hpn & sp & Hsp & Eid).
  unfold mini_senda. kstep. destruct (has (s_flags sp) SYS_PROC) eqn:Esys; cbn [negb]; [|by kstep].
  unfold try_deliver_senda.
  eapply runs_seq; [apply runs_keeps; [by apply keeps_updp|by apply set_table_run]|]. intros [] k1 [[Hk1 Ep1] Hi1].
  assert (fld view k1 = fld view k) as Ev1 by (unfold fld; by rewrite Ep1). rewrite <- Ev1 in Hrok |- *.
  destruct (n =? 0); [by kstep|]. destruct (ASYN_MAX <? n); [by kstep|].
  assert (may_notify k1 p) as Hm by (apply (may_notify_ids k); [done|]; split; [done|]; by exists r, sp).
  rewrite <- Ep1 in Hr. kstep. destruct (kbase_priv _ _ _ Hk1 (live_procs _ _ _ Ep1 Hlp) Hr) as (_ & s1 & Hs1 & Es1). kstep. rewrite Es1.
  eapply runs_seq; [by apply (senda_loop_run _ k1 p r)|]. intros [dn nt] k2 (Hk2 & Hw2 & Hi2).
  eapply runs_seq; [apply notify_owner_run; [done|by eapply wakes_recv_ok]|]. intros [] k3 (Hk3 & Hw3 & Hi3).
  eapply (runs_seq _ _ _ _ (fun _ k4 => kbase k4 /\ procs k4 = procs k3)).
  { destruct dn; [by kstep|]. apply set_table_run; [done|]. apply (live_ids k); [congruence|done]. }
  intros [] k4 [Hk4 Ep4]. kstep. split; [done|].
  assert (fld view k4 = fld view k3) as -> by (unfold fld; by rewrite Ep4). by etransitivity.
Qed.
End Asyn.
