(* ===== verification/KRecv.v ===== *)
(** [mini_receive]: a receiver gets a pending notification, else a pending
    asynchronous message, else the message of the first sender in its queue
    that it accepts, else it is blocked. *)

From S2P Require Import Prelude Chain Timers KState KSched KBoot KWait KNotify KBase KSignal KIpc KSend KAsyn.
Local Open Scope Z_scope.

Section Recv.
Context `{SignalLaws}.

(** ** Pending bits *)

Lemma find_bit_run fuel m i j k :
  i <= j < i + Z.of_nat fuel -> get_sys_bit m j = true ->
  exists x, find_bit fuel m i k = Some (x, k) /\ i <= x <= j /\ get_sys_bit m x = true.
Proof.
  revert i. induction fuel as [|fuel IH]; intros i Hj Hb; [lia|]. cbn [find_bit].
  destruct (get_sys_bit m i) eqn:E; [exists i; split_and!; [done|lia|lia|done]|].
  destruct (decide (i = j)) as [->|]; [congruence|].
  destruct (IH (i + 1)) as (x & Ex & Hx & Hbx); [lia|done|]. exists x. split_and!; [done|lia|lia|done].
Qed.

Lemma word_bit m i : map_ok m -> i = 0 \/ i = 32 -> get_sys_bits m i <> 0 ->
  exists j, i <= j < i + 32 /\ get_sys_bit m j = true.
Proof.
  intros [H1 H2] Hi Hne. unfold get_sys_bits, map_chunk, BITCHUNK_BITS in Hne.
  assert (exists b, 0 <= b < 32 /\ Z.testbit (if i / 32 =? 0 then m.1 else m.2) b = true) as (b & Hb & Ht).
  { apply word_has_bit; [|done]. by destruct (i / 32 =? 0). }
  exists (i + b). split; [lia|]. rewrite get_sys_bit_spec by lia.
  destruct Hi as [-> | ->].
  - rewrite Z.add_0_l, Z.mod_small by lia. destruct (Z.ltb_spec b 32); [done|lia].
  - replace ((32 + b) mod 32) with b; [destruct (Z.ltb_spec (32 + b) 32); [lia|done]|].
    rewrite Z.add_comm. rewrite <- (Z.mod_small b 32) at 1 by lia. symmetry.
    rewrite <- Zplus_mod_idemp_r, Z_mod_same_full, Z.add_0_r. by rewrite Z.mod_small by lia.
Qed.

Lemma words_zero m i : get_sys_bits m 0 = 0 -> get_sys_bits m 32 = 0 -> priv_nr i -> get_sys_bit m i = false.
Proof.
  intros E0 E1 Hi. unfold priv_nr, NR_SYS_PROCS in Hi. rewrite get_sys_bit_spec by lia.
  unfold get_sys_bits, map_chunk in E0, E1. change (0 / BITCHUNK_BITS =? 0) with true in E0.
  change (32 / BITCHUNK_BITS =? 0) with false in E1. cbv iota in E0, E1.
  destruct (i <? 32); rewrite ?E0, ?E1; by rewrite Z.testbit_0_l.
Qed.

(** The source of a receive: any process, or the one in slot [src_p]. *)
Inductive source_ok (k : kstate) : Z -> Z -> Prop :=
| SourceAny : source_ok k ANY ANY
| SourceSlot e : live_ep (fld view k) e -> source_ok k e (_ENDPOINT_P e).

Lemma source_slot k e n :
  source_ok k e n -> (e = ANY /\ n = ANY) \/
  (e <> ANY /\ n <> ANY /\ proc_addr n = target e /\ live_ep (fld view k) e).
Proof.
  intros [|e' Hl]; [by left|]. right. destruct (live_not_special _ _ Hl). split_and!; try done.
  intros E. destruct Hl as (v & _ & Hok & _). by rewrite E in Hok.
Qed.

Lemma has_pending_run k m src_e src_p :
  kbase k -> map_ok m -> source_ok k src_e src_p ->
  exists id, has_pending m src_p k = Some (id, k) /\
    ((id = NULL_PRIV_ID /\ forall i, priv_nr i -> (src_e <> ANY -> exists r, procs k !! target src_e = Some r /\ p_priv r = i) ->
        get_sys_bit m i = false) \/
     (priv_nr id /\ get_sys_bit m id = true /\
      (src_e <> ANY -> exists r, procs k !! target src_e = Some r /\ p_priv r = id))).
Proof.
  intros Hk Hm Hsrc. unfold has_pending. apply source_slot in Hsrc as [[-> ->]|(He & Hn & Et & Hl)].
  - rewrite Z.eqb_refl. cbn [negb]. change BITCHUNK_BITS with 32.
    assert (forall i, i = 0 \/ i = 32 -> get_sys_bits m i <> 0 -> exists x, find_bit 64 m i k = Some (x, k) /\
      priv_nr x /\ get_sys_bit m x = true) as Hf.
    { intros i Hi Hne. destruct (word_bit m i Hm Hi Hne) as (j & Hj & Hb).
      destruct (find_bit_run 64 m i j k) as (x & Ex & Hx & Hbx); [lia|done|]. exists x. split_and!; [done| |done].
      unfold priv_nr, NR_SYS_PROCS. lia. }
    assert (forall x, priv_nr x -> (if x <? NR_SYS_PROCS then x else NULL_PRIV_ID) = x) as Hlt.
    { intros x [? Hx]. destruct (Z.ltb_spec x NR_SYS_PROCS); [done|lia]. }
    destruct (Z.eqb_spec (get_sys_bits m 0) 0) as [E0|E0]; cbn [negb];
      [destruct (Z.eqb_spec (get_sys_bits m 32) 0) as [E1|E1]; cbn [negb]|].
    + eexists. split; [done|]. left. split; [done|]. intros i Hi _. by apply words_zero.
    + destruct (Hf 32 (or_intror eq_refl) E1) as (x & Ex & Hx & Hb). rewrite (bind_run _ _ _ _ _ Ex).
      rewrite (Hlt x Hx). eexists. split; [done|]. by right.
    + destruct (Hf 0 (or_introl eq_refl) E0) as (x & Ex & Hx & Hb). rewrite (bind_run _ _ _ _ _ Ex).
      rewrite (Hlt x Hx). eexists. split; [done|]. by right.
  - destruct (Z.eqb_spec src_p ANY); [done|]. cbn [negb]. rewrite Et.
    destruct (live_slot _ _ Hl) as (r & Hr & _). destruct (kbase_priv _ _ _ Hk (live_target _ _ Hl) Hr) as (Hi & s & Hs & Es).
    rewrite (bind_run _ _ _ _ _ (rdp_run s_id _ _ _ _ Hr Hs)). eexists. split; [done|]. rewrite Es.
    destruct (get_sys_bit m (p_priv r)) eqn:Eb; [right; split_and!; try done; intros _; by exists r|].
    left. split; [done|]. intros i Hi' (r' & Hr' & <-)%(fun H => H He). by simplify_eq.
Qed.

(** ** Notifications *)

(** A notification from [src] is pending for [p], which receives from [src_e]. *)
Definition notifies (k : kstate) (p src_e src : Z) : Prop :=
  exists d s i si ds, fld pid k !! p = Some d /\ privs k !! d_priv d = Some s /\ priv_nr i /\
    get_sys_bit (s_notify_pending s) i = true /\ privs k !! i = Some si /\
    fld pid k !! proc_addr (s_proc_nr si) = Some ds /\ d_ep ds = src /\ (src_e = ANY \/ src = src_e).

(** The process that a pending notification comes from. *)
Lemma notify_source k d rd0 sd id src_e :
  kbase k -> live k d -> procs k !! d = Some rd0 -> privs k !! p_priv rd0 = Some sd ->
  priv_nr id -> get_sys_bit (s_notify_pending sd) id = true ->
  (src_e <> ANY -> live_ep (fld view k) src_e /\ exists r, procs k !! target src_e = Some r /\ p_priv r = id) ->
  exists s r, privs k !! id = Some s /\ s_proc_nr s <> NONE /\ procs k !! proc_addr (s_proc_nr s) = Some r /\
    (src_e = ANY \/ p_endpoint r = src_e).
Proof.
  intros Hk Hd Hrd Hsd Hi Hb Hsrc. destruct (pi_notify _ _ (kb_priv _ Hk) _ _ _ (live_owned _ _ _ Hd Hrd) Hsd Hi Hb) as (s & dd & Hs & Hsys & Hok & Hdd & Ep & En & Hf).
  apply fld_Some in Hdd as (r & Hr & <-). exists s, r. split_and!; try done.
  - intros E. by rewrite E in Hok.
  - destruct (decide (src_e = ANY)) as [|Hne]; [by left|right]. destruct (Hsrc Hne) as (Hl & r' & Hr' & Ep').
    destruct (live_slot _ _ Hl) as (r2 & Hr2 & Ht & E2 & Hf2). assert (r' = r2) as -> by congruence.
    destruct (pi_nr _ _ (kb_priv _ Hk) _ (pid r2) (fld_of _ _ _ _ Hr2) Ht) as [Ea _]. simpl in *.
    assert (s_proc_nr s = p_nr r2) as En2
      by (apply (pi_own _ _ (kb_priv _ Hk) _ (pid r2) s (fld_of _ _ _ _ Hr2)); simpl; congruence).
    rewrite En2, <- Ea in Hr. congruence.
Qed.

Lemma unset_notify_run k d id :
  kbase k -> live k d -> priv_nr id ->
  runs (unset_notify_pending d id) k (fun _ k' => kbase k' /\ procs k' = procs k).
Proof.
  intros Hk Hd Hid. destruct (live_slot_of _ _ Hd) as [r Hr].
  destruct (kbase_priv _ _ _ Hk Hd Hr) as (_ & s & Hs & _).
  unfold unset_notify_pending. eapply quiet_updp; [done..|]. split; try done; simpl; auto.
  intros j Hj. rewrite get_unset_sys_bit by (unfold priv_nr, NR_SYS_PROCS in *; lia).
  intros [? _]%andb_true_iff. by left.
Qed.

Lemma nr_table n : isokprocn n = true -> in_table (proc_addr n) = true.
Proof. unfold isokprocn, in_table, proc_addr. lia. Qed.

Lemma no_notifies k p r s src_e src_p src :
  kbase k -> live k p -> procs k !! p = Some r -> privs k !! p_priv r = Some s -> source_ok k src_e src_p ->
  (forall i, priv_nr i -> (src_e <> ANY -> exists r, procs k !! target src_e = Some r /\ p_priv r = i) ->
    get_sys_bit (s_notify_pending s) i = false) ->
  ~ notifies k p src_e src.
Proof.
  intros Hk Hlp Hr Hs Hsrc Hno (d & s' & i & si & ds & Hd & Hs' & Hi & Hb & Hsi & Hds & Eds & Ho).
  rewrite (fld_of _ _ _ _ Hr) in Hd. injection Hd as <-. simpl in Hs'. assert (s' = s) as -> by congruence.
  rewrite Hno in Hb; [done|done|]. intros Hany. destruct Ho as [? | ->]; [done|].
  destruct (pi_notify _ _ (kb_priv _ Hk) _ _ _ (live_owned _ _ _ Hlp Hr) Hs Hi Hb) as (s2 & d2 & Hs2 & _ & Hok & Hd2 & Ep & En & _).
  assert (s2 = si) as -> by congruence. assert (d2 = ds) as -> by congruence.
  destruct (pi_nr _ _ (kb_priv _ Hk) _ _ Hds (nr_table _ Hok)) as [Ea Eb].
  apply fld_Some in Hds as (rs & Hrs & <-). exists rs. split; [|done]. simpl in *.
  unfold target. by rewrite <- Eds, Eb, <- Ea.
Qed.

Lemma receive_notify_run k p r src_e src_p :
  kbase k -> live k p -> procs k !! p = Some r -> v_deliver (view r) = false -> source_ok k src_e src_p ->
  runs (receive_notify p src_e src_p) k (fun b k' => kbase k' /\
    if b then exists src msg, notifies k p src_e src /\
      fld view k' = <[p := v_with_deliver (with_source src msg) (view r)]> (fld view k)
    else k' = k /\ forall src, ~ notifies k p src_e src).
Proof.
  intros Hk Hlp Hr Hdel Hsrc. pose proof (proj1 Hlp) as Hp. destruct (kbase_priv _ _ _ Hk Hlp Hr) as (Hpn & s & Hs & _).
  unfold receive_notify, has_pending_notify. kstep.
  destruct (has_pending_run k (s_notify_pending s) src_e src_p) as (id & Eid & Hid); [done| |done|].
  { by apply (pi_words _ _ (kb_priv _ Hk) (p_priv r) s). }
  eapply runs_of; [exact Eid|]. destruct (Z.eqb_spec id NULL_PRIV_ID) as [->|Hne].
  { kstep. split_and!; [done..|]. intros src. destruct Hid as [[_ Hno] | (Hn0 & _)]; [|by destruct Hn0].
    by eapply (no_notifies k p r s). }
  destruct Hid as [[? _] | (Hi & Hb & Hsl)]; [done|].
  destruct (notify_source k p r s id src_e) as (sn & rn & Hsn & Hnone & Hrn & Hep); try done.
  { intros He. split; [|by apply Hsl]. apply source_slot in Hsrc as [[? _]|(_ & _ & _ & Hl)]; done. }
  kstep. kstep. { apply negb_true_iff. by apply Z.eqb_neq. }
  eapply runs_seq; [by apply unset_notify_run|]. intros [] k1 [Hk1 Ep1].
  assert (fld view k1 = fld view k) as Ev1 by (unfold fld; by rewrite Ep1).
  rewrite <- Ep1 in Hrn, Hr. kstep. kstep. kstep; [by apply negb_true_iff|].
  kstep. { destruct Hep as [->|<-]; [by rewrite Z.eqb_refl|by rewrite Z.eqb_refl, orb_true_r]. }
  eapply runs_seq; [apply build_notify_run; [done|by eauto]|]. intros msg k2 [Hk2 Ep2].
  assert (fld view k2 = fld view k) as Ev2 by (rewrite <- Ev1; unfold fld; by rewrite Ep2).
  rewrite <- Ep2 in Hr. eapply runs_seq; [by eapply deliver_run|]. intros [] k3 [Hk3 Ev3].
  eapply runs_seq; [by apply ipc_status_quiet|]. intros [] k4 [Hk4 Ev4]. kstep. split; [done|].
  exists (p_endpoint rn); eexists. split; [|by rewrite Ev4, Ev3, Ev2].
  exists (pid r), s, id, sn, (pid rn). rewrite Ep2, Ep1 in Hr. rewrite Ep1 in Hrn.
  split_and!; try done; try (by apply fld_of).
Qed.

(** ** Asynchronous messages *)

Lemma receive_async_run k p r src_e src_p :
  kbase k -> recv_ok (fld view k) -> live k p -> procs k !! p = Some r ->
  v_deliver (view r) = false -> v_in (view r) = None -> source_ok k src_e src_p ->
  runs (receive_async p src_p) k (fun b k' => kbase k' /\ got (fld view k) (fld view k') p b).
Proof.
  intros Hk Hrok Hlp Hr Hdel Hin Hsrc. pose proof (proj1 Hlp) as Hp. destruct (kbase_priv _ _ _ Hk Hlp Hr) as (Hpn & s & Hs & _).
  unfold receive_async, has_pending_asend. kstep.
  destruct (has_pending_run k (s_asyn_pending s) src_e src_p) as (id & Eid & Hid); [done| |done|].
  { by apply (pi_words _ _ (kb_priv _ Hk) (p_priv r) s). }
  eapply runs_of; [exact Eid|]. destruct (Z.eqb_spec id NULL_PRIV_ID) as [->|Hne];
    [kstep; split; [done|apply rtc_refl]|].
  eapply (runs_seq _ _ _ _ (fun res k' => kbase k' /\ got (fld view k) (fld view k') p (is_OK res))).
  { apply source_slot in Hsrc as [[-> ->]|(_ & Hn & Et & Hl)].
    - rewrite Z.eqb_refl. cbn [negb]. unfold try_async. eapply try_async_loop_run; try done.
      intros i Hi. by apply elem_of_priv_slots.
    - destruct (Z.eqb_spec src_p ANY); [done|]. cbn [negb]. rewrite Et.
      destruct (live_slot _ _ Hl) as (rs & Hrs & Hst & _ & Hsf).
      eapply runs_mono; [by eapply try_one_run|]. intros res k' (Hk' & m1 & Hsc & Hw). split; [done|].
      by eapply scanned_got. }
  intros res k1 [Hk1 Hg]. destruct (is_OK res) eqn:Eres; [|by kstep].
  eapply runs_seq; [by apply ipc_status_quiet|]. intros [] k2 [Hk2 Ev2]. kstep. split; [done|]. by rewrite Ev2.
Qed.

(** ** The queue of senders *)

(** The sender is no longer blocked on the send. *)
Definition v_unsend (v : ipcv) : ipcv :=
  IpcV (v_nr v) (v_ep v) (v_free v) (v_noep v) (v_deliver v) (v_callerq v) (v_qlink v) None (v_in v) (v_msg v) (v_sendmsg v).

Lemma unset_sending k s r :
  kbase k -> in_table s = true -> procs k !! s = Some r -> has (p_rts_flags r) RTS_SLOT_FREE = false ->
  runs (RTS_UNSET s RTS_SENDING) k (fun _ k' => kbase k' /\ fld view k' = <[s := v_unsend (view r)]> (fld view k)).
Proof.
  intros Hk Hs Hr Hf. destruct (kbase_unset k s r RTS_SENDING Hk Hs Hr Hf eq_refl) as (k' & E & Hk' & Hre).
  eapply runs_of; [exact E|]. split; [done|]. rewrite (view_sched _ _ (resched_sched _ _ Hre)), fld_put.
  f_equal. unfold view, v_unsend. simpl. by rewrite has_ldiff_same, !has_ldiff_disj.
Qed.

(** A delayed signal is sent now. *)
Lemma sig_delay_run k s r :
  kbase k -> recv_ok (fld view k) -> in_table s = true -> procs k !! s = Some r -> has (p_rts_flags r) RTS_SLOT_FREE = false ->
  iskerneln (p_nr r) = false ->
  runs (sig_delay_done s) k (fun _ k' => kbase k' /\ wakes (fld view k) (fld view k')).
Proof.
  intros Hk Hrok Hs Hr Hf Hnr. unfold sig_delay_done.
  eapply runs_seq; [eapply (quiet_upd k s r); try done|].
  { unfold view. simpl. by rewrite has_ldiff_disj. }
  intros [] k1 [Hk1 Ev1]. destruct (kbase_slot _ _ Hk1 Hs) as [r1 Hr1].
  assert (view r1 = view r) as Er1 by (by apply (view_at k1 s); [|rewrite Ev1; apply fld_of]).
  kstep. rewrite <- Ev1. destruct (pi_nr _ _ (kb_priv _ Hk1) s (pid r1) (fld_of _ _ _ _ Hr1) Hs) as [Es _].
  eapply (cause_sig_run k1 s r1); try done.
  - apply (f_equal v_free) in Er1. simpl in Er1. by rewrite Er1.
  - apply (f_equal v_nr) in Er1. simpl in Er1. by rewrite Er1.
  - by rewrite Ev1.
  - apply sndelay_valid.
  - apply sndelay_not_lethal.
Qed.

(** Waking up receivers commutes with taking a sender out of a queue. *)
Lemma wakes_take s d nx l m m' m1 :
  wakes m m' -> (forall q, m1 !! q = take_upd s d nx l q <$> m !! q) ->
  exists m1', wakes m1 m1' /\ forall q, m1' !! q = take_upd s d nx l q <$> m' !! q.
Proof.
  intros Hw. revert m1. induction Hw as [m|m m2 m3 [p v msg Hv Ho Hi] _ IH]; intros m1 Hm1; [by exists m1|].
  destruct (IH (<[p := v_wake msg (take_upd s d nx l p v)]> m1)) as (m1' & Hw' & Hm1').
  - intros q. destruct (decide (p = q)) as [->|]; [by rewrite !lookup_insert_eq|]. by rewrite !lookup_insert_ne.
  - exists m1'. split; [|done]. eapply rtc_l; [|exact Hw']. apply Wakes1; [by rewrite Hm1, Hv| |exact Hi].
    simpl. by destruct (decide (p = s)).
Qed.

(** The links of the queue after its sender [s] has been taken out. *)
Lemma take_links_run k p s l1 nx :
  kbase k -> in_table p = true -> in_table s = true -> (forall x, x ∈ l1 -> in_table x = true) -> s ∉ l1 ->
  (exists v, fld view k !! s = Some v /\ v_qlink v = nx /\ v_out v = None) ->
  runs (nxt ← rd p_q_link s; wr_caller_q p (loc_after l1) nxt;; upd s (with_p_q_link 0)) k
    (fun _ k' => kbase k' /\ forall q, fld view k' !! q = take_upd s p nx l1 q <$> fld view k !! q).
Proof.
  intros Hk Hp Hs Hl1 Hsl (v & Hv & Enx & Eout). apply fld_Some in Hv as (r & Hr & <-). simpl in Enx.
  kstep. rewrite Enx. eapply runs_seq; [by apply wr_caller_q_run|]. intros [] k1 [Hk1 Ev1].
  destruct (kbase_slot _ _ Hk1 Hs) as [r1 Hr1].
  assert (view r1 = v_relink p l1 nx s (view r)) as Hv1 by (apply (view_at k1 s); [done|by rewrite Ev1, (fld_of _ _ _ _ Hr)]).
  kstep. split; [by eapply kbase_put|]. intros q. rewrite fld_put. destruct (decide (s = q)) as [<-|Hne].
  - rewrite lookup_insert_eq, (fld_of _ _ _ _ Hr). cbn [fmap option_fmap option_map]. f_equal. unfold take_upd.
    rewrite !(decide_True (P := s = s)) by done. transitivity (IpcV (v_nr (view r1)) (v_ep (view r1)) (v_free (view r1)) (v_noep (view r1)) (v_deliver (view r1))
      (v_callerq (view r1)) 0 (v_out (view r1)) (v_in (view r1)) (v_msg (view r1)) (v_sendmsg (view r1))); [done|].
    rewrite Hv1. unfold v_relink. cbn [v_nr v_ep v_free v_noep v_deliver v_callerq v_qlink v_out v_in v_msg v_sendmsg].
    by rewrite Eout.
  - rewrite lookup_insert_ne, Ev1 by done. destruct (fld view k !! q); [|done]. simpl. f_equal.
    unfold take_upd, v_relink. by rewrite !(decide_False (P := q = s)) by congruence.
Qed.

(** The map after [s] has been taken out of the queue of [p], which got its
    message. *)
Definition taken (m : gmap Z ipcv) (p s : Z) (vp vs : ipcv) (l1 : list Z) (m' : gmap Z ipcv) : Prop :=
  forall q, m' !! q = take_upd s p (v_qlink vs) l1 q <$>
    (<[p := v_with_deliver (with_source (v_ep vs) (v_sendmsg vs)) vp]> m) !! q.

(** The part of [take_sender] up to the links of the queue. *)
Lemma take_message_run k p s rp rs :
  kbase k -> recv_ok (fld view k) -> in_table p = true -> in_table s = true -> s <> p ->
  procs k !! p = Some rp -> procs k !! s = Some rs ->
  v_deliver (view rp) = false -> v_in (view rp) = None -> v_free (view rs) = false -> iskerneln (v_nr (view rs)) = false ->
  v_noep (view rs) = false ->
  forall (f : K unit) Q,
  (forall k' m', kbase k' -> wakes m' (fld view k') ->
    m' = <[s := v_unsend (view rs)]> (<[p := v_with_deliver (with_source (v_ep (view rs)) (v_sendmsg (view rs))) (view rp)]>
      (fld view k)) -> runs f k' Q) ->
  runs (fl ← rd p_rts_flags s;
    kassert (negb (RTS_ISSET fl RTS_SLOT_FREE));;
    kassert (negb (RTS_ISSET fl RTS_NO_ENDPOINT));;
    mf ← rd p_misc_flags p;
    kassert (negb (has mf MF_DELIVERMSG));;
    sm ← rd p_sendmsg s;
    sep ← rd p_endpoint s;
    deliver p sep sm;;
    RTS_UNSET s RTS_SENDING;;
    smf ← rd p_misc_flags s;
    IPC_STATUS_ADD_CALL p (if has smf MF_REPLY_PEND then SENDREC else SEND);;
    (if has smf MF_SENDING_FROM_KERNEL
     then IPC_STATUS_ADD_FLAGS p IPC_FLG_MSG_FROM_KERNEL;; upd s (clear_misc MF_SENDING_FROM_KERNEL)
     else mret tt);;
    (if has smf MF_SIG_DELAY then sig_delay_done s else mret tt);;
    f) k Q.
Proof.
  intros Hk Hrok Hp Hs Hsp Hrp Hrs Hdel Hin Hfree Hnr Hnoep f Q Hf. simpl in Hdel, Hfree, Hnr, Hnoep.
  kstep. kstep; [by rewrite isset_has, Hfree by tauto|]. kstep; [by rewrite isset_has, Hnoep by tauto|].
  kstep. kstep; [by rewrite Hdel|]. kstep. kstep.
  eapply runs_seq; [by eapply (deliver_run k p rp)|]. intros [] k1 [Hk1 Ev1].
  destruct (kbase_slot _ _ Hk1 Hs) as [rs1 Hrs1].
  assert (view rs1 = view rs) as Ers1.
  { apply (view_at k1 s); [done|]. rewrite Ev1, lookup_insert_ne by done. by apply fld_of. }
  assert (has (p_rts_flags rs1) RTS_SLOT_FREE = false) as Hf1 by (apply (f_equal v_free) in Ers1; simpl in Ers1; by rewrite Ers1).
  eapply runs_seq; [by eapply (unset_sending k1 s rs1)|]. intros [] k2 [Hk2 Ev2]. rewrite Ers1, Ev1 in Ev2.
  destruct (kbase_slot _ _ Hk2 Hs) as [rs2 Hrs2]. kstep. unfold IPC_STATUS_ADD_CALL, IPC_STATUS_ADD_FLAGS.
  eapply runs_seq; [by apply ipc_status_quiet|]. intros [] k3 [Hk3 Ev3].
  eapply (runs_seq _ _ _ _ (fun _ k4 => kbase k4 /\ fld view k4 = fld view k3)).
  { destruct (has _ MF_SENDING_FROM_KERNEL); [|by kstep].
    eapply runs_seq; [by apply ipc_status_quiet|]. intros [] k4 [Hk4 Ev4].
    destruct (kbase_slot _ _ Hk4 Hs) as [rs4 Hrs4]. rewrite <- Ev4. eapply (quiet_upd k4 s rs4); try done.
    unfold view. simpl. by rewrite has_ldiff_disj. }
  intros [] k4 [Hk4 Ev4]. rewrite Ev3, Ev2 in Ev4.
  destruct (kbase_slot _ _ Hk4 Hs) as [rs4 Hrs4].
  assert (view rs4 = v_unsend (view rs)) as Ers4 by (apply (view_at k4 s); [done|by rewrite Ev4, lookup_insert_eq]).
  assert (recv_ok (fld view k4)) as Hrok4.
  { rewrite Ev4. intros q w Hw Hwi. destruct (decide (s = q)) as [<-|].
    - rewrite lookup_insert_eq in Hw. injection Hw as <-.
      exact (Hrok s (view rs) (fld_of _ _ _ _ Hrs) Hwi).
    - rewrite lookup_insert_ne in Hw by done. destruct (decide (p = q)) as [<-|].
      + rewrite lookup_insert_eq in Hw. injection Hw as <-. change (is_Some (v_in (view rp))) in Hwi. rewrite Hin in Hwi. by destruct Hwi.
      + rewrite lookup_insert_ne in Hw by done. by apply (Hrok q). }
  eapply (runs_seq _ _ _ _ (fun _ k5 => kbase k5 /\ wakes (fld view k4) (fld view k5))).
  { destruct (has _ MF_SIG_DELAY); [|by kstep]. eapply (sig_delay_run k4 s rs4); try done.
    - apply (f_equal v_free) in Ers4. simpl in Ers4. by rewrite Ers4.
    - apply (f_equal v_nr) in Ers4. simpl in Ers4. by rewrite Ers4. }
  intros [] k5 [Hk5 Hw5]. by eapply (Hf k5 (fld view k4)).
Qed.

Lemma wakes_links m m' s v :
  wakes m m' -> m !! s = Some v -> exists v', m' !! s = Some v' /\ v_qlink v' = v_qlink v /\ v_out v' = v_out v.
Proof.
  intros Hw. revert v. induction Hw as [m|m m2 m3 [p w msg Hv Ho Hi] _ IH]; intros v Hs; [by exists v|].
  destruct (decide (p = s)) as [->|Hne].
  - destruct (IH (v_wake msg w)) as (v' & Hv' & E1 & E2); [by rewrite lookup_insert_eq|].
    exists v'. simplify_eq. done.
  - apply IH. by rewrite lookup_insert_ne.
Qed.

Lemma take_sender_run k cq p s rp rs l1 l2 :
  kinv k cq -> in_table p = true -> procs k !! p = Some rp -> procs k !! s = Some rs ->
  v_deliver (view rp) = false -> v_in (view rp) = None -> v_out (view rp) = None -> cq p = l1 ++ s :: l2 ->
  runs (take_sender p (loc_after l1) s) k (fun _ k' => kinv k' (set_q p (l1 ++ l2) cq) /\
    exists ma, taken (fld view k) p s (view rp) (view rs) l1 ma /\ wakes ma (fld view k')).
Proof.
  intros [Hk Hi] Hp Hrp Hrs Hdel Hin Hout Ecq. pose proof (fld_of view _ _ _ Hrs) as Hvs.
  assert (s ∈ cq p) as Hsq by (rewrite Ecq; set_solver).
  pose proof Hsq as (vs & e & Hvs' & He & Ht)%(i_member _ _ Hi); [|done].
  rewrite Hvs in Hvs'. injection Hvs' as <-.
  destruct (i_blk _ _ Hi _ _ Hvs) as (Hs & Hfree & Hnr); [left; by eexists|].
  destruct (i_send _ _ Hi _ _ _ Hvs He) as [Hnoep _].
  assert (s <> p) as Hsp by (intros ->; assert (rs = rp) by congruence; congruence).
  assert (s ∉ l1) as Hsl1.
  { pose proof (chain_nodup _ _ _ (i_queue _ _ Hi p _ (fld_of _ _ _ _ Hrp) Hp)) as Hnd. rewrite Ecq in Hnd.
    apply NoDup_app in Hnd as (_ & Hd & _). intros Hx. eapply Hd; [done|left]. }
  eapply take_message_run; try done; [by eapply inv_recv_ok|]. intros k5 m2 Hk5 Hw5 Em2.
  set (G := take_upd s p (v_qlink (view rs)) l1).
  set (ma := map_imap (fun q v => Some (G q v)) m2).
  assert (forall q, ma !! q = G q <$> m2 !! q) as Hma by (intros q; unfold ma; rewrite map_lookup_imap; by destruct (m2 !! q)).
  destruct (wakes_take s p (v_qlink (view rs)) l1 m2 (fld view k5) ma Hw5 Hma) as (m5 & Hwa & Hm5).
  destruct (wakes_links _ _ s (v_unsend (view rs)) Hw5) as (v5 & Hv5 & Eq5 & Eo5); [by rewrite Em2, lookup_insert_eq|].
  eapply runs_mono; [eapply (take_links_run k5 p s l1 (v_qlink (view rs))); try done|].
  { intros x Hx. apply (queue_member k cq p x Hi Hp). rewrite Ecq. set_solver. }
  { exists v5. split_and!; try done. }
  intros [] k6 [Hk6 Ev6]. assert (m5 = fld view k6) as E5 by (apply map_eq; intros q; by rewrite Hm5, Ev6). subst m5.
  assert (taken (fld view k) p s (view rp) (view rs) l1 ma) as Htk.
  { intros q. rewrite Hma, Em2. destruct (decide (s = q)) as [<-|].
    - rewrite lookup_insert_eq, lookup_insert_ne, Hvs by done. simpl. f_equal. unfold G, take_upd. simpl.
      by rewrite !(decide_True (P := s = s)).
    - by rewrite lookup_insert_ne. }
  split; [|by exists ma]. split; [done|]. eapply wakes_inv; [done|].
  pose proof (inv_deliver _ _ _ _ (with_source (v_ep (view rs)) (v_sendmsg (view rs))) Hi (fld_of _ _ _ _ Hrp) Hin) as Hid.
  eapply (inv_take _ ma cq s (view rs) p l1 l2); [exact Hid|by rewrite lookup_insert_ne|done|done|exact Htk].
Qed.

(** Whom a receiver takes a message from. *)
Definition accepts (src_e s : Z) : bool := (src_e =? ANY) || (s =? target src_e).

Lemma before_from_ext (f g : Z -> bool) l : (forall x, x ∈ l -> f x = g x) -> before f l = before g l /\ from f l = from g l.
Proof.
  induction l as [|x l IH]; intros Hfg; [done|]. simpl. rewrite (Hfg x) by left.
  destruct IH as [-> ->]; [intros; apply Hfg; by right|]. by destruct (g x).
Qed.

Lemma from_head f l s l2 : from f l = s :: l2 -> f s = true.
Proof. induction l as [|x l IH]; simpl; [done|]. destruct (f x) eqn:E; [|done]. congruence. Qed.

Lemma from_nil f l x : from f l = [] -> x ∈ l -> f x = false.
Proof.
  induction l as [|y l IH]; simpl; [set_solver|]. destruct (f y) eqn:E; [done|].
  intros Hf [->|Hx]%elem_of_cons; auto.
Qed.

Lemma before_all f l x : x ∈ before f l -> f x = false.
Proof.
  induction l as [|y l IH]; simpl; [set_solver|]. destruct (f y) eqn:E; [set_solver|].
  intros [->|Hx]%elem_of_cons; auto.
Qed.

(** What the search of the queue does. *)
Inductive dequeued (m : gmap Z ipcv) (cq : Z -> list Z) (p src_e : Z) (vp : ipcv)
  : bool -> gmap Z ipcv -> (Z -> list Z) -> Prop :=
| DeqNone : (forall s, s ∈ cq p -> accepts src_e s = false) -> dequeued m cq p src_e vp false m cq
| DeqOne l1 s l2 vs ma m' :
    cq p = l1 ++ s :: l2 -> accepts src_e s = true -> (forall x, x ∈ l1 -> accepts src_e x = false) ->
    m !! s = Some vs -> taken m p s vp vs l1 ma -> wakes ma m' ->
    dequeued m cq p src_e vp true m' (set_q p (l1 ++ l2) cq).

Lemma receive_queue_run k cq p rp src_e src_p :
  kinv k cq -> in_table p = true -> procs k !! p = Some rp -> source_ok k src_e src_p ->
  v_deliver (view rp) = false -> v_in (view rp) = None -> v_out (view rp) = None ->
  runs (receive_queue p src_e src_p) k (fun b k' => exists cq',
    dequeued (fld view k) cq p src_e (view rp) b (fld view k') cq' /\ kinv k' cq').
Proof.
  intros Hki Hp Hrp Hsrc Hdel Hin Hout. pose proof Hki as [Hk Hi].
  unfold receive_queue. kstep. kstep. kstep.
  pose proof (queue_chain _ _ _ _ Hi Hp Hrp) as Hc.
  set (stop := fun sender => _ || _).
  destruct (before_from_ext stop (accepts src_e) (cq p)) as [Eb Ef].
  { intros x Hx. unfold stop, accepts. pose proof (queue_member _ _ _ _ Hi Hp Hx) as Hxt.
    apply source_slot in Hsrc as [[-> ->]|(Hne & _ & Et & Hl)]; [done|]. f_equal.
    destruct (kbase_slot _ _ Hk Hxt) as [rx Hrx]. rewrite (fld_of _ _ _ _ Hrx).
    destruct (pi_nr _ _ (kb_priv _ Hk) x (pid rx) (fld_of _ _ _ _ Hrx) Hxt) as [Ex _]. simpl in Ex.
    destruct (Z.eqb_spec src_p (p_nr rx)) as [E|E], (Z.eqb_spec x (target src_e)) as [E'|E']; try done.
    - exfalso. apply E'. by rewrite Ex, <- E.
    - exfalso. apply E. unfold proc_addr in *. lia. }
  rewrite (pp_walk_spec _ _ stop _ Hc), Eb. eapply runs_step; [reflexivity|].
  pose proof (before_from (accepts src_e) (cq p)) as Ebf.
  assert (Hseg := Hc). rewrite <- Ebf in Hseg. apply lseg_app_inv in Hseg as (x & Hs1 & Hs2).
  rewrite (pp_read_after _ _ _ _ _ Hs1 Hs2). eapply runs_step; [reflexivity|].
  destruct (from (accepts src_e) (cq p)) as [|s l2] eqn:Efrom.
  - apply chain_nil_head in Hs2 as ->. cbn [Z.eqb]. kstep. exists cq. split; [|done]. apply DeqNone.
    intros s Hs. by eapply from_nil.
  - apply chain_cons_head in Hs2 as [-> Hx0]. destruct (Z.eqb_spec x 0); [done|].
    assert (in_table x = true) as Hxt by (apply (queue_member k cq p x Hi Hp); rewrite <- Ebf; set_solver).
    destruct (kbase_slot _ _ Hk Hxt) as [rx Hrx].
    eapply runs_seq; [by eapply (take_sender_run k cq p x rp rx _ l2)|].
    intros [] k' (Hki' & ma & Htk & Hw). kstep. eexists. split; [|exact Hki'].
    eapply (DeqOne _ _ _ _ _ _ x l2 (view rx) ma); try done; [by eapply from_head| |by apply fld_of].
    intros y Hy. by eapply before_all.
Qed.

(** ** [mini_receive] *)

(** The sources of notifications that a receive accepts: none while a reply is
    expected. *)
Definition accepted (k : kstate) (p src_e : Z) (r : proc) (src : Z) : Prop :=
  has (p_misc_flags r) MF_REPLY_PEND = false /\ notifies k p src_e src.

(** The search for a message that is there already; [nf] are the sources of the
    pending notifications that are accepted. *)
Inductive received_now (m : gmap Z ipcv) (cq : Z -> list Z) (p src_e : Z) (vp : ipcv) (nf : Z -> Prop)
  : bool -> gmap Z ipcv -> (Z -> list Z) -> Prop :=
| NowSending e : v_out vp = Some e -> received_now m cq p src_e vp nf false m cq
| NowNotify src msg :
    v_out vp = None -> nf src -> received_now m cq p src_e vp nf true (<[p := v_with_deliver (with_source src msg) vp]> m) cq
| NowAsyn m' :
    v_out vp = None -> (forall src, ~ nf src) -> got m m' p true -> received_now m cq p src_e vp nf true m' cq
| NowQueue m1 m' cq' b :
    v_out vp = None -> (forall src, ~ nf src) -> wakes m m1 -> dequeued m1 cq p src_e vp b m' cq' ->
    received_now m cq p src_e vp nf b m' cq'.

Lemma source_wakes k k' e n : source_ok k e n -> wakes (fld view k) (fld view k') -> source_ok k' e n.
Proof. intros [|e' Hl] Hw; constructor. by eapply wakes_live. Qed.

Lemma receive_now_run k cq p rp src_e src_p :
  kinv k cq -> live k p -> procs k !! p = Some rp -> source_ok k src_e src_p ->
  v_deliver (view rp) = false -> v_in (view rp) = None ->
  runs (receive_now p src_e src_p) k (fun b k' => exists cq',
    received_now (fld view k) cq p src_e (view rp) (accepted k p src_e rp) b (fld view k') cq' /\ kinv k' cq').
Proof.
  intros Hki Hlp Hrp Hsrc Hdel Hin. pose proof Hki as [Hk Hi]. pose proof (fld_of view _ _ _ Hrp) as Hvp.
  pose proof (proj1 Hlp) as Hp.
  unfold receive_now. kstep. rewrite isset_has by tauto.
  destruct (has (p_rts_flags rp) RTS_SENDING) eqn:Es.
  { kstep. exists cq. split; [|done]. eapply NowSending. simpl. by rewrite Es. }
  assert (v_out (view rp) = None) as Hout by (simpl; by rewrite Es).
  kstep. eapply (runs_seq _ _ _ _ (fun b k1 => kbase k1 /\
    if b : bool then exists src msg, accepted k p src_e rp src /\
      fld view k1 = <[p := v_with_deliver (with_source src msg) (view rp)]> (fld view k)
    else k1 = k /\ forall src, ~ accepted k p src_e rp src)).
  { unfold accepted. destruct (has (p_misc_flags rp) MF_REPLY_PEND) eqn:Erp; cbn [negb];
      [kstep; split_and!; [done..|]; intros src [? _]; congruence|].
    eapply runs_mono; [by eapply receive_notify_run|]. intros [] k1 [Hk1 Hb]; (split; [done|]).
    - destruct Hb as (src & msg & Hn & Ev). by exists src, msg.
    - destruct Hb as [-> Hn]. split; [done|]. intros src [_ ?]. by eapply Hn. }
  intros b k1 [Hk1 Hb]. destruct b.
  { destruct Hb as (src & msg & Hacc & Ev). kstep. exists cq. rewrite Ev. split; [by apply NowNotify|]. split; [done|]. rewrite Ev.
    by apply inv_deliver. }
  destruct Hb as [-> Hacc]. eapply runs_seq; [eapply receive_async_run; try done; by eapply inv_recv_ok|]. intros a k1 [Hk2 Hg].
  assert (kinv k1 cq) as Hki1 by (split; [done|by eapply got_inv]). destruct a.
  { kstep. exists cq. split; [by apply NowAsyn|done]. }
  simpl in Hg. pose proof (wakes_stable _ _ _ _ Hg Hvp (or_introl Hin)) as Hv1.
  apply fld_Some in Hv1 as (rp1 & Hrp1 & Erp1).
  eapply runs_mono; [eapply (receive_queue_run k1 cq p rp1); try done; rewrite ?Erp1; try done; by eapply source_wakes|].
  intros b k2 (cq' & Hd & Hki2). exists cq'. split; [|done]. rewrite Erp1 in Hd. by eapply NowQueue.
Qed.

Lemma received_now_false m cq p src_e vp nf m' cq' :
  received_now m cq p src_e vp nf false m' cq' ->
  cq' = cq /\ wakes m m' /\ (v_out vp = None -> forall s, s ∈ cq p -> accepts src_e s = false).
Proof.
  intros Hr. inversion Hr as [e Ho| | |m1 m2 cq2 b2 Ho _ Hw Hd]; subst.
  - split_and!; [done|apply rtc_refl|congruence].
  - inversion Hd; subst. by split_and!.
Qed.

(** What [mini_receive] by [p] from [src_e] does, [vp] being the view of [p]. *)
Inductive received (m : gmap Z ipcv) (cq : Z -> list Z) (p src_e : Z) (vp : ipcv) (nf : Z -> Prop) (nonblock : bool)
  : kres -> gmap Z ipcv -> (Z -> list Z) -> Prop :=
| RecvDead v : m !! target src_e = Some v -> v_noep v = true -> received m cq p src_e vp nf nonblock EDEADSRCDST m cq
| RecvGot m' cq' : received_now m cq p src_e vp nf true m' cq' -> received m cq p src_e vp nf nonblock OK m' cq'
| RecvBusy m' :
    nonblock = true -> received_now m cq p src_e vp nf false m' cq -> received m cq p src_e vp nf nonblock ENOTREADY m' cq
| RecvLocked m' l1 l2 :
    nonblock = false -> received_now m cq p src_e vp nf false m' cq -> chain (waits m') (start src_e) (l1 ++ p :: l2) ->
    received m cq p src_e vp nf nonblock ELOCKED m' cq
| RecvBlocked m' :
    nonblock = false -> received_now m cq p src_e vp nf false m' cq ->
    received m cq p src_e vp nf nonblock OK (<[p := v_block_recv src_e vp]> m') cq.

(** The receiver is blocked. *)
Lemma block_recv_run k p r e :
  kbase k -> in_table p = true -> procs k !! p = Some r -> has (p_rts_flags r) RTS_SLOT_FREE = false ->
  runs (upd p (with_p_getfrom_e e);; RTS_SET p RTS_RECEIVING) k
    (fun _ k' => v_in (view r) = None -> kbase k' /\ fld view k' = <[p := v_block_recv e (view r)]> (fld view k)).
Proof.
  intros Hk Hp Hr Hf. kstep. set (r1 := with_p_getfrom_e e r).
  assert (kbase (put_proc p r1 k)) as Hk1 by (by eapply kbase_put).
  assert (procs (put_proc p r1 k) !! p = Some r1) as Hr1 by apply lookup_insert_eq.
  destruct (kbase_set (put_proc p r1 k) p r1 RTS_RECEIVING Hk1 Hp Hr1 Hf eq_refl) as (k2 & E2 & Hk2 & Hle).
  eapply runs_of; [exact E2|]. intros Hin. split; [done|].
  rewrite (view_sched _ _ (link_sched _ _ Hle)), !fld_put, insert_insert_eq. f_equal.
  unfold view, v_block_recv, r1. simpl. by rewrite !has_lor, !orb_false_r, orb_true_r.
Qed.

(** The exception of [deadlock] does not arise for a receiver that found
    nothing in its queue. *)
Lemma no_pair m cq p vp x v e l' :
  ipc_inv m cq -> m !! p = Some vp -> in_table p = true -> live_ep m e -> x = target e -> m !! x = Some v ->
  chain (waits m) x (x :: p :: l') -> pair_case RECEIVE v = true ->
  v_out vp = None \/ v_out vp = Some e ->
  (v_out vp = None -> forall s, s ∈ cq p -> accepts e s = false) -> False.
Proof.
  intros Hi Hvp Hp Hl Ex Hv Hc Hpair Hout Hno.
  assert (x <> 0) as Hx0 by (intros E0; by rewrite E0, (i_null _ _ Hi) in Hv).
  destruct (chain_cons_inv _ _ _ Hc Hx0) as (z & l2 & [= <-] & Hz & Hc').
  pose proof (chain_cons_head _ _ _ _ Hc') as [<- Hp0]. unfold waits in Hz. rewrite Hv in Hz. injection Hz as Hz.
  unfold pair_case in Hpair. change (RECEIVE =? SEND) with false in Hpair. apply bool_decide_eq_true in Hpair.
  destruct (v_out v) as [ev|] eqn:Eo; [|done]. clear Hpair.
  destruct (i_send _ _ Hi _ _ _ Hv Eo) as [_ Hlv].
  unfold awaited, v_blockedon in Hz. rewrite Eo in Hz.
  assert (target ev = p) as Htv.
  { rewrite <- Hz. destruct (live_not_special _ _ Hlv). destruct (Z.eqb_spec ev NONE), (Z.eqb_spec ev ANY); done. }
  destruct Hout as [Ho|Ho].
  - assert (x ∈ cq p) as Hx by (apply (i_member _ _ Hi); [done|]; by exists v, ev).
    specialize (Hno Ho x Hx). unfold accepts in Hno. rewrite Ex, Z.eqb_refl, orb_true_r in Hno. done.
  - pose proof (chain_nodup _ _ _ Hc) as Hnd. destruct (chain_cons_inv _ _ _ Hc' Hp0) as (y & l3 & [= <-] & Hy & Hc'').
    unfold waits in Hy. rewrite Hvp in Hy. injection Hy as Hy. unfold awaited, v_blockedon in Hy. rewrite Ho in Hy.
    assert (y = x) as ->.
    { rewrite <- Hy, Ex. destruct (live_not_special _ _ Hl). destruct (Z.eqb_spec e NONE), (Z.eqb_spec e ANY); done. }
    destruct (chain_cons_inv _ _ _ Hc'' Hx0) as (w & l4 & -> & _). apply NoDup_cons in Hnd as [Hnd _].
    apply Hnd. right. left.
Qed.

(** The end of [mini_receive]: nothing was there. *)
Lemma receive_blocks k0 k cq p rp src_e nf :
  kinv k0 cq -> procs k0 !! p = Some rp -> in_table p = true -> has (p_rts_flags rp) RTS_SLOT_FREE = false ->
  iskerneln (v_nr (view rp)) = false -> v_deliver (view rp) = false -> v_in (view rp) = None ->
  v_out (view rp) = None \/ v_out (view rp) = Some src_e ->
  src_e = ANY \/ (live_ep (fld view k0) src_e /\ target src_e <> p) ->
  received_now (fld view k0) cq p src_e (view rp) nf false (fld view k) cq -> kinv k cq ->
  runs (d ← deadlock RECEIVE p src_e;
        if negb (d =? 0) then mret ELOCKED
        else upd p (with_p_getfrom_e src_e);; RTS_SET p RTS_RECEIVING;; mret OK) k
    (fun res k' => exists cq', received (fld view k0) cq p src_e (view rp) nf false res (fld view k') cq' /\ kinv k' cq').
Proof.
  intros Hki0 Hrp0 Hp Hf0 Hnr Hdel Hin Hout Hsrc0 Hnow Hki. pose proof Hki as [Hk Hi].
  destruct (received_now_false _ _ _ _ _ _ _ _ Hnow) as (_ & Hw & Hno).
  pose proof (wakes_stable _ _ _ _ Hw (fld_of view _ _ _ Hrp0) (or_introl Hin)) as Hvp.
  pose proof Hvp as (rp1 & Hrp1 & Erp1)%fld_Some.
  assert (has (p_rts_flags rp1) RTS_SLOT_FREE = false) as Hf1 by (apply (f_equal v_free) in Erp1; simpl in Erp1; by rewrite Erp1).
  assert (src_e = ANY \/ (live_ep (fld view k) src_e /\ target src_e <> p)) as Hsrc.
  { destruct Hsrc0 as [|[? ?]]; [by left|right]. split; [by eapply wakes_live|done]. }
  assert (src_e = ANY \/ live_ep (fld view k) src_e) as Hsrc' by (destruct Hsrc as [|[? _]]; auto).
  assert (start src_e <> p) as Hne.
  { destruct Hsrc as [->|[Hl Hne]]; [|by rewrite (start_live _ _ Hl)].
    change (start ANY) with 0. intros <-. by rewrite (i_null _ _ Hi) in Hvp. }
  destruct (wait_path k cq src_e Hki Hsrc') as [l Hc].
  destruct (deadlock_run k cq RECEIVE p rp1 src_e l) as (x & Ex & Hx); try done; [by right|].
  eapply runs_step; [exact Ex|]. destruct Hx as [Hn|l1 l2 -> Hn|y v l' _ -> Hy Hpair].
  - change (negb (0 =? 0)) with false. cbv iota. apply runs_assoc. eapply runs_seq; [by eapply (block_recv_run k p rp1)|].
    intros [] k' Hk'. rewrite Erp1 in Hk'. destruct (Hk' Hin) as [Hk1 Ev1]. kstep. exists cq. rewrite Ev1.
    split; [by apply RecvBlocked|]. split; [done|]. rewrite Ev1.
    apply inv_block_recv; try done; [by destruct Hout; congruence|].
    intros _ Hany. destruct Hsrc' as [|Hl]; [done|]. rewrite (start_live _ _ Hl) in Hc. by exists l.
  - destruct (Z.eqb_spec (1 + Z.of_nat (length l1)) 0); [lia|]. cbn [negb]. kstep. exists cq.
    split; [by eapply RecvLocked|done].
  - exfalso. destruct Hsrc' as [->|Hl]; [by apply (chain_nil_inv _ _) in Hc|]. rewrite (start_live _ _ Hl) in Hc.
    pose proof (chain_cons_head _ _ _ _ Hc) as [-> _]. exact (no_pair _ _ _ _ _ _ _ _ Hi Hvp Hp Hl eq_refl Hy Hc Hpair Hout Hno).
Qed.

Lemma mini_receive_run k cq p rp src_e buf flags :
  kinv k cq -> in_table p = true -> procs k !! p = Some rp -> has (p_rts_flags rp) RTS_SLOT_FREE = false ->
  iskerneln (v_nr (view rp)) = false -> v_deliver (view rp) = false -> v_in (view rp) = None ->
  v_out (view rp) = None \/ v_out (view rp) = Some src_e ->
  src_e = ANY \/ (live_ep (fld view k) src_e /\ target src_e <> p) ->
  runs (mini_receive p src_e buf flags) k (fun res k' => exists cq',
    received (fld view k) cq p src_e (view rp) (accepted k p src_e rp) (has flags NON_BLOCKING) res (fld view k') cq' /\ kinv k' cq').
Proof.
  intros Hki Hp Hrp Hf Hnr Hdel Hin Hout Hsrc. pose proof Hki as [Hk Hi].
  unfold mini_receive. kstep. kstep; [by apply negb_true_iff|].
  kstep. set (rp0 := with_p_delivermsg_vir buf rp). set (k0 := put_proc p rp0 k).
  assert (forall {A} (g : proc -> A), g rp0 = g rp -> fld g k0 = fld g k) as Hg.
  { intros A g Eg. unfold k0. rewrite fld_put, Eg. apply insert_id. by apply fld_of. }
  assert (kbase k0) as Hk0 by (by eapply kbase_put).
  assert (kinv k0 cq) as Hki0 by (split; [done|by rewrite (Hg _ view)]).
  assert (procs k0 !! p = Some rp0) as Hrp0 by apply lookup_insert_eq.
  assert (accepted k p src_e rp = accepted k0 p src_e rp0) as -> by (unfold accepted, notifies; by rewrite (Hg _ pid)).
  rewrite <- (Hg _ view eq_refl) in Hsrc |- *. clear Hk Hi Hki Hg. change (view rp) with (view rp0) in *.
  change (has (p_rts_flags rp0) RTS_SLOT_FREE = false) in Hf.
  pose proof (proj2 Hki0) as Hi0.
  eapply (runs_seq _ _ _ _ (fun o k1 => k1 = k0 /\ match o with
    | Some src_p => source_ok k0 src_e src_p
    | None => exists v, fld view k0 !! target src_e = Some v /\ v_noep v = true end)).
  { destruct Hsrc as [->|[Hl Hne]]; [rewrite Z.eqb_refl; kstep; split; [done|constructor]|].
    destruct (live_not_special _ _ Hl) as [Hany _]. destruct (Z.eqb_spec src_e ANY); [done|].
    eapply runs_step; [by apply okendpt_run|]. destruct (live_slot _ _ Hl) as (d & Hd & _). fold (target src_e).
    kstep. kstep. split; [done|]. rewrite isset_has by tauto.
    destruct (has (p_rts_flags d) RTS_NO_ENDPOINT) eqn:E; [|by constructor].
    exists (view d). split; [by apply fld_of|done]. }
  intros [src_p|] k1 [-> Hsl]; [|destruct Hsl as (v & Hv & Hne); kstep; exists cq; split; [by eapply RecvDead|done]].
  eapply runs_seq; [eapply (receive_now_run k0 cq p rp0); try done; by eauto|]. intros b k1 (cq' & Hnow & Hki1). destruct b.
  { eapply runs_seq.
    - destruct (kbase_slot _ _ (proj1 Hki1) Hp) as [rp1 Hrp1]. eapply (quiet_upd k1 p rp1); try done; [apply Hki1|].
      unfold view. simpl. by rewrite has_ldiff_disj.
    - intros [] k2 [Hk2 Ev2]. kstep. exists cq'. rewrite Ev2. split; [by apply RecvGot|]. split; [done|]. rewrite Ev2. apply Hki1. }
  destruct (received_now_false _ _ _ _ _ _ _ _ Hnow) as (-> & Hw & Hno).
  destruct (has flags NON_BLOCKING) eqn:Enb; [kstep; exists cq; split; [by apply RecvBusy|done]|].
  by eapply receive_blocks.
Qed.
End Recv.
