(* ===== verification/KCalls.v ===== *)
(** The IPC calls of user processes: no sequence of checks and operations of
    [do_ipc] fails an assertion of the kernel, and the invariant of the tables,
    with its absence of circular waiting, is kept. *)

From S2P Require Import Prelude Chain Timers KState KSched KBoot KWait KNotify KBase KSignal KIpc KSend KAsyn KRecv.
Local Open Scope Z_scope.

Section Calls.
Context `{SignalLaws}.

(** ** The checks of [do_sync_ipc] *)

(** What a call that passes the checks may rely on. *)
Record call_ok (k : kstate) (p call e : Z) : Prop := {
  co_known : call = SEND \/ call = RECEIVE \/ call = SENDREC \/ call = NOTIFY \/ call = SENDNB;
  co_dest : (e = ANY /\ call = RECEIVE) \/ live_ep (fld view k) e;
  co_self : call <> RECEIVE -> target e <> p;
  co_notify : call = NOTIFY -> may_notify k p;
}.

Lemma known_calls c : known_call c = true -> c <> SENDA ->
  c = SEND \/ c = RECEIVE \/ c = SENDREC \/ c = NOTIFY \/ c = SENDNB.
Proof.
  unfold known_call. intros Hc%bool_decide_eq_true Hs. rewrite !elem_of_cons in Hc.
  destruct Hc as [?|[?|[?|[?|[?|[?|Hc]]]]]]; auto; [done|]. by apply elem_of_nil in Hc.
Qed.

Lemma not_self k p r n r' s :
  kbase k -> live k p -> procs k !! p = Some r -> privs k !! p_priv r = Some s ->
  procs k !! proc_addr n = Some r' -> get_sys_bit (s_ipc_to s) (p_priv r') = true -> proc_addr n <> p.
Proof.
  intros Hk Hp Hr Hs Hr' Hb E. rewrite E in Hr'. assert (r' = r) as -> by congruence.
  destruct (kbase_priv _ _ _ Hk Hp Hr) as (Hi & _).
  by rewrite (pi_self _ _ (kb_priv _ Hk) _ _ Hi Hs) in Hb.
Qed.

Lemma check_sync_ipc_run k p r call e :
  kbase k -> in_table p = true -> procs k !! p = Some r -> has (p_rts_flags r) RTS_SLOT_FREE = false -> call <> SENDA ->
  exists c, check_sync_ipc p call e k = Some (c, k) /\ (c = None -> call_ok k p call e).
Proof.
  intros Hk Hp Hr Hf Hsenda. pose proof (live_of _ _ _ Hp Hr Hf) as Hlp.
  destruct (kbase_priv _ _ _ Hk Hlp Hr) as (Hi & s & Hs & _).
  unfold check_sync_ipc. destruct (Z.eqb_spec call SENDA) as [|_]; [done|]. cbn [negb]. rewrite (bind_run _ _ _ _ _ eq_refl).
  destruct (known_call call) eqn:Ekn; cbn [negb]; [|by eexists].
  pose proof (known_calls _ Ekn Hsenda) as Hkn.
  assert (exists d, (if e =? ANY
    then mret (if negb (call =? RECEIVE) then inl EINVAL else inr ANY)
    else ok ← isokendpt e;
      match ok with
      | None => mret (inl EDEADSRCDST)
      | Some n => if negb (call =? RECEIVE)
          then may ← may_send_to p n; mret (if negb may then inl ECALLDENIED else inr n)
          else mret (inr n)
      end : K (kres + Z)) k = Some (d, k) /\
    (forall n, d = inr n -> ((e = ANY /\ call = RECEIVE) \/ live_ep (fld view k) e) /\
      (call <> RECEIVE -> target e <> p))) as (d & Ed & Hd).
  { destruct (Z.eqb_spec e ANY) as [->|Hany].
    - destruct (Z.eqb_spec call RECEIVE) as [->|]; cbn [negb]; eexists; (split; [done|]); [|done].
      intros n' [= <-]. split; [by left|done].
    - destruct (isokendpt_run k e Hk) as [[Hl E]|[Hl E]]; rewrite (bind_run _ _ _ _ _ E); [|by eexists].
      destruct (live_slot _ _ Hl) as (d & Hd & Hdt & _).
      destruct (Z.eqb_spec call RECEIVE) as [->|]; cbn [negb].
      + eexists. split; [done|]. intros n' _. split; [by right|done].
      + destruct (may_send_to_run k p (_ENDPOINT_P e) Hk Hlp (live_target _ _ Hl)) as (b & Eb & Hb). rewrite (bind_run _ _ _ _ _ Eb).
        destruct b; cbn [negb]; eexists; (split; [done|]); [|done]. intros n' _. split; [by right|]. intros _.
        eapply not_self; try done. by eapply Hb. }
  rewrite (bind_run _ _ _ _ _ Ed). destruct d as [x|dst]; [by eexists|].
  destruct (Hd dst eq_refl) as [Hdest Hself].
  rewrite (bind_run _ _ _ _ _ (rdp_run s_trap_mask _ _ _ _ Hr Hs)).
  destruct (has (s_trap_mask s) (Z.shiftl 1 call)) eqn:Etm; cbn [negb]; [|by eexists].
  destruct (negb (call =? SENDREC) && negb (call =? RECEIVE) && iskerneln dst); [by eexists|].
  eexists. split; [done|]. intros _. split; try done. intros ->. split; [done|]. exists r, s. split_and!; try done.
  by apply (pi_trap _ _ (kb_priv _ Hk) (p_priv r) s).
Qed.

(** ** [do_sync_ipc] *)

(** The calling process: alive, not blocked, and with no message on its way. *)
Definition running (k : kstate) (p : Z) (r : proc) : Prop := caller_ok k p r /\ v_deliver (view r) = false.

Lemma running_view k k' p r :
  running k p r -> fld view k' = fld view k -> exists r', running k' p r' /\ view r' = view r.
Proof.
  intros [(Hp & Hr & Hf & Hnr & Ho & Hin & Hn) Hd] Ev.
  assert (fld view k' !! p = Some (view r)) as (r' & Hr' & Er')%fld_Some by (rewrite Ev; by apply fld_of).
  exists r'. split; [|done]. unfold running, caller_ok. rewrite Er'. split_and!; try done.
  apply (f_equal v_free) in Er'. simpl in Er'. by rewrite Er'.
Qed.

(** An assignment to fields of the caller that the invariant does not look at. *)
Lemma quiet_caller k cq p r f :
  kinv k cq -> running k p r ->
  p_rts_flags (f r) = p_rts_flags r -> p_priority (f r) = p_priority r -> p_nextready (f r) = p_nextready r ->
  pid (f r) = pid r -> view (f r) = view r ->
  runs (upd p f) k (fun _ k' => kinv k' cq /\ fld view k' = fld view k /\ exists r', running k' p r' /\ view r' = view r).
Proof.
  intros [Hk Hi] Hrun E1 E2 E3 E4 E5. pose proof Hrun as [(Hp & Hr & _) _].
  eapply runs_mono; [by eapply (quiet_upd k p r)|]. intros [] k1 [Hk1 Ev1].
  split_and!; [split; [done|by rewrite Ev1]|done|by eapply running_view].
Qed.

Lemma sent_inv_caller k cq p r e mo nb res k' cq' :
  sent k cq p (p_endpoint r) e mo nb res k' cq' -> procs k !! p = Some r -> target e <> p ->
  live_ep (fld view k) e ->
  live_ep (fld view k') e /\
  exists v, fld view k' !! p = Some v /\ v_in v = v_in (view r) /\ v_deliver v = v_deliver (view r) /\
    v_free v = v_free (view r) /\ v_nr v = v_nr (view r) /\ (v_out v = v_out (view r) \/ v_out v = Some e).
Proof.
  intros Hsent Hr Hne Hl. pose proof (fld_of view _ _ _ Hr) as Hv.
  destruct Hsent as [msg vd k' _ Hvd _ Ev|msg vd k' _ _ _ _ Ev| | | | ];
    try (split; [done|]; exists (view r); by auto 10).
  - split; [rewrite Ev; by eapply live_put|]. exists (view r). rewrite Ev, lookup_insert_ne by done. auto 10.
  - split; [by eapply live_upd|]. rewrite Ev, Hv. eexists. split; [done|]. simpl. rewrite decide_True by done. auto 10.
Qed.

Lemma sendrec_run k cq p r e a :
  kinv k cq -> running k p r -> live_ep (fld view k) e -> target e <> p ->
  runs (x ← mini_send p e (UserPtr a) 0; if is_OK x then mini_receive p e a 0 else mret x) k
    (fun _ k' => exists cq', kinv k' cq').
Proof.
  intros Hki [Hc Hdel] Hl Hne.
  pose proof Hc as (Hp & Hr & Hf & Hnr & Ho & Hin & Hnoep).
  eapply runs_seq; [by eapply (mini_send_run k cq p r e (UserPtr a) 0)|]. intros res k1 (cq1 & Hsent & Hki1).
  destruct (is_OK res); [|kstep; by exists cq1].
  destruct (sent_inv_caller _ _ _ _ _ _ _ _ _ _ Hsent Hr Hne Hl) as (Hl1 & v & Hv & Evi & Evd & Evf & Evn & Evo).
  apply fld_Some in Hv as (r1 & Hr1 & <-).
  eapply runs_mono; [eapply (mini_receive_run k1 cq1 p r1 e a 0); try done|].
  - simpl in Evf. by rewrite Evf.
  - by rewrite Evn.
  - by rewrite Evd.
  - by rewrite Evi.
  - rewrite Ho in Evo. done.
  - by right.
  - intros res' k2 (cq2 & _ & Hki2). by exists cq2.
Qed.

Lemma receive_call_run k cq p r e a :
  kinv k cq -> running k p r -> (e = ANY /\ RECEIVE = RECEIVE) \/ live_ep (fld view k) e ->
  ~ (RECEIVE = RECEIVE /\ e = p_endpoint r) ->
  runs (upd p (clear_misc MF_REPLY_PEND);; IPC_STATUS_CLEAR p;; mini_receive p e a 0) k
    (fun _ k' => exists cq', kinv k' cq').
Proof.
  intros Hki Hrun Hdest Hnself. pose proof Hrun as [(Hp & Hr & Hf & _) _].
  destruct (live_self _ _ _ (proj1 Hki) Hp Hr Hf) as [Hls Htp].
  eapply runs_seq; [eapply (quiet_caller k cq p r); try done|].
  { unfold view. simpl. by rewrite has_ldiff_disj. }
  intros [] k1 (Hki1 & Ev1 & r1 & Hrun1 & _).
  eapply runs_seq; [by eapply (quiet_caller k1 cq p r1)|]. intros [] k2 (Hki2 & Ev2 & r2 & Hrun2 & _).
  rewrite Ev1 in Ev2. pose proof Hrun2 as [(_ & Hr2 & Hf2 & Hnr2 & Ho2 & Hin2 & _) Hd2].
  eapply runs_mono; [eapply (mini_receive_run k2 cq p r2); try done; [by left|]|].
  - destruct Hdest as [[-> _]|Hl]; [by left|right]. rewrite Ev2. split; [done|]. intros E. apply Hnself. split; [done|].
    eapply live_inj; [done|done|]. by rewrite Htp.
  - intros res k3 (cq3 & _ & Hki3). by exists cq3.
Qed.

Lemma do_sync_ipc_run k cq p r call e a :
  kinv k cq -> running k p r -> call <> SENDA -> ~ (call = RECEIVE /\ e = p_endpoint r) ->
  runs (do_sync_ipc p call e a) k (fun _ k' => exists cq', kinv k' cq').
Proof.
  intros Hki Hrun Hsenda Hnself. pose proof Hki as [Hk Hi]. pose proof Hrun as [Hc Hdel].
  pose proof Hc as (Hp & Hr & Hfree & Hnr & Ho & Hin & _).
  unfold do_sync_ipc. destruct (check_sync_ipc_run k p r call e Hk Hp Hr Hfree Hsenda) as (c & Ec & Hok).
  eapply runs_step; [exact Ec|]. destruct c as [x|]; cbv iota; [kstep; by exists cq|].
  destruct (Hok eq_refl) as [Hkn Hdest Hself Hnot]. clear Hok Ec.
  assert (live_ep (fld view k) e \/ call = RECEIVE) as Hlive by (destruct Hdest as [[_ ?]|?]; auto).
  destruct (Z.eqb_spec call SENDREC) as [->|].
  { destruct Hlive as [Hl|]; [|done]. eapply runs_seq; [eapply (quiet_caller k cq p r); try done|].
    { unfold view. simpl. by rewrite has_lor, orb_false_r. }
    intros [] k1 (Hki1 & Ev1 & r1 & Hrun1 & _). eapply sendrec_run; [done|done|by rewrite Ev1|by apply Hself]. }
  destruct (Z.eqb_spec call SEND) as [->|].
  { destruct Hlive as [Hl|]; [|done].
    eapply runs_mono; [eapply (mini_send_run k cq p r e (UserPtr a) 0); try done; by apply Hself|].
    intros res k1 (cq1 & _ & Hki1). by exists cq1. }
  destruct (Z.eqb_spec call RECEIVE) as [->|].
  { by apply (receive_call_run k cq p r). }
  destruct (Z.eqb_spec call NOTIFY) as [->|].
  { eapply runs_mono; [apply (mini_notify_run k p e); [done|by apply Hnot|by eapply inv_recv_ok]|].
    intros res k1 (Hk1 & Hw & _). exists cq. split; [done|by eapply wakes_inv]. }
  destruct (Z.eqb_spec call SENDNB) as [->|].
  { destruct Hlive as [Hl|]; [|done].
    eapply runs_mono; [eapply (mini_send_run k cq p r e (UserPtr a) NON_BLOCKING); try done; by apply Hself|].
    intros res k1 (cq1 & _ & Hki1). by exists cq1. }
  kstep. by exists cq.
Qed.

(** ** [do_ipc] *)

(** The stop of a traced process; the flags of a deferred call allow it. *)
Lemma trace_ipc_run k cq p r r1 r2 r3 :
  kinv k cq -> running k p r -> has (p_misc_flags r) MF_SC_ACTIVE = false ->
  runs (trace_ipc p r1 r2 r3) k (fun traced k' => kinv k' cq /\ is_Some (procs k' !! p) /\
    (traced = false -> exists r', running k' p r' /\ fld view k' = fld view k)).
Proof.
  intros Hki Hrun Hact. pose proof Hrun as [(Hp & Hr & Hf & _) _].
  unfold trace_ipc. kstep. destruct (has (p_misc_flags r) (Z.lor MF_SC_TRACE MF_SC_DEFER)); [|kstep; by eauto].
  destruct (Z.land (p_misc_flags r) (Z.lor MF_SC_TRACE MF_SC_DEFER) =? MF_SC_TRACE).
  - eapply runs_seq; [eapply (quiet_caller k cq p r); try done|].
    { unfold view. simpl. by rewrite has_lor, has_ldiff_disj, orb_false_r. }
    intros [] k1 (Hki1 & Ev1 & q & Hrun1 & _). pose proof Hrun1 as [(_ & Hq & Hqf & Hqn & _) _]. kstep.
    destruct (pi_nr _ _ (kb_priv _ (proj1 Hki1)) p (pid q) (fld_of _ _ _ _ Hq) Hp) as [Ep _].
    eapply runs_seq; [eapply (cause_sig_run k1 p q); try done; [apply Hki1|eapply inv_recv_ok, Hki1|
      apply trap_valid|apply trap_not_lethal]|].
    intros [] k2 [Hk2 Hw]. kstep. split_and!; [split; [done|eapply wakes_inv, Hki1; done]| |done].
    by eapply kbase_slot.
  - kstep. set (q := clear_misc MF_SC_DEFER r). set (k1 := put_proc p q k).
    assert (view q = view r) as Eq by (unfold view; simpl; by rewrite has_ldiff_disj).
    assert (fld view k1 = fld view k) as Ev1 by (by eapply fld_put_same).
    assert (procs k1 !! p = Some q) as Hq by apply lookup_insert_eq.
    assert (kinv k1 cq) as Hki1 by (split; [eapply kbase_put; try done; apply Hki|rewrite Ev1; apply Hki]).
    destruct (running_view _ _ _ _ Hrun Ev1) as (q' & Hrun1 & _).
    assert (q' = q) as -> by (destruct Hrun1 as [(_ & ? & _) _]; congruence).
    kstep. kstep; [apply negb_true_iff; by apply has_ldiff_false|].
    eapply runs_seq; [eapply (quiet_caller k1 cq p q); try done|].
    { unfold view. simpl. by rewrite has_lor, orb_false_r. }
    intros [] k2 (Hki2 & Ev2 & q2 & Hrun2 & _). kstep. split_and!; [done|by destruct Hrun2 as [(_ & ? & _) _]; eexists|].
    intros _. exists q2. split; [done|congruence].
Qed.

Lemma do_ipc_run kerninfo k cq r r1 r2 r3 :
  kinv k cq -> running k (proc_ptr k) r -> has (p_misc_flags r) MF_SC_ACTIVE = false ->
  ~ (r1 = RECEIVE /\ r2 = p_endpoint r) ->
  runs (do_ipc kerninfo r1 r2 r3) k (fun _ k' => exists cq', kinv k' cq').
Proof.
  intros Hki Hrun Hact Hself. pose proof Hrun as [(Hp & Hr & Hf & _) _].
  unfold do_ipc. kstep. kstep. kstep; [by rewrite isset_has, Hf by tauto|].
  eapply runs_seq; [by eapply (trace_ipc_run k cq (proc_ptr k) r)|]. intros traced k1 (Hki1 & [q Hq] & Htr).
  destruct traced; [kstep; by exists cq|]. destruct (Htr eq_refl) as (q' & Hrun1 & Ev1).
  pose proof Hrun1 as [(_ & Hq' & Hqf & _) Hqd]. assert (q' = q) as -> by congruence.
  assert (view q = view r) as Eq by (apply (view_at k1 (proc_ptr k)); [done|rewrite Ev1; by apply fld_of]).
  kstep. kstep; [by apply negb_true_iff|].
  destruct (bool_decide (r1 ∈ _)) eqn:Er1.
  - eapply runs_seq; [by eapply (quiet_caller k1 cq (proc_ptr k) q)|]. intros [] k2 (Hki2 & Ev2 & q2 & Hrun2 & Eq2).
    eapply do_sync_ipc_run; [done|done| |].
    + intros ->. by vm_compute in Er1.
    + intros [-> E]. apply Hself. split; [done|]. rewrite E. rewrite Eq in Eq2. exact (f_equal v_ep Eq2).
  - destruct (r1 =? SENDA).
    + eapply runs_seq; [by eapply (quiet_caller k1 cq (proc_ptr k) q)|]. intros [] k2 (Hki2 & Ev2 & q2 & Hrun2 & Eq2).
      destruct (ASYN_MAX <? r2); [kstep; by exists cq|]. pose proof Hrun2 as [(_ & Hq2 & Hqf2 & _) _].
      eapply runs_mono; [eapply (mini_senda_run k2); try done; [apply Hki2|eapply inv_recv_ok, Hki2]|].
      intros res k3 [Hk3 Hw]. exists cq. split; [done|]. eapply wakes_inv, Hki2. done.
    + destruct (r1 =? MINIX_KERNINFO); kstep; by exists cq.
Qed.
End Calls.
