(* ===== verification/KClock.v ===== *)
(** The clock of the kernel: kernel timers and the tick (kernel/clock.c),
    alarms, virtual timers and the calls that read and set the time
    (kernel/system/do_setalarm.c, do_vtimer.c, do_times.c, do_stime.c,
    do_settime.c). *)

From S2P Require Import Prelude Chain Timers KState KSched KBoot KWait KNotify KBase KMain KSignal KIpc KSend.
Local Open Scope Z_scope.

Section Clock.
(** [hz] is the number of clock ticks per second. *)
Context `{Signals} (hz : Z).

(** ** Kernel timers *)

Definition set_kernel_timer (tp exp_time watchdog : Z) : K unit :=
  k ← get;
  r ← opt (tmrs_settimer (clock_timers k) tp exp_time watchdog false);
  modify (with_clock_timers r.2);;
  t ← opt (tmr_exp_time r.2 !! tmrs r.2);
  modify (with_next_timeout t).

Definition timeout_of (q : tmrq) : option Z := if tmrs q =? 0 then Some TMR_NEVER else tmr_exp_time q !! tmrs q.

Definition reset_kernel_timer (tp : Z) : K unit :=
  k ← get;
  r ← opt (tmrs_clrtimer (clock_timers k) tp false);
  modify (with_clock_timers r.2);;
  t ← opt (timeout_of r.2);
  modify (with_next_timeout t).

Definition get_realtime : K Z := gets realtime.
Definition set_realtime (newrealtime : Z) : K unit := modify (with_realtime newrealtime).
Definition set_adjtime_delta (ticks : Z) : K unit := modify (with_adjtime_delta ticks).

(** ** Alarms *)

(** The number that stands for the address of [cause_alarm], the only watchdog
    of the kernel. *)
Definition CAUSE_ALARM : Z := 1.

Definition cause_alarm (tp : Z) : K unit :=
  k ← get;
  proc_nr_e ← opt (alarm_args k !! tp);
  mini_notify (proc_addr CLOCK) proc_nr_e;;
  mret tt.

(** [tp->tmr_func = f] and [tp->tmr_exp_time = t] *)
Definition write_func (tp f : Z) (q : tmrq) : tmrq :=
  TmrQ (tmrs q) (tmr_next q) (tmr_exp_time q) (<[tp := f]> (tmr_func q)).
Definition write_exp (tp t : Z) (q : tmrq) : tmrq :=
  TmrQ (tmrs q) (tmr_next q) (<[tp := t]> (tmr_exp_time q)) (tmr_func q).

(** The result and the ticks that were left on the previous alarm; a timer that
    was never set is zero. *)
Definition do_setalarm (caller exp_time : Z) (use_abs_time : bool) : K (kres * Z) :=
  sf ← rdp s_flags caller;
  if negb (has sf SYS_PROC) then mret (EPERM, 0)
  else
    i ← rd p_priv caller;
    let tp := alarm_timer i in
    ep ← rd p_endpoint caller;
    modify (fun k => with_alarm_args (<[tp := ep]> (alarm_args k)) k);;
    modify (fun k => with_clock_timers (write_func tp CAUSE_ALARM (clock_timers k)) k);;
    uptime ← get_monotonic;
    k ← get;
    let old := default 0 (tmr_exp_time (clock_timers k) !! tp) in
    let left := if negb (old =? TMR_NEVER) && (uptime <? old) then old - uptime else 0 in
    (if exp_time =? 0 then reset_kernel_timer tp
     else
       let t := if use_abs_time then exp_time else exp_time + uptime in
       modify (fun k => with_clock_timers (write_exp tp t (clock_timers k)) k);;
       set_kernel_timer tp t CAUSE_ALARM);;
    mret (OK, left).

(** ** Virtual timers *)

Inductive vtimer := VT_VIRTUAL | VT_PROF.

Definition vt_flag (w : vtimer) : Z := match w with VT_VIRTUAL => MF_VIRT_TIMER | VT_PROF => MF_PROF_TIMER end.
Definition vt_left (w : vtimer) : proc -> Z := match w with VT_VIRTUAL => p_virt_left | VT_PROF => p_prof_left end.
Definition with_vt_left (w : vtimer) : Z -> proc -> proc :=
  match w with VT_VIRTUAL => with_p_virt_left | VT_PROF => with_p_prof_left end.

(** [which] is [None] for a number that names no timer; the second result is
    the old value. *)
Definition do_vtimer (caller : Z) (which : option vtimer) (set : bool) (value endpt : Z) : K (kres * Z) :=
  sf ← rdp s_flags caller;
  if negb (has sf SYS_PROC) then mret (EPERM, 0)
  else
    match which with
    | None => mret (EINVAL, 0)
    | Some w =>
        cep ← rd p_endpoint caller;
        ok ← isokendpt (if endpt =? SELF then cep else endpt);
        match ok with
        | None => mret (EINVAL, 0)
        | Some proc_nr =>
            let rp := proc_addr proc_nr in
            mf ← rd p_misc_flags rp;
            left ← rd (vt_left w) rp;
            let old_value := if has mf (vt_flag w) then left else 0 in
            (if set
             then
               upd rp (clear_misc (vt_flag w));;
               (if 0 <? value then upd rp (with_vt_left w value);; upd rp (set_misc (vt_flag w))
                else upd rp (with_vt_left w 0))
             else mret tt);;
            mret (OK, old_value)
        end
    end.

Definition vtimer_check_one (rp : Z) (w : vtimer) (sig : Z) : K unit :=
  mf ← rd p_misc_flags rp;
  left ← rd (vt_left w) rp;
  if has mf (vt_flag w) && (left =? 0)
  then
    upd rp (fun r => with_vt_left w 0 (clear_misc (vt_flag w) r));;
    nr ← rd p_nr rp;
    cause_sig nr sig
  else mret tt.

Definition vtimer_check (rp : Z) : K unit :=
  vtimer_check_one rp VT_VIRTUAL SIGVTALRM;;
  vtimer_check_one rp VT_PROF SIGPROF.

(** ** The load average *)

Definition _LOAD_UNIT_SECS : Z := 6.
Definition _LOAD_HISTORY : Z := 60 * 15 / _LOAD_UNIT_SECS.

(** The nodes of a ready list. *)
Fixpoint count_list (fuel : nat) (p enqueued : Z) : K Z :=
  match fuel with
  | O => ub
  | S fuel => if p =? 0 then mret enqueued else nx ← rd p_nextready p; count_list fuel nx (enqueued + 1)
  end.

Fixpoint count_queues (qs : list Z) (enqueued : Z) : K Z :=
  match qs with
  | [] => mret enqueued
  | q :: qs' =>
      h ← rd_head q;
      n ← gets (fun k => size (procs k));
      e ← count_list (S n) h enqueued;
      count_queues qs' e
  end.

Definition load_update : K unit :=
  mono ← gets monotonic;
  let slot := (mono / hz / _LOAD_UNIT_SECS) mod _LOAD_HISTORY in
  l ← gets kloadinfo;
  (if negb (slot =? proc_last_slot l)
   then modify (with_kloadinfo (with_proc_last_slot slot (with_proc_load_history (<[slot := 0]> (proc_load_history l)) l)))
   else mret tt);;
  enqueued ← count_queues queues 0;
  l ← gets kloadinfo;
  let h := default 0 (proc_load_history l !! slot) in
  modify (with_kloadinfo (with_last_clock mono
    (with_proc_load_history (<[slot := (h + enqueued) mod 2 ^ 16]> (proc_load_history l)) l))).

(** ** The tick *)

Definition tick_time : K unit :=
  modify (fun k => with_monotonic (monotonic k + 1) k);;
  k ← get;
  if negb (adjtime_delta k =? 0) && Z.odd (monotonic k)
  then
    modify (with_realtime (realtime k + if 0 <? adjtime_delta k then 2 else 0));;
    modify (with_adjtime_delta (adjtime_delta k + if 0 <? adjtime_delta k then -1 else 1))
  else modify (with_realtime (realtime k + 1)).

Definition dec_vtimer (p : Z) (w : vtimer) : K unit :=
  mf ← rd p_misc_flags p;
  left ← rd (vt_left w) p;
  if has mf (vt_flag w) && (0 <? left) then upd p (with_vt_left w (left - 1)) else mret tt.

Definition run_watchdog (f tp : Z) : K unit := if f =? CAUSE_ALARM then cause_alarm tp else ub.

Definition call_watchdog (f tp : Z) (s : tmrq * kstate) : option (tmrq * kstate) :=
  match run_watchdog f tp (with_clock_timers s.1 s.2) with
  | Some (_, k') => Some (clock_timers k', k')
  | None => None
  end.

Definition expire_kernel_timers : K unit :=
  k ← get;
  if next_timeout k <=? monotonic k
  then
    r ← opt (tmrs_exptimers call_watchdog (S (size (tmr_next (clock_timers k)))) (monotonic k) false (clock_timers k, k));
    let '(q, k') := r.2 in
    modify (fun _ => with_clock_timers q k');;
    t ← opt (timeout_of q);
    modify (with_next_timeout t)
  else mret tt.

Definition charge (p billp : Z) : K unit :=
  upd p (fun r => with_p_user_time (p_user_time r + 1) r);;
  sf ← rdp s_flags p;
  (if negb (has sf BILLABLE) then upd billp (fun r => with_p_sys_time (p_sys_time r + 1) r) else mret tt);;
  dec_vtimer p VT_VIRTUAL;;
  dec_vtimer p VT_PROF;;
  (if negb (has sf BILLABLE) then dec_vtimer billp VT_PROF else mret tt).

Definition timer_int_handler : K Z :=
  tick_time;;
  p ← gets proc_ptr;
  billp ← gets bill_ptr;
  charge p billp;;
  vtimer_check p;;
  (if negb (p =? billp) then vtimer_check billp else mret tt);;
  load_update;;
  expire_kernel_timers;;
  mret 1.

(** ** Reading and setting the time *)

(** The user and system time of the process, if it exists, and the monotonic,
    real and boot time. *)
Definition do_times (caller endpt : Z) : K (option (Z * Z) * Z * Z * Z) :=
  cep ← rd p_endpoint caller;
  let e_proc_nr := if endpt =? SELF then cep else endpt in
  ok ← (if negb (e_proc_nr =? NONE) then isokendpt e_proc_nr else mret None);
  times ← match ok with
          | Some proc_nr => u ← rd p_user_time (proc_addr proc_nr); s ← rd p_sys_time (proc_addr proc_nr); mret (Some (u, s))
          | None => mret None
          end;
  mono ← get_monotonic;
  real ← get_realtime;
  boot ← gets boottime;
  mret (times, mono, real, boot).

Definition do_stime (boot_time : Z) : K kres := modify (with_boottime boot_time);; mret OK.

Definition LONG_MAX : Z := 2 ^ 31 - 1.
Definition LONG_MIN : Z := - 2 ^ 31.

(** [realtime_clock] tells whether the clock is [CLOCK_REALTIME]; [now] is zero
    for a gradual change. *)
Definition do_settime (realtime_clock : bool) (now sec nsec : Z) : K kres :=
  if negb realtime_clock then mret EINVAL
  else if now =? 0
  then set_adjtime_delta (sec * hz + Z.quot nsec (1000000000 / hz));; mret OK
  else
    boot ← gets boottime;
    let timediff_ticks := (sec - boot) * hz in
    if (sec <=? boot) || (timediff_ticks <? Z.quot LONG_MIN 2) || (Z.quot LONG_MAX 2 <? timediff_ticks)
    then modify (with_boottime sec);; set_realtime 1;; mret OK
    else set_realtime (timediff_ticks + Z.quot nsec (1000000000 / hz));; mret OK.
End Clock.

Lemma bind_modify {A} (f : kstate -> kstate) (g : unit -> K A) k : (modify f ≫= g) k = g tt (f k).
Proof. done. Qed.

(** ** What signals and notifications leave alone *)

Definition vt_bits (r : proc) : Z := Z.land (p_misc_flags r) (Z.lor MF_VIRT_TIMER MF_PROF_TIMER).

Definition clk (k : kstate) : tmrq * gmap Z Z * Z * Z * (Z * Z) * gmap Z Z :=
  (clock_timers k, alarm_args k, next_timeout k, monotonic k, (proc_ptr k, bill_ptr k), fld vt_bits k).

Definition keepc {A} (m : K A) : Prop := forall k a k', m k = Some (a, k') -> clk k' = clk k.

Lemma runs_keepc {A} (m : K A) k (Q : A -> kstate -> Prop) :
  keepc m -> runs m k Q -> runs m k (fun a k' => Q a k' /\ clk k' = clk k).
Proof. intros Hm. unfold runs. destruct (m k) as [[a k']|] eqn:E; [|done]. intros HQ. by rewrite (Hm _ _ _ E). Qed.

Lemma keepc_bind {A B} (m : K A) (f : A -> K B) : keepc m -> (forall a, keepc (f a)) -> keepc (m ≫= f).
Proof. intros Hm Hf k b k' (a & k1 & E1 & E2)%bind_Some. by rewrite (Hf _ _ _ _ E2), (Hm _ _ _ E1). Qed.

Lemma keepc_same {A} (m : K A) : (forall k a k', m k = Some (a, k') -> k' = k) -> keepc m.
Proof. intros Hm k a k' ->%Hm. done. Qed.

Lemma keepc_ret {A} (a : A) : keepc (mret a).
Proof. apply keepc_same. by intros ? ? ? [= _ ->]. Qed.

Lemma keepc_ub {A} : keepc (ub : K A).
Proof. done. Qed.

Lemma keepc_get : keepc get.
Proof. apply keepc_same. by intros ? ? ? [= _ ->]. Qed.

Lemma keepc_gets {A} (f : kstate -> A) : keepc (gets f).
Proof. apply keepc_same. by intros ? ? ? [= _ ->]. Qed.

Lemma keepc_opt {A} (o : option A) : keepc (opt o).
Proof. apply keepc_same. intros k a k'. destruct o; [|done]. by intros [= _ ->]. Qed.

Lemma keepc_assert b : keepc (kassert b).
Proof. destruct b; [apply keepc_ret|apply keepc_ub]. Qed.

Lemma keepc_modify f : (forall k, clk (f k) = clk k) -> keepc (modify f).
Proof. intros Hf k [] k' [= <-]. apply Hf. Qed.

Create HintDb keepc.
#[export] Hint Resolve keepc_ret keepc_ub keepc_get keepc_gets keepc_opt keepc_assert : keepc.

Lemma keepc_rda {A} (g : priv -> A) i : keepc (rda g i).
Proof. unfold rda. repeat (apply keepc_bind; [auto with keepc|intros ?]). auto with keepc. Qed.

Lemma keepc_rd {A} (g : proc -> A) p : keepc (rd g p).
Proof. unfold rd. repeat (apply keepc_bind; [auto with keepc|intros ?]). auto with keepc. Qed.

Lemma keepc_rdp {A} (g : priv -> A) p : keepc (rdp g p).
Proof. apply keepc_bind; [apply keepc_rd|intros i]. apply (keepc_rda g i). Qed.

Lemma keepc_upd p f : (forall r, vt_bits (f r) = vt_bits r) -> keepc (upd p f).
Proof.
  intros Hf k [] k'. unfold upd. mrun. destruct (procs k !! p) as [r|] eqn:Hr; [|done]. intros [= <-].
  unfold clk. f_equal. exact (fld_put_same vt_bits p (f r) r k Hr (Hf r)).
Qed.

Lemma keepc_updp p f : keepc (updp p f).
Proof.
  apply keepc_bind; [apply keepc_rd|]. intros i k [] k'. mrun.
  destruct (privs k !! i) as [s|] eqn:Hs; [|done]. by intros [= <-].
Qed.

#[export] Hint Resolve keepc_rd keepc_rda keepc_rdp keepc_updp : keepc.

Lemma vt_bits_set b r : Z.land b (Z.lor MF_VIRT_TIMER MF_PROF_TIMER) = 0 -> vt_bits (set_misc b r) = vt_bits r.
Proof. intros E. unfold vt_bits. simpl. by rewrite Z.land_lor_distr_l, E, Z.lor_0_r. Qed.

Lemma vt_bits_clear b r : Z.land b (Z.lor MF_VIRT_TIMER MF_PROF_TIMER) = 0 -> vt_bits (clear_misc b r) = vt_bits r.
Proof.
  intros E. unfold vt_bits. simpl. apply Z.bits_inj'. intros n Hn. rewrite !Z.land_spec, Z.ldiff_spec.
  apply (f_equal (fun z => Z.testbit z n)) in E. rewrite Z.land_spec, Z.bits_0 in E.
  by destruct (Z.testbit (p_misc_flags r) n), (Z.testbit b n), (Z.testbit (Z.lor MF_VIRT_TIMER MF_PROF_TIMER) n).
Qed.

(** Structural proofs of [keepc]. *)
Ltac keepc :=
  repeat match goal with
  | |- keepc (_ ≫= _) => apply keepc_bind; [|intros ?]
  | |- keepc (upd _ _) => apply keepc_upd; intros ?; first [done | by apply vt_bits_set | by apply vt_bits_clear | idtac]
  | |- keepc (match ?x with _ => _ end) => destruct x
  | |- keepc _ => solve [auto with keepc]
  end.

Lemma keepc_wr_head q v : keepc (wr_head q v).
Proof. unfold wr_head. keepc. by apply keepc_modify. Qed.

Lemma keepc_wr_tail q v : keepc (wr_tail q v).
Proof. unfold wr_tail. keepc. by apply keepc_modify. Qed.

#[export] Hint Resolve keepc_wr_head keepc_wr_tail : keepc.

Lemma keepc_dequeue p : keepc (dequeue p).
Proof. unfold dequeue, unlink, rd_head, rd_tail, wr_ready, read_tsc_64. keepc. Qed.

#[export] Hint Resolve keepc_dequeue : keepc.

Lemma keepc_RTS_SET p f : keepc (RTS_SET p f).
Proof. unfold RTS_SET. keepc. Qed.

#[export] Hint Resolve keepc_RTS_SET : keepc.

Lemma keepc_RTS_UNSET p f : keepc (RTS_UNSET p f).
Proof.
  unfold RTS_UNSET, enqueue, add_tail, preempt_current, note_enter_queue, rd_head, rd_tail, read_tsc_64. keepc.
Qed.

#[export] Hint Resolve keepc_RTS_UNSET : keepc.

Lemma keepc_isokendpt e : keepc (isokendpt e).
Proof. unfold isokendpt, isokendpt_f, endpoint_ok, isemptyp. keepc. Qed.

#[export] Hint Resolve keepc_isokendpt : keepc.

Lemma keepc_mini_notify p e : keepc (mini_notify p e).
Proof.
  unfold mini_notify, WILLRECEIVE, BuildNotifyMessage, get_monotonic, IPC_STATUS_ADD_CALL, IPC_STATUS_ADD, deliver.
  keepc. rewrite vt_bits_set; done.
Qed.

#[export] Hint Resolve keepc_mini_notify : keepc.

Lemma keepc_send_sig `{Signals} e sig : keepc (send_sig e sig).
Proof. unfold send_sig, increase_proc_signals. keepc. Qed.

#[export] Hint Resolve keepc_send_sig : keepc.

Lemma keepc_cause_sig `{Signals} n sig : keepc (cause_sig n sig).
Proof.
  unfold cause_sig. generalize 3%nat as fuel. intros fuel. revert n.
  induction fuel as [|fuel IH]; intros n; cbn [cause_sig_rec]; [auto with keepc|].
  unfold signal_manager, must_send_sig, increase_proc_signals. keepc.
Qed.

Section Tick.
Context `{SignalLaws} (hz : Z).

(** ** One process and its virtual timers *)

(** Only user processes have virtual timers. *)
Definition timer_user (k : kstate) (p : Z) : Prop :=
  exists r, procs k !! p = Some r /\
    ((in_table p = true /\ has (p_rts_flags r) RTS_SLOT_FREE = false /\ iskerneln (p_nr r) = false) \/ vt_bits r = 0).

Lemma wakes_ident m m' x v :
  wakes m m' -> m !! x = Some v -> exists v', m' !! x = Some v' /\ v_free v' = v_free v /\ v_nr v' = v_nr v.
Proof.
  intros Hw. revert v. induction Hw as [m|m m2 m3 [p w msg Hv Ho Hi] _ IH]; intros v Hx; [by exists v|].
  destruct (decide (p = x)) as [->|Hne].
  - destruct (IH (v_wake msg w)) as (v' & Hv' & E1 & E2); [by rewrite lookup_insert_eq|].
    exists v'. simplify_eq. done.
  - apply IH. by rewrite lookup_insert_ne.
Qed.

Lemma timer_user_step k k' p :
  wakes (fld view k) (fld view k') -> fld vt_bits k' !! p = fld vt_bits k !! p -> timer_user k p -> timer_user k' p.
Proof.
  intros Hw Hb (r & Hr & Hu). destruct (wakes_ident _ _ _ _ Hw (fld_of view _ _ _ Hr)) as (v' & Hv' & E1 & E2).
  apply fld_Some in Hv' as (r' & Hr' & <-). exists r'. split; [done|]. simpl in E1, E2.
  rewrite (fld_of _ _ _ _ Hr), (fld_of _ _ _ _ Hr') in Hb. injection Hb as Hb. rewrite E1, E2, Hb. done.
Qed.

(** A step of the tick: the invariant stays, and so do the clock and the
    timers of other processes. *)
Definition ticked (k : kstate) (cq : Z -> list Z) (k' : kstate) : Prop :=
  kinv k' cq /\ (forall x, timer_user k x -> timer_user k' x) /\
  (clock_timers k', alarm_args k', next_timeout k', monotonic k', (proc_ptr k', bill_ptr k')) =
  (clock_timers k, alarm_args k, next_timeout k, monotonic k, (proc_ptr k, bill_ptr k)).

Lemma ticked_refl k cq : kinv k cq -> ticked k cq k.
Proof. intros Hk. split; [done|]. split; [auto|done]. Qed.

Lemma ticked_trans k1 k2 k3 cq : ticked k1 cq k2 -> ticked k2 cq k3 -> ticked k1 cq k3.
Proof. intros (_ & H1 & E1) (? & H2 & E2). split; [done|]. split; [auto|congruence]. Qed.

(** An assignment to accounting fields, or one that ends virtual timers. *)
Lemma tick_upd k cq p r f :
  kinv k cq -> procs k !! p = Some r ->
  p_rts_flags (f r) = p_rts_flags r -> p_priority (f r) = p_priority r -> p_nextready (f r) = p_nextready r ->
  pid (f r) = pid r -> view (f r) = view r -> (vt_bits (f r) = vt_bits r \/ (vt_bits r = 0 -> vt_bits (f r) = 0)) ->
  runs (upd p f) k (fun _ k' => ticked k cq k' /\ k' = put_proc p (f r) k).
Proof.
  intros [Hk Hi] Hr E1 E2 E3 E4 E5 E6. kstep. split; [|done]. split; [|split; [intros x (rx & Hx & Hu)|done]].
  - split; [by eapply kbase_put_any|]. by rewrite (fld_put_same view p (f r) r k Hr E5).
  - unfold timer_user. simpl. destruct (decide (p = x)) as [->|].
    + rewrite lookup_insert_eq. assert (rx = r) as -> by congruence. exists (f r). split; [done|].
      destruct Hu as [Hu|Hu]; [left; rewrite E1; injection E4 as _ -> _ _; done|right].
      destruct E6 as [E6|E6]; [congruence|auto].
    + rewrite lookup_insert_ne by done. by exists rx.
Qed.

Lemma vt_zero r w : vt_bits r = 0 -> has (p_misc_flags r) (vt_flag w) = false.
Proof.
  unfold vt_bits. intros E. unfold has. apply negb_false_iff, Z.eqb_eq. apply Z.bits_inj'. intros n Hn.
  apply (f_equal (fun z => Z.testbit z n)) in E. rewrite Z.land_spec, Z.lor_spec, Z.bits_0 in E.
  rewrite Z.land_spec, Z.bits_0. destruct w; simpl; destruct (Z.testbit (p_misc_flags r) n); try done; simpl in *;
    apply orb_false_iff in E as [? ?]; done.
Qed.

Lemma vt_clear_zero w r : vt_bits r = 0 -> vt_bits (with_vt_left w 0 (clear_misc (vt_flag w) r)) = 0.
Proof.
  unfold vt_bits. intros E. destruct w; simpl; apply Z.bits_inj'; intros n Hn;
    apply (f_equal (fun z => Z.testbit z n)) in E; rewrite Z.land_spec in E;
    rewrite Z.land_spec, Z.ldiff_spec, Z.bits_0 in *;
    destruct (Z.testbit (p_misc_flags r) n), (Z.testbit (Z.lor MF_VIRT_TIMER MF_PROF_TIMER) n); try done; by destruct (negb _).
Qed.

Lemma vtimer_check_one_run k cq p w sig :
  kinv k cq -> timer_user k p -> valid_sig sig = true -> SIGS_IS_LETHAL sig = false ->
  runs (vtimer_check_one p w sig) k (fun _ k' => ticked k cq k').
Proof.
  intros Hki (r & Hr & Hu) Hsig Hle. unfold vtimer_check_one. kstep. kstep.
  destruct (has (p_misc_flags r) (vt_flag w)) eqn:Ef; cbn [andb]; [|kstep; by apply ticked_refl].
  destruct (vt_left w r =? 0); [|kstep; by apply ticked_refl].
  destruct Hu as [(Hp & Hfree & Hnr)|Hz]; [|by rewrite (vt_zero _ w Hz) in Ef].
  eapply runs_seq; [eapply (tick_upd k cq p r); [done|done|by destruct w..| |]|].
  { unfold view. destruct w; simpl; by rewrite has_ldiff_disj. }
  { right. apply vt_clear_zero. }
  intros [] k1 [Ht1 Ek1]. pose proof Ht1 as ([Hk1 Hi1] & Hu1 & Ec1).
  set (r1 := with_vt_left w 0 (clear_misc (vt_flag w) r)) in *.
  assert (procs k1 !! p = Some r1) as Hr1 by (rewrite Ek1; apply lookup_insert_eq).
  assert (p_rts_flags r1 = p_rts_flags r /\ p_nr r1 = p_nr r) as [Ef1 En1] by (by destruct w).
  kstep. destruct (pi_nr _ _ (kb_priv _ Hk1) p (pid r1) (fld_of _ _ _ _ Hr1) Hp) as [Ep _]. simpl in Ep.
  eapply runs_mono; [apply runs_keepc; [apply keepc_cause_sig|]; eapply (cause_sig_run k1 p r1); try done|].
  - by rewrite Ef1.
  - by rewrite En1.
  - by eapply inv_recv_ok.
  - intros [] k2 [[Hk2 Hw2] Hc2]. injection Hc2 as Hq2 Ha2 Hn2 Hm2 Hp2 Hb2 Hvt. split; [|split].
    + split; [done|by eapply wakes_inv].
    + intros x Hx. eapply timer_user_step; [done|by rewrite Hvt|auto].
    + congruence.
Qed.

Lemma vtimer_check_run k cq p :
  kinv k cq -> timer_user k p -> runs (vtimer_check p) k (fun _ k' => ticked k cq k').
Proof.
  intros Hki Hu. unfold vtimer_check.
  eapply runs_seq; [apply vtimer_check_one_run; [done|done|apply vtalrm_valid|apply vtalrm_not_lethal]|].
  intros [] k1 Ht1. pose proof Ht1 as (Hki1 & Hu1 & _).
  eapply runs_mono; [apply vtimer_check_one_run; [done|by apply Hu1|apply prof_valid|apply prof_not_lethal]|].
  intros [] k2 Ht2. by eapply ticked_trans.
Qed.

Lemma dec_vtimer_run k cq p w : kinv k cq -> timer_user k p -> runs (dec_vtimer p w) k (fun _ k' => ticked k cq k').
Proof.
  intros Hki (r & Hr & Hu). unfold dec_vtimer. kstep. kstep. destruct (_ && _); [|kstep; by apply ticked_refl].
  eapply runs_mono; [eapply (tick_upd k cq p r); [done|done|by destruct w..|left; by destruct w]|]. by intros [] k1 [Ht _].
Qed.

Lemma ticked_if (b : bool) (m : K unit) k cq :
  kinv k cq -> (b = true -> runs m k (fun _ k' => ticked k cq k')) ->
  runs (if b then m else mret tt) k (fun _ k' => ticked k cq k').
Proof. intros Hki Hm. destruct b; [by apply Hm|]. kstep. by apply ticked_refl. Qed.

(** Steps one after the other. *)
Lemma ticked_seq {A} (m : K unit) (f : unit -> K A) k cq (Q : A -> kstate -> Prop) :
  runs m k (fun _ k' => ticked k cq k') ->
  (forall k', ticked k cq k' -> runs (f tt) k' Q) -> runs (m ≫= f) k Q.
Proof. intros Hm Hf. eapply runs_seq; [exact Hm|]. intros [] k' Ht. by apply Hf. Qed.

Lemma charge_run k cq billp :
  kinv k cq -> timer_user k (proc_ptr k) -> timer_user k billp ->
  runs (charge (proc_ptr k) billp) k (fun _ k' => ticked k cq k').
Proof.
  intros Hki Hu Hub. unfold charge. pose proof Hu as (r & Hr & _).
  eapply ticked_seq; [eapply runs_mono; [eapply (tick_upd k cq _ r); try done; by left|]; by intros [] ? [? _]|].
  intros k1 Ht1. pose proof Ht1 as (Hki1 & Hu1 & Ec1).
  assert (proc_ptr k1 = proc_ptr k) as Ep1 by congruence.
  destruct (kb_sched _ (proj1 Hki1)) as [rq Hs]. destruct (si_cpu _ _ Hs) as (c & s & Hc & Hcs). rewrite Ep1 in Hc. kstep.
  eapply ticked_seq; [apply ticked_if; [done|]; intros _; pose proof (Hu1 _ Hub) as (rb & Hrb & _);
    eapply runs_mono; [eapply (tick_upd k1 cq _ rb); try done; by left|]; by intros [] ? [? _]|].
  intros k2 Ht2. pose proof (ticked_trans _ _ _ _ Ht1 Ht2) as Ht12. pose proof Ht12 as (Hki2 & Hu2 & _).
  eapply ticked_seq; [apply dec_vtimer_run; [done|by apply Hu2]|].
  intros k3 Ht3. pose proof (ticked_trans _ _ _ _ Ht12 Ht3) as Ht13. pose proof Ht13 as (Hki3 & Hu3 & _).
  eapply ticked_seq; [apply dec_vtimer_run; [done|by apply Hu3]|].
  intros k4 Ht4. pose proof (ticked_trans _ _ _ _ Ht13 Ht4) as Ht14. pose proof Ht14 as (Hki4 & Hu4 & _).
  eapply runs_mono; [apply ticked_if; [done|]; intros _; apply dec_vtimer_run; [done|by apply Hu4]|].
  intros [] k5 Ht5. by eapply ticked_trans.
Qed.

(** ** The load *)

Lemma count_list_run fuel k p l e :
  chain (links (fld p_nextready k)) p l -> (length l < fuel)%nat ->
  count_list fuel p e k = Some (e + Z.of_nat (length l), k).
Proof.
  revert p l e. induction fuel as [|fuel IH]; intros p l e Hc Hl; [lia|]. cbn [count_list].
  destruct l as [|x l]; [apply chain_nil_head in Hc as ->; simpl; by rewrite Z.add_0_r|].
  pose proof (chain_cons_head _ _ _ _ Hc) as [-> Hp0]. destruct (Z.eqb_spec p 0); [done|].
  destruct (chain_cons_inv _ _ _ Hc Hp0) as (q & l' & [= <-] & Hq & Hc').
  apply fld_Some in Hq as (r & Hr & <-). rewrite (bind_run _ _ _ _ _ (rd_run p_nextready _ _ _ Hr)).
  rewrite (IH _ _ _ Hc') by (simpl in Hl; lia). do 2 f_equal. simpl. lia.
Qed.

(** The sample of the load is the number of ready processes. *)
Lemma count_queues_run k rq qs e :
  rq_ok k rq -> (forall q, q ∈ qs -> queue_nr q) ->
  count_queues qs e k = Some (e + foldr (fun q n => Z.of_nat (length (rq q)) + n) 0 qs, k).
Proof.
  intros Hok. revert e. induction qs as [|q qs IH]; intros e Hqs; cbn [count_queues foldr]; [by rewrite Z.add_0_r|].
  destruct (rqs_chain _ _ (rq_struct _ _ Hok) q) as (h & Eh & Hc); [apply Hqs; left|].
  rewrite (bind_run _ _ _ _ _ (rd_head_run _ _ _ Eh)).
  rewrite (bind_run (gets (fun k => size (procs k))) _ k (size (procs k)) k eq_refl).
  assert (length (rq q) < S (size (procs k)))%nat as Hlen.
  { pose proof (chain_length _ _ _ Hc) as Hl. unfold fld in Hl. rewrite map_size_fmap in Hl. lia. }
  rewrite (bind_run _ _ _ _ _ (count_list_run _ _ _ _ e Hc Hlen)).
  rewrite IH by (intros; apply Hqs; by right). do 2 f_equal. lia.
Qed.

Lemma ticked_ext k cq k' :
  kinv k cq -> procs k' = procs k -> privs k' = privs k -> run_q_head k' = run_q_head k -> run_q_tail k' = run_q_tail k ->
  proc_ptr k' = proc_ptr k -> bill_ptr k' = bill_ptr k -> utab k' = utab k -> clock_timers k' = clock_timers k ->
  alarm_args k' = alarm_args k -> next_timeout k' = next_timeout k -> monotonic k' = monotonic k -> ticked k cq k'.
Proof.
  intros [Hk Hi] E1 E2 E3 E4 E5 E6 E7 E8 E9 E10 E11. split; [split; [by eapply kbase_ext|]|split].
  - unfold fld. by rewrite E1.
  - intros x (r & Hr & Hu). exists r. by rewrite E1.
  - congruence.
Qed.

Lemma load_update_run k cq : kinv k cq -> runs (load_update hz) k (fun _ k' => ticked k cq k').
Proof.
  intros Hki. unfold load_update. kstep. kstep.
  eapply ticked_seq; [apply ticked_if; [done|]; intros _; eapply runs_of; [reflexivity|]; by apply ticked_ext|].
  intros k1 Ht1. pose proof Ht1 as (Hki1 & _). destruct (kb_sched _ (proj1 Hki1)) as [rq Hs].
  eapply runs_step; [apply (count_queues_run k1 rq); [apply Hs|intros q; apply elem_of_queues]|].
  kstep. eapply runs_of; [reflexivity|]. eapply ticked_trans; [exact Ht1|]. by apply ticked_ext.
Qed.

(** ** Alarms *)

(** Every timer of the queue is an alarm with its argument. *)
Definition alarms_ok (q : tmrq) (args : gmap Z Z) (l : list Z) : Prop :=
  forall p, p ∈ l -> tmr_func q !! p = Some CAUSE_ALARM /\ is_Some (args !! p).

Lemma clock_notifies k : kbase k -> may_notify k (proc_addr CLOCK).
Proof.
  intros Hk. destruct (pi_tasks _ _ (kb_priv _ Hk) CLOCK) as (d & s & Hd & Hf & Hs & Hsys); [tauto|].
  apply fld_Some in Hd as (r & Hr & <-). split; [done|]. by exists r, s.
Qed.

(** What a tick changes apart from the queue of timers. *)
Definition ticked_rest (k : kstate) (cq : Z -> list Z) (k' : kstate) : Prop :=
  kinv k' cq /\ (forall x, timer_user k x -> timer_user k' x) /\
  (alarm_args k', next_timeout k', monotonic k', (proc_ptr k', bill_ptr k')) =
  (alarm_args k, next_timeout k, monotonic k, (proc_ptr k, bill_ptr k)).

Lemma call_watchdog_run q k cq tp :
  kinv k cq -> is_Some (alarm_args k !! tp) ->
  exists k', call_watchdog CAUSE_ALARM tp (q, k) = Some (q, k') /\ ticked_rest k cq k'.
Proof.
  intros Hki [e He]. unfold call_watchdog, run_watchdog. rewrite Z.eqb_refl. simpl.
  set (k1 := with_clock_timers q k).
  assert (kinv k1 cq) as [Hk1 Hi1] by (destruct Hki; split; [by eapply (kbase_ext k)|done]).
  assert (runs (cause_alarm tp) k1 (fun _ k' => (kbase k' /\ wakes (fld view k1) (fld view k')) /\ clk k' = clk k1))
    as Hrun.
  { apply runs_keepc; [unfold cause_alarm; keepc|]. unfold cause_alarm. kstep. simpl. rewrite He.
    eapply runs_step; [reflexivity|]. eapply runs_seq; [apply (mini_notify_run k1); [done|by apply clock_notifies|by eapply inv_recv_ok]|].
    intros res k2 (Hk2 & Hw & _). by kstep. }
  apply runs_inv in Hrun as ([] & k' & E & [Hk' Hw] & Hc). rewrite E. exists k'.
  injection Hc as Hq Ha Hn Hm Hp Hb Hvt. rewrite Hq. split; [done|]. split; [split; [done|by eapply wakes_inv]|split].
  - intros x Hx. eapply (timer_user_step k1); [done|by rewrite Hvt|exact Hx].
  - rewrite Ha, Hn, Hm, Hp, Hb. done.
Qed.

Lemma exp_alarms fuel now q k cq l :
  kinv k cq -> tmrq_wf q l -> alarms_ok q (alarm_args k) l -> (length (due q now l) < fuel)%nat ->
  exists q' k', exp_loop call_watchdog fuel now (q, k) = Some (q', k') /\ ticked_rest k cq k' /\
    tmrq_wf q' (later q now l) /\ tmr_func q' = tmr_func q /\
    (forall p, p ∈ later q now l -> texp q' p = texp q p).
Proof.
  revert q k l. induction fuel as [|fuel IH]; intros q k l Hki Hwf Hal Hf; [lia|]. simpl. destruct l as [|p l].
  - rewrite (chain_nil_head _ _ (wf_chain _ _ Hwf)). simpl. exists q, k. split_and!; try done.
  - destruct (popped_wf _ _ _ Hwf) as (nx&f&->&Hn0&Hnx&Hff&Hee&Hwf'&Ht).
    destruct (Z.eqb_spec (tmrs q) 0); [done|]. rewrite Hee. simpl.
    assert (later (popped q nx) now l = later q now l) as Hl by (apply from_ext; intros; by rewrite Ht).
    destruct (Z.leb_spec (texp q (tmrs q)) now) as [Hle|Hgt].
    + rewrite (due_popped _ _ _ _ _ Ht Hle) in Hf. rewrite Hnx, Hff. simpl.
      destruct (Hal (tmrs q)) as [Efn Harg]; [left|]. assert (f = CAUSE_ALARM) as -> by congruence.
      destruct (call_watchdog_run (popped q nx) k cq (tmrs q) Hki Harg) as (k1 & E1 & Ht1).
      unfold popped in E1 at 1. rewrite E1. simpl. destruct Ht1 as (Hki1 & Hu1 & Ec1).
      destruct (IH (popped q nx) k1 l Hki1 Hwf') as (q' & k' & E & (Hki' & Hu' & Ec') & Hwf2 & Hfn & Het); [|lia|].
      { intros p Hp. destruct (Hal p) as [? ?]; [by right|]. split; [done|]. by injection Ec1 as -> _ _ _ _. }
      exists q', k'. rewrite Hl in Hwf2, Het.
      assert (later q now (tmrs q :: l) = later q now l) as ->
        by (unfold later; simpl; destruct (Z.ltb_spec now (texp q (tmrs q))); [lia|done]).
      split_and!; [done|split; [done|split; [auto|congruence]]|done|done|].
      intros p Hp. rewrite Het by done. apply Ht. unfold later in Hp.
      rewrite <- (before_from (fun p => now <? texp q p) l). set_solver.
    + exists q, k. unfold later. simpl. destruct (Z.ltb_spec now (texp q (tmrs q))); [|lia]. split_and!; try done.
Qed.

(** The queue of kernel timers: well-formed, of alarms, and watched. *)
Record clock_ok (k : kstate) (l : list Z) : Prop := {
  ck_wf : tmrq_wf (clock_timers k) l;
  ck_alarms : alarms_ok (clock_timers k) (alarm_args k) l;
  ck_next : l <> [] -> next_timeout k = front (clock_timers k) l;
}.

Lemma clock_idle k : tmrs (clock_timers k) = 0 -> clock_ok k [].
Proof. intros E. split; [split|by intros p ?%elem_of_nil|done]; [rewrite E; constructor|by intros p ?%elem_of_nil..|constructor]. Qed.

Lemma timeout_front q l : tmrq_wf q l -> exists t, timeout_of q = Some t /\ (l <> [] -> t = front q l).
Proof.
  intros Hwf. unfold timeout_of. destruct (Z.eqb_spec (tmrs q) 0) as [E|E].
  - eexists. split; [done|]. intros Hl. pose proof (wf_chain _ _ Hwf) as Hc. rewrite E in Hc. by apply chain_nil_inv in Hc.
  - destruct (chain_cons_inv _ _ _ (wf_chain _ _ Hwf) E) as (q' & l' & -> & _).
    destruct (wf_exp _ _ Hwf (tmrs q)) as [t Ht]; [left|]. rewrite Ht. exists t. split; [done|].
    intros _. unfold front, texp. by rewrite Ht.
Qed.

Lemma expire_run k cq l :
  kinv k cq -> clock_ok k l ->
  runs expire_kernel_timers k (fun _ k' => kinv k' cq /\ monotonic k' = monotonic k /\
    clock_ok k' (later (clock_timers k) (monotonic k) l) /\
    forall p, p ∈ later (clock_timers k) (monotonic k) l -> texp (clock_timers k') p = texp (clock_timers k) p).
Proof.
  intros Hki [Hwf Hal Hnx]. unfold expire_kernel_timers. kstep.
  destruct (Z.leb_spec (next_timeout k) (monotonic k)) as [Hle|Hgt].
  - destruct (exp_alarms (S (size (tmr_next (clock_timers k)))) (monotonic k) (clock_timers k) k cq l Hki Hwf Hal)
      as (q' & k' & E & (Hki' & _ & Ec) & Hwf' & Hfn & Het).
    { pose proof (due_length (clock_timers k) (monotonic k) l). pose proof (chain_length _ _ _ (wf_chain _ _ Hwf)). lia. }
    unfold tmrs_exptimers. rewrite E. simpl. eapply runs_step; [reflexivity|]. simpl. eapply runs_step; [reflexivity|].
    destruct (timeout_front _ _ Hwf') as (t & Et & Hft). rewrite Et. eapply runs_step; [reflexivity|].
    eapply runs_of; [reflexivity|]. injection Ec as Ea En Em Ep Eb. split_and!; [|done| |done].
    + destruct Hki'. split; [by eapply (kbase_ext k')|done].
    + split; [exact Hwf'| |exact Hft]. intros p Hp. simpl. rewrite Hfn, Ea. apply Hal.
      rewrite <- (before_from (fun p => monotonic k <? texp (clock_timers k) p) l). unfold later in Hp. set_solver.
  - assert (later (clock_timers k) (monotonic k) l = l) as ->.
    { destruct l as [|p l]; [done|]. unfold later. simpl.
      assert (monotonic k < texp (clock_timers k) p) as Hlt by (rewrite Hnx in Hgt by done; exact Hgt).
      by destruct (Z.ltb_spec (monotonic k) (texp (clock_timers k) p)); [|lia]. }
    kstep. split_and!; [done|done|by split|done].
Qed.

(** The kernel writes the new time into the timer before it sets it; the queue
    that results is the same. *)
Lemma settimer_early q q' l tp t f :
  tmrq_wf q l -> tp <> 0 -> tmrs_settimer q tp t f false = Some (front q l, None, q') ->
  exists x, tmrs_settimer (write_exp tp t q) tp t f false = Some (x, None, q').
Proof.
  intros Hwf Htp. unfold tmrs_settimer. destruct (head_exp q) as [h|] eqn:Eh; [|done].
  assert (exists h', head_exp (write_exp tp t q) = Some h') as [h' Eh'].
  { unfold head_exp in *. simpl. destruct (tmrs q =? 0); [by eexists|].
    destruct (decide (tp = tmrs q)) as [->|]; [rewrite lookup_insert_eq; by eexists|].
    rewrite lookup_insert_ne by done. by eexists. }
  rewrite Eh'. simpl. unfold tmrs_clrtimer. rewrite Eh, Eh'. simpl.
  destruct (pp_remove (tmrs q) (tmr_next q) tp) as [[h1 nx1]|]; [|done]. simpl.
  rewrite !insert_insert_eq. destruct (pp_insert _ _ _ _) as [[h2 nx2]|]; [|done]. simpl.
  intros [= _ <-]. by eexists.
Qed.

Lemma write_func_wf q l tp f : tmrq_wf q l -> tmrq_wf (write_func tp f q) l.
Proof.
  intros [Hc He Hf Hs]. split; try done. intros p Hp. simpl. destruct (decide (tp = p)) as [->|].
  - rewrite lookup_insert_eq. by eexists.
  - rewrite lookup_insert_ne by done. by apply Hf.
Qed.

Lemma clear_alarm_run k l tp :
  tmrq_wf (clock_timers k) l -> tp <> 0 -> alarms_ok (clock_timers k) (alarm_args k) l ->
  exists k', reset_kernel_timer tp k = Some (tt, k') /\ procs k' = procs k /\ alarm_args k' = alarm_args k /\
    clock_ok k' (remove1 tp l).
Proof.
  intros Hwf Htp Hal. unfold reset_kernel_timer. rewrite (bind_run get _ k k k eq_refl).
  destruct (clrtimer_gen (clock_timers k) l tp false Hwf Htp) as (q' & Eq & Hwf' & _ & Efn). rewrite Eq.
  destruct (timeout_front _ _ Hwf') as (t & Et & Hft). mrun. simpl. rewrite Et. eexists. split; [done|]. split_and!; [done|done|].
  split; [exact Hwf'| |exact Hft]. intros p Hp. simpl. rewrite Efn. apply Hal.
  apply elem_of_remove1 in Hp as [? _]; [done|]. eapply chain_nodup, wf_chain. done.
Qed.

Lemma set_alarm_run k l tp t :
  tmrq_wf (clock_timers k) l -> tp <> 0 -> alarms_ok (clock_timers k) (alarm_args k) l -> is_Some (alarm_args k !! tp) ->
  exists k', set_kernel_timer tp t CAUSE_ALARM (with_clock_timers (write_exp tp t (clock_timers k)) k) = Some (tt, k') /\
    procs k' = procs k /\ alarm_args k' = alarm_args k /\
    clock_ok k' (insert_pos (clock_timers k) l tp t) /\ texp (clock_timers k') tp = t.
Proof.
  intros Hwf Htp Hal Harg. unfold set_kernel_timer. rewrite (bind_run get _ _ _ _ eq_refl).
  destruct (settimer_gen (clock_timers k) l tp t CAUSE_ALARM false Hwf Htp) as (q' & Eq & Hwf' & Eexp & Efn).
  destruct (settimer_early _ _ _ _ _ _ Hwf Htp Eq) as [x Ex].
  cbn [clock_timers with_clock_timers]. rewrite Ex.
  destruct (insert_pos (clock_timers k) l tp t) as [|y l'] eqn:El; [by apply insert_pos_nonempty in El|].
  destruct (chain_cons_head _ _ _ _ (wf_chain _ _ Hwf')) as [-> _].
  destruct (wf_exp _ _ Hwf' (tmrs q')) as [e He]; [left|]. mrun. simpl. rewrite He. eexists. split; [done|].
  split_and!; [done|done| |].
  - split; [exact Hwf'| |]; simpl.
    + intros p Hp. rewrite Efn. destruct (decide (tp = p)) as [->|Hne]; [by rewrite lookup_insert_eq|].
      rewrite lookup_insert_ne by done. apply Hal. rewrite <- El in Hp.
      apply insert_pos_elem in Hp as [->|[? _]]; [done|done|]. eapply chain_nodup, wf_chain. done.
    + intros _. unfold front, texp. by rewrite He.
  - simpl. rewrite (texp_insert (clock_timers k) q' tp t tp Eexp). by rewrite decide_True.
Qed.

(** ** Theorems *)


(** Setting an alarm: a system process that asks for an alarm gets its
    timer queued for the time it asked for, behind those that expire earlier,
    or removed if it asked for none, the queue stays well-formed and watched,
    and the answer is the time that was left on its previous alarm. *)
Theorem setalarm_sets k l caller r s exp_time (use_abs : bool) :
  clock_ok k l -> procs k !! caller = Some r -> privs k !! p_priv r = Some s ->
  has (s_flags s) SYS_PROC = true -> 0 <= p_priv r ->
  let tp := alarm_timer (p_priv r) in
  let t := if use_abs then exp_time else exp_time + monotonic k in
  let old := default 0 (tmr_exp_time (clock_timers k) !! tp) in
  exists k', do_setalarm caller exp_time use_abs k =
      Some ((OK, if negb (old =? TMR_NEVER) && (monotonic k <? old) then old - monotonic k else 0), k') /\
    procs k' = procs k /\ alarm_args k' = <[tp := p_endpoint r]> (alarm_args k) /\
    (exp_time = 0 -> clock_ok k' (remove1 tp l)) /\
    (exp_time <> 0 -> clock_ok k' (insert_pos (clock_timers k) l tp t) /\ texp (clock_timers k') tp = t).
Proof.
  intros [Hwf Hal Hnx] Hr Hs Hsys Hp tp t old. unfold do_setalarm.
  rewrite (bind_run _ _ _ _ _ (rdp_run s_flags _ _ _ _ Hr Hs)), Hsys. cbn [negb].
  rewrite (bind_run _ _ _ _ _ (rd_run p_priv _ _ _ Hr)), (bind_run _ _ _ _ _ (rd_run p_endpoint _ _ _ Hr)). fold tp.
  set (q0 := write_func tp CAUSE_ALARM (clock_timers k)).
  set (k2 := with_clock_timers q0 (with_alarm_args (<[tp := p_endpoint r]> (alarm_args k)) k)).
  do 2 rewrite bind_modify.
  change (with_clock_timers _ (with_alarm_args _ k)) with k2.
  rewrite (bind_run get_monotonic _ k2 (monotonic k) k2 eq_refl), (bind_run get _ k2 k2 k2 eq_refl).
  change (default 0 (tmr_exp_time (clock_timers k2) !! tp)) with old.
  assert (tp <> 0) as Htp by (unfold tp, alarm_timer; lia).
  pose proof (write_func_wf _ _ tp CAUSE_ALARM Hwf) as Hwf0. fold q0 in Hwf0.
  destruct (Z.eqb_spec exp_time 0) as [->|He].
  - destruct (clear_alarm_run k2 l tp Hwf0 Htp) as (k3 & E3 & Hp3 & Ha3 & Hck3).
    { intros p Hp'. destruct (Hal p Hp') as [Hf Ha]. simpl. destruct (decide (tp = p)) as [->|];
        [by rewrite !lookup_insert_eq|by rewrite !lookup_insert_ne]. }
    rewrite (bind_run _ _ _ _ _ E3). eexists. split; [done|]. split_and!; done.
  - rewrite bind_assoc, bind_modify. fold t.
    destruct (set_alarm_run k2 l tp t Hwf0 Htp) as (k3 & E3 & Hp3 & Ha3 & Hck3 & Ht3).
    { intros p Hp'. destruct (Hal p Hp') as [Hf Ha]. simpl. destruct (decide (tp = p)) as [->|];
        [by rewrite !lookup_insert_eq|by rewrite !lookup_insert_ne]. }
    { simpl. by rewrite lookup_insert_eq. }
    rewrite (bind_run _ _ _ _ _ E3). eexists. split; [done|]. split_and!; done.
Qed.
End Tick.
