(* ===== verification/KPriv.v ===== *)
(** Control of privileges: [do_privctl] and [update_priv] of
    kernel/system/do_privctl.c, and a configuration of the system in which
    every process of the boot image has its privileges. *)

From S2P Require Import Prelude Chain Timers KState KSched KBoot KWait KNotify KBase KMain KSignal KIpc KSend KCalls KClock.
Local Open Scope Z_scope.

Definition CHECK_IO_PORT : Z := 0x020.
Definition CHECK_IRQ : Z := 0x040.
Definition CHECK_MEM : Z := 0x080.
Definition NR_IO_RANGE : Z := 64.
Definition NR_MEM_RANGE : Z := 20.
Definition NR_IRQ : Z := 16.
Definition DSRV_F : Z := Z.lor SRV_F DYN_PRIV_ID.
Definition DSRV_T : Z := -1.
Definition DSRV_SM : Z := RS_PROC_NR.

(** What [data_copy] from the memory of the caller gives: an error, or the
    object at the address. *)
Definition copied (A : Type) : Type := kres + A.

(** The request of the message with its argument; [None] is a null pointer. *)
Inductive priv_request :=
| SYS_PRIV_ALLOW
| SYS_PRIV_YIELD
| SYS_PRIV_DISALLOW
| SYS_PRIV_SET_SYS (arg : option (copied priv))
| SYS_PRIV_SET_USER
| SYS_PRIV_ADD_IO (arg : copied (Z * Z))
| SYS_PRIV_ADD_MEM (arg : copied (Z * Z))
| SYS_PRIV_ADD_IRQ (arg : copied Z)
| SYS_PRIV_QUERY_MEM (phys_start phys_len : Z)
| SYS_PRIV_UPDATE_SYS (arg : option (copied priv))
| SYS_PRIV_BAD.

(** The first [n] entries of a table copied over those of another. *)
Definition copy_tab {A} (n : Z) (src dst : gmap Z A) : gmap Z A :=
  foldl (fun t i => partial_alter (fun _ => src !! i) i t) dst (seqZ 0 n).

Definition in_range (n max : Z) : bool := (0 <=? n) && (n <=? max).

Definition update_irqs (rp : Z) (priv : priv) : K kres :=
  let x := s_res priv in
  if negb (has (s_flags priv) CHECK_IRQ) then mret OK
  else if negb (in_range (s_nr_irq x) NR_IRQ) then mret EINVAL
  else
    updp rp (upd_res (with_s_nr_irq (s_nr_irq x)));;
    updp rp (upd_res (fun y => with_s_irq_tab (copy_tab (s_nr_irq x) (s_irq_tab x) (s_irq_tab y)) y));;
    mret OK.

Definition update_io (rp : Z) (priv : priv) : K kres :=
  let x := s_res priv in
  if negb (has (s_flags priv) CHECK_IO_PORT) then mret OK
  else if negb (in_range (s_nr_io_range x) NR_IO_RANGE) then mret EINVAL
  else
    updp rp (upd_res (with_s_nr_io_range (s_nr_io_range x)));;
    updp rp (upd_res (fun y => with_s_io_tab (copy_tab (s_nr_io_range x) (s_io_tab x) (s_io_tab y)) y));;
    mret OK.

Definition update_mem (rp : Z) (priv : priv) : K kres :=
  let x := s_res priv in
  if negb (has (s_flags priv) CHECK_MEM) then mret OK
  else if negb (in_range (s_nr_mem_range x) NR_MEM_RANGE) then mret EINVAL
  else
    updp rp (upd_res (with_s_nr_mem_range (s_nr_mem_range x)));;
    updp rp (upd_res (fun y => with_s_mem_tab (copy_tab (s_nr_mem_range x) (s_mem_tab x) (s_mem_tab y)) y));;
    mret OK.

(** Run the next step unless the last one failed. *)
Definition on_ok (r : kres) (m : K kres) : K kres := if is_OK r then m else mret r.

Definition update_priv (rp : Z) (priv : priv) : K kres :=
  updp rp (with_s_flags (s_flags priv));;
  updp rp (with_s_sig_mgr (s_sig_mgr priv));;
  updp rp (with_s_bak_sig_mgr (s_bak_sig_mgr priv));;
  r ← update_irqs rp priv;
  on_ok r (
  r ← update_io rp priv;
  on_ok r (
  r ← update_mem rp priv;
  on_ok r (
  updp rp (with_s_trap_mask (s_trap_mask priv));;
  fill_sendto_mask rp (s_ipc_to priv);;
  updp rp (upd_res (with_s_k_call_mask (s_k_call_mask (s_res priv))));;
  mret OK))).

(** The alarm timer as part of the assignment of privilege structure [i] to [j]. *)
Definition copy_alarm (i j : Z) : K unit :=
  let cp {A} (m : gmap Z A) := partial_alter (fun _ => m !! alarm_timer i) (alarm_timer j) m in
  modify (fun k =>
    let q := clock_timers k in
    with_alarm_args (cp (alarm_args k))
      (with_clock_timers (TmrQ (tmrs q) (cp (tmr_next q)) (cp (tmr_exp_time q)) (cp (tmr_func q))) k)).

(** [*priv(rp) = *priv(caller)], without the id, and nothing pending. *)
Definition inherit_priv (caller rp proc_nr : Z) : K unit :=
  priv_id ← rdp s_id rp;
  c ← rdp (fun s => s) caller;
  i ← rd p_priv caller;
  j ← rd p_priv rp;
  updp rp (fun _ => c);;
  copy_alarm i j;;
  updp rp (with_s_id priv_id);;
  updp rp (with_s_proc_nr proc_nr);;
  updp rp (with_s_notify_pending (0, 0));;
  updp rp (with_s_int_pending 0);;
  updp rp (with_s_sig_pending ∅);;
  reset_kernel_timer (alarm_timer j);;
  updp rp (with_s_asyntab (-1));;
  updp rp (with_s_asynsize 0);;
  updp rp (with_s_diag_sig false).

(** The defaults for a system process. *)
Definition default_priv (rp : Z) : K unit :=
  updp rp (with_s_flags DSRV_F);;
  updp rp (with_s_trap_mask DSRV_T);;
  fill_sendto_mask rp (target_map ALL_M);;
  updp rp (upd_res (with_s_k_call_mask (call_mask ALL_C)));;
  updp rp (with_s_sig_mgr DSRV_SM);;
  updp rp (with_s_bak_sig_mgr NONE);;
  updp rp (upd_res (with_s_nr_io_range 0));;
  updp rp (upd_res (with_s_nr_mem_range 0));;
  updp rp (upd_res (with_s_nr_irq 0));;
  updp rp (upd_res (with_s_grant_table 0));;
  updp rp (upd_res (with_s_grant_entries 0)).

Definition priv_set_sys (caller rp proc_nr : Z) (arg : option (copied priv)) : K kres :=
  fl ← rd p_rts_flags rp;
  if negb (RTS_ISSET fl RTS_NO_PRIV) then mret EPERM
  else
    match arg with
    | Some (inl r) => mret r
    | _ =>
        let given := match arg with Some (inr s) => Some s | _ => None end in
        let priv_id := match given with
                       | Some s => if has (s_flags s) DYN_PRIV_ID then NULL_PRIV_ID else s_id s
                       | None => NULL_PRIV_ID
                       end in
        i ← get_priv rp priv_id;
        on_ok i (
        inherit_priv caller rp proc_nr;;
        default_priv rp;;
        match given with Some s => update_priv rp s | None => mret OK end)
    end.

(** Whether the process is inhibited and has its privilege structure. *)
Definition priv_waiting (rp : Z) : K bool :=
  fl ← rd p_rts_flags rp;
  if negb (RTS_ISSET fl RTS_NO_PRIV) then mret false
  else nr ← rdp s_proc_nr rp; mret (negb (nr =? NONE)).

(** The guards that the requests for more resources share. *)
Definition may_add (rp : Z) (m : K kres) : K kres :=
  fl ← rd p_rts_flags rp;
  if RTS_ISSET fl RTS_NO_PRIV then mret EPERM
  else
    sf ← rdp s_flags rp;
    if negb (has sf SYS_PROC) then mret EPERM else m.

(** An entry that is not yet in the first [n] of the table, when there is room
    for it; reading the rest of the table is undefined. *)
Inductive slot_result := SlotThere | SlotFull | SlotNew.

Definition find_slot {A} `{EqDecision A} (n max : Z) (tab : gmap Z A) (x : A) : slot_result :=
  if existsb (fun i => bool_decide (tab !! i = Some x)) (seqZ 0 n) then SlotThere
  else if max <=? n then SlotFull else SlotNew.

(** The copied range is used even when the copy failed: it is then
    uninitialised. *)
Definition priv_add_io (rp : Z) (arg : copied (Z * Z)) : K kres :=
  may_add rp (
    updp rp (fun s => with_s_flags (Z.lor (s_flags s) CHECK_IO_PORT) s);;
    match arg with
    | inl _ => ub
    | inr io_range =>
        x ← rdp s_res rp;
        match find_slot (s_nr_io_range x) NR_IO_RANGE (s_io_tab x) io_range with
        | SlotThere => mret OK
        | SlotFull => mret ENOMEM
        | SlotNew =>
            updp rp (upd_res (fun y => with_s_io_tab (<[s_nr_io_range x := io_range]> (s_io_tab y)) y));;
            updp rp (upd_res (fun y => with_s_nr_io_range (s_nr_io_range y + 1) y));;
            mret OK
        end
    end).

Definition priv_add_mem (rp : Z) (arg : copied (Z * Z)) : K kres :=
  may_add rp (
    match arg with
    | inl r => mret r
    | inr mem_range =>
        updp rp (fun s => with_s_flags (Z.lor (s_flags s) CHECK_MEM) s);;
        x ← rdp s_res rp;
        match find_slot (s_nr_mem_range x) NR_MEM_RANGE (s_mem_tab x) mem_range with
        | SlotThere => mret OK
        | SlotFull => mret ENOMEM
        | SlotNew =>
            updp rp (upd_res (fun y => with_s_mem_tab (<[s_nr_mem_range x := mem_range]> (s_mem_tab y)) y));;
            updp rp (upd_res (fun y => with_s_nr_mem_range (s_nr_mem_range y + 1) y));;
            mret OK
        end
    end).

Definition priv_add_irq (rp : Z) (arg : copied Z) : K kres :=
  may_add rp (
    updp rp (fun s => with_s_flags (Z.lor (s_flags s) CHECK_IRQ) s);;
    match arg with
    | inl _ => ub
    | inr irq =>
        x ← rdp s_res rp;
        match find_slot (s_nr_irq x) NR_IRQ (s_irq_tab x) irq with
        | SlotThere => mret OK
        | SlotFull => mret ENOMEM
        | SlotNew =>
            updp rp (upd_res (fun y => with_s_irq_tab (<[s_nr_irq x := irq]> (s_irq_tab y)) y));;
            updp rp (upd_res (fun y => with_s_nr_irq (s_nr_irq y + 1) y));;
            mret OK
        end
    end).

(** [phys_bytes] has 32 bits. *)
Definition priv_query_mem (rp phys_start phys_len : Z) : K kres :=
  let addr := phys_start in
  let limit := (addr + phys_len - 1) mod 2 ^ 32 in
  if limit <? addr then mret EPERM
  else
    sp ← rd p_priv rp;
    if sp =? null_priv then mret EPERM
    else
      sf ← rdp s_flags rp;
      if negb (has sf SYS_PROC) then mret EPERM
      else
        x ← rdp s_res rp;
        mret (if existsb (fun i => match s_mem_tab x !! i with
                                   | Some (b, l) => (b <=? addr) && (limit <=? l)
                                   | None => false
                                   end) (seqZ 0 (s_nr_mem_range x))
              then OK else EPERM).

Definition priv_update_sys (rp : Z) (arg : option (copied priv)) : K kres :=
  match arg with
  | None => mret EINVAL
  | Some (inl r) => mret r
  | Some (inr s) => update_priv rp s
  end.

Definition do_privctl (caller endpt : Z) (request : priv_request) : K kres :=
  sf ← rdp s_flags caller;
  if negb (has sf SYS_PROC) then mret EPERM
  else
    ok ← (if endpt =? SELF
          then ep ← rd p_endpoint caller; n ← okendpt ep; mret (Some n)
          else isokendpt endpt);
    match ok with
    | None => mret EINVAL
    | Some proc_nr =>
        let rp := proc_addr proc_nr in
        match request with
        | SYS_PRIV_ALLOW =>
            w ← priv_waiting rp;
            if negb w then mret EPERM else RTS_UNSET rp RTS_NO_PRIV;; mret OK
        | SYS_PRIV_YIELD =>
            w ← priv_waiting rp;
            if negb w then mret EPERM
            else RTS_SET caller RTS_NO_PRIV;; RTS_UNSET rp RTS_NO_PRIV;; mret OK
        | SYS_PRIV_DISALLOW =>
            fl ← rd p_rts_flags rp;
            if RTS_ISSET fl RTS_NO_PRIV then mret EPERM else RTS_SET rp RTS_NO_PRIV;; mret OK
        | SYS_PRIV_SET_SYS arg => priv_set_sys caller rp proc_nr arg
        | SYS_PRIV_SET_USER =>
            fl ← rd p_rts_flags rp;
            if negb (RTS_ISSET fl RTS_NO_PRIV) then mret EPERM
            else upd rp (with_p_priv USER_PRIV_ID);; mret OK
        | SYS_PRIV_ADD_IO arg => priv_add_io rp arg
        | SYS_PRIV_ADD_MEM arg => priv_add_mem rp arg
        | SYS_PRIV_ADD_IRQ arg => priv_add_irq rp arg
        | SYS_PRIV_QUERY_MEM phys_start phys_len => priv_query_mem rp phys_start phys_len
        | SYS_PRIV_UPDATE_SYS arg => priv_update_sys rp arg
        | SYS_PRIV_BAD => mret EINVAL
        end
    end.

(** ** A system that is up

    The processes of the boot image get their privileges from the root system
    process, and the process manager runs. *)

Definition USR_F : Z := Z.lor BILLABLE PREEMPTIBLE.
Definition USR_T : Z := Z.shiftl 1 SENDREC.

Definition server_priv (nr : Z) : priv :=
  let usr := nr =? INIT_PROC_NR in
  Priv 0 (static_priv_id nr) (if usr then USR_F else SRV_F) 0 0 (if usr then USR_T else SRV_T) (target_map ALL_M)
    (if usr then PM_PROC_NR else RS_PROC_NR) NONE (0, 0) (0, 0) 0 ∅ false
    (Resources (call_mask (if usr then NO_C else ALL_C)) 0 ∅ 0 ∅ 0 ∅ 0 0).

Definition privileged : list Z :=
  [DS_PROC_NR; PM_PROC_NR; SCHED_PROC_NR; VFS_PROC_NR; MEM_PROC_NR; TTY_PROC_NR; MFS_PROC_NR; PFS_PROC_NR; LS_PROC_NR;
   INIT_PROC_NR].

Definition give_privileges : K unit :=
  kfor privileged (fun nr =>
    do_privctl (proc_addr RS_PROC_NR) nr (SYS_PRIV_SET_SYS (Some (inr (server_priv nr))));;
    do_privctl (proc_addr RS_PROC_NR) nr SYS_PRIV_ALLOW;;
    mret tt).

Definition set_up (um : gmap (Z * Z) message) : kstate :=
  match give_privileges (at_boot 1 um ∅) with Some (_, k) => k | None => bss 1 um ∅ end.

(** The process manager and the file server may run; the first runs. *)
Definition start_ops : list sched_op :=
  (fun p => UnsetFlag p (Z.lor RTS_PROC_STOP (Z.lor RTS_NO_QUANTUM (Z.lor RTS_VMINHIBIT RTS_BOOTINHIBIT)))) <$>
    [proc_addr PM_PROC_NR; proc_addr VFS_PROC_NR].

Definition up (um : gmap (Z * Z) message) : kstate :=
  match sched_run (start_ops ++ [NextProc]) (set_up um) with Some (_, k) => k | None => bss 1 um ∅ end.

Lemma set_up_sched um : sched_inv (set_up um) (fun _ => []).
Proof. apply quiet_sched. vm_compute. reflexivity. Qed.

Lemma up_sched um : exists rq, sched_inv (up um) rq.
Proof.
  destruct (sched_run_ok (start_ops ++ [NextProc]) (set_up um) _ (set_up_sched um)) as (k' & rq & E & Hi).
  { repeat constructor. }
  exists rq. unfold up. by rewrite E.
Qed.

(** ** The invariants as a test

    In a state in which nobody waits and nothing is pending, the invariants can
    be checked slot by slot. *)

Definition priv_nr_b (i : Z) : bool := (0 <=? i) && (i <? NR_SYS_PROCS).

Definition manager_ok (pd : gmap Z pidv) (m : Z) : bool :=
  (m =? SELF) ||
  match pd !! target m with
  | Some d' => isokprocn (_ENDPOINT_P m) && negb (d_free d') && (d_ep d' =? m)
  | None => false
  end.

Definition calm_id (pr : gmap Z priv) (pd : gmap Z pidv) (x : Z * pidv) : bool :=
  let '(p, d) := x in
  negb (in_table p) ||
  (p =? proc_addr (d_nr d)) && (_ENDPOINT_P (d_ep d) =? d_nr d) &&
  (d_free d ||
   priv_nr_b (d_priv d) &&
   match pr !! d_priv d with
   | Some s => (negb (has (s_flags s) SYS_PROC) || (s_proc_nr s =? d_nr d)) &&
               (iskerneln (d_nr d) || manager_ok pd (s_sig_mgr s))
   | None => false
   end).

Definition calm_priv (pr : gmap Z priv) (i : Z) : bool :=
  match pr !! i with
  | Some s => (s_id s =? i) && bool_decide (s_notify_pending s = (0, 0)) && bool_decide (s_asyn_pending s = (0, 0)) &&
              (negb (has (s_trap_mask s) (Z.shiftl 1 NOTIFY)) || has (s_flags s) SYS_PROC) &&
              negb (get_sys_bit (s_ipc_to s) i)
  | None => false
  end.

Definition task_ok (pr : gmap Z priv) (pd : gmap Z pidv) (t : Z) : bool :=
  match pd !! proc_addr t with
  | Some d => negb (d_free d) && match pr !! d_priv d with Some s => has (s_flags s) SYS_PROC | None => false end
  | None => false
  end.

Definition calm_privs (k : kstate) : bool :=
  let pd := fld pid k in
  forallb (calm_id (privs k) pd) (map_to_list pd) && forallb (calm_priv (privs k)) priv_slots &&
  forallb (task_ok (privs k) pd) [ASYNCM; CLOCK; SYSTEM; KERNEL].

Lemma calm_bits m j : m = (0, 0) -> priv_nr j -> get_sys_bit m j = true -> False.
Proof.
  intros -> Hj. unfold priv_nr, NR_SYS_PROCS in Hj. rewrite get_sys_bit_spec by lia.
  destruct (_ <? _); simpl; by rewrite Z.testbit_0_l.
Qed.

Lemma calm_pinv k : calm_privs k = true -> pinv (privs k) (fld pid k).
Proof.
  unfold calm_privs. rewrite !andb_true_iff, !forallb_forall. intros ((Hid & Hpr) & Htk).
  assert (forall i, priv_nr i -> exists s, privs k !! i = Some s /\ s_id s = i /\ s_notify_pending s = (0, 0) /\
    s_asyn_pending s = (0, 0) /\ (has (s_trap_mask s) (Z.shiftl 1 NOTIFY) = true -> has (s_flags s) SYS_PROC = true) /\
    get_sys_bit (s_ipc_to s) i = false) as Hp.
  { intros i Hi. specialize (Hpr i (proj1 (list_elem_of_In _ _) (proj2 (elem_of_priv_slots i) Hi))).
    unfold calm_priv in Hpr. destruct (privs k !! i) as [s|]; [|done]. exists s.
    rewrite !andb_true_iff, !bool_decide_eq_true, Z.eqb_eq, orb_true_iff, !negb_true_iff in Hpr.
    destruct Hpr as ((((? & ?) & ?) & Ht) & ?). split_and!; try done. intros E. destruct Ht; [congruence|done]. }
  assert (forall p d, fld pid k !! p = Some d -> in_table p = true ->
    p = proc_addr (d_nr d) /\ _ENDPOINT_P (d_ep d) = d_nr d /\ (d_free d = false -> priv_nr (d_priv d) /\
      forall s, privs k !! d_priv d = Some s -> (has (s_flags s) SYS_PROC = true -> s_proc_nr s = d_nr d) /\
        (iskerneln (d_nr d) = false -> manager_ok (fld pid k) (s_sig_mgr s) = true))) as Hd.
  { intros p d Hpd Hin. assert (calm_id (privs k) (fld pid k) (p, d) = true) as Hc.
    { apply Hid, list_elem_of_In. by apply elem_of_map_to_list. }
    unfold calm_id in Hc. rewrite Hin in Hc. cbn [negb orb] in Hc.
    rewrite !andb_true_iff, !Z.eqb_eq, orb_true_iff in Hc. destruct Hc as ((? & ?) & Hc). split_and!; [done|done|].
    intros Ef. rewrite Ef in Hc. destruct Hc as [|Hc]; [done|]. apply andb_true_iff in Hc as [Hn Hc].
    split; [unfold priv_nr_b in Hn; unfold priv_nr; lia|]. intros s Es. rewrite Es in Hc.
    rewrite andb_true_iff, !orb_true_iff, negb_true_iff, Z.eqb_eq in Hc. destruct Hc as [H1 H2].
    split; [intros E; destruct H1; congruence|intros E; destruct H2; congruence]. }
  assert (forall i, owned (fld pid k) i -> priv_nr i) as Hown.
  { intros i (p & d & Hpd & Hin & Hf & <-). by destruct (Hd p d Hpd Hin) as (_ & _ & [? _]%(fun H => H Hf)). }
  split.
  - intros p d Hpd Hin. by destruct (Hd p d Hpd Hin) as (? & ? & _).
  - intros p d Hpd Hin Hf. by destruct (Hd p d Hpd Hin) as (_ & _ & [? _]%(fun H => H Hf)).
  - intros i Hi. destruct (Hp i Hi) as (s & ? & ? & _). by exists s.
  - intros p d s Hpd Hin Hf Hs. destruct (Hd p d Hpd Hin) as (_ & _ & Hx). by apply Hx.
  - intros i s j Ho Hs Hj Hb. exfalso. destruct (Hp i (Hown i Ho)) as (s' & ? & _ & ? & _). simplify_eq. by eapply calm_bits.
  - intros i s j Ho Hs Hj Hb. exfalso. destruct (Hp i (Hown i Ho)) as (s' & ? & _ & _ & ? & _). simplify_eq. by eapply calm_bits.
  - intros i s Hi Hs. destruct (Hp i Hi) as (s' & ? & _ & E1 & E2 & _). simplify_eq. rewrite E1, E2. done.
  - intros p d s Hpd Hin Hf Hk Hs. destruct (Hd p d Hpd Hin) as (_ & _ & Hx). destruct (Hx Hf) as [_ Hy].
    specialize (proj2 (Hy s Hs) Hk) as Hm. unfold manager_ok in Hm. apply orb_true_iff in Hm as [?%Z.eqb_eq|Hm]; [by left|].
    right. destruct (fld pid k !! target (s_sig_mgr s)) as [d'|]; [|done]. exists d'.
    rewrite !andb_true_iff, negb_true_iff, Z.eqb_eq in Hm. tauto.
  - intros i s Hi Hs. destruct (Hp i Hi) as (s' & ? & _ & _ & _ & ? & _). by simplify_eq.
  - intros i s Hi Hs. destruct (Hp i Hi) as (s' & ? & _ & _ & _ & _ & ?). by simplify_eq.
  - intros t Ht. assert (task_ok (privs k) (fld pid k) t = true) as Hok.
    { apply Htk. simpl. destruct Ht as [-> | [-> | [-> | ->]]]; tauto. }
    unfold task_ok in Hok. destruct (fld pid k !! proc_addr t) as [d|]; [|done].
    apply andb_true_iff in Hok as [Hf%negb_true_iff Hs]. destruct (privs k !! d_priv d) as [s|] eqn:Es; [|done]. by exists d, s.
Qed.

Definition calm_view (x : Z * ipcv) : bool :=
  let '(p, v) := x in
  negb (p =? 0) && bool_decide (v_out v = None) && bool_decide (v_in v = None) && (v_qlink v =? 0) && (v_callerq v =? 0) &&
  (negb (in_table p) || (p =? proc_addr (v_nr v)) && (_ENDPOINT_P (v_ep v) =? v_nr v)).

Definition calm_flags (k : kstate) : bool :=
  forallb (fun x => negb (has (snd x) RTS_SLOT_FREE) || (snd x =? RTS_SLOT_FREE)) (map_to_list (fld p_rts_flags k)) &&
  match fld p_rts_flags k !! proc_ptr k with Some fl => negb (has fl RTS_SLOT_FREE) | None => true end.

Definition calm (k : kstate) : bool :=
  calm_privs k && calm_flags k && forallb calm_view (map_to_list (fld view k)) && bool_decide (utab k = ∅).

Lemma calm_ipc m : forallb calm_view (map_to_list m) = true -> ipc_inv m (fun _ => []).
Proof.
  intros Hc. assert (forall p v, m !! p = Some v -> p <> 0 /\ v_out v = None /\ v_in v = None /\ v_qlink v = 0 /\
    v_callerq v = 0 /\ (in_table p = true -> p = proc_addr (v_nr v) /\ _ENDPOINT_P (v_ep v) = v_nr v)) as Hv.
  { intros p v Hpv. pose proof (forallb_map _ _ _ _ Hc Hpv) as Hb. unfold calm_view in Hb.
    rewrite !andb_true_iff, !bool_decide_eq_true, orb_true_iff, !negb_true_iff, Z.eqb_neq, !andb_true_iff, !Z.eqb_eq in Hb.
    destruct Hb as (((((? & ?) & ?) & ?) & ?) & Hi). split_and!; try done. intros E. destruct Hi; [congruence|done]. }
  split.
  - destruct (m !! 0) as [v|] eqn:E; [|done]. by destruct (Hv 0 v E) as (? & _).
  - intros p v Hpv. by apply Hv.
  - intros p v Hpv [[? E]|[? E]]; destruct (Hv p v Hpv) as (_ & E1 & E2 & _); congruence.
  - intros p v e Hpv E. destruct (Hv p v Hpv) as (_ & E1 & E2 & _); congruence.
  - intros p v e Hpv E. destruct (Hv p v Hpv) as (_ & E1 & E2 & _); congruence.
  - intros p v e e' Hpv E. destruct (Hv p v Hpv) as (_ & E1 & E2 & _); congruence.
  - intros p v Hpv _. by destruct (Hv p v Hpv) as (_ & _ & _ & ? & _).
  - intros d v Hd _. destruct (Hv d v Hd) as (_ & _ & _ & _ & -> & _). constructor.
  - intros d s _. split; [intros []%elem_of_nil|]. intros (v & e & Hs & E & _).
    destruct (Hv s v Hs) as (_ & E1 & _). congruence.
  - intros p [v Hpv]. destruct (Hv p v Hpv) as (Hp0 & E1 & E2 & _). exists [p]. econstructor; [done| |constructor].
    unfold waits, awaited, v_blockedon. rewrite Hpv. simpl. by rewrite E1, E2.
Qed.

Lemma calm_flags_ok k : calm_flags k = true -> flags_ok k.
Proof.
  unfold calm_flags. rewrite andb_true_iff. intros [Hf Hc]. split.
  - intros p fl Hfl Hfree. pose proof (forallb_map _ _ _ _ Hf Hfl) as Hb. simpl in Hb.
    rewrite Hfree in Hb. by apply Z.eqb_eq.
  - intros fl E. rewrite E in Hc. by apply negb_true_iff.
Qed.

Lemma calm_kinv k : calm k = true -> (exists rq, sched_inv k rq) -> kinv k (fun _ => []).
Proof.
  unfold calm. rewrite !andb_true_iff, bool_decide_eq_true. intros (((Hp & Hf) & Hv) & Hu) Hs.
  split; [|by apply calm_ipc]. split; [done|by apply calm_flags_ok|by apply calm_pinv|].
  intros a e b. by rewrite Hu.
Qed.

Lemma up_kinv um : kinv (up um) (fun _ => []).
Proof. apply calm_kinv; [|apply up_sched]. vm_compute. reflexivity. Qed.

(** A test for live processes. *)
Definition live_ep_test (k : kstate) (e : Z) : bool :=
  match procs k !! target e with
  | Some r => isokprocn (_ENDPOINT_P e) && negb (v_free (view r)) && (v_ep (view r) =? e)
  | None => false
  end.

Lemma live_ep_of k e : live_ep_test k e = true -> live_ep (fld view k) e.
Proof.
  unfold live_ep_test. destruct (procs k !! target e) as [r|] eqn:Hr; [|done]. rewrite !andb_true_iff, negb_true_iff, Z.eqb_eq.
  intros [[H1 H2] H3]. exists (view r). split; [by apply fld_of|]. done.
Qed.
