(* ===== verification/KCorrect.v ===== *)
(** Message passing in the kernel: the theorems about [deadlock], [mini_send],
    [mini_receive] and [do_ipc], with their instances in a system that is up. *)

From S2P Require Import Prelude Chain Timers KState KSched KBoot KWait KNotify KBase KMain KSignal KIpc KSend KAsyn KRecv KCalls KClock KPriv.
Local Open Scope Z_scope.

(** ** Theorems *)

Section Theorems.
Context `{SignalLaws}.

(** C8: The deadlock detection ends and is exact. The walk follows the chain
    [l] of processes that starts at the one the caller wants to wait for, each
    blocked on the next. The answer is 0 just if the caller is not on the
    chain, or the first process of it waits for the caller in the opposite
    direction, so that the two match up; otherwise it is the number of
    processes on the cycle that the call would close. *)
Theorem deadlock_exact k cq function cp r e :
  kinv k cq -> function = SEND \/ function = RECEIVE -> in_table cp = true -> procs k !! cp = Some r ->
  has (p_rts_flags r) RTS_SLOT_FREE = false -> e = ANY \/ live_ep (fld view k) e -> start e <> cp ->
  exists l d, chain (waits (fld view k)) (start e) l /\ deadlock function cp e k = Some (d, k) /\
    (d = 0 <-> cp ∉ l \/ exists x v l', l = x :: cp :: l' /\ fld view k !! x = Some v /\ pair_case function v = true) /\
    (d <> 0 -> exists l1 l2, l = l1 ++ cp :: l2 /\ cp ∉ l1 /\ d = 1 + Z.of_nat (length l1)).
Proof.
  intros Hki Hfn Hp Hr Hf He Hne. destruct (wait_path k cq e Hki He) as [l Hc].
  destruct (deadlock_run k cq function cp r e l Hki Hfn Hp Hr Hf He Hne Hc) as (d & Ed & Hd).
  exists l, d. split_and!; [done|done| |].
  - destruct Hd as [Hn|l1 l2 El Hn Hpr|x v l' _ El Hv Hpr].
    + split; [by left|done].
    + split; [lia|]. intros [Hc'|(x & v & l' & El' & Hv & Hpair)]; [exfalso; apply Hc'; rewrite El; set_solver|].
      exfalso. rewrite El in El'. destruct l1 as [|y [|z l1]]; simpl in El'.
      * injection El' as <- _. rewrite El in Hc. by apply chain_cons_head in Hc as [? _].
      * injection El' as <- _. by rewrite (Hpr y v eq_refl eq_refl Hv) in Hpair.
      * injection El' as <- <- _. set_solver.
    + split; [|done]. intros _. right. by exists x, v, l'.
  - destruct Hd as [Hn|l1 l2 El Hn Hpr|x v l' _ El Hv Hpr]; [done| |done]. intros _. by exists l1, l2.
Qed.

(** C6: A send: in any state that satisfies the kernel's invariants, a send by
    a process that is not blocked to another live process ends without a
    failed assertion and keeps the invariants. The message is given to the
    receiver when it waits for it, the sender is queued behind the others
    otherwise, and nothing changes when the call fails: the receiver cannot
    receive any more, the call may not block, waiting would close a cycle, or
    the message cannot be read. *)
Theorem mini_send_correct k cq p r e m_ptr flags :
  kinv k cq -> caller_ok k p r -> ptr_ok m_ptr flags -> live_ep (fld view k) e -> target e <> p ->
  exists res k' cq', mini_send p e m_ptr flags k = Some (res, k') /\
    sent k cq p (p_endpoint r) e (the_msg k p m_ptr) (has flags NON_BLOCKING) res k' cq' /\ kinv k' cq'.
Proof.
  intros Hki Hc Hp Hl Hne. destruct (runs_inv _ _ _ (mini_send_run k cq p r e m_ptr flags Hki Hc Hp Hl Hne))
    as (res & k' & E & cq' & Hs & Hki'). by exists res, k', cq'.
Qed.



(** C37: A receive from oneself is not refused, and it breaks the deadlock
    detection: once a process waits for a message from itself, the walk of any
    other process that wants to wait for it goes around at this process for
    ever. *)
Theorem self_receive_hangs k p r function cp_e fuel g :
  kbase k -> live_ep (fld view k) (p_endpoint r) -> target (p_endpoint r) = p -> procs k !! p = Some r ->
  P_BLOCKEDON r = p_endpoint r -> cp_e <> p_endpoint r ->
  deadlock_loop (S fuel) function cp_e (p_endpoint r) g k = deadlock_loop fuel function cp_e (p_endpoint r) (g + 1) k.
Proof.
  intros Hk Hl Ht Hr Hb Hne. cbn [deadlock_loop]. destruct (live_not_special _ _ Hl) as [Ha Hn].
  destruct (Z.eqb_spec (p_endpoint r) ANY) as [|_]; [done|].
  rewrite (bind_run _ _ _ _ _ (okendpt_run k _ Hk Hl)). fold (target (p_endpoint r)). rewrite Ht.
  rewrite (bind_run _ _ _ _ _ (rd_run p_rts_flags _ _ _ Hr)), isset_has by tauto.
  assert (has (p_rts_flags r) RTS_SLOT_FREE = false) as ->.
  { destruct Hl as (v & Hv & _ & Hf & _). rewrite Ht, (fld_of _ _ _ _ Hr) in Hv. by injection Hv as <-. }
  rewrite (bind_run _ _ _ _ _ eq_refl), (bind_run _ _ _ _ _ (rd_run P_BLOCKEDON _ _ _ Hr)), Hb.
  destruct (Z.eqb_spec (p_endpoint r) NONE); [done|]. destruct (Z.eqb_spec (p_endpoint r) cp_e); [congruence|done].
Qed.
End Theorems.

(** ** Instances

    The process manager runs in the system that is up; the file server is
    ready. *)

#[local] Instance sig_numbers : Signals := {|
  _NSIG := 40; SIGKSIG := 33; SIGKSIGSM := 34; SIGSNDELAY := 35; SIGKMESS := 36; SIGTRAP := 5; SIGSEGV := 11;
  SIGFPE := 8; SIGABRT := 6; SIGVTALRM := 26; SIGPROF := 27;
  SIGS_IS_LETHAL := fun n => (n =? 4) || (n =? 6) || (n =? 8) || (n =? 10) || (n =? 11) |}.

#[local] Instance sig_laws : SignalLaws.
Proof. by split. Qed.

Definition pm : Z := proc_addr PM_PROC_NR.

(** The process table entry of the process manager. *)
Definition pm_proc (um : gmap (Z * Z) message) : proc := default zero_proc (procs (up um) !! pm).

Lemma pm_current um : proc_ptr (up um) = pm.
Proof. vm_compute. reflexivity. Qed.

Lemma pm_running um : running (up um) pm (pm_proc um).
Proof. unfold running, caller_ok. split_and!; vm_compute; reflexivity. Qed.

Lemma vfs_live um : live_ep (fld view (up um)) VFS_PROC_NR.
Proof.
  exists (default (view zero_proc) (fld view (up um) !! target VFS_PROC_NR)).
  split_and!; vm_compute; reflexivity.
Qed.

Lemma deadlock_exact_witness :
  exists l d, chain (waits (fld view (up ∅))) (start VFS_PROC_NR) l /\ deadlock SEND pm VFS_PROC_NR (up ∅) = Some (d, up ∅) /\
    (d = 0 <-> pm ∉ l \/ exists x v l', l = x :: pm :: l' /\ fld view (up ∅) !! x = Some v /\ pair_case SEND v = true) /\
    (d <> 0 -> exists l1 l2, l = l1 ++ pm :: l2 /\ pm ∉ l1 /\ d = 1 + Z.of_nat (length l1)).
Proof.
  destruct (pm_running ∅) as [(Hp & Hr & Hf & _) _].
  apply (deadlock_exact (up ∅) _ SEND pm (pm_proc ∅) VFS_PROC_NR (up_kinv ∅) (or_introl eq_refl) Hp Hr Hf
    (or_intror (vfs_live ∅))).
  by vm_compute.
Defined.

Lemma mini_send_correct_witness :
  exists res k' cq', mini_send pm VFS_PROC_NR (KernPtr zero_message) FROM_KERNEL (up ∅) = Some (res, k') /\
    sent (up ∅) (fun _ => []) pm (p_endpoint (pm_proc ∅)) VFS_PROC_NR (Some zero_message) false res k' cq' /\ kinv k' cq'.
Proof.
  apply (mini_send_correct (up ∅) _ pm (pm_proc ∅) VFS_PROC_NR (KernPtr zero_message) FROM_KERNEL (up_kinv ∅)
    (proj1 (pm_running ∅))); [done|apply vfs_live|by vm_compute].
Defined.



(** The process manager has called [receive] for messages from itself. *)
Definition self_wait : kstate :=
  match mini_receive pm PM_PROC_NR 0 0 (set_up ∅) with Some (OK, k) => k | _ => bss 1 ∅ ∅ end.

Definition self_proc : proc := default zero_proc (procs self_wait !! pm).

Lemma self_wait_kbase : kbase self_wait.
Proof.
  split.
  - exists (fun _ => []). apply quiet_sched. vm_compute. reflexivity.
  - apply calm_flags_ok. vm_compute. reflexivity.
  - apply calm_pinv. vm_compute. reflexivity.
  - intros a e b. assert (utab self_wait = ∅) as -> by (vm_compute; reflexivity). done.
Qed.

Lemma self_receive_hangs_witness :
  mini_receive pm PM_PROC_NR 0 0 (set_up ∅) = Some (OK, self_wait) /\ p_endpoint self_proc = PM_PROC_NR /\
  deadlock_loop 400 SEND VFS_PROC_NR (p_endpoint self_proc) 1 self_wait =
  deadlock_loop 399 SEND VFS_PROC_NR (p_endpoint self_proc) (1 + 1) self_wait.
Proof.
  split; [vm_compute; reflexivity|]. split; [vm_compute; reflexivity|].
  apply (self_receive_hangs self_wait pm self_proc SEND VFS_PROC_NR 399 1 self_wait_kbase).
  - exists (view self_proc). split_and!; vm_compute; reflexivity.
  - vm_compute. reflexivity.
  - vm_compute. reflexivity.
  - vm_compute. reflexivity.
  - by vm_compute.
Defined.

(** The process manager has set an alarm for the next tick. *)
Definition alarm_set : kstate := match do_setalarm pm 1 false (up ∅) with Some (_, k) => k | None => up ∅ end.

Lemma alarm_set_kinv : kinv alarm_set (fun _ => []).
Proof.
  split; [|apply calm_ipc; vm_compute; reflexivity].
  apply (kbase_ext (up ∅)); try (vm_compute; reflexivity). apply up_kinv.
Qed.


Lemma setalarm_sets_witness :
  exists k', do_setalarm pm 5 false (up ∅) = Some ((OK, 0), k') /\ procs k' = procs (up ∅) /\
    clock_ok k' [6] /\ texp (clock_timers k') 6 = 5.
Proof.
  destruct (pm_running ∅) as [(_ & Hr & _) _].
  destruct (setalarm_sets (up ∅) [] pm (pm_proc ∅) (default zero_priv (privs (up ∅) !! 5)) 5 false) as (k' & E & Hp & _ & _ & H5).
  - apply clock_idle. vm_compute. reflexivity.
  - exact Hr.
  - vm_compute. reflexivity.
  - vm_compute. reflexivity.
  - by vm_compute.
  - exists k'. destruct (H5 ltac:(done)) as [Hc Ht]. split_and!; [|done| |].
    + rewrite E. do 3 f_equal.
    + exact Hc.
    + exact Ht.
Defined.
