(* ===== verification/KIrq.v ===== *)
(** Hardware interrupts: the lists of hooks of kernel/interrupt.c, the kernel
    call of kernel/system/do_irqctl.c that manages them, and the mask registers
    of the interrupt controllers (kernel/arch/i386/i8259.c). *)

From S2P Require Import Prelude Chain Timers KState KSched KBoot KWait KNotify KBase KMain KSignal KIpc KSend KPriv.
Local Open Scope Z_scope.

Definition NR_IRQ_HOOKS : Z := 16.
Definition NR_IRQ_VECTORS : Z := 16.
Definition CLOCK_IRQ : Z := 0.
Definition CASCADE_IRQ : Z := 2.
Definition IRQ_SETPOLICY : Z := 1.
Definition IRQ_RMPOLICY : Z := 2.
Definition IRQ_ENABLE : Z := 3.
Definition IRQ_DISABLE : Z := 4.
Definition IRQ_REENABLE : Z := 0x001.

(** The handlers are numbers; the only one that is called here is
    [generic_handler]. *)
Record irq_hook := IrqHook {
  h_next : Z;
  h_handler : Z;
  h_irq : Z;
  h_id : Z;
  h_proc_nr_e : Z;
  h_notify_id : Z;
  h_policy : Z;
}.

Definition with_h_next (x : Z) (h : irq_hook) : irq_hook :=
  IrqHook x (h_handler h) (h_irq h) (h_id h) (h_proc_nr_e h) (h_notify_id h) (h_policy h).
Definition with_h_proc_nr_e (x : Z) (h : irq_hook) : irq_hook :=
  IrqHook (h_next h) (h_handler h) (h_irq h) (h_id h) x (h_notify_id h) (h_policy h).

(** The hooks by address (hook [i] of the table is at [i + 1]), the heads of the
    lists, the active ids, the masks of the two controllers, and the rest of
    the kernel. *)
Record irq_state := IrqState {
  irq_hooks : gmap Z irq_hook;
  irq_handlers : gmap Z Z;
  irq_actids : gmap Z Z;
  ctlmask : Z;
  ctlmask2 : Z;
  ikern : kstate;
}.

Definition with_irq_hooks (x : gmap Z irq_hook) (s : irq_state) : irq_state :=
  IrqState x (irq_handlers s) (irq_actids s) (ctlmask s) (ctlmask2 s) (ikern s).
Definition with_irq_handlers (x : gmap Z Z) (s : irq_state) : irq_state :=
  IrqState (irq_hooks s) x (irq_actids s) (ctlmask s) (ctlmask2 s) (ikern s).
Definition with_irq_actids (x : gmap Z Z) (s : irq_state) : irq_state :=
  IrqState (irq_hooks s) (irq_handlers s) x (ctlmask s) (ctlmask2 s) (ikern s).
Definition with_ctlmasks (x y : Z) (s : irq_state) : irq_state :=
  IrqState (irq_hooks s) (irq_handlers s) (irq_actids s) x y (ikern s).
Definition with_ikern (x : kstate) (s : irq_state) : irq_state :=
  IrqState (irq_hooks s) (irq_handlers s) (irq_actids s) (ctlmask s) (ctlmask2 s) x.

Notation IS := (ST irq_state).

Definition hook_addr (i : Z) : Z := i + 1.

Definition get_hook (p : Z) : IS irq_hook := s ← get; opt (irq_hooks s !! p).
Definition upd_hook (p : Z) (f : irq_hook -> irq_hook) : IS unit :=
  h ← get_hook p; modify (fun s => with_irq_hooks (<[p := f h]> (irq_hooks s)) s).

Definition get_actids (irq : Z) : IS Z := s ← get; opt (irq_actids s !! irq).
Definition set_actids (irq a : Z) : IS unit := modify (fun s => with_irq_actids (<[irq := a]> (irq_actids s)) s).

(** [*line] for a pointer to the head of the list or to a link. *)
Definition rd_line (irq : Z) (line : pploc) : IS Z :=
  match line with PHead => s ← get; opt (irq_handlers s !! irq) | PNext p => h ← get_hook p; mret (h_next h) end.
Definition wr_line (irq : Z) (line : pploc) (v : Z) : IS unit :=
  match line with
  | PHead => modify (fun s => with_irq_handlers (<[irq := v]> (irq_handlers s)) s)
  | PNext p => upd_hook p (with_h_next v)
  end.

(** A part of the kernel that does not work on hooks. *)
Definition kern {A} (m : K A) : IS A :=
  s ← get; r ← opt (m (ikern s)); modify (with_ikern (snd r));; mret (fst r).

(** ** The interrupt controllers *)

Definition irq_8259_unmask (irq : Z) : IS unit :=
  modify (fun s =>
    let bit := Z.shiftl 1 (Z.land irq 0x7) in
    if irq <? 8 then with_ctlmasks (Z.ldiff (ctlmask s) bit) (ctlmask2 s) s
    else with_ctlmasks (ctlmask s) (Z.ldiff (ctlmask2 s) bit) s).

Definition irq_8259_mask (irq : Z) : IS unit :=
  modify (fun s =>
    let bit := Z.shiftl 1 (Z.land irq 0x7) in
    if irq <? 8 then with_ctlmasks (Z.lor (ctlmask s) bit) (ctlmask2 s) s
    else with_ctlmasks (ctlmask s) (Z.lor (ctlmask2 s) bit) s).

Definition hw_intr_unmask : Z -> IS unit := irq_8259_unmask.
Definition hw_intr_mask : Z -> IS unit := irq_8259_mask.

(** The masks the controllers are left with; registers have 8 bits. *)
Definition intr_init : IS unit :=
  modify (with_ctlmasks (Z.land (Z.lnot (Z.shiftl 1 CASCADE_IRQ)) 0xFF) (Z.land (Z.lnot 0) 0xFF)).

(** The hooks as [system_init] leaves them. *)
Definition free_hooks : gmap Z irq_hook :=
  list_to_map ((fun p => (p, IrqHook 0 0 0 0 NONE 0 0)) <$> seqZ 1 NR_IRQ_HOOKS).

Definition no_lines : gmap Z Z := list_to_map ((fun irq => (irq, 0)) <$> seqZ 0 NR_IRQ_VECTORS).

(** ** interrupt.c *)

(** The end of the list and the ids in use, or nothing if the hook is there. *)
Fixpoint put_loop (fuel : nat) (hook irq : Z) (line : pploc) (bitmap : Z) : IS (option (pploc * Z)) :=
  match fuel with
  | O => ub
  | S fuel =>
      x ← rd_line irq line;
      if x =? 0 then mret (Some (line, bitmap))
      else if hook =? x then mret None
      else h ← get_hook x; put_loop fuel hook irq (PNext x) (Z.lor bitmap (h_id h))
  end.

(** The lowest id not in use, of the 32 there are. *)
Fixpoint free_id (fuel : nat) (bitmap id : Z) : option Z :=
  match fuel with
  | O => None
  | S fuel => if Z.land bitmap id =? 0 then Some id else free_id fuel bitmap (Z.shiftl id 1)
  end.

Definition put_irq_handler (hook irq handler : Z) : IS unit :=
  if (irq <? 0) || (NR_IRQ_VECTORS <=? irq) then ub
  else
    s ← get;
    o ← put_loop (S (size (irq_hooks s))) hook irq PHead 0;
    match o with
    | None => mret tt
    | Some (line, bitmap) =>
        id ← opt (free_id 32 bitmap 1);
        upd_hook hook (fun h => IrqHook 0 handler irq id (h_proc_nr_e h) (h_notify_id h) (h_policy h));;
        wr_line irq line hook;;
        a ← get_actids irq;
        set_actids irq (Z.ldiff a id);;
        if Z.ldiff a id =? 0 then hw_intr_unmask irq else mret tt
    end.

Fixpoint rm_loop (fuel : nat) (irq id : Z) (line : pploc) : IS unit :=
  match fuel with
  | O => ub
  | S fuel =>
      x ← rd_line irq line;
      if x =? 0 then mret tt
      else
        h ← get_hook x;
        if h_id h =? id
        then
          wr_line irq line (h_next h);;
          a ← get_actids irq;
          (if has a id then set_actids irq (Z.ldiff a id) else mret tt);;
          rm_loop fuel irq id line
        else rm_loop fuel irq id (PNext x)
  end.

Definition rm_irq_handler (hook : Z) : IS unit :=
  h ← get_hook hook;
  let irq := h_irq h in
  let id := h_id h in
  if (irq <? 0) || (NR_IRQ_VECTORS <=? irq) then ub
  else
    s ← get;
    rm_loop (S (size (irq_hooks s))) irq id PHead;;
    x ← rd_line irq PHead;
    if x =? 0 then hw_intr_mask irq
    else a ← get_actids irq; if a =? 0 then hw_intr_unmask irq else mret tt.

Definition enable_irq (hook : Z) : IS unit :=
  h ← get_hook hook;
  a ← get_actids (h_irq h);
  set_actids (h_irq h) (Z.ldiff a (h_id h));;
  if Z.ldiff a (h_id h) =? 0 then hw_intr_unmask (h_irq h) else mret tt.

(** Whether the interrupt was enabled before the call. *)
Definition disable_irq (hook : Z) : IS bool :=
  h ← get_hook hook;
  a ← get_actids (h_irq h);
  if has a (h_id h) then mret false
  else
    set_actids (h_irq h) (Z.lor a (h_id h));;
    hw_intr_mask (h_irq h);;
    mret true.

Section Irq.
Context `{Signals}.

Definition GENERIC_HANDLER : Z := 1.

(** Whether the line may be enabled again. *)
Definition generic_handler (hook : Z) : IS bool :=
  h ← get_hook hook;
  o ← kern (isokendpt (h_proc_nr_e h));
  match o with
  | None => ub
  | Some proc_nr =>
      kern (updp (proc_addr proc_nr) (fun s => with_s_int_pending (Z.lor (s_int_pending s) (Z.shiftl 1 (h_notify_id h))) s));;
      kern (mini_notify (proc_addr HARDWARE) (h_proc_nr_e h));;
      mret (has (h_policy h) IRQ_REENABLE)
  end.

Definition call_handler (handler hook : Z) : IS bool := if handler =? GENERIC_HANDLER then generic_handler hook else ub.

Fixpoint handle_loop (fuel : nat) (irq hook : Z) : IS unit :=
  match fuel with
  | O => ub
  | S fuel =>
      if hook =? 0 then mret tt
      else
        h ← get_hook hook;
        a ← get_actids irq;
        set_actids irq (Z.lor a (h_id h));;
        r ← call_handler (h_handler h) hook;
        (if r : bool
         then h ← get_hook hook; a ← get_actids (h_irq h); set_actids (h_irq h) (Z.ldiff a (h_id h))
         else mret tt);;
        h ← get_hook hook;
        handle_loop fuel irq (h_next h)
  end.

Definition irq_handle (irq : Z) : IS unit :=
  if (irq <? 0) || (NR_IRQ_VECTORS <=? irq) then ub
  else
    hw_intr_mask irq;;
    hook ← rd_line irq PHead;
    if hook =? 0 then mret tt
    else
      s ← get;
      handle_loop (S (size (irq_hooks s))) irq hook;;
      a ← get_actids irq;
      if a =? 0 then hw_intr_unmask irq else mret tt.

(** ** do_irqctl.c *)

(** Whether hook [i] of the table is one that the caller may use. *)
Definition check_hook (ep i : Z) : IS kres :=
  if (NR_IRQ_HOOKS <=? i) || (i <? 0) then mret EINVAL
  else
    h ← get_hook (hook_addr i);
    mret (if h_proc_nr_e h =? NONE then EINVAL else if negb (h_proc_nr_e h =? ep) then EPERM else OK).

(** The first index of the table whose hook satisfies a test. *)
Fixpoint find_hook (f : irq_hook -> bool) (slots : list Z) : IS (option Z) :=
  match slots with
  | [] => mret None
  | i :: slots' => h ← get_hook (hook_addr i); if f h then mret (Some i) else find_hook f slots'
  end.

Definition hook_slots : list Z := seqZ 0 NR_IRQ_HOOKS.

(** Whether the caller may use the line. *)
Definition may_irq (caller vector : Z) : K bool :=
  sf ← rdp s_flags caller;
  x ← rdp s_res caller;
  mret (negb (has sf CHECK_IRQ) || existsb (fun i => default 0 (s_irq_tab x !! i) =? vector) (seqZ 0 (s_nr_irq x))).

Definition set_policy (caller vector policy notify_id : Z) : IS (kres * option Z) :=
  if (vector <? 0) || (NR_IRQ_VECTORS <=? vector) then mret (EINVAL, None)
  else
    p ← kern (rd p_priv caller);
    if p =? null_priv then mret (EPERM, None)
    else
    may ← kern (may_irq caller vector);
    if negb may then mret (EPERM, None)
    else if 31 <? u32 notify_id then mret (EINVAL, None)
    else
      ep ← kern (rd p_endpoint caller);
      o ← find_hook (fun h => (h_proc_nr_e h =? ep) && (h_notify_id h =? notify_id)) hook_slots;
      o ← match o with
          | Some i => rm_irq_handler (hook_addr i);; mret (Some i)
          | None => find_hook (fun h => h_proc_nr_e h =? NONE) hook_slots
          end;
      match o with
      | None => mret (ENOSPC, None)
      | Some i =>
          upd_hook (hook_addr i) (fun h => IrqHook (h_next h) (h_handler h) (h_irq h) (h_id h) ep notify_id policy);;
          put_irq_handler (hook_addr i) vector GENERIC_HANDLER;;
          mret (OK, Some (i + 1))
      end.

(** The result, and the hook in the reply. *)
Definition do_irqctl (caller request vector policy hook_id : Z) : IS (kres * option Z) :=
  let i := hook_id - 1 in
  if (request =? IRQ_ENABLE) || (request =? IRQ_DISABLE)
  then
    ep ← kern (rd p_endpoint caller);
    r ← check_hook ep i;
    if negb (is_OK r) then mret (r, None)
    else (if request =? IRQ_ENABLE then enable_irq (hook_addr i) else disable_irq (hook_addr i);; mret tt);; mret (OK, None)
  else if request =? IRQ_SETPOLICY then set_policy caller vector policy hook_id
  else if request =? IRQ_RMPOLICY
  then
    ep ← kern (rd p_endpoint caller);
    r ← check_hook ep i;
    if negb (is_OK r) then mret (r, None)
    else
      rm_irq_handler (hook_addr i);;
      upd_hook (hook_addr i) (with_h_proc_nr_e NONE);;
      mret (OK, None)
  else mret (EINVAL, None).
End Irq.
