(* ===== verification/KIrqTell.v ===== *)
(** Who is told of an interrupt: the process of a hook finds the number it gave
    in the message it is woken up with, or it is kept for it until it asks. *)

From S2P Require Import Prelude Chain Timers KState KSched KBoot KWait KNotify KBase KFrame KMain KSignal KIpc KSend KAsyn KIrq.
Local Open Scope Z_scope.

(** A process that may own hooks: it has a privilege structure of its own. *)
Definition owner (k : kstate) (e : Z) : Prop :=
  live_ep (fld view k) e /\ exists d f, fld pid k !! target e = Some d /\ (s_flags <$> privs k) !! d_priv d = Some f /\ has f SYS_PROC = true.

(** Process [e] has been told of number [nid], or will be when it receives. *)
Definition told (k : kstate) (e nid : Z) : Prop :=
  exists v d hw s, fld view k !! target e = Some v /\ fld pid k !! target e = Some d /\
    fld pid k !! proc_addr HARDWARE = Some hw /\ privs k !! d_priv d = Some s /\
    ((v_in v = None /\ v_deliver v = true /\ exists ts ip,
        v_msg v = Message (d_ep hw) NOTIFY_MESSAGE (m_notify ts ip ∅) /\ Z.testbit ip nid = true) \/
     (Z.testbit (s_int_pending s) nid = true /\ get_sys_bit (s_notify_pending s) (d_priv hw) = true)).

Lemma owner_ids k k' e : ids k' = ids k -> wakes (fld view k) (fld view k') -> owner k e -> owner k' e.
Proof. intros [= Ep Ef] Hw [Hl Ho]. split; [by eapply wakes_live|]. by rewrite Ep, Ef. Qed.

(** Privilege structures of owners are not shared. *)
Lemma owner_alone k e e' d d' :
  kbase k -> owner k e -> owner k e' -> fld pid k !! target e = Some d -> fld pid k !! target e' = Some d' ->
  d_priv d = d_priv d' -> target e = target e'.
Proof.
  intros Hk (Hl & d0 & f & Hd0 & Hf & Hsys) (Hl' & _) Hd Hd' E. rewrite Hd in Hd0. injection Hd0 as <-.
  destruct (live_target _ _ Hl) as [Ht _], (live_target _ _ Hl') as [Ht' _].
  apply fld_Some in Hd as (r & Hr & <-), Hd' as (r' & Hr' & <-).
  pose proof (live_flag _ _ _ (live_target _ _ Hl) Hr) as Hfr. pose proof (live_flag _ _ _ (live_target _ _ Hl') Hr') as Hfr'.
  rewrite lookup_fmap in Hf. destruct (privs k !! d_priv (pid r)) as [s|] eqn:Hs; [|done]. injection Hf as Ef. rewrite <- Ef in Hsys.
  pose proof (pi_own _ _ (kb_priv _ Hk) (target e) (pid r) s (fld_of _ _ _ _ Hr) Ht Hfr Hs Hsys) as E1.
  rewrite E in Hs. pose proof (pi_own _ _ (kb_priv _ Hk) (target e') (pid r') s (fld_of _ _ _ _ Hr') Ht' Hfr' Hs Hsys) as E2.
  destruct (pi_nr _ _ (kb_priv _ Hk) _ _ (fld_of pid _ _ _ Hr) Ht) as [-> _], (pi_nr _ _ (kb_priv _ Hk) _ _ (fld_of pid _ _ _ Hr') Ht') as [-> _].
  by rewrite <- E1, <- E2.
Qed.

Section Tell.
Context `{Signals}.

Lemma hardware_notifies k : kbase k -> may_notify k (proc_addr HARDWARE).
Proof.
  intros Hk. destruct (pi_tasks _ _ (kb_priv _ Hk) KERNEL) as (d & s & Hd & Hf & Hs & Hsys); [tauto|].
  apply fld_Some in Hd as (r & Hr & <-). split; [done|]. by exists r, s.
Qed.

Lemma hardware_nr k r : kbase k -> procs k !! proc_addr HARDWARE = Some r -> p_nr r = HARDWARE.
Proof.
  intros Hk Hr. destruct (pi_nr _ _ (kb_priv _ Hk) (proc_addr HARDWARE) (pid r)) as [E _]; [by apply fld_of|done|].
  simpl in E. unfold proc_addr in E. lia.
Qed.

Lemma ids_pid k k' : ids k' = ids k -> fld pid k' = fld pid k.
Proof. by intros [= ->]. Qed.

(** The process that is notified. *)
Lemma notified_told k k' e d s nid :
  kbase k -> notified k k' (proc_addr HARDWARE) e -> ids k' = ids k ->
  fld pid k !! target e = Some d -> privs k !! d_priv d = Some s -> Z.testbit (s_int_pending s) nid = true -> told k' e nid.
Proof.
  intros Hk Hn Hid%ids_pid Hd Hs Hb. destruct Hn as [hw r s0 Hhw Hr Hs0 Hw Ev Ep|hw r s0 Hhw Hr Hs0 Epr Ep];
    (rewrite (fld_of pid _ _ _ Hr) in Hd; injection Hd as <-; simpl in Hs; rewrite Hs0 in Hs; injection Hs as ->).
  - rewrite (hardware_nr _ _ Hk Hhw) in Ev, Ep. unfold notify_msg in Ev, Ep. simpl in Ev, Ep.
    eexists _, (pid r), (pid hw), _. rewrite Hid, Ev, Ep. split_and!; [apply lookup_insert_eq|by apply fld_of..|apply lookup_insert_eq|].
    left. split_and!; [done|done|]. simpl. eexists _, _. split; [done|done].
  - exists (view r), (pid r), (pid hw). eexists. rewrite Hid, Ep. unfold fld at 1. rewrite Epr.
    split_and!; [by apply (fld_of view)|by apply fld_of..|apply lookup_insert_eq|]. right. simpl. split; [done|].
    destruct (kbase_priv _ _ _ Hk (notifier_live _ _ (hardware_notifies _ Hk)) Hhw) as (Hi & _).
    rewrite get_set_sys_bit by (unfold priv_nr, NR_SYS_PROCS in *; lia). by rewrite Z.eqb_refl, orb_true_r.
Qed.

(** Nobody else's interrupts are lost. *)
Lemma notified_keeps k k' e e' nid :
  kbase k -> notified k k' (proc_addr HARDWARE) e -> ids k' = ids k -> owner k e -> owner k e' -> told k e' nid -> told k' e' nid.
Proof.
  intros Hk Hn Hid Ho Ho' Ht. pose proof (ids_pid _ _ Hid) as Epid. pose proof (notified_wakes _ _ _ _ Hn) as Hwk.
  destruct Ht as (v & d & hw & s & Hv & Hd & Hhw & Hs & Hor).
  assert (exists s', privs k' !! d_priv d = Some s') as [s' Hs'].
  { apply (f_equal snd) in Hid. simpl in Hid. pose proof (f_equal (lookup (d_priv d)) Hid) as E. rewrite !lookup_fmap, Hs in E.
    destruct (privs k' !! d_priv d); [by eexists|done]. }
  destruct Hor as [(Hin & Hdl & ts & ip & Em & Hb)|[Hi Hp]].
  - exists v, d, hw, s'. rewrite Epid. split_and!; try done; [by eapply wakes_stable; eauto|]. left. eauto 10.
  - pose proof Hn as Hn0. destruct Hn as [hw' r s0 Hhw' Hr Hs0 Hw Ev Ep|hw' r s0 Hhw' Hr Hs0 Epr Ep].
    + destruct (decide (p_priv r = d_priv d)) as [E|Hne].
      * assert (target e = target e') as Et by (eapply (owner_alone k e e' (pid r) d); [done..|by apply fld_of|done|done]).
        unfold told. rewrite <- Et in *. by eapply (notified_told k k' e d s nid).
      * rewrite (hardware_nr _ _ Hk Hhw') in Ev, Ep. exists v, d, hw, s. rewrite Epid, Ep, Ev.
        assert (target e <> target e') as Hte by (intros Et; rewrite <- Et, (fld_of _ _ _ _ Hr) in Hd; by injection Hd as <-).
        rewrite !lookup_insert_ne by done. split_and!; try done. by right.
    + exists v, d, hw. destruct (decide (p_priv r = d_priv d)) as [E|Hne].
      * rewrite E in Hs0, Ep. rewrite Hs in Hs0. injection Hs0 as <-. eexists. rewrite Epid, Ep. unfold fld at 1. rewrite Epr.
        split_and!; [done..|apply lookup_insert_eq|]. right. simpl. split; [done|]. by apply get_set_mono.
      * exists s. rewrite Epid, Ep, lookup_insert_ne by done. unfold fld at 1. rewrite Epr. split_and!; try done. by right.
Qed.

(** [priv(proc)->s_int_pending |= bit] *)
Definition add_int (nid : Z) (s : priv) : priv := with_s_int_pending (Z.lor (s_int_pending s) (Z.shiftl 1 nid)) s.

Lemma add_int_told k e e' d s nid nid' :
  fld pid k !! target e = Some d -> privs k !! d_priv d = Some s -> 0 <= nid ->
  told k e' nid' -> told (put_priv (d_priv d) (add_int nid s) k) e' nid'.
Proof.
  intros Hd Hs Hnid (v & d' & hw & s' & Hv & Hd' & Hhw & Hs' & Hor). destruct (decide (d_priv d = d_priv d')) as [E|Hne].
  - rewrite E in Hs |- *. rewrite Hs' in Hs. injection Hs as <-. eexists v, d', hw, _. split_and!; [done..|apply lookup_insert_eq|].
    destruct Hor as [?|[Hi Hp]]; [by left|right]. simpl. rewrite Z.lor_spec, Hi. done.
  - exists v, d', hw, s'. split_and!; [done..| |done]. simpl. by rewrite lookup_insert_ne.
Qed.

(** What a process may use does not change. *)
Lemma tell_res e nid : respects (same_field s_res) (updp (target e) (add_int nid);; mini_notify (proc_addr HARDWARE) e).
Proof. respects; [by apply same_field_updp|]. by apply same_field_notify. Qed.

(** A process is told of an interrupt, and nobody forgets any. *)
Lemma tell_run k e nid :
  kbase k -> recv_ok (fld view k) -> owner k e -> 0 <= nid ->
  runs (updp (target e) (add_int nid);; mini_notify (proc_addr HARDWARE) e) k
    (fun _ k' => kbase k' /\ ids k' = ids k /\ wakes (fld view k) (fld view k') /\ told k' e nid /\
      forall e' nid', owner k e' -> told k e' nid' -> told k' e' nid').
Proof.
  intros Hk Hrok Ho Hnid. pose proof Ho as (Hl & d & f & Hd & _). pose proof (live_target _ _ Hl) as Hlt.
  pose proof Hd as (r & Hr & Er)%fld_Some. destruct (kbase_priv _ _ _ Hk Hlt Hr) as (Hi & s & Hs & _).
  assert (p_priv r = d_priv d) as Ed by (by subst d). rewrite Ed in *.
  set (k1 := put_priv (d_priv d) (add_int nid s) k).
  eapply runs_seq with (P := fun _ k' => k' = k1 /\ kbase k' /\ ids k' = ids k).
  { eapply runs_mono; [eapply (runs_conj _ _ _ (fun _ k' => k' = k1))|].
    - apply runs_keeps; [by apply keeps_updp|]. eapply quiet_updp; [done..|by rewrite Ed|by split; auto].
    - eapply runs_updp; [done|by rewrite Ed|]. by rewrite Ed.
    - intros [] k' [[[Hk' _] Hid] ->]. done. }
  intros [] k1' (-> & Hk1 & Hid1). assert (owner k1 e) as Ho1 by (eapply owner_ids; [done|constructor|done]).
  eapply runs_mono; [apply runs_keeps; [apply keeps_mini_notify|]; apply mini_notify_effect; [done|by apply hardware_notifies|done|apply Ho1]|].
  intros res k' [(Hk' & _ & Hn) Hid']. split_and!; [done|congruence|by eapply notified_wakes in Hn|..].
  - eapply (notified_told k1 k' e d (add_int nid s) nid); [done..|apply lookup_insert_eq|]. simpl.
    rewrite Z.lor_spec, Z.shiftl_1_l, Z.pow2_bits_true by done. apply orb_true_r.
  - intros e' nid' Ho' Ht. eapply (notified_keeps k1 k' e e' nid'); [done..|eapply owner_ids; [done|constructor|done]|].
    by eapply add_int_told.
Qed.
End Tell.
