(* ===== verification/KIrqOk.v ===== *)
(** The lists of interrupt hooks: every hook in use is in the list of its line
    with an id of its own, a line is masked exactly when it has no hook or an
    active one, and an interrupt notifies the process of every hook. *)

From S2P Require Import Prelude Chain Timers KState KSched KBoot KWait KNotify KBase KMain KSignal KIpc KSend KPriv KFrame KIrq.
Local Open Scope Z_scope.

(** ** The invariant *)

(** The lines of the drivers: the clock has a hook of its own, and the second
    controller is behind the last one. *)
Definition driver_line (irq : Z) : Prop := irq <> CLOCK_IRQ /\ irq <> CASCADE_IRQ.
Definition line_nr (irq : Z) : Prop := 0 <= irq < NR_IRQ_VECTORS /\ driver_line irq.

(** The bit of the line in the mask registers. *)
Definition masked (s : irq_state) (irq : Z) : bool :=
  if irq <? 8 then Z.testbit (ctlmask s) irq else Z.testbit (ctlmask2 s) (irq - 8).

(** A hook without its link. *)
Definition bare (h : irq_hook) : irq_hook := with_h_next 0 h.
Definition hk (s : irq_state) (p : Z) : option irq_hook := bare <$> irq_hooks s !! p.
Definition hlinks (s : irq_state) : gmap Z Z := h_next <$> irq_hooks s.

Record hook_ok (h : irq_hook) : Prop := {
  ho_line : line_nr (h_irq h);
  ho_handler : h_handler h = GENERIC_HANDLER;
  ho_notify : 0 <= h_notify_id h < 32;
  ho_id : exists n, 0 <= n < NR_IRQ_HOOKS /\ h_id h = 2 ^ n;
}.

(** What the active ids [a] of a line with the hooks [l] are. *)
Record act_ok (s : irq_state) (irq : Z) (l : list Z) (a : Z) : Prop := {
  ao_bits : forall n, 0 <= n -> Z.testbit a n = true -> exists p h, p ∈ l /\ hk s p = Some h /\ h_id h = 2 ^ n;
  ao_nonneg : 0 <= a;
  ao_mask : masked s irq = negb (negb (bool_decide (l = [])) && (a =? 0));
}.

(** [ls irq] are the hooks of the line; hook [x] is left out of them. *)
Record hooks_inv (x : Z) (s : irq_state) (ls : Z -> list Z) : Prop := {
  ii_dom : forall p, is_Some (hk s p) <-> 1 <= p <= NR_IRQ_HOOKS;
  ii_line : forall irq, line_nr irq -> exists h, irq_handlers s !! irq = Some h /\ chain (links (hlinks s)) h (ls irq);
  ii_elem : forall irq p, line_nr irq ->
    p ∈ ls irq <-> p <> x /\ exists h, hk s p = Some h /\ h_proc_nr_e h <> NONE /\ h_irq h = irq;
  ii_hook : forall p h, p <> x -> hk s p = Some h -> h_proc_nr_e h <> NONE -> hook_ok h;
  ii_ids : forall p q h h', p <> x -> q <> x -> hk s p = Some h -> hk s q = Some h' ->
    h_proc_nr_e h <> NONE -> h_proc_nr_e h' <> NONE -> h_irq h = h_irq h' -> h_id h = h_id h' -> p = q;
}.

Definition line_act (s : irq_state) (irq : Z) (l : list Z) : Prop :=
  exists a, irq_actids s !! irq = Some a /\ act_ok s irq l a.

Record irq_inv (x : Z) (s : irq_state) (ls : Z -> list Z) : Prop := {
  ii_hooks :> hooks_inv x s ls;
  ii_act : forall irq, line_nr irq -> line_act s irq (ls irq);
}.

(** ** What the hooks mean *)

(** A hook in use: who is told what when the line interrupts, and whether the
    line waits for that process. *)
Record ahook := AHook { a_proc : Z; a_notify : Z; a_policy : Z; a_line : Z; a_active : bool }.

Definition abs_hook (s : irq_state) (h : irq_hook) : option ahook :=
  if h_proc_nr_e h =? NONE then None
  else Some (AHook (h_proc_nr_e h) (h_notify_id h) (h_policy h) (h_irq h) (has (default 0 (irq_actids s !! h_irq h)) (h_id h))).

Definition irq_abs (s : irq_state) : gmap Z ahook := omap (abs_hook s) (irq_hooks s).

Lemma irq_abs_lookup s p : irq_abs s !! p = hk s p ≫= abs_hook s.
Proof. unfold irq_abs, hk. rewrite lookup_omap. by destruct (irq_hooks s !! p). Qed.

Lemma abs_ext s s' p : hk s' p = hk s p -> (forall h, hk s p = Some h -> abs_hook s' h = abs_hook s h) -> irq_abs s' !! p = irq_abs s !! p.
Proof. intros Eh Ea. rewrite !irq_abs_lookup, Eh. destruct (hk s p) as [h|]; simpl; auto. Qed.

(** ** Accessors *)

Lemma get_hook_run s p h : irq_hooks s !! p = Some h -> get_hook p s = Some (h, s).
Proof. intros Hh. unfold get_hook. mrun. by rewrite Hh. Qed.

Lemma upd_hook_run s p f h :
  irq_hooks s !! p = Some h -> upd_hook p f s = Some (tt, with_irq_hooks (<[p := f h]> (irq_hooks s)) s).
Proof. intros Hh. unfold upd_hook. by rewrite (bind_run _ _ _ _ _ (get_hook_run s p h Hh)). Qed.

Lemma get_actids_run s irq a : irq_actids s !! irq = Some a -> get_actids irq s = Some (a, s).
Proof. intros Ha. unfold get_actids. mrun. by rewrite Ha. Qed.

Lemma hk_Some s p h : hk s p = Some h -> exists h0, irq_hooks s !! p = Some h0 /\ bare h0 = h.
Proof. unfold hk. destruct (irq_hooks s !! p) as [h0|]; [|done]. intros [= <-]. by exists h0. Qed.

Lemma rd_line_run s irq h l1 x l2 :
  irq_handlers s !! irq = Some h -> lseg (links (hlinks s)) h l1 x -> chain (links (hlinks s)) x l2 ->
  rd_line irq (loc_after l1) s = Some (x, s).
Proof.
  intros Hh H1 H2. pose proof (pp_read_after _ _ _ _ _ H1 H2) as Hr. unfold rd_line.
  destruct (loc_after l1) as [|p]; simpl in Hr.
  - mrun. rewrite Hh. congruence.
  - unfold hlinks in Hr. rewrite lookup_fmap in Hr. destruct (irq_hooks s !! p) as [h0|] eqn:Hp; [|done]. injection Hr as <-.
    by rewrite (bind_run _ _ _ _ _ (get_hook_run s p h0 Hp)).
Qed.

(** The parts of the state that a change of links leaves alone. *)
Record relinked (irq : Z) (s s' : irq_state) : Prop := {
  rl_hk : forall p, hk s' p = hk s p;
  rl_heads : forall j, j <> irq -> irq_handlers s' !! j = irq_handlers s !! j;
  rl_act : irq_actids s' = irq_actids s;
  rl_mask1 : ctlmask s' = ctlmask s;
  rl_mask2 : ctlmask2 s' = ctlmask2 s;
  rl_kern : ikern s' = ikern s;
}.

Lemma wr_line_run s irq h l1 v :
  irq_handlers s !! irq = Some h -> (forall p, last l1 = Some p -> is_Some (hk s p)) ->
  exists s' h', wr_line irq (loc_after l1) v s = Some (tt, s') /\ relinked irq s s' /\
    irq_handlers s' !! irq = Some h' /\ (h', hlinks s') = pp_write h (hlinks s) (loc_after l1) v.
Proof.
  intros Hh Hl. unfold wr_line, loc_after. destruct (last l1) as [p|].
  - destruct (Hl p eq_refl) as [h0 (h1 & Hp & _)%hk_Some]. rewrite (upd_hook_run _ _ _ _ Hp). eexists _, h. split; [done|].
    split; [|split; [done|]].
    + split; try done. intros q. unfold hk. simpl. destruct (decide (p = q)) as [->|].
      * by rewrite lookup_insert_eq, Hp.
      * by rewrite lookup_insert_ne.
    + simpl. f_equal. unfold hlinks. simpl. by rewrite fmap_insert.
  - eexists _, v. split; [done|]. split; [split; try done|split; [apply lookup_insert_eq|done]].
    intros j Hj. simpl. by rewrite lookup_insert_ne.
Qed.

(** ** Masks *)

Lemma land7 irq : line_nr irq -> Z.land irq 0x7 = if irq <? 8 then irq else irq - 8.
Proof.
  unfold line_nr, NR_IRQ_VECTORS. intros Hi. change 7 with (Z.ones 3). rewrite Z.land_ones by done. change (2 ^ 3) with 8.
  destruct (Z.ltb_spec irq 8); [by apply Z.mod_small; lia|]. symmetry. apply (Z.mod_unique_pos irq 8 1); lia.
Qed.

Lemma unmask_run s irq :
  line_nr irq -> exists s', hw_intr_unmask irq s = Some (tt, s') /\ masked s' irq = false /\
    (forall j, line_nr j -> j <> irq -> masked s' j = masked s j) /\
    irq_hooks s' = irq_hooks s /\ irq_handlers s' = irq_handlers s /\ irq_actids s' = irq_actids s /\ ikern s' = ikern s.
Proof.
  intros Hi. eexists. split; [done|]. rewrite (land7 irq Hi). unfold masked, line_nr, NR_IRQ_VECTORS in *.
  split_and!; [| |by destruct (irq <? 8)..].
  - destruct (Z.ltb_spec irq 8); simpl; rewrite Z.ldiff_spec, Z.shiftl_1_l, Z.pow2_bits_true by lia; by rewrite andb_false_r.
  - intros j Hj Hne. destruct (Z.ltb_spec irq 8), (Z.ltb_spec j 8); simpl; try done;
      rewrite Z.ldiff_spec, Z.shiftl_1_l, Z.pow2_bits_false by lia; by rewrite andb_true_r.
Qed.

Lemma mask_run s irq :
  line_nr irq -> exists s', hw_intr_mask irq s = Some (tt, s') /\ masked s' irq = true /\
    (forall j, line_nr j -> j <> irq -> masked s' j = masked s j) /\
    irq_hooks s' = irq_hooks s /\ irq_handlers s' = irq_handlers s /\ irq_actids s' = irq_actids s /\ ikern s' = ikern s.
Proof.
  intros Hi. eexists. split; [done|]. rewrite (land7 irq Hi). unfold masked, line_nr, NR_IRQ_VECTORS in *.
  split_and!; [| |by destruct (irq <? 8)..].
  - destruct (Z.ltb_spec irq 8); simpl; rewrite Z.lor_spec, Z.shiftl_1_l, Z.pow2_bits_true by lia; by rewrite orb_true_r.
  - intros j Hj Hne. destruct (Z.ltb_spec irq 8), (Z.ltb_spec j 8); simpl; try done;
      rewrite Z.lor_spec, Z.shiftl_1_l, Z.pow2_bits_false by lia; by rewrite orb_false_r.
Qed.

(** ** Ids *)

Definition id_of (s : irq_state) (p : Z) : Z := default 0 (h_id <$> hk s p).
Definition ids_in_use (s : irq_state) (l : list Z) (bitmap : Z) : Z := foldl (fun b p => Z.lor b (id_of s p)) bitmap l.

Lemma ids_bit s l bitmap n :
  Z.testbit (ids_in_use s l bitmap) n = true <-> Z.testbit bitmap n = true \/ exists p, p ∈ l /\ Z.testbit (id_of s p) n = true.
Proof.
  unfold ids_in_use. revert bitmap. induction l as [|p l IH]; intros bitmap; simpl; [set_solver|].
  rewrite IH, Z.lor_spec, orb_true_iff. split.
  - intros [[?|?]|(q & Hq & ?)]; [by left|right; exists p; set_solver|right; exists q; set_solver].
  - intros [?|(q & [->|Hq]%elem_of_cons & ?)]; [tauto|tauto|right; by exists q].
Qed.

Lemma free_id_run fuel bitmap n :
  0 <= n -> (exists m, n <= m < n + Z.of_nat fuel /\ Z.testbit bitmap m = false) ->
  exists m, free_id fuel bitmap (2 ^ n) = Some (2 ^ m) /\ n <= m /\ Z.testbit bitmap m = false /\
    forall i, n <= i < m -> Z.testbit bitmap i = true.
Proof.
  revert n. induction fuel as [|fuel IH]; intros n Hn (m & Hm & Hb); [lia|]. cbn [free_id].
  pose proof (has_testbit bitmap n Hn) as Ht. unfold has in Ht. destruct (Z.testbit bitmap n) eqn:E.
  - apply negb_true_iff in Ht. rewrite Ht. assert (m <> n) by congruence.
    replace (Z.shiftl (2 ^ n) 1) with (2 ^ (n + 1)) by (rewrite Z.shiftl_mul_pow2, Z.pow_add_r by lia; done).
    destruct (IH (n + 1)) as (m' & -> & Hm' & Hb' & Hall); [lia|exists m; split; [lia|done]|].
    exists m'. split_and!; [done|lia|done|]. intros i Hi. destruct (decide (i = n)) as [->|]; [done|]. apply Hall. lia.
  - apply negb_false_iff in Ht. rewrite Ht. exists n. split_and!; [done|lia|done|lia].
Qed.

(** Different ids belong to different hooks. *)
Lemma ids_length s l m : (forall i, 0 <= i < m -> exists p, p ∈ l /\ id_of s p = 2 ^ i) -> m <= Z.of_nat (length l).
Proof.
  intros Hall. destruct (Z.le_ge_cases m 0); [lia|].
  assert (length (Z.pow 2 <$> seqZ 0 m) <= length (id_of s <$> l))%nat as Hlen.
  { apply submseteq_length, NoDup_submseteq.
    - apply NoDup_fmap_2_strong; [|apply NoDup_seqZ]. intros i j Hi%elem_of_seqZ Hj%elem_of_seqZ E.
      apply (Z.pow_inj_r 2); lia.
    - intros z (i & -> & Hi%elem_of_seqZ)%list_elem_of_fmap. destruct (Hall i) as (p & Hp & Ep); [lia|].
      apply list_elem_of_fmap. by exists p. }
  rewrite !length_fmap, length_seqZ in Hlen. lia.
Qed.

(** ** Adding a hook *)

Lemma put_loop_run s irq hook h :
  irq_handlers s !! irq = Some h -> (forall p, is_Some (hlinks s !! p) -> is_Some (hk s p)) ->
  forall l2 l1 x bitmap fuel,
  lseg (links (hlinks s)) h l1 x -> chain (links (hlinks s)) x l2 -> hook ∉ l2 -> (length l2 < fuel)%nat ->
  put_loop fuel hook irq (loc_after l1) bitmap s = Some (Some (loc_after (l1 ++ l2), ids_in_use s l2 bitmap), s).
Proof.
  intros Hh Hdom l2. induction l2 as [|y l2 IH]; intros l1 x bitmap [|fuel] H1 H2 Hn Hf; simpl in Hf; try lia; cbn [put_loop];
    rewrite (bind_run _ _ _ _ _ (rd_line_run s irq h l1 x _ Hh H1 H2)).
  - apply chain_nil_head in H2 as ->. rewrite app_nil_r. done.
  - pose proof (chain_cons_head _ _ _ _ H2) as [-> Hx0]. destruct (Z.eqb_spec x 0); [done|].
    destruct (Z.eqb_spec hook x) as [->|]; [set_solver|].
    destruct (chain_cons_inv _ _ _ H2 Hx0) as (nx & l2' & [= <-] & Hnx & H2').
    destruct (Hdom x) as [hx Hhx]; [by eexists|]. destruct (hk_Some _ _ _ Hhx) as (h0 & Hh0 & Eb).
    rewrite (bind_run _ _ _ _ _ (get_hook_run s x h0 Hh0)). rewrite <- (loc_after_snoc l1 x).
    rewrite (IH (l1 ++ [x]) nx); [|eapply lseg_app; [done|]; by econstructor; [| |constructor]|done|set_solver|lia].
    rewrite <- app_assoc. simpl. unfold id_of. rewrite Hhx. simpl. rewrite <- Eb. done.
Qed.

Lemma links_hk s p : is_Some (hlinks s !! p) <-> is_Some (hk s p).
Proof. unfold hlinks, hk. rewrite lookup_fmap. by destruct (irq_hooks s !! p); split; intros []. Qed.

Lemma line_length x s ls irq : hooks_inv x s ls -> line_nr irq -> 1 <= x <= NR_IRQ_HOOKS -> Z.of_nat (length (ls irq)) < NR_IRQ_HOOKS.
Proof.
  intros Hi Hl Hx. destruct (ii_line _ _ _ Hi irq Hl) as (h & _ & Hc).
  assert (length (x :: ls irq) <= length (seqZ 1 NR_IRQ_HOOKS))%nat as Hlen.
  { apply submseteq_length, NoDup_submseteq.
    - apply NoDup_cons. split; [|by eapply chain_nodup]. rewrite (ii_elem _ _ _ Hi) by done. tauto.
    - intros p [->|Hp]%elem_of_cons; apply elem_of_seqZ; [unfold NR_IRQ_HOOKS in *; lia|].
      apply (ii_elem _ _ _ Hi) in Hp as (_ & hp & Hhp & _); [|done].
      assert (is_Some (hk s p)) as Hs by (by eexists). apply (ii_dom _ _ _ Hi) in Hs. unfold NR_IRQ_HOOKS in *. lia. }
  rewrite length_seqZ in Hlen. simpl in Hlen. unfold NR_IRQ_HOOKS in *. lia.
Qed.

(** The id for a new hook of a line. *)
Lemma new_id_run x s ls irq :
  hooks_inv x s ls -> line_nr irq -> 1 <= x <= NR_IRQ_HOOKS ->
  exists n, free_id 32 (ids_in_use s (ls irq) 0) 1 = Some (2 ^ n) /\ 0 <= n < NR_IRQ_HOOKS /\
    forall p h, p ∈ ls irq -> hk s p = Some h -> h_id h <> 2 ^ n.
Proof.
  intros Hi Hl Hx. pose proof (line_length _ _ _ _ Hi Hl Hx) as Hlen.
  assert (Hid : forall p, p ∈ ls irq -> exists n h, 0 <= n /\ hk s p = Some h /\ h_id h = 2 ^ n /\ id_of s p = 2 ^ n).
  { intros p Hp. apply (ii_elem _ _ _ Hi) in Hp as (Hpx & h & Hh & Hu & _); [|done].
    destruct (ho_id _ (ii_hook _ _ _ Hi p h Hpx Hh Hu)) as (n & Hn & En). exists n, h. unfold id_of. rewrite Hh. split_and!; try done. lia. }
  assert (Hbits : forall m, 0 <= m -> (forall i, 0 <= i < m -> Z.testbit (ids_in_use s (ls irq) 0) i = true) ->
    m <= Z.of_nat (length (ls irq))).
  { intros m Hm Hall. apply (ids_length s). intros i Hir. specialize (Hall i Hir). apply ids_bit in Hall as [Hz|(p & Hp & Hb)].
    - by rewrite Z.bits_0 in Hz.
    - destruct (Hid p Hp) as (n & h & Hn & _ & _ & E). exists p. split; [done|]. rewrite E in *.
      rewrite Z.pow2_bits_eqb in Hb by lia. apply Z.eqb_eq in Hb. by subst. }
  assert (exists m, 0 <= m < 0 + Z.of_nat 32 /\ Z.testbit (ids_in_use s (ls irq) 0) m = false) as Hex.
  { destruct (decide (Forall (fun i => Z.testbit (ids_in_use s (ls irq) 0) i = true) (seqZ 0 NR_IRQ_HOOKS))) as [Hf|Hf].
    - rewrite Forall_forall in Hf. pose proof (Hbits NR_IRQ_HOOKS ltac:(done)) as Hb. exfalso.
      assert (NR_IRQ_HOOKS <= Z.of_nat (length (ls irq))); [|lia]. apply Hb. intros i Hir. apply Hf, elem_of_seqZ. lia.
    - apply not_Forall_Exists in Hf; [|exact _]. apply Exists_exists in Hf as (m & Hm%elem_of_seqZ & Hb).
      exists m. split; [unfold NR_IRQ_HOOKS in *; lia|]. apply not_true_is_false. exact Hb. }
  destruct (free_id_run 32 _ 0 ltac:(done) Hex) as (n & Ef & Hn & Hfree & Hall). exists n. split; [exact Ef|].
  split; [pose proof (Hbits n Hn Hall); lia|]. intros p h Hp Hh E.
  destruct (Hid p Hp) as (m & h' & Hm & Hh' & Em & Ei). simplify_eq.
  assert (Z.testbit (ids_in_use s (ls irq) 0) n = true); [|congruence]. apply ids_bit. right. exists p. split; [done|].
  rewrite Ei, <- Em, E, Z.pow2_bits_eqb, Z.eqb_refl by lia. done.
Qed.

(** Lines do not share hooks. *)
Lemma lines_disjoint x s ls irq j p : hooks_inv x s ls -> line_nr irq -> line_nr j -> p ∈ ls irq -> p ∈ ls j -> irq = j.
Proof.
  intros Hi Hl Hj (_ & h & Hh & _ & <-)%(ii_elem _ _ _ Hi) (_ & h' & Hh' & _ & <-)%(ii_elem _ _ _ Hi); [|done..]. congruence.
Qed.

(** The state after the fields of a detached hook have been set. *)
Lemma upd_detached x s ls h h' :
  hooks_inv x s ls -> irq_hooks s !! x = Some h -> hooks_inv x (with_irq_hooks (<[x := h']> (irq_hooks s)) s) ls.
Proof.
  intros Hi Hh. set (s' := with_irq_hooks _ s).
  assert (Hk : forall p, p <> x -> hk s' p = hk s p) by (intros p Hp; unfold hk; simpl; by rewrite lookup_insert_ne).
  assert (Hin : forall irq p, line_nr irq -> p ∈ ls irq -> p <> x) by (intros irq p Hl (? & _)%(ii_elem _ _ _ Hi); done).
  split.
  - intros p. rewrite <- (ii_dom _ _ _ Hi p). destruct (decide (p = x)) as [->|]; [|by rewrite Hk].
    unfold hk. simpl. rewrite lookup_insert_eq, Hh. split; intros _; by eexists.
  - intros irq Hl. destruct (ii_line _ _ _ Hi irq Hl) as (hd & Hhd & Hc). exists hd. split; [done|].
    eapply lseg_ext; [|exact Hc]. intros p Hp. unfold hlinks. simpl. rewrite !lookup_fmap, lookup_insert_ne; [done|].
    intros <-. by eapply Hin.
  - intros irq p Hl. rewrite (ii_elem _ _ _ Hi irq p Hl). split; intros (Hp & hp & Hhp & ?); (split; [done|]); exists hp;
      [by rewrite Hk|by rewrite Hk in Hhp].
  - intros p hp Hp. rewrite Hk by done. by apply (ii_hook _ _ _ Hi).
  - intros p q hp hq Hp Hq. rewrite !Hk by done. by apply (ii_ids _ _ _ Hi).
Qed.

(** The lists after hook [x] has been put at the end of its line. *)
Lemma attach_lines x s ls irq s' h h' nx :
  hooks_inv x s ls -> line_nr irq -> irq_handlers s !! irq = Some h -> hlinks s !! x = Some 0 -> x <> 0 ->
  irq_handlers s' !! irq = Some h' -> (h', nx) = pp_write h (hlinks s) (loc_after (ls irq)) x -> nx = hlinks s' ->
  (forall j, j <> irq -> irq_handlers s' !! j = irq_handlers s !! j) ->
  forall j, line_nr j -> exists hd, irq_handlers s' !! j = Some hd /\
    chain (links (hlinks s')) hd (set_q irq (ls irq ++ [x]) ls j).
Proof.
  intros Hi Hl Hh Hx Hx0 Hh' Hw -> Hoth j Hj. destruct (ii_line _ _ _ Hi irq Hl) as (hd & Ehd & Hc). simplify_eq.
  assert (x ∉ ls irq) as Hxn by (rewrite (ii_elem _ _ _ Hi) by done; tauto).
  destruct (decide (j = irq)) as [->|Hne].
  - exists h'. split; [done|]. rewrite set_q_same.
    pose proof (pp_write_chain h (hlinks s) (ls irq) 0 x [x] Hc (chain_nodup _ _ _ Hc)) as Hwc.
    rewrite <- Hw in Hwc. apply Hwc; [|set_solver]. econstructor; [done|exact Hx|constructor].
  - destruct (ii_line _ _ _ Hi j Hj) as (hj & Ehj & Hcj). exists hj. rewrite Hoth by done. split; [done|].
    rewrite set_q_other by done. eapply lseg_ext; [|exact Hcj]. intros p Hp. simpl.
    unfold loc_after in Hw. destruct (last (ls irq)) as [t|] eqn:Et; simpl in Hw; injection Hw as _ ->; [|done].
    rewrite lookup_insert_ne; [done|]. intros ->. apply Hne. symmetry. eapply (lines_disjoint x s ls); [done..|by apply last_elem|done].
Qed.

(** ** Active ids *)

Lemma act_ok_ext s s' irq l a :
  act_ok s irq l a -> (forall p, p ∈ l -> hk s' p = hk s p) -> masked s' irq = masked s irq -> act_ok s' irq l a.
Proof.
  intros [Hb Hn Hm] Hh Em. split; [|done|by rewrite Em]. intros n H0 Hn'. destruct (Hb n H0 Hn') as (p & h & Hp & Hhp & E).
  exists p, h. by rewrite Hh.
Qed.

Lemma hooks_inv_ext x s s' ls :
  hooks_inv x s ls -> irq_hooks s' = irq_hooks s -> irq_handlers s' = irq_handlers s -> hooks_inv x s' ls.
Proof.
  intros [H1 H2 H3 H4 H5] Eh El. assert (forall p, hk s' p = hk s p) as Ek by (intros p; unfold hk; by rewrite Eh).
  split; unfold hlinks; try rewrite Eh, El.
  - intros p. rewrite Ek. apply H1.
  - done.
  - intros irq p. rewrite Ek. apply H3.
  - intros p h. rewrite Ek. apply H4.
  - intros p q h h'. rewrite !Ek. apply H5.
Qed.

(** Only the active ids and the mask of one line differ. *)
Record settled (irq a : Z) (m : bool) (s s' : irq_state) : Prop := {
  st_hooks : irq_hooks s' = irq_hooks s;
  st_heads : irq_handlers s' = irq_handlers s;
  st_kern : ikern s' = ikern s;
  st_act : irq_actids s' = <[irq := a]> (irq_actids s);
  st_mask : masked s' irq = m;
  st_other : forall j, line_nr j -> j <> irq -> masked s' j = masked s j;
}.

Lemma settle_run s irq a :
  line_nr irq -> (a <> 0 -> masked s irq = true) ->
  exists s', (set_actids irq a;; if a =? 0 then hw_intr_unmask irq else mret tt) s = Some (tt, s') /\
    settled irq a (negb (a =? 0)) s s'.
Proof.
  intros Hl Hm. set (s1 := with_irq_actids (<[irq := a]> (irq_actids s)) s).
  assert (set_actids irq a s = Some (tt, s1)) as E by done. rewrite (bind_run _ _ _ _ _ E).
  destruct (Z.eqb_spec a 0) as [->|Ha].
  - destruct (unmask_run s1 irq Hl) as (s' & -> & Em & Eo & E1 & E2 & E3 & E4). exists s'. split; [done|].
    split; [by rewrite E1|by rewrite E2|by rewrite E4|by rewrite E3|done|done].
  - exists s1. split; [done|]. split; try done. simpl. by apply Hm.
Qed.

(** The other lines keep their active ids and masks. *)
Lemma settled_act irq a m s s' j l :
  settled irq a m s s' -> line_nr j -> j <> irq -> line_act s j l -> line_act s' j l.
Proof.
  intros Hs Hj Hne (b & Hb & Hok). exists b. rewrite (st_act _ _ _ _ _ Hs), lookup_insert_ne by done. split; [done|].
  eapply act_ok_ext; [exact Hok| |by apply (st_other _ _ _ _ _ Hs)]. intros p _. unfold hk. by rewrite (st_hooks _ _ _ _ _ Hs).
Qed.

(** A line with no active id is not masked. *)
Lemma act_zero s irq l a : act_ok s irq l a -> l = [] -> a = 0.
Proof.
  intros Ha ->. apply Z.bits_inj_0. intros n. destruct (Z.lt_ge_cases n 0); [by apply Z.testbit_neg_r|].
  destruct (Z.testbit a n) eqn:E; [|done]. destruct (ao_bits _ _ _ _ Ha n) as (p & h & Hp & _); [done..|]. set_solver.
Qed.

(** ** put_irq_handler *)

(** The lists once hook [x] is the last of its line. *)
Lemma attach_inv x s s' ls irq h h' n :
  hooks_inv x s ls -> line_nr irq -> irq_handlers s !! irq = Some h ->
  irq_hooks s !! x = Some h' -> h_next h' = 0 -> h_irq h' = irq -> h_id h' = 2 ^ n -> h_proc_nr_e h' <> NONE -> hook_ok h' ->
  (forall p hp, p ∈ ls irq -> hk s p = Some hp -> h_id hp <> 2 ^ n) ->
  relinked irq s s' ->
  (exists hd, irq_handlers s' !! irq = Some hd /\ (hd, hlinks s') = pp_write h (hlinks s) (loc_after (ls irq)) x) ->
  hooks_inv 0 s' (set_q irq (ls irq ++ [x]) ls).
Proof.
  intros Hi Hl Hh Hx Hn0 Eirq Eid Hu Hok Hfree Hr (hd & Ehd & Hw). pose proof (rl_hk _ _ _ Hr) as Ek.
  assert (hk s x = Some (bare h')) as Hkx by (unfold hk; by rewrite Hx).
  assert (1 <= x <= NR_IRQ_HOOKS) as Hxr by (apply (ii_dom _ _ _ Hi); by eexists).
  assert (Hnz : forall p hp, hk s p = Some hp -> p <> 0)
    by (intros p hp Hp ->; assert (is_Some (hk s 0)) as H0%(ii_dom _ _ _ Hi) by (by eexists); lia).
  assert (Hcl : forall p hp, p <> x -> hk s p = Some hp -> h_proc_nr_e hp <> NONE -> h_irq hp = irq -> h_id hp <> 2 ^ n).
  { intros p hp Hp Hhp Hup Eip. apply (Hfree p); [|done]. apply (ii_elem _ _ _ Hi); [done|]. eauto. }
  split.
  - intros p. rewrite Ek. apply (ii_dom _ _ _ Hi).
  - eapply attach_lines; [exact Hi|exact Hl|exact Hh| |lia|exact Ehd|exact Hw|done|apply (rl_heads _ _ _ Hr)].
    unfold hlinks. by rewrite lookup_fmap, Hx, <- Hn0.
  - intros j p Hj. rewrite Ek. destruct (decide (p = x)) as [->|Hpx].
    + unfold set_q. destruct (Z.eqb_spec j irq) as [->|Hne].
      * split; [|set_solver]. intros _. split; [lia|]. exists (bare h'). done.
      * rewrite (ii_elem _ _ _ Hi) by done. split; [tauto|]. intros (_ & h0 & Hh0 & _ & <-). rewrite Hkx in Hh0. by injection Hh0 as <-.
    + assert (p ∈ set_q irq (ls irq ++ [x]) ls j <-> p ∈ ls j) as ->
        by (unfold set_q; destruct (Z.eqb_spec j irq) as [->|]; set_solver).
      rewrite (ii_elem _ _ _ Hi) by done. split; intros (_ & h0 & Hh0 & ?); (split; [by eauto|]); eauto.
  - intros p hp _. rewrite Ek. destruct (decide (p = x)) as [->|Hpx]; [|by apply (ii_hook _ _ _ Hi)].
    rewrite Hkx. intros [= <-] _. by destruct Hok.
  - intros p q hp hq _ _. rewrite !Ek. destruct (decide (p = x)) as [->|Hpx], (decide (q = x)) as [->|Hqx]; [done|..].
    + rewrite Hkx. intros [= <-] Hq _ Huq Ei Ed. simpl in *. exfalso. eapply (Hcl q hq); [done..|congruence|congruence].
    + rewrite Hkx. intros Hp [= <-] Hup _ Ei Ed. simpl in *. exfalso. eapply (Hcl p hp); [done..|congruence|congruence].
    + by apply (ii_ids _ _ _ Hi).
Qed.

Lemma ldiff_unset a n : 0 <= n -> has a (2 ^ n) = false -> Z.ldiff a (2 ^ n) = a.
Proof.
  intros Hn Hb. rewrite has_testbit in Hb by done. apply Z.bits_inj. intros m. rewrite Z.ldiff_spec, Z.pow2_bits_eqb by done.
  destruct (Z.eqb_spec n m) as [<-|]; [|by rewrite andb_true_r]. by rewrite Hb.
Qed.

Lemma free_unset s irq l a n :
  act_ok s irq l a -> 0 <= n -> (forall p hp, p ∈ l -> hk s p = Some hp -> h_id hp <> 2 ^ n) -> has a (2 ^ n) = false.
Proof.
  intros Ha Hn Hfree. rewrite has_testbit by done. destruct (Z.testbit a n) eqn:E; [|done].
  destruct (ao_bits _ _ _ _ Ha n Hn E) as (p & hp & Hp & Hhp & Ei). by destruct (Hfree p hp).
Qed.

Lemma put_loop_all x s ls irq hd :
  hooks_inv x s ls -> line_nr irq -> irq_handlers s !! irq = Some hd -> chain (links (hlinks s)) hd (ls irq) ->
  put_loop (S (size (irq_hooks s))) x irq PHead 0 s = Some (Some (loc_after (ls irq), ids_in_use s (ls irq) 0), s).
Proof.
  intros Hi Hl Ehd Hc. apply (put_loop_run s irq x hd Ehd (fun p => proj1 (links_hk s p)) (ls irq) [] hd 0); [constructor|done|..].
  - rewrite (ii_elem _ _ _ Hi) by done. tauto.
  - pose proof (chain_length _ _ _ Hc) as Hle. unfold hlinks in Hle. rewrite map_size_fmap in Hle. lia.
Qed.

(** The active ids once [x] has joined the line: it is not active. *)
Lemma attach_act x s s' ls irq a :
  irq_inv x s ls -> line_nr irq -> irq_actids s !! irq = Some a -> irq_actids s' = <[irq := a]> (irq_actids s) ->
  (forall p, p <> x -> hk s' p = hk s p) -> masked s' irq = negb (a =? 0) ->
  (forall j, line_nr j -> j <> irq -> masked s' j = masked s j) ->
  forall j, line_nr j -> line_act s' j (set_q irq (ls irq ++ [x]) ls j).
Proof.
  intros Hi Hl Ha Ea Hk Hm Ho j Hj. assert (forall p, p ∈ ls j -> hk s' p = hk s p) as Hk'
    by (intros p (? & _)%(ii_elem _ _ _ Hi); auto).
  destruct (decide (j = irq)) as [->|Hne].
  - rewrite set_q_same. destruct (ii_act _ _ _ Hi irq Hl) as (a' & Ha' & Hok). rewrite Ha in Ha'. injection Ha' as <-. exists a.
    rewrite Ea, lookup_insert_eq. split; [done|]. split; [|apply Hok|].
    + intros n Hn Hb. destruct (ao_bits _ _ _ _ Hok n Hn Hb) as (p & h & Hp & Hh & E). exists p, h. rewrite Hk' by done. set_solver.
    + rewrite Hm, bool_decide_eq_false_2; [done|]. by destruct (ls irq).
  - rewrite set_q_other by done. destruct (ii_act _ _ _ Hi j Hj) as (a' & Ha' & Hok). exists a'.
    rewrite Ea, lookup_insert_ne by done. split; [done|]. eapply act_ok_ext; [exact Hok|done|by apply Ho].
Qed.

(** A hook joins the end of its line; nothing is lost of the others. *)
Lemma put_run x s ls irq h :
  irq_inv x s ls -> line_nr irq -> irq_hooks s !! x = Some h -> h_proc_nr_e h <> NONE -> 0 <= h_notify_id h < 32 ->
  exists s', put_irq_handler x irq GENERIC_HANDLER s = Some (tt, s') /\ irq_inv 0 s' (set_q irq (ls irq ++ [x]) ls) /\
    ikern s' = ikern s /\ irq_abs s' = <[x := AHook (h_proc_nr_e h) (h_notify_id h) (h_policy h) irq false]> (irq_abs s).
Proof.
  intros Hi Hl Hx Hu Hnid. unfold put_irq_handler.
  assert (1 <= x <= NR_IRQ_HOOKS) as Hxr by (apply (ii_dom _ _ _ Hi); unfold hk; rewrite Hx; by eexists).
  assert ((irq <? 0) || (NR_IRQ_VECTORS <=? irq) = false) as -> by (unfold line_nr in Hl; lia). rewrite (bind_run get _ s s s eq_refl).
  destruct (ii_line _ _ _ Hi irq Hl) as (hd & Ehd & Hc).
  rewrite (bind_run _ _ _ _ _ (put_loop_all x s ls irq hd Hi Hl Ehd Hc)). cbv beta iota.
  destruct (new_id_run x s ls irq Hi Hl Hxr) as (n & En & Hn & Hfree). rewrite En, (bind_run (opt (Some (2 ^ n))) _ s _ _ eq_refl).
  set (h' := IrqHook 0 GENERIC_HANDLER irq (2 ^ n) (h_proc_nr_e h) (h_notify_id h) (h_policy h)).
  rewrite (bind_run _ _ _ _ _ (upd_hook_run s x _ h Hx)).
  pose proof (upd_detached x s ls h h' Hi Hx) as Hi1. set (s1 := with_irq_hooks _ s) in *.
  assert (Hk1 : forall p, p <> x -> hk s1 p = hk s p) by (intros p Hp; unfold hk; simpl; by rewrite lookup_insert_ne).
  assert (Hin : forall j p, line_nr j -> p ∈ ls j -> p <> x) by (intros j p Hj (? & _)%(ii_elem _ _ _ Hi); done).
  assert (Hx1 : irq_hooks s1 !! x = Some h') by apply lookup_insert_eq.
  destruct (wr_line_run s1 irq hd (ls irq) x Ehd) as (s2 & hd2 & E2 & Hr & Ehd2 & Hw).
  { intros p Hp. apply (ii_dom _ _ _ Hi1), (ii_dom _ _ _ Hi). apply last_elem in Hp.
    apply (ii_elem _ _ _ Hi) in Hp as (_ & hp & -> & _); [by eexists|done]. }
  rewrite (bind_run _ _ _ _ _ E2). destruct (ii_act _ _ _ Hi irq Hl) as (a & Ha & Hok).
  assert (irq_actids s2 !! irq = Some a) as Ha2 by (by rewrite (rl_act _ _ _ Hr)).
  rewrite (bind_run _ _ _ _ _ (get_actids_run s2 irq a Ha2)). rewrite (ldiff_unset a n) by (lia || by apply (free_unset s irq (ls irq)); [|lia|]).
  assert (Hm2 : forall j, masked s2 j = masked s j)
    by (intros j; unfold masked; by rewrite (rl_mask1 _ _ _ Hr), (rl_mask2 _ _ _ Hr)).
  assert (Hi2 : hooks_inv 0 s2 (set_q irq (ls irq ++ [x]) ls)).
  { eapply (attach_inv x s1 s2 ls irq hd h' n); try done; [split; simpl; try done; eauto| |by exists hd2].
    intros p hp Hp. rewrite Hk1 by (by apply (Hin irq)). by apply Hfree. }
  destruct (settle_run s2 irq a Hl) as (s3 & E3 & Hs).
  { intros Hne. rewrite Hm2, (ao_mask _ _ _ _ Hok). destruct (Z.eqb_spec a 0); [done|]. by rewrite andb_false_r. }
  assert (forall p, hk s3 p = hk s1 p) as Ek3
    by (intros p; rewrite <- (rl_hk _ _ _ Hr); unfold hk; by rewrite (st_hooks _ _ _ _ _ Hs)).
  exists s3. split; [exact E3|]. split.
  - split; [by eapply hooks_inv_ext; [exact Hi2|apply (st_hooks _ _ _ _ _ Hs)|apply (st_heads _ _ _ _ _ Hs)]|].
    eapply attach_act; [exact Hi|exact Hl|exact Ha|by rewrite (st_act _ _ _ _ _ Hs), (rl_act _ _ _ Hr)| |apply Hs|].
    + intros p Hp. by rewrite Ek3, Hk1.
    + intros j Hj Hne. by rewrite (st_other _ _ _ _ _ Hs), Hm2.
  - rewrite (st_kern _ _ _ _ _ Hs). split; [apply (rl_kern _ _ _ Hr)|].
    assert (irq_actids s3 = irq_actids s) as Ea
      by (rewrite (st_act _ _ _ _ _ Hs), (rl_act _ _ _ Hr); by apply insert_id).
    apply map_eq. intros p. destruct (decide (p = x)) as [->|Hne].
    + rewrite lookup_insert_eq, irq_abs_lookup, Ek3. unfold hk. rewrite Hx1. simpl. unfold abs_hook. simpl.
      apply Z.eqb_neq in Hu. rewrite Hu, Ea, Ha. simpl. by rewrite (free_unset s irq (ls irq) a n Hok) by (done || lia).
    + rewrite lookup_insert_ne by done. apply abs_ext; [by rewrite Ek3, Hk1|]. intros h0 _. unfold abs_hook. by rewrite Ea.
Qed.

(** ** rm_irq_handler *)

Lemma rm_skip s irq id hd :
  irq_handlers s !! irq = Some hd -> forall m l1 x y l2 fuel,
  lseg (links (hlinks s)) hd l1 x -> lseg (links (hlinks s)) x m y -> chain (links (hlinks s)) y l2 ->
  (forall p, p ∈ m -> exists h, hk s p = Some h /\ h_id h <> id) ->
  rm_loop (length m + fuel) irq id (loc_after l1) s = rm_loop fuel irq id (loc_after (l1 ++ m)) s.
Proof.
  intros Hh m. induction m as [|p m IH]; intros l1 x y l2 fuel H1 Hm H2 Hid; [by rewrite app_nil_r|].
  inversion Hm as [|? q ? ? Hp0 Hq Hm']; subst. cbn [length Nat.add rm_loop].
  assert (chain (links (hlinks s)) p (p :: m ++ l2)) as Hc by (econstructor; [done|exact Hq|by eapply lseg_app]).
  rewrite (bind_run _ _ _ _ _ (rd_line_run s irq hd l1 p _ Hh H1 Hc)). destruct (Z.eqb_spec p 0); [done|].
  destruct (Hid p) as (h & (h0 & Hh0 & <-)%hk_Some & Hne); [set_solver|]. rewrite (bind_run _ _ _ _ _ (get_hook_run s p h0 Hh0)).
  simpl in Hne. destruct (Z.eqb_spec (h_id h0) id); [done|]. rewrite <- (loc_after_snoc l1 p).
  rewrite (IH (l1 ++ [p]) q y l2); [by rewrite <- app_assoc| |done|done|intros; apply Hid; set_solver].
  eapply lseg_app; [exact H1|]. econstructor; [done|exact Hq|constructor].
Qed.

Lemma rm_end s irq id hd l1 :
  irq_handlers s !! irq = Some hd -> chain (links (hlinks s)) hd l1 -> forall fuel, rm_loop (S fuel) irq id (loc_after l1) s = Some (tt, s).
Proof.
  intros Hh H1 fuel. cbn [rm_loop]. rewrite (bind_run _ _ _ _ _ (rd_line_run s irq hd l1 0 [] Hh H1 (lseg_nil _ _))). done.
Qed.

(** The lists once hook [x] is out of its line. *)
Lemma detach_inv x s s' ls irq hd nx l1 l2 :
  hooks_inv 0 s ls -> line_nr irq -> irq_handlers s !! irq = Some hd -> ls irq = l1 ++ x :: l2 -> hlinks s !! x = Some nx ->
  relinked irq s s' ->
  (exists hd', irq_handlers s' !! irq = Some hd' /\ (hd', hlinks s') = pp_write hd (hlinks s) (loc_after l1) nx) ->
  hooks_inv x s' (set_q irq (l1 ++ l2) ls).
Proof.
  intros Hi Hl Hh El Hnx Hr (hd' & Ehd' & Hw). pose proof (rl_hk _ _ _ Hr) as Ek.
  destruct (ii_line _ _ _ Hi irq Hl) as (hd0 & E0 & Hc). simplify_eq. pose proof (chain_nodup _ _ _ Hc) as Hnd.
  rewrite El in Hc, Hnd. apply lseg_app_inv in Hc as (y & H1 & H2). inversion H2 as [|? q ? ? Hx0 Hq H2']; subst.
  simpl in Hq. simplify_eq. apply NoDup_app in Hnd as (Hnd1 & Hdis & (Hx2 & Hnd2)%NoDup_cons).
  assert (Hnz : forall p hp, hk s p = Some hp -> p <> 0)
    by (intros p hp Hp ->; assert (is_Some (hk s 0)) as H0%(ii_dom _ _ _ Hi) by (by eexists); lia).
  split.
  - intros p. rewrite Ek. apply (ii_dom _ _ _ Hi).
  - intros j Hj. destruct (decide (j = irq)) as [->|Hne].
    + exists hd'. split; [done|]. rewrite set_q_same.
      pose proof (pp_write_chain hd (hlinks s) l1 x nx l2 H1 Hnd1 H2') as Hwc. rewrite <- Hw in Hwc. apply Hwc. set_solver.
    + destruct (ii_line _ _ _ Hi j Hj) as (hj & Ehj & Hcj). exists hj. rewrite (rl_heads _ _ _ Hr) by done. split; [done|].
      rewrite set_q_other by done. eapply lseg_ext; [|exact Hcj]. intros p Hp. simpl.
      unfold loc_after in Hw. destruct (last l1) as [t|] eqn:Et; simpl in Hw; injection Hw as _ ->; [|done].
      rewrite lookup_insert_ne; [done|]. intros ->. apply Hne. symmetry.
      eapply (lines_disjoint 0 s ls); [done..| |exact Hp]. rewrite El. apply last_elem in Et. set_solver.
  - intros j p Hj. rewrite Ek. destruct (decide (j = irq)) as [->|Hne].
    + rewrite set_q_same. pose proof (ii_elem _ _ _ Hi irq p Hl) as He. rewrite El in He. split.
      * intros Hp. assert (p <> x) by set_solver. split; [done|]. by apply He; set_solver.
      * intros (Hpx & hp & Hhp & Hup). assert (p ∈ l1 ++ x :: l2) by (apply He; eauto). set_solver.
    + rewrite set_q_other, (ii_elem _ _ _ Hi) by done. split; intros (Hpx & hp & Hhp & Hup & Eip); (split; [|by eauto]); [|by eauto].
      intros ->. assert (x ∈ ls irq) as Hx by (rewrite El; set_solver). apply (ii_elem _ _ _ Hi) in Hx as (_ & hx & Hhx & _ & Eix); [|done].
      congruence.
  - intros p hp Hpx. rewrite Ek. intros Hp. apply (ii_hook _ _ _ Hi p hp); eauto.
  - intros p q' hp hq Hpx Hqx. rewrite !Ek. intros Hp Hq'. apply (ii_ids _ _ _ Hi p q' hp hq); eauto.
Qed.

(** The active ids without the one that has been removed. *)
Lemma detach_act x s s' ls irq l1 l2 a n hx :
  irq_inv 0 s ls -> line_nr irq -> ls irq = l1 ++ x :: l2 -> irq_actids s !! irq = Some a -> 0 <= n ->
  hk s x = Some hx -> h_id hx = 2 ^ n ->
  irq_actids s' = <[irq := Z.ldiff a (2 ^ n)]> (irq_actids s) -> (forall p, hk s' p = hk s p) ->
  masked s' irq = bool_decide (l1 ++ l2 = []) || negb (Z.ldiff a (2 ^ n) =? 0) ->
  (forall j, line_nr j -> j <> irq -> masked s' j = masked s j) ->
  forall j, line_nr j -> line_act s' j (set_q irq (l1 ++ l2) ls j).
Proof.
  intros Hi Hl El Ha Hn Hx Ex Ea Ek Hm Ho j Hj. destruct (decide (j = irq)) as [->|Hne].
  - rewrite set_q_same. destruct (ii_act _ _ _ Hi irq Hl) as (a' & Ha' & Hok). rewrite Ha in Ha'. injection Ha' as <-.
    exists (Z.ldiff a (2 ^ n)). rewrite Ea, lookup_insert_eq. split; [done|]. split.
    + intros m Hm0 Hb. rewrite Z.ldiff_spec, Z.pow2_bits_eqb in Hb by done. apply andb_true_iff in Hb as [Hb Hmn].
      destruct (ao_bits _ _ _ _ Hok m Hm0 Hb) as (p & h & Hp & Hh & E). exists p, h. rewrite Ek. split; [|done].
      rewrite El in Hp. assert (p <> x); [|set_solver]. intros ->. rewrite Hx in Hh. injection Hh as <-.
      rewrite Ex in E. apply Z.pow_inj_r in E as ->; [|lia..]. by rewrite Z.eqb_refl in Hmn.
    + apply Z.ldiff_nonneg. left. apply Hok.
    + rewrite Hm. by destruct (bool_decide _), (_ =? 0).
  - rewrite set_q_other by done. destruct (ii_act _ _ _ Hi j Hj) as (a' & Ha' & Hok). exists a'.
    rewrite Ea, lookup_insert_ne by done. split; [done|]. eapply act_ok_ext; [exact Hok|done|by apply Ho].
Qed.

Lemma has_ldiff_run irq a n (s : irq_state) :
  0 <= n -> irq_actids s !! irq = Some a ->
  (if has a (2 ^ n) then set_actids irq (Z.ldiff a (2 ^ n)) else mret tt) s =
  Some (tt, with_irq_actids (<[irq := Z.ldiff a (2 ^ n)]> (irq_actids s)) s).
Proof.
  intros Hn Ha. destruct (has a (2 ^ n)) eqn:E; [done|]. rewrite (ldiff_unset a n Hn E), (insert_id _ _ _ Ha). by destruct s.
Qed.

Lemma line_ids s ls irq l1 x l2 hx n p :
  irq_inv 0 s ls -> line_nr irq -> ls irq = l1 ++ x :: l2 -> hk s x = Some hx -> h_id hx = 2 ^ n -> p ∈ l1 ++ l2 ->
  exists h, hk s p = Some h /\ h_id h <> 2 ^ n.
Proof.
  intros Hi Hl El Hx Ex Hp. destruct (ii_line _ _ _ Hi irq Hl) as (hd & _ & Hc%chain_nodup).
  assert (p <> x) as Hpx by (intros ->; rewrite El in Hc; apply NoDup_app in Hc as (_ & Hd & (Hx2 & _)%NoDup_cons); set_solver).
  assert (p ∈ ls irq) as Hpl by (rewrite El; set_solver). assert (x ∈ ls irq) as Hxl by (rewrite El; set_solver).
  apply (ii_elem _ _ _ Hi) in Hpl as (Hp0 & h & Hh & Hu & Ei); [|done].
  apply (ii_elem _ _ _ Hi) in Hxl as (Hx0 & h' & Hh' & Hu' & Ei'); [|done]. rewrite Hx in Hh'. injection Hh' as <-.
  exists h. split; [done|]. intros E. apply Hpx, (ii_ids _ _ _ Hi p x h hx); congruence.
Qed.

Lemma rm_loop_run x s ls irq h n l1 l2 a :
  irq_inv 0 s ls -> line_nr irq -> ls irq = l1 ++ x :: l2 -> irq_hooks s !! x = Some h -> h_id h = 2 ^ n -> 0 <= n ->
  irq_actids s !! irq = Some a ->
  exists s1, rm_loop (S (size (irq_hooks s))) irq (2 ^ n) PHead s =
      Some (tt, with_irq_actids (<[irq := Z.ldiff a (2 ^ n)]> (irq_actids s)) s1) /\
    relinked irq s s1 /\ hooks_inv x s1 (set_q irq (l1 ++ l2) ls).
Proof.
  intros Hi Hl El Hx Ex Hn Ha. destruct (ii_line _ _ _ Hi irq Hl) as (hd & Ehd & Hc).
  pose proof (chain_length _ _ _ Hc) as Hle. unfold hlinks in Hle. rewrite map_size_fmap in Hle. rewrite El in Hc, Hle.
  rewrite length_app in Hle. simpl in Hle. assert (hk s x = Some (bare h)) as Hkx by (unfold hk; by rewrite Hx).
  assert (Hids : forall p, p ∈ l1 ++ l2 -> exists h, hk s p = Some h /\ h_id h <> 2 ^ n)
    by (intros p; by apply (line_ids s ls irq l1 x l2 (bare h))).
  apply lseg_app_inv in Hc as (y & H1 & H2). pose proof H2 as H2c. inversion H2 as [|? nx ? ? Hx0 Hnx H2']; subst. simpl in Hnx.
  pose proof Hnx as En. unfold hlinks in En. rewrite lookup_fmap, Hx in En. injection En as En.
  replace (S (size (irq_hooks s))) with (length l1 + S (length l2 + S (size (irq_hooks s) - length l1 - S (length l2))))%nat by lia.
  change PHead with (loc_after []). rewrite (rm_skip s irq (2 ^ n) hd Ehd l1 [] hd x (x :: l2)); [|constructor|done|done|intros; apply Hids; set_solver].
  cbn [rm_loop app]. rewrite (bind_run _ _ _ _ _ (rd_line_run s irq hd l1 x _ Ehd H1 H2c)). destruct (Z.eqb_spec x 0); [done|].
  rewrite (bind_run _ _ _ _ _ (get_hook_run s x h Hx)), Ex, Z.eqb_refl, En.
  destruct (wr_line_run s irq hd l1 nx Ehd) as (s1 & hd1 & E1 & Hr & Ehd1 & Hw).
  { intros p Hp%last_elem. destruct (Hids p) as (hp & -> & _); [set_solver|by eexists]. }
  exists s1. rewrite (bind_run _ _ _ _ _ E1). assert (irq_actids s1 !! irq = Some a) as Ha1 by (by rewrite (rl_act _ _ _ Hr)).
  rewrite (bind_run _ _ _ _ _ (get_actids_run s1 irq a Ha1)), (bind_run _ _ _ _ _ (has_ldiff_run irq a n s1 Hn Ha1)).
  assert (hooks_inv x s1 (set_q irq (l1 ++ l2) ls)) as Hi1 by (by eapply detach_inv; eauto using ii_hooks).
  split; [|done]. rewrite (rl_act _ _ _ Hr). set (s2 := with_irq_actids _ s1).
  destruct (ii_line _ _ _ Hi1 irq Hl) as (hd1' & E' & Hc1). rewrite Ehd1 in E'. injection E' as <-. rewrite set_q_same in Hc1.
  pose proof Hc1 as Hc2. apply lseg_app_inv in Hc2 as (z & H1' & H2'').
  rewrite (rm_skip s2 irq (2 ^ n) hd1 Ehd1 l2 l1 z 0 []); [by apply (rm_end s2 irq (2 ^ n) hd1)|done|done|constructor|].
  intros p Hp. destruct (Hids p) as (hp & Hhp & Hne); [set_solver|]. exists hp. split; [|done].
  rewrite <- Hhp. apply (rl_hk _ _ _ Hr).
Qed.

Lemma remove1_inv x l : x ∈ l -> exists l1 l2, l = l1 ++ x :: l2 /\ remove1 x l = l1 ++ l2.
Proof.
  intros Hx. unfold remove1. pose proof (before_from (Z.eqb x) l) as E. destruct (from (Z.eqb x) l) as [|y l2] eqn:Ef.
  - by apply from_eqb_nil in Ef.
  - pose proof (from_eqb_inv _ _ _ _ Ef) as ->. by exists (before (Z.eqb x) l), l2.
Qed.

(** A line without hooks is masked, one without active ids is not. *)
Lemma resettle_run s irq hd l a m :
  line_nr irq -> irq_handlers s !! irq = Some hd -> chain (links (hlinks s)) hd l -> irq_actids s !! irq = Some a ->
  (a <> 0 -> masked s irq = true) -> m = bool_decide (l = []) || negb (a =? 0) ->
  exists s', (y ← rd_line irq PHead; if y =? 0 then hw_intr_mask irq
    else b ← get_actids irq; if b =? 0 then hw_intr_unmask irq else mret tt) s = Some (tt, s') /\ settled irq a m s s'.
Proof.
  intros Hl Hh Hc Ha Hm ->. rewrite (bind_run _ _ _ _ _ (rd_line_run s irq hd [] hd l Hh (lseg_nil _ _) Hc)).
  assert (<[irq := a]> (irq_actids s) = irq_actids s) as Ei by (by apply insert_id).
  destruct l as [|p l].
  - apply chain_nil_head in Hc as ->. destruct (mask_run s irq Hl) as (s' & E & Em & Eo & E1 & E2 & E3 & E4).
    exists s'. split; [exact E|]. split; try done. by rewrite Ei.
  - apply chain_cons_head in Hc as [-> Hp]. destruct (Z.eqb_spec hd 0); [done|].
    rewrite (bind_run _ _ _ _ _ (get_actids_run s irq a Ha)), bool_decide_eq_false_2 by done. simpl.
    destruct (Z.eqb_spec a 0) as [->|Hne].
    + destruct (unmask_run s irq Hl) as (s' & E & Em & Eo & E1 & E2 & E3 & E4).
      exists s'. split; [exact E|]. split; try done. by rewrite Ei.
    + exists s. split; [done|]. split; try done. by apply Hm.
Qed.

Lemma has_ldiff_other a n m : 0 <= n -> 0 <= m -> n <> m -> has (Z.ldiff a (2 ^ n)) (2 ^ m) = has a (2 ^ m).
Proof.
  intros Hn Hm Hne. rewrite !has_testbit, Z.ldiff_spec, Z.pow2_bits_eqb by done.
  destruct (Z.eqb_spec n m); [done|]. by rewrite andb_true_r.
Qed.

Lemma detach_abs x s s' ls irq l1 l2 a n hx p :
  irq_inv 0 s ls -> line_nr irq -> ls irq = l1 ++ x :: l2 -> irq_actids s !! irq = Some a -> 0 <= n ->
  hk s x = Some hx -> h_id hx = 2 ^ n ->
  irq_actids s' = <[irq := Z.ldiff a (2 ^ n)]> (irq_actids s) -> (forall p, hk s' p = hk s p) ->
  p <> x -> irq_abs s' !! p = irq_abs s !! p.
Proof.
  intros Hi Hl El Ha Hn Hx Ex Ea Ek Hpx. apply abs_ext; [done|]. intros h Hh. unfold abs_hook.
  destruct (Z.eqb_spec (h_proc_nr_e h) NONE) as [|Hu]; [done|]. do 2 f_equal. rewrite Ea.
  destruct (decide (h_irq h = irq)) as [<-|Hne]; [|by rewrite lookup_insert_ne].
  rewrite lookup_insert_eq, Ha. simpl.
  assert (p <> 0) as Hp0 by (intros ->; assert (is_Some (hk s 0)) as H0%(ii_dom _ _ _ Hi) by (by eexists); lia).
  destruct (ho_id _ (ii_hook _ _ _ Hi p h Hp0 Hh Hu)) as (m & Hm & Em). rewrite Em. apply has_ldiff_other; [lia..|].
  intros ->. destruct (line_ids s ls (h_irq h) l1 x l2 hx m p Hi Hl El Hx Ex) as (h' & Hh' & Hne); [|congruence].
  assert (p ∈ ls (h_irq h)) as Hp by (apply (ii_elem _ _ _ Hi); eauto). rewrite El in Hp. set_solver.
Qed.

(** A hook leaves its line. *)
Lemma rm_run x s ls h :
  irq_inv 0 s ls -> irq_hooks s !! x = Some h -> h_proc_nr_e h <> NONE ->
  exists s', rm_irq_handler x s = Some (tt, s') /\ irq_inv x s' (set_q (h_irq h) (remove1 x (ls (h_irq h))) ls) /\
    ikern s' = ikern s /\ (forall p, hk s' p = hk s p) /\ forall p, p <> x -> irq_abs s' !! p = irq_abs s !! p.
Proof.
  intros Hi Hx Hu. assert (hk s x = Some (bare h)) as Hkx by (unfold hk; by rewrite Hx).
  assert (1 <= x <= NR_IRQ_HOOKS) as Hxr by (apply (ii_dom _ _ _ Hi); by eexists).
  destruct (ii_hook _ _ _ Hi x (bare h) ltac:(lia) Hkx Hu) as [Hl _ _ (n & Hn & En)]. simpl in Hl, En.
  unfold rm_irq_handler. rewrite (bind_run _ _ _ _ _ (get_hook_run s x h Hx)). set (irq := h_irq h) in *. cbv zeta.
  assert ((irq <? 0) || (NR_IRQ_VECTORS <=? irq) = false) as -> by (unfold line_nr in Hl; lia).
  rewrite (bind_run get _ s s s eq_refl), En.
  assert (x ∈ ls irq) as Hxl by (apply (ii_elem _ _ _ Hi); [done|]; split; [lia|]; by exists (bare h)).
  destruct (ii_line _ _ _ Hi irq Hl) as (hd & Ehd & Hc). pose proof (chain_nodup _ _ _ Hc) as Hnd.
  destruct (remove1_inv x (ls irq) Hxl) as (l1 & l2 & El & Er). rewrite Er.
  destruct (ii_act _ _ _ Hi irq Hl) as (a & Ha & Hok).
  destruct (rm_loop_run x s ls irq h n l1 l2 a Hi Hl El Hx En ltac:(lia) Ha) as (s1 & E1 & Hr & Hi1).
  rewrite (bind_run _ _ _ _ _ E1). set (s2 := with_irq_actids _ s1).
  assert (exists s3, (y ← rd_line irq PHead; if y =? 0 then hw_intr_mask irq
    else b ← get_actids irq; if b =? 0 then hw_intr_unmask irq else mret tt) s2 = Some (tt, s3) /\
    settled irq (Z.ldiff a (2 ^ n)) (bool_decide (l1 ++ l2 = []) || negb (Z.ldiff a (2 ^ n) =? 0)) s2 s3)
    as (s3 & E3 & Hs).
  { destruct (ii_line _ _ _ Hi1 irq Hl) as (hd1 & Ehd1 & Hc1). rewrite set_q_same in Hc1.
    eapply (resettle_run s2 irq hd1 (l1 ++ l2)); [done..|apply lookup_insert_eq| |done].
    intros Hne. assert (a <> 0) by (intros ->; by rewrite Z.ldiff_0_l in Hne).
    assert (masked s2 irq = masked s irq) as -> by (unfold masked; simpl; by rewrite (rl_mask1 _ _ _ Hr), (rl_mask2 _ _ _ Hr)).
    rewrite (ao_mask _ _ _ _ Hok). destruct (Z.eqb_spec a 0); [done|]. by rewrite andb_false_r. }
  exists s3. split; [exact E3|]. assert (Ek : forall p, hk s3 p = hk s p)
    by (intros p; rewrite <- (rl_hk _ _ _ Hr); unfold hk; by rewrite (st_hooks _ _ _ _ _ Hs)).
  split; [|split; [by rewrite (st_kern _ _ _ _ _ Hs), <- (rl_kern _ _ _ Hr)|split; [done|]]]; last first.
  { intros p Hp. eapply (detach_abs x s s3 ls irq l1 l2 a n (bare h)); try done; [lia|]. rewrite (st_act _ _ _ _ _ Hs). apply insert_insert_eq. }
  split; [by eapply hooks_inv_ext; [exact Hi1|rewrite (st_hooks _ _ _ _ _ Hs)|rewrite (st_heads _ _ _ _ _ Hs)]|].
  eapply (detach_act x s s3 ls irq l1 l2 a n (bare h)); try done; [lia| |apply Hs|].
  { rewrite (st_act _ _ _ _ _ Hs). apply insert_insert_eq. }
  intros j Hj Hne. rewrite (st_other _ _ _ _ _ Hs) by done. unfold masked. simpl. by rewrite (rl_mask1 _ _ _ Hr), (rl_mask2 _ _ _ Hr).
Qed.
