(* ===== verification/KIrqRun.v ===== *)
(** Interrupts and the kernel call for hooks, against what the hooks mean: each
    operation does to the table of hooks what its abstract counterpart does,
    and the masks follow from the table. *)

From S2P Require Import Prelude Chain Timers KState KSched KBoot KWait KNotify KBase KFrame KMain KSignal KIpc KSend KAsyn KPriv KIrq KIrqTell KIrqOk.
Local Open Scope Z_scope.

(** ** The abstract operations *)

Notation ahooks := (gmap Z ahook).

Definition with_active (b : bool) (h : ahook) : ahook := AHook (a_proc h) (a_notify h) (a_policy h) (a_line h) b.

(** Every process of the line becomes active, unless its policy says otherwise. *)
Definition a_interrupt (irq : Z) (m : ahooks) : ahooks :=
  (fun h => if a_line h =? irq then with_active (negb (has (a_policy h) IRQ_REENABLE)) h else h) <$> m.

(** The addresses of the hooks. *)
Definition a_slots : list Z := hook_addr <$> hook_slots.

Definition a_any (f : ahook -> bool) (m : ahooks) : bool :=
  existsb (fun p => match m !! p with Some h => f h | None => false end) a_slots.

Definition a_masked (m : ahooks) (irq : Z) : bool :=
  negb (a_any (fun h => a_line h =? irq) m) || a_any (fun h => (a_line h =? irq) && a_active h) m.

Fixpoint a_find (f : option ahook -> bool) (m : ahooks) (slots : list Z) : option Z :=
  match slots with
  | [] => None
  | i :: slots' => if f (m !! hook_addr i) then Some i else a_find f m slots'
  end.

Definition mine (ep nid : Z) (o : option ahook) : bool :=
  match o with Some h => (a_proc h =? ep) && (a_notify h =? nid) | None => false end.
Definition unused (o : option ahook) : bool := match o with Some _ => false | None => true end.

(** The hook for a new policy: the one to replace, or a free one. *)
Definition a_choose (ep nid : Z) (m : ahooks) : option Z :=
  match a_find (mine ep nid) m hook_slots with Some i => Some i | None => a_find unused m hook_slots end.

Definition a_set (ep : Z) (may : bool) (vector policy nid : Z) (m : ahooks) : (kres * option Z) * ahooks :=
  if (vector <? 0) || (NR_IRQ_VECTORS <=? vector) then ((EINVAL, None), m)
  else if negb may then ((EPERM, None), m)
  else if 31 <? u32 nid then ((EINVAL, None), m)
  else
    match a_choose ep nid m with
    | None => ((ENOSPC, None), m)
    | Some i => ((OK, Some (i + 1)), <[hook_addr i := AHook ep nid policy vector false]> m)
    end.

(** An operation on a hook of the caller. *)
Definition a_mine (ep hook_id : Z) (f : ahooks -> ahooks) (m : ahooks) : (kres * option Z) * ahooks :=
  match m !! hook_id with
  | None => ((EINVAL, None), m)
  | Some h => if a_proc h =? ep then ((OK, None), f m) else ((EPERM, None), m)
  end.

Definition a_irqctl (ep : Z) (may : bool) (request vector policy hook_id : Z) (m : ahooks) : (kres * option Z) * ahooks :=
  if request =? IRQ_ENABLE then a_mine ep hook_id (alter (with_active false) hook_id) m
  else if request =? IRQ_DISABLE then a_mine ep hook_id (alter (with_active true) hook_id) m
  else if request =? IRQ_SETPOLICY then a_set ep may vector policy hook_id m
  else if request =? IRQ_RMPOLICY then a_mine ep hook_id (delete hook_id) m
  else ((EINVAL, None), m).

(** ** The masks follow from the table *)

Lemma a_slots_in p : p ∈ a_slots <-> 1 <= p <= NR_IRQ_HOOKS.
Proof.
  unfold a_slots, hook_slots, hook_addr. rewrite list_elem_of_fmap. split.
  - intros (i & -> & Hi%elem_of_seqZ). lia.
  - intros Hp. exists (p - 1). split; [lia|]. apply elem_of_seqZ. unfold NR_IRQ_HOOKS in *. lia.
Qed.

Lemma a_any_true f m : a_any f m = true <-> exists p h, 1 <= p <= NR_IRQ_HOOKS /\ m !! p = Some h /\ f h = true.
Proof.
  unfold a_any. rewrite existsb_exists. split.
  - intros (p & Hp & Hf). apply list_elem_of_In, a_slots_in in Hp. destruct (m !! p) as [h|] eqn:E; [|done]. by exists p, h.
  - intros (p & h & Hp & Hm & Hf). exists p. split; [by apply list_elem_of_In, a_slots_in|]. by rewrite Hm.
Qed.

Lemma abs_used s p h : irq_abs s !! p = Some h -> exists h0, hk s p = Some h0 /\ h_proc_nr_e h0 <> NONE /\ abs_hook s h0 = Some h.
Proof.
  rewrite irq_abs_lookup. destruct (hk s p) as [h0|]; [|done]. simpl. intros E. exists h0. split; [done|].
  unfold abs_hook in E. destruct (Z.eqb_spec (h_proc_nr_e h0) NONE); [done|]. split; [done|]. unfold abs_hook. by destruct (Z.eqb_spec (h_proc_nr_e h0) NONE).
Qed.

Lemma used_abs s p h0 :
  hk s p = Some h0 -> h_proc_nr_e h0 <> NONE ->
  irq_abs s !! p = Some (AHook (h_proc_nr_e h0) (h_notify_id h0) (h_policy h0) (h_irq h0) (has (default 0 (irq_actids s !! h_irq h0)) (h_id h0))).
Proof. intros Hh Hu. rewrite irq_abs_lookup, Hh. simpl. unfold abs_hook. by destruct (Z.eqb_spec (h_proc_nr_e h0) NONE). Qed.

Lemma abs_range x s ls p h : hooks_inv x s ls -> irq_abs s !! p = Some h -> 1 <= p <= NR_IRQ_HOOKS.
Proof. intros Hi (h0 & Hh0 & _)%abs_used. apply (ii_dom _ _ _ Hi). by eexists. Qed.

Lemma line_abs s ls irq p :
  hooks_inv 0 s ls -> line_nr irq -> p ∈ ls irq <-> exists h, irq_abs s !! p = Some h /\ a_line h = irq.
Proof.
  intros Hi Hl. rewrite (ii_elem _ _ _ Hi irq p Hl). split.
  - intros (_ & h0 & Hh & Hu & <-). eexists. split; [by apply used_abs|done].
  - intros (h & Hh & E). pose proof (abs_range _ _ _ _ _ Hi Hh) as Hr. apply abs_used in Hh as (h0 & Hh0 & Hu & Ha).
    split; [lia|]. exists h0. split_and!; [done|done|]. unfold abs_hook in Ha.
    destruct (Z.eqb_spec (h_proc_nr_e h0) NONE); [done|]. injection Ha as <-. done.
Qed.

(** The ids of the active hooks of a line. *)
Lemma act_nonzero s ls irq a :
  irq_inv 0 s ls -> line_nr irq -> irq_actids s !! irq = Some a -> act_ok s irq (ls irq) a ->
  negb (a =? 0) = a_any (fun h => (a_line h =? irq) && a_active h) (irq_abs s).
Proof.
  intros Hi Hl Ha Hok. apply eq_true_iff_eq. rewrite negb_true_iff, Z.eqb_neq, a_any_true. split.
  - intros Hne. pose proof (ao_nonneg _ _ _ _ Hok).
    destruct (ao_bits _ _ _ _ Hok (Z.log2 a)) as (p & h0 & Hp & Hh0 & En); [apply Z.log2_nonneg|apply Z.bit_log2; lia|]. exists p.
    apply (ii_elem _ _ _ Hi) in Hp as (Hp0 & h1 & Hh1 & Hu & Ei); [|done]. rewrite Hh0 in Hh1. injection Hh1 as <-.
    eexists. split; [apply (ii_dom _ _ _ Hi); by eexists|]. split; [by apply used_abs|]. simpl.
    rewrite Ei, Z.eqb_refl, Ha, En. simpl. rewrite has_testbit by apply Z.log2_nonneg. apply Z.bit_log2. lia.
  - intros (p & h & _ & Hh & (El%Z.eqb_eq & Hact)%andb_true_iff) ->. apply abs_used in Hh as (h0 & _ & Hu & E).
    unfold abs_hook in E. destruct (Z.eqb_spec (h_proc_nr_e h0) NONE); [done|]. injection E as <-. simpl in *. subst irq.
    by rewrite Ha in Hact.
Qed.

(** A line is masked exactly when nobody listens or somebody is still busy. *)
Lemma masked_abs s ls irq : irq_inv 0 s ls -> line_nr irq -> masked s irq = a_masked (irq_abs s) irq.
Proof.
  intros Hi Hl. destruct (ii_act _ _ _ Hi irq Hl) as (a & Ha & Hok). rewrite (ao_mask _ _ _ _ Hok). unfold a_masked.
  rewrite <- (act_nonzero s ls irq a Hi Hl Ha Hok), negb_andb, negb_involutive. f_equal.
  apply eq_true_iff_eq. rewrite bool_decide_eq_true, negb_true_iff, <- not_true_iff_false, a_any_true. split.
  - intros E (p & h & _ & Hh & El%Z.eqb_eq). assert (p ∈ ls irq) as Hp by (apply (line_abs s ls irq p Hi Hl); eauto). rewrite E in Hp. set_solver.
  - intros Hno. destruct (ls irq) as [|p l] eqn:E; [done|]. exfalso. apply Hno.
    assert (p ∈ ls irq) as Hp by (rewrite E; set_solver). apply (line_abs s ls irq p Hi Hl) in Hp as (h & Hh & El).
    exists p, h. split; [apply (abs_range 0 s ls p h Hi Hh)|]. split; [done|by apply Z.eqb_eq].
Qed.

(** The active ids of a line are set anew: [f p] says which hooks are active. *)
Lemma reset_act s s' ls irq a' f :
  irq_inv 0 s ls -> line_nr irq -> ls irq <> [] -> irq_hooks s' = irq_hooks s -> irq_handlers s' = irq_handlers s ->
  irq_actids s' = <[irq := a']> (irq_actids s) -> masked s' irq = negb (a' =? 0) ->
  (forall j, line_nr j -> j <> irq -> masked s' j = masked s j) -> 0 <= a' ->
  (forall n, 0 <= n -> Z.testbit a' n = true -> exists p h, p ∈ ls irq /\ hk s p = Some h /\ h_id h = 2 ^ n) ->
  (forall p h, p ∈ ls irq -> hk s p = Some h -> has a' (h_id h) = f p) ->
  irq_inv 0 s' ls /\
  forall p, irq_abs s' !! p = (fun h => if a_line h =? irq then with_active (f p) h else h) <$> irq_abs s !! p.
Proof.
  intros Hi Hl Hne Eh El Ea Em Eo Ha' Hbits Hf.
  assert (forall p, hk s' p = hk s p) as Ek by (intros p; unfold hk; by rewrite Eh). split; [split|].
  - eapply hooks_inv_ext; [apply Hi|done..].
  - intros j Hj. destruct (decide (j = irq)) as [->|Hji].
    + exists a'. rewrite Ea, lookup_insert_eq. split; [done|]. split; [|done|].
      * intros n Hn Hb. destruct (Hbits n Hn Hb) as (p & h & Hp & Hh & E). exists p, h. by rewrite Ek.
      * by rewrite Em, bool_decide_eq_false_2.
    + destruct (ii_act _ _ _ Hi j Hj) as (b & Hb & Hok). exists b. rewrite Ea, lookup_insert_ne by done. split; [done|].
      eapply act_ok_ext; [exact Hok|done|by apply Eo].
  - intros p. rewrite !irq_abs_lookup, Ek. destruct (hk s p) as [h0|] eqn:Hh0; [|done]. simpl. unfold abs_hook.
    destruct (Z.eqb_spec (h_proc_nr_e h0) NONE) as [|Hu]; [done|]. simpl. unfold with_active. simpl. rewrite Ea.
    destruct (Z.eqb_spec (h_irq h0) irq) as [<-|Hni]; [|by rewrite lookup_insert_ne].
    rewrite lookup_insert_eq. simpl. rewrite (Hf p h0); [done| |done]. apply (line_abs s ls (h_irq h0) p Hi Hl).
    eexists. split; [by apply used_abs|done].
Qed.

(** ** Enabling and disabling *)

(** One hook becomes active or not. *)
Lemma set_one s s' ls x h0 n a a' b :
  irq_inv 0 s ls -> hk s x = Some h0 -> h_proc_nr_e h0 <> NONE -> irq_actids s !! h_irq h0 = Some a -> 0 <= n -> h_id h0 = 2 ^ n ->
  settled (h_irq h0) a' (negb (a' =? 0)) s s' -> 0 <= a' ->
  (forall m, 0 <= m -> Z.testbit a' m = if n =? m then b else Z.testbit a m) ->
  irq_inv 0 s' ls /\ irq_abs s' = alter (with_active b) x (irq_abs s).
Proof.
  intros Hi Hx Hu Ha Hn En Hs Ha' Hb. assert (1 <= x <= NR_IRQ_HOOKS) as Hxr by (apply (ii_dom _ _ _ Hi); by eexists).
  pose proof (ho_line _ (ii_hook _ _ _ Hi x h0 ltac:(lia) Hx Hu)) as Hl. set (irq := h_irq h0) in *.
  assert (x ∈ ls irq) as Hxl by (apply (line_abs s ls irq x Hi Hl); eexists; split; [by apply used_abs|done]).
  destruct (ii_act _ _ _ Hi irq Hl) as (a0 & E0 & Hok). rewrite Ha in E0. injection E0 as <-.
  destruct (reset_act s s' ls irq a' (fun p => if decide (p = x) then b else has a (default 0 (h_id <$> hk s p)))) as [Hi' Habs];
    [done|done| |apply Hs|apply Hs|apply Hs|apply Hs|apply Hs|done|..].
  - intros E. rewrite E in Hxl. set_solver.
  - intros m Hm Hbm. rewrite Hb in Hbm by done. destruct (Z.eqb_spec n m) as [<-|]; [by exists x, h0|]. by apply (ao_bits _ _ _ _ Hok).
  - intros p h Hp Hh. pose proof Hp as Hp'. apply (ii_elem _ _ _ Hi) in Hp' as (Hp0 & h1 & Hh1 & Hu1 & Ei); [|done]. rewrite Hh in Hh1. injection Hh1 as <-.
    destruct (ho_id _ (ii_hook _ _ _ Hi p h Hp0 Hh Hu1)) as (m & Hm & Em). rewrite Em, has_testbit, Hb, Hh by lia. simpl. rewrite Em, has_testbit by lia.
    destruct (decide (p = x)) as [->|Hpx].
    + rewrite Hx in Hh. injection Hh as <-. rewrite En in Em. apply Z.pow_inj_r in Em; [|lia..]. by rewrite Em, Z.eqb_refl.
    + destruct (Z.eqb_spec n m) as [<-|]; [|done]. destruct Hpx. apply (ii_ids _ _ _ Hi p x h h0); [done|lia|done|done|done|done|done|congruence].
  - split; [done|]. apply map_eq. intros p. rewrite Habs. destruct (decide (p = x)) as [->|Hpx].
    + rewrite lookup_alter_eq, (used_abs s x h0 Hx Hu). simpl. by rewrite Z.eqb_refl.
    + rewrite lookup_alter_ne by done. destruct (irq_abs s !! p) as [h|] eqn:Eh; [|done]. simpl. f_equal.
      apply abs_used in Eh as (h1 & Hh1 & Hu1 & E). unfold abs_hook in E. destruct (Z.eqb_spec (h_proc_nr_e h1) NONE); [done|].
      injection E as <-. simpl. rewrite Hh1. unfold with_active. simpl. destruct (Z.eqb_spec (h_irq h1) irq) as [->|]; [|done]. by rewrite Ha.
Qed.

Lemma hook_facts s ls x h :
  irq_inv 0 s ls -> irq_hooks s !! x = Some h -> h_proc_nr_e h <> NONE ->
  exists n a, line_nr (h_irq h) /\ 0 <= n < NR_IRQ_HOOKS /\ h_id h = 2 ^ n /\ irq_actids s !! h_irq h = Some a /\
    act_ok s (h_irq h) (ls (h_irq h)) a /\ ls (h_irq h) <> [].
Proof.
  intros Hi Hx Hu. assert (hk s x = Some (bare h)) as Hkx by (unfold hk; by rewrite Hx).
  assert (1 <= x <= NR_IRQ_HOOKS) as Hxr by (apply (ii_dom _ _ _ Hi); by eexists).
  destruct (ii_hook _ _ _ Hi x (bare h) ltac:(lia) Hkx Hu) as [Hl _ _ (n & Hn & En)]. simpl in Hl, En.
  destruct (ii_act _ _ _ Hi _ Hl) as (a & Ha & Hok). exists n, a. split_and!; try done; try lia.
  intros E. assert (x ∈ ls (h_irq h)) as Hxl by (apply (line_abs s ls _ x Hi Hl); eexists; split; [by apply used_abs|done]).
  rewrite E in Hxl. set_solver.
Qed.

Lemma masked_busy s irq l a : act_ok s irq l a -> a <> 0 -> masked s irq = true.
Proof. intros Hok Ha. rewrite (ao_mask _ _ _ _ Hok). destruct (Z.eqb_spec a 0); [done|]. by rewrite andb_false_r. Qed.

Lemma enable_run x s ls h :
  irq_inv 0 s ls -> irq_hooks s !! x = Some h -> h_proc_nr_e h <> NONE ->
  exists s', enable_irq x s = Some (tt, s') /\ irq_inv 0 s' ls /\ irq_abs s' = alter (with_active false) x (irq_abs s) /\ ikern s' = ikern s.
Proof.
  intros Hi Hx Hu. destruct (hook_facts s ls x h Hi Hx Hu) as (n & a & Hl & Hn & En & Ha & Hok & Hne).
  unfold enable_irq. rewrite (bind_run _ _ _ _ _ (get_hook_run s x h Hx)), (bind_run _ _ _ _ _ (get_actids_run s _ a Ha)).
  destruct (settle_run s (h_irq h) (Z.ldiff a (h_id h)) Hl) as (s' & E & Hs).
  { intros Hd. eapply masked_busy; [exact Hok|]. intros ->. by rewrite Z.ldiff_0_l in Hd. }
  exists s'. split; [exact E|]. apply and_assoc. split; [|apply Hs].
  eapply (set_one s s' ls x (bare h) n a (Z.ldiff a (h_id h))); try done; [unfold hk; by rewrite Hx|lia|apply Z.ldiff_nonneg; left; apply Hok|].
  intros m Hm. rewrite En, Z.ldiff_spec, Z.pow2_bits_eqb by lia. by destruct (n =? m); rewrite ?andb_false_r, ?andb_true_r.
Qed.

Lemma disable_run x s ls h :
  irq_inv 0 s ls -> irq_hooks s !! x = Some h -> h_proc_nr_e h <> NONE ->
  exists b s', disable_irq x s = Some (b, s') /\ irq_inv 0 s' ls /\ irq_abs s' = alter (with_active true) x (irq_abs s) /\ ikern s' = ikern s.
Proof.
  intros Hi Hx Hu. destruct (hook_facts s ls x h Hi Hx Hu) as (n & a & Hl & Hn & En & Ha & Hok & Hne).
  unfold disable_irq. rewrite (bind_run _ _ _ _ _ (get_hook_run s x h Hx)), (bind_run _ _ _ _ _ (get_actids_run s _ a Ha)).
  assert (hk s x = Some (bare h)) as Hkx by (unfold hk; by rewrite Hx).
  destruct (has a (h_id h)) eqn:Eb.
  - exists false, s. split; [done|]. split; [done|]. split; [|done]. symmetry. apply alter_id. intros h1. rewrite (used_abs s x (bare h) Hkx Hu).
    intros [= <-]. simpl. rewrite Ha. simpl. by rewrite Eb.
  - set (s1 := with_irq_actids (<[h_irq h := Z.lor a (h_id h)]> (irq_actids s)) s).
    rewrite (bind_run (set_actids _ _) _ s tt s1 eq_refl). destruct (mask_run s1 (h_irq h) Hl) as (s' & E & Em & Eo & E1 & E2 & E3 & E4).
    exists true, s'. rewrite (bind_run _ _ _ _ _ E). split; [done|]. apply and_assoc. split; [|done].
    assert (Z.testbit (Z.lor a (2 ^ n)) n = true) as Hbit by (rewrite Z.lor_spec, Z.pow2_bits_true by lia; apply orb_true_r).
    eapply (set_one s s' ls x (bare h) n a (Z.lor a (h_id h))); try done; [lia| |rewrite Z.lor_nonneg; split; [apply Hok|rewrite En; lia]|].
    + split; try done. change (h_irq (bare h)) with (h_irq h). rewrite Em, En. destruct (Z.eqb_spec (Z.lor a (2 ^ n)) 0) as [E0|]; [|done]. by rewrite E0, Z.bits_0 in Hbit.
    + intros m Hm. rewrite En, Z.lor_spec, Z.pow2_bits_eqb by lia. by destruct (n =? m); rewrite ?orb_true_r, ?orb_false_r.
Qed.

(** ** Hooks outside the lists *)

Lemma free_detach x s ls h : irq_inv 0 s ls -> hk s x = Some h -> h_proc_nr_e h = NONE -> irq_inv x s ls.
Proof.
  intros [[H1 H2 H3 H4 H5] Ha] Hx Hf. assert (Hne : forall p hp, hk s p = Some hp -> p <> 0)
    by (intros p hp Hp ->; assert (is_Some (hk s 0)) as H0%H1 by (by eexists); lia).
  split; [split|]; try done.
  - intros irq p Hl. rewrite H3 by done. split; intros (Hp & hp & Hhp & Hu & E); (split; [|by eauto]); [congruence|by eapply Hne].
  - intros p hp _ Hp Hu. eapply H4; eauto.
  - intros p q hp hq _ _ Hp Hq. eapply H5; eauto.
Qed.

Lemma unuse x s ls h : irq_inv x s ls -> hk s x = Some h -> h_proc_nr_e h = NONE -> irq_inv 0 s ls.
Proof.
  intros [[H1 H2 H3 H4 H5] Ha] Hx Hf. assert (Hne : forall p hp, hk s p = Some hp -> h_proc_nr_e hp <> NONE -> p <> x) by congruence.
  assert (H0 : forall p hp, hk s p = Some hp -> p <> 0)
    by (intros p hp Hp ->; assert (is_Some (hk s 0)) as H0%H1 by (by eexists); lia).
  split; [split|]; try done.
  - intros irq p Hl. rewrite H3 by done. split; intros (Hp & hp & Hhp & Hu & E); (split; [|by eauto]); [by eapply H0|by eapply Hne].
  - intros p hp _ Hp Hu. by eapply H4; [eapply Hne|..].
  - intros p q hp hq _ _ Hp Hq Hu Hv. apply (H5 p q hp hq); eauto.
Qed.

Definition upd_s (x : Z) (h : irq_hook) (s : irq_state) : irq_state := with_irq_hooks (<[x := h]> (irq_hooks s)) s.

Lemma hk_upd_ne x h s p : p <> x -> hk (upd_s x h s) p = hk s p.
Proof. intros Hp. unfold hk. simpl. by rewrite lookup_insert_ne. Qed.

Lemma hk_upd x h s : hk (upd_s x h s) x = Some (bare h).
Proof. unfold hk. simpl. by rewrite lookup_insert_eq. Qed.

Lemma upd_inv x s ls h h' : irq_inv x s ls -> irq_hooks s !! x = Some h -> irq_inv x (upd_s x h' s) ls.
Proof.
  intros Hi Hx. split; [by apply (upd_detached x s ls h); [apply Hi|]|]. intros irq Hl.
  destruct (ii_act _ _ _ Hi irq Hl) as (a & Ha & Hok). exists a. split; [done|]. eapply act_ok_ext; [exact Hok| |done].
  intros p (Hp & _)%(ii_elem _ _ _ Hi); [|done]. by apply hk_upd_ne.
Qed.

Lemma abs_upd_ne x h s p : p <> x -> irq_abs (upd_s x h s) !! p = irq_abs s !! p.
Proof. intros Hp. apply abs_ext; [by apply hk_upd_ne|done]. Qed.

Lemma insert_agree {A} (m m' : gmap Z A) x v : (forall p, p <> x -> m' !! p = m !! p) -> <[x := v]> m' = <[x := v]> m.
Proof.
  intros E. apply map_eq. intros p. destruct (decide (p = x)) as [->|Hp]; [by rewrite !lookup_insert_eq|].
  rewrite !lookup_insert_ne by done. by apply E.
Qed.

(** ** The kernel call *)

Lemma kern_run {A} (m : K A) s a k' : m (ikern s) = Some (a, k') -> kern m s = Some (a, with_ikern k' s).
Proof. intros E. unfold kern. mrun. by rewrite E. Qed.

Lemma kern_same {A} (m : K A) s a : m (ikern s) = Some (a, ikern s) -> kern m s = Some (a, s).
Proof. intros E. rewrite (kern_run m s a _ E). by destruct s. Qed.

Lemma find_run s ls f g slots :
  irq_inv 0 s ls -> (forall i, i ∈ slots -> 0 <= i < NR_IRQ_HOOKS) ->
  (forall i h, hk s (hook_addr i) = Some h -> g h = f (irq_abs s !! hook_addr i)) -> (forall h, g (bare h) = g h) ->
  find_hook g slots s = Some (a_find f (irq_abs s) slots, s).
Proof.
  intros Hi Hr Hg Hb. induction slots as [|i slots IH]; [done|]. cbn [find_hook a_find].
  assert (is_Some (hk s (hook_addr i))) as [h0 Hh0]
    by (apply (ii_dom _ _ _ Hi); unfold hook_addr; specialize (Hr i ltac:(set_solver)); lia).
  pose proof Hh0 as (h & Hh & <-)%hk_Some. rewrite (bind_run _ _ _ _ _ (get_hook_run s _ h Hh)), <- Hb, (Hg i _ Hh0).
  destruct (f _); [done|]. apply IH. intros j Hj. apply Hr. set_solver.
Qed.

Lemma a_find_spec f m slots i : a_find f m slots = Some i -> i ∈ slots /\ f (m !! hook_addr i) = true.
Proof.
  induction slots as [|j slots IH]; [done|]. cbn [a_find]. destruct (f (m !! hook_addr j)) eqn:E; [intros [= ->]; set_solver|]. intros [? ?]%IH. set_solver.
Qed.

(** Whether a process may use a line. *)
Definition may_line (s : priv) (vector : Z) : bool :=
  negb (has (s_flags s) CHECK_IRQ) ||
  existsb (fun i => default 0 (s_irq_tab (s_res s) !! i) =? vector) (seqZ 0 (s_nr_irq (s_res s))).

Definition may_use (k : kstate) (ep vector : Z) : bool :=
  match procs k !! target ep with
  | Some r => match privs k !! p_priv r with Some s => may_line s vector | None => false end
  | None => false
  end.

Lemma owner_facts k ep :
  kbase k -> owner k ep -> exists r s, procs k !! target ep = Some r /\ p_endpoint r = ep /\ privs k !! p_priv r = Some s /\
    p_priv r <> null_priv /\ ep <> NONE.
Proof.
  intros Hk [Hl _]. destruct (live_slot _ _ Hl) as (r & Hr & _ & Er & _).
  destruct (kbase_priv _ _ _ Hk (live_target _ _ Hl) Hr) as (Hi & s & Hs & _). exists r, s. split_and!; try done.
  - unfold priv_nr, null_priv in *. lia.
  - intros ->. destruct Hl as (v & _ & Hok & _). done.
Qed.

Lemma may_irq_run k ep vector r s :
  procs k !! target ep = Some r -> privs k !! p_priv r = Some s ->
  may_irq (target ep) vector k = Some (may_use k ep vector, k).
Proof.
  intros Hr Hs. unfold may_irq, may_use, may_line. rewrite (bind_run _ _ _ _ _ (rdp_run s_flags _ _ _ _ Hr Hs)).
  rewrite (bind_run _ _ _ _ _ (rdp_run s_res _ _ _ _ Hr Hs)). by rewrite Hr, Hs.
Qed.

(** The hook for the policy is taken out of its list, if it is in one. *)
Lemma choose_run s ls ep nid :
  irq_inv 0 s ls -> ep <> NONE ->
  exists s1 ls1, (o ← find_hook (fun h => (h_proc_nr_e h =? ep) && (h_notify_id h =? nid)) hook_slots;
     match o with
     | Some i => rm_irq_handler (hook_addr i);; mret (Some i)
     | None => find_hook (fun h => h_proc_nr_e h =? NONE) hook_slots
     end) s = Some (a_choose ep nid (irq_abs s), s1) /\ ikern s1 = ikern s /\
    match a_choose ep nid (irq_abs s) with
    | Some i => irq_inv (hook_addr i) s1 ls1 /\ (forall p, p <> hook_addr i -> irq_abs s1 !! p = irq_abs s !! p) /\
        is_Some (irq_hooks s1 !! hook_addr i)
    | None => s1 = s
    end.
Proof.
  intros Hi Hep. assert (Hrange : forall i, i ∈ hook_slots -> 0 <= i < NR_IRQ_HOOKS) by (intros i ?%elem_of_seqZ; lia).
  assert (Hh : forall i h, hk s (hook_addr i) = Some h -> irq_abs s !! hook_addr i = abs_hook s h)
    by (intros i h E; by rewrite irq_abs_lookup, E).
  assert (find_hook (fun h => (h_proc_nr_e h =? ep) && (h_notify_id h =? nid)) hook_slots s =
    Some (a_find (mine ep nid) (irq_abs s) hook_slots, s)) as E1.
  { apply (find_run s ls); [done|done| |done]. intros i h E. rewrite (Hh i h E). unfold abs_hook, mine.
    destruct (Z.eqb_spec (h_proc_nr_e h) NONE) as [->|]; [|done]. destruct (Z.eqb_spec NONE ep); [by subst|done]. }
  rewrite (bind_run _ _ _ _ _ E1). clear E1.
  unfold a_choose. destruct (a_find (mine ep nid) (irq_abs s) hook_slots) as [i|] eqn:Ef.
  - apply a_find_spec in Ef as [Hs Hm]. destruct (irq_abs s !! hook_addr i) as [h1|] eqn:Eh; [|done].
    apply abs_used in Eh as (h0 & Hh0 & Hu & _). pose proof Hh0 as (h & Hhi & <-)%hk_Some.
    destruct (rm_run (hook_addr i) s ls h Hi Hhi Hu) as (s1 & E1 & Hi1 & Ek1 & Ehk & Eabs). exists s1. eexists.
    rewrite (bind_run _ _ _ _ _ E1). split_and!; [done|done|done|done|]. pose proof (Ehk (hook_addr i)) as E2. rewrite Hh0 in E2.
    apply hk_Some in E2 as (h2 & -> & _). by eexists.
  - rewrite (find_run s ls unused _ _ Hi Hrange); [|intros i h E; rewrite (Hh i h E); unfold abs_hook, unused; by destruct (_ =? NONE)|done].
    exists s, ls. split; [done|]. split; [done|]. destruct (a_find unused (irq_abs s) hook_slots) as [i|] eqn:Eu; [|done].
    apply a_find_spec in Eu as [Hs Hm]. assert (is_Some (hk s (hook_addr i))) as [h0 Hh0]
      by (apply (ii_dom _ _ _ Hi); unfold hook_addr; specialize (Hrange i Hs); lia).
    split_and!; [eapply free_detach; [done|exact Hh0|]|done|by apply hk_Some in Hh0 as (h & -> & _); eexists].
    rewrite (Hh i h0 Hh0) in Hm. unfold abs_hook in Hm. by destruct (Z.eqb_spec (h_proc_nr_e h0) NONE).
Qed.

Lemma small_u32 z : - 2 ^ 31 <= z < 2 ^ 31 -> u32 z <= 31 -> 0 <= z < 32.
Proof. unfold u32. intros Hz Hu. pose proof (Z.div_mod z (2 ^ 32) ltac:(lia)). pose proof (Z.mod_pos_bound z (2 ^ 32)). lia. Qed.

Definition ctl_post (s : irq_state) (r : kres * option Z) (s' : irq_state) (a : (kres * option Z) * ahooks) : Prop :=
  (r, irq_abs s') = a /\ (exists ls', irq_inv 0 s' ls') /\ ikern s' = ikern s.

Lemma set_policy_run s ls ep vector policy nid :
  irq_inv 0 s ls -> kbase (ikern s) -> owner (ikern s) ep -> - 2 ^ 31 <= nid < 2 ^ 31 -> driver_line vector ->
  exists r s', set_policy (target ep) vector policy nid s = Some (r, s') /\
    ctl_post s r s' (a_set ep (may_use (ikern s) ep vector) vector policy nid (irq_abs s)).
Proof.
  intros Hi Hk Ho Hr Hdl. destruct (owner_facts _ _ Hk Ho) as (r & sp & Hrp & Er & Hsp & Hnp & Hep).
  assert (Hstay : forall e, exists r' s', (mret (e, None) : IS _) s = Some (r', s') /\ ctl_post s r' s' ((e, None), irq_abs s))
    by (intros e; exists (e, None), s; split; [done|]; split; [done|]; eauto).
  unfold set_policy, a_set. destruct ((vector <? 0) || (NR_IRQ_VECTORS <=? vector)) eqn:Ev; [apply Hstay|].
  rewrite (bind_run _ _ _ _ _ (kern_same (rd p_priv (target ep)) s _ (rd_run p_priv _ _ _ Hrp))).
  destruct (Z.eqb_spec (p_priv r) null_priv); [done|].
  rewrite (bind_run _ _ _ _ _ (kern_same _ s _ (may_irq_run _ _ vector _ _ Hrp Hsp))).
  destruct (may_use (ikern s) ep vector); cbn [negb]; [|apply Hstay].
  destruct (31 <? u32 nid) eqn:Hn; [apply Hstay|]. apply Z.ltb_ge in Hn.
  rewrite (bind_run _ _ _ _ _ (kern_same (rd p_endpoint (target ep)) s _ (rd_run p_endpoint _ _ _ Hrp))), Er.
  rewrite <- bind_assoc. destruct (choose_run s ls ep nid Hi Hep) as (s1 & ls1 & E1 & Ek1 & Hpost). rewrite (bind_run _ _ _ _ _ E1).
  destruct (a_choose ep nid (irq_abs s)) as [i|]; [|subst s1; apply Hstay]. destruct Hpost as (Hi1 & Eabs & [h Hh]).
  rewrite (bind_run _ _ _ _ _ (upd_hook_run s1 _ _ h Hh)). set (h' := IrqHook (h_next h) (h_handler h) (h_irq h) (h_id h) ep nid policy).
  change (with_irq_hooks _ s1) with (upd_s (hook_addr i) h' s1).
  pose proof (small_u32 nid Hr Hn) as Hnid.
  destruct (put_run (hook_addr i) (upd_s (hook_addr i) h' s1) ls1 vector h') as (s2 & E2 & Hi2 & Ek2 & Ea2);
    [by eapply upd_inv|split; [lia|done]|apply lookup_insert_eq|done|done|].
  rewrite (bind_run _ _ _ _ _ E2). exists (OK, Some (i + 1)), s2. split; [done|]. split; [|split; [by eauto|by rewrite Ek2]].
  rewrite Ea2. simpl. f_equal. apply insert_agree. intros p Hp. by rewrite abs_upd_ne, Eabs.
Qed.

Definition a_check (ep hook_id : Z) (m : ahooks) : kres :=
  match m !! hook_id with None => EINVAL | Some h => if a_proc h =? ep then OK else EPERM end.

Lemma check_run s ls ep i : irq_inv 0 s ls -> check_hook ep i s = Some (a_check ep (hook_addr i) (irq_abs s), s).
Proof.
  intros Hi. unfold check_hook, a_check. destruct (irq_abs s !! hook_addr i) as [h|] eqn:Eh.
  - pose proof (abs_range _ _ _ _ _ (ii_hooks _ _ _ Hi) Eh) as Hr. unfold hook_addr in Hr.
    assert ((NR_IRQ_HOOKS <=? i) || (i <? 0) = false) as -> by lia.
    apply abs_used in Eh as (h0 & (h1 & Hh1 & <-)%hk_Some & Hu & E). rewrite (bind_run _ _ _ _ _ (get_hook_run s _ h1 Hh1)).
    unfold abs_hook in E. simpl in E, Hu. destruct (Z.eqb_spec (h_proc_nr_e h1) NONE); [done|]. injection E as <-. simpl.
    by destruct (_ =? ep).
  - destruct ((NR_IRQ_HOOKS <=? i) || (i <? 0)) eqn:Er; [done|].
    assert (is_Some (hk s (hook_addr i))) as [h0 Hh0] by (apply (ii_dom _ _ _ Hi); unfold hook_addr; lia).
    rewrite irq_abs_lookup, Hh0 in Eh. simpl in Eh. pose proof Hh0 as (h1 & Hh1 & <-)%hk_Some.
    rewrite (bind_run _ _ _ _ _ (get_hook_run s _ h1 Hh1)). unfold abs_hook in Eh. simpl in Eh. by destruct (h_proc_nr_e h1 =? NONE).
Qed.

(** An operation on a hook that belongs to the caller. *)
Lemma mine_run s ls ep hook_id (m : IS (kres * option Z)) f :
  irq_inv 0 s ls -> kbase (ikern s) -> owner (ikern s) ep ->
  (forall h, irq_hooks s !! hook_id = Some h -> h_proc_nr_e h <> NONE ->
    exists s' ls', m s = Some ((OK, None), s') /\ irq_inv 0 s' ls' /\ irq_abs s' = f (irq_abs s) /\ ikern s' = ikern s) ->
  exists r s', (e ← kern (rd p_endpoint (target ep)); c ← check_hook e (hook_id - 1);
    if negb (is_OK c) then mret (c, None) else m) s = Some (r, s') /\
    ctl_post s r s' (a_mine ep hook_id f (irq_abs s)).
Proof.
  intros Hi Hk Ho Hm. destruct (owner_facts _ _ Hk Ho) as (r & sp & Hrp & Er & _).
  rewrite (bind_run _ _ _ _ _ (kern_same (rd p_endpoint (target ep)) s _ (rd_run p_endpoint _ _ _ Hrp))), Er.
  rewrite (bind_run _ _ _ _ _ (check_run s ls ep (hook_id - 1) Hi)). unfold hook_addr. replace (hook_id - 1 + 1) with hook_id by lia.
  unfold a_check, a_mine. destruct (irq_abs s !! hook_id) as [h|] eqn:Eh; cbn [is_OK negb].
  - destruct (a_proc h =? ep); cbn [is_OK negb]; [|eexists _, s; split; [done|]; split; eauto].
    apply abs_used in Eh as (h0 & (h1 & Hh1 & <-)%hk_Some & Hu & _). destruct (Hm h1 Hh1 Hu) as (s' & ls' & E & Hi' & Ea & Ek).
    rewrite E. eexists _, s'. split; [done|]. split; [by rewrite Ea|eauto].
  - eexists _, s. split; [done|]. split; eauto.
Qed.

(** A hook is given up. *)
Lemma release_run s ls x h :
  irq_inv 0 s ls -> irq_hooks s !! x = Some h -> h_proc_nr_e h <> NONE ->
  exists s' ls', (rm_irq_handler x;; upd_hook x (with_h_proc_nr_e NONE)) s = Some (tt, s') /\ irq_inv 0 s' ls' /\
    irq_abs s' = delete x (irq_abs s) /\ ikern s' = ikern s.
Proof.
  intros Hi Hh Hu. destruct (rm_run x s ls h Hi Hh Hu) as (s1 & E1 & Hi1 & Ek1 & Ehk & Eabs). rewrite (bind_run _ _ _ _ _ E1).
  pose proof (Ehk x) as E2. unfold hk at 2 in E2. rewrite Hh in E2. apply hk_Some in E2 as (h1 & Hh1 & _).
  rewrite (upd_hook_run s1 _ _ h1 Hh1). change (with_irq_hooks _ s1) with (upd_s x (with_h_proc_nr_e NONE h1) s1). eexists _, _. split; [done|].
  split; [eapply unuse; [by eapply upd_inv|apply hk_upd|done]|]. split; [|done]. apply map_eq. intros p. destruct (decide (p = x)) as [->|Hp].
  - rewrite lookup_delete_eq, irq_abs_lookup, hk_upd. done.
  - by rewrite lookup_delete_ne, abs_upd_ne, Eabs.
Qed.

(** The kernel call does to the hooks what it should. *)
Lemma do_irqctl_run s ls ep request vector policy hook_id :
  irq_inv 0 s ls -> kbase (ikern s) -> owner (ikern s) ep -> - 2 ^ 31 <= hook_id < 2 ^ 31 ->
  (request = IRQ_SETPOLICY -> driver_line vector) ->
  exists r s', do_irqctl (target ep) request vector policy hook_id s = Some (r, s') /\
    ctl_post s r s' (a_irqctl ep (may_use (ikern s) ep vector) request vector policy hook_id (irq_abs s)).
Proof.
  intros Hi Hk Ho Hr Hdl. assert (hook_addr (hook_id - 1) = hook_id) as Eh by (unfold hook_addr; lia).
  unfold do_irqctl, a_irqctl. rewrite Eh. destruct (Z.eqb_spec request IRQ_ENABLE) as [->|]; cbn [orb].
  { apply (mine_run s ls); [done..|]. intros h Hh Hu. destruct (enable_run hook_id s ls h Hi Hh Hu) as (s' & E & Hi' & Ea & Ek).
    exists s', ls. by rewrite (bind_run _ _ _ _ _ E). }
  destruct (Z.eqb_spec request IRQ_DISABLE) as [->|].
  { apply (mine_run s ls); [done..|]. intros h Hh Hu. destruct (disable_run hook_id s ls h Hi Hh Hu) as (b & s' & E & Hi' & Ea & Ek).
    exists s', ls. rewrite bind_assoc. by rewrite (bind_run _ _ _ _ _ E). }
  destruct (Z.eqb_spec request IRQ_SETPOLICY) as [->|]; [by eapply set_policy_run; eauto|].
  destruct (Z.eqb_spec request IRQ_RMPOLICY) as [->|]; [|eexists _, s; split; [done|]; split; eauto].
  apply (mine_run s ls); [done..|]. intros h Hh Hu. destruct (release_run s ls hook_id h Hi Hh Hu) as (s' & ls' & E & Hi' & Ea & Ek).
  exists s', ls'. rewrite <- bind_assoc. by rewrite (bind_run _ _ _ _ _ E).
Qed.
