(* ===== verification/KIrqMain.v ===== *)
(** Interrupts: every process with a hook on the line is told, the line stays
    masked while one of them is busy, and whole histories of interrupts and
    kernel calls do what the abstract operations do. *)

From S2P Require Import Prelude Chain Timers KState KSched KBoot KWait KNotify KBase KFrame KMain KSignal KIpc KSend KAsyn KPriv KCorrect KIrq KIrqTell KIrqOk KIrqRun.
Local Open Scope Z_scope.

Section Handle.
Context `{Signals}.

(** What an interrupt does to the rest of the kernel. *)
Record irq_step (k k' : kstate) : Prop := {
  it_base : kbase k';
  it_ids : ids k' = ids k;
  it_res : same_field s_res k k';
  it_wakes : wakes (fld view k) (fld view k');
  it_told : forall e nid, owner k e -> told k e nid -> told k' e nid;
}.

Lemma irq_step_refl k : kbase k -> irq_step k k.
Proof. intros Hk. by split. Qed.

Lemma irq_step_owner k k' e : irq_step k k' -> owner k e -> owner k' e.
Proof. intros [_ Hi _ Hw _]. by apply owner_ids. Qed.

Lemma irq_step_trans k1 k2 k3 : irq_step k1 k2 -> irq_step k2 k3 -> irq_step k1 k3.
Proof.
  intros [B1 I1 R1 W1 T1] [B2 I2 R2 W2 T2].
  split; [done|congruence|by transitivity k2|by transitivity (fld view k2)|]. intros e nid He Ht. apply T2; [|by apply T1]. by eapply owner_ids.
Qed.

Lemma generic_run s x h :
  irq_hooks s !! x = Some h -> kbase (ikern s) -> recv_ok (fld view (ikern s)) -> owner (ikern s) (h_proc_nr_e h) -> 0 <= h_notify_id h ->
  exists k', generic_handler x s = Some (has (h_policy h) IRQ_REENABLE, with_ikern k' s) /\ irq_step (ikern s) k' /\
    told k' (h_proc_nr_e h) (h_notify_id h).
Proof.
  intros Hx Hk Hrok Ho Hn. unfold generic_handler. rewrite (bind_run _ _ _ _ _ (get_hook_run s x h Hx)).
  destruct (isokendpt_run (ikern s) (h_proc_nr_e h) Hk) as [[_ E]|[Hno _]]; [|by destruct Ho].
  rewrite (bind_run _ _ _ _ _ (kern_same _ s _ E)).
  destruct (runs_inv _ _ _ (runs_respects _ _ _ _ (tell_res _ _) (tell_run (ikern s) _ _ Hk Hrok Ho Hn)))
    as (r & k' & (u & k1 & E1 & E2)%bind_Some & (Hk' & Hi & Hw & Ht & Hst) & Hres).
  exists k'. rewrite (bind_run _ _ _ _ _ (kern_run _ s u k1 E1)), (bind_run _ _ _ _ _ (kern_run _ (with_ikern k1 s) r k' E2)).
  done.
Qed.

(** The active ids after the handlers of the hooks [l]. *)
Definition act_one (s : irq_state) (a p : Z) : Z :=
  match hk s p with
  | Some h => if has (h_policy h) IRQ_REENABLE then Z.ldiff (Z.lor a (h_id h)) (h_id h) else Z.lor a (h_id h)
  | None => a
  end.
Definition act_all (s : irq_state) (l : list Z) (a : Z) : Z := foldl (act_one s) a l.

Definition handled (s : irq_state) (irq a : Z) (k : kstate) : irq_state :=
  with_ikern k (with_irq_actids (<[irq := a]> (irq_actids s)) s).

(** One hook of the list. *)
Lemma handle_one s irq a p h fuel :
  irq_hooks s !! p = Some h -> p <> 0 -> h_irq h = irq -> h_handler h = GENERIC_HANDLER -> irq_actids s !! irq = Some a ->
  kbase (ikern s) -> recv_ok (fld view (ikern s)) -> owner (ikern s) (h_proc_nr_e h) -> 0 <= h_notify_id h ->
  exists k', handle_loop (S fuel) irq p s = handle_loop fuel irq (h_next h) (handled s irq (act_one s a p) k') /\
    irq_step (ikern s) k' /\ told k' (h_proc_nr_e h) (h_notify_id h).
Proof.
  intros Hp Hp0 Ei Eh Ha Hk Hrok Ho Hn. cbn [handle_loop]. destruct (Z.eqb_spec p 0); [done|].
  rewrite (bind_run _ _ _ _ _ (get_hook_run s p h Hp)), (bind_run _ _ _ _ _ (get_actids_run s irq a Ha)).
  set (s1 := with_irq_actids (<[irq := Z.lor a (h_id h)]> (irq_actids s)) s). rewrite (bind_run (set_actids _ _) _ s tt s1 eq_refl).
  unfold call_handler. rewrite Eh, Z.eqb_refl. destruct (generic_run s1 p h Hp Hk Hrok Ho Hn) as (k' & E & Hst & Ht).
  exists k'. split; [|done]. rewrite (bind_run _ _ _ _ _ E). set (s2 := with_ikern k' s1).
  assert (Hp2 : irq_hooks s2 !! p = Some h) by done. assert (Ha2 : irq_actids s2 !! irq = Some (Z.lor a (h_id h))) by apply lookup_insert_eq.
  assert (hk s p = Some (bare h)) as Hkp by (unfold hk; by rewrite Hp). unfold act_one. rewrite Hkp. simpl.
  destruct (has (h_policy h) IRQ_REENABLE).
  - rewrite bind_assoc, (bind_run _ _ _ _ _ (get_hook_run s2 p h Hp2)), Ei, bind_assoc, (bind_run _ _ _ _ _ (get_actids_run s2 irq _ Ha2)).
    set (s3 := handled s irq (Z.ldiff (Z.lor a (h_id h)) (h_id h)) k').
    assert (set_actids irq (Z.ldiff (Z.lor a (h_id h)) (h_id h)) s2 = Some (tt, s3)) as E3.
    { unfold set_actids, modify, s3, handled, s2, s1. do 2 f_equal. unfold with_irq_actids, with_ikern. simpl. by rewrite insert_insert_eq. }
    rewrite (bind_run _ _ _ _ _ E3). by rewrite (bind_run _ _ _ _ _ (get_hook_run s3 p h Hp)).
  - rewrite (bind_run (mret tt) _ s2 tt s2 eq_refl). by rewrite (bind_run _ _ _ _ _ (get_hook_run s2 p h Hp2)).
Qed.

(** What is known of the hooks of a line. *)
Definition line_ok (s : irq_state) (irq : Z) (p : Z) : Prop :=
  exists h, hk s p = Some h /\ h_irq h = irq /\ hook_ok h /\ owner (ikern s) (h_proc_nr_e h).

Lemma handle_loop_run irq l : forall s hd a fuel,
  chain (links (hlinks s)) hd l -> (length l < fuel)%nat -> (forall p, p ∈ l -> line_ok s irq p) ->
  irq_actids s !! irq = Some a -> kbase (ikern s) -> recv_ok (fld view (ikern s)) ->
  exists k', handle_loop fuel irq hd s = Some (tt, handled s irq (act_all s l a) k') /\ irq_step (ikern s) k' /\
    forall p h, p ∈ l -> hk s p = Some h -> told k' (h_proc_nr_e h) (h_notify_id h).
Proof.
  induction l as [|p l IH]; intros s hd a [|fuel] Hc Hf Hl Ha Hk Hrok; simpl in Hf; try lia.
  - apply chain_nil_head in Hc as ->. exists (ikern s). split; [|split; [by apply irq_step_refl|set_solver]].
    unfold handled, act_all. simpl. unfold with_irq_actids. rewrite insert_id by done. by destruct s.
  - pose proof (chain_cons_head _ _ _ _ Hc) as [-> Hp0]. destruct (chain_cons_inv _ _ _ Hc Hp0) as (nx & l' & [= <-] & Hnx & Hc').
    destruct (Hl hd) as (h0 & (h & Hh & <-)%hk_Some & Ei & Hok & Ho); [set_solver|]. simpl in Hnx. unfold hlinks in Hnx.
    rewrite lookup_fmap, Hh in Hnx. injection Hnx as <-.
    destruct (handle_one s irq a hd h fuel Hh Hp0 Ei (ho_handler _ Hok) Ha Hk Hrok Ho (proj1 (ho_notify _ Hok))) as (k1 & E1 & S1 & T1).
    set (s1 := handled s irq (act_one s a hd) k1) in *.
    destruct (IH s1 (h_next h) (act_one s a hd) fuel) as (k' & E & S2 & T2);
      [done|lia| |apply lookup_insert_eq|apply S1|by eapply wakes_recv_ok; [apply S1|]|].
    { intros q Hq. destruct (Hl q) as (hq & ? & ? & ? & ?); [set_solver|]. exists hq. split_and!; try done. by eapply irq_step_owner. }
    exists k'. rewrite E1, E. split; [|split; [by eapply irq_step_trans|]].
    + unfold handled, act_all, s1. simpl. unfold with_irq_actids, with_ikern. simpl. by rewrite insert_insert_eq.
    + intros q hq [->|Hq]%elem_of_cons Hhq; [|by apply (T2 q)]. unfold hk in Hhq. rewrite Hh in Hhq. injection Hhq as <-. simpl.
      apply (it_told _ _ S2); [by eapply irq_step_owner|done].
Qed.

(** Which ids are active then. *)
Lemma act_one_bit s a p h m n :
  0 <= n -> 0 <= m -> hk s p = Some h -> h_id h = 2 ^ m ->
  Z.testbit (act_one s a p) n = if m =? n then negb (has (h_policy h) IRQ_REENABLE) else Z.testbit a n.
Proof.
  intros Hn Hm Hh E. unfold act_one. rewrite Hh, E. destruct (has _ _);
    rewrite ?Z.ldiff_spec, Z.lor_spec, !Z.pow2_bits_eqb by done; destruct (m =? n); rewrite ?andb_false_r, ?orb_true_r, ?orb_false_r, ?andb_true_r; done.
Qed.

Lemma act_all_nonneg s l : forall a, 0 <= a -> (forall p h, hk s p = Some h -> p ∈ l -> 0 <= h_id h) -> 0 <= act_all s l a.
Proof.
  induction l as [|p l IH]; intros a Ha Hid; [done|]. apply IH; [|set_solver]. unfold act_one.
  destruct (hk s p) as [h|] eqn:Hh; [|done]. specialize (Hid p h Hh ltac:(set_solver)).
  destruct (has _ _); [apply Z.ldiff_nonneg; left|]; apply Z.lor_nonneg; done.
Qed.

Lemma act_all_bit s n l : forall a,
  0 <= n -> (forall p, p ∈ l -> exists h m, hk s p = Some h /\ 0 <= m /\ h_id h = 2 ^ m) ->
  (forall p q h h', p ∈ l -> q ∈ l -> hk s p = Some h -> hk s q = Some h' -> h_id h = h_id h' -> p = q) -> NoDup l ->
  (exists p h, p ∈ l /\ hk s p = Some h /\ h_id h = 2 ^ n /\ Z.testbit (act_all s l a) n = negb (has (h_policy h) IRQ_REENABLE)) \/
  ((forall p h, p ∈ l -> hk s p = Some h -> h_id h <> 2 ^ n) /\ Z.testbit (act_all s l a) n = Z.testbit a n).
Proof.
  induction l as [|p l IH]; intros a Hn Hid Hinj Hnd; [right; set_solver|]. apply NoDup_cons in Hnd as [Hpl Hnd].
  destruct (Hid p) as (h & m & Hh & Hm & E); [set_solver|]. pose proof (act_one_bit s a p h m n Hn Hm Hh E) as Hb.
  destruct (IH (act_one s a p) Hn) as [(q & hq & Hq & Hhq & Eq & Et)|[Hno Et]];
    [intros q Hq; apply Hid; set_solver|intros q q' hq hq' Hq Hq'; apply Hinj; set_solver|done| |]; change (act_all s (p :: l) a) with (act_all s l (act_one s a p)).
  - left. exists q, hq. split_and!; try done. set_solver.
  - rewrite Et, Hb. destruct (Z.eqb_spec m n) as [->|Hne].
    + left. exists p, h. split_and!; try done. set_solver.
    + right. split; [|done]. intros q hq [->|Hq]%elem_of_cons Hhq; [|by apply (Hno q)]. rewrite Hh in Hhq. injection Hhq as <-.
      rewrite E. intros E'%Z.pow_inj_r; lia.
Qed.

(** ** Interrupts *)

(** The invariant of hooks and kernel: the hooks belong to live system
    processes. *)
Record irq_ok (s : irq_state) (ls cq : Z -> list Z) : Prop := {
  io_inv : irq_inv 0 s ls;
  io_kern : kinv (ikern s) cq;
  io_own : forall p h, irq_abs s !! p = Some h -> owner (ikern s) (a_proc h);
}.

Lemma irq_ok_line s ls cq irq p : irq_ok s ls cq -> line_nr irq -> p ∈ ls irq -> line_ok s irq p.
Proof.
  intros [Hi _ Ho] Hl Hp. apply (ii_elem _ _ _ Hi) in Hp as (Hp0 & h & Hh & Hu & E); [|done]. exists h. split_and!; try done.
  - by apply (ii_hook _ _ _ Hi p).
  - by apply (Ho p _ (used_abs s p h Hh Hu)).
Qed.

Lemma a_interrupt_lookup irq m p :
  a_interrupt irq m !! p = (fun h => if a_line h =? irq then with_active (negb (has (a_policy h) IRQ_REENABLE)) h else h) <$> m !! p.
Proof. unfold a_interrupt. by rewrite lookup_fmap. Qed.

(** The mask of the line once the handlers have run. *)
Lemma unmask_idle s irq a :
  line_nr irq -> irq_actids s !! irq = Some a -> masked s irq = true ->
  exists s', (b ← get_actids irq; if b =? 0 then hw_intr_unmask irq else mret tt) s = Some (tt, s') /\ settled irq a (negb (a =? 0)) s s'.
Proof.
  intros Hl Ha Hm. rewrite (bind_run _ _ _ _ _ (get_actids_run s irq a Ha)).
  destruct (settle_run s irq a Hl (fun _ => Hm)) as (s' & E & Hs). exists s'. split; [|done]. rewrite <- E.
  unfold set_actids. mrun. unfold with_irq_actids. rewrite insert_id by done. by destruct s.
Qed.

(** A line with nobody listening stays masked. *)
Lemma spurious_run s ls irq :
  irq_inv 0 s ls -> line_nr irq -> ls irq = [] ->
  exists s', irq_handle irq s = Some (tt, s') /\ irq_inv 0 s' ls /\ irq_abs s' = irq_abs s /\ ikern s' = ikern s /\
    a_interrupt irq (irq_abs s) = irq_abs s.
Proof.
  intros Hi Hl El. unfold irq_handle. assert ((irq <? 0) || (NR_IRQ_VECTORS <=? irq) = false) as -> by (unfold line_nr in Hl; lia).
  destruct (mask_run s irq Hl) as (s1 & E1 & Em & Eo & Eh & Ehd & Ea & Ek). rewrite (bind_run _ _ _ _ _ E1).
  destruct (ii_line _ _ _ Hi irq Hl) as (hd & Hhd & Hc). rewrite El in Hc. apply chain_nil_head in Hc as ->. rewrite <- Ehd in Hhd.
  assert (rd_line irq PHead s1 = Some (0, s1)) as E2 by (unfold rd_line; mrun; by rewrite Hhd). rewrite (bind_run _ _ _ _ _ E2).
  assert (Hk : forall p, hk s1 p = hk s p) by (intros p; unfold hk; by rewrite Eh).
  assert (irq_abs s1 = irq_abs s) as Eabs by (apply map_eq; intros p; apply abs_ext; [done|]; intros h _; unfold abs_hook; by rewrite Ea).
  exists s1. split; [done|]. split; [split|split; [done|split; [done|]]].
  - eapply hooks_inv_ext; [apply Hi|done..].
  - intros j Hj. destruct (ii_act _ _ _ Hi j Hj) as (a & Ha & Hok). exists a. rewrite Ea. split; [done|].
    eapply act_ok_ext; [exact Hok|done|]. destruct (decide (j = irq)) as [->|]; [|by apply Eo].
    by rewrite Em, (ao_mask _ _ _ _ Hok), El.
  - apply map_eq. intros p. rewrite a_interrupt_lookup. destruct (irq_abs s !! p) as [h|] eqn:E; [|done]. simpl.
    destruct (Z.eqb_spec (a_line h) irq) as [El'|]; [|done]. assert (p ∈ ls irq) as Hp by (apply (line_abs s ls irq p Hi Hl); eauto).
    rewrite El in Hp. set_solver.
Qed.

(** The hooks of a line have ids of their own. *)
Lemma line_hook_ids s ls irq :
  irq_inv 0 s ls -> line_nr irq ->
  (forall p, p ∈ ls irq -> exists h m, hk s p = Some h /\ 0 <= m /\ h_id h = 2 ^ m) /\
  (forall p q h h', p ∈ ls irq -> q ∈ ls irq -> hk s p = Some h -> hk s q = Some h' -> h_id h = h_id h' -> p = q) /\ NoDup (ls irq).
Proof.
  intros Hi Hl. split_and!.
  - intros p (Hp0 & h & Hh & Hu & E)%(ii_elem _ _ _ Hi); [|done].
    destruct (ho_id _ (ii_hook _ _ _ Hi p h Hp0 Hh Hu)) as (m & Hm & Em). exists h, m. split_and!; [done|lia|done].
  - intros p q h h' (Hp0 & h0 & Hh0 & Hu & E)%(ii_elem _ _ _ Hi) (Hq0 & h1 & Hh1 & Hu1 & E1)%(ii_elem _ _ _ Hi) Hh Hh' Eid; [|done..].
    rewrite Hh in Hh0. rewrite Hh' in Hh1. injection Hh0 as <-. injection Hh1 as <-. apply (ii_ids _ _ _ Hi p q h h'); congruence.
  - destruct (ii_line _ _ _ Hi irq Hl) as (hd & _ & Hc). by eapply chain_nodup.
Qed.

(** The table of hooks once the handlers of a line have run. *)
Lemma handled_abs s s' ls irq a k :
  irq_inv 0 s ls -> line_nr irq -> ls irq <> [] -> irq_actids s !! irq = Some a -> (forall j, line_nr j -> j <> irq -> masked s' j = masked s j) ->
  irq_hooks s' = irq_hooks s -> irq_handlers s' = irq_handlers s -> irq_actids s' = <[irq := act_all s (ls irq) a]> (irq_actids s) ->
  masked s' irq = negb (act_all s (ls irq) a =? 0) -> ikern s' = k ->
  irq_inv 0 s' ls /\ irq_abs s' = a_interrupt irq (irq_abs s).
Proof.
  intros Hi Hl Hne Ha Eo Eh Ehd Eact Em Ek. destruct (line_hook_ids s ls irq Hi Hl) as (Hid & Hinj & Hnd).
  destruct (ii_act _ _ _ Hi irq Hl) as (a0 & Ha0 & Hok). rewrite Ha in Ha0. injection Ha0 as <-.
  destruct (reset_act s s' ls irq (act_all s (ls irq) a) (fun p => default false ((fun h => negb (has (h_policy h) IRQ_REENABLE)) <$> hk s p)))
    as [Hi' Habs]; try done.
  - apply act_all_nonneg; [apply Hok|]. intros p h Hh Hp. destruct (Hid p Hp) as (h0 & m & Hh0 & Hm & E). simplify_eq. rewrite E. lia.
  - intros n Hn Hb. destruct (act_all_bit s n (ls irq) a Hn Hid Hinj Hnd) as [(p & h & Hp & Hh & E & _)|[_ E]]; [by exists p, h|].
    rewrite E in Hb. by apply (ao_bits _ _ _ _ Hok).
  - intros p h Hp Hh. rewrite Hh. simpl. destruct (Hid p Hp) as (h0 & m & Hh0 & Hm & E). rewrite Hh in Hh0. injection Hh0 as <-.
    rewrite E, has_testbit by done. destruct (act_all_bit s m (ls irq) a Hm Hid Hinj Hnd) as [(q & hq & Hq & Hhq & Eq & ->)|[Hno _]].
    + assert (p = q) as <- by (by apply (Hinj p q h hq); [..|congruence]). rewrite Hh in Hhq. by injection Hhq as <-.
    + by destruct (Hno p h Hp Hh).
  - split; [done|]. apply map_eq. intros p. rewrite Habs, a_interrupt_lookup. destruct (irq_abs s !! p) as [h|] eqn:E; [|done]. simpl.
    apply abs_used in E as (h0 & Hh0 & Hu & E). rewrite Hh0. unfold abs_hook in E. destruct (Z.eqb_spec (h_proc_nr_e h0) NONE); [done|].
    by injection E as <-.
Qed.

Lemma act_all_ext s s' l a : (forall p, hk s' p = hk s p) -> act_all s' l a = act_all s l a.
Proof.
  intros Hk. unfold act_all. revert a. induction l as [|p l IH]; intros a; [done|]. simpl. rewrite IH. unfold act_one. by rewrite Hk.
Qed.

(** The handlers of a line run, each once. *)
Lemma busy_run s ls cq irq a :
  irq_ok s ls cq -> line_nr irq -> ls irq <> [] -> irq_actids s !! irq = Some a ->
  exists s', irq_handle irq s = Some (tt, s') /\ irq_hooks s' = irq_hooks s /\ irq_handlers s' = irq_handlers s /\
    irq_actids s' = <[irq := act_all s (ls irq) a]> (irq_actids s) /\ masked s' irq = negb (act_all s (ls irq) a =? 0) /\
    (forall j, line_nr j -> j <> irq -> masked s' j = masked s j) /\ irq_step (ikern s) (ikern s') /\
    forall p h, p ∈ ls irq -> hk s p = Some h -> told (ikern s') (h_proc_nr_e h) (h_notify_id h).
Proof.
  intros Hs Hl Hne Ha. pose proof Hs as [Hi [Hk Hv] Ho].
  unfold irq_handle. assert ((irq <? 0) || (NR_IRQ_VECTORS <=? irq) = false) as -> by (unfold line_nr in Hl; lia).
  destruct (mask_run s irq Hl) as (s1 & E1 & Em & Eo & Eh & Ehd & Ea & Ek). rewrite (bind_run _ _ _ _ _ E1).
  destruct (ii_line _ _ _ Hi irq Hl) as (hd & Hhd & Hc). rewrite <- Ehd in Hhd.
  assert (rd_line irq PHead s1 = Some (hd, s1)) as E2 by (unfold rd_line; mrun; by rewrite Hhd). rewrite (bind_run _ _ _ _ _ E2).
  destruct (Z.eqb_spec hd 0) as [->|Hhd0]; [destruct Hne; inversion Hc; [done|congruence]|].
  rewrite (bind_run get _ s1 s1 s1 eq_refl). assert (Hk1 : forall p, hk s1 p = hk s p) by (intros p; unfold hk; by rewrite Eh).
  destruct (handle_loop_run irq (ls irq) s1 hd a (S (size (irq_hooks s1)))) as (k' & E3 & Hst & Ht).
  { unfold hlinks. by rewrite Eh. }
  { pose proof (chain_length _ _ _ Hc) as Hle. unfold hlinks in Hle. rewrite map_size_fmap in Hle. rewrite Eh. lia. }
  { intros p Hp. destruct (irq_ok_line s ls cq irq p Hs Hl Hp) as (h & ? & ? & ? & ?). exists h. by rewrite Hk1, Ek. }
  { by rewrite Ea. }
  { by rewrite Ek. }
  { rewrite Ek. by eapply inv_recv_ok. }
  rewrite (bind_run _ _ _ _ _ E3), (act_all_ext s s1) by done. set (a' := act_all s (ls irq) a). set (s2 := handled s1 irq a' k').
  destruct (unmask_idle s2 irq a' Hl) as (s3 & E4 & Hset); [apply lookup_insert_eq|exact Em|]. exists s3. split; [exact E4|].
  rewrite Ek in Hst. rewrite (st_hooks _ _ _ _ _ Hset), (st_heads _ _ _ _ _ Hset), (st_act _ _ _ _ _ Hset), (st_kern _ _ _ _ _ Hset).
  split_and!; [done|done|by simpl; rewrite insert_insert_eq, Ea|apply Hset| |done|].
  - intros j Hj Hji. rewrite (st_other _ _ _ _ _ Hset) by done. by apply Eo.
  - intros p h Hp Hh. apply (Ht p); [done|by rewrite Hk1].
Qed.

Lemma irq_handle_run s ls cq irq :
  irq_ok s ls cq -> line_nr irq ->
  exists s', irq_handle irq s = Some (tt, s') /\ irq_ok s' ls cq /\ irq_abs s' = a_interrupt irq (irq_abs s) /\
    irq_step (ikern s) (ikern s') /\
    forall p h, irq_abs s !! p = Some h -> a_line h = irq -> told (ikern s') (a_proc h) (a_notify h).
Proof.
  intros Hs Hl. pose proof Hs as [Hi [Hk Hv] Ho]. destruct (decide (ls irq = [])) as [El|Hne].
  { destruct (spurious_run s ls irq Hi Hl El) as (s' & E & Hi' & Ea & Ek & Eint). exists s'. rewrite Eint, Ek, Ea. split_and!; try done.
    - split; [done|by rewrite Ek|by rewrite Ek, Ea].
    - intros p h Hh El'. assert (p ∈ ls irq) as Hp by (apply (line_abs s ls irq p Hi Hl); eauto). rewrite El in Hp. set_solver. }
  destruct (ii_act _ _ _ Hi irq Hl) as (a & Ha & Hok).
  destruct (busy_run s ls cq irq a Hs Hl Hne Ha) as (s' & E & Eh & Ehd & Eact & Em & Eo & Hst & Ht).
  destruct (handled_abs s s' ls irq a (ikern s') Hi Hl Hne Ha Eo Eh Ehd Eact Em eq_refl) as [Hi' Habs].
  exists s'. split_and!; try done.
  - split; [done|split; [apply Hst|by eapply wakes_inv; [apply Hst|]]|]. intros p h. rewrite Habs, a_interrupt_lookup.
    destruct (irq_abs s !! p) as [h0|] eqn:E0; [|done]. intros [= <-]. eapply irq_step_owner; [done|].
    replace (a_proc _) with (a_proc h0) by (by destruct (_ =? irq)). by eapply Ho.
  - intros p h Hh El. assert (p ∈ ls irq) as Hp by (apply (line_abs s ls irq p Hi Hl); eauto).
    apply abs_used in Hh as (h0 & Hh0 & Hu & E0). unfold abs_hook in E0. destruct (Z.eqb_spec (h_proc_nr_e h0) NONE); [done|].
    injection E0 as <-. by apply (Ht p).
Qed.

(** ** Histories *)

Inductive irq_event :=
| EvCtl (ep request vector policy hook_id : Z)
| EvInt (irq : Z).

Definition irq_event_run (ev : irq_event) : IS (option (kres * option Z)) :=
  match ev with
  | EvCtl ep request vector policy hook_id => r ← do_irqctl (target ep) request vector policy hook_id; mret (Some r)
  | EvInt irq => irq_handle irq;; mret None
  end.

Fixpoint irq_run (evs : list irq_event) : IS (list (option (kres * option Z))) :=
  match evs with
  | [] => mret []
  | ev :: evs' => r ← irq_event_run ev; rs ← irq_run evs'; mret (r :: rs)
  end.

(** The same on the table of hooks alone; [may] says who may use which line. *)
Definition a_event (may : Z -> Z -> bool) (ev : irq_event) (m : ahooks) : option (kres * option Z) * ahooks :=
  match ev with
  | EvCtl ep request vector policy hook_id =>
      let '(r, m') := a_irqctl ep (may ep vector) request vector policy hook_id m in (Some r, m')
  | EvInt irq => (None, a_interrupt irq m)
  end.

Fixpoint a_run (may : Z -> Z -> bool) (evs : list irq_event) (m : ahooks) : list (option (kres * option Z)) * ahooks :=
  match evs with
  | [] => ([], m)
  | ev :: evs' => let '(r, m1) := a_event may ev m in let '(rs, m2) := a_run may evs' m1 in (r :: rs, m2)
  end.

(** Calls come from live system processes, for lines that drivers use. *)
Definition event_ok (k : kstate) (ev : irq_event) : Prop :=
  match ev with
  | EvCtl ep request vector _ hook_id =>
      owner k ep /\ - 2 ^ 31 <= hook_id < 2 ^ 31 /\ (request = IRQ_SETPOLICY -> driver_line vector)
  | EvInt irq => line_nr irq
  end.

Lemma irq_step_event k k' ev : irq_step k k' -> event_ok k ev -> event_ok k' ev.
Proof. intros Hst. destruct ev; [|done]. intros [Ho ?]. split; [by eapply irq_step_owner|done]. Qed.

Lemma irq_step_may k k' ep vector : irq_step k k' -> kbase k -> owner k ep -> may_use k' ep vector = may_use k ep vector.
Proof.
  intros Hst Hk Ho. destruct (owner_facts _ _ Hk Ho) as (r & sp & Hr & _ & Hsp & _).
  pose proof (it_ids _ _ Hst) as [= Epid Efl].
  assert (fld pid k' !! target ep = Some (pid r)) as (r' & Hr' & E')%fld_Some by (rewrite Epid; by apply fld_of).
  apply (f_equal d_priv) in E'. simpl in E'. unfold may_use. rewrite Hr, Hr', E', Hsp.
  destruct (same_field_lookup s_res _ _ _ _ (it_res _ _ Hst) Hsp) as (s' & Hs' & E1).
  destruct (same_field_lookup s_flags _ _ _ _ Efl Hsp) as (s2 & Hs2 & E2). rewrite Hs' in Hs2. injection Hs2 as <-.
  rewrite Hs'. unfold may_line. by rewrite E1, E2.
Qed.

(** Who owns hooks after a call. *)
Lemma ctl_owners (P : Z -> Prop) ep may request vector policy hook_id (m : ahooks) :
  (forall p h, m !! p = Some h -> P (a_proc h)) -> P ep ->
  forall p h, snd (a_irqctl ep may request vector policy hook_id m) !! p = Some h -> P (a_proc h).
Proof.
  intros Hm Hep. assert (Halt : forall b q p h, alter (with_active b) q m !! p = Some h -> P (a_proc h)).
  { intros b q p h. rewrite lookup_alter. destruct (decide (q = p)) as [->|]; [|apply Hm].
    destruct (m !! p) as [h0|] eqn:E; [|done]. intros [= <-]. by apply (Hm p h0). }
  assert (Hmine : forall i f, (forall p h, f m !! p = Some h -> P (a_proc h)) -> forall p h, snd (a_mine ep i f m) !! p = Some h -> P (a_proc h)).
  { intros i f Hf. unfold a_mine. destruct (m !! i) as [h|]; [|done]. by destruct (_ =? ep). }
  unfold a_irqctl, a_set. destruct (_ =? IRQ_ENABLE); [apply Hmine, Halt|]. destruct (_ =? IRQ_DISABLE); [apply Hmine, Halt|].
  destruct (_ =? IRQ_SETPOLICY).
  - destruct (_ || _); [done|]. destruct (negb may); [done|]. destruct (31 <? _); [done|]. destruct (a_choose _ _ _) as [i|]; [|done]. simpl.
    intros p h [[<- <-]|[_ Hh]]%lookup_insert_Some; [done|by apply (Hm p)].
  - destruct (_ =? IRQ_RMPOLICY); [|done]. apply Hmine. intros p h [_ Hh]%lookup_delete_Some. by apply (Hm p).
Qed.

(** One event, against the table. *)
Lemma irq_event_ok s ls cq ev :
  irq_ok s ls cq -> event_ok (ikern s) ev ->
  exists r s' ls', irq_event_run ev s = Some (r, s') /\ (r, irq_abs s') = a_event (may_use (ikern s)) ev (irq_abs s) /\
    irq_ok s' ls' cq /\ irq_step (ikern s) (ikern s').
Proof.
  intros Hs Hev. pose proof Hs as [Hi [Hk Hv] Ho]. destruct ev as [ep request vector policy hook_id|irq]; simpl in *.
  - destruct Hev as (Hep & Hh & Hdl).
    destruct (do_irqctl_run s ls ep request vector policy hook_id Hi Hk Hep Hh Hdl) as (r & s' & E & Ea & (ls' & Hi') & Ek).
    exists (Some r), s', ls'. rewrite (bind_run _ _ _ _ _ E), <- Ea, Ek. split_and!; [done|done| |by apply irq_step_refl].
    split; [done|by rewrite Ek|]. rewrite Ek. change (irq_abs s') with (snd (r, irq_abs s')). rewrite Ea.
    by apply (ctl_owners (owner (ikern s))).
  - destruct (irq_handle_run s ls cq irq Hs Hev) as (s' & E & Hs' & Ea & Hst & _). exists None, s', ls.
    by rewrite (bind_run _ _ _ _ _ E), <- Ea.
Qed.

Lemma a_run_ext may may' evs : forall m, (forall ep request vector policy hook_id, EvCtl ep request vector policy hook_id ∈ evs ->
  may' ep vector = may ep vector) -> a_run may' evs m = a_run may evs m.
Proof.
  induction evs as [|ev evs IH]; intros m Hm; [done|]. simpl.
  assert (a_event may' ev m = a_event may ev m) as ->.
  { destruct ev as [ep request vector policy hook_id|irq]; [|done]. simpl. rewrite (Hm ep request vector policy hook_id); [done|set_solver]. }
  destruct (a_event may ev m) as [r m1]. rewrite IH; [done|]. intros ep request vector policy hook_id Hin. eapply Hm, list_elem_of_further, Hin.
Qed.

Lemma irq_run_ok evs : forall s ls cq,
  irq_ok s ls cq -> Forall (event_ok (ikern s)) evs ->
  exists rs s' ls', irq_run evs s = Some (rs, s') /\ (rs, irq_abs s') = a_run (may_use (ikern s)) evs (irq_abs s) /\ irq_ok s' ls' cq.
Proof.
  induction evs as [|ev evs IH]; intros s ls cq Hs Hev; [exists [], s, ls; done|]. apply Forall_cons in Hev as [Hev1 Hev].
  destruct (irq_event_ok s ls cq ev Hs Hev1) as (r & s1 & ls1 & E1 & Ea1 & Hs1 & Hst).
  destruct (IH s1 ls1 cq Hs1) as (rs & s' & ls' & E & Ea & Hs').
  { eapply Forall_impl; [exact Hev|]. intros ev' Hev'. by eapply irq_step_event. }
  exists (r :: rs), s', ls'. simpl. rewrite (bind_run _ _ _ _ _ E1), (bind_run _ _ _ _ _ E). split; [done|]. split; [|done].
  rewrite <- Ea1, (a_run_ext (may_use (ikern s1))), <- Ea; [done|].
  intros ep request vector policy hook_id Hin. rewrite Forall_forall in Hev. destruct (Hev _ Hin) as [Ho _]. symmetry.
  apply irq_step_may; [done|apply (io_kern _ _ _ Hs)|done].
Qed.



(** C20: An interrupt on a line reaches every process with a hook on it: the
    process is woken up with a message from HARDWARE that contains the number it
    chose for the hook, or that number and the notification are kept for its
    next receive. Nothing that another system process was told before is lost,
    the kernel's invariant is kept, and no process is blocked or removed. *)
Theorem interrupt_reaches_owners s ls cq irq :
  irq_ok s ls cq -> line_nr irq ->
  exists s', irq_handle irq s = Some (tt, s') /\ irq_ok s' ls cq /\
    (forall p h, irq_abs s !! p = Some h -> a_line h = irq -> told (ikern s') (a_proc h) (a_notify h)) /\
    (forall e nid, owner (ikern s) e -> told (ikern s) e nid -> told (ikern s') e nid) /\
    ids (ikern s') = ids (ikern s) /\ wakes (fld view (ikern s)) (fld view (ikern s')).
Proof.
  intros Hs Hl. destruct (irq_handle_run s ls cq irq Hs Hl) as (s' & E & Hs' & _ & [_ Hid _ Hw Ht] & Htold). by exists s'.
Qed.
End Handle.

(** ** A machine with drivers *)

Definition irq_boot (k : kstate) : irq_state :=
  match intr_init (IrqState free_hooks no_lines no_lines 0 0 k) with Some (_, s) => s | None => IrqState ∅ ∅ ∅ 0 0 k end.

Lemma free_hooks_lookup p h : free_hooks !! p = Some h -> h = IrqHook 0 0 0 0 NONE 0 0 /\ 1 <= p <= NR_IRQ_HOOKS.
Proof.
  intros (q & E & Hq%elem_of_seqZ)%elem_of_list_to_map_2%list_elem_of_fmap. simplify_eq. unfold NR_IRQ_HOOKS in *. split; [done|lia].
Qed.

Lemma zeros_lookup irq : 0 <= irq < NR_IRQ_VECTORS -> no_lines !! irq = Some 0.
Proof.
  intros Hl. apply elem_of_list_to_map_1; [|apply list_elem_of_fmap; exists irq; split; [done|apply elem_of_seqZ; lia]].
  apply (bool_decide_unpack _). by vm_compute.
Qed.

Lemma free_dom p : is_Some (free_hooks !! p) <-> 1 <= p <= NR_IRQ_HOOKS.
Proof.
  split; [by intros [h [_ ?]%free_hooks_lookup]|]. intros Hp. eexists. apply elem_of_list_to_map_1.
  - apply (bool_decide_unpack _). by vm_compute.
  - apply list_elem_of_fmap. exists p. split; [done|]. apply elem_of_seqZ. unfold NR_IRQ_HOOKS in *. lia.
Qed.

Lemma boot_masked k irq : line_nr irq -> masked (irq_boot k) irq = true.
Proof.
  intros [Hr [H0 H2]]. unfold NR_IRQ_VECTORS, CLOCK_IRQ, CASCADE_IRQ in *.
  assert (irq ∈ [1; 3; 4; 5; 6; 7; 8; 9; 10; 11; 12; 13; 14; 15]) as Hin by (rewrite !elem_of_cons; lia).
  repeat (apply elem_of_cons in Hin as [->|Hin]; [reflexivity|]). set_solver.
Qed.

(** Right after the boot nobody has a hook. *)
Lemma boot_ok k cq : kinv k cq -> irq_ok (irq_boot k) (fun _ => []) cq.
Proof.
  intros Hk. assert (Hh : forall p h, hk (irq_boot k) p = Some h -> h_proc_nr_e h = NONE).
  { intros p h (h0 & [-> _]%free_hooks_lookup & <-)%hk_Some. done. }
  split; [split; [split|]|done|].
  - intros p. unfold hk. rewrite fmap_is_Some. apply free_dom.
  - intros irq [Hl _]. exists 0. split; [by apply zeros_lookup|constructor].
  - intros irq p _. split; [set_solver|]. intros (_ & h & E & Hu & _). by apply Hh in E.
  - intros p h _ E Hu. by apply Hh in E.
  - intros p q h h' _ _ E _ Hu. by apply Hh in E.
  - intros irq Hl. exists 0. split; [by apply zeros_lookup; destruct Hl|]. split; [|done|].
    + intros n _. by rewrite Z.bits_0.
    + by rewrite boot_masked.
  - intros p h (h0 & E & Hu & _)%abs_used. by apply Hh in E.
Qed.

#[local] Existing Instance sig_numbers.

(** A test for owners. *)
Definition owner_test (k : kstate) (e : Z) : bool :=
  live_ep_test k e &&
  match procs k !! target e with
  | Some r => match privs k !! p_priv r with Some s => has (s_flags s) SYS_PROC | None => false end
  | None => false
  end.

Lemma owner_of k e : owner_test k e = true -> owner k e.
Proof.
  unfold owner_test. intros [Hl Hs]%andb_true_iff. split; [by apply live_ep_of|]. destruct (procs k !! target e) as [r|] eqn:Hr; [|done].
  destruct (privs k !! p_priv r) as [s|] eqn:Hp; [|done]. exists (pid r), (s_flags s). rewrite lookup_fmap. simpl. rewrite Hp.
  split; [by apply fld_of|done].
Qed.

Definition irq_s0 : irq_state := irq_boot (up ∅).

(** The terminal driver listens to two lines and the memory driver to one of
    them; the first line interrupts, and one of the drivers enables it again. *)
Definition driver_events : list irq_event :=
  [EvCtl TTY_PROC_NR IRQ_SETPOLICY 1 0 1; EvCtl MEM_PROC_NR IRQ_SETPOLICY 1 IRQ_REENABLE 0; EvCtl TTY_PROC_NR IRQ_SETPOLICY 4 0 2;
   EvInt 1; EvInt 9; EvCtl TTY_PROC_NR IRQ_ENABLE 0 0 1; EvCtl MEM_PROC_NR IRQ_RMPOLICY 0 0 1; EvCtl MEM_PROC_NR IRQ_RMPOLICY 0 0 2].

Lemma drivers_ok : Forall (event_ok (ikern irq_s0)) driver_events.
Proof.
  assert (owner (ikern irq_s0) TTY_PROC_NR) as H1 by (apply owner_of; vm_compute; reflexivity).
  assert (owner (ikern irq_s0) MEM_PROC_NR) as H2 by (apply owner_of; vm_compute; reflexivity).
  repeat (apply Forall_cons_2; [first [done|split; [done|split; [done|done]]]|]). by apply Forall_nil_2.
Qed.


(** The state in which three hooks are in use. *)
Definition irq_s1 : irq_state := match irq_run (take 3 driver_events) irq_s0 with Some (_, s) => s | None => irq_s0 end.

Lemma irq_s1_ok : exists ls, irq_ok irq_s1 ls (fun _ => []).
Proof.
  destruct (irq_run_ok (take 3 driver_events) irq_s0 _ _ (boot_ok _ _ (up_kinv ∅))) as (rs & s' & ls' & E & _ & Hs).
  { apply Forall_take, drivers_ok. }
  exists ls'. unfold irq_s1. by rewrite E.
Qed.

Lemma interrupt_reaches_owners_witness :
  exists s' ls, irq_handle 1 irq_s1 = Some (tt, s') /\ irq_ok s' ls (fun _ => []) /\
    told (ikern s') TTY_PROC_NR 1 /\ told (ikern s') MEM_PROC_NR 0.
Proof.
  destruct irq_s1_ok as [ls Hs].
  destruct (interrupt_reaches_owners irq_s1 ls _ 1 Hs ltac:(split; [done|split; done])) as (s' & E & Hs' & Ht & _).
  exists s', ls. split; [exact E|]. split; [exact Hs'|]. split.
  - apply (Ht 1 (AHook TTY_PROC_NR 1 0 1 false)); vm_compute; reflexivity.
  - apply (Ht 2 (AHook MEM_PROC_NR 0 1 1 false)); vm_compute; reflexivity.
Defined.

(** The results and the table at the end of that history. *)
Lemma drivers_results :
  fst (a_run (may_use (ikern irq_s0)) driver_events (irq_abs irq_s0)) =
    [Some (OK, Some 1); Some (OK, Some 2); Some (OK, Some 3); None; None; Some (OK, None); Some (EPERM, None); Some (OK, None)].
Proof. vm_compute. reflexivity. Qed.

(** A hook on the line of the second controller takes all of that controller's
    lines away when it is given up. *)
Lemma cascade_masked :
  masked irq_s0 CASCADE_IRQ = false /\
  match irq_run [EvCtl TTY_PROC_NR IRQ_SETPOLICY CASCADE_IRQ 0 1; EvCtl TTY_PROC_NR IRQ_RMPOLICY 0 0 1] irq_s0 with
  | Some (rs, s) => rs = [Some (OK, Some 1); Some (OK, None)] /\ masked s CASCADE_IRQ = true
  | None => False
  end.
Proof. vm_compute. done. Qed.
