(* ===== verification/KSys.v ===== *)
(** Kernel calls for scheduling, process control and signals: sched_proc of
    kernel/system.c and system/do_schedule.c, do_schedctl.c, do_runctl.c,
    do_kill.c, do_getksig.c, do_endksig.c, do_exit.c. *)

From S2P Require Import Prelude Chain Timers KState KSched KBoot KWait KNotify KBase KMain KSignal KIpc KSend KPriv.
Local Open Scope Z_scope.

(** ** Scheduling *)

Definition SCHEDCTL_FLAG_KERNEL : Z := 1.

Definition proc_is_runnable (p : Z) : K bool := fl ← rd p_rts_flags p; mret (fl =? 0).

Definition sched_proc (p priority quantum cpu : Z) : K kres :=
  if ((priority <? TASK_Q) && negb (priority =? -1)) || (NR_SCHED_QUEUES <? priority) then mret EINVAL
  else if (quantum <? 1) && negb (quantum =? -1) then mret EINVAL
  else
    run ← proc_is_runnable p;
    (if run : bool then RTS_SET p RTS_NO_QUANTUM else mret tt);;
    run ← proc_is_runnable p;
    (if run : bool then RTS_SET p RTS_NO_QUANTUM else mret tt);;
    (if negb (priority =? -1) then upd p (with_p_priority priority) else mret tt);;
    (if negb (quantum =? -1)
     then upd p (with_p_quantum_size_ms quantum);; t ← ms_2_cpu_time quantum; upd p (with_p_cpu_time_left t)
     else mret tt);;
    RTS_UNSET p RTS_NO_QUANTUM;;
    mret OK.

Definition do_schedule (caller endpoint priority quantum cpu : Z) : K kres :=
  o ← isokendpt endpoint;
  match o with
  | None => mret EINVAL
  | Some proc_nr =>
      let p := proc_addr proc_nr in
      s ← rd p_scheduler p;
      if negb (caller =? s) then mret EPERM else sched_proc p priority quantum cpu
  end.

(** The comparison binds stronger than the assignment: a failure returns 1. *)
Definition do_schedctl (caller flags endpoint priority quantum cpu : Z) : K kres :=
  if negb (Z.ldiff flags SCHEDCTL_FLAG_KERNEL =? 0) then mret EINVAL
  else
    o ← isokendpt endpoint;
    match o with
    | None => mret EINVAL
    | Some proc_nr =>
        let p := proc_addr proc_nr in
        if Z.land flags SCHEDCTL_FLAG_KERNEL =? SCHEDCTL_FLAG_KERNEL
        then
          r ← sched_proc p priority quantum cpu;
          if negb (is_OK r) then mret (RetVal 1) else upd p (with_p_scheduler 0);; mret OK
        else upd p (with_p_scheduler caller);; mret OK
    end.

(** ** Process control and signals *)

Definition RC_STOP : Z := 0.
Definition RC_RESUME : Z := 1.
Definition RC_DELAY : Z := 1.

Section Signals.
Context `{Signals}.

Definition do_runctl (endpt action flags : Z) : K kres :=
  o ← isokendpt endpt;
  match o with
  | None => mret EINVAL
  | Some proc_nr =>
      if iskerneln proc_nr then mret EPERM
      else
        let rp := proc_addr proc_nr in
        delay ←
          (if (action =? RC_STOP) && has flags RC_DELAY
           then
             fl ← rd p_rts_flags rp;
             mf ← rd p_misc_flags rp;
             (if RTS_ISSET fl RTS_SENDING || has mf MF_SC_DEFER then upd rp (set_misc MF_SIG_DELAY) else mret tt);;
             mf ← rd p_misc_flags rp;
             mret (has mf MF_SIG_DELAY)
           else mret false);
        if delay : bool then mret EBUSY
        else if action =? RC_STOP then RTS_SET rp RTS_PROC_STOP;; mret OK
        else if action =? RC_RESUME
        then
          fl ← rd p_rts_flags rp;
          kassert (RTS_ISSET fl RTS_PROC_STOP);;
          RTS_UNSET rp RTS_PROC_STOP;;
          mret OK
        else mret EINVAL
  end.

Definition do_kill (endpt sig : Z) : K kres :=
  o ← isokendpt endpt;
  match o with
  | None => mret EINVAL
  | Some proc_nr =>
      if _NSIG <=? sig then mret EINVAL
      else if iskerneln proc_nr then mret EPERM
      else cause_sig proc_nr sig;; mret OK
  end.

Definition do_exit (caller : Z) : K kres := nr ← rd p_nr caller; cause_sig nr SIGABRT;; mret EDONTREPLY.

(** The user processes from a slot on. *)
Definition user_slots : list Z := proc_addr <$> seqZ 0 NR_PROCS.

(** The endpoint and the pending signals. *)
Fixpoint getksig_loop (ep : Z) (rps : list Z) : K (Z * option (gset Z)) :=
  match rps with
  | [] => mret (NONE, None)
  | rp :: rps' =>
      fl ← rd p_rts_flags rp;
      if negb (RTS_ISSET fl RTS_SIGNALED) then getksig_loop ep rps'
      else
        mgr ← rdp s_sig_mgr rp;
        if negb (ep =? mgr) then getksig_loop ep rps'
        else
          e ← rd p_endpoint rp;
          map ← rd p_pending rp;
          upd rp (with_p_pending ∅);;
          RTS_UNSET rp RTS_SIGNALED;;
          mret (e, Some map)
  end.

Definition do_getksig (caller : Z) : K (Z * option (gset Z)) :=
  ep ← rd p_endpoint caller; getksig_loop ep user_slots.

Definition do_endksig (caller endpt : Z) : K kres :=
  o ← isokendpt endpt;
  match o with
  | None => mret EINVAL
  | Some proc_nr =>
      let rp := proc_addr proc_nr in
      ep ← rd p_endpoint caller;
      mgr ← rdp s_sig_mgr rp;
      if negb (ep =? mgr) then mret EPERM
      else
        fl ← rd p_rts_flags rp;
        if negb (RTS_ISSET fl RTS_SIG_PENDING) then mret EINVAL
        else
          (if negb (RTS_ISSET fl RTS_SIGNALED) then RTS_UNSET rp RTS_SIG_PENDING else mret tt);;
          mret OK
  end.
End Signals.

(** ** What scheduling a process does *)

(** A process that is not ready may change its priority. *)
Lemma kbase_put_blocked k p r r' :
  kbase k -> in_table p = true -> procs k !! p = Some r -> p_rts_flags r <> 0 ->
  p_rts_flags r' = p_rts_flags r -> queue_nr (p_priority r') -> p_nextready r' = p_nextready r ->
  pid r' = pid r -> kbase (put_proc p r' k).
Proof.
  intros [[rq Hs] Hf Hp Ht] Hpt Hr Hfl Efl Hq Enx Epid.
  assert (p_priv r' = p_priv r) as Epv by (by injection Epid).
  split.
  - exists rq. eapply (sched_inv_put k rq _ rq p r r'); try done; [by rewrite Efl|].
    destruct (si_rq _ _ Hs) as [Hst He Hpr Hn].
    assert (fld p_rts_flags (put_proc p r' k) = fld p_rts_flags k) as Ef by (by eapply fld_put_same).
    split.
    + apply (rqs_ext k); [done|done|by eapply fld_put_same|done].
    + intros q x Hqn. rewrite (He q x Hqn), Ef, fld_put. destruct (decide (x = p)) as [->|Hne].
      * rewrite (fld_of p_rts_flags k p r Hr). naive_solver.
      * by rewrite lookup_insert_ne.
    + intros x q. rewrite fld_put. destruct (decide (x = p)) as [->|Hne].
      * rewrite lookup_insert_eq. by intros [= <-].
      * rewrite lookup_insert_ne by done. apply Hpr.
    + simpl. rewrite lookup_insert_ne; [done|]. intros ->. congruence.
  - assert (fld p_rts_flags (put_proc p r' k) = fld p_rts_flags k) as E by (by eapply fld_put_same).
    unfold flags_ok. rewrite E. exact Hf.
  - by rewrite (fld_put_same pid p r' r k Hr Epid).
  - exact Ht.
Qed.

Lemma put_proc_put p a b k : put_proc p a (put_proc p b k) = put_proc p a k.
Proof. unfold put_proc. simpl. by rewrite insert_insert_eq. Qed.

(** The process after [sched_proc], [tsc] cycles being a millisecond. *)
Definition retimed (tsc priority quantum : Z) (r : proc) : proc :=
  let r1 := if priority =? -1 then r else with_p_priority priority r in
  if quantum =? -1 then r1 else with_p_cpu_time_left (u64 (tsc * quantum)) (with_p_quantum_size_ms quantum r1).

Definition rescheduled (tsc priority quantum : Z) (r : proc) : proc :=
  clear_rts RTS_NO_QUANTUM (retimed tsc priority quantum r).

(** The process is not ready while its priority changes. *)
Definition stopped (r : proc) : proc := if p_rts_flags r =? 0 then set_rts RTS_NO_QUANTUM r else r.

Lemma stop_run k p r :
  kbase k -> in_table p = true -> procs k !! p = Some r -> has (p_rts_flags r) RTS_SLOT_FREE = false ->
  exists k1 r1,
    (forall (m : K kres),
      (run ← proc_is_runnable p; (if run : bool then RTS_SET p RTS_NO_QUANTUM else mret tt);;
       run ← proc_is_runnable p; (if run : bool then RTS_SET p RTS_NO_QUANTUM else mret tt);; m) k = m k1) /\
    kbase k1 /\ link_eq (put_proc p (stopped r) k) k1 /\ procs k1 !! p = Some r1 /\ unlinked r1 = unlinked (stopped r) /\
    p_rts_flags r1 <> 0.
Proof.
  intros Hk Hp Hr Hf. unfold stopped.
  assert (Hrd : forall x w, procs x !! p = Some w -> proc_is_runnable p x = Some (p_rts_flags w =? 0, x)).
  { intros x w Hw. unfold proc_is_runnable. by rewrite (bind_run _ _ _ _ _ (rd_run p_rts_flags _ _ _ Hw)). }
  destruct (Z.eqb_spec (p_rts_flags r) 0) as [E0|E0].
  - destruct (kbase_set k p r RTS_NO_QUANTUM Hk Hp Hr Hf eq_refl) as (k1&Hrun&Hk1&Hl).
    destruct (erase_proc _ _ _ p (set_rts RTS_NO_QUANTUM r) Hl) as (r1&Hr1&Er1); [apply lookup_insert_eq|].
    assert (Hfl : p_rts_flags r1 = RTS_NO_QUANTUM) by (apply (f_equal p_rts_flags) in Er1; simpl in Er1; by rewrite Er1, E0).
    exists k1, r1. split; [|by rewrite Hfl]. intros m.
    rewrite (bind_run _ _ _ _ _ (Hrd _ _ Hr)), E0. cbn [Z.eqb]. rewrite (bind_run _ _ _ _ _ Hrun).
    by rewrite (bind_run _ _ _ _ _ (Hrd _ _ Hr1)), Hfl.
  - exists k, r. split_and!; try done; [|unfold link_eq; by apply (erase_put_same _ _ _ _ r)]. intros m.
    rewrite (bind_run _ _ _ _ _ (Hrd _ _ Hr)), (proj2 (Z.eqb_neq _ _) E0), (bind_run (mret tt) _ k tt k eq_refl).
    by rewrite (bind_run _ _ _ _ _ (Hrd _ _ Hr)), (proj2 (Z.eqb_neq _ _) E0), (bind_run (mret tt) _ k tt k eq_refl).
Qed.

Lemma retime_run {A} k p r priority quantum (m : K A) :
  procs k !! p = Some r ->
  ((if negb (priority =? -1) then upd p (with_p_priority priority) else mret tt);;
   (if negb (quantum =? -1)
    then upd p (with_p_quantum_size_ms quantum);; t ← ms_2_cpu_time quantum; upd p (with_p_cpu_time_left t)
    else mret tt);; m) k = m (put_proc p (retimed (tsc_per_ms k) priority quantum r) k).
Proof.
  intros Hr. unfold retimed.
  assert (Hid : forall x, procs x !! p = Some r -> put_proc p r x = x).
  { intros x Hx. unfold put_proc. rewrite (insert_id _ _ _ Hx). by destruct x. }
  set (r1 := if priority =? -1 then r else with_p_priority priority r).
  assert (H1 : (if negb (priority =? -1) then upd p (with_p_priority priority) else mret tt) k = Some (tt, put_proc p r1 k)).
  { unfold r1. destruct (priority =? -1); cbn [negb]; [by rewrite Hid|]. by apply upd_run. }
  rewrite (bind_run _ _ _ _ _ H1). set (k1 := put_proc p r1 k).
  assert (Hr1 : procs k1 !! p = Some r1) by apply lookup_insert_eq.
  destruct (quantum =? -1); cbn [negb]; [by rewrite (bind_run (mret tt) _ k1 tt k1 eq_refl)|].
  rewrite bind_assoc, (bind_run _ _ _ _ _ (upd_run p _ k1 r1 Hr1)). unfold k1 at 1. rewrite put_proc_put.
  set (k2 := put_proc p (with_p_quantum_size_ms quantum r1) k).
  assert (Hr2 : procs k2 !! p = Some (with_p_quantum_size_ms quantum r1)) by apply lookup_insert_eq.
  rewrite bind_assoc. unfold ms_2_cpu_time. rewrite bind_assoc, (bind_run (gets tsc_per_ms) _ k2 (tsc_per_ms k) k2 eq_refl).
  rewrite (bind_run (mret _) _ k2 _ k2 eq_refl), (bind_run _ _ _ _ _ (upd_run p _ k2 _ Hr2)). unfold k2. by rewrite put_proc_put.
Qed.

Lemma unsched_retimed tsc priority quantum r r1 :
  unlinked r1 = unlinked (stopped r) -> unsched (rescheduled tsc priority quantum r1) = unsched (rescheduled tsc priority quantum r).
Proof.
  intros E. assert (Hc : forall x, unsched (rescheduled tsc priority quantum x) =
    clear_rts RTS_PREEMPTED (clear_rts RTS_NO_QUANTUM (retimed tsc priority quantum (unlinked x)))).
  { intros x. unfold rescheduled, retimed. by destruct (priority =? -1), (quantum =? -1). }
  rewrite Hc, E, <- Hc. unfold stopped. destruct (Z.eqb_spec (p_rts_flags r) 0) as [E0|_]; [|done].
  unfold unsched. do 2 f_equal. unfold rescheduled, retimed, clear_rts, set_rts. destruct (priority =? -1), (quantum =? -1); simpl; by rewrite E0.
Qed.

Lemma resched_same k1 k2 k' :
  sched_eq k1 k2 -> fld p_rts_flags k2 = fld p_rts_flags k1 -> proc_ptr k2 = proc_ptr k1 -> resched k2 k' -> resched k1 k'.
Proof. intros E Ef Ep [H1 H2]. split; [by etransitivity|]. intros p. rewrite <- Ef, <- Ep. apply H2. Qed.

Lemma sched_proc_run k p r priority quantum cpu :
  kbase k -> in_table p = true -> procs k !! p = Some r -> has (p_rts_flags r) RTS_SLOT_FREE = false ->
  priority = -1 \/ queue_nr priority -> quantum = -1 \/ 1 <= quantum ->
  exists k', sched_proc p priority quantum cpu k = Some (OK, k') /\ kbase k' /\
    resched (put_proc p (rescheduled (tsc_per_ms k) priority quantum r) k) k'.
Proof.
  intros Hk Hp Hr Hf Hpr Hq. unfold sched_proc, queue_nr in *.
  rewrite (proj2 (orb_false_iff _ _)) by (split; [destruct Hpr as [->|?]; [done|]; rewrite (proj2 (Z.ltb_ge _ _)); [done|unfold TASK_Q; lia]|
    apply Z.ltb_ge; unfold NR_SCHED_QUEUES in *; lia]).
  replace ((quantum <? 1) && negb (quantum =? -1)) with false by (destruct (Z.ltb_spec quantum 1), (Z.eqb_spec quantum (-1)); done || lia).
  destruct (stop_run k p r Hk Hp Hr Hf) as (k1&r1&Hrun&Hk1&Hl&Hr1&Er1&Hfl). rewrite Hrun. clear Hrun.
  rewrite (retime_run k1 p r1 priority quantum) by done.
  assert (Etsc : tsc_per_ms k1 = tsc_per_ms k) by (symmetry; exact (f_equal tsc_per_ms Hl)). rewrite Etsc.
  set (r2 := retimed (tsc_per_ms k) priority quantum r1). set (k2 := put_proc p r2 k1).
  assert (Hr2 : procs k2 !! p = Some r2) by apply lookup_insert_eq.
  assert (Hf1 : has (p_rts_flags r1) RTS_SLOT_FREE = false).
  { apply (f_equal p_rts_flags) in Er1. simpl in Er1. rewrite Er1. unfold stopped. destruct (_ =? 0); [|done].
    simpl. by rewrite has_lor, Hf. }
  assert (Hfl2 : p_rts_flags r2 = p_rts_flags r1) by (unfold r2, retimed; by destruct (priority =? -1), (quantum =? -1)).
  assert (Hk2 : kbase k2).
  { apply (kbase_put_blocked k1 p r1); try done.
    - unfold r2, retimed. assert (Hq1 : queue_nr (p_priority r1)).
      { destruct (kb_sched _ Hk1) as [rq Hs]. eapply (rq_prio _ _ (si_rq _ _ Hs) p). by apply fld_of. }
      destruct (Z.eqb_spec priority (-1)), (quantum =? -1); simpl; try done; unfold queue_nr; lia.
    - unfold r2, retimed. by destruct (priority =? -1), (quantum =? -1).
    - unfold r2, retimed. by destruct (priority =? -1), (quantum =? -1). }
  destruct (kbase_unset k2 p r2 RTS_NO_QUANTUM Hk2 Hp Hr2) as (k'&Hu&Hk'&Hre); [by rewrite Hfl2|done|].
  rewrite (bind_run _ _ _ _ _ Hu). exists k'. split_and!; [done..|]. unfold k2 in Hre. rewrite put_proc_put in Hre.
  eapply resched_same; [..|exact Hre].
  - unfold sched_eq. rewrite <- (put_proc_put p _ (stopped r) k).
    apply erase_put; [by apply link_sched|]. symmetry. by apply unsched_retimed.
  - rewrite !fld_put. apply link_fld with (g := p_rts_flags) in Hl; [|done]. rewrite Hl, fld_put, insert_insert_eq. f_equal.
    apply (f_equal p_rts_flags) in Er1. simpl in Er1. simpl. rewrite Hfl2, Er1. unfold rescheduled, retimed, stopped.
    destruct (Z.eqb_spec (p_rts_flags r) 0) as [E0|_], (priority =? -1), (quantum =? -1); simpl; by rewrite ?E0.
  - simpl. symmetry. exact (f_equal proc_ptr Hl).
Qed.

Lemma view_rescheduled tsc priority quantum r : view (rescheduled tsc priority quantum r) = view r.
Proof.
  unfold view, rescheduled, retimed. destruct (priority =? -1), (quantum =? -1); simpl; by rewrite !has_ldiff_disj by done.
Qed.

Lemma kinv_resched k cq p r r' k' :
  kinv k cq -> procs k !! p = Some r -> view r' = view r -> kbase k' -> resched (put_proc p r' k) k' -> kinv k' cq.
Proof.
  intros [_ Hi] Hr Ev Hk' Hre. split; [done|].
  by rewrite (view_sched _ _ (resched_sched _ _ Hre)), (fld_put_same view p r' r k Hr Ev).
Qed.

(** The process that [e] names has the scheduler [s]. *)
Definition scheduled_by (k : kstate) (e s : Z) : Prop :=
  live_ep (fld view k) e /\ fld p_scheduler k !! target e = Some s.

Lemma do_schedule_run k cq caller e priority quantum cpu :
  kinv k cq -> queue_nr priority -> 1 <= quantum ->
  (scheduled_by k e caller /\ exists r k', do_schedule caller e priority quantum cpu k = Some (OK, k') /\ kinv k' cq /\
     procs k !! target e = Some r /\ resched (put_proc (target e) (rescheduled (tsc_per_ms k) priority quantum r) k) k') \/
  (~ scheduled_by k e caller /\ exists err, err <> OK /\ do_schedule caller e priority quantum cpu k = Some (err, k)).
Proof.
  intros Hki Hq Hqu. unfold do_schedule. pose proof (proj1 Hki) as Hk.
  destruct (isokendpt_run k e Hk) as [[Hl Hrun]|[Hl Hrun]]; rewrite (bind_run _ _ _ _ _ Hrun).
  2:{ right. split; [by intros [? _]|]. by exists EINVAL. }
  destruct (live_slot k e Hl) as (r&Hr&Ht&_&Hf). change (proc_addr (_ENDPOINT_P e)) with (target e).
  rewrite (bind_run _ _ _ _ _ (rd_run p_scheduler _ _ _ Hr)). destruct (Z.eqb_spec caller (p_scheduler r)) as [E|E]; cbn [negb].
  - left. split; [split; [done|]; rewrite E; by apply fld_of|].
    destruct (sched_proc_run k (target e) r priority quantum cpu Hk Ht Hr Hf) as (k'&Hs&Hk'&Hre); [by right|by right|].
    exists r, k'. split_and!; [done| |done..]. by eapply (kinv_resched k cq (target e) r); [..|apply view_rescheduled| |].
  - right. split; [|by exists EPERM]. intros [_ Hs]. rewrite (fld_of p_scheduler _ _ _ Hr) in Hs. congruence.
Qed.

(** The caller takes over the scheduling of a process. *)
Lemma do_schedctl_run k cq caller e :
  kinv k cq ->
  (live_ep (fld view k) e /\ exists r, procs k !! target e = Some r /\
     do_schedctl caller 0 e 0 0 0 k = Some (OK, put_proc (target e) (with_p_scheduler caller r) k) /\
     kinv (put_proc (target e) (with_p_scheduler caller r) k) cq) \/
  (~ live_ep (fld view k) e /\ do_schedctl caller 0 e 0 0 0 k = Some (EINVAL, k)).
Proof.
  intros Hki. unfold do_schedctl. change (negb (Z.ldiff 0 SCHEDCTL_FLAG_KERNEL =? 0)) with false.
  change (Z.land 0 SCHEDCTL_FLAG_KERNEL =? SCHEDCTL_FLAG_KERNEL) with false. cbn iota.
  destruct (isokendpt_run k e (proj1 Hki)) as [[Hl Hrun]|[Hl Hrun]]; rewrite (bind_run _ _ _ _ _ Hrun); [left|by right].
  destruct (live_slot k e Hl) as (r&Hr&Ht&_&Hf). change (proc_addr (_ENDPOINT_P e)) with (target e).
  split; [done|]. exists r. rewrite (bind_run _ _ _ _ _ (upd_run _ _ _ _ Hr)). split_and!; [done..|].
  destruct Hki as [Hk Hi]. split; [by apply (kbase_put k (target e) r)|]. by rewrite (fld_put_same view _ _ r k Hr).
Qed.
