(* ===== verification/KLife.v ===== *)
(** Processes come and go: clear_ipc, clear_endpoint and clear_ipc_refs of
    kernel/system.c, release_fpu of kernel/proc.c, and the kernel calls
    system/do_clear.c, do_fork.c, do_exec.c and do_statectl.c. Names of
    processes, page tables and the contents of the FPU are not part of the state
    of the kernel here, so release_address_space, save_fpu and the copies of
    names and FPU contents have no counterpart. *)

From S2P Require Import Prelude Chain Timers KState KSched KBoot KWait KNotify KBase KFrame KMain KSignal KIpc KClock KIrq.
Local Open Scope Z_scope.

Definition MF_SPROF_SEEN : Z := 0x8000.
Definition MF_STEP : Z := 0x40000.
Definition PFF_VMINHIBIT : Z := 0x01.
Definition SYS_STATE_CLEAR_IPC_REFS : Z := 1.

Section Life.
Context `{Signals}.

(** The process is taken out of the queue it is in, if it is in one. *)
Definition leave_queue (rc target_ptr : Z) : K unit :=
  h ← rd p_caller_q target_ptr;
  nx ← gets (fld p_q_link);
  xpp ← opt (pp_walk (S (size nx)) h nx (Z.eqb rc) PHead);
  x ← opt (pp_read h nx xpp);
  if x =? 0 then mret tt else nxt ← rd p_q_link x; wr_caller_q target_ptr xpp nxt.

Definition clear_ipc (rc : Z) : K unit :=
  fl ← rd p_rts_flags rc;
  (if RTS_ISSET fl RTS_SENDING
   then
     to ← rd p_sendto_e rc;
     target_proc ← okendpt to;
     leave_queue rc (proc_addr target_proc);;
     RTS_UNSET rc RTS_SENDING
   else mret tt);;
  RTS_UNSET rc RTS_RECEIVING.

(** [while ((src_id = has_pending_asend(rc, ANY)) != NULL_PRIV_ID) cancel_async(...)] *)
Fixpoint cancel_all (fuel : nat) (rc : Z) : K unit :=
  match fuel with
  | O => ub
  | S fuel =>
      src_id ← has_pending_asend rc ANY;
      if src_id =? NULL_PRIV_ID then mret tt
      else nr ← rda s_proc_nr src_id; cancel_async (proc_addr nr) rc;; cancel_all fuel rc
  end.

(** One process that may depend on [rc]. *)
Definition clear_ref (rc : Z) (caller_ret : kres) (rp : Z) : K unit :=
  empty ← isemptyp rp;
  if empty : bool then mret tt
  else
    id ← rdp s_id rc;
    updp rp (fun s => with_s_notify_pending (unset_sys_bit (s_notify_pending s) id) s);;
    id ← rdp s_id rc;
    updp rp (fun s => with_s_asyn_pending (unset_sys_bit (s_asyn_pending s) id) s);;
    b ← rd P_BLOCKEDON rp;
    ep ← rd p_endpoint rc;
    if b =? ep then upd rp (with_p_retreg caller_ret);; clear_ipc rp else mret tt.

Definition clear_ipc_refs (rc : Z) (caller_ret : kres) : K unit :=
  cancel_all (S (Z.to_nat NR_SYS_PROCS)) rc;;
  kfor all_slots (clear_ref rc caller_ret).

Definition clear_endpoint (rc : Z) : K unit :=
  empty ← isemptyp rc;
  if empty : bool then ub
  else
    RTS_SET rc RTS_NO_ENDPOINT;;
    sf ← rdp s_flags rc;
    (if has sf SYS_PROC then updp rc (with_s_asynsize 0) else mret tt);;
    clear_ipc rc;;
    clear_ipc_refs rc EDEADSRCDST.

Definition release_fpu (p : Z) : K unit :=
  o ← gets fpu_owner;
  if o =? p then modify (with_fpu_owner 0) else mret tt.

(** ** do_clear.c *)

(** The hooks of the process are released. *)
Fixpoint release_hooks (rc : Z) (slots : list Z) : IS unit :=
  match slots with
  | [] => mret tt
  | i :: slots' =>
      ep ← kern (rd p_endpoint rc);
      h ← get_hook (hook_addr i);
      (if ep =? h_proc_nr_e h
       then rm_irq_handler (hook_addr i);; upd_hook (hook_addr i) (with_h_proc_nr_e NONE)
       else mret tt);;
      release_hooks rc slots'
  end.

Definition free_slot (rc : Z) : K unit :=
  pv ← rd p_priv rc;
  reset_kernel_timer (alarm_timer pv);;
  RTS_SETFLAGS rc RTS_SLOT_FREE;;
  release_fpu rc;;
  upd rc (clear_misc MF_FPU_INITIALIZED);;
  sf ← rdp s_flags rc;
  if has sf SYS_PROC then updp rc (with_s_proc_nr NONE) else mret tt.

Definition do_clear (endpt : Z) : IS kres :=
  ok ← kern (isokendpt endpt);
  match ok with
  | None => mret EINVAL
  | Some exit_p =>
      let rc := proc_addr exit_p in
      empty ← kern (isemptyp rc);
      if empty : bool then mret OK
      else
        release_hooks rc hook_slots;;
        kern (clear_endpoint rc);;
        kern (free_slot rc);;
        mret OK
  end.

(** ** do_fork.c *)

Definition next_generation (gen : Z) : Z := if _ENDPOINT_MAX_GENERATION <=? gen + 1 then 1 else gen + 1.

(** The copy of the parent that becomes the child. *)
Definition fork_copy (slot gen : Z) (r : proc) : proc :=
  clear_misc (Z.lor MF_VIRT_TIMER (Z.lor MF_PROF_TIMER (Z.lor MF_SC_TRACE (Z.lor MF_SPROF_SEEN MF_STEP))))
    (with_p_virt_left 0 (with_p_prof_left 0 (with_p_user_time 0 (with_p_sys_time 0 (with_p_retreg OK
      (with_p_endpoint (_ENDPOINT gen slot) (with_p_nr slot r))))))).

(** The result, and the endpoint and message address in the reply. *)
Definition do_fork (endpt slot flags : Z) : K (kres * option (Z * Z)) :=
  ok ← isokendpt endpt;
  match ok with
  | None => mret (EINVAL, None)
  | Some p_proc =>
      let rpp := proc_addr p_proc in
      let rpc := proc_addr slot in
      pe ← isemptyp rpp;
      ce ← isemptyp rpc;
      if pe || negb ce then mret (EINVAL, None)
      else
        mf ← rd p_misc_flags rpp;
        kassert (negb (has mf MF_DELIVERMSG));;
        fl ← rd p_rts_flags rpp;
        if negb (RTS_ISSET fl RTS_RECEIVING) then mret (EINVAL, None)
        else
          old ← rd p_endpoint rpc;
          k ← get;
          r ← opt (procs k !! rpp);
          upd rpc (fun _ => fork_copy slot (next_generation (_ENDPOINT_G old)) r);;
          RTS_SET rpc RTS_NO_QUANTUM;;
          reset_proc_accounting rpc;;
          upd rpc (fun c => with_p_cpu_time_left 0 (with_p_cycles 0 (with_p_signal_received 0 c)));;
          sf ← rdp s_flags rpp;
          (if has sf SYS_PROC
           then upd rpc (fun c => with_p_priv USER_PRIV_ID (with_p_rts_flags (Z.lor (p_rts_flags c) RTS_NO_PRIV) c))
           else mret tt);;
          ep ← rd p_endpoint rpc;
          va ← rd p_delivermsg_vir rpp;
          (if has flags PFF_VMINHIBIT then RTS_SET rpc RTS_VMINHIBIT else mret tt);;
          RTS_UNSET rpc (Z.lor RTS_SIGNALED (Z.lor RTS_SIG_PENDING RTS_P_STOP));;
          upd rpc (with_p_pending ∅);;
          mret (OK, Some (ep, va))
  end.

(** ** do_exec.c *)

(** What is modelled of the registers that are set: the result and the status
    register. *)
Definition exec_context (ps_str : Z) (r : proc) : proc :=
  set_misc MF_CONTEXT_SET (with_p_retreg OK (with_p_status ps_str r)).

Definition do_exec (endpt ps_str : Z) : K kres :=
  ok ← isokendpt endpt;
  match ok with
  | None => mret EINVAL
  | Some proc_nr =>
      let rp := proc_addr proc_nr in
      mf ← rd p_misc_flags rp;
      (if has mf MF_DELIVERMSG then upd rp (clear_misc MF_DELIVERMSG) else mret tt);;
      upd rp (exec_context ps_str);;
      RTS_UNSET rp RTS_RECEIVING;;
      upd rp (clear_misc MF_FPU_INITIALIZED);;
      release_fpu rp;;
      mret OK
  end.

(** ** do_statectl.c *)

Definition do_statectl (caller request : Z) : K kres :=
  if request =? SYS_STATE_CLEAR_IPC_REFS then clear_ipc_refs caller EDEADSRCDST;; mret OK else mret EINVAL.
End Life.
