(* ===== verification/KLifeOk.v ===== *)
(** What the death of a process does to the tables: nobody waits for it any
    more, its messages and notifications are gone, and the invariants hold. *)

From S2P Require Import Prelude Chain Timers KState KSched KBoot KWait KNotify KBase KFrame KMain KSignal KIpc KSend KAsyn KRecv KClock KLife.
Local Open Scope Z_scope.

(** ** Leaving a queue *)

(** A process that waits for nothing. *)
Definition v_quit (v : ipcv) : ipcv :=
  IpcV (v_nr v) (v_ep v) (v_free v) (v_noep v) (v_deliver v) (v_callerq v) (v_qlink v) None None (v_msg v) (v_sendmsg v).

(** The flag that says that nobody may send to the process any more. *)
Definition v_with_noep (b : bool) (v : ipcv) : ipcv :=
  IpcV (v_nr v) (v_ep v) (v_free v) b (v_deliver v) (v_callerq v) (v_qlink v) (v_out v) (v_in v) (v_msg v) (v_sendmsg v).

Lemma inv_quit m cq p v b :
  ipc_inv m cq -> m !! p = Some v -> v_out v = None -> ipc_inv (<[p := v_with_noep b (v_quit v)]> m) cq.
Proof.
  intros Hi Hv Ho. assert (p <> 0) as Hp0 by (intros ->; by rewrite (i_null _ _ Hi) in Hv).
  eapply inv_put; [done|done| |].
  - split; try done. rewrite Ho. by intros [].
  - intros q Hq. destruct (i_acyc _ _ Hi q Hq) as [l Hl]. eapply (paths_cut (waits m) _ p); [|..|done|exact Hl].
    + intros. by apply waits_put.
    + by rewrite waits_put_eq.
Qed.

(** The walk to the process and the link to it. *)
Lemma leave_queue_run k d rd0 rc l1 l2 r :
  kbase k -> in_table d = true -> procs k !! d = Some rd0 -> procs k !! rc = Some r ->
  chain (links (fld p_q_link k)) (p_caller_q rd0) (l1 ++ rc :: l2) -> (forall x, x ∈ l1 -> in_table x = true) ->
  runs (leave_queue rc d) k (fun _ k' => kbase k' /\
    forall q, fld view k' !! q = v_relink d l1 (p_q_link r) q <$> fld view k !! q).
Proof.
  intros Hk Hd Hrd Hrc Hc Hl1. pose proof (chain_nodup _ _ _ Hc) as Hnd. apply NoDup_app in Hnd as (_ & Hdis & _).
  assert (rc ∉ l1) as Hn1 by (intros Hx; eapply Hdis; [done|left]).
  unfold leave_queue. kstep. kstep. pose proof (pp_walk_spec _ _ (Z.eqb rc) _ Hc) as Hw.
  assert (before (Z.eqb rc) (l1 ++ rc :: l2) = l1) as Hb.
  { clear -Hn1. induction l1 as [|x l1 IH]; simpl; [by rewrite Z.eqb_refl|]. apply not_elem_of_cons in Hn1 as [Hx Hn].
    destruct (Z.eqb_spec rc x); [done|]. by rewrite IH. }
  rewrite Hb in Hw. eapply runs_step; [unfold opt; by rewrite Hw|].
  apply lseg_app_inv in Hc as (y & H1 & H2). destruct (chain_cons_head _ _ _ _ H2) as [<- Hy0].
  eapply runs_step; [unfold opt; by rewrite (pp_read_after _ _ _ _ _ H1 H2)|].
  destruct (Z.eqb_spec rc 0); [done|]. kstep. by apply wr_caller_q_run.
Qed.

Definition v_norecv (v : ipcv) : ipcv :=
  IpcV (v_nr v) (v_ep v) (v_free v) (v_noep v) (v_deliver v) (v_callerq v) (v_qlink v) (v_out v) None (v_msg v) (v_sendmsg v).

Lemma stop_receiving k p r :
  kbase k -> in_table p = true -> procs k !! p = Some r -> has (p_rts_flags r) RTS_SLOT_FREE = false ->
  runs (RTS_UNSET p RTS_RECEIVING) k (fun _ k' => kbase k' /\ fld view k' = <[p := v_norecv (view r)]> (fld view k)).
Proof.
  intros Hk Hp Hr Hf. destruct (kbase_unset k p r RTS_RECEIVING Hk Hp Hr Hf eq_refl) as (k' & E & Hk' & Hre).
  eapply runs_of; [exact E|]. split; [done|]. rewrite (view_sched _ _ (resched_sched _ _ Hre)), fld_put.
  f_equal. unfold view, v_norecv. simpl. by rewrite has_ldiff_same, !has_ldiff_disj.
Qed.

(** What a change of the queues leaves alone. *)
Definition v_core (v : ipcv) :=
  (v_nr v, v_ep v, v_free v, v_noep v, v_deliver v, (v_out v, v_in v), v_msg v, v_sendmsg v).

Definition quit_at (rc q : Z) (v : ipcv) : ipcv := if decide (q = rc) then v_quit v else v.

(** The sending part: the process leaves the queue of its destination. *)
Lemma stop_sending k rc r m0 cq v0 b e :
  kbase k -> in_table rc = true -> procs k !! rc = Some r -> ipc_inv m0 cq -> m0 !! rc = Some v0 ->
  fld view k = <[rc := v_with_noep b v0]> m0 -> v_out v0 = Some e -> v_qlink v0 = 0 ->
  runs (target_proc ← okendpt e; leave_queue rc (proc_addr target_proc);; RTS_UNSET rc RTS_SENDING) k
    (fun _ k' => kbase k' /\ exists m1 cq' v1, ipc_inv m1 cq' /\ m1 !! rc = Some v1 /\ v_core v1 = v_core (v_unsend v0) /\ v_qlink v1 = 0 /\
      fld view k' = <[rc := v_with_noep b v1]> m1 /\ (forall q, q <> rc -> v_core <$> m1 !! q = v_core <$> m0 !! q) /\
      forall d, (length (cq' d) <= length (cq d))%nat).
Proof.
  intros Hk Hrc Hr Hi Hv0 Ev Ho Hq0.
  assert (view r = v_with_noep b v0) as Evr by (apply (view_at k rc); [done|by rewrite Ev, lookup_insert_eq]).
  destruct (i_blk _ _ Hi _ _ Hv0) as (_ & Hfree & Hnk); [left; by eexists|].
  assert (has (p_rts_flags r) RTS_SLOT_FREE = false) as Hfr by (apply (f_equal v_free) in Evr; simpl in Evr; by rewrite Evr).
  destruct (i_send _ _ Hi _ _ _ Hv0 Ho) as [_ Hle0].
  assert (live_ep (fld view k) e) as Hle by (rewrite Ev; by eapply live_put).
  eapply runs_step; [by apply okendpt_run|]. set (d := proc_addr (_ENDPOINT_P e)). change d with (target e) in *.
  destruct (live_slot _ _ Hle) as (rd0 & Hrd & Hd & _).
  assert (rc ∈ cq (target e)) as Hin by (apply (i_member _ _ Hi); [done|]; by exists v0, e).
  apply list_elem_of_split in Hin as (l1 & l2 & El).
  assert (v_qlink <$> fld view k = v_qlink <$> m0) as Elk by (rewrite Ev, fmap_insert; apply insert_id; by rewrite lookup_fmap, Hv0).
  assert (exists vd, m0 !! target e = Some vd /\ v_callerq vd = p_caller_q rd0) as (vd & Hvd & Ecq).
  { pose proof (fld_of view _ _ _ Hrd) as Hx. rewrite Ev in Hx. destruct (decide (rc = target e)) as [E|].
    - rewrite E, lookup_insert_eq in Hx. apply (inj Some) in Hx. exists v0. rewrite <- E. split; [done|]. by apply (f_equal v_callerq) in Hx.
    - rewrite lookup_insert_ne in Hx by done. by exists (view rd0). }
  pose proof (i_queue _ _ Hi _ _ Hvd Hd) as Hch. rewrite <- Elk, qlink_view, Ecq, El in Hch.
  pose proof (chain_nodup _ _ _ Hch) as Hnd. apply NoDup_app in Hnd as (_ & Hdis & _).
  assert (rc ∉ l1) as Hn1 by (intros Hx; eapply Hdis; [done|left]).
  assert (p_q_link r = 0) as Hql by (apply (f_equal v_qlink) in Evr; simpl in Evr; by rewrite Evr).
  eapply runs_seq; [eapply (leave_queue_run k (target e) rd0 rc l1 l2 r); try done|].
  { intros x Hx. assert (x ∈ cq (target e)) as Hxq by (rewrite El; set_solver).
    apply (i_member _ _ Hi) in Hxq as (vx & ex & Hvx & Hex & _); [|done]. eapply i_blk; [done|done|]. left. by eexists. }
  intros [] k1 [Hk1 Ev1]. rewrite Hql in Ev1. destruct (kbase_slot _ _ Hk1 Hrc) as [r1 Hr1].
  assert (view r1 = v_relink (target e) l1 0 rc (view r)) as Er1 by (apply (view_at k1 rc); [done|by rewrite Ev1, (fld_of _ _ _ _ Hr)]).
  eapply runs_mono; [eapply (unset_sending k1 rc r1); [done..|]|].
  { apply (f_equal v_free) in Er1. simpl in Er1. by rewrite Er1. }
  intros [] k2 [Hk2 Ev2]. split; [done|].
  set (m1 := map_imap (fun q v => Some (take_upd rc (target e) (v_qlink v0) l1 q v)) m0).
  assert (Hm1 : forall q, m1 !! q = take_upd rc (target e) (v_qlink v0) l1 q <$> m0 !! q)
    by (intros q; unfold m1; rewrite map_lookup_imap; by destruct (m0 !! q)).
  exists m1, (set_q (target e) (l1 ++ l2) cq), (take_upd rc (target e) (v_qlink v0) l1 rc v0). split_and!.
  - by eapply (inv_take m0 m1 cq rc v0 (target e) l1 l2).
  - by rewrite Hm1, Hv0.
  - unfold v_core, take_upd, v_unsend. simpl. by rewrite decide_True.
  - simpl. by rewrite decide_True.
  - apply map_eq. intros q. rewrite Ev2. destruct (decide (q = rc)) as [->|Hq].
    + rewrite !lookup_insert_eq, Er1, Evr. f_equal. unfold v_with_noep, take_upd, v_unsend, v_relink. simpl.
      rewrite !(decide_True (P := rc = rc)) by done. rewrite (decide_False (P := last l1 = Some rc)) by (intros E%last_elem; done). by rewrite Hq0.
    + rewrite !lookup_insert_ne, Ev1, Ev, lookup_insert_ne, Hm1 by done. destruct (m0 !! q) as [v|]; [|done]. simpl. f_equal.
      unfold take_upd, v_relink. by rewrite !(decide_False (P := q = rc)), Hq0 by done.
  - intros q Hq. rewrite Hm1. destruct (m0 !! q) as [v|]; [|done]. simpl. unfold v_core, take_upd. simpl.
    by rewrite !(decide_False (P := q = rc)) by done.
  - intros d'. unfold set_q. destruct (Z.eqb_spec d' (target e)) as [->|]; [|done]. rewrite El, !length_app. simpl. lia.
Qed.

Lemma with_noep_quit b v : v_norecv (v_with_noep b v) = v_with_noep b (v_norecv v).
Proof. done. Qed.

(** [clear_ipc]: the process waits for nothing. *)
Lemma clear_ipc_run k rc r m0 cq v0 b :
  kbase k -> in_table rc = true -> procs k !! rc = Some r -> has (p_rts_flags r) RTS_SLOT_FREE = false ->
  ipc_inv m0 cq -> m0 !! rc = Some v0 -> fld view k = <[rc := v_with_noep b v0]> m0 -> v_qlink v0 = 0 ->
  runs (clear_ipc rc) k (fun _ k' => kbase k' /\ exists cq', ipc_inv (fld view k') cq' /\
    (forall d, (length (cq' d) <= length (cq d))%nat) /\
    forall q, v_core <$> fld view k' !! q = (fun v => v_core (quit_at rc q v)) <$> fld view k !! q).
Proof.
  intros Hk Hrc Hr Hfr Hi Hv0 Ev Hq0.
  assert (view r = v_with_noep b v0) as Evr by (apply (view_at k rc); [done|by rewrite Ev, lookup_insert_eq]).
  unfold clear_ipc. kstep. rewrite isset_has by tauto.
  eapply (runs_seq _ _ _ _ (fun _ k1 => kbase k1 /\ exists m1 cq' v1, ipc_inv m1 cq' /\ m1 !! rc = Some v1 /\
    v_core v1 = v_core (v_unsend v0) /\ v_qlink v1 = 0 /\ fld view k1 = <[rc := v_with_noep b v1]> m1 /\
    (forall q, q <> rc -> v_core <$> m1 !! q = v_core <$> m0 !! q) /\ forall d, (length (cq' d) <= length (cq d))%nat)).
  { pose proof (f_equal v_out Evr) as Eo. simpl in Eo. destruct (has (p_rts_flags r) RTS_SENDING).
    - kstep. by apply (stop_sending k rc r m0 cq v0 b (p_sendto_e r)).
    - kstep. split; [done|]. exists m0, cq, v0. split_and!; try done. unfold v_core, v_unsend. simpl. by rewrite <- Eo. }
  intros [] k1 (Hk1 & m1 & cq' & v1 & Hi1 & Hv1 & Ec & Hq1 & Ev1 & Eo1 & Hlen). destruct (kbase_slot _ _ Hk1 Hrc) as [r1 Hr1].
  assert (view r1 = v_with_noep b v1) as Er1 by (apply (view_at k1 rc); [done|by rewrite Ev1, lookup_insert_eq]).
  assert (has (p_rts_flags r1) RTS_SLOT_FREE = false) as Hfr1.
  { transitivity (v_free (view r1)); [done|]. rewrite Er1. simpl. injection Ec as _ _ -> _. apply (f_equal v_free) in Evr. simpl in Evr. congruence. }
  eapply runs_mono; [eapply (stop_receiving k1 rc r1); done|]. intros [] k2 [Hk2 Ev2]. split; [done|]. exists cq'.
  assert (v_out v1 = None) as Ho1 by (injection Ec as ? ? ? ? ? Eo ? ? ?; done).
  rewrite Er1, with_noep_quit, Ev1, insert_insert_eq in Ev2.
  assert (v_norecv v1 = v_quit v1) as En by (unfold v_norecv, v_quit; by rewrite Ho1). rewrite En in Ev2.
  split_and!; [rewrite Ev2; by apply inv_quit|done|]. intros q. rewrite Ev2, Ev. unfold quit_at. destruct (decide (q = rc)) as [->|Hq].
  - rewrite !lookup_insert_eq. simpl. f_equal. unfold v_core, v_quit, v_with_noep. simpl. unfold v_core, v_unsend in Ec. simpl in Ec. congruence.
  - rewrite !lookup_insert_ne by done. rewrite Eo1 by done. by destruct (m0 !! q).
Qed.

(** ** Asynchronous messages to the process *)

Section Async.
Context `{SignalLaws}.

Lemma keeps_cancel_loop n : forall sep dep t i dn nt, keeps (cancel_loop n sep dep t i dn nt).
Proof.
  induction n as [|n IH]; intros; cbn [cancel_loop]; [apply keeps_ret|].
  apply keeps_bind; [apply keeps_A_RETR|intros [x|]]; [|apply keeps_ret]. cbv zeta.
  destruct (_ || _); [apply IH|]. destruct (negb _); [apply IH|]. apply keeps_bind; [apply keeps_A_INSRT|intros []]; [apply IH|apply keeps_ret].
Qed.

Lemma cancel_loop_run n : forall k sep dep t i dn nt,
  kbase k -> runs (cancel_loop n sep dep t i dn nt) k (fun _ k' => kbase k' /\ procs k' = procs k).
Proof.
  induction n as [|n IH]; intros k sep dep t i dn nt Hk; cbn [cancel_loop]; [by kstep|].
  eapply runs_step; [apply A_RETR_run|]. destruct (fst <$> utab k !! (sep, t + i * sizeof_asynmsg)) as [x|]; [|by kstep]. cbv zeta.
  destruct (_ || _); [by apply IH|]. destruct (negb _); [by apply IH|].
  eapply runs_seq; [by apply A_INSRT_any|]. intros b k1 [Hk1 Ep1]. rewrite <- Ep1. destruct b; [by apply IH|by kstep].
Qed.

Lemma respects_A_RETR R `{!PrivFrame R} ep t i : respects R (A_RETR ep t i).
Proof. unfold A_RETR. respects. Qed.

Lemma respects_A_INSRT R `{!PrivFrame R} ep t i x : respects R (A_INSRT ep t i x).
Proof. unfold A_INSRT. respects. Qed.

Lemma respects_cancel_loop R `{!PrivFrame R} n : forall sep dep t i dn nt, respects R (cancel_loop n sep dep t i dn nt).
Proof.
  induction n as [|n IH]; intros; cbn [cancel_loop]; [by apply respects_ret|].
  apply respects_bind; [done|by apply respects_A_RETR|intros [x|]]; [|by apply respects_ret]. cbv zeta.
  destruct (_ || _); [apply IH|]. destruct (negb _); [apply IH|].
  apply respects_bind; [done|by apply respects_A_INSRT|intros []]; [apply IH|by apply respects_ret].
Qed.

(** The bits of pending asynchronous messages of one process. *)
Definition pending_asyn (k : kstate) (i : Z) : option sys_map_t := s_asyn_pending <$> privs k !! i.

Lemma pending_same k k' i : same_field s_asyn_pending k k' -> pending_asyn k' i = pending_asyn k i.
Proof. intros E. unfold pending_asyn. rewrite <- !lookup_fmap. unfold same_field in E. by rewrite E. Qed.

(** Who waits for a message from [e] still does. *)
Definition awaits (e : Z) (m m' : gmap Z ipcv) : Prop := forall q v, m !! q = Some v -> v_in v = Some e -> m' !! q = Some v.

#[export] Instance awaits_pre e : PreOrder (awaits e).
Proof. split; [by intros m q v|]. intros m1 m2 m3 H1 H2 q v Hq Hv. apply H2; [by apply H1|done]. Qed.

(** Notifications of the kernel task for asynchronous messages are not from [e]. *)
Definition not_asyncm (e : Z) (k : kstate) : Prop := e <> ANY /\ forall r, procs k !! proc_addr ASYNCM = Some r -> p_endpoint r <> e.

Lemma not_asyncm_ids e k k' : ids k' = ids k -> not_asyncm e k -> not_asyncm e k'.
Proof.
  intros Hi [Ha Hn]. split; [done|]. intros r' Hr'. symmetry in Hi. destruct (ids_slot _ _ _ _ Hi Hr') as (r & Hr & E).
  injection E as _ _ E _. rewrite <- E. by apply Hn.
Qed.

Lemma notify_awaits (b : bool) k dst e :
  kbase k -> recv_ok (fld view k) -> not_asyncm e k ->
  runs (if b then mini_notify (proc_addr ASYNCM) dst;; mret tt else mret tt) k (fun _ k' => awaits e (fld view k) (fld view k')).
Proof.
  intros Hk Hrok [Ha Hn]. destruct b; [|by kstep]. destruct (isokendpt_run k dst Hk) as [[Hl _]|[Hl E]].
  - eapply runs_seq; [by apply mini_notify_effect; [|apply asyncm_notifies|..]|]. intros res k' (_ & _ & Hno). kstep. destruct Hno as [r d s Hr Hd _ Hw Ev _|r d s _ _ _ Ep _].
    + rewrite Ev. intros q v Hq Hv. rewrite lookup_insert_ne; [done|]. intros <-.
      rewrite (fld_of _ _ _ _ Hd) in Hq. injection Hq as <-. apply Hn in Hr. revert Hw. unfold v_willreceive. rewrite Hv.
      destruct (v_out (view d)); [done|]. intros [?%Z.eqb_eq|?%Z.eqb_eq]%orb_true_iff; congruence.
    + unfold fld. by rewrite Ep.
  - apply runs_bind. unfold mini_notify. eapply runs_step; [exact E|]. cbv iota. by kstep; kstep.
Qed.

(** What the scan of the table and what follows does. *)
Lemma cancel_tail_run e k s sep dep t n :
  kbase k -> recv_ok (fld view k) -> live k s -> not_asyncm e k ->
  runs (out ← cancel_loop (Z.to_nat n) sep dep t 0 true false;
        match out with
        | None => mret OK
        | Some (done, do_notify) =>
            (if do_notify : bool then mini_notify (proc_addr ASYNCM) sep;; mret tt else mret tt);;
            (if done : bool then mret tt else updp s (fun p => with_s_asynsize n (with_s_asyntab t p)));;
            mret OK
        end) k (fun _ k' => (kbase k' /\ ids k' = ids k /\ wakes (fld view k) (fld view k') /\ awaits e (fld view k) (fld view k')) /\ same_field s_asyn_pending k k').
Proof.
  intros Hk Hrok Hs Hne. apply runs_respects.
  - apply respects_bind; [exact _|by apply respects_cancel_loop; exact _|intros [[dn nt]|]]; [|by apply respects_ret; exact _].
    respects; [by apply same_field_notify|by apply same_field_updp].
  - eapply runs_seq; [apply runs_keeps; [apply keeps_cancel_loop|by apply cancel_loop_run]|]. intros out k1 [[Hk1 Ep1] Hi1].
    assert (fld view k1 = fld view k) as Ev1 by (unfold fld; by rewrite Ep1).
    destruct out as [[dn nt]|]; [|kstep; by rewrite Ev1].
    eapply runs_seq; [apply runs_conj; [apply notify_owner_run|apply (notify_awaits _ _ _ e)]; [done|by rewrite Ev1|done|by rewrite Ev1|by eapply not_asyncm_ids]|].
    intros [] k2 [(Hk2 & Hw2 & Hi2) Ha2]. rewrite Ev1 in Hw2, Ha2.
    assert (live k2 s) as Hs2 by (apply (live_ids k); [congruence|done]).
    destruct dn; [kstep; kstep; split_and!; [done|congruence|done|done]|].
    eapply runs_seq; [apply runs_keeps; [by apply keeps_updp|by apply set_table_run]|]. intros [] k3 [[Hk3 Ep3] Hi3]. kstep.
    assert (fld view k3 = fld view k2) as -> by (unfold fld; by rewrite Ep3). split_and!; [done|congruence|done|done].
Qed.

(** One step of the loop: the bit of the sender is cleared. *)
Lemma cancel_async_run e k d rd0 sd id :
  kbase k -> recv_ok (fld view k) -> not_asyncm e k -> live k d -> procs k !! d = Some rd0 -> privs k !! p_priv rd0 = Some sd ->
  priv_nr id -> get_sys_bit (s_asyn_pending sd) id = true ->
  runs (nr ← rda s_proc_nr id; cancel_async (proc_addr nr) d) k (fun _ k' => kbase k' /\ ids k' = ids k /\
    wakes (fld view k) (fld view k') /\ awaits e (fld view k) (fld view k') /\ pending_asyn k' (p_priv rd0) = Some (unset_sys_bit (s_asyn_pending sd) id)).
Proof.
  intros Hk Hrok Hne Hd Hrd Hsd Hid Hb.
  destruct (pi_asyn _ _ (kb_priv _ Hk) _ _ _ (live_owned _ _ _ Hd Hrd) Hsd Hid Hb) as (ss & ds & Hss & Hsys & Hok & Hds & Eds & Enr & Hf).
  apply fld_Some in Hds as (rs & Hrs & <-). simpl in Eds, Enr, Hf. kstep. set (src := proc_addr (s_proc_nr ss)) in *.
  assert (live k src) as Hls by (eapply live_of; [by apply nr_table|done|done]).
  rewrite <- Eds in Hss. destruct (kbase_priv _ _ _ Hk Hls Hrs) as (_ & ss' & Hss' & Eid). rewrite Hss in Hss'. injection Hss' as <-.
  unfold cancel_async. kstep. rewrite Hsys. cbn [negb]. kstep. kstep. kstep. rewrite Eid, Eds.
  eapply runs_seq; [apply (runs_respects (same_field s_asyn_pending)); [by apply same_field_updp|apply runs_keeps; [by apply keeps_updp|by apply set_table_run]]|].
  intros [] k1 [[[Hk1 Ep1] Hi1] Hsa1].
  assert (fld view k1 = fld view k) as Ev1 by (unfold fld; by rewrite Ep1).
  destruct (same_field_lookup _ _ _ _ _ Hsa1 Hsd) as (sd1 & Hsd1 & Esd1).
  assert (live k1 d) as Hd1 by (by eapply live_views).
  set (k2 := put_priv (p_priv rd0) (with_s_asyn_pending (unset_sys_bit (s_asyn_pending sd1) id) sd1) k1).
  eapply (runs_seq _ _ _ _ (fun _ k' => k' = k2 /\ kbase k' /\ ids k' = ids k)).
  { eapply runs_mono; [eapply (runs_conj _ _ _ (fun _ k' => k' = k2))|].
    - apply runs_keeps; [by apply keeps_updp|by apply unset_asyn_run].
    - eapply runs_updp; [by rewrite Ep1|done|done].
    - intros [] k' [[[Hk' _] Hid'] ->]. split_and!; [done|done|congruence]. }
  intros [] k2' (-> & Hk2 & Hi2). assert (fld view k2 = fld view k) as Ev2 by (rewrite <- Ev1; done).
  assert (pending_asyn k2 (p_priv rd0) = Some (unset_sys_bit (s_asyn_pending sd) id)) as Hp2
    by (unfold pending_asyn; simpl; rewrite lookup_insert_eq; simpl; by rewrite Esd1).
  destruct (s_asynsize ss =? 0); [kstep; by rewrite Ev2|].
  assert (Hrd2 : procs k2 !! d = Some rd0) by (simpl; by rewrite Ep1). assert (Hrs2 : procs k2 !! src = Some rs) by (simpl; by rewrite Ep1).
  kstep. destruct (pi_nr _ _ (kb_priv _ Hk2) d (pid rd0) (fld_of _ _ _ _ Hrd2) (proj1 Hd)) as [Edn _]. simpl in Edn.
  destruct (may_send_to_run k2 src (p_nr rd0) Hk2) as (b & Eb & _); [by eapply live_views|rewrite <- Edn; by eapply live_views|].
  eapply runs_step; [exact Eb|]. destruct b; cbn [negb]; [|kstep; by rewrite Ev2]. kstep. kstep.
  eapply runs_mono; [apply (cancel_tail_run e); [done|by rewrite Ev2|by eapply live_views|by eapply not_asyncm_ids]|].
  intros res k3 [(Hk3 & Hi3 & Hw3 & Ha3) Hsa3]. rewrite Ev2 in Hw3, Ha3. split_and!; [done|congruence|done|done|]. by rewrite (pending_same _ _ _ Hsa3).
Qed.

(** How many senders have asynchronous messages for the process. *)
Definition asyn_count (m : sys_map_t) : nat := length (filter (fun j => get_sys_bit m j = true) priv_slots).

Lemma asyn_count_unset m id : priv_nr id -> get_sys_bit m id = true -> (asyn_count (unset_sys_bit m id) < asyn_count m)%nat.
Proof.
  intros Hid Hb. unfold asyn_count. assert (forall j, j ∈ priv_slots <-> priv_nr j) as Hsl.
  { intros j. unfold priv_slots. rewrite elem_of_seqZ. unfold priv_nr. lia. }
  assert (forall j, priv_nr j -> get_sys_bit (unset_sys_bit m id) j = get_sys_bit m j && negb (j =? id)) as He.
  { intros j Hj. apply get_unset_sys_bit; unfold priv_nr, NR_SYS_PROCS in *; lia. }
  cut (length (id :: filter (fun j => get_sys_bit (unset_sys_bit m id) j = true) priv_slots) <=
    length (filter (fun j => get_sys_bit m j = true) priv_slots))%nat; [simpl; lia|].
  apply submseteq_length, NoDup_submseteq.
  - apply NoDup_cons. split; [|apply NoDup_filter, NoDup_seqZ]. rewrite list_elem_of_filter. intros [E _].
    rewrite He, Z.eqb_refl, andb_false_r in E by done. done.
  - intros j [->|[E Hj]%list_elem_of_filter]%elem_of_cons; apply list_elem_of_filter; [by rewrite Hsl|]. split; [|done].
    rewrite He in E by (by apply Hsl). by apply andb_true_iff in E as [? _].
Qed.

Lemma cancel_all_run e fuel : forall k d rd0 sd,
  kbase k -> recv_ok (fld view k) -> not_asyncm e k -> live k d -> procs k !! d = Some rd0 -> privs k !! p_priv rd0 = Some sd ->
  (asyn_count (s_asyn_pending sd) < fuel)%nat ->
  runs (cancel_all fuel d) k (fun _ k' => kbase k' /\ ids k' = ids k /\ wakes (fld view k) (fld view k') /\
    awaits e (fld view k) (fld view k')).
Proof.
  induction fuel as [|fuel IH]; intros k d rd0 sd Hk Hrok Hne Hd Hrd Hsd Hf; [lia|]. cbn [cancel_all].
  apply runs_bind. unfold has_pending_asend. kstep.
  destruct (kbase_priv _ _ _ Hk Hd Hrd) as (Hi & _). destruct (pi_words _ _ (kb_priv _ Hk) _ _ Hi Hsd) as [_ Hw].
  destruct (has_pending_run k (s_asyn_pending sd) ANY ANY Hk Hw (SourceAny k)) as (id & E & Hid).
  eapply runs_of; [exact E|]. destruct Hid as [[-> _]|(Hid & Hb & _)]; [rewrite Z.eqb_refl; by kstep|].
  destruct (Z.eqb_spec id NULL_PRIV_ID) as [->|_]; [by kstep|]. apply runs_assoc.
  eapply runs_seq; [by eapply (cancel_async_run e)|]. intros res k1 (Hk1 & Hi1 & Hw1 & Ha1 & Hp1).
  assert (live k1 d) as Hd1 by (by eapply live_ids). destruct (ids_slot _ _ _ _ Hi1 Hrd) as (rd1 & Hrd1 & Epid).
  assert (p_priv rd1 = p_priv rd0) as Epv by (by injection Epid). unfold pending_asyn in Hp1.
  destruct (privs k1 !! p_priv rd0) as [sd1|] eqn:Hsd1; [|done]. injection Hp1 as Hp1.
  eapply runs_mono; [eapply (IH k1 d rd1 sd1); [done|by eapply wakes_recv_ok|by eapply not_asyncm_ids|done|done|by rewrite Epv|]|].
  - rewrite Hp1. pose proof (asyn_count_unset _ _ Hid Hb). lia.
  - intros [] k2 (Hk2 & Hi2 & Hw2 & Ha2). split_and!; [done|congruence|by transitivity (fld view k1)..].
Qed.

(** 64 rounds are enough: there are so many privilege structures. *)
Lemma asyn_count_bound m : (asyn_count m < S (Z.to_nat NR_SYS_PROCS))%nat.
Proof. unfold asyn_count. pose proof (length_filter (fun j => get_sys_bit m j = true) priv_slots) as Hle. unfold priv_slots in *. rewrite length_seqZ in Hle. lia. Qed.
End Async.
