(* ===== verification/KLifeSweep.v ===== *)
(** The sweep over the process table when an endpoint goes away: whoever waits
    for it is woken with an error, and nothing of it is pending any more. *)

From S2P Require Import Prelude Chain Timers KState KSched KBoot KWait KNotify KBase KFrame KMain KSignal KIpc KSend KAsyn KRecv KClock KLife KLifeOk.
Local Open Scope Z_scope.

(** ** Return values *)

Definition keepr {A} (m : K A) : Prop := forall k a k', m k = Some (a, k') -> fld p_retreg k' = fld p_retreg k.

Lemma runs_keepr {A} (m : K A) k (Q : A -> kstate -> Prop) :
  keepr m -> runs m k Q -> runs m k (fun a k' => Q a k' /\ fld p_retreg k' = fld p_retreg k).
Proof. intros Hm. unfold runs. destruct (m k) as [[a k']|] eqn:E; [|done]. intros HQ. by rewrite (Hm _ _ _ E). Qed.

Lemma keepr_bind {A B} (m : K A) (f : A -> K B) : keepr m -> (forall a, keepr (f a)) -> keepr (m ≫= f).
Proof. intros Hm Hf k b k' (a & k1 & E1 & E2)%bind_Some. by rewrite (Hf _ _ _ _ E2), (Hm _ _ _ E1). Qed.

Lemma keepr_same {A} (m : K A) : (forall k a k', m k = Some (a, k') -> procs k' = procs k) -> keepr m.
Proof. intros Hm k a k' E%Hm. unfold fld. by rewrite E. Qed.

Lemma keepr_ret {A} (a : A) : keepr (mret a).
Proof. apply keepr_same. by intros ? ? ? [= _ ->]. Qed.

Lemma keepr_ub {A} : keepr (ub : K A).
Proof. done. Qed.

Lemma keepr_get : keepr get.
Proof. apply keepr_same. by intros ? ? ? [= _ ->]. Qed.

Lemma keepr_gets {A} (f : kstate -> A) : keepr (gets f).
Proof. apply keepr_same. by intros ? ? ? [= _ ->]. Qed.

Lemma keepr_opt {A} (o : option A) : keepr (opt o).
Proof. apply keepr_same. intros k a k'. destruct o; [|done]. by intros [= _ ->]. Qed.

Lemma keepr_modify f : (forall k, procs (f k) = procs k) -> keepr (modify f).
Proof. intros Hf. apply keepr_same. intros k [] k' [= <-]. apply Hf. Qed.

Lemma keepr_upd p f : (forall r, p_retreg (f r) = p_retreg r) -> keepr (upd p f).
Proof.
  intros Hf k [] k'. unfold upd. mrun. destruct (procs k !! p) as [r|] eqn:Hr; [|done]. intros [= <-].
  exact (fld_put_same p_retreg p (f r) r k Hr (Hf r)).
Qed.

Create HintDb keepr.
#[export] Hint Resolve keepr_ret keepr_ub keepr_get keepr_gets keepr_opt : keepr.

Ltac keepr :=
  repeat match goal with
  | |- keepr (_ ≫= _) => apply keepr_bind; [|intros ?]
  | |- keepr (upd _ _) => apply keepr_upd; done
  | |- keepr (modify _) => apply keepr_modify; done
  | |- keepr (match ?x with _ => _ end) => destruct x
  | |- keepr _ => solve [auto with keepr]
  end.

Lemma keepr_rd {A} (g : proc -> A) p : keepr (rd g p).
Proof. unfold rd. keepr. Qed.

Lemma keepr_rdp {A} (g : priv -> A) p : keepr (rdp g p).
Proof. unfold rdp, rda, rd. keepr. Qed.

#[export] Hint Resolve keepr_rd keepr_rdp : keepr.

Lemma keepr_RTS_UNSET p f : keepr (RTS_UNSET p f).
Proof.
  unfold RTS_UNSET, enqueue, add_tail, preempt_current, note_enter_queue, rd_head, rd_tail, wr_head, wr_tail, read_tsc_64,
    RTS_SET, dequeue, unlink, wr_ready, rd_head, rd_tail, wr_head, wr_tail, read_tsc_64, kassert. keepr.
Qed.

#[export] Hint Resolve keepr_RTS_UNSET : keepr.

Lemma keepr_clear_ipc p : keepr (clear_ipc p).
Proof. unfold clear_ipc, leave_queue, wr_caller_q, okendpt, isokendpt_f, endpoint_ok, isemptyp. keepr. Qed.

(** ** What the sweep does *)

(** [k'] is [k] after some processes that wait for [e] have been woken with the
    result [ret]. *)
Record swept (e : Z) (ret : kres) (k k' : kstate) : Prop := {
  sw_ids : ids k' = ids k;
  sw_procs : forall q r, procs k !! q = Some r -> exists r', procs k' !! q = Some r' /\
    ((v_core (view r') = v_core (view r) /\ p_retreg r' = p_retreg r) \/
     (v_blockedon (view r) = e /\ v_core (view r') = v_core (v_quit (view r)) /\ p_retreg r' = ret));
  sw_bits : forall i s, privs k !! i = Some s -> exists s', privs k' !! i = Some s' /\ forall j, priv_nr j ->
    (get_sys_bit (s_notify_pending s') j = true -> get_sys_bit (s_notify_pending s) j = true) /\
    (get_sys_bit (s_asyn_pending s') j = true -> get_sys_bit (s_asyn_pending s) j = true);
}.

Lemma core_blockedon v v' : v_core v' = v_core v -> v_blockedon v' = v_blockedon v.
Proof. unfold v_core, v_blockedon. by intros [= _ _ _ _ _ -> -> _ _]. Qed.

Lemma core_free v v' : v_core v' = v_core v -> v_free v' = v_free v.
Proof. unfold v_core. by intros [= _ _ -> _]. Qed.

Lemma core_quit v v' : v_core v' = v_core v -> v_core (v_quit v') = v_core (v_quit v).
Proof. unfold v_core, v_quit. simpl. congruence. Qed.

Lemma core_quit_quit v v' : v_core v' = v_core (v_quit v) -> v_core (v_quit v') = v_core (v_quit v).
Proof. intros E%core_quit. exact E. Qed.

#[export] Instance swept_pre e ret : PreOrder (swept e ret).
Proof.
  split.
  - intros k. split; [done| |]; intros q r Hr; exists r; split; auto.
  - intros k1 k2 k3 [I1 P1 B1] [I2 P2 B2]. split; [congruence| |].
    + intros q r (r2 & Hr2 & H12)%P1. destruct (P2 _ _ Hr2) as (r3 & Hr3 & H23). exists r3. split; [done|].
      destruct H12 as [[E1 R1]|(K1 & E1 & R1)], H23 as [[E2 R2]|(K2 & E2 & R2)].
      * left. split; congruence.
      * right. rewrite <- (core_blockedon _ _ E1), <- (core_quit _ _ E1). done.
      * right. split_and!; congruence.
      * right. rewrite <- (core_quit_quit _ _ E1). done.
    + intros i s (s2 & Hs2 & H12)%B1. destruct (B2 _ _ Hs2) as (s3 & Hs3 & H23). exists s3. split; [done|].
      intros j Hj. destruct (H12 j Hj), (H23 j Hj). auto.
Qed.

(** Nothing of the process with endpoint [e] and privileges [id] is left at [q]. *)
Definition unrelated (e id : Z) (k : kstate) (q : Z) : Prop := forall r, live k q -> procs k !! q = Some r ->
  v_blockedon (view r) <> e /\ forall s, privs k !! p_priv r = Some s ->
    get_sys_bit (s_notify_pending s) id = false /\ get_sys_bit (s_asyn_pending s) id = false.

Lemma unrelated_swept e id ret k k' q :
  e <> NONE -> priv_nr id -> swept e ret k k' -> kbase k -> unrelated e id k q -> unrelated e id k' q.
Proof.
  intros He Hid Hsw Hk Hu r' Hl' Hr'. assert (live k q) as Hl by (eapply live_ids; [symmetry; apply Hsw|done]).
  destruct (live_slot_of _ _ Hl) as [r Hr]. destruct (Hu r Hl Hr) as [Hb Hbits].
  destruct (sw_procs _ _ _ _ Hsw _ _ Hr) as (r1 & Hr1 & Hc). rewrite Hr' in Hr1. injection Hr1 as <-. split.
  { destruct Hc as [[E _]|(E & _)]; [by rewrite (core_blockedon _ _ E)|done]. }
  intros s' Hs'. destruct (kbase_priv _ _ _ Hk Hl Hr) as (_ & s & Hs & _).
  destruct (ids_slot _ _ _ _ (sw_ids _ _ _ _ Hsw) Hr) as (r2 & Hr2 & Ep). rewrite Hr' in Hr2. injection Hr2 as <-.
  assert (p_priv r' = p_priv r) as E by (by injection Ep). rewrite E in Hs'.
  destruct (sw_bits _ _ _ _ Hsw _ _ Hs) as (s1 & Hs1 & Hj). rewrite Hs' in Hs1. injection Hs1 as <-.
  destruct (Hj id Hid) as [Hn Ha], (Hbits s Hs) as [Bn Ba].
  split; apply not_true_is_false; [intros E1%Hn; congruence|intros E1%Ha; congruence].
Qed.

Lemma swept_put_priv e ret k i s s' :
  privs k !! i = Some s -> s_flags s' = s_flags s -> (forall j, priv_nr j ->
    (get_sys_bit (s_notify_pending s') j = true -> get_sys_bit (s_notify_pending s) j = true) /\
    (get_sys_bit (s_asyn_pending s') j = true -> get_sys_bit (s_asyn_pending s) j = true)) ->
  swept e ret k (put_priv i s' k).
Proof.
  intros Hs Hf Hj. split.
  - unfold ids. simpl. f_equal. rewrite fmap_insert, Hf. apply insert_id. by rewrite lookup_fmap, Hs.
  - intros q r Hr. exists r. auto.
  - intros i' x Hx. simpl. destruct (decide (i' = i)) as [->|Hi].
    + rewrite lookup_insert_eq. rewrite Hs in Hx. injection Hx as <-. by eexists.
    + rewrite lookup_insert_ne by done. exists x. auto.
Qed.

Lemma unset_le m id j : priv_nr id -> priv_nr j -> get_sys_bit (unset_sys_bit m id) j = true -> get_sys_bit m j = true.
Proof. intros Hi Hj. rewrite get_unset_sys_bit by (unfold priv_nr, NR_SYS_PROCS in *; lia). by intros [? _]%andb_true_iff. Qed.

Lemma unset_gone m id : priv_nr id -> get_sys_bit (unset_sys_bit m id) id = false.
Proof. intros Hi. rewrite get_unset_sys_bit by (unfold priv_nr, NR_SYS_PROCS in *; lia). by rewrite Z.eqb_refl, andb_false_r. Qed.

(** The notification and the asynchronous messages of the process are gone. *)
Lemma clear_bits_run {A} (m : K A) e ret k rc r0 q r Q :
  kbase k -> live k rc -> procs k !! rc = Some r0 -> live k q -> procs k !! q = Some r ->
  (forall k2, kbase k2 -> procs k2 = procs k -> swept e ret k k2 ->
    (forall s, privs k2 !! p_priv r = Some s ->
      get_sys_bit (s_notify_pending s) (p_priv r0) = false /\ get_sys_bit (s_asyn_pending s) (p_priv r0) = false) ->
    runs m k2 Q) ->
  runs (id ← rdp s_id rc;
    updp q (fun s => with_s_notify_pending (unset_sys_bit (s_notify_pending s) id) s);;
    id ← rdp s_id rc;
    updp q (fun s => with_s_asyn_pending (unset_sys_bit (s_asyn_pending s) id) s);; m) k Q.
Proof.
  intros Hk Hrc Hr0 Hq Hr HQ. destruct (kbase_priv _ _ _ Hk Hrc Hr0) as (Hid & s0 & Hs0 & E0).
  destruct (kbase_priv _ _ _ Hk Hq Hr) as (_ & s & Hs & _). kstep. rewrite E0.
  set (s1 := with_s_notify_pending (unset_sys_bit (s_notify_pending s) (p_priv r0)) s).
  set (k1 := put_priv (p_priv r) s1 k).
  eapply (runs_seq _ _ _ _ (fun _ k' => kbase k' /\ k' = k1)).
  { apply runs_conj; [|by kstep]. eapply runs_mono; [by apply (unset_notify_run k q)|]. by intros [] ? [? _]. }
  intros [] k1' [Hk1 ->]. assert (live k1 rc) as Hrc1 by (by apply (live_procs k)).
  destruct (kbase_priv _ _ _ Hk1 Hrc1 Hr0) as (_ & s0' & Hs0' & E0').
  assert (procs k1 !! rc = Some r0) as Hr1 by done. kstep. rewrite E0'.
  assert (Hs1 : privs k1 !! p_priv r = Some s1) by (simpl; apply lookup_insert_eq).
  set (s2 := with_s_asyn_pending (unset_sys_bit (s_asyn_pending s1) (p_priv r0)) s1).
  set (k2 := put_priv (p_priv r) s2 k1).
  eapply (runs_seq _ _ _ _ (fun _ k' => kbase k' /\ k' = k2)).
  { apply runs_conj; [|assert (procs k1 !! q = Some r) by done; by kstep].
    eapply runs_mono; [apply (unset_asyn_run k1 q); [done|by apply (live_procs k)|done]|]. by intros [] ? [? _]. }
  intros [] k2' [Hk2 ->]. apply HQ; [done|done| |].
  - transitivity k1; eapply swept_put_priv; [exact Hs|done| |exact Hs1|done|]; intros j Hj; simpl; split; try done; by apply unset_le.
  - simpl. intros x Hx. rewrite lookup_insert_eq in Hx. injection Hx as <-. simpl. split; by apply unset_gone.
Qed.

(** ** Frames of [clear_ipc] *)

Lemma keeps_clear_ipc p : keeps (clear_ipc p).
Proof.
  unfold clear_ipc, leave_queue, wr_caller_q, okendpt, isokendpt_f, endpoint_ok, isemptyp.
  keeps; by apply keeps_RTS_UNSET.
Qed.

Lemma respects_clear_ipc R `{!PrivFrame R} p : respects R (clear_ipc p).
Proof. unfold clear_ipc, leave_queue, wr_caller_q, okendpt, isokendpt_f, endpoint_ok, isemptyp. respects. Qed.

Lemma keepc_clear_ipc p : keepc (clear_ipc p).
Proof. unfold clear_ipc, leave_queue, wr_caller_q, okendpt, isokendpt_f, endpoint_ok, isemptyp. keepc. Qed.

Lemma with_noep_same v : v_with_noep (v_noep v) v = v.
Proof. by destruct v. Qed.

(** A process that waits for [e] is woken. *)
Lemma wake_run k cq q r e ret :
  kbase k -> ipc_inv (fld view k) cq -> live k q -> procs k !! q = Some r -> v_blockedon (view r) = e -> v_qlink (view r) = 0 ->
  runs (upd q (with_p_retreg ret);; clear_ipc q) k (fun _ k' => kbase k' /\ swept e ret k k' /\ privs k' = privs k /\
    (forall r', procs k' !! q = Some r' -> v_blockedon (view r') = NONE) /\
    exists cq', ipc_inv (fld view k') cq' /\ forall d, (length (cq' d) <= length (cq d))%nat).
Proof.
  intros Hk Hi Hl Hr Hb Hq. pose proof (live_flag _ _ _ Hl Hr) as Hf.
  set (r1 := with_p_retreg ret r). set (k1 := put_proc q r1 k).
  eapply (runs_seq _ _ _ _ (fun _ k' => (kbase k' /\ fld view k' = fld view k) /\ k' = k1)).
  { apply runs_conj; [by eapply quiet_upd; [done|apply Hl|..]|by kstep]. }
  intros [] k1' [[Hk1 Ev1] ->]. assert (Hr1 : procs k1 !! q = Some r1) by (simpl; apply lookup_insert_eq).
  eapply runs_mono.
  { apply (runs_privs); [by apply respects_clear_ipc; exact _|]. apply runs_keepr; [apply keepr_clear_ipc|].
    apply runs_keeps; [apply keeps_clear_ipc|].
    eapply (clear_ipc_run k1 q r1 (fld view k) cq (view r1) (v_noep (view r1)));
      [done|apply Hl|done|done|done|exact (fld_of view _ _ _ Hr)|rewrite with_noep_same, Ev1; symmetry; apply insert_id; exact (fld_of view _ _ _ Hr)|done]. }
  intros [] k' [[[(Hk' & cq' & Hi' & Hlen & Hcore) Hids] Hret] Hpr]. split_and!; [done| |done| |by exists cq'].
  2: { intros r' Hr'. specialize (Hcore q). rewrite !fld_lookup, Hr' in Hcore. simpl in Hcore. rewrite lookup_insert_eq in Hcore.
    simpl in Hcore. unfold quit_at in Hcore. rewrite decide_True in Hcore by done. apply (inj Some) in Hcore. by rewrite (core_blockedon _ _ Hcore). }
  split.
  - rewrite Hids. unfold ids. f_equal. by apply (fld_put_same pid q r1 r k).
  - intros x rx Hx. specialize (Hcore x). rewrite !fld_lookup in Hcore.
    pose proof (f_equal (lookup x) Hret) as Hret'. rewrite !fld_lookup in Hret'. simpl in Hcore, Hret'.
    destruct (procs k' !! x) as [rx'|] eqn:Hx'; [|exfalso; revert Hret'; destruct (decide (x = q)) as [->|];
      [by rewrite lookup_insert_eq|by rewrite lookup_insert_ne, Hx by done]].
    exists rx'. split; [done|]. unfold quit_at in Hcore. destruct (decide (x = q)) as [->|Hne].
    + right. rewrite lookup_insert_eq in Hcore, Hret'. rewrite Hr in Hx. injection Hx as <-.
      injection Hret' as ->. split_and!; [done| |done]. simpl in Hcore. by apply (inj Some) in Hcore.
    + left. rewrite lookup_insert_ne, Hx in Hcore, Hret' by done. injection Hret' as ->. split; [|done].
      simpl in Hcore. by apply (inj Some) in Hcore.
  - rewrite Hpr. intros i s Hs. exists s. auto.
Qed.

(** ** One process of the table *)

(** The only sender to [rc] has no link: it is the last of the queue. *)
Lemma last_link k cq q r e rc :
  ipc_inv (fld view k) cq -> procs k !! q = Some r -> in_table rc = true -> target e = rc -> v_blockedon (view r) = e -> e <> NONE ->
  is_Some (procs k !! rc) -> (length (cq rc) <= 1)%nat -> v_qlink (view r) = 0.
Proof.
  intros Hi Hr Hrc Et Hb Hne [r0 Hr0] Hlen. pose proof (fld_of view _ _ _ Hr) as Hv. unfold v_blockedon in Hb.
  destruct (v_out (view r)) as [e'|] eqn:Ho; [|by apply (i_link0 _ _ Hi q)]. subst e'.
  assert (q ∈ cq rc) as Hin by (apply (i_member _ _ Hi); [done|]; by exists (view r), e).
  pose proof (i_queue _ _ Hi rc (view r0) (fld_of view _ _ _ Hr0) Hrc) as Hc.
  destruct (cq rc) as [|x [|y l]] eqn:El; [by apply elem_of_nil in Hin| |simpl in Hlen; lia].
  apply list_elem_of_singleton in Hin as <-. destruct (chain_cons_head _ _ _ _ Hc) as [E0 H0].
  destruct (chain_cons_inv _ _ _ Hc H0) as (y & l' & [= _ <-] & Hy & Hend). rewrite <- E0, lookup_fmap, Hv in Hy.
  simpl in Hy |- *. injection Hy as ->. by inversion Hend.
Qed.

Lemma blocked_view r : P_BLOCKEDON r = v_blockedon (view r).
Proof. unfold P_BLOCKEDON, v_blockedon, view. simpl. by destruct (has (p_rts_flags r) RTS_SENDING), (has (p_rts_flags r) RTS_RECEIVING). Qed.

Section Sweep.
Context (ret : kres).

(** What holds of the process that goes away while the table is swept. *)
Record sweeping (rc e id : Z) (k : kstate) (cq : Z -> list Z) : Prop := {
  sg_base : kbase k;
  sg_ipc : ipc_inv (fld view k) cq;
  sg_live : live k rc;
  sg_slot : exists r, procs k !! rc = Some r /\ p_endpoint r = e /\ p_priv r = id;
  sg_queue : (length (cq rc) <= 1)%nat;
}.

Lemma sweeping_ep rc e id k cq : sweeping rc e id k cq -> target e = rc /\ e <> NONE /\ priv_nr id.
Proof.
  intros [Hk Hi Hl (r & Hr & <- & <-) _]. pose proof (fld_of view _ _ _ Hr) as Hv.
  split_and!; [by apply (slot_target _ _ _ _ Hi Hv), Hl| |by eapply kbase_priv].
  eapply live_not_special, (slot_live _ _ _ _ Hi Hv); [apply Hl|by eapply live_flag].
Qed.

Lemma sweeping_swept rc e id k cq k' cq' :
  sweeping rc e id k cq -> kbase k' -> ipc_inv (fld view k') cq' -> swept e ret k k' -> (forall d, (length (cq' d) <= length (cq d))%nat) ->
  sweeping rc e id k' cq'.
Proof.
  intros [Hk Hi Hl (r & Hr & <- & <-) Hq] Hk' Hi' Hs Hlen. destruct (ids_slot _ _ _ _ (sw_ids _ _ _ _ Hs) Hr) as (r' & Hr' & E).
  split; [done|done|eapply live_ids; [apply Hs|done]| |specialize (Hlen rc); lia]. exists r'. injection E. auto.
Qed.

Lemma clear_ref_run rc e id k cq q :
  sweeping rc e id k cq -> in_table q = true ->
  runs (clear_ref rc ret q) k (fun _ k' => swept e ret k k' /\ unrelated e id k' q /\
    exists cq', sweeping rc e id k' cq' /\ forall d, (length (cq' d) <= length (cq d))%nat).
Proof.
  intros Hs Hq. destruct (sweeping_ep _ _ _ _ _ Hs) as (Et & Hne & Hid). pose proof Hs as [Hk Hi Hl (r0 & Hr0 & <- & <-) Hlen].
  destruct (kbase_slot _ _ Hk Hq) as [r Hr]. unfold clear_ref, isemptyp. kstep. kstep. rewrite (free_flag _ _ _ Hk Hr).
  destruct (has (p_rts_flags r) RTS_SLOT_FREE) eqn:Hf.
  { kstep. split_and!; [done| |by exists cq]. intros x Hx Hrx. apply (live_flag _ _ _ Hx) in Hr. congruence. }
  assert (live k q) as Hlq by (by eapply live_of). eapply (clear_bits_run _ (p_endpoint r0) ret); [done..|].
  intros k2 Hk2 Ep2 Hs2 Hbits. assert (fld view k2 = fld view k) as Ev2 by (unfold fld; by rewrite Ep2).
  assert (ipc_inv (fld view k2) cq) as Hi2 by (by rewrite Ev2).
  rewrite <- Ep2 in Hr, Hr0. kstep. kstep. rewrite blocked_view. destruct (Z.eqb_spec (v_blockedon (view r)) (p_endpoint r0)) as [Hb|Hb].
  - eapply runs_mono; [eapply (wake_run k2 cq q r _ ret); [done|done|by apply (live_procs k)|done|exact Hb|]|].
    { eapply (last_link k2 cq q r _ rc); [done|done|apply Hl|exact Et|done|done|by eexists|done]. }
    intros [] k3 (Hk3 & Hs3 & Hp3 & Hno & cq' & Hi3 & Hlen3). split_and!; [by transitivity k2| |exists cq'; split; [|done]].
    + intros r' Hl' Hr'. destruct (sw_procs _ _ _ _ Hs3 _ _ Hr) as (r3 & Hr3 & Hc). rewrite Hr' in Hr3. injection Hr3 as <-.
      split; [by rewrite (Hno _ Hr')|].
      rewrite Hp3. destruct (ids_slot _ _ _ _ (sw_ids _ _ _ _ Hs3) Hr) as (r4 & Hr4 & E4). rewrite Hr' in Hr4. injection Hr4 as <-.
        injection E4 as -> _ _ _. exact Hbits.
    + eapply sweeping_swept; [exact Hs|done|done|by transitivity k2|done].
  - kstep. split_and!; [done| |exists cq; split; [|done]].
    + intros r' Hl' Hr'. rewrite Hr in Hr'. injection Hr' as <-. split; [done|]. done.
    + by eapply sweeping_swept.
Qed.
(** ** The whole table *)

Lemma sweep_loop rc e id qs : forall k cq,
  sweeping rc e id k cq -> (forall q, q ∈ qs -> in_table q = true) ->
  runs (kfor qs (clear_ref rc ret)) k (fun _ k' => swept e ret k k' /\ (forall q, q ∈ qs -> unrelated e id k' q) /\
    exists cq', sweeping rc e id k' cq').
Proof.
  induction qs as [|q qs IH]; intros k cq Hs Hqs; cbn [kfor].
  { kstep. split_and!; [done|set_solver|by exists cq]. }
  destruct (sweeping_ep _ _ _ _ _ Hs) as (_ & Hne & Hid).
  eapply runs_seq; [eapply clear_ref_run; [done|apply Hqs; left]|]. intros [] k1 (Hs1 & Hu1 & cq1 & Hg1 & _).
  eapply runs_mono; [eapply (IH k1 cq1); [done|set_solver]|]. intros [] k2 (Hs2 & Hu2 & Hg2).
  split_and!; [by transitivity k1| |done]. intros x [->|Hx]%elem_of_cons; [|by apply Hu2].
  by eapply unrelated_swept; [..|apply Hg1|].
Qed.

(** What is left of the endpoint [e] with privileges [id]: nothing. Whoever
    waited for it goes on with the result [ret]. *)
Record cleared (e id : Z) (k k' : kstate) : Prop := {
  cl_ids : ids k' = ids k;
  cl_waiters : forall q r, procs k !! q = Some r -> v_blockedon (view r) = e ->
    exists r', procs k' !! q = Some r' /\ v_core (view r') = v_core (v_quit (view r)) /\ p_retreg r' = ret;
  cl_others : forall q r, procs k !! q = Some r -> v_blockedon (view r) <> e -> v_in (view r) = None \/ is_Some (v_out (view r)) ->
    exists r', procs k' !! q = Some r' /\ v_core (view r') = v_core (view r);
  cl_gone : forall q, in_table q = true -> unrelated e id k' q;
}.
End Sweep.

(** The view of a process that waits for [e], or waits for no message. *)
Lemma kept_view e k k1 q r :
  wakes (fld view k) (fld view k1) -> awaits e (fld view k) (fld view k1) -> procs k !! q = Some r ->
  v_in (view r) = Some e \/ v_in (view r) = None \/ is_Some (v_out (view r)) ->
  exists r1, procs k1 !! q = Some r1 /\ view r1 = view r.
Proof.
  intros Hw Ha Hr Hv. pose proof (fld_of view _ _ _ Hr) as Hq. apply fld_Some.
  destruct Hv as [Hv|Hv]; [by apply Ha|by eapply wakes_stable].
Qed.

Section Refs.
Context `{SignalLaws}.

Lemma clear_ipc_refs_run rc e id ret k cq :
  sweeping rc e id k cq -> recv_ok (fld view k) -> not_asyncm e k ->
  runs (clear_ipc_refs rc ret) k (fun _ k' => cleared ret e id k k' /\ exists cq', sweeping rc e id k' cq').
Proof.
  intros Hs Hrok Hne. destruct (sweeping_ep _ _ _ _ _ Hs) as (Et & HN & Hid). pose proof Hs as [Hk Hi Hl (r0 & Hr0 & E0 & Ei) Hq].
  destruct (kbase_priv _ _ _ Hk Hl Hr0) as (_ & s0 & Hs0 & _).
  eapply runs_seq; [by eapply (cancel_all_run e); [..|apply asyn_count_bound]|]. intros [] k1 (Hk1 & Hi1 & Hw1 & Ha1).
  assert (sweeping rc e id k1 cq) as Hs1.
  { destruct (ids_slot _ _ _ _ Hi1 Hr0) as (r1 & Hr1 & E1).
    split; [done|by eapply wakes_inv|by eapply live_ids| |done]. exists r1. injection E1 as -> _ -> _. done. }
  eapply runs_mono; [eapply (sweep_loop ret); [done|]; intros q; apply elem_of_slots|].
  intros [] k2 (Hs2 & Hu2 & cq2 & Hg2). split; [|by exists cq2]. split; [rewrite (sw_ids _ _ _ _ Hs2); done| | |].
  - intros q r Hr Hb. destruct (kept_view e k k1 q r Hw1 Ha1 Hr) as (r1 & Hr1 & Ev).
    { unfold v_blockedon in Hb. destruct (v_out (view r)); [right; right; by eexists|]. destruct (v_in (view r)) as [x|]; [|congruence]. by left; f_equal. }
    destruct (sw_procs _ _ _ _ Hs2 _ _ Hr1) as (r2 & Hr2 & Hc). exists r2. split; [done|]. rewrite Ev in Hc.
    destruct Hc as [[Ec _]|(_ & Ec & Er)]; [exfalso|done]. assert (in_table q = true /\ v_free (view r) = false) as [Hqt Hf].
    { destruct (i_blk _ _ Hi q (view r) (fld_of view _ _ _ Hr)) as (? & ? & _); [|done].
      unfold v_blockedon in Hb. destruct (v_out (view r)); [by left; eexists|]. destruct (v_in (view r)); [by right; eexists|congruence]. }
    destruct (Hu2 q (proj2 (elem_of_slots q) Hqt) r2) as [Hno _]; [|done|by rewrite (core_blockedon _ _ Ec) in Hno].
    eapply live_of; [done..|]. change (v_free (view r2) = false). by rewrite (core_free _ _ Ec).
  - intros q r Hr Hb Hv. destruct (kept_view e k k1 q r Hw1 Ha1 Hr) as (r1 & Hr1 & Ev); [by right|].
    destruct (sw_procs _ _ _ _ Hs2 _ _ Hr1) as (r2 & Hr2 & Hc). exists r2. split; [done|]. rewrite Ev in Hc.
    by destruct Hc as [[Ec _]|(Hb' & _)].
  - intros q Hqt. apply Hu2. by apply elem_of_slots.
Qed.
End Refs.
