(* ===== verification/KLifeFree.v ===== *)
(** The slot of a dead process becomes free: what the invariants need for it. *)

From S2P Require Import Prelude Chain Timers KState KSched KBoot KWait KNotify KBase KFrame KMain KSignal KIpc KSend KAsyn KRecv KClock KIrq KIrqTell KIrqOk KIrqRun KIrqMain KLife KLifeOk KLifeSweep.
Local Open Scope Z_scope.

(** ** Identities and privileges *)

Definition freed (d : pidv) : pidv := PidV (d_priv d) (d_nr d) (d_ep d) true.

(** The numbers of the kernel tasks. *)
Definition a_task (t : Z) : Prop := t = ASYNCM \/ t = CLOCK \/ t = SYSTEM \/ t = KERNEL.

Lemma freed_back (pd : gmap Z pidv) p d q x : pd !! p = Some d -> <[p := freed d]> pd !! q = Some x -> d_free x = false -> q <> p /\ pd !! q = Some x.
Proof.
  intros Hd. destruct (decide (q = p)) as [->|Hq]; [rewrite lookup_insert_eq; by intros [= <-]|].
  rewrite lookup_insert_ne; done.
Qed.

Lemma freed_owned (pd : gmap Z pidv) p d i : pd !! p = Some d -> owned (<[p := freed d]> pd) i -> owned pd i.
Proof. intros Hd (q & x & Hx & Ht & Hf & <-). destruct (freed_back _ _ _ _ _ Hd Hx Hf). by exists q, x. Qed.

Lemma pinv_free pr pd p d :
  pinv pr pd -> pd !! p = Some d -> in_table p = true ->
  (forall t, a_task t -> p <> proc_addr t) ->
  (forall i s, owned (<[p := freed d]> pd) i -> pr !! i = Some s ->
    get_sys_bit (s_notify_pending s) (d_priv d) = false /\ get_sys_bit (s_asyn_pending s) (d_priv d) = false) ->
  (forall q x s, q <> p -> pd !! q = Some x -> in_table q = true -> d_free x = false -> iskerneln (d_nr x) = false ->
    pr !! d_priv x = Some s -> s_sig_mgr s <> d_ep d) ->
  pinv pr (<[p := freed d]> pd).
Proof.
  intros Hp Hd Hpt Htask Hbits Hmgr. assert (forall i s j, owned (<[p := freed d]> pd) i -> pr !! i = Some s ->
    get_sys_bit (s_notify_pending s) j = true \/ get_sys_bit (s_asyn_pending s) j = true -> sys_source pr pd j ->
    sys_source pr (<[p := freed d]> pd) j) as Hsrc.
  { intros i s j Ho Hs Hb (t & x & Ht & Hsys & Hok & Hx & Ej & En & Hf). exists t, x. split_and!; try done.
    rewrite lookup_insert_ne; [done|]. intros ->. rewrite Hd in Hx. injection Hx as <-. subst j.
    destruct (Hbits i s Ho Hs) as [B1 B2], Hb; congruence. }
  split.
  - intros q x. destruct (decide (q = p)) as [->|Hq]; [rewrite lookup_insert_eq; intros [= <-]|rewrite lookup_insert_ne by done];
      [exact (pi_nr _ _ Hp p d Hd)|exact (pi_nr _ _ Hp q x)].
  - intros q x Hx Ht Hf. destruct (freed_back _ _ _ _ _ Hd Hx Hf) as [_ Hx']. by eapply (pi_priv _ _ Hp).
  - apply Hp.
  - intros q x s Hx Ht Hf. destruct (freed_back _ _ _ _ _ Hd Hx Hf) as [_ Hx']. by eapply (pi_own _ _ Hp).
  - intros i s j Ho Hs Hj Hb. eapply Hsrc; [done..|by left|]. by eapply (pi_notify _ _ Hp); [eapply freed_owned|..].
  - intros i s j Ho Hs Hj Hb. eapply Hsrc; [done..|by right|]. by eapply (pi_asyn _ _ Hp); [eapply freed_owned|..].
  - apply Hp.
  - intros q x s Hx Ht Hf Hn Hs. destruct (freed_back _ _ _ _ _ Hd Hx Hf) as [Hq Hx'].
    destruct (pi_sigmgr _ _ Hp q x s Hx' Ht Hf Hn Hs) as [?|(y & Hy & Hok & Hyf & Hye)]; [by left|right].
    exists y. rewrite lookup_insert_ne; [done|]. intros Hne. rewrite <- Hne, Hd in Hy. injection Hy as <-.
    by destruct (Hmgr q x s Hq Hx' Ht Hf Hn Hs).
  - apply Hp.
  - apply Hp.
  - intros t Ht. destruct (pi_tasks _ _ Hp t Ht) as (x & s & Hx & Hxs). exists x, s. rewrite lookup_insert_ne by (by apply Htask). done.
Qed.

(** A structure that nobody owns loses its process. *)
Lemma pinv_disown pr pd i s :
  pinv pr pd -> ~ owned pd i -> priv_nr i -> pr !! i = Some s -> pinv (<[i := with_s_proc_nr NONE s]> pr) pd.
Proof.
  intros Hp Hno Hi Hs. assert (forall j t, <[i := with_s_proc_nr NONE s]> pr !! j = Some t -> j <> i /\ pr !! j = Some t \/ j = i /\ t = with_s_proc_nr NONE s) as Hcase.
  { intros j t. destruct (decide (j = i)) as [->|]; [rewrite lookup_insert_eq; intros [= <-]; by right|rewrite lookup_insert_ne by done; by left]. }
  assert (forall q x, pd !! q = Some x -> in_table q = true -> d_free x = false -> i <> d_priv x) as Hne by (intros q x Hx Ht Hf ->; apply Hno; by exists q, x).
  assert (forall j, sys_source pr pd j -> sys_source (<[i := with_s_proc_nr NONE s]> pr) pd j) as Hsrc.
  { intros j (t & x & Ht & Hsys & Hok & Hx & Ej & En & Hf). exists t, x. rewrite lookup_insert_ne; [done|].
    rewrite <- Ej. eapply Hne; [done|by apply nr_table|done]. }
  split.
  - apply Hp.
  - apply Hp.
  - intros j Hj. destruct (pi_slots _ _ Hp j Hj) as (t & Ht & E). destruct (decide (i = j)) as [->|]; [|exists t; by rewrite lookup_insert_ne].
    rewrite Hs in Ht. injection Ht as <-. eexists. by rewrite lookup_insert_eq.
  - intros q x t Hx Ht Hf [[_ Hst]|[E _]]%Hcase; [by eapply (pi_own _ _ Hp)|]. by destruct (Hne q x).
  - intros j t j' Hj [[_ Ht]|[-> _]]%Hcase Hj' Hb; [|done]. apply Hsrc. by eapply (pi_notify _ _ Hp).
  - intros j t j' Hj [[_ Ht]|[-> _]]%Hcase Hj' Hb; [|done]. apply Hsrc. by eapply (pi_asyn _ _ Hp).
  - intros j t Hj [[_ Ht]|[-> ->]]%Hcase; [by eapply (pi_words _ _ Hp)|]. simpl. by eapply (pi_words _ _ Hp).
  - intros q x t Hx Ht Hf Hn [[_ Hst]|[E _]]%Hcase; [by eapply (pi_sigmgr _ _ Hp)|]. by destruct (Hne q x).
  - intros j t Hj [[_ Ht]|[-> ->]]%Hcase; [by eapply (pi_trap _ _ Hp)|]. simpl. by eapply (pi_trap _ _ Hp).
  - intros j t Hj [[_ Ht]|[-> ->]]%Hcase; [by eapply (pi_self _ _ Hp)|]. simpl. by eapply (pi_self _ _ Hp).
  - intros t Ht. destruct (pi_tasks _ _ Hp t Ht) as (x & y & Hx & Hf & Hy & Hsys). exists x, y.
    rewrite lookup_insert_ne; [done|]. eapply Hne; [done| |done]. by destruct Ht as [->|[->|[->| ->]]].
Qed.

(** ** Messages *)

Definition v_freed (v : ipcv) : ipcv :=
  IpcV (v_nr v) (v_ep v) true false (v_deliver v) (v_callerq v) (v_qlink v) None None (v_msg v) (v_sendmsg v).

(** A process that nobody waits for and that waits for nothing goes away. *)
Lemma inv_free m cq p v :
  ipc_inv m cq -> m !! p = Some v -> in_table p = true -> v_out v = None -> v_in v = None ->
  (forall q w, m !! q = Some w -> v_blockedon w <> v_ep v) -> ipc_inv (<[p := v_freed v]> m) cq.
Proof.
  intros Hi Hv Hp Ho Hin Hno. assert (forall q w, <[p := v_freed v]> m !! q = Some w -> q = p /\ w = v_freed v \/ q <> p /\ m !! q = Some w) as Hcase.
  { intros q w. destruct (decide (q = p)) as [->|]; [rewrite lookup_insert_eq; intros [= <-]; by left|rewrite lookup_insert_ne by done; by right]. }
  assert (forall e, e <> v_ep v -> live_ep m e -> live_ep (<[p := v_freed v]> m) e) as Hlive.
  { intros e Hne (w & Hw & Hok & Hf & He). exists w. rewrite lookup_insert_ne; [done|]. intros ->. rewrite Hv in Hw. congruence. }
  assert (v_qlink <$> <[p := v_freed v]> m = v_qlink <$> m) as Elk by (rewrite fmap_insert; apply insert_id; by rewrite lookup_fmap, Hv).
  split.
  - rewrite lookup_insert_ne; [apply Hi|]. intros ->. by rewrite (i_null _ _ Hi) in Hv.
  - intros q w [[-> ->]|[_ Hw]]%Hcase; [exact (i_slot _ _ Hi p v Hv)|exact (i_slot _ _ Hi q w Hw)].
  - intros q w [[-> ->]|[_ Hw]]%Hcase; [by intros [[]|[]]|exact (i_blk _ _ Hi q w Hw)].
  - intros q w e [[-> ->]|[_ Hw]]%Hcase Hwe; [done|]. destruct (i_recv _ _ Hi q w e Hw Hwe) as [? [?|Hl]]; [tauto|].
    split; [done|]. right. apply Hlive; [|done]. intros ->. destruct (Hno q w Hw). unfold v_blockedon. rewrite Hwe.
    destruct (v_out w) as [e'|] eqn:Ew; [|done]. symmetry. by eapply (i_same _ _ Hi q w e').
  - intros q w e [[-> ->]|[_ Hw]]%Hcase Hwe; [done|]. destruct (i_send _ _ Hi q w e Hw Hwe) as [? Hl].
    split; [done|]. apply Hlive; [|done]. intros ->. destruct (Hno q w Hw). unfold v_blockedon. by rewrite Hwe.
  - intros q w e e' [[-> ->]|[_ Hw]]%Hcase; [done|]. by eapply (i_same _ _ Hi q w).
  - intros q w [[-> ->]|[_ Hw]]%Hcase; [intros _; by apply (i_link0 _ _ Hi p v)|by apply (i_link0 _ _ Hi q w)].
  - intros q w Hw Ht. rewrite Elk. destruct (Hcase _ _ Hw) as [[-> ->]|[_ Hw']]; [exact (i_queue _ _ Hi p v Hv Ht)|by apply (i_queue _ _ Hi q w)].
  - intros d q Ht. rewrite (i_member _ _ Hi d q Ht). split; intros (w & e & Hw & He & Ee); exists w, e.
    + rewrite lookup_insert_ne; [done|]. intros ->. congruence.
    + destruct (Hcase _ _ Hw) as [[-> ->]|[_ Hw']]; done.
  - intros q Hq. destruct (i_acyc _ _ Hi q) as [l Hl].
    { destruct Hq as [w [[-> _]|[_ Hw]]%Hcase]; by eexists. }
    exists l. eapply lseg_ext, Hl. intros x _. unfold waits. destruct (decide (x = p)) as [->|Hx].
    + rewrite lookup_insert_eq, Hv. unfold awaited, v_blockedon. simpl. by rewrite Ho, Hin.
    + by rewrite lookup_insert_ne.
Qed.

(** ** The kernel *)

Lemma kbase_free k p r r' :
  kbase k -> in_table p = true -> procs k !! p = Some r -> p <> proc_ptr k -> p_rts_flags r <> 0 ->
  p_rts_flags r' = RTS_SLOT_FREE -> p_priv r' = p_priv r -> p_priority r' = p_priority r -> p_nextready r' = p_nextready r ->
  pinv (privs k) (fld pid (put_proc p r' k)) -> kbase (put_proc p r' k).
Proof.
  intros [[rq Hs] [Hf1 Hf2] Hp Ht] Hpt Hr Hpp Hfl Hfl' Epv Epr Enx Hpi. split; [|split|done|done].
  - exists rq. eapply (sched_inv_put k rq _ rq p r r'); try done; [by rewrite Hfl'|].
    eapply rq_ok_put; [apply Hs|done| |done|done]. by rewrite Hfl'.
  - intros q fl. rewrite fld_put. destruct (decide (p = q)) as [->|]; [rewrite lookup_insert_eq; intros [= <-]; by rewrite Hfl'|].
    rewrite lookup_insert_ne by done. apply Hf1.
  - intros fl. rewrite fld_put. simpl. rewrite lookup_insert_ne by done. apply Hf2.
Qed.

Lemma kbase_disown k i s :
  kbase k -> ~ owned (fld pid k) i -> priv_nr i -> privs k !! i = Some s -> kbase (put_priv i (with_s_proc_nr NONE s) k).
Proof.
  intros Hk Hno Hi Hs. pose proof Hk as [[rq [Hrq (rc & sc & Hrc & Hsc) Htb Hpr Hid]] Hf Hp Ht].
  assert (forall j, is_Some (privs k !! j) -> is_Some (privs (put_priv i (with_s_proc_nr NONE s) k) !! j)) as Hdom.
  { intros j Hj. simpl. destruct (decide (i = j)) as [->|]; [by rewrite lookup_insert_eq|by rewrite lookup_insert_ne]. }
  split; [|done|by apply pinv_disown|done]. exists rq. split; try done.
  - destruct Hrq as [Hrs ? ? ?]. split; try done. by apply (rqs_ext k).
  - destruct (Hdom (p_priv rc)) as [x Hx]; [by eexists|]. by exists rc, x.
  - by destruct Htb; split.
  - intros p r Hr Hfl. apply Hdom. by eapply Hpr.
  - destruct Hid as (ri & si & Hri & Hsi). destruct (Hdom (p_priv ri)) as [x Hx]; [by eexists|]. by exists ri, x.
Qed.

Section Free.
Context `{Signals}.

Lemma reset_shape tp k k' : reset_kernel_timer tp k = Some (tt, k') -> exists q t, k' = with_next_timeout t (with_clock_timers q k).
Proof.
  unfold reset_kernel_timer. rewrite (bind_run get _ k k k eq_refl). destruct (tmrs_clrtimer (clock_timers k) tp false) as [[x q]|]; [|done].
  mrun. simpl. destruct (timeout_of q) as [t|]; [|done]. intros [= <-]. by exists q, t.
Qed.

(** The process whose slot becomes free. *)
Record leaving (k : kstate) (cq : Z -> list Z) (l : list Z) (rc : Z) (r : proc) : Prop := {
  lv_kern : kinv k cq;
  lv_live : live k rc;
  lv_slot : procs k !! rc = Some r;
  lv_flags : p_rts_flags r <> 0;
  lv_waits : v_out (view r) = None /\ v_in (view r) = None;
  lv_task : iskerneln (p_nr r) = false;
  lv_other : rc <> proc_ptr k;
  lv_gone : forall q, in_table q = true -> unrelated (p_endpoint r) (p_priv r) k q;
  lv_mgr : forall q x s, q <> rc -> live k q -> procs k !! q = Some x -> iskerneln (p_nr x) = false -> privs k !! p_priv x = Some s ->
    s_sig_mgr s <> p_endpoint r;
  lv_clock : clock_ok k l;
}.

(** The slot is free, and nothing else has changed. *)
Record gone (rc : Z) (r : proc) (k k' : kstate) : Prop := {
  gn_slot : exists r', procs k' !! rc = Some r' /\ p_rts_flags r' = RTS_SLOT_FREE /\ p_endpoint r' = p_endpoint r /\ p_nr r' = p_nr r;
  gn_others : forall q, q <> rc -> procs k' !! q = procs k !! q;
  gn_views : fld view k' = <[rc := v_freed (view r)]> (fld view k);
  gn_flags : s_flags <$> privs k' = s_flags <$> privs k;
}.

Definition free_proc (r : proc) : proc := clear_misc MF_FPU_INITIALIZED (with_p_rts_flags RTS_SLOT_FREE r).

Lemma view_free_proc r : view (free_proc r) = v_freed (view r).
Proof. unfold free_proc, view, v_freed. simpl. by rewrite has_ldiff_disj. Qed.

Lemma pid_free_proc r : pid (free_proc r) = freed (pid r).
Proof. done. Qed.

Lemma task_nr k t : a_task t -> kbase k -> forall r, procs k !! proc_addr t = Some r -> iskerneln (p_nr r) = true.
Proof.
  intros Ht Hk r Hr. assert (in_table (proc_addr t) = true) as Hpt by (by destruct Ht as [->|[->|[->| ->]]]).
  destruct (pi_nr _ _ (kb_priv _ Hk) _ _ (fld_of pid _ _ _ Hr) Hpt) as [E _]. simpl in E. unfold proc_addr in E.
  assert (p_nr r = t) as -> by lia. by destruct Ht as [->|[->|[->| ->]]].
Qed.

Lemma pinv_leaving k cq l rc r : leaving k cq l rc r -> pinv (privs k) (<[rc := freed (pid r)]> (fld pid k)).
Proof.
  intros [[Hk Hi] Hl Hr _ _ Htk _ Hg Hm _]. pose proof (fld_of pid _ _ _ Hr) as Hd. apply pinv_free; [apply Hk|done|apply Hl| | |].
  - intros t Ht ->. by rewrite (task_nr k t Ht Hk r Hr) in Htk.
  - intros i s (q & x & Hx & Ht & Hf & <-) Hs. destruct (freed_back _ _ _ _ _ Hd Hx Hf) as [Hq Hx'].
    apply fld_Some in Hx' as (rq & Hrq & <-). destruct (Hg q Ht rq) as [_ Hb]; [by eapply live_of|done|]. by apply Hb.
  - intros q x s Hq (rq & Hrq & <-)%fld_Some Ht Hf Hn Hs. by eapply (Hm q rq s); [|eapply live_of|..].
Qed.

(** Nobody else has the privileges of a system process. *)
Lemma not_owned k rc r s :
  kbase k -> live k rc -> procs k !! rc = Some r -> privs k !! p_priv r = Some s -> has (s_flags s) SYS_PROC = true ->
  ~ owned (<[rc := freed (pid r)]> (fld pid k)) (p_priv r).
Proof.
  intros Hk Hl Hr Hs Hsys (q & x & Hx & Ht & Hf & E). destruct (freed_back _ _ _ _ _ (fld_of pid _ _ _ Hr) Hx Hf) as [Hq Hx'].
  rewrite <- E in Hs. pose proof (pi_own _ _ (kb_priv _ Hk) q x s Hx' Ht Hf Hs Hsys) as E1. rewrite E in Hs.
  pose proof (pi_own _ _ (kb_priv _ Hk) rc (pid r) s (fld_of pid _ _ _ Hr) (proj1 Hl) (live_flag _ _ _ Hl Hr) Hs Hsys) as E2.
  apply Hq. destruct (pi_nr _ _ (kb_priv _ Hk) q x Hx' Ht) as [-> _].
  destruct (pi_nr _ _ (kb_priv _ Hk) rc (pid r) (fld_of pid _ _ _ Hr) (proj1 Hl)) as [-> _]. congruence.
Qed.
(** The steps after the alarm is off. *)
Lemma free_tail_run k cq l rc r :
  leaving k cq l rc r ->
  runs (RTS_SETFLAGS rc RTS_SLOT_FREE;; release_fpu rc;; upd rc (clear_misc MF_FPU_INITIALIZED);;
        sf ← rdp s_flags rc; if has sf SYS_PROC then updp rc (with_s_proc_nr NONE) else mret tt) k
    (fun _ k' => kbase k' /\ procs k' = <[rc := free_proc r]> (procs k) /\ s_flags <$> privs k' = s_flags <$> privs k /\
      clock_timers k' = clock_timers k /\ alarm_args k' = alarm_args k /\ next_timeout k' = next_timeout k /\ proc_ptr k' = proc_ptr k).
Proof.
  intros Hlv. pose proof (pinv_leaving _ _ _ _ _ Hlv) as Hpi. destruct Hlv as [[Hk Hi] Hl Hr Hfl _ _ Hpp _ _ _].
  destruct (kbase_priv _ _ _ Hk Hl Hr) as (Hid & s & Hs & _). set (r1 := with_p_rts_flags RTS_SLOT_FREE r). set (k1 := put_proc rc r1 k).
  assert (kbase k1) as Hk1 by (eapply kbase_free; [done|apply Hl|done|done|done|done..|]; rewrite fld_put; exact Hpi).
  eapply (runs_seq _ _ _ _ (fun _ k' => k' = k1)).
  { unfold RTS_SETFLAGS. kstep. apply Z.eqb_neq in Hfl. rewrite Hfl. cbn [andb]. kstep. by kstep. }
  intros [] k1' ->. set (k2 := if fpu_owner k1 =? rc then with_fpu_owner 0 k1 else k1).
  assert (kbase k2 /\ procs k2 = procs k1 /\ privs k2 = privs k1 /\ clock_timers k2 = clock_timers k /\ alarm_args k2 = alarm_args k /\
    next_timeout k2 = next_timeout k /\ proc_ptr k2 = proc_ptr k) as (Hk2 & Ep2 & Epr2 & Ec2)
    by (unfold k2; destruct (fpu_owner k1 =? rc); split_and!; try done; by eapply kbase_ext).
  eapply (runs_seq _ _ _ _ (fun _ k' => k' = k2)).
  { unfold release_fpu, k2. kstep. destruct (fpu_owner k1 =? rc); [done|by kstep]. }
  intros [] k2' ->. assert (Hr2 : procs k2 !! rc = Some r1) by (rewrite Ep2; simpl; apply lookup_insert_eq).
  set (k3 := put_proc rc (free_proc r) k2).
  assert (kbase k3) as Hk3 by (eapply kbase_put; [done|apply Hl|done|done..]).
  eapply (runs_seq _ _ _ _ (fun _ k' => k' = k3)); [by kstep|]. intros [] k3' ->.
  assert (Hr3 : procs k3 !! rc = Some (free_proc r)) by (simpl; apply lookup_insert_eq).
  assert (procs k3 = <[rc := free_proc r]> (procs k)) as Ep3 by (simpl; rewrite Ep2; simpl; by rewrite insert_insert_eq).
  assert (Hs3 : privs k3 !! p_priv (free_proc r) = Some s) by (simpl; by rewrite Epr2). kstep.
  destruct (has (s_flags s) SYS_PROC) eqn:Hsys; [|kstep; split_and!; [done|done|simpl; by rewrite Epr2|apply Ec2..]].
  kstep. split_and!; [|done| |apply Ec2..].
  - apply kbase_disown; [done| |done|done]. unfold fld. rewrite Ep3, fmap_insert, pid_free_proc. by apply (not_owned k rc r s).
  - simpl. rewrite Epr2. simpl. rewrite fmap_insert. simpl. apply insert_id. by rewrite lookup_fmap, Hs.
Qed.

Lemma free_slot_run k cq l rc r :
  leaving k cq l rc r ->
  runs (free_slot rc) k (fun _ k' => kinv k' cq /\ gone rc r k k' /\ clock_ok k' (remove1 (alarm_timer (p_priv r)) l) /\ proc_ptr k' = proc_ptr k).
Proof.
  intros Hlv. pose proof Hlv as [[Hk Hi] Hl Hr Hfl [Ho Hin] Htk Hpp Hg Hm [Hwf Hal Hnx]].
  assert (alarm_timer (p_priv r) <> 0) as Htp by (destruct (kbase_priv _ _ _ Hk Hl Hr) as [Hid _]; unfold alarm_timer, priv_nr in *; lia).
  unfold free_slot. kstep. destruct (clear_alarm_run k l _ Hwf Htp Hal) as (k0 & E0 & _ & _ & Hck).
  eapply runs_step; [exact E0|]. destruct (reset_shape _ _ _ E0) as (q & t & Ek0).
  assert (leaving k0 cq (remove1 (alarm_timer (p_priv r)) l) rc r) as Hlv0.
  { subst k0. split; try done. split; [by eapply kbase_ext|done]. }
  eapply runs_mono; [by apply (free_tail_run _ _ _ _ _ Hlv0)|].
  intros [] k' (Hk' & Ep & Ef & Ec & Ea & En & Epp). assert (procs k0 = procs k /\ privs k0 = privs k /\ proc_ptr k0 = proc_ptr k) as (E1 & E2 & E3) by (by subst k0).
  rewrite E1 in Ep. rewrite E2 in Ef.
  assert (fld view k' = <[rc := v_freed (view r)]> (fld view k)) as Ev by (unfold fld; by rewrite Ep, fmap_insert, view_free_proc).
  split_and!; [split; [done|]| | |congruence].
  - rewrite Ev. eapply inv_free; [done|by apply fld_of|apply Hl|done|done|]. intros x w (rx & Hrx & <-)%fld_Some.
    intros Hb. assert (v_blockedon (view rx) <> NONE) as Hnn.
    { rewrite Hb. eapply live_not_special, (slot_live _ _ _ _ Hi (fld_of view _ _ _ Hr)); [apply Hl|by eapply live_flag]. }
    destruct (i_blk _ _ Hi x (view rx) (fld_of view _ _ _ Hrx)) as (Hxt & Hxf & _).
    { unfold v_blockedon in Hnn. destruct (v_out (view rx)); [by left; eexists|]. destruct (v_in (view rx)); [by right; eexists|done]. }
    destruct (Hg x Hxt rx) as [Hne _]; [by eapply live_of|done|done].
  - split; [|intros x Hx; by rewrite Ep, lookup_insert_ne by done|done|done]. exists (free_proc r). by rewrite Ep, lookup_insert_eq.
  - destruct Hck as [W A X]. split; rewrite Ec; [done|by rewrite Ea|by rewrite En].
Qed.
End Free.
