(* ===== verification/KLifeDead.v ===== *)
(** The death of a process: clear_endpoint, the slot that becomes free, the
    hooks that are released, and the kernel call do_clear. *)

From S2P Require Import Prelude Chain Timers KState KSched KBoot KWait KNotify KBase KFrame KMain KSignal KIpc KSend KAsyn KRecv KClock KIrq KIrqTell KIrqOk KIrqRun KIrqMain KLife KLifeOk KLifeSweep.
Local Open Scope Z_scope.

Section Dead.
Context `{SignalLaws}.

(** ** [clear_endpoint] *)

(** What the kernel relies on when a process dies: nobody queues behind it or
    behind another sender to it. *)
Record may_die (k : kstate) (cq : Z -> list Z) (rc : Z) (r0 : proc) : Prop := {
  md_live : live k rc;
  md_slot : procs k !! rc = Some r0;
  md_link : p_q_link r0 = 0;
  md_queue : (length (cq rc) <= 1)%nat;
  md_task : not_asyncm (p_endpoint r0) k;
}.

(** What the others see of it. *)
Record dead (rc : Z) (r0 : proc) (k k' : kstate) : Prop := {
  dd_ids : ids k' = ids k;
  dd_self : exists r', procs k' !! rc = Some r' /\ v_core (view r') = v_core (v_with_noep true (v_quit (view r0)));
  dd_waiters : forall q r, q <> rc -> procs k !! q = Some r -> v_blockedon (view r) = p_endpoint r0 ->
    exists r', procs k' !! q = Some r' /\ v_core (view r') = v_core (v_quit (view r)) /\ p_retreg r' = EDEADSRCDST;
  dd_others : forall q r, q <> rc -> procs k !! q = Some r -> v_blockedon (view r) <> p_endpoint r0 ->
    v_in (view r) = None \/ is_Some (v_out (view r)) -> exists r', procs k' !! q = Some r' /\ v_core (view r') = v_core (view r);
  dd_gone : forall q, in_table q = true -> unrelated (p_endpoint r0) (p_priv r0) k' q;
}.

(** Nobody can send to the process any more. *)
Lemma no_endpoint_run k rc r0 :
  kbase k -> live k rc -> procs k !! rc = Some r0 ->
  runs (RTS_SET rc RTS_NO_ENDPOINT) k (fun _ k' => (kbase k' /\ fld view k' = <[rc := v_with_noep true (view r0)]> (fld view k)) /\ ids k' = ids k).
Proof.
  intros Hk Hl Hr. apply runs_keeps; [by apply keeps_RTS_SET|].
  destruct (kbase_set k rc r0 RTS_NO_ENDPOINT Hk (proj1 Hl) Hr (live_flag _ _ _ Hl Hr) eq_refl) as (k1 & E & Hk1 & Hle).
  eapply runs_of; [exact E|]. split; [done|]. rewrite (view_sched _ _ (link_sched _ _ Hle)), fld_put. f_equal.
  unfold view, v_with_noep. simpl. by rewrite !has_lor, !orb_false_r, orb_true_r.
Qed.

(** Its own table of asynchronous messages is forgotten. *)
Lemma no_table_run k rc :
  kbase k -> live k rc ->
  runs (sf ← rdp s_flags rc; if has sf SYS_PROC then updp rc (with_s_asynsize 0) else mret tt) k
    (fun _ k' => (kbase k' /\ procs k' = procs k) /\ ids k' = ids k).
Proof.
  intros Hk Hl. destruct (live_slot_of _ _ Hl) as [r Hr]. destruct (kbase_priv _ _ _ Hk Hl Hr) as (_ & s & Hs & _). kstep.
  destruct (has (s_flags s) SYS_PROC); [|by kstep]. apply runs_keeps; [by apply keeps_updp|]. eapply quiet_updp; [done..|by split; auto].
Qed.
(** What a process is after its first two steps. *)
Lemma quit_slot k k3 rc r0 :
  procs k !! rc = Some r0 ->
  (forall q, v_core <$> fld view k3 !! q = (fun v => v_core (quit_at rc q v)) <$> <[rc := v_with_noep true (view r0)]> (fld view k) !! q) ->
  (exists r3, procs k3 !! rc = Some r3 /\ v_core (view r3) = v_core (v_with_noep true (v_quit (view r0)))) /\
  forall q r, q <> rc -> procs k !! q = Some r -> exists r3, procs k3 !! q = Some r3 /\ v_core (view r3) = v_core (view r).
Proof.
  intros Hr0 Hc. split.
  - specialize (Hc rc). rewrite lookup_insert_eq, fld_lookup in Hc. unfold quit_at in Hc. simpl in Hc. rewrite decide_True in Hc by done.
    destruct (procs k3 !! rc) as [r3|]; [|done]. exists r3. split; [done|]. by apply (inj Some) in Hc.
  - intros q r Hq Hr. specialize (Hc q). rewrite lookup_insert_ne, !fld_lookup, Hr in Hc by done. unfold quit_at in Hc. simpl in Hc.
    rewrite decide_False in Hc by done. destruct (procs k3 !! q) as [r3|]; [|done]. exists r3. split; [done|]. by apply (inj Some) in Hc.
Qed.

Lemma core_waits v v' : v_core v' = v_core v -> v_in v' = v_in v /\ v_out v' = v_out v.
Proof. unfold v_core. by intros [= _ _ _ _ _ -> -> _]. Qed.

Lemma dead_of k k3 k' rc r0 :
  procs k !! rc = Some r0 -> p_endpoint r0 <> NONE -> ids k3 = ids k ->
  (forall q, v_core <$> fld view k3 !! q = (fun v => v_core (quit_at rc q v)) <$> <[rc := v_with_noep true (view r0)]> (fld view k) !! q) ->
  cleared EDEADSRCDST (p_endpoint r0) (p_priv r0) k3 k' -> dead rc r0 k k'.
Proof.
  intros Hr0 Hne Hi3 Hc [Ei Hw Ho Hg]. destruct (quit_slot _ _ _ _ Hr0 Hc) as [(r3 & Hr3 & E3) Hoth]. split; [congruence| | | |done].
  - destruct (core_waits _ _ E3) as [Ein Eout]. destruct (Ho rc r3 Hr3) as (r' & Hr' & E'); [|by left|].
    + rewrite (core_blockedon _ _ E3). by apply not_eq_sym.
    + exists r'. split; [done|]. congruence.
  - intros q r Hq Hr Hb. destruct (Hoth q r Hq Hr) as (rq & Hrq & Eq).
    destruct (Hw q rq Hrq) as (r' & Hr' & E' & Er'); [by rewrite (core_blockedon _ _ Eq)|].
    exists r'. split_and!; [done| |done]. by rewrite E', (core_quit _ _ Eq).
  - intros q r Hq Hr Hb Hv. destruct (Hoth q r Hq Hr) as (rq & Hrq & Eq). destruct (core_waits _ _ Eq) as [Ein Eout].
    destruct (Ho q rq Hrq) as (r' & Hr' & E'); [by rewrite (core_blockedon _ _ Eq)|by rewrite Ein, Eout|].
    exists r'. split; [done|]. congruence.
Qed.

Lemma clear_endpoint_run k cq rc r0 :
  kinv k cq -> may_die k cq rc r0 ->
  runs (clear_endpoint rc) k (fun _ k' => dead rc r0 k k' /\ exists cq', sweeping rc (p_endpoint r0) (p_priv r0) k' cq').
Proof.
  intros [Hk Hi] [Hl Hr0 Hln Hq Hne]. pose proof (live_flag _ _ _ Hl Hr0) as Hf. pose proof (fld_of view _ _ _ Hr0) as Hv0.
  unfold clear_endpoint, isemptyp. kstep. kstep. rewrite (free_flag _ _ _ Hk Hr0), Hf.
  eapply runs_seq; [by apply no_endpoint_run|]. intros [] k1 [[Hk1 Ev1] Hi1].
  apply runs_assoc. eapply runs_seq; [apply no_table_run; [done|by eapply live_ids]|]. intros [] k2 [[Hk2 Ep2] Hi2].
  assert (fld view k2 = <[rc := v_with_noep true (view r0)]> (fld view k)) as Ev2 by (rewrite <- Ev1; unfold fld; by rewrite Ep2).
  assert (ids k2 = ids k) as Hid2 by congruence. destruct (ids_slot _ _ _ _ Hid2 Hr0) as (r2 & Hr2 & E2).
  assert (has (p_rts_flags r2) RTS_SLOT_FREE = false) as Hf2 by (injection E2; congruence).
  eapply runs_seq; [apply runs_keeps; [apply keeps_clear_ipc|]; eapply (clear_ipc_run k2 rc r2 (fld view k) cq (view r0) true); try done; apply Hl|].
  intros [] k3 [(Hk3 & cq3 & Hi3 & Hlen3 & Hc3) Hid3]. rewrite Ev2 in Hc3. assert (ids k3 = ids k) as Hid by congruence.
  assert (sweeping rc (p_endpoint r0) (p_priv r0) k3 cq3) as Hs3.
  { destruct (ids_slot _ _ _ _ Hid Hr0) as (r3 & Hr3 & E3). split; [done|done|by eapply live_ids| |specialize (Hlen3 rc); lia].
    exists r3. injection E3 as -> _ -> _. done. }
  eapply runs_mono; [eapply clear_ipc_refs_run; [exact Hs3|by eapply inv_recv_ok|by eapply not_asyncm_ids]|].
  intros [] k' [Hcl Hex]. split; [|done]. eapply dead_of; [done| |exact Hid|exact Hc3|exact Hcl]. by apply (sweeping_ep _ _ _ _ _ Hs3).
Qed.
End Dead.

(** ** What it leaves alone *)

Lemma keepc_kfor f : (forall x, keepc (f x)) -> forall xs, keepc (kfor xs f).
Proof. intros Hf. induction xs as [|x xs IH]; cbn [kfor]; [apply keepc_ret|apply keepc_bind; [done|intros []; apply IH]]. Qed.

(** Looking for a pending message changes nothing. *)
Lemma find_bit_same n : forall m i k x k', find_bit n m i k = Some (x, k') -> k' = k.
Proof. induction n as [|n IH]; intros m i k x k'; cbn [find_bit]; [done|]. destruct (get_sys_bit m i); [by intros [= _ ->]|apply IH]. Qed.

Lemma has_pending_same m k x k' : has_pending m ANY k = Some (x, k') -> k' = k.
Proof.
  unfold has_pending. rewrite Z.eqb_refl. cbn [negb]. intros (a & k1 & E1 & [= _ ->])%bind_Some. revert E1.
  destruct (negb _); [apply find_bit_same|]. destruct (negb _); [apply find_bit_same|by intros [= _ ->]].
Qed.

Section Frames.
Context `{Signals}.

Lemma keepc_cancel_loop n : forall sep dep t i dn nt, keepc (cancel_loop n sep dep t i dn nt).
Proof.
  induction n as [|n IH]; intros; cbn [cancel_loop]; [apply keepc_ret|]. unfold A_RETR, A_INSRT. keepc; try apply IH. by apply keepc_modify.
Qed.

Lemma keepc_cancel_async s d : keepc (cancel_async s d).
Proof. unfold cancel_async, may_send_to. keepc. apply keepc_cancel_loop. Qed.

Lemma keepc_cancel_all fuel : forall rc, keepc (cancel_all fuel rc).
Proof.
  induction fuel as [|fuel IH]; intros rc; cbn [cancel_all]; [apply keepc_ub|]. unfold has_pending_asend.
  keepc; [apply keepc_same, has_pending_same|apply keepc_cancel_async].
Qed.

Lemma keepc_clear_ref rc ret q : keepc (clear_ref rc ret q).
Proof. unfold clear_ref, isemptyp. keepc. apply keepc_clear_ipc. Qed.

Lemma keepc_clear_endpoint rc : keepc (clear_endpoint rc).
Proof.
  unfold clear_endpoint, clear_ipc_refs, isemptyp. keepc; [apply keepc_clear_ipc|apply keepc_cancel_all|].
  apply keepc_kfor. intros x. apply keepc_clear_ref.
Qed.

(** The managers of signals stay the same. *)
Let R := same_field s_sig_mgr.

Lemma mgr_cancel_async s d : respects R (cancel_async s d).
Proof.
  unfold cancel_async, may_send_to. respects; try (by apply same_field_updp); try (by apply respects_cancel_loop; exact _).
  by apply same_field_notify.
Qed.

Lemma mgr_cancel_all fuel : forall rc, respects R (cancel_all fuel rc).
Proof.
  induction fuel as [|fuel IH]; intros rc; cbn [cancel_all]; [by apply respects_ub|]. unfold has_pending_asend.
  respects; [apply respects_same; [exact _|]; by intros k x k' ->%has_pending_same|apply mgr_cancel_async].
Qed.

Lemma mgr_clear_ref rc ret q : respects R (clear_ref rc ret q).
Proof. unfold clear_ref, isemptyp. respects; try (by apply same_field_updp). by apply respects_clear_ipc; exact _. Qed.

Lemma mgr_clear_endpoint rc : respects R (clear_endpoint rc).
Proof.
  unfold clear_endpoint, clear_ipc_refs, isemptyp. respects; try (by apply same_field_updp).
  - by apply respects_clear_ipc; exact _.
  - apply mgr_cancel_all.
  - induction all_slots as [|x xs IH]; cbn [kfor]; [by apply respects_ret; exact _|]. apply respects_bind; [exact _|apply mgr_clear_ref|done].
Qed.
End Frames.
