(* ===== verification/KLifeMain.v ===== *)
(** Kernel calls that remove, create and replace processes, with all that
    belongs to them: do_clear, do_statectl, do_fork and do_exec. *)

From S2P Require Import Prelude Chain Timers KState KSched KBoot KWait KNotify KBase KFrame KMain KSignal KIpc KSend KAsyn KRecv KClock KPriv KCorrect KIrq KIrqTell KIrqOk KIrqRun KIrqMain KLife KLifeOk KLifeSweep KLifeFree KLifeDead.
Local Open Scope Z_scope.

(** ** The hooks of a process *)

(** All hooks of process [e] are given up. *)
Definition a_release (e : Z) : gmap Z ahook -> gmap Z ahook := omap (fun h => if a_proc h =? e then None else Some h).

Lemma abs_proc s p h x : irq_hooks s !! p = Some h -> irq_abs s !! p = Some x -> a_proc x = h_proc_nr_e h.
Proof.
  intros Hh (h0 & Hh0 & Hu & E)%abs_used. unfold hk in Hh0. rewrite Hh in Hh0. injection Hh0 as <-. unfold abs_hook in E.
  destruct (_ =? NONE); [done|]. by injection E as <-.
Qed.

(** The hooks do not depend on the rest of the kernel. *)
Lemma irq_inv_kern x s ls k : irq_inv x s ls -> irq_inv x (with_ikern k s) ls.
Proof.
  intros [[H1 H2 H3 H4 H5] H6]. split; [split; [exact H1|exact H2|exact H3|exact H4|exact H5]|].
  intros irq Hl. destruct (H6 irq Hl) as (a & Ha & [A1 A2 A3]). exists a. split; [exact Ha|split; [exact A1|exact A2|exact A3]].
Qed.

(** One slot of the table. *)
Lemma release_one e s ls p h :
  irq_inv 0 s ls -> irq_hooks s !! p = Some h -> e <> NONE ->
  exists s' ls', (if e =? h_proc_nr_e h then rm_irq_handler p;; upd_hook p (with_h_proc_nr_e NONE) else mret tt) s = Some (tt, s') /\
    irq_inv 0 s' ls' /\ ikern s' = ikern s /\
    forall q, irq_abs s' !! q = (x ← irq_abs s !! q; if decide (a_proc x = e /\ q = p) then None else Some x).
Proof.
  intros Hi Hh Hne. destruct (Z.eqb_spec e (h_proc_nr_e h)) as [->|Ee].
  - destruct (release_run s ls p h Hi Hh Hne) as (s1 & ls1 & E1 & Hi1 & Ea1 & Ek1).
    exists s1, ls1. split_and!; try done. intros q. rewrite Ea1. destruct (decide (q = p)) as [->|Hp].
    + rewrite lookup_delete_eq. destruct (irq_abs s !! p) as [x|] eqn:Ex; [|done]. simpl. by rewrite decide_True by (split; [by eapply abs_proc|done]).
    + rewrite lookup_delete_ne by done. destruct (irq_abs s !! q); [|done]. simpl. by rewrite decide_False by tauto.
  - exists s, ls. split_and!; try done. intros q. destruct (irq_abs s !! q) as [x|] eqn:Ex; [|done]. simpl. rewrite decide_False; [done|].
    intros [E ->]. apply Ee. rewrite <- E. by eapply abs_proc.
Qed.

Lemma release_hooks_run rc r0 slots : forall s ls,
  irq_inv 0 s ls -> procs (ikern s) !! rc = Some r0 -> p_endpoint r0 <> NONE -> (forall i, i ∈ slots -> i ∈ hook_slots) ->
  exists s' ls', release_hooks rc slots s = Some (tt, s') /\ irq_inv 0 s' ls' /\ ikern s' = ikern s /\
    forall p, irq_abs s' !! p = (h ← irq_abs s !! p; if decide (a_proc h = p_endpoint r0 /\ p ∈ hook_addr <$> slots) then None else Some h).
Proof.
  induction slots as [|i slots IH]; intros s ls Hi Hr Hne Hsl; cbn [release_hooks].
  { exists s, ls. split_and!; try done. intros p. destruct (irq_abs s !! p) as [h|]; [|done]. simpl. rewrite decide_False; [done|].
    intros [_ Hp]. by apply elem_of_nil in Hp. }
  rewrite (bind_run _ _ _ _ _ (kern_same (rd p_endpoint rc) s _ (rd_run p_endpoint _ _ _ Hr))).
  assert (is_Some (hk s (hook_addr i))) as [h0 (h & Hh & E0)%hk_Some].
  { apply (ii_dom _ _ _ Hi), a_slots_in. apply list_elem_of_fmap_2, Hsl. left. }
  rewrite (bind_run _ _ _ _ _ (get_hook_run s _ h Hh)).
  destruct (release_one _ s ls (hook_addr i) h Hi Hh Hne) as (s1 & ls1 & E1 & Hi1 & Ek1 & Ea1).
  rewrite (bind_run _ _ _ _ _ E1).
  destruct (IH s1 ls1 Hi1) as (s2 & ls2 & E2 & Hi2 & Ek2 & Ea2); [by rewrite Ek1|done|set_solver|].
  exists s2, ls2. split_and!; [done|done|congruence|]. intros p. rewrite Ea2, Ea1. destruct (irq_abs s !! p) as [x|]; [|done]. simpl.
  destruct (decide (a_proc x = p_endpoint r0 /\ p = hook_addr i)) as [[? ->]|Hn]; simpl.
  - rewrite decide_True; [done|]. split; [done|left].
  - destruct (decide (a_proc x = p_endpoint r0 /\ p ∈ hook_addr <$> slots)) as [[? ?]|Hn2];
      [rewrite decide_True; [done|]; split; [done|by right]|rewrite decide_False; [done|]]. rewrite elem_of_cons. tauto.
Qed.

Lemma release_all_run rc r0 s ls :
  irq_inv 0 s ls -> procs (ikern s) !! rc = Some r0 -> p_endpoint r0 <> NONE ->
  exists s' ls', release_hooks rc hook_slots s = Some (tt, s') /\ irq_inv 0 s' ls' /\ ikern s' = ikern s /\
    irq_abs s' = a_release (p_endpoint r0) (irq_abs s).
Proof.
  intros Hi Hr Hne. destruct (release_hooks_run rc r0 hook_slots s ls Hi Hr Hne) as (s' & ls' & E & Hi' & Ek & Ea); [done|].
  exists s', ls'. split_and!; try done. apply map_eq. intros p. unfold a_release. rewrite Ea, lookup_omap.
  destruct (irq_abs s !! p) as [h|] eqn:Eh; [|done]. simpl. destruct (Z.eqb_spec (a_proc h) (p_endpoint r0)) as [E1|E1].
  - rewrite decide_True; [done|]. split; [done|]. apply a_slots_in. exact (abs_range _ _ _ _ _ Hi Eh).
  - rewrite decide_False; [done|]. tauto.
Qed.

(** ** [do_clear] *)

Section Clear.
Context `{SignalLaws}.

(** A process that the process manager may remove: not a kernel task, not the
    process that runs, nobody's signal manager, and at most one sender waits
    for it, as for the process it waits for itself. *)
Record dying (s : irq_state) (cq : Z -> list Z) (l : list Z) (e : Z) (r0 : proc) : Prop := {
  dy_kern : kinv (ikern s) cq;
  dy_clock : clock_ok (ikern s) l;
  dy_live : live_ep (fld view (ikern s)) e;
  dy_slot : procs (ikern s) !! target e = Some r0;
  dy_link : p_q_link r0 = 0;
  dy_queue : (length (cq (target e)) <= 1)%nat;
  dy_task : iskerneln (p_nr r0) = false;
  dy_other : target e <> proc_ptr (ikern s);
  dy_mgr : forall q x sx, q <> target e -> live (ikern s) q -> procs (ikern s) !! q = Some x -> iskerneln (p_nr x) = false ->
    privs (ikern s) !! p_priv x = Some sx -> s_sig_mgr sx <> e;
}.

Lemma dying_ep s cq l e r0 : dying s cq l e r0 -> p_endpoint r0 = e.
Proof. intros Hd. destruct (live_slot _ _ (dy_live _ _ _ _ _ Hd)) as (r & Hr & _ & E & _). rewrite (dy_slot _ _ _ _ _ Hd) in Hr. by injection Hr as <-. Qed.

Lemma dying_may s cq l e r0 : dying s cq l e r0 -> may_die (ikern s) cq (target e) r0.
Proof.
  intros Hd. pose proof (dying_ep _ _ _ _ _ Hd) as Ee. destruct Hd as [[Hk Hi] _ Hl Hr Hq Hlen Ht _ _].
  split; [by apply live_target|done|done|done|]. rewrite Ee. split; [by eapply live_not_special|]. intros ra Hra E.
  destruct Hl as (v & Hv & Hok & _ & _).
  destruct (pi_nr _ _ (kb_priv _ Hk) _ _ (fld_of pid _ _ _ Hra)) as [_ Ea]; [done|]. simpl in Ea. rewrite E in Ea.
  destruct (pi_nr _ _ (kb_priv _ Hk) _ _ (fld_of pid _ _ _ Hr)) as [_ Er]; [by apply target_table|]. simpl in Er. rewrite Ee in Er.
  assert (iskerneln (p_nr ra) = true) by (eapply (task_nr (ikern s) ASYNCM); [by left|done|done]). congruence.
Qed.

(** What is left after [clear_endpoint]. *)
Lemma dying_leaves s cq l e r0 k1 cq1 :
  dying s cq l e r0 -> dead (target e) r0 (ikern s) k1 -> sweeping (target e) e (p_priv r0) k1 cq1 ->
  clk k1 = clk (ikern s) -> same_field s_sig_mgr (ikern s) k1 -> exists r1, leaving k1 cq1 l (target e) r1 /\ p_endpoint r1 = e /\ p_priv r1 = p_priv r0.
Proof.
  intros Hd [Ei (r1 & Hr1 & Ec) _ _ Hg] [Hk1 Hi1 Hl1 (r1' & Hr1' & Ee & Ep) _] Hck Hm. pose proof (dying_ep _ _ _ _ _ Hd) as Ee0.
  rewrite Hr1 in Hr1'. injection Hr1' as <-. destruct Hd as [[Hk Hi] [Wf Al Nx] Hle Hr0 _ _ Ht Hpp Hmgr].
  destruct (core_waits _ _ Ec) as [Ein Eout]. exists r1. split; [|done]. rewrite Ee0 in Hg. injection Hck as E1 E2 E3 E4 E5 E6 E7.
  split; try done.
  - intros Hz. unfold v_core in Ec. injection Ec as _ _ _ En. rewrite Hz in En. done.
  - destruct (ids_slot _ _ _ _ Ei Hr0) as (r2 & Hr2 & Epid). rewrite Hr1 in Hr2. injection Hr2 as <-. injection Epid as _ En _ _. by rewrite En.
  - by rewrite E5.
  - rewrite Ee, Ep. done.
  - intros q x sx Hq Hlq Hx Hn Hsx. symmetry in Ei. destruct (ids_slot _ _ _ _ Ei Hx) as (x0 & Hx0 & Epid).
    injection Epid as Epv En _ _. rewrite Ee. assert (live (ikern s) q) as Hlq0 by (by eapply live_ids).
    destruct (kbase_priv _ _ _ Hk Hlq0 Hx0) as (_ & sx0 & Hsx0 & _). rewrite Epv in Hsx0.
    destruct (same_field_lookup _ _ _ _ _ Hm Hsx0) as (sx' & Hsx' & Emg). rewrite Hsx in Hsx'. injection Hsx' as <-.
    rewrite Emg. apply (Hmgr q x0); [done|done|done|by rewrite En|by rewrite Epv].
  - split; rewrite E1; [done|by rewrite E2|by rewrite E3].
Qed.
(** Whether an endpoint is in use depends on the identities only. *)
Lemma live_pid k e : live_ep (fld view k) e <->
  exists d, fld pid k !! target e = Some d /\ isokprocn (_ENDPOINT_P e) = true /\ d_free d = false /\ d_ep d = e.
Proof.
  split.
  - intros (v & (r & Hr & <-)%fld_Some & Hok & Hf & He). exists (pid r). by rewrite (fld_of _ _ _ _ Hr).
  - intros (d & (r & Hr & <-)%fld_Some & Hok & Hf & He). exists (view r). by rewrite (fld_of _ _ _ _ Hr).
Qed.

Lemma gone_pid rc r k k' q : gone rc r k k' -> q <> rc -> fld pid k' !! q = fld pid k !! q.
Proof. intros Hg Hq. by rewrite !fld_lookup, (gn_others _ _ _ _ Hg). Qed.

Lemma gone_live e r k k1 k' :
  ids k1 = ids k -> gone (target e) r k1 k' -> live_ep (fld view k) e ->
  forall e', live_ep (fld view k') e' <-> live_ep (fld view k) e' /\ e' <> e.
Proof.
  intros [= Ep _] Hg Hl e'. split.
  - intros (d & Hd & Hok & Hf & He)%live_pid. destruct (decide (target e' = target e)) as [E|E].
    + destruct (gn_slot _ _ _ _ Hg) as (r' & Hr' & Hfl & _). rewrite E, (fld_of pid _ _ _ Hr') in Hd. injection Hd as <-.
      simpl in Hf. by rewrite Hfl in Hf.
    + rewrite (gone_pid _ _ _ _ _ Hg E), Ep in Hd. split; [apply live_pid; by exists d|congruence].
  - intros [Hl' Hne]. assert (target e' <> target e) as E by (intros E; apply Hne; by eapply live_inj).
    apply live_pid in Hl' as (d & Hd & Hx). apply live_pid. exists d. by rewrite (gone_pid _ _ _ _ _ Hg E), Ep.
Qed.

Lemma gone_owner e e' r k k1 k' :
  ids k1 = ids k -> gone (target e) r k1 k' -> live_ep (fld view k) e -> e' <> e -> owner k e' -> owner k' e'.
Proof.
  intros Hi Hg Hl Hne (Hl' & d & f & Hd & Hf & Hs). assert (target e' <> target e) as E by (intros E; apply Hne; by eapply live_inj).
  split; [by eapply gone_live|]. exists d, f. injection Hi as Ep Ef. by rewrite (gone_pid _ _ _ _ _ Hg E), Ep, (gn_flags _ _ _ _ Hg), Ef.
Qed.

(** The kernel's part: the process is dead and its slot is free. *)
Lemma clear_kern_run s cq l e r0 :
  dying s cq l e r0 ->
  exists k' k1 r1 cq', (clear_endpoint (target e);; free_slot (target e)) (ikern s) = Some (tt, k') /\ kinv k' cq' /\
    dead (target e) r0 (ikern s) k1 /\ gone (target e) r1 k1 k' /\ clock_ok k' (remove1 (alarm_timer (p_priv r0)) l).
Proof.
  intros Hd. pose proof (dying_ep _ _ _ _ _ Hd) as Ee. pose proof (dying_may _ _ _ _ _ Hd) as Hm.
  pose proof (clear_endpoint_run _ _ _ _ (dy_kern _ _ _ _ _ Hd) Hm) as Hrun.
  apply (runs_keepc _ _ _ (keepc_clear_endpoint _)), (runs_respects _ _ _ _ (mgr_clear_endpoint _)), runs_inv in Hrun
    as ([] & k1 & E1 & [[Hde (cq1 & Hsw)] Hck] & Hmg). rewrite Ee in Hsw.
  destruct (dying_leaves _ _ _ _ _ _ _ Hd Hde Hsw Hck Hmg) as (r1 & Hlv & _ & Epv).
  destruct (runs_inv _ _ _ (free_slot_run _ _ _ _ _ Hlv)) as ([] & k' & E2 & Hk' & Hg & Hc & _). rewrite Epv in Hc.
  exists k', k1, r1, cq1. rewrite (bind_run _ _ _ _ _ E1). done.
Qed.

Lemma do_clear_run s ls cq l e r0 :
  irq_ok s ls cq -> dying s cq l e r0 ->
  exists s' ls' k1 r1 cq', do_clear e s = Some (OK, s') /\ irq_ok s' ls' cq' /\ irq_abs s' = a_release e (irq_abs s) /\
    dead (target e) r0 (ikern s) k1 /\ gone (target e) r1 k1 (ikern s') /\ clock_ok (ikern s') (remove1 (alarm_timer (p_priv r0)) l).
Proof.
  intros Hok Hd. pose proof (dying_ep _ _ _ _ _ Hd) as Ee. destruct (clear_kern_run _ _ _ _ _ Hd) as (k' & k1 & r1 & cq' & Ek & Hk' & Hde & Hg & Hck).
  destruct Hd as [[Hk Hi] _ Hl Hr0 _ _ _ _ _]. pose proof Hok as [Hinv _ Hown]. destruct (isokendpt_run (ikern s) e Hk) as [[_ E]|[? _]]; [|done].
  unfold do_clear. rewrite (bind_run _ _ _ _ _ (kern_same _ s _ E)). fold (target e).
  assert (isemptyp (target e) (ikern s) = Some (false, ikern s)) as Eem.
  { unfold isemptyp. rewrite (bind_run _ _ _ _ _ (rd_run p_rts_flags _ _ _ Hr0)), (free_flag _ _ _ Hk Hr0).
    by rewrite (live_flag _ _ _ (live_target _ _ Hl) Hr0). }
  rewrite (bind_run _ _ _ _ _ (kern_same _ s _ Eem)).
  destruct (release_all_run (target e) r0 s ls Hinv Hr0) as (s1 & ls1 & E1 & Hinv1 & Ek1 & Ea1); [rewrite Ee; by eapply live_not_special|].
  rewrite (bind_run _ _ _ _ _ E1). apply bind_Some in Ek as ([] & k2 & Ec & Ef). rewrite <- Ek1 in Ec.
  rewrite (bind_run _ _ _ _ _ (kern_run _ s1 _ _ Ec)), (bind_run _ _ _ _ _ (kern_run _ (with_ikern k2 s1) tt k' Ef)).
  exists (with_ikern k' s1), ls1, k1, r1, cq'. rewrite Ee in Ea1. split_and!; try done. split; [|done|].
  - by apply irq_inv_kern.
  - intros p h Hh. change (irq_abs s1 !! p = Some h) in Hh. rewrite Ea1 in Hh. unfold a_release in Hh. rewrite lookup_omap in Hh.
    destruct (irq_abs s !! p) as [h0|] eqn:E0; [|done]. simpl in Hh. destruct (Z.eqb_spec (a_proc h0) e); [done|]. injection Hh as <-.
    eapply gone_owner; [apply Hde|exact Hg|done|done|by eapply Hown].
Qed.
(** The others after both parts. *)
Lemma dead_slot rc r0 r1 k k1 k' q r :
  dead rc r0 k k1 -> gone rc r1 k1 k' -> q <> rc -> procs k !! q = Some r ->
  (P_BLOCKEDON r = p_endpoint r0 -> exists r', procs k' !! q = Some r' /\ P_BLOCKEDON r' = NONE /\ p_retreg r' = EDEADSRCDST) /\
  (P_BLOCKEDON r <> p_endpoint r0 -> has (p_rts_flags r) RTS_RECEIVING = false \/ has (p_rts_flags r) RTS_SENDING = true ->
    exists r', procs k' !! q = Some r' /\ P_BLOCKEDON r' = P_BLOCKEDON r).
Proof.
  intros [_ _ Hw Ho _] Hg Hq Hr. rewrite blocked_view, (gn_others _ _ _ _ Hg q Hq). split.
  - intros Hb. destruct (Hw q r Hq Hr Hb) as (r' & Hr' & Ec & Er). exists r'. by rewrite blocked_view, (core_blockedon _ _ Ec).
  - intros Hb Hv. destruct (Ho q r Hq Hr Hb) as (r' & Hr' & Ec); [|exists r'; by rewrite blocked_view, (core_blockedon _ _ Ec)].
    unfold view. simpl. destruct Hv as [-> | ->]; [by left|right; by eexists].
Qed.


(** [do_statectl]: a process can have all references to it removed without
    dying; whoever waits for it then goes on with an error. *)
Lemma do_statectl_run k cq caller e id :
  sweeping caller e id k cq -> not_asyncm e k ->
  runs (do_statectl caller SYS_STATE_CLEAR_IPC_REFS) k
    (fun res k' => res = OK /\ cleared EDEADSRCDST e id k k' /\ exists cq', kinv k' cq').
Proof.
  intros Hs Hne. unfold do_statectl. rewrite Z.eqb_refl.
  eapply runs_seq; [eapply clear_ipc_refs_run; [exact Hs|by eapply inv_recv_ok, Hs|done]|].
  intros [] k' [Hc (cq' & Hs')]. kstep. split_and!; [done|done|]. exists cq'. split; apply Hs'.
Qed.

(** A process that does not exist cannot be removed. *)
Lemma do_clear_dead s e : kbase (ikern s) -> ~ live_ep (fld view (ikern s)) e -> do_clear e s = Some (EINVAL, s).
Proof.
  intros Hk Hl. destruct (isokendpt_run (ikern s) e Hk) as [[? _]|[_ E]]; [done|]. unfold do_clear.
  by rewrite (bind_run _ _ _ _ _ (kern_same _ s _ E)).
Qed.
End Clear.

(** ** Instances *)

#[local] Existing Instance sig_numbers.
#[local] Existing Instance sig_laws.

(** A test for managers of signals. *)
Definition no_manager (k : kstate) (e : Z) : bool :=
  forallb (fun x => (fst x =? target e) || iskerneln (p_nr (snd x)) ||
    match privs k !! p_priv (snd x) with Some s => negb (s_sig_mgr s =? e) | None => true end) (map_to_list (procs k)).

Lemma no_manager_ok k e q x s :
  no_manager k e = true -> q <> target e -> procs k !! q = Some x -> iskerneln (p_nr x) = false -> privs k !! p_priv x = Some s -> s_sig_mgr s <> e.
Proof.
  intros Ht Hq Hx Hn Hs. pose proof (forallb_map _ _ _ _ Ht Hx) as Hb. simpl in Hb. rewrite Hn, Hs in Hb.
  apply Z.eqb_neq in Hq. rewrite Hq in Hb. simpl in Hb. by apply negb_true_iff, Z.eqb_neq in Hb.
Qed.

Definition vfs : Z := proc_addr VFS_PROC_NR.
Definition tty : Z := proc_addr TTY_PROC_NR.

(** The file server waits to send a message to the terminal driver. *)
Definition waiting_k : kstate :=
  match send_block vfs TTY_PROC_NR tty (KernPtr zero_message) FROM_KERNEL (up ∅) with Some (_, k) => k | None => up ∅ end.

Definition waiting_q : Z -> list Z := set_q tty [vfs] (fun _ => []).

Lemma waiting_kinv : kinv waiting_k waiting_q.
Proof.
  assert (exists l, chain (waits (fld view (up ∅))) (target TTY_PROC_NR) l /\ vfs ∉ l) as Hpath.
  { exists [tty]. split; [|intros Hx%list_elem_of_singleton; done]. econstructor; [done|vm_compute; reflexivity|constructor]. }
  assert (runs (send_block vfs TTY_PROC_NR tty (KernPtr zero_message) FROM_KERNEL) (up ∅) (fun _ k' => kinv k' waiting_q)) as Hrun.
  { eapply runs_mono; [apply (send_block_run (up ∅) (fun _ => []) vfs (default zero_proc (procs (up ∅) !! vfs)) TTY_PROC_NR
      (KernPtr zero_message) FROM_KERNEL zero_message (up_kinv ∅)); [..|exact Hpath]|by intros ? ? (_ & ? & _)];
      first [apply live_ep_of; vm_compute; reflexivity|vm_compute; first [reflexivity|done]]. }
  destruct (runs_inv _ _ _ Hrun) as (res & k' & E & Hk). unfold waiting_k. by rewrite E.
Qed.

Definition clear_s : irq_state := with_ikern waiting_k irq_s1.

Lemma clear_s_ids : ids waiting_k = ids (ikern irq_s1).
Proof. vm_compute. reflexivity. Qed.

(** What happens to the kernel does not matter for the hooks as long as their
    owners stay. *)
Lemma irq_ok_kern s ls cq k cq' : irq_ok s ls cq -> kinv k cq' -> ids k = ids (ikern s) -> irq_ok (with_ikern k s) ls cq'.
Proof.
  intros [Hi _ Ho] Hk [= Ep Ef]. split; [by apply irq_inv_kern|exact Hk|].
  intros p h Hh. destruct (Ho p h Hh) as (Hl & d & f & Hd & Hf & Hs).
  split; [apply live_pid|exists d, f; simpl; by rewrite Ep, Ef]. apply live_pid in Hl as (d' & Hd' & Hx). exists d'. simpl. by rewrite Ep.
Qed.

Lemma clear_s_ok : exists ls, irq_ok clear_s ls waiting_q.
Proof. destruct irq_s1_ok as [ls Hs]. exists ls. exact (irq_ok_kern _ _ _ _ _ Hs waiting_kinv clear_s_ids). Qed.

Definition tty_proc : proc := default zero_proc (procs waiting_k !! tty).

Lemma tty_dying : dying clear_s waiting_q [] TTY_PROC_NR tty_proc.
Proof.
  split; [exact waiting_kinv|apply clock_idle; vm_compute; reflexivity|apply live_ep_of; vm_compute; reflexivity|vm_compute; reflexivity..| |].
  - vm_compute. done.
  - intros q x sx Hq _. apply no_manager_ok; [vm_compute; reflexivity|done].
Qed.


(** Two processes wait to send to the terminal driver. The first of them keeps
    its link to the second when the driver dies, and its next message that has
    to wait fails the assertion of [mini_send] that there is no such link. *)
Definition two_waiting_k : kstate :=
  match send_block (proc_addr RS_PROC_NR) TTY_PROC_NR tty (KernPtr zero_message) FROM_KERNEL waiting_k with Some (_, k) => k | None => up ∅ end.

Definition stale_k : option kstate :=
  match do_clear TTY_PROC_NR (with_ikern two_waiting_k irq_s1) with Some (OK, s) => Some (ikern s) | _ => None end.

Lemma stale_link_fails :
  (fun k => (has (default 0 (fld p_rts_flags k !! vfs)) RTS_SENDING, fld p_q_link k !! vfs)) <$> stale_k = Some (false, Some (proc_addr RS_PROC_NR)) /\
  (stale_k ≫= mini_send vfs MEM_PROC_NR (KernPtr zero_message) FROM_KERNEL) = None /\
  fst <$> mini_send vfs MEM_PROC_NR (KernPtr zero_message) FROM_KERNEL (up ∅) = Some OK.
Proof. split_and!; vm_compute; reflexivity. Qed.
