(* ===== verification/KFork.v ===== *)
(** New processes and new programs: what do_fork and do_exec do to the tables of
    the kernel. *)

From S2P Require Import Prelude Chain Timers KState KSched KBoot KWait KNotify KBase KFrame KMain KSignal KIpc KSend KAsyn KRecv KClock KPriv KCorrect KIrq KSys KLife KLifeOk KLifeSweep KLifeFree.
Local Open Scope Z_scope.

(** ** A slot that is not in the queues *)

Lemma rq_ok_out k rq p r r' :
  rq_ok k rq -> procs k !! p = Some r -> p_rts_flags r <> 0 -> p_rts_flags r' <> 0 -> queue_nr (p_priority r') ->
  rq_ok (put_proc p r' k) rq.
Proof.
  intros [[Hch Htl Hdj] He Hp Hn] Hr Hf Hf' Hq. assert (forall q, queue_nr q -> p ∉ rq q) as Hout.
  { intros q Hqn [E _]%He; [|done]. rewrite (fld_of _ _ _ _ Hr) in E. congruence. }
  split; [split|..].
  - intros q Hqn. destruct (Hch q Hqn) as (h & Hh & Hc). exists h. split; [done|]. eapply chain_links_ext, Hc.
    intros x Hx. rewrite fld_put, lookup_insert_ne; [done|]. intros ->. by destruct (Hout q Hqn).
  - exact Htl.
  - exact Hdj.
  - intros q x Hqn. destruct (decide (x = p)) as [->|Hx].
    + split; [by intros []%Hout|]. rewrite fld_put, lookup_insert_eq. intros [[=] _]. done.
    + rewrite !fld_put, !lookup_insert_ne by done. by apply He.
  - intros x q. rewrite fld_put. destruct (decide (x = p)) as [->|Hx]; [rewrite lookup_insert_eq; by intros [= <-]|].
    rewrite lookup_insert_ne by done. apply Hp.
  - simpl. rewrite lookup_insert_ne; [done|]. intros ->. congruence.
Qed.

(** A slot that does not run changes its identity. *)
Lemma kbase_spawn k p r r' :
  kbase k -> in_table p = true -> procs k !! p = Some r -> p <> proc_ptr k -> p_rts_flags r <> 0 ->
  p_rts_flags r' <> 0 -> has (p_rts_flags r') RTS_SLOT_FREE = false -> queue_nr (p_priority r') -> is_Some (privs k !! p_priv r') ->
  pinv (privs k) (<[p := pid r']> (fld pid k)) -> kbase (put_proc p r' k).
Proof.
  intros [[rq [Hrq (rc & sc & Hrc & Hsc) [Hs Hi] Hpr (ri & si & Hid & Hsi)]] Hf Hp Ht] Hpt Hr Hpp Hfl Hfl' Hfr Hq Hpv Hpi.
  assert (p <> idle_proc) as Hne by (by intros ->). split; [|by eapply flags_ok_put|by rewrite fld_put|done]. exists rq. split.
  - by eapply rq_ok_out.
  - exists rc, sc. simpl. by rewrite lookup_insert_ne.
  - split; simpl.
    + intros x Hx. destruct (decide (p = x)) as [->|]; [by rewrite lookup_insert_eq|]. rewrite lookup_insert_ne by done. by apply Hs.
    + intros x rx Hx Hxt. rewrite lookup_insert_ne in Hx by congruence. by eapply Hi.
  - intros x rx. simpl. destruct (decide (p = x)) as [->|]; [rewrite lookup_insert_eq; by intros [= <-]|].
    rewrite lookup_insert_ne by done. apply Hpr.
  - exists ri, si. simpl. by rewrite lookup_insert_ne.
Qed.

(** Flags of a process that does not become runnable. *)
Lemma set_quiet k p r f :
  procs k !! p = Some r -> p_rts_flags r <> 0 -> RTS_SET p f k = Some (tt, put_proc p (set_rts f r) k).
Proof.
  intros Hr Hf. unfold RTS_SET. rewrite (bind_run _ _ _ _ _ (rd_run p_rts_flags _ _ _ Hr)), (bind_run _ _ _ _ _ (upd_run _ _ _ _ Hr)).
  erewrite (bind_run _ _ _ _ _ (rd_run p_rts_flags p _ (set_rts f r) _)). apply Z.eqb_neq in Hf. by rewrite Hf.
  Unshelve. simpl. apply lookup_insert_eq.
Qed.

Lemma unset_quiet k p r f :
  procs k !! p = Some r -> p_rts_flags (clear_rts f r) <> 0 -> RTS_UNSET p f k = Some (tt, put_proc p (clear_rts f r) k).
Proof.
  intros Hr Hf. unfold RTS_UNSET. rewrite (bind_run _ _ _ _ _ (rd_run p_rts_flags _ _ _ Hr)), (bind_run _ _ _ _ _ (upd_run _ _ _ _ Hr)).
  erewrite (bind_run _ _ _ _ _ (rd_run p_rts_flags p _ (clear_rts f r) _)). apply Z.eqb_neq in Hf. by rewrite Hf, andb_false_r.
  Unshelve. simpl. apply lookup_insert_eq.
Qed.

(** A new process with the privileges that another one has already. *)
Lemma pinv_spawn pr pd c d0 d q x s :
  pinv pr pd -> pd !! c = Some d0 -> d_free d0 = true -> in_table c = true -> c = proc_addr (d_nr d) -> _ENDPOINT_P (d_ep d) = d_nr d ->
  pd !! q = Some x -> in_table q = true -> d_free x = false -> iskerneln (d_nr x) = false -> d_priv x = d_priv d ->
  pr !! d_priv d = Some s -> has (s_flags s) SYS_PROC = false ->
  pinv pr (<[c := d]> pd).
Proof.
  intros Hp Hc Hcf Hct Ec Eep Hq Hqt Hqf Hqn Eq Hs Hsys.
  assert (forall y w, pd !! y = Some w -> d_free w = false -> <[c := d]> pd !! y = Some w) as Hkeep.
  { intros y w Hy Hf. rewrite lookup_insert_ne; [done|]. intros ->. congruence. }
  assert (forall j, sys_source pr pd j -> sys_source pr (<[c := d]> pd) j) as Hsrc.
  { intros j (t & w & Ht & ? & ? & Hw & ? & ? & ?). exists t, w. split_and!; try done. by apply Hkeep. }
  assert (forall i, owned (<[c := d]> pd) i -> owned pd i) as Hown.
  { intros i (y & w & Hy & Hyt & Hyf & <-). destruct (decide (y = c)) as [->|Hyc]; [|rewrite lookup_insert_ne in Hy by done; by exists y, w].
    rewrite lookup_insert_eq in Hy. injection Hy as <-. by exists q, x. }
  assert (forall m, (m = SELF \/ exists w, pd !! target m = Some w /\ isokprocn (_ENDPOINT_P m) = true /\ d_free w = false /\ d_ep w = m) ->
    m = SELF \/ exists w, <[c := d]> pd !! target m = Some w /\ isokprocn (_ENDPOINT_P m) = true /\ d_free w = false /\ d_ep w = m) as Hmgr.
  { intros m [?|(w & Hw & ? & ? & ?)]; [by left|right]. exists w. split_and!; try done. by apply Hkeep. }
  assert (forall y w, <[c := d]> pd !! y = Some w -> y = c /\ w = d \/ pd !! y = Some w) as Hcase.
  { intros y w. destruct (decide (y = c)) as [->|]; [rewrite lookup_insert_eq; intros [= <-]; by left|rewrite lookup_insert_ne by done; by right]. }
  split.
  - intros y w [[-> ->]|Hy]%Hcase Hyt; [done|by apply (pi_nr _ _ Hp)].
  - intros y w [[-> ->]|Hy]%Hcase Hyt Hyf; [rewrite <- Eq; by eapply (pi_priv _ _ Hp q)|by eapply (pi_priv _ _ Hp)].
  - apply Hp.
  - intros y w t [[-> ->]|Hy]%Hcase Hyt Hyf Ht Htsys; [congruence|by eapply (pi_own _ _ Hp)].
  - intros i t j Ho Ht Hj Hb. apply Hsrc. eapply (pi_notify _ _ Hp); [by apply Hown|done..].
  - intros i t j Ho Ht Hj Hb. apply Hsrc. eapply (pi_asyn _ _ Hp); [by apply Hown|done..].
  - apply Hp.
  - intros y w t [[-> ->]|Hy]%Hcase Hyt Hyf Hyn Ht; apply Hmgr; [|by eapply (pi_sigmgr _ _ Hp y w)].
    eapply (pi_sigmgr _ _ Hp q x); [done..|by rewrite Eq].
  - apply Hp.
  - apply Hp.
  - intros t Ht. destruct (pi_tasks _ _ Hp t Ht) as (w & st & Hw & Hf & Hst). exists w, st. split; [by apply Hkeep|done].
Qed.

(** Nobody waits for a free slot. *)
Lemma free_waits m cq c v0 q w e :
  ipc_inv m cq -> m !! c = Some v0 -> v_free v0 = true -> m !! q = Some w -> v_blockedon w = e -> e <> NONE -> e <> ANY -> target e <> c.
Proof.
  intros Hi Hc Hf Hq Hb Hn Ha Ht. assert (live_ep m e) as (x & Hx & _ & Hxf & _); [|rewrite Ht in Hx; congruence].
  unfold v_blockedon in Hb. destruct (v_out w) eqn:Eo; [subst; by eapply (i_send _ _ Hi q)|].
  destruct (v_in w) eqn:Ei; [|congruence]. subst. by destruct (i_recv _ _ Hi q w e Hq Ei) as [_ [?|?]].
Qed.

Lemma free_path m cq c v0 q l :
  ipc_inv m cq -> m !! c = Some v0 -> v_free v0 = true -> chain (waits m) q l -> q <> c -> c ∉ l.
Proof.
  intros Hi Hc Hf Hl Hq. unfold chain in Hl. remember 0 as z eqn:Ez. induction Hl as [|p n l z Hp Hn Hl IH]; [by intros ?%elem_of_nil|].
  apply not_elem_of_cons. split; [done|]. unfold waits in Hn. destruct (m !! p) as [w|] eqn:Hw; [|done]. injection Hn as <-.
  destruct (decide (awaited w = 0)) as [E0|E0]; [rewrite E0, Ez in Hl; apply chain_nil_inv in Hl as ->; by intros ?%elem_of_nil|].
  apply IH; [done|]. unfold awaited in *. destruct (Z.eqb_spec (v_blockedon w) NONE); [done|]. destruct (Z.eqb_spec (v_blockedon w) ANY); [done|].
  simpl. by eapply free_waits.
Qed.

Lemma free_quiet m cq c v0 : ipc_inv m cq -> m !! c = Some v0 -> v_free v0 = true -> v_out v0 = None /\ v_in v0 = None /\ v_qlink v0 = 0.
Proof.
  intros Hi Hc Hf. assert (v_out v0 = None) as Ho.
  { destruct (v_out v0) eqn:E; [|done]. destruct (i_blk _ _ Hi c v0 Hc) as (_ & ? & _); [left; by eexists|congruence]. }
  split_and!; [done| |by apply (i_link0 _ _ Hi c)].
  destruct (v_in v0) eqn:E; [|done]. destruct (i_blk _ _ Hi c v0 Hc) as (_ & ? & _); [right; by eexists|congruence].
Qed.

Lemma free_queue m cq c v0 : ipc_inv m cq -> m !! c = Some v0 -> v_free v0 = true -> in_table c = true -> cq c = [].
Proof.
  intros Hi Hc Hf Ht. destruct (cq c) as [|y l] eqn:El; [done|]. exfalso. assert (y ∈ cq c) as Hy by (rewrite El; left).
  apply (i_member _ _ Hi) in Hy as (w & e & Hw & He & Et); [|done]. destruct (i_send _ _ Hi y w e Hw He) as [_ Hl].
  destruct (live_not_special _ _ Hl). eapply (free_waits m cq c v0 y w e); try done. unfold v_blockedon. by rewrite He.
Qed.

(** A new process that waits for a message as [v] does. *)
Lemma inv_spawn m cq c v0 p v v' :
  ipc_inv m cq -> m !! c = Some v0 -> v_free v0 = true -> in_table c = true ->
  c = proc_addr (v_nr v') -> _ENDPOINT_P (v_ep v') = v_nr v' -> v_free v' = false -> iskerneln (v_nr v') = false ->
  m !! p = Some v -> p <> c -> v_out v = None -> v_out v' = None -> v_in v' = v_in v -> v_deliver v' = v_deliver v ->
  v_callerq v' = 0 -> v_qlink v' = 0 -> ipc_inv (<[c := v']> m) cq.
Proof.
  intros Hi Hc Hcf Hct Ec Eep Hf' Hn' Hp Hpc Ho Ho' Hin Hdel Hcq Hql. destruct (free_quiet _ _ _ _ Hi Hc Hcf) as (Ho0 & Hin0 & Hq0).
  assert (forall e, live_ep m e -> live_ep (<[c := v']> m) e) as Hlive.
  { intros e (w & Hw & Hok & Hf & He). exists w. rewrite lookup_insert_ne; [done|]. intros E. rewrite E in Hc. congruence. }
  assert (forall y w, <[c := v']> m !! y = Some w -> y = c /\ w = v' \/ y <> c /\ m !! y = Some w) as Hcase.
  { intros y w. destruct (decide (y = c)) as [->|]; [rewrite lookup_insert_eq; intros [= <-]; by left|rewrite lookup_insert_ne by done; by right]. }
  assert (v_qlink <$> <[c := v']> m = v_qlink <$> m) as Elk
    by (rewrite fmap_insert, Hql, <- Hq0; apply insert_id; by rewrite lookup_fmap, Hc).
  assert (forall q, q <> c -> is_Some (m !! q) -> exists l, chain (waits (<[c := v']> m)) q l /\ c ∉ l) as Hpath.
  { intros q Hq Hs. destruct (i_acyc _ _ Hi q Hs) as [l Hl]. pose proof (free_path _ _ _ _ _ _ Hi Hc Hcf Hl Hq) as Hn. exists l.
    split; [|done]. eapply lseg_cut; [exact Hl|]. intros x Hx. apply waits_put. by intros ->. }
  split.
  - rewrite lookup_insert_ne; [apply Hi|]. intros ->. by rewrite (i_null _ _ Hi) in Hc.
  - intros y w [[-> ->]|[_ Hy]]%Hcase; [done|by apply (i_slot _ _ Hi)].
  - intros y w [[-> ->]|[_ Hy]]%Hcase; [done|by apply (i_blk _ _ Hi)].
  - intros y w e [[-> ->]|[_ Hy]]%Hcase He.
    + rewrite Hin in He. rewrite Hdel. destruct (i_recv _ _ Hi p v e Hp He) as [? [?|?]]; auto.
    + destruct (i_recv _ _ Hi y w e Hy He) as [? [?|?]]; auto.
  - intros y w e [[-> ->]|[_ Hy]]%Hcase He; [congruence|]. destruct (i_send _ _ Hi y w e Hy He). auto.
  - intros y w e e' [[-> ->]|[_ Hy]]%Hcase; [congruence|by apply (i_same _ _ Hi y)].
  - intros y w [[-> ->]|[_ Hy]]%Hcase; [done|by apply (i_link0 _ _ Hi y)].
  - intros y w Hw Hyt. rewrite Elk. destruct (Hcase _ _ Hw) as [[-> ->]|[_ Hy]]; [|by apply (i_queue _ _ Hi)].
    rewrite Hcq, (free_queue _ _ _ _ Hi Hc Hcf Hct). constructor.
  - intros d y Hd. rewrite (i_member _ _ Hi d y Hd). split; intros (w & e & Hw & He & Et); exists w, e.
    + rewrite lookup_insert_ne; [done|]. intros ->. congruence.
    + destruct (Hcase _ _ Hw) as [[-> ->]|[_ Hy]]; [congruence|done].
  - intros y Hy. destruct (decide (y = c)) as [->|Hyc]; [|destruct (Hpath y Hyc) as (l & Hl & _); [by rewrite lookup_insert_ne in Hy|by exists l]].
    destruct (Hpath p Hpc) as (l & Hl & Hn); [by eexists|]. assert (p <> 0) as Hp0 by (intros ->; by rewrite (i_null _ _ Hi) in Hp).
    destruct (chain_cons_inv _ _ _ Hl Hp0) as (x & l' & -> & Hx & Hl'). exists (c :: l'). econstructor; [|rewrite waits_put_eq|exact Hl'].
    + intros ->. by rewrite (i_null _ _ Hi) in Hc.
    + rewrite waits_put in Hx by done. unfold waits in Hx. rewrite Hp in Hx. simpl in Hx. rewrite <- Hx. f_equal.
      unfold awaited, v_blockedon. by rewrite Ho, Ho', Hin.
Qed.

(** ** [do_fork] *)

Lemma put_at p x k : procs (put_proc p x k) !! p = Some x.
Proof. simpl. apply lookup_insert_eq. Qed.

(** The child of a process, when all is done. *)
Definition fork_child (slot gen : Z) (sys inhibit : bool) (r : proc) : proc :=
  let c := with_p_cpu_time_left 0 (with_p_cycles 0 (with_p_signal_received 0
    (acct (fun _ => Accounting 0 0 0 0 0 0) (set_rts RTS_NO_QUANTUM (fork_copy slot gen r))))) in
  let c := if sys then with_p_priv USER_PRIV_ID (set_rts RTS_NO_PRIV c) else c in
  let c := if inhibit then set_rts RTS_VMINHIBIT c else c in
  with_p_pending ∅ (clear_rts (Z.lor RTS_SIGNALED (Z.lor RTS_SIG_PENDING RTS_P_STOP)) c).

Lemma has_nonzero fl b : has fl b = true -> fl <> 0.
Proof. intros E ->. by rewrite has_zero in E. Qed.

Lemma child_flags slot gen sys inhibit r b :
  Z.land (Z.lor RTS_SIGNALED (Z.lor RTS_SIG_PENDING RTS_P_STOP)) b = 0 ->
  has (p_rts_flags (fork_child slot gen sys inhibit r)) b =
    has (p_rts_flags r) b || has RTS_NO_QUANTUM b || (sys && has RTS_NO_PRIV b) || (inhibit && has RTS_VMINHIBIT b).
Proof.
  intros E. unfold fork_child. simpl. rewrite has_ldiff_disj by done. destruct sys, inhibit; simpl; rewrite !has_lor; by rewrite ?orb_false_r.
Qed.

Lemma child_quantum slot gen sys inhibit r : has (p_rts_flags (fork_child slot gen sys inhibit r)) RTS_NO_QUANTUM = true.
Proof. rewrite child_flags by done. change (has RTS_NO_QUANTUM RTS_NO_QUANTUM) with true. by rewrite orb_true_r. Qed.

(** What the caller of the kernel must see to: the parent waits for an answer,
    nobody waits for it, the slot is free, and user privileges exist. *)
Record forkable (k : kstate) (cq : Z -> list Z) (e slot : Z) (r c0 : proc) : Prop := {
  fk_kern : kinv k cq;
  fk_live : live_ep (fld view k) e;
  fk_parent : procs k !! target e = Some r;
  fk_waits : has (p_rts_flags r) RTS_RECEIVING = true /\ has (p_rts_flags r) RTS_SENDING = false;
  fk_queue : p_caller_q r = 0;
  fk_slot : 0 <= slot < NR_PROCS;
  fk_free : procs k !! proc_addr slot = Some c0 /\ p_rts_flags c0 = RTS_SLOT_FREE;
  fk_user : exists q x s, live k q /\ procs k !! q = Some x /\ iskerneln (p_nr x) = false /\ p_priv x = USER_PRIV_ID /\
    privs k !! USER_PRIV_ID = Some s /\ has (s_flags s) SYS_PROC = false;
}.

(** The slots of parent and child, and the parent's privileges. *)
Lemma fork_slots k cq e slot r c0 :
  forkable k cq e slot r c0 ->
  target e <> proc_addr slot /\ in_table (proc_addr slot) = true /\ has (p_misc_flags r) MF_DELIVERMSG = false /\
  exists s, privs k !! p_priv r = Some s.
Proof.
  intros [[Hk Hi] Hl Hr [Hrec _] _ Hs [Hc Hcf] _]. pose proof (live_flag _ _ _ (live_target _ _ Hl) Hr) as Hf. split_and!.
  - intros E. rewrite E, Hc in Hr. injection Hr as <-. by rewrite Hcf in Hf.
  - unfold in_table, proc_addr. rewrite andb_true_iff, Z.leb_le, Z.ltb_lt. change NR_TASKS with 5 in *. change NR_PROCS with 256 in *. lia.
  - assert (v_in (view r) = Some (p_getfrom_e r)) as Hin by (unfold view; simpl; by rewrite Hrec).
    by destruct (i_recv _ _ Hi _ _ _ (fld_of view _ _ _ Hr) Hin) as [? _].
  - destruct (kbase_priv _ _ _ Hk (live_target _ _ Hl) Hr) as (_ & s & Hps & _). by exists s.
Qed.

(** The last steps. *)
Lemma fork_finish k c x r p (inhibit : bool) :
  procs k !! p = Some r -> p <> c -> has (p_rts_flags x) RTS_NO_QUANTUM = true ->
  (ep ← rd p_endpoint c;
   va ← rd p_delivermsg_vir p;
   (if inhibit then RTS_SET c RTS_VMINHIBIT else mret tt);;
   RTS_UNSET c (Z.lor RTS_SIGNALED (Z.lor RTS_SIG_PENDING RTS_P_STOP));;
   upd c (with_p_pending ∅);;
   mret (OK, Some (ep, va))) (put_proc c x k) =
  Some ((OK, Some (p_endpoint x, p_delivermsg_vir r)), put_proc c (with_p_pending ∅
    (clear_rts (Z.lor RTS_SIGNALED (Z.lor RTS_SIG_PENDING RTS_P_STOP)) (if inhibit then set_rts RTS_VMINHIBIT x else x))) k).
Proof.
  intros Hr Hp Hq. assert (procs (put_proc c x k) !! p = Some r) as Hrp by (simpl; by rewrite lookup_insert_ne).
  rewrite (bind_run _ _ _ _ _ (rd_run p_endpoint _ _ _ (put_at _ _ _))), (bind_run _ _ _ _ _ (rd_run p_delivermsg_vir _ _ _ Hrp)).
  set (y := if inhibit then set_rts RTS_VMINHIBIT x else x).
  assert ((if inhibit then RTS_SET c RTS_VMINHIBIT else mret tt) (put_proc c x k) = Some (tt, put_proc c y k)) as E.
  { unfold y. destruct inhibit; [|done]. by rewrite (set_quiet _ _ _ _ (put_at _ _ _) (has_nonzero _ _ Hq)), put_proc_put. }
  rewrite (bind_run _ _ _ _ _ E). assert (has (p_rts_flags y) RTS_NO_QUANTUM = true) as Hqy.
  { unfold y. destruct inhibit; [|done]. simpl. by rewrite has_lor, Hq. }
  assert (p_rts_flags (clear_rts (Z.lor RTS_SIGNALED (Z.lor RTS_SIG_PENDING RTS_P_STOP)) y) <> 0) as Hz.
  { apply (has_nonzero _ RTS_NO_QUANTUM). simpl. by rewrite has_ldiff_disj. }
  rewrite (bind_run _ _ _ _ _ (unset_quiet _ _ _ _ (put_at _ _ _) Hz)), put_proc_put.
  by rewrite (bind_run _ _ _ _ _ (upd_run _ _ _ _ (put_at _ _ _))), put_proc_put.
Qed.

(** The whole call is one assignment to the slot of the child. *)
Lemma do_fork_run k cq e slot flags r c0 s :
  forkable k cq e slot r c0 -> privs k !! p_priv r = Some s ->
  do_fork e slot flags k = Some ((OK, Some (_ENDPOINT (next_generation (_ENDPOINT_G (p_endpoint c0))) slot, p_delivermsg_vir r)),
    put_proc (proc_addr slot) (fork_child slot (next_generation (_ENDPOINT_G (p_endpoint c0))) (has (s_flags s) SYS_PROC) (has flags PFF_VMINHIBIT) r) k).
Proof.
  intros Hfk Hps. destruct (fork_slots _ _ _ _ _ _ Hfk) as (Hpc & Hct & Hdel & _). destruct Hfk as [[Hk Hi] Hl Hr [Hrec Hsnd] Hq Hs [Hc Hcf] _].
  unfold do_fork. destruct (isokendpt_run k e Hk) as [[_ E]|[? _]]; [|done]. rewrite (bind_run _ _ _ _ _ E). fold (target e). unfold isemptyp.
  rewrite !bind_assoc, (bind_run _ _ _ _ _ (rd_run p_rts_flags _ _ _ Hr)), (bind_run (mret _) _ k _ k eq_refl).
  rewrite !bind_assoc, (bind_run _ _ _ _ _ (rd_run p_rts_flags _ _ _ Hc)), (bind_run (mret _) _ k _ k eq_refl).
  rewrite (free_flag _ _ _ Hk Hr), (live_flag _ _ _ (live_target _ _ Hl) Hr), Hcf. cbn [negb orb].
  change (RTS_SLOT_FREE =? RTS_SLOT_FREE) with true. cbn [negb].
  rewrite (bind_run _ _ _ _ _ (rd_run p_misc_flags _ _ _ Hr)), Hdel. cbn [negb]. rewrite (bind_run (kassert true) _ k tt k eq_refl).
  rewrite (bind_run _ _ _ _ _ (rd_run p_rts_flags _ _ _ Hr)), isset_has, Hrec by tauto. cbn [negb].
  rewrite (bind_run _ _ _ _ _ (rd_run p_endpoint _ _ _ Hc)), (bind_run get _ k k k eq_refl), Hr, (bind_run (opt (Some r)) _ k r k eq_refl).
  set (g := next_generation _). set (c := proc_addr slot) in *. rewrite (bind_run _ _ _ _ _ (upd_run _ _ _ _ Hc)).
  assert (p_rts_flags (fork_copy slot g r) <> 0) as Hz by (eapply has_nonzero; exact Hrec).
  rewrite (bind_run _ _ _ _ _ (set_quiet _ _ _ _ (put_at _ _ _) Hz)), put_proc_put. unfold reset_proc_accounting.
  do 2 rewrite (bind_run _ _ _ _ _ (upd_run _ _ _ _ (put_at _ _ _))), put_proc_put.
  assert (forall x, procs (put_proc c x k) !! target e = Some r) as Hrp by (intros x; simpl; by rewrite lookup_insert_ne).
  rewrite (bind_run _ _ _ _ _ (rdp_run s_flags (target e) (put_proc c _ k) r s (Hrp _) Hps)). destruct (has (s_flags s) SYS_PROC).
  - rewrite (bind_run _ _ _ _ _ (upd_run _ _ _ _ (put_at _ _ _))), put_proc_put.
    etransitivity; [apply (fork_finish k c _ r (target e)); [done|done|]|reflexivity]. simpl. rewrite !has_lor. change (has RTS_NO_QUANTUM RTS_NO_QUANTUM) with true. by rewrite orb_true_r.
  - rewrite (bind_run (mret tt) _ _ tt _ eq_refl).
    etransitivity; [apply (fork_finish k c _ r (target e)); [done|done|]|reflexivity]. simpl. rewrite !has_lor. change (has RTS_NO_QUANTUM RTS_NO_QUANTUM) with true. by rewrite orb_true_r.
Qed.

Lemma next_generation_new g : next_generation g <> g.
Proof. unfold next_generation. change _ENDPOINT_MAX_GENERATION with 65534. destruct (Z.leb_spec 65534 (g + 1)); lia. Qed.

Lemma slot_nr slot : 0 <= slot < NR_PROCS -> slot_range slot.
Proof. unfold slot_range. change NR_PROCS with 256. change MAX_NR_TASKS with 1023. change MAX_NR_PROCS with 31742. lia. Qed.

Lemma child_view slot gen sys inhibit r :
  let v := view (fork_child slot gen sys inhibit r) in
  v_nr v = slot /\ v_ep v = _ENDPOINT gen slot /\ v_free v = v_free (view r) /\ v_out v = v_out (view r) /\ v_in v = v_in (view r) /\
  v_deliver v = v_deliver (view r) /\ v_callerq v = p_caller_q r /\ v_qlink v = p_q_link r.
Proof.
  assert (forall b, Z.land (Z.lor RTS_SIGNALED (Z.lor RTS_SIG_PENDING RTS_P_STOP)) b = 0 -> has RTS_NO_QUANTUM b = false ->
    has RTS_NO_PRIV b = false -> has RTS_VMINHIBIT b = false ->
    has (p_rts_flags (fork_child slot gen sys inhibit r)) b = has (p_rts_flags r) b) as Hfl.
  { intros b H1 H2 H3 H4. by rewrite child_flags, H2, H3, H4, !andb_false_r, !orb_false_r. }
  unfold view. cbv zeta. cbn [v_free v_out v_in v_nr v_ep v_deliver v_callerq v_qlink]. rewrite !Hfl by done.
  unfold fork_child. destruct sys, inhibit; simpl; split_and!; try done; by rewrite has_ldiff_disj.
Qed.

Lemma fork_kinv k cq e slot r c0 s inhibit g :
  forkable k cq e slot r c0 -> privs k !! p_priv r = Some s ->
  kinv (put_proc (proc_addr slot) (fork_child slot g (has (s_flags s) SYS_PROC) inhibit r) k) cq.
Proof.
  intros Hfk Hps. destruct (fork_slots _ _ _ _ _ _ Hfk) as (Hpc & Hct & Hdel & _).
  destruct Hfk as [[Hk Hi] Hl Hr [Hrec Hsnd] Hq Hs [Hc Hcf] (q & x & su & Hql & Hqx & Hqn & Hqp & Hsu & Hsus)].
  set (c := fork_child _ _ _ _ _). destruct (child_view slot g (has (s_flags s) SYS_PROC) inhibit r) as (Vn & Ve & Vf & Vo & Vi & Vd & Vq & Vl).
  fold c in Vn, Ve, Vf, Vo, Vi, Vd, Vq, Vl. pose proof (live_flag _ _ _ (live_target _ _ Hl) Hr) as Hf.
  destruct (slot_of_endpoint g slot (slot_nr _ Hs)) as [Es _]. pose proof (fld_of view _ _ _ Hr) as Hv.
  destruct (i_blk _ _ Hi _ _ Hv) as (Hpt & _ & Hpn); [right; unfold view; simpl; rewrite Hrec; by eexists|].
  assert (v_out (view r) = None) as Ho by (unfold view; simpl; by rewrite Hsnd).
  assert (exists y w, live k y /\ procs k !! y = Some w /\ iskerneln (p_nr w) = false /\ p_priv w = p_priv c /\
    exists t, privs k !! p_priv c = Some t /\ has (s_flags t) SYS_PROC = false) as (y & w & Hyl & Hyw & Hyn & Hyp & t & Ht & Hts).
  { unfold c, fork_child. destruct (has (s_flags s) SYS_PROC) eqn:Hsys.
    - exists q, x. destruct inhibit; split_and!; try done; by exists su.
    - exists (target e), r. destruct inhibit; (split_and!; [by apply live_target|done|done|done|]); by exists s. }
  split.
  - eapply (kbase_spawn k (proc_addr slot) c0 c); [done|done|done| |by rewrite Hcf| |rewrite <- Hf; exact Vf|..].
    + intros E. destruct (kb_flags _ Hk) as [_ Hpp]. specialize (Hpp RTS_SLOT_FREE). rewrite <- E, (fld_of _ _ _ _ Hc), Hcf in Hpp. by discriminate Hpp.
    + eapply has_nonzero, child_quantum.
    + destruct (kb_sched _ Hk) as [rq Hsi]. apply (rq_prio _ _ (si_rq _ _ Hsi) (target e)). rewrite (fld_of _ _ _ _ Hr).
      unfold c, fork_child. by destruct (has (s_flags s) SYS_PROC), inhibit.
    + by eexists.
    + eapply (pinv_spawn _ _ _ (pid c0) (pid c) y (pid w) t); try done; [apply Hk|by apply fld_of|simpl; by rewrite Hcf| | |by apply fld_of|apply Hyl|by eapply live_flag].
      * change (proc_addr slot = proc_addr (v_nr (view c))). by rewrite Vn.
      * change (_ENDPOINT_P (v_ep (view c)) = v_nr (view c)). by rewrite Ve, Vn.
  - rewrite fld_put. eapply (inv_spawn _ _ _ (view c0) (target e) (view r)); try done; [by apply fld_of|simpl; by rewrite Hcf|by rewrite Vn|by rewrite Ve, Vn| | |congruence|congruence|].
    + by rewrite Vf.
    + rewrite Vn. unfold iskerneln. apply Z.ltb_ge. lia.
    + rewrite Vl. by apply (i_link0 _ _ Hi _ _ Hv).
Qed.


(** ** [do_exec] *)

(** A process that expects no message. *)
Definition v_exec (v : ipcv) : ipcv :=
  IpcV (v_nr v) (v_ep v) (v_free v) (v_noep v) false (v_callerq v) (v_qlink v) (v_out v) None (v_msg v) (v_sendmsg v).

Lemma inv_exec m cq p v : ipc_inv m cq -> m !! p = Some v -> ipc_inv (<[p := v_exec v]> m) cq.
Proof.
  intros Hi Hv. assert (p <> 0) as Hp0 by (intros ->; by rewrite (i_null _ _ Hi) in Hv). eapply inv_put; [done|done| |].
  - split; try done. intros [e He]. by destruct (i_send _ _ Hi p v e Hv He).
  - intros q Hq. destruct (i_acyc _ _ Hi q Hq) as [l Hl]. destruct (v_out v) as [e|] eqn:Ho.
    + exists l. eapply lseg_ext, Hl. intros x _. unfold waits. destruct (decide (x = p)) as [->|Hx]; [|by rewrite lookup_insert_ne].
      rewrite lookup_insert_eq, Hv. unfold awaited, v_blockedon. simpl. by rewrite Ho.
    + eapply (paths_cut (waits m) _ p); [|..|done|exact Hl]; [intros; by apply waits_put|].
      rewrite waits_put_eq. unfold awaited, v_blockedon. simpl. by rewrite Ho.
Qed.

Definition v_with_deliver_off (v : ipcv) : ipcv :=
  IpcV (v_nr v) (v_ep v) (v_free v) (v_noep v) false (v_callerq v) (v_qlink v) (v_out v) (v_in v) (v_msg v) (v_sendmsg v).

(** An old message is not delivered. *)
Lemma no_delivery_run k p r :
  kbase k -> in_table p = true -> procs k !! p = Some r ->
  runs (if has (p_misc_flags r) MF_DELIVERMSG then upd p (clear_misc MF_DELIVERMSG) else mret tt) k (fun _ k' => kbase k' /\
    fld view k' = <[p := v_with_deliver_off (view r)]> (fld view k)).
Proof.
  intros Hk Hp Hr. destruct (has (p_misc_flags r) MF_DELIVERMSG) eqn:Hd; kstep.
  - split; [by eapply kbase_put|]. rewrite fld_put. f_equal. unfold view, v_with_deliver_off. simpl. by rewrite has_ldiff_same.
  - split; [done|]. symmetry. apply insert_id. rewrite (fld_of _ _ _ _ Hr). f_equal. unfold view, v_with_deliver_off. simpl. by rewrite Hd.
Qed.

Lemma release_fpu_run k p : kbase k -> runs (release_fpu p) k (fun _ k' => kbase k' /\ fld view k' = fld view k).
Proof.
  intros Hk. unfold release_fpu. kstep. destruct (fpu_owner k =? p); [|by kstep]. eapply runs_of; [reflexivity|]. split; [by eapply kbase_ext|done].
Qed.

(** The new program starts without the message the old one waited for: a
    process that executes a new program neither receives nor has a message to
    be delivered. *)
Lemma do_exec_run k cq e ps :
  kinv k cq -> live_ep (fld view k) e ->
  runs (do_exec e ps) k (fun res k' => res = OK /\ kinv k' cq /\
    exists v, fld view k !! target e = Some v /\ fld view k' = <[target e := v_exec v]> (fld view k)).
Proof.
  intros [Hk Hi] Hl. destruct (live_slot _ _ Hl) as (r & Hr & Hp & Ee & Hf). pose proof (fld_of view _ _ _ Hr) as Hv.
  unfold do_exec. destruct (isokendpt_run k e Hk) as [[_ E]|[? _]]; [|done]. eapply runs_step; [exact E|]. cbv iota.
  fold (target e). set (p := target e) in *. kstep.
  eapply runs_seq; [by apply no_delivery_run|]. intros [] k1 [Hk1 Ev1]. destruct (kbase_slot _ _ Hk1 Hp) as [r1 Hr1].
  eapply runs_seq; [eapply (quiet_upd k1 p r1); try done; unfold view; simpl; by rewrite has_lor, orb_false_r|]. intros [] k2 [Hk2 Ev2].
  destruct (kbase_slot _ _ Hk2 Hp) as [r2 Hr2].
  assert (view r2 = v_with_deliver_off (view r)) as E2 by (apply (view_at k2 p); [done|by rewrite Ev2, Ev1, lookup_insert_eq]).
  eapply runs_seq; [eapply (stop_receiving k2 p r2); [done|done|done|]; apply (f_equal v_free) in E2; simpl in E2; by rewrite E2|].
  intros [] k3 [Hk3 Ev3]. destruct (kbase_slot _ _ Hk3 Hp) as [r3 Hr3].
  eapply runs_seq; [eapply (quiet_upd k3 p r3); try done; unfold view; simpl; by rewrite has_ldiff_disj|]. intros [] k4 [Hk4 Ev4].
  eapply runs_seq; [by apply release_fpu_run|]. intros [] k5 [Hk5 Ev5]. kstep.
  assert (fld view k5 = <[p := v_exec (view r)]> (fld view k)) as Ev by (by rewrite Ev5, Ev4, Ev3, Ev2, Ev1, insert_insert_eq, E2).
  split_and!; [done|split; [done|rewrite Ev; by apply inv_exec]|]. by exists (view r).
Qed.

(** ** Instances *)

#[local] Existing Instance sig_numbers.
#[local] Existing Instance sig_laws.

Definition init : Z := proc_addr INIT_PROC_NR.
Definition init_proc (k : kstate) : proc := default zero_proc (procs k !! init).

(** The first user process waits for an answer of the process manager. *)
Definition fork_k : kstate := match mini_receive init PM_PROC_NR 0 0 (up ∅) with Some (_, k) => k | None => up ∅ end.

Lemma fork_k_inv : exists cq, kinv fork_k cq.
Proof.
  assert (runs (mini_receive init PM_PROC_NR 0 0) (up ∅) (fun _ k' => exists cq, kinv k' cq)) as Hrun.
  { eapply runs_mono; [apply (mini_receive_run (up ∅) (fun _ => []) init (init_proc (up ∅)) PM_PROC_NR 0 0 (up_kinv ∅));
      try (vm_compute; reflexivity)|by intros ? ? (cq & _ & ?); exists cq].
    - left. vm_compute. reflexivity.
    - right. split; [apply live_ep_of; vm_compute; reflexivity|done]. }
  destruct (runs_inv _ _ _ Hrun) as (res & k' & E & Hk). unfold fork_k. by rewrite E.
Qed.

Definition new_slot : Z := 100.

Lemma fork_k_ok cq : kinv fork_k cq -> forkable fork_k cq INIT_PROC_NR new_slot (init_proc fork_k) (default zero_proc (procs fork_k !! proc_addr new_slot)).
Proof.
  intros Hk. split; [done|apply live_ep_of; vm_compute; reflexivity|vm_compute; reflexivity|by split; vm_compute|by vm_compute|done|by split; vm_compute|].
  exists init, (init_proc fork_k), (default zero_priv (privs fork_k !! USER_PRIV_ID)).
  split; [apply (live_target _ INIT_PROC_NR), live_ep_of; vm_compute; reflexivity|]. split_and!; vm_compute; reflexivity.
Qed.


(** The child has a copy of the queue of senders of its parent. The file server
    waits to send to the first user process when that one forks; the child is
    answered, calls [receive], and gets the message of the file server, which
    then no longer waits for the parent. *)
Definition queue_copied : option (message * bool) :=
  '(_, k) ← send_block (proc_addr VFS_PROC_NR) INIT_PROC_NR init (KernPtr (Message 0 77 (m_notify 0 0 ∅))) FROM_KERNEL (up ∅);
  '(_, k) ← mini_receive init PM_PROC_NR 0 0 k;
  '(_, k) ← do_fork INIT_PROC_NR new_slot 0 k;
  '(_, k) ← mini_send (proc_addr PM_PROC_NR) (_ENDPOINT 1 new_slot) (KernPtr zero_message) FROM_KERNEL k;
  '(_, k) ← upd (proc_addr new_slot) (clear_misc MF_DELIVERMSG) k;
  '(_, k) ← mini_receive (proc_addr new_slot) ANY 0 0 k;
  c ← procs k !! proc_addr new_slot;
  f ← procs k !! proc_addr VFS_PROC_NR;
  mret (p_delivermsg c, has (p_rts_flags f) RTS_SENDING).

Lemma queue_is_copied : (fun x => (m_source (fst x), m_type (fst x), snd x)) <$> queue_copied = Some (VFS_PROC_NR, 77, false).
Proof. vm_compute. reflexivity. Qed.
