(* ===== verification/Sched.v ===== *)
(** The user-space scheduler (servers/sched: schedule.c, utility.c, main.c,
    schedproc.h) and the library calls that ask for it (lib/libsys:
    sched_start.c, sched_stop.c, sys_schedule.c, sys_schedctl.c), over the
    kernel's calls for scheduling and the timer library. *)

From S2P Require Import Prelude Chain Timers KState KSched KBoot KWait KNotify KBase KMain KSignal KIpc KSend KPriv KSys.
Local Open Scope Z_scope.

Definition BALANCE_TIMEOUT : Z := 5.
Definition SCHEDULE_CHANGE_PRIO : Z := 0x1.
Definition SCHEDULE_CHANGE_QUANTUM : Z := 0x2.
Definition SCHEDULE_CHANGE_CPU : Z := 0x4.
Definition SCHEDULE_CHANGE_ALL : Z := Z.lor SCHEDULE_CHANGE_PRIO (Z.lor SCHEDULE_CHANGE_QUANTUM SCHEDULE_CHANGE_CPU).
Definition CPU_DEAD : Z := -1.
Definition DEFAULT_USER_TIME_SLICE : Z := 200.
Definition IN_USE : Z := 0x00001.

Definition SCHEDULING_BASE : Z := 0xF00.
Definition SCHEDULING_START : Z := SCHEDULING_BASE + 2.
Definition SCHEDULING_STOP : Z := SCHEDULING_BASE + 3.
Definition SCHEDULING_SET_NICE : Z := SCHEDULING_BASE + 4.
Definition SCHEDULING_INHERIT : Z := SCHEDULING_BASE + 5.
Definition SUSPEND : kres := RetVal (-998).

(** The masks of processors are not used. *)
Record schedproc := SchedProc {
  sp_endpoint : Z;
  sp_parent : Z;
  sp_flags : Z;
  sp_max_priority : Z;
  sp_priority : Z;
  sp_time_slice : Z;
  sp_cpu : Z;
}.

Definition with_sp_flags (x : Z) (r : schedproc) : schedproc :=
  SchedProc (sp_endpoint r) (sp_parent r) x (sp_max_priority r) (sp_priority r) (sp_time_slice r) (sp_cpu r).
Definition with_sp_max_priority (x : Z) (r : schedproc) : schedproc :=
  SchedProc (sp_endpoint r) (sp_parent r) (sp_flags r) x (sp_priority r) (sp_time_slice r) (sp_cpu r).
Definition with_sp_priority (x : Z) (r : schedproc) : schedproc :=
  SchedProc (sp_endpoint r) (sp_parent r) (sp_flags r) (sp_max_priority r) x (sp_time_slice r) (sp_cpu r).
Definition with_sp_time_slice (x : Z) (r : schedproc) : schedproc :=
  SchedProc (sp_endpoint r) (sp_parent r) (sp_flags r) (sp_max_priority r) (sp_priority r) x (sp_cpu r).
Definition with_sp_cpu (x : Z) (r : schedproc) : schedproc :=
  SchedProc (sp_endpoint r) (sp_parent r) (sp_flags r) (sp_max_priority r) (sp_priority r) (sp_time_slice r) x.
Definition with_sp_ids (e p : Z) (r : schedproc) : schedproc :=
  SchedProc e p (sp_flags r) (sp_max_priority r) (sp_priority r) (sp_time_slice r) (sp_cpu r).

(** The variables of the server apart from its timer, and the kernel. *)
Record sched_state := SchedState {
  schedprocs : list schedproc;
  cpu_proc : list Z;
  balance_timeout : Z;
  skern : kstate;
}.

Notation SS := (ST sched_state).

Definition with_schedprocs (x : list schedproc) (s : sched_state) : sched_state :=
  SchedState x (cpu_proc s) (balance_timeout s) (skern s).
Definition with_skern (x : kstate) (s : sched_state) : sched_state :=
  SchedState (schedprocs s) (cpu_proc s) (balance_timeout s) x.

Definition rmp (n : Z) : SS schedproc := s ← get; opt (if 0 <=? n then schedprocs s !! Z.to_nat n else None).

Definition upd_rmp (n : Z) (f : schedproc -> schedproc) : SS unit :=
  r ← rmp n; modify (fun s => with_schedprocs (<[Z.to_nat n := f r]> (schedprocs s)) s).

(** A kernel call of the server. *)
Definition self_addr : Z := proc_addr SCHED_PROC_NR.

Definition kcall (m : K kres) : SS kres :=
  s ← get; r ← opt (m (skern s)); modify (with_skern (snd r));; mret (fst r).

Definition sys_schedule (proc_ep priority quantum cpu : Z) : SS kres := kcall (do_schedule self_addr proc_ep priority quantum cpu).

Definition sys_schedctl (flags proc_ep priority quantum cpu : Z) : SS kres :=
  kcall (do_schedctl self_addr flags proc_ep priority quantum cpu).

(** ** utility.c *)

(** The result and the slot. *)
Definition sched_isokendpt (endpoint : Z) : SS (kres * Z) :=
  let proc := _ENDPOINT_P endpoint in
  if proc <? 0 then mret (EBADEPT, proc)
  else if NR_PROCS <=? proc then mret (EINVAL, proc)
  else
    r ← rmp proc;
    if negb (endpoint =? sp_endpoint r) then mret (EDEADEPT, proc)
    else if negb (has (sp_flags r) IN_USE) then mret (EDEADEPT, proc)
    else mret (OK, proc).

Definition sched_isemtyendpt (endpoint : Z) : SS (kres * Z) :=
  let proc := _ENDPOINT_P endpoint in
  if proc <? 0 then mret (EBADEPT, proc)
  else if NR_PROCS <=? proc then mret (EINVAL, proc)
  else r ← rmp proc; if has (sp_flags r) IN_USE then mret (EDEADEPT, proc) else mret (OK, proc).

Definition accept_message (m_source : Z) : bool := (m_source =? PM_PROC_NR) || (m_source =? RS_PROC_NR).

Definition no_sys : kres := ENOSYS.

(** ** schedule.c *)

Definition pick_cpu (n : Z) : SS unit := upd_rmp n (with_sp_cpu 0).

Definition schedule_process (n flags : Z) : SS kres :=
  pick_cpu n;;
  r ← rmp n;
  let new_prio := if has flags SCHEDULE_CHANGE_PRIO then i32 (sp_priority r) else -1 in
  let new_quantum := if has flags SCHEDULE_CHANGE_QUANTUM then i32 (sp_time_slice r) else -1 in
  let new_cpu := if has flags SCHEDULE_CHANGE_CPU then i32 (sp_cpu r) else -1 in
  sys_schedule (sp_endpoint r) new_prio new_quantum new_cpu.

Definition schedule_process_local (n : Z) : SS kres := schedule_process n (Z.lor SCHEDULE_CHANGE_PRIO SCHEDULE_CHANGE_QUANTUM).

Definition do_noquantum (m_source : Z) : SS kres :=
  v ← sched_isokendpt m_source;
  if negb (is_OK (fst v)) then mret EBADEPT
  else
    let n := snd v in
    r ← rmp n;
    (if sp_priority r <? MIN_USER_Q then upd_rmp n (with_sp_priority (u32 (sp_priority r + 1))) else mret tt);;
    schedule_process_local n.

Definition do_stop_scheduling (m_source endpoint : Z) : SS kres :=
  if negb (accept_message m_source) then mret EPERM
  else
    v ← sched_isokendpt endpoint;
    if negb (is_OK (fst v)) then mret EBADEPT else upd_rmp (snd v) (with_sp_flags 0);; mret OK.

(** Processors that the kernel refuses are not tried again. *)
Fixpoint start_loop (fuel : nat) (n : Z) : SS kres :=
  match fuel with
  | O => ub
  | S fuel =>
      rv ← schedule_process n SCHEDULE_CHANGE_ALL;
      if bool_decide (rv = EBADCPU)
      then
        r ← rmp n;
        s ← get;
        opt (cpu_proc s !! Z.to_nat (sp_cpu r));;
        modify (fun s => SchedState (schedprocs s) (<[Z.to_nat (sp_cpu r) := u32 CPU_DEAD]> (cpu_proc s)) (balance_timeout s) (skern s));;
        pick_cpu n;;
        start_loop fuel n
      else mret rv
  end.

(** The priority and the time slice of a new process. *)
Definition start_policy (n m_type parent quantum : Z) : SS kres :=
  r ← rmp n;
  (if sp_endpoint r =? sp_parent r
   then upd_rmp n (with_sp_priority USER_Q);; upd_rmp n (with_sp_time_slice DEFAULT_USER_TIME_SLICE)
   else mret tt);;
  if m_type =? SCHEDULING_START
  then upd_rmp n (with_sp_priority (sp_max_priority r));; upd_rmp n (with_sp_time_slice (u32 quantum));; mret OK
  else
    w ← sched_isokendpt parent;
    if negb (is_OK (fst w)) then mret (fst w)
    else
      pr ← rmp (snd w);
      upd_rmp n (with_sp_priority (sp_priority pr));; upd_rmp n (with_sp_time_slice (sp_time_slice pr));; mret OK.

(** The end of [do_start_scheduling]. *)
Definition start_finish (n endpoint : Z) : SS (kres * option Z) :=
  rv ← sys_schedctl 0 endpoint 0 0 0;
  if negb (is_OK rv) then mret (rv, None)
  else
    upd_rmp n (with_sp_flags IN_USE);;
    pick_cpu n;;
    rv ← start_loop 2 n;
    if negb (is_OK rv) then mret (rv, None) else mret (OK, Some SCHED_PROC_NR).

(** The result, and the scheduler in the reply. *)
Definition do_start_scheduling (m_type m_source endpoint parent maxprio quantum : Z) : SS (kres * option Z) :=
  if negb ((m_type =? SCHEDULING_START) || (m_type =? SCHEDULING_INHERIT)) then ub
  else if negb (accept_message m_source) then mret (EPERM, None)
  else
    v ← sched_isemtyendpt endpoint;
    if negb (is_OK (fst v)) then mret (fst v, None)
    else
      let n := snd v in
      upd_rmp n (with_sp_ids endpoint parent);;
      upd_rmp n (with_sp_max_priority (u32 maxprio));;
      r ← rmp n;
      if NR_SCHED_QUEUES <=? sp_max_priority r then mret (EINVAL, None)
      else
        rv ← start_policy n m_type parent quantum;
        if negb (is_OK rv) then mret (rv, None)
        else start_finish n endpoint.

Definition do_nice (m_source endpoint maxprio : Z) : SS kres :=
  if negb (accept_message m_source) then mret EPERM
  else
    v ← sched_isokendpt endpoint;
    if negb (is_OK (fst v)) then mret EBADEPT
    else
      let n := snd v in
      let new_q := u32 maxprio in
      if NR_SCHED_QUEUES <=? new_q then mret EINVAL
      else
        r ← rmp n;
        let old_q := sp_priority r in
        let old_max_q := sp_max_priority r in
        upd_rmp n (with_sp_priority new_q);;
        upd_rmp n (with_sp_max_priority new_q);;
        rv ← schedule_process_local n;
        (if negb (is_OK rv) then upd_rmp n (with_sp_priority old_q);; upd_rmp n (with_sp_max_priority old_max_q) else mret tt);;
        mret rv.

Definition balance_one (n : Z) : SS unit :=
  r ← rmp n;
  if has (sp_flags r) IN_USE
  then
    if sp_max_priority r <? sp_priority r
    then upd_rmp n (with_sp_priority (u32 (sp_priority r - 1)));; schedule_process_local n;; mret tt
    else mret tt
  else mret tt.

Fixpoint balance_slots (ns : list Z) : SS unit :=
  match ns with
  | [] => mret tt
  | n :: ns' => balance_one n;; balance_slots ns'
  end.

Definition balance_all : SS unit := balance_slots (seqZ 0 NR_PROCS).

(** The timer and its watchdog function; [now] is the uptime. *)
Definition sched_timer : Z := 1.
Definition BALANCE_QUEUES : Z := 1.

Definition balance_queues (now : option Z) (w : sys_timers * sched_state) : option (sys_timers * sched_state) :=
  match balance_all (snd w) with
  | None => None
  | Some (_, s) =>
      match set_timer true (fst w) now sched_timer (balance_timeout s) BALANCE_QUEUES 0 with
      | None => None
      | Some t => Some (t, s)
      end
  end.

Definition watchdog (now : option Z) (f tp : Z) (w : sys_timers * sched_state) : option (sys_timers * sched_state) :=
  if f =? BALANCE_QUEUES then balance_queues now w else None.

Definition init_scheduling (hz : Z) (now : option Z) (w : sys_timers * sched_state) : option (sys_timers * sched_state) :=
  let s := SchedState (schedprocs (snd w)) (cpu_proc (snd w)) (u32 (BALANCE_TIMEOUT * hz)) (skern (snd w)) in
  match set_timer true (init_timer (fst w) sched_timer) now sched_timer (balance_timeout s) BALANCE_QUEUES 0 with
  | None => None
  | Some t => Some (t, s)
  end.

(** ** main.c *)

(** A message with its status, and the uptime when it arrives. *)
Record sched_msg := SchedMsg {
  sm_source : Z;
  sm_type : Z;
  sm_notify : bool;
  sm_from_kernel : bool;
  sm_timestamp : Z;
  sm_words : Z * Z * Z * Z;
  sm_now : Z;
}.

(** The reply: the result, and the word that tells the scheduler. *)
Definition reply (m : sched_msg) (result : kres) (sch : option Z) : option (Z * kres * option Z) :=
  if bool_decide (result = SUSPEND) then None else Some (sm_source m, result, sch).

Definition serve (m : sched_msg) (x : SS (kres * option Z)) (w : sys_timers * sched_state)
  : option (option (Z * kres * option Z) * (sys_timers * sched_state)) :=
  match x (snd w) with Some ((r, sch), s) => Some (reply m r sch, (fst w, s)) | None => None end.

Definition serve_plain (m : sched_msg) (x : SS kres) := serve m (r ← x; mret (r, None)).

Definition sched_main_step (m : sched_msg) (w : sys_timers * sched_state)
  : option (option (Z * kres * option Z) * (sys_timers * sched_state)) :=
  let '(w1, w2, w3, w4) := sm_words m in
  if sm_notify m
  then
    if sm_source m =? CLOCK
    then match expire_timers true (watchdog (Some (sm_now m))) 3 (sm_timestamp m) (fst w) (snd w) with
         | Some w' => Some (None, w')
         | None => None
         end
    else Some (reply m ENOSYS None, w)
  else if (sm_type m =? SCHEDULING_INHERIT) || (sm_type m =? SCHEDULING_START)
  then serve m (do_start_scheduling (sm_type m) (sm_source m) w1 w2 w3 w4) w
  else if sm_type m =? SCHEDULING_STOP then serve_plain m (do_stop_scheduling (sm_source m) w1) w
  else if sm_type m =? SCHEDULING_SET_NICE then serve_plain m (do_nice (sm_source m) w1 w2) w
  else if sm_type m =? SCHEDULING_NO_QUANTUM
  then
    if sm_from_kernel m
    then match do_noquantum (sm_source m) (snd w) with Some (_, s) => Some (None, (fst w, s)) | None => None end
    else Some (reply m EPERM None, w)
  else Some (reply m no_sys None, w).

(** The table before the first message. *)
Definition zero_schedproc : schedproc := SchedProc 0 0 0 0 0 0 0.
Definition sched_zero (k : kstate) : sched_state := SchedState (replicate (Z.to_nat NR_PROCS) zero_schedproc) [0] 0 k.
