(* ===== verification/SchedOk.v ===== *)
(** The user-space scheduler and the kernel stay in step: the proofs about
    [Sched]. *)

From S2P Require Import Prelude Chain Timers KState KSched KBoot KWait KNotify KBase KMain KSignal KIpc KSend KPriv KSys Sched.
Local Open Scope Z_scope.

(** ** Accessors *)

Definition put_rmp (n : Z) (r : schedproc) (s : sched_state) : sched_state :=
  with_schedprocs (<[Z.to_nat n := r]> (schedprocs s)) s.

(** The slot [n] of the table holds [r]. *)
Definition slot (s : sched_state) (n : Z) (r : schedproc) : Prop := 0 <= n /\ schedprocs s !! Z.to_nat n = Some r.

Lemma slot_fun s n r r' : slot s n r -> slot s n r' -> r = r'.
Proof. intros [_ H1] [_ H2]. congruence. Qed.

Lemma rmp_run s n r : slot s n r -> rmp n s = Some (r, s).
Proof. intros [Hn Hr]. unfold rmp. mrun. by rewrite (proj2 (Z.leb_le _ _) Hn), Hr. Qed.

Lemma upd_rmp_run s n r f : slot s n r -> upd_rmp n f s = Some (tt, put_rmp n (f r) s).
Proof. intros Hr. unfold upd_rmp. by rewrite (bind_run _ _ _ _ _ (rmp_run _ _ _ Hr)). Qed.

Lemma slot_put s n r r' : slot s n r -> slot (put_rmp n r' s) n r'.
Proof. intros [Hn Hr]. split; [done|]. simpl. apply list_lookup_insert_eq. by apply lookup_lt_Some in Hr. Qed.




Lemma put_put_rmp n a b s : put_rmp n a (put_rmp n b s) = put_rmp n a s.
Proof. unfold put_rmp, with_schedprocs. simpl. by rewrite list_insert_insert_eq. Qed.

Lemma slot_other s n n' r' x : 0 <= n -> n' <> n -> slot (put_rmp n r' s) n' x <-> slot s n' x.
Proof.
  intros Hn Hne. unfold slot. simpl. split; intros [H0 H]; (split; [done|]);
    [rewrite list_lookup_insert_ne in H by lia|rewrite list_lookup_insert_ne by lia]; done.
Qed.

(** ** The invariant *)

Definition in_use (r : schedproc) : bool := has (sp_flags r) IN_USE.

(** A process in the table. *)
Record slot_ok (n : Z) (r : schedproc) : Prop := {
  sl_nr : _ENDPOINT_P (sp_endpoint r) = n;
  sl_max : queue_nr (sp_max_priority r);
  sl_prio : queue_nr (sp_priority r);
  sl_slice : 1 <= sp_time_slice r < 2 ^ 31;
}.

(** What the kernel knows about the scheduling of its processes. *)
Definition timing (r : proc) : Z * Z * Z := (p_priority r, p_quantum_size_ms r, p_scheduler r).

(** The kernel has the priority and the quantum of the table for a process that
    the server schedules. *)
Definition in_step (k : kstate) (r : schedproc) : Prop :=
  scheduled_by k (sp_endpoint r) self_addr ->
  fld timing k !! target (sp_endpoint r) = Some (sp_priority r, sp_time_slice r, self_addr).

Record sched_ok (s : sched_state) : Prop := {
  sk_length : length (schedprocs s) = Z.to_nat NR_PROCS;
  sk_slots : forall n r, slot s n r -> in_use r = true -> slot_ok n r /\ in_step (skern s) r;
  sk_kern : exists cq, kinv (skern s) cq;
}.

Lemma ok_slot s n : sched_ok s -> 0 <= n < NR_PROCS -> exists r, slot s n r.
Proof.
  intros Hs Hn. destruct (lookup_lt_is_Some_2 (schedprocs s) (Z.to_nat n)) as [r Hr].
  - rewrite (sk_length _ Hs). lia.
  - exists r. split; [lia|done].
Qed.

(** The same for all slots but one, which is being changed. *)
Record ok_but (n : Z) (s : sched_state) : Prop := {
  ob_length : length (schedprocs s) = Z.to_nat NR_PROCS;
  ob_slots : forall n' r, n' <> n -> slot s n' r -> in_use r = true -> slot_ok n' r /\ in_step (skern s) r;
  ob_kern : exists cq, kinv (skern s) cq;
}.

Lemma ok_but_of n s : sched_ok s -> ok_but n s.
Proof. intros Hs. split; [apply Hs| |apply Hs]. intros n' r _. apply (sk_slots _ Hs). Qed.

Lemma ok_but_put n r s : 0 <= n -> ok_but n s -> ok_but n (put_rmp n r s).
Proof.
  intros Hn Hs. split; [simpl; rewrite length_insert; apply Hs| |apply Hs].
  intros n' x Hne Hx. apply slot_other in Hx; [|done..]. by apply (ob_slots _ _ Hs).
Qed.

Lemma ok_but_finish n s r :
  ok_but n s -> slot s n r -> (in_use r = true -> slot_ok n r /\ in_step (skern s) r) -> sched_ok s.
Proof.
  intros Hs Hr Hok. split; [apply Hs| |apply Hs]. intros n' x Hx Hu. destruct (decide (n' = n)) as [->|Hne].
  - rewrite (slot_fun _ _ _ _ Hx Hr) in *. by apply Hok.
  - by apply (ob_slots _ _ Hs).
Qed.

(** ** Scheduling a process *)

Lemma i32_small x : 0 <= x < 2 ^ 31 -> i32 x = x.
Proof. intros H. unfold i32. rewrite Z.mod_small by lia. lia. Qed.

Lemma timing_resched k p r k' :
  resched (put_proc p r k) k' -> fld timing k' = <[p := timing r]> (fld timing k).
Proof.
  intros H. rewrite (sched_fld timing _ _ (fun _ => eq_refl) (resched_sched _ _ H)). apply fld_put.
Qed.

Lemma scheduled_view k k' e x :
  fld view k' = fld view k -> fld timing k' = fld timing k -> scheduled_by k' e x <-> scheduled_by k e x.
Proof.
  intros Ev Et. assert (E : forall k, fld p_scheduler k = snd <$> fld timing k).
  { intros y. unfold fld. by rewrite <- map_fmap_compose. }
  unfold scheduled_by. by rewrite Ev, !E, Et.
Qed.

(** The kernel has scheduled the process of the slot. *)
Definition stepped (k : kstate) (r : schedproc) (k' : kstate) : Prop :=
  exists q, procs k !! target (sp_endpoint r) = Some q /\ p_scheduler q = self_addr /\
    resched (put_proc (target (sp_endpoint r)) (rescheduled (tsc_per_ms k) (sp_priority r) (sp_time_slice r) q) k) k'.

Lemma stepped_facts k r k' :
  stepped k r k' -> queue_nr (sp_priority r) -> 1 <= sp_time_slice r ->
  fld view k' = fld view k /\
  fld timing k' = <[target (sp_endpoint r) := (sp_priority r, sp_time_slice r, self_addr)]> (fld timing k).
Proof.
  intros (q&Hq&Hs&Hre) Hp Ht. split.
  - rewrite (view_sched _ _ (resched_sched _ _ Hre)). apply (fld_put_same view _ _ q k Hq). apply view_rescheduled.
  - rewrite (timing_resched _ _ _ _ Hre). f_equal. unfold timing, rescheduled, retimed. unfold queue_nr in Hp.
    rewrite !(proj2 (Z.eqb_neq _ (-1))) by lia. simpl. by rewrite Hs.
Qed.

Lemma target_inj e e' : target e = target e' -> _ENDPOINT_P e = _ENDPOINT_P e'.
Proof. unfold target, proc_addr. lia. Qed.

Lemma scheduler_timing k p : fld p_scheduler k !! p = snd <$> fld timing k !! p.
Proof. rewrite !fld_lookup. by destruct (procs k !! p). Qed.

(** Other processes stay in step, and this one is. *)
Lemma stepped_in_step k r k' r2 :
  stepped k r k' -> queue_nr (sp_priority r) -> 1 <= sp_time_slice r ->
  (target (sp_endpoint r2) = target (sp_endpoint r) -> sp_priority r2 = sp_priority r /\ sp_time_slice r2 = sp_time_slice r) ->
  (target (sp_endpoint r2) <> target (sp_endpoint r) -> in_step k r2) -> in_step k' r2.
Proof.
  intros Hst Hp Ht Hsame Hother [Hl Hs]. destruct (stepped_facts _ _ _ Hst Hp Ht) as [Ev Et]. rewrite Et.
  destruct (decide (target (sp_endpoint r2) = target (sp_endpoint r))) as [E|E].
  - rewrite E, lookup_insert_eq. destruct (Hsame E) as [-> ->]. done.
  - rewrite lookup_insert_ne by done. apply Hother; [done|]. split; [by rewrite <- Ev|].
    rewrite scheduler_timing, Et, lookup_insert_ne in Hs by done. by rewrite scheduler_timing.
Qed.

Lemma stepped_process k r k' :
  stepped k r k' -> queue_nr (sp_priority r) -> 1 <= sp_time_slice r ->
  exists q, procs k' !! target (sp_endpoint r) = Some q /\ p_priority q = sp_priority r /\ p_quantum_size_ms q = sp_time_slice r /\
    p_cpu_time_left q = u64 (tsc_per_ms k * sp_time_slice r) /\ has (p_rts_flags q) RTS_NO_QUANTUM = false.
Proof.
  intros (q0&Hq0&_&[Hre Hfl]) Hp Ht. set (p := target (sp_endpoint r)) in *. unfold queue_nr in Hp.
  set (q1 := rescheduled (tsc_per_ms k) (sp_priority r) (sp_time_slice r) q0) in *.
  assert (Hq1 : q1 = clear_rts RTS_NO_QUANTUM (with_p_cpu_time_left (u64 (tsc_per_ms k * sp_time_slice r))
    (with_p_quantum_size_ms (sp_time_slice r) (with_p_priority (sp_priority r) q0)))).
  { unfold q1, rescheduled, retimed. by rewrite !(proj2 (Z.eqb_neq _ (-1))) by lia. }
  destruct (erase_proc _ _ _ p q1 Hre) as (q&Hq&Eq); [apply lookup_insert_eq|]. exists q. split; [done|].
  rewrite Hq1 in Eq.
  pose proof (f_equal p_priority Eq) as E1. pose proof (f_equal p_quantum_size_ms Eq) as E2.
  pose proof (f_equal p_cpu_time_left Eq) as E3. simpl in E1, E2, E3. split_and!; [done..|].
  specialize (Hfl p). rewrite (fld_of p_rts_flags _ _ _ Hq), fld_put, lookup_insert_eq in Hfl. rewrite Hq1 in Hfl. simpl in Hfl.
  destruct Hfl as [[= ->]|[_ [= ->]]]; rewrite ?has_lor; by rewrite has_ldiff_same.
Qed.

(** The process is not held back for its quantum. *)
Definition has_quantum (k : kstate) (e : Z) : Prop :=
  exists q, procs k !! target e = Some q /\ has (p_rts_flags q) RTS_NO_QUANTUM = false.

Lemma kcall_run m s r k' : m (skern s) = Some (r, k') -> kcall m s = Some (r, with_skern k' s).
Proof. intros H. unfold kcall. mrun. rewrite H. done. Qed.

Lemma with_skern_id s : with_skern (skern s) s = s.
Proof. by destruct s. Qed.

Lemma schedule_process_run s n r flags cq :
  kinv (skern s) cq -> slot s n r -> slot_ok n r -> has flags SCHEDULE_CHANGE_PRIO = true -> has flags SCHEDULE_CHANGE_QUANTUM = true ->
  (scheduled_by (skern s) (sp_endpoint r) self_addr /\ exists k',
     schedule_process n flags s = Some (OK, with_skern k' (put_rmp n (with_sp_cpu 0 r) s)) /\ kinv k' cq /\ stepped (skern s) r k') \/
  (~ scheduled_by (skern s) (sp_endpoint r) self_addr /\ exists err, err <> OK /\
     schedule_process n flags s = Some (err, put_rmp n (with_sp_cpu 0 r) s)).
Proof.
  intros Hk Hr [_ _ Hp Ht] Hf1 Hf2. unfold schedule_process, pick_cpu.
  rewrite (bind_run _ _ _ _ _ (upd_rmp_run _ _ _ _ Hr)). set (s1 := put_rmp n (with_sp_cpu 0 r) s).
  rewrite (bind_run _ _ _ _ _ (rmp_run s1 n _ (slot_put _ _ _ _ Hr))). rewrite Hf1, Hf2. cbn [sp_priority sp_time_slice sp_endpoint with_sp_cpu].
  unfold queue_nr, NR_SCHED_QUEUES in Hp. rewrite !i32_small by lia. unfold sys_schedule.
  destruct (do_schedule_run (skern s) cq self_addr (sp_endpoint r) (sp_priority r) (sp_time_slice r)
    (if has flags SCHEDULE_CHANGE_CPU then i32 (sp_cpu (with_sp_cpu 0 r)) else -1) Hk)
    as [(Hby&q&k'&Hrun&Hk'&Hq&Hre)|(Hby&err&Herr&Hrun)]; [unfold queue_nr, NR_SCHED_QUEUES; lia|lia| |].
  - left. split; [done|]. exists k'. split_and!; [by apply kcall_run|done|]. exists q. split_and!; [done| |done].
    destruct Hby as [_ Hby]. rewrite (fld_of p_scheduler _ _ _ Hq) in Hby. congruence.
  - right. split; [done|]. exists err. split; [done|]. rewrite (kcall_run _ s1 err (skern s)) by done. by destruct s.
Qed.

(** Scheduling the process of a slot keeps the rest in order; on success the
    slot is in step too. *)
Lemma schedule_ok s n r flags :
  ok_but n s -> slot s n r -> slot_ok n r -> has flags SCHEDULE_CHANGE_PRIO = true -> has flags SCHEDULE_CHANGE_QUANTUM = true ->
  exists x s', schedule_process n flags s = Some (x, s') /\ ok_but n s' /\ slot s' n (with_sp_cpu 0 r) /\
    in_step (skern s') r /\ schedprocs s' = <[Z.to_nat n := with_sp_cpu 0 r]> (schedprocs s) /\ balance_timeout s' = balance_timeout s /\
    (scheduled_by (skern s) (sp_endpoint r) self_addr /\ x = OK /\ stepped (skern s) r (skern s') \/
     ~ scheduled_by (skern s) (sp_endpoint r) self_addr /\ x <> OK /\ skern s' = skern s).
Proof.
  intros Hs Hr Hok Hf1 Hf2. destruct (ob_kern _ _ Hs) as [cq Hk]. pose proof (slot_put s n r (with_sp_cpu 0 r) Hr) as Hr'.
  destruct (schedule_process_run s n r flags cq Hk Hr Hok Hf1 Hf2) as [(Hby&k'&Hrun&Hk'&Hst)|(Hby&err&Herr&Hrun)].
  - exists OK. eexists. split; [exact Hrun|]. destruct Hok as [Hnr _ Hp Ht].
    split; [|split; [done|split; [|split_and!; [done..|by left]]]].
    + split; [simpl; rewrite length_insert; apply Hs| |by exists cq].
      intros n' x Hne Hx Hu. assert (Hx' : slot s n' x) by (apply slot_other in Hx; [done|apply Hr|done]).
      destruct (ob_slots _ _ Hs n' x Hne Hx' Hu) as [Hxo Hxs]. split; [done|]. simpl.
      apply (stepped_in_step _ r _ _ Hst Hp (proj1 Ht)); [|done]. intros E. apply target_inj in E.
      destruct Hxo. lia.
    + simpl. by apply (stepped_in_step _ r _ _ Hst Hp (proj1 Ht)).
  - exists err. eexists. split; [exact Hrun|]. split; [apply ok_but_put; [apply Hr|done]|]. split; [done|].
    split; [by intros ?|]. split_and!; [done..|]. by right.
Qed.

(** ** Requests *)

(** The server schedules the process [e], with the entry [r]. *)
Definition known (s : sched_state) (e : Z) (r : schedproc) : Prop :=
  slot s (_ENDPOINT_P e) r /\ in_use r = true /\ sp_endpoint r = e.

Lemma sched_isokendpt_run s e :
  length (schedprocs s) = Z.to_nat NR_PROCS ->
  exists x, sched_isokendpt e s = Some ((x, _ENDPOINT_P e), s) /\
    (x = OK /\ (exists r, known s e r) \/ x <> OK /\ forall r, ~ known s e r).
Proof.
  intros Hlen. unfold sched_isokendpt.
  destruct (Z.ltb_spec (_ENDPOINT_P e) 0) as [H0|H0]; [eexists; split; [done|]; right; split; [done|]; by intros r [[? _] _]; lia|].
  destruct (Z.leb_spec NR_PROCS (_ENDPOINT_P e)) as [H1|H1].
  { eexists. split; [done|]. right. split; [done|]. intros r [[_ Hr] _]. apply lookup_lt_Some in Hr. lia. }
  destruct (lookup_lt_is_Some_2 (schedprocs s) (Z.to_nat (_ENDPOINT_P e))) as [r Hr]; [lia|].
  assert (Hsl : slot s (_ENDPOINT_P e) r) by done. rewrite (bind_run _ _ _ _ _ (rmp_run _ _ _ Hsl)).
  assert (Huniq : forall r', known s e r' -> r' = r) by (intros r' [? _]; by eapply slot_fun).
  destruct (Z.eqb_spec e (sp_endpoint r)) as [E|E]; cbn [negb].
  2:{ eexists. split; [done|]. right. split; [done|]. intros r' Hk. pose proof (Huniq r' Hk). subst r'. destruct Hk as (_&_&?). congruence. }
  fold (in_use r). destruct (in_use r) eqn:Hu; cbn [negb]; eexists; (split; [done|]).
  - left. split; [done|]. exists r. by split_and!.
  - right. split; [done|]. intros r' Hk. pose proof (Huniq r' Hk). subst r'. destruct Hk as (_&?&_). congruence.
Qed.

Lemma local_flags :
  has (Z.lor SCHEDULE_CHANGE_PRIO SCHEDULE_CHANGE_QUANTUM) SCHEDULE_CHANGE_PRIO = true /\
  has (Z.lor SCHEDULE_CHANGE_PRIO SCHEDULE_CHANGE_QUANTUM) SCHEDULE_CHANGE_QUANTUM = true.
Proof. done. Qed.

(** Changing the entry of a process and scheduling it. *)
Lemma reschedule_ok s n r r' :
  ok_but n s -> slot s n r -> slot_ok n r' ->
  exists x s', schedule_process_local n (put_rmp n r' s) = Some (x, s') /\ ok_but n s' /\ slot s' n (with_sp_cpu 0 r') /\
    in_step (skern s') r' /\ schedprocs s' = <[Z.to_nat n := with_sp_cpu 0 r']> (schedprocs s) /\ balance_timeout s' = balance_timeout s /\
    (scheduled_by (skern s) (sp_endpoint r') self_addr /\ x = OK /\ stepped (skern s) r' (skern s') \/
     ~ scheduled_by (skern s) (sp_endpoint r') self_addr /\ x <> OK /\ skern s' = skern s).
Proof.
  intros Hs Hr Hok. destruct local_flags as [Hf1 Hf2].
  destruct (schedule_ok (put_rmp n r' s) n r' _ (ok_but_put n r' s (proj1 Hr) Hs) (slot_put _ _ _ _ Hr) Hok Hf1 Hf2)
    as (x&s'&Hrun&Hs'&Hr'&Hin&Htab&Hb&Hk).
  exists x, s'. split_and!; try done. rewrite Htab. simpl. apply list_insert_insert_eq.
Qed.

Lemma u32_small_nn x : 0 <= x < 2 ^ 32 -> u32 x = x.
Proof. intros H. unfold u32. by rewrite Z.mod_small. Qed.

(** The priority after a quantum has been used up. *)
Definition lowered (r : schedproc) : schedproc := with_sp_priority (Z.min (sp_priority r + 1) MIN_USER_Q) r.

Lemma do_noquantum_run s e r :
  sched_ok s -> known s e r ->
  exists x s', do_noquantum e s = Some (x, s') /\ sched_ok s' /\ known s' e (with_sp_cpu 0 (lowered r)) /\
    schedprocs s' = <[Z.to_nat (_ENDPOINT_P e) := with_sp_cpu 0 (lowered r)]> (schedprocs s) /\ balance_timeout s' = balance_timeout s /\
    (scheduled_by (skern s) e self_addr /\ x = OK /\ stepped (skern s) (lowered r) (skern s') \/
     ~ scheduled_by (skern s) e self_addr /\ x <> OK /\ skern s' = skern s).
Proof.
  intros Hs (Hr&Hu&He). unfold do_noquantum. destruct (sched_isokendpt_run s e (sk_length _ Hs)) as (y&Hy&[[-> _]|[_ Hn]]);
    [|destruct (Hn r); done]. rewrite (bind_run _ _ _ _ _ Hy). cbn [fst snd is_OK negb].
  rewrite (bind_run _ _ _ _ _ (rmp_run _ _ _ Hr)). destruct (sk_slots _ Hs _ _ Hr Hu) as [Hok Hst].
  assert (Hq : queue_nr (sp_priority r)) by apply Hok. unfold queue_nr, NR_SCHED_QUEUES in Hq.
  set (n := _ENDPOINT_P e) in *.
  assert (Hupd : (if sp_priority r <? MIN_USER_Q then upd_rmp n (with_sp_priority (u32 (sp_priority r + 1))) else mret tt) s =
    Some (tt, put_rmp n (lowered r) s)).
  { unfold lowered, MIN_USER_Q, NR_SCHED_QUEUES in *. destruct (Z.ltb_spec (sp_priority r) (16 - 1)) as [Hlt|Hge].
    - rewrite (upd_rmp_run _ _ _ _ Hr). do 4 f_equal. rewrite u32_small_nn by lia. lia.
    - replace (Z.min (sp_priority r + 1) (16 - 1)) with (sp_priority r) by lia. do 2 f_equal.
      unfold put_rmp. destruct Hr as [_ Hr]. replace (with_sp_priority (sp_priority r) r) with r by (by destruct r).
      rewrite (list_insert_id _ _ _ Hr). by destruct s. }
  rewrite (bind_run _ _ _ _ _ Hupd).
  destruct (reschedule_ok s n r (lowered r) (ok_but_of n s Hs) Hr) as (x&s'&Hrun&Hs'&Hr'&Hin&Htab&Hb&Hk).
  { destruct Hok. split; simpl; try done. unfold queue_nr, MIN_USER_Q, NR_SCHED_QUEUES. lia. }
  assert (He' : sp_endpoint (lowered r) = e) by done. rewrite He' in Hk.
  exists x, s'. split; [exact Hrun|]. split; [|by split_and!]. eapply (ok_but_finish n); [done|exact Hr'|].
  intros _. split; [|done]. destruct Hok. split; simpl; try done. unfold queue_nr, MIN_USER_Q, NR_SCHED_QUEUES. lia.
Qed.

Lemma do_noquantum_ok s e :
  sched_ok s -> exists x s', do_noquantum e s = Some (x, s') /\ sched_ok s' /\ balance_timeout s' = balance_timeout s.
Proof.
  intros Hs. destruct (sched_isokendpt_run s e (sk_length _ Hs)) as (y&Hy&[[-> [r Hr]]|[Hy' Hn]]).
  - destruct (do_noquantum_run s e r Hs Hr) as (x&s'&?&?&_&_&?&_). by exists x, s'.
  - unfold do_noquantum. rewrite (bind_run _ _ _ _ _ Hy). exists EBADEPT, s. by destruct y.
Qed.

Lemma stop_known s src e r :
  sched_ok s -> accept_message src = true -> known s e r ->
  exists s', do_stop_scheduling src e s = Some (OK, s') /\ sched_ok s' /\ balance_timeout s' = balance_timeout s /\ forall r', ~ known s' e r'.
Proof.
  intros Hs Hacc Hkn. unfold do_stop_scheduling. rewrite Hacc. cbn [negb].
  destruct (sched_isokendpt_run s e (sk_length _ Hs)) as (y&Hy&[[-> _]|[_ Hn]]); [|by destruct (Hn r)].
  rewrite (bind_run _ _ _ _ _ Hy). cbn [fst snd is_OK negb]. destruct Hkn as (Hr&_). rewrite (bind_run _ _ _ _ _ (upd_rmp_run _ _ _ _ Hr)).
  eexists. split; [done|]. pose proof (slot_put s _ r (with_sp_flags 0 r) Hr) as Hr'. split_and!; [|done|].
  - eapply ok_but_finish; [apply ok_but_put; [apply Hr|by apply ok_but_of]|exact Hr'|done].
  - intros r2 (Hr2&Hu2&_). by rewrite (slot_fun _ _ _ _ Hr2 Hr') in Hu2.
Qed.

Lemma do_stop_ok s src e :
  sched_ok s -> exists x s', do_stop_scheduling src e s = Some (x, s') /\ sched_ok s' /\ balance_timeout s' = balance_timeout s.
Proof.
  intros Hs. destruct (accept_message src) eqn:Hacc.
  2:{ unfold do_stop_scheduling. rewrite Hacc. by exists EPERM, s. }
  destruct (sched_isokendpt_run s e (sk_length _ Hs)) as (y&Hy&[[-> [r Hr]]|[Hy' Hn]]).
  - destruct (stop_known s src e r Hs Hacc Hr) as (s'&?&?&?&_). by exists OK, s'.
  - unfold do_stop_scheduling. rewrite Hacc. cbn [negb]. rewrite (bind_run _ _ _ _ _ Hy). exists EBADEPT, s. by destruct y.
Qed.

Lemma put_slot_id s n r : slot s n r -> put_rmp n r s = s.
Proof. intros [_ Hr]. unfold put_rmp. rewrite (list_insert_id _ _ _ Hr). by destruct s. Qed.

Lemma do_nice_ok s src e maxprio :
  sched_ok s -> exists x s', do_nice src e maxprio s = Some (x, s') /\ sched_ok s' /\ balance_timeout s' = balance_timeout s.
Proof.
  intros Hs. unfold do_nice. destruct (accept_message src); cbn [negb]; [|by exists EPERM, s].
  destruct (sched_isokendpt_run s e (sk_length _ Hs)) as (y&Hy&[[-> [r (Hr&Hu&He)]]|[Hy' Hn]]); rewrite (bind_run _ _ _ _ _ Hy); cbn [fst snd].
  2:{ exists EBADEPT, s. by destruct y. }
  cbn [is_OK negb]. destruct (Z.leb_spec NR_SCHED_QUEUES (u32 maxprio)) as [Hq|Hq]; [by exists EINVAL, s|].
  set (n := _ENDPOINT_P e) in *. set (q := u32 maxprio) in *. rewrite (bind_run _ _ _ _ _ (rmp_run _ _ _ Hr)).
  assert (Hq0 : queue_nr q) by (unfold queue_nr; pose proof (Z.mod_pos_bound maxprio (2 ^ 32) ltac:(lia)); unfold q, u32 in *; lia).
  rewrite (bind_run _ _ _ _ _ (upd_rmp_run _ _ _ _ Hr)).
  rewrite (bind_run _ _ _ _ _ (upd_rmp_run _ _ _ _ (slot_put _ _ _ _ Hr))), put_put_rmp.
  set (r' := with_sp_max_priority q (with_sp_priority q r)).
  destruct (sk_slots _ Hs _ _ Hr Hu) as [Hok Hst].
  assert (Hok' : slot_ok n r') by (destruct Hok; by split).
  destruct (reschedule_ok s n r r' (ok_but_of n s Hs) Hr Hok') as (x&s'&Hrun&Hs'&Hr'&Hin&Htab&Hb&Hk). rewrite (bind_run _ _ _ _ _ Hrun).
  destruct Hk as [(_&->&_)|(_&Hx&Hk)].
  - exists OK, s'. split; [done|]. split; [|done]. eapply (ok_but_finish n); [done|exact Hr'|]. intros _. split; [by destruct Hok'; split|done].
  - assert (Hnok : negb (is_OK x) = true) by (by destruct x). rewrite Hnok. exists x. eexists.
    rewrite bind_assoc, (bind_run _ _ _ _ _ (upd_rmp_run _ _ _ _ Hr')).
    rewrite (bind_run _ _ _ _ _ (upd_rmp_run _ _ _ _ (slot_put _ _ _ _ Hr'))), put_put_rmp. split; [done|]. split; [|done].
    eapply (ok_but_finish n); [apply ok_but_put; [apply Hr|done]|by eapply slot_put|].
    intros _. simpl. rewrite Hk. split; [destruct Hok; by split|done].
Qed.

(** ** A new process *)

Lemma sched_isemtyendpt_run s e :
  length (schedprocs s) = Z.to_nat NR_PROCS ->
  exists x, sched_isemtyendpt e s = Some ((x, _ENDPOINT_P e), s) /\
    (x = OK /\ (exists r, slot s (_ENDPOINT_P e) r /\ in_use r = false) \/
     x <> OK /\ forall r, slot s (_ENDPOINT_P e) r -> in_use r = true).
Proof.
  intros Hlen. unfold sched_isemtyendpt.
  destruct (Z.ltb_spec (_ENDPOINT_P e) 0) as [H0|H0]; [eexists; split; [done|]; right; split; [done|]; intros r [? _]; lia|].
  destruct (Z.leb_spec NR_PROCS (_ENDPOINT_P e)) as [H1|H1].
  { eexists. split; [done|]. right. split; [done|]. intros r [_ Hr]. apply lookup_lt_Some in Hr. lia. }
  destruct (lookup_lt_is_Some_2 (schedprocs s) (Z.to_nat (_ENDPOINT_P e))) as [r Hr]; [lia|].
  assert (Hsl : slot s (_ENDPOINT_P e) r) by done. rewrite (bind_run _ _ _ _ _ (rmp_run _ _ _ Hsl)). fold (in_use r).
  destruct (in_use r) eqn:Hu; eexists; (split; [done|]).
  - right. split; [done|]. intros r' Hr'. by rewrite (slot_fun _ _ _ _ Hr' Hsl).
  - left. split; [done|]. by exists r.
Qed.

(** The server takes over a process. *)
Lemma sys_schedctl_run s n e :
  ok_but n s -> _ENDPOINT_P e = n ->
  (exists k, sys_schedctl 0 e 0 0 0 s = Some (OK, with_skern k s) /\ ok_but n (with_skern k s) /\ scheduled_by k e self_addr) \/
  (sys_schedctl 0 e 0 0 0 s = Some (EINVAL, s) /\ ~ live_ep (fld view (skern s)) e).
Proof.
  intros Hs He. destruct (ob_kern _ _ Hs) as [cq Hk]. unfold sys_schedctl.
  destruct (do_schedctl_run (skern s) cq self_addr e Hk) as [(Hl&q&Hq&Hrun&Hk')|[Hl Hrun]].
  2:{ right. rewrite (kcall_run _ s _ _ Hrun). split; [by destruct s|done]. }
  left. eexists. split; [by apply kcall_run|]. set (k' := put_proc (target e) (with_p_scheduler self_addr q) (skern s)) in *.
  assert (Ev : fld view k' = fld view (skern s)) by (by apply (fld_put_same view _ _ q)).
  assert (Et : fld timing k' = <[target e := timing (with_p_scheduler self_addr q)]> (fld timing (skern s))) by apply fld_put.
  split; [split; [apply Hs| |by exists cq]|split; [by rewrite Ev|]].
  - intros n' r Hne Hr Hu. destruct (ob_slots _ _ Hs n' r Hne Hr Hu) as [Hok Hst]. split; [done|]. simpl.
    assert (Hne' : target e <> target (sp_endpoint r)) by (intros E; apply target_inj in E; destruct Hok; congruence).
    intros [Hl' Hs']. rewrite Et, lookup_insert_ne by done. apply Hst. split; [by rewrite <- Ev|].
    rewrite scheduler_timing, Et, lookup_insert_ne in Hs' by done. by rewrite scheduler_timing.
  - rewrite scheduler_timing, Et. by rewrite lookup_insert_eq.
Qed.

Lemma all_flags : has SCHEDULE_CHANGE_ALL SCHEDULE_CHANGE_PRIO = true /\ has SCHEDULE_CHANGE_ALL SCHEDULE_CHANGE_QUANTUM = true.
Proof. done. Qed.

Lemma start_finish_ok s n r e :
  ok_but n s -> slot s n r -> in_use r = false -> slot_ok n r -> sp_endpoint r = e ->
  exists x s', start_finish n e s = Some (x, s') /\ sched_ok s' /\ balance_timeout s' = balance_timeout s /\
    (fst x = OK /\ snd x = Some SCHED_PROC_NR /\ known s' e (with_sp_cpu 0 (with_sp_flags IN_USE r)) /\ scheduled_by (skern s') e self_addr /\
     has_quantum (skern s') e \/
     fst x <> OK /\ s' = s /\ ~ live_ep (fld view (skern s)) e).
Proof.
  intros Hs Hr Hu Hok He. unfold start_finish.
  destruct (sys_schedctl_run s n e Hs) as [(k&Hrun&Hs1&Hby)|[Hrun Hdead]]; [destruct Hok; congruence| |];
    rewrite (bind_run _ _ _ _ _ Hrun); cbn [is_OK negb].
  2:{ eexists _, s. split; [done|]. split_and!; [|done|by right]. eapply ok_but_finish; [done..|]. congruence. }
  set (s1 := with_skern k s) in *. assert (Hr1 : slot s1 n r) by done.
  rewrite (bind_run _ _ _ _ _ (upd_rmp_run _ _ _ _ Hr1)). unfold pick_cpu.
  rewrite (bind_run _ _ _ _ _ (upd_rmp_run _ _ _ _ (slot_put _ _ _ _ Hr1))), put_put_rmp.
  set (r2 := with_sp_cpu 0 (with_sp_flags IN_USE r)).
  assert (Hok2 : slot_ok n r2) by (destruct Hok; by split). destruct all_flags as [Hf1 Hf2].
  destruct (schedule_ok (put_rmp n r2 s1) n r2 SCHEDULE_CHANGE_ALL (ok_but_put n r2 s1 (proj1 Hr) Hs1) (slot_put _ _ _ _ Hr1) Hok2 Hf1 Hf2)
    as (x&s'&Hsch&Hs'&Hr'&Hin&_&Hb&[(_&->&Hst)|(Hno&_)]); [|by destruct Hno; simpl; rewrite He].
  cbn [start_loop]. rewrite bind_assoc, (bind_run _ _ _ _ _ Hsch). rewrite bool_decide_eq_false_2 by done.
  rewrite (bind_run (mret OK) _ s' OK s' eq_refl). cbn [is_OK negb]. eexists _, s'. split; [done|].
  change (with_sp_cpu 0 r2) with r2 in Hr'. split; [|split; [done|left]].
  - eapply (ok_but_finish n); [done|exact Hr'|]. intros _. by split.
  - assert (En : _ENDPOINT_P e = n) by (destruct Hok; congruence). split_and!; [done..| | |].
    + unfold known. rewrite En. by split_and!.
    + destruct (stepped_facts _ _ _ Hst (sl_prio _ _ Hok2) (proj1 (sl_slice _ _ Hok2))) as [Ev Et].
      split; [rewrite Ev; apply Hby|]. rewrite scheduler_timing, Et. simpl. by rewrite He, lookup_insert_eq.
    + destruct (stepped_process _ _ _ Hst (sl_prio _ _ Hok2) (proj1 (sl_slice _ _ Hok2))) as (q&Hq&_&_&_&Hfl).
      exists q. by rewrite <- He.
Qed.

(** What the table says about a new process. *)
Definition new_entry (s : sched_state) (m_type endpoint parent maxprio quantum : Z) (r : schedproc) : Prop :=
  sp_endpoint r = endpoint /\ sp_parent r = parent /\ sp_max_priority r = u32 maxprio /\
  if m_type =? SCHEDULING_START
  then sp_priority r = u32 maxprio /\ sp_time_slice r = quantum
  else exists pr, known s parent pr /\ sp_priority r = sp_priority pr /\ sp_time_slice r = sp_time_slice pr.

(** Changes of a slot that is not in use do not matter to others. *)
Lemma known_other s n r r' e w : slot s n r -> in_use r' = false -> known (put_rmp n r' s) e w -> known s e w.
Proof.
  intros Hr Hu (Hw&Huw&He). destruct (decide (_ENDPOINT_P e = n)) as [E|E].
  - rewrite E in Hw. rewrite (slot_fun _ _ _ _ Hw (slot_put _ _ _ _ Hr)) in Huw. congruence.
  - apply slot_other in Hw; [|apply Hr|done]. done.
Qed.

Lemma start_policy_run s n r m_type parent quantum :
  length (schedprocs s) = Z.to_nat NR_PROCS -> slot s n r -> in_use r = false ->
  exists x r', start_policy n m_type parent quantum s = Some (x, put_rmp n r' s) /\
    (x = OK /\ (exists pr ts, r' = with_sp_time_slice ts (with_sp_priority pr r) /\
       if m_type =? SCHEDULING_START then pr = sp_max_priority r /\ ts = u32 quantum
       else exists w, known s parent w /\ pr = sp_priority w /\ ts = sp_time_slice w) \/
     x <> OK /\ in_use r' = false /\ m_type <> SCHEDULING_START).
Proof.
  intros Hlen Hr Hu. unfold start_policy. rewrite (bind_run _ _ _ _ _ (rmp_run _ _ _ Hr)).
  set (r1 := if sp_endpoint r =? sp_parent r then with_sp_time_slice DEFAULT_USER_TIME_SLICE (with_sp_priority USER_Q r) else r).
  assert (H1 : (if sp_endpoint r =? sp_parent r
    then upd_rmp n (with_sp_priority USER_Q);; upd_rmp n (with_sp_time_slice DEFAULT_USER_TIME_SLICE) else mret tt) s = Some (tt, put_rmp n r1 s)).
  { unfold r1. destruct (_ =? _); [|by rewrite (put_slot_id _ _ _ Hr)].
    rewrite (bind_run _ _ _ _ _ (upd_rmp_run _ _ _ _ Hr)), (upd_rmp_run _ _ _ _ (slot_put _ _ _ _ Hr)). by rewrite put_put_rmp. }
  rewrite (bind_run _ _ _ _ _ H1). pose proof (slot_put _ _ _ r1 Hr) as Hr1.
  assert (Hset : forall pr ts, (upd_rmp n (with_sp_priority pr);; upd_rmp n (with_sp_time_slice ts);; mret OK) (put_rmp n r1 s) =
    Some (OK, put_rmp n (with_sp_time_slice ts (with_sp_priority pr r)) s)).
  { intros pr ts. rewrite (bind_run _ _ _ _ _ (upd_rmp_run _ _ _ _ Hr1)), put_put_rmp.
    rewrite (bind_run _ _ _ _ _ (upd_rmp_run _ _ _ _ (slot_put _ _ _ _ Hr))), put_put_rmp. unfold r1. by destruct (_ =? _). }
  destruct (Z.eqb_spec m_type SCHEDULING_START) as [_|Hnst].
  { exists OK. eexists. split; [apply Hset|]. left. split; [done|]. by eexists _, _. }
  destruct (sched_isokendpt_run (put_rmp n r1 s) parent) as (y&Hy&[[-> [w Hw]]|[Hy' _]]);
    [simpl; by rewrite length_insert|..]; rewrite (bind_run _ _ _ _ _ Hy); cbn [fst snd].
  - cbn [is_OK negb]. rewrite (bind_run _ _ _ _ _ (rmp_run _ _ _ (proj1 Hw))). exists OK. eexists. split; [apply Hset|]. left. split; [done|].
    eexists _, _. split; [done|]. exists w. split; [|done]. eapply known_other; [exact Hr| |exact Hw]. unfold r1. by destruct (_ =? _).
  - replace (negb (is_OK y)) with true by (by destruct y). exists y, r1. split; [done|]. right. split_and!; [done| |done]. unfold r1. by destruct (_ =? _).
Qed.

(** The server can take over the process. *)
Definition startable (s : sched_state) (src e maxprio : Z) : Prop :=
  accept_message src = true /\ (exists r, slot s (_ENDPOINT_P e) r /\ in_use r = false) /\ u32 maxprio < NR_SCHED_QUEUES /\
  live_ep (fld view (skern s)) e.

Lemma do_start_ok s m_type src e parent maxprio quantum :
  sched_ok s -> m_type = SCHEDULING_START \/ m_type = SCHEDULING_INHERIT -> (m_type = SCHEDULING_START -> 1 <= quantum < 2 ^ 31) ->
  exists x s', do_start_scheduling m_type src e parent maxprio quantum s = Some (x, s') /\ sched_ok s' /\
    balance_timeout s' = balance_timeout s /\
    (fst x = OK -> snd x = Some SCHED_PROC_NR /\ scheduled_by (skern s') e self_addr /\ has_quantum (skern s') e /\
       exists r, known s' e r /\ new_entry s m_type e parent maxprio quantum r) /\
    (m_type = SCHEDULING_START -> startable s src e maxprio -> fst x = OK).
Proof.
  intros Hs Hty Hqu. unfold do_start_scheduling.
  assert (Hty' : negb ((m_type =? SCHEDULING_START) || (m_type =? SCHEDULING_INHERIT)) = false) by (by destruct Hty as [-> | ->]).
  rewrite Hty'. unfold startable.
  destruct (accept_message src); cbn [negb]; [|exists (EPERM, None), s; split_and!; [done..|]; by intros _ [? _]].
  destruct (sched_isemtyendpt_run s e (sk_length _ Hs)) as (y&Hy&[[-> (r&Hr&Hu)]|[Hy' Hno]]); rewrite (bind_run _ _ _ _ _ Hy); cbn [fst snd].
  2:{ exists (y, None), s. split_and!; [by destruct y|done..|]. intros _ (_&(r&Hr&Hu)&_). rewrite (Hno r Hr) in Hu. done. }
  cbn [is_OK negb]. set (n := _ENDPOINT_P e) in *. set (mp := u32 maxprio).
  rewrite (bind_run _ _ _ _ _ (upd_rmp_run _ _ _ _ Hr)).
  rewrite (bind_run _ _ _ _ _ (upd_rmp_run _ _ _ _ (slot_put _ _ _ _ Hr))), put_put_rmp.
  set (r1 := with_sp_max_priority mp (with_sp_ids e parent r)). set (s1 := put_rmp n r1 s).
  assert (Hr1 : slot s1 n r1) by (by eapply slot_put). assert (Hu1 : in_use r1 = false) by done.
  assert (Hs1 : ok_but n s1) by (apply ok_but_put; [apply Hr|by apply ok_but_of]).
  assert (Hnot : forall t w, slot t n w -> ok_but n t -> in_use w = false -> sched_ok t).
  { intros t w Hw Ht Huw. eapply ok_but_finish; [done..|]. congruence. }
  rewrite (bind_run _ _ _ _ _ (rmp_run _ _ _ Hr1)). change (sp_max_priority r1) with mp.
  destruct (Z.leb_spec NR_SCHED_QUEUES mp) as [Hmp|Hmp]; [eexists (EINVAL, None), s1; split; [done|]; split_and!; [by eauto|done..|]; intros _ (_&_&?&_); unfold mp in Hmp; lia|].
  assert (Hmp0 : queue_nr mp) by (unfold queue_nr; pose proof (Z.mod_pos_bound maxprio (2 ^ 32) ltac:(lia)); unfold mp, u32 in *; lia).
  destruct (start_policy_run s1 n r1 m_type parent quantum (ob_length _ _ Hs1) Hr1 Hu1) as (x&r2&Hpol&Hcase).
  rewrite (bind_run _ _ _ _ _ Hpol). set (s2 := put_rmp n r2 s1).
  assert (Hr2 : slot s2 n r2) by (by eapply slot_put). assert (Hs2 : ok_but n s2) by (apply ok_but_put; [apply Hr|done]).
  destruct Hcase as [(->&pr&ts&->&Hval)|(Hx&Huf&Hux)]; cbn [is_OK negb].
  2:{ replace (negb (is_OK x)) with true by (by destruct x). eexists (x, None), s2. split; [done|].
      split_and!; [by eauto|done..|]. done. }
  assert (Hval' : if m_type =? SCHEDULING_START then pr = mp /\ ts = quantum else
    exists w, known s parent w /\ pr = sp_priority w /\ ts = sp_time_slice w).
  { destruct Hty as [-> | ->]; [|destruct Hval as (w&Hw&?); exists w; split; [by eapply known_other|done]].
    destruct Hval as [-> ->]. split; [done|]. apply u32_small_nn. specialize (Hqu eq_refl). lia. }
  assert (Hok : slot_ok n (with_sp_time_slice ts (with_sp_priority pr r1))).
  { destruct Hty as [-> | ->].
    - destruct Hval' as [-> ->]. split; simpl; auto.
    - destruct Hval' as (w&(Hw&Huw&_)&->&->). destruct (sk_slots _ Hs _ _ Hw Huw) as [[] _]. by split. }
  destruct (start_finish_ok s2 n _ e Hs2 Hr2 Hu1 Hok eq_refl) as (y&s'&Hfin&Hs'&Hb&Hend).
  exists y, s'. split; [exact Hfin|]. split_and!; [done|done| |].
  2:{ intros _ (_&_&_&Hlive). by destruct Hend as [[? _]|(_&_&?)]. }
  intros Hy1. destruct Hend as [(_&Hsch&Hkn&Hby&Hqu')|[? _]]; [|done]. split_and!; [done..|]. eexists. split; [exact Hkn|]. by split_and!.
Qed.
