(* ===== verification/SchedRun.v ===== *)
(** Runs of the user-space scheduler: balancing, the timer, and any sequence of
    messages with a kernel that runs in between. *)

From S2P Require Import Prelude Chain Timers KState KSched KBoot KWait KNotify KBase KMain KSignal KIpc KSend KPriv KSys Sched SchedOk.
Local Open Scope Z_scope.

(** ** Balancing *)

(** A process that has been lowered is raised by one. *)
Definition raised (r : schedproc) : schedproc :=
  if in_use r && (sp_max_priority r <? sp_priority r) then with_sp_cpu 0 (with_sp_priority (sp_priority r - 1) r) else r.

(** The kernel has changed no more than priorities and quanta. *)
Definition steady (k k' : kstate) : Prop := fld view k' = fld view k /\ fld p_scheduler k' = fld p_scheduler k.

#[global] Instance steady_refl : Reflexive steady.
Proof. by intros k. Qed.
#[global] Instance steady_trans : Transitive steady.
Proof. intros k1 k2 k3 [H1 H2] [H3 H4]. split; congruence. Qed.

Lemma steady_by k k' e x : steady k k' -> scheduled_by k' e x <-> scheduled_by k e x.
Proof. intros [H1 H2]. unfold scheduled_by. by rewrite H1, H2. Qed.

Lemma stepped_steady k r k' : stepped k r k' -> queue_nr (sp_priority r) -> 1 <= sp_time_slice r -> steady k k'.
Proof.
  intros Hst Hp Ht. pose proof Hst as (q&Hq&Hs&_). destruct (stepped_facts _ _ _ Hst Hp Ht) as [Ev Et]. split; [done|].
  apply map_eq. intros p. rewrite !scheduler_timing, Et. destruct (decide (target (sp_endpoint r) = p)) as [<-|Hne].
  - rewrite lookup_insert_eq, (fld_of timing _ _ _ Hq). simpl. by rewrite Hs.
  - by rewrite lookup_insert_ne.
Qed.

Lemma balance_one_run s n r :
  sched_ok s -> slot s n r ->
  exists s', balance_one n s = Some (tt, s') /\ sched_ok s' /\ schedprocs s' = <[Z.to_nat n := raised r]> (schedprocs s) /\
    balance_timeout s' = balance_timeout s /\ steady (skern s) (skern s').
Proof.
  intros Hs Hr. unfold balance_one. rewrite (bind_run _ _ _ _ _ (rmp_run _ _ _ Hr)). fold (in_use r).
  unfold raised. assert (Hid : <[Z.to_nat n := r]> (schedprocs s) = schedprocs s) by (apply list_insert_id, Hr).
  destruct (in_use r) eqn:Hu; cbn [andb]; [|by exists s].
  destruct (Z.ltb_spec (sp_max_priority r) (sp_priority r)) as [Hlt|Hge]; [|by exists s].
  destruct (sk_slots _ Hs _ _ Hr Hu) as [Hok _]. pose proof (sl_max _ _ Hok) as Hm. pose proof (sl_prio _ _ Hok) as Hp.
  unfold queue_nr, NR_SCHED_QUEUES in Hm, Hp. rewrite u32_small_nn by lia.
  rewrite (bind_run _ _ _ _ _ (upd_rmp_run _ _ _ _ Hr)). set (r' := with_sp_priority (sp_priority r - 1) r).
  assert (Hok' : slot_ok n r') by (destruct Hok; split; try done; unfold queue_nr, NR_SCHED_QUEUES; simpl; lia).
  destruct (reschedule_ok s n r r' (ok_but_of n s Hs) Hr Hok') as (x&s'&Hrun&Hs'&Hr'&Hin&Htab&Hb&Hk).
  rewrite (bind_run _ _ _ _ _ Hrun). exists s'. split_and!; [done| |done..|].
  - eapply (ok_but_finish n); [done|exact Hr'|]. intros _. split; [by destruct Hok'; split|done].
  - destruct Hk as [(_&_&Hst)|(_&_&->)]; [|done]. eapply stepped_steady; [exact Hst|apply Hok'|apply Hok'].
Qed.

Lemma balance_slots_run ns : forall s,
  sched_ok s -> NoDup ns -> Forall (fun n => 0 <= n < NR_PROCS) ns ->
  exists s', balance_slots ns s = Some (tt, s') /\ sched_ok s' /\ balance_timeout s' = balance_timeout s /\ steady (skern s) (skern s') /\
    forall n r, slot s n r -> slot s' n (if bool_decide (n ∈ ns) then raised r else r).
Proof.
  induction ns as [|n ns IH]; intros s Hs Hnd Hall; cbn [balance_slots]; [by exists s|].
  apply NoDup_cons in Hnd as [Hnin Hnd]. apply Forall_cons in Hall as [Hn Hall].
  destruct (ok_slot s n Hs Hn) as [r Hr]. destruct (balance_one_run s n r Hs Hr) as (s1&Hrun&Hs1&Htab&Hb1&Hst1).
  rewrite (bind_run _ _ _ _ _ Hrun). destruct (IH s1 Hs1 Hnd Hall) as (s'&Hrun'&Hs'&Hb'&Hst'&Hsl).
  exists s'. split_and!; [done|done|congruence|by etransitivity|]. intros n' r' Hr'. destruct (decide (n' = n)) as [->|Hne].
  - rewrite (slot_fun _ _ _ _ Hr' Hr). rewrite (bool_decide_eq_true_2 (n ∈ n :: ns)) by set_solver.
    assert (Hr1 : slot s1 n (raised r)).
    { split; [lia|]. rewrite Htab. apply list_lookup_insert_eq. apply (lookup_lt_Some _ _ _ (proj2 Hr)). }
    specialize (Hsl n _ Hr1). by rewrite bool_decide_eq_false_2 in Hsl.
  - assert (Hr1 : slot s1 n' r').
    { split; [apply Hr'|]. rewrite Htab, list_lookup_insert_ne; [apply Hr'|]. destruct Hr'. lia. }
    specialize (Hsl n' _ Hr1). rewrite (bool_decide_ext (n' ∈ n :: ns) (n' ∈ ns)) by set_solver. done.
Qed.

Lemma balance_all_run s :
  sched_ok s ->
  exists s', balance_all s = Some (tt, s') /\ sched_ok s' /\ balance_timeout s' = balance_timeout s /\ steady (skern s) (skern s') /\
    schedprocs s' = raised <$> schedprocs s.
Proof.
  intros Hs. destruct (balance_slots_run (seqZ 0 NR_PROCS) s Hs (NoDup_seqZ _ _)) as (s'&Hrun&Hs'&Hb&Hst&Hsl).
  { apply Forall_forall. intros n Hn. apply elem_of_seqZ in Hn. lia. }
  exists s'. split_and!; [done..|]. apply list_eq. intros i. rewrite list_lookup_fmap.
  destruct (schedprocs s !! i) as [r|] eqn:Hr.
  - destruct (Hsl (Z.of_nat i) r) as [_ Hi]; [split; [lia|by rewrite Nat2Z.id]|]. rewrite Nat2Z.id in Hi. rewrite Hi. simpl.
    rewrite bool_decide_eq_true_2; [done|]. apply elem_of_seqZ. apply lookup_lt_Some in Hr. rewrite (sk_length _ Hs) in Hr. lia.
  - apply lookup_ge_None in Hr. apply lookup_ge_None. by rewrite (sk_length _ Hs'), <- (sk_length _ Hs).
Qed.

(** ** The timer *)

(** Only the timer for balancing is set. *)
Record timer_ok (t : sys_timers) : Prop := {
  tk_ok : sys_timers_ok t [sched_timer];
  tk_idle : expiring t = false;
  tk_func : tmr_func (timers t) !! sched_timer = Some BALANCE_QUEUES;
}.

(** When the queues are balanced next. *)
Definition next_balance (t : sys_timers) : Z := texp (timers t) sched_timer.

Lemma rearm_run t l now ticks :
  sys_timers_ok t l -> remove1 sched_timer l = [] -> 0 < now + ticks ->
  exists t', set_timer true t (Some now) sched_timer ticks BALANCE_QUEUES 0 = Some t' /\ sys_timers_ok t' [sched_timer] /\
    expiring t' = expiring t /\ tmr_func (timers t') !! sched_timer = Some BALANCE_QUEUES /\ next_balance t' = now + ticks.
Proof.
  intros Ht Hl Hpos. destruct (set_timer_ok t l now sched_timer ticks BALANCE_QUEUES 0 Ht) as (t'&Hrun&He&Hok); [done|done|].
  destruct (settimer_gen (timers t) l sched_timer (now + ticks) BALANCE_QUEUES true (st_wf _ _ Ht)) as (q&Hq&_&Hexp&Hfn); [done|].
  unfold insert_pos in Hok. rewrite Hl in Hok. exists t'. split_and!; [done..| |].
  all: assert (Htq : timers t' = q) by
    (unfold set_timer in Hrun; simpl in Hrun; rewrite Hq in Hrun; simpl in Hrun; destruct (_ && _); by injection Hrun as <-).
  - by rewrite Htq, Hfn, lookup_insert_eq.
  - unfold next_balance. rewrite Htq. rewrite (texp_insert (timers t) q sched_timer (now + ticks)) by done. by rewrite decide_True.
Qed.

(** The end of [expire_timers]: the alarm is set for the timer. *)
Lemma expire_end {B} call fuel now t (b : B) q args al b' :
  exp_loop (expire_call call) fuel now (timers t, (tmr_arg t, alarm t, b)) = Some (q, (args, al, b')) ->
  sys_timers_ok (SysTimers q true args al) [sched_timer] -> tmr_func q !! sched_timer = Some BALANCE_QUEUES ->
  exists t', expire_timers true call fuel now t b = Some (t', b') /\ timer_ok t' /\ timers t' = q.
Proof.
  intros Hloop [Hwf Hpos _] Hfn. cbn [timers] in Hwf, Hpos. unfold expire_timers, tmrs_exptimers. rewrite Hloop. simpl. rewrite (head_exp_front _ _ Hwf).
  assert (H0 : 0 < front q [sched_timer]) by (apply Hpos; set_solver). cbn [mbind option_bind]. rewrite (proj2 (Z.ltb_lt _ _) H0). simpl.
  eexists. split; [done|]. split; [|done]. split; [|done..]. split; [done..|]. intros _ _. simpl in *. lia.
Qed.

(** The clock message: the queues are balanced when it is time, and the timer
    is set again. *)
Lemma balance_expire_run t s ts now :
  timer_ok t -> sched_ok s -> 0 < balance_timeout s -> 0 <= now -> ts <= now ->
  exists t' s', expire_timers true (watchdog (Some now)) 3 ts t s = Some (t', s') /\ timer_ok t' /\
    (next_balance t <= ts /\ next_balance t' = now + balance_timeout s /\ balance_all s = Some (tt, s') \/
     ts < next_balance t /\ next_balance t' = next_balance t /\ s' = s).
Proof.
  intros [Hok Hidle Hfn] Hs Hb Hnow Hts. pose proof (st_wf _ _ Hok) as Hwf.
  destruct (popped_wf _ _ _ Hwf) as (nx&f&Hp&Hn0&Hnx&Hff&Hee&Hwf'&Ht). rewrite <- Hp in *. assert (f = BALANCE_QUEUES) as -> by congruence.
  unfold next_balance at 1 3. set (q := timers t) in *.
  assert (Hstep : forall fuel a, exp_loop (expire_call (watchdog (Some now))) (S fuel) ts (q, a) =
    if texp q sched_timer <=? ts
    then s' ← expire_call (watchdog (Some now)) BALANCE_QUEUES sched_timer (popped q nx, a); exp_loop (expire_call (watchdog (Some now))) fuel ts s'
    else Some (q, a)).
  { intros fuel a. cbn [exp_loop]. rewrite <- Hp. rewrite (proj2 (Z.eqb_neq _ _)) by done. rewrite Hee. simpl.
    destruct (_ <=? ts); [|done]. rewrite Hnx. simpl. rewrite Hff. simpl. unfold popped. by rewrite <- Hp. }
  destruct (Z_le_gt_dec (texp q sched_timer) ts) as [Hle|Hgt].
  - destruct (balance_all_run s Hs) as (s'&Hbal&_&Hb'&_).
    assert (Hpop : sys_timers_ok (SysTimers (popped q nx) true (tmr_arg t) (alarm t)) []) by (split; [done|set_solver|done]).
    destruct (rearm_run _ [] now (balance_timeout s') Hpop eq_refl) as (t1&Hset&Hok1&He1&Hfn1&Hnb1); [lia|].
    assert (Hloop : exp_loop (expire_call (watchdog (Some now))) 3 ts (q, (tmr_arg t, alarm t, s)) =
      Some (timers t1, (tmr_arg t1, alarm t1, s'))).
    { rewrite Hstep, (proj2 (Z.leb_le _ _) Hle).
      assert (Hcall : expire_call (watchdog (Some now)) BALANCE_QUEUES sched_timer (popped q nx, (tmr_arg t, alarm t, s)) =
        Some (timers t1, (tmr_arg t1, alarm t1, s'))).
      { unfold expire_call, watchdog. change (BALANCE_QUEUES =? BALANCE_QUEUES) with true. cbn iota. unfold balance_queues. cbn [fst snd].
        by rewrite Hbal, Hset. }
      rewrite Hcall. cbn [mbind option_bind exp_loop].
      destruct (popped_wf _ _ _ (st_wf _ _ Hok1)) as (nx1&f1&Hp1&Hn1&_&_&Hee1&_).
      rewrite (proj2 (Z.eqb_neq _ _) Hn1), Hee1. simpl. rewrite (proj2 (Z.leb_gt _ _)); [done|]. unfold next_balance in Hnb1. lia. }
    destruct (expire_end _ 3 ts t s _ _ _ _ Hloop) as (t'&Hrun&Hok'&Htm).
    { destruct Hok1 as [? ? _]. by split. } { done. }
    exists t', s'. split_and!; [done..|]. left. split_and!; [done| |done]. unfold next_balance. rewrite Htm. rewrite Hb' in Hnb1. exact Hnb1.
  - assert (Hloop : exp_loop (expire_call (watchdog (Some now))) 3 ts (q, (tmr_arg t, alarm t, s)) = Some (q, (tmr_arg t, alarm t, s)))
      by (rewrite Hstep, (proj2 (Z.leb_gt _ _)); [done|lia]).
    destruct (expire_end _ 3 ts t s _ _ _ _ Hloop) as (t'&Hrun&Hok'&Htm).
    { destruct Hok as [? ? _]. by split. } { done. }
    exists t', s. split_and!; [done..|]. right. split_and!; [lia| |done]. unfold next_balance. by rewrite Htm.
Qed.

(** ** Messages *)

Definition world : Type := sys_timers * sched_state.

Record world_ok (w : world) : Prop := {
  wo_timer : timer_ok (fst w);
  wo_sched : sched_ok (snd w);
  wo_timeout : 0 < balance_timeout (snd w);
}.

(** The uptime is not before the time of the message, and a time slice is one
    (which [sched_start] checks). *)
Definition msg_ok (m : sched_msg) : Prop :=
  0 <= sm_now m /\ sm_timestamp m <= sm_now m /\
  (sm_type m = SCHEDULING_START -> 1 <= snd (sm_words m) < 2 ^ 31).

Lemma serve_ok m x t s :
  timer_ok t -> 0 < balance_timeout s -> (exists r s', x s = Some (r, s') /\ sched_ok s' /\ balance_timeout s' = balance_timeout s) ->
  exists rep w', serve m x (t, s) = Some (rep, w') /\ world_ok w'.
Proof.
  intros Ht Hb ([r sch]&s'&Hx&Hs'&Hb'). unfold serve. cbn [fst snd]. rewrite Hx. eexists _, (t, s'). split; [done|].
  split; simpl; [done..|]. by rewrite Hb'.
Qed.

Lemma serve_plain_ok m x t s :
  timer_ok t -> 0 < balance_timeout s -> (exists r s', x s = Some (r, s') /\ sched_ok s' /\ balance_timeout s' = balance_timeout s) ->
  exists rep w', serve_plain m x (t, s) = Some (rep, w') /\ world_ok w'.
Proof.
  intros Ht Hb (r&s'&Hx&H). apply serve_ok; [done..|]. eexists _, s'. by rewrite (bind_run _ _ _ _ _ Hx).
Qed.

Lemma sched_main_step_ok m w :
  world_ok w -> msg_ok m -> exists rep w', sched_main_step m w = Some (rep, w') /\ world_ok w'.
Proof.
  intros Hw (Hn&Hts&Hq). destruct w as [t s]. pose proof Hw as [Ht Hs Hb]. cbn [fst snd] in *. unfold sched_main_step.
  destruct (sm_words m) as [[[w1 w2] w3] w4]. cbn [fst snd] in *. destruct (sm_notify m).
  { destruct (sm_source m =? CLOCK); [|by eexists _, _]. destruct (balance_expire_run t s _ _ Ht Hs Hb Hn Hts) as (t'&s'&->&Ht'&Hc).
    eexists _, _. split; [done|]. destruct Hc as [(_&_&Hbal)|(_&_&->)]; [|by split].
    destruct (balance_all_run s Hs) as (s2&Hbal2&Hs2&Hb2&_). assert (s2 = s') as -> by congruence. split; simpl; [done..|]. by rewrite Hb2. }
  destruct (Z.eqb_spec (sm_type m) SCHEDULING_INHERIT) as [Hi|Hi]; cbn [orb].
  { apply serve_ok; [done..|]. edestruct (do_start_ok s (sm_type m) (sm_source m) w1 w2 w3 w4 Hs) as (x&s'&?&?&?&_); [by right|done|].
    by exists x, s'. }
  destruct (Z.eqb_spec (sm_type m) SCHEDULING_START) as [Hst|Hst].
  { apply serve_ok; [done..|]. edestruct (do_start_ok s (sm_type m) (sm_source m) w1 w2 w3 w4 Hs) as (x&s'&?&?&?&_); [by left|done|].
    by exists x, s'. }
  destruct (sm_type m =? SCHEDULING_STOP).
  { apply serve_plain_ok; [done..|]. by apply do_stop_ok. }
  destruct (sm_type m =? SCHEDULING_SET_NICE); [apply serve_plain_ok; [done..|]; by apply do_nice_ok|].
  destruct (sm_type m =? SCHEDULING_NO_QUANTUM); [|by eexists _, _]. destruct (sm_from_kernel m); [|by eexists _, _].
  destruct (do_noquantum_ok s (sm_source m) Hs) as (x&s'&->&Hs'&Hb'). eexists _, (t, s'). split; [done|]. split; simpl; [done..|]. by rewrite Hb'.
Qed.

(** ** Runs *)

(** The server gets a message, or the kernel and other processes run. *)
Inductive event :=
| Got (m : sched_msg)
| KernelRan (k : kstate).

Fixpoint sched_run (evs : list event) (w : world) : option (list (option (Z * kres * option Z)) * world) :=
  match evs with
  | [] => Some ([], w)
  | Got m :: evs' =>
      match sched_main_step m w with
      | Some (rep, w1) => match sched_run evs' w1 with Some (reps, w2) => Some (rep :: reps, w2) | None => None end
      | None => None
      end
  | KernelRan k :: evs' => sched_run evs' (fst w, with_skern k (snd w))
  end.

(** The rest of the kernel keeps its invariants, and it leaves the priority and
    the quantum of a process that the server schedules alone. *)
Definition ran (s : sched_state) (k : kstate) : Prop :=
  (exists cq, kinv k cq) /\
  forall e r, known s e r -> scheduled_by k e self_addr ->
    scheduled_by (skern s) e self_addr /\ fld timing k !! target e = fld timing (skern s) !! target e.

Fixpoint events_ok (evs : list event) (w : world) : Prop :=
  match evs with
  | [] => True
  | Got m :: evs' => msg_ok m /\ match sched_main_step m w with Some (_, w1) => events_ok evs' w1 | None => True end
  | KernelRan k :: evs' => ran (snd w) k /\ events_ok evs' (fst w, with_skern k (snd w))
  end.

Lemma ran_ok s k : sched_ok s -> ran s k -> sched_ok (with_skern k s).
Proof.
  intros Hs [Hk Hr]. split; [apply Hs| |done]. intros n r Hsl Hu. destruct (sk_slots _ Hs n r Hsl Hu) as [Hok Hst]. split; [done|].
  intros Hby. simpl in *. destruct (Hr (sp_endpoint r) r) as [Hby0 Et]; [|done|rewrite Et; by apply Hst].
  split_and!; [|done..]. by rewrite (sl_nr _ _ Hok).
Qed.

Lemma sched_session_ok evs : forall w, world_ok w -> events_ok evs w -> exists reps w', sched_run evs w = Some (reps, w') /\ world_ok w'.
Proof.
  induction evs as [|[m|k] evs IH]; intros w Hw Hev; cbn [sched_run]; [by exists [], w|..].
  - destruct Hev as [Hm Hev]. destruct (sched_main_step_ok m w Hw Hm) as (rep&w1&Hstep&Hw1). rewrite Hstep in Hev |- *.
    destruct (IH w1 Hw1 Hev) as (reps&w'&->&Hw'). by exists (rep :: reps), w'.
  - destruct Hev as [Hr Hev]. apply IH; [|done]. destruct Hw as [Ht Hs Hb]. split; simpl; [done|by apply ran_ok|done].
Qed.

Lemma sched_zero_ok k cq : kinv k cq -> sched_ok (sched_zero k).
Proof.
  intros Hk. split; [apply length_replicate| |by exists cq]. intros n r [_ Hr]. unfold sched_zero in Hr. cbn [schedprocs] in Hr.
  apply lookup_replicate in Hr as [-> _]. done.
Qed.

Lemma init_ok k cq hz now :
  kinv k cq -> 0 < hz < 2 ^ 29 -> 0 <= now ->
  exists w, init_scheduling hz (Some now) (no_timers, sched_zero k) = Some w /\ world_ok w /\ next_balance (fst w) = now + BALANCE_TIMEOUT * hz /\
    balance_timeout (snd w) = BALANCE_TIMEOUT * hz /\ skern (snd w) = k.
Proof.
  intros Hk Hhz Hnow. unfold init_scheduling. cbn [fst snd balance_timeout].
  assert (Hb : u32 (BALANCE_TIMEOUT * hz) = BALANCE_TIMEOUT * hz) by (apply u32_small_nn; unfold BALANCE_TIMEOUT; lia). rewrite Hb.
  assert (Hok0 : sys_timers_ok (init_timer no_timers sched_timer) []).
  { split; [|set_solver|done]. split; [constructor|set_solver|set_solver|constructor]. }
  destruct (rearm_run _ [] now (BALANCE_TIMEOUT * hz) Hok0 eq_refl) as (t&Hset&Hok&He&Hfn&Hnb); [unfold BALANCE_TIMEOUT; lia|].
  rewrite Hset. eexists. split; [done|]. split; [|done]. split; cbn [fst snd balance_timeout]; [by split| |unfold BALANCE_TIMEOUT; lia].
  destruct (sched_zero_ok k cq Hk) as [H1 H2 H3]. by split.
Qed.

(** ** What the theorems need *)

(** Clock messages that come when the queues have to be balanced. *)
Fixpoint due_ticks (timeout next : Z) (ms : list sched_msg) : Prop :=
  match ms with
  | [] => True
  | m :: ms' =>
      sm_notify m = true /\ sm_source m = CLOCK /\ 0 <= sm_now m /\ next <= sm_timestamp m <= sm_now m /\
      due_ticks timeout (sm_now m + timeout) ms'
  end.

(** The priority after [n] rounds. *)
Definition recovered (n : nat) (r : schedproc) : Z :=
  if sp_max_priority r <? sp_priority r then Z.max (sp_max_priority r) (sp_priority r - Z.of_nat n) else sp_priority r.

Lemma raised_use r : in_use (raised r) = in_use r.
Proof. unfold raised. by destruct (_ && _). Qed.

Lemma raised_rounds n r :
  in_use r = true ->
  sp_priority (Nat.iter n raised r) = recovered n r /\ sp_max_priority (Nat.iter n raised r) = sp_max_priority r /\
  sp_time_slice (Nat.iter n raised r) = sp_time_slice r /\ in_use (Nat.iter n raised r) = true /\
  sp_endpoint (Nat.iter n raised r) = sp_endpoint r.
Proof.
  intros Hu. induction n as [|n (Hp&Hm&Ht&Hi&He)].
  - unfold recovered. simpl. split_and!; try done. destruct (Z.ltb_spec (sp_max_priority r) (sp_priority r)); lia.
  - change (Nat.iter (S n) raised r) with (raised (Nat.iter n raised r)). generalize dependent (Nat.iter n raised r).
    intros x Hp Hm Ht Hi He. rewrite raised_use, Hi. unfold raised. rewrite Hi, Hm. cbn [andb]. rewrite Hp. unfold recovered in *.
    destruct (Z.ltb_spec (sp_max_priority r) (sp_priority r)) as [H|H].
    + destruct (Z.ltb_spec (sp_max_priority r) (Z.max (sp_max_priority r) (sp_priority r - Z.of_nat n))); simpl; split_and!; try done; lia.
    + rewrite (proj2 (Z.ltb_ge _ _)) by lia. by split_and!.
Qed.

Lemma balance_rounds ms : forall t s,
  world_ok (t, s) -> due_ticks (balance_timeout s) (next_balance t) ms ->
  exists reps t' s', sched_run (Got <$> ms) (t, s) = Some (reps, (t', s')) /\ world_ok (t', s') /\ steady (skern s) (skern s') /\
    schedprocs s' = Nat.iter (length ms) raised <$> schedprocs s.
Proof.
  induction ms as [|m ms IH]; intros t s Hw Hd.
  { exists [], t, s. split_and!; [done..|]. simpl. symmetry. apply list_fmap_id. }
  destruct Hd as (Hn&Hc&Hnow&Hts&Hd). pose proof Hw as [Ht Hs Hb]. cbn [fst snd] in *.
  destruct (balance_expire_run t s (sm_timestamp m) (sm_now m) Ht Hs Hb Hnow) as (t1&s1&Hexp&Ht1&[(_&Hnb&Hbal)|(?&_)]); [lia| |lia].
  destruct (balance_all_run s Hs) as (s2&Hbal2&Hs2&Hb2&Hst2&Htab). assert (s2 = s1) as -> by congruence.
  destruct (IH t1 s1) as (reps&t'&s'&Hrun&Hw'&Hst&Htab').
  { split; simpl; [done..|]. by rewrite Hb2. }
  { by rewrite Hb2, Hnb. }
  exists (None :: reps), t', s'. split; [|split_and!; [done|by etransitivity|]].
  - cbn [fmap list_fmap sched_run]. unfold sched_main_step. destruct (sm_words m) as [[[w1 w2] w3] w4]. rewrite Hn, Hc. cbn [fst snd].
    change (CLOCK =? CLOCK) with true. cbn iota. by rewrite Hexp, Hrun.
  - rewrite Htab', Htab, <- list_fmap_compose. apply list_fmap_ext. intros i x _.
    change (Nat.iter (length ms) raised (raised x) = raised (Nat.iter (length ms) raised x)). by rewrite Nat.iter_swap.
Qed.

(** ** Theorems *)


(** The message of the kernel about a process that has used up its quantum. *)
Definition out_of_quantum (e now : Z) : sched_msg := SchedMsg e SCHEDULING_NO_QUANTUM false true 0 (0, 0, 0, 0) now.

(** C28: a process that has used up its quantum runs again. When the kernel tells the server that the quantum of a process is used up, the server lowers the priority by one, but not below the lowest queue for users, and the kernel then has this priority, a full quantum of the time slice of the process in cycles of the processor, and no longer holds the process back for its quantum; the invariants hold, and priorities, quanta and schedulers of all other processes stay. *)
Theorem quantum_renewed (t : sys_timers) (s : sched_state) (e now : Z) (r : schedproc) :
  sched_ok s -> known s e r -> scheduled_by (skern s) e self_addr ->
  exists s' q, sched_main_step (out_of_quantum e now) (t, s) = Some (None, (t, s')) /\ sched_ok s' /\
    known s' e (with_sp_cpu 0 (with_sp_priority (Z.min (sp_priority r + 1) MIN_USER_Q) r)) /\
    procs (skern s') !! target e = Some q /\ p_priority q = Z.min (sp_priority r + 1) MIN_USER_Q /\
    p_quantum_size_ms q = sp_time_slice r /\ p_cpu_time_left q = u64 (tsc_per_ms (skern s) * sp_time_slice r) /\
    has (p_rts_flags q) RTS_NO_QUANTUM = false /\
    forall p, p <> target e -> fld timing (skern s') !! p = fld timing (skern s) !! p.
Proof.
  intros Hs Hkn Hby. destruct (do_noquantum_run s e r Hs Hkn) as (x&s'&Hrun&Hs'&Hkn'&_&_&[(_&->&Hst)|[Hno _]]); [|done].
  pose proof Hkn as (Hr&Hu&He). destruct (sk_slots _ Hs _ _ Hr Hu) as [Hok _].
  assert (Hp : queue_nr (sp_priority (lowered r))).
  { pose proof (sl_prio _ _ Hok). unfold lowered, queue_nr, MIN_USER_Q, NR_SCHED_QUEUES in *. simpl. lia. }
  destruct (stepped_facts _ _ _ Hst Hp (proj1 (sl_slice _ _ Hok))) as [_ Et].
  destruct (stepped_process _ _ _ Hst Hp (proj1 (sl_slice _ _ Hok))) as (q&Hq&H1&H2&H3&H4).
  change (sp_endpoint (lowered r)) with (sp_endpoint r) in *. rewrite He in *.
  exists s', q. split_and!; try done.
  - unfold sched_main_step, out_of_quantum. simpl. by rewrite Hrun.
  - intros p Hp'. rewrite Et. by rewrite lookup_insert_ne.
Qed.

(** C29: processes recover from a lowered priority. Each time the alarm rings, the server balances its queues once and sets the alarm again; after n rounds without other events every process it schedules has been raised by n queues, or has its maximum priority, in the table of the server and in the kernel, so that after 15 rounds at most all are back. *)
Theorem balance_recovers (ms : list sched_msg) (t : sys_timers) (s : sched_state) :
  world_ok (t, s) -> due_ticks (balance_timeout s) (next_balance t) ms ->
  exists reps t' s', sched_run (Got <$> ms) (t, s) = Some (reps, (t', s')) /\ world_ok (t', s') /\
    forall e r, known s e r -> exists r', known s' e r' /\
      sp_priority r' = recovered (length ms) r /\ sp_max_priority r' = sp_max_priority r /\
      (length ms = 15%nat -> sp_priority r' <= sp_max_priority r) /\
      (scheduled_by (skern s) e self_addr ->
       fld timing (skern s') !! target e = Some (recovered (length ms) r, sp_time_slice r, self_addr)).
Proof.
  intros Hw Hd. destruct (balance_rounds ms t s Hw Hd) as (reps&t'&s'&Hrun&Hw'&Hst&Htab). exists reps, t', s'. split_and!; [done..|].
  intros e r (Hr&Hu&He).
  assert (Hr' : slot s' (_ENDPOINT_P e) (Nat.iter (length ms) raised r)).
  { split; [apply Hr|]. rewrite Htab, list_lookup_fmap. by rewrite (proj2 Hr). }
  destruct (raised_rounds (length ms) r Hu) as (Hp&Hm&Hts&Hu'&He'). exists (Nat.iter (length ms) raised r).
  assert (Hkn : known s' e (Nat.iter (length ms) raised r)) by (split_and!; [done..|congruence]).
  destruct (sk_slots _ (wo_sched _ Hw) _ _ Hr Hu) as [Hok _]. split_and!; [done..| |].
  - intros Hl. rewrite Hp, Hl. unfold recovered. pose proof (sl_prio _ _ Hok). pose proof (sl_max _ _ Hok).
    unfold queue_nr, NR_SCHED_QUEUES in *. destruct (Z.ltb_spec (sp_max_priority r) (sp_priority r)); lia.
  - intros Hby. destruct (sk_slots _ (wo_sched _ Hw') _ _ Hr' Hu') as [_ Hstep]. unfold in_step in Hstep.
    rewrite He', He, Hp, Hts in Hstep. apply Hstep. by apply (steady_by _ _ _ _ Hst).
Qed.
