(* ===== verification/SchedClient.v ===== *)
(** The library calls by which the process manager and the reincarnation server
    hand processes to a scheduler (lib/libsys: sched_start.c, sched_stop.c,
    taskcall.c), over the user-space scheduler and the kernel. *)

From S2P Require Import Prelude Chain Timers KState KSched KBoot KWait KNotify KBase KMain KSignal KIpc KSend KPriv KSys Sched SchedOk SchedRun.
Local Open Scope Z_scope.

Section Client.
(** What another scheduler than the one in the model replies, with its word
    for the new scheduler. *)
Context (other : Z -> sched_msg -> kres * Z).

(** A request and its reply; without a reply the caller waits for ever. *)
Definition taskcall (who : Z) (m : sched_msg) (w : world) : option ((kres * Z) * world) :=
  if who =? SCHED_PROC_NR
  then match sched_main_step m w with
       | Some (Some (_, r, sch), w') => Some ((r, default 0 sch), w')
       | _ => None
       end
  else Some (other who m, w).

(** A kernel call of the process [me]. *)
Definition client_schedctl (me flags proc_ep priority quantum cpu : Z) (w : world) : option (kres * world) :=
  match do_schedctl (target me) flags proc_ep priority quantum cpu (skern (snd w)) with
  | Some (r, k) => Some (r, (fst w, with_skern k (snd w)))
  | None => None
  end.

(** The result, and the new scheduler if it is set. *)
Definition sched_inherit (me scheduler_e schedulee_e parent_e maxprio now : Z) (w : world) : option ((kres * option Z) * world) :=
  if (_ENDPOINT_P scheduler_e <? 0) || (_ENDPOINT_P schedulee_e <? 0) || (_ENDPOINT_P parent_e <? 0) || (NR_SCHED_QUEUES <=? maxprio)
  then None
  else
    match taskcall scheduler_e (SchedMsg me SCHEDULING_INHERIT false false 0 (schedulee_e, parent_e, i32 maxprio, 0) now) w with
    | Some ((rv, sch), w') => if negb (is_OK rv) then Some ((rv, None), w') else Some ((OK, Some sch), w')
    | None => None
    end.

Definition sched_start (me scheduler_e schedulee_e parent_e maxprio quantum cpu now : Z) (w : world)
  : option ((kres * option Z) * world) :=
  if scheduler_e =? NONE then Some ((OK, None), w)
  else if (_ENDPOINT_P schedulee_e <? 0) || (_ENDPOINT_P parent_e <? 0) || (maxprio <? 0) || (NR_SCHED_QUEUES <=? maxprio) || (quantum <=? 0)
  then None
  else if scheduler_e =? KERNEL
  then match client_schedctl me SCHEDCTL_FLAG_KERNEL schedulee_e maxprio quantum cpu w with
       | Some (rv, w') => if negb (is_OK rv) then Some ((rv, None), w') else Some ((OK, Some scheduler_e), w')
       | None => None
       end
  else
    match taskcall scheduler_e (SchedMsg me SCHEDULING_START false false 0 (schedulee_e, parent_e, maxprio, quantum) now) w with
    | Some ((rv, sch), w') => if negb (is_OK rv) then Some ((rv, None), w') else Some ((OK, Some sch), w')
    | None => None
    end.

Definition sched_stop (me scheduler_e schedulee_e now : Z) (w : world) : option (kres * world) :=
  if (scheduler_e =? KERNEL) || (scheduler_e =? NONE) then Some (OK, w)
  else if (_ENDPOINT_P scheduler_e <? 0) || (_ENDPOINT_P schedulee_e <? 0) then None
  else
    match taskcall scheduler_e (SchedMsg me SCHEDULING_STOP false false 0 (schedulee_e, 0, 0, 0) now) w with
    | Some ((rv, _), w') => if negb (is_OK rv) then Some (rv, w') else Some (OK, w')
    | None => None
    end.

(** The server replies to requests with the result. *)
Lemma serve_reply m x t s r sch s' :
  x s = Some ((r, sch), s') -> r <> SUSPEND -> serve m x (t, s) = Some (Some (sm_source m, r, sch), (t, s')).
Proof. intros Hx Hr. unfold serve. cbn [fst snd]. rewrite Hx. unfold reply. by rewrite bool_decide_eq_false_2. Qed.

(** C27: a process is handed to the scheduler end to end. When the process manager or the reincarnation server calls [sched_start] for a live process that is not scheduled yet, the call returns without a failed assertion and names the scheduler; then the process is in the table of the server with the priority and the time slice of the call, the kernel has the server as its scheduler, has that priority and quantum, and does not hold the process back for its quantum; a [sched_stop] afterwards succeeds and the server no longer knows the process. *)
Theorem sched_start_schedules (t : sys_timers) (s : sched_state) (me e parent maxprio quantum cpu now : Z) :
  world_ok (t, s) -> startable s me e maxprio -> 0 <= _ENDPOINT_P parent -> 0 <= maxprio < NR_SCHED_QUEUES -> 1 <= quantum < 2 ^ 31 ->
  exists s' r, sched_start me SCHED_PROC_NR e parent maxprio quantum cpu now (t, s) = Some ((OK, Some SCHED_PROC_NR), (t, s')) /\
    world_ok (t, s') /\ known s' e r /\ sp_priority r = maxprio /\ sp_max_priority r = maxprio /\ sp_time_slice r = quantum /\
    scheduled_by (skern s') e self_addr /\ fld timing (skern s') !! target e = Some (maxprio, quantum, self_addr) /\
    has_quantum (skern s') e /\
    exists s'', sched_stop me SCHED_PROC_NR e now (t, s') = Some (OK, (t, s'')) /\ world_ok (t, s'') /\ forall r', ~ known s'' e r'.
Proof.
  intros [Ht Hs Hb] Hst Hpar Hmp Hq. cbn [fst snd] in *. pose proof Hst as (Hacc&(r0&[He0 _]&_)&_&_). unfold NR_SCHED_QUEUES in Hmp.
  destruct (do_start_ok s SCHEDULING_START me e parent maxprio quantum Hs) as ([x sch]&s'&Hrun&Hs'&Hb'&Hok&Hgo); [by left|done|].
  specialize (Hgo eq_refl Hst). cbn [fst snd] in *. subst x. destruct (Hok eq_refl) as (->&Hby&Hqu&r&Hkn&(_&_&Hmax&Hnew)).
  change (SCHEDULING_START =? SCHEDULING_START) with true in Hnew. destruct Hnew as [Hpr Hts]. rewrite u32_small_nn in Hmax, Hpr by lia.
  destruct Hkn as (Hr&Hu&He). destruct (sk_slots _ Hs' _ _ Hr Hu) as [_ Hstep]. unfold in_step in Hstep. rewrite He, Hpr, Hts in Hstep.
  exists s', r. split.
  { unfold sched_start. change (SCHED_PROC_NR =? NONE) with false. change (SCHED_PROC_NR =? KERNEL) with false. unfold NR_SCHED_QUEUES.
    rewrite !(proj2 (Z.ltb_ge _ _)), !(proj2 (Z.leb_gt _ _)) by lia. cbn [orb]. unfold taskcall. rewrite Z.eqb_refl.
    unfold sched_main_step. cbn [sm_words sm_notify sm_type sm_source]. change ((SCHEDULING_START =? SCHEDULING_INHERIT) || (SCHEDULING_START =? SCHEDULING_START)) with true.
    cbn iota. by rewrite (serve_reply _ _ t s OK (Some SCHED_PROC_NR) s') by done. }
  split_and!; try done; [split; cbn [fst snd]; [done..|by rewrite Hb']|by apply Hstep|].
  destruct (stop_known s' me e r Hs' Hacc) as (s''&Hstop&Hs''&Hb''&Hno); [done|]. exists s''. split_and!; [|split; cbn [fst snd]; [done..|by rewrite Hb'', Hb']|done].
  unfold sched_stop. change ((SCHED_PROC_NR =? KERNEL) || (SCHED_PROC_NR =? NONE)) with false. change (_ENDPOINT_P SCHED_PROC_NR <? 0) with false.
  rewrite (proj2 (Z.ltb_ge _ _)) by lia. cbn [orb]. unfold taskcall. rewrite Z.eqb_refl. unfold sched_main_step, serve_plain. cbn [sm_words sm_notify sm_type sm_source].
  change ((SCHEDULING_STOP =? SCHEDULING_INHERIT) || (SCHEDULING_STOP =? SCHEDULING_START)) with false. change (SCHEDULING_STOP =? SCHEDULING_STOP) with true.
  cbn iota. rewrite (serve_reply _ _ t s' OK None s''); [done| |done]. by rewrite (bind_run _ _ _ _ _ Hstop).
Qed.
End Client.
