(* ===== verification/SchedWitness.v ===== *)
(** Concrete runs of the user-space scheduler on a running system. *)

From S2P Require Import Prelude Chain Timers KState KSched KBoot KWait KNotify KBase KMain KSignal KIpc KSend KPriv KSys Sched SchedOk SchedRun SchedClient.
Local Open Scope Z_scope.

(** The system is up; the server has started at time 100. *)
Definition k0 : kstate := up ∅.
Definition w0 : world :=
  match init_scheduling 60 (Some 100) (no_timers, sched_zero k0) with Some w => w | None => (no_timers, sched_zero k0) end.

Lemma w0_init : init_scheduling 60 (Some 100) (no_timers, sched_zero k0) = Some w0 /\ world_ok w0.
Proof.
  destruct (init_ok k0 (fun _ => []) 60 100 (up_kinv ∅)) as (w&Hw&Hok&_); [lia..|]. unfold w0. by rewrite Hw.
Qed.

(** The reincarnation server asks to schedule VFS, VFS uses up three quanta,
    PM makes it nice, an unknown process uses up a quantum, and the clock
    rings. *)
Definition start_vfs : sched_msg := SchedMsg RS_PROC_NR SCHEDULING_START false false 0 (VFS_PROC_NR, RS_PROC_NR, 4, 100) 100.
Definition clock_at (now : Z) : sched_msg := SchedMsg CLOCK NOTIFY_MESSAGE true false now (0, 0, 0, 0) now.
Definition session : list sched_msg :=
  [start_vfs; out_of_quantum VFS_PROC_NR 110; out_of_quantum VFS_PROC_NR 120; out_of_quantum VFS_PROC_NR 130; clock_at 400;
   SchedMsg PM_PROC_NR SCHEDULING_SET_NICE false false 0 (VFS_PROC_NR, 7, 0, 0) 410; out_of_quantum MFS_PROC_NR 420;
   SchedMsg VFS_PROC_NR SCHEDULING_STOP false false 0 (VFS_PROC_NR, 0, 0, 0) 430;
   SchedMsg PM_PROC_NR SCHEDULING_INHERIT false false 0 (MFS_PROC_NR, VFS_PROC_NR, 7, 0) 440].

Lemma got_ok ms : Forall msg_ok ms -> forall w, events_ok (Got <$> ms) w.
Proof.
  induction 1 as [|m ms Hm _ IH]; intros w; [done|]. split; [done|]. destruct (sched_main_step m w) as [[rep w1]|]; [apply IH|done].
Qed.

Lemma session_ok : Forall msg_ok session.
Proof.
  unfold session. repeat first [apply Forall_nil_2|apply Forall_cons_2]; unfold msg_ok; cbn; (split; [lia|]); (split; [lia|]); intros; done || lia.
Qed.

(** The replies, and the priorities of VFS and MFS in the kernel. *)
Lemma session_result :
  option_map (fun x => (fst x, p_priority <$> procs (skern (snd (snd x))) !! target VFS_PROC_NR,
    p_priority <$> procs (skern (snd (snd x))) !! target MFS_PROC_NR)) (sched_run (Got <$> session) w0) =
  Some ([Some (RS_PROC_NR, OK, Some SCHED_PROC_NR); None; None; None; None; Some (PM_PROC_NR, OK, None); None;
         Some (VFS_PROC_NR, EPERM, None); Some (PM_PROC_NR, OK, Some SCHED_PROC_NR)], Some 7, Some 7).
Proof. vm_compute. reflexivity. Qed.


(** The server after the first request. *)
Definition w1 : world := match sched_main_step start_vfs w0 with Some (_, w) => w | None => w0 end.

Lemma w1_ok : world_ok w1.
Proof.
  destruct (sched_main_step_ok start_vfs w0 (proj2 w0_init)) as (rep&w&Hw&Hok); [|unfold w1; by rewrite Hw].
  unfold msg_ok. cbn. split; [lia|]. split; [lia|]. intros; lia.
Qed.

Definition vfs_entry (priority : Z) : schedproc := SchedProc VFS_PROC_NR RS_PROC_NR IN_USE 4 priority 100 0.

Lemma vfs_known : known (snd w1) VFS_PROC_NR (vfs_entry 4).
Proof. split; [split; [done|]|split; [done|done]]. vm_compute. reflexivity. Qed.

Definition scheduled_test (k : kstate) (e s : Z) : bool :=
  live_ep_test k e && match procs k !! target e with Some r => p_scheduler r =? s | None => false end.

Lemma scheduled_of k e s : scheduled_test k e s = true -> scheduled_by k e s.
Proof.
  unfold scheduled_test. rewrite andb_true_iff. intros [Hl Hs]. split; [by apply live_ep_of|].
  rewrite fld_lookup. destruct (procs k !! target e) as [r|]; [|done]. apply Z.eqb_eq in Hs. simpl. by rewrite Hs.
Qed.

Lemma vfs_scheduled : scheduled_by (skern (snd w1)) VFS_PROC_NR self_addr.
Proof. apply scheduled_of. vm_compute. reflexivity. Qed.

Lemma quantum_renewed_witness :
  exists s' q, sched_main_step (out_of_quantum VFS_PROC_NR 110) (fst w1, snd w1) = Some (None, (fst w1, s')) /\ sched_ok s' /\
    known s' VFS_PROC_NR (with_sp_cpu 0 (with_sp_priority (Z.min (sp_priority (vfs_entry 4) + 1) MIN_USER_Q) (vfs_entry 4))) /\
    procs (skern s') !! target VFS_PROC_NR = Some q /\ p_priority q = Z.min (sp_priority (vfs_entry 4) + 1) MIN_USER_Q /\
    p_quantum_size_ms q = sp_time_slice (vfs_entry 4) /\
    p_cpu_time_left q = u64 (tsc_per_ms (skern (snd w1)) * sp_time_slice (vfs_entry 4)) /\
    has (p_rts_flags q) RTS_NO_QUANTUM = false /\
    forall p, p <> target VFS_PROC_NR -> fld timing (skern s') !! p = fld timing (skern (snd w1)) !! p.
Proof. exact (quantum_renewed (fst w1) (snd w1) VFS_PROC_NR 110 (vfs_entry 4) (wo_sched _ w1_ok) vfs_known vfs_scheduled). Defined.

(** VFS has used up three quanta, and the alarm rings twice. *)
Definition w4 : world :=
  match sched_run (Got <$> [out_of_quantum VFS_PROC_NR 110; out_of_quantum VFS_PROC_NR 120; out_of_quantum VFS_PROC_NR 130]) w1 with
  | Some (_, w) => w
  | None => w1
  end.

Lemma w4_ok : world_ok (fst w4, snd w4).
Proof.
  edestruct (sched_session_ok (Got <$> [out_of_quantum VFS_PROC_NR 110; out_of_quantum VFS_PROC_NR 120; out_of_quantum VFS_PROC_NR 130]) w1 w1_ok)
    as (reps&w&Hw&Hok).
  - apply got_ok. repeat first [apply Forall_nil_2|apply Forall_cons_2]; unfold msg_ok; cbn; (split; [lia|]); (split; [lia|]); intros; done.
  - unfold w4. rewrite Hw. by destruct w.
Qed.

Lemma vfs_lowered : known (snd w4) VFS_PROC_NR (vfs_entry 7).
Proof. split; [split; [done|]|split; [done|done]]. vm_compute. reflexivity. Qed.

Lemma rings_due : due_ticks (balance_timeout (snd w4)) (next_balance (fst w4)) [clock_at 400; clock_at 710].
Proof. vm_compute. repeat split; discriminate. Qed.

Lemma balance_recovers_witness :
  exists reps t' s', sched_run (Got <$> [clock_at 400; clock_at 710]) (fst w4, snd w4) = Some (reps, (t', s')) /\ world_ok (t', s') /\
    exists r', known s' VFS_PROC_NR r' /\ sp_priority r' = 5.
Proof.
  destruct (balance_recovers [clock_at 400; clock_at 710] (fst w4) (snd w4) w4_ok rings_due) as (reps&t'&s'&Hrun&Hw&Hall).
  exists reps, t', s'. split; [exact Hrun|]. split; [exact Hw|]. destruct (Hall _ _ vfs_lowered) as (r'&Hk&Hp&_).
  exists r'. split; [exact Hk|exact Hp].
Defined.

(** VFS can be handed to the server. *)
Lemma vfs_startable : startable (snd w0) RS_PROC_NR VFS_PROC_NR 4.
Proof.
  split; [done|]. split; [|split; [done|]].
  - exists zero_schedproc. split; [split; [done|]|done]. vm_compute. reflexivity.
  - apply live_ep_of. vm_compute. reflexivity.
Qed.

Lemma w0_pair : world_ok (fst w0, snd w0).
Proof. pose proof (proj2 w0_init) as H. by destruct w0. Qed.

Lemma sched_start_schedules_witness :
  exists s' r, sched_start (fun _ _ => (ENOSYS, 0)) RS_PROC_NR SCHED_PROC_NR VFS_PROC_NR RS_PROC_NR 4 100 0 100 (fst w0, snd w0) =
      Some ((OK, Some SCHED_PROC_NR), (fst w0, s')) /\ known s' VFS_PROC_NR r /\ sp_priority r = 4 /\
    fld timing (skern s') !! target VFS_PROC_NR = Some (4, 100, self_addr) /\
    exists s'', sched_stop (fun _ _ => (ENOSYS, 0)) RS_PROC_NR SCHED_PROC_NR VFS_PROC_NR 100 (fst w0, s') = Some (OK, (fst w0, s'')).
Proof.
  destruct (sched_start_schedules (fun _ _ => (ENOSYS, 0)) (fst w0) (snd w0) RS_PROC_NR VFS_PROC_NR RS_PROC_NR 4 100 0 100
    w0_pair vfs_startable ltac:(discriminate) ltac:(vm_compute; split; [discriminate|reflexivity]) ltac:(lia))
    as (s'&r&H1&_&H2&H3&_&_&_&H4&_&s''&H5&_).
  exists s', r. split; [exact H1|]. split; [exact H2|]. split; [exact H3|]. split; [exact H4|]. exists s''. exact H5.
Defined.

(** ** Defects *)

(** A priority of NR_SCHED_QUEUES passes the check of [sched_proc], and the
    process is then entered in a queue that does not exist. *)
Lemma priority_out_of_range :
  sched_proc (target VFS_PROC_NR) NR_SCHED_QUEUES 100 0 k0 = None /\
  option_map fst (sched_proc (target VFS_PROC_NR) (NR_SCHED_QUEUES + 1) 100 0 k0) = Some EINVAL.
Proof. vm_compute. done. Qed.

(** A failure of [do_schedctl] is reported as 1. *)
Lemma schedctl_error_lost :
  option_map fst (do_schedctl (target PM_PROC_NR) SCHEDCTL_FLAG_KERNEL VFS_PROC_NR 4 0 0 k0) = Some (RetVal 1).
Proof. vm_compute. done. Qed.

(** The special case for init is never used: a process that is its own parent
    cannot inherit, and otherwise the request says what its priority is. *)
Lemma own_parent_cannot_inherit :
  option_map fst (do_start_scheduling SCHEDULING_INHERIT PM_PROC_NR VFS_PROC_NR VFS_PROC_NR 7 0 (snd w0)) = Some (EDEADEPT, None).
Proof. vm_compute. done. Qed.
