(* ===== verification/KGrant.v ===== *)
(** Grants: the kernel's check of grants and the copies made through them
    (kernel/system/do_safecopy.c, do_setgrant.c, minix/safecopies.h). *)

From S2P Require Import Prelude Chain Timers KState KSched KBoot KWait KNotify KBase KMain.
Local Open Scope Z_scope.

(** ** Grants *)

Definition CPF_READ : Z := 0x000001.
Definition CPF_WRITE : Z := 0x000002.
Definition CPF_TRY : Z := 0x000010.
Definition CPF_USED : Z := 0x000100.
Definition CPF_DIRECT : Z := 0x000200.
Definition CPF_INDIRECT : Z := 0x000400.
Definition CPF_MAGIC : Z := 0x000800.
Definition CPF_VALID : Z := 0x001000.
Definition GRANT_INVALID : Z := -1.
Definition GRANT_VALID (g : Z) : bool := GRANT_INVALID <? g.

Definition MAX_INDIRECT_DEPTH : Z := 5.
Definition MEM_TOP : Z := 0xFFFFFFFF.
Definition SCPVEC_NR : Z := 64.

(** The flags and the words of the union. *)
Record cp_grant_t := Grant { cp_flags : Z; cp_w0 : Z; cp_w1 : Z; cp_w2 : Z; cp_w3 : Z }.

Definition sizeof_cp_grant_t : Z := 36.

Definition direct_who_to (g : cp_grant_t) : Z := cp_w0 g.
Definition direct_start (g : cp_grant_t) : Z := u32 (cp_w1 g).
Definition direct_len (g : cp_grant_t) : Z := u32 (cp_w2 g).
Definition indirect_who_to (g : cp_grant_t) : Z := cp_w0 g.
Definition indirect_who_from (g : cp_grant_t) : Z := cp_w1 g.
Definition indirect_grant (g : cp_grant_t) : Z := cp_w2 g.
Definition magic_who_from (g : cp_grant_t) : Z := cp_w0 g.
Definition magic_who_to (g : cp_grant_t) : Z := cp_w1 g.
Definition magic_start (g : cp_grant_t) : Z := u32 (cp_w2 g).
Definition magic_len (g : cp_grant_t) : Z := u32 (cp_w3 g).

(** An address in a process, and a copy that was made. *)
Record vir_addr := VirAddr { va_proc : Z; va_offset : Z }.
Record vcopy := VCopy { vc_src : vir_addr; vc_dst : vir_addr; vc_bytes : Z; vc_try : bool }.

Definition EFAULT_SRC : kres := RetVal (-995).
Definition EFAULT_DST : kres := RetVal (-994).

Record vscp_vec := Vscp { v_from : Z; v_to : Z; v_gid : Z; v_offset : Z; v_addr : Z; v_bytes : Z }.

Section Grants.
(** What a process has at an address, as a grant; [None] if it cannot be read. *)
Context (gmem : Z -> Z -> option cp_grant_t).

(** ** [verify_grant] *)

Definition HASGRANTTABLE (p : Z) : K bool :=
  i ← rd p_priv p;
  if i =? null_priv then mret false
  else t ← rdp (fun s => s_grant_table (s_res s)) p; mret (negb (t =? 0)).

(** The grant of one step of the loop. *)
Definition get_grant (granter grant : Z) : K (kres + cp_grant_t) :=
  o ← isokendpt granter;
  match o with
  | None => mret (inl EINVAL)
  | Some proc_nr =>
      if negb (GRANT_VALID grant) then mret (inl EINVAL)
      else
        let granter_proc := proc_addr proc_nr in
        has_table ← HASGRANTTABLE granter_proc;
        if negb has_table then mret (inl EPERM)
        else
          entries ← rdp (fun s => s_grant_entries (s_res s)) granter_proc;
          if entries <=? grant then mret (inl EPERM)
          else
            table ← rdp (fun s => s_grant_table (s_res s)) granter_proc;
            match gmem granter (u32 (table + sizeof_cp_grant_t * grant)) with
            | None => mret (inl EPERM)
            | Some g =>
                if negb (Z.land (cp_flags g) (Z.lor CPF_USED CPF_VALID) =? Z.lor CPF_USED CPF_VALID) then mret (inl EPERM)
                else mret (inr g)
            end
  end.

Definition bad_grantee (who_to grantee : Z) : bool := negb (who_to =? grantee) && negb (grantee =? ANY) && negb (who_to =? ANY).

(** The loop: the last grant, its granter and its grantee. *)
Fixpoint grant_loop (fuel : nat) (depth granter grantee grant : Z) : K (kres + cp_grant_t * Z * Z) :=
  match fuel with
  | O => ub
  | S fuel =>
      e ← get_grant granter grant;
      match e with
      | inl r => mret (inl r)
      | inr g =>
          if has (cp_flags g) CPF_INDIRECT
          then
            if depth =? MAX_INDIRECT_DEPTH then mret (inl ELOOP)
            else if bad_grantee (indirect_who_to g) grantee then mret (inl EPERM)
            else grant_loop fuel (depth + 1) (indirect_who_from g) granter (indirect_grant g)
          else mret (inr (g, granter, grantee))
      end
  end.

Definition bad_range (offset_in bytes len : Z) : bool :=
  (u32 (offset_in + bytes) <? offset_in) || (len <? u32 (offset_in + bytes)).

(** The checks of the last grant: the address and the process it is in. *)
Definition check_grant (g : cp_grant_t) (granter grantee bytes access offset_in : Z) : kres + Z * Z :=
  if negb (Z.land (cp_flags g) access =? access) then inl EPERM
  else if has (cp_flags g) CPF_DIRECT
  then
    if u32 (MEM_TOP - direct_len g + 1) <? direct_start g then inl EPERM
    else if bad_grantee (direct_who_to g) grantee then inl EPERM
    else if bad_range offset_in bytes (direct_len g) then inl EPERM
    else inr (u32 (direct_start g + offset_in), granter)
  else if has (cp_flags g) CPF_MAGIC
  then
    if negb (granter =? VFS_PROC_NR) then inl EPERM
    else if negb (magic_who_to g =? grantee) && negb (grantee =? ANY) && negb (direct_who_to g =? ANY) then inl EPERM
    else if bad_range offset_in bytes (magic_len g) then inl EPERM
    else inr (u32 (magic_start g + offset_in), magic_who_from g)
  else inl EPERM.

(** The address, the process and the flags. *)
Definition verify_grant (granter grantee grant bytes access offset_in : Z) : K (kres + Z * Z * Z) :=
  l ← grant_loop 7 0 granter grantee grant;
  match l with
  | inl r => mret (inl r)
  | inr (g, granter, grantee) =>
      mret match check_grant g granter grantee bytes access offset_in with
           | inl r => inl r
           | inr (offset_result, e_granter) => inr (offset_result, e_granter, cp_flags g)
           end
  end.

(** ** Copies *)

(** [virtual_copy] and [virtual_copy_vmcheck]. *)
Context (virtual_copy : vcopy -> kres).

(** The result, and the copy if one was tried. *)
Definition safecopy (granter grantee grantid bytes g_offset addr access : Z) : K (kres * option vcopy) :=
  if (granter =? NONE) || (grantee =? NONE) then mret (EFAULT, None)
  else
    granter_p ← endpoint_lookup granter;
    if granter_p =? 0 then mret (EINVAL, None)
    else
      has_table ← HASGRANTTABLE granter_p;
      if negb has_table then mret (EPERM, None)
      else
        v ← verify_grant granter grantee grantid bytes access g_offset;
        match v with
        | inl r => mret (r, None)
        | inr (v_offset, new_granter, flags) =>
            let c :=
              if has access CPF_READ
              then VCopy (VirAddr new_granter v_offset) (VirAddr grantee addr) bytes (has flags CPF_TRY)
              else VCopy (VirAddr grantee addr) (VirAddr new_granter v_offset) bytes (has flags CPF_TRY) in
            let r := virtual_copy c in
            mret (if has flags CPF_TRY && (bool_decide (r = EFAULT_SRC) || bool_decide (r = EFAULT_DST)) then EFAULT else r,
                  Some c)
        end.

Definition do_safecopy_to (caller from_to gid bytes offset address : Z) : K (kres * option vcopy) :=
  ep ← rd p_endpoint caller; safecopy from_to ep gid bytes offset address CPF_WRITE.

Definition do_safecopy_from (caller from_to gid bytes offset address : Z) : K (kres * option vcopy) :=
  ep ← rd p_endpoint caller; safecopy from_to ep gid bytes offset address CPF_READ.

Fixpoint vsafecopy_loop (caller_e : Z) (vec : list vscp_vec) : K (kres * list vcopy) :=
  match vec with
  | [] => mret (OK, [])
  | v :: vec' =>
      let go granter access :=
        r ← safecopy granter caller_e (v_gid v) (v_bytes v) (v_offset v) (v_addr v) access;
        if is_OK (fst r)
        then rs ← vsafecopy_loop caller_e vec'; mret (fst rs, option_list (snd r) ++ snd rs)
        else mret (fst r, option_list (snd r)) in
      if v_from v =? SELF then go (v_to v) CPF_WRITE
      else if v_to v =? SELF then go (v_from v) CPF_READ
      else mret (EINVAL, [])
  end.

(** [vec] is what the copy of [els] elements from the caller gives.  It goes to
    an array of [SCPVEC_NR] elements; the number is not checked. *)
Definition do_vsafecopy (caller els : Z) (vec : kres + list vscp_vec) : K (kres * list vcopy) :=
  ep ← rd p_endpoint caller;
  kassert (negb (ep =? NONE));;
  match vec with
  | inl r => mret (r, [])
  | inr v => if SCPVEC_NR <? els then ub else vsafecopy_loop ep v
  end.

(** ** [do_setgrant] *)

Definition _K_SET_GRANT_TABLE (rp ptr entries : Z) : K unit :=
  updp rp (upd_res (with_s_grant_table ptr));; updp rp (upd_res (with_s_grant_entries entries)).

Definition do_setgrant (caller addr size : Z) : K kres :=
  fl ← rd p_rts_flags caller;
  i ← rd p_priv caller;
  if RTS_ISSET fl RTS_NO_PRIV || (i =? null_priv) then mret EPERM
  else _K_SET_GRANT_TABLE caller addr size;; mret OK.

(** ** What the check establishes *)

(** The process [granter] has the valid grant [g] under the number [gid]. *)
Definition granted (k : kstate) (granter gid : Z) (g : cp_grant_t) : Prop :=
  exists r s, live_ep (fld view k) granter /\ procs k !! target granter = Some r /\ privs k !! p_priv r = Some s /\
    s_grant_table (s_res s) <> 0 /\ 0 <= gid < s_grant_entries (s_res s) /\
    gmem granter (u32 (s_grant_table (s_res s) + sizeof_cp_grant_t * gid)) = Some g /\
    Z.land (cp_flags g) (Z.lor CPF_USED CPF_VALID) = Z.lor CPF_USED CPF_VALID.

Definition has_table (k : kstate) (p : Z) : Prop :=
  exists r s, procs k !! p = Some r /\ privs k !! p_priv r = Some s /\ s_grant_table (s_res s) <> 0.

Lemma HASGRANTTABLE_run k p r s :
  procs k !! p = Some r -> privs k !! p_priv r = Some s -> priv_nr (p_priv r) ->
  HASGRANTTABLE p k = Some (negb (s_grant_table (s_res s) =? 0), k).
Proof.
  intros Hr Hs [Hi _]. unfold HASGRANTTABLE. rewrite (bind_run _ _ _ _ _ (rd_run p_priv p k r Hr)).
  unfold null_priv. rewrite (proj2 (Z.eqb_neq _ _)) by lia. by rewrite (bind_run _ _ _ _ _ (rdp_run _ p k r s Hr Hs)).
Qed.

Lemma get_grant_run k granter gid :
  kbase k -> exists x, get_grant granter gid k = Some (x, k) /\ forall g, x = inr g <-> granted k granter gid g.
Proof.
  intros Hk. unfold get_grant. destruct (isokendpt_run k granter Hk) as [[Hl Hrun]|[Hl Hrun]]; rewrite (bind_run _ _ _ _ _ Hrun).
  2:{ eexists. split; [done|]. intros g. split; [done|]. by intros (r&s&?&_). }
  destruct (live_slot k granter Hl) as (r&Hr&Ht&Hep&Hf).
  destruct (kbase_priv k (target granter) r Hk (live_target _ _ Hl) Hr) as (Hpn&s&Hs&_).
  assert (Huniq : forall g, granted k granter gid g <-> s_grant_table (s_res s) <> 0 /\ 0 <= gid < s_grant_entries (s_res s) /\
    gmem granter (u32 (s_grant_table (s_res s) + sizeof_cp_grant_t * gid)) = Some g /\
    Z.land (cp_flags g) (Z.lor CPF_USED CPF_VALID) = Z.lor CPF_USED CPF_VALID).
  { intros g. split.
    - intros (r'&s'&_&Hr'&Hs'&H). assert (r' = r) as -> by congruence. assert (s' = s) as -> by congruence. done.
    - intros H. by exists r, s. }
  unfold GRANT_VALID, GRANT_INVALID. destruct (Z.ltb_spec (-1) gid) as [Hg|Hg]; cbn [negb].
  2:{ eexists. split; [done|]. intros g. rewrite Huniq. split; [done|lia]. }
  change (proc_addr (_ENDPOINT_P granter)) with (target granter).
  rewrite (bind_run _ _ _ _ _ (HASGRANTTABLE_run k _ r s Hr Hs Hpn)).
  destruct (Z.eqb_spec (s_grant_table (s_res s)) 0) as [Hz|Hz]; cbn [negb].
  { eexists. split; [done|]. intros g. rewrite Huniq. split; [done|tauto]. }
  rewrite (bind_run _ _ _ _ _ (rdp_run _ _ k r s Hr Hs)).
  destruct (Z.leb_spec (s_grant_entries (s_res s)) gid) as [He|He].
  { eexists. split; [done|]. intros g. rewrite Huniq. split; [done|lia]. }
  rewrite (bind_run _ _ _ _ _ (rdp_run _ _ k r s Hr Hs)).
  destruct (gmem _ _) as [g|] eqn:Hm.
  2:{ eexists. split; [done|]. intros g. rewrite Huniq. split; [done|]. by intros (_&_&?&_). }
  destruct (Z.eqb_spec (Z.land (cp_flags g) (Z.lor CPF_USED CPF_VALID)) (Z.lor CPF_USED CPF_VALID)) as [Hv|Hv]; cbn [negb];
    eexists; (split; [done|]); intros g'; rewrite Huniq.
  - split; [intros [= <-]; split_and!; done || lia|]. intros (_&_&[= ->]&_). done.
  - split; [done|]. intros (_&_&[= ->]&?). done.
Qed.

(** A grant to [w] may be used by [grantee]. *)
Definition accepts (w grantee : Z) : Prop := w = grantee \/ grantee = ANY \/ w = ANY.

Lemma bad_grantee_spec w grantee : bad_grantee w grantee = false <-> accepts w grantee.
Proof.
  unfold bad_grantee, accepts. rewrite !andb_false_iff, !negb_false_iff, !Z.eqb_eq. tauto.
Qed.

(** The grant [gid] of [granter] lets [grantee] use, over [n] indirect grants,
    the grant [g] that [a] has given to [b]. *)
Inductive leads (k : kstate) : nat -> Z -> Z -> Z -> cp_grant_t -> Z -> Z -> Prop :=
| leads_here granter grantee gid g :
    granted k granter gid g -> has (cp_flags g) CPF_INDIRECT = false -> leads k 0 granter grantee gid g granter grantee
| leads_on n granter grantee gid g g' a b :
    granted k granter gid g -> has (cp_flags g) CPF_INDIRECT = true -> accepts (indirect_who_to g) grantee ->
    leads k n (indirect_who_from g) granter (indirect_grant g) g' a b -> leads k (S n) granter grantee gid g' a b.

Lemma granted_fun k granter gid g g' : granted k granter gid g -> granted k granter gid g' -> g = g'.
Proof.
  intros (r&s&_&Hr&Hs&_&_&Hg&_) (r'&s'&_&Hr'&Hs'&_&_&Hg'&_). congruence.
Qed.

(** The loop finds where a grant leads, over at most five indirect grants. *)
Lemma grant_loop_run fuel : forall k depth granter grantee gid,
  kbase k -> 0 <= depth <= MAX_INDIRECT_DEPTH -> Z.of_nat fuel = MAX_INDIRECT_DEPTH - depth + 2 ->
  exists x, grant_loop fuel depth granter grantee gid k = Some (x, k) /\
    forall g a b, x = inr (g, a, b) <->
      exists n, Z.of_nat n <= MAX_INDIRECT_DEPTH - depth /\ leads k n granter grantee gid g a b.
Proof.
  induction fuel as [|fuel IH]; intros k depth granter grantee gid Hk Hd Hf; [unfold MAX_INDIRECT_DEPTH in *; lia|].
  cbn [grant_loop]. destruct (get_grant_run k granter gid Hk) as (x&Hx&Hg). rewrite (bind_run _ _ _ _ _ Hx).
  destruct x as [r|g].
  { eexists. split; [done|]. intros g a b. split; [done|]. intros (n&_&Hl). exfalso.
    inversion Hl as [? ? ? ? Hgr|? ? ? ? ? ? ? ? Hgr]; subst; by apply Hg in Hgr. }
  assert (Hgr : granted k granter gid g) by (by apply Hg).
  destruct (has (cp_flags g) CPF_INDIRECT) eqn:Hi.
  2:{ eexists. split; [done|]. intros g' a b. split.
      - intros [= <- <- <-]. exists 0%nat. split; [lia|]. by constructor.
      - intros (n&_&Hl). inversion Hl as [? ? ? ? Hgr'|? ? ? ? ? ? ? ? Hgr' Hi']; subst.
        + by rewrite (granted_fun _ _ _ _ _ Hgr Hgr').
        + rewrite <- (granted_fun _ _ _ _ _ Hgr Hgr'), Hi in Hi'. done. }
  assert (Hno : forall n g' a b, leads k n granter grantee gid g' a b ->
    accepts (indirect_who_to g) grantee /\ exists m, n = S m /\ leads k m (indirect_who_from g) granter (indirect_grant g) g' a b).
  { intros n g' a b Hl. inversion Hl as [? ? ? ? Hgr' Hi'|m ? ? ? ? ? ? ? Hgr' Hi' Ha Hl']; subst;
      rewrite <- (granted_fun _ _ _ _ _ Hgr Hgr') in *; [congruence|]. split; [done|]. by exists m. }
  destruct (Z.eqb_spec depth MAX_INDIRECT_DEPTH) as [Hm|Hm].
  { eexists. split; [done|]. intros g' a b. split; [done|]. intros (n&Hn&Hl). destruct (Hno _ _ _ _ Hl) as (_&m&->&_). lia. }
  destruct (bad_grantee (indirect_who_to g) grantee) eqn:Hb.
  { eexists. split; [done|]. intros g' a b. split; [done|]. intros (n&Hn&Hl). destruct (Hno _ _ _ _ Hl) as (Ha&_).
    apply bad_grantee_spec in Ha. congruence. }
  destruct (IH k (depth + 1) (indirect_who_from g) granter (indirect_grant g) Hk) as (x&Hrun&Hiff); [lia..|].
  exists x. split; [done|]. intros g' a b. rewrite Hiff. split.
  - intros (n&Hn&Hl). exists (S n). split; [lia|]. by econstructor; try apply bad_grantee_spec.
  - intros (n&Hn&Hl). destruct (Hno _ _ _ _ Hl) as (_&m&->&Hl'). exists m. split; [lia|done].
Qed.

(** *** The last grant *)

(** The grant [g] of [a] to [b] covers [bytes] bytes from [off] on for [access]:
    they are at [addr] in the process [owner]. *)
Definition covers (g : cp_grant_t) (a b bytes access off addr owner : Z) : Prop :=
  Z.land (cp_flags g) access = access /\
  (has (cp_flags g) CPF_DIRECT = true /\
     direct_start g + direct_len g <= 2 ^ 32 /\ (direct_len g = 0 -> direct_start g = 0) /\
     accepts (direct_who_to g) b /\ off + bytes <= direct_len g /\ addr = u32 (direct_start g + off) /\ owner = a \/
   has (cp_flags g) CPF_DIRECT = false /\ has (cp_flags g) CPF_MAGIC = true /\ a = VFS_PROC_NR /\
     (magic_who_to g = b \/ b = ANY \/ magic_who_from g = ANY) /\
     off + bytes <= magic_len g /\ addr = u32 (magic_start g + off) /\ owner = magic_who_from g).

Lemma bad_range_spec off bytes len :
  0 <= off < 2 ^ 32 -> 0 <= bytes < 2 ^ 32 -> 0 <= len < 2 ^ 32 -> bad_range off bytes len = false <-> off + bytes <= len.
Proof.
  intros Ho Hb Hl. unfold bad_range, u32. rewrite orb_false_iff, !Z.ltb_ge.
  destruct (Z_lt_dec (off + bytes) (2 ^ 32)) as [H|H].
  - rewrite Z.mod_small by lia. lia.
  - replace ((off + bytes) mod 2 ^ 32) with (off + bytes - 2 ^ 32); [lia|].
    apply (Z.mod_unique_pos _ _ 1); lia.
Qed.

Lemma no_wrap_spec start len :
  0 <= start < 2 ^ 32 -> 0 <= len < 2 ^ 32 ->
  (u32 (MEM_TOP - len + 1) <? start) = false <-> start + len <= 2 ^ 32 /\ (len = 0 -> start = 0).
Proof.
  intros Hs Hl. rewrite Z.ltb_ge. unfold u32, MEM_TOP. destruct (Z.eq_dec len 0) as [-> | Hz].
  - change ((0xFFFFFFFF - 0 + 1) mod 2 ^ 32) with 0. lia.
  - rewrite Z.mod_small by lia. lia.
Qed.

Lemma u32_bound z : 0 <= u32 z < 2 ^ 32.
Proof. unfold u32. apply Z.mod_pos_bound. lia. Qed.

Lemma check_grant_spec g a b bytes access off addr owner :
  0 <= off < 2 ^ 32 -> 0 <= bytes < 2 ^ 32 ->
  check_grant g a b bytes access off = inr (addr, owner) <-> covers g a b bytes access off addr owner.
Proof.
  intros Ho Hb. unfold check_grant, covers.
  destruct (Z.eqb_spec (Z.land (cp_flags g) access) access) as [Ha|Ha]; cbn [negb]; [|naive_solver].
  destruct (has (cp_flags g) CPF_DIRECT) eqn:Hd.
  - pose proof (no_wrap_spec (direct_start g) (direct_len g) (u32_bound _) (u32_bound _)) as Hw.
    destruct (_ <? direct_start g); [naive_solver congruence|].
    pose proof (bad_grantee_spec (direct_who_to g) b) as Hg. destruct (bad_grantee _ _); [naive_solver congruence|].
    pose proof (bad_range_spec off bytes (direct_len g) Ho Hb (u32_bound _)) as Hr.
    destruct (bad_range _ _ _); [naive_solver congruence|]. naive_solver congruence.
  - destruct (has (cp_flags g) CPF_MAGIC) eqn:Hm; [|naive_solver].
    destruct (Z.eqb_spec a VFS_PROC_NR) as [Hv|Hv]; cbn [negb]; [|naive_solver].
    pose proof (bad_range_spec off bytes (magic_len g) Ho Hb (u32_bound _)) as Hr.
    destruct (negb (magic_who_to g =? b) && negb (b =? ANY) && negb (direct_who_to g =? ANY)) eqn:Hg.
    + rewrite !andb_true_iff, !negb_true_iff, !Z.eqb_neq in Hg. unfold direct_who_to, magic_who_from in *. naive_solver.
    + rewrite !andb_false_iff, !negb_false_iff, !Z.eqb_eq in Hg.
      destruct (bad_range _ _ _); [naive_solver congruence|]. unfold direct_who_to, magic_who_from in *. naive_solver congruence.
Qed.

Lemma verify_grant_run k granter grantee gid bytes access off :
  kbase k -> 0 <= off < 2 ^ 32 -> 0 <= bytes < 2 ^ 32 ->
  exists x, verify_grant granter grantee gid bytes access off k = Some (x, k) /\
    forall addr owner fl, x = inr (addr, owner, fl) <->
      exists n g a b, (n <= 5)%nat /\ leads k n granter grantee gid g a b /\ fl = cp_flags g /\
        covers g a b bytes access off addr owner.
Proof.
  intros Hk Ho Hb. unfold verify_grant. unfold MAX_INDIRECT_DEPTH in *.
  destruct (grant_loop_run 7 k 0 granter grantee gid Hk) as (x&Hx&Hiff); [unfold MAX_INDIRECT_DEPTH; lia..|].
  rewrite (bind_run _ _ _ _ _ Hx). destruct x as [r|[[g a] b]].
  { eexists. split; [done|]. intros addr owner fl. split; [done|]. intros (n&g&a&b&Hn&Hl&_).
    assert (@inl kres (cp_grant_t * Z * Z) r = inr (g, a, b)) by (apply Hiff; exists n; unfold MAX_INDIRECT_DEPTH; split; [lia|done]). done. }
  eexists. split; [done|]. intros addr owner fl. pose proof (check_grant_spec g a b bytes access off addr owner Ho Hb) as Hc.
  split.
  - destruct (check_grant _ _ _ _ _ _) as [r|[addr' owner']]; [done|]. intros [= <- <- <-].
    destruct (proj1 (Hiff g a b) eq_refl) as (n&Hn&Hl). unfold MAX_INDIRECT_DEPTH in Hn.
    exists n, g, a, b. split_and!; [lia|done|done|]. by apply Hc.
  - intros (n&g'&a'&b'&Hn&Hl&->&Hcov).
    assert (Heq : @inr kres (cp_grant_t * Z * Z) (g, a, b) = inr (g', a', b')).
    { apply Hiff. exists n. unfold MAX_INDIRECT_DEPTH. split; [lia|done]. }
    injection Heq as <- <- <-. by rewrite (proj2 Hc Hcov).
Qed.

Lemma leads_granted k n granter grantee gid g a b : leads k n granter grantee gid g a b -> exists g0, granted k granter gid g0.
Proof. by inversion 1; subst; eexists. Qed.

(** The copy [cp] is one that the grants allow. *)
Definition allowed (k : kstate) (granter grantee gid bytes off addr access : Z) (cp : vcopy) : Prop :=
  granter <> NONE /\ grantee <> NONE /\
  exists n g a b start owner, (n <= 5)%nat /\ leads k n granter grantee gid g a b /\
    covers g a b bytes access off start owner /\
    cp = if has access CPF_READ
         then VCopy (VirAddr owner start) (VirAddr grantee addr) bytes (has (cp_flags g) CPF_TRY)
         else VCopy (VirAddr grantee addr) (VirAddr owner start) bytes (has (cp_flags g) CPF_TRY).

Lemma nothing_allowed (k : kstate) (granter grantee gid bytes off addr access : Z) (r : kres) :
  granter = NONE \/ grantee = NONE \/ (forall g, ~ granted k granter gid g) ->
  exists r0 c, Some ((r, @None vcopy), k) = Some ((r0, c), k) /\
    forall cp, c = Some cp <-> allowed k granter grantee gid bytes off addr access cp.
Proof.
  intros H. exists r, None. split; [done|]. intros cp. split; [done|]. intros (H1&H2&n&g&a&b&start&owner&_&Hl&_).
  destruct H as [?|[?|H]]; [done..|]. destruct (leads_granted _ _ _ _ _ _ _ _ Hl) as [g0 Hg0]. by destruct (H g0).
Qed.

(** C10: a copy through a grant touches only memory that was granted. [safecopy] always returns; it copies exactly when the grant that the caller names leads, over at most five indirect grants each given to the next user, to a valid grant that allows the access and covers the range, and then it copies between the caller's buffer and exactly these bytes of the process that owns them. *)
Theorem safecopy_exact (k : kstate) (granter grantee gid bytes off addr access : Z) :
  kbase k -> 0 <= off < 2 ^ 32 -> 0 <= bytes < 2 ^ 32 ->
  exists r c, safecopy granter grantee gid bytes off addr access k = Some ((r, c), k) /\
    forall cp, c = Some cp <-> allowed k granter grantee gid bytes off addr access cp.
Proof.
  intros Hk Ho Hb. unfold safecopy.
  destruct (Z.eqb_spec granter NONE) as [-> | Hn1]; cbn [orb]; [apply nothing_allowed; tauto|].
  destruct (Z.eqb_spec grantee NONE) as [-> | Hn2]; [apply nothing_allowed; tauto|].
  unfold endpoint_lookup. rewrite bind_assoc.
  destruct (isokendpt_run k granter Hk) as [[Hl Hrun]|[Hl Hrun]]; rewrite (bind_run _ _ _ _ _ Hrun).
  2:{ apply nothing_allowed. right; right. by intros g (r&s&?&_). }
  destruct (live_slot k granter Hl) as (r&Hr&Ht&Hep&Hf).
  destruct (kbase_priv k (target granter) r Hk (live_target _ _ Hl) Hr) as (Hpn&s&Hs&_).
  change (proc_addr (_ENDPOINT_P granter)) with (target granter).
  rewrite (bind_run (mret _) _ k (target granter) k) by done.
  assert (Hz : target granter <> 0) by (intros E; by rewrite E in Ht). rewrite (proj2 (Z.eqb_neq _ _) Hz).
  rewrite (bind_run _ _ _ _ _ (HASGRANTTABLE_run k _ r s Hr Hs Hpn)).
  destruct (Z.eqb_spec (s_grant_table (s_res s)) 0) as [Htab|Htab]; cbn [negb].
  { apply nothing_allowed. right; right. intros g (r'&s'&_&Hr'&Hs'&Hnz&_). congruence. }
  destruct (verify_grant_run k granter grantee gid bytes access off Hk Ho Hb) as (x&Hx&Hiff). rewrite (bind_run _ _ _ _ _ Hx).
  destruct x as [e|[[start owner] fl]].
  - exists e, None. split; [done|]. intros cp. split; [done|]. intros (_&_&n&g&a&b&start&owner&Hn&Hle&Hc&_). exfalso.
    assert (@inl kres (Z * Z * Z) e = inr (start, owner, cp_flags g)) by (apply Hiff; by exists n, g, a, b). done.
  - eexists _, _. split; [done|]. intros cp. split.
    + intros [= <-]. split_and!; [done..|]. destruct (proj1 (Hiff start owner fl) eq_refl) as (n&g&a&b&Hn&Hle&->&Hc).
      by exists n, g, a, b, start, owner.
    + intros (_&_&n&g&a&b&start'&owner'&Hn&Hle&Hc&->).
      assert (Heq : @inr kres (Z * Z * Z) (start, owner, fl) = inr (start', owner', cp_flags g)) by (apply Hiff; by exists n, g, a, b).
      injection Heq as <- <- ->. done.
Qed.
End Grants.
