(* ===== verification/Grants.v ===== *)
(** The library that keeps a process's table of grants
    (lib/libsys/safecopies.c), on top of the kernel: a grant that a process
    gives is honoured exactly as it was given, until it is revoked. *)

From S2P Require Import Prelude Chain Timers KState KSched KBoot KWait KNotify KBase KMain KGrant.
Local Open Scope Z_scope.

Definition NR_STATIC_GRANTS : Z := 2.

(** The variables of the library, the arrays of grants in the memory of the
    process by their addresses, and the kernel. *)
Record glib := GLib { grants : Z; ngrants : Z; arrays : gmap Z (list cp_grant_t); kern : kstate }.

Section Library.
(** The endpoint of the process and the address of [static_grants]. *)
Context (ep static_grants : Z).

Notation self := (target ep).
Notation G := (ST glib).

(** ** The table *)

Definition get_slot (g : Z) : G cp_grant_t :=
  s ← get; l ← opt (arrays s !! grants s); opt (if 0 <=? g then l !! Z.to_nat g else None).

Definition set_slot (g : Z) (f : cp_grant_t -> cp_grant_t) : G unit :=
  old ← get_slot g;
  modify (fun s => GLib (grants s) (ngrants s) (alter (<[Z.to_nat g := f old]>) (grants s) (arrays s)) (kern s)).

Definition gassert (b : bool) : G unit := if b then mret tt else ub.

Definition sys_setgrant (addr n : Z) : G kres :=
  s ← get;
  r ← opt (do_setgrant self addr n (kern s));
  modify (fun s => GLib (grants s) (ngrants s) (arrays s) (snd r));;
  mret (fst r).

Definition set_array (addr : Z) (o : option (list cp_grant_t)) : G unit :=
  modify (fun s => GLib (grants s) (ngrants s) (partial_alter (fun _ => o) addr (arrays s)) (kern s)).

Definition unused : cp_grant_t := Grant 0 0 0 0 0.

(** [mem] is what [malloc] returns, NULL if there is no memory.  New slots have
    no flags; their other words do not matter. *)
Definition cpf_grow (mem : Z) : G unit :=
  s ← get;
  let n := ngrants s in
  let new_size := if n =? 0 then NR_STATIC_GRANTS else (1 + n) * 2 in
  let new_grants := if n =? 0 then static_grants else mem in
  gassert (new_size <? 2 ^ 31);;
  if new_grants =? 0 then mret tt
  else
    old ← (if negb (grants s =? 0) && (0 <? n) then l ← opt (arrays s !! grants s); mret (take (Z.to_nat n) l) else mret []);
    set_array new_grants (Some (old ++ replicate (Z.to_nat (new_size - n)) unused));;
    r ← sys_setgrant new_grants new_size;
    if negb (is_OK r)
    then if negb (new_grants =? static_grants) then set_array new_grants None else mret tt
    else
      (if negb (grants s =? 0) && (0 <? n) && negb (grants s =? static_grants) then set_array (grants s) None else mret tt);;
      modify (fun s => GLib new_grants new_size (arrays s) (kern s)).

(** The first slot that is not in use, or the number of slots. *)
Fixpoint free_slot (l : list cp_grant_t) (g : Z) : Z :=
  match l with
  | [] => g
  | x :: l' => if has (cp_flags x) CPF_USED then free_slot l' (g + 1) else g
  end.

Definition cpf_new_grantslot (mem : Z) : G Z :=
  s ← get;
  l ← (if ngrants s =? 0 then mret [] else opt (arrays s !! grants s));
  let g := free_slot (take (Z.to_nat (ngrants s)) l) 0 in
  gassert (g <=? ngrants s);;
  (if g =? ngrants s then cpf_grow mem else mret tt);;
  s ← get;
  gassert (g <=? ngrants s);;
  if g =? ngrants s then mret (-1)
  else
    gassert (GRANT_VALID g && (0 <=? g) && (g <? ngrants s));;
    x ← get_slot g;
    gassert (negb (has (cp_flags x) CPF_USED));;
    mret g.

(** ** Operations: -1 is an error *)

Definition ACCESS_CHECK (a : Z) : bool := Z.ldiff a (Z.lor CPF_READ (Z.lor CPF_WRITE CPF_TRY)) =? 0.

Definition GID_CHECK (gid : Z) : G bool :=
  s ← get; mret (GRANT_VALID gid && (0 <=? gid) && (gid <? ngrants s)).

Definition GID_CHECK_USED (gid : Z) : G bool :=
  ok ← GID_CHECK gid; if ok : bool then x ← get_slot gid; mret (has (cp_flags x) CPF_USED) else mret false.

Definition cpf_revoke (g : Z) : G Z :=
  ok ← GID_CHECK_USED g;
  if negb ok then mret (-1)
  else set_slot g (fun x => Grant 0 (cp_w0 x) (cp_w1 x) (cp_w2 x) (cp_w3 x));; mret 0.

Definition cpf_setgrant_direct (gid who addr bytes access : Z) : G Z :=
  ok ← GID_CHECK gid;
  if negb ok then mret (-1)
  else if negb (ACCESS_CHECK access) then mret (-1)
  else
    set_slot gid (fun x => Grant (Z.lor access (Z.lor CPF_DIRECT (Z.lor CPF_USED CPF_VALID))) who addr bytes (cp_w3 x));;
    mret 0.

Definition cpf_setgrant_indirect (gid who_to who_from his_gid : Z) : G Z :=
  ok ← GID_CHECK gid;
  if negb ok then mret (-1)
  else
    set_slot gid (fun x => Grant (Z.lor CPF_USED (Z.lor CPF_INDIRECT CPF_VALID)) who_to who_from his_gid (cp_w3 x));;
    mret 0.

Definition cpf_setgrant_magic (gid who_to who_from addr bytes access : Z) : G Z :=
  ok ← GID_CHECK gid;
  if negb ok then mret (-1)
  else if negb (ACCESS_CHECK access) then mret (-1)
  else
    set_slot gid (fun _ => Grant (Z.lor CPF_USED (Z.lor CPF_MAGIC (Z.lor CPF_VALID access))) who_from who_to addr bytes);;
    mret 0.

Definition cpf_setgrant_disable (gid : Z) : G Z :=
  ok ← GID_CHECK gid;
  if negb ok then mret (-1)
  else set_slot gid (fun x => Grant CPF_USED (cp_w0 x) (cp_w1 x) (cp_w2 x) (cp_w3 x));; mret 0.

(** A new slot, filled by [set]. *)
Definition grant_with (mem : Z) (set : Z -> G Z) : G Z :=
  g ← cpf_new_grantslot mem;
  if g <? 0 then mret GRANT_INVALID
  else
    s ← get;
    gassert (GRANT_VALID g && (0 <=? g) && (g <? ngrants s));;
    x ← get_slot g;
    gassert (negb (has (cp_flags x) CPF_USED));;
    r ← set g;
    if r <? 0 then cpf_revoke g;; mret GRANT_INVALID else mret g.

Definition cpf_grant_direct (mem who_to addr bytes access : Z) : G Z :=
  grant_with mem (fun g => cpf_setgrant_direct g who_to addr bytes access).

Definition cpf_grant_indirect (mem who_to who_from gr : Z) : G Z :=
  grant_with mem (fun g => cpf_setgrant_indirect g who_to who_from gr).

Definition cpf_grant_magic (mem who_to who_from addr bytes access : Z) : G Z :=
  if negb (ACCESS_CHECK access) then mret (-1)
  else grant_with mem (fun g => cpf_setgrant_magic g who_to who_from addr bytes access).

(** The granter and the grantee. *)
Definition cpf_lookup (g : Z) : G (option (Z * Z)) :=
  ok ← GID_CHECK_USED g;
  if negb ok then mret None
  else
    x ← get_slot g;
    mret (if has (cp_flags x) CPF_DIRECT then Some (SELF, direct_who_to x)
          else if has (cp_flags x) CPF_MAGIC then Some (magic_who_from x, magic_who_to x)
          else None).

(** [n] slots that are in use but not valid; [mems] are the results of
    [malloc]. *)
Fixpoint cpf_getgrants (mems : list Z) : G (list Z) :=
  match mems with
  | [] => mret []
  | mem :: mems' =>
      g ← cpf_new_grantslot mem;
      if g <? 0 then mret []
      else
        set_slot g (fun x => Grant CPF_USED (cp_w0 x) (cp_w1 x) (cp_w2 x) (cp_w3 x));;
        gs ← cpf_getgrants mems';
        mret (g :: gs)
  end.

Definition cpf_reload : G unit :=
  s ← get; if negb (grants s =? 0) then sys_setgrant (grants s) (ngrants s);; mret tt else mret tt.

(** ** The invariant *)

(** The slots. *)
Definition table (s : glib) : list cp_grant_t := if ngrants s =? 0 then [] else default [] (arrays s !! grants s).

(** The kernel's idea of the table of the process. *)
Definition registered (k : kstate) (addr n : Z) : Prop :=
  exists r ps, procs k !! self = Some r /\ privs k !! p_priv r = Some ps /\
    s_grant_table (s_res ps) = addr /\ s_grant_entries (s_res ps) = n.

(** The kernel accepts calls of the process. *)
Definition able (k : kstate) : Prop := forall r, procs k !! self = Some r -> RTS_ISSET (p_rts_flags r) RTS_NO_PRIV = false.

Record lib_ok (s : glib) : Prop := {
  lo_kern : kbase (kern s);
  lo_live : live_ep (fld view (kern s)) ep;
  lo_empty : ngrants s = 0 -> grants s = 0;
  lo_reg : registered (kern s) (grants s) (ngrants s);
  lo_table : ngrants s <> 0 -> 0 < ngrants s /\ exists l, arrays s !! grants s = Some l /\ Z.of_nat (length l) = ngrants s;
  lo_space : ngrants s <> 0 -> 0 < grants s /\ grants s + sizeof_cp_grant_t * ngrants s <= 2 ^ 32;
}.

Lemma length_table s : lib_ok s -> Z.of_nat (length (table s)) = ngrants s.
Proof.
  intros Hs. unfold table. destruct (Z.eqb_spec (ngrants s) 0) as [->|Hn]; [done|].
  destruct (lo_table _ Hs Hn) as (_&l&->&Hl). done.
Qed.

Lemma assert_run {A} (b : bool) (m : G A) s : b = true -> (gassert b;; m) s = m s.
Proof. by intros ->. Qed.

(** ** The kernel call *)

Lemma res_change pr pd f ps : priv_change pr pd ps (upd_res f ps).
Proof. constructor; try done; intros j Hj Hb; by left. Qed.

Lemma do_setgrant_run k addr n :
  kbase k -> live_ep (fld view k) ep ->
  exists r k', do_setgrant self addr n k = Some (r, k') /\ kbase k' /\ procs k' = procs k /\
    (if is_OK r then registered k' addr n else k' = k /\ ~ able k).
Proof.
  intros Hk Hl. apply live_target in Hl. destruct (live_slot_of k self Hl) as [r Hr].
  destruct (kbase_priv k self r Hk Hl Hr) as (Hpn&ps&Hps&_).
  unfold do_setgrant. rewrite (bind_run _ _ _ _ _ (rd_run p_rts_flags _ _ _ Hr)), (bind_run _ _ _ _ _ (rd_run p_priv _ _ _ Hr)).
  unfold null_priv. rewrite (proj2 (Z.eqb_neq (p_priv r) _)), orb_false_r by (destruct Hpn; lia).
  destruct (RTS_ISSET (p_rts_flags r) RTS_NO_PRIV) eqn:Hnp.
  { exists EPERM, k. split_and!; [done..|]. split; [done|]. intros Ha. specialize (Ha _ Hr). congruence. }
  unfold _K_SET_GRANT_TABLE.
  rewrite bind_assoc, (bind_run _ _ _ _ _ (updp_run self _ k r ps Hr Hps)).
  set (ps1 := upd_res (with_s_grant_table addr) ps). set (k1 := put_priv (p_priv r) ps1 k).
  assert (Hk1 : kbase k1) by (by eapply kbase_put_priv; [..|apply res_change]).
  assert (Hps1 : privs k1 !! p_priv r = Some ps1) by apply lookup_insert_eq.
  rewrite (bind_run _ _ _ _ _ (updp_run self _ k1 r ps1 Hr Hps1)).
  eexists OK, _. split; [done|]. split_and!.
  - eapply (kbase_put_priv k1); [done|exact Hpn|exact Hps1|apply res_change].
  - done.
  - exists r. eexists. split; [done|]. split; [apply lookup_insert_eq|done].
Qed.

(** ** New slots *)

(** The block that [malloc] returns, if it does, is a new one that lies in
    memory as a whole. *)
Definition fresh (s : glib) (mem : Z) : Prop :=
  mem = 0 \/ arrays s !! mem = None /\ mem <> static_grants /\ 0 < mem /\ mem + sizeof_cp_grant_t * ((1 + ngrants s) * 2) <= 2 ^ 32.

Hypothesis Hstatic : 0 < static_grants /\ static_grants + sizeof_cp_grant_t * NR_STATIC_GRANTS <= 2 ^ 32.

Lemma live_same k k' : procs k' = procs k -> live_ep (fld view k) ep -> live_ep (fld view k') ep.
Proof. intros E. unfold fld. by rewrite E. Qed.

(** What a table becomes. *)
Definition grown (mem : Z) (s s' : glib) : Prop :=
  ngrants s' = ngrants s /\ table s' = table s /\ (mem = 0 \/ ~ able (kern s)) \/
  ngrants s < ngrants s' /\ exists n, table s' = table s ++ replicate (S n) unused.

(** A larger table has been registered. *)
Lemma grown_table s addr size arr k :
  lib_ok s -> 0 < addr -> addr + sizeof_cp_grant_t * size <= 2 ^ 32 -> ngrants s < size ->
  arr !! addr = Some (table s ++ replicate (Z.to_nat (size - ngrants s)) unused) ->
  kbase k -> live_ep (fld view k) ep -> registered k addr size ->
  lib_ok (GLib addr size arr k) /\ forall mem, grown mem s (GLib addr size arr k).
Proof.
  intros Hs Hz Hsp Hlt Harr Hk Hl Hreg. pose proof (length_table s Hs) as Hlen.
  assert (Hn0 : 0 <= ngrants s) by lia. split.
  - constructor; simpl; [done..|lia|done| |done]. intros _. split; [lia|].
    eexists. split; [exact Harr|]. rewrite length_app, length_replicate. lia.
  - intros mem. right. simpl. split; [done|]. exists (Z.to_nat (size - ngrants s - 1)). unfold table at 1. simpl.
    rewrite (proj2 (Z.eqb_neq size 0)), Harr by lia. cbn [default from_option].
    by replace (Z.to_nat (size - ngrants s)) with (S (Z.to_nat (size - ngrants s - 1))) by lia.
Qed.

(** The kernel has refused, and nothing has changed. *)
Lemma grown_failed mem s arr :
  lib_ok s -> ~ able (kern s) -> (ngrants s <> 0 -> arr !! grants s = arrays s !! grants s) ->
  lib_ok (GLib (grants s) (ngrants s) arr (kern s)) /\ grown mem s (GLib (grants s) (ngrants s) arr (kern s)).
Proof.
  intros Hs Hab Harr. split.
  - constructor; simpl; [apply Hs..| |apply Hs]. intros Hn. rewrite (Harr Hn). by apply (lo_table _ Hs).
  - left. split; [done|]. split; [|by right]. unfold table. simpl. destruct (Z.eqb_spec (ngrants s) 0) as [Hn|Hn]; [done|]. by rewrite Harr.
Qed.

Lemma old_table s :
  lib_ok s ->
  (if negb (grants s =? 0) && (0 <? ngrants s) then l ← opt (arrays s !! grants s); mret (take (Z.to_nat (ngrants s)) l) else mret []) s =
    Some (table s, s).
Proof.
  intros Hs. unfold table. destruct (Z.eqb_spec (ngrants s) 0) as [Hn|Hn].
  - rewrite (lo_empty _ Hs Hn). done.
  - destruct (lo_table _ Hs Hn) as (Hp&l&Hl&Hlen). destruct (lo_space _ Hs Hn) as [Hg _].
    rewrite (proj2 (Z.eqb_neq (grants s) 0)) by lia. rewrite (proj2 (Z.ltb_lt _ _) Hp). simpl.
    mrun. rewrite Hl. simpl. by rewrite take_ge by lia.
Qed.

Lemma sys_setgrant_run s addr size arr :
  kbase (kern s) -> live_ep (fld view (kern s)) ep ->
  exists r k', sys_setgrant addr size (GLib (grants s) (ngrants s) arr (kern s)) = Some (r, GLib (grants s) (ngrants s) arr k') /\
    kbase k' /\ live_ep (fld view k') ep /\ procs k' = procs (kern s) /\
    (if is_OK r then registered k' addr size else k' = kern s /\ ~ able (kern s)).
Proof.
  intros Hk Hl. destruct (do_setgrant_run (kern s) addr size Hk Hl) as (r&k'&Hr&Hk'&Hp&Ho). exists r, k'.
  unfold sys_setgrant. mrun. simpl. rewrite Hr. simpl. split_and!; [done..| |done|done]. by eapply live_same.
Qed.

Lemma and_tail (A B C : Prop) : A /\ B -> C -> A /\ B /\ C.
Proof. tauto. Qed.

Lemma cpf_grow_run mem s :
  lib_ok s -> fresh s mem -> exists s', cpf_grow mem s = Some (tt, s') /\ lib_ok s' /\ grown mem s s' /\ procs (kern s') = procs (kern s).
Proof.
  intros Hs Hf. pose proof (length_table s Hs) as Hlen. unfold cpf_grow. rewrite (bind_run get _ s s s) by done.
  set (size := if ngrants s =? 0 then NR_STATIC_GRANTS else (1 + ngrants s) * 2).
  set (addr := if ngrants s =? 0 then static_grants else mem).
  assert (Hfit : addr = 0 \/ 0 < addr /\ addr + sizeof_cp_grant_t * size <= 2 ^ 32 /\ (ngrants s <> 0 -> arrays s !! addr = None)).
  { unfold addr, size. destruct (Z.eqb_spec (ngrants s) 0); [right; split_and!; [lia..|done]|].
    destruct Hf as [->|(?&?&?&?)]; [by left|right; split_and!; done]. }
  assert (Hint : size <? 2 ^ 31 = true).
  { apply Z.ltb_lt. unfold size, NR_STATIC_GRANTS, sizeof_cp_grant_t in *. destruct (Z.eqb_spec (ngrants s) 0) as [?|Hn]; [lia|].
    destruct (lo_space _ Hs Hn). unfold sizeof_cp_grant_t in *. lia. }
  rewrite assert_run by done.
  destruct (Z.eqb_spec addr 0) as [Hz|Hz]; [exists s; split; [done|]; split; [done|]; split; [|done]; left|].
  { split_and!; [done..|]. left. unfold addr in Hz. destruct (ngrants s =? 0); lia. }
  destruct Hfit as [?|(Hpos&Hfit&Hnew)]; [done|].
  rewrite (bind_run _ _ _ _ _ (old_table s Hs)).
  assert (Hsize : ngrants s < size) by (unfold size, NR_STATIC_GRANTS; destruct (Z.eqb_spec (ngrants s) 0); lia).
  set (arr := <[addr := table s ++ replicate (Z.to_nat (size - ngrants s)) unused]> (arrays s)).
  rewrite (bind_run (set_array addr _) _ s tt (GLib (grants s) (ngrants s) arr (kern s))) by done.
  destruct (sys_setgrant_run s addr size arr (lo_kern _ Hs) (lo_live _ Hs)) as (r&k'&Hr&Hk'&Hl'&Hp&Ho).
  rewrite (bind_run _ _ _ _ _ Hr).
  assert (Hne : ngrants s <> 0 -> grants s <> addr).
  { intros Hn. destruct (lo_table _ Hs Hn) as (_&l&Hl&_). specialize (Hnew Hn). congruence. }
  destruct (is_OK r); simpl.
  - pose proof (grown_table s addr size arr k' Hs Hpos Hfit Hsize ltac:(apply lookup_insert_eq) Hk' Hl' Ho) as [Hok Hgr].
    destruct (_ && _) eqn:Hold; [|eexists; split; [done|]; done]. eexists. split; [done|].
    apply and_tail; [|done]. edestruct grown_table as [Hok' Hgr']; [..|split; [exact Hok'|apply Hgr']]; try done.
    destruct (Z.eqb_spec (ngrants s) 0) as [Hn|Hn]; [rewrite (lo_empty _ Hs Hn) in Hold; done|].
    cbn [arrays kern]. change (partial_alter (fun _ => None) (grants s) arr) with (delete (grants s) arr).
    rewrite lookup_delete_ne by (by apply Hne). apply lookup_insert_eq.
  - destruct Ho as [-> Hab]. assert (H0 : ngrants s <> 0 -> arr !! grants s = arrays s !! grants s).
    { intros Hn. specialize (Hne Hn). unfold arr. by rewrite lookup_insert_ne by done. }
    assert (H1 : ngrants s <> 0 -> delete addr arr !! grants s = arrays s !! grants s).
    { intros Hn. rewrite lookup_delete_ne by (apply not_eq_sym; by apply Hne). by apply H0. }
    destruct (negb (addr =? static_grants)); eexists; (split; [done|]); (apply and_tail; [|done]).
    + exact (grown_failed mem s (delete addr arr) Hs Hab H1).
    + exact (grown_failed mem s arr Hs Hab H0).
Qed.

Lemma free_slot_spec l : forall g0, exists i,
  free_slot l g0 = g0 + Z.of_nat i /\ (i <= length l)%nat /\ forall x, l !! i = Some x -> has (cp_flags x) CPF_USED = false.
Proof.
  induction l as [|x l IH]; intros g0; simpl; [exists 0%nat; split_and!; [lia|lia|done]|].
  destruct (has (cp_flags x) CPF_USED) eqn:Hx.
  - destruct (IH (g0 + 1)) as (i&->&Hi&Hf). exists (S i). split_and!; [lia|lia|done].
  - exists 0%nat. split_and!; [lia|lia|]. by intros y [= <-].
Qed.

(** The slots are still there. *)
Definition keeps (s s' : glib) : Prop := forall i x, table s !! i = Some x -> table s' !! i = Some x.

(** New slots have no flags. *)
Definition adds_unused (s s' : glib) : Prop :=
  forall i x, table s' !! i = Some x -> table s !! i = Some x \/ x = unused /\ (length (table s) <= i)%nat.

Lemma grown_keeps mem s s' : grown mem s s' -> keeps s s' /\ adds_unused s s'.
Proof.
  unfold keeps, adds_unused. intros [(_&->&_)|(_&n&->)]; [tauto|]. split; intros i x Hx; [by apply lookup_app_l_Some|].
  apply lookup_app_Some in Hx as [?|[? Hx]]; [by left|right]. by apply lookup_replicate in Hx as [-> _].
Qed.

Lemma table_lookup s l : lib_ok s -> arrays s !! grants s = Some l -> ngrants s <> 0 -> table s = l.
Proof. intros Hs Hl Hn. unfold table. by rewrite (proj2 (Z.eqb_neq _ _) Hn), Hl. Qed.

Lemma get_slot_run s g x :
  lib_ok s -> 0 <= g -> table s !! Z.to_nat g = Some x -> get_slot g s = Some (x, s).
Proof.
  intros Hs Hg Hx. unfold table in Hx. destruct (Z.eqb_spec (ngrants s) 0); [done|]. unfold get_slot. mrun.
  destruct (arrays s !! grants s) as [l|]; [|done]. simpl in *. by rewrite (proj2 (Z.leb_le _ _) Hg), Hx.
Qed.

Lemma slot_lookup s g : lib_ok s -> 0 <= g < ngrants s -> exists x, table s !! Z.to_nat g = Some x.
Proof. intros Hs Hg. apply lookup_lt_is_Some. pose proof (length_table s Hs). lia. Qed.

Lemma set_slot_run s g f x :
  lib_ok s -> 0 <= g -> table s !! Z.to_nat g = Some x ->
  exists s', set_slot g f s = Some (tt, s') /\ lib_ok s' /\ ngrants s' = ngrants s /\
    procs (kern s') = procs (kern s) /\ table s' = <[Z.to_nat g := f x]> (table s).
Proof.
  intros Hs Hg Hx. unfold set_slot. rewrite (bind_run _ _ _ _ _ (get_slot_run _ _ _ Hs Hg Hx)).
  assert (Hn : ngrants s <> 0) by (intros E; unfold table in Hx; by rewrite E in Hx).
  destruct (lo_table _ Hs Hn) as (Hp&l&Hl&Hlen). rewrite (table_lookup s l Hs Hl Hn) in *.
  eexists. split; [done|].
  assert (Hl' : alter <[Z.to_nat g:=f x]> (grants s) (arrays s) !! grants s = Some (<[Z.to_nat g := f x]> l))
    by (by rewrite lookup_alter_eq, Hl).
  split; [|split; [done|split; [done|]]].
  - constructor; simpl; [apply Hs..| |apply Hs]. intros _. split; [done|]. eexists. split; [exact Hl'|]. by rewrite length_insert.
  - unfold table. cbn [ngrants grants arrays]. by rewrite (proj2 (Z.eqb_neq _ _) Hn), Hl'.
Qed.

Lemma valid_slot g n : GRANT_VALID g && (0 <=? g) && (g <? n) = true <-> 0 <= g < n.
Proof. unfold GRANT_VALID, GRANT_INVALID. rewrite !andb_true_iff, !Z.ltb_lt, Z.leb_le. lia. Qed.

Lemma cpf_new_grantslot_run mem s :
  lib_ok s -> fresh s mem -> exists g s', cpf_new_grantslot mem s = Some (g, s') /\ lib_ok s' /\ keeps s s' /\ adds_unused s s' /\
    procs (kern s') = procs (kern s) /\
    (g = -1 /\ (mem = 0 \/ ~ able (kern s)) \/ 0 <= g < ngrants s' /\ exists x, table s' !! Z.to_nat g = Some x /\ has (cp_flags x) CPF_USED = false).
Proof.
  intros Hs Hf. pose proof (length_table s Hs) as Hlen. unfold cpf_new_grantslot. rewrite (bind_run get _ s s s) by done.
  assert (Hold : exists l, (if ngrants s =? 0 then mret [] else opt (arrays s !! grants s)) s = Some (l, s) /\
    take (Z.to_nat (ngrants s)) l = table s).
  { unfold table. destruct (Z.eqb_spec (ngrants s) 0) as [->|Hn]; [by exists []|].
    destruct (lo_table _ Hs Hn) as (_&l&Hl&Hll). exists l. unfold opt. rewrite Hl. split; [done|]. by rewrite take_ge by lia. }
  destruct Hold as (l&Hl&Htk). rewrite (bind_run _ _ _ _ _ Hl), Htk. destruct (free_slot_spec (table s) 0) as (i&->&Hi&Hfree).
  rewrite Z.add_0_l. rewrite assert_run by (apply Z.leb_le; lia).
  assert (Hgrow : exists s', (if Z.of_nat i =? ngrants s then cpf_grow mem else mret tt) s = Some (tt, s') /\ lib_ok s' /\
    (if Z.of_nat i =? ngrants s then grown mem s s' else s' = s) /\ procs (kern s') = procs (kern s)).
  { destruct (Z.of_nat i =? ngrants s); [by apply cpf_grow_run|]. by exists s. }
  destruct Hgrow as (s'&Hrun&Hs'&Hgr&Hpr). rewrite (bind_run _ _ _ _ _ Hrun). rewrite (bind_run get _ s' s' s') by done.
  assert (keeps s s' /\ adds_unused s s' /\ Z.of_nat i <= ngrants s' /\ (Z.of_nat i = ngrants s' -> mem = 0 \/ ~ able (kern s)))
    as (Hkeep&Hadd&Hle&Hfail).
  { destruct (Z.eqb_spec (Z.of_nat i) (ngrants s)) as [Heq|Hne]; [|subst s'; split_and!; [by unfold keeps|by left|lia|lia]].
    destruct (grown_keeps _ _ _ Hgr). split_and!; [done..| |]; destruct Hgr as [(->&_&?)|[? _]]; lia || by intros. }
  rewrite assert_run by (by apply Z.leb_le).
  destruct (Z.eqb_spec (Z.of_nat i) (ngrants s')) as [He|He]; [exists (-1), s'; split_and!; try done; left; split; [done|by apply Hfail]|].
  destruct (slot_lookup s' (Z.of_nat i) Hs') as [x Hx]; [lia|].
  assert (Hu : has (cp_flags x) CPF_USED = false).
  { rewrite Nat2Z.id in Hx. destruct (Hadd _ _ Hx) as [?|[-> _]]; [by apply Hfree|done]. }
  exists (Z.of_nat i), s'. split; [|split_and!; try done; right; split; [lia|by exists x]].
  rewrite assert_run by (by apply valid_slot; lia). rewrite (bind_run _ _ _ _ _ (get_slot_run s' (Z.of_nat i) x Hs' (Nat2Z.is_nonneg i) Hx)), Hu. done.
Qed.
End Library.
