(* ===== verification/GrantSpec.v ===== *)
(** What the library for grants promises (lib/libsys/safecopies.c): an abstract
    table of grants that its operations implement, and that the kernel's check
    of grants (kernel/system/do_safecopy.c) obeys. *)

From S2P Require Import Prelude Chain Timers KState KSched KBoot KWait KNotify KBase KMain KSignal KPriv KGrant Grants.
Local Open Scope Z_scope.

(** ** The abstract table *)

(** What a slot in use holds. *)
Inductive agrant :=
| Direct (who start len access : Z)
| Indirect (who from gid : Z)
| Magic (who from start len access : Z)
| Disabled.

Definition ACCESS : Z := Z.lor CPF_READ (Z.lor CPF_WRITE CPF_TRY).

Definition decode (x : cp_grant_t) : option agrant :=
  let fl := cp_flags x in
  if negb (has fl CPF_USED) then None
  else
    Some (if negb (has fl CPF_VALID) then Disabled
          else if has fl CPF_INDIRECT then Indirect (indirect_who_to x) (indirect_who_from x) (indirect_grant x)
          else if has fl CPF_DIRECT then Direct (direct_who_to x) (direct_start x) (direct_len x) (Z.land fl ACCESS)
          else if has fl CPF_MAGIC then Magic (magic_who_to x) (magic_who_from x) (magic_start x) (magic_len x) (Z.land fl ACCESS)
          else Disabled).

Definition gtable : Type := Z -> option agrant.

Definition same (A A' : gtable) : Prop := forall g, A' g = A g.
Definition changed (A : gtable) (g : Z) (v : option agrant) (A' : gtable) : Prop :=
  A' g = v /\ forall g', g' <> g -> A' g' = A g'.

Definition abs (s : glib) : gtable := fun g => if 0 <=? g then table s !! Z.to_nat g ≫= decode else None.

(** ** Operations *)

Inductive gop :=
| GrantDirect (mem who_to addr bytes access : Z)
| GrantIndirect (mem who_to who_from gr : Z)
| GrantMagic (mem who_to who_from addr bytes access : Z)
| SetDirect (gid who addr bytes access : Z)
| SetIndirect (gid who_to who_from his_gid : Z)
| SetMagic (gid who_to who_from addr bytes access : Z)
| Revoke (g : Z)
| Disable (gid : Z)
| GetGrants (mems : list Z)
| Reload.

(** A new grant: it fails if the access is not one, without memory, or if the
    kernel does not accept the table. *)
Definition spec_new (able : Prop) (mem : Z) (ok : bool) (v : agrant) (A : gtable) (rs : list Z) (A' : gtable) : Prop :=
  rs = [-1] /\ same A A' /\ (ok = false \/ mem = 0 \/ ~ able) \/
  ok = true /\ exists g, rs = [g] /\ 0 <= g /\ A g = None /\ changed A g (Some v) A'.

(** A grant that is set: it fails if the access is not one, or without a slot. *)
Definition spec_set (g : Z) (ok : bool) (v : agrant) (A : gtable) (rs : list Z) (A' : gtable) : Prop :=
  rs = [-1] /\ same A A' /\ (ok = false \/ A g = None) \/
  ok = true /\ rs = [0] /\ 0 <= g /\ changed A g (Some v) A'.

Fixpoint spec_get (able : Prop) (mems : list Z) (A : gtable) (gs : list Z) (A' : gtable) : Prop :=
  match mems, gs with
  | [], gs => gs = [] /\ same A A'
  | mem :: _, [] => same A A' /\ (mem = 0 \/ ~ able)
  | _ :: mems', g :: gs' =>
      0 <= g /\ A g = None /\ exists A1, changed A g (Some Disabled) A1 /\ spec_get able mems' A1 gs' A'
  end.

Definition gspec (able : Prop) (o : gop) (A : gtable) (rs : list Z) (A' : gtable) : Prop :=
  match o with
  | GrantDirect mem who addr bytes access =>
      spec_new able mem (ACCESS_CHECK access) (Direct who (u32 addr) (u32 bytes) access) A rs A'
  | GrantIndirect mem who from gr => spec_new able mem true (Indirect who from gr) A rs A'
  | GrantMagic mem who from addr bytes access =>
      spec_new able mem (ACCESS_CHECK access) (Magic who from (u32 addr) (u32 bytes) access) A rs A'
  | SetDirect g who addr bytes access => spec_set g (ACCESS_CHECK access) (Direct who (u32 addr) (u32 bytes) access) A rs A'
  | SetIndirect g who from gr => spec_set g true (Indirect who from gr) A rs A'
  | SetMagic g who from addr bytes access =>
      spec_set g (ACCESS_CHECK access) (Magic who from (u32 addr) (u32 bytes) access) A rs A'
  | Revoke g => (A g = None /\ rs = [-1] /\ same A A') \/ (A g <> None /\ rs = [0] /\ changed A g None A')
  | Disable g => spec_set g true Disabled A rs A'
  | GetGrants mems => spec_get able mems A rs A'
  | Reload => rs = [] /\ same A A'
  end.

Section Correct.
Context (ep static_grants : Z).
Hypothesis Hstatic : 0 < static_grants /\ static_grants + sizeof_cp_grant_t * NR_STATIC_GRANTS <= 2 ^ 32.

Notation G := (ST glib).
Notation self := (target ep).
Notation lib_ok := (lib_ok ep).
Notation fresh := (fresh static_grants).
Notation able := (able ep).

Definition one (m : G Z) : G (list Z) := r ← m; mret [r].

Definition lib_op (o : gop) : G (list Z) :=
  match o with
  | GrantDirect mem who addr bytes access => one (cpf_grant_direct ep static_grants mem who addr bytes access)
  | GrantIndirect mem who from gr => one (cpf_grant_indirect ep static_grants mem who from gr)
  | GrantMagic mem who from addr bytes access => one (cpf_grant_magic ep static_grants mem who from addr bytes access)
  | SetDirect g who addr bytes access => one (cpf_setgrant_direct g who addr bytes access)
  | SetIndirect g who from gr => one (cpf_setgrant_indirect g who from gr)
  | SetMagic g who from addr bytes access => one (cpf_setgrant_magic g who from addr bytes access)
  | Revoke g => one (cpf_revoke g)
  | Disable g => one (cpf_setgrant_disable g)
  | GetGrants mems => cpf_getgrants ep static_grants mems
  | Reload => cpf_reload ep;; mret []
  end.

(** *** Flags *)

Lemma access_cases a : ACCESS_CHECK a = true -> a ∈ [0; 1; 2; 3; 16; 17; 18; 19].
Proof.
  unfold ACCESS_CHECK. rewrite Z.eqb_eq. change (Z.lor CPF_READ (Z.lor CPF_WRITE CPF_TRY)) with 19. intros H.
  assert (Ha : a = Z.land (a mod 2 ^ 5) 19).
  { rewrite <- Z.land_ones, <- Z.land_assoc by lia. change (Z.land (Z.ones 5) 19) with 19.
    rewrite <- (Z.lor_ldiff_and a 19) at 1. by rewrite H. }
  assert (Hm : 0 <= a mod 2 ^ 5 < 32) by (apply Z.mod_pos_bound; lia). rewrite Ha. generalize dependent (a mod 2 ^ 5).
  intros m _ Hm. assert (Hin : m ∈ seqZ 0 32) by (apply elem_of_seqZ; lia).
  revert m Hm Hin. assert (Hall : Forall (fun m => Z.land m 19 ∈ [0; 1; 2; 3; 16; 17; 18; 19]) (seqZ 0 32))
    by (apply (bool_decide_unpack _); vm_compute; done).
  intros m _ Hin. by apply (proj1 (Forall_forall _ _) Hall).
Qed.

Lemma decode_direct a who addr bytes w :
  ACCESS_CHECK a = true ->
  decode (Grant (Z.lor a (Z.lor CPF_DIRECT (Z.lor CPF_USED CPF_VALID))) who addr bytes w) = Some (Direct who (u32 addr) (u32 bytes) a).
Proof. intros Ha. apply access_cases in Ha. rewrite !elem_of_cons, elem_of_nil in Ha. destruct_or! Ha; by subst. Qed.

Lemma decode_magic a who from addr bytes :
  ACCESS_CHECK a = true ->
  decode (Grant (Z.lor CPF_USED (Z.lor CPF_MAGIC (Z.lor CPF_VALID a))) from who addr bytes) =
    Some (Magic who from (u32 addr) (u32 bytes) a).
Proof. intros Ha. apply access_cases in Ha. rewrite !elem_of_cons, elem_of_nil in Ha. destruct_or! Ha; by subst. Qed.

(** *** The table as an abstract one *)

Lemma abs_slot s g x : 0 <= g -> table s !! Z.to_nat g = Some x -> abs s g = decode x.
Proof. intros Hg Hx. unfold abs. by rewrite (proj2 (Z.leb_le _ _) Hg), Hx. Qed.

Lemma abs_outside s g : lib_ok s -> ~ 0 <= g < ngrants s -> abs s g = None.
Proof.
  intros Hs Hg. unfold abs. destruct (Z.leb_spec 0 g) as [H0|H0]; [|done].
  rewrite lookup_ge_None_2; [done|]. pose proof (length_table ep s Hs). lia.
Qed.

Lemma abs_insert s s' g x y :
  0 <= g -> table s !! Z.to_nat g = Some x -> table s' = <[Z.to_nat g := y]> (table s) -> changed (abs s) g (decode y) (abs s').
Proof.
  intros Hg Hx Ht. split.
  - apply abs_slot; [done|]. rewrite Ht. apply list_lookup_insert_eq. by apply lookup_lt_Some in Hx.
  - intros g' Hne. unfold abs. destruct (Z.leb_spec 0 g') as [H0|H0]; [|done]. rewrite Ht. by rewrite list_lookup_insert_ne by lia.
Qed.

Lemma abs_keeps s s' : keeps s s' -> adds_unused s s' -> same (abs s) (abs s').
Proof.
  intros Hk Ha g. unfold abs. destruct (0 <=? g); [|done]. destruct (table s !! Z.to_nat g) as [x|] eqn:Hx; [by rewrite (Hk _ _ Hx)|].
  destruct (table s' !! Z.to_nat g) as [x|] eqn:Hx'; [|done]. destruct (Ha _ _ Hx') as [?|[-> _]]; [congruence|done].
Qed.

Lemma same_changed A A1 g v A' : same A A1 -> changed A1 g v A' -> changed A g v A'.
Proof. intros Hs [H1 H2]. split; [done|]. intros g' Hg. by rewrite H2, Hs. Qed.

Lemma decode_None x : decode x = None <-> has (cp_flags x) CPF_USED = false.
Proof. unfold decode. by destruct (has (cp_flags x) CPF_USED). Qed.

(** *** Setting a slot *)

(** [m] sets the slot [g] to [v], if there is one and the arguments are right. *)
Definition sets (m : G Z) (g : Z) (ok : bool) (v : agrant) : Prop :=
  forall s, lib_ok s ->
    (0 <= g < ngrants s /\ ok = true /\ exists s', m s = Some (0, s') /\ lib_ok s' /\ procs (kern s') = procs (kern s) /\
       changed (abs s) g (Some v) (abs s')) \/
    (~ (0 <= g < ngrants s /\ ok = true) /\ m s = Some (-1, s)).

Lemma GID_CHECK_run {A} g (k : bool -> G A) s :
  (x ← GID_CHECK g; k x) s = k (GRANT_VALID g && (0 <=? g) && (g <? ngrants s)) s.
Proof. done. Qed.

Lemma sets_slot g ok f v :
  (forall x, ok = true -> decode (f x) = Some v) ->
  sets (x ← GID_CHECK g; if negb x then mret (-1) else if negb ok then mret (-1) else set_slot g f;; mret 0) g ok v.
Proof.
  intros Hf s Hs. rewrite GID_CHECK_run. destruct (_ && _ && _) eqn:Hg; cbn [negb].
  2:{ right. split; [|done]. intros [Hin _]. apply valid_slot in Hin. congruence. }
  apply valid_slot in Hg. destruct ok; cbn [negb]; [|right; split; [|done]; by intros [_ ?]].
  left. destruct (slot_lookup ep s g Hs Hg) as [x Hx]. split; [done|]. split; [done|].
  destruct (set_slot_run ep s g f x Hs) as (s'&Hrun&Hs'&_&Hp&Ht); [lia|done|].
  rewrite (bind_run _ _ _ _ _ Hrun). exists s'. split_and!; [done..|]. rewrite <- (Hf x eq_refl). eapply abs_insert; [lia|done..].
Qed.

Lemma sets_direct g who addr bytes access :
  sets (cpf_setgrant_direct g who addr bytes access) g (ACCESS_CHECK access) (Direct who (u32 addr) (u32 bytes) access).
Proof. apply sets_slot. intros x. apply decode_direct. Qed.

Lemma sets_magic g who from addr bytes access :
  sets (cpf_setgrant_magic g who from addr bytes access) g (ACCESS_CHECK access) (Magic who from (u32 addr) (u32 bytes) access).
Proof. apply sets_slot. intros x. apply decode_magic. Qed.

Lemma sets_indirect g who from gr : sets (cpf_setgrant_indirect g who from gr) g true (Indirect who from gr).
Proof. by apply (sets_slot g true). Qed.

Lemma sets_disable g : sets (cpf_setgrant_disable g) g true Disabled.
Proof. by apply (sets_slot g true). Qed.

Lemma one_run m s r s' : m s = Some (r, s') -> one m s = Some ([r], s').
Proof. intros H. unfold one. by rewrite (bind_run _ _ _ _ _ H). Qed.

(** What every operation does. *)
Definition steps (o : gop) (s : glib) : Prop :=
  exists rs s', lib_op o s = Some (rs, s') /\ lib_ok s' /\ procs (kern s') = procs (kern s) /\
    gspec (able (kern s)) o (abs s) rs (abs s').

Lemma sets_spec m g ok v s :
  sets m g ok v -> lib_ok s ->
  exists rs s', one m s = Some (rs, s') /\ lib_ok s' /\ procs (kern s') = procs (kern s) /\ spec_set g ok v (abs s) rs (abs s').
Proof.
  intros Hm Hs. destruct (Hm s Hs) as [([Hg _]&Hok&s'&Hr&Hs'&Hp&Hc)|[Hn Hr]]; eexists _, _; (split; [by apply one_run|]).
  - split_and!; [done..|]. by right.
  - split_and!; [done..|]. left. split_and!; [done..|]. destruct ok; [right|by left]. apply abs_outside; [done|tauto].
Qed.

(** *** Revoking and new grants *)

Lemma cpf_revoke_run s g :
  lib_ok s ->
  exists r s', cpf_revoke g s = Some (r, s') /\ lib_ok s' /\ procs (kern s') = procs (kern s) /\
    ((abs s g = None /\ r = -1 /\ s' = s) \/ (abs s g <> None /\ r = 0 /\ changed (abs s) g None (abs s'))).
Proof.
  intros Hs. unfold cpf_revoke, GID_CHECK_USED. rewrite bind_assoc, GID_CHECK_run. destruct (_ && _ && _) eqn:Hg.
  2:{ exists (-1), s. split_and!; [done..|]. left. split_and!; [|done..]. apply abs_outside; [done|]. rewrite <- valid_slot. congruence. }
  apply valid_slot in Hg. destruct (slot_lookup ep s g Hs Hg) as [x Hx]. destruct Hg as [Hg _].
  rewrite bind_assoc, (bind_run _ _ _ _ _ (get_slot_run ep s g x Hs Hg Hx)). cbn [negb].
  rewrite (bind_run (mret _) _ s (has (cp_flags x) CPF_USED) s) by done. pose proof (decode_None x) as Hd. rewrite (abs_slot s g x Hg Hx).
  destruct (has (cp_flags x) CPF_USED); cbn [negb]; [|exists (-1), s; split_and!; [done..|]; left; split_and!; [tauto|done..]].
  edestruct (set_slot_run ep s g) as (s'&Hrun&Hs'&_&Hp&Ht); [done..|]. rewrite (bind_run _ _ _ _ _ Hrun).
  exists 0, s'. split_and!; [done..|]. right. split_and!; [by rewrite Hd|done|]. exact (abs_insert s s' g x _ Hg Hx Ht).
Qed.

Lemma grant_with_run mem set ok v s :
  (forall g, sets (set g) g ok v) -> lib_ok s -> fresh s mem ->
  exists r s', grant_with ep static_grants mem set s = Some (r, s') /\ lib_ok s' /\ procs (kern s') = procs (kern s) /\
    spec_new (able (kern s)) mem ok v (abs s) [r] (abs s').
Proof.
  intros Hset Hs Hf. unfold grant_with.
  destruct (cpf_new_grantslot_run ep static_grants Hstatic mem s Hs Hf) as (g&s1&Hrun&Hs1&Hk&Ha&Hp&Hg).
  rewrite (bind_run _ _ _ _ _ Hrun). pose proof (abs_keeps s s1 Hk Ha) as Hsame.
  destruct Hg as [(->&Hfail)|(Hg&x&Hx&Hu)]; [exists (-1), s1; split_and!; [done..|]; left; tauto|].
  rewrite (proj2 (Z.ltb_ge _ _)) by lia. rewrite (bind_run get _ s1 s1 s1) by done. rewrite assert_run by (by apply valid_slot).
  rewrite (bind_run _ _ _ _ _ (get_slot_run ep s1 g x Hs1 (proj1 Hg) Hx)). rewrite assert_run by (by rewrite Hu).
  assert (Hnone : abs s1 g = None) by (rewrite (abs_slot s1 g x (proj1 Hg) Hx); by apply decode_None).
  destruct (Hset g s1 Hs1) as [(_&Hok&s2&Hr&Hs2&Hp2&Hc)|[Hn Hr]]; rewrite (bind_run _ _ _ _ _ Hr).
  - exists g, s2. split_and!; [done..|congruence|]. right. split; [done|]. exists g. split_and!; [done|lia|by rewrite <- Hsame|].
    by eapply same_changed.
  - cbn [Z.ltb Z.compare]. destruct (cpf_revoke_run s1 g Hs1) as (r&s2&Hrev&_&_&[(_&->&->)|[? _]]); [|done].
    rewrite (bind_run _ _ _ _ _ Hrev). exists (-1), s1. split_and!; [done..|]. left. split_and!; [done..|]. left. destruct ok; tauto.
Qed.

(** The blocks that [malloc] returns during [cpf_getgrants]. *)
Fixpoint fresh_all (mems : list Z) (s : glib) : Prop :=
  match mems with
  | [] => True
  | mem :: mems' =>
      fresh s mem /\
      match cpf_new_grantslot ep static_grants mem s with
      | Some (g, s1) =>
          match set_slot g (fun x => Grant CPF_USED (cp_w0 x) (cp_w1 x) (cp_w2 x) (cp_w3 x)) s1 with
          | Some (_, s2) => fresh_all mems' s2
          | None => True
          end
      | None => True
      end
  end.

Lemma able_procs k k' : procs k' = procs k -> able k' <-> able k.
Proof. intros E. unfold Grants.able. by rewrite E. Qed.

Lemma spec_get_able P Q mems : forall A gs A', (P <-> Q) -> spec_get P mems A gs A' -> spec_get Q mems A gs A'.
Proof.
  induction mems as [|mem mems IH]; intros A [|g gs] A' E; simpl; [done..|tauto|].
  intros (?&?&A1&?&?). split_and!; [done..|]. exists A1. split; [done|]. by apply IH.
Qed.

Lemma cpf_getgrants_run mems : forall s, lib_ok s -> fresh_all mems s ->
  exists gs s', cpf_getgrants ep static_grants mems s = Some (gs, s') /\ lib_ok s' /\ procs (kern s') = procs (kern s) /\
    spec_get (able (kern s)) mems (abs s) gs (abs s').
Proof.
  induction mems as [|mem mems IH]; intros s Hs Hf; [by exists [], s|]. destruct Hf as [Hf Hrest]. cbn [cpf_getgrants].
  destruct (cpf_new_grantslot_run ep static_grants Hstatic mem s Hs Hf) as (g&s1&Hrun&Hs1&Hk&Ha&Hp&Hg).
  rewrite Hrun in Hrest. rewrite (bind_run _ _ _ _ _ Hrun). pose proof (abs_keeps s s1 Hk Ha) as Hsame.
  destruct Hg as [(->&Hfail)|(Hg&x&Hx&Hu)]; [by exists [], s1|].
  rewrite (proj2 (Z.ltb_ge _ _)) by lia.
  destruct (set_slot_run ep s1 g (fun x => Grant CPF_USED (cp_w0 x) (cp_w1 x) (cp_w2 x) (cp_w3 x)) x Hs1 (proj1 Hg) Hx)
    as (s2&Hset&Hs2&_&Hp2&Ht).
  rewrite Hset in Hrest. rewrite (bind_run _ _ _ _ _ Hset). destruct (IH s2 Hs2 Hrest) as (gs&s'&Hgs&Hs'&Hp'&Hspec).
  rewrite (bind_run _ _ _ _ _ Hgs). exists (g :: gs), s'. split_and!; [done|done|congruence|]. cbn [spec_get].
  assert (Hnone : abs s1 g = None) by (rewrite (abs_slot s1 g x (proj1 Hg) Hx); by apply decode_None).
  split_and!; [lia|by rewrite <- Hsame|]. exists (abs s2). split.
  - eapply same_changed; [exact Hsame|]. exact (abs_insert s1 s2 g x _ (proj1 Hg) Hx Ht).
  - eapply spec_get_able; [|exact Hspec]. apply able_procs. congruence.
Qed.

Lemma cpf_reload_run s :
  lib_ok s -> exists s', cpf_reload ep s = Some (tt, s') /\ lib_ok s' /\ procs (kern s') = procs (kern s) /\ same (abs s) (abs s').
Proof.
  intros Hs. unfold cpf_reload. rewrite (bind_run get _ s s s) by done. destruct (negb (grants s =? 0)); [|by exists s].
  destruct (sys_setgrant_run ep s (grants s) (ngrants s) (arrays s) (lo_kern _ _ Hs) (lo_live _ _ Hs)) as (r&k'&Hr&Hk'&Hl'&Hp&Ho).
  assert (Es : GLib (grants s) (ngrants s) (arrays s) (kern s) = s) by (by destruct s). rewrite Es in Hr.
  rewrite (bind_run _ _ _ _ _ Hr). eexists. split; [done|]. split; [|done]. constructor; try done; try apply Hs.
  destruct (is_OK r); [done|]. destruct Ho as [-> _]. apply Hs.
Qed.

Definition op_fresh (o : gop) (s : glib) : Prop :=
  match o with
  | GrantDirect mem _ _ _ _ | GrantIndirect mem _ _ _ | GrantMagic mem _ _ _ _ _ => fresh s mem
  | GetGrants mems => fresh_all mems s
  | _ => True
  end.

Lemma new_step m mem ok v s :
  (exists r s', m s = Some (r, s') /\ lib_ok s' /\ procs (kern s') = procs (kern s) /\
    spec_new (able (kern s)) mem ok v (abs s) [r] (abs s')) ->
  exists rs s', one m s = Some (rs, s') /\ lib_ok s' /\ procs (kern s') = procs (kern s) /\
    spec_new (able (kern s)) mem ok v (abs s) rs (abs s').
Proof. intros (r&s'&Hr&H). exists [r], s'. split; [by apply one_run|done]. Qed.

(** Every operation does what the abstract table says. *)
Lemma lib_op_run o s : lib_ok s -> op_fresh o s -> steps o s.
Proof.
  intros Hs Hf. destruct o; unfold steps; cbn [lib_op gspec op_fresh] in *.
  - apply new_step, grant_with_run; [|done..]. intros g. apply sets_direct.
  - apply new_step, grant_with_run; [|done..]. intros g. apply sets_indirect.
  - apply new_step. unfold cpf_grant_magic. destruct (ACCESS_CHECK access) eqn:Ha; cbn [negb].
    + apply grant_with_run; [|done..]. intros g. rewrite <- Ha. apply sets_magic.
    + exists (-1), s. split_and!; [done..|]. left. split_and!; [done..|by left].
  - apply sets_spec; [apply sets_direct|done].
  - apply sets_spec; [apply sets_indirect|done].
  - apply sets_spec; [apply sets_magic|done].
  - destruct (cpf_revoke_run s g Hs) as (r&s'&Hr&Hs'&Hp&H). exists [r], s'. split; [by apply one_run|]. split_and!; [done..|].
    destruct H as [(?&->&->)|(?&->&?)]; [by left|by right].
  - apply sets_spec; [apply sets_disable|done].
  - by apply cpf_getgrants_run.
  - destruct (cpf_reload_run s Hs) as (s'&Hr&Hs'&Hp&H). exists [], s'. by rewrite (bind_run _ _ _ _ _ Hr).
Qed.

(** *** Sequences of operations *)

Fixpoint lib_ops (os : list gop) : G (list (list Z)) :=
  match os with
  | [] => mret []
  | o :: os' => r ← lib_op o; rs ← lib_ops os'; mret (r :: rs)
  end.

Fixpoint ops_fresh (os : list gop) (s : glib) : Prop :=
  match os with
  | [] => True
  | o :: os' => op_fresh o s /\ match lib_op o s with Some (_, s1) => ops_fresh os' s1 | None => True end
  end.

Fixpoint gspecs (able : Prop) (os : list gop) (A : gtable) (rs : list (list Z)) (A' : gtable) : Prop :=
  match os, rs with
  | [], [] => same A A'
  | o :: os', r :: rs' => exists A1, gspec able o A r A1 /\ gspecs able os' A1 rs' A'
  | _, _ => False
  end.

Lemma gspec_able P Q o A r A' : (P <-> Q) -> gspec P o A r A' -> gspec Q o A r A'.
Proof. intros E. destruct o; simpl; unfold spec_new; try tauto. by apply spec_get_able. Qed.

Lemma gspecs_able P Q os : forall A rs A', (P <-> Q) -> gspecs P os A rs A' -> gspecs Q os A rs A'.
Proof.
  induction os as [|o os IH]; intros A [|r rs] A' E; simpl; try done. intros (A1&?&?). exists A1.
  split; [by eapply gspec_able|by apply IH].
Qed.

Lemma lib_ops_run os : forall s, lib_ok s -> ops_fresh os s ->
  exists rs s', lib_ops os s = Some (rs, s') /\ lib_ok s' /\ procs (kern s') = procs (kern s) /\
    gspecs (able (kern s)) os (abs s) rs (abs s').
Proof.
  induction os as [|o os IH]; intros s Hs Hf; [by exists [], s|]. destruct Hf as [Hf Hrest]. cbn [lib_ops].
  destruct (lib_op_run o s Hs Hf) as (r&s1&Hr&Hs1&Hp&Hspec). rewrite Hr in Hrest. rewrite (bind_run _ _ _ _ _ Hr).
  destruct (IH s1 Hs1 Hrest) as (rs&s'&Hrs&Hs'&Hp'&Hspecs). rewrite (bind_run _ _ _ _ _ Hrs).
  exists (r :: rs), s'. split_and!; [done|done|congruence|]. exists (abs s1). split; [done|].
  eapply gspecs_able; [|done]. apply able_procs. congruence.
Qed.

(** ** The kernel *)

(** The kernel reads the table of the process from its memory. *)
Definition sees (gmem : Z -> Z -> option cp_grant_t) (s : glib) : Prop :=
  forall i x, table s !! i = Some x -> gmem ep (u32 (grants s + sizeof_cp_grant_t * Z.of_nat i)) = Some x.

(** The abstract table lets [grantee] use [n] bytes from [off] on of the grant
    [gid]; they are at [addr] in the process [owner].  What an indirect grant
    allows depends on the process it leads to. *)
Definition allows (gmem : Z -> Z -> option cp_grant_t) (k : kstate) (A : gtable) (grantee gid n acc off addr owner : Z) : Prop :=
  match A gid with
  | Some (Direct who start len access) =>
      Z.land access acc = acc /\ start + len <= 2 ^ 32 /\ (len = 0 -> start = 0) /\ accepts who grantee /\ off + n <= len /\
      addr = u32 (start + off) /\ owner = ep
  | Some (Magic who from start len access) =>
      Z.land access acc = acc /\ ep = VFS_PROC_NR /\ (who = grantee \/ grantee = ANY \/ from = ANY) /\ off + n <= len /\
      addr = u32 (start + off) /\ owner = from
  | Some (Indirect who from his) =>
      accepts who grantee /\ exists m g a b, (m <= 4)%nat /\ leads gmem k m from ep his g a b /\ covers g a b n acc off addr owner
  | Some Disabled | None => False
  end.

Lemma granted_table gmem s gid x :
  lib_ok s -> sees gmem s ->
  granted gmem (kern s) ep gid x <->
    0 <= gid /\ table s !! Z.to_nat gid = Some x /\ Z.land (cp_flags x) (Z.lor CPF_USED CPF_VALID) = Z.lor CPF_USED CPF_VALID.
Proof.
  intros Hs Hm. pose proof (length_table ep s Hs) as Hlen. destruct (lo_reg _ _ Hs) as (r&ps&Hr&Hps&Ht&He). split.
  - intros (r'&ps'&_&Hr'&Hps'&_&Hg&Hx&Hf). assert (r' = r) as -> by congruence. assert (ps' = ps) as -> by congruence.
    rewrite Ht, He in *. split_and!; [lia| |done]. destruct (slot_lookup ep s gid Hs) as [y Hy]; [lia|].
    specialize (Hm _ _ Hy). rewrite Z2Nat.id in Hm by lia. congruence.
  - intros (Hg&Hx&Hf). pose proof (lookup_lt_Some _ _ _ Hx). exists r, ps. rewrite Ht, He.
    assert (Hn : ngrants s <> 0) by lia. destruct (lo_space _ _ Hs Hn). split_and!; [apply Hs|done..|lia|lia|lia| |done].
    rewrite <- (Hm _ _ Hx). by rewrite Z2Nat.id by lia.
Qed.

Lemma has_both fl :
  Z.land fl (Z.lor CPF_USED CPF_VALID) = Z.lor CPF_USED CPF_VALID <-> has fl CPF_USED = true /\ has fl CPF_VALID = true.
Proof.
  change CPF_USED with (2 ^ 8). change CPF_VALID with (2 ^ 12). rewrite !has_testbit by lia. split.
  - intros H.
    split; [apply (f_equal (fun z => Z.testbit z 8)) in H|apply (f_equal (fun z => Z.testbit z 12)) in H];
      rewrite Z.land_spec in H; by apply andb_true_iff in H as [? _].
  - intros [H8 H12]. apply Z.bits_inj'. intros i Hi. rewrite Z.land_spec, !Z.lor_spec, !Z.pow2_bits_eqb by lia.
    destruct (Z.eqb_spec 8 i) as [<- | _]; [by rewrite H8|]. destruct (Z.eqb_spec 12 i) as [<- | _]; [by rewrite H12|]. apply andb_false_r.
Qed.

Lemma land_access fl acc : ACCESS_CHECK acc = true -> Z.land (Z.land fl ACCESS) acc = Z.land fl acc.
Proof.
  intros Ha. rewrite <- Z.land_assoc. f_equal. apply access_cases in Ha. rewrite !elem_of_cons, elem_of_nil in Ha. destruct_or! Ha; by subst.
Qed.

(** A grant of the process leads further, or it is the last one. *)
Lemma leads_inv gmem k m grantee gid x a b :
  leads gmem k m ep grantee gid x a b <->
  (m = 0%nat /\ granted gmem k ep gid x /\ has (cp_flags x) CPF_INDIRECT = false /\ a = ep /\ b = grantee) \/
  (exists m' y, m = S m' /\ granted gmem k ep gid y /\ has (cp_flags y) CPF_INDIRECT = true /\ accepts (indirect_who_to y) grantee /\
    leads gmem k m' (indirect_who_from y) ep (indirect_grant y) x a b).
Proof.
  split.
  - inversion 1; subst; [by left|right]. by eexists _, _.
  - intros [(->&?&?&->&->)|(m'&y&->&?&?&?&?)]; [by apply leads_here|by eapply leads_on].
Qed.

(** A grant that the process gives under [gid] allows this. *)
Definition reaches gmem k grantee gid n acc off addr owner : Prop :=
  exists m g a b, (m <= 5)%nat /\ leads gmem k m ep grantee gid g a b /\ covers g a b n acc off addr owner.

Lemma reaches_none gmem k grantee gid n acc off addr owner :
  (forall x, ~ granted gmem k ep gid x) -> reaches gmem k grantee gid n acc off addr owner <-> False.
Proof.
  intros H. split; [|done]. intros (m&g&a&b&_&Hl&_). apply leads_inv in Hl as [(_&Hx&_)|(m'&y&_&Hy&_)]; by eapply H.
Qed.

Lemma reaches_last gmem k grantee gid n acc off addr owner x :
  granted gmem k ep gid x -> has (cp_flags x) CPF_INDIRECT = false ->
  reaches gmem k grantee gid n acc off addr owner <-> covers x ep grantee n acc off addr owner.
Proof.
  intros Hx Hi. split.
  - intros (m&g&a&b&_&Hl&Hc). apply leads_inv in Hl as [(_&Hy&_&->&->)|(m'&y&_&Hy&Hyi&_)];
      rewrite (granted_fun _ _ _ _ _ _ Hx Hy) in *; [done|congruence].
  - intros Hc. exists 0%nat, x, ep, grantee. split_and!; [lia| |done]. by apply leads_here.
Qed.

Lemma reaches_on gmem k grantee gid n acc off addr owner x :
  granted gmem k ep gid x -> has (cp_flags x) CPF_INDIRECT = true ->
  reaches gmem k grantee gid n acc off addr owner <->
    accepts (indirect_who_to x) grantee /\ exists m g a b, (m <= 4)%nat /\
      leads gmem k m (indirect_who_from x) ep (indirect_grant x) g a b /\ covers g a b n acc off addr owner.
Proof.
  intros Hx Hi. split.
  - intros (m&g&a&b&Hm5&Hl&Hc). apply leads_inv in Hl as [(_&Hy&Hyi&_)|(m'&y&->&Hy&_&Hac&Hl)];
      rewrite <- (granted_fun _ _ _ _ _ _ Hx Hy) in *; [congruence|].
    split; [done|]. exists m', g, a, b. split_and!; [lia|done..].
  - intros (Hac&m&g&a&b&Hm4&Hl&Hc). exists (S m), g, a, b. split_and!; [lia| |done]. by eapply leads_on.
Qed.

(** What the kernel allows is what the abstract table allows. *)
Lemma allows_reaches gmem s grantee gid n acc off addr owner :
  lib_ok s -> sees gmem s -> ACCESS_CHECK acc = true ->
  reaches gmem (kern s) grantee gid n acc off addr owner <-> allows gmem (kern s) (abs s) grantee gid n acc off addr owner.
Proof.
  intros Hs Hm Hacc. pose proof (fun x => granted_table gmem s gid x Hs Hm) as Hgr. unfold allows, abs.
  destruct (Z.leb_spec 0 gid) as [H0|H0]; [|apply reaches_none; intros x Hx; apply Hgr in Hx; lia].
  destruct (table s !! Z.to_nat gid) as [x|] eqn:Hx; [|apply reaches_none; intros y Hy; by apply Hgr in Hy as (_&?&_)].
  setoid_rewrite has_both in Hgr. simpl. unfold decode.
  destruct (has (cp_flags x) CPF_USED) eqn:Hu; cbn [negb];
    [|apply reaches_none; intros y Hy; apply Hgr in Hy as (_&[= <-]&?&_); congruence].
  destruct (has (cp_flags x) CPF_VALID) eqn:Hv; cbn [negb];
    [|apply reaches_none; intros y Hy; apply Hgr in Hy as (_&[= <-]&_&?); congruence].
  assert (Hg : granted gmem (kern s) ep gid x) by (by apply Hgr).
  destruct (has (cp_flags x) CPF_INDIRECT) eqn:Hi; [by apply reaches_on|].
  rewrite (reaches_last _ _ _ _ _ _ _ _ _ x Hg Hi). unfold covers. rewrite <- (land_access (cp_flags x) acc Hacc).
  destruct (has (cp_flags x) CPF_DIRECT); [|destruct (has (cp_flags x) CPF_MAGIC)].
  - split; [intros (?&[(_&H)|(?&_)]); [by split|done]|]. intros [? H]. split; [done|]. by left.
  - split; [intros (?&[(?&_)|(_&_&H)]); [done|by split]|]. intros [? H]. split; [done|]. by right.
  - split; [|done]. intros (?&[(?&_)|(_&?&_)]); done.
Qed.

(** C9: the kernel honours exactly the grants that a process has given and not taken back. Any sequence of operations of the grant library (new grants, grants set in a slot, revocations, slots taken, the table announced again), with the table growing as it must, runs without a failed assertion and does what an abstract table of grants says: a new grant gets a number that was not in use, all others stay as they are, and an operation fails only for the reasons given there. At the end the check of grants in the kernel, reading the table that the library has registered, accepts an access exactly when the abstract table allows it, and finds the bytes that the grant names. *)
Theorem grant_honoured (os : list gop) (s : glib) :
  lib_ok s -> ops_fresh os s ->
  exists rs s', lib_ops os s = Some (rs, s') /\ gspecs (able (kern s)) os (abs s) rs (abs s') /\
    forall gmem grantee gid n acc off,
      sees gmem s' -> ACCESS_CHECK acc = true -> 0 <= off < 2 ^ 32 -> 0 <= n < 2 ^ 32 ->
      exists v, verify_grant gmem ep grantee gid n acc off (kern s') = Some (v, kern s') /\
        forall addr owner, (exists fl, v = inr (addr, owner, fl)) <->
          allows gmem (kern s') (abs s') grantee gid n acc off addr owner.
Proof.
  intros Hs Hf. destruct (lib_ops_run os s Hs Hf) as (rs&s'&Hrun&Hs'&_&Hspec). exists rs, s'. split_and!; [done..|].
  intros gmem grantee gid n acc off Hsees Hacc Ho Hn.
  destruct (verify_grant_run gmem (kern s') ep grantee gid n acc off (lo_kern _ _ Hs') Ho Hn) as (v&Hv&Hiff).
  exists v. split; [done|]. intros addr owner. rewrite <- allows_reaches by done. split.
  - intros (fl&Hfl). apply Hiff in Hfl as (m&g&a&b&?&?&_&?). by exists m, g, a, b.
  - intros (m&g&a&b&?&?&?). exists (cp_flags g). apply Hiff. by exists m, g, a, b.
Qed.
End Correct.

(** ** A process that gives grants *)

Module Example_run.
Definition ep : Z := VFS_PROC_NR.
Definition static_grants : Z := 0x1000.

(** VFS before its first grant. *)
Definition s0 : glib := GLib 0 0 ∅ (up ∅).

Definition ops : list gop :=
  [GrantDirect 0 PM_PROC_NR 0x5000 100 CPF_READ; GrantDirect 0 PM_PROC_NR 0x6000 50 CPF_WRITE; GrantDirect 0 PM_PROC_NR 0x7000 10 CPF_READ;
   GrantDirect 0x9000 PM_PROC_NR 0x7000 10 CPF_READ; Revoke 0; GrantMagic 0 PM_PROC_NR RS_PROC_NR 0x8000 20 CPF_WRITE;
   SetIndirect 1 PM_PROC_NR RS_PROC_NR 4; GetGrants [0; 0; 0; 0; 0]; Disable 2; Revoke 7; Reload].

Definition registered_test (k : kstate) (p addr n : Z) : bool :=
  match procs k !! p with
  | Some r =>
      match privs k !! p_priv r with
      | Some ps => (s_grant_table (s_res ps) =? addr) && (s_grant_entries (s_res ps) =? n)
      | None => false
      end
  | None => false
  end.

Lemma registered_of k addr n : registered_test k (target ep) addr n = true -> registered ep k addr n.
Proof.
  unfold registered_test, registered. destruct (procs k !! target ep) as [r|] eqn:Hr; [|done].
  destruct (privs k !! p_priv r) as [ps|] eqn:Hps; [|done]. rewrite andb_true_iff, !Z.eqb_eq. intros [H1 H2].
  by exists r, ps.
Qed.

Lemma s0_ok : lib_ok ep s0.
Proof.
  constructor; [apply up_kinv|apply live_ep_of; vm_compute; reflexivity|done|apply registered_of; vm_compute; reflexivity|done..].
Qed.

Lemma ops_results : option_map fst (lib_ops ep static_grants ops s0) = Some [[0]; [1]; [-1]; [2]; [0]; [0]; [0]; [3; 4; 5]; [0]; [-1]; []].
Proof. vm_compute. reflexivity. Qed.

Lemma static_space : 0 < static_grants /\ static_grants + sizeof_cp_grant_t * NR_STATIC_GRANTS <= 2 ^ 32.
Proof. unfold static_grants, sizeof_cp_grant_t, NR_STATIC_GRANTS. lia. Qed.

Lemma ops_fresh_s0 : ops_fresh ep static_grants ops s0.
Proof. vm_compute. repeat split; auto; right; repeat split; done. Qed.

Lemma grant_honoured_witness :
  exists rs s', lib_ops ep static_grants ops s0 = Some (rs, s') /\ gspecs (able ep (kern s0)) ops (abs s0) rs (abs s') /\
    forall gmem grantee gid n acc off,
      sees ep gmem s' -> ACCESS_CHECK acc = true -> 0 <= off < 2 ^ 32 -> 0 <= n < 2 ^ 32 ->
      exists v, verify_grant gmem ep grantee gid n acc off (kern s') = Some (v, kern s') /\
        forall addr owner, (exists fl, v = inr (addr, owner, fl)) <->
          allows ep gmem (kern s') (abs s') grantee gid n acc off addr owner.
Proof. exact (grant_honoured ep static_grants static_space ops s0 s0_ok ops_fresh_s0). Defined.

(** The kernel after four operations, and the memory that it sees. *)
Definition s1 : glib := match lib_ops ep static_grants (take 4 ops) s0 with Some (_, s) => s | None => s0 end.

Definition memory (s : glib) (e addr : Z) : option cp_grant_t :=
  if (e =? ep) && ((addr - grants s) mod sizeof_cp_grant_t =? 0) && (grants s <=? addr)
  then table s !! Z.to_nat ((addr - grants s) / sizeof_cp_grant_t) else None.

Lemma s1_base : kbase (kern s1).
Proof.
  assert (Hf : ops_fresh ep static_grants (take 4 ops) s0).
  { vm_compute. repeat split; auto; right; repeat split; done. }
  destruct (lib_ops_run ep static_grants static_space (take 4 ops) s0 s0_ok Hf) as (rs&s&Hrun&Hs&_).
  unfold s1. rewrite Hrun. apply Hs.
Qed.

(** PM reads 40 bytes of the first grant, but it cannot write them, and it
    cannot read beyond the end. *)
Lemma safecopy_reads :
  let copy bytes off access := option_map fst (safecopy (memory s1) (fun _ => OK) ep PM_PROC_NR 0 bytes off 0x4000 access (kern s1)) in
  copy 40 8 CPF_READ = Some (OK, Some (VCopy (VirAddr ep 0x5008) (VirAddr PM_PROC_NR 0x4000) 40 false)) /\
  copy 40 8 CPF_WRITE = Some (EPERM, None) /\ copy 40 61 CPF_READ = Some (EPERM, None).
Proof. vm_compute. done. Qed.

Lemma safecopy_exact_witness :
  exists r c, safecopy (memory s1) (fun _ => OK) ep PM_PROC_NR 0 40 8 0x4000 CPF_READ (kern s1) = Some ((r, c), kern s1) /\
    forall cp, c = Some cp <-> allowed (memory s1) (kern s1) ep PM_PROC_NR 0 40 8 0x4000 CPF_READ cp.
Proof. apply (safecopy_exact (memory s1) (fun _ => OK) (kern s1) ep PM_PROC_NR 0 40 8 0x4000 CPF_READ s1_base); lia. Defined.
End Example_run.
