(* ===== verification/DataStore.v ===== *)
(** The data store server: servers/ds/store.c and servers/ds/main.c.

    The two tables of the server are lists of fixed length, pointers into them
    are indices.  Strings are their characters without the final NUL.  The
    memory the server allocates is a map from addresses to blocks. *)

From S2P Require Import Prelude KState KMain.
Local Open Scope Z_scope.

Definition DSF_IN_USE : Z := 0x001.
Definition DSF_PRIV_RETRIEVE : Z := 0x002.
Definition DSF_PRIV_OVERWRITE : Z := 0x004.
Definition DSF_PRIV_SUBSCRIBE : Z := 0x008.
Definition DSF_TYPE_U32 : Z := 0x010.
Definition DSF_TYPE_STR : Z := 0x020.
Definition DSF_TYPE_MEM : Z := 0x040.
Definition DSF_TYPE_LABEL : Z := 0x100.
Definition DSF_MASK_TYPE : Z := 0xFF0.
Definition DSF_MASK_INTERNAL : Z := 0xFFF.
Definition DSF_OVERWRITE : Z := 0x01000.
Definition DSF_INITIAL : Z := 0x02000.
Definition DS_MAX_KEYLEN : Z := 80.

Definition DS_RQ_BASE : Z := 0x800.
Definition DS_PUBLISH : Z := DS_RQ_BASE + 0.
Definition DS_RETRIEVE : Z := DS_RQ_BASE + 1.
Definition DS_SUBSCRIBE : Z := DS_RQ_BASE + 2.
Definition DS_CHECK : Z := DS_RQ_BASE + 3.
Definition DS_DELETE : Z := DS_RQ_BASE + 4.
Definition DS_RETRIEVE_LABEL : Z := DS_RQ_BASE + 6.
Definition DS_GETSYSINFO : Z := DS_RQ_BASE + 7.

Definition SI_DATA_STORE : Z := 5.
Definition sizeof_data_store : Z := 4 + DS_MAX_KEYLEN + DS_MAX_KEYLEN + 12.

Definition NR_DS_KEYS : nat := 128.
Definition NR_DS_SUBS : nat := 256.

(** ** Data *)

(** The words of the union: [u.u32] and [u.mem.data] are the same word. *)
Record ds_union := Mem { u_data : Z; u_length : Z; u_reallen : Z }.

Record data_store := DataStoreEntry {
  d_flags : Z;
  d_key : list Z;
  d_owner : list Z;
  d_u : ds_union;
}.

Definition u_u32 (u : ds_union) : Z := u_data u.

(** Compiled regular expressions are of type [R]; [None] is one that was not
    compiled.  The set of updated entries is a bit vector. *)
Record subscription (R : Type) := Subscription {
  b_flags : Z;
  b_owner : list Z;
  b_regex : option R;
  b_old_subs : Z;
}.
Arguments Subscription {R} _ _ _ _.
Arguments b_flags {R} _.
Arguments b_owner {R} _.
Arguments b_regex {R} _.
Arguments b_old_subs {R} _.

Record ds_state (R : Type) := DsState {
  ds_store : list data_store;
  ds_subs : list (subscription R);
  ds_heap : gmap Z (list Z);
  ds_notified : list Z;
}.
Arguments DsState {R} _ _ _ _.
Arguments ds_store {R} _.
Arguments ds_subs {R} _.
Arguments ds_heap {R} _.
Arguments ds_notified {R} _.

(** The message of a request and of its reply: the words of the union
    [m_ds_req] (key_grant, key_len, flags, val_in, val_len, owner) and
    [m_ds_reply] (val_out, val_len), which overlap. *)
Record ds_msg := DsMsg {
  m_src : Z;
  key_grant : Z;
  key_len : Z;
  r_flags : Z;
  val_in : Z;
  val_len : Z;
  r_owner : Z;
}.

Definition with_val_out (v : Z) (m : ds_msg) : ds_msg :=
  DsMsg (m_src m) v (key_len m) (r_flags m) (val_in m) (val_len m) (r_owner m).
Definition with_reply_len (v : Z) (m : ds_msg) : ds_msg :=
  DsMsg (m_src m) (key_grant m) v (r_flags m) (val_in m) (val_len m) (r_owner m).
Definition with_flags_owner (fl o : Z) (m : ds_msg) : ds_msg :=
  DsMsg (m_src m) (key_grant m) (key_len m) fl (val_in m) (val_len m) o.

(** What the system answers during a request: the bytes of the key and of the
    value, or the errors of the copies; the address that [malloc] returns, 0 if
    there is no memory; the result of a copy to the caller. *)
Record ds_answers := DsAnswers {
  a_key : kres + list Z;
  a_val : kres + list Z;
  a_malloc : Z;
  a_copyto : kres;
}.

(** The index of the first element that satisfies a test. *)
Fixpoint find_index {A} (f : A -> bool) (l : list A) : option nat :=
  match l with
  | [] => None
  | x :: l' => if f x then Some 0%nat else S <$> find_index f l'
  end.

Section Store.
Context {R : Type} (regcomp : list Z -> option R) (regexec : R -> list Z -> bool).

Notation D := (ST (ds_state R)).

(** ** Accessors *)

Definition entry (i : nat) : D data_store := s ← get; opt (ds_store s !! i).
Definition set_entry (i : nat) (f : data_store -> data_store) : D unit :=
  modify (fun s => DsState (alter f i (ds_store s)) (ds_subs s) (ds_heap s) (ds_notified s)).
Definition sub (i : nat) : D (subscription R) := s ← get; opt (ds_subs s !! i).
Definition set_sub (i : nat) (f : subscription R -> subscription R) : D unit :=
  modify (fun s => DsState (ds_store s) (alter f i (ds_subs s)) (ds_heap s) (ds_notified s)).
Definition set_heap (h : gmap Z (list Z)) : D unit :=
  modify (fun s => DsState (ds_store s) (ds_subs s) h (ds_notified s)).
Definition ipc_notify (ep : Z) : D unit :=
  modify (fun s => DsState (ds_store s) (ds_subs s) (ds_heap s) (ds_notified s ++ [ep])).

Definition with_flags (fl : Z) (d : data_store) : data_store := DataStoreEntry fl (d_key d) (d_owner d) (d_u d).
Definition with_key (key : list Z) (d : data_store) : data_store := DataStoreEntry (d_flags d) key (d_owner d) (d_u d).
Definition with_owner (o : list Z) (d : data_store) : data_store := DataStoreEntry (d_flags d) (d_key d) o (d_u d).
Definition with_u (u : ds_union) (d : data_store) : data_store := DataStoreEntry (d_flags d) (d_key d) (d_owner d) u.
Definition with_u32 (v : Z) (d : data_store) : data_store :=
  with_u (Mem v (u_length (d_u d)) (u_reallen (d_u d))) d.
Definition with_data (p : Z) (d : data_store) : data_store :=
  with_u (Mem p (u_length (d_u d)) (u_reallen (d_u d))) d.
Definition with_length (n : Z) (d : data_store) : data_store :=
  with_u (Mem (u_data (d_u d)) n (u_reallen (d_u d))) d.
Definition with_reallen (n : Z) (d : data_store) : data_store :=
  with_u (Mem (u_data (d_u d)) (u_length (d_u d)) n) d.
Definition with_old_subs (b : Z) (s : subscription R) : subscription R :=
  Subscription (b_flags s) (b_owner s) (b_regex s) b.

(** ** Memory *)

(** A new block has arbitrary contents. *)
Definition malloc (ans : ds_answers) (n : Z) : D Z :=
  let p := a_malloc ans in
  if p =? 0 then mret 0
  else s ← get; set_heap (<[p := replicate (Z.to_nat n) 0]> (ds_heap s));; mret p.

Definition free (p : Z) : D unit :=
  if p =? 0 then mret tt
  else s ← get; _ ← opt (ds_heap s !! p); set_heap (delete p (ds_heap s)).

(** The bytes [bs] are written to the start of a block. *)
Definition write_block (p : Z) (bs : list Z) : D unit :=
  if (length bs =? 0)%nat then mret tt
  else
    s ← get;
    b ← opt (ds_heap s !! p);
    if (length bs <=? length b)%nat then set_heap (<[p := bs ++ drop (length bs) b]> (ds_heap s)) else ub.

Definition write_byte (p i c : Z) : D unit :=
  s ← get;
  b ← opt (ds_heap s !! p);
  if (0 <=? i) && (i <? Z.of_nat (length b)) then set_heap (<[p := <[Z.to_nat i := c]> b]> (ds_heap s)) else ub.

Definition read_block (p n : Z) : D (list Z) :=
  if n =? 0 then mret []
  else
    s ← get;
    b ← opt (ds_heap s !! p);
    if n <=? Z.of_nat (length b) then mret (take (Z.to_nat n) b) else ub.

(** ** Looking up *)

Definition in_use (d : data_store) : bool := has (d_flags d) DSF_IN_USE.

Definition alloc_data_slot : D (option nat) := gets (fun s => find_index (fun d => negb (in_use d)) (ds_store s)).

Definition alloc_sub_slot : D (option nat) :=
  gets (fun s => find_index (fun b => negb (has (b_flags b) DSF_IN_USE)) (ds_subs s)).

Definition lookup_entry (key_name : list Z) (type : Z) : D (option nat) :=
  gets (fun s => find_index
    (fun d => in_use d && has (d_flags d) type && bool_decide (d_key d = key_name)) (ds_store s)).

Definition lookup_label_entry (num : Z) : D (option nat) :=
  gets (fun s => find_index
    (fun d => in_use d && has (d_flags d) DSF_TYPE_LABEL && (u_u32 (d_u d) =? num)) (ds_store s)).

Definition lookup_sub (owner : list Z) : D (option nat) :=
  gets (fun s => find_index
    (fun b => has (b_flags b) DSF_IN_USE && bool_decide (b_owner b = owner)) (ds_subs s)).

(** The name of a process: a constant, or the key of an entry, which is not
    copied. *)
Inductive name_ptr := FirstProcName | KeyOf (i : nat).

Definition read_name (p : name_ptr) : D (list Z) :=
  match p with FirstProcName => mret ($"ds") | KeyOf i => d ← entry i; mret (d_key d) end.

Definition ds_getprocname (e : Z) : D (option name_ptr) :=
  if e =? DS_PROC_NR then mret (Some FirstProcName)
  else o ← lookup_label_entry (u32 e); mret (KeyOf <$> o).

(** Panics if there is no such process. *)
Definition ds_getprocep (s : list Z) : D Z :=
  o ← lookup_entry s DSF_TYPE_LABEL; i ← opt o; d ← entry i; mret (u_u32 (d_u d)).

Definition check_auth (p : nat) (ep perm : Z) : D bool :=
  d ← entry p;
  if negb (has (d_flags d) perm) then mret true
  else
    source ← ds_getprocname ep;
    match source with
    | None => mret false
    | Some n => name ← read_name n; mret (bool_decide (d_owner d = name))
    end.

(** The string in a buffer of which the first [n] bytes were copied and byte
    [DS_MAX_KEYLEN-1] was cleared; the others are not initialised. *)
Definition key_string (n : Z) (bs : list Z) : option (list Z) :=
  let b := take (Z.to_nat (DS_MAX_KEYLEN - 1)) bs in
  if existsb (Z.eqb 0) b then Some (cstr b)
  else if DS_MAX_KEYLEN - 1 <=? n then Some b else None.

Definition get_key_name (m : ds_msg) (ans : ds_answers) : D (kres + list Z) :=
  if (DS_MAX_KEYLEN <? key_len m) || (key_len m <? 2) then mret (inl EINVAL)
  else
    match a_key ans with
    | inl r => mret (inl r)
    | inr bs => name ← opt (key_string (key_len m) bs); mret (inr name)
    end.

(** ** Subscriptions *)

Definition check_sub_match (subp : subscription R) (dsp : nat) (ep : Z) : D bool :=
  auth ← check_auth dsp ep DSF_PRIV_SUBSCRIBE;
  if auth : bool
  then re ← opt (b_regex subp); d ← entry dsp; mret (regexec re (d_key d))
  else mret false.

Fixpoint for_all_slots (js : list nat) (f : nat -> D unit) : D unit :=
  match js with [] => mret tt | i :: js' => f i;; for_all_slots js' f end.

Definition set_bit (b nr : Z) (set : bool) : Z := if set then Z.setbit b nr else Z.clearbit b nr.

Definition update_subscriber (dsp : nat) (set : bool) (i : nat) : D unit :=
  b ← sub i;
  if negb (has (b_flags b) DSF_IN_USE) then mret tt
  else
    d ← entry dsp;
    if Z.land (Z.land (b_flags b) (d_flags d)) DSF_MASK_TYPE =? 0 then mret tt
    else
      ep ← ds_getprocep (b_owner b);
      matches ← check_sub_match b dsp ep;
      if negb matches then mret tt
      else
        set_sub i (fun b => with_old_subs (set_bit (b_old_subs b) (Z.of_nat dsp) set) b);;
        ipc_notify ep.

Definition update_subscribers (dsp : nat) (set : bool) : D unit :=
  for_all_slots (seq 0 NR_DS_SUBS) (update_subscriber dsp set).

(** ** Requests: the result, the reply and the bytes copied to the caller *)

Definition ds_result : Type := kres * ds_msg * list Z.

Definition alone (r : kres) (m : ds_msg) : ds_result := (r, m, []).

(** [Some r] is a failure. *)
Definition alloc_data (i : nat) (length : Z) (ans : ds_answers) : D (option kres) :=
  p ← malloc ans length;
  set_entry i (with_data p);;
  if p =? 0 then mret (Some ENOMEM) else set_entry i (with_reallen length);; mret None.

Definition copy_data (i : nat) (length : Z) (m : ds_msg) (ans : ds_answers) : D (option kres) :=
  d ← entry i;
  let data := u_data (d_u d) in
  match a_val ans with
  | inl r => free data;; mret (Some r)
  | inr bs =>
      write_block data bs;;
      set_entry i (with_length length);;
      (if has (r_flags m) DSF_TYPE_STR then write_byte data (length - 1) 0 else mret tt);;
      mret None
  end.

Definition store_mem (i : nat) (m : ds_msg) (ans : ds_answers) : D (option kres) :=
  let length := u32 (val_len m) in
  d ← entry i;
  a ← (if negb (in_use d) then alloc_data i length ans
       else if u_reallen (d_u d) <? length then free (u_data (d_u d));; alloc_data i length ans
       else mret None);
  match a with
  | Some r => mret (Some r)
  | None => copy_data i length m ans
  end.

Definition store_value (i : nat) (m : ds_msg) (ans : ds_answers) : D (option kres) :=
  let type := Z.land (r_flags m) DSF_MASK_TYPE in
  if (type =? DSF_TYPE_U32) || (type =? DSF_TYPE_LABEL)
  then set_entry i (with_u32 (u32 (val_in m)));; mret None
  else if (type =? DSF_TYPE_STR) || (type =? DSF_TYPE_MEM) then store_mem i m ans
  else mret (Some EINVAL).

(** The slot to publish in. *)
Definition publish_slot (m : ds_msg) (key_name : list Z) : D (kres + nat) :=
  let flags := r_flags m in
  o ← lookup_entry key_name (Z.land flags DSF_MASK_TYPE);
  o ← (match o with
       | None => if has flags DSF_TYPE_LABEL then lookup_label_entry (u32 (val_in m)) else mret None
       | Some i => mret (Some i)
       end);
  match o with
  | None => n ← alloc_data_slot; mret (match n with None => inl ENOMEM | Some i => inr i end)
  | Some i =>
      if has flags DSF_OVERWRITE
      then auth ← check_auth i (m_src m) DSF_PRIV_OVERWRITE; mret (if negb auth then inl EPERM else inr i)
      else mret (inl EEXIST)
  end.

Definition do_publish (m : ds_msg) (ans : ds_answers) : D ds_result :=
  let flags := r_flags m in
  source ← ds_getprocname (m_src m);
  match source with
  | None => mret (alone EPERM m)
  | Some source =>
      if has flags DSF_TYPE_LABEL && negb (m_src m =? RS_PROC_NR) then mret (alone EPERM m)
      else
        k ← get_key_name m ans;
        match k with
        | inl r => mret (alone r m)
        | inr key_name =>
            slot ← publish_slot m key_name;
            match slot with
            | inl r => mret (alone r m)
            | inr i =>
                v ← store_value i m ans;
                match v with
                | Some r => mret (alone r m)
                | None =>
                    set_entry i (with_key key_name);;
                    owner ← read_name source;
                    set_entry i (with_owner owner);;
                    set_entry i (with_flags (Z.lor DSF_IN_USE (Z.land flags DSF_MASK_INTERNAL)));;
                    update_subscribers i true;;
                    mret (alone OK m)
                end
            end
        end
  end.

(** The value of an entry of the given type goes to the caller. *)
Definition send_value (i : nat) (type : Z) (m : ds_msg) (ans : ds_answers) : D ds_result :=
  d ← entry i;
  if (type =? DSF_TYPE_U32) || (type =? DSF_TYPE_LABEL) then mret (OK, with_val_out (u_u32 (d_u d)) m, [])
  else if (type =? DSF_TYPE_STR) || (type =? DSF_TYPE_MEM)
  then
    let length := Z.min (u32 (val_len m)) (u_length (d_u d)) in
    bs ← read_block (u_data (d_u d)) length;
    mret (if is_OK (a_copyto ans) then (OK, with_reply_len length m, bs) else alone (a_copyto ans) m)
  else mret (alone EINVAL m).

Definition do_retrieve (m : ds_msg) (ans : ds_answers) : D ds_result :=
  let type := Z.land (r_flags m) DSF_MASK_TYPE in
  k ← get_key_name m ans;
  match k with
  | inl r => mret (alone r m)
  | inr key_name =>
      o ← lookup_entry key_name type;
      match o with
      | None => mret (alone ESRCH m)
      | Some i =>
          auth ← check_auth i (m_src m) DSF_PRIV_RETRIEVE;
          if negb auth then mret (alone EPERM m) else send_value i type m ans
      end
  end.

(** [sys_safecopyto] of a key with its NUL. *)
Definition send_key (i : nat) (ans : ds_answers) : D (kres * list Z) :=
  d ← entry i; mret (if is_OK (a_copyto ans) then (OK, d_key d ++ [0]) else (a_copyto ans, [])).

Definition do_retrieve_label (m : ds_msg) (ans : ds_answers) : D ds_result :=
  o ← lookup_label_entry (u32 (val_in m));
  match o with
  | None => mret (alone ESRCH m)
  | Some i => rk ← send_key i ans; mret (fst rk, m, snd rk)
  end.

(** The entries that match a new subscription are marked; the result tells
    whether there are any. *)
Fixpoint initial_matches (js : list nat) (subp : nat) (type_set src : Z) (found : bool) : D bool :=
  match js with
  | [] => mret found
  | i :: js' =>
      d ← entry i;
      if negb (in_use d) then initial_matches js' subp type_set src found
      else if negb (has (d_flags d) type_set) then initial_matches js' subp type_set src found
      else
        b ← sub subp;
        matches ← check_sub_match b i src;
        if negb matches then initial_matches js' subp type_set src found
        else
          set_sub subp (fun b => with_old_subs (Z.setbit (b_old_subs b) (Z.of_nat i)) b);;
          initial_matches js' subp type_set src true
  end.

Definition subscribe_slot (m : ds_msg) (owner : list Z) : D (kres + nat) :=
  o ← lookup_sub owner;
  match o with
  | None => n ← alloc_sub_slot; mret (match n with None => inl EAGAIN | Some i => inr i end)
  | Some i => mret (if negb (has (r_flags m) DSF_OVERWRITE) then inl EEXIST else inr i)
  end.

Definition do_subscribe (m : ds_msg) (ans : ds_answers) : D ds_result :=
  owner ← ds_getprocname (m_src m);
  match owner with
  | None => mret (alone ESRCH m)
  | Some op =>
      owner ← read_name op;
      slot ← subscribe_slot m owner;
      match slot with
      | inl r => mret (alone r m)
      | inr subp =>
          k ← get_key_name m ans;
          match k with
          | inl r => mret (alone r m)
          | inr key =>
              let re := regcomp ($"^" ++ key ++ $"$") in
              set_sub subp (fun b => Subscription (b_flags b) (b_owner b) re (b_old_subs b));;
              match re with
              | None => mret (alone EINVAL m)
              | Some _ =>
                  let t := Z.land (r_flags m) DSF_MASK_TYPE in
                  let type_set := if t =? 0 then DSF_MASK_TYPE else t in
                  set_sub subp (fun b => Subscription (Z.lor DSF_IN_USE type_set) owner (b_regex b) 0);;
                  (if has (r_flags m) DSF_INITIAL
                   then
                     found ← initial_matches (seq 0 NR_DS_KEYS) subp type_set (m_src m) false;
                     if found : bool then ipc_notify (m_src m) else mret tt
                   else mret tt);;
                  mret (alone OK m)
              end
          end
      end
  end.

Definition do_check (m : ds_msg) (ans : ds_answers) : D ds_result :=
  owner ← ds_getprocname (m_src m);
  match owner with
  | None => mret (alone ESRCH m)
  | Some op =>
      owner ← read_name op;
      o ← lookup_sub owner;
      match o with
      | None => mret (alone ESRCH m)
      | Some subp =>
          b ← sub subp;
          match find_index (fun i => Z.testbit (b_old_subs b) (Z.of_nat i)) (seq 0 NR_DS_KEYS) with
          | None => mret (alone ENOENT m)
          | Some i =>
              rk ← send_key i ans;
              if negb (is_OK (fst rk)) then mret (alone (fst rk) m)
              else
                d ← entry i;
                entry_owner_e ← ds_getprocep (d_owner d);
                set_sub subp (fun b => with_old_subs (Z.clearbit (b_old_subs b) (Z.of_nat i)) b);;
                mret (OK, with_flags_owner (Z.land (d_flags d) DSF_MASK_TYPE) entry_owner_e m, snd rk)
          end
      end
  end.

(** The subscriptions and entries that a process owns are removed with its
    label. *)
Definition clean_sub (label : list Z) (i : nat) : D unit :=
  b ← sub i;
  if has (b_flags b) DSF_IN_USE && bool_decide (b_owner b = label)
  then set_sub i (fun b => Subscription 0 (b_owner b) (b_regex b) (b_old_subs b))
  else mret tt.

Definition clean_entry (label : list Z) (i : nat) : D unit :=
  d ← entry i;
  if in_use d && bool_decide (d_owner d = label)
  then update_subscribers i false;; set_entry i (with_flags 0)
  else mret tt.

Definition delete_value (i : nat) (type : Z) : D (option kres) :=
  d ← entry i;
  if type =? DSF_TYPE_U32 then mret None
  else if type =? DSF_TYPE_LABEL
  then
    for_all_slots (seq 0 NR_DS_SUBS) (clean_sub (d_key d));;
    for_all_slots (seq 0 NR_DS_KEYS) (clean_entry (d_key d));;
    mret None
  else if (type =? DSF_TYPE_STR) || (type =? DSF_TYPE_MEM)
  then free (u_data (d_u d));; mret None
  else mret (Some EINVAL).

Definition do_delete (m : ds_msg) (ans : ds_answers) : D ds_result :=
  let type := Z.land (r_flags m) DSF_MASK_TYPE in
  source ← ds_getprocname (m_src m);
  match source with
  | None => mret (alone EPERM m)
  | Some source =>
      k ← get_key_name m ans;
      match k with
      | inl r => mret (alone r m)
      | inr key_name =>
          o ← lookup_entry key_name type;
          match o with
          | None => mret (alone ESRCH m)
          | Some i =>
              d ← entry i;
              name ← read_name source;
              if negb (bool_decide (d_owner d = name)) then mret (alone EPERM m)
              else
                v ← delete_value i type;
                match v with
                | Some r => mret (alone r m)
                | None =>
                    update_subscribers i false;;
                    set_entry i (with_flags 0);;
                    mret (alone OK m)
                end
          end
      end
  end.

(** ** Initialisation *)

(** The label and the endpoint of a service. *)
Definition map_service (label : list Z) (endpoint : Z) : D kres :=
  o ← alloc_data_slot;
  match o with
  | None => mret ENOMEM
  | Some i =>
      set_entry i (with_key label);;
      set_entry i (with_u32 (u32 endpoint));;
      set_entry i (with_owner ($"rs"));;
      set_entry i (with_flags (Z.lor DSF_IN_USE DSF_TYPE_LABEL));;
      update_subscribers i true;;
      mret OK
  end.

Fixpoint map_services (ps : list (list Z * Z)) : D unit :=
  match ps with
  | [] => mret tt
  | (label, e) :: ps' => r ← map_service label e; if is_OK r then map_services ps' else ub
  end.

(** [rprocpub] are the services of the boot image that are in use. *)
Definition sef_cb_init_fresh (rprocpub : list (list Z * Z)) : D unit :=
  modify (fun s => DsState (with_flags 0 <$> ds_store s)
    ((fun b => Subscription 0 (b_owner b) (b_regex b) (b_old_subs b)) <$> ds_subs s) (ds_heap s) (ds_notified s));;
  map_services rprocpub.

(** The table as a whole: [m_lsys_getsysinfo] has [what], [where] and [size] in
    the first three words; the answer only tells whether it was copied. *)
Definition do_getsysinfo (m : ds_msg) (ans : ds_answers) : D ds_result :=
  if negb (key_grant m =? SI_DATA_STORE) then mret (alone EINVAL m)
  else if negb (sizeof_data_store * Z.of_nat NR_DS_KEYS =? u32 (r_flags m)) then mret (alone EINVAL m)
  else mret (alone (a_copyto ans) m).

(** ** The main loop *)

Definition is_notify (a : Z) : bool := u32 (a - NOTIFY_MESSAGE) <? 0x100.

(** One round: the result and the reply, and the bytes copied to the caller. *)
Definition ds_dispatch (callnr : Z) (m : ds_msg) (ans : ds_answers) : D ds_result :=
  if is_notify callnr then mret (alone EINVAL m)
  else if callnr =? DS_PUBLISH then do_publish m ans
  else if callnr =? DS_RETRIEVE then do_retrieve m ans
  else if callnr =? DS_RETRIEVE_LABEL then do_retrieve_label m ans
  else if callnr =? DS_DELETE then do_delete m ans
  else if callnr =? DS_SUBSCRIBE then do_subscribe m ans
  else if callnr =? DS_CHECK then do_check m ans
  else if callnr =? DS_GETSYSINFO then do_getsysinfo m ans
  else mret (alone EINVAL m).
End Store.

(** The state of the server when it is loaded. *)
Definition ds_zero (R : Type) : ds_state R :=
  DsState (replicate NR_DS_KEYS (DataStoreEntry 0 [] [] (Mem 0 0 0))) (replicate NR_DS_SUBS (Subscription 0 [] None 0)) ∅ [].
