(* ===== verification/DsRefine.v ===== *)
(** The data store server implements a map from types and keys to values: the
    abstract store, the invariant of the tables, and the simulation of the
    requests by operations on the map. *)

From S2P Require Import Prelude KState KMain DataStore.
Local Open Scope Z_scope.

(** ** Searching *)

Lemma find_index_Some {A} (f : A -> bool) l i :
  find_index f l = Some i <->
  exists x, l !! i = Some x /\ f x = true /\ forall j y, (j < i)%nat -> l !! j = Some y -> f y = false.
Proof.
  revert i. induction l as [|x l IH]; intros i; simpl.
  - split; [done|]. by intros (?&?&_).
  - destruct (f x) eqn:E.
    + split.
      * intros [= <-]. exists x. split_and!; [done|done|]. intros; lia.
      * intros (y&Hy&Hf&Hm). destruct i as [|i]; [done|].
        pose proof (Hm 0%nat x ltac:(lia) eq_refl). congruence.
    + rewrite fmap_Some. setoid_rewrite IH. split.
      * intros (i'&(y&Hy&Hf&Hm)&->). exists y. split_and!; [done|done|].
        intros [|j] z Hj Hz; simpl in Hz; [congruence|]. apply (Hm j z); [lia|done].
      * intros (y&Hy&Hf&Hm). destruct i as [|i]; [simpl in Hy; congruence|].
        exists i. split; [|done]. exists y. split_and!; [done|done|].
        intros j z Hj Hz. apply (Hm (S j) z); [lia|done].
Qed.

Lemma find_index_None {A} (f : A -> bool) l :
  find_index f l = None <-> forall i x, l !! i = Some x -> f x = false.
Proof.
  induction l as [|x l IH]; simpl.
  - by split.
  - destruct (f x) eqn:E; split.
    + done.
    + intros H. pose proof (H 0%nat x eq_refl). congruence.
    + intros H%fmap_None. rewrite IH in H. intros [|i] y Hy; simpl in Hy; [congruence|]. by apply (H i).
    + intros H. apply fmap_None, IH. intros i y Hy. by apply (H (S i)).
Qed.

(** The search does not depend on elements that fail the test before and after. *)
Lemma find_index_ext {A} (f : A -> bool) l l' :
  length l = length l' ->
  (forall i x y, l !! i = Some x -> l' !! i = Some y -> f x = f y) -> find_index f l = find_index f l'.
Proof.
  revert l'. induction l as [|x l IH]; intros [|y l'] Hl H; try done. simpl.
  rewrite (H 0%nat x y) by done. destruct (f y); [done|]. f_equal. apply IH; [by simpl in Hl; lia|].
  intros i. apply (H (S i)).
Qed.

Lemma alter_is_insert {A} (f : A -> A) (l : list A) i x : l !! i = Some x -> alter f i l = <[i := f x]> l.
Proof.
  revert i. induction l as [|y l IH]; intros [|i] H; simplify_eq/=; [done|]. f_equal. by apply IH.
Qed.

(** ** Flags *)

Lemma has_masked fl mask bits : Z.land mask bits = bits -> has fl bits = has (Z.land fl mask) bits.
Proof. intros H. unfold has. by rewrite <- Z.land_assoc, H. Qed.

Definition typ (fl : Z) : Z := Z.land fl DSF_MASK_TYPE.
Definition DSF_MASK_PRIV : Z := Z.lor DSF_PRIV_RETRIEVE (Z.lor DSF_PRIV_OVERWRITE DSF_PRIV_SUBSCRIBE).
Definition perm (fl : Z) : Z := Z.land fl DSF_MASK_PRIV.

Definition types : list Z := [DSF_TYPE_U32; DSF_TYPE_STR; DSF_TYPE_MEM; DSF_TYPE_LABEL].

Lemma published_typ fl : typ (Z.lor DSF_IN_USE (Z.land fl DSF_MASK_INTERNAL)) = typ fl.
Proof. unfold typ. by rewrite Z.land_lor_distr_l, <- Z.land_assoc. Qed.

Lemma published_perm fl : perm (Z.lor DSF_IN_USE (Z.land fl DSF_MASK_INTERNAL)) = perm fl.
Proof. unfold perm. by rewrite Z.land_lor_distr_l, <- Z.land_assoc. Qed.

Lemma has_lor_bit b x : has b b = true -> has (Z.lor b x) b = true.
Proof.
  unfold has. rewrite Z.land_lor_distr_l. destruct (Z.eqb_spec (Z.lor (Z.land b b) (Z.land x b)) 0) as [E|]; [|done].
  apply Z.lor_eq_0_iff in E as [-> _]. done.
Qed.

Lemma published_used fl : has (Z.lor DSF_IN_USE (Z.land fl DSF_MASK_INTERNAL)) DSF_IN_USE = true.
Proof. by apply has_lor_bit. Qed.

Lemma has_type fl t : typ fl ∈ types -> t ∈ types -> has fl t = bool_decide (typ fl = t).
Proof.
  intros Hf Ht. rewrite (has_masked fl DSF_MASK_TYPE).
  - fold (typ fl). unfold types in *. set_unfold. by destruct Hf as [->|[->|[->|[->|[]]]]], Ht as [->|[->|[->|[->|[]]]]].
  - unfold types in *. set_unfold. by destruct Ht as [->|[->|[->|[->|[]]]]].
Qed.

Lemma has_perm fl p :
  p = DSF_PRIV_RETRIEVE \/ p = DSF_PRIV_OVERWRITE \/ p = DSF_PRIV_SUBSCRIBE -> has fl p = has (perm fl) p.
Proof. intros H. apply has_masked. by destruct H as [->|[->| ->]]. Qed.

(** ** What the tables say *)

Section Refine.
Context {R : Type} (regcomp : list Z -> option R) (regexec : R -> list Z -> bool).

Implicit Types (s : ds_state R) (st : list data_store) (b : subscription R).

Definition is_label (n : Z) (d : data_store) : bool := in_use d && has (d_flags d) DSF_TYPE_LABEL && (u_u32 (d_u d) =? n).
Definition is_key (key : list Z) (t : Z) (d : data_store) : bool :=
  in_use d && has (d_flags d) t && bool_decide (d_key d = key).

Definition name_of st (e : Z) : option (list Z) :=
  if e =? DS_PROC_NR then Some ($"ds") else i ← find_index (is_label (u32 e)) st; d ← st !! i; Some (d_key d).

Definition ep_of st (owner : list Z) : option Z :=
  i ← find_index (is_key owner DSF_TYPE_LABEL) st; d ← st !! i; Some (u_u32 (d_u d)).

Definition permitted st (d : data_store) (e p : Z) : bool :=
  negb (has (d_flags d) p) || match name_of st e with Some n => bool_decide (d_owner d = n) | None => false end.

(** The subscriber's endpoint if a change of [d] is of interest to it. *)
Definition interested st (d : data_store) b : option Z :=
  if has (b_flags b) DSF_IN_USE && negb (Z.land (Z.land (b_flags b) (d_flags d)) DSF_MASK_TYPE =? 0)
  then
    e ← ep_of st (b_owner b); re ← b_regex b;
    if permitted st d e DSF_PRIV_SUBSCRIBE && regexec re (d_key d) then Some e else None
  else None.

(** ** Running the reading operations *)

Lemma entry_run i d s : ds_store s !! i = Some d -> entry (R := R) i s = Some (d, s).
Proof. intros H. unfold entry. mrun. by rewrite H. Qed.

Lemma sub_run i b s : ds_subs s !! i = Some b -> sub i s = Some (b, s).
Proof. intros H. unfold sub. mrun. by rewrite H. Qed.

Lemma find_index_lookup {A} (f : A -> bool) l i : find_index f l = Some i -> exists x, l !! i = Some x /\ f x = true.
Proof. rewrite find_index_Some. by intros (x&?&?&_); exists x. Qed.

(** A name pointer and what it points to. *)
Definition named s (p : option name_ptr) (e : Z) : Prop :=
  match p with
  | None => name_of (ds_store s) e = None
  | Some q => exists n, name_of (ds_store s) e = Some n /\ read_name q s = Some (n, s)
  end.

Lemma ds_getprocname_run e s : exists p, ds_getprocname e s = Some (p, s) /\ named s p e.
Proof.
  unfold ds_getprocname, named, name_of. destruct (e =? DS_PROC_NR).
  - exists (Some FirstProcName). split; [done|]. by exists ($"ds").
  - unfold lookup_label_entry, gets. mrun. fold (is_label (u32 e)).
    destruct (find_index (is_label (u32 e)) (ds_store s)) as [i|] eqn:E; simpl.
    + apply find_index_lookup in E as (d&Hd&_). eexists. split; [done|]. exists (d_key d).
      rewrite Hd. split; [done|]. simpl. by rewrite (bind_run _ _ _ _ _ (entry_run _ _ _ Hd)).
    + by exists None.
Qed.

Lemma check_auth_run i d e p s :
  ds_store s !! i = Some d -> check_auth i e p s = Some (permitted (ds_store s) d e p, s).
Proof.
  intros Hd. unfold check_auth, permitted. rewrite (bind_run _ _ _ _ _ (entry_run _ _ _ Hd)).
  destruct (has (d_flags d) p); [|done]. simpl.
  destruct (ds_getprocname_run e s) as (q&Hq&Hn). rewrite (bind_run _ _ _ _ _ Hq).
  destruct q as [q|]; simpl in Hn; [|by rewrite Hn].
  destruct Hn as (n&->&Hr). by rewrite (bind_run _ _ _ _ _ Hr).
Qed.

Lemma ds_getprocep_run owner e s : ep_of (ds_store s) owner = Some e -> ds_getprocep owner s = Some (e, s).
Proof.
  unfold ep_of, ds_getprocep, lookup_entry, gets. mrun. fold (is_key owner DSF_TYPE_LABEL).
  destruct (find_index (is_key owner DSF_TYPE_LABEL) (ds_store s)) as [i|]; simpl; [|done].
  unfold entry. mrun. destruct (ds_store s !! i); simpl; [|done]. by intros [= <-].
Qed.

Lemma check_sub_match_run i d b re e s :
  ds_store s !! i = Some d -> b_regex b = Some re ->
  check_sub_match regexec b i e s = Some (permitted (ds_store s) d e DSF_PRIV_SUBSCRIBE && regexec re (d_key d), s).
Proof.
  intros Hd Hr. unfold check_sub_match. rewrite (bind_run _ _ _ _ _ (check_auth_run _ _ _ _ _ Hd)).
  destruct (permitted _ _ _ _); [|done]. rewrite Hr. simpl.
  by rewrite (bind_run (opt (Some re)) _ s re s), (bind_run _ _ _ _ _ (entry_run _ _ _ Hd)).
Qed.

(** ** Marking and notifying the subscribers *)

Definition sub_ok st b : Prop :=
  has (b_flags b) DSF_IN_USE = true -> is_Some (ep_of st (b_owner b)) /\ is_Some (b_regex b).

Definition update_sub st (d : data_store) (nr : Z) (set : bool) b : subscription R :=
  if interested st d b then with_old_subs (set_bit (b_old_subs b) nr set) b else b.

Definition updated (i : nat) (d : data_store) (set : bool) s : ds_state R :=
  DsState (ds_store s) (update_sub (ds_store s) d (Z.of_nat i) set <$> ds_subs s) (ds_heap s)
    (ds_notified s ++ omap (interested (ds_store s) d) (ds_subs s)).

Lemma update_subscriber_run dsp d set i b s :
  ds_store s !! dsp = Some d -> ds_subs s !! i = Some b -> sub_ok (ds_store s) b ->
  update_subscriber regexec dsp set i s =
    Some (tt, DsState (ds_store s) (<[i := update_sub (ds_store s) d (Z.of_nat dsp) set b]> (ds_subs s)) (ds_heap s)
      (ds_notified s ++ option_list (interested (ds_store s) d b))).
Proof.
  intros Hd Hb Hok. unfold update_subscriber, update_sub, interested.
  rewrite (bind_run _ _ _ _ _ (sub_run _ _ _ Hb)).
  assert (Hid : Some (tt, s) = Some (tt, DsState (ds_store s) (<[i := b]> (ds_subs s)) (ds_heap s) (ds_notified s ++ []))).
  { rewrite list_insert_id by done. rewrite app_nil_r. by destruct s. }
  destruct (has (b_flags b) DSF_IN_USE) eqn:Hu; simpl; [|done].
  destruct (Hok Hu) as [[e He] [re Hre]].
  rewrite (bind_run _ _ _ _ _ (entry_run _ _ _ Hd)).
  destruct (Z.land _ _ =? 0); simpl; [done|].
  rewrite (bind_run _ _ _ _ _ (ds_getprocep_run _ _ _ He)).
  rewrite (bind_run _ _ _ _ _ (check_sub_match_run _ _ _ _ _ _ Hd Hre)), He, Hre. simpl.
  destruct (_ && _); simpl; [|done]. unfold set_sub, ipc_notify. mrun. simpl. f_equal. f_equal. f_equal.
  by rewrite (alter_is_insert _ _ _ _ Hb).
Qed.

Lemma update_slots_run dsp d set rest : forall pre s,
  ds_store s !! dsp = Some d -> ds_subs s = pre ++ rest -> Forall (sub_ok (ds_store s)) rest ->
  for_all_slots (seq (length pre) (length rest)) (update_subscriber regexec dsp set) s =
    Some (tt, DsState (ds_store s) (pre ++ (update_sub (ds_store s) d (Z.of_nat dsp) set <$> rest)) (ds_heap s)
      (ds_notified s ++ omap (interested (ds_store s) d) rest)).
Proof.
  induction rest as [|b rest IH]; intros pre s Hd Hs Hok; simpl.
  - rewrite <- Hs, app_nil_r. by destruct s.
  - inversion Hok as [|? ? Hb Hok']; subst.
    assert (Hl : ds_subs s !! length pre = Some b) by (by rewrite Hs, list_lookup_middle).
    rewrite (bind_run _ _ _ _ _ (update_subscriber_run dsp d set _ b s Hd Hl Hb)).
    assert (Hins : <[length pre := update_sub (ds_store s) d (Z.of_nat dsp) set b]> (ds_subs s) =
      (pre ++ [update_sub (ds_store s) d (Z.of_nat dsp) set b]) ++ rest).
    { rewrite Hs, <- app_assoc, insert_app_r_alt, Nat.sub_diag by lia. done. }
    rewrite Hins. clear Hins.
    replace (S (length pre)) with (length (pre ++ [update_sub (ds_store s) d (Z.of_nat dsp) set b]))
      by (rewrite length_app; simpl; lia).
    rewrite IH by done. simpl. rewrite <- !app_assoc. simpl. do 4 f_equal.
    by destruct (interested (ds_store s) d b).
Qed.

Lemma update_subscribers_run dsp d set s :
  ds_store s !! dsp = Some d -> length (ds_subs s) = NR_DS_SUBS -> Forall (sub_ok (ds_store s)) (ds_subs s) ->
  update_subscribers regexec dsp set s = Some (tt, updated dsp d set s).
Proof. intros Hd Hl Hok. unfold update_subscribers. rewrite <- Hl. by apply (update_slots_run dsp d set _ []). Qed.

(** ** The abstract store *)

End Refine.

Inductive sval := SNum (v : Z) | SBytes (bs : list Z).

Record sentry := SEntry { e_perm : Z; e_owner : list Z; e_val : sval }.

(** Entries by type and key. *)
Notation astore := (gmap (Z * list Z) sentry).

Definition is_mem (t : Z) : bool := (t =? DSF_TYPE_STR) || (t =? DSF_TYPE_MEM).

Definition entry_type (d : data_store) : Z := typ (d_flags d).

Definition value_of (h : gmap Z (list Z)) (d : data_store) : sval :=
  if is_mem (entry_type d) then SBytes (take (Z.to_nat (u_length (d_u d))) (default [] (h !! u_data (d_u d))))
  else SNum (u_u32 (d_u d)).

Definition view (h : gmap Z (list Z)) (d : data_store) : option ((Z * list Z) * sentry) :=
  if in_use d then Some ((entry_type d, d_key d), SEntry (perm (d_flags d)) (d_owner d) (value_of h d)) else None.

Definition abs {R} (s : ds_state R) : astore := list_to_map (omap (view (ds_heap s)) (ds_store s)).

(** *** Operations on the abstract store *)

Definition label_number (x : (Z * list Z) * sentry) (n : Z) : option (list Z) :=
  match x with
  | ((t, k), SEntry _ _ (SNum v)) => if (t =? DSF_TYPE_LABEL) && (v =? n) then Some k else None
  | _ => None
  end.

Definition label_of (a : astore) (n : Z) : option (list Z) := head (omap (fun x => label_number x n) (map_to_list a)).

Definition spec_name (a : astore) (e : Z) : option (list Z) :=
  if e =? DS_PROC_NR then Some ($"ds") else label_of a (u32 e).

Definition spec_permitted (a : astore) (x : sentry) (e p : Z) : bool :=
  negb (has (e_perm x) p) || match spec_name a e with Some n => bool_decide (e_owner x = n) | None => false end.

(** The key of a request, [None] if its string has no end. *)
Definition request_key (m : ds_msg) (ans : ds_answers) : option (kres + list Z) :=
  if (DS_MAX_KEYLEN <? key_len m) || (key_len m <? 2) then Some (inl EINVAL)
  else match a_key ans with inl r => Some (inl r) | inr bs => inr <$> key_string (key_len m) bs end.

Definition spec_value (m : ds_msg) (ans : ds_answers) : kres + sval :=
  let t := typ (r_flags m) in
  if is_mem t
  then
    if a_malloc ans =? 0 then inl ENOMEM
    else match a_val ans with
         | inl r => inl r
         | inr bs => inr (SBytes (if t =? DSF_TYPE_STR then <[Nat.pred (length bs) := 0]> bs else bs))
         end
  else inr (SNum (u32 (val_in m))).

(** Why an entry with the key [k] is not stored. *)
Definition spec_refused (m : ds_msg) (k : list Z) (a : astore) : option kres :=
  match a !! (typ (r_flags m), k) with
  | None => if (size a =? NR_DS_KEYS)%nat then Some ENOMEM else None
  | Some x =>
      if has (r_flags m) DSF_OVERWRITE
      then if spec_permitted a x (m_src m) DSF_PRIV_OVERWRITE then None else Some EPERM
      else Some EEXIST
  end.

Definition spec_publish (m : ds_msg) (ans : ds_answers) (a : astore) : kres * astore :=
  let t := typ (r_flags m) in
  match spec_name a (m_src m), request_key m ans with
  | None, _ => (EPERM, a)
  | Some _, None => (EINVAL, a)
  | Some n, Some key =>
      if (t =? DSF_TYPE_LABEL) && negb (m_src m =? RS_PROC_NR) then (EPERM, a)
      else
        match key with
        | inl r => (r, a)
        | inr k =>
            match spec_refused m k a, spec_value m ans with
            | Some r, _ | None, inl r => (r, a)
            | None, inr v => (OK, <[(t, k) := SEntry (perm (r_flags m)) n v]> a)
            end
        end
  end.

Definition spec_retrieve (m : ds_msg) (ans : ds_answers) (a : astore) : ds_result :=
  match request_key m ans with
  | None => alone EINVAL m
  | Some (inl r) => alone r m
  | Some (inr k) =>
      match a !! (typ (r_flags m), k) with
      | None => alone ESRCH m
      | Some x =>
          if negb (spec_permitted a x (m_src m) DSF_PRIV_RETRIEVE) then alone EPERM m
          else
            match e_val x with
            | SNum v => (OK, with_val_out v m, [])
            | SBytes bs =>
                let n := Z.min (u32 (val_len m)) (Z.of_nat (length bs)) in
                if is_OK (a_copyto ans) then (OK, with_reply_len n m, take (Z.to_nat n) bs) else alone (a_copyto ans) m
            end
      end
  end.

Definition spec_retrieve_label (m : ds_msg) (ans : ds_answers) (a : astore) : ds_result :=
  match label_of a (u32 (val_in m)) with
  | None => alone ESRCH m
  | Some k => if is_OK (a_copyto ans) then (OK, m, k ++ [0]) else alone (a_copyto ans) m
  end.

(** Everything a process owns goes with its label. *)
Definition spec_remove (t : Z) (k : list Z) (a : astore) : astore :=
  delete (t, k) (if t =? DSF_TYPE_LABEL then filter (fun x => e_owner x.2 <> k) a else a).

Definition spec_delete (m : ds_msg) (ans : ds_answers) (a : astore) : kres * astore :=
  let t := typ (r_flags m) in
  match spec_name a (m_src m), request_key m ans with
  | None, _ => (EPERM, a)
  | Some _, None => (EINVAL, a)
  | Some _, Some (inl r) => (r, a)
  | Some n, Some (inr k) =>
      match a !! (t, k) with
      | None => (ESRCH, a)
      | Some x => if bool_decide (e_owner x = n) then (OK, spec_remove t k a) else (EPERM, a)
      end
  end.

(** The result of a request, where the contents of the store determine it, and
    the store afterwards. *)
Definition ds_spec (callnr : Z) (m : ds_msg) (ans : ds_answers) (a : astore) : option ds_result * astore :=
  let typed := bool_decide (typ (r_flags m) ∈ types) in
  if callnr =? DS_PUBLISH then if typed then let (r, a') := spec_publish m ans a in (Some (alone r m), a') else (None, a)
  else if callnr =? DS_RETRIEVE then if typed then (Some (spec_retrieve m ans a), a) else (None, a)
  else if callnr =? DS_RETRIEVE_LABEL then (Some (spec_retrieve_label m ans a), a)
  else if callnr =? DS_DELETE then if typed then let (r, a') := spec_delete m ans a in (Some (alone r m), a') else (None, a)
  else (None, a).
