(* ===== verification/DsCorrect.v ===== *)
(** The invariant of the data store's tables and the proof that every request
    runs, keeps it and does to the abstract store what [ds_spec] says. *)

From S2P Require Import Prelude KState KMain DataStore DsRefine.
Local Open Scope Z_scope.

(** ** The invariant *)

(** A process label is published under the key [o]. *)
Definition labelled (st : list data_store) (o : list Z) : Prop :=
  exists i d, st !! i = Some d /\ is_key o DSF_TYPE_LABEL d = true.

Definition block_ok (h : gmap Z (list Z)) (d : data_store) : Prop :=
  u_data (d_u d) <> 0 /\ 0 <= u_length (d_u d) <= u_reallen (d_u d) /\
  exists b, h !! u_data (d_u d) = Some b /\ Z.of_nat (length b) = u_reallen (d_u d).

Record store_ok (st : list data_store) (h : gmap Z (list Z)) : Prop := {
  so_length : length st = NR_DS_KEYS;
  so_type : forall i d, st !! i = Some d -> in_use d = true -> entry_type d ∈ types;
  so_unique : forall i j d d', st !! i = Some d -> st !! j = Some d' -> in_use d = true -> in_use d' = true ->
    entry_type d = entry_type d' -> d_key d = d_key d' -> i = j;
  so_number : forall i j d d' n, st !! i = Some d -> st !! j = Some d' ->
    is_label n d = true -> is_label n d' = true -> i = j;
  so_block : forall i d, st !! i = Some d -> in_use d = true -> is_mem (entry_type d) = true -> block_ok h d;
  so_alias : forall i j d d', st !! i = Some d -> st !! j = Some d' -> in_use d = true -> in_use d' = true ->
    is_mem (entry_type d) = true -> is_mem (entry_type d') = true -> u_data (d_u d) = u_data (d_u d') -> i = j;
  so_owner : forall i d, st !! i = Some d -> in_use d = true -> labelled st (d_owner d);
}.

Record ds_inv {R} (s : ds_state R) : Prop := {
  di_store : store_ok (ds_store s) (ds_heap s);
  di_length : length (ds_subs s) = NR_DS_SUBS;
  di_subs : forall i b, ds_subs s !! i = Some b -> has (b_flags b) DSF_IN_USE = true ->
    labelled (ds_store s) (b_owner b) /\ is_Some (b_regex b);
}.

(** ** Reading the tables *)

Lemma labelled_ep st o : labelled st o <-> is_Some (ep_of st o).
Proof.
  unfold labelled, ep_of. split.
  - intros (i&d&Hd&Hk). destruct (find_index _ st) as [j|] eqn:E; simpl.
    + apply find_index_lookup in E as (d'&Hd'&_). rewrite Hd'. simpl. by eexists.
    + rewrite find_index_None in E. rewrite (E i d Hd) in Hk. done.
  - intros [e H]. destruct (find_index _ st) as [j|] eqn:E; simpl in H; [|done].
    apply find_index_lookup in E as (d&Hd&Hk). by exists j, d.
Qed.

Lemma inv_subs_ok {R} (s : ds_state R) : ds_inv s -> Forall (sub_ok (ds_store s)) (ds_subs s).
Proof.
  intros Hi. apply Forall_lookup. intros i b Hb Hu.
  destruct (di_subs _ Hi i b Hb Hu). split; [by apply labelled_ep|done].
Qed.

Lemma is_key_type o t d :
  t ∈ types -> (in_use d = true -> entry_type d ∈ types) ->
  is_key o t d = true <-> in_use d = true /\ entry_type d = t /\ d_key d = o.
Proof.
  intros Ht Hd. unfold is_key, entry_type in *. destruct (in_use d); simpl; [|naive_solver].
  rewrite has_type by (done || by apply Hd). rewrite andb_true_iff, !bool_decide_eq_true. naive_solver.
Qed.

Lemma label_type : DSF_TYPE_LABEL ∈ types.
Proof. unfold types. set_solver. Qed.

Lemma is_label_type n d :
  (in_use d = true -> entry_type d ∈ types) ->
  is_label n d = true <-> in_use d = true /\ entry_type d = DSF_TYPE_LABEL /\ u_u32 (d_u d) = n.
Proof.
  intros Hd. unfold is_label, entry_type in *. destruct (in_use d); simpl; [|naive_solver].
  rewrite has_type by (apply label_type || by apply Hd).
  rewrite andb_true_iff, bool_decide_eq_true, Z.eqb_eq. naive_solver.
Qed.

(** ** The abstract store, pointwise *)

Lemma NoDup_omap_fst {A K V} (f : A -> option (K * V)) l :
  (forall i j x y k v w, l !! i = Some x -> l !! j = Some y -> f x = Some (k, v) -> f y = Some (k, w) -> i = j) ->
  NoDup (omap f l).*1.
Proof.
  induction l as [|x l IH]; intros H; simpl; [constructor|].
  assert (Hl : NoDup (omap f l).*1).
  { apply IH. intros i j y z k v w Hi Hj Hy Hz. by pose proof (H (S i) (S j) y z k v w Hi Hj Hy Hz) as [=]. }
  destruct (f x) as [[k v]|] eqn:E; [|done]. simpl. constructor; [|done].
  intros ((k'&w)&Hk&Hin)%list_elem_of_fmap. simpl in Hk. subst k'.
  apply list_elem_of_omap in Hin as (y&Hy&Hfy). apply list_elem_of_lookup in Hy as [j Hj].
  by pose proof (H 0%nat (S j) x y k v w eq_refl Hj E Hfy).
Qed.

Lemma omap_cons_eq {A B} (f : A -> option B) x l :
  omap f (x :: l) = match f x with Some y => y :: omap f l | None => omap f l end.
Proof. done. Qed.

Lemma length_omap_le {A B} (f : A -> option B) l : (length (omap f l) <= length l)%nat.
Proof. induction l as [|x l IH]; [done|]. rewrite omap_cons_eq. destruct (f x); simpl; lia. Qed.

Lemma length_omap_full {A B} (f : A -> option B) l :
  length (omap f l) = length l <-> find_index (fun x => match f x with Some _ => false | None => true end) l = None.
Proof.
  induction l as [|x l IH]; [done|]. rewrite omap_cons_eq. pose proof (length_omap_le f l).
  cbn [find_index]. destruct (f x); cbn [length].
  - rewrite fmap_None, <- IH. lia.
  - split; [lia|done].
Qed.

Section Abs.
Context {R : Type} (s : ds_state R) (Hst : store_ok (ds_store s) (ds_heap s)).

Lemma view_NoDup : NoDup (omap (view (ds_heap s)) (ds_store s)).*1.
Proof.
  apply NoDup_omap_fst. intros i j x y k v w Hi Hj. unfold view.
  destruct (in_use x) eqn:Hx; [|done]. destruct (in_use y) eqn:Hy; [|done]. intros [= <- _] [= Ht Hk _].
  by apply (so_unique _ _ Hst i j x y).
Qed.

Lemma abs_lookup tk x :
  abs s !! tk = Some x <-> exists i d, ds_store s !! i = Some d /\ view (ds_heap s) d = Some (tk, x).
Proof.
  unfold abs. rewrite <- elem_of_list_to_map by apply view_NoDup. rewrite list_elem_of_omap.
  setoid_rewrite list_elem_of_lookup. naive_solver.
Qed.

Lemma abs_lookup_None t k :
  abs s !! (t, k) = None <->
  forall i d, ds_store s !! i = Some d -> in_use d = true -> entry_type d = t -> d_key d <> k.
Proof.
  split.
  - intros H i d Hd Hu Ht Hk. assert (Hv : is_Some (abs s !! (t, k))); [|rewrite H in Hv; by destruct Hv].
    eexists. apply abs_lookup. exists i, d. split; [done|]. unfold view. rewrite Hu. by subst.
  - intros H. destruct (abs s !! (t, k)) as [x|] eqn:E; [|done].
    apply abs_lookup in E as (i&d&Hd&Hv). unfold view in Hv. destruct (in_use d) eqn:Hu; [|done].
    simplify_eq. by destruct (H i d Hd Hu eq_refl).
Qed.

Lemma abs_size : (size (abs s) = NR_DS_KEYS)%nat <-> find_index (fun d => negb (in_use d)) (ds_store s) = None.
Proof.
  unfold abs. rewrite map_size_list_to_map by apply view_NoDup. rewrite <- (so_length _ _ Hst).
  rewrite length_omap_full, !find_index_None. unfold view.
  split; intros H i x Hx; specialize (H i x Hx); by destruct (in_use x).
Qed.

Lemma lookup_entry_abs k t :
  t ∈ types ->
  match find_index (is_key k t) (ds_store s) with
  | None => abs s !! (t, k) = None
  | Some i => exists d, ds_store s !! i = Some d /\ in_use d = true /\ entry_type d = t /\ d_key d = k /\
      abs s !! (t, k) = Some (SEntry (perm (d_flags d)) (d_owner d) (value_of (ds_heap s) d))
  end.
Proof.
  intros Ht. destruct (find_index _ _) as [i|] eqn:E.
  - apply find_index_lookup in E as (d&Hd&Hk).
    apply is_key_type in Hk as (Hu&Hty&Hk); [|done|by apply (so_type _ _ Hst i)].
    exists d. split_and!; [done..|]. apply abs_lookup. exists i, d. split; [done|]. unfold view. rewrite Hu. by subst.
  - rewrite find_index_None in E. apply abs_lookup_None. intros i d Hd Hu Hty Hk.
    pose proof (E i d Hd) as Hf. assert (is_key k t d = true); [|congruence].
    apply is_key_type; [done|by apply (so_type _ _ Hst i)|done].
Qed.

Lemma label_view n k :
  (exists x, abs s !! (DSF_TYPE_LABEL, k) = Some x /\ e_val x = SNum n) <->
  exists i d, ds_store s !! i = Some d /\ is_label n d = true /\ d_key d = k.
Proof.
  setoid_rewrite abs_lookup. split.
  - intros (x&(i&d&Hd&Hv)&Hx). exists i, d. unfold view in Hv. destruct (in_use d) eqn:Hu; [|done].
    injection Hv as Ht Hk <-. simpl in Hx. unfold value_of in Hx. rewrite Ht in Hx. simpl in Hx. injection Hx as Hx.
    split; [done|]. split; [|done]. apply is_label_type; [by apply (so_type _ _ Hst i)|done].
  - intros (i&d&Hd&Hl&Hk). apply is_label_type in Hl as (Hu&Ht&Hn); [|by apply (so_type _ _ Hst i)].
    eexists. split; [exists i, d; split; [done|]; unfold view; by rewrite Hu, Ht, Hk|].
    simpl. unfold value_of. by rewrite Ht, Hn.
Qed.

Lemma label_number_Some x n k :
  label_number x n = Some k <-> x.1 = (DSF_TYPE_LABEL, k) /\ e_val x.2 = SNum n.
Proof.
  destruct x as [[t k'] [p o [v|bs]]]; simpl; [|naive_solver].
  destruct (Z.eqb_spec t DSF_TYPE_LABEL), (Z.eqb_spec v n); simpl; naive_solver.
Qed.

Lemma label_of_elem n k :
  k ∈ omap (fun x => label_number x n) (map_to_list (abs s)) <->
  exists x, abs s !! (DSF_TYPE_LABEL, k) = Some x /\ e_val x = SNum n.
Proof.
  rewrite list_elem_of_omap. setoid_rewrite label_number_Some. split.
  - intros ([tk x]&Hin&Htk&Hx). simpl in *. subst tk. exists x. by rewrite elem_of_map_to_list in Hin.
  - intros (x&Hx&Hv). exists ((DSF_TYPE_LABEL, k), x). by rewrite elem_of_map_to_list.
Qed.

Lemma label_of_abs n : label_of (abs s) n = (i ← find_index (is_label n) (ds_store s); d ← ds_store s !! i; Some (d_key d)).
Proof.
  unfold label_of. pose proof (label_of_elem n) as He.
  destruct (find_index (is_label n) (ds_store s)) as [i|] eqn:E; simpl.
  - apply find_index_lookup in E as (d&Hd&Hl). rewrite Hd. simpl.
    assert (Hin : d_key d ∈ omap (fun x => label_number x n) (map_to_list (abs s))).
    { apply He, label_view. by exists i, d. }
    destruct (omap _ _) as [|k l]; [by apply elem_of_nil in Hin|]. simpl. f_equal.
    destruct (He k) as [Hk _]. destruct Hk as (x&Hx&Hv); [by left|].
    destruct (proj1 (label_view n k)) as (j&d'&Hd'&Hl'&<-); [by exists x|].
    assert (i = j) as -> by (by apply (so_number _ _ Hst i j d d' n)). congruence.
  - destruct (omap _ _) as [|k l]; [done|]. destruct (He k) as [Hk _].
    destruct Hk as (x&Hx&Hv); [by left|]. destruct (proj1 (label_view n k)) as (j&d'&Hd'&Hl'&<-); [by exists x|].
    rewrite find_index_None in E. rewrite (E _ _ Hd') in Hl'. done.
Qed.

Lemma name_of_abs e : spec_name (abs s) e = name_of (ds_store s) e.
Proof. unfold spec_name, name_of. destruct (e =? DS_PROC_NR); [done|]. apply label_of_abs. Qed.

Lemma permitted_abs d e p :
  p = DSF_PRIV_RETRIEVE \/ p = DSF_PRIV_OVERWRITE \/ p = DSF_PRIV_SUBSCRIBE ->
  permitted (ds_store s) d e p =
    spec_permitted (abs s) (SEntry (perm (d_flags d)) (d_owner d) (value_of (ds_heap s) d)) e p.
Proof. intros Hp. unfold permitted, spec_permitted. simpl. by rewrite <- has_perm, name_of_abs. Qed.
End Abs.

(** ** Changing the table *)

(** [e] was entry [j] before, and its block is as it was. *)
Definition kept (st : list data_store) (h h' : gmap Z (list Z)) (j : nat) (e : data_store) : Prop :=
  st !! j = Some e /\ (is_mem (entry_type e) = true -> h' !! u_data (d_u e) = h !! u_data (d_u e)).

(** [d] can be put into slot [i]. *)
Record added (st : list data_store) (h' : gmap Z (list Z)) (i : nat) (d : data_store) : Prop := {
  ad_type : entry_type d ∈ types;
  ad_unique : forall j e, st !! j = Some e -> in_use e = true -> entry_type e = entry_type d -> d_key e = d_key d -> j = i;
  ad_number : forall j e n, st !! j = Some e -> is_label n d = true -> is_label n e = true -> j = i;
  ad_block : is_mem (entry_type d) = true -> block_ok h' d;
  ad_alias : forall j e, st !! j = Some e -> in_use e = true -> is_mem (entry_type e) = true ->
    is_mem (entry_type d) = true -> u_data (d_u e) = u_data (d_u d) -> j = i;
}.

Section Change.
Context (st : list data_store) (h : gmap Z (list Z)) (st' : list data_store) (h' : gmap Z (list Z)) (i : nat).
Hypothesis Hst : store_ok st h.
Hypothesis Hch : forall j e, st' !! j = Some e -> in_use e = true ->
  kept st h h' j e \/ (j = i /\ added st h' i e).

Lemma store_change :
  length st' = length st -> (forall j e, st' !! j = Some e -> in_use e = true -> labelled st' (d_owner e)) ->
  store_ok st' h'.
Proof.
  intros Hl Hlab.
  assert (Hty : forall j e, st' !! j = Some e -> in_use e = true -> entry_type e ∈ types).
  { intros j e He Hu. destruct (Hch j e He Hu) as [[H _]|[_ H]]; [by apply (so_type _ _ Hst j)|by apply H]. }
  constructor; [by rewrite Hl; apply Hst|done|..|done].
  - intros a b d d' Ha Hb Hu Hu' Ht Hk.
    destruct (Hch _ _ Ha Hu) as [[Ha' _]|[-> Ha']], (Hch _ _ Hb Hu') as [[Hb' _]|[-> Hb']]; [..|done].
    + by apply (so_unique _ _ Hst a b d d').
    + by apply (ad_unique _ _ _ _ Hb' a d).
    + symmetry. by apply (ad_unique _ _ _ _ Ha' b d').
  - intros a b d d' n Ha Hb Hn Hn'.
    assert (Hu : in_use d = true) by (unfold is_label in Hn; by destruct (in_use d)).
    assert (Hu' : in_use d' = true) by (unfold is_label in Hn'; by destruct (in_use d')).
    destruct (Hch _ _ Ha Hu) as [[Ha' _]|[-> Ha']], (Hch _ _ Hb Hu') as [[Hb' _]|[-> Hb']]; [..|done].
    + by apply (so_number _ _ Hst a b d d' n).
    + by apply (ad_number _ _ _ _ Hb' a d n).
    + symmetry. by apply (ad_number _ _ _ _ Ha' b d' n).
  - intros a d Ha Hu Hm. destruct (Hch _ _ Ha Hu) as [[Ha' Hh]|[-> Ha']]; [|by apply (ad_block _ _ _ _ Ha')].
    destruct (so_block _ _ Hst a d Ha' Hu Hm) as (?&?&b&Hb&?). split_and!; [done|lia|lia|].
    exists b. by rewrite Hh.
  - intros a b d d' Ha Hb Hu Hu' Hm Hm' Hp.
    destruct (Hch _ _ Ha Hu) as [[Ha' _]|[-> Ha']], (Hch _ _ Hb Hu') as [[Hb' _]|[-> Hb']]; [..|done].
    + by apply (so_alias _ _ Hst a b d d').
    + by apply (ad_alias _ _ _ _ Hb' a d).
    + symmetry. by apply (ad_alias _ _ _ _ Ha' b d').
Qed.
End Change.

Lemma view_kept st h h' j e : kept st h h' j e -> view h' e = view h e.
Proof.
  intros [_ Hh]. unfold view, value_of. destruct (in_use e); [|done].
  destruct (is_mem (entry_type e)) eqn:E; [|done]. by rewrite Hh.
Qed.

Lemma view_Some h d tk x : view h d = Some (tk, x) -> in_use d = true /\ tk = (entry_type d, d_key d).
Proof. unfold view. destruct (in_use d); [|done]. by intros [= <- _]. Qed.

Lemma omap_ext2 {A B} (f g : A -> option B) l l' :
  length l = length l' -> (forall i x y, l !! i = Some x -> l' !! i = Some y -> f x = g y) -> omap f l = omap g l'.
Proof.
  revert l'. induction l as [|x l IH]; intros [|y l'] Hl H; try done. rewrite !omap_cons_eq.
  rewrite (H 0%nat x y), (IH l') by (done || (by simpl in Hl; lia) || (intros i; apply (H (S i)))). done.
Qed.

(** *** Slots that are not in use *)

Lemma store_unused st h i d d' h' :
  store_ok st h -> st !! i = Some d -> in_use d = false -> in_use d' = false ->
  (forall j e, st !! j = Some e -> in_use e = true -> kept st h h' j e) ->
  store_ok (<[i := d']> st) h' /\
  list_to_map (omap (view h') (<[i := d']> st)) =@{gmap (Z * list Z) sentry} list_to_map (omap (view h) st).
Proof.
  intros Hst Hd Hu Hu' Hk.
  assert (Hi : (i < length st)%nat) by (by apply lookup_lt_Some in Hd).
  assert (Hne : forall j e, <[i := d']> st !! j = Some e -> in_use e = true -> st !! j = Some e).
  { intros j e He Hin. rewrite list_lookup_insert in He. case_decide; [|done]. naive_solver congruence. }
  split.
  - apply (store_change st h _ h' i Hst); [|by rewrite length_insert|].
    + intros j e He Hin. left. apply Hk; [by apply Hne|done].
    + intros j e He Hin. destruct (so_owner _ _ Hst j e) as (a&x&Ha&Hx); [by apply Hne|done|].
      exists a, x. split; [|done]. rewrite list_lookup_insert_ne; [done|]. intros ->. simplify_eq.
      unfold is_key in Hx. by rewrite Hu in Hx.
  - f_equal. apply omap_ext2; [by rewrite length_insert|]. intros j x y Hx Hy.
    rewrite list_lookup_insert in Hx. case_decide as Hj.
    + destruct Hj as [-> _]. simplify_eq. unfold view. by rewrite Hu, Hu'.
    + simplify_eq. destruct (in_use x) eqn:E; [by apply (view_kept st h h' j), Hk|]. unfold view. by rewrite E.
Qed.

(** *** A new or updated entry *)

Section Put.
Context {R : Type} (s s' : ds_state R) (i : nat) (d d' : data_store).
Hypothesis Hst : store_ok (ds_store s) (ds_heap s).
Hypothesis Hd : ds_store s !! i = Some d.
Hypothesis Hs' : ds_store s' = <[i := d']> (ds_store s).
Hypothesis Hold : in_use d = true -> entry_type d = entry_type d' /\ d_key d = d_key d'.
Hypothesis Hu' : in_use d' = true.
Hypothesis Hadd : added (ds_store s) (ds_heap s') i d'.
Hypothesis Hk : forall j e, j <> i -> ds_store s !! j = Some e -> in_use e = true ->
  kept (ds_store s) (ds_heap s) (ds_heap s') j e.

Lemma put_lookup j e : ds_store s' !! j = Some e <-> (j = i /\ e = d') \/ (j <> i /\ ds_store s !! j = Some e).
Proof.
  assert (Hi : (i < length (ds_store s))%nat) by (by apply lookup_lt_Some in Hd).
  rewrite Hs'. destruct (decide (j = i)) as [-> | Hne].
  - rewrite list_lookup_insert_eq by done. naive_solver.
  - rewrite list_lookup_insert_ne by done. naive_solver.
Qed.

Lemma labelled_put o : labelled (ds_store s) o -> labelled (ds_store s') o.
Proof.
  intros (j&e&He&Hkey). destruct (decide (j = i)) as [-> | Hne].
  - assert (e = d) as -> by congruence. exists i, d'. split; [apply put_lookup; by left|].
    pose proof (so_type _ _ Hst i d Hd) as Hty. apply is_key_type in Hkey as (Hu&Ht&Hkey); [|apply label_type|done].
    destruct (Hold Hu) as [E1 E2].
    apply is_key_type; [apply label_type|intros _; rewrite <- E1; by apply Hty|]. by rewrite <- E1, <- E2.
  - exists j, e. split; [|done]. apply put_lookup. by right.
Qed.

Lemma store_put : labelled (ds_store s) (d_owner d') -> store_ok (ds_store s') (ds_heap s').
Proof.
  intros Hlab. apply (store_change (ds_store s) (ds_heap s) _ _ i Hst).
  - intros j e [[-> ->]|[Hne He]]%put_lookup Hin; [by right|]. left. by apply Hk.
  - by rewrite Hs', length_insert.
  - intros j e [[-> ->]|[Hne He]]%put_lookup Hin; apply labelled_put; [done|]. by apply (so_owner _ _ Hst j).
Qed.

Lemma abs_put :
  labelled (ds_store s) (d_owner d') ->
  abs s' = <[(entry_type d', d_key d') := SEntry (perm (d_flags d')) (d_owner d') (value_of (ds_heap s') d')]> (abs s).
Proof.
  intros Hlab. apply map_eq. intros tk. apply option_eq. intros x. rewrite abs_lookup by (by apply store_put).
  setoid_rewrite put_lookup. destruct (decide (tk = (entry_type d', d_key d'))) as [-> | Hne].
  - rewrite lookup_insert_eq. split.
    + intros (j&e&He&Hv). destruct (view_Some _ _ _ _ Hv) as [Hu [=]]. destruct He as [[-> ->]|[Hji He]].
      * unfold view in Hv. rewrite Hu' in Hv. by simplify_eq.
      * by destruct Hji; apply (ad_unique _ _ _ _ Hadd j e).
    + intros [= <-]. exists i, d'. split; [by left|]. unfold view. by rewrite Hu'.
  - rewrite lookup_insert_ne, abs_lookup by done. split; intros (j&e&He&Hv); exists j, e.
    + destruct (view_Some _ _ _ _ Hv) as [Hu Htk]. destruct He as [[-> ->]|[Hji He]]; [done|].
      split; [done|]. rewrite <- Hv. symmetry. by eapply view_kept, Hk.
    + destruct (view_Some _ _ _ _ Hv) as [Hu Htk]. destruct (decide (j = i)) as [-> | Hji].
      * assert (e = d) as -> by congruence. destruct (Hold Hu) as [E1 E2]. by rewrite Htk, E1, E2 in Hne.
      * split; [by right|]. rewrite <- Hv. by eapply view_kept, Hk.
Qed.
End Put.

(** *** Entries that are removed *)

Definition remove (g : nat -> data_store -> bool) (st : list data_store) : list data_store :=
  imap (fun j d => if g j d then with_flags 0 d else d) st.

Section Remove.
Context {R : Type} (s s' : ds_state R) (g : nat -> data_store -> bool).
Hypothesis Hst : store_ok (ds_store s) (ds_heap s).
Hypothesis Hs' : ds_store s' = remove g (ds_store s).
Hypothesis Hk : forall j e, ds_store s !! j = Some e -> in_use e = true -> g j e = false ->
  kept (ds_store s) (ds_heap s) (ds_heap s') j e.

Lemma remove_lookup j e :
  in_use e = true -> ds_store s' !! j = Some e <-> ds_store s !! j = Some e /\ g j e = false.
Proof.
  intros Hu. rewrite Hs'. unfold remove. rewrite list_lookup_imap, fmap_Some. split.
  - intros (d&Hd&->). destruct (g j d) eqn:E; [done|]. done.
  - intros [Hd Hg]. exists e. by rewrite Hg.
Qed.

Lemma store_remove :
  (forall j e, ds_store s !! j = Some e -> in_use e = true -> g j e = false -> labelled (ds_store s') (d_owner e)) ->
  store_ok (ds_store s') (ds_heap s').
Proof.
  intros Hl. apply (store_change (ds_store s) (ds_heap s) _ _ 0 Hst).
  - intros j e He Hu. apply remove_lookup in He as [He Hg]; [|done]. left. by apply Hk.
  - rewrite Hs'. unfold remove. by rewrite length_imap.
  - intros j e He Hu. apply remove_lookup in He as [He Hg]; [|done]. by apply (Hl j).
Qed.

Lemma abs_remove tk x :
  store_ok (ds_store s') (ds_heap s') ->
  abs s' !! tk = Some x <->
  exists j e, ds_store s !! j = Some e /\ g j e = false /\ view (ds_heap s) e = Some (tk, x).
Proof.
  intros Hok. rewrite abs_lookup by done. split; intros (j&e&He).
  - destruct He as [He Hv]. destruct (view_Some _ _ _ _ Hv) as [Hu _]. apply remove_lookup in He as [He Hg]; [|done].
    exists j, e. split_and!; [done..|]. rewrite <- Hv. symmetry. by eapply view_kept, Hk.
  - destruct He as (He&Hg&Hv). destruct (view_Some _ _ _ _ Hv) as [Hu _]. exists j, e.
    split; [by apply remove_lookup|]. rewrite <- Hv. by eapply view_kept, Hk.
Qed.
End Remove.
