(* ===== verification/DsPublish.v ===== *)
(** What the steps of publishing an entry do to the tables of the data store
    server. *)

From S2P Require Import Prelude KState KMain DataStore DsRefine DsCorrect.
Local Open Scope Z_scope.

Section Steps.
Context {R : Type}.
Implicit Types (s : ds_state R).

(** The state with another entry in slot [i] and another heap. *)
Definition put s (i : nat) (d : data_store) (h : gmap Z (list Z)) : ds_state R :=
  DsState (<[i := d]> (ds_store s)) (ds_subs s) h (ds_notified s).

Lemma put_entry s i d h : (i < length (ds_store s))%nat -> ds_store (put s i d h) !! i = Some d.
Proof. intros. simpl. by rewrite list_lookup_insert_eq. Qed.

Lemma put_put s i d d' h h' : put (put s i d h) i d' h' = put s i d' h'.
Proof. unfold put. simpl. by rewrite list_insert_insert_eq. Qed.

Lemma put_id s i d : ds_store s !! i = Some d -> put s i d (ds_heap s) = s.
Proof. intros H. unfold put. rewrite list_insert_id by done. by destruct s. Qed.

Lemma set_entry_run i f s d :
  ds_store s !! i = Some d -> set_entry i f s = Some (tt, put s i (f d) (ds_heap s)).
Proof. intros H. unfold set_entry, modify, put. by rewrite (alter_is_insert _ _ _ _ H). Qed.

(** ** Storing the value *)

Lemma alloc_data_run i n ans s d :
  ds_store s !! i = Some d ->
  alloc_data i n ans s =
    Some (if a_malloc ans =? 0 then (Some ENOMEM, put s i (with_data 0 d) (ds_heap s))
          else (None, put s i (with_reallen n (with_data (a_malloc ans) d))
            (<[a_malloc ans := replicate (Z.to_nat n) 0]> (ds_heap s)))).
Proof.
  intros Hd. assert (Hi : (i < length (ds_store s))%nat) by (by apply lookup_lt_Some in Hd).
  unfold alloc_data, malloc. destruct (Z.eqb_spec (a_malloc ans) 0) as [Hz|Hz].
  - rewrite (bind_run (mret 0) _ s 0 s) by done. by rewrite (bind_run _ _ _ _ _ (set_entry_run _ _ _ _ Hd)).
  - rewrite bind_assoc. unfold set_heap. mrun. rewrite (proj2 (Z.eqb_neq _ _) Hz).
    unfold set_entry, modify, put. simpl. rewrite !(alter_is_insert _ _ i d Hd).
    rewrite (alter_is_insert _ _ i (with_data (a_malloc ans) d)) by (by apply list_lookup_insert_eq).
    by rewrite list_insert_insert_eq.
Qed.

Definition terminated (m : ds_msg) (bs : list Z) : list Z :=
  if has (r_flags m) DSF_TYPE_STR then <[Nat.pred (length bs) := 0]> bs else bs.

Lemma length_terminated m bs : length (terminated m bs) = length bs.
Proof. unfold terminated. destruct (has _ _); [by rewrite length_insert|done]. Qed.

Lemma write_block_run p bs b s :
  ds_heap s !! p = Some b -> (length bs <= length b)%nat ->
  write_block (R := R) p bs s =
    Some (tt, DsState (ds_store s) (ds_subs s) (<[p := bs ++ drop (length bs) b]> (ds_heap s)) (ds_notified s)).
Proof.
  intros Hb Hl. unfold write_block. destruct (Nat.eqb_spec (length bs) 0) as [Hz|Hz].
  - destruct bs; [|done]. simpl. rewrite insert_id by done. by destruct s.
  - mrun. rewrite Hb. rewrite (proj2 (Nat.leb_le _ _) Hl). done.
Qed.

Lemma copy_data_run i n m ans s d b bs :
  ds_store s !! i = Some d -> ds_heap s !! u_data (d_u d) = Some b -> a_val ans = inr bs ->
  Z.of_nat (length bs) = n -> (length bs <= length b)%nat -> (has (r_flags m) DSF_TYPE_STR = true -> 0 < n) ->
  copy_data i n m ans s =
    Some (None, put s i (with_length n d) (<[u_data (d_u d) := terminated m bs ++ drop (length bs) b]> (ds_heap s))).
Proof.
  intros Hd Hb Hv Hn Hl Hs. unfold copy_data. rewrite (bind_run _ _ _ _ _ (entry_run _ _ _ Hd)), Hv.
  rewrite (bind_run _ _ _ _ _ (write_block_run _ _ _ _ Hb Hl)).
  rewrite (bind_run _ _ _ _ _ (set_entry_run i _ (DsState (ds_store s) (ds_subs s) _ (ds_notified s)) d Hd)). unfold terminated.
  destruct (has (r_flags m) DSF_TYPE_STR); [|done]. specialize (Hs eq_refl).
  unfold write_byte, set_heap, put. mrun. simpl. rewrite lookup_insert_eq, length_app.
  rewrite (proj2 (Z.leb_le _ _)), (proj2 (Z.ltb_lt _ _)) by lia. simpl. rewrite insert_insert_eq.
  replace (Z.to_nat (n - 1)) with (Nat.pred (length bs)) by lia.
  rewrite insert_app_l by lia. done.
Qed.

Lemma copy_data_fail i n m ans s d b r :
  ds_store s !! i = Some d -> ds_heap s !! u_data (d_u d) = Some b -> u_data (d_u d) <> 0 -> a_val ans = inl r ->
  copy_data i n m ans s = Some (Some r, put s i d (delete (u_data (d_u d)) (ds_heap s))).
Proof.
  intros Hd Hb Hz Hv. unfold copy_data. rewrite (bind_run _ _ _ _ _ (entry_run _ _ _ Hd)), Hv.
  unfold free, set_heap, put. rewrite (proj2 (Z.eqb_neq _ _) Hz). mrun. rewrite Hb. simpl.
  by rewrite list_insert_id.
Qed.

Lemma free_run i s d b :
  ds_store s !! i = Some d -> ds_heap s !! u_data (d_u d) = Some b -> u_data (d_u d) <> 0 ->
  free (R := R) (u_data (d_u d)) s = Some (tt, put s i d (delete (u_data (d_u d)) (ds_heap s))).
Proof.
  intros Hd Hb Hz. unfold free, set_heap, put. rewrite (proj2 (Z.eqb_neq _ _) Hz). mrun. rewrite Hb.
  by rewrite list_insert_id.
Qed.

(** The value [v] of type [t] is in the union [u] of entry [i] and the heap
    [h], and the other entries are as they were. *)
Record stored s (i : nat) (t : Z) (u : ds_union) (h : gmap Z (list Z)) (v : sval) : Prop := {
  sd_block : is_mem t = true -> u_data u <> 0 /\ 0 <= u_length u <= u_reallen u /\
    exists b, h !! u_data u = Some b /\ Z.of_nat (length b) = u_reallen u /\
      v = SBytes (take (Z.to_nat (u_length u)) b);
  sd_number : is_mem t = false -> v = SNum (u_data u);
  sd_alias : forall j e, j <> i -> ds_store s !! j = Some e -> in_use e = true -> is_mem (entry_type e) = true ->
    is_mem t = true -> u_data (d_u e) <> u_data u;
  sd_kept : forall j e, j <> i -> ds_store s !! j = Some e -> in_use e = true ->
    kept (ds_store s) (ds_heap s) h j e;
}.

(** What the system's answers to a publication of a memory range are like. *)
Record answers_ok s (i : nat) (m : ds_msg) (ans : ds_answers) : Prop := {
  ao_fresh : forall j e, is_mem (typ (r_flags m)) = true -> j <> i -> ds_store s !! j = Some e -> in_use e = true -> is_mem (entry_type e) = true ->
    u_data (d_u e) <> a_malloc ans;
  ao_length : forall bs, is_mem (typ (r_flags m)) = true -> a_val ans = inr bs -> Z.of_nat (length bs) = u32 (val_len m);
  ao_string : typ (r_flags m) = DSF_TYPE_STR -> 0 < u32 (val_len m);
}.

Lemma u32_range z : 0 <= u32 z < 2 ^ 32.
Proof. unfold u32. apply Z.mod_pos_bound. lia. Qed.

Lemma kept_same s j e : ds_store s !! j = Some e -> kept (ds_store s) (ds_heap s) (ds_heap s) j e.
Proof. by split. Qed.

(** The bytes are written to the block at [u_data u], of which the others know
    nothing. *)
Lemma stored_bytes s i t m bs u h b v :
  is_mem t = true -> u_data u <> 0 -> u_length u = Z.of_nat (length bs) -> u_length u <= u_reallen u ->
  Z.of_nat (length b) = u_reallen u -> v = SBytes (terminated m bs) ->
  (forall j e, j <> i -> ds_store s !! j = Some e -> in_use e = true -> is_mem (entry_type e) = true ->
    u_data (d_u e) <> u_data u /\ h !! u_data (d_u e) = ds_heap s !! u_data (d_u e)) ->
  stored s i t u (<[u_data u := terminated m bs ++ drop (length bs) b]> h) v.
Proof.
  intros Ht Hz Hl Hr Hb -> Ho. constructor.
  - intros _. split_and!; [done|lia|lia|]. eexists. split_and!; [apply lookup_insert_eq|..].
    + rewrite length_app, length_terminated, length_drop. lia.
    + rewrite Hl, Nat2Z.id. by rewrite <- (length_terminated m bs), take_app_length.
  - congruence.
  - intros j e Hj He Hu Hm _. by apply (Ho j e).
  - intros j e Hj He Hu. split; [done|]. intros Hm. destruct (Ho j e) as [Hne Hh]; [done..|].
    by rewrite lookup_insert_ne.
Qed.

Section Value.
Context (s : ds_state R) (i : nat) (d : data_store) (m : ds_msg) (ans : ds_answers).
Hypothesis Hst : store_ok (ds_store s) (ds_heap s).
Hypothesis Hd : ds_store s !! i = Some d.
Hypothesis Hans : answers_ok s i m ans.

Let Hi : (i < length (ds_store s))%nat.
Proof. by apply lookup_lt_Some in Hd. Qed.

Lemma other_block j e :
  j <> i -> ds_store s !! j = Some e -> in_use e = true -> is_mem (entry_type e) = true ->
  in_use d = true -> is_mem (entry_type d) = true -> u_data (d_u e) <> u_data (d_u d).
Proof. intros Hj He Hu Hm Hud Hmd Hp. apply Hj. by apply (so_alias _ _ Hst j i e d). Qed.

Hypothesis Htyped : typ (r_flags m) ∈ types.

Lemma string_room : has (r_flags m) DSF_TYPE_STR = true -> 0 < u32 (val_len m).
Proof.
  rewrite has_type by (done || unfold types; set_solver). intros H%bool_decide_eq_true_1. by apply (ao_string _ _ _ _ Hans).
Qed.

(** A new block. *)
Lemma new_block_run n h :
  n = u32 (val_len m) -> a_malloc ans <> 0 -> is_mem (typ (r_flags m)) = true ->
  (forall j e, j <> i -> ds_store s !! j = Some e -> in_use e = true -> is_mem (entry_type e) = true ->
    h !! u_data (d_u e) = ds_heap s !! u_data (d_u e)) ->
  let s1 := put s i (with_reallen n (with_data (a_malloc ans) d)) (<[a_malloc ans := replicate (Z.to_nat n) 0]> h) in
  match a_val ans with
  | inl r => exists d' h', copy_data i n m ans s1 = Some (Some r, put s i d' h') /\ in_use d' = in_use d /\
      forall j e, j <> i -> ds_store s !! j = Some e -> in_use e = true -> kept (ds_store s) (ds_heap s) h' j e
  | inr bs => exists u h', copy_data i n m ans s1 = Some (None, put s i (with_u u d) h') /\
      stored s i (typ (r_flags m)) u h' (SBytes (terminated m bs))
  end.
Proof.
  intros Hn Hz Ht Hh s1. pose proof (u32_range (val_len m)) as Hr.
  pose proof (put_entry s i (with_reallen n (with_data (a_malloc ans) d)) (<[a_malloc ans := replicate (Z.to_nat n) 0]> h) Hi)
    as Hd1. fold s1 in Hd1.
  assert (Hb1 : ds_heap s1 !! a_malloc ans = Some (replicate (Z.to_nat n) 0)) by apply lookup_insert_eq.
  destruct (a_val ans) as [r|bs] eqn:Hv.
  - rewrite (copy_data_fail i n m ans s1 _ _ r Hd1 Hb1 Hz Hv). unfold s1. rewrite put_put. simpl.
    do 2 eexists. split_and!; [done..|]. intros j e Hj He Hu. split; [done|]. intros Hm.
    pose proof (ao_fresh _ _ _ _ Hans j e Ht Hj He Hu Hm).
    rewrite lookup_delete_ne, lookup_insert_ne by done. by apply (Hh j).
  - pose proof (ao_length _ _ _ _ Hans bs Ht Hv) as Hl.
    rewrite (copy_data_run i n m ans s1 _ _ bs Hd1 Hb1 Hv); [|lia|rewrite length_replicate; lia|].
    + exists (Mem (a_malloc ans) n n), (<[a_malloc ans := terminated m bs ++ drop (length bs) (replicate (Z.to_nat n) 0)]> h).
      unfold s1. rewrite put_put. simpl. rewrite insert_insert_eq. split; [done|].
      apply (stored_bytes s i _ m bs (Mem (a_malloc ans) n n)); simpl; try done; try lia.
      * rewrite length_replicate. lia.
      * intros j e Hj He Hu Hm. split; [by apply (ao_fresh _ _ _ _ Hans j)|by apply (Hh j)].
    + intros Hs. rewrite Hn. by apply string_room.
Qed.

Lemma terminated_typ bs :
  terminated m bs = if typ (r_flags m) =? DSF_TYPE_STR then <[Nat.pred (length bs) := 0]> bs else bs.
Proof.
  unfold terminated. rewrite has_type by (done || unfold types; set_solver).
  by case_bool_decide as E; [rewrite E|rewrite (proj2 (Z.eqb_neq _ _) E)].
Qed.

(** What storing a value comes to. *)
Definition store_outcome (v : kres + sval) (o : option (option kres * ds_state R)) : Prop :=
  match v with
  | inl r => exists d' h, o = Some (Some r, put s i d' h) /\ in_use d = false /\ in_use d' = false /\
      forall j e, ds_store s !! j = Some e -> in_use e = true -> kept (ds_store s) (ds_heap s) h j e
  | inr v => exists u h, o = Some (None, put s i (with_u u d) h) /\ stored s i (typ (r_flags m)) u h v
  end.

Lemma store_new_run :
  in_use d = false -> is_mem (typ (r_flags m)) = true -> store_outcome (spec_value m ans) (store_mem i m ans s).
Proof.
  intros Hu Ht. unfold spec_value, store_mem. rewrite Ht, (bind_run _ _ _ _ _ (entry_run _ _ _ Hd)), Hu. simpl.
  pose proof (alloc_data_run i (u32 (val_len m)) ans s d Hd) as Ha.
  destruct (Z.eqb_spec (a_malloc ans) 0) as [Hz|Hz]; rewrite (bind_run _ _ _ _ _ Ha).
  - simpl. do 2 eexists. split_and!; [done..|]. intros j e He _. by apply kept_same.
  - pose proof (new_block_run (u32 (val_len m)) (ds_heap s) eq_refl Hz Ht ltac:(done)) as Hn.
    destruct (a_val ans) as [r|bs]; simpl.
    + destruct Hn as (d'&h&Hc&Hd'&Hk). exists d', h. split_and!; [done|done|congruence|].
      intros j e He Hue. apply Hk; [|done..]. congruence.
    + rewrite <- terminated_typ. done.
Qed.

Lemma store_over_run bs :
  in_use d = true -> entry_type d = typ (r_flags m) -> is_mem (typ (r_flags m)) = true ->
  a_malloc ans <> 0 -> a_val ans = inr bs ->
  store_outcome (spec_value m ans) (store_mem i m ans s).
Proof.
  intros Hu Hty Ht Hz Hv. unfold spec_value, store_mem, store_outcome.
  rewrite Ht, (bind_run _ _ _ _ _ (entry_run _ _ _ Hd)), Hu, (proj2 (Z.eqb_neq _ _) Hz), Hv, <- terminated_typ. simpl.
  destruct (so_block _ _ Hst i d Hd Hu) as (Hp&Hlen&b&Hb&Hbl); [by rewrite Hty|].
  assert (Ho : forall j e, j <> i -> ds_store s !! j = Some e -> in_use e = true -> is_mem (entry_type e) = true ->
    u_data (d_u e) <> u_data (d_u d)) by (intros; eapply other_block; eauto; by rewrite Hty).
  destruct (Z.ltb_spec (u_reallen (d_u d)) (u32 (val_len m))) as [Hlt|Hge].
  - rewrite bind_assoc, (bind_run _ _ _ _ _ (free_run i s d b Hd Hb Hp)).
    pose proof (alloc_data_run i (u32 (val_len m)) ans (put s i d (delete (u_data (d_u d)) (ds_heap s))) d
      (put_entry _ _ _ _ Hi)) as Ha.
    rewrite (proj2 (Z.eqb_neq _ _) Hz), put_put in Ha. rewrite (bind_run _ _ _ _ _ Ha).
    pose proof (new_block_run (u32 (val_len m)) (delete (u_data (d_u d)) (ds_heap s)) eq_refl Hz Ht) as Hn.
    rewrite Hv in Hn. apply Hn. intros j e Hj He Hue Hm. by rewrite lookup_delete_ne by (apply not_eq_sym; eauto).
  - rewrite (bind_run (mret None) _ s None s) by done. pose proof (ao_length _ _ _ _ Hans bs Ht Hv) as Hl.
    rewrite (copy_data_run i _ m ans s d b bs Hd Hb Hv); [|lia|lia|apply string_room].
    exists (Mem (u_data (d_u d)) (u32 (val_len m)) (u_reallen (d_u d))). eexists. split; [done|].
    apply (stored_bytes s i _ m bs (Mem (u_data (d_u d)) (u32 (val_len m)) (u_reallen (d_u d)))); simpl; try done; try lia.
    intros j e Hj He Hue Hm. split; [eauto|done].
Qed.

Lemma store_value_run :
  (in_use d = true -> entry_type d = typ (r_flags m) /\
    (is_mem (typ (r_flags m)) = true -> a_malloc ans <> 0 /\ exists bs, a_val ans = inr bs)) ->
  store_outcome (spec_value m ans) (store_value i m ans s).
Proof.
  intros Ho. unfold store_value. fold (typ (r_flags m)).
  destruct (is_mem (typ (r_flags m))) eqn:Ht.
  - assert ((typ (r_flags m) =? DSF_TYPE_U32) || (typ (r_flags m) =? DSF_TYPE_LABEL) = false) as ->.
    { unfold is_mem in Ht. by destruct (orb_prop _ _ Ht) as [->%Z.eqb_eq | ->%Z.eqb_eq]. }
    fold (is_mem (typ (r_flags m))). rewrite Ht. destruct (in_use d) eqn:Hu; [|by apply store_new_run].
    destruct (Ho eq_refl) as (Hty&Hm). destruct (Hm eq_refl) as (Hz&bs&Hv). by apply (store_over_run bs).
  - assert ((typ (r_flags m) =? DSF_TYPE_U32) || (typ (r_flags m) =? DSF_TYPE_LABEL) = true) as ->.
    { unfold types in Htyped. set_unfold. by destruct Htyped as [E|[E|[E|[E|[]]]]]; rewrite E in *. }
    unfold spec_value. rewrite Ht. simpl. rewrite (bind_run _ _ _ _ _ (set_entry_run _ _ _ _ Hd)).
    exists (Mem (u32 (val_in m)) (u_length (d_u d)) (u_reallen (d_u d))). eexists. split; [done|].
    constructor; [congruence|done|congruence|]. intros j e _ He _. by apply kept_same.
Qed.
End Value.
End Steps.
