(* ===== verification/DsRequests.v ===== *)
(** Every request to the data store server runs, keeps the invariant and does
    to the abstract store what [ds_spec] says. *)

From S2P Require Import Prelude KState KMain DataStore DsRefine DsCorrect DsPublish.
Local Open Scope Z_scope.

Section Requests.
Context {R : Type} (regcomp : list Z -> option R) (regexec : R -> list Z -> bool).
Implicit Types (s : ds_state R).

(** ** Conditions on a request

    They exclude the executions that leave the tables inconsistent: an
    overwriting publication of a memory range that runs out of memory or whose
    copy fails, a string without room for its NUL, a key without NUL, a label
    that takes over the endpoint of another, the removal of the label of the
    owner of labels, and a subscription that replaces another one by an
    expression that does not compile. *)
Record request_ok s (callnr : Z) (m : ds_msg) (ans : ds_answers) : Prop := {
  ro_src : m_src m <> DS_PROC_NR;
  ro_key : is_Some (request_key m ans);
  ro_errors : a_key ans <> inl OK /\ a_val ans <> inl OK;
  ro_fresh : forall j e, callnr = DS_PUBLISH -> is_mem (typ (r_flags m)) = true ->
    ds_store s !! j = Some e -> in_use e = true -> is_mem (entry_type e) = true ->
    u_data (d_u e) = a_malloc ans -> entry_type e = typ (r_flags m) /\ request_key m ans = Some (inr (d_key e));
  ro_length : forall bs, callnr = DS_PUBLISH -> is_mem (typ (r_flags m)) = true -> a_val ans = inr bs ->
    Z.of_nat (length bs) = u32 (val_len m);
  ro_string : callnr = DS_PUBLISH -> typ (r_flags m) = DSF_TYPE_STR -> 0 < u32 (val_len m);
  ro_over : forall k x, callnr = DS_PUBLISH -> request_key m ans = Some (inr k) -> abs s !! (typ (r_flags m), k) = Some x ->
    is_mem (typ (r_flags m)) = true -> a_malloc ans <> 0 /\ exists bs, a_val ans = inr bs;
  ro_label : forall k k', callnr = DS_PUBLISH -> request_key m ans = Some (inr k) -> typ (r_flags m) = DSF_TYPE_LABEL ->
    label_of (abs s) (u32 (val_in m)) = Some k' -> k' = k;
  ro_remove : forall k k' x, callnr = DS_DELETE -> request_key m ans = Some (inr k) ->
    typ (r_flags m) = DSF_TYPE_LABEL -> abs s !! (DSF_TYPE_LABEL, k') = Some x -> e_owner x <> k;
  ro_regex : forall k i b n, callnr = DS_SUBSCRIBE -> request_key m ans = Some (inr k) ->
    spec_name (abs s) (m_src m) = Some n -> ds_subs s !! i = Some b -> has (b_flags b) DSF_IN_USE = true ->
    b_owner b = n -> is_Some (regcomp ($"^" ++ k ++ $"$"));
  ro_marked : forall i b n j d, callnr = DS_CHECK ->
    spec_name (abs s) (m_src m) = Some n -> ds_subs s !! i = Some b -> has (b_flags b) DSF_IN_USE = true ->
    b_owner b = n -> Z.testbit (b_old_subs b) (Z.of_nat j) = true -> ds_store s !! j = Some d -> in_use d = true;
}.

Lemma get_key_name_run m ans s x : request_key m ans = Some x -> get_key_name m ans s = Some (x, s).
Proof.
  unfold request_key, get_key_name. destruct (_ || _); [by intros [= <-]|].
  destruct (a_key ans) as [r|bs]; [by intros [= <-]|]. destruct (key_string _ _); simpl; [|done].
  by intros [= <-].
Qed.

Lemma source_run s e :
  e <> DS_PROC_NR ->
  exists p, ds_getprocname e s = Some (p, s) /\
    match p with
    | None => name_of (ds_store s) e = None
    | Some q => exists i d, q = KeyOf i /\ ds_store s !! i = Some d /\ is_label (u32 e) d = true /\
        name_of (ds_store s) e = Some (d_key d)
    end.
Proof.
  intros He. unfold ds_getprocname, name_of. rewrite (proj2 (Z.eqb_neq _ _) He).
  unfold lookup_label_entry, gets. mrun. fold (is_label (u32 e)).
  destruct (find_index (is_label (u32 e)) (ds_store s)) as [i|] eqn:E; simpl.
  - apply find_index_lookup in E as (d&Hd&Hl). eexists. split; [done|]. exists i, d. by rewrite Hd.
  - by exists None.
Qed.

Lemma read_key_run s i d : ds_store s !! i = Some d -> read_name (R := R) (KeyOf i) s = Some (d_key d, s).
Proof. intros Hd. simpl. by rewrite (bind_run _ _ _ _ _ (entry_run _ _ _ Hd)). Qed.

(** ** Subscribers only get marks *)

Lemma inv_updated i d set s : ds_inv s -> ds_inv (updated regexec i d set s).
Proof.
  intros Hi. constructor; simpl; [apply Hi|by rewrite length_fmap; apply Hi|].
  intros j b Hb Hu. apply list_lookup_fmap_Some in Hb as (b0&->&Hb0).
  assert (Hsame : forall x, b_flags x = b_flags (update_sub regexec (ds_store s) d (Z.of_nat i) set x) /\
    b_owner x = b_owner (update_sub regexec (ds_store s) d (Z.of_nat i) set x) /\
    b_regex x = b_regex (update_sub regexec (ds_store s) d (Z.of_nat i) set x)).
  { intros x. unfold update_sub. by destruct (interested _ _ _). }
  destruct (Hsame b0) as (E1&E2&E3). rewrite <- E1 in Hu. rewrite <- E2, <- E3. by apply (di_subs _ Hi j).
Qed.

Lemma update_run i d set s :
  ds_inv s -> ds_store s !! i = Some d ->
  update_subscribers regexec i set s = Some (tt, updated regexec i d set s) /\
  ds_inv (updated regexec i d set s) /\ abs (updated regexec i d set s) = abs s.
Proof.
  intros Hi Hd. split; [|split; [by apply inv_updated|done]].
  apply update_subscribers_run; [done|apply Hi|by apply inv_subs_ok].
Qed.

(** ** Publishing *)

Lemma publish_slot_reads m k s : exists x, publish_slot m k s = Some (x, s).
Proof.
  unfold publish_slot, lookup_entry, lookup_label_entry, alloc_data_slot, gets. mrun.
  destruct (find_index _ (ds_store s)) as [i|] eqn:E.
  - destruct (has (r_flags m) DSF_OVERWRITE); [|by eexists]. apply find_index_lookup in E as (d&Hd&_).
    rewrite (check_auth_run _ _ _ _ _ Hd). by eexists.
  - destruct (has (r_flags m) DSF_TYPE_LABEL); [|by eexists].
    destruct (find_index (fun d => in_use d && _ && (u_u32 _ =? _)) (ds_store s)) as [i|] eqn:E'; [|by eexists].
    destruct (has (r_flags m) DSF_OVERWRITE); [|by eexists]. apply find_index_lookup in E' as (d&Hd&_).
    rewrite (check_auth_run _ _ _ _ _ Hd). by eexists.
Qed.

(** The slot for an entry of type [t] and key [k]. *)
Record slot_for s (t : Z) (k : list Z) (i : nat) (d : data_store) : Prop := {
  sf_slot : ds_store s !! i = Some d;
  sf_used : in_use d = true -> entry_type d = t /\ d_key d = k /\ is_Some (abs s !! (t, k));
  sf_only : forall j e, ds_store s !! j = Some e -> in_use e = true -> entry_type e = t -> d_key e = k -> j = i;
}.

Lemma label_step m k s :
  ds_inv s -> typ (r_flags m) ∈ types -> abs s !! (typ (r_flags m), k) = None ->
  (forall k', typ (r_flags m) = DSF_TYPE_LABEL -> label_of (abs s) (u32 (val_in m)) = Some k' -> k' = k) ->
  (if has (r_flags m) DSF_TYPE_LABEL then lookup_label_entry (u32 (val_in m)) else mret None) s = Some (None, s).
Proof.
  intros Hinv Ht Hl Hlab. pose proof (di_store _ Hinv) as Hst.
  rewrite has_type by (done || apply label_type). case_bool_decide as E'; [|done].
  unfold lookup_label_entry, gets. fold (is_label (u32 (val_in m))).
  pose proof (label_of_abs s Hst (u32 (val_in m))) as Hn.
  destruct (find_index (is_label _) _) as [j|] eqn:Ej; [|done]. exfalso.
  apply find_index_lookup in Ej as (e&He&Hle). simpl in Hn. rewrite He in Hn. simpl in Hn.
  apply is_label_type in Hle as (Hue&Hte&_); [|by apply (so_type _ _ Hst j)].
  rewrite E' in *. apply (proj1 (abs_lookup_None s Hst _ _) Hl j e); [done..|]. by apply Hlab.
Qed.

Lemma publish_slot_run m k s :
  ds_inv s -> typ (r_flags m) ∈ types ->
  (forall k', typ (r_flags m) = DSF_TYPE_LABEL -> label_of (abs s) (u32 (val_in m)) = Some k' -> k' = k) ->
  match spec_refused m k (abs s) with
  | Some r => publish_slot m k s = Some (inl r, s)
  | None => exists i d, publish_slot m k s = Some (inr i, s) /\ slot_for s (typ (r_flags m)) k i d
  end.
Proof.
  intros Hinv Ht Hlab. pose proof (di_store _ Hinv) as Hst.
  unfold publish_slot, spec_refused. fold (typ (r_flags m)).
  rewrite (bind_run (lookup_entry k (typ (r_flags m))) _ s (find_index (is_key k (typ (r_flags m))) (ds_store s)) s) by done.
  pose proof (lookup_entry_abs s Hst k _ Ht) as Hl.
  destruct (find_index (is_key k (typ (r_flags m))) (ds_store s)) as [i|] eqn:E.
  - destruct Hl as (d&Hd&Hu&Hty&Hk&Ha). rewrite Ha, (bind_run (mret (Some i)) _ s (Some i) s) by done.
    destruct (has (r_flags m) DSF_OVERWRITE); [|done].
    rewrite (bind_run _ _ _ _ _ (check_auth_run _ _ _ _ _ Hd)), (permitted_abs s Hst) by naive_solver.
    destruct (spec_permitted _ _ _ _); simpl; [|done]. exists i, d. split; [done|].
    constructor; [done|by rewrite Ha|]. intros j e He Hue Hte Hke. apply (so_unique _ _ Hst j i e d); congruence.
  - rewrite (bind_run _ _ _ _ _ (label_step m k s Hinv Ht Hl Hlab)), Hl.
    rewrite (bind_run alloc_data_slot _ s (find_index (fun d => negb (in_use d)) (ds_store s)) s) by done.
    destruct (Nat.eqb_spec (size (abs s)) NR_DS_KEYS) as [Hsz|Hsz].
    + by rewrite (proj1 (abs_size s Hst) Hsz).
    + destruct (find_index (fun d => negb (in_use d)) (ds_store s)) as [i|] eqn:Ei; [|by apply (abs_size s Hst) in Ei].
      apply find_index_lookup in Ei as (d&Hd&Hu). apply negb_true_iff in Hu. exists i, d. split; [done|].
      constructor; [done|congruence|]. intros j e He Hue Hte Hke.
      by destruct (proj1 (abs_lookup_None s Hst _ _) Hl j e).
Qed.

(** The entry that a publication leaves. *)
Definition published (m : ds_msg) (k n : list Z) (u : ds_union) : data_store :=
  DataStoreEntry (Z.lor DSF_IN_USE (Z.land (r_flags m) DSF_MASK_INTERNAL)) k n u.

Lemma attributes_run {A} m k s i d u h q dq n (kont : ST (ds_state R) A) :
  slot_for s (typ (r_flags m)) k i d -> ds_store s !! q = Some dq -> in_use dq = true -> d_key dq = n ->
  (set_entry i (with_key k);;
   owner ← read_name (R := R) (KeyOf q);
   set_entry i (with_owner owner);;
   set_entry i (with_flags (Z.lor DSF_IN_USE (Z.land (r_flags m) DSF_MASK_INTERNAL)));;
   kont) (put s i (with_u u d) h) =
  kont (put s i (published m k n u) h).
Proof.
  intros Hs Hq Hu <-. destruct Hs as [Hd Hused _].
  assert (Hi : (i < length (ds_store s))%nat) by (by apply lookup_lt_Some in Hd).
  pose proof (put_entry s i) as Hp.
  rewrite (bind_run _ _ _ _ _ (set_entry_run i _ _ _ (Hp _ _ Hi))). simpl. rewrite put_put.
  set (d1 := with_key k (with_u u d)).
  assert (Hr : exists e, ds_store (put s i d1 h) !! q = Some e /\ d_key e = d_key dq).
  { destruct (decide (q = i)) as [-> | Hne].
    - exists d1. split; [by apply Hp|]. simpl. simplify_eq. symmetry. by apply Hused.
    - exists dq. simpl. by rewrite list_lookup_insert_ne. }
  destruct Hr as (e&He&Hk).
  rewrite bind_assoc, (bind_run _ _ _ _ _ (entry_run _ _ _ He)), (bind_run (mret (d_key e)) _ _ (d_key e) (put s i d1 h)) by done.
  rewrite Hk, (bind_run _ _ _ _ _ (set_entry_run i _ _ _ (Hp _ _ Hi))). simpl. rewrite put_put.
  rewrite (bind_run _ _ _ _ _ (set_entry_run i _ _ _ (Hp _ _ Hi))). simpl. by rewrite put_put.
Qed.

Lemma added_published m k n s i d u h v :
  ds_inv s -> typ (r_flags m) ∈ types -> slot_for s (typ (r_flags m)) k i d ->
  (forall k', typ (r_flags m) = DSF_TYPE_LABEL -> label_of (abs s) (u32 (val_in m)) = Some k' -> k' = k) ->
  (is_mem (typ (r_flags m)) = false -> u_data u = u32 (val_in m)) ->
  stored s i (typ (r_flags m)) u h v -> added (ds_store s) h i (published m k n u).
Proof.
  intros Hinv Ht Hs Hlab Hnum Hv. pose proof (di_store _ Hinv) as Hst.
  assert (Hty : entry_type (published m k n u) = typ (r_flags m)) by apply published_typ.
  constructor; rewrite ?Hty.
  - done.
  - simpl. by apply (sf_only _ _ _ _ _ Hs).
  - intros j e n' He Hl Hle.
    apply is_label_type in Hl as (_&Hl&Hn'); [|intros _; by rewrite Hty]. rewrite Hty in Hl. simpl in Hn'.
    pose proof (so_type _ _ Hst j e He) as Hte.
    assert (Hke : d_key e = k).
    { apply Hlab; [done|]. rewrite (label_of_abs s Hst), <- Hnum by (by rewrite Hl). unfold u_u32 in Hn'. rewrite Hn'.
      destruct (find_index (is_label n') (ds_store s)) as [j'|] eqn:E.
      - apply find_index_lookup in E as (e'&He'&Hl'). assert (j' = j) as -> by (by apply (so_number _ _ Hst j' j e' e n')).
        simpl. by rewrite He.
      - rewrite find_index_None in E. rewrite (E j e He) in Hle. done. }
    apply is_label_type in Hle as (Hue&Hle&_); [|done]. apply (sf_only _ _ _ _ _ Hs j e); congruence.
  - intros Hm. destruct (sd_block _ _ _ _ _ _ Hv Hm) as (?&?&b&?&?&_). split_and!; [done|simpl; lia..|]. by exists b.
  - intros j e He Hu Hm Hm' Hp. destruct (decide (j = i)); [done|]. by destruct (sd_alias _ _ _ _ _ _ Hv j e).
Qed.

Lemma value_published m k n s i u h v :
  stored s i (typ (r_flags m)) u h v -> value_of h (published m k n u) = v.
Proof.
  intros Hv. unfold value_of. replace (entry_type (published m k n u)) with (typ (r_flags m)) by (symmetry; apply published_typ).
  destruct (is_mem (typ (r_flags m))) eqn:Hm.
  - destruct (sd_block _ _ _ _ _ _ Hv Hm) as (_&_&b&Hb&_&->). simpl. by rewrite Hb.
  - simpl. symmetry. by apply (sd_number _ _ _ _ _ _ Hv).
Qed.

Lemma ds_inv_put m k n s i d u h v :
  ds_inv s -> typ (r_flags m) ∈ types -> slot_for s (typ (r_flags m)) k i d ->
  (forall k', typ (r_flags m) = DSF_TYPE_LABEL -> label_of (abs s) (u32 (val_in m)) = Some k' -> k' = k) ->
  (is_mem (typ (r_flags m)) = false -> u_data u = u32 (val_in m)) ->
  stored s i (typ (r_flags m)) u h v -> labelled (ds_store s) n ->
  ds_inv (put s i (published m k n u) h) /\
  abs (put s i (published m k n u) h) = <[(typ (r_flags m), k) := SEntry (perm (r_flags m)) n v]> (abs s).
Proof.
  intros Hinv Ht Hs Hlab Hnum Hv Hn. pose proof (di_store _ Hinv) as Hst.
  pose proof (added_published m k n s i d u h v Hinv Ht Hs Hlab Hnum Hv) as Hadd.
  assert (Hty : entry_type (published m k n u) = typ (r_flags m)) by apply published_typ.
  assert (Hold : in_use d = true -> entry_type d = entry_type (published m k n u) /\ d_key d = d_key (published m k n u)).
  { intros Hu. rewrite Hty. by destruct (sf_used _ _ _ _ _ Hs Hu) as (?&?&_). }
  assert (Hu : in_use (published m k n u) = true) by apply published_used.
  set (s' := put s i (published m k n u) h).
  pose proof (store_put s s' i d _ Hst (sf_slot _ _ _ _ _ Hs) eq_refl Hold Hu Hadd (sd_kept _ _ _ _ _ _ Hv) Hn) as Hst'.
  split.
  - constructor; [done|apply Hinv|]. intros j b Hb Hub. destruct (di_subs _ Hinv j b Hb Hub) as [Hl Hr]. split; [|done].
    by apply (labelled_put s s' i d _ Hst (sf_slot _ _ _ _ _ Hs) eq_refl Hold).
  - rewrite (abs_put s s' i d _ Hst (sf_slot _ _ _ _ _ Hs) eq_refl Hold Hu Hadd (sd_kept _ _ _ _ _ _ Hv) Hn), Hty.
    simpl. rewrite published_perm. by rewrite (value_published m k n s i u h v).
Qed.

Lemma labelled_key s i d : store_ok (ds_store s) (ds_heap s) -> ds_store s !! i = Some d -> is_label (u_u32 (d_u d)) d = true ->
  labelled (ds_store s) (d_key d).
Proof.
  intros Hst Hd Hl. pose proof (so_type _ _ Hst i d Hd) as Ht. apply is_label_type in Hl as (Hu&Hty&_); [|done].
  exists i, d. split; [done|]. by apply is_key_type; [apply label_type|..].
Qed.

Lemma inv_unused s i d d' h :
  ds_inv s -> ds_store s !! i = Some d -> in_use d = false -> in_use d' = false ->
  (forall j e, ds_store s !! j = Some e -> in_use e = true -> kept (ds_store s) (ds_heap s) h j e) ->
  ds_inv (put s i d' h) /\ abs (put s i d' h) = abs s.
Proof.
  intros Hinv Hd Hu Hu' Hk. destruct (store_unused _ _ i d d' h (di_store _ Hinv) Hd Hu Hu' Hk) as [Hok Habs].
  split; [|done]. constructor; [done|apply Hinv|]. intros j b Hb Hub.
  destruct (di_subs _ Hinv j b Hb Hub) as [(a&x&Ha&Hx) Hr]. split; [|done]. exists a, x. split; [|done]. simpl.
  rewrite list_lookup_insert_ne; [done|]. intros ->. simplify_eq. unfold is_key in Hx. by rewrite Hu in Hx.
Qed.

Lemma spec_value_error m ans r : a_val ans <> inl OK -> spec_value m ans = inl r -> r <> OK.
Proof.
  intros Hv. unfold spec_value. destruct (is_mem _); [|done]. destruct (_ =? 0); [by intros [= <-]|].
  destruct (a_val ans); [|done]. intros [= <-] ->. done.
Qed.

(** The entry of the key [k] was published by [n] and the subscribers told. *)
Definition told s (m : ds_msg) (k n : list Z) s' : Prop :=
  exists i u s1, s' = updated regexec i (published m k n u) true s1 /\ ds_store s1 !! i = Some (published m k n u) /\
    ds_subs s1 = ds_subs s /\ ds_notified s1 = ds_notified s.

(** Storing the value and the attributes of an entry, and telling the
    subscribers. *)
Lemma publish_entry_run m ans s k i d q dq :
  ds_inv s -> request_ok s DS_PUBLISH m ans -> typ (r_flags m) ∈ types -> request_key m ans = Some (inr k) ->
  slot_for s (typ (r_flags m)) k i d -> ds_store s !! q = Some dq -> is_label (u_u32 (d_u dq)) dq = true ->
  exists s', (v ← store_value i m ans;
    match v with
    | Some r => mret (alone r m)
    | None =>
        set_entry i (with_key k);;
        owner ← read_name (KeyOf q);
        set_entry i (with_owner owner);;
        set_entry i (with_flags (Z.lor DSF_IN_USE (Z.land (r_flags m) DSF_MASK_INTERNAL)));;
        update_subscribers regexec i true;;
        mret (alone OK m)
    end) s =
    Some (alone (match spec_value m ans with inl r => r | inr _ => OK end) m, s') /\ ds_inv s' /\
    abs s' = match spec_value m ans with
             | inl _ => abs s
             | inr v => <[(typ (r_flags m), k) := SEntry (perm (r_flags m)) (d_key dq) v]> (abs s)
             end /\
    match spec_value m ans with inl r => r <> OK | inr _ => told s m k (d_key dq) s' end.
Proof.
  intros Hinv Hreq Ht Hk Hs Hq Hlq. pose proof (di_store _ Hinv) as Hst.
  assert (Hans : answers_ok s i m ans).
  { constructor.
    - intros j e Htm Hj He Hu Hm Hp. destruct (ro_fresh _ _ _ _ Hreq j e eq_refl Htm He Hu Hm Hp) as [Hte Hke].
      apply Hj, (sf_only _ _ _ _ _ Hs j e); congruence.
    - intros bs. by apply (ro_length _ _ _ _ Hreq).
    - by apply (ro_string _ _ _ _ Hreq). }
  assert (Hover : in_use d = true -> entry_type d = typ (r_flags m) /\
    (is_mem (typ (r_flags m)) = true -> a_malloc ans <> 0 /\ exists bs, a_val ans = inr bs)).
  { intros Hu. destruct (sf_used _ _ _ _ _ Hs Hu) as (Hty&_&x&Hx). split; [done|]. by apply (ro_over _ _ _ _ Hreq k x eq_refl). }
  pose proof (store_value_run s i d m ans Hst (sf_slot _ _ _ _ _ Hs) Hans Ht Hover) as Hv. unfold store_outcome in Hv.
  destruct (spec_value m ans) as [r|v] eqn:Ev.
  - destruct Hv as (d'&h&Hrun&Hu&Hu'&Hkept). rewrite (bind_run _ _ _ _ _ Hrun).
    destruct (inv_unused s i d d' h Hinv (sf_slot _ _ _ _ _ Hs) Hu Hu' Hkept).
    assert (r <> OK) by (by eapply spec_value_error; [apply Hreq|]). eauto.
  - destruct Hv as (u&h&Hrun&Hv). rewrite (bind_run _ _ _ _ _ Hrun).
    assert (Huq : in_use dq = true) by (unfold is_label in Hlq; by destruct (in_use dq)).
    rewrite (attributes_run m k s i d u h q dq _ _ Hs Hq Huq eq_refl).
    destruct (ds_inv_put m k (d_key dq) s i d u h v Hinv Ht Hs) as [Hinv' Habs]; [..|done|by eapply labelled_key|].
    + intros k' Hlab Hn. by apply (ro_label _ _ _ _ Hreq k k' eq_refl).
    + intros Hm. pose proof (sd_number _ _ _ _ _ _ Hv Hm) as Hn. unfold spec_value in Ev. rewrite Hm in Ev. congruence.
    + set (s1 := put s i (published m k (d_key dq) u) h) in *.
      assert (Hd1 : ds_store s1 !! i = Some (published m k (d_key dq) u)).
      { apply put_entry. by eapply lookup_lt_Some, Hs. }
      destruct (update_run i _ true s1 Hinv' Hd1) as (Hup&Hinv2&Habs2).
      rewrite (bind_run _ _ _ _ _ Hup). eexists. split; [done|]. rewrite Habs2. split_and!; [done..|].
      by exists i, u, s1.
Qed.

Lemma is_label_self n d : is_label n d = true -> is_label (u_u32 (d_u d)) d = true.
Proof. unfold is_label. intros [-> _]%andb_true_iff. apply Z.eqb_refl. Qed.

Lemma bool_decide_eqb (x y : Z) : bool_decide (x = y) = (x =? y).
Proof. by destruct (Z.eqb_spec x y); case_bool_decide. Qed.

Lemma request_key_error m ans r : a_key ans <> inl OK -> request_key m ans = Some (inl r) -> r <> OK.
Proof.
  intros Hk. unfold request_key. destruct (_ || _); [by intros [= <-]|].
  destruct (a_key ans); [by intros [= <-] -> |]. by destruct (key_string _ _).
Qed.

Lemma spec_refused_error m k a r : spec_refused m k a = Some r -> r <> OK.
Proof.
  unfold spec_refused. destruct (a !! _); [destruct (has _ _); [destruct (spec_permitted _ _ _ _)|]|destruct (_ =? _)%nat]; intros [=]; by subst.
Qed.

Lemma do_publish_run m ans s :
  ds_inv s -> request_ok s DS_PUBLISH m ans -> typ (r_flags m) ∈ types ->
  let (r, a) := spec_publish m ans (abs s) in
  exists s', do_publish regexec m ans s = Some (alone r m, s') /\ ds_inv s' /\ abs s' = a /\
    (r = OK -> exists k n, request_key m ans = Some (inr k) /\ spec_name (abs s) (m_src m) = Some n /\ told s m k n s').
Proof.
  intros Hinv Hreq Ht. pose proof (di_store _ Hinv) as Hst. unfold do_publish, spec_publish.
  destruct (source_run s (m_src m) (ro_src _ _ _ _ Hreq)) as (p&Hp&Hn).
  rewrite (bind_run _ _ _ _ _ Hp), (name_of_abs s Hst). destruct p as [q|]; [|rewrite Hn; by exists s].
  destruct Hn as (i&d&->&Hd&Hl&->). destruct (ro_key _ _ _ _ Hreq) as [key Hkey]. rewrite Hkey.
  rewrite has_type by (done || apply label_type). rewrite bool_decide_eqb.
  destruct (_ && _); [by exists s|].
  rewrite (bind_run _ _ _ _ _ (get_key_name_run m ans s _ Hkey)). destruct key as [r|k].
  { assert (r <> OK) by (by eapply request_key_error; [apply Hreq|]). by exists s. }
  pose proof (publish_slot_run m k s Hinv Ht (fun k' => ro_label _ _ _ _ Hreq k k' eq_refl Hkey)) as Hs.
  destruct (spec_refused m k (abs s)) as [r|] eqn:Er.
  { rewrite (bind_run _ _ _ _ _ Hs). assert (r <> OK) by (by eapply spec_refused_error). by exists s. }
  destruct Hs as (j&e&Hrun&Hs). rewrite (bind_run _ _ _ _ _ Hrun).
  destruct (publish_entry_run m ans s k j e i d Hinv Hreq Ht Hkey Hs Hd (is_label_self _ _ Hl)) as (s'&Hr&Hi'&Ha&Ht').
  destruct (spec_value m ans); exists s'; split_and!; try done. intros _. by exists k, (d_key d).
Qed.

Lemma untyped_tests t :
  t ∉ types ->
  (t =? DSF_TYPE_U32) = false /\ (t =? DSF_TYPE_LABEL) = false /\ (t =? DSF_TYPE_STR) = false /\ (t =? DSF_TYPE_MEM) = false.
Proof. unfold types. intros H. split_and!; apply Z.eqb_neq; intros ->; set_solver. Qed.

Lemma store_value_untyped i m ans s : typ (r_flags m) ∉ types -> store_value i m ans s = Some (Some EINVAL, s).
Proof.
  intros Ht. unfold store_value. fold (typ (r_flags m)). by destruct (untyped_tests _ Ht) as (->&->&->&->).
Qed.

Lemma do_publish_untyped callnr m ans s :
  request_ok s callnr m ans -> typ (r_flags m) ∉ types -> exists r, do_publish regexec m ans s = Some (r, s).
Proof.
  intros Hreq Ht. unfold do_publish.
  destruct (source_run s (m_src m) (ro_src _ _ _ _ Hreq)) as (p&Hp&_). rewrite (bind_run _ _ _ _ _ Hp).
  destruct p as [q|]; [|by eexists]. destruct (_ && _); [by eexists|].
  destruct (ro_key _ _ _ _ Hreq) as [key Hkey]. rewrite (bind_run _ _ _ _ _ (get_key_name_run m ans s _ Hkey)).
  destruct key as [r|k]; [by eexists|]. destruct (publish_slot_reads m k s) as [x Hx]. rewrite (bind_run _ _ _ _ _ Hx).
  destruct x as [r|i]; [by eexists|]. rewrite (bind_run _ _ _ _ _ (store_value_untyped i m ans s Ht)). by eexists.
Qed.

(** ** Retrieving *)

Lemma lookup_run k t s : lookup_entry (R := R) k t s = Some (find_index (is_key k t) (ds_store s), s).
Proof. done. Qed.

Lemma read_block_run p n b s :
  ds_heap s !! p = Some b -> 0 <= n <= Z.of_nat (length b) ->
  read_block (R := R) p n s = Some (take (Z.to_nat n) b, s).
Proof.
  intros Hb Hn. unfold read_block. destruct (Z.eqb_spec n 0) as [->|]; [done|]. mrun. rewrite Hb.
  by rewrite (proj2 (Z.leb_le _ _)) by lia.
Qed.

Lemma send_value_run i d m ans s :
  ds_inv s -> ds_store s !! i = Some d -> in_use d = true -> entry_type d = typ (r_flags m) ->
  send_value i (typ (r_flags m)) m ans s =
    Some (match value_of (ds_heap s) d with
          | SNum v => (OK, with_val_out v m, [])
          | SBytes bs =>
              let n := Z.min (u32 (val_len m)) (Z.of_nat (length bs)) in
              if is_OK (a_copyto ans) then (OK, with_reply_len n m, take (Z.to_nat n) bs) else alone (a_copyto ans) m
          end, s).
Proof.
  intros Hinv Hd Hu Ht. pose proof (di_store _ Hinv) as Hst. pose proof (so_type _ _ Hst i d Hd Hu) as Hty.
  rewrite Ht in Hty. unfold send_value, value_of. rewrite (bind_run _ _ _ _ _ (entry_run _ _ _ Hd)), Ht.
  destruct (is_mem (typ (r_flags m))) eqn:Hm.
  - assert ((typ (r_flags m) =? DSF_TYPE_U32) || (typ (r_flags m) =? DSF_TYPE_LABEL) = false) as ->.
    { unfold is_mem in Hm. by destruct (orb_prop _ _ Hm) as [->%Z.eqb_eq | ->%Z.eqb_eq]. }
    fold (is_mem (typ (r_flags m))). rewrite Hm.
    destruct (so_block _ _ Hst i d Hd Hu) as (Hp&Hlen&b&Hb&Hbl); [by rewrite Ht|].
    pose proof (u32_range (val_len m)). rewrite Hb. simpl.
    rewrite (bind_run _ _ _ _ _ (read_block_run _ (Z.min (u32 (val_len m)) (u_length (d_u d))) b s Hb ltac:(lia))).
    rewrite length_take_le, Z2Nat.id, take_take by lia. by rewrite <- Z2Nat.inj_min, <- Z.min_assoc, Z.min_id.
  - assert ((typ (r_flags m) =? DSF_TYPE_U32) || (typ (r_flags m) =? DSF_TYPE_LABEL) = true) as ->; [|done].
    unfold types in Hty. set_unfold. by destruct Hty as [E|[E|[E|[E|[]]]]]; rewrite E in *.
Qed.

Lemma do_retrieve_run callnr m ans s :
  ds_inv s -> request_ok s callnr m ans -> typ (r_flags m) ∈ types ->
  do_retrieve m ans s = Some (spec_retrieve m ans (abs s), s).
Proof.
  intros Hinv Hreq Ht. pose proof (di_store _ Hinv) as Hst. unfold do_retrieve, spec_retrieve.
  destruct (ro_key _ _ _ _ Hreq) as [key Hkey]. rewrite Hkey, (bind_run _ _ _ _ _ (get_key_name_run m ans s _ Hkey)).
  destruct key as [r|k]; [done|]. fold (typ (r_flags m)). rewrite (bind_run _ _ _ _ _ (lookup_run _ _ s)).
  pose proof (lookup_entry_abs s Hst k _ Ht) as Hl. destruct (find_index _ _) as [i|]; [|by rewrite Hl].
  destruct Hl as (d&Hd&Hu&Hty&Hk&->). rewrite (bind_run _ _ _ _ _ (check_auth_run _ _ _ _ _ Hd)).
  rewrite (permitted_abs s Hst) by naive_solver. destruct (spec_permitted _ _ _ _); [|done]. simpl.
  by apply send_value_run.
Qed.

Lemma do_retrieve_untyped callnr m ans s :
  request_ok s callnr m ans -> typ (r_flags m) ∉ types -> exists r, do_retrieve m ans s = Some (r, s).
Proof.
  intros Hreq Ht. unfold do_retrieve. fold (typ (r_flags m)).
  destruct (ro_key _ _ _ _ Hreq) as [key Hkey]. rewrite (bind_run _ _ _ _ _ (get_key_name_run m ans s _ Hkey)).
  destruct key as [r|k]; [by eexists|]. rewrite (bind_run _ _ _ _ _ (lookup_run _ _ s)).
  destruct (find_index _ _) as [i|] eqn:E; [|by eexists]. apply find_index_lookup in E as (d&Hd&_).
  rewrite (bind_run _ _ _ _ _ (check_auth_run _ _ _ _ _ Hd)). destruct (permitted _ _ _ _); [|by eexists]. simpl.
  unfold send_value. rewrite (bind_run _ _ _ _ _ (entry_run _ _ _ Hd)).
  destruct (untyped_tests _ Ht) as (->&->&->&->). by eexists.
Qed.

Lemma send_key_run i d ans s :
  ds_store s !! i = Some d ->
  send_key (R := R) i ans s = Some (if is_OK (a_copyto ans) then (OK, d_key d ++ [0]) else (a_copyto ans, []), s).
Proof. intros Hd. unfold send_key. by rewrite (bind_run _ _ _ _ _ (entry_run _ _ _ Hd)). Qed.

Lemma do_retrieve_label_run m ans s :
  ds_inv s -> do_retrieve_label m ans s = Some (spec_retrieve_label m ans (abs s), s).
Proof.
  intros Hinv. pose proof (di_store _ Hinv) as Hst. unfold do_retrieve_label, spec_retrieve_label, lookup_label_entry.
  rewrite (label_of_abs s Hst). rewrite (bind_run (gets _) _ s (find_index (is_label (u32 (val_in m))) (ds_store s)) s) by done.
  destruct (find_index _ _) as [i|] eqn:E; [|done]. apply find_index_lookup in E as (d&Hd&_). simpl. rewrite Hd. simpl.
  rewrite (bind_run _ _ _ _ _ (send_key_run i d ans s Hd)). by destruct (is_OK (a_copyto ans)).
Qed.

(** ** Deleting *)

Lemma slots_inv (P : nat -> ds_state R -> Prop) f : forall n a s,
  (forall i s, (a <= i < a + n)%nat -> P i s -> exists s', f i s = Some (tt, s') /\ P (S i) s') ->
  P a s -> exists s', for_all_slots (seq a n) f s = Some (tt, s') /\ P (a + n)%nat s'.
Proof.
  induction n as [|n IH]; intros a s Hf Ha; simpl.
  - exists s. by rewrite Nat.add_0_r.
  - destruct (Hf a s) as (s1&H1&HP); [lia|done|]. rewrite (bind_run _ _ _ _ _ H1).
    destruct (IH (S a) s1) as (s2&H2&HP2); [|done|].
    + intros i s0 Hi. apply Hf. lia.
    + exists s2. split; [done|]. by rewrite Nat.add_succ_r.
Qed.

(** The subscriptions in use are those of [s], without the ones of [k] in the
    first [j] slots, up to their marks. *)
Definition subs_of s (gone : nat -> list Z -> Prop) s' : Prop :=
  length (ds_subs s') = length (ds_subs s) /\
  forall x b, ds_subs s' !! x = Some b -> has (b_flags b) DSF_IN_USE = true -> ~ gone x (b_owner b) /\
    exists b0, ds_subs s !! x = Some b0 /\ b_flags b0 = b_flags b /\ b_owner b0 = b_owner b /\ b_regex b0 = b_regex b.

Lemma subs_of_updated s gone s' i d set : subs_of s gone s' -> subs_of s gone (updated regexec i d set s').
Proof.
  intros [Hl Hs]. split; simpl; [by rewrite length_fmap|]. intros x b Hb Hu.
  apply list_lookup_fmap_Some in Hb as (b1&->&Hb1).
  unfold update_sub in *. destruct (interested _ _ _ _); by apply (Hs x b1).
Qed.

Lemma subs_of_inv s gone s' :
  ds_inv s -> subs_of s gone s' -> store_ok (ds_store s') (ds_heap s') ->
  (forall x o, ~ gone x o -> labelled (ds_store s) o -> labelled (ds_store s') o) -> ds_inv s'.
Proof.
  intros Hinv [Hl Hs] Hst Hlab. constructor; [done|rewrite Hl; apply Hinv|]. intros x b Hb Hu.
  destruct (Hs x b Hb Hu) as (Hg&b0&Hb0&E1&E2&E3). rewrite <- E1 in Hu.
  destruct (di_subs _ Hinv x b0 Hb0 Hu) as [Ho Hr]. rewrite <- E3. split; [|done].
  apply (Hlab x); [done|congruence].
Qed.

Lemma subs_of_ok s gone s' :
  ds_inv s -> subs_of s gone s' ->
  (forall x o, ~ gone x o -> labelled (ds_store s) o -> labelled (ds_store s') o) ->
  length (ds_subs s') = NR_DS_SUBS /\ Forall (sub_ok (ds_store s')) (ds_subs s').
Proof.
  intros Hinv [Hl Hs] Hlab. split; [rewrite Hl; apply Hinv|]. apply Forall_lookup. intros x b Hb Hu.
  destruct (Hs x b Hb Hu) as (Hg&b0&Hb0&E1&E2&E3). rewrite <- E1 in Hu.
  destruct (di_subs _ Hinv x b0 Hb0 Hu) as [Ho Hr]. rewrite <- E3. split; [|done].
  apply labelled_ep, (Hlab x); [done|congruence].
Qed.

Lemma clean_subs_run k s :
  length (ds_subs s) = NR_DS_SUBS ->
  exists s', for_all_slots (seq 0 NR_DS_SUBS) (clean_sub k) s = Some (tt, s') /\
    ds_store s' = ds_store s /\ ds_heap s' = ds_heap s /\ subs_of s (fun _ o => o = k) s'.
Proof.
  intros Hlen.
  destruct (slots_inv (fun j s' => ds_store s' = ds_store s /\ ds_heap s' = ds_heap s /\
    subs_of s (fun x o => (x < j)%nat /\ o = k) s') (clean_sub k) NR_DS_SUBS 0 s) as (s'&Hr&Hst&Hh&Hl&Hs).
  - intros j s1 Hj (Hst&Hh&Hl&Hs). unfold clean_sub.
    destruct (lookup_lt_is_Some_2 (ds_subs s1) j) as [b Hb]; [lia|]. rewrite (bind_run _ _ _ _ _ (sub_run _ _ _ Hb)).
    destruct (has (b_flags b) DSF_IN_USE && bool_decide (b_owner b = k)) eqn:E.
    + unfold set_sub, modify. eexists. split; [done|]. simpl. rewrite (alter_is_insert _ _ _ _ Hb).
      split_and!; [done..|]. split; simpl; [by rewrite length_insert|]. intros x b' Hb' Hu.
      destruct (decide (x = j)) as [-> | Hne].
      * rewrite list_lookup_insert_eq in Hb' by (by eapply lookup_lt_Some). by simplify_eq.
      * rewrite list_lookup_insert_ne in Hb' by done. destruct (Hs x b' Hb' Hu) as [Hg H0]. split; [|done].
        intros [Hx Ho]. apply Hg. split; [lia|done].
    + exists s1. split; [done|]. split_and!; [done..|]. split; [done|]. intros x b' Hb' Hu.
      destruct (Hs x b' Hb' Hu) as [Hg H0]. split; [|done]. intros [Hx Ho].
      destruct (decide (x = j)) as [-> | Hne]; [|by apply Hg; split; [lia|]].
      simplify_eq. rewrite Hu, bool_decide_eq_true_2 in E by done. done.
  - split_and!; [done..|]. split; [done|]. intros x b Hb _. split; [intros [? _]; lia|]. by exists b.
  - exists s'. split_and!; [done..|]. split; [done|]. intros x b Hb Hu. destruct (Hs x b Hb Hu) as [Hg H0].
    split; [|done]. intros Ho. apply Hg. split; [|done]. apply lookup_lt_Some in Hb. lia.
Qed.

(** *** The entries of a process *)

Definition owned_by (k : list Z) (d : data_store) : bool := in_use d && bool_decide (d_owner d = k).

Lemma remove_lookup_eq g st j : remove g st !! j = (fun d => if g j d then with_flags 0 d else d) <$> st !! j.
Proof. unfold remove. by rewrite list_lookup_imap. Qed.

Lemma labelled_remove g st o :
  labelled st o -> (forall y e, st !! y = Some e -> is_key o DSF_TYPE_LABEL e = true -> g y e = false) ->
  labelled (remove g st) o.
Proof.
  intros (y&e&He&Hk) Hg. exists y, e. split; [|done]. rewrite remove_lookup_eq, He. simpl. by rewrite (Hg y e).
Qed.

Lemma clean_entry_step k s1 st j :
  ds_store s1 = remove (fun x d => (x <? j)%nat && owned_by k d) st -> (j < length st)%nat ->
  length (ds_subs s1) = NR_DS_SUBS -> Forall (sub_ok (ds_store s1)) (ds_subs s1) ->
  exists s2 d set, clean_entry regexec k j s1 = Some (tt, s2) /\
    ds_store s2 = remove (fun x d => (x <? S j)%nat && owned_by k d) st /\ ds_heap s2 = ds_heap s1 /\
    (ds_subs s2 = ds_subs s1 \/ ds_subs s2 = ds_subs (updated regexec j d set s1)).
Proof.
  intros Hst Hj Hl Hok. destruct (lookup_lt_is_Some_2 st j Hj) as [d Hd].
  assert (Hd1 : ds_store s1 !! j = Some d) by (by rewrite Hst, remove_lookup_eq, Hd; simpl; rewrite Nat.ltb_irrefl).
  assert (Hnext : forall st2, (forall x, x <> j -> st2 !! x = ds_store s1 !! x) ->
    st2 !! j = Some (if owned_by k d then with_flags 0 d else d) ->
    st2 = remove (fun x d => (x <? S j)%nat && owned_by k d) st).
  { intros st2 Hne Heq. apply list_eq. intros x. rewrite remove_lookup_eq. destruct (decide (x = j)) as [-> | Hxj].
    - rewrite Heq, Hd. simpl. by rewrite (proj2 (Nat.ltb_lt j (S j))) by lia.
    - rewrite Hne, Hst, remove_lookup_eq by done. destruct (st !! x); [|done]. simpl.
      by replace (x <? S j)%nat with (x <? j)%nat by (destruct (Nat.ltb_spec x j), (Nat.ltb_spec x (S j)); done || lia). }
  unfold clean_entry. rewrite (bind_run _ _ _ _ _ (entry_run _ _ _ Hd1)). fold (owned_by k d).
  destruct (owned_by k d) eqn:E.
  - rewrite (bind_run _ _ _ _ _ (update_subscribers_run regexec j d false s1 Hd1 Hl Hok)).
    rewrite (set_entry_run j _ (updated regexec j d false s1) d Hd1). eexists _, d, false. split; [done|]. simpl. split_and!; [|done|by right].
    apply Hnext.
    + intros x Hx. by rewrite list_lookup_insert_ne.
    + rewrite list_lookup_insert_eq; [done|]. by eapply lookup_lt_Some.
  - exists s1, d, false. split; [done|]. split_and!; [|done|by left]. by apply Hnext.
Qed.

Lemma clean_entries_run k s s1 :
  ds_inv s -> ds_store s1 = ds_store s -> ds_heap s1 = ds_heap s -> subs_of s (fun _ o => o = k) s1 ->
  (forall y e, ds_store s !! y = Some e -> in_use e = true -> entry_type e = DSF_TYPE_LABEL -> d_owner e <> k) ->
  exists s2, for_all_slots (seq 0 NR_DS_KEYS) (clean_entry regexec k) s1 = Some (tt, s2) /\
    ds_store s2 = remove (fun _ d => owned_by k d) (ds_store s) /\ ds_heap s2 = ds_heap s /\
    subs_of s (fun _ o => o = k) s2.
Proof.
  intros Hinv Hst Hh Hs Hlab. pose proof (di_store _ Hinv) as Hok.
  destruct (slots_inv (fun j s' => ds_store s' = remove (fun x d => (x <? j)%nat && owned_by k d) (ds_store s) /\
    ds_heap s' = ds_heap s /\ subs_of s (fun _ o => o = k) s') (clean_entry regexec k) NR_DS_KEYS 0 s1) as (s2&Hr&H1&H2&H3).
  - intros j s' Hj (H1&H2&H3).
    destruct (subs_of_ok s (fun _ o => o = k) s' Hinv H3) as [Hl Hf].
    { intros _ o _ Ho. rewrite H1. apply labelled_remove; [done|]. intros y e He Hk.
      pose proof (so_type _ _ Hok y e He). apply is_key_type in Hk as (Hu&Hty&_); [|apply label_type|done].
      unfold owned_by. rewrite bool_decide_eq_false_2 by (by apply (Hlab y)). by rewrite !andb_false_r. }
    destruct (clean_entry_step k s' (ds_store s) j) as (s2&d&set&Hr&Hst2&Hh2&Hs2); [done| |done..|].
    { rewrite (so_length _ _ Hok). simpl in *. lia. }
    exists s2. split_and!; [done|done|congruence|].
    assert (Hx : forall s3, ds_subs s2 = ds_subs s3 -> subs_of s (fun _ o => o = k) s3 -> subs_of s (fun _ o => o = k) s2).
    { intros s3 E. unfold subs_of. by rewrite E. }
    destruct Hs2 as [E|E]; [by apply (Hx s')|]. by apply (Hx _ E), subs_of_updated.
  - split_and!; [|done..]. rewrite Hst. symmetry. apply list_eq. intros x. rewrite remove_lookup_eq. by destruct (ds_store s !! x).
  - exists s2. split_and!; [done| |done..]. rewrite H1. apply list_eq. intros x. rewrite !remove_lookup_eq.
    destruct (ds_store s !! x) eqn:Ex; [|done]. cbn [fmap option_fmap option_map]. apply lookup_lt_Some in Ex. rewrite (so_length _ _ Hok) in Ex.
    by rewrite (proj2 (Nat.ltb_lt x (0 + NR_DS_KEYS))) by (simpl; lia).
Qed.

Lemma remove_alter g st i d :
  st !! i = Some d -> g i d = false ->
  <[i := with_flags 0 d]> (remove g st) = remove (fun x d => g x d || (x =? i)%nat) st.
Proof.
  intros Hd Hg. assert (Hi : (i < length (remove g st))%nat).
  { unfold remove. rewrite length_imap. by eapply lookup_lt_Some. }
  apply list_eq. intros x. rewrite remove_lookup_eq. destruct (decide (x = i)) as [-> | Hne].
  - rewrite list_lookup_insert_eq, Hd by done. simpl. by rewrite Hg, Nat.eqb_refl.
  - rewrite list_lookup_insert_ne, remove_lookup_eq by done. destruct (st !! x) as [e|]; [|done]. simpl.
    by rewrite (proj2 (Nat.eqb_neq x i) Hne), orb_false_r.
Qed.

Lemma delete_finish m s s1 gone g i d :
  ds_inv s -> subs_of s gone s1 -> ds_store s1 = remove g (ds_store s) ->
  ds_store s !! i = Some d -> g i d = false ->
  (forall x o, ~ gone x o -> labelled (ds_store s) o -> labelled (remove g (ds_store s)) o) ->
  let g' := fun x d => g x d || (x =? i)%nat in
  (forall x o, ~ gone x o -> labelled (ds_store s) o -> labelled (remove g' (ds_store s)) o) ->
  (forall j e, ds_store s !! j = Some e -> in_use e = true -> g' j e = false ->
    labelled (remove g' (ds_store s)) (d_owner e) /\ kept (ds_store s) (ds_heap s) (ds_heap s1) j e) ->
  exists s', (update_subscribers regexec i false;; set_entry i (with_flags 0);; mret (alone OK m)) s1 =
      Some (alone OK m, s') /\ ds_inv s' /\
    forall tk x, abs s' !! tk = Some x <->
      exists j e, ds_store s !! j = Some e /\ g' j e = false /\ view (ds_heap s) e = Some (tk, x).
Proof.
  intros Hinv Hs Hst Hd Hg Hlab g' Hlab' Hkept.
  destruct (subs_of_ok s gone s1 Hinv Hs) as [Hl Hf]; [by rewrite Hst|].
  assert (Hd1 : ds_store s1 !! i = Some d) by (by rewrite Hst, remove_lookup_eq, Hd; simpl; rewrite Hg).
  rewrite (bind_run _ _ _ _ _ (update_subscribers_run regexec i d false s1 Hd1 Hl Hf)).
  rewrite (bind_run _ _ _ _ _ (set_entry_run i _ (updated regexec i d false s1) d Hd1)).
  set (s' := put _ _ _ _). exists s'.
  assert (Hst' : ds_store s' = remove g' (ds_store s)) by (simpl; rewrite Hst; by apply remove_alter).
  assert (Hh' : ds_heap s' = ds_heap s1) by done.
  assert (Hk : forall j e, ds_store s !! j = Some e -> in_use e = true -> g' j e = false ->
    kept (ds_store s) (ds_heap s) (ds_heap s') j e) by (intros; rewrite Hh'; by apply Hkept).
  assert (Hok : store_ok (ds_store s') (ds_heap s')).
  { apply (store_remove s s' g' (di_store _ Hinv) Hst' Hk). intros j e He Hu Hge. rewrite Hst'. by apply (Hkept j e). }
  split_and!; [done| |].
  - apply (subs_of_inv s gone); [done|by apply (subs_of_updated s gone s1 i d false)|done|]. by rewrite Hst'.
  - intros tk x. by apply (abs_remove s s' g').
Qed.

Lemma subs_of_refl s : subs_of s (fun _ _ => False) s.
Proof. split; [done|]. intros x b Hb _. split; [tauto|]. by exists b. Qed.

Lemma remove_none st : remove (fun _ _ => false) st = st.
Proof. apply list_eq. intros x. rewrite remove_lookup_eq. by destruct (st !! x). Qed.

(** One entry, which is not a label, goes. *)
Lemma delete_one_run m s i d h :
  ds_inv s -> ds_store s !! i = Some d -> in_use d = true -> entry_type d <> DSF_TYPE_LABEL ->
  (forall j e, j <> i -> ds_store s !! j = Some e -> in_use e = true -> kept (ds_store s) (ds_heap s) h j e) ->
  exists s', (update_subscribers regexec i false;; set_entry i (with_flags 0);; mret (alone OK m)) (put s i d h) =
      Some (alone OK m, s') /\ ds_inv s' /\ abs s' = delete (entry_type d, d_key d) (abs s).
Proof.
  intros Hinv Hd Hu Hnl Hk. pose proof (di_store _ Hinv) as Hst.
  assert (Hlab : forall o, labelled (ds_store s) o -> labelled (remove (fun x _ => false || (x =? i)%nat) (ds_store s)) o).
  { intros o Ho. apply labelled_remove; [done|]. intros y e He Hke. simpl. apply Nat.eqb_neq. intros ->.
    pose proof (so_type _ _ Hst i e He). apply is_key_type in Hke as (_&Hty&_); [|apply label_type|done]. congruence. }
  destruct (delete_finish m s (put s i d h) (fun _ _ => False) (fun _ _ => false) i d) as (s'&Hr&Hi'&Ha); try done.
  - exact (subs_of_refl s).
  - simpl. by rewrite remove_none, list_insert_id.
  - intros. by rewrite remove_none.
  - intros _ o _ Ho. by apply Hlab.
  - intros j e He Hue Hne%Nat.eqb_neq. split; [by apply Hlab, (so_owner _ _ Hst j)|by apply Hk].
  - exists s'. split_and!; [done..|]. apply map_eq. intros tk. apply option_eq. intros x.
    rewrite Ha, lookup_delete_Some, (abs_lookup s Hst). simpl. split.
    + intros (j&e&He&Hne%Nat.eqb_neq&Hv). split; [|by exists j, e]. intros <-.
      destruct (view_Some _ _ _ _ Hv) as [Hue [=]]. apply Hne. by apply (so_unique _ _ Hst j i e d).
    + intros (Hne&j&e&He&Hv). exists j, e. split_and!; [done| |done]. apply Nat.eqb_neq. intros ->. simplify_eq.
      apply Hne. symmetry. by apply (view_Some _ _ _ _ Hv).
Qed.

(** A label goes with everything its process owns. *)
Lemma delete_label_run m s s1 i d :
  ds_inv s -> ds_store s !! i = Some d -> in_use d = true -> entry_type d = DSF_TYPE_LABEL ->
  (forall y e, ds_store s !! y = Some e -> in_use e = true -> entry_type e = DSF_TYPE_LABEL -> d_owner e <> d_key d) ->
  ds_store s1 = remove (fun _ e => owned_by (d_key d) e) (ds_store s) -> ds_heap s1 = ds_heap s ->
  subs_of s (fun _ o => o = d_key d) s1 ->
  exists s', (update_subscribers regexec i false;; set_entry i (with_flags 0);; mret (alone OK m)) s1 =
      Some (alone OK m, s') /\ ds_inv s' /\ abs s' = spec_remove DSF_TYPE_LABEL (d_key d) (abs s).
Proof.
  intros Hinv Hd Hu Hty Hnl Hs1 Hh1 Hsubs. pose proof (di_store _ Hinv) as Hst.
  assert (Hown : forall y e o, ds_store s !! y = Some e -> is_key o DSF_TYPE_LABEL e = true -> owned_by (d_key d) e = false /\
    (o <> d_key d -> y <> i)).
  { intros y e o He Hke. pose proof (so_type _ _ Hst y e He).
    apply is_key_type in Hke as (Hue&Hte&Hke); [|apply label_type|done]. split; [|congruence].
    unfold owned_by. by rewrite bool_decide_eq_false_2, andb_false_r by (by apply (Hnl y)). }
  assert (Hlab : forall o, o <> d_key d -> labelled (ds_store s) o ->
    labelled (remove (fun x e => owned_by (d_key d) e || (x =? i)%nat) (ds_store s)) o).
  { intros o Hne Ho. apply labelled_remove; [done|]. intros y e He Hke. destruct (Hown y e o He Hke) as [-> Hyi].
    by apply Nat.eqb_neq, Hyi. }
  destruct (delete_finish m s s1 (fun _ o => o = d_key d) (fun _ e => owned_by (d_key d) e) i d) as (s'&Hr&Hi'&Ha); try done.
  - unfold owned_by. by rewrite bool_decide_eq_false_2, andb_false_r by (by apply (Hnl i)).
  - intros _ o _ Ho. apply labelled_remove; [done|]. intros y e He Hke. by destruct (Hown y e o He Hke).
  - intros j e He Hue [Ho _]%orb_false_iff. split; [|rewrite Hh1; by apply kept_same].
    apply Hlab; [|by apply (so_owner _ _ Hst j)]. unfold owned_by in Ho. rewrite Hue in Ho. by apply bool_decide_eq_false_1 in Ho.
  - exists s'. split_and!; [done..|]. apply map_eq. intros tk. apply option_eq. intros x. unfold spec_remove. simpl.
    rewrite Ha, lookup_delete_Some, map_lookup_filter_Some, (abs_lookup s Hst). simpl. split.
    + intros (j&e&He&[Ho Hne%Nat.eqb_neq]%orb_false_iff&Hv). destruct (view_Some _ _ _ _ Hv) as [Hue ->]. split_and!.
      * intros [= Ht Hk]. apply Hne. apply (so_unique _ _ Hst j i e d); congruence.
      * by exists j, e.
      * unfold view in Hv. rewrite Hue in Hv. injection Hv as <-. simpl. unfold owned_by in Ho. rewrite Hue in Ho.
        by apply bool_decide_eq_false_1 in Ho.
    + intros (Hne&(j&e&He&Hv)&Ho). exists j, e. destruct (view_Some _ _ _ _ Hv) as [Hue ->].
      split_and!; [done| |done]. unfold view in Hv. rewrite Hue in Hv. injection Hv as <-. simpl in Ho.
      unfold owned_by. rewrite Hue, bool_decide_eq_false_2 by done. simpl. apply Nat.eqb_neq. intros ->. simplify_eq. congruence.
Qed.

Lemma type_cases t : t ∈ types -> t = DSF_TYPE_U32 \/ t = DSF_TYPE_LABEL \/ is_mem t = true.
Proof. unfold types. set_unfold. intros [->|[->|[->|[->|[]]]]]; tauto. Qed.

Lemma delete_entry_run m s i d :
  ds_inv s -> ds_store s !! i = Some d -> in_use d = true ->
  (forall y e, entry_type d = DSF_TYPE_LABEL -> ds_store s !! y = Some e -> in_use e = true ->
    entry_type e = DSF_TYPE_LABEL -> d_owner e <> d_key d) ->
  exists s', (v ← delete_value regexec i (entry_type d);
    match v with
    | Some r => mret (alone r m)
    | None => update_subscribers regexec i false;; set_entry i (with_flags 0);; mret (alone OK m)
    end) s = Some (alone OK m, s') /\ ds_inv s' /\ abs s' = spec_remove (entry_type d) (d_key d) (abs s).
Proof.
  intros Hinv Hd Hu Hnl. pose proof (di_store _ Hinv) as Hst. pose proof (so_type _ _ Hst i d Hd Hu) as Hty.
  unfold delete_value. rewrite bind_assoc, (bind_run _ _ _ _ _ (entry_run _ _ _ Hd)).
  apply type_cases in Hty as [E|[E|E]].
  - rewrite E. simpl. destruct (delete_one_run m s i d (ds_heap s)) as (s'&Hr&Hi'&Ha); [done..|by rewrite E| |].
    + intros j e _ He _. by apply kept_same.
    + rewrite put_id in Hr by done. exists s'. split_and!; [done..|]. rewrite Ha, E. done.
  - rewrite E. cbn [Z.eqb Pos.eqb DSF_TYPE_LABEL DSF_TYPE_U32].
    destruct (clean_subs_run (d_key d) s (di_length _ Hinv)) as (s1&H1&Hs1&Hh1&Hsub1).
    destruct (clean_entries_run (d_key d) s s1 Hinv Hs1 Hh1 Hsub1) as (s2&H2&Hs2&Hh2&Hsub2).
    { intros y e. by apply Hnl. }
    rewrite bind_assoc, (bind_run _ _ _ _ _ H1), bind_assoc, (bind_run _ _ _ _ _ H2).
    rewrite (bind_run (mret None) _ s2 None s2) by done.
    apply (delete_label_run m s s2 i d); try done. intros y e. by apply Hnl.
  - assert (Hne : entry_type d <> DSF_TYPE_LABEL) by (intros E'; by rewrite E' in E).
    assert ((entry_type d =? DSF_TYPE_U32) = false) as -> by (apply Z.eqb_neq; intros E'; by rewrite E' in E).
    rewrite (proj2 (Z.eqb_neq _ _) Hne). fold (is_mem (entry_type d)). rewrite E.
    destruct (so_block _ _ Hst i d Hd Hu E) as (Hp&Hlen&b&Hb&Hbl).
    rewrite bind_assoc, (bind_run _ _ _ _ _ (free_run i s d b Hd Hb Hp)), (bind_run (mret None) _ _ None _) by done.
    unfold spec_remove. rewrite (proj2 (Z.eqb_neq _ _) Hne). apply delete_one_run; try done.
    intros j e Hj He Hue. split; [done|]. intros Hm. rewrite lookup_delete_ne; [done|]. intros Hpe.
    apply Hj. by apply (so_alias _ _ Hst j i e d).
Qed.

Lemma do_delete_run m ans s :
  ds_inv s -> request_ok s DS_DELETE m ans -> typ (r_flags m) ∈ types ->
  let (r, a) := spec_delete m ans (abs s) in
  exists s', do_delete regexec m ans s = Some (alone r m, s') /\ ds_inv s' /\ abs s' = a.
Proof.
  intros Hinv Hreq Ht. pose proof (di_store _ Hinv) as Hst. unfold do_delete, spec_delete.
  destruct (source_run s (m_src m) (ro_src _ _ _ _ Hreq)) as (p&Hp&Hn).
  rewrite (bind_run _ _ _ _ _ Hp), (name_of_abs s Hst). destruct p as [q|]; [|rewrite Hn; by exists s].
  destruct Hn as (q'&dq&->&Hdq&_&->). destruct (ro_key _ _ _ _ Hreq) as [key Hkey]. rewrite Hkey.
  rewrite (bind_run _ _ _ _ _ (get_key_name_run m ans s _ Hkey)). destruct key as [r|k]; [by exists s|].
  fold (typ (r_flags m)). rewrite (bind_run _ _ _ _ _ (lookup_run _ _ s)).
  pose proof (lookup_entry_abs s Hst k _ Ht) as Hl. destruct (find_index _ _) as [i|]; [|rewrite Hl; by exists s].
  destruct Hl as (d&Hd&Hu&Hty&Hk&->). cbn [e_owner]. rewrite (bind_run _ _ _ _ _ (entry_run _ _ _ Hd)).
  rewrite (bind_run _ _ _ _ _ (read_key_run _ _ _ Hdq)).
  case_bool_decide as Ho; simpl; [|by exists s]. rewrite <- Hty, <- Hk. apply delete_entry_run; try done.
  intros y e El He Hue Hte. rewrite Hk. rewrite Hty in El.
  apply (ro_remove _ _ _ _ Hreq k (d_key e) (SEntry (perm (d_flags e)) (d_owner e) (value_of (ds_heap s) e))); try done.
  apply (abs_lookup s Hst). exists y, e. split; [done|]. unfold view. by rewrite Hue, Hte.
Qed.

Lemma do_delete_untyped callnr m ans s :
  request_ok s callnr m ans -> typ (r_flags m) ∉ types -> exists r, do_delete regexec m ans s = Some (r, s).
Proof.
  intros Hreq Ht. unfold do_delete. fold (typ (r_flags m)).
  destruct (source_run s (m_src m) (ro_src _ _ _ _ Hreq)) as (p&Hp&Hn). rewrite (bind_run _ _ _ _ _ Hp).
  destruct p as [q|]; [|by eexists]. destruct Hn as (q'&dq&->&Hdq&_).
  destruct (ro_key _ _ _ _ Hreq) as [key Hkey]. rewrite (bind_run _ _ _ _ _ (get_key_name_run m ans s _ Hkey)).
  destruct key as [r|k]; [by eexists|]. rewrite (bind_run _ _ _ _ _ (lookup_run _ _ s)).
  destruct (find_index _ _) as [i|] eqn:E; [|by eexists]. apply find_index_lookup in E as (d&Hd&_).
  rewrite (bind_run _ _ _ _ _ (entry_run _ _ _ Hd)), (bind_run _ _ _ _ _ (read_key_run _ _ _ Hdq)).
  case_bool_decide; simpl; [|by eexists]. unfold delete_value.
  rewrite bind_assoc, (bind_run _ _ _ _ _ (entry_run _ _ _ Hd)).
  destruct (untyped_tests _ Ht) as (->&->&->&->). by eexists.
Qed.

(** ** Subscribing *)

(** The state with another subscription in slot [i] and other notifications. *)
Definition put_sub s (i : nat) (b : subscription R) (nt : list Z) : ds_state R :=
  DsState (ds_store s) (<[i := b]> (ds_subs s)) (ds_heap s) nt.

Lemma set_sub_run i f s b : ds_subs s !! i = Some b -> set_sub i f s = Some (tt, put_sub s i (f b) (ds_notified s)).
Proof. intros H. unfold set_sub, modify, put_sub. by rewrite (alter_is_insert _ _ _ _ H). Qed.

Lemma put_sub_entry s i b nt : (i < length (ds_subs s))%nat -> ds_subs (put_sub s i b nt) !! i = Some b.
Proof. intros. simpl. by rewrite list_lookup_insert_eq. Qed.

Lemma put_sub_put_sub s i b b' nt nt' : put_sub (put_sub s i b nt) i b' nt' = put_sub s i b' nt'.
Proof. unfold put_sub. simpl. by rewrite list_insert_insert_eq. Qed.

Lemma inv_put_sub s i b nt :
  ds_inv s -> (has (b_flags b) DSF_IN_USE = true -> labelled (ds_store s) (b_owner b) /\ is_Some (b_regex b)) ->
  ds_inv (put_sub s i b nt) /\ abs (put_sub s i b nt) = abs s.
Proof.
  intros Hinv Hb. split; [|done]. constructor; simpl; [apply Hinv|by rewrite length_insert; apply Hinv|].
  intros j b' Hj Hu. rewrite list_lookup_insert in Hj. case_decide; [|by apply (di_subs _ Hinv j)]. simplify_eq. by apply Hb.
Qed.

Lemma initial_matches_run subp type_set src js : forall found s b re,
  (forall j, j ∈ js -> (j < length (ds_store s))%nat) -> ds_subs s !! subp = Some b -> b_regex b = Some re ->
  exists found' marks, initial_matches regexec js subp type_set src found s =
    Some (found', put_sub s subp (with_old_subs marks b) (ds_notified s)).
Proof.
  induction js as [|j js IH]; intros found s b re Hjs Hb Hre; cbn [initial_matches].
  - exists found, (b_old_subs b). unfold put_sub. rewrite list_insert_id by (by destruct b). by destruct s.
  - destruct (lookup_lt_is_Some_2 (ds_store s) j) as [d Hd]; [by apply Hjs; left|].
    rewrite (bind_run _ _ _ _ _ (entry_run _ _ _ Hd)).
    assert (Hnext : exists found' marks, initial_matches regexec js subp type_set src found s =
      Some (found', put_sub s subp (with_old_subs marks b) (ds_notified s))).
    { apply (IH found s b re); [|done..]. intros x Hx. apply Hjs. by right. }
    destruct (negb (in_use d)); [done|]. destruct (negb _); [done|].
    rewrite (bind_run _ _ _ _ _ (sub_run _ _ _ Hb)), (bind_run _ _ _ _ _ (check_sub_match_run regexec j d b re src s Hd Hre)).
    destruct (_ && _); [|done]. simpl. rewrite (bind_run _ _ _ _ _ (set_sub_run subp _ s b Hb)).
    assert (Hlt : (subp < length (ds_subs s))%nat) by (by eapply lookup_lt_Some).
    destruct (IH true (put_sub s subp (with_old_subs (Z.setbit (b_old_subs b) (Z.of_nat j)) b) (ds_notified s))
      (with_old_subs (Z.setbit (b_old_subs b) (Z.of_nat j)) b) re) as (f&mk&Hr); [|by apply put_sub_entry|done|].
    + intros x Hx. apply Hjs. by right.
    + exists f, mk. rewrite Hr, put_sub_put_sub. done.
Qed.

Lemma subscribe_slot_run m owner s :
  exists x, subscribe_slot m owner s = Some (x, s) /\
    forall i, x = inr i -> exists b, ds_subs s !! i = Some b /\ (has (b_flags b) DSF_IN_USE = true -> b_owner b = owner).
Proof.
  unfold subscribe_slot, lookup_sub, alloc_sub_slot, gets. mrun.
  destruct (find_index _ (ds_subs s)) as [i|] eqn:E.
  - apply find_index_lookup in E as (b&Hb&Hu). eexists. split; [done|]. intros j Hj.
    destruct (negb _); [done|]. simplify_eq. exists b. split; [done|]. intros _.
    apply andb_true_iff in Hu as [_ Hu]. by apply bool_decide_eq_true_1 in Hu.
  - clear E. destruct (find_index _ (ds_subs s)) as [i|] eqn:E; eexists; (split; [done|]); [|done].
    intros j [= <-]. apply find_index_lookup in E as (b&Hb&Hu). exists b. split; [done|].
    apply negb_true_iff in Hu. congruence.
Qed.

Lemma do_subscribe_run m ans s :
  ds_inv s -> request_ok s DS_SUBSCRIBE m ans ->
  exists r s', do_subscribe regcomp regexec m ans s = Some (r, s') /\ ds_inv s' /\ abs s' = abs s.
Proof.
  intros Hinv Hreq. pose proof (di_store _ Hinv) as Hst. unfold do_subscribe.
  destruct (source_run s (m_src m) (ro_src _ _ _ _ Hreq)) as (p&Hp&Hn). rewrite (bind_run _ _ _ _ _ Hp).
  destruct p as [q|]; [|by eexists _, s]. destruct Hn as (q'&dq&->&Hdq&Hlq&Hn).
  rewrite (bind_run _ _ _ _ _ (read_key_run _ _ _ Hdq)).
  destruct (subscribe_slot_run m (d_key dq) s) as (x&Hx&Hslot). rewrite (bind_run _ _ _ _ _ Hx).
  destruct x as [r|i]; [by eexists _, s|]. destruct (Hslot i eq_refl) as (b&Hb&Hown).
  destruct (ro_key _ _ _ _ Hreq) as [key Hkey]. rewrite (bind_run _ _ _ _ _ (get_key_name_run m ans s _ Hkey)).
  destruct key as [r|k]; [by eexists _, s|].
  rewrite (bind_run _ _ _ _ _ (set_sub_run i _ s b Hb)).
  assert (Hi : (i < length (ds_subs s))%nat) by (by eapply lookup_lt_Some).
  destruct (regcomp ($"^" ++ k ++ $"$")) as [re|] eqn:Hre.
  2:{ eexists _, _. split; [done|]. apply inv_put_sub; [done|]. simpl. intros Hu.
      destruct (ro_regex _ _ _ _ Hreq k i b (d_key dq)) as [? ?]; try done; [by rewrite (name_of_abs s Hst)|by apply Hown|].
      congruence. }
  rewrite (bind_run _ _ _ _ _ (set_sub_run i _ _ _ (put_sub_entry _ _ _ _ Hi))), put_sub_put_sub. cbn [b_flags b_owner b_regex b_old_subs].
  set (ts := if _ =? 0 then _ else _). set (b1 := Subscription (Z.lor DSF_IN_USE ts) _ _ 0).
  assert (Hlab : labelled (ds_store s) (d_key dq)) by (by eapply labelled_key, is_label_self).
  assert (Hfin : forall marks nt, ds_inv (put_sub s i (with_old_subs marks b1) nt) /\
    abs (put_sub s i (with_old_subs marks b1) nt) = abs s).
  { intros marks nt. apply inv_put_sub; [done|]. intros _. split; [done|by eexists]. }
  destruct (has (r_flags m) DSF_INITIAL).
  - destruct (initial_matches_run i ts (m_src m) (seq 0 NR_DS_KEYS) false (put_sub s i b1 (ds_notified s)) b1 re) as (f&mk&Hr).
    + intros j Hj%elem_of_seq. simpl. rewrite (so_length _ _ Hst). lia.
    + by apply put_sub_entry.
    + done.
    + rewrite put_sub_put_sub in Hr. rewrite bind_assoc, (bind_run _ _ _ _ _ Hr).
      destruct f; eexists _, _; (split; [done|]); [apply (Hfin mk (ds_notified s ++ [m_src m]))|apply Hfin].
  - eexists _, _. split; [done|]. apply (Hfin 0).
Qed.

Lemma do_check_run m ans s :
  ds_inv s -> request_ok s DS_CHECK m ans ->
  exists r s', do_check m ans s = Some (r, s') /\ ds_inv s' /\ abs s' = abs s.
Proof.
  intros Hinv Hreq. pose proof (di_store _ Hinv) as Hst. unfold do_check.
  destruct (source_run s (m_src m) (ro_src _ _ _ _ Hreq)) as (p&Hp&Hn). rewrite (bind_run _ _ _ _ _ Hp).
  destruct p as [q|]; [|by eexists _, s]. destruct Hn as (q'&dq&->&Hdq&Hlq&Hn).
  rewrite (bind_run _ _ _ _ _ (read_key_run _ _ _ Hdq)). unfold lookup_sub.
  rewrite (bind_run (gets _) _ s (find_index (fun b => has (b_flags b) DSF_IN_USE && bool_decide (b_owner b = d_key dq)) (ds_subs s)) s) by done.
  destruct (find_index _ (ds_subs s)) as [i|] eqn:E; [|by eexists _, s].
  apply find_index_lookup in E as (b&Hb&[Hu Ho%bool_decide_eq_true_1]%andb_true_iff).
  rewrite (bind_run _ _ _ _ _ (sub_run _ _ _ Hb)).
  destruct (find_index _ (seq 0 NR_DS_KEYS)) as [j|] eqn:Ej; [|by eexists _, s].
  apply find_index_lookup in Ej as (j'&Hj'&Hbit). apply lookup_seq in Hj' as [-> Hj]. simpl in Hbit.
  destruct (lookup_lt_is_Some_2 (ds_store s) j) as [d Hd]; [rewrite (so_length _ _ Hst); done|].
  rewrite (bind_run _ _ _ _ _ (send_key_run j d ans s Hd)).
  destruct (is_OK (a_copyto ans)) eqn:Hc; simpl; [|rewrite Hc; simpl; by eexists _, s].
  rewrite (bind_run _ _ _ _ _ (entry_run _ _ _ Hd)).
  assert (Hud : in_use d = true).
  { apply (ro_marked _ _ _ _ Hreq i b (d_key dq) j d); try done. by rewrite (name_of_abs s Hst). }
  destruct (proj1 (labelled_ep _ _) (so_owner _ _ Hst j d Hd Hud)) as [e He].
  rewrite (bind_run _ _ _ _ _ (ds_getprocep_run _ _ _ He)), (bind_run _ _ _ _ _ (set_sub_run i _ s b Hb)).
  eexists _, _. split; [done|]. apply inv_put_sub; [done|]. intros _. by apply (di_subs _ Hinv i b).
Qed.

(** ** All requests *)

(** The specification leaves the answer open. *)
Lemma unspecified (r : ds_result) s s' (o : option (ds_result * ds_state R)) :
  o = Some (r, s') -> ds_inv s' -> abs s' = abs s ->
  exists r1 s1, o = Some (r1, s1) /\ ds_inv s1 /\ abs s1 = snd (@None ds_result, abs s) /\
    forall r0, fst (@None ds_result, abs s) = Some r0 -> r1 = r0.
Proof. intros -> Hi Ha. by exists r, s'. Qed.

(** Every request that meets the conditions runs to its end, keeps the invariant
    of the tables, and changes the map and answers as the specification on maps
    says. *)
Lemma ds_step (s : ds_state R) (callnr : Z) (m : ds_msg) (ans : ds_answers) :
  ds_inv s -> request_ok s callnr m ans ->
  exists r s', ds_dispatch regcomp regexec callnr m ans s = Some (r, s') /\ ds_inv s' /\
    abs s' = snd (ds_spec callnr m ans (abs s)) /\
    forall r0, fst (ds_spec callnr m ans (abs s)) = Some r0 -> r = r0.
Proof.
  intros Hinv Hreq. unfold ds_dispatch, ds_spec.
  destruct (is_notify callnr) eqn:Hn; [rewrite !(proj2 (Z.eqb_neq _ _)) by (intros ->; done); by apply (unspecified (alone EINVAL m) s s)|].
  destruct (Z.eqb_spec callnr DS_PUBLISH) as [->|].
  { case_bool_decide as Ht; [|destruct (do_publish_untyped _ m ans s Hreq Ht) as [r Hr]; by apply (unspecified r s s)].
    pose proof (do_publish_run m ans s Hinv Hreq Ht) as Hr. destruct (spec_publish m ans (abs s)) as [r a].
    destruct Hr as (s'&Hr&Hi&Ha&_). exists (alone r m), s'. naive_solver. }
  destruct (Z.eqb_spec callnr DS_RETRIEVE) as [->|].
  { case_bool_decide as Ht; [|destruct (do_retrieve_untyped _ m ans s Hreq Ht) as [r Hr]; by apply (unspecified r s s)].
    rewrite (do_retrieve_run _ m ans s Hinv Hreq Ht). eexists _, s. naive_solver. }
  destruct (Z.eqb_spec callnr DS_RETRIEVE_LABEL) as [->|].
  { rewrite (do_retrieve_label_run m ans s Hinv). eexists _, s. naive_solver. }
  destruct (Z.eqb_spec callnr DS_DELETE) as [->|].
  { case_bool_decide as Ht; [|destruct (do_delete_untyped _ m ans s Hreq Ht) as [r Hr]; by apply (unspecified r s s)].
    pose proof (do_delete_run m ans s Hinv Hreq Ht) as Hr. destruct (spec_delete m ans (abs s)) as [r a].
    destruct Hr as (s'&Hr&Hi&Ha). exists (alone r m), s'. naive_solver. }
  destruct (Z.eqb_spec callnr DS_SUBSCRIBE) as [->|].
  { destruct (do_subscribe_run m ans s Hinv Hreq) as (r&s'&Hr&Hi&Ha). by apply (unspecified r s s'). }
  destruct (Z.eqb_spec callnr DS_CHECK) as [->|].
  { destruct (do_check_run m ans s Hinv Hreq) as (r&s'&Hr&Hi&Ha). by apply (unspecified r s s'). }
  unfold do_getsysinfo. destruct (callnr =? DS_GETSYSINFO); [|by apply (unspecified (alone EINVAL m) s s)].
  destruct (negb _); [by apply (unspecified (alone EINVAL m) s s)|].
  destruct (negb _); by eapply (unspecified _ s s).
Qed.
End Requests.
