(* ===== verification/DsInit.v ===== *)
(** The data store server after its initialisation, and its runs: the boot
    services are in the map, and every sequence of requests acts on the tables
    as it acts on the map. *)

From S2P Require Import Prelude KState KMain DataStore DsRefine DsCorrect DsPublish DsRequests.
Local Open Scope Z_scope.

Section Init.
Context {R : Type} (regcomp : list Z -> option R) (regexec : R -> list Z -> bool).
Implicit Types (s : ds_state R).

(** ** The boot services *)

Definition label_entry (l : list Z * Z) (d : data_store) : data_store :=
  DataStoreEntry (Z.lor DSF_IN_USE DSF_TYPE_LABEL) (fst l) ($"rs") (Mem (u32 (snd l)) (u_length (d_u d)) (u_reallen (d_u d))).

Definition unsubscribed s : Prop :=
  length (ds_subs s) = NR_DS_SUBS /\ forall i b, ds_subs s !! i = Some b -> has (b_flags b) DSF_IN_USE = false.

Lemma unsubscribed_update i d set s :
  unsubscribed s -> ds_store s !! i = Some d -> update_subscribers regexec i set s = Some (tt, s).
Proof.
  intros [Hl Hu] Hd.
  assert (Hf : Forall (fun b => interested regexec (ds_store s) d b = None) (ds_subs s)).
  { apply Forall_lookup. intros j b Hb. unfold interested. by rewrite (Hu j b Hb). }
  rewrite (update_subscribers_run regexec i d set s Hd Hl).
  - unfold updated. destruct s as [st bs h nt]. simpl in *. do 3 f_equal.
    + rewrite <- (list_fmap_id bs) at 2. apply list_fmap_ext. intros j b Hb. unfold update_sub.
      rewrite Forall_lookup in Hf. by rewrite (Hf j b Hb).
    + rewrite <- (app_nil_r nt) at 2. f_equal. clear Hl Hu. induction Hf as [|b bs Hb _ IH]; [done|].
      by rewrite omap_cons_eq, Hb.
  - apply Forall_lookup. intros j b Hb Hub. by rewrite (Hu j b Hb) in Hub.
Qed.

Lemma find_index_app_false {A} (f : A -> bool) l l' :
  Forall (fun x => f x = false) l -> find_index f (l ++ l') = (fun i => length l + i)%nat <$> find_index f l'.
Proof.
  induction 1 as [|x l Hx _ IH]; simpl; [by destruct (find_index f l')|]. rewrite Hx, IH.
  by destruct (find_index f l').
Qed.

Lemma map_service_run l e pre d rest bs h nt :
  Forall (fun d => in_use d = true) pre -> in_use d = false ->
  unsubscribed (DsState (pre ++ d :: rest) bs h nt) ->
  map_service regexec l e (DsState (pre ++ d :: rest) bs h nt) =
    Some (OK, DsState ((pre ++ [label_entry (l, e) d]) ++ rest) bs h nt).
Proof.
  intros Hpre Hd Hun. unfold map_service, alloc_data_slot.
  rewrite (bind_run (gets _) _ _ (Some (length pre)) (DsState (pre ++ d :: rest) bs h nt)).
  2:{ unfold gets. simpl. rewrite find_index_app_false.
      - simpl. rewrite Hd. simpl. by rewrite Nat.add_0_r.
      - eapply Forall_impl; [exact Hpre|]. intros x Hx. simpl. by rewrite Hx. }
  assert (Hset : forall x f (k' : unit -> ST (ds_state R) kres), (set_entry (length pre) f ≫= k') (DsState (pre ++ x :: rest) bs h nt) =
    k' tt (DsState (pre ++ f x :: rest) bs h nt)).
  { intros x f k'. apply (bind_run (A := unit)). unfold set_entry, modify. simpl. do 3 f_equal.
    rewrite alter_app_r_alt, Nat.sub_diag by lia. done. }
  rewrite !Hset. clear Hset.
  rewrite (bind_run _ _ _ _ _ (unsubscribed_update (length pre) (label_entry (l, e) d) true
    (DsState (pre ++ label_entry (l, e) d :: rest) bs h nt) Hun ltac:(by apply list_lookup_middle))).
  by rewrite <- app_assoc.
Qed.

Lemma map_services_run ps : forall pre rest bs h nt,
  Forall (fun d => in_use d = true) pre -> Forall (fun d => in_use d = false) rest -> (length ps <= length rest)%nat ->
  unsubscribed (DsState rest bs h nt) ->
  map_services regexec ps (DsState (pre ++ rest) bs h nt) =
    Some (tt, DsState (pre ++ zip_with label_entry ps rest ++ drop (length ps) rest) bs h nt).
Proof.
  induction ps as [|[l e] ps IH]; intros pre rest bs h nt Hpre Hrest Hl Hun; simpl; [done|].
  destruct rest as [|d rest]; simpl in Hl; [lia|]. inversion Hrest; subst.
  rewrite (bind_run _ _ _ _ _ (map_service_run l e pre d rest bs h nt Hpre ltac:(done) Hun)). simpl.
  rewrite IH; [by rewrite <- app_assoc| |done|lia|done].
  apply Forall_app. split; [done|]. by constructor.
Qed.

Definition services_ok (ps : list (list Z * Z)) : Prop :=
  (length ps <= NR_DS_KEYS)%nat /\ NoDup ps.*1 /\ NoDup (u32 <$> ps.*2) /\ $"rs" ∈ ps.*1.

Definition spec_init (ps : list (list Z * Z)) : gmap (Z * list Z) sentry :=
  list_to_map ((fun l => ((DSF_TYPE_LABEL, fst l), SEntry 0 ($"rs") (SNum (u32 (snd l))))) <$> ps).

(** The table after the boot services were mapped. *)
Definition boot_table (ps : list (list Z * Z)) (st : list data_store) : list data_store :=
  zip_with label_entry ps (with_flags 0 <$> st) ++ drop (length ps) (with_flags 0 <$> st).

Definition unsubscribe (b : subscription R) : subscription R := Subscription 0 (b_owner b) (b_regex b) (b_old_subs b).

Lemma init_run ps s :
  length (ds_store s) = NR_DS_KEYS -> length (ds_subs s) = NR_DS_SUBS -> (length ps <= NR_DS_KEYS)%nat ->
  sef_cb_init_fresh regexec ps s =
    Some (tt, DsState (boot_table ps (ds_store s)) (unsubscribe <$> ds_subs s) (ds_heap s) (ds_notified s)).
Proof.
  intros Hst Hsub Hl. unfold sef_cb_init_fresh.
  rewrite (bind_run _ _ s tt (DsState ([] ++ (with_flags 0 <$> ds_store s)) (unsubscribe <$> ds_subs s) (ds_heap s) (ds_notified s))) by done.
  rewrite map_services_run; [done|..].
  - constructor.
  - by apply Forall_fmap, Forall_true.
  - by rewrite length_fmap, Hst.
  - split; simpl; [by rewrite length_fmap|]. intros i b Hb. apply list_lookup_fmap_Some in Hb as (b0&->&_). done.
Qed.

Section Boot.
Context (ps : list (list Z * Z)) (st : list data_store) (h : gmap Z (list Z)).
Hypothesis Hps : services_ok ps.
Hypothesis Hlen : length st = NR_DS_KEYS.

Lemma boot_lookup i d : boot_table ps st !! i = Some d -> in_use d = true -> exists l d0, ps !! i = Some l /\ d = label_entry l d0.
Proof.
  intros Hd Hu. unfold boot_table in Hd. apply lookup_app_Some in Hd as [Hd|[_ Hd]].
  - apply lookup_zip_with_Some in Hd as (l&d0&->&Hl&_). by exists l, d0.
  - rewrite lookup_drop in Hd. apply list_lookup_fmap_Some in Hd as (d0&->&_). done.
Qed.

Lemma boot_entry i l : ps !! i = Some l -> exists d0, boot_table ps st !! i = Some (label_entry l d0).
Proof.
  intros Hl. destruct Hps as [Hle _].
  assert (Hi : (i < length ps)%nat) by (by eapply lookup_lt_Some).
  destruct (lookup_lt_is_Some_2 (with_flags 0 <$> st) i) as [d Hd]; [rewrite length_fmap; lia|].
  exists d. unfold boot_table. apply lookup_app_l_Some, lookup_zip_with_Some. by exists l, d.
Qed.

Lemma boot_store_ok : store_ok (boot_table ps st) h.
Proof.
  destruct Hps as (Hle&Hk&Hn&Hrs).
  constructor.
  - unfold boot_table. rewrite length_app, length_zip_with, length_drop, length_fmap. lia.
  - intros i d Hd Hu. destruct (boot_lookup i d Hd Hu) as (l&d0&_&->). apply label_type.
  - intros i j d d' Hd Hd' Hu Hu' _ Hkey.
    destruct (boot_lookup i d Hd Hu) as (l&d0&Hl&->), (boot_lookup j d' Hd' Hu') as (l'&d1&Hl'&->). simpl in Hkey.
    eapply (NoDup_lookup (ps.*1) i j (fst l)); [done|by rewrite list_lookup_fmap, Hl|by rewrite list_lookup_fmap, Hl', Hkey].
  - intros i j d d' n Hd Hd' Hln Hln'.
    assert (Hu : in_use d = true) by (unfold is_label in Hln; by destruct (in_use d)).
    assert (Hu' : in_use d' = true) by (unfold is_label in Hln'; by destruct (in_use d')).
    destruct (boot_lookup i d Hd Hu) as (l&d0&Hl&->), (boot_lookup j d' Hd' Hu') as (l'&d1&Hl'&->).
    unfold is_label in *. simpl in Hln, Hln'. apply Z.eqb_eq in Hln, Hln'.
    eapply (NoDup_lookup (u32 <$> ps.*2) i j n); [done|..]; rewrite !list_lookup_fmap, ?Hl, ?Hl'; simpl; by f_equal.
  - intros i d Hd Hu Hm. by destruct (boot_lookup i d Hd Hu) as (l&d0&_&->).
  - intros i j d d' Hd Hd' Hu Hu' Hm. by destruct (boot_lookup i d Hd Hu) as (l&d0&_&->).
  - intros i d Hd Hu. destruct (boot_lookup i d Hd Hu) as (l&d0&_&->). simpl.
    apply list_elem_of_lookup in Hrs as [j Hj]. apply list_lookup_fmap_Some in Hj as (lr&Hrs&Hj).
    destruct (boot_entry j lr Hj) as [dr Hdr]. exists j, (label_entry lr dr). split; [done|].
    unfold is_key. cbn [d_key label_entry]. rewrite <- Hrs. by rewrite bool_decide_eq_true_2.
Qed.

Lemma boot_abs bs nt : abs (DsState (boot_table ps st) bs h nt : ds_state R) = spec_init ps.
Proof.
  destruct Hps as (Hle&Hk&_). unfold spec_init, abs. simpl. f_equal. unfold boot_table. rewrite omap_app.
  replace (omap (view h) (drop _ _)) with (@nil ((Z * list Z) * sentry)).
  2:{ symmetry. rewrite <- fmap_drop. generalize (drop (length ps) st). intros l. induction l as [|d l IH]; [done|].
      rewrite fmap_cons, omap_cons_eq, IH. done. }
  rewrite app_nil_r. assert (Hls : (length ps <= length (with_flags 0 <$> st))%nat) by (rewrite length_fmap; lia).
  revert Hls. generalize (with_flags 0 <$> st). clear. induction ps as [|l ps' IH]; intros [|d ds] Hl; simpl in *; try done; [lia|].
  f_equal. apply IH. lia.
Qed.
End Boot.

Lemma init_inv ps s :
  length (ds_store s) = NR_DS_KEYS -> length (ds_subs s) = NR_DS_SUBS -> services_ok ps ->
  exists s', sef_cb_init_fresh regexec ps s = Some (tt, s') /\ ds_inv s' /\ abs s' = spec_init ps.
Proof.
  intros Hst Hsub Hps. eexists. split; [apply init_run; [done..|apply Hps]|]. split; [|by apply boot_abs].
  constructor; simpl; [by apply boot_store_ok|by rewrite length_fmap|].
  intros i b Hb. by apply list_lookup_fmap_Some in Hb as (b0&->&_).
Qed.

(** ** Runs *)

Definition request : Type := Z * ds_msg * ds_answers.

(** The main loop on a sequence of requests. *)
Fixpoint ds_main (qs : list request) : ST (ds_state R) (list ds_result) :=
  match qs with
  | [] => mret []
  | (callnr, m, ans) :: qs' => r ← ds_dispatch regcomp regexec callnr m ans; rs ← ds_main qs'; mret (r :: rs)
  end.

(** Each request meets the conditions in the state it finds. *)
Fixpoint requests_ok (qs : list request) s : Prop :=
  match qs with
  | [] => True
  | (callnr, m, ans) :: qs' => request_ok regcomp s callnr m ans /\
      forall r s', ds_dispatch regcomp regexec callnr m ans s = Some (r, s') -> requests_ok qs' s'
  end.

(** The same requests on the map. *)
Fixpoint spec_main (qs : list request) (a : gmap (Z * list Z) sentry) : list (option ds_result) * gmap (Z * list Z) sentry :=
  match qs with
  | [] => ([], a)
  | (callnr, m, ans) :: qs' =>
      let (r, a1) := ds_spec callnr m ans a in let (rs, a2) := spec_main qs' a1 in (r :: rs, a2)
  end.

(** An answer is the specified one, if one is specified. *)
Definition meets (r : ds_result) (o : option ds_result) : Prop := forall r0, o = Some r0 -> r = r0.

Lemma ds_main_refines qs : forall s,
  ds_inv s -> requests_ok qs s ->
  exists rs s', ds_main qs s = Some (rs, s') /\ ds_inv s' /\
    abs s' = snd (spec_main qs (abs s)) /\ Forall2 meets rs (fst (spec_main qs (abs s))).
Proof.
  induction qs as [|[[callnr m] ans] qs IH]; intros s Hinv Hq; simpl.
  - exists [], s. by split_and!.
  - destruct Hq as [Hr Hq]. destruct (ds_step regcomp regexec s callnr m ans Hinv Hr) as (r&s1&Hrun&Hinv1&Ha1&Hm).
    rewrite (bind_run _ _ _ _ _ Hrun). destruct (IH s1 Hinv1 (Hq r s1 Hrun)) as (rs&s2&Hrun2&Hinv2&Ha2&Hm2).
    rewrite (bind_run _ _ _ _ _ Hrun2). exists (r :: rs), s2. rewrite Ha1 in Ha2, Hm2.
    destruct (ds_spec callnr m ans (abs s)) as [o a1]. simpl in *. destruct (spec_main qs a1) as [os a2]. simpl in *.
    split_and!; try done. by constructor.
Qed.

(** C11: the data store server implements a map from types and keys to values. Initialised with the labels of the boot services, it serves every sequence of requests that meet the conditions without undefined behaviour or panic, its tables stay consistent, and the map they represent and the answers are those of the same requests on the abstract map. *)
Theorem ds_refines (ps : list (list Z * Z)) (qs : list request) (s : ds_state R) :
  length (ds_store s) = NR_DS_KEYS -> length (ds_subs s) = NR_DS_SUBS -> services_ok ps ->
  (forall s0, sef_cb_init_fresh regexec ps s = Some (tt, s0) -> requests_ok qs s0) ->
  exists s0 rs s', sef_cb_init_fresh regexec ps s = Some (tt, s0) /\ abs s0 = spec_init ps /\
    ds_main qs s0 = Some (rs, s') /\ ds_inv s' /\
    abs s' = snd (spec_main qs (spec_init ps)) /\ Forall2 meets rs (fst (spec_main qs (spec_init ps))).
Proof.
  intros Hst Hsub Hps Hq. destruct (init_inv ps s Hst Hsub Hps) as (s0&H0&Hinv&Ha).
  destruct (ds_main_refines qs s0 Hinv (Hq s0 H0)) as (rs&s'&Hrun&Hinv'&Ha'&Hm).
  exists s0, rs, s'. rewrite Ha in Ha', Hm. by split_and!.
Qed.
End Init.
