(* ===== verification/DsClient.v ===== *)
(** The clients of the data store server: lib/libsys/ds.c, composed with the
    server.  What a client publishes it finds again. *)

From S2P Require Import Prelude KState KMain KGrant DataStore DsRefine DsCorrect DsPublish DsRequests.
Local Open Scope Z_scope.

(** ** The library *)

(** What the system does during a call: the grants for the key and for the
    value, the results of the copies that the server makes through them, and
    the address that the server's [malloc] returns. *)
Record ds_env := DsEnv {
  g_key : Z;
  g_val : Z;
  c_key : kres;
  c_val : kres;
  c_to : kres;
  c_malloc : Z;
}.

Section Client.
Context {R : Type} (regcomp : list Z -> option R) (regexec : R -> list Z -> bool).
Context (self : Z) (env : ds_env).

Notation D := (ST (ds_state R)).

(** [memset(&m, 0, sizeof(m))], then the assigned fields. *)
Definition ds_request (flags val len : Z) : ds_msg := DsMsg self 0 0 flags val len 0.

(** The bytes that the server copies from [n] bytes at [mem]. *)
Definition copied (r : kres) (mem : list Z) (n : Z) : kres + list Z :=
  if is_OK r then inr (take (Z.to_nat (u32 n)) mem) else inl r.

(** [_taskcall]: the server runs; its reply is in the place of the message.
    The memory at [mem] is the one granted for the value. *)
Definition do_invoke_ds (m : ds_msg) (type : Z) (ds_name mem : list Z) : D ds_result :=
  let len_key := if (type =? DS_CHECK) || (type =? DS_RETRIEVE_LABEL) then DS_MAX_KEYLEN else Z.of_nat (length ds_name) + 1 in
  if negb (GRANT_VALID (g_key env)) then mret (alone ENOMEM m)
  else
    let m := DsMsg (m_src m) (g_key env) len_key (r_flags m) (val_in m) (val_len m) (r_owner m) in
    ds_dispatch regcomp regexec type m
      (DsAnswers (copied (c_key env) (ds_name ++ [0]) len_key) (copied (c_val env) mem (val_len m)) (c_malloc env) (c_to env)).

Definition ds_publish_label (ds_name : list Z) (endpoint flags : Z) : D kres :=
  r ← do_invoke_ds (ds_request (Z.lor DSF_TYPE_LABEL flags) endpoint 0) DS_PUBLISH ds_name []; mret (fst (fst r)).

Definition ds_publish_u32 (ds_name : list Z) (value flags : Z) : D kres :=
  r ← do_invoke_ds (ds_request (Z.lor DSF_TYPE_U32 flags) value 0) DS_PUBLISH ds_name []; mret (fst (fst r)).

Definition ds_publish_raw (ds_name vaddr : list Z) (length flags : Z) : D kres :=
  if negb (GRANT_VALID (g_val env)) then mret ENOMEM
  else r ← do_invoke_ds (ds_request flags (g_val env) length) DS_PUBLISH ds_name vaddr; mret (fst (fst r)).

(** [value] is the string without its NUL. *)
Definition ds_publish_str (ds_name value : list Z) (flags : Z) : D kres :=
  ds_publish_raw ds_name (value ++ [0]) (Z.of_nat (length value) + 1) (Z.lor flags DSF_TYPE_STR).

Definition ds_publish_mem (ds_name vaddr : list Z) (length flags : Z) : D kres :=
  ds_publish_raw ds_name vaddr length (Z.lor flags DSF_TYPE_MEM).

(** The bytes [bs] arrive at the start of a buffer. *)
Definition arrive (buf bs : list Z) : list Z := bs ++ drop (length bs) buf.

Definition ds_retrieve_label_name (ds_name : list Z) (endpoint : Z) : D (kres * list Z) :=
  r ← do_invoke_ds (ds_request 0 endpoint 0) DS_RETRIEVE_LABEL ds_name []; mret (fst (fst r), arrive ds_name (snd r)).

Definition ds_retrieve_label_endpt (ds_name : list Z) : D (kres * Z) :=
  r ← do_invoke_ds (ds_request DSF_TYPE_LABEL 0 0) DS_RETRIEVE ds_name []; mret (fst (fst r), key_grant (snd (fst r))).

Definition ds_retrieve_u32 (ds_name : list Z) : D (kres * Z) :=
  r ← do_invoke_ds (ds_request DSF_TYPE_U32 0 0) DS_RETRIEVE ds_name []; mret (fst (fst r), key_grant (snd (fst r))).

(** The result, the buffer and the length afterwards; [m_ds_reply.val_len] is
    the word of [m_ds_req.key_len]. *)
Definition ds_retrieve_raw (ds_name vaddr : list Z) (length flags : Z) : D (kres * list Z * Z) :=
  if negb (GRANT_VALID (g_val env)) then mret (ENOMEM, vaddr, length)
  else
    r ← do_invoke_ds (ds_request flags (g_val env) length) DS_RETRIEVE ds_name [];
    mret (fst (fst r), arrive vaddr (snd r), key_len (snd (fst r))).

(** Writing outside the buffer is undefined. *)
Definition ds_retrieve_str (ds_name value : list Z) (len_str : Z) : D (kres * list Z) :=
  r ← ds_retrieve_raw ds_name value (len_str + 1) DSF_TYPE_STR;
  let '(r, value, n) := r in
  if (0 <=? n - 1) && (n - 1 <? Z.of_nat (length value)) then mret (r, <[Z.to_nat (n - 1) := 0]> value) else ub.

Definition ds_retrieve_mem (ds_name vaddr : list Z) (length : Z) : D (kres * list Z * Z) :=
  ds_retrieve_raw ds_name vaddr length DSF_TYPE_MEM.

Definition ds_delete (type : Z) (ds_name : list Z) : D kres :=
  r ← do_invoke_ds (ds_request type 0 0) DS_DELETE ds_name []; mret (fst (fst r)).
Definition ds_delete_u32 : list Z -> D kres := ds_delete DSF_TYPE_U32.
Definition ds_delete_str : list Z -> D kres := ds_delete DSF_TYPE_STR.
Definition ds_delete_mem : list Z -> D kres := ds_delete DSF_TYPE_MEM.
Definition ds_delete_label : list Z -> D kres := ds_delete DSF_TYPE_LABEL.

Definition ds_subscribe (regexp : list Z) (flags : Z) : D kres :=
  r ← do_invoke_ds (ds_request flags 0 0) DS_SUBSCRIBE regexp []; mret (fst (fst r)).

(** The result, the key, the type and the owner. *)
Definition ds_check (ds_key : list Z) : D (kres * list Z * Z * Z) :=
  r ← do_invoke_ds (ds_request 0 0 0) DS_CHECK ds_key [];
  mret (fst (fst r), arrive ds_key (snd r), r_flags (snd (fst r)), r_owner (snd (fst r))).
End Client.

(** ** Round trip *)

(** A key without NULs that has room for one in [DS_MAX_KEYLEN] bytes. *)
Definition key_ok (k : list Z) : Prop :=
  Forall (fun c => c <> 0) k /\ (1 <= length k)%nat /\ Z.of_nat (length k) < DS_MAX_KEYLEN.

(** The system has grants and copies without error. *)
Definition env_ok (env : ds_env) : Prop :=
  GRANT_VALID (g_key env) = true /\ GRANT_VALID (g_val env) = true /\
  c_key env = OK /\ c_val env = OK /\ c_to env = OK /\ c_malloc env <> 0.

Lemma u32_small z : 0 <= z < 2 ^ 32 -> u32 z = z.
Proof. intros. unfold u32. by apply Z.mod_small. Qed.

Lemma existsb_nonul l : Forall (fun c => c <> 0) l -> existsb (Z.eqb 0) l = false.
Proof. induction 1 as [|c l Hc _ IH]; [done|]. cbn [existsb]. rewrite IH, orb_false_r. apply Z.eqb_neq. lia. Qed.

Lemma key_string_name k : key_ok k -> key_string (Z.of_nat (length k) + 1) (k ++ [0]) = Some k.
Proof.
  intros (Hnz&H1&Hl). unfold key_string, DS_MAX_KEYLEN in *. change (Z.to_nat (80 - 1)) with 79%nat.
  destruct (decide (length k = 79)%nat) as [E|E].
  - rewrite take_app_le, take_ge, existsb_nonul by (done || lia). by rewrite (proj2 (Z.leb_le _ _)) by lia.
  - rewrite take_ge by (rewrite length_app; simpl; lia). rewrite existsb_app, existsb_nonul by done.
    cbn. by rewrite cstr_app_nul.
Qed.

(** The bytes of a string and its NUL. *)
Lemma copied_string v : Z.of_nat (length v) + 1 < 2 ^ 32 -> copied OK (v ++ [0]) (Z.of_nat (length v) + 1) = inr (v ++ [0]).
Proof. intros H. unfold copied. rewrite u32_small by lia. simpl. by rewrite take_ge by (rewrite length_app; simpl; lia). Qed.

Section Roundtrip.
Context {R : Type} (regcomp : list Z -> option R) (regexec : R -> list Z -> bool).
Implicit Types (s : ds_state R).

Definition publish_msg (self : Z) (env : ds_env) (k : list Z) (fl n : Z) : ds_msg :=
  DsMsg self (g_key env) (Z.of_nat (length k) + 1) fl (g_val env) n 0.

Definition client_answers (env : ds_env) (k v : list Z) : ds_answers :=
  DsAnswers (inr (k ++ [0])) (inr v) (c_malloc env) (c_to env).

Lemma client_key self env k fl n v : key_ok k -> request_key (publish_msg self env k fl n) (client_answers env k v) = Some (inr k).
Proof.
  intros Hk. unfold request_key, publish_msg, client_answers. cbn [key_len a_key]. rewrite (key_string_name k Hk).
  destruct Hk as (_&H1&Hl). by rewrite (proj2 (Z.ltb_ge _ _)), (proj2 (Z.ltb_ge _ _)) by lia.
Qed.

Lemma str_type fl : typ fl = 0 -> typ (Z.lor fl DSF_TYPE_STR) = DSF_TYPE_STR /\ perm (Z.lor fl DSF_TYPE_STR) = perm fl.
Proof.
  unfold typ, perm. intros H. rewrite !Z.land_lor_distr_l, H. split; [done|].
  change (Z.land DSF_TYPE_STR DSF_MASK_PRIV) with 0. apply Z.lor_0_r.
Qed.

(** Nothing prevents [src], whose name is [n], from publishing the key [k]. *)
Definition may_publish (a : gmap (Z * list Z) sentry) (n k : list Z) (fl : Z) : Prop :=
  match a !! (DSF_TYPE_STR, k) with
  | None => size a <> NR_DS_KEYS
  | Some x => has fl DSF_OVERWRITE = true /\ (has (e_perm x) DSF_PRIV_OVERWRITE = false \/ e_owner x = n)
  end.

Lemma may_publish_refused s self n k fl m :
  spec_name (abs s) self = Some n -> typ fl = 0 -> may_publish (abs s) n k fl -> m_src m = self ->
  r_flags m = Z.lor fl DSF_TYPE_STR -> spec_refused m k (abs s) = None.
Proof.
  intros Hn Hfl Hmay Hsrc Hf. destruct (str_type fl Hfl) as [Hty Hpe]. unfold spec_refused, may_publish in *. rewrite Hf, Hty, Hsrc.
  destruct (abs s !! (DSF_TYPE_STR, k)) as [x|].
  - destruct Hmay as [Hov Hp].
    assert (has (Z.lor fl DSF_TYPE_STR) DSF_OVERWRITE = true) as ->.
    { unfold has. rewrite Z.land_lor_distr_l. change (Z.land DSF_TYPE_STR DSF_OVERWRITE) with 0. by rewrite Z.lor_0_r. }
    unfold spec_permitted. rewrite Hn. destruct Hp as [-> | ->]; [done|].
    by rewrite (bool_decide_eq_true_2 (n = n)), orb_true_r.
  - by rewrite (proj2 (Nat.eqb_neq _ _) Hmay).
Qed.

Lemma publish_str_run self env k v fl n s :
  ds_inv s -> self <> DS_PROC_NR -> spec_name (abs s) self = Some n -> key_ok k -> env_ok env ->
  Z.of_nat (length v) + 1 < 2 ^ 32 -> typ fl = 0 -> may_publish (abs s) n k fl ->
  (forall j e, ds_store s !! j = Some e -> in_use e = true -> is_mem (entry_type e) = true ->
    u_data (d_u e) <> c_malloc env) ->
  exists s', ds_publish_str regcomp regexec self env k v fl s = Some (OK, s') /\ ds_inv s' /\
    abs s' = <[(DSF_TYPE_STR, k) := SEntry (perm fl) n (SBytes (v ++ [0]))]> (abs s).
Proof.
  intros Hinv Hself Hn Hk (Hg1&Hg2&Hc1&Hc2&Hc3&Hmal) Hv Hfl Hmay Hfresh.
  destruct (str_type fl Hfl) as [Hty Hpe].
  set (m := publish_msg self env k (Z.lor fl DSF_TYPE_STR) (Z.of_nat (length v) + 1)).
  pose proof (client_key self env k (Z.lor fl DSF_TYPE_STR) (Z.of_nat (length v) + 1) (v ++ [0]) Hk) as Hkey. fold m in Hkey.
  assert (Hreq : request_ok regcomp s DS_PUBLISH m (client_answers env k (v ++ [0]))).
  { constructor; try done.
    - intros j e _ _ He Hu Hm Hp. by destruct (Hfresh j e He Hu Hm).
    - intros bs _ _ [= <-]. simpl. rewrite u32_small, length_app by lia. simpl. lia.
    - intros _ _. simpl. rewrite u32_small; lia.
    - intros k0 x _ _ _ _. split; [done|]. by eexists.
    - intros k0 k' _ _ Hl. change (r_flags m) with (Z.lor fl DSF_TYPE_STR) in Hl. by rewrite Hty in Hl. }
  assert (Hspec : spec_publish m (client_answers env k (v ++ [0])) (abs s) =
    (OK, <[(DSF_TYPE_STR, k) := SEntry (perm fl) n (SBytes (v ++ [0]))]> (abs s))).
  { unfold spec_publish. rewrite Hkey. change (m_src m) with self. rewrite Hn.
    assert (Hf : r_flags m = Z.lor fl DSF_TYPE_STR) by done. rewrite (may_publish_refused s self n k fl m) by done.
    unfold spec_value. rewrite Hf, Hty, Hpe. cbn [is_mem Z.eqb Pos.eqb DSF_TYPE_STR DSF_TYPE_LABEL DSF_TYPE_MEM orb andb].
    cbn [a_malloc a_val client_answers]. rewrite (proj2 (Z.eqb_neq _ _) Hmal). do 4 f_equal.
    rewrite length_app, Nat.add_1_r. cbn [Nat.pred]. by rewrite insert_app_r_alt, Nat.sub_diag by lia. }
  pose proof (do_publish_run regcomp regexec m _ s Hinv Hreq) as Hrun. rewrite Hspec in Hrun.
  destruct Hrun as (s'&Hrun&Hinv'&Ha'&_).
  { change (r_flags m) with (Z.lor fl DSF_TYPE_STR). rewrite Hty. unfold types. set_solver. }
  exists s'. split; [|done]. unfold ds_publish_str, ds_publish_raw, do_invoke_ds. rewrite Hg1, Hg2, Hc1, Hc2. simpl.
  rewrite !copied_string; [|done|destruct Hk as (_&_&?); unfold DS_MAX_KEYLEN in *; lia].
  unfold ds_dispatch. simpl. unfold m, publish_msg, client_answers in Hrun. rewrite (bind_run _ _ _ _ _ Hrun). done.
Qed.

Lemma retrieve_str_run self env k buf len v x s :
  ds_inv s -> self <> DS_PROC_NR -> key_ok k -> env_ok env -> Forall (fun c => c <> 0) v ->
  Z.of_nat (length v) + 1 < 2 ^ 32 -> 0 <= len < 2 ^ 32 - 1 -> len < Z.of_nat (length buf) ->
  abs s !! (DSF_TYPE_STR, k) = Some x -> has (e_perm x) DSF_PRIV_RETRIEVE = false -> e_val x = SBytes (v ++ [0]) ->
  exists buf', ds_retrieve_str regcomp regexec self env k buf len s = Some ((OK, buf'), s) /\
    length buf' = length buf /\ cstr buf' = take (Z.to_nat len) v.
Proof.
  intros Hinv Hself Hk (Hg1&Hg2&Hc1&Hc2&Hc3&_) Hnz Hv Hlen Hbuf Hx Hp Hval.
  set (m := publish_msg self env k DSF_TYPE_STR (len + 1)).
  assert (Hkey : request_key m (client_answers env k []) = Some (inr k)) by (by apply client_key).
  assert (Hreq : request_ok regcomp s DS_RETRIEVE m (client_answers env k [])).
  { by constructor. }
  pose proof (do_retrieve_run regcomp DS_RETRIEVE m _ s Hinv Hreq) as Hrun.
  unfold spec_retrieve in Hrun. rewrite Hkey in Hrun. change (typ (r_flags m)) with DSF_TYPE_STR in Hrun.
  rewrite Hx in Hrun. unfold spec_permitted in Hrun. rewrite Hp, Hval in Hrun. cbn [negb orb] in Hrun.
  change (a_copyto (client_answers env k [])) with (c_to env) in Hrun. rewrite Hc3 in Hrun. simpl in Hrun.
  specialize (Hrun ltac:(unfold types; set_solver)).
  rewrite length_app, (u32_small (len + 1)) in Hrun by lia. cbn [length] in Hrun.
  set (n := Z.min (len + 1) (Z.of_nat (length v + 1))) in Hrun.
  assert (Hn : Z.to_nat n = S (Z.to_nat (n - 1)) /\ 1 <= n /\ (Z.to_nat (n - 1) <= length v)%nat /\ n <= Z.of_nat (length buf)) by lia.
  destruct Hn as (Hn1&Hn2&Hn3&Hn4).
  set (b1 := arrive buf (take (Z.to_nat n) (v ++ [0]))).
  assert (Hb1 : length b1 = length buf).
  { unfold b1, arrive. rewrite length_app, length_drop, length_take, length_app. simpl. lia. }
  assert (Ht : take (Z.to_nat (n - 1)) b1 = take (Z.to_nat (n - 1)) v).
  { unfold b1, arrive. rewrite take_app_le, take_take by (rewrite length_take, length_app; simpl; lia).
    rewrite Nat.min_l by lia. by rewrite take_app_le by lia. }
  exists (<[Z.to_nat (n - 1) := 0]> b1). split_and!.
  - unfold ds_retrieve_str, ds_retrieve_raw, do_invoke_ds. rewrite Hg1, Hg2, Hc1, Hc2. simpl.
    rewrite copied_string by (destruct Hk as (_&_&?); unfold DS_MAX_KEYLEN in *; lia).
    unfold ds_dispatch. simpl. rewrite bind_assoc.
    replace (copied OK [] (len + 1)) with (@inr kres (list Z) []) by (unfold copied; simpl; by rewrite take_nil).
    unfold m, publish_msg, client_answers in Hrun. rewrite (bind_run _ _ _ _ _ Hrun). simpl. fold n b1.
    mrun. rewrite (proj2 (Z.leb_le _ _)), (proj2 (Z.ltb_lt _ _)) by (rewrite ?Hb1; lia). done.
  - by rewrite length_insert.
  - rewrite cstr_insert_end; rewrite ?Ht; [|lia|by apply Forall_take].
    destruct (decide (Z.to_nat len <= length v)%nat) as [Hle|Hgt]; [f_equal; lia|]. rewrite !take_ge by lia. done.
Qed.

(** C25: a string that a process publishes in the data store is there for every process. If nothing prevents the publication, [ds_publish_str] returns OK, and afterwards [ds_retrieve_str] of any process, unless the entry is private, returns OK and leaves in the buffer the string, cut to the length the caller asked for, whatever entry of that key was there before. *)
Theorem ds_str_roundtrip (s : ds_state R) (self : Z) (env : ds_env) (k v n : list Z) (fl : Z) :
  ds_inv s -> self <> DS_PROC_NR -> spec_name (abs s) self = Some n -> key_ok k -> env_ok env ->
  Forall (fun c => c <> 0) v -> Z.of_nat (length v) + 1 < 2 ^ 32 -> typ fl = 0 -> may_publish (abs s) n k fl ->
  (forall j e, ds_store s !! j = Some e -> in_use e = true -> is_mem (entry_type e) = true ->
    u_data (d_u e) <> c_malloc env) ->
  exists s', ds_publish_str regcomp regexec self env k v fl s = Some (OK, s') /\ ds_inv s' /\
    forall self' env' buf len,
      self' <> DS_PROC_NR -> env_ok env' -> has fl DSF_PRIV_RETRIEVE = false ->
      0 <= len < 2 ^ 32 - 1 -> len < Z.of_nat (length buf) ->
      exists buf', ds_retrieve_str regcomp regexec self' env' k buf len s' = Some ((OK, buf'), s') /\
        length buf' = length buf /\ cstr buf' = take (Z.to_nat len) v.
Proof.
  intros Hinv Hself Hn Hk Henv Hv Hl Hfl Hmay Hfresh.
  destruct (publish_str_run self env k v fl n s) as (s'&Hrun&Hinv'&Ha); [done..|]. exists s'. split_and!; [done..|].
  intros self' env' buf len Hself' Henv' Hp Hlen Hbuf.
  eapply (retrieve_str_run self' env' k buf len v (SEntry (perm fl) n (SBytes (v ++ [0])))); try done.
  - by rewrite Ha, lookup_insert_eq.
  - simpl. by rewrite <- has_perm by tauto.
Qed.
End Roundtrip.
