(* ===== verification/DsNotify.v ===== *)
(** Subscribers of the data store learn of publications; executions that the
    conditions on requests exclude. *)

From S2P Require Import Prelude KState KMain DataStore DsRefine DsCorrect DsPublish DsRequests DsInit DsClient.
Local Open Scope Z_scope.

Section Notify.
Context {R : Type} (regcomp : list Z -> option R) (regexec : R -> list Z -> bool).
Implicit Types (s : ds_state R).

(** ** Names and endpoints *)

Lemma ep_of_name st h c o : store_ok st h -> c <> DS_PROC_NR -> name_of st c = Some o -> ep_of st o = Some (u32 c).
Proof.
  intros Hst Hc Hn. unfold name_of in Hn. rewrite (proj2 (Z.eqb_neq _ _) Hc) in Hn.
  destruct (find_index (is_label (u32 c)) st) as [i|] eqn:E; [|done]. simpl in Hn.
  apply find_index_lookup in E as (d&Hd&Hl). rewrite Hd in Hn. injection Hn as <-.
  pose proof (so_type _ _ Hst i d Hd) as Ht. apply is_label_type in Hl as (Hu&Hty&Hnum); [|done].
  destruct (proj1 (labelled_ep st (d_key d))) as [e He].
  { exists i, d. split; [done|]. by apply is_key_type; [apply label_type|..]. }
  rewrite He. f_equal. unfold ep_of in He. destruct (find_index _ st) as [i'|] eqn:E; [|done]. simpl in He.
  apply find_index_lookup in E as (d'&Hd'&Hk). rewrite Hd' in He. injection He as <-.
  pose proof (so_type _ _ Hst i' d' Hd') as Ht'. apply is_key_type in Hk as (Hu'&Hty'&Hk'); [|apply label_type|done].
  assert (i = i') as -> by (apply (so_unique _ _ Hst i i' d d'); congruence). congruence.
Qed.

Lemma find_index_fmap {A B} (f : B -> bool) (g : A -> B) l : find_index f (g <$> l) = find_index (fun x => f (g x)) l.
Proof. induction l as [|x l IH]; [done|]. cbn. by rewrite IH. Qed.

Lemma find_index_feq {A} (f g : A -> bool) l : (forall x, f x = g x) -> find_index f l = find_index g l.
Proof. intros H. induction l as [|x l IH]; [done|]. simpl. by rewrite H, IH. Qed.

Lemma find_index_seq (f : nat -> bool) n i :
  (i < n)%nat -> (forall x, f x = (x =? i)%nat) -> find_index f (seq 0 n) = Some i.
Proof.
  intros Hi Hf. apply find_index_Some. exists i. split; [by rewrite lookup_seq_lt|]. split; [by rewrite Hf, Nat.eqb_refl|].
  intros j y Hj Hy. apply lookup_seq in Hy as [-> _]. rewrite Hf. apply Nat.eqb_neq. simpl. lia.
Qed.

Lemma name_of_label s c o :
  store_ok (ds_store s) (ds_heap s) -> c <> DS_PROC_NR ->
  (exists x, abs s !! (DSF_TYPE_LABEL, o) = Some x /\ e_val x = SNum (u32 c)) <-> name_of (ds_store s) c = Some o.
Proof.
  intros Hst Hc. rewrite (label_view s Hst). unfold name_of. rewrite (proj2 (Z.eqb_neq _ _) Hc). split.
  - intros (i&d&Hd&Hl&<-). destruct (find_index (is_label (u32 c)) (ds_store s)) as [i'|] eqn:E.
    + apply find_index_lookup in E as (d'&Hd'&Hl'). assert (i' = i) as -> by (by apply (so_number _ _ Hst i' i d' d (u32 c))).
      simpl. by rewrite Hd.
    + rewrite find_index_None in E. by rewrite (E i d Hd) in Hl.
  - destruct (find_index (is_label (u32 c)) (ds_store s)) as [i|] eqn:E; [|done]. simpl.
    apply find_index_lookup in E as (d&Hd&Hl). rewrite Hd. intros [= <-]. by exists i, d.
Qed.

Lemma spec_publish_labels m ans a o :
  typ (r_flags m) <> DSF_TYPE_LABEL -> snd (spec_publish m ans a) !! (DSF_TYPE_LABEL, o) = a !! (DSF_TYPE_LABEL, o).
Proof.
  intros Hnl. unfold spec_publish. destruct (spec_name _ _) as [n|]; [|done]. destruct (request_key _ _) as [key|]; [|done].
  destruct (_ && _); [done|]. destruct key as [|k]; [done|]. destruct (spec_refused _ _ _); [done|].
  destruct (spec_value _ _); [done|]. simpl. rewrite lookup_insert_ne; [done|]. congruence.
Qed.

(** ** Asking for what has changed *)

(** The subscription of the process [c]. *)
Definition subscribed s (c : Z) (j : nat) (b : subscription R) : Prop :=
  exists o, spec_name (abs s) c = Some o /\ ds_subs s !! j = Some b /\
    find_index (fun b => has (b_flags b) DSF_IN_USE && bool_decide (b_owner b = o)) (ds_subs s) = Some j.

Lemma check_start m ans s c j b :
  ds_inv s -> m_src m = c -> c <> DS_PROC_NR -> subscribed s c j b ->
  do_check m ans s =
    match find_index (fun i => Z.testbit (b_old_subs b) (Z.of_nat i)) (seq 0 NR_DS_KEYS) with
    | None => Some (alone ENOENT m, s)
    | Some i =>
        (rk ← send_key i ans;
         if negb (is_OK (fst rk)) then mret (alone (fst rk) m)
         else
           d ← entry i;
           entry_owner_e ← ds_getprocep (d_owner d);
           set_sub j (fun b => with_old_subs (Z.clearbit (b_old_subs b) (Z.of_nat i)) b);;
           mret (OK, with_flags_owner (Z.land (d_flags d) DSF_MASK_TYPE) entry_owner_e m, snd rk)) s
    end.
Proof.
  intros Hinv Hm Hc (o&Ho&Hb&Hj). pose proof (di_store _ Hinv) as Hst. unfold do_check. rewrite Hm.
  destruct (source_run s c Hc) as (p&Hp&Hn). rewrite (bind_run _ _ _ _ _ Hp).
  rewrite (name_of_abs s Hst) in Ho. destruct p as [q|]; [|congruence]. destruct Hn as (q'&dq&->&Hdq&_&Hn).
  rewrite (bind_run _ _ _ _ _ (read_key_run _ _ _ Hdq)). assert (d_key dq = o) as -> by congruence. unfold lookup_sub.
  rewrite (bind_run (gets _) _ s (Some j) s) by (unfold gets; by rewrite Hj).
  rewrite (bind_run _ _ _ _ _ (sub_run _ _ _ Hb)). by destruct (find_index _ (seq 0 NR_DS_KEYS)).
Qed.

(** One entry is marked: its key, type and owner are returned, and then there
    is nothing more. *)
Lemma check_one m ans s c j b i d e :
  ds_inv s -> m_src m = c -> c <> DS_PROC_NR -> subscribed s c j b -> a_copyto ans = OK ->
  b_old_subs b = Z.setbit 0 (Z.of_nat i) -> ds_store s !! i = Some d -> ep_of (ds_store s) (d_owner d) = Some e ->
  exists s', do_check m ans s = Some ((OK, with_flags_owner (typ (d_flags d)) e m, d_key d ++ [0]), s') /\
    do_check m ans s' = Some (alone ENOENT m, s').
Proof.
  intros Hinv Hm Hc Hs Hok Hbits Hd He. pose proof (di_store _ Hinv) as Hst.
  assert (Hi : (i < NR_DS_KEYS)%nat) by (rewrite <- (so_length _ _ Hst); by eapply lookup_lt_Some).
  rewrite (check_start m ans s c j b Hinv Hm Hc Hs), Hbits.
  rewrite (find_index_seq _ NR_DS_KEYS i Hi).
  2:{ intros x. rewrite Z.setbit_eqb, Z.bits_0, orb_false_r by lia.
      destruct (Z.eqb_spec (Z.of_nat i) (Z.of_nat x)), (Nat.eqb_spec x i); done || lia. }
  rewrite (bind_run _ _ _ _ _ (send_key_run i d ans s Hd)), Hok. cbn [is_OK negb fst snd].
  rewrite (bind_run _ _ _ _ _ (entry_run _ _ _ Hd)), (bind_run _ _ _ _ _ (ds_getprocep_run _ _ _ He)).
  destruct Hs as (o&Ho&Hb&Hj).
  assert (Hu : has (b_flags b) DSF_IN_USE = true /\ b_owner b = o).
  { apply find_index_lookup in Hj as (b'&Hb'&[H1 H2%bool_decide_eq_true_1]%andb_true_iff). naive_solver. }
  rewrite (bind_run _ _ _ _ _ (set_sub_run j _ s b Hb)). eexists. split; [done|].
  set (b' := with_old_subs _ b). set (s' := put_sub s j b' (ds_notified s)).
  destruct (inv_put_sub s j b' (ds_notified s) Hinv) as [Hinv' Ha].
  { intros _. apply (di_subs _ Hinv j b Hb). tauto. }
  fold s' in Hinv', Ha. rewrite (check_start m ans s' c j b' Hinv' Hm Hc).
  - destruct (find_index _ (seq 0 NR_DS_KEYS)) as [x|] eqn:E; [|done]. exfalso.
    apply find_index_lookup in E as (y&_&Hy). unfold b' in Hy. simpl in Hy.
    rewrite Hbits, Z.clearbit_eqb, Z.setbit_eqb, Z.bits_0, orb_false_r in Hy by lia.
    destruct (Z.of_nat i =? Z.of_nat y); done.
  - exists o. rewrite Ha. split_and!; [done|apply put_sub_entry; by eapply lookup_lt_Some|]. rewrite <- Hj. simpl.
    apply find_index_ext; [by rewrite length_insert|]. intros x y z Hy Hz. rewrite list_lookup_insert in Hy.
    case_decide as Hd'; [|by rewrite Hz in Hy; injection Hy as ->]. destruct Hd' as [<- _].
    injection Hy as <-. rewrite Hb in Hz. by injection Hz as <-.
Qed.

(** ** Publication and subscription *)

Lemma subscribed_updated i d s c j b :
  subscribed s c j b ->
  subscribed (updated regexec i d true s) c j (update_sub regexec (ds_store s) d (Z.of_nat i) true b).
Proof.
  intros (o&Ho&Hb&Hj). exists o. split_and!; [done|by simpl; rewrite list_lookup_fmap, Hb|]. simpl.
  rewrite find_index_fmap, <- Hj. apply find_index_feq. intros x. unfold update_sub. by destruct (interested _ _ _ _).
Qed.

Lemma published_types m k n u (b : subscription R) :
  has (b_flags b) (typ (r_flags m)) = true ->
  (Z.land (Z.land (b_flags b) (d_flags (published m k n u))) DSF_MASK_TYPE =? 0) = false.
Proof.
  intros H. rewrite <- Z.land_assoc. fold (typ (d_flags (published m k n u))). unfold published at 1. cbn [d_flags].
  rewrite published_typ. unfold has in H. by apply negb_true_iff in H.
Qed.

Lemma interested_published m k n u st h c o b re :
  store_ok st h -> c <> DS_PROC_NR -> name_of st c = Some o -> has (b_flags b) DSF_IN_USE = true -> b_owner b = o ->
  has (b_flags b) (typ (r_flags m)) = true -> b_regex b = Some re -> regexec re k = true ->
  has (r_flags m) DSF_PRIV_SUBSCRIBE = false ->
  interested regexec st (published m k n u) b = Some (u32 c).
Proof.
  intros Hst Hc Ho Hu Hb Ht Hre Hm Hp. unfold interested. rewrite Hu, published_types by done. cbn [andb negb].
  rewrite Hb, (ep_of_name st h c o Hst Hc Ho), Hre. simpl. rewrite Hm, andb_true_r. unfold permitted. cbn [d_flags published].
  rewrite has_perm, published_perm, <- has_perm, Hp by tauto. done.
Qed.

(** C26: a process that has subscribed to an entry learns of it. When an entry is published that is not private, the server notifies every process whose subscription has the entry's type and an expression that matches its key; if that process had no other news, [ds_check] gives it the key, the type and the publisher's endpoint, and then says that there is nothing more. *)
Theorem subscriber_informed (s s' : ds_state R) (m m1 m2 : ds_msg) (ans ans2 : ds_answers) (out k : list Z)
    (c : Z) (j : nat) (b : subscription R) (re : R) :
  ds_inv s -> request_ok regcomp s DS_PUBLISH m ans -> typ (r_flags m) ∈ types -> typ (r_flags m) <> DSF_TYPE_LABEL ->
  request_key m ans = Some (inr k) -> has (r_flags m) DSF_PRIV_SUBSCRIBE = false ->
  do_publish regexec m ans s = Some ((OK, m1, out), s') ->
  c <> DS_PROC_NR -> subscribed s c j b -> has (b_flags b) (typ (r_flags m)) = true ->
  b_regex b = Some re -> regexec re k = true -> b_old_subs b = 0 ->
  m_src m2 = c -> a_copyto ans2 = OK ->
  (exists es, ds_notified s' = ds_notified s ++ es /\ u32 c ∈ es) /\
  exists s2, do_check m2 ans2 s' =
      Some ((OK, with_flags_owner (typ (r_flags m)) (u32 (m_src m)) m2, k ++ [0]), s2) /\
    do_check m2 ans2 s2 = Some (alone ENOENT m2, s2).
Proof.
  intros Hinv Hreq Ht Hnl Hkey Hp Hrun Hc Hs Htb Hre Hmatch Hold Hm2 Hok.
  pose proof (do_publish_run regcomp regexec m ans s Hinv Hreq Ht) as Hpub.
  destruct (spec_publish m ans (abs s)) as [r a] eqn:Hspec. destruct Hpub as (s0&Hrun'&Hinv'&Ha'&Htold).
  rewrite Hrun in Hrun'. injection Hrun' as <- _ _ <-. destruct (Htold eq_refl) as (k'&n&Hk'&Hn&i&u&s1&->&Hi&Hsubs&Hnt).
  assert (k' = k) as -> by congruence. clear Hk' Htold Hrun.
  pose proof (di_store _ Hinv) as Hst. pose proof (di_store _ Hinv') as Hst'. simpl in Hst'.
  assert (Hsame : forall x o, x <> DS_PROC_NR -> spec_name (abs s) x = Some o -> name_of (ds_store s1) x = Some o).
  { intros x o Hx Ho. rewrite (name_of_abs s Hst) in Ho. apply (name_of_label s x o Hst Hx) in Ho as (y&Hy&Hv).
    apply (name_of_label s1 x o Hst' Hx). exists y. split; [|done]. change (abs s1) with (abs (updated regexec i (published m k n u) true s1)).
    rewrite Ha', <- Hy, <- (spec_publish_labels m ans (abs s) o Hnl), Hspec. done. }
  pose proof Hs as (o&Ho&Hb&Hj). pose proof (Hsame c o Hc Ho) as Hco.
  assert (Hub : has (b_flags b) DSF_IN_USE = true /\ b_owner b = o).
  { apply find_index_lookup in Hj as (b'&Hb'&[H1 H2%bool_decide_eq_true_1]%andb_true_iff). naive_solver. }
  assert (Hint : interested regexec (ds_store s1) (published m k n u) b = Some (u32 c)) by (by eapply interested_published; try apply Hub).
  split.
  - exists (omap (interested regexec (ds_store s1) (published m k n u)) (ds_subs s1)). simpl. rewrite Hnt. split; [done|].
    apply list_elem_of_omap. exists b. split; [|done]. rewrite Hsubs. by eapply list_elem_of_lookup_2.
  - assert (Hs1 : subscribed s1 c j b).
    { exists o. rewrite (name_of_abs s1 Hst'). by rewrite Hsubs. }
    pose proof (subscribed_updated i (published m k n u) s1 c j b Hs1) as Hs2. unfold update_sub in Hs2. rewrite Hint in Hs2.
    pose proof (check_one m2 ans2 _ c j _ i (published m k n u) (u32 (m_src m)) Hinv' Hm2 Hc Hs2 Hok) as Hone.
    cbn [d_flags d_key d_owner published] in Hone. rewrite published_typ in Hone. apply Hone.
    + simpl. by rewrite Hold.
    + done.
    + simpl. apply (ep_of_name _ _ _ _ Hst'); [apply Hreq|]. apply Hsame; [apply Hreq|done].
Qed.
End Notify.
