(* ===== verification/DsWitness.v ===== *)
(** The data store server on concrete requests: the theorems apply to it, and
    the conditions on requests are needed. *)

From S2P Require Import Prelude KState KMain DataStore DsRefine DsCorrect DsPublish DsRequests DsInit DsClient DsNotify.
Local Open Scope Z_scope.

(** ** A system *)

(** Regular expressions without special characters. *)
Definition literal_comp (re : list Z) : option (list Z) := if existsb (Z.eqb 42) re then None else Some re.
Definition literal_exec (re key : list Z) : bool := bool_decide (re = $"^" ++ key ++ $"$").

Definition boot_services : list (list Z * Z) :=
  [($"rs", 2); ($"ds", 6); ($"pm", 0); ($"vfs", 1); ($"tty", 5); ($"log", 12)].

Definition booted : ds_state (list Z) :=
  DsState (boot_table boot_services (ds_store (ds_zero (list Z)))) (unsubscribe <$> ds_subs (ds_zero (list Z))) ∅ [].

Lemma boot_services_ok : services_ok boot_services.
Proof. split_and!; [vm_compute; lia|..]; apply (bool_decide_unpack _); vm_compute; exact I. Qed.

Lemma booted_run : sef_cb_init_fresh literal_exec boot_services (ds_zero (list Z)) = Some (tt, booted).
Proof. apply init_run; [done..|]. apply boot_services_ok. Qed.

Lemma booted_inv : ds_inv booted.
Proof.
  destruct (init_inv literal_exec boot_services (ds_zero (list Z)) eq_refl eq_refl boot_services_ok) as (s&Hr&Hi&_).
  rewrite booted_run in Hr. by injection Hr as <-.
Qed.

Definition good_env : ds_env := DsEnv 3 4 OK OK OK 4096.

(** ** Runs *)

Definition qs_publish : request :=
  (DS_PUBLISH, DsMsg 5 3 6 DSF_TYPE_STR 4 3 0, DsAnswers (inr ($"state" ++ [0])) (inr ($"up" ++ [0])) 4096 OK).
Definition qs_retrieve : request :=
  (DS_RETRIEVE, DsMsg 1 3 6 DSF_TYPE_STR 4 80 0, DsAnswers (inr ($"state" ++ [0])) (inr []) 0 OK).
Definition qs_delete : request :=
  (DS_DELETE, DsMsg 5 3 6 DSF_TYPE_STR 0 0 0, DsAnswers (inr ($"state" ++ [0])) (inr []) 0 OK).

(** Requests for which few conditions matter. *)
Lemma plain_request (s : ds_state (list Z)) callnr m ans :
  m_src m <> DS_PROC_NR -> is_Some (request_key m ans) -> a_key ans <> inl OK /\ a_val ans <> inl OK ->
  callnr = DS_RETRIEVE \/ (callnr = DS_DELETE /\ typ (r_flags m) <> DSF_TYPE_LABEL) \/
    (callnr = DS_PUBLISH /\ is_mem (typ (r_flags m)) = false /\ typ (r_flags m) <> DSF_TYPE_LABEL) ->
  request_ok literal_comp s callnr m ans.
Proof.
  intros Hs Hk He Hc. constructor; [done..| | | | | | | |].
  - intros j e -> Hm. exfalso. destruct Hc as [[=]|[[[=] _]|(_&?&_)]]. congruence.
  - intros bs -> Hm. exfalso. destruct Hc as [[=]|[[[=] _]|(_&?&_)]]. congruence.
  - intros -> Ht. exfalso. destruct Hc as [[=]|[[[=] _]|(_&?&_)]]. by rewrite Ht in *.
  - intros k x -> _ _ Hm. exfalso. destruct Hc as [[=]|[[[=] _]|(_&?&_)]]. congruence.
  - intros k k' -> _ Ht. exfalso. destruct Hc as [[=]|[[[=] _]|(_&_&?)]]. congruence.
  - intros k k' x -> _ Ht. exfalso. destruct Hc as [[=]|[[_ ?]|([=]&_)]]. congruence.
  - intros k i b n ->. exfalso. by destruct Hc as [[=]|[[[=] _]|([=]&_)]].
  - intros i b n j d ->. exfalso. by destruct Hc as [[=]|[[[=] _]|([=]&_)]].
Qed.

Lemma booted_mem j e : ds_store booted !! j = Some e -> in_use e = true -> is_mem (entry_type e) = false.
Proof. intros He Hu. by destruct (boot_lookup boot_services _ j e He Hu) as (l&d0&_&->). Qed.

Lemma publish_witness : request_ok literal_comp booted DS_PUBLISH (snd (fst qs_publish)) (snd qs_publish).
Proof.
  constructor.
  - done.
  - by eexists.
  - done.
  - intros j e _ _ He Hu Hm. exfalso. rewrite (booted_mem j e He Hu) in Hm. discriminate.
  - by intros bs _ _ [= <-].
  - by intros _ _.
  - intros k x _ _ _ _. split; [done|]. by eexists.
  - intros k k' _ _ [=].
  - intros k k' x [=].
  - intros k i b n [=].
  - intros i b n j d [=].
Qed.

Lemma requests_witness : requests_ok literal_comp literal_exec [qs_publish; qs_retrieve; qs_delete] booted.
Proof.
  split; [apply publish_witness|]. intros r s _.
  split; [apply plain_request; [done|by eexists|done|by left]|]. intros r' s' _.
  split; [apply plain_request; [done|by eexists|done|by right; left]|done].
Qed.

Lemma ds_refines_witness :
  exists s0 rs s', sef_cb_init_fresh literal_exec boot_services (ds_zero (list Z)) = Some (tt, s0) /\
    abs s0 = spec_init boot_services /\
    ds_main literal_comp literal_exec [qs_publish; qs_retrieve; qs_delete] s0 = Some (rs, s') /\ ds_inv s' /\
    abs s' = snd (spec_main [qs_publish; qs_retrieve; qs_delete] (spec_init boot_services)) /\
    Forall2 meets rs (fst (spec_main [qs_publish; qs_retrieve; qs_delete] (spec_init boot_services))).
Proof.
  apply (ds_refines literal_comp literal_exec boot_services [qs_publish; qs_retrieve; qs_delete] (ds_zero (list Z))).
  - reflexivity.
  - reflexivity.
  - apply boot_services_ok.
  - intros s0 H0. rewrite booted_run in H0. injection H0 as <-. apply requests_witness.
Defined.

(** ** Round trip *)

Lemma ds_str_roundtrip_witness :
  exists s', ds_publish_str literal_comp literal_exec 5 good_env ($"state") ($"up") 0 booted = Some (OK, s') /\ ds_inv s' /\
    forall self' env' buf len,
      self' <> DS_PROC_NR -> env_ok env' -> has 0 DSF_PRIV_RETRIEVE = false ->
      0 <= len < 2 ^ 32 - 1 -> len < Z.of_nat (length buf) ->
      exists buf', ds_retrieve_str literal_comp literal_exec self' env' ($"state") buf len s' = Some ((OK, buf'), s') /\
        length buf' = length buf /\ cstr buf' = take (Z.to_nat len) ($"up").
Proof.
  apply (ds_str_roundtrip literal_comp literal_exec booted 5 good_env ($"state") ($"up") ($"tty") 0).
  - apply booted_inv.
  - done.
  - rewrite (name_of_abs booted (di_store _ booted_inv)). vm_compute. reflexivity.
  - split_and!; [|vm_compute; lia|done]. repeat (constructor; [done|]). constructor.
  - done.
  - repeat (constructor; [done|]). constructor.
  - done.
  - done.
  - unfold may_publish. replace (abs booted !! (DSF_TYPE_STR, $"state")) with (@None sentry) by (vm_compute; reflexivity).
    vm_compute. lia.
  - intros j e He Hu Hm. exfalso. rewrite (booted_mem j e He Hu) in Hm. discriminate.
Defined.

(** ** A subscriber *)

Definition sub_msg : ds_msg := DsMsg 1 3 6 DSF_TYPE_U32 0 0 0.
Definition key_answers : ds_answers := DsAnswers (inr ($"state" ++ [0])) (inr []) 0 OK.

Definition with_subscriber : ds_state (list Z) :=
  match do_subscribe literal_comp literal_exec sub_msg key_answers booted with Some (_, s) => s | None => booted end.

Lemma with_subscriber_inv : ds_inv with_subscriber.
Proof.
  destruct (do_subscribe_run literal_comp literal_exec sub_msg key_answers booted booted_inv) as (r&s&Hr&Hi&_).
  - constructor; [done|by eexists|done|intros ? ? [=]|intros ? [=]|intros [=]|intros ? ? [=]|intros ? ? [=]|intros ? ? ? [=]| |].
    + intros k i b n _ _ _ Hb Hu. apply list_lookup_fmap_Some in Hb as (b0&->&_). done.
    + intros ? ? ? ? ? [=].
  - unfold with_subscriber. by rewrite Hr.
Qed.

Definition pub_msg : ds_msg := DsMsg 5 3 6 DSF_TYPE_U32 7 0 0.

Definition after_publish : ds_state (list Z) :=
  match do_publish literal_exec pub_msg key_answers with_subscriber with Some (_, s) => s | None => booted end.

Lemma after_publish_run :
  do_publish literal_exec pub_msg key_answers with_subscriber = Some ((OK, pub_msg, []), after_publish).
Proof.
  assert (H : fst <$> do_publish literal_exec pub_msg key_answers with_subscriber = Some (OK, pub_msg, []))
    by (vm_compute; reflexivity).
  unfold after_publish. revert H. generalize (do_publish literal_exec pub_msg key_answers with_subscriber).
  intros [[r s]|]; simpl; [|discriminate]. by intros [= ->].
Qed.

Definition vfs_sub : subscription (list Z) := Subscription (Z.lor DSF_IN_USE DSF_TYPE_U32) ($"vfs") (Some ($"^state$")) 0.

Lemma vfs_subscribed : subscribed with_subscriber 1 0 vfs_sub.
Proof.
  exists ($"vfs"). split_and!.
  - rewrite (name_of_abs with_subscriber (di_store _ with_subscriber_inv)). vm_compute. reflexivity.
  - vm_compute. reflexivity.
  - vm_compute. reflexivity.
Qed.

Lemma subscriber_informed_witness :
  (exists es, ds_notified after_publish = ds_notified with_subscriber ++ es /\ u32 1 ∈ es) /\
  exists s2, do_check (DsMsg 1 3 80 0 0 0 0) key_answers after_publish =
      Some ((OK, with_flags_owner (typ (r_flags pub_msg)) (u32 (m_src pub_msg)) (DsMsg 1 3 80 0 0 0 0), $"state" ++ [0]), s2) /\
    do_check (DsMsg 1 3 80 0 0 0 0) key_answers s2 = Some (alone ENOENT (DsMsg 1 3 80 0 0 0 0), s2).
Proof.
  apply (subscriber_informed literal_comp literal_exec with_subscriber after_publish pub_msg pub_msg (DsMsg 1 3 80 0 0 0 0)
    key_answers key_answers [] ($"state") 1 0 vfs_sub ($"^state$")).
  - apply with_subscriber_inv.
  - apply plain_request; [discriminate|by eexists|done|right; right; split_and!; [reflexivity..|discriminate]].
  - apply (bool_decide_unpack _). vm_compute. exact I.
  - discriminate.
  - vm_compute. reflexivity.
  - reflexivity.
  - apply after_publish_run.
  - discriminate.
  - apply vfs_subscribed.
  - reflexivity.
  - reflexivity.
  - vm_compute. reflexivity.
  - reflexivity.
  - reflexivity.
  - reflexivity.
Defined.

(** ** Why the conditions are needed *)

Section Flaws.
Notation call f self env := (f _ literal_comp literal_exec self env).

Definition bad_copy : ds_env := DsEnv 3 4 OK EFAULT OK 8192.
Definition no_memory : ds_env := DsEnv 3 4 OK OK OK 0.

(** The copy of a new value of an existing entry fails: the block is freed, but
    the entry stays; reading it reads freed memory. *)
Lemma failed_overwrite_dangles :
  match (r1 ← call (@ds_publish_str) 5 good_env ($"state") ($"up") 0;
   r2 ← call (@ds_publish_str) 5 bad_copy ($"state") ($"ok") DSF_OVERWRITE;
   mret (r1, r2)) booted with
  | Some ((OK, EFAULT), s) => call (@ds_retrieve_str) 1 good_env ($"state") (zeros 80) 79 s = None
  | _ => False
  end.
Proof. vm_compute. reflexivity. Qed.

(** There is no memory for a longer value of an existing entry: the entry stays
    with no data; reading it reads at address 0. *)
Lemma overwrite_without_memory :
  match (r1 ← call (@ds_publish_str) 5 good_env ($"state") ($"up") 0;
   r2 ← call (@ds_publish_str) 5 no_memory ($"state") ($"running") DSF_OVERWRITE;
   mret (r1, r2)) booted with
  | Some ((OK, ENOMEM), s) => call (@ds_retrieve_str) 1 good_env ($"state") (zeros 80) 79 s = None
  | _ => False
  end.
Proof. vm_compute. reflexivity. Qed.

(** A string of length 0 has its NUL written before its block. *)
Lemma empty_string_underflows :
  call (@ds_publish_raw) 5 good_env ($"state") [] 0 DSF_TYPE_STR booted = None.
Proof. vm_compute. reflexivity. Qed.

(** The caller of [ds_retrieve_str] has its buffer overrun when there is no
    such entry, because the length of the key comes back as that of the value. *)
Lemma missing_string_overruns :
  call (@ds_retrieve_str) 5 good_env ($"a_key_that_is_not_there") (zeros 8) 7 booted = None.
Proof. vm_compute. reflexivity. Qed.

(** A label takes over the endpoint of a subscriber: the next publication that
    is of the subscribed type finds no process of the old name. *)
Lemma renamed_subscriber_panics :
  match (r1 ← call (@ds_subscribe) 1 good_env ($"state") DSF_TYPE_U32;
   r2 ← call (@ds_publish_label) 2 good_env ($"vfs2") 1 DSF_OVERWRITE;
   mret (r1, r2)) booted with
  | Some ((OK, OK), s) => call (@ds_publish_u32) 5 good_env ($"state") 7 0 s = None
  | _ => False
  end.
Proof. vm_compute. reflexivity. Qed.

(** A subscription is replaced by one that does not compile. *)
Lemma bad_expression_stays :
  match (r1 ← call (@ds_subscribe) 1 good_env ($"state") DSF_TYPE_U32;
   r2 ← call (@ds_subscribe) 1 good_env ($"*") (Z.lor DSF_TYPE_U32 DSF_OVERWRITE);
   mret (r1, r2)) booted with
  | Some ((OK, EINVAL), s) => call (@ds_publish_u32) 5 good_env ($"state") 7 0 s = None
  | _ => False
  end.
Proof. vm_compute. reflexivity. Qed.

(** An entry that becomes private keeps its mark for the others: when its owner
    has gone, a subscriber that asks for news makes the server panic. *)
Lemma private_entry_panics :
  match (r1 ← call (@ds_subscribe) 1 good_env ($"state") DSF_TYPE_U32;
   r2 ← call (@ds_publish_u32) 5 good_env ($"state") 7 0;
   r3 ← call (@ds_publish_u32) 5 good_env ($"state") 7 (Z.lor DSF_OVERWRITE DSF_PRIV_SUBSCRIBE);
   r4 ← call (@ds_delete_label) 2 good_env ($"tty");
   mret (r1, r2, r3, r4)) booted with
  | Some ((OK, OK, OK, OK), s) => call (@ds_check) 1 good_env (zeros 80) s = None
  | _ => False
  end.
Proof. vm_compute. reflexivity. Qed.
End Flaws.
