(* ===== verification/Sem.v ===== *)
(** The semaphores of the ipc server: servers/ipc/sem.c, check_perm of
    utility.c and the handling of semaphore calls in main.c.

    Arrays of waiting processes are blocks of memory: [zlist] and [nlist] are
    NULL ([None]) or the contents of the block, of which the counters say how
    much is in use. *)

From S2P Require Import Prelude.
Local Open Scope Z_scope.

Record waiting := Waiting { w_who : Z; w_val : Z }.

Record semaphore := Semaphore {
  semval : Z;
  semzcnt : Z;
  semncnt : Z;
  zlist : option (list waiting);
  nlist : option (list waiting);
  sempid : Z;
}.

Record ipc_perm := IpcPerm { p_uid : Z; p_gid : Z; p_cuid : Z; p_cgid : Z; p_mode : Z }.

Record semid_ds := SemidDs { sem_perm : ipc_perm; sem_nsems : Z; sem_otime : Z; sem_ctime : Z }.

Record sem_struct := SemStruct { sem_key : Z; sem_id : Z; sem_ds : semid_ds; sems : list semaphore }.

Definition with_semval (x : Z) (s : semaphore) : semaphore := Semaphore x (semzcnt s) (semncnt s) (zlist s) (nlist s) (sempid s).
Definition with_z (l : option (list waiting)) (n : Z) (s : semaphore) : semaphore := Semaphore (semval s) n (semncnt s) l (nlist s) (sempid s).
Definition with_n (l : option (list waiting)) (n : Z) (s : semaphore) : semaphore := Semaphore (semval s) (semzcnt s) n (zlist s) l (sempid s).
Definition with_sempid (x : Z) (s : semaphore) : semaphore := Semaphore (semval s) (semzcnt s) (semncnt s) (zlist s) (nlist s) x.
Definition with_sems (l : list semaphore) (s : sem_struct) : sem_struct := SemStruct (sem_key s) (sem_id s) (sem_ds s) l.
Definition with_ds (d : semid_ds) (s : sem_struct) : sem_struct := SemStruct (sem_key s) (sem_id s) d (sems s).
Definition with_ctime (t : Z) (d : semid_ds) : semid_ds := SemidDs (sem_perm d) (sem_nsems d) (sem_otime d) t.

Definition zero_semaphore : semaphore := Semaphore 0 0 0 None None 0.

(** The results of calls. *)
Inductive semcode :=
| OK | EPERM | ENOENT | EINTR | E2BIG | EAGAIN | ENOMEM | EACCES | EFAULT | EEXIST | EINVAL | EFBIG | ENOSPC | ERANGE | EIDRM.

#[export] Instance semcode_eq_dec : EqDecision semcode.
Proof. solve_decision. Defined.

(** What a call returns besides its result. *)
Inductive semret :=
| RetNone
| RetVal (x : Z)
| RetDs (d : semid_ds)
| RetAll (l : list Z).

Record reply := Reply { r_to : Z; r_type : semcode; r_data : semret }.

(** The list of sets ([sem_list_nr] is its length), the next identifier, the
    messages sent and the number of requests to the allocator. *)
Record sem_state := SemState {
  sem_list : list sem_struct;
  identifier : Z;
  outbox : list reply;
  allocs : nat;
}.

Definition with_sem_list (l : list sem_struct) (s : sem_state) : sem_state := SemState l (identifier s) (outbox s) (allocs s).
Definition with_outbox (o : list reply) (s : sem_state) : sem_state := SemState (sem_list s) (identifier s) o (allocs s).

Notation S_ := (ST sem_state).

(** Constants of the headers sys/ipc.h and sys/sem.h of the C library. *)
Class SemHeader := {
  IPC_PRIVATE : Z;
  IPC_CREAT : Z;
  IPC_EXCL : Z;
  IPC_NOWAIT : Z;
  SEMMSL : Z;
  SEMMNI : Z;
  SEMOPM : Z;
  SEMVMX : Z;
}.

(** Users and groups of processes as the process manager knows them, and the
    answers of the allocator. *)
Class SemEnv := {
  getnuid : Z -> Z;
  getngid : Z -> Z;
  getnpid : Z -> Z;
  alloc_ok : nat -> bool;
  junk : waiting;
}.

Section Sem.
Context `{SemHeader, SemEnv}.

(** A flag is set. *)
Definition isset (flags bits : Z) : bool := negb (Z.land flags bits =? 0).

(** Modes are octal in the source: 438 is 0666, 511 is 0777, 292 is 0444 and 146
    is 0222. *)
Definition check_perm (req : ipc_perm) (who mode : Z) : bool :=
  let uid := getnuid who in
  let gid := getngid who in
  let mode := Z.land mode 438 in
  if uid =? 0 then true
  else
    let '(req_mode, cur_mode) :=
      if (uid =? p_uid req) || (uid =? p_cuid req) then (Z.land (Z.shiftr (p_mode req) 6) 7, Z.land (Z.shiftr mode 6) 7)
      else if (gid =? p_gid req) || (gid =? p_cgid req) then (Z.land (Z.shiftr (p_mode req) 3) 7, Z.land (Z.shiftr mode 3) 7)
      else (Z.land (p_mode req) 7, Z.land mode 7) in
    negb (cur_mode =? 0) && (Z.land cur_mode req_mode =? cur_mode).

(** ** Looking up sets: the index in the list *)

Fixpoint find_index (f : sem_struct -> bool) (l : list sem_struct) (i : nat) : option nat :=
  match l with [] => None | s :: l' => if f s then Some i else find_index f l' (S i) end.

Definition sem_find_key (l : list sem_struct) (key : Z) : option nat :=
  if key =? IPC_PRIVATE then None else find_index (fun s => sem_key s =? key) l 0.

Definition sem_find_id (l : list sem_struct) (id : Z) : option nat := find_index (fun s => sem_id s =? id) l 0.

(** Access through an index that must be in range. *)
Definition the_set (i : nat) : S_ sem_struct := s ← get; opt (sem_list s !! i).
Definition put_set (i : nat) (x : sem_struct) : S_ unit :=
  modify (fun s => with_sem_list (<[i := x]> (sem_list s)) s).

Definition send (r : reply) : S_ unit := modify (fun s => with_outbox (outbox s ++ [r]) s).

(** Whether the allocator has memory. *)
Definition alloc : S_ bool :=
  n ← gets allocs; modify (fun s => SemState (sem_list s) (identifier s) (outbox s) (S n));; mret (alloc_ok n).

(** ** [do_semget] *)

Definition new_set (key id nsems flag who now : Z) : sem_struct :=
  SemStruct key id
    (SemidDs (IpcPerm (getnuid who) (getngid who) (getnuid who) (getngid who) (Z.land flag 511)) nsems 0 now)
    (replicate (Z.to_nat SEMMSL) zero_semaphore).

Definition do_semget (who now key nsems flag : Z) : S_ (semcode * semret) :=
  l ← gets sem_list;
  match sem_find_key l key with
  | Some i =>
      sem ← the_set i;
      if isset flag IPC_CREAT && isset flag IPC_EXCL then mret (EEXIST, RetNone)
      else if negb (check_perm (sem_perm (sem_ds sem)) who flag) then mret (EACCES, RetNone)
      else if sem_nsems (sem_ds sem) <? nsems then mret (EINVAL, RetNone)
      else mret (OK, RetVal (sem_id sem))
  | None =>
      if negb (isset flag IPC_CREAT) then mret (ENOENT, RetNone)
      else if (nsems <? 0) || (SEMMSL <=? nsems) then mret (EINVAL, RetNone)
      else if Z.of_nat (length l) =? SEMMNI then mret (ENOSPC, RetNone)
      else
        id ← gets identifier;
        modify (fun s => SemState (sem_list s ++ [new_set key id nsems flag who now]) (id + 1) (outbox s) (allocs s));;
        mret (OK, RetVal id)
  end.
(** ** Lists of waiting processes *)

(** [memmove(list+k, list+k+1, sizeof(struct waiting) * (cnt-k-1))]; a negative
    size is a huge one. *)
Definition take_out (k : nat) (cnt : Z) (l : list waiting) : option (list waiting) :=
  let n := cnt - Z.of_nat k - 1 in
  if (n <? 0) || (Z.of_nat (length l) <? cnt) then None
  else Some (take k l ++ take (Z.to_nat n) (drop (S k) l) ++ drop (Z.to_nat (cnt - 1)) l).

(** The first of the [n] entries from [k] on that satisfies [f]. *)
Fixpoint find_waiting (f : waiting -> bool) (l : option (list waiting)) (n k : nat) : option (option nat) :=
  match n with
  | O => Some None
  | S n' =>
      b ← l;
      w ← b !! k;
      if f w then Some (Some k) else find_waiting f l n' (S k)
  end.

(** [realloc] of a list to [n] entries. *)
Definition resize (n : nat) (l : option (list waiting)) : list waiting :=
  let b := default [] l in take n b ++ replicate (n - length b) junk.

(** The process is taken out of one list; it is told, if it was there. *)
Definition leave (pt : Z) (l : option (list waiting)) (cnt : Z) : option (option (list waiting) * Z * bool) :=
  k ← find_waiting (fun w => w_who w =? pt) l (Z.to_nat cnt) 0;
  match k with
  | None => Some (l, cnt, false)
  | Some k => b ← l; b' ← take_out k cnt b; Some (Some b', u16 (cnt - 1), true)
  end.

Definition remove_from (pt : Z) (s : semaphore) : option (semaphore * list reply) :=
  z ← leave pt (zlist s) (semzcnt s);
  let s := with_z z.1.1 z.1.2 s in
  n ← leave pt (nlist s) (semncnt s);
  let s := with_n n.1.1 n.1.2 s in
  Some (s, (if z.2 : bool then [Reply pt EINTR RetNone] else []) ++ (if n.2 : bool then [Reply pt EINTR RetNone] else [])).

(** The first [n] semaphores of a set, one after the other. *)
Fixpoint each_sem (f : semaphore -> option (semaphore * list reply)) (n : nat) (l : list semaphore) : option (list semaphore * list reply) :=
  match n, l with
  | O, _ => Some (l, [])
  | S _, [] => None
  | S n', s :: l' => x ← f s; y ← each_sem f n' l'; Some (x.1 :: y.1, x.2 ++ y.2)
  end.

Definition each_of (f : semaphore -> option (semaphore * list reply)) (x : sem_struct) : option (sem_struct * list reply) :=
  y ← each_sem f (Z.to_nat (sem_nsems (sem_ds x))) (sems x); Some (with_sems y.1 x, y.2).

Fixpoint each_set (f : semaphore -> option (semaphore * list reply)) (l : list sem_struct) : option (list sem_struct * list reply) :=
  match l with
  | [] => Some ([], [])
  | x :: l' => a ← each_of f x; b ← each_set f l'; Some (a.1 :: b.1, a.2 ++ b.2)
  end.

Definition all_sets (f : semaphore -> option (semaphore * list reply)) : S_ unit :=
  l ← gets sem_list;
  r ← opt (each_set f l);
  modify (fun s => with_outbox (outbox s ++ r.2) (with_sem_list r.1 s)).

Definition remove_process (pt : Z) : S_ unit := all_sets (remove_from pt).

(** ** Waking up processes *)

(** One semaphore: at most one process that waits for zero, and at most one
    that waits for an increase. *)
Definition update_zero (s : semaphore) : option (semaphore * list reply) :=
  match zlist s with
  | Some b =>
      if semval s =? 0
      then w ← b !! 0%nat; b' ← take_out 0 (semzcnt s) b; Some (with_z (Some b') (u16 (semzcnt s - 1)) s, [Reply (w_who w) OK RetNone])
      else Some (s, [])
  | None => Some (s, [])
  end.

Definition update_more (s : semaphore) : option (semaphore * list reply) :=
  match nlist s with
  | Some b =>
      k ← find_waiting (fun w => w_val w <=? semval s) (Some b) (Z.to_nat (semncnt s)) 0;
      match k with
      | Some k =>
          w ← b !! k;
          b' ← take_out k (semncnt s) b;
          Some (with_n (Some b') (u16 (semncnt s - 1)) (with_semval (u16 (semval s - w_val w)) s), [Reply (w_who w) OK RetNone])
      | None => Some (s, [])
      end
  | None => Some (s, [])
  end.

Definition update_semaphore (s : semaphore) : option (semaphore * list reply) :=
  z ← update_zero s; n ← update_more z.1; Some (n.1, z.2 ++ n.2).

Definition update_semaphores : S_ unit := all_sets update_semaphore.

(** ** Removing a set *)

(** The waiting processes of one semaphore. *)
Definition tell_removed (s : semaphore) : option (semaphore * list reply) :=
  z ← (if semzcnt s =? 0 then Some [] else b ← zlist s; if Z.of_nat (length b) <? semzcnt s then None else Some (take (Z.to_nat (semzcnt s)) b));
  n ← (if semncnt s =? 0 then Some [] else b ← nlist s; if Z.of_nat (length b) <? semncnt s then None else Some (take (Z.to_nat (semncnt s)) b));
  Some (s, (fun w => Reply (w_who w) EIDRM RetNone) <$> z ++ n).

(** The last set takes the place of the removed one. *)
Definition remove_semaphore (i : nat) : S_ unit :=
  modify (fun s =>
    let l := sem_list s in
    with_sem_list (take (length l - 1) (match last l with Some x => <[i := x]> l | None => l end)) s).

Definition remove_set (i : nat) : S_ unit :=
  x ← the_set i;
  r ← opt (each_of tell_removed x);
  modify (fun s => with_outbox (outbox s ++ r.2) s);;
  remove_semaphore i.
(** ** [do_semctl] *)

(** The command, with what is copied from the caller ([None] if that fails) or
    whether the copy to the caller succeeds. *)
Inductive semcmd :=
| IPC_STAT (ds : Z) (copied : bool)
| IPC_SET (tmp_ds : option semid_ds)
| IPC_RMID
| IPC_INFO
| SEM_INFO
| SEM_STAT
| GETALL (copied : bool)
| GETNCNT
| GETPID
| GETVAL
| GETZCNT
| SETALL (buf : option (nat -> Z))
| SETVAL (val : Z)
| OTHER_CMD.

Definition own_check (cmd : semcmd) : bool := match cmd with IPC_SET _ | IPC_RMID => true | _ => false end.

(** The creator, the owner and the superuser may change a set. *)
Definition is_owner (p : ipc_perm) (who : Z) : bool :=
  let uid := getnuid who in (uid =? p_cuid p) || (uid =? p_uid p) || (uid =? 0).

Definition set_perm (d tmp : semid_ds) (now : Z) : semid_ds :=
  let p := sem_perm d in
  let t := sem_perm tmp in
  SemidDs (IpcPerm (p_uid t) (p_gid t) (p_cuid p) (p_cgid p) (Z.lor (Z.ldiff (p_mode p) 511) (Z.land (p_mode t) 438)))
    (sem_nsems d) (sem_otime d) now.

(** A field of semaphore [num], which must be one of the set. *)
Definition get_sem (sem : sem_struct) (num : Z) (f : semaphore -> Z) : S_ (semcode * semret) :=
  if (num <? 0) || (sem_nsems (sem_ds sem) <=? num) then mret (EINVAL, RetNone)
  else s ← opt (sems sem !! Z.to_nat num); mret (OK, RetVal (f s)).

(** The values of a set from [i] on, up to the first that is too large. *)
Fixpoint set_all (n i : nat) (buf : nat -> Z) (l : list semaphore) : option (list semaphore * bool) :=
  match n, l with
  | O, _ => Some (l, true)
  | S n', s :: l' =>
      if SEMVMX <? buf i then Some (l, false) else r ← set_all n' (S i) buf l'; Some (with_semval (buf i) s :: r.1, r.2)
  | S _, [] => None
  end.

Definition do_semctl (who now id num : Z) (cmd : semcmd) : S_ (semcode * semret) :=
  l ← gets sem_list;
  match sem_find_id l id with
  | None => mret (EINVAL, RetNone)
  | Some i =>
      sem ← the_set i;
      let perm := sem_perm (sem_ds sem) in
      let nsems := sem_nsems (sem_ds sem) in
      if negb (own_check cmd) && negb (check_perm perm who 292) then mret (EACCES, RetNone)
      else
        match cmd with
        | IPC_STAT ds copied =>
            if ds =? 0 then mret (EFAULT, RetNone) else if copied then mret (OK, RetDs (sem_ds sem)) else mret (EINVAL, RetNone)
        | IPC_SET tmp_ds =>
            if negb (is_owner perm who) then mret (EPERM, RetNone)
            else
              match tmp_ds with
              | None => mret (EINVAL, RetNone)
              | Some tmp => put_set i (with_ds (set_perm (sem_ds sem) tmp now) sem);; mret (OK, RetNone)
              end
        | IPC_RMID => if negb (is_owner perm who) then mret (EPERM, RetNone) else remove_set i;; mret (OK, RetNone)
        | IPC_INFO | SEM_INFO | SEM_STAT => mret (OK, RetNone)
        | GETALL copied =>
            ok ← alloc;
            if negb ok then mret (ENOMEM, RetNone)
            else if negb copied then mret (EINVAL, RetNone)
            else mret (OK, RetAll (semval <$> take (Z.to_nat nsems) (sems sem)))
        | GETNCNT => get_sem sem num semncnt
        | GETPID => get_sem sem num sempid
        | GETVAL => get_sem sem num semval
        | GETZCNT => get_sem sem num semzcnt
        | SETALL buf =>
            ok ← alloc;
            if negb ok then mret (ENOMEM, RetNone)
            else
              match buf with
              | None => mret (EINVAL, RetNone)
              | Some b =>
                  r ← opt (set_all (Z.to_nat nsems) 0 b (sems sem));
                  put_set i (with_sems r.1 sem);;
                  update_semaphores;;
                  mret (if r.2 : bool then OK else ERANGE, RetNone)
              end
        | SETVAL val =>
            if negb (check_perm perm who 146) then mret (EACCES, RetNone)
            else if (num <? 0) || (nsems <=? num) then mret (EINVAL, RetNone)
            else if (val <? 0) || (SEMVMX <? val) then mret (ERANGE, RetNone)
            else
              s ← opt (sems sem !! Z.to_nat num);
              put_set i (with_ds (with_ctime now (sem_ds sem)) (with_sems (<[Z.to_nat num := with_semval val s]> (sems sem)) sem));;
              update_semaphores;;
              mret (OK, RetNone)
        | OTHER_CMD => mret (EINVAL, RetNone)
        end
  end.

(** ** [do_semop] *)

Record sembuf := Sembuf { sem_num : Z; sem_op : Z; sem_flg : Z }.

Fixpoint dup_num (l : list sembuf) : bool :=
  match l with [] => false | x :: l' => existsb (fun y => sem_num x =? sem_num y) l' || dup_num l' end.

(** An operation that would have to wait and must not. *)
Definition would_block (l : list semaphore) (o : sembuf) : option bool :=
  s ← l !! Z.to_nat (sem_num o);
  Some (isset (sem_flg o) IPC_NOWAIT &&
    (((sem_op o =? 0) && negb (semval s =? 0)) || ((sem_op o <? 0) && (semval s <? - sem_op o)))).

Fixpoint any_blocks (l : list semaphore) (ops : list sembuf) : option bool :=
  match ops with
  | [] => Some false
  | o :: ops' => b ← would_block l o; if b : bool then Some true else any_blocks l ops'
  end.

(** One operation: [None] ends the loop with the error [EACCES], [Some
    (true, n)] lets it go on, [Some (false, n)] ends it (the list of waiting
    processes is lost); [n] says whether the process waits. *)
Definition apply_op (i : nat) (who : Z) (o : sembuf) : S_ (option (bool * bool)) :=
  sem ← the_set i;
  let k := Z.to_nat (sem_num o) in
  s ← opt (sems sem !! k);
  let s := with_sempid (getnpid who) s in
  let store s := put_set i (with_sems (<[k := s]> (sems sem)) sem) in
  if 0 <? sem_op o then
    if negb (check_perm (sem_perm (sem_ds sem)) who 146) then store s;; mret None
    else store (with_semval (u16 (semval s + sem_op o)) s);; mret (Some (true, false))
  else if sem_op o =? 0 then
    if semval s =? 0 then store s;; mret (Some (true, false))
    else
      let cnt := u16 (semzcnt s + 1) in
      ok ← alloc;
      if negb ok then store (with_z None cnt s);; mret (Some (false, false))
      else
        let b := resize (Z.to_nat cnt) (zlist s) in
        (if cnt =? 0 then ub else mret tt);;
        store (with_z (Some (<[Z.to_nat (cnt - 1) := Waiting who (sem_op o)]> b)) cnt s);;
        mret (Some (true, true))
  else
    if negb (check_perm (sem_perm (sem_ds sem)) who 146) then store s;; mret None
    else if - sem_op o <=? semval s then store (with_semval (u16 (semval s + sem_op o)) s);; mret (Some (true, false))
    else
      let cnt := u16 (semncnt s + 1) in
      ok ← alloc;
      if negb ok then store (with_n None cnt s);; mret (Some (false, false))
      else
        let b := resize (Z.to_nat cnt) (nlist s) in
        (if cnt =? 0 then ub else mret tt);;
        store (with_n (Some (<[Z.to_nat (cnt - 1) := Waiting who (- sem_op o)]> b)) cnt s);;
        mret (Some (true, true)).

(** The result and whether the process waits. *)
Fixpoint apply_ops (i : nat) (who : Z) (ops : list sembuf) (no_reply : bool) : S_ (semcode * bool) :=
  match ops with
  | [] => mret (OK, no_reply)
  | o :: ops' =>
      r ← apply_op i who o;
      match r with
      | None => mret (EACCES, no_reply)
      | Some (go, waits) => if go : bool then apply_ops i who ops' (no_reply || waits) else mret (OK, no_reply || waits)
      end
  end.

(** Up to the label [out]. *)
Definition semop_result (who id nsops : Z) (ops : option (list sembuf)) : S_ (semcode * bool) :=
  l ← gets sem_list;
  match sem_find_id l id with
  | None => mret (EINVAL, false)
  | Some i =>
      sem ← the_set i;
      if nsops =? 0 then mret (EINVAL, false)
      else if SEMOPM <? nsops then mret (E2BIG, false)
      else if negb (check_perm (sem_perm (sem_ds sem)) who 292) then mret (EACCES, false)
      else
        ok ← alloc;
        if negb ok then mret (ENOMEM, false)
        else
          match ops with
          | None => mret (EINVAL, false)
          | Some sops =>
              if existsb (fun o => sem_nsems (sem_ds sem) <=? sem_num o) sops then mret (EFBIG, false)
              else if dup_num sops then mret (EINVAL, false)
              else
                b ← opt (any_blocks (sems sem) sops);
                if b : bool then mret (EAGAIN, false) else apply_ops i who sops false
          end
  end.

Definition do_semop (who id nsops : Z) (ops : option (list sembuf)) : S_ unit :=
  r ← semop_result who id nsops ops;
  (if negb (bool_decide (r.1 = OK)) || negb r.2 then send (Reply who r.1 RetNone) else mret tt);;
  update_semaphores.

(** ** Requests *)

(** The answers of [vm_query_exit]: the result and the process that is gone. *)
Fixpoint sem_process_vm_notify (answers : list (Z * Z)) : S_ unit :=
  match answers with
  | [] => mret tt
  | (r, pt) :: answers' =>
      if r <? 0 then mret tt
      else remove_process pt;; if r =? 0 then mret tt else sem_process_vm_notify answers'
  end.

Inductive sem_request :=
| Semget (key nsems flag : Z)
| Semctl (id num : Z) (cmd : semcmd)
| Semop (id nsops : Z) (ops : option (list sembuf))
| VmNotify (answers : list (Z * Z)).

(** One round of the main loop, at time [now]. *)
Definition sem_step (who now : Z) (req : sem_request) : S_ unit :=
  match req with
  | Semget key nsems flag => r ← do_semget who now key nsems flag; send (Reply who r.1 r.2)
  | Semctl id num cmd => r ← do_semctl who now id num cmd; send (Reply who r.1 r.2)
  | Semop id nsops ops => do_semop who id nsops ops
  | VmNotify answers => sem_process_vm_notify answers
  end.
End Sem.
