(* ===== verification/SemOk.v ===== *)
(** The lists of waiting processes of the semaphores: blocks of memory and
    counters behave like queues. *)

From S2P Require Import Prelude Sem.
Local Open Scope Z_scope.

(** ** Blocks of memory *)

Lemma find_waiting_spec f b n : forall k, (k + n <= length b)%nat ->
  find_waiting f (Some b) n k = Some ((fun x => (k + fst x)%nat) <$> list_find (fun w => f w = true) (take n (drop k b))).
Proof.
  induction n as [|n IH]; intros k Hk; cbn [find_waiting]; [done|].
  destruct (lookup_lt_is_Some_2 b k) as [w Hw]; [lia|]. rewrite (drop_S _ _ _ Hw). simpl. rewrite Hw. simpl.
  destruct (f w) eqn:Ef.
  - rewrite decide_True by done. simpl. do 2 f_equal. lia.
  - rewrite decide_False by congruence. rewrite IH by lia. f_equal.
    destruct (list_find _ (take n (drop (S k) b))) as [[j x]|]; simpl; [|done]. f_equal. lia.
Qed.

Lemma take_out_spec k cnt b :
  Z.of_nat k < cnt -> cnt <= Z.of_nat (length b) ->
  exists b', take_out k cnt b = Some b' /\ length b' = length b /\ take (Z.to_nat (cnt - 1)) b' = delete k (take (Z.to_nat cnt) b).
Proof.
  intros Hk Hc. unfold take_out. destruct (Z.ltb_spec (cnt - Z.of_nat k - 1) 0); [lia|]. destruct (Z.ltb_spec (Z.of_nat (length b)) cnt); [lia|].
  eexists. split; [done|]. split.
  - rewrite !length_app, !length_take, !length_drop. lia.
  - rewrite delete_take_drop, take_take, Nat.min_l by lia.
    rewrite !take_app. rewrite length_take, Nat.min_l by lia.
    rewrite firstn_all2 by (rewrite length_take; lia). f_equal.
    rewrite skipn_firstn_comm. rewrite length_take, length_drop.
    replace (Z.to_nat (cnt - 1) - k)%nat with (Z.to_nat (cnt - Z.of_nat k - 1)) by lia.
    rewrite take_take, Nat.min_id. rewrite (Nat.min_l (Z.to_nat (cnt - Z.of_nat k - 1))) by lia.
    rewrite Nat.sub_diag, take_0, app_nil_r. f_equal. lia.
Qed.

Section SemOk.
Context `{SemHeader, SemEnv}.

Lemma resize_spec b n w :
  (n <= length (default [] b))%nat ->
  take (S n) (<[n := w]> (resize (S n) b)) = take n (default [] b) ++ [w] /\ length (<[n := w]> (resize (S n) b)) = S n.
Proof.
  intros Hn. unfold resize. set (l := default [] b) in *. rewrite length_insert, length_app, length_take, length_replicate. split; [|lia].
  assert (length (take (S n) l ++ replicate (S n - length l) junk) = S n) as Hlen by (rewrite length_app, length_take, length_replicate; lia).
  rewrite firstn_all2 by (rewrite length_insert; lia). apply list_eq. intros i. destruct (decide (i = n)) as [->|Hi].
  - rewrite list_lookup_insert_eq by lia. rewrite lookup_app_r by (rewrite length_take; lia). rewrite length_take, Nat.min_l, Nat.sub_diag by lia. done.
  - rewrite list_lookup_insert_ne by done. destruct (decide (i < n)%nat) as [Hlt|Hge].
    + rewrite !lookup_app_l by (rewrite length_take; lia). by rewrite !lookup_take_lt by lia.
    + rewrite lookup_ge_None_2 by lia. symmetry. apply lookup_ge_None_2. rewrite length_app, length_take. simpl. lia.
Qed.
End SemOk.

(** ** Queues *)

Definition used (l : option (list waiting)) (cnt : Z) : list waiting := take (Z.to_nat cnt) (default [] l).

(** A list and its counter; the processes in it are different ones of [C]. *)
Record list_ok (C : gset Z) (l : option (list waiting)) (cnt : Z) : Prop := {
  lo_count : 0 <= cnt <= Z.of_nat (length (default [] l));
  lo_block : forall b, l = Some b -> b <> [];
  lo_nodup : NoDup (w_who <$> used l cnt);
  lo_who : forall w, w ∈ used l cnt -> w_who w ∈ C;
}.

Record sem_ok (C : gset Z) (s : semaphore) : Prop := {
  so_val : 0 <= semval s < 2 ^ 16;
  so_zero : list_ok C (zlist s) (semzcnt s);
  so_more : list_ok C (nlist s) (semncnt s);
  so_pos : forall w, w ∈ used (nlist s) (semncnt s) -> 0 < w_val w;
}.

(** A semaphore as its users see it: the value, the processes that wait for
    zero (if there ever was one), those that wait for an increase and the process
    of the last operation. *)
Record asem := ASem { a_val : Z; a_zero : option (list waiting); a_more : list waiting; a_pid : Z }.

Definition sem_abs (s : semaphore) : asem :=
  ASem (semval s) ((fun b => used (Some b) (semzcnt s)) <$> zlist s) (used (nlist s) (semncnt s)) (sempid s).

Lemma used_length C l cnt : list_ok C l cnt -> Z.of_nat (length (used l cnt)) = cnt.
Proof. intros [Hc _ _ _]. unfold used. rewrite length_take. lia. Qed.

Lemma count_bound C l cnt : list_ok C l cnt -> cnt <= Z.of_nat (size C).
Proof.
  intros Hl. rewrite <- (used_length _ _ _ Hl), <- (length_fmap w_who). apply Nat2Z.inj_le.
  rewrite <- (size_list_to_set (C := gset Z)) by apply Hl. apply subseteq_size. intros x Hx.
  apply elem_of_list_to_set, list_elem_of_fmap in Hx as (w & -> & Hw). by apply (lo_who _ _ _ Hl).
Qed.

Lemma u16_small z : 0 <= z < 2 ^ 16 -> u16 z = z.
Proof. intros Hz. unfold u16. by apply Z.mod_small. Qed.

(** Taking one out. *)
Lemma list_take C b cnt k :
  list_ok C (Some b) cnt -> Z.of_nat k < cnt -> exists b', take_out k cnt b = Some b' /\ list_ok C (Some b') (cnt - 1) /\
    used (Some b') (cnt - 1) = delete k (used (Some b) cnt).
Proof.
  intros [Hc Hb Hn Hw] Hk. simpl in Hc. destruct (take_out_spec k cnt b Hk) as (b' & E & Hlen & Ht); [lia|]. exists b'. split; [done|].
  assert (used (Some b') (cnt - 1) = delete k (used (Some b) cnt)) as Eu by exact Ht. split; [|done]. split.
  - simpl. rewrite Hlen. lia.
  - intros ? [= <-]. intros ->. simpl in Hlen. by destruct (Hb b eq_refl), b.
  - rewrite Eu. eapply sublist_NoDup; [exact Hn|]. apply fmap_sublist, sublist_delete.
  - intros w. rewrite Eu. intros Hin. apply Hw. eapply elem_of_sublist; [exact Hin|apply sublist_delete].
Qed.

(** ** Waking up *)

Definition a_wake_zero (a : asem) : option (asem * list reply) :=
  match a_zero a with
  | Some q =>
      if a_val a =? 0
      then match q with [] => None | w :: q' => Some (ASem (a_val a) (Some q') (a_more a) (a_pid a), [Reply (w_who w) OK RetNone]) end
      else Some (a, [])
  | None => Some (a, [])
  end.

(** The first process whose decrement fits. *)
Definition a_wake_more (a : asem) : asem * list reply :=
  match list_find (fun w => (w_val w <=? a_val a) = true) (a_more a) with
  | Some (k, w) => (ASem (a_val a - w_val w) (a_zero a) (delete k (a_more a)) (a_pid a), [Reply (w_who w) OK RetNone])
  | None => (a, [])
  end.

Definition a_wake (a : asem) : option (asem * list reply) :=
  z ← a_wake_zero a; let n := a_wake_more z.1 in Some (n.1, z.2 ++ n.2).

Lemma small_count C l cnt : list_ok C l cnt -> Z.of_nat (size C) < 2 ^ 16 -> 0 <= cnt < 2 ^ 16.
Proof. intros Hl HC. pose proof (count_bound _ _ _ Hl). destruct Hl as [? _ _ _]. lia. Qed.

Lemma update_zero_spec C s :
  sem_ok C s -> Z.of_nat (size C) < 2 ^ 16 ->
  match update_zero s with
  | Some (s', rs) => sem_ok C s' /\ a_wake_zero (sem_abs s) = Some (sem_abs s', rs)
  | None => a_wake_zero (sem_abs s) = None
  end.
Proof.
  intros [Hv Hz Hn Hp] HC. unfold update_zero, a_wake_zero, sem_abs. destruct s as [v zc nc zl nl pid]; simpl in *.
  destruct zl as [b|]; simpl; [|by split; [split|]]. destruct (Z.eqb_spec v 0) as [->|Hv0]; [|by split; [split|]].
  destruct b as [|w b]; [by destruct (lo_block _ _ _ Hz [])|]. simpl. destruct (decide (zc = 0)) as [->|Hzc].
  { done. }
  pose proof (lo_count _ _ _ Hz) as Hcnt. destruct (list_take C (w :: b) zc 0 Hz) as (b' & E & Hz' & Eu); [simpl in Hcnt; lia|]. rewrite E. simpl.
  pose proof (small_count _ _ _ Hz HC). rewrite u16_small by lia. split; [by split|]. rewrite Eu. unfold used. simpl.
  replace (Z.to_nat zc) with (S (Z.to_nat (zc - 1))) by lia. done.
Qed.

Lemma update_more_spec C s :
  sem_ok C s -> Z.of_nat (size C) < 2 ^ 16 ->
  exists s' rs, update_more s = Some (s', rs) /\ sem_ok C s' /\ a_wake_more (sem_abs s) = (sem_abs s', rs).
Proof.
  intros [Hv Hz Hn Hp] HC. unfold update_more, a_wake_more. destruct s as [v zc nc zl nl pid]; simpl in *.
  destruct nl as [b|]; simpl.
  2: { assert (nc = 0) as -> by (destruct Hn as [Hc _ _ _]; simpl in Hc; lia). eexists _, _. split; [done|]. split; [by split|done]. }
  pose proof (lo_count _ _ _ Hn) as Hcnt. simpl in Hcnt. rewrite find_waiting_spec by lia. rewrite drop_0. simpl.
  change (used (Some b) nc) with (take (Z.to_nat nc) b) in *.
  destruct (list_find (fun w => (w_val w <=? v) = true) (take (Z.to_nat nc) b)) as [[k w]|] eqn:Ef; simpl.
  2: { eexists _, _. split; [done|]. split; [by split|]. unfold sem_abs. simpl. done. }
  apply list_find_Some in Ef as (Hk & Hle & _). apply Z.leb_le in Hle.
  assert (Z.of_nat k < nc) as Hkn by (apply lookup_lt_Some in Hk; rewrite length_take in Hk; lia).
  rewrite lookup_take_lt in Hk by lia. rewrite Hk. simpl.
  destruct (list_take C b nc k Hn Hkn) as (b' & E & Hn' & Eu). rewrite E. simpl.
  pose proof (small_count _ _ _ Hn HC). rewrite u16_small by lia.
  assert (0 < w_val w) as Hpos by (apply Hp; apply (list_elem_of_lookup_2 _ k); rewrite lookup_take_lt by lia; done).
  rewrite u16_small by lia. eexists _, _. split; [done|]. split.
  - split; simpl; [lia|done|done|]. intros x. rewrite Eu. intros Hx. apply Hp. eapply elem_of_sublist; [exact Hx|apply sublist_delete].
  - unfold sem_abs. simpl. by rewrite Eu.
Qed.

Lemma update_spec C s :
  sem_ok C s -> Z.of_nat (size C) < 2 ^ 16 ->
  match update_semaphore s with
  | Some (s', rs) => sem_ok C s' /\ a_wake (sem_abs s) = Some (sem_abs s', rs)
  | None => a_wake (sem_abs s) = None
  end.
Proof.
  intros Hs HC. unfold update_semaphore, a_wake. pose proof (update_zero_spec C s Hs HC) as Hz.
  destruct (update_zero s) as [[s1 r1]|]; simpl; [|by rewrite Hz]. destruct Hz as [Hs1 ->]. simpl.
  destruct (update_more_spec C s1 Hs1 HC) as (s2 & r2 & -> & Hs2 & ->). done.
Qed.

(** ** Leaving a queue *)

Definition a_leave (pt : Z) (q : list waiting) : list waiting * bool :=
  match list_find (fun w => (w_who w =? pt) = true) q with Some (k, _) => (delete k q, true) | None => (q, false) end.

Lemma leave_spec C pt l cnt :
  list_ok C l cnt -> Z.of_nat (size C) < 2 ^ 16 ->
  exists l' cnt', leave pt l cnt = Some (l', cnt', snd (a_leave pt (used l cnt))) /\ list_ok C l' cnt' /\
    used l' cnt' = fst (a_leave pt (used l cnt)) /\ (l = None <-> l' = None).
Proof.
  intros Hl HC. unfold leave, a_leave. destruct l as [b|].
  2: { assert (cnt = 0) as -> by (destruct Hl as [Hc _ _ _]; simpl in Hc; lia). eexists _, _. done. }
  pose proof (lo_count _ _ _ Hl) as Hcnt. simpl in Hcnt. rewrite find_waiting_spec by lia. rewrite drop_0.
  change (used (Some b) cnt) with (take (Z.to_nat cnt) b) in *. simpl.
  destruct (list_find (fun w => (w_who w =? pt) = true) (take (Z.to_nat cnt) b)) as [[k w]|] eqn:Ef; simpl; [|by eexists _, _].
  apply list_find_Some in Ef as (Hk & _ & _).
  assert (Z.of_nat k < cnt) as Hkn by (apply lookup_lt_Some in Hk; rewrite length_take in Hk; lia).
  destruct (list_take C b cnt k Hl Hkn) as (b' & E & Hl' & Eu). rewrite E. simpl.
  pose proof (small_count _ _ _ Hl HC). rewrite u16_small by lia. by eexists _, _.
Qed.

Lemma a_leave_sub pt q : fst (a_leave pt q) `sublist_of` q.
Proof. unfold a_leave. destruct (list_find _ q) as [[k w]|]; simpl; [apply sublist_delete|done]. Qed.

Definition a_remove (pt : Z) (a : asem) : asem * list reply :=
  let z := a_leave pt (default [] (a_zero a)) in
  let n := a_leave pt (a_more a) in
  (ASem (a_val a) ((fun _ => fst z) <$> a_zero a) (fst n) (a_pid a),
   (if snd z then [Reply pt EINTR RetNone] else []) ++ (if snd n then [Reply pt EINTR RetNone] else [])).

Lemma remove_spec C pt s :
  sem_ok C s -> Z.of_nat (size C) < 2 ^ 16 ->
  exists s' rs, remove_from pt s = Some (s', rs) /\ sem_ok C s' /\ a_remove pt (sem_abs s) = (sem_abs s', rs).
Proof.
  intros [Hv Hz Hn Hp] HC. unfold remove_from. destruct s as [v zc nc zl nl pid]; simpl in *.
  destruct (leave_spec C pt zl zc Hz HC) as (zl' & zc' & -> & Hz' & Ez & En). simpl.
  destruct (leave_spec C pt nl nc Hn HC) as (nl' & nc' & -> & Hn' & Eu & _). simpl. eexists _, _. split; [done|]. split.
  - split; simpl; [done|done|done|]. intros w. rewrite Eu. intros Hw. apply Hp. eapply elem_of_sublist; [exact Hw|apply a_leave_sub].
  - unfold a_remove, sem_abs. simpl. rewrite Eu. destruct zl as [b|]; simpl.
    + destruct zl' as [b'|]; [|discriminate (proj2 En eq_refl)]. simpl. by rewrite Ez.
    + destruct zl' as [b'|]; [discriminate (proj1 En eq_refl)|]. simpl. unfold used. simpl. by rewrite take_nil.
Qed.

(** ** Joining a queue *)

Section Join.
Context `{SemHeader, SemEnv}.

Lemma join_spec C l cnt w :
  list_ok C l cnt -> cnt + 1 < 2 ^ 16 -> w_who w ∈ C -> w_who w ∉ w_who <$> used l cnt ->
  let l' := Some (<[Z.to_nat (u16 (cnt + 1) - 1) := w]> (resize (Z.to_nat (u16 (cnt + 1))) l)) in
  (u16 (cnt + 1) =? 0) = false /\ list_ok C l' (u16 (cnt + 1)) /\ used l' (u16 (cnt + 1)) = used l cnt ++ [w].
Proof.
  intros Hl Hc Hw Hn l'. pose proof (lo_count _ _ _ Hl) as Hcnt. unfold l'. rewrite u16_small by lia.
  replace (Z.to_nat (cnt + 1 - 1)) with (Z.to_nat cnt) by lia. replace (Z.to_nat (cnt + 1)) with (S (Z.to_nat cnt)) by lia.
  destruct (resize_spec l (Z.to_nat cnt) w) as [Et Elen]; [lia|]. split; [apply Z.eqb_neq; lia|].
  set (b := <[Z.to_nat cnt := w]> (resize (S (Z.to_nat cnt)) l)) in *.
  assert (used (Some b) (cnt + 1) = used l cnt ++ [w]) as Eu.
  { unfold used. simpl. replace (Z.to_nat (cnt + 1)) with (S (Z.to_nat cnt)) by lia. exact Et. }
  split; [|done]. split.
  - simpl. rewrite Elen. lia.
  - intros ? [= <-] E. by rewrite E in Elen.
  - rewrite Eu, fmap_app. apply NoDup_app. split; [apply Hl|]. split; [|apply NoDup_singleton]. intros x Hx ->%list_elem_of_singleton. done.
  - intros x. rewrite Eu. intros [Hx| ->%list_elem_of_singleton]%elem_of_app; [by apply (lo_who _ _ _ Hl)|done].
Qed.
End Join.
