(* ===== verification/SemSpec.v ===== *)
(** What the semaphore calls promise: sets of semaphores with queues of waiting
    processes, and the calls as functions on them. *)

From S2P Require Import Prelude Sem SemOk.
Local Open Scope Z_scope.

Record aset := ASet { as_key : Z; as_id : Z; as_ds : semid_ds; as_sems : list asem }.

Definition with_as_sems (l : list asem) (x : aset) : aset := ASet (as_key x) (as_id x) (as_ds x) l.
Definition with_as_ds (d : semid_ds) (x : aset) : aset := ASet (as_key x) (as_id x) d (as_sems x).
Definition with_a_val (v : Z) (a : asem) : asem := ASem v (a_zero a) (a_more a) (a_pid a).

Record astate := AState { a_sets : list aset; a_next : Z }.

Definition with_a_sets (l : list aset) (s : astate) : astate := AState l (a_next s).

(** A result, and the answers to other processes before it. *)
Definition a_result : Type := option (astate * list reply * (semcode * semret)).

(** One function for all semaphores in turn. *)
Fixpoint a_each (g : asem -> option (asem * list reply)) (l : list asem) : option (list asem * list reply) :=
  match l with
  | [] => Some ([], [])
  | a :: l' => x ← g a; y ← a_each g l'; Some (x.1 :: y.1, x.2 ++ y.2)
  end.

Fixpoint a_each_set (g : asem -> option (asem * list reply)) (l : list aset) : option (list aset * list reply) :=
  match l with
  | [] => Some ([], [])
  | x :: l' => a ← a_each g (as_sems x); b ← a_each_set g l'; Some (with_as_sems a.1 x :: b.1, a.2 ++ b.2)
  end.

Definition a_wake_all (s : astate) : option (astate * list reply) :=
  r ← a_each_set a_wake (a_sets s); Some (with_a_sets r.1 s, r.2).

Definition a_remove_process (pt : Z) (s : astate) : option (astate * list reply) :=
  r ← a_each_set (fun a => Some (a_remove pt a)) (a_sets s); Some (with_a_sets r.1 s, r.2).

Section Spec.
Context `{SemHeader, SemEnv}.

Definition a_find (f : aset -> bool) (l : list aset) : option (nat * aset) := list_find (fun x => f x = true) l.

Definition a_new (key id nsems flag who now : Z) : aset :=
  ASet key id (SemidDs (IpcPerm (getnuid who) (getngid who) (getnuid who) (getngid who) (Z.land flag 511)) nsems 0 now)
    (replicate (Z.to_nat nsems) (ASem 0 None [] 0)).

Definition a_semget (who now key nsems flag : Z) (s : astate) : astate * (semcode * semret) :=
  match (if key =? IPC_PRIVATE then None else a_find (fun x => as_key x =? key) (a_sets s)) with
  | Some (_, x) =>
      (s, if isset flag IPC_CREAT && isset flag IPC_EXCL then (EEXIST, RetNone)
          else if negb (check_perm (sem_perm (as_ds x)) who flag) then (EACCES, RetNone)
          else if sem_nsems (as_ds x) <? nsems then (EINVAL, RetNone)
          else (OK, RetVal (as_id x)))
  | None =>
      if negb (isset flag IPC_CREAT) then (s, (ENOENT, RetNone))
      else if (nsems <? 0) || (SEMMSL <=? nsems) then (s, (EINVAL, RetNone))
      else if Z.of_nat (length (a_sets s)) =? SEMMNI then (s, (ENOSPC, RetNone))
      else (AState (a_sets s ++ [a_new key (a_next s) nsems flag who now]) (a_next s + 1), (OK, RetVal (a_next s)))
  end.

(** Every process that waits at a set that is removed is told. *)
Definition a_tell (a : asem) : list reply :=
  (fun w => Reply (w_who w) EIDRM RetNone) <$> default [] (a_zero a) ++ a_more a.

(** The last set takes the place of the removed one. *)
Definition a_drop (i : nat) (l : list aset) : list aset :=
  take (length l - 1) (match last l with Some x => <[i := x]> l | None => l end).

Definition a_get (x : aset) (num : Z) (f : asem -> Z) : semcode * semret :=
  if num <? 0 then (EINVAL, RetNone)
  else match as_sems x !! Z.to_nat num with Some a => (OK, RetVal (f a)) | None => (EINVAL, RetNone) end.

(** The values up to the first that is too large. *)
Fixpoint a_set_all (i : nat) (buf : nat -> Z) (l : list asem) : list asem * bool :=
  match l with
  | [] => (l, true)
  | a :: l' => if SEMVMX <? buf i then (l, false) else let r := a_set_all (S i) buf l' in (with_a_val (buf i) a :: r.1, r.2)
  end.

(** A change of set [i], and who it wakes up. *)
Definition a_change (i : nat) (x : aset) (r : semcode) (s : astate) : a_result :=
  w ← a_wake_all (with_a_sets (<[i := x]> (a_sets s)) s); Some (w.1, w.2, (r, RetNone)).

Definition a_semctl (who now id num : Z) (cmd : semcmd) (s : astate) : a_result :=
  match a_find (fun x => as_id x =? id) (a_sets s) with
  | None => Some (s, [], (EINVAL, RetNone))
  | Some (i, x) =>
      let perm := sem_perm (as_ds x) in
      let say r := Some (s, [], r) in
      if negb (own_check cmd) && negb (check_perm perm who 292) then say (EACCES, RetNone)
      else
        match cmd with
        | IPC_STAT ds copied => say (if ds =? 0 then (EFAULT, RetNone) else if copied then (OK, RetDs (as_ds x)) else (EINVAL, RetNone))
        | IPC_SET tmp =>
            if negb (is_owner perm who) then say (EPERM, RetNone)
            else
              match tmp with
              | None => say (EINVAL, RetNone)
              | Some d => Some (with_a_sets (<[i := with_as_ds (set_perm (as_ds x) d now) x]> (a_sets s)) s, [], (OK, RetNone))
              end
        | IPC_RMID =>
            if negb (is_owner perm who) then say (EPERM, RetNone)
            else Some (with_a_sets (a_drop i (a_sets s)) s, as_sems x ≫= a_tell, (OK, RetNone))
        | IPC_INFO | SEM_INFO | SEM_STAT => say (OK, RetNone)
        | GETALL copied => say (if copied then (OK, RetAll (a_val <$> as_sems x)) else (EINVAL, RetNone))
        | GETNCNT => say (a_get x num (fun a => Z.of_nat (length (a_more a))))
        | GETPID => say (a_get x num a_pid)
        | GETVAL => say (a_get x num a_val)
        | GETZCNT => say (a_get x num (fun a => Z.of_nat (length (default [] (a_zero a)))))
        | SETALL None => say (EINVAL, RetNone)
        | SETALL (Some buf) => let r := a_set_all 0 buf (as_sems x) in a_change i (with_as_sems r.1 x) (if r.2 : bool then OK else ERANGE) s
        | SETVAL val =>
            if negb (check_perm perm who 146) then say (EACCES, RetNone)
            else if num <? 0 then say (EINVAL, RetNone)
            else
              match as_sems x !! Z.to_nat num with
              | None => say (EINVAL, RetNone)
              | Some a =>
                  if (val <? 0) || (SEMVMX <? val) then say (ERANGE, RetNone)
                  else a_change i (with_as_ds (with_ctime now (as_ds x)) (with_as_sems (<[Z.to_nat num := with_a_val val a]> (as_sems x)) x)) OK s
              end
        | OTHER_CMD => say (EINVAL, RetNone)
        end
  end.
(** One operation of a process that may alter the set or not: the result is
    whether it waits, or [None] if it is not allowed. *)
Definition a_op (alter : bool) (who : Z) (o : sembuf) (a : asem) : asem * option bool :=
  let a := ASem (a_val a) (a_zero a) (a_more a) (getnpid who) in
  if 0 <? sem_op o then if alter then (with_a_val (u16 (a_val a + sem_op o)) a, Some false) else (a, None)
  else if sem_op o =? 0 then
    if a_val a =? 0 then (a, Some false)
    else (ASem (a_val a) (Some (default [] (a_zero a) ++ [Waiting who 0])) (a_more a) (a_pid a), Some true)
  else if negb alter then (a, None)
  else if - sem_op o <=? a_val a then (with_a_val (a_val a + sem_op o) a, Some false)
  else (ASem (a_val a) (a_zero a) (a_more a ++ [Waiting who (- sem_op o)]) (a_pid a), Some true).

Fixpoint a_ops (alter : bool) (who : Z) (ops : list sembuf) (waits : bool) (l : list asem) : list asem * (semcode * bool) :=
  match ops with
  | [] => (l, (OK, waits))
  | o :: ops' =>
      match l !! Z.to_nat (sem_num o) with
      | None => (l, (OK, waits))
      | Some a =>
          let r := a_op alter who o a in
          let l := <[Z.to_nat (sem_num o) := r.1]> l in
          match r.2 with None => (l, (EACCES, waits)) | Some w => a_ops alter who ops' (waits || w) l end
      end
  end.

Definition a_blocks (l : list asem) (o : sembuf) : bool :=
  match l !! Z.to_nat (sem_num o) with
  | None => false
  | Some a => isset (sem_flg o) IPC_NOWAIT &&
      (((sem_op o =? 0) && negb (a_val a =? 0)) || ((sem_op o <? 0) && (a_val a <? - sem_op o)))
  end.

(** The result and whether the process waits. *)
Definition a_semop (who id nsops : Z) (ops : option (list sembuf)) (s : astate) : astate * (semcode * bool) :=
  match a_find (fun x => as_id x =? id) (a_sets s) with
  | None => (s, (EINVAL, false))
  | Some (i, x) =>
      let perm := sem_perm (as_ds x) in
      if nsops =? 0 then (s, (EINVAL, false))
      else if SEMOPM <? nsops then (s, (E2BIG, false))
      else if negb (check_perm perm who 292) then (s, (EACCES, false))
      else
        match ops with
        | None => (s, (EINVAL, false))
        | Some sops =>
            if existsb (fun o => sem_nsems (as_ds x) <=? sem_num o) sops then (s, (EFBIG, false))
            else if dup_num sops then (s, (EINVAL, false))
            else if existsb (a_blocks (as_sems x)) sops then (s, (EAGAIN, false))
            else
              let r := a_ops (check_perm perm who 146) who sops false (as_sems x) in
              (with_a_sets (<[i := with_as_sems r.1 x]> (a_sets s)) s, r.2)
        end
  end.

Fixpoint a_notify (answers : list (Z * Z)) (s : astate) : option (astate * list reply) :=
  match answers with
  | [] => Some (s, [])
  | (r, pt) :: answers' =>
      if r <? 0 then Some (s, [])
      else
        x ← a_remove_process pt s;
        if r =? 0 then Some x else y ← a_notify answers' x.1; Some (y.1, x.2 ++ y.2)
  end.

(** A request: [None] only if a semaphore whose value is zero has an empty
    queue of processes that wait for zero. *)
Definition a_step (who now : Z) (req : sem_request) (s : astate) : option (astate * list reply) :=
  match req with
  | Semget key nsems flag => let r := a_semget who now key nsems flag s in Some (r.1, [Reply who r.2.1 r.2.2])
  | Semctl id num cmd => r ← a_semctl who now id num cmd s; Some (r.1.1, r.1.2 ++ [Reply who r.2.1 r.2.2])
  | Semop id nsops ops =>
      let r := a_semop who id nsops ops s in
      w ← a_wake_all r.1;
      Some (w.1, (if negb (bool_decide (r.2.1 = OK)) || negb r.2.2 then [Reply who r.2.1 RetNone] else []) ++ w.2)
  | VmNotify answers => a_notify answers s
  end.
End Spec.

(** ** The sets of the server and what they mean *)

Definition set_abs (x : sem_struct) : aset :=
  ASet (sem_key x) (sem_id x) (sem_ds x) (sem_abs <$> take (Z.to_nat (sem_nsems (sem_ds x))) (sems x)).

Definition state_abs (s : sem_state) : astate := AState (set_abs <$> sem_list s) (identifier s).
