(* ===== verification/SemRefine.v ===== *)
(** The server implements the specification: each request, from any state with
    consistent lists. *)

From S2P Require Import Prelude Sem SemOk SemSpec.
Local Open Scope Z_scope.

(** ** All semaphores in turn *)

(** [f] does what [g] says. *)
Definition refines (C : gset Z) (f : semaphore -> option (semaphore * list reply)) (g : asem -> option (asem * list reply)) : Prop :=
  forall s, sem_ok C s -> match f s with
    | Some (s', rs) => sem_ok C s' /\ g (sem_abs s) = Some (sem_abs s', rs)
    | None => g (sem_abs s) = None
    end.

(** ** Looking up sets *)

Section Find.
Context `{SemHeader}.

Lemma find_spec f g : (forall x, g (set_abs x) = f x) -> forall l k,
  match find_index f l k with
  | Some j => exists i x, j = (k + i)%nat /\ l !! i = Some x /\ a_find g (set_abs <$> l) = Some (i, set_abs x)
  | None => a_find g (set_abs <$> l) = None
  end.
Proof.
  intros Hg. induction l as [|x l IH]; intros k; cbn [find_index]; [done|]. unfold a_find in *. rewrite fmap_cons. cbn [list_find].
  destruct (f x) eqn:E.
  - exists 0%nat, x. split_and!; [lia|done|]. rewrite decide_True by by rewrite Hg. done.
  - rewrite decide_False by (rewrite Hg; congruence). specialize (IH (S k)). destruct (find_index f l (S k)) as [j|].
    + destruct IH as (i & y & -> & Hy & ->). exists (S i), y. split_and!; [lia|done|done].
    + by rewrite IH.
Qed.

Lemma find_id_spec l id :
  match sem_find_id l id with
  | Some i => exists x, l !! i = Some x /\ a_find (fun x => as_id x =? id) (set_abs <$> l) = Some (i, set_abs x)
  | None => a_find (fun x => as_id x =? id) (set_abs <$> l) = None
  end.
Proof.
  pose proof (find_spec (fun s => sem_id s =? id) (fun x => as_id x =? id) (fun _ => eq_refl) l 0) as Hf. unfold sem_find_id.
  destruct (find_index _ l 0) as [j|]; [|done]. destruct Hf as (i & x & -> & Hx & Ha). by exists x.
Qed.

Lemma find_key_spec l key :
  match sem_find_key l key with
  | Some i => exists x, l !! i = Some x /\ (if key =? IPC_PRIVATE then None else a_find (fun x => as_key x =? key) (set_abs <$> l)) = Some (i, set_abs x)
  | None => (if key =? IPC_PRIVATE then None else a_find (fun x => as_key x =? key) (set_abs <$> l)) = None
  end.
Proof.
  unfold sem_find_key. destruct (key =? IPC_PRIVATE); [done|].
  pose proof (find_spec (fun s => sem_key s =? key) (fun x => as_key x =? key) (fun _ => eq_refl) l 0) as Hf.
  destruct (find_index _ l 0) as [j|]; [|done]. destruct Hf as (i & x & -> & Hx & Ha). by exists x.
Qed.
End Find.

Section Refine.
Context `{SemHeader, SemEnv} (C : gset Z).

Record set_ok (x : sem_struct) : Prop := {
  st_len : length (sems x) = Z.to_nat SEMMSL;
  st_nsems : 0 <= sem_nsems (sem_ds x) <= SEMMSL;
  st_sems : Forall (sem_ok C) (sems x);
}.

Definition state_ok (s : sem_state) : Prop := Forall set_ok (sem_list s).

Lemma each_sem_spec f g : refines C f g -> forall n l, (n <= length l)%nat -> Forall (sem_ok C) l ->
  match each_sem f n l with
  | Some (l', rs) => Forall (sem_ok C) l' /\ length l' = length l /\ a_each g (sem_abs <$> take n l) = Some (sem_abs <$> take n l', rs)
  | None => a_each g (sem_abs <$> take n l) = None
  end.
Proof.
  intros Hfg. induction n as [|n IH]; intros l Hn Hl; cbn [each_sem]; [done|].
  destruct l as [|s l]; [simpl in Hn; lia|]. apply Forall_cons in Hl as [Hs Hl]. pose proof (Hfg s Hs) as Hf.
  cbn [take]. rewrite fmap_cons. cbn [a_each]. destruct (f s) as [[s' rs]|]; simpl; [|by rewrite Hf]. destruct Hf as [Hs' ->]. simpl.
  pose proof (IH l ltac:(simpl in Hn; lia) Hl) as Hr. destruct (each_sem f n l) as [[l' rs']|]; simpl; [|by rewrite Hr].
  destruct Hr as (Hl' & Hlen & ->). simpl. split_and!; [by constructor|by rewrite Hlen|done].
Qed.

Lemma each_of_spec f g x : refines C f g -> set_ok x ->
  match each_of f x with
  | Some (x', rs) => set_ok x' /\ a_each g (as_sems (set_abs x)) = Some (as_sems (set_abs x'), rs) /\ set_abs x' = with_as_sems (as_sems (set_abs x')) (set_abs x)
  | None => a_each g (as_sems (set_abs x)) = None
  end.
Proof.
  intros Hfg [Hlen Hn Hs]. unfold each_of. pose proof (each_sem_spec f g Hfg (Z.to_nat (sem_nsems (sem_ds x))) (sems x) ltac:(lia) Hs) as Hr.
  destruct (each_sem f _ (sems x)) as [[l' rs]|]; simpl; [|done]. destruct Hr as (Hl' & Hlen' & Hr). split_and!; [split; simpl; [congruence|done|done]|done|done].
Qed.

Lemma each_set_spec f g : refines C f g -> forall l, Forall set_ok l ->
  match each_set f l with
  | Some (l', rs) => Forall set_ok l' /\ a_each_set g (set_abs <$> l) = Some (set_abs <$> l', rs)
  | None => a_each_set g (set_abs <$> l) = None
  end.
Proof.
  intros Hfg. induction l as [|x l IH]; intros Hl; cbn [each_set]; [done|]. apply Forall_cons in Hl as [Hx Hl].
  pose proof (each_of_spec f g x Hfg Hx) as Ho. rewrite fmap_cons. cbn [a_each_set].
  destruct (each_of f x) as [[x' rs]|]; cbn [mbind option_bind]; [|by rewrite Ho]. destruct Ho as (Hx' & -> & Ex). cbn [mbind option_bind].
  specialize (IH Hl). destruct (each_set f l) as [[l' rs']|]; cbn [mbind option_bind]; [|by rewrite IH]. destruct IH as [Hl' ->].
  split; [by constructor|]. cbn [mbind option_bind fst snd]. by rewrite fmap_cons, <- Ex.
Qed.

(** [m] takes the state [s] where the specification takes its meaning: to
    [None], or to a new meaning with the same answers. *)
Definition sim (m : ST sem_state unit) (s : sem_state) (r : option (astate * list reply)) : Prop :=
  match m s with
  | Some (_, s') => state_ok s' /\ exists rs, outbox s' = outbox s ++ rs /\ r = Some (state_abs s', rs)
  | None => r = None
  end.

Lemma all_sets_sim f g s : refines C f g -> state_ok s ->
  sim (all_sets f) s (r ← a_each_set g (a_sets (state_abs s)); Some (with_a_sets r.1 (state_abs s), r.2)).
Proof.
  intros Hfg Hs. unfold sim, all_sets, gets. pose proof (each_set_spec f g Hfg (sem_list s) Hs) as He.
  rewrite (bind_run _ _ s (sem_list s) s eq_refl). simpl. destruct (each_set f (sem_list s)) as [[l' rs]|]; simpl.
  - destruct He as [Hl' ->]. simpl. split; [exact Hl'|]. by exists rs.
  - by rewrite He.
Qed.

(** ** Sets and their semaphores *)

Lemma the_set_run s i x : sem_list s !! i = Some x -> the_set i s = Some (x, s).
Proof. intros Hx. unfold the_set. rewrite (bind_run _ _ s s s eq_refl). by rewrite Hx. Qed.

Lemma state_lookup s i x : state_ok s -> sem_list s !! i = Some x -> set_ok x.
Proof. intros Hs Hx. by eapply Forall_lookup_1. Qed.

Lemma put_ok s i x : state_ok s -> set_ok x -> Forall set_ok (<[i := x]> (sem_list s)).
Proof. intros Hs Hx. by apply Forall_insert. Qed.

Lemma sem_lookup x num : set_ok x -> 0 <= num ->
  as_sems (set_abs x) !! Z.to_nat num = if sem_nsems (sem_ds x) <=? num then None else sem_abs <$> sems x !! Z.to_nat num.
Proof.
  intros [_ Hn _] Hnum. simpl. rewrite list_lookup_fmap. destruct (Z.leb_spec (sem_nsems (sem_ds x)) num).
  - rewrite lookup_take_ge by lia. done.
  - by rewrite lookup_take_lt by lia.
Qed.

Lemma sem_there x num : set_ok x -> 0 <= num < sem_nsems (sem_ds x) ->
  exists s, sems x !! Z.to_nat num = Some s /\ sem_ok C s /\ as_sems (set_abs x) !! Z.to_nat num = Some (sem_abs s).
Proof.
  intros Hx Hnum. pose proof Hx as [Hlen Hn Hs]. destruct (lookup_lt_is_Some_2 (sems x) (Z.to_nat num)) as [s E]; [lia|].
  exists s. split_and!; [done|by eapply Forall_lookup_1|]. rewrite sem_lookup by lia || done. rewrite E. destruct (Z.leb_spec (sem_nsems (sem_ds x)) num); [lia|done].
Qed.

Lemma sem_put x num s : set_ok x -> 0 <= num < sem_nsems (sem_ds x) -> sem_ok C s ->
  let x' := with_sems (<[Z.to_nat num := s]> (sems x)) x in
  set_ok x' /\ set_abs x' = with_as_sems (<[Z.to_nat num := sem_abs s]> (as_sems (set_abs x))) (set_abs x).
Proof.
  intros [Hlen Hn Hs] Hnum Hok. split.
  - split; simpl; [by rewrite length_insert|done|by apply Forall_insert].
  - unfold set_abs, with_as_sems. simpl. by rewrite take_insert_lt, list_fmap_insert by lia.
Qed.

(** ** Waking up and removing processes *)

Context (HC : Z.of_nat (size C) < 2 ^ 16).

Lemma update_refines : refines C update_semaphore a_wake.
Proof. intros s Hs. by apply update_spec. Qed.

Lemma remove_refines pt : refines C (remove_from pt) (fun a => Some (a_remove pt a)).
Proof. intros s Hs. destruct (remove_spec C pt s Hs HC) as (s' & rs & -> & Hs' & ->). done. Qed.

Lemma wake_sim s : state_ok s -> sim update_semaphores s (a_wake_all (state_abs s)).
Proof. apply (all_sets_sim _ _ s update_refines). Qed.

Lemma remove_sim pt s : state_ok s -> sim (remove_process pt) s (a_remove_process pt (state_abs s)).
Proof. apply (all_sets_sim _ _ s (remove_refines pt)). Qed.
End Refine.
