(* ===== verification/SemCtl.v ===== *)
(** semget and semctl do what the specification says, and so does the removal
    of processes that exit. *)

From S2P Require Import Prelude Sem SemOk SemSpec SemRefine.
Local Open Scope Z_scope.

Section Ctl.
Context `{SemHeader, SemEnv} (C : gset Z).

(** [m] does what the specification says, with its result. *)
Definition simr {A} (m : ST sem_state A) (s : sem_state) (r : option (astate * list reply * A)) : Prop :=
  match m s with
  | Some (a, s') => state_ok C s' /\ exists rs, outbox s' = outbox s ++ rs /\ r = Some (state_abs s', rs, a)
  | None => r = None
  end.

Lemma simr_ret {A} (a : A) s : state_ok C s -> simr (mret a) s (Some (state_abs s, [], a)).
Proof. intros Hs. split; [done|]. exists []. by rewrite app_nil_r. Qed.

(** The messages of a request, then a reply. *)
Lemma simr_send {A} (m : ST sem_state A) (f : A -> reply) s r :
  simr m s r -> sim C (a ← m; send (f a)) s (x ← r; Some (x.1.1, x.1.2 ++ [f x.2])).
Proof.
  unfold simr, sim. destruct (m s) as [[a s']|] eqn:E.
  - intros (Hs & rs & Ho & ->). rewrite (bind_run _ _ _ _ _ E). simpl. split; [done|]. exists (rs ++ [f a]). by rewrite Ho, app_assoc.
  - intros ->. unfold mbind, st_bind. by rewrite E.
Qed.

Lemma sim_then {A} (m : ST sem_state unit) (a : A) s r : sim C m s r -> simr (m;; mret a) s (x ← r; Some (x.1, x.2, a)).
Proof.
  unfold simr, sim. destruct (m s) as [[[] s']|] eqn:E.
  - intros (Hs & rs & Ho & ->). rewrite (bind_run _ _ _ _ _ E). simpl. split; [done|]. by exists rs.
  - intros ->. unfold mbind, st_bind. by rewrite E.
Qed.

Lemma simr_run {A B} (m : ST sem_state A) (k : A -> ST sem_state B) s a s1 r :
  m s = Some (a, s1) -> outbox s1 = outbox s -> simr (k a) s1 r -> simr (m ≫= k) s r.
Proof. intros E Eo. unfold simr. by rewrite (bind_run _ _ _ _ _ E), Eo. Qed.

Lemma the_set_sim {A} i x (k : sem_struct -> ST sem_state A) s r : sem_list s !! i = Some x -> simr (k x) s r -> simr (the_set i ≫= k) s r.
Proof. intros Hx. apply simr_run; [by apply the_set_run|done]. Qed.

Lemma new_set_ok key id nsems flag who now :
  0 <= nsems < SEMMSL -> set_ok C (new_set key id nsems flag who now) /\
  set_abs (new_set key id nsems flag who now) = a_new key id nsems flag who now.
Proof.
  intros Hn. split.
  - split; simpl; [by rewrite length_replicate|lia|]. apply Forall_replicate. split; simpl; [lia| | |].
    1, 2: split; simpl; [lia|done|apply NoDup_nil_2|]; intros ? ?%elem_of_nil; done.
    intros ? ?%elem_of_nil; done.
  - unfold set_abs, new_set, a_new. simpl. rewrite take_replicate, fmap_replicate. replace (_ `min` _)%nat with (Z.to_nat nsems) by lia. done.
Qed.

Lemma semget_sim who now key nsems flag s : state_ok C s ->
  simr (do_semget who now key nsems flag) s
    (let r := a_semget who now key nsems flag (state_abs s) in Some (r.1, [], r.2)).
Proof.
  intros Hs. unfold do_semget. apply (simr_run _ _ s (sem_list s) s); [done|done|]. unfold a_semget.
  pose proof (find_key_spec (sem_list s) key) as Hf. cbn [a_sets state_abs]. destruct (sem_find_key (sem_list s) key) as [i|].
  - destruct Hf as (x & Hx & ->). apply (the_set_sim i x); [done|]. cbn [as_ds set_abs].
    repeat case_match; apply (simr_ret (_, _)); done.
  - rewrite Hf. destruct (negb _); [by apply simr_ret|]. destruct (orb _ _) eqn:En; [by apply simr_ret|]. rewrite length_fmap.
    destruct (Z.of_nat (length (sem_list s)) =? SEMMNI); [by apply simr_ret|]. apply orb_false_iff in En as [En1 En2].
    destruct (new_set_ok key (identifier s) nsems flag who now) as [Hok Ea]; [lia|].
    eapply simr_run; [done|done|]. split; [by apply Forall_app_2; [|apply Forall_singleton]|]. exists []. split; [by rewrite app_nil_r|].
    unfold state_abs. simpl. by rewrite fmap_app, <- Ea.
Qed.

Lemma set_all_spec buf : (forall i, 0 <= buf i < 2 ^ 16) -> forall n i l, (n <= length l)%nat -> Forall (sem_ok C) l ->
  exists l' b, set_all n i buf l = Some (l', b) /\ Forall (sem_ok C) l' /\ length l' = length l /\
    a_set_all i buf (sem_abs <$> take n l) = (sem_abs <$> take n l', b).
Proof.
  intros Hbuf. induction n as [|n IH]; intros i l Hn Hl; [by exists l, true|]. destruct l as [|s l]; [simpl in Hn; lia|].
  cbn [set_all take]. rewrite fmap_cons. cbn [a_set_all]. destruct (SEMVMX <? buf i); [by exists (s :: l), false|].
  apply Forall_cons in Hl as [Hs Hl]. destruct (IH (S i) l ltac:(simpl in Hn; lia) Hl) as (l' & b & -> & Hl' & Hlen & ->).
  exists (with_semval (buf i) s :: l'), b. split_and!; [done| |simpl; congruence|done]. constructor; [|done]. destruct Hs. split; simpl; [apply Hbuf|done..].
Qed.

Lemma used_none cnt : used None cnt = [].
Proof. apply take_nil. Qed.

Lemma tell_refines : refines C tell_removed (fun a => Some (a, a_tell a)).
Proof.
  assert (forall l cnt, list_ok C l cnt ->
    (if cnt =? 0 then Some [] else b ← l; if Z.of_nat (length b) <? cnt then None else Some (take (Z.to_nat cnt) b)) = Some (used l cnt)) as Hu.
  { intros l cnt [Hc _ _ _]. destruct (Z.eqb_spec cnt 0) as [->|]; [done|]. destruct l as [b|]; simpl in *; [|lia].
    destruct (Z.ltb_spec (Z.of_nat (length b)) cnt); [lia|done]. }
  intros s Hs. unfold tell_removed. rewrite (Hu _ _ (so_zero _ _ Hs)), (Hu _ _ (so_more _ _ Hs)). simpl. split; [done|].
  unfold a_tell. simpl. destruct (zlist s); simpl; [done|]. by rewrite used_none.
Qed.

Lemma a_each_tell l : a_each (fun a => Some (a, a_tell a)) l = Some (l, l ≫= a_tell).
Proof. induction l as [|a l IH]; [done|]. cbn [a_each]. simpl. rewrite IH. done. Qed.

Lemma remove_set_sim i x s : state_ok C s -> sem_list s !! i = Some x ->
  sim C (remove_set i) s (Some (with_a_sets (a_drop i (a_sets (state_abs s))) (state_abs s), as_sems (set_abs x) ≫= a_tell)).
Proof.
  intros Hs Hx. pose proof (state_lookup C s i x Hs Hx) as Hok. pose proof (each_of_spec C _ _ x tell_refines Hok) as He.
  rewrite a_each_tell in He. unfold sim, remove_set. rewrite (bind_run _ _ _ _ _ (the_set_run s i x Hx)).
  destruct (each_of tell_removed x) as [[x' rs]|]; [|done]. destruct He as (_ & [= _ <-] & _). simpl.
  split; [|eexists; split; [done|]].
  - apply Forall_take. destruct (last (sem_list s)) as [y|] eqn:El; [|done]. apply Forall_insert; [done|].
    rewrite last_lookup in El. by eapply state_lookup.
  - unfold state_abs, with_a_sets, a_drop. simpl. rewrite length_fmap, fmap_last. destruct (last (sem_list s)); simpl; rewrite ?fmap_take, ?list_fmap_insert; done.
Qed.

Context (HC : Z.of_nat (size C) < 2 ^ 16).

(** A set is changed and the processes that may go on are woken up. *)
Lemma change_sim {A} i x (r : A) s : state_ok C s -> set_ok C x ->
  simr (put_set i x;; update_semaphores;; mret r) s
    (w ← a_wake_all (with_a_sets (<[i := set_abs x]> (a_sets (state_abs s))) (state_abs s)); Some (w.1, w.2, r)).
Proof.
  intros Hs Hx. eapply simr_run; [done|done|]. apply sim_then. unfold state_abs, with_a_sets. simpl. rewrite <- list_fmap_insert.
  apply (wake_sim C HC (with_sem_list _ s)). by apply put_ok.
Qed.

Lemma get_sem_sim x num f g s : state_ok C s -> set_ok C x -> (forall y, sem_ok C y -> f y = g (sem_abs y)) ->
  simr (get_sem x num f) s (Some (state_abs s, [], a_get (set_abs x) num g)).
Proof.
  intros Hs Hx Hfg. unfold get_sem, a_get. destruct (Z.ltb_spec num 0); [by apply simr_ret|]. rewrite (sem_lookup C) by done. simpl.
  destruct (Z.leb_spec (sem_nsems (sem_ds x)) num); [by apply simr_ret|].
  destruct (sem_there C x num Hx ltac:(lia)) as (y & E & Hy & _). rewrite E. simpl. rewrite <- Hfg by done. by apply simr_ret.
Qed.

(** The buffer of [SETALL] has unsigned shorts. *)
Definition cmd_ok (cmd : semcmd) : Prop := match cmd with SETALL (Some buf) => forall i, 0 <= buf i < 2 ^ 16 | _ => True end.

Lemma zcnt_spec y : sem_ok C y -> semzcnt y = Z.of_nat (length (default [] (a_zero (sem_abs y)))).
Proof.
  intros Hy. rewrite <- (used_length _ _ _ (so_zero _ _ Hy)) at 1. simpl. destruct (zlist y); simpl; [done|]. by rewrite used_none.
Qed.

Context (Hmem : forall n, alloc_ok n = true).

Lemma alloc_sim {A} (k : bool -> ST sem_state A) s r :
  state_ok C s -> (forall s', state_ok C s' -> state_abs s' = state_abs s -> outbox s' = outbox s -> sem_list s' = sem_list s -> simr (k true) s' r) ->
  simr (alloc ≫= k) s r.
Proof. intros Hs Hk. eapply simr_run; [done|done|]. simpl. rewrite Hmem. by apply Hk. Qed.

(** What the commands that alter a set do. *)
Lemma set_all_sim buf i x s : state_ok C s -> set_ok C x -> (forall k, 0 <= buf k < 2 ^ 16) ->
  simr (r ← opt (set_all (Z.to_nat (sem_nsems (sem_ds x))) 0 buf (sems x));
        put_set i (with_sems r.1 x);; update_semaphores;; mret (if r.2 : bool then OK else ERANGE, RetNone)) s
    (let r := a_set_all 0 buf (as_sems (set_abs x)) in
     a_change i (with_as_sems r.1 (set_abs x)) (if r.2 : bool then OK else ERANGE) (state_abs s)).
Proof.
  intros Hs Hx Hbuf. pose proof Hx as [Hlen Hn Hsems].
  destruct (set_all_spec buf Hbuf (Z.to_nat (sem_nsems (sem_ds x))) 0 (sems x) ltac:(lia) Hsems) as (l' & b & E & Hl' & Hlen' & Ea).
  eapply simr_run; [by rewrite E|done|]. cbn [as_sems set_abs]. rewrite Ea. cbn [fst snd]. unfold a_change.
  apply (change_sim i (with_sems l' x) _ s Hs). split; simpl; [congruence|done|done].
Qed.

Lemma set_val_sim i x num val now s : state_ok C s -> set_ok C x -> 0 <= num < sem_nsems (sem_ds x) -> 0 <= val < 2 ^ 16 ->
  simr (y ← opt (sems x !! Z.to_nat num);
        put_set i (with_ds (with_ctime now (sem_ds x)) (with_sems (<[Z.to_nat num := with_semval val y]> (sems x)) x));; update_semaphores;; mret (OK, RetNone)) s
    (match as_sems (set_abs x) !! Z.to_nat num with
     | Some a => a_change i (with_as_ds (with_ctime now (sem_ds x)) (with_as_sems (<[Z.to_nat num := with_a_val val a]> (as_sems (set_abs x))) (set_abs x))) OK (state_abs s)
     | None => Some (state_abs s, [], (EINVAL, RetNone))
     end).
Proof.
  intros Hs Hx Hnum Hval. destruct (sem_there C x num Hx Hnum) as (y & E & Hy & ->). eapply simr_run; [by rewrite E|done|].
  assert (sem_ok C (with_semval val y)) as Hy' by (destruct Hy; by split).
  destruct (sem_put C x num _ Hx Hnum Hy') as [Hx' Ex]. unfold a_change.
  change (with_a_val val (sem_abs y)) with (sem_abs (with_semval val y)). rewrite <- Ex.
  apply (change_sim i (with_ds (with_ctime now (sem_ds x)) (with_sems _ x)) _ s Hs). destruct Hx' as [? ? ?]. by split.
Qed.

Lemma semctl_sim who now id num cmd s : state_ok C s -> SEMVMX < 2 ^ 16 -> cmd_ok cmd ->
  simr (do_semctl who now id num cmd) s (a_semctl who now id num cmd (state_abs s)).
Proof.
  intros Hs Hmax Hcmd. unfold do_semctl. apply (simr_run _ _ s (sem_list s) s); [done|done|]. unfold a_semctl.
  pose proof (find_id_spec (sem_list s) id) as Hf. cbn [a_sets state_abs]. destruct (sem_find_id (sem_list s) id) as [i|]; [|rewrite Hf; by apply simr_ret].
  destruct Hf as (x & Hx & ->). apply (the_set_sim i x); [done|]. pose proof (state_lookup C s i x Hs Hx) as Hok. cbn [as_ds set_abs].
  destruct (negb (own_check cmd) && _); [by apply simr_ret|].
  destruct cmd as [ds copied|tmp| | | | |copied| | | | |buf|val|]; try by apply simr_ret.
  - destruct (ds =? 0); [by apply simr_ret|]. destruct copied; by apply simr_ret.
  - destruct (negb _); [by apply simr_ret|]. destruct tmp as [tmp|]; [|by apply simr_ret]. eapply simr_run; [done|done|].
    split; [by apply put_ok; [|destruct Hok; split]|]. exists []. rewrite app_nil_r. split; [done|].
    unfold state_abs, with_a_sets. simpl. by rewrite list_fmap_insert.
  - destruct (negb _); [by apply simr_ret|]. apply (sim_then (remove_set i) (OK, RetNone) s _ (remove_set_sim i x s Hs Hx)).
  - apply alloc_sim; [done|]. intros s' Hs' Ea _ _. cbn [negb]. rewrite <- Ea. destruct copied; cbn [negb]; [|by apply simr_ret].
    cbn [as_sems set_abs]. rewrite <- list_fmap_compose. by apply (simr_ret (OK, RetAll _)).
  - apply (get_sem_sim x num semncnt); [done|done|]. intros y Hy. simpl. by rewrite (used_length _ _ _ (so_more _ _ Hy)).
  - by apply (get_sem_sim x num sempid).
  - by apply (get_sem_sim x num semval).
  - apply (get_sem_sim x num semzcnt); [done|done|]. intros y Hy. by apply zcnt_spec.
  - apply alloc_sim; [done|]. intros s' Hs' Ea _ El. cbn [negb]. destruct buf as [buf|]; [|rewrite <- Ea; by apply simr_ret].
    rewrite <- Ea. by apply set_all_sim.
  - destruct (negb _); [by apply simr_ret|]. destruct (Z.ltb_spec num 0); [by apply simr_ret|]. cbn [orb].
    destruct (Z.leb_spec (sem_nsems (sem_ds x)) num) as [Hge|Hlt].
    { fold (set_abs x). rewrite (sem_lookup C) by done. destruct (Z.leb_spec (sem_nsems (sem_ds x)) num); [by apply simr_ret|lia]. }
    destruct ((val <? 0) || (SEMVMX <? val)) eqn:Ev.
    + destruct (sem_there C x num Hok ltac:(lia)) as (y & _ & _ & Ey). cbn [as_sems set_abs] in Ey |- *. rewrite Ey. by apply simr_ret.
    + apply orb_false_iff in Ev as [? ?]. by apply set_val_sim; [| |lia|lia].
Qed.

Lemma notify_sim answers : forall s, state_ok C s -> sim C (sem_process_vm_notify answers) s (a_notify answers (state_abs s)).
Proof.
  induction answers as [|[r pt] answers IH]; intros s Hs; cbn [sem_process_vm_notify a_notify].
  - split; [done|]. exists []. by rewrite app_nil_r.
  - destruct (r <? 0); [split; [done|]; exists []; by rewrite app_nil_r|]. pose proof (remove_sim C HC pt s Hs) as Hr. unfold sim in *.
    destruct (remove_process pt s) as [[[] s1]|] eqn:E; [|by rewrite (bind_none _ _ _ E), Hr].
    destruct Hr as (Hs1 & rs & Ho & ->). rewrite (bind_run _ _ _ _ _ E). cbn [mbind option_bind fst snd]. destruct (r =? 0).
    + split; [done|]. by exists rs.
    + specialize (IH s1 Hs1). destruct (sem_process_vm_notify answers s1) as [[[] s2]|]; [|by rewrite IH].
      destruct IH as (Hs2 & rs2 & Ho2 & ->). split; [done|]. exists (rs ++ rs2). by rewrite Ho2, Ho, app_assoc.
Qed.
End Ctl.
