(* ===== verification/SemOp.v ===== *)
(** semop does what the specification says, and with it every request. *)

From S2P Require Import Prelude Sem SemOk SemSpec SemRefine SemCtl.
Local Open Scope Z_scope.

(** The processes that wait at a semaphore. *)
Definition waiters (a : asem) : list Z := w_who <$> default [] (a_zero a) ++ a_more a.

(** The process waits nowhere. *)
Definition idle (who : Z) (s : astate) : Prop := forall x a, x ∈ a_sets s -> a ∈ as_sems x -> who ∉ waiters a.

(** Unsigned and signed shorts. *)
Definition op_ok (o : sembuf) : Prop := 0 <= sem_num o < 2 ^ 16 /\ - 2 ^ 15 <= sem_op o < 2 ^ 15.

Definition request_ok (req : sem_request) : Prop :=
  match req with
  | Semctl _ _ cmd => cmd_ok cmd
  | Semop _ nsops (Some ops) => Z.of_nat (length ops) = nsops /\ Forall op_ok ops
  | _ => True
  end.

Section Op.
Context `{SemHeader, SemEnv} (C : gset Z) (HC : Z.of_nat (size C) < 2 ^ 16) (Hmem : forall n, alloc_ok n = true).

(** There is room in a list for one more process. *)
Lemma room l cnt w : list_ok C l cnt -> w ∈ C -> w ∉ w_who <$> used l cnt -> cnt + 1 < 2 ^ 16.
Proof.
  intros Hl Hw Hn. assert (list_ok (C ∖ {[w]}) l cnt) as Hl'.
  { destruct Hl as [? ? ? Hwho]. split; [done|done|done|]. intros x Hx. apply elem_of_difference. split; [by apply Hwho|].
    intros E%elem_of_singleton. apply Hn. rewrite <- E. by apply list_elem_of_fmap_2. }
  pose proof (count_bound _ _ _ Hl') as Hb. rewrite size_difference in Hb by set_solver. rewrite size_singleton in Hb.
  assert (0 < size C)%nat; [|lia]. apply Nat.neq_0_lt_0. intros E%size_empty_inv. set_solver.
Qed.

(** A process goes to sleep. *)
Lemma join_zero y w : sem_ok C y -> w_who w ∈ C -> w_who w ∉ w_who <$> used (zlist y) (semzcnt y) ->
  let cnt := u16 (semzcnt y + 1) in
  let y' := with_z (Some (<[Z.to_nat (cnt - 1) := w]> (resize (Z.to_nat cnt) (zlist y)))) cnt y in
  (cnt =? 0) = false /\ sem_ok C y' /\
  sem_abs y' = ASem (semval y) (Some (default [] (a_zero (sem_abs y)) ++ [w])) (a_more (sem_abs y)) (sempid y).
Proof.
  intros [Hv Hz Hn Hp] HwC Hw cnt y'. destruct (join_spec C _ _ w Hz (room _ _ _ Hz HwC Hw) HwC Hw) as (E & Hl & Eu).
  split_and!; [done|by split|]. unfold sem_abs at 1, y'. simpl. fold cnt in Eu. rewrite Eu. destruct (zlist y); simpl; [done|]. by rewrite used_none.
Qed.

Lemma join_more y w : sem_ok C y -> w_who w ∈ C -> w_who w ∉ w_who <$> used (nlist y) (semncnt y) -> 0 < w_val w ->
  let cnt := u16 (semncnt y + 1) in
  let y' := with_n (Some (<[Z.to_nat (cnt - 1) := w]> (resize (Z.to_nat cnt) (nlist y)))) cnt y in
  (cnt =? 0) = false /\ sem_ok C y' /\ sem_abs y' = ASem (semval y) (a_zero (sem_abs y)) (a_more (sem_abs y) ++ [w]) (sempid y).
Proof.
  intros [Hv Hz Hn Hp] HwC Hw Hpos cnt y'. destruct (join_spec C _ _ w Hn (room _ _ _ Hn HwC Hw) HwC Hw) as (E & Hl & Eu). fold cnt in Eu, Hl.
  split_and!; [done| |unfold sem_abs at 1, y'; simpl; by rewrite Eu]. split; [done|done|done|]. simpl. rewrite Eu.
  intros z [Hz'| ->%list_elem_of_singleton]%elem_of_app; [by apply Hp|done].
Qed.

(** The effect of one operation on its semaphore. *)
Definition op_effect (alter : bool) (who : Z) (o : sembuf) (y y' : semaphore) (r : option (bool * bool)) : Prop :=
  sem_ok C y' /\ exists v, a_op alter who o (sem_abs y) = (sem_abs y', v) /\ r = (pair true <$> v).

(** The state in which semaphore [k] of set [i] is replaced. *)
Definition replaced (i : nat) (x : sem_struct) (k : nat) (y : semaphore) (s s' : sem_state) : Prop :=
  sem_list s' = <[i := with_sems (<[k := y]> (sems x)) x]> (sem_list s) /\ identifier s' = identifier s /\ outbox s' = outbox s.

Lemma stored alter who o i x k y y' v s : sem_ok C y' -> a_op alter who o (sem_abs y) = (sem_abs y', v) ->
  exists r s' y'', (put_set i (with_sems (<[k := y']> (sems x)) x);; mret (pair true <$> v)) s = Some (r, s') /\ replaced i x k y'' s s' /\
    op_effect alter who o y y'' r.
Proof. intros Hok Ha. eexists _, _, y'. split; [done|]. split; [done|]. split; [done|]. by exists v. Qed.

(** After the allocator has given memory. *)
Lemma slept alter who o i x k y (cnt : Z) (f : Z -> semaphore) s :
  (cnt =? 0) = false -> sem_ok C (f cnt) -> a_op alter who o (sem_abs y) = (sem_abs (f cnt), Some true) ->
  forall other, exists r s' y'', (ok ← alloc; if negb ok then other else (if cnt =? 0 then ub else mret tt);;
      put_set i (with_sems (<[k := f cnt]> (sems x)) x);; mret (Some (true, true))) s = Some (r, s') /\ replaced i x k y'' s s' /\
    op_effect alter who o y y'' r.
Proof.
  intros Ec Hok Ha other. eexists _, _, (f cnt). split; [|split; [|split; [done|by exists (Some true)]]].
  - unfold alloc, mbind, st_bind, gets, get, modify. simpl. rewrite Hmem, Ec. done.
  - done.
Qed.

Lemma apply_op_run i who o s x y :
  sem_list s !! i = Some x -> sems x !! Z.to_nat (sem_num o) = Some y -> sem_ok C y -> op_ok o ->
  who ∈ C -> who ∉ waiters (sem_abs y) ->
  exists r s' y', apply_op i who o s = Some (r, s') /\ replaced i x (Z.to_nat (sem_num o)) y' s s' /\
    op_effect (check_perm (sem_perm (sem_ds x)) who 146) who o y y' r.
Proof.
  intros Hx Hy [Hv Hz Hn Hp] [Hnum Hop] HwC Hw. unfold apply_op. rewrite (bind_run _ _ _ _ _ (the_set_run s i x Hx)).
  rewrite Hy. set (alter := check_perm _ _ _). set (k := Z.to_nat (sem_num o)).
  assert ((who ∉ w_who <$> used (zlist y) (semzcnt y)) /\ (who ∉ w_who <$> used (nlist y) (semncnt y))) as [Hwz Hwn].
  { unfold waiters in Hw. rewrite fmap_app, elem_of_app in Hw. simpl in Hw. split; intros Hin; apply Hw; [left|by right].
    destruct (zlist y); [done|]. by rewrite used_none in Hin. }
  rewrite (bind_run (opt (Some y)) _ s y s eq_refl). cbv beta zeta. set (y1 := with_sempid (getnpid who) y). assert (sem_ok C y1) as Hy1 by by split.
  assert (forall v, 0 <= v < 2 ^ 16 -> sem_ok C (with_semval v y1)) as Hval by by split.
  destruct (0 <? sem_op o) eqn:Epos; [|destruct (sem_op o =? 0) eqn:Ez; [destruct (semval y1 =? 0) eqn:E0|destruct alter eqn:Ealt; [destruct (- sem_op o <=? semval y1) eqn:El|]]].
  - destruct alter; cbn [negb].
    + apply (stored _ who o i x k y _ (Some false)); [apply Hval, Z.mod_pos_bound; lia|]. unfold a_op. by rewrite Epos.
    + apply (stored _ who o i x k y _ None); [done|]. unfold a_op. by rewrite Epos.
  - apply (stored _ who o i x k y _ (Some false)); [done|]. unfold a_op. cbn [a_val sem_abs]. by rewrite Epos, Ez, (E0 : (semval y =? 0) = true).
  - destruct (join_zero y1 (Waiting who (sem_op o)) Hy1 HwC Hwz) as (Ec & Hok & Ea).
    apply (slept _ who o i x k y _ (fun cnt => with_z (Some (<[Z.to_nat (cnt - 1) := Waiting who (sem_op o)]> (resize (Z.to_nat cnt) (zlist y1)))) cnt y1)); [done|done|].
    rewrite Ea. unfold a_op. cbn [a_val sem_abs]. rewrite Epos, Ez, (E0 : (semval y =? 0) = false). apply Z.eqb_eq in Ez. by rewrite Ez.
  - cbn [negb]. apply Z.eqb_neq in Ez as Ez'. apply (stored _ who o i x k y _ (Some false)).
    + apply Hval, Z.mod_pos_bound. lia.
    + unfold a_op. cbn [a_val sem_abs]. rewrite Epos, Ez, (El : (- sem_op o <=? semval y) = true). cbn [negb]. simpl in El.
      rewrite u16_small by (unfold y1; simpl; lia). done.
  - cbn [negb]. destruct (join_more y1 (Waiting who (- sem_op o)) Hy1 HwC Hwn) as (Ec & Hok & Ea); [simpl; lia|].
    apply (slept _ who o i x k y _ (fun cnt => with_n (Some (<[Z.to_nat (cnt - 1) := Waiting who (- sem_op o)]> (resize (Z.to_nat cnt) (nlist y1)))) cnt y1)); [done|done|].
    rewrite Ea. unfold a_op. cbn [a_val sem_abs]. by rewrite Epos, Ez, (El : (- sem_op o <=? semval y) = false).
  - apply (stored _ who o i x k y _ None); [done|]. unfold a_op. by rewrite Epos, Ez.
Qed.

(** The operations that are left find their semaphores as the process that
    waits nowhere left them. *)
Lemma apply_ops_run i who ops : who ∈ C -> forall w s x,
  state_ok C s -> sem_list s !! i = Some x -> dup_num ops = false ->
  Forall (fun o => op_ok o /\ sem_num o < sem_nsems (sem_ds x) /\
    forall a, as_sems (set_abs x) !! Z.to_nat (sem_num o) = Some a -> who ∉ waiters a) ops ->
  exists r s' x', apply_ops i who ops w s = Some (r, s') /\ state_ok C s' /\ identifier s' = identifier s /\ outbox s' = outbox s /\
    sem_list s' = <[i := x']> (sem_list s) /\
    set_abs x' = with_as_sems (fst (a_ops (check_perm (sem_perm (sem_ds x)) who 146) who ops w (as_sems (set_abs x)))) (set_abs x) /\
    r = snd (a_ops (check_perm (sem_perm (sem_ds x)) who 146) who ops w (as_sems (set_abs x))).
Proof.
  intros HwC. induction ops as [|o ops IH]; intros w s x Hs Hx Hd Hops; cbn [apply_ops].
  { exists (OK, w), s, x. split_and!; [done|done|done|done|by rewrite list_insert_id|by destruct x|done]. }
  apply Forall_cons in Hops as [(Hop & Hlt & Hw) Hops]. cbn [dup_num] in Hd. apply orb_false_iff in Hd as [Hd1 Hd].
  pose proof (state_lookup C s i x Hs Hx) as Hok. assert (0 <= sem_num o < sem_nsems (sem_ds x)) as Hn by (destruct Hop; lia).
  destruct (sem_there C x (sem_num o) Hok Hn) as (y & Hy & Hyok & Ea).
  destruct (apply_op_run i who o s x y Hx Hy Hyok Hop HwC (Hw _ Ea)) as (r & s1 & y' & E & (El & Ei & Eo) & (Hy'ok & v & Ev & Er)).
  rewrite (bind_run _ _ _ _ _ E), Er. cbn [a_ops]. rewrite Ea, Ev. cbn [fst snd].
  destruct (sem_put C x (sem_num o) y' Hok Hn Hy'ok) as [Hx' Ex]. set (x1 := with_sems _ x) in *.
  assert (state_ok C s1) as Hs1 by (unfold state_ok; rewrite El; by apply put_ok).
  destruct v as [wait|]; cbn [fmap option_fmap option_map]; [|by eexists _, s1, x1; split_and!].
  assert (sem_list s1 !! i = Some x1) as Hx1 by (rewrite El; apply list_lookup_insert_eq; by eapply lookup_lt_Some).
  destruct (IH (w || wait) s1 x1 Hs1 Hx1 Hd) as (r2 & s2 & x2 & E2 & Hs2 & Ei2 & Eo2 & El2 & Ex2 & Er2).
  - rewrite Forall_forall in Hops |- *. intros o' Ho'. destruct (Hops o' Ho') as (Hop' & Hlt' & Hw'). split_and!; [done|done|].
    intros a. rewrite Ex. simpl. rewrite list_lookup_insert_ne; [apply Hw'|]. intros En.
    assert (existsb (fun y => sem_num o =? sem_num y) ops = true); [|congruence]. apply existsb_exists. exists o'. split; [by apply list_elem_of_In|].
    destruct Hop, Hop'. apply Z.eqb_eq. lia.
  - exists r2, s2, x2. rewrite Ex in Ex2, Er2. split_and!; [done|done|congruence|congruence| |exact Ex2|exact Er2]. by rewrite El2, El, list_insert_insert_eq.
Qed.

Lemma any_blocks_spec x ops : set_ok C x -> Forall (fun o => op_ok o /\ sem_num o < sem_nsems (sem_ds x)) ops ->
  any_blocks (sems x) ops = Some (existsb (a_blocks (as_sems (set_abs x))) ops).
Proof.
  intros Hx. induction ops as [|o ops IH]; intros Hops; [done|]. apply Forall_cons in Hops as [[[Hn _] Hlt] Hops]. cbn [any_blocks existsb].
  destruct (sem_there C x (sem_num o) Hx ltac:(lia)) as (y & Hy & _ & Ea). unfold would_block, a_blocks at 1. rewrite Hy, Ea. simpl.
  destruct (isset _ _ && _); [done|]. simpl. by apply IH.
Qed.

Lemma semop_sim who id nsops ops s : state_ok C s -> request_ok (Semop id nsops ops) -> who ∈ C -> idle who (state_abs s) ->
  simr C (semop_result who id nsops ops) s (let r := a_semop who id nsops ops (state_abs s) in Some (r.1, [], r.2)).
Proof.
  intros Hs Hreq HwC Hidle. unfold semop_result. apply (simr_run C _ _ s (sem_list s) s); [done|done|]. unfold a_semop.
  pose proof (find_id_spec (sem_list s) id) as Hf. cbn [a_sets state_abs]. destruct (sem_find_id (sem_list s) id) as [i|]; [|rewrite Hf; by apply simr_ret].
  destruct Hf as (x & Hx & ->). apply (the_set_sim C i x); [done|]. pose proof (state_lookup C s i x Hs Hx) as Hok. cbn [as_ds set_abs].
  destruct (nsops =? 0); [by apply simr_ret|]. destruct (SEMOPM <? nsops); [by apply simr_ret|]. destruct (negb _); [by apply simr_ret|].
  apply (alloc_sim C Hmem); [done|]. intros s' Hs' Ea _ El. cbn [negb]. rewrite <- Ea in *. destruct ops as [sops|]; [|by apply simr_ret].
  destruct Hreq as [_ Hops]. destruct (existsb (fun o => _ <=? _) sops) eqn:Ebig; [by apply simr_ret|].
  destruct (dup_num sops) eqn:Ed; [by apply simr_ret|].
  assert (Forall (fun o => op_ok o /\ sem_num o < sem_nsems (sem_ds x)) sops) as Hops'.
  { apply Forall_forall. intros o Ho. split; [by eapply Forall_forall|]. apply Z.nle_gt. intros Hle.
    assert (existsb (fun o => sem_nsems (sem_ds x) <=? sem_num o) sops = true); [|congruence].
    apply existsb_exists. exists o. split; [by apply list_elem_of_In|by apply Z.leb_le]. }
  eapply simr_run; [by rewrite (any_blocks_spec x sops Hok Hops')|done|]. destruct (existsb (a_blocks (as_sems (set_abs x))) sops); [by apply simr_ret|].
  rewrite <- El in *. destruct (apply_ops_run i who sops HwC false s' x Hs' Hx Ed) as (r & s2 & x2 & E & Hs2 & Ei & Eo & El2 & Ex2 & Er).
  { eapply Forall_impl; [exact Hops'|]. intros o [Ho Hlt]. split_and!; [done|done|]. intros a Ha. eapply Hidle; [|by eapply list_elem_of_lookup_2].
    apply (list_elem_of_fmap_2 set_abs). by eapply list_elem_of_lookup_2. }
  unfold simr. rewrite E. split; [done|]. exists []. rewrite app_nil_r. split; [done|]. rewrite Er. unfold state_abs, with_a_sets at 1. simpl.
  by rewrite El2, list_fmap_insert, Ex2, Ei.
Qed.

(** ** Requests *)

(** A process that calls semop is one of [C] and waits nowhere. *)
Definition caller_ok (who : Z) (req : sem_request) (s : astate) : Prop :=
  match req with Semop _ _ _ => who ∈ C /\ idle who s | _ => True end.

Lemma step_sim who now req s : SEMVMX < 2 ^ 16 -> state_ok C s -> request_ok req -> caller_ok who req (state_abs s) ->
  sim C (sem_step who now req) s (a_step who now req (state_abs s)).
Proof.
  intros Hmax Hs Hreq Hwho. destruct req as [key nsems flag|id num cmd|id nsops ops|answers]; cbn [sem_step a_step].
  - apply (simr_send C _ (fun r => Reply who r.1 r.2) s _ (semget_sim C who now key nsems flag s Hs)).
  - apply (simr_send C _ (fun r => Reply who r.1 r.2) s _ (semctl_sim C HC Hmem who now id num cmd s Hs Hmax Hreq)).
  - destruct Hwho as [HwC Hidle]. pose proof (semop_sim who id nsops ops s Hs Hreq HwC Hidle) as Hr. unfold simr in Hr. unfold sim, do_semop.
    destruct (a_semop who id nsops ops (state_abs s)) as [a1 r1]. cbn [fst snd] in *.
    destruct (semop_result who id nsops ops s) as [[r s1]|] eqn:E; [|done]. destruct Hr as (Hs1 & rs & Ho & [= -> <- ->]).
    rewrite (bind_run _ _ _ _ _ E). rewrite app_nil_r in Ho. set (b := (_ || _)%bool).
    assert (exists s2, (if b then send (Reply who r.1 RetNone) else mret tt) s1 = Some (tt, s2) /\ state_ok C s2 /\ state_abs s2 = state_abs s1 /\
      outbox s2 = outbox s ++ (if b then [Reply who r.1 RetNone] else [])) as (s2 & E2 & Hs2 & Ea & Eo).
    { destruct b; eexists; (split; [done|]); (split; [done|]); (split; [done|]); simpl; [by rewrite Ho|by rewrite app_nil_r]. }
    rewrite (bind_run _ _ _ _ _ E2). pose proof (wake_sim C HC s2 Hs2) as Hw. unfold sim in Hw. rewrite Ea in Hw.
    destruct (update_semaphores s2) as [[[] s3]|]; [|by rewrite Hw]. destruct Hw as (Hs3 & rs & Eo3 & ->). split; [done|].
    eexists. split; [|done]. by rewrite Eo3, Eo, <- app_assoc.
  - by apply notify_sim.
Qed.
End Op.
