(* ===== verification/SemMain.v ===== *)
(** Histories of semaphore calls: what the server does is what the
    specification says, exits leave no process behind in a queue, and a queue of
    processes that wait for zero brings the server down once it has been used. *)

From S2P Require Import Prelude Sem SemOk SemSpec SemRefine SemCtl SemOp.
Local Open Scope Z_scope.

(** ** Exits *)

(** A semaphore without a process. *)
Definition without (pt : Z) (a : asem) : asem :=
  ASem (a_val a) (filter (fun w => w_who w ≠ pt) <$> a_zero a) (filter (fun w => w_who w ≠ pt) (a_more a)) (a_pid a).

Definition set_without (pt : Z) (x : aset) : aset := with_as_sems (without pt <$> as_sems x) x.

(** One interrupted call for each queue the process was in. *)
Definition interrupted (pt : Z) (a : asem) : list reply :=
  let told (q : list waiting) := if bool_decide (pt ∈ (w_who <$> q)) then [Reply pt EINTR RetNone] else [] in
  told (default [] (a_zero a)) ++ told (a_more a).

Lemma filter_absent pt (q : list waiting) : pt ∉ (w_who <$> q) -> filter (fun w => w_who w ≠ pt) q = q.
Proof.
  induction q as [|w q IH]; [done|]. rewrite fmap_cons, not_elem_of_cons. intros [Hw Hq].
  rewrite filter_cons, decide_True by congruence. by rewrite IH.
Qed.

Lemma a_leave_filter pt (q : list waiting) : NoDup (w_who <$> q) ->
  a_leave pt q = (filter (fun w => w_who w ≠ pt) q, bool_decide (pt ∈ (w_who <$> q))).
Proof.
  induction q as [|w q IH]; [done|]. rewrite fmap_cons. intros [Hw Hq]%NoDup_cons. specialize (IH Hq).
  unfold a_leave in *. cbn [list_find]. rewrite filter_cons. destruct (decide (w_who w = pt)) as [E|Hne].
  - rewrite decide_True by by apply Z.eqb_eq. rewrite decide_False by auto. rewrite filter_absent by congruence.
    rewrite bool_decide_true; [done|]. rewrite E. left.
  - rewrite decide_False by by rewrite Z.eqb_eq. rewrite decide_True by done.
    rewrite (bool_decide_ext (pt ∈ w_who w :: (w_who <$> q)) (pt ∈ (w_who <$> q))) by (rewrite elem_of_cons; naive_solver).
    destruct (list_find _ q) as [[k y]|]; simpl in *; injection IH as E1 E2; by rewrite <- E1, <- E2.
Qed.

(** The queues of a semaphore have no process twice. *)
Definition distinct (a : asem) : Prop := NoDup (w_who <$> default [] (a_zero a)) /\ NoDup (w_who <$> a_more a).

Lemma a_remove_filter pt a : distinct a -> a_remove pt a = (without pt a, interrupted pt a).
Proof.
  intros [Hz Hn]. unfold a_remove, without, interrupted. rewrite (a_leave_filter pt _ Hz), (a_leave_filter pt _ Hn). simpl.
  f_equal. by destruct (a_zero a).
Qed.

Lemma without_gone pt a : pt ∉ waiters (without pt a).
Proof.
  unfold waiters. intros (w & -> & Hw)%list_elem_of_fmap. apply elem_of_app in Hw. simpl in Hw.
  destruct Hw as [Hw|Hw]; [destruct (a_zero a); simpl in Hw; [|by apply elem_of_nil in Hw]|]; apply list_elem_of_filter in Hw; naive_solver.
Qed.

Lemma distinct_abs C y : sem_ok C y -> distinct (sem_abs y).
Proof.
  intros [_ Hz Hn _]. split; [|apply Hn]. simpl. destruct (zlist y); simpl; [apply Hz|apply NoDup_nil_2].
Qed.

Lemma a_each_total h (g : asem -> asem) (m : asem -> list reply) l :
  (forall a, a ∈ l -> h a = Some (g a, m a)) -> a_each h l = Some (g <$> l, l ≫= m).
Proof.
  induction l as [|a l IH]; intros Hh; [done|]. cbn [a_each]. rewrite Hh by left. simpl. rewrite IH; [done|]. intros b Hb. apply Hh. by right.
Qed.

Lemma a_each_set_total h (g : asem -> asem) (m : asem -> list reply) l :
  (forall x a, x ∈ l -> a ∈ as_sems x -> h a = Some (g a, m a)) ->
  a_each_set h l = Some ((fun x => with_as_sems (g <$> as_sems x) x) <$> l, l ≫= fun x => as_sems x ≫= m).
Proof.
  induction l as [|x l IH]; intros Hh; [done|]. cbn [a_each_set]. rewrite (a_each_total h g m) by (intros a; apply Hh; left). simpl.
  rewrite IH; [done|]. intros y a Hy. apply Hh. by right.
Qed.

Section Main.
Context `{SemHeader, SemEnv}.

Lemma state_distinct C s x a : state_ok C s -> x ∈ a_sets (state_abs s) -> a ∈ as_sems x -> distinct a.
Proof.
  intros Hs (y & -> & Hy)%list_elem_of_fmap (z & -> & Hz)%list_elem_of_fmap. apply (distinct_abs C). unfold state_ok in Hs.
  rewrite Forall_forall in Hs. pose proof (st_sems _ _ (Hs _ Hy)) as Hsems. rewrite Forall_forall in Hsems. apply Hsems.
  eapply elem_of_sublist; [exact Hz|apply sublist_take].
Qed.

(** ** Histories *)

(** Requests with their senders and times, one after the other. *)
Fixpoint sem_run (reqs : list (Z * Z * sem_request)) : ST sem_state unit :=
  match reqs with
  | [] => mret tt
  | (who, now, req) :: reqs' => sem_step who now req;; sem_run reqs'
  end.

Fixpoint a_run (reqs : list (Z * Z * sem_request)) (s : astate) : option (astate * list reply) :=
  match reqs with
  | [] => Some (s, [])
  | (who, now, req) :: reqs' => x ← a_step who now req s; y ← a_run reqs' x.1; Some (y.1, x.2 ++ y.2)
  end.

(** The requests are well formed, and no process calls semop while it waits. *)
Fixpoint polite (C : gset Z) (reqs : list (Z * Z * sem_request)) (s : astate) : Prop :=
  match reqs with
  | [] => True
  | (who, now, req) :: reqs' =>
      request_ok req /\ caller_ok C who req s /\ match a_step who now req s with Some (s', _) => polite C reqs' s' | None => True end
  end.

Lemma run_sim C (HC : Z.of_nat (size C) < 2 ^ 16) (Hmem : forall n, alloc_ok n = true) (Hmax : SEMVMX < 2 ^ 16) reqs :
  forall s, state_ok C s -> polite C reqs (state_abs s) -> sim C (sem_run reqs) s (a_run reqs (state_abs s)).
Proof.
  unfold sim. induction reqs as [|[[who now] req] reqs IH]; intros s Hs Hp; cbn [sem_run a_run].
  { split; [done|]. exists []. by rewrite app_nil_r. }
  destruct Hp as (Hreq & Hwho & Hp). pose proof (step_sim C HC Hmem who now req s Hmax Hs Hreq Hwho) as Hst. unfold sim in Hst.
  destruct (sem_step who now req s) as [[[] s1]|] eqn:E; [|by rewrite (bind_none _ _ _ E), Hst].
  destruct Hst as (Hs1 & rs & Ho & Ea). rewrite (bind_run _ _ _ _ _ E), Ea. cbn [mbind option_bind fst snd]. rewrite Ea in Hp.
  specialize (IH s1 Hs1 Hp). destruct (sem_run reqs s1) as [[[] s2]|]; [|by rewrite IH]. destruct IH as (Hs2 & rs2 & Ho2 & ->).
  split; [done|]. exists (rs ++ rs2). by rewrite Ho2, Ho, app_assoc.
Qed.


(** ** A queue for zero that has been used *)

Lemma each_sem_none f y k : f y = None -> forall n l, (k < n)%nat -> l !! k = Some y -> each_sem f n l = None.
Proof.
  intros Hf. induction k as [|k IH]; intros [|n] [|z l] Hk Hl; try done; try lia; cbn [each_sem]; simpl in Hl.
  - injection Hl as ->. by rewrite Hf.
  - destruct (f z); simpl; [|done]. by rewrite (IH n l ltac:(lia) Hl).
Qed.

Lemma each_set_none f x : each_of f x = None -> forall l i, l !! i = Some x -> each_set f l = None.
Proof.
  intros Hf. induction l as [|z l IH]; intros [|i] Hl; try done; cbn [each_set]; simpl in Hl.
  - injection Hl as ->. by rewrite Hf.
  - destruct (each_of f z); simpl; [|done]. by rewrite (IH i Hl).
Qed.

(** A semaphore whose block for processes that wait for zero is there and empty. *)
Definition stale (y : semaphore) : Prop := semval y = 0 /\ semzcnt y = 0 /\ zlist y <> None.

Lemma update_stale y : stale y -> update_semaphore y = None.
Proof.
  intros (Hv & Hz & Hl). unfold update_semaphore, update_zero. destruct (zlist y) as [b|]; [|done]. rewrite Hv, Hz. simpl. by destruct b.
Qed.

(** C30: once the last process that waited for zero at a semaphore has been woken
    up, the block of the queue stays and the value is zero; from then on a call
    of semop with an identifier that names no set, by any process, makes
    update_semaphores move memory by a negative size. *)
Theorem zero_wait_crashes who now id nsops ops s i x k y :
  sem_list s !! i = Some x -> (k < Z.to_nat (sem_nsems (sem_ds x)))%nat -> sems x !! k = Some y -> stale y ->
  sem_find_id (sem_list s) id = None -> sem_step who now (Semop id nsops ops) s = None.
Proof.
  intros Hx Hk Hy Hst Hid. cbn [sem_step]. unfold do_semop.
  assert (semop_result who id nsops ops s = Some ((EINVAL, false), s)) as E.
  { unfold semop_result. rewrite (bind_run _ _ s (sem_list s) s eq_refl). by rewrite Hid. }
  rewrite (bind_run _ _ _ _ _ E). cbn [fst snd]. rewrite bool_decide_false by done. cbn [negb orb].
  rewrite (bind_run _ _ _ tt (with_outbox (outbox s ++ [Reply who EINVAL RetNone]) s) eq_refl). unfold update_semaphores, all_sets.
  set (s1 := with_outbox _ s). rewrite (bind_run (gets sem_list) _ s1 (sem_list s) s1 eq_refl). apply bind_none. unfold opt. rewrite (each_set_none update_semaphore x) with (i := i); [done| |done].
  unfold each_of. by rewrite (each_sem_none _ y k (update_stale y Hst)).
Qed.

(** ** Exits *)

End Main.

(** ** A small system *)

#[local] Instance small_header : SemHeader :=
  {| IPC_PRIVATE := 0; IPC_CREAT := 512; IPC_EXCL := 1024; IPC_NOWAIT := 2048; SEMMSL := 3; SEMMNI := 2; SEMOPM := 5; SEMVMX := 32767 |}.

#[local] Instance small_env : SemEnv :=
  {| getnuid := fun _ => 0; getngid := fun _ => 0; getnpid := fun e => e; alloc_ok := fun _ => true; junk := Waiting 0 0 |}.

Definition no_sets : sem_state := SemState [] 100 [] 0.

(** Process 10 makes a set of one semaphore and raises it, process 11 waits for
    zero, and process 10 lowers the value again. *)
Definition wait_for_zero : list (Z * Z * sem_request) :=
  [(10, 5, Semget 1 1 950);
   (10, 6, Semop 100 1 (Some [Sembuf 0 1 0]));
   (11, 7, Semop 100 1 (Some [Sembuf 0 0 0]));
   (10, 8, Semop 100 1 (Some [Sembuf 0 (-1) 0]))].

Definition small_procs : gset Z := {[10; 11; 12]}.

Lemma no_sets_ok : state_ok small_procs no_sets.
Proof. apply Forall_nil_2. Qed.

Lemma small_size : Z.of_nat (size small_procs) < 2 ^ 16.
Proof. by vm_compute. Qed.

Lemma idle_all who s : Forall (fun x => Forall (fun a => who ∉ waiters a) (as_sems x)) (a_sets s) -> idle who s.
Proof. intros Hs x a Hx Ha. rewrite Forall_forall in Hs. specialize (Hs x Hx). rewrite Forall_forall in Hs. by apply Hs. Qed.

Ltac well_formed := split; [done|]; repeat constructor; simpl; lia.
Ltac evaluates := refine (bool_decide_unpack _ _); vm_compute; exact I.
Ltac waits_nowhere := split; [evaluates|apply idle_all; evaluates].

Lemma wait_for_zero_polite : polite small_procs wait_for_zero (state_abs no_sets).
Proof.
  cbn [wait_for_zero polite]. split; [done|]. split; [done|].
  destruct (a_step 10 5 _ _) as [[s1 r1]|] eqn:E1; [|done]. vm_compute in E1. injection E1 as <- <-. split; [well_formed|]. split; [waits_nowhere|].
  destruct (a_step 10 6 _ _) as [[s2 r2]|] eqn:E2; [|done]. vm_compute in E2. injection E2 as <- <-. split; [well_formed|]. split; [waits_nowhere|].
  destruct (a_step 11 7 _ _) as [[s3 r3]|] eqn:E3; [|done]. vm_compute in E3. injection E3 as <- <-. split; [well_formed|]. split; [waits_nowhere|].
  by destruct (a_step 10 8 _ _) as [[s4 r4]|].
Qed.


(** After it the server does not survive a call for set 999. *)
Lemma zero_wait_crashes_witness :
  exists s, sem_run wait_for_zero no_sets = Some (tt, s) /\ sem_step 12 9 (Semop 999 1 None) s = None.
Proof.
  eexists. split; [vm_compute; reflexivity|]. eapply (zero_wait_crashes 12 9 999 1 None _ 0 _ 0); [reflexivity|vm_compute; lia|reflexivity|by repeat split|reflexivity].
Defined.

Lemma waiting_polite : polite small_procs (take 3 wait_for_zero) (state_abs no_sets).
Proof.
  pose proof wait_for_zero_polite as Hp. cbn [wait_for_zero polite take] in *. destruct Hp as (? & ? & Hp). split; [done|]. split; [done|].
  destruct (a_step 10 5 _ _) as [[]|]; [|done]. destruct Hp as (? & ? & Hp). split; [done|]. split; [done|].
  destruct (a_step 10 6 _ _) as [[]|]; [|done]. destruct Hp as (? & ? & Hp). split; [done|]. split; [done|]. by destruct (a_step 11 7 _ _) as [[]|].
Qed.


(** ** Runs in which the calls do not do what they are for *)

(** The semaphores of the first set. *)
Definition first_set (s : sem_state) : list asem := default [] (as_sems <$> head (a_sets (state_abs s))).

(** Two processes wait for a decrement by one and the value becomes two: one of
    them stays asleep, with the value one. *)
Lemma one_of_two_wakes :
  exists s, sem_run [(10, 5, Semget 1 1 950); (11, 6, Semop 100 1 (Some [Sembuf 0 (-1) 0])); (12, 7, Semop 100 1 (Some [Sembuf 0 (-1) 0]));
                     (10, 8, Semop 100 1 (Some [Sembuf 0 2 0]))] no_sets = Some (tt, s) /\
    first_set s = [ASem 1 None [Waiting 12 1] 10] /\ last (outbox s) = Some (Reply 11 OK RetNone).
Proof. eexists. split; [vm_compute; reflexivity|]. by split. Qed.

(** Values go past SEMVMX and then wrap. *)
Lemma value_wraps :
  exists s, sem_run [(10, 5, Semget 1 1 950); (10, 6, Semop 100 1 (Some [Sembuf 0 32767 0])); (10, 7, Semop 100 1 (Some [Sembuf 0 32767 0]));
                     (10, 8, Semop 100 1 (Some [Sembuf 0 2 0]))] no_sets = Some (tt, s) /\ first_set s = [ASem 0 None [] 10].
Proof. eexists. split; [vm_compute; reflexivity|done]. Qed.

(** A call with two decrements returns when one of them is possible; the other
    stays in its queue and takes effect later, with a second answer. *)
Lemma half_a_call :
  exists s, sem_run [(10, 5, Semget 1 2 950); (11, 6, Semop 100 2 (Some [Sembuf 0 (-1) 0; Sembuf 1 (-1) 0])); (10, 7, Semop 100 1 (Some [Sembuf 0 1 0]))]
                    no_sets = Some (tt, s) /\
    first_set s = [ASem 0 None [] 10; ASem 0 None [Waiting 11 1] 11] /\ last (outbox s) = Some (Reply 11 OK RetNone).
Proof. eexists. split; [vm_compute; reflexivity|]. by split. Qed.
